(* ===== verification/_CoqProject ===== *)
-Q . S2P
Prelude.v
Fsm.v
Timer.v
Ipc.v
Thread.v
Wakelock.v
CppWakelock.v
Watchdog.v
Escalation.v
MdmCli.v
Control.v
ControlTheory.v
ControlProps.v
CtrlWatchdog.v
CtrlApi.v
CtrlHal.v
Wire.v
Names.v
Cla.v
ClaClients.v
ClaHeld.v
ClaTheory.v
ClaProps.v
CppClients.v
ClaCtrl.v
HalSofia.v
HalSofiaTheory.v
HalSofiaProps.v
CtrlSofia.v
Daemons.v
DaemonsTheory.v
HalPcie.v
HalPcieTheory.v
HalPcieProps.v
MdmcliClient.v
MdmcliClientProps.v
Socket.v
Factory.v
FactoryTheory.v
FactoryProps.v
FwUpload.v
FwUploadProps.v
Elector.v
At.v
Custo.v
File.v
Logs.v
Host.v
Archive.v
Ifwd.v
PcieInit.v
Startup.v
Stubs.v
SofiaUpload.v
SofiaSecvm.v
SofiaDump.v
Bridge.v
BridgeTheory.v
BridgeLib.v
BridgeProps.v
