(* ===== verification/Prelude.v ===== *)
(** * Cellular Resource Manager (CRM): a verification development

    CRM is the process that owns the modem of a phone.  It is a set of C
    plugins that run in threads of one process and talk through queues:

    - clients (telephony daemons) connect to the client abstraction, CLA, over
      a local socket and a binary protocol; they acquire and release the modem,
      ask for restarts and acknowledge the notifications they are sent;
    - CLA (plugins/client_abstraction) counts them and turns what they ask for
      into start, stop and restart requests to CTRL, one at a time;
    - CTRL (plugins/control) is the state machine of the modem's life cycle: it
      packages, flashes and boots the firmware, collects core dumps, and asks the
      escalation plugin what to do about a failure; a watchdog thread checks
      that CTRL leaves its transient states and still answers;
    - the HAL drives the hardware, and the upload, customization and dump
      plugins do the long operations; they report to CTRL through its queue;
    - libs/utils gives all of them the state machine engine, the queues, the
      timers; libs/wakelock keeps the platform awake while needed.

    ** Files

    - Prelude.v (this file): C integers, the monad [M] of stateful code that
      emits actions and may abort, its weakest precondition [wp], loops, and
      the automation of the symbolic execution.
    - Fsm.v: libs/utils/src/fsm.c.  [notify_event] against the contract written
      in inc/utils/fsm.h ([fsm_step]), C1.
    - Timer.v: libs/utils/src/time.c.  [crm_time_add_ms] and
      [crm_time_get_remain_ms], C2; a deadline left unnormalised.
    - Ipc.v: libs/utils/src/ipc.c.  The ring buffer of the thread queue refines
      an ideal bounded FIFO; the process pipe round trips.
    - Thread.v: libs/utils/src/thread.c: a thread and its parent see two independent
      bounded FIFOs (C3).
    - Wakelock.v: libs/wakelock/java_bridge/src/wakelock.c.  The counters, as an
      instance of the class [WakelockLaws] its clients are proved against, and
      the thread as a step relation (C4).
    - CppWakelock.v: libs/wakelock/cpp_bridge/src, the wakelock over Android's power
      manager: the multiplexer and the service as one more instance of
      [WakelockLaws]; the users, the connect threads and the deaths of the power manager
      interleaved: the invariant (C18), the wakelock settles on what the
      users want (C5), what a death loses.  CppClients.v: the watchdog
      and CLA over it.
    - Watchdog.v: plugins/control/src/watchdog.h and watchdog.c.  The 64-bit
      message, the message handler against the protocol documented in the
      header (C6), the expirations (C7).
    - Escalation.v: plugins/escalation/src/escalation.c.  The exact sequence of
      recovery steps (C8), its restart after a stable period,
      out of service.
    - MdmCli.v: the constants of libmdmcli, whose header is not in the
      repository, as a class with the laws the code relies on and an instance.
    - Control.v: plugins/control/src/fsm_ctrl.c, common.h, init.c: every
      operation of the machine, the table of 17 events and 8 states,
      [state_trans], and the event loop.  ControlTheory.v: the symbolic
      execution of every operation and the invariant of the machine through
      every cell of the table.  ControlProps.v: one step (C9), the requests
      answered over a run (C10), the boot in any order of events (C11),
      out of service, and messages that are not handled as meant ([ctrl_mishandled_messages]).
    - CtrlWatchdog.v: CTRL and the watchdog composed by a step relation, with each
      send and queues that refuse a ninth message; unless one is refused, no
      assertion of the watchdog's handler can fail (C12).
    - CtrlApi.v: plugins/control/src/request.c, notify.c, utils.c: the calls of
      the other threads queue messages that satisfy the hypotheses of CTRL's
      theorems ([api_queues_well_formed_message]); what happens when the queue is full.
    - CtrlHal.v: what CTRL's [pre_op] asks of the reports of a HAL, the interface that
      the theorems of both HALs discharge.
    - Wire.v: plugins/mdmcli_wire/src/mdmcli_wire.c: the serialization of the
      clients' messages; round trip (C13), robustness to arbitrary bytes (C14),
      an ignored error.
    - Names.v: libs/utils/src/string_helpers.c: names used in logs, which abort
      on a value they do not know.
    - Cla.v: plugins/client_abstraction/src/client_abstraction.c, whole.
      ClaClients.v: the in-place compaction of the client arrays (C15).
      ClaHeld.v: CLA keeps the wakelock through the handling of acknowledgements.
      ClaTheory.v: the invariant of CLA through every operation and the main
      loop.  ClaProps.v: over any run, memory safety and exact counters (C16),
      the wakelock (C17), one request to CTRL at a time; concrete runs in
      which CLA aborts or stalls ([cla_failing_runs]).
    - ClaCtrl.v: CLA and CTRL composed through their two queues, the calls of each
      run on the ring buffer of the other: their requests never overlap
      (C19); runs of both that end badly ([composed_failing_runs]).
    - HalSofia.v: plugins/hal/sofia/src/fsm_hal.c, modem.c, init.c and the helpers
      rpcd.c, ping.c, request.c of plugins/hal/common/src: the HAL of SoFIA
      platforms.  HalSofiaTheory.v: every cell of its table and its loop.
      HalSofiaProps.v: the timer, the ping thread and the RPC daemon follow the
      state (C20), CTRL gets its answers (C21), CTRL's state machine accepts
      the reports (C22), the ping loop ends.
    - CtrlSofia.v: CTRL on that HAL with their queues, the driver and the plugins, every
      interleaving of a list of scenarios in one environment explored by a verified
      explorer of states ([sofia_system_settles]); runs that abort.
    - Daemons.v: plugins/hal/common/src/daemons.c: the Android services a HAL
      starts and their sockets.  The context is reached through the class
      [DaemonStore] with its laws, so that the theory does not depend on the
      HAL that embeds it; the callback is an argument with a contract.
      DaemonsTheory.v: every descriptor is accounted for (C23).
    - HalPcie.v: plugins/hal/pcie/src/fsm_hal.c, modem.c, nvm_manager.c: the HAL of PCIe platforms, an instance of [DaemonStore].
      HalPcieTheory.v: every cell of its table and its loop.  HalPcieProps.v:
      its bookkeeping state by state and the closed list of its aborts
      (C24), its reports accepted by CTRL
      (C25), a boot, runs that abort ([pcie_failing_runs]).
    - MdmcliClient.v: mdmcli/src/mdmcli.c, the library of the clients: its calls,
      its thread and their interleaving, from the creation of the thread by
      [crm_connect] on.  MdmcliClientProps.v: the server is told
      what the application asked for (C26), the events of CLA are those it
      dispatches (C27), its failures ([client_library_failures]).
    - Socket.v: libs/utils/src/socket.c.  The transfers end, are exact, and read
      what Wire.v reads in one step (C30).
    - Factory.v: libs/utils/src/process_factory.c: the process that creates the
      others.  FactoryTheory.v: the table of children it implements and the
      relation kept by every control message.  FactoryProps.v: CRM, the factory
      and the children, which may die of signals, as a step relation (C28).
    - FwUpload.v: the upload and dump plugins of PCIe platforms
      (plugins/fw_upload/pcie, plugins/dump/pcie), clients of the factory.
      FwUploadProps.v: the parameters of the processes arrive (C29); runs that
      make the factory kill CRM.
    - Elector.v: plugins/fw_elector/src/elector.c, with parts of property.c and
      file.c: customization is asked for exactly when needed (C31).
    - At.v: libs/utils/src/at.c: the answers of the modem, against a reader of
      lines (C32).
    - Custo.v: plugins/customization/src/customization.c, on top of At.v: the files
      reach the modem whole and in order (C33).
    - File.v: libs/utils/src/file.c: values and copies, what they write and close.
    - Logs.v: libs/utils/src/logs.c: the tag of a log line fills its buffer and tells
      module and instance apart.  Host.v: libs/host_only/utils/src/host_utils.c and the
      host variant of property.c: properties round trip, servers and clients meet.
    - Archive.v: libs/ifwd/src/archive.c: the tar archive of a core dump can be read
      back, up to a block of zeros (C34).  Ifwd.v: libs/ifwd/src/crm_ifwd.c,
      the wrapper of the download library: the parts of a firmware are written in
      order (C35).
    - PcieInit.v: plugins/hal/pcie/src/init.c: the configuration, and the calibration
      of the modem, which a restoration gives back as it was backed up
      ([calibration_roundtrip]).
    - Startup.v: main/src/crm_main.c, the rest of plugins/control/src/init.c,
      libs/utils/src/plugins.c and debug.c: the command line, the libraries, the
      services of CTRL with their order of creation and disposal (C36); the
      process ends with everything closed ([main_ends]).
    - Stubs.v: plugins/hal/stub and plugins/fw_upload/stub, composed with CTRL, which
      they cannot start ([stub_hal_never_starts]).
    - SofiaUpload.v: plugins/fw_upload/sofia_vmodem, its thread and its copy: a
      four-state machine (C37); composed with CTRL at the end.
      SofiaSecvm.v: plugins/fw_upload/sofia_secvm.
    - SofiaDump.v: plugins/dump/sofia: a session collects exactly what the device
      sends (C38).
    - Bridge.v: bridge/c/daemon/src/daemon.c, the daemon between the C clients and
      the Java application.  BridgeTheory.v: its specification, its invariant and
      the simulation kept by every handler.  BridgeLib.v:
      bridge/c/lib/src/telbridgelib.c, the library of its clients, and what the
      Java application, which decodes UTF-8, reads.  BridgeProps.v: the daemon
      refines its specification (C39), a call whose bytes are ASCII
      reaches the application as it was made (C40) and others are
      misread, runs in which it stops.
    ** How the code is modelled

    A function that mutates a context is a Rocq function in [M S O A]: from the
    context it gives either a result, the new context and the actions emitted
    (calls to other plugins, writes to sockets, logs that matter), or an abort
    with its reason.  [Abort] stands for the end of the process by [ASSERT] or
    for undefined behaviour of C such as an access out of an array: both are
    values of the model, so theorems say when they are impossible.  Contexts are
    records with the fields of the C structures.  [int] and the 64-bit scalars
    are integers whose conversions are written out; arrays keep their C length.

    Calls to code that is not part of the model (the clock, the elector, the
    Java bridge, the sockets' results) are read from arguments: a record [env],
    a function giving the n-th clock reading, a function telling whether the
    n-th send works.  The theorems quantify over them.

    The loops of the threads are driven by the finite list of what [poll]
    reports; there is no fuel: a run over a list is a prefix of the thread's
    life, and the properties of runs hold for every such list.  Inner loops are
    structural (over a batch of messages, an array, the levels of the
    escalation); the reboot loop of CTRL runs over the list of the results of
    its attempts.  The readers of the bridge's format strings and parameters have
    the length of their input as fuel: each turn uses at least one byte.  The
    explorer of CtrlSofia.v has a bound of 100 steps, which no run of its scenarios
    reaches (that is part of the theorem).  The
    batch of a queue read by a thread is the list of the
    messages it contains.

    ** What is not modelled

    The configuration library (tcs), the dynamic linker and the vendor's download
    library, which are parameters; the expansion of formats and the output of logs;
    process and thread creation; sockets and pipes other than as byte lists; the test
    programs.  A failure of [poll] is modelled where the code has a branch for it, that
    of a lock is not: the code asserts that it does not happen.  A write to a closed peer
    is a failed call: SIGPIPE is not modelled.  In HalPcie.v the effects of the
    configuration thread are placed at the receipt of its message, and in SofiaUpload.v
    the end of the copy and its report are one step.  Messages of one queue are handled in the order they were sent,
    and the interleaving of the threads is explicit where a theorem depends on
    it (Wakelock.v, CppWakelock.v, CtrlWatchdog.v, ClaCtrl.v, CtrlSofia.v,
    MdmcliClient.v, FactoryProps.v).  What is left of the sources besides comments and
    declarations is the functions that only free a context or open a netlink or debug
    socket, and the stubs of the vendor's multiplexer.

    ** Further components

    None is left whose code is in the repository.  A composition of CTRL with the HAL of
    PCIe platforms, as CtrlSofia.v has for SoFIA, would rest on the netlink events with
    which the modem's drivers answer the ioctls, which no source or document here gives. *)

From Stdlib Require Import ZArith Lia.
From stdpp Require Import base tactics list list_numbers strings option.

#[local] Set Default Proof Using "Type".

Open Scope Z_scope.

(** ** Machine integers *)

Definition INT_MAX : Z := 2147483647.
Definition INT_MIN : Z := -2147483648.

(** Conversion of an integer to [uint32_t]. *)
Definition u32 (z : Z) : Z := z mod 2 ^ 32.

(** Conversion of an integer to a 32-bit [int] (two's complement). *)
Definition i32 (z : Z) : Z := (z + 2 ^ 31) mod 2 ^ 32 - 2 ^ 31.

Definition is_int (z : Z) : Prop := INT_MIN <= z <= INT_MAX.

Lemma u32_range z : 0 <= u32 z < 2 ^ 32.
Proof. apply Z.mod_pos_bound. lia. Qed.

Lemma u32_small z : 0 <= z < 2 ^ 32 -> u32 z = z.
Proof. apply Z.mod_small. Qed.

Lemma i32_small z : is_int z -> i32 z = z.
Proof.
  unfold is_int, INT_MIN, INT_MAX, i32. intros H.
  rewrite Z.mod_small by lia. lia.
Qed.

Lemma i32_u32 z : i32 (u32 z) = i32 z.
Proof.
  unfold i32, u32. f_equal. rewrite Zplus_mod_idemp_l. done.
Qed.

Lemma i32_range z : is_int (i32 z).
Proof.
  unfold is_int, INT_MIN, INT_MAX, i32.
  pose proof (Z.mod_pos_bound (z + 2 ^ 31) (2 ^ 32) ltac:(lia)). lia.
Qed.

(** A shifted value and one below it do not overlap. *)
Lemma lor_low a b n : 0 <= n -> 0 <= b < 2 ^ n -> Z.lor (a * 2 ^ n) b = a * 2 ^ n + b.
Proof.
  intros Hn Hb. symmetry. rewrite <-Z.add_lor_land.
  assert (Z.land (a * 2 ^ n) b = 0) as ->; [|lia].
  apply Z.bits_inj'. intros i Hi'. rewrite Z.land_spec, Z.bits_0.
  destruct (Z.ltb_spec i n).
  - by rewrite Z.mul_pow2_bits_low.
  - assert (b = b mod 2 ^ n) as -> by (symmetry; apply Z.mod_small; lia).
    rewrite Z.mod_pow2_bits_high by lia. apply andb_false_r.
Qed.

(** ** Abortable, stateful, message-emitting computations

    A C function of the program reads and updates the context it is given,
    calls other modules (recorded as a list of emitted actions [O]) and may
    [abort()] through [ASSERT] / [DASSERT] (inc/utils/common.h). *)

Inductive abort_reason : Type :=
| AssertFail (exp : string)   (** [ASSERT(exp)] with [exp] false *)
| DAssertFail (log : string)  (** [DASSERT(0, log)] *)
| Undefined (what : string)   (** behaviour the C standard leaves undefined *)
| Stuck (what : string)       (** a loop that has not left within the given environment *)
| Exited (code : Z).          (** [exit(code)] *)

Inductive outcome (S O A : Type) : Type :=
| Ok (a : A) (s : S) (o : list O)
| Abort (r : abort_reason) (o : list O).
Arguments Ok {S O A} a s o.
Arguments Abort {S O A} r o.

Definition M (S O A : Type) : Type := S -> outcome S O A.

Section monad.
Context {S O : Type}.

Definition ret {A} (a : A) : M S O A := fun s => Ok a s [].

Definition bind {A B} (m : M S O A) (k : A -> M S O B) : M S O B := fun s =>
  match m s with
  | Ok a s' o =>
      match k a s' with
      | Ok b s'' o' => Ok b s'' (o ++ o')
      | Abort r o' => Abort r (o ++ o')
      end
  | Abort r o => Abort r o
  end.

Definition get : M S O S := fun s => Ok s s [].
Definition gets {A} (f : S -> A) : M S O A := fun s => Ok (f s) s [].
Definition modify (f : S -> S) : M S O unit := fun s => Ok tt (f s) [].
Definition emit (x : O) : M S O unit := fun s => Ok tt s [x].
Definition fail {A} (r : abort_reason) : M S O A := fun _ => Abort r [].

(** inc/utils/common.h: [ASSERT] and [DASSERT]. *)
Definition ASSERT (exp : string) (b : bool) : M S O unit :=
  if b then ret tt else fail (AssertFail exp).
Definition DASSERT (log : string) (b : bool) : M S O unit :=
  if b then ret tt else fail (DAssertFail log).

Definition when (b : bool) (m : M S O unit) : M S O unit :=
  if b then m else ret tt.

Fixpoint for_each {A} (l : list A) (f : A -> M S O unit) : M S O unit :=
  match l with
  | [] => ret tt
  | x :: l' => bind (f x) (fun _ => for_each l' f)
  end.

(** Weakest precondition: [E] holds of the reason of an abort, [Q] of the
    result, the final state and the emitted actions otherwise. *)
Definition wp {A} (m : M S O A) (s : S) (E : abort_reason -> Prop)
    (Q : A -> S -> list O -> Prop) : Prop :=
  match m s with
  | Ok a s' o => Q a s' o
  | Abort r _ => E r
  end.

End monad.

(** A computation on a component [T] of a larger state, its emissions
    translated by [f]. *)
Definition zoom {S T O P A} (g : S -> T) (p : T -> S -> S) (f : P -> O)
    (m : M T P A) : M S O A := fun s =>
  match m (g s) with
  | Ok a t o => Ok a (p t s) (f <$> o)
  | Abort r o => Abort r (f <$> o)
  end.

#[global] Arguments ret : simpl never.
#[global] Arguments bind : simpl never.
#[global] Arguments get : simpl never.
#[global] Arguments gets : simpl never.
#[global] Arguments modify : simpl never.
#[global] Arguments emit : simpl never.
#[global] Arguments fail : simpl never.
#[global] Arguments ASSERT : simpl never.
#[global] Arguments DASSERT : simpl never.
#[global] Arguments when : simpl never.
#[global] Arguments wp : simpl never.
#[global] Arguments zoom : simpl never.

Declare Scope crm_scope.
Delimit Scope crm_scope with crm.
Notation "'let*' x := m 'in' k" := (bind m (fun x => k))
  (at level 10, x name, m at level 100, k at level 200) : crm_scope.
Notation "m ;; k" := (bind m (fun _ => k))
  (at level 100, k at level 200, right associativity) : crm_scope.

(** Reasons that are acceptable, as exception postconditions. *)
Definition no_abort : abort_reason -> Prop := fun _ => False.
Definition any_abort : abort_reason -> Prop := fun _ => True.

Section wp_rules.
Context {S O : Type}.
Implicit Types (s : S) (E : abort_reason -> Prop).

Lemma wp_mono {A} (m : M S O A) s E E' (Q Q' : A -> S -> list O -> Prop) :
  wp m s E Q ->
  (forall r, E r -> E' r) ->
  (forall a s' o, Q a s' o -> Q' a s' o) ->
  wp m s E' Q'.
Proof. unfold wp. destruct (m s); auto. Qed.

Lemma wp_and {A} (m : M S O A) s E E' (Q Q' : A -> S -> list O -> Prop) :
  wp m s E Q -> wp m s E' Q' -> wp m s E (fun a s' o => Q a s' o /\ Q' a s' o).
Proof. unfold wp. destruct (m s); auto. Qed.

Lemma wp_ret {A} (a : A) s E (Q : A -> S -> list O -> Prop) :
  Q a s [] -> wp (ret a) s E Q.
Proof. done. Qed.

Lemma wp_bind {A B} (m : M S O A) (k : A -> M S O B) s E Q :
  wp m s E (fun a s' o => wp (k a) s' E (fun b s'' o' => Q b s'' (o ++ o'))) ->
  wp (bind m k) s E Q.
Proof.
  unfold wp, bind. destruct (m s) as [a s' o|r o]; [|done].
  destruct (k a s'); done.
Qed.

Lemma wp_get s E (Q : S -> S -> list O -> Prop) : Q s s [] -> wp get s E Q.
Proof. done. Qed.

Lemma wp_gets {A} (f : S -> A) s E (Q : A -> S -> list O -> Prop) :
  Q (f s) s [] -> wp (gets f) s E Q.
Proof. done. Qed.

Lemma wp_modify (f : S -> S) s E (Q : unit -> S -> list O -> Prop) :
  Q tt (f s) [] -> wp (modify f) s E Q.
Proof. done. Qed.

Lemma wp_emit (x : O) s E (Q : unit -> S -> list O -> Prop) :
  Q tt s [x] -> wp (emit x) s E Q.
Proof. done. Qed.

Lemma wp_fail {A} r s E (Q : A -> S -> list O -> Prop) :
  E r -> wp (fail r) s E Q.
Proof. done. Qed.

Lemma wp_ASSERT exp b s E (Q : unit -> S -> list O -> Prop) :
  (b = true -> Q tt s []) -> (b = false -> E (AssertFail exp)) ->
  wp (ASSERT exp b) s E Q.
Proof. destruct b; intros H1 H2; [by apply H1|by apply H2]. Qed.

Lemma wp_DASSERT log b s E (Q : unit -> S -> list O -> Prop) :
  (b = true -> Q tt s []) -> (b = false -> E (DAssertFail log)) ->
  wp (DASSERT log b) s E Q.
Proof. destruct b; intros H1 H2; [by apply H1|by apply H2]. Qed.

Lemma wp_when b (m : M S O unit) s E Q :
  (b = true -> wp m s E Q) -> (b = false -> Q tt s []) ->
  wp (when b m) s E Q.
Proof. destruct b; intros H1 H2; [by apply H1|by apply H2]. Qed.

Lemma wp_zoom {T P A} (g : S -> T) (p : T -> S -> S) (f : P -> O) (m : M T P A) s E Q :
  wp m (g s) E (fun a t o => Q a (p t s) (f <$> o)) ->
  wp (zoom g p f m) s E Q.
Proof. unfold wp, zoom. destruct (m (g s)); done. Qed.

(** The invariant rule of a [for] loop whose body emits nothing relevant to
    the invariant. *)
Lemma wp_for_each {A} (l : list A) (f : A -> M S O unit) (I : S -> Prop) s E Q :
  I s ->
  (forall x s', x ∈ l -> I s' -> wp (f x) s' E (fun _ s'' _ => I s'')) ->
  (forall s' o, I s' -> Q tt s' o) ->
  wp (for_each l f) s E Q.
Proof.
  revert s Q. induction l as [|x l IH]; intros s Q Hs Hf HQ; cbn; [by apply wp_ret, HQ|].
  apply wp_bind. eapply wp_mono; [apply Hf; [left|done]|done|].
  intros [] s' o Hs'. cbn. apply IH; [done| |auto].
  intros y s'' Hy. apply Hf. by right.
Qed.

(** The same with a property of every emitted action. *)
Lemma wp_for_each_out {A} (l : list A) (f : A -> M S O unit) (I : S -> Prop) (P : O -> Prop) s E Q :
  I s ->
  (forall x s', x ∈ l -> I s' -> wp (f x) s' E (fun _ s'' o => I s'' /\ Forall P o)) ->
  (forall s' o, I s' -> Forall P o -> Q tt s' o) ->
  wp (for_each l f) s E Q.
Proof.
  revert s Q. induction l as [|x l IH]; intros s Q Hs Hf HQ; cbn; [by apply wp_ret, HQ|].
  apply wp_bind. eapply wp_mono; [apply Hf; [left|done]|done|].
  intros [] s' o [Hs' Ho]. cbn. apply IH; [done| |].
  - intros y s'' Hy. apply Hf. by right.
  - intros s'' o' Hs'' Ho'. apply HQ; [done|]. by apply Forall_app.
Qed.

(** The invariant rule of [for (i = a; i < a + n; i++)]. *)
Lemma wp_for_range (a n : Z) (f : Z -> M S O unit) (I : Z -> S -> Prop) (P : O -> Prop) s E Q :
  0 <= n -> I a s ->
  (forall i s', a <= i < a + n -> I i s' -> wp (f i) s' E (fun _ s'' o => I (i + 1) s'' /\ Forall P o)) ->
  (forall s' o, I (a + n) s' -> Forall P o -> Q tt s' o) ->
  wp (for_each (seqZ a n) f) s E Q.
Proof.
  intros Hn. revert a s Q. pattern n. apply natlike_ind; [| |done].
  - intros a s Q Hs _ HQ. apply wp_ret, HQ; [by rewrite Z.add_0_r|done].
  - clear n Hn. intros n Hn IH a s Q Hs Hf HQ. rewrite seqZ_cons by lia. cbn [for_each].
    apply wp_bind. eapply wp_mono; [apply Hf; [lia|done]|done|].
    intros [] s' o [Hs' Ho]. cbn. replace (Z.pred (Z.succ n)) with n by lia. apply IH; [done| |].
    + intros i s'' Hi. apply Hf. lia.
    + intros s'' o' Hs'' Ho'. apply HQ; [|by apply Forall_app].
      by replace (a + Z.succ n) with (Z.succ a + n) by lia.
Qed.

Lemma wp_Ok {A} (m : M S O A) s E Q a s' o :
  wp m s E Q -> m s = Ok a s' o -> Q a s' o.
Proof. unfold wp. intros H Hm. by rewrite Hm in H. Qed.

Lemma wp_total {A} (m : M S O A) s Q :
  wp m s no_abort Q -> exists a s' o, m s = Ok a s' o /\ Q a s' o.
Proof. unfold wp. destruct (m s); [eauto 10|done]. Qed.

End wp_rules.

(** Inversion of successful runs. *)
Section run_inversion.
Context {S O : Type}.
Implicit Types (s : S).

Lemma bind_Ok {A B} (m : M S O A) (k : A -> M S O B) s b s'' o :
  bind m k s = Ok b s'' o <->
  exists a s' o1 o2, m s = Ok a s' o1 /\ k a s' = Ok b s'' o2 /\ o = o1 ++ o2.
Proof.
  unfold bind. split.
  - destruct (m s) as [a s' o1|]; [|done]. destruct (k a s') as [? ? o2|] eqn:?; [|done].
    intros [= <- <- <-]. eauto 10.
  - intros (a & s' & o1 & o2 & -> & -> & ->). done.
Qed.

Lemma ASSERT_Ok exp b s u s' (o : list O) :
  ASSERT exp b s = Ok u s' o <-> b = true /\ s' = s /\ o = [].
Proof.
  unfold ASSERT, ret, fail. destruct u, b; split; try done.
  - by intros [= <- <-].
  - by intros (_ & -> & ->).
  - by intros [? _].
Qed.

Lemma ret_Ok {A} (a b : A) s s' (o : list O) :
  ret a s = Ok b s' o <-> b = a /\ s' = s /\ o = [].
Proof. unfold ret. split; [by intros [= <- <- <-]|by intros (-> & -> & ->)]. Qed.

Lemma bind_pass {A B} (m : M S O A) (k : A -> M S O B) s a s' :
  m s = Ok a s' [] -> bind m k s = k a s'.
Proof. unfold bind. intros ->. by destruct (k a s'). Qed.

Lemma bind_then {A B} (m : M S O A) (k : A -> M S O B) s a s' o1 b s'' o2 :
  m s = Ok a s' o1 -> k a s' = Ok b s'' o2 -> bind m k s = Ok b s'' (o1 ++ o2).
Proof. unfold bind. by intros -> ->. Qed.

End run_inversion.

(** ** Symbolic execution of a weakest precondition *)

Ltac wp_step :=
  lazymatch goal with
  | |- wp (bind _ _) _ _ _ => apply wp_bind
  | |- wp (ret _) _ _ _ => apply wp_ret
  | |- wp get _ _ _ => apply wp_get
  | |- wp (gets _) _ _ _ => apply wp_gets
  | |- wp (modify _) _ _ _ => apply wp_modify
  | |- wp (emit _) _ _ _ => apply wp_emit
  | |- wp (fail _) _ _ _ => apply wp_fail
  | |- wp (ASSERT _ _) _ _ _ => apply wp_ASSERT; intros
  | |- wp (DASSERT _ _) _ _ _ => apply wp_DASSERT; intros
  | |- wp (when _ _) _ _ _ => apply wp_when; intros
  | |- wp (zoom _ _ _ _) _ _ _ => apply wp_zoom
  | |- wp (if ?b then _ else _) _ _ _ => destruct b eqn:?
  | |- wp (match ?x with _ => _ end) _ _ _ => destruct x eqn:?
  end.

Ltac wp_run := repeat (wp_step; cbn beta iota in *).

(** ** Boolean tests of the code as propositions *)

Ltac bool_facts :=
  repeat match goal with
  | H : (_ && _)%bool = true |- _ => apply andb_true_iff in H as [? ?]
  | H : (_ || _)%bool = false |- _ => apply orb_false_iff in H as [? ?]
  | H : negb _ = true |- _ => apply negb_true_iff in H
  | H : negb _ = false |- _ => apply negb_false_iff in H
  | H : (_ =? _) = true |- _ => apply Z.eqb_eq in H
  | H : (_ =? _) = false |- _ => apply Z.eqb_neq in H
  | H : (_ <? _) = true |- _ => apply Z.ltb_lt in H
  | H : (_ <? _) = false |- _ => apply Z.ltb_ge in H
  | H : (_ <=? _) = true |- _ => apply Z.leb_le in H
  | H : (_ <=? _) = false |- _ => apply Z.leb_gt in H
  | H : bool_decide _ = true |- _ => apply bool_decide_eq_true in H
  | H : bool_decide _ = false |- _ => apply bool_decide_eq_false in H
  end.

(** ** Automation shared by the components *)

Create HintDb crm.
