(* ===== verification/Fsm.v ===== *)
(** * The state machine engine (libs/utils/src/fsm.c, inc/utils/fsm.h)

    CTRL, CLA and the HALs all run on this engine: a row-major array of
    [num_events * num_states] cells, each with an optional operation and an
    optional forced state.  States and events are C [int]s, so they are [Z]
    here and the array is read at [state + evt * num_states]. *)

From S2P Require Import Prelude.
From Stdlib Require Import ZArith Lia.
From stdpp Require Import base tactics list strings option.

Open Scope Z_scope.
Open Scope crm_scope.

(** One cell; [P] is the type of [evt_param], [S] the context behind
    [fsm_param]. *)
Record crm_fsm_ops (S O P : Type) : Type := mk_op {
  force_new_state : Z;
  operation : option (P -> M S O Z);
}.
Arguments mk_op {S O P} _ _.
Arguments force_new_state {S O P} _.
Arguments operation {S O P} _.

(** The fields of [crm_fsm_ctx_internal_t] that never change after
    [crm_fsm_init].  [get_state_txt] and [get_event_txt] are total in the
    model: [None] is their [default: ASSERT(0)] branch. *)
Record fsm_cfg (S O P : Type) : Type := mk_cfg {
  fsm : list (crm_fsm_ops S O P);
  num_events : Z;
  num_states : Z;
  pre_op : option (Z -> M S O unit);
  state_trans : option (Z -> Z -> Z -> P -> M S O unit);
  failsafe : P -> M S O Z;
  logging_tag : string;
  get_state_txt : Z -> option string;
  get_event_txt : Z -> option string;
}.
Arguments mk_cfg {S O P} _ _ _ _ _ _ _ _ _.
Arguments fsm {S O P} _.
Arguments num_events {S O P} _.
Arguments num_states {S O P} _.
Arguments pre_op {S O P} _.
Arguments state_trans {S O P} _.
Arguments failsafe {S O P} _.
Arguments logging_tag {S O P} _.
Arguments get_state_txt {S O P} _.
Arguments get_event_txt {S O P} _.

(** The mutable part: the current state, and the context that [fsm_param]
    points to. *)
Record fsm_st (S : Type) : Type := mk_fsm_st { state : Z; fsm_param : S }.
Arguments mk_fsm_st {S} _ _.
Arguments state {S} _.
Arguments fsm_param {S} _.

Definition MAX_TAG_LEN : Z := 5.

Section engine.
Context {S O P : Type}.
Implicit Types (c : fsm_cfg S O P).

(** A call on the context behind [fsm_param]. *)
Definition on_param {A} (m : M S O A) : M (fsm_st S) O A :=
  zoom fsm_param (fun s f => mk_fsm_st (state f) s) (fun o => o) m.

(** Evaluating a name for the log line. *)
Definition log_txt (t : option string) : M (fsm_st S) O unit :=
  ASSERT "0" (bool_decide (is_Some t)).

Definition check_state c (st : Z) : M (fsm_st S) O unit :=
  ASSERT "i_ctx->state >= 0" (0 <=? st) ;;
  ASSERT "i_ctx->state < i_ctx->num_states" (st <? num_states c).

(** The cell of a state and an event; reading outside the array is
    undefined. *)
Definition get_op c (st evt : Z) : option (crm_fsm_ops S O P) :=
  let idx := st + evt * num_states c in
  if idx <? 0 then None else fsm c !! Z.to_nat idx.

(** The part of [notify_event] between the two log lines: the operation, the
    failsafe and the forced state. *)
Definition run_op c (op : crm_fsm_ops S O P) (cur : Z) (p : P) : M (fsm_st S) O Z :=
  let* r := (match operation op with
             | Some f =>
                 let* new_state := on_param (f p) in
                 if new_state =? -1 then ret (cur, false)
                 else if new_state <=? -2 then
                   let* new_state := on_param (failsafe c p) in ret (new_state, true)
                 else ret (new_state, false)
             | None => ret (cur, false)
             end) in
  let '(new_state, error) := r in
  if negb error && negb (force_new_state op =? -1) then ret (force_new_state op)
  else ret new_state.

Definition notify_event c (evt : Z) (p : P) : M (fsm_st S) O unit :=
  ASSERT "evt < i_ctx->num_events" (evt <? num_events c) ;;
  let* cur := gets state in
  log_txt (get_event_txt c evt) ;;
  log_txt (get_state_txt c cur) ;;
  (match pre_op c with Some f => on_param (f evt) | None => ret tt end) ;;
  match get_op c cur evt with
  | None => fail (Undefined "read outside the FSM array")
  | Some op =>
      let* new_state := run_op c op cur p in
      log_txt (get_event_txt c evt) ;;
      log_txt (get_state_txt c cur) ;;
      log_txt (get_state_txt c new_state) ;;
      (if cur =? new_state then ret tt
       else match state_trans c with
            | Some f => on_param (f cur new_state evt p)
            | None => ret tt
            end) ;;
      modify (fun f => mk_fsm_st new_state (fsm_param f)) ;;
      check_state c new_state
  end.

(** [crm_fsm_init]: the pointer arguments are never NULL here; what remains
    are the length of the tag and the range of the initial state. *)
Definition crm_fsm_init c (initial_state : Z) (s : S) : outcome (fsm_st S) O unit :=
  (ASSERT "strlen(logging_tag) < MAX_TAG_LEN"
     (Z.of_nat (String.length (logging_tag c)) <? MAX_TAG_LEN) ;;
   check_state c initial_state) (mk_fsm_st initial_state s).

(** A sequence of events, as the event loops deliver them. *)
Fixpoint notify_events c (evts : list (Z * P)) : M (fsm_st S) O unit :=
  match evts with
  | [] => ret tt
  | (e, p) :: evts' => notify_event c e p ;; notify_events c evts'
  end.

Definition in_range c (f : fsm_st S) : Prop := 0 <= state f < num_states c.

End engine.

(** ** The documented contract of an operation (inc/utils/fsm.h) *)

(** The state that follows the result [r] of an operation, when the failsafe
    operation would return [fs]: [-1] keeps the state, [<= -2] is the error
    case whose state cannot be overwritten, and [force] different from [-1]
    overwrites the other two. *)
Definition next_state (cur : Z) (force : Z) (r : Z) (fs : Z) : Z :=
  if r <=? -2 then fs
  else if negb (force =? -1) then force
  else if r =? -1 then cur else r.

(** ** The contract as a step relation

    [op_step] is the outcome of one cell, [fsm_step] that of one event: the
    optional [pre_op], the cell, and [state_trans] only when the state
    changes. *)

Section contract.
Context {S O P : Type}.
Implicit Types (c : fsm_cfg S O P) (op : crm_fsm_ops S O P).

Definition forced op (st : Z) : Z :=
  if force_new_state op =? -1 then st else force_new_state op.

Inductive op_step c op (cur : Z) (p : P) (s : S) : Z -> S -> list O -> Prop :=
| op_null :
    operation op = None -> op_step c op cur p s (forced op cur) s []
| op_keep g s' o :
    operation op = Some g -> g p s = Ok (-1) s' o ->
    op_step c op cur p s (forced op cur) s' o
| op_new g r s' o :
    operation op = Some g -> g p s = Ok r s' o -> 0 <= r ->
    op_step c op cur p s (forced op r) s' o
| op_error g r s' o fs s'' o' :
    operation op = Some g -> g p s = Ok r s' o -> r <= -2 ->
    failsafe c p s' = Ok fs s'' o' ->
    op_step c op cur p s fs s'' (o ++ o').

Definition optional (m : option (M S O unit)) (s s' : S) (o : list O) : Prop :=
  match m with
  | Some g => g s = Ok tt s' o
  | None => s' = s /\ o = []
  end.

Inductive fsm_step c (evt : Z) (p : P) (f : fsm_st S) : list O -> fsm_st S -> Prop :=
| fsm_step_intro op s0 o0 new_state s1 o1 s2 o2 :
    get_op c (state f) evt = Some op ->
    optional ((fun g => g evt) <$> pre_op c) (fsm_param f) s0 o0 ->
    op_step c op (state f) p s0 new_state s1 o1 ->
    optional (if state f =? new_state then None
              else (fun g => g (state f) new_state evt p) <$> state_trans c) s1 s2 o2 ->
    0 <= new_state < num_states c ->
    fsm_step c evt p f (o0 ++ o1 ++ o2) (mk_fsm_st new_state s2).

(** Every state has a name; so has the event. *)
Definition named c (evt : Z) : Prop :=
  is_Some (get_event_txt c evt) /\
  forall st, 0 <= st < num_states c -> is_Some (get_state_txt c st).

End contract.

Section engine_theory.
Context {S O P : Type}.
Implicit Types (c : fsm_cfg S O P) (E : abort_reason -> Prop).

Lemma wp_on_param {A} (m : M S O A) f E (Q : A -> fsm_st S -> list O -> Prop) :
  wp m (fsm_param f) E (fun a s o => Q a (mk_fsm_st (state f) s) o) ->
  wp (on_param m) f E Q.
Proof.
  intros H. apply wp_zoom. eapply wp_mono; [exact H|done|].
  intros a s o. by rewrite list_fmap_id.
Qed.

Lemma wp_log_txt t f E (Q : unit -> fsm_st S -> list O -> Prop) :
  is_Some t -> Q tt f [] -> wp (log_txt t) f E Q.
Proof.
  intros Ht HQ. apply wp_ASSERT; [done|].
  intros ?%bool_decide_eq_false. done.
Qed.

Lemma wp_run_op c op cur p f E Q :
  (match operation op with
   | Some g =>
       wp (g p) (fsm_param f) E (fun r s o =>
         if r <=? -2 then
           wp (failsafe c p) s E (fun fs s' o' =>
             Q (next_state cur (force_new_state op) r fs) (mk_fsm_st (state f) s') (o ++ o'))
         else Q (next_state cur (force_new_state op) r 0) (mk_fsm_st (state f) s) o)
   | None => Q (next_state cur (force_new_state op) (-1) 0) f []
   end) ->
  wp (run_op c op cur p) f E Q.
Proof.
  unfold run_op, next_state. intros H. apply wp_bind.
  destruct (operation op) as [g|].
  - apply wp_bind, wp_on_param. eapply wp_mono; [exact H|done|].
    intros r s o Hr. cbn in Hr |- *. destruct (r =? -1) eqn:E1; bool_facts.
    + subst r. cbn in Hr |- *. apply wp_ret. rewrite app_nil_r.
      destruct (force_new_state op =? -1); cbn; apply wp_ret; by rewrite app_nil_r.
    + destruct (r <=? -2); cbn.
      * apply wp_bind, wp_on_param. eapply wp_mono; [exact Hr|done|].
        intros fs s' o' HQ. cbn. apply wp_ret. cbn. apply wp_ret.
        by rewrite !app_nil_r.
      * apply wp_ret. rewrite app_nil_r.
        destruct (force_new_state op =? -1); cbn; apply wp_ret; by rewrite app_nil_r.
  - apply wp_ret. cbn in H |- *. destruct (force_new_state op =? -1); cbn in *; by apply wp_ret.
Qed.

(** Row-major layout: the cell read for [st] and [evt] is the [st]-th cell of
    the [evt]-th row when the array is the concatenation of its rows. *)
Lemma get_op_rows c (rows : list (list (crm_fsm_ops S O P))) st evt row op :
  fsm c = concat rows ->
  (forall r, r ∈ rows -> Z.of_nat (length r) = num_states c) ->
  0 <= st -> 0 <= evt ->
  rows !! Z.to_nat evt = Some row ->
  row !! Z.to_nat st = Some op ->
  get_op c st evt = Some op.
Proof.
  intros Hc Hlen Hst Hevt Hrow Hop. unfold get_op. rewrite Hc. clear Hc.
  destruct (Z.ltb_spec (st + evt * num_states c) 0) as [Hneg|_].
  { assert (row ∈ rows) as Hin by (by eapply list_elem_of_lookup_2).
    apply Hlen in Hin. nia. }
  remember (Z.to_nat evt) as e eqn:He.
  assert (evt = Z.of_nat e) as -> by lia. clear He Hevt.
  revert e Hrow. induction rows as [|r rows IH]; intros [|e] Hrow; [done..| |].
  - injection Hrow as ->. cbn. rewrite Z.add_0_r. by apply lookup_app_l_Some.
  - cbn in Hrow |- *. assert (Z.of_nat (length r) = num_states c) as Hr by (apply Hlen; left).
    rewrite lookup_app_r by (apply lookup_lt_Some in Hop; nia).
    replace (Z.to_nat (st + _) - length r)%nat with (Z.to_nat (st + Z.of_nat e * num_states c)) by nia.
    apply IH; [|done]. intros r' Hr'. apply Hlen. by right.
Qed.

(** The weakest precondition of [notify_event], one premise per stage. *)
Lemma wp_notify_event c evt p f op E Q :
  evt < num_events c ->
  is_Some (get_event_txt c evt) ->
  is_Some (get_state_txt c (state f)) ->
  get_op c (state f) evt = Some op ->
  wp (match pre_op c with Some g => g evt | None => ret tt end) (fsm_param f) E
    (fun _ s0 o0 =>
       wp (run_op c op (state f) p) (mk_fsm_st (state f) s0) E (fun new_state f1 o1 =>
         (is_Some (get_state_txt c new_state) \/ E (AssertFail "0")) /\
         (is_Some (get_state_txt c new_state) ->
          wp (if state f =? new_state then ret tt
              else match state_trans c with
                   | Some g => g (state f) new_state evt p
                   | None => ret tt
                   end) (fsm_param f1) E (fun _ s2 o2 =>
            0 <= new_state < num_states c /\
            Q tt (mk_fsm_st new_state s2) (o0 ++ o1 ++ o2))))) ->
  wp (notify_event c evt p) f E Q.
Proof.
  intros Hevt Htxt Hst Hop H. unfold notify_event.
  apply wp_bind, wp_ASSERT; [intros _|intros ?%Z.ltb_ge; lia].
  apply wp_bind, wp_gets. apply wp_bind, wp_log_txt; [done|].
  apply wp_bind, wp_log_txt; [done|].
  apply wp_bind. rewrite Hop.
  assert (forall R : fsm_st S -> list O -> Prop,
    wp (match pre_op c with Some g => g evt | None => ret tt end) (fsm_param f) E
      (fun _ s0 o0 => R (mk_fsm_st (state f) s0) o0) ->
    wp (match pre_op c with Some g => on_param (g evt) | None => ret tt end) f E
      (fun _ f0 o0 => R f0 o0)) as Hpre.
  { intros R HR. destruct (pre_op c); [by apply wp_on_param|].
    apply wp_ret. unfold wp, ret in HR. by destruct f. }
  apply Hpre. eapply wp_mono; [exact H|done|]. clear H Hpre.
  intros ? s0 o0 H. cbn in H. apply wp_bind. eapply wp_mono; [exact H|done|]. clear H.
  intros new_state f1 o1 [Htxt' H].
  apply wp_bind, wp_log_txt; [done|]. apply wp_bind, wp_log_txt; [done|].
  destruct (get_state_txt c new_state) as [t|] eqn:Ht.
  2:{ apply wp_bind, wp_ASSERT; [by intros ?%bool_decide_eq_true|].
      intros _. destruct Htxt' as [[]|]; done. }
  specialize (H ltac:(eauto)).
  apply wp_bind, wp_log_txt; [eauto|]. apply wp_bind.
  assert (forall R : fsm_st S -> list O -> Prop,
    wp (if state f =? new_state then ret tt
        else match state_trans c with
             | Some g => g (state f) new_state evt p | None => ret tt end) (fsm_param f1) E
      (fun _ s2 o2 => R (mk_fsm_st (state f1) s2) o2) ->
    wp (if state f =? new_state then ret tt
        else match state_trans c with
             | Some g => on_param (g (state f) new_state evt p) | None => ret tt end) f1 E
      (fun _ f2 o2 => R f2 o2)) as Htr.
  { intros R HR. destruct (state f =? new_state), (state_trans c);
      first [by apply wp_on_param | apply wp_ret; unfold wp, ret in HR; by destruct f1]. }
  apply Htr. eapply wp_mono; [exact H|done|]. clear H Htr.
  intros ? s2 o2 [Hr HQ]. apply wp_bind, wp_modify. unfold check_state.
  apply wp_bind, wp_ASSERT; [intros _|intros ?%Z.leb_gt; lia].
  apply wp_ASSERT; [intros _|intros ?%Z.ltb_ge; lia].
  cbn. rewrite !app_nil_r. done.
Qed.

(** *** The engine implements the contract *)

Lemma run_op_step c op cur p s new s' o :
  run_op c op cur p (mk_fsm_st cur s) = Ok new s' o <->
  exists s1, s' = mk_fsm_st cur s1 /\ op_step c op cur p s new s1 o.
Proof.
  unfold run_op, on_param, zoom, bind, ret. cbn. split.
  - destruct (operation op) as [g|] eqn:Hop; cbn.
    + destruct (g p s) as [r s1 o1|] eqn:Hg; cbn; [|done]. rewrite list_fmap_id.
      destruct (r =? -1) eqn:E1; bool_facts; cbn.
      * subst r. unfold forced. destruct (force_new_state op =? -1) eqn:E2; cbn;
          intros [= <- <- <-]; rewrite ?app_nil_r; eexists; split; try done;
          eapply op_keep in Hg as Hk; try done; unfold forced in Hk; by rewrite E2 in Hk.
      * destruct (r <=? -2) eqn:E3; bool_facts; cbn.
        -- destruct (failsafe c p s1) as [fs s2 o2|] eqn:Hf; cbn; [|done]. rewrite list_fmap_id.
           intros [= <- <- <-]. rewrite !app_nil_r. eexists; split; [done|].
           by eapply op_error.
        -- destruct (force_new_state op =? -1) eqn:E2; cbn;
             intros [= <- <- <-]; rewrite ?app_nil_r; eexists; split; try done;
             eapply (op_new c op cur p s g r) in Hg as Hk; try (done || lia);
             unfold forced in Hk; by rewrite E2 in Hk.
    + destruct (force_new_state op =? -1) eqn:E2; cbn;
        intros [= <- <- <-]; eexists; split; try done;
        pose proof (op_null c op cur p s Hop) as Hk; unfold forced in Hk; by rewrite E2 in Hk.
  - intros (s1 & -> & Hs). destruct Hs as [Hop|g s1 o Hop Hg|g r s1 o Hop Hg Hr|g r s1 o fs s2 o' Hop Hg Hr Hf];
      rewrite Hop; unfold forced; cbn.
    + by destruct (force_new_state op =? -1).
    + rewrite Hg. cbn. rewrite list_fmap_id.
      destruct (force_new_state op =? -1); cbn; by rewrite ?app_nil_r.
    + rewrite Hg. cbn. rewrite list_fmap_id.
      destruct (Z.eqb_spec r (-1)); [lia|]. destruct (Z.leb_spec r (-2)); [lia|]. cbn.
      destruct (force_new_state op =? -1); cbn; by rewrite ?app_nil_r.
    + rewrite Hg. cbn. rewrite list_fmap_id.
      destruct (Z.eqb_spec r (-1)); [lia|]. destruct (Z.leb_spec r (-2)); [|lia]. cbn.
      rewrite Hf. cbn. by rewrite list_fmap_id, ?app_nil_r.
Qed.

Lemma log_txt_Ok t (f f' : fsm_st S) u (o : list O) :
  log_txt t f = Ok u f' o <-> is_Some t /\ f' = f /\ o = [].
Proof. unfold log_txt. rewrite ASSERT_Ok, bool_decide_eq_true. done. Qed.

Lemma check_state_Ok c st (f f' : fsm_st S) u (o : list O) :
  check_state c st f = Ok u f' o <-> 0 <= st < num_states c /\ f' = f /\ o = [].
Proof.
  unfold check_state. split.
  - intros (? & ? & ? & ? & (?%Z.leb_le & -> & ->)%ASSERT_Ok & (?%Z.ltb_lt & -> & ->)%ASSERT_Ok & ->)%bind_Ok.
    done.
  - intros ([? ?] & -> & ->). rewrite (bind_pass _ _ _ tt f); apply ASSERT_Ok; by rewrite ?Z.leb_le, ?Z.ltb_lt.
Qed.

Lemma on_param_Ok {A} (m : M S O A) (f f' : fsm_st S) a o :
  on_param m f = Ok a f' o <->
  exists s, m (fsm_param f) = Ok a s o /\ f' = mk_fsm_st (state f) s.
Proof.
  unfold on_param, zoom. destruct (m (fsm_param f)) as [b s o'|]; split; try by intros (? & ? & ?).
  - intros [= <- <- <-]. rewrite list_fmap_id. eauto.
  - intros (s1 & [= <- <- <-] & ->). by rewrite list_fmap_id.
  - done.
Qed.

Lemma optional_Ok (m : option (M S O unit)) (f f' : fsm_st S) u o :
  (match m with Some g => on_param g | None => ret tt end) f = Ok u f' o <->
  exists s, optional m (fsm_param f) s o /\ f' = mk_fsm_st (state f) s.
Proof.
  destruct u, m as [g|]; cbn.
  - by rewrite on_param_Ok.
  - rewrite ret_Ok. split.
    + intros (_ & -> & ->). exists (fsm_param f). by destruct f.
    + intros (s & [-> ->] & ->). by destruct f.
Qed.

Lemma notify_event_sound c evt p f f' o :
  notify_event c evt p f = Ok tt f' o -> fsm_step c evt p f o f'.
Proof.
  unfold notify_event.
  intros (? & ? & ? & ? & (_ & -> & ->)%ASSERT_Ok & H & ->)%bind_Ok.
  apply bind_Ok in H as (? & ? & ? & ? & [= <- <- <-] & H & ->).
  do 2 apply bind_Ok in H as (? & ? & ? & ? & (_ & -> & ->)%log_txt_Ok & H & ->).
  apply bind_Ok in H as (? & f0 & o0 & ? & Hpre & H & ->).
  destruct (get_op c (state f) evt) as [op|] eqn:Hop; [|done].
  apply bind_Ok in H as (new & f1 & o1 & ? & Hrun & H & ->).
  do 3 apply bind_Ok in H as (? & ? & ? & ? & (_ & -> & ->)%log_txt_Ok & H & ->).
  apply bind_Ok in H as (? & f2 & o2 & ? & Htr & H & ->).
  apply bind_Ok in H as (? & ? & ? & ? & [= <- <- <-] & (Hnew & -> & ->)%check_state_Ok & ->).
  assert (exists s, optional ((fun g => g evt) <$> pre_op c) (fsm_param f) s o0 /\
            f0 = mk_fsm_st (state f) s) as (s0 & Hpre' & ->).
  { eapply optional_Ok. destruct (pre_op c); exact Hpre. }
  apply run_op_step in Hrun as (s1 & -> & Hrun).
  assert (exists s, optional (if state f =? new then None
              else (fun g => g (state f) new evt p) <$> state_trans c) s1 s o2 /\
            f2 = mk_fsm_st (state f) s) as (s2 & Htr' & ->).
  { eapply (optional_Ok _ (mk_fsm_st (state f) s1)).
    destruct (state f =? new), (state_trans c); exact Htr. }
  cbn. rewrite app_nil_r. by econstructor.
Qed.

Lemma log_txt_pass t (f : fsm_st S) : is_Some t -> log_txt (O:=O) t f = Ok tt f [].
Proof. intros. by apply log_txt_Ok. Qed.

Lemma notify_event_complete c evt p f f' o :
  evt < num_events c -> named c evt -> in_range c f ->
  fsm_step c evt p f o f' -> notify_event c evt p f = Ok tt f' o.
Proof.
  intros Hevt [Hn Hns] Hr [op s0 o0 new s1 o1 s2 o2 Hop Hpre Hrun Htr Hnew].
  unfold notify_event.
  rewrite (bind_pass _ _ _ tt f) by (apply ASSERT_Ok; by rewrite Z.ltb_lt).
  erewrite bind_pass by reflexivity.
  do 2 erewrite bind_pass by (apply log_txt_pass; auto).
  rewrite Hop. eapply bind_then.
  { pose proof (proj2 (optional_Ok _ f (mk_fsm_st (state f) s0) tt o0)
      (ex_intro _ s0 (conj Hpre eq_refl))) as Hp. destruct (pre_op c); exact Hp. }
  eapply bind_then; [apply run_op_step; eauto|].
  do 3 erewrite bind_pass by (apply log_txt_pass; auto).
  rewrite <-(app_nil_r o2). eapply bind_then.
  { pose proof (proj2 (optional_Ok _ (mk_fsm_st (state f) s1) (mk_fsm_st (state f) s2) tt o2)
      (ex_intro _ s2 (conj Htr eq_refl))) as Hp.
    destruct (state f =? new), (state_trans c); exact Hp. }
  erewrite bind_pass by reflexivity. by apply check_state_Ok.
Qed.

End engine_theory.

Section engine_properties.
Context {S O P : Type}.
Implicit Types (c : fsm_cfg S O P).

(** C1. Refinement of the documented contract: for an event with a name, in a
    state of the array, [notify_event] succeeds with context, state and
    emissions [f'] and [o] exactly when the contract of inc/utils/fsm.h allows
    that step: [-1] keeps the state, a result [>= 0] is the new state, both
    overwritten by a forced state; a result [<= -2] runs the failsafe
    operation whose result is never overwritten; [state_trans] runs only when
    the state changes and the new state is inside the array. *)
Theorem notify_event_refines_contract c evt p f f' o :
  evt < num_events c -> named c evt -> in_range c f ->
  notify_event c evt p f = Ok tt f' o <-> fsm_step c evt p f o f'.
Proof.
  split; [apply notify_event_sound|by apply notify_event_complete].
Qed.

End engine_properties.

(** A two-state machine whose first cell is refused by its operation and
    recovered by the failsafe, as an instance of the hypotheses. *)
Definition demo_cfg : fsm_cfg nat Z unit :=
  mk_cfg [mk_op 0 (Some (fun _ => modify S ;; ret (-2))); mk_op (-1) None] 1 2
    None (Some (fun prev new _ _ => emit (prev * 10 + new)))
    (fun _ => modify S ;; ret 1) "DEMO" (fun st => if st <? 2 then Some "st"%string else None)
    (fun _ => Some "evt"%string).

Lemma notify_event_refines_contract_witness :
  fsm_step demo_cfg 0 tt (mk_fsm_st 0 5%nat) [1] (mk_fsm_st 1 7%nat).
Proof.
  apply (notify_event_refines_contract demo_cfg 0 tt (mk_fsm_st 0 5%nat) (mk_fsm_st 1 7%nat) [1]).
  - reflexivity.
  - split; [eexists; reflexivity|]. intros st [H1 H2]. cbn in *.
    apply Z.ltb_lt in H2. rewrite H2. eexists; reflexivity.
  - split; cbn; lia.
  - vm_compute. reflexivity.
Defined.
