(* ===== verification/Timer.v ===== *)
(** * Deadlines in milliseconds (libs/utils/src/time.c)

    Every timer of the program (the CTRL reset timer, the watchdog, CLA's
    acknowledgement and boot timers, the HAL timers) is an absolute
    [struct timespec] set by [crm_time_add_ms] and polled by
    [crm_time_get_remain_ms].  The clock reading of [clock_gettime] is the
    argument [now]. *)

From S2P Require Import Prelude.
From Stdlib Require Import ZArith Lia.
From stdpp Require Import base tactics numbers.

Open Scope Z_scope.

Record timespec : Type := mk_timespec { tv_sec : Z; tv_nsec : Z }.

#[export] Instance timespec_eq_dec : EqDecision timespec.
Proof. solve_decision. Defined.

Definition NSEC_PER_SEC : Z := 1000000000.

(** C's [/] and [%] truncate towards zero. *)
Definition crm_time_add_ms (now : timespec) (ms : Z) : timespec :=
  let sec := tv_sec now + Z.quot ms 1000 in
  let nsec := tv_nsec now + Z.rem ms 1000 * 1000000 in
  if 1000000000 <? nsec then mk_timespec (sec + 1) (nsec - 1000000000)
  else mk_timespec sec nsec.

(** The remaining time before its conversion to [int]. *)
Definition remain_ms (now timer_end : timespec) : Z :=
  if (tv_sec timer_end <? tv_sec now)
     || ((tv_sec now =? tv_sec timer_end) && (tv_nsec timer_end <? tv_nsec now))
  then 0
  else (tv_sec timer_end - tv_sec now) * 1000
       + Z.quot (tv_nsec timer_end - tv_nsec now) 1000000.

Definition crm_time_get_remain_ms (now timer_end : timespec) : Z :=
  i32 (remain_ms now timer_end).

(** ** Specification *)

(** What [clock_gettime] returns. *)
Definition valid_clock (t : timespec) : Prop :=
  0 <= tv_sec t /\ 0 <= tv_nsec t < NSEC_PER_SEC.

Definition to_ns (t : timespec) : Z := tv_sec t * NSEC_PER_SEC + tv_nsec t.

Lemma quot_rem_1000 ms : 0 <= ms -> ms = 1000 * Z.quot ms 1000 + Z.rem ms 1000 /\
  0 <= Z.rem ms 1000 < 1000 /\ 0 <= Z.quot ms 1000.
Proof.
  intros H. split; [apply Z.quot_rem'|]. split.
  - apply Z.rem_bound_pos; lia.
  - apply Z.quot_pos; lia.
Qed.

Lemma add_ms_ns now ms :
  valid_clock now -> 0 <= ms ->
  to_ns (crm_time_add_ms now ms) = to_ns now + ms * 1000000 /\
  0 <= tv_nsec (crm_time_add_ms now ms) <= NSEC_PER_SEC.
Proof.
  intros [Hs Hn] Hms. destruct (quot_rem_1000 ms Hms) as (Hq & Hr & Hp).
  unfold crm_time_add_ms, to_ns, NSEC_PER_SEC in *. destruct now as [sec nsec]; cbn in *.
  destruct (Z.ltb_spec 1000000000 (nsec + Z.rem ms 1000 * 1000000)); cbn; lia.
Qed.

Lemma remain_ms_expired now e :
  valid_clock now -> 0 <= tv_nsec e <= NSEC_PER_SEC ->
  to_ns e <= to_ns now -> remain_ms now e = 0.
Proof.
  unfold valid_clock, to_ns, NSEC_PER_SEC, remain_ms. intros (? & ?) ? Hle.
  destruct (Z.ltb_spec (tv_sec e) (tv_sec now)); [done|]. cbn.
  destruct (Z.eqb_spec (tv_sec now) (tv_sec e)) as [He|]; cbn.
  - destruct (Z.ltb_spec (tv_nsec e) (tv_nsec now)); [done|].
    rewrite He. replace (tv_nsec e - tv_nsec now) with 0 by lia.
    rewrite Z.sub_diag. reflexivity.
  - assert (tv_sec e = tv_sec now + 1) by lia.
    replace (tv_nsec e - tv_nsec now) with (- 1000000000) by lia.
    replace (tv_sec e - tv_sec now) with 1 by lia. reflexivity.
Qed.

Lemma quot_million n : exists q r, Z.quot n 1000000 = q /\ n = 1000000 * q + r /\
  -1000000 < r < 1000000.
Proof.
  exists (Z.quot n 1000000), (Z.rem n 1000000). split; [done|].
  split; [apply Z.quot_rem'|]. pose proof (Z.rem_bound_abs n 1000000 ltac:(lia)). lia.
Qed.

(** Before the deadline the value is the real remaining time, up to less than
    a millisecond either way, and it is not negative. *)
Lemma remain_ms_pending now e :
  valid_clock now -> 0 <= tv_nsec e <= NSEC_PER_SEC ->
  to_ns now <= to_ns e ->
  0 <= remain_ms now e /\
  - 1000000 < (to_ns e - to_ns now) - remain_ms now e * 1000000 < 1000000.
Proof.
  intros Hv He Hle. unfold remain_ms.
  destruct (quot_million (tv_nsec e - tv_nsec now)) as (q & r & Hq & Hn & Hr). rewrite Hq.
  unfold valid_clock, to_ns, NSEC_PER_SEC in *.
  destruct (Z.ltb_spec (tv_sec e) (tv_sec now)); cbn; [lia|].
  destruct (Z.eqb_spec (tv_sec now) (tv_sec e)); cbn; [|lia].
  destruct (Z.ltb_spec (tv_nsec e) (tv_nsec now)); lia.
Qed.

Lemma remaining_time_bounds now ms later :
  valid_clock now -> valid_clock later -> 0 <= ms <= INT_MAX ->
  to_ns now <= to_ns later ->
  let r := crm_time_get_remain_ms later (crm_time_add_ms now ms) in
  let left_ns := ms * 1000000 - (to_ns later - to_ns now) in
  0 <= r <= ms /\
  (left_ns <= 0 -> r = 0) /\
  (0 <= left_ns -> - 1000000 < left_ns - r * 1000000 < 1000000).
Proof.
  intros Hv Hl Hms Hle r left_ns.
  destruct (add_ms_ns now ms Hv ltac:(lia)) as [Hns Hb].
  assert (0 <= remain_ms later (crm_time_add_ms now ms) <= ms /\
    (left_ns <= 0 -> remain_ms later (crm_time_add_ms now ms) = 0) /\
    (0 <= left_ns -> - 1000000 < left_ns - remain_ms later (crm_time_add_ms now ms) * 1000000 < 1000000))
    as H.
  { subst left_ns. destruct (Z.le_ge_cases (to_ns later) (to_ns (crm_time_add_ms now ms))) as [Hp|Hp].
    - pose proof (remain_ms_pending later _ Hl Hb Hp). split_and!; [lia|nia| |lia].
      intros. apply remain_ms_expired; [done..|lia].
    - rewrite (remain_ms_expired later _ Hl Hb) by lia. lia. }
  subst r. unfold crm_time_get_remain_ms. rewrite i32_small; [done|].
  unfold is_int, INT_MIN, INT_MAX in *. destruct H as [H _]. clear -H Hms. lia.
Qed.

(** C2. A timer armed for [ms] milliseconds: at any later clock reading,
    [crm_time_get_remain_ms] is between 0 and [ms] (so the conversion to [int]
    never wraps), it differs by less than one millisecond from the real
    remaining time while the deadline is ahead, and it is 0 from the deadline
    on. *)
Theorem timer_remaining_time now ms later :
  valid_clock now -> valid_clock later -> 0 <= ms <= INT_MAX ->
  to_ns now <= to_ns later ->
  let r := crm_time_get_remain_ms later (crm_time_add_ms now ms) in
  let left_ns := ms * 1000000 - (to_ns later - to_ns now) in
  0 <= r <= ms /\
  (left_ns <= 0 -> r = 0) /\
  (0 <= left_ns -> - 1000000 < left_ns - r * 1000000 < 1000000).
Proof. apply remaining_time_bounds. Qed.

Lemma timer_remaining_time_witness :
  crm_time_get_remain_ms (mk_timespec 8 250000000) (crm_time_add_ms (mk_timespec 7 999999999) 1500) <= 1500.
Proof.
  apply (timer_remaining_time (mk_timespec 7 999999999) 1500 (mk_timespec 8 250000000));
    unfold valid_clock, to_ns, NSEC_PER_SEC, INT_MAX; cbn; lia.
Defined.

(** The normalisation test of [crm_time_add_ms] is strict: a deadline that
    falls exactly on a second keeps [tv_nsec = 1000000000] instead of
    carrying, so the result is not a normalised [timespec], although it still
    denotes the right instant. *)
Theorem add_ms_unnormalised sec ms :
  0 <= sec -> 0 < ms < 1000 ->
  let now := mk_timespec sec (NSEC_PER_SEC - ms * 1000000) in
  valid_clock now /\
  crm_time_add_ms now ms = mk_timespec sec NSEC_PER_SEC /\
  to_ns (crm_time_add_ms now ms) = to_ns (mk_timespec (sec + 1) 0).
Proof.
  unfold valid_clock, crm_time_add_ms, to_ns, NSEC_PER_SEC. intros Hs Hms. cbn.
  assert (Z.quot ms 1000 = 0) as -> by (apply Z.quot_small; lia).
  assert (Z.rem ms 1000 = ms) as -> by (apply Z.rem_small; lia).
  destruct (Z.ltb_spec 1000000000 (1000000000 - ms * 1000000 + ms * 1000000)); cbn; [lia|].
  split_and!; [lia..|f_equal; lia|lia].
Qed.

Lemma add_ms_unnormalised_witness :
  crm_time_add_ms (mk_timespec 3 900000000) 100 = mk_timespec 3 1000000000.
Proof. apply (add_ms_unnormalised 3 100); lia. Defined.

#[export] Hint Resolve i32_range : crm.
