(* ===== verification/Ipc.v ===== *)
(** * Message passing between threads and processes (libs/utils/src/ipc.c)

    [CRM_IPC_THREAD] is a ring buffer of [MSG_QUEUE_SIZE] messages whose pipe
    carries one byte per queued message, so that the read end can be polled;
    [CRM_IPC_PROCESS] writes each message into the pipe.  Every function takes
    the mutex before it touches the context and releases it at its end, so an
    operation is one atomic step of the model. *)

From S2P Require Import Prelude.
From Stdlib Require Import ZArith Lia.
From stdpp Require Import base tactics list strings option.

Open Scope Z_scope.
Open Scope crm_scope.

Definition MSG_QUEUE_SIZE : Z := 8.

(** ** Thread queue *)

(** [pipe] is what has been written to [w_fd] and not yet read from [r_fd];
    [dummy] is the static byte of [send_msg_thread]. *)
Record ring (A : Type) : Type := mk_ring {
  msg_queue : list A;
  num_msgs_in_queue : Z;
  msg_r_idx : Z;
  msg_w_idx : Z;
  r_fd : Z;
  w_fd : Z;
  pipe : list Z;
  dummy : Z;
}.
Arguments mk_ring {A} _ _ _ _ _ _ _ _.
Arguments msg_queue {A} _.
Arguments num_msgs_in_queue {A} _.
Arguments msg_r_idx {A} _.
Arguments msg_w_idx {A} _.
Arguments r_fd {A} _.
Arguments w_fd {A} _.
Arguments pipe {A} _.
Arguments dummy {A} _.

(** The index update shared by the three users of the ring. *)
Definition next_idx (i : Z) : Z := if i + 1 =? MSG_QUEUE_SIZE then 0 else i + 1.

Section ring.
Context {A : Type}.

(** [calloc] zeroes the queue: [zero] is the all-zero message. *)
Definition crm_ipc_init (zero : A) (rfd wfd : Z) : ring A :=
  mk_ring (replicate (Z.to_nat MSG_QUEUE_SIZE) zero) 0 0 0 rfd wfd [] 0.

Definition get_poll_fd : M (ring A) Empty_set Z := gets r_fd.

Definition send_msg_thread (msg : A) : M (ring A) Empty_set bool :=
  let* q := get in
  if (num_msgs_in_queue q <? MSG_QUEUE_SIZE) && negb (w_fd q =? -1) then
    modify (fun q => mk_ring
      (<[ Z.to_nat (msg_w_idx q) := msg ]> (msg_queue q))
      (num_msgs_in_queue q + 1) (msg_r_idx q) (next_idx (msg_w_idx q))
      (r_fd q) (w_fd q) (pipe q ++ [dummy q]) ((dummy q + 1) mod 256)) ;;
    ret true
  else ret false.

(** Reading an empty pipe blocks while the lock is held. *)
Definition get_msg_thread : M (ring A) Empty_set (option A) :=
  let* q := get in
  if (0 <? num_msgs_in_queue q) && negb (r_fd q =? -1) then
    match msg_queue q !! Z.to_nat (msg_r_idx q), pipe q with
    | Some msg, _ :: pipe' =>
        modify (fun q => mk_ring (msg_queue q) (num_msgs_in_queue q - 1)
          (next_idx (msg_r_idx q)) (msg_w_idx q) (r_fd q) (w_fd q) pipe' (dummy q)) ;;
        ret (Some msg)
    | Some _, [] => fail (Stuck "read on an empty pipe")
    | None, _ => fail (Undefined "msg_queue[msg_r_idx]")
    end
  else ret None.

(** The [while (num_msgs_in_queue)] loop of [dispose]: the list of the
    messages handed to [free_routine].  [n] is the number of iterations,
    which is the value of [num_msgs_in_queue] on entry. *)
Fixpoint dispose_loop (n : nat) (q : ring A) : list A :=
  match n with
  | 0%nat => []
  | S n =>
      match msg_queue q !! Z.to_nat (msg_r_idx q) with
      | Some m => [m]
      | None => []
      end ++
      dispose_loop n (mk_ring (msg_queue q) (num_msgs_in_queue q - 1)
        (next_idx (msg_r_idx q)) (msg_w_idx q) (r_fd q) (w_fd q) (pipe q) (dummy q))
  end.

Definition dispose (free_routine : bool) (q : ring A) : list A :=
  if free_routine then dispose_loop (Z.to_nat (num_msgs_in_queue q)) q else [].

(** *** Specification: a bounded FIFO *)

Definition slot (r i : Z) : nat := Z.to_nat ((r + i) mod MSG_QUEUE_SIZE).

(** The queued messages, oldest first. *)
Definition contents (q : ring A) : list A :=
  omap (fun i => msg_queue q !! slot (msg_r_idx q) (Z.of_nat i))
    (seq 0 (Z.to_nat (num_msgs_in_queue q))).

Record ring_ok (q : ring A) : Prop := {
  ok_len : length (msg_queue q) = Z.to_nat MSG_QUEUE_SIZE;
  ok_num : 0 <= num_msgs_in_queue q <= MSG_QUEUE_SIZE;
  ok_r : 0 <= msg_r_idx q < MSG_QUEUE_SIZE;
  ok_w : msg_w_idx q = (msg_r_idx q + num_msgs_in_queue q) mod MSG_QUEUE_SIZE;
  ok_pipe : Z.of_nat (length (pipe q)) = num_msgs_in_queue q;
}.

Definition opened (q : ring A) : Prop := r_fd q <> -1 /\ w_fd q <> -1.

(** A user's view: operations on an ideal queue of at most eight messages. *)
Inductive fifo_op : Type :=
| Send (m : A)
| Get.

Inductive fifo_res : Type :=
| Sent (b : bool)
| Got (m : option A).

Definition fifo_step (l : list A) (op : fifo_op) : list A * fifo_res :=
  match op with
  | Send m =>
      if Z.of_nat (length l) <? MSG_QUEUE_SIZE then (l ++ [m], Sent true) else (l, Sent false)
  | Get => (tail l, Got (head l))
  end.

Definition ring_step (op : fifo_op) : M (ring A) Empty_set fifo_res :=
  match op with
  | Send m => let* b := send_msg_thread m in ret (Sent b)
  | Get => let* m := get_msg_thread in ret (Got m)
  end.

Fixpoint fifo_run (l : list A) (ops : list fifo_op) : list A * list fifo_res :=
  match ops with
  | [] => (l, [])
  | op :: ops =>
      let '(l', r) := fifo_step l op in
      let '(l'', rs) := fifo_run l' ops in (l'', r :: rs)
  end.

Fixpoint ring_run (ops : list fifo_op) : M (ring A) Empty_set (list fifo_res) :=
  match ops with
  | [] => ret []
  | op :: ops => let* r := ring_step op in let* rs := ring_run ops in ret (r :: rs)
  end.

End ring.
Arguments fifo_op : clear implicits.
Arguments fifo_res : clear implicits.

Section ring_theory.
Context {A : Type}.
Implicit Types (q : ring A) (m : A).

Lemma next_idx_mod i : 0 <= i < MSG_QUEUE_SIZE -> next_idx i = (i + 1) mod MSG_QUEUE_SIZE.
Proof.
  unfold next_idx, MSG_QUEUE_SIZE. intros Hi.
  destruct (Z.eqb_spec (i + 1) 8) as [->|]; [done|]. rewrite Z.mod_small; lia.
Qed.

Lemma next_idx_range i : 0 <= i < MSG_QUEUE_SIZE -> 0 <= next_idx i < MSG_QUEUE_SIZE.
Proof. intros Hi. rewrite next_idx_mod by done. apply Z.mod_pos_bound. done. Qed.

Lemma slot_lt r i : (slot r i < Z.to_nat MSG_QUEUE_SIZE)%nat.
Proof.
  unfold slot. pose proof (Z.mod_pos_bound (r + i) MSG_QUEUE_SIZE ltac:(done)).
  unfold MSG_QUEUE_SIZE in *. lia.
Qed.

Lemma slot_next r i : 0 <= r < MSG_QUEUE_SIZE -> slot (next_idx r) i = slot r (i + 1).
Proof.
  intros Hr. unfold slot. rewrite next_idx_mod by done.
  rewrite Zplus_mod_idemp_l. do 2 f_equal. lia.
Qed.

Lemma slot_inj r i j : 0 <= i < MSG_QUEUE_SIZE -> 0 <= j < MSG_QUEUE_SIZE ->
  slot r i = slot r j -> i = j.
Proof.
  intros Hi Hj. unfold slot, MSG_QUEUE_SIZE in *. intros H.
  assert ((r + i) mod 8 = (r + j) mod 8) as H'.
  { apply Z2Nat.inj in H; [done|apply Z.mod_pos_bound; lia..]. }
  assert ((i - j) mod 8 = 0) as Hd.
  { replace (i - j) with ((r + i) - (r + j)) by lia. rewrite Zminus_mod, H'.
    by rewrite Z.sub_diag. }
  apply Z.mod_divide in Hd as [k Hk]; lia.
Qed.

(** A filtered map over a range in which every index has a value. *)
Lemma omap_seq_ext {B} (f g : nat -> option B) k n :
  (forall i, (k <= i < k + n)%nat -> f i = g i) ->
  omap f (seq k n) = omap g (seq k n).
Proof.
  revert k. induction n as [|n IH]; intros k H; cbn; [done|].
  rewrite <-H by lia. rewrite (IH (S k)); [done|]. intros i Hi. apply H. lia.
Qed.

Lemma omap_seq_shift {B} (f : nat -> option B) k n :
  omap f (seq (S k) n) = omap (fun i => f (S i)) (seq k n).
Proof.
  revert k. induction n as [|n IH]; intros k; cbn; [done|]. by rewrite IH.
Qed.

Lemma omap_seq_length {B} (f : nat -> option B) k n :
  (forall i, (k <= i < k + n)%nat -> is_Some (f i)) -> length (omap f (seq k n)) = n.
Proof.
  revert k. induction n as [|n IH]; intros k H; cbn; [done|].
  destruct (H k ltac:(lia)) as [x ->]. cbn. rewrite IH; [done|]. intros i Hi. apply H. lia.
Qed.

Lemma omap_cons {B} (f : nat -> option B) x l :
  omap f (x :: l) = match f x with Some y => y :: omap f l | None => omap f l end.
Proof. done. Qed.

Lemma ring_slot_some q r i :
  length (msg_queue q) = Z.to_nat MSG_QUEUE_SIZE -> is_Some (msg_queue q !! slot r i).
Proof. intros Hl. apply lookup_lt_is_Some. rewrite Hl. apply slot_lt. Qed.

Lemma contents_length q : ring_ok q -> Z.of_nat (length (contents q)) = num_msgs_in_queue q.
Proof.
  intros Hok. unfold contents. rewrite omap_seq_length.
  - destruct Hok. lia.
  - intros i _. by apply ring_slot_some, Hok.
Qed.

Lemma contents_cons q :
  length (msg_queue q) = Z.to_nat MSG_QUEUE_SIZE ->
  0 <= msg_r_idx q < MSG_QUEUE_SIZE -> 0 < num_msgs_in_queue q ->
  exists m, msg_queue q !! Z.to_nat (msg_r_idx q) = Some m /\
    contents q = m :: omap (fun i => msg_queue q !! slot (next_idx (msg_r_idx q)) (Z.of_nat i))
      (seq 0 (Z.to_nat (num_msgs_in_queue q - 1))).
Proof.
  intros Hl Hr Hn. destruct (ring_slot_some q (msg_r_idx q) (Z.of_nat 0) Hl) as [m Hm].
  exists m. split.
  { rewrite <-Hm. unfold slot. by rewrite Z.add_0_r, Z.mod_small. }
  unfold contents.
  replace (Z.to_nat (num_msgs_in_queue q)) with (S (Z.to_nat (num_msgs_in_queue q - 1))) by lia.
  cbn [seq]. rewrite omap_cons, Hm. f_equal. rewrite omap_seq_shift. apply omap_seq_ext.
  intros i _. rewrite slot_next by done. do 2 f_equal. lia.
Qed.

Lemma init_ok (zero : A) rfd wfd : ring_ok (crm_ipc_init zero rfd wfd).
Proof. split; cbn; unfold MSG_QUEUE_SIZE; try lia; done. Qed.

Lemma wp_send q m : ring_ok q -> opened q ->
  wp (send_msg_thread m) q no_abort (fun b q' _ =>
    ring_ok q' /\ opened q' /\
    (contents q', Sent b) = fifo_step (contents q) (Send m)).
Proof.
  intros Hok Ho. unfold send_msg_thread. apply wp_bind, wp_get.
  pose proof (contents_length q Hok) as Hlen. pose proof Ho as [Hr Hw].
  destruct (Z.ltb_spec (num_msgs_in_queue q) MSG_QUEUE_SIZE) as [Hlt|Hge]; cbn.
  - destruct (Z.eqb_spec (w_fd q) (-1)); [done|]. cbn.
    apply wp_bind, wp_modify. cbn. apply wp_ret.
    rewrite Hlen. destruct (Z.ltb_spec (num_msgs_in_queue q) MSG_QUEUE_SIZE); [|lia].
    destruct Hok as [Ol On Or Ow Op]. split; [|split; [done|]].
    + split; cbn; try done.
      * by rewrite length_insert.
      * lia.
      * rewrite Ow, next_idx_mod by (apply Z.mod_pos_bound; done).
        rewrite Zplus_mod_idemp_l. f_equal. lia.
      * rewrite length_app. cbn. lia.
    + f_equal. unfold contents. cbn.
      replace (Z.to_nat (num_msgs_in_queue q + 1)) with (Z.to_nat (num_msgs_in_queue q) + 1)%nat by lia.
      rewrite seq_app, omap_app. f_equal.
      * apply omap_seq_ext. intros i Hi. apply list_lookup_insert_ne.
        intros He. assert (num_msgs_in_queue q = Z.of_nat i) as E; [|lia].
        apply (slot_inj (msg_r_idx q)); [lia|lia|].
        rewrite <-He. unfold slot. by rewrite Ow.
      * cbn. unfold slot. rewrite Z2Nat.id, <-Ow by lia.
        rewrite list_lookup_insert_eq; [done|]. rewrite Ol.
        pose proof (Z.mod_pos_bound (msg_r_idx q + num_msgs_in_queue q) MSG_QUEUE_SIZE ltac:(done)).
        rewrite <-Ow in *. lia.
  - apply wp_ret. rewrite Hlen.
    destruct (Z.ltb_spec (num_msgs_in_queue q) MSG_QUEUE_SIZE); [lia|]. done.
Qed.

Lemma wp_get_msg q : ring_ok q -> opened q ->
  wp get_msg_thread q no_abort (fun r q' _ =>
    ring_ok q' /\ opened q' /\ (contents q', Got r) = fifo_step (contents q) Get).
Proof.
  intros Hok Ho. unfold get_msg_thread. apply wp_bind, wp_get.
  destruct (Z.ltb_spec 0 (num_msgs_in_queue q)) as [Hlt|Hge]; cbn.
  - destruct Ho as [Hr Hw]. destruct (Z.eqb_spec (r_fd q) (-1)); [done|]. cbn.
    destruct Hok as [Ol On Or Ow Op].
    destruct (contents_cons q Ol Or Hlt) as (m & Hm & Hc). rewrite Hm, Hc.
    destruct (pipe q) as [|b pipe'] eqn:Hp; cbn in Op; [lia|].
    apply wp_bind, wp_modify. cbn. apply wp_ret. split; [|done].
    split; cbn; try done; try lia.
    + by apply next_idx_range.
    + rewrite Ow, next_idx_mod, Zplus_mod_idemp_l by done. f_equal. lia.
  - apply wp_ret. split; [done|]. split; [done|].
    assert (length (contents q) = 0%nat) as Hz%nil_length_inv.
    { pose proof (contents_length q Hok). lia. }
    by rewrite Hz.
Qed.

Lemma wp_ring_step q op : ring_ok q -> opened q ->
  wp (ring_step op) q no_abort (fun r q' _ =>
    ring_ok q' /\ opened q' /\ (contents q', r) = fifo_step (contents q) op).
Proof.
  intros Hok Ho. destruct op as [m|]; cbn [ring_step]; apply wp_bind;
    (eapply wp_mono; [by first [apply wp_send|apply wp_get_msg]|done|]);
    intros r q' o H; by apply wp_ret.
Qed.

Lemma wp_ring_run ops q : ring_ok q -> opened q ->
  wp (ring_run ops) q no_abort (fun rs q' _ =>
    ring_ok q' /\ (contents q', rs) = fifo_run (contents q) ops).
Proof.
  revert q. induction ops as [|op ops IH]; intros q Hok Ho; cbn [ring_run fifo_run].
  { by apply wp_ret. }
  apply wp_bind. eapply wp_mono; [by apply wp_ring_step|done|].
  intros r q' o (Hok' & Ho' & Hs). apply wp_bind.
  eapply wp_mono; [by apply IH|done|]. intros rs q'' o' [Hok'' Hr].
  apply wp_ret. split; [done|].
  rewrite <-Hs, <-Hr. done.
Qed.


Lemma dispose_loop_contents n q :
  length (msg_queue q) = Z.to_nat MSG_QUEUE_SIZE ->
  0 <= msg_r_idx q < MSG_QUEUE_SIZE ->
  Z.of_nat n = num_msgs_in_queue q ->
  dispose_loop n q = contents q.
Proof.
  revert q. induction n as [|n IH]; intros q Hl Hr Hn; cbn [dispose_loop].
  { unfold contents. by rewrite <-Hn. }
  destruct (contents_cons q Hl Hr ltac:(lia)) as (m & -> & ->). cbn [app]. f_equal.
  rewrite IH; cbn; [done|done|by apply next_idx_range|lia].
Qed.

End ring_theory.

(** ** Process pipe *)

(** [crm_ipc_msg_t] as a process sends it: [data] is the buffer the pointer
    designates ([] for NULL); bytes are 0..255. *)
Record crm_ipc_msg : Type := mk_msg { scalar : Z; data_size : Z; data : list Z }.

(** The four bytes of an [int] in memory, little endian. *)
Definition int_bytes (z : Z) : list Z :=
  [z mod 256; (z / 256) mod 256; (z / 65536) mod 256; (z / 16777216) mod 256].

Definition bytes_int (b0 b1 b2 b3 : Z) : Z :=
  i32 (b0 + 256 * b1 + 65536 * b2 + 16777216 * b3).

(** [write] of [n] bytes of [buf]; reading past the buffer is undefined. *)
Definition pwrite (n : Z) (buf : list Z) : M (list Z) Empty_set unit :=
  if n <=? Z.of_nat (length buf) then modify (fun p => p ++ take (Z.to_nat n) buf)
  else fail (Undefined "write past the end of data").

(** [read] returns what is there, at most [n] bytes; it blocks on an empty
    pipe, and [ASSERT(read(..) == n)] fails on a short read. *)
Definition pread (n : Z) : M (list Z) Empty_set (list Z) :=
  let* p := get in
  if bool_decide (p = []) then fail (Stuck "read on an empty pipe") else
  ASSERT "read(i_ctx->r_fd, ..) == n" (n <=? Z.of_nat (length p)) ;;
  modify (fun p => drop (Z.to_nat n) p) ;;
  ret (take (Z.to_nat n) p).

Definition send_msg_process (msg : crm_ipc_msg) : M (list Z) Empty_set bool :=
  pwrite 8 (int_bytes (i32 (scalar msg)) ++ int_bytes (i32 (data_size msg))) ;;
  when (0 <? data_size msg) (pwrite (data_size msg) (data msg)) ;;
  ret true.

(** [msg->data_size] is a [size_t]: a negative header field becomes a huge
    value whose [malloc] fails. *)
Definition get_msg_process : M (list Z) Empty_set crm_ipc_msg :=
  let* hdr := pread 8 in
  match hdr with
  | [a0; a1; a2; a3; b0; b1; b2; b3] =>
      let s := bytes_int a0 a1 a2 a3 in
      let n := bytes_int b0 b1 b2 b3 in
      ASSERT "msg->data" (0 <=? n) ;;
      if 0 <? n then let* d := pread n in ret (mk_msg s n d)
      else ret (mk_msg s 0 [])
  | _ => fail (AssertFail "read(i_ctx->r_fd, &msg_hdr, sizeof(msg_hdr)) == sizeof(msg_hdr)")
  end.

Fixpoint get_msgs_process (n : nat) : M (list Z) Empty_set (list crm_ipc_msg) :=
  match n with
  | 0%nat => ret []
  | S n => let* m := get_msg_process in let* ms := get_msgs_process n in ret (m :: ms)
  end.

(** A message whose data can be exchanged: the size fits in an [int] and is
    that of the buffer. *)
Definition sendable (m : crm_ipc_msg) : Prop :=
  0 <= data_size m <= INT_MAX /\ Z.of_nat (length (data m)) = data_size m.

(** What the receiver sees: the 64-bit scalar cut down to an [int]. *)
Definition received (m : crm_ipc_msg) : crm_ipc_msg :=
  mk_msg (i32 (scalar m)) (data_size m) (data m).

Section pipe_theory.

Lemma int_bytes_value z : is_int z ->
  match int_bytes z with
  | [b0; b1; b2; b3] => bytes_int b0 b1 b2 b3 = z
  | _ => False
  end.
Proof.
  intros Hz. cbn. unfold bytes_int.
  assert (z mod 256 + 256 * ((z / 256) mod 256) + 65536 * ((z / 65536) mod 256) +
          16777216 * ((z / 16777216) mod 256) = u32 z) as ->.
  { unfold u32.
    replace (z / 65536) with (z / 256 / 256) by (by rewrite Z.div_div).
    replace (z / 16777216) with (z / 256 / 256 / 256) by (by rewrite !Z.div_div).
    pose proof (Z.div_mod z 256 ltac:(lia)). pose proof (Z.div_mod (z / 256) 256 ltac:(lia)).
    pose proof (Z.div_mod (z / 256 / 256) 256 ltac:(lia)).
    pose proof (Z.div_mod (z / 256 / 256 / 256) 256 ltac:(lia)).
    pose proof (Z.mod_pos_bound z 256 ltac:(lia)).
    pose proof (Z.mod_pos_bound (z / 256) 256 ltac:(lia)).
    pose proof (Z.mod_pos_bound (z / 256 / 256) 256 ltac:(lia)).
    pose proof (Z.mod_pos_bound (z / 256 / 256 / 256) 256 ltac:(lia)).
    apply (Z.mod_unique_pos z (2 ^ 32) (z / 256 / 256 / 256 / 256)); lia. }
  rewrite i32_u32. by apply i32_small.
Qed.

(** The bytes of one message in the pipe. *)
Definition msg_bytes (m : crm_ipc_msg) : list Z :=
  int_bytes (i32 (scalar m)) ++ int_bytes (i32 (data_size m)) ++ data m.

Lemma wp_send_process m p : sendable m ->
  wp (send_msg_process m) p no_abort (fun b p' _ => b = true /\ p' = p ++ msg_bytes m).
Proof.
  intros [Hn Hl]. unfold send_msg_process, pwrite.
  apply wp_bind. cbn. apply wp_modify. apply wp_bind, wp_when.
  - intros _. rewrite Hl, Z.leb_refl. apply wp_modify, wp_ret. split; [done|].
    rewrite (take_ge (data m)) by lia. unfold msg_bytes. by rewrite <-app_assoc.
  - intros H%Z.ltb_ge. apply wp_ret. split; [done|]. unfold msg_bytes.
    assert (data m = []) as -> by (apply nil_length_inv; lia). done.
Qed.

Lemma wp_pread n p E Q :
  p <> [] -> 0 <= n <= Z.of_nat (length p) ->
  Q (take (Z.to_nat n) p) (drop (Z.to_nat n) p) [] -> wp (pread n) p E Q.
Proof.
  intros Hp Hn HQ. unfold pread. apply wp_bind, wp_get.
  rewrite bool_decide_false by done. apply wp_bind, wp_ASSERT; [|intros ?%Z.leb_gt; lia].
  intros _. apply wp_bind, wp_modify, wp_ret. done.
Qed.

Lemma wp_get_process m p : sendable m ->
  wp get_msg_process (msg_bytes m ++ p) no_abort (fun m' p' _ => m' = received m /\ p' = p).
Proof.
  intros [Hn Hl]. unfold get_msg_process, received.
  apply wp_bind, wp_pread; [done|unfold msg_bytes; rewrite !length_app; cbn; lia|].
  assert (data_size m = i32 (data_size m)) as Hd.
  { symmetry. apply i32_small. unfold is_int, INT_MIN in *. lia. }
  pose proof (int_bytes_value (i32 (scalar m)) (i32_range _)) as Hs.
  pose proof (int_bytes_value (i32 (data_size m)) (i32_range _)) as Hz. rewrite <-Hd in Hz.
  unfold msg_bytes, int_bytes in *. rewrite <-Hd. cbn [take drop app Z.to_nat Pos.to_nat Pos.iter_op] in *.
  change (Z.to_nat 8) with 8%nat. cbn [take drop]. rewrite drop_0.
  apply wp_bind, wp_ASSERT; [intros _|intros ?%Z.leb_gt; lia].
  rewrite Hs, Hz. destruct (Z.ltb_spec 0 (data_size m)) as [Hpos|Hz0].
  - apply wp_bind, wp_pread.
    + destruct (data m); cbn in *; [lia|done].
    + rewrite length_app. lia.
    + apply wp_ret. rewrite take_app_le by lia. rewrite take_ge by lia.
      rewrite drop_app_le by lia. by rewrite drop_ge by lia.
  - apply wp_ret. assert (data m = []) as -> by (apply nil_length_inv; lia).
    cbn. split; [|done]. f_equal. lia.
Qed.

Lemma wp_get_msgs ms p : Forall sendable ms ->
  wp (get_msgs_process (length ms)) (concat (msg_bytes <$> ms) ++ p) no_abort
    (fun ms' p' _ => ms' = received <$> ms /\ p' = p).
Proof.
  induction 1 as [|m ms Hm _ IH]; cbn [get_msgs_process length fmap list_fmap concat]; [by apply wp_ret|].
  rewrite <-app_assoc. apply wp_bind. eapply wp_mono; [by apply wp_get_process|done|].
  intros m' p' o [-> ->]. apply wp_bind. eapply wp_mono; [exact IH|done|].
  intros ms' p' o' [-> ->]. by apply wp_ret.
Qed.

Lemma wp_send_msgs ms p : Forall sendable ms ->
  wp (for_each ms (fun m => send_msg_process m ;; ret tt)) p no_abort
    (fun _ p' _ => p' = p ++ concat (msg_bytes <$> ms)).
Proof.
  intros H. revert p. induction H as [|m ms Hm _ IH]; intros p; cbn [for_each fmap list_fmap concat].
  { apply wp_ret. by rewrite app_nil_r. }
  do 2 apply wp_bind. eapply wp_mono; [by apply wp_send_process|done|].
  intros b p' o [-> ->]. apply wp_ret. eapply wp_mono; [apply IH|done|].
  intros ? p' ? ->. by rewrite app_assoc.
Qed.

End pipe_theory.

(** ** Properties *)

(** The thread queue is a bounded FIFO: any sequence of sends and gets on
    a fresh queue whose descriptors are open runs to its end without an abort
    or a blocking read, returns what an ideal queue of eight messages returns
    (a send to a full queue is refused and loses nothing, a get on an empty
    queue gives nothing), and [dispose] hands exactly the messages still
    queued to [free_routine], oldest first. *)
Lemma thread_queue_is_fifo {A} (zero : A) rfd wfd (ops : list (fifo_op A)) :
  rfd <> -1 -> wfd <> -1 ->
  exists q o, ring_run ops (crm_ipc_init zero rfd wfd) = Ok (fifo_run [] ops).2 q o /\
    contents q = (fifo_run [] ops).1 /\
    dispose true q = (fifo_run [] ops).1.
Proof.
  intros Hr Hw.
  destruct (wp_total _ _ _ (wp_ring_run ops (crm_ipc_init zero rfd wfd) (init_ok zero rfd wfd) (conj Hr Hw)))
    as (rs & q & o & Hrun & Hok & Hf).
  change (contents (crm_ipc_init zero rfd wfd)) with (@nil A) in Hf.
  rewrite <-Hf. exists q, o. split; [done|]. split; [done|].
  destruct Hok. apply dispose_loop_contents; [done..|lia].
Qed.

Lemma thread_queue_is_fifo_witness :
  exists q o, ring_run [Send 4; Send 5; Get; Get; Get] (crm_ipc_init 0 3 4)
      = Ok (fifo_run [] [Send 4; Send 5; Get; Get; Get]).2 q o /\
    contents q = [] /\ dispose true q = [].
Proof. apply (thread_queue_is_fifo 0 3 4 [Send 4; Send 5; Get; Get; Get]); done. Defined.

(** Round trip of the process pipe: after any messages [ms] have been
    sent, as many receptions return them in order with their data, the scalar
    of each cut down to an [int], and leave the pipe as it was; no assertion
    fails and no read blocks. *)
Lemma process_pipe_roundtrip ms :
  Forall sendable ms ->
  exists o, (for_each ms (fun m => send_msg_process m ;; ret tt) ;;
             get_msgs_process (length ms)) [] = Ok (received <$> ms) [] o.
Proof.
  intros H.
  assert (wp (for_each ms (fun m => send_msg_process m ;; ret tt) ;; get_msgs_process (length ms)) []
    no_abort (fun ms' p' _ => ms' = received <$> ms /\ p' = [])) as Hwp.
  { apply wp_bind. eapply wp_mono; [by apply wp_send_msgs|done|].
    intros ? p o ->. cbn [app]. rewrite <-(app_nil_r (concat _)).
    eapply wp_mono; [by apply wp_get_msgs|done|done]. }
  apply wp_total in Hwp as (r & p & o & Hrun & -> & ->). by exists o.
Qed.

Lemma process_pipe_roundtrip_witness :
  exists o, (for_each [mk_msg 4294967297 2 [7; 8]; mk_msg (-1) 0 []]
               (fun m => send_msg_process m ;; ret tt) ;; get_msgs_process 2) []
    = Ok [mk_msg 1 2 [7; 8]; mk_msg (-1) 0 []] [] o.
Proof.
  apply (process_pipe_roundtrip [mk_msg 4294967297 2 [7; 8]; mk_msg (-1) 0 []]).
  repeat constructor; cbn; unfold INT_MAX; lia.
Defined.
