(* ===== verification/Thread.v ===== *)
(** * Threads with their queues (libs/utils/src/thread.c)

    A thread context carries two queues, one for each direction; the caller's
    identity chooses the queue.  The theorem shows that the parent and the child
    see two independent bounded FIFOs, whatever the interleaving. *)

From S2P Require Import Prelude Ipc.
From Stdlib Require Import ZArith Lia.
From stdpp Require Import base tactics list strings option.

Open Scope Z_scope.
Open Scope crm_scope.

Section thread.
Context {A : Type}.

(** [lock], [start_routine] and [arg] are not part of the state; [ipc] keeps the
    length of the C array. *)
Record crm_thread_ctx : Type := mk_thread {
  thread : Z;
  parent : Z;
  detached : bool;
  ipc : list (option (ring A));
}.

Inductive thread_out : Type :=
| FreeRoutine (m : A)
| Join (tid : Z).

#[local] Abbreviation T_ B := (M crm_thread_ctx thread_out B).

Definition CHILD_IDX : Z := 0.
Definition PARENT_IDX : Z := 1.
Definition OTHER_IDX : Z := 2.

(** [self] is [pthread_self()]. *)
Definition get_idx (self : Z) (c : crm_thread_ctx) : Z :=
  if self =? thread c then CHILD_IDX
  else if self =? parent c then PARENT_IDX
  else OTHER_IDX.

Definition set_ipc (idx : Z) (q : option (ring A)) : T_ unit :=
  modify (fun c => mk_thread (thread c) (parent c) (detached c) (<[Z.to_nat idx := q]> (ipc c))).

(** [i_ctx->ipc[idx]]. *)
Definition get_ipc (idx : Z) : T_ (option (ring A)) :=
  let* c := get in
  match ipc c !! Z.to_nat idx with
  | Some q => ret q
  | None => fail (Undefined "i_ctx->ipc[idx]")
  end.

(** An operation on a queue of the array, if it was created. *)
Definition on_ipc {B} (idx : Z) (none : B) (m : M (ring A) Empty_set B) : T_ B :=
  let* q := get_ipc idx in
  match q with
  | None => ret none
  | Some q =>
      match m q with
      | Ok b q' _ => set_ipc idx (Some q') ;; ret b
      | Abort r _ => fail r
      end
  end.

Definition get_poll_fd (self : Z) : T_ Z :=
  let* c := get in
  let idx := get_idx self c in
  ASSERT "idx != OTHER_IDX" (negb (idx =? OTHER_IDX)) ;;
  on_ipc idx (-1) Ipc.get_poll_fd.

Definition get_msg (self : Z) : T_ (option A) :=
  let* c := get in
  let idx := get_idx self c in
  ASSERT "idx != OTHER_IDX" (negb (idx =? OTHER_IDX)) ;;
  on_ipc idx None get_msg_thread.

Definition send_msg (self : Z) (msg : A) : T_ bool :=
  let* c := get in
  let idx := get_idx self c in
  ASSERT "idx != OTHER_IDX" (negb (idx =? OTHER_IDX)) ;;
  on_ipc (1 - idx) false (send_msg_thread msg).

(** The [for] loop of [dispose]. *)
Definition dispose_ipc (free_routine : bool) (i : Z) : T_ unit :=
  let* q := get_ipc i in
  match q with
  | Some q => for_each (Ipc.dispose free_routine q) (fun m => emit (FreeRoutine m))
  | None => ret tt
  end ;;
  set_ipc i None.

Definition dispose (self : Z) (free_routine : bool) : T_ unit :=
  let* c := get in
  (if detached c then ASSERT "get_idx(i_ctx) == CHILD_IDX" (get_idx self c =? CHILD_IDX)
   else ASSERT "get_idx(i_ctx) != CHILD_IDX" (negb (get_idx self c =? CHILD_IDX))) ;;
  for_each [0; 1] (dispose_ipc free_routine) ;;
  when (negb (detached c)) (emit (Join (thread c))).

(** [tid] is the identifier [pthread_create] gives; the descriptors are those of
    the two pipes. *)
Definition crm_thread_init (zero : A) (self tid : Z) (fds : Z * Z * (Z * Z)) (create_ipc is_detached : bool)
    : crm_thread_ctx :=
  mk_thread tid self is_detached
    (if create_ipc then
       [Some (crm_ipc_init zero fds.1.1 fds.1.2); Some (crm_ipc_init zero fds.2.1 fds.2.2)]
     else [None; None]).

(** ** Users of a thread *)

Inductive side : Type := Child | Parent.

Definition tid_of (s : side) (c : crm_thread_ctx) : Z := match s with Child => thread c | Parent => parent c end.

(** An operation of one side. *)
Definition side_step (s : side) (op : fifo_op A) : T_ (fifo_res A) :=
  let* c := get in
  match op with
  | Send m => let* b := send_msg (tid_of s c) m in ret (Sent b)
  | Get => let* m := get_msg (tid_of s c) in ret (Got m)
  end.

Fixpoint side_run (ops : list (side * fifo_op A)) : T_ (list (fifo_res A)) :=
  match ops with
  | [] => ret []
  | (s, op) :: ops => let* r := side_step s op in let* rs := side_run ops in ret (r :: rs)
  end.

(** ** Specification: one inbox for each side *)

(** Whose inbox an operation is on: one sends to the other side. *)
Definition inbox (s : side) (op : fifo_op A) : side :=
  match op, s with
  | Send _, Child => Parent
  | Send _, Parent => Child
  | Get, s => s
  end.

Definition side_eqb (s t : side) : bool :=
  match s, t with Child, Child | Parent, Parent => true | _, _ => false end.

(** What is done to the inbox of [t]. *)
Definition inbox_ops (t : side) (ops : list (side * fifo_op A)) : list (fifo_op A) :=
  omap (fun p => if side_eqb (inbox p.1 p.2) t then Some p.2 else None) ops.

(** The results of the operations on the inbox of [t]. *)
Definition inbox_results (t : side) (ops : list (side * fifo_op A)) (rs : list (fifo_res A)) : list (fifo_res A) :=
  omap (fun p => if side_eqb (inbox p.1.1 p.1.2) t then Some p.2 else None) (zip ops rs).

End thread.
Arguments crm_thread_ctx : clear implicits.
Arguments thread_out : clear implicits.

Section theory.
Context {A : Type}.
Implicit Types (c : crm_thread_ctx A).

(** The context of a thread whose queues were created. *)
Record threaded c (qc qp : ring A) : Prop := {
  th_distinct : thread c <> parent c;
  th_ipc : ipc c = [Some qc; Some qp];
  th_child : ring_ok qc /\ opened qc;
  th_parent : ring_ok qp /\ opened qp;
}.

Definition queue_of (t : side) (qc qp : ring A) : ring A := match t with Child => qc | Parent => qp end.
Definition set_queue (t : side) (q qc qp : ring A) : ring A * ring A :=
  match t with Child => (q, qp) | Parent => (qc, q) end.

Lemma get_idx_side s c : thread c <> parent c -> get_idx (tid_of s c) c = match s with Child => 0 | Parent => 1 end.
Proof.
  intros Hd. unfold get_idx, tid_of. destruct s; [by rewrite Z.eqb_refl|].
  destruct (Z.eqb_spec (parent c) (thread c)); [congruence|]. by rewrite Z.eqb_refl.
Qed.

(** A step of one side is a step of the queue of the inbox it concerns, and
    leaves the other queue alone. *)
Lemma wp_side_step s op c qc qp :
  threaded c qc qp ->
  wp (side_step s op) c no_abort (fun r c' _ => exists q,
    let t := inbox s op in
    (contents q, r) = fifo_step (contents (queue_of t qc qp)) op /\
    thread c' = thread c /\ parent c' = parent c /\ detached c' = detached c /\
    threaded c' (set_queue t q qc qp).1 (set_queue t q qc qp).2).
Proof.
  intros [Hd Hi [Hc1 Hc2] [Hp1 Hp2]]. unfold side_step. apply wp_bind, wp_get.
  assert (ring_ok (queue_of (inbox s op) qc qp) /\ opened (queue_of (inbox s op) qc qp)) as [Hq1 Hq2]
    by (by destruct (inbox s op)).
  pose proof (get_idx_side s c Hd) as Hidx.
  destruct op as [m|].
  - apply wp_bind. unfold send_msg. apply wp_bind, wp_get. rewrite Hidx.
    apply wp_bind, wp_ASSERT; [intros _|by destruct s]. unfold on_ipc, get_ipc.
    apply wp_bind, wp_bind, wp_get. rewrite Hi.
    pose proof (wp_send _ m Hq1 Hq2) as Hw. unfold wp in Hw.
    destruct s; cbn in Hw |- *; apply wp_ret; destruct (send_msg_thread m _) as [b q o|]; try done;
      destruct Hw as (W1 & W2 & W3); apply wp_bind, wp_modify, wp_ret, wp_ret; exists q; cbn; rewrite Hi; by split_and!.
  - apply wp_bind. unfold get_msg. apply wp_bind, wp_get. rewrite Hidx.
    apply wp_bind, wp_ASSERT; [intros _|by destruct s]. unfold on_ipc, get_ipc.
    apply wp_bind, wp_bind, wp_get. rewrite Hi.
    pose proof (wp_get_msg _ Hq1 Hq2) as Hw. unfold wp in Hw.
    destruct s; cbn in Hw |- *; apply wp_ret; destruct (get_msg_thread _) as [b q o|]; try done;
      destruct Hw as (W1 & W2 & W3); apply wp_bind, wp_modify, wp_ret, wp_ret; exists q; cbn; rewrite Hi; by split_and!.
Qed.

Lemma wp_side_run ops c qc qp :
  threaded c qc qp ->
  wp (side_run ops) c no_abort (fun rs c' _ => exists qc' qp',
    thread c' = thread c /\ parent c' = parent c /\ detached c' = detached c /\ threaded c' qc' qp' /\
    forall t, (contents (queue_of t qc' qp'), inbox_results t ops rs) =
      fifo_run (contents (queue_of t qc qp)) (inbox_ops t ops)).
Proof.
  revert c qc qp. induction ops as [|[s op] ops IH]; intros c qc qp Hc; cbn [side_run].
  { apply wp_ret. exists qc, qp. by split_and!. }
  apply wp_bind. eapply wp_mono; [by apply wp_side_step|done|]. intros r c1 o (q & Hs & E1 & E2 & E3 & H1).
  apply wp_bind. eapply wp_mono; [by apply IH|done|]. intros rs c2 o2 (qc' & qp' & F1 & F2 & F3 & H2 & Hr).
  apply wp_ret. exists qc', qp'. split_and!; [congruence..|done|]. intros t. specialize (Hr t).
  unfold inbox_ops, inbox_results. cbn [zip_with omap list_omap fst snd].
  change (omap _ (zip ops rs)) with (inbox_results t ops rs). change (omap _ ops) with (inbox_ops t ops).
  destruct (inbox s op), t; cbn [side_eqb queue_of set_queue fst snd] in *; try done;
    cbn [fifo_run]; rewrite <-Hs, <-Hr; done.
Qed.

Lemma wp_dispose_ipc c qs i q :
  ipc c = qs -> qs !! Z.to_nat i = Some (Some q) -> ring_ok q ->
  wp (dispose_ipc true i) c no_abort (fun _ c' o =>
    o = FreeRoutine <$> contents q /\ thread c' = thread c /\ ipc c' = <[Z.to_nat i := None]> qs).
Proof.
  intros Hi Hq Hok. unfold dispose_ipc, get_ipc. apply wp_bind, wp_bind, wp_get. rewrite Hi, Hq. apply wp_ret.
  apply wp_bind.
  assert (Ipc.dispose true q = contents q) as ->.
  { destruct Hok. apply dispose_loop_contents; [done..|lia]. }
  assert (forall (l : list A) c, wp (for_each l (fun m => emit (FreeRoutine m))) c no_abort (fun _ c' o => c' = c /\ o = FreeRoutine <$> l)) as Hl.
  { induction l as [|m l IH]; intros c0; cbn [for_each]; [by apply wp_ret|]. apply wp_bind, wp_emit.
    eapply wp_mono; [apply IH|done|]. intros ? c' o [-> ->]. done. }
  eapply wp_mono; [apply Hl|done|]. intros ? c' o [-> ->]. apply wp_modify. cbn. rewrite app_nil_r, Hi. done.
Qed.

Lemma wp_dispose_joinable c qc qp self :
  threaded c qc qp -> detached c = false -> self <> thread c ->
  wp (dispose self true) c no_abort (fun _ c' o =>
    o = (FreeRoutine <$> contents qc) ++ (FreeRoutine <$> contents qp) ++ [Join (thread c)] /\ ipc c' = [None; None]).
Proof.
  intros [Hd Hi [Hc _] [Hp _]] Hdet Hself. unfold dispose. apply wp_bind, wp_get. rewrite Hdet.
  apply wp_bind, wp_ASSERT; [intros _|].
  - apply wp_bind. cbn [for_each]. apply wp_bind.
    eapply wp_mono; [by eapply (wp_dispose_ipc c _ 0 qc)|done|]. intros ? c1 o1 (-> & E1 & I1).
    apply wp_bind. eapply wp_mono; [by eapply (wp_dispose_ipc c1 _ 1 qp)|done|]. intros ? c2 o2 (-> & E2 & I2).
    apply wp_ret. apply wp_when; [intros _|done]. apply wp_emit. cbn in I2. rewrite app_nil_r, <-app_assoc. done.
  - unfold get_idx. destruct (Z.eqb_spec self (thread c)); [congruence|]. by destruct (self =? parent c).
Qed.

End theory.

(** C3. The two directions of a thread are two independent bounded FIFOs:
    whatever the parent and the child of a thread created with its queues send
    and read, in any interleaving, nothing aborts or blocks; what is done to the
    inbox of each side gives the results and the contents of an ideal queue of
    eight messages fed only by the other side; and when the parent then disposes
    of the thread, the messages still unread are freed exactly once, those of
    the child first, before the child is joined. *)
Theorem thread_is_two_fifos {A} (zero : A) self tid r0 w0 r1 w1 ops :
  self <> tid -> r0 <> -1 -> w0 <> -1 -> r1 <> -1 -> w1 <> -1 ->
  exists rs c o c' o',
    side_run ops (crm_thread_init zero self tid ((r0, w0), (r1, w1)) true false) = Ok rs c o /\
    (forall t, inbox_results t ops rs = (fifo_run [] (inbox_ops t ops)).2) /\
    dispose self true c = Ok tt c' o' /\
    o' = (FreeRoutine <$> (fifo_run [] (inbox_ops Child ops)).1) ++
         (FreeRoutine <$> (fifo_run [] (inbox_ops Parent ops)).1) ++ [Join tid].
Proof.
  intros Hd H1 H2 H3 H4.
  assert (threaded (crm_thread_init zero self tid ((r0, w0), (r1, w1)) true false)
    (crm_ipc_init zero r0 w0) (crm_ipc_init zero r1 w1)) as Hinit.
  { split; [done|done| |]; (split; [apply init_ok|done]). }
  destruct (wp_total _ _ _ (wp_side_run ops _ _ _ Hinit)) as (rs & c & o & Hrun & qc & qp & E1 & E2 & E3 & Hc & Hr).
  cbn in E1, E2, E3.
  destruct (wp_total _ _ _ (wp_dispose_joinable c qc qp self Hc E3 ltac:(congruence))) as ([] & c' & o' & Hdis & -> & _).
  exists rs, c, o, c'. eexists. split; [done|]. split; [|split; [done|]].
  - intros t. specialize (Hr t). assert (contents (queue_of t (crm_ipc_init zero r0 w0) (crm_ipc_init zero r1 w1)) = []) as He
      by (by destruct t). rewrite He in Hr. by rewrite <-Hr.
  - pose proof (Hr Child) as Hrc. pose proof (Hr Parent) as Hrp. cbn in Hrc, Hrp.
    change (contents (crm_ipc_init zero r0 w0)) with (@nil A) in Hrc.
    change (contents (crm_ipc_init zero r1 w1)) with (@nil A) in Hrp. rewrite <-Hrc, <-Hrp, E1. done.
Qed.

(** A third thread that sends, reads or polls aborts, and so does a joinable
    thread that disposes of itself. *)
Lemma outsiders_abort {A} self (m : A) c :
  self <> thread c -> self <> parent c ->
  send_msg self m c = Abort (AssertFail "idx != OTHER_IDX") [] /\
  get_msg self c = Abort (AssertFail "idx != OTHER_IDX") [] /\
  get_poll_fd self c = Abort (AssertFail "idx != OTHER_IDX") [].
Proof.
  intros H1 H2. assert (get_idx self c = OTHER_IDX) as Hi.
  { unfold get_idx. by destruct (Z.eqb_spec self (thread c)), (Z.eqb_spec self (parent c)). }
  unfold send_msg, get_msg, get_poll_fd, bind, get. by rewrite Hi.
Qed.

(** Without queues, messages are refused. *)
Lemma no_queues_refuse {A} (zero m : A) self tid fds d s :
  side_step s (Send m) (crm_thread_init zero self tid fds false d) =
    Ok (Sent false) (crm_thread_init zero self tid fds false d) [] \/ self = tid.
Proof.
  destruct (Z.eq_dec self tid) as [|Hne]; [by right|left].
  pose proof (get_idx_side s (crm_thread_init zero self tid fds false d) ltac:(cbn; congruence)) as Hi.
  unfold side_step, send_msg, bind, get. rewrite Hi. by destruct s.
Qed.

Lemma thread_is_two_fifos_witness :
  exists rs c o c' o',
    side_run [(Parent, Send 4); (Child, Send 5); (Child, Get); (Child, Get); (Parent, Send 6)]
      (crm_thread_init 0 1 2 ((3, 4), (5, 6)) true false) = Ok rs c o /\
    (forall t, inbox_results t [(Parent, Send 4); (Child, Send 5); (Child, Get); (Child, Get); (Parent, Send 6)] rs =
      (fifo_run [] (inbox_ops t [(Parent, Send 4); (Child, Send 5); (Child, Get); (Child, Get); (Parent, Send 6)])).2) /\
    dispose 1 true c = Ok tt c' o' /\ o' = [FreeRoutine 6; FreeRoutine 5; Join 2].
Proof.
  exact (thread_is_two_fifos 0 1 2 3 4 5 6 [(Parent, Send 4); (Child, Send 5); (Child, Get); (Child, Get); (Parent, Send 6)]
    ltac:(done) ltac:(done) ltac:(done) ltac:(done) ltac:(done)).
Defined.
