(* ===== verification/Wakelock.v ===== *)
(** * The wakelock (libs/wakelock/java_bridge/src/wakelock.c, inc/utils/wakelock.h)

    One counter per module, and a thread that keeps the platform wakelock, held
    through a connection to the Java bridge, in agreement with the counters.
    The watchdog and CLA use the wakelock through the class [WakelockLaws],
    which the implementation instantiates. *)

From S2P Require Import Prelude Ipc.
From Stdlib Require Import ZArith Lia.
From stdpp Require Import base tactics list strings option relations.

Open Scope Z_scope.
Open Scope crm_scope.

(** The module identifiers of inc/utils/wakelock.h. *)
Definition WAKELOCK_WATCHDOG_PING : Z := 0.
Definition WAKELOCK_WATCHDOG_REQ : Z := 1.
Definition WAKELOCK_CLA : Z := 2.
Definition WAKELOCK_MDMCLI : Z := 3.

Definition MAX_MODULE : Z := 5.

(** ** Interface *)

(** What a user of the wakelock may call ([Z] is the type of the messages the
    operations send to the wakelock thread), and how often each module holds
    it. *)
Class WakelockOps (W : Type) : Type := {
  wl_acquire : Z -> M W Z unit;
  wl_release : Z -> M W Z unit;
  wl_is_held_by_module : Z -> M W Z bool;
  wl_is_held : M W Z bool;
  wl_count : W -> Z -> Z;
  wl_valid : W -> Prop;
}.

Definition is_module (m : Z) : Prop := 0 <= m < MAX_MODULE.

(** The promise made to the users: counters never negative, one up per
    acquisition, one down per release of a held module, the other modules
    untouched.  Nothing is promised about the release of a module that is not held:
    the two implementations differ there. *)
Class WakelockLaws (W : Type) `{WakelockOps W} : Prop := {
  wl_count_nonneg w m : wl_valid w -> is_module m -> 0 <= wl_count w m;
  wl_acquire_spec w m : wl_valid w -> is_module m -> wl_count w m < INT_MAX ->
    wp (wl_acquire m) w no_abort (fun _ w' _ =>
      wl_valid w' /\ wl_count w' m = wl_count w m + 1 /\
      forall m', is_module m' -> m' <> m -> wl_count w' m' = wl_count w m');
  wl_release_spec w m : wl_valid w -> is_module m -> 0 < wl_count w m ->
    wp (wl_release m) w no_abort (fun _ w' _ =>
      wl_valid w' /\ wl_count w' m = wl_count w m - 1 /\
      forall m', is_module m' -> m' <> m -> wl_count w' m' = wl_count w m');
  wl_is_held_by_module_spec w m : wl_valid w -> is_module m ->
    wp (wl_is_held_by_module m) w no_abort (fun b w' _ =>
      w' = w /\ b = (0 <? wl_count w m));
  wl_is_held_spec w : wl_valid w ->
    wp wl_is_held w no_abort (fun b w' _ =>
      w' = w /\ (b = true <-> exists m, is_module m /\ 0 < wl_count w m));
}.

(** ** Implementation *)

(** [crm_wakelock_internal_ctx]: the counters; the bridge, the queue and the
    thread are in [thread_st] below. *)
Record wakelock_ctx : Type := mk_wakelock { count : list Z }.

Definition crm_wakelock_init : wakelock_ctx :=
  mk_wakelock (replicate (Z.to_nat MAX_MODULE) 0).

Definition ASSERT_module (module_id : Z) : M wakelock_ctx Z unit :=
  ASSERT "module_id >= 0 && module_id < (int)ARRAY_SIZE(i_ctx->count)"
    ((0 <=? module_id) && (module_id <? MAX_MODULE)).

Definition get_count (w : wakelock_ctx) (module_id : Z) : Z :=
  default 0 (count w !! Z.to_nat module_id).

Definition set_count (module_id : Z) (n : Z) (w : wakelock_ctx) : wakelock_ctx :=
  mk_wakelock (<[ Z.to_nat module_id := n ]> (count w)).

Definition is_held_by_module (module_id : Z) : M wakelock_ctx Z bool :=
  ASSERT_module module_id ;;
  let* w := get in ret (0 <? get_count w module_id).

(** The [for] loop of [is_held], with its [break]. *)
Fixpoint any_held (l : list Z) : bool :=
  match l with
  | [] => false
  | c :: l => if 0 <? c then true else any_held l
  end.

Definition is_held : M wakelock_ctx Z bool := gets (fun w => any_held (count w)).

(** Incrementing [INT_MAX] is a signed overflow. *)
Definition acquire (module_id : Z) : M wakelock_ctx Z unit :=
  ASSERT_module module_id ;;
  let* w := get in
  (if get_count w module_id =? INT_MAX then fail (Undefined "i_ctx->count[module_id]++")
   else modify (set_count module_id (get_count w module_id + 1))) ;;
  emit 1.

Definition release (module_id : Z) : M wakelock_ctx Z unit :=
  ASSERT_module module_id ;;
  let* w := get in
  when (0 <? get_count w module_id)
    (modify (set_count module_id (get_count w module_id - 1))) ;;
  emit 1.

#[export] Instance wakelock_ops : WakelockOps wakelock_ctx := {
  wl_acquire := acquire;
  wl_release := release;
  wl_is_held_by_module := is_held_by_module;
  wl_is_held := is_held;
  wl_count := get_count;
  wl_valid w := length (count w) = Z.to_nat MAX_MODULE /\ Forall (fun c => 0 <= c) (count w);
}.

Section impl.
Implicit Types (w : wakelock_ctx).

Lemma get_count_some w m : wl_valid w -> is_module m ->
  count w !! Z.to_nat m = Some (get_count w m) /\ 0 <= get_count w m.
Proof.
  intros [Hl Hf] Hm. unfold get_count.
  destruct (lookup_lt_is_Some_2 (count w) (Z.to_nat m)) as [c Hc].
  { unfold is_module, MAX_MODULE in *. lia. }
  rewrite Hc. cbn. split; [done|]. by eapply Forall_lookup_1 in Hf.
Qed.

Lemma ASSERT_module_wp m w E Q : is_module m -> Q tt w [] -> wp (ASSERT_module m) w E Q.
Proof.
  intros [H1 H2] HQ. apply wp_ASSERT; [done|]. rewrite andb_false_iff, Z.leb_gt, Z.ltb_ge. lia.
Qed.

Lemma set_count_spec w m n : wl_valid w -> is_module m -> 0 <= n ->
  wl_valid (set_count m n w) /\ get_count (set_count m n w) m = n /\
  forall m', is_module m' -> m' <> m -> get_count (set_count m n w) m' = get_count w m'.
Proof.
  intros Hv Hm Hn. destruct (get_count_some w m Hv Hm) as [Hc _]. destruct Hv as [Hl Hf].
  unfold get_count, set_count. cbn. split_and!.
  - by rewrite length_insert.
  - by apply Forall_insert.
  - rewrite list_lookup_insert_eq; [done|]. by eapply lookup_lt_Some.
  - intros m' Hm' Hne. rewrite list_lookup_insert_ne; [done|].
    unfold is_module in *. intros ?%Z2Nat.inj; lia.
Qed.

Lemma any_held_elem l : any_held l = true <-> exists c, c ∈ l /\ 0 < c.
Proof.
  induction l as [|c l IH]; cbn.
  - split; [done|]. intros (? & ?%elem_of_nil & _). done.
  - destruct (Z.ltb_spec 0 c) as [Hc|Hc].
    + split; [|done]. intros _. exists c. split; [left|done].
    + rewrite IH. split; intros (c' & Hin & Hpos).
      * exists c'. split; [by right|done].
      * apply elem_of_cons in Hin as [->|Hin]; [lia|eauto].
Qed.

Lemma any_held_count w : wl_valid w ->
  any_held (count w) = true <-> exists m, is_module m /\ 0 < get_count w m.
Proof.
  intros Hv. rewrite any_held_elem. split.
  - intros (c & Hin & Hpos). apply list_elem_of_lookup in Hin as [i Hi].
    assert (is_module (Z.of_nat i)) as Hm.
    { apply lookup_lt_Some in Hi. destruct Hv as [Hl _]. rewrite Hl in Hi.
      unfold is_module, MAX_MODULE in *. lia. }
    exists (Z.of_nat i). split; [done|]. unfold get_count. by rewrite Nat2Z.id, Hi.
  - intros (m & Hm & Hpos). destruct (get_count_some w m Hv Hm) as [Hc _].
    exists (get_count w m). split; [|done]. by eapply list_elem_of_lookup_2.
Qed.

#[export] Instance wakelock_laws : WakelockLaws wakelock_ctx.
Proof.
  split.
  - intros w m Hv Hm. by apply get_count_some.
  - intros w m Hv Hm Hlt. cbn. unfold acquire.
    apply wp_bind, ASSERT_module_wp; [done|]. apply wp_bind, wp_get. apply wp_bind.
    destruct (get_count_some w m Hv Hm) as [_ Hpos].
    destruct (Z.eqb_spec (get_count w m) INT_MAX); [cbn in *; lia|].
    apply wp_modify, wp_emit. apply set_count_spec; [done..|lia].
  - intros w m Hv Hm Hheld. cbn in Hheld |- *. unfold release.
    apply wp_bind, ASSERT_module_wp; [done|]. apply wp_bind, wp_get. apply wp_bind, wp_when; [|intros ?%Z.ltb_ge; lia].
    intros _. apply wp_modify, wp_emit. by apply set_count_spec; [done..|lia].
  - intros w m Hv Hm. cbn. unfold is_held_by_module.
    apply wp_bind, ASSERT_module_wp; [done|]. apply wp_bind, wp_get, wp_ret. done.
  - intros w Hv. cbn. apply wp_gets. split; [done|]. by apply any_held_count.
Qed.

Lemma init_valid : wl_valid crm_wakelock_init.
Proof. split; [done|]. by apply Forall_replicate. Qed.

End impl.

(** ** The wakelock thread, interleaved with its users

    Control points of [wakelock_thread]: the top of the loop, the test of
    [to_update], the call of [bridge->wakelock(acquire)], the [poll], and the
    exit.  [in_flight] counts users that have changed a counter (under the
    lock) and not yet sent their message. *)

Inductive thread_pc : Type :=
| AtTop
| AtUpdate
| AtBridge (acquire : bool)
| AtPoll
| AtExit.

Record thread_st : Type := mk_thread {
  ctx : wakelock_ctx;
  queue : list Z;
  in_flight : nat;
  pc : thread_pc;
  b_fd : Z;
  wakelock_acquired : bool;
  to_update : bool;
}.

Definition thread_init (w : wakelock_ctx) : thread_st :=
  mk_thread w [] 0 AtTop (-1) false false.

(** A message sent to the thread's queue; a full queue refuses it and the
    result of [send_msg] is not looked at. *)
Definition enqueue (q : list Z) (m : Z) : list Z := fst (fifo_step q (Send m)).

(** One step of a user or of the thread.  The results of the bridge
    ([connect], its descriptor, [wakelock], [handle_poll_event]) are free. *)
Inductive thread_step : thread_st -> thread_st -> Prop :=
| step_user m (f : Z -> M wakelock_ctx Z unit) w w' o q n p b a u :
    f = acquire \/ f = release ->
    f m w = Ok tt w' o ->
    thread_step (mk_thread w q n p b a u) (mk_thread w' q (S n) p b a u)
| step_send w q n p b a u :
    thread_step (mk_thread w q (S n) p b a u) (mk_thread w (enqueue q 1) n p b a u)
| step_top_connected w q n b a u :
    0 <= b ->
    thread_step (mk_thread w q n AtTop b a u) (mk_thread w q n AtUpdate b a u)
| step_top_connect w q n b a u fd :
    b < 0 -> 0 <= fd ->
    thread_step (mk_thread w q n AtTop b a u) (mk_thread w q n AtUpdate fd false true)
| step_top_refused w q n b a u :
    b < 0 ->
    thread_step (mk_thread w q n AtTop b a u) (mk_thread w q n AtUpdate b false u)
| step_no_update w q n b a :
    thread_step (mk_thread w q n AtUpdate b a false) (mk_thread w q n AtPoll b a false)
| step_update_same w q n b a :
    any_held (count w) = a ->
    thread_step (mk_thread w q n AtUpdate b a true) (mk_thread w q n AtPoll b a false)
| step_update_differs w q n b a :
    any_held (count w) <> a ->
    thread_step (mk_thread w q n AtUpdate b a true)
      (mk_thread w q n (AtBridge (any_held (count w))) b a false)
| step_bridge_done w q n acq b a u :
    thread_step (mk_thread w q n (AtBridge acq) b a u) (mk_thread w q n AtPoll b acq u)
| step_bridge_failed w q n acq b a u :
    thread_step (mk_thread w q n (AtBridge acq) b a u) (mk_thread w q n AtPoll (-1) a u)
| step_poll_timeout w q n b a u :
    b < 0 ->
    thread_step (mk_thread w q n AtPoll b a u) (mk_thread w q n AtTop b a u)
| step_poll_msg w m q n b a u :
    m <> -1 ->
    thread_step (mk_thread w (m :: q) n AtPoll b a u) (mk_thread w q n AtTop b a true)
| step_poll_exit w q n b a u :
    thread_step (mk_thread w (-1 :: q) n AtPoll b a u) (mk_thread w q n AtExit b a u)
| step_poll_bridge w n b a u :
    thread_step (mk_thread w [] n AtPoll b a u) (mk_thread w [] n AtTop b a u)
| step_poll_bridge_lost w n b a u :
    thread_step (mk_thread w [] n AtPoll b a u) (mk_thread w [] n AtTop (-1) a u).

(** Something will make the thread look at the counters again. *)
Definition notified (t : thread_st) : Prop := queue t <> [] \/ in_flight t <> 0%nat.

Definition in_sync (t : thread_st) : Prop :=
  match pc t with
  | AtTop | AtUpdate =>
      0 <= b_fd t ->
      wakelock_acquired t = any_held (count (ctx t)) \/ to_update t = true \/ notified t
  | AtPoll => 0 <= b_fd t -> wakelock_acquired t = any_held (count (ctx t)) \/ notified t
  | AtBridge acq => acq = any_held (count (ctx t)) \/ notified t
  | AtExit => True
  end.

Lemma enqueue_nonempty q m : enqueue q m <> [].
Proof.
  unfold enqueue. cbn. destruct q as [|x q]; [done|].
  by destruct (Z.of_nat (length (x :: q)) <? MSG_QUEUE_SIZE).
Qed.

Lemma in_sync_step t t' : in_sync t -> thread_step t t' -> in_sync t'.
Proof.
  unfold in_sync, notified. intros Hs Hstep. destruct Hstep; cbn in *;
    try (by destruct p; auto 10 using enqueue_nonempty);
    try (intros; lia); intuition congruence.
Qed.

(** C4. The wakelock thread never misses an update: in any interleaving of the
    users' acquisitions and releases, of their notifications (dropped when the
    queue is full) and of the thread's own steps, whenever the thread is
    waiting in [poll] with a connected bridge, no notification is pending and
    no user is between its counter update and its notification, the platform
    wakelock is held exactly when some module's counter is positive. *)
Theorem wakelock_thread_in_sync w t :
  rtc thread_step (thread_init w) t ->
  pc t = AtPoll -> 0 <= b_fd t -> queue t = [] -> in_flight t = 0%nat ->
  wakelock_acquired t = any_held (count (ctx t)).
Proof.
  intros Hr Hpc Hfd Hq Hf.
  assert (in_sync t) as Hs.
  { revert Hr. generalize (thread_init w) (ltac:(intros H; cbn in H; lia) : in_sync (thread_init w)).
    intros t0 H0 Hr. clear -H0 Hr. induction Hr; eauto using in_sync_step. }
  unfold in_sync in Hs. rewrite Hpc in Hs. destruct (Hs Hfd) as [|[]]; congruence.
Qed.

Lemma wakelock_thread_in_sync_witness :
  wakelock_acquired (mk_thread (mk_wakelock [0; 1; 0; 0; 0]) [] 0 AtPoll 7 true false) = true.
Proof.
  apply (wakelock_thread_in_sync crm_wakelock_init); [|reflexivity|cbn; lia|reflexivity..].
  eapply rtc_l; [apply (step_top_connect _ _ _ _ _ _ 7); lia|].
  eapply rtc_l; [by apply step_update_same|].
  eapply rtc_l; [eapply (step_user 1 acquire); [by left|reflexivity]|].
  eapply rtc_l; [apply step_send|].
  eapply rtc_l; [by apply step_poll_msg|].
  eapply rtc_l; [apply step_top_connected; lia|].
  eapply rtc_l; [by apply step_update_differs|].
  eapply rtc_l; [apply step_bridge_done|]. apply rtc_refl.
Defined.
