(* ===== verification/CppWakelock.v ===== *)
(** * The C++ wakelock (libs/wakelock/cpp_bridge)

    The variant of the wakelock over Android's power manager: a multiplexer of the
    modules (CrmWakelockMux.cpp) and a service that connects to the power manager in
    a thread of its own and holds the platform wakelock through it
    (CrmWakelockServiceAndroid.cpp).  The multiplexer is an instance of
    [WakelockLaws], so the properties of the watchdog and of CLA hold with it as
    well.  The answers of the power manager are arguments. *)

From S2P Require Import Prelude Ipc Wakelock.
From Stdlib Require Import ZArith Lia.
From stdpp Require Import base tactics list strings option gmap fin_maps.

Open Scope Z_scope.
Open Scope crm_scope.

(** ** The multiplexer *)

(** [_counterMap]. *)
Record mux : Type := mk_mux { counterMap : gmap Z Z }.

(** The calls of the service: 1 is [acquire], 0 is [release]. *)
Definition SERVICE_ACQUIRE : Z := 1.
Definition SERVICE_RELEASE : Z := 0.

#[local] Abbreviation X_ A := (M mux Z A).

Definition isHeldBy (moduleId : Z) : X_ bool :=
  ASSERT "moduleId >= 0" (0 <=? moduleId) ;;
  let* s := get in
  ret (match counterMap s !! moduleId with Some n => 0 <? n | None => false end).

(** The loop over the map, with its [break]. *)
Definition isHeld : X_ bool :=
  gets (fun s => any_held ((map_to_list (counterMap s)).*2)).

Definition set_counter (moduleId n : Z) : X_ unit := modify (fun s => mk_mux (<[moduleId := n]> (counterMap s))).

(** Incrementing [INT_MAX] is a signed overflow. *)
Definition increaseCounter (moduleId : Z) : X_ unit :=
  let* s := get in
  match counterMap s !! moduleId with
  | Some n => if n =? INT_MAX then fail (Undefined "it->second++") else set_counter moduleId (n + 1)
  | None => set_counter moduleId 1
  end.

Definition decreaseCounter (moduleId : Z) : X_ unit :=
  let* s := get in
  match counterMap s !! moduleId with
  | Some n => set_counter moduleId (n - 1) ;; ASSERT "it->second >= 0" (0 <=? n - 1)
  | None => ASSERT "0" false
  end.

Definition mux_acquire (moduleId : Z) : X_ unit :=
  ASSERT "moduleId >= 0" (0 <=? moduleId) ;;
  let* held := isHeld in
  when (negb held) (emit SERVICE_ACQUIRE) ;;
  increaseCounter moduleId.

Definition mux_release (moduleId : Z) : X_ unit :=
  ASSERT "moduleId >= 0" (0 <=? moduleId) ;;
  decreaseCounter moduleId ;;
  let* held := isHeld in
  when (negb held) (emit SERVICE_RELEASE).

Definition mux_init : mux := mk_mux ∅.

Definition counter (s : mux) (m : Z) : Z := default 0 (counterMap s !! m).

(** The counters are those of modules, and never negative. *)
Definition mux_valid (s : mux) : Prop := map_Forall (fun m n => is_module m /\ 0 <= n) (counterMap s).

#[export] Instance mux_ops : WakelockOps mux := {
  wl_acquire := mux_acquire;
  wl_release := mux_release;
  wl_is_held_by_module := isHeldBy;
  wl_is_held := isHeld;
  wl_count := counter;
  wl_valid := mux_valid;
}.

Section mux_theory.
Implicit Types (s : mux).

Lemma mux_held s : mux_valid s ->
  any_held ((map_to_list (counterMap s)).*2) = true <-> exists m, is_module m /\ 0 < counter s m.
Proof.
  intros Hv. rewrite any_held_elem. split.
  - intros (n & Hn & Hpos). apply list_elem_of_fmap in Hn as ([m n'] & -> & Hm). apply elem_of_map_to_list in Hm.
    exists m. split; [by apply (Hv m n')|]. unfold counter. by rewrite Hm.
  - intros (m & _ & Hpos). unfold counter in Hpos. destruct (counterMap s !! m) as [n|] eqn:Hm; cbn in Hpos; [|lia].
    exists n. split; [|done]. apply list_elem_of_fmap. exists (m, n). split; [done|]. by apply elem_of_map_to_list.
Qed.

Lemma counter_nonneg s m : mux_valid s -> 0 <= counter s m.
Proof. intros Hv. unfold counter. destruct (counterMap s !! m) as [n|] eqn:Hm; cbn; [by apply (Hv m n)|lia]. Qed.

(** One counter changed. *)
Lemma set_counter_spec s m n :
  mux_valid s -> is_module m -> 0 <= n ->
  mux_valid (mk_mux (<[m := n]> (counterMap s))) /\ counter (mk_mux (<[m := n]> (counterMap s))) m = n /\
  forall m', is_module m' -> m' <> m -> counter (mk_mux (<[m := n]> (counterMap s))) m' = counter s m'.
Proof.
  intros Hv Hm Hn. unfold counter. cbn. split_and!.
  - by apply map_Forall_insert_2.
  - by rewrite lookup_insert_eq.
  - intros m' _ Hne. by rewrite lookup_insert_ne.
Qed.

#[export] Instance mux_laws : WakelockLaws mux.
Proof.
  split; cbn.
  - intros w m Hv _. by apply counter_nonneg.
  - intros w m Hv Hm Hlt. unfold mux_acquire, isHeld. apply wp_bind, wp_ASSERT; [intros _|rewrite Z.leb_gt; destruct Hm; lia].
    apply wp_bind, wp_gets, wp_bind.
    assert (wp (increaseCounter m) w no_abort (fun _ w' _ => mux_valid w' /\ counter w' m = counter w m + 1 /\
      forall m', is_module m' -> m' <> m -> counter w' m' = counter w m')) as Hi.
    { unfold increaseCounter. apply wp_bind, wp_get. pose proof (counter_nonneg w m Hv). unfold counter in *.
      destruct (counterMap w !! m) as [n|] eqn:Hn; cbn in *.
      - destruct (Z.eqb_spec n INT_MAX); [lia|]. apply wp_modify. by apply set_counter_spec; [..|lia].
      - apply wp_modify. by apply set_counter_spec; [..|lia]. }
    apply wp_when; intros _; [apply wp_emit|]; exact Hi.
  - intros w m Hv Hm Hh. unfold mux_release, isHeld. apply wp_bind, wp_ASSERT; [intros _|rewrite Z.leb_gt; destruct Hm; lia].
    apply wp_bind. unfold decreaseCounter. apply wp_bind, wp_get. unfold counter in Hh.
    destruct (counterMap w !! m) as [n|] eqn:Hn; cbn in Hh; [|lia].
    apply wp_bind, wp_modify, wp_ASSERT; [intros _|intros ?%Z.leb_gt; lia].
    assert (mux_valid (mk_mux (<[m := n - 1]> (counterMap w))) /\
      counter (mk_mux (<[m := n - 1]> (counterMap w))) m = counter w m - 1 /\
      forall m', is_module m' -> m' <> m -> counter (mk_mux (<[m := n - 1]> (counterMap w))) m' = counter w m') as Hr.
    { unfold counter at 2. rewrite Hn. cbn. by apply set_counter_spec; [..|lia]. }
    apply wp_bind, wp_gets, wp_when; intros _; [apply wp_emit|]; exact Hr.
  - intros w m Hv Hm. unfold isHeldBy. apply wp_bind, wp_ASSERT; [intros _|rewrite Z.leb_gt; destruct Hm; lia].
    apply wp_bind, wp_get, wp_ret. split; [done|]. unfold counter. by destruct (counterMap w !! m).
  - intros w Hv. apply wp_gets. split; [done|]. by apply mux_held.
Qed.

Lemma mux_init_valid : wl_valid mux_init.
Proof. apply map_Forall_empty. Qed.

End mux_theory.

(** ** The service *)

(** Where a thread running [connectAndAcquire] is: not yet past its first
    [ASSERT], in the loop with [i] failed searches behind it, or holding the binder
    and waiting for [_lock]. *)
Inductive phase : Type :=
| Started
| Searching (i : Z)
| Found.

(** The fields of [CrmWakelockServiceAndroid]; the pointers are kept as "not
    [NULL]".  [threads] are the detached threads that have not ended. *)
Record service : Type := mk_service {
  toAcquire : bool;
  connecting : bool;
  powerManager : bool;
  suspendBlockToken : bool;
  threads : list phase;
}.

(** What the service asks of the system. *)
Inductive pm_call : Type :=
| CallAcquireWakeLock
| CallReleaseWakeLock
| CallLinkToDeath
| CallUnlinkToDeath
| NewThread.

#[export] Instance pm_call_eq_dec : EqDecision pm_call.
Proof. solve_decision. Defined.

#[local] Abbreviation V_ A := (M service pm_call A).

Definition set_toAcquire (b : bool) : V_ unit :=
  modify (fun s => mk_service b (connecting s) (powerManager s) (suspendBlockToken s) (threads s)).
Definition set_connecting (b : bool) : V_ unit :=
  modify (fun s => mk_service (toAcquire s) b (powerManager s) (suspendBlockToken s) (threads s)).
Definition set_powerManager (b : bool) : V_ unit :=
  modify (fun s => mk_service (toAcquire s) (connecting s) b (suspendBlockToken s) (threads s)).
Definition set_suspendBlockToken (b : bool) : V_ unit :=
  modify (fun s => mk_service (toAcquire s) (connecting s) (powerManager s) b (threads s)).
Definition set_threads (l : list phase) : V_ unit :=
  modify (fun s => mk_service (toAcquire s) (connecting s) (powerManager s) (suspendBlockToken s) l).

(** The constructor: [sp] members are [NULL]. *)
Definition service_init : service := mk_service false false false false [].

Definition startConnectThreadWithLock : V_ unit :=
  set_connecting true ;;
  let* s := get in
  set_threads (threads s ++ [Started]) ;;
  emit NewThread.

(** [no_error]: [_powerManager->acquireWakeLock] answers [NO_ERROR].  The lock is
    held in every call, as its [DASSERT] wants. *)
Definition acquireWakelockWithLock (no_error : bool) : V_ unit :=
  let* s := get in
  ASSERT "_powerManager != NULL" (powerManager s) ;;
  emit CallAcquireWakeLock ;;
  if no_error then set_suspendBlockToken true
  else set_powerManager false ;; startConnectThreadWithLock.

Definition service_acquire (no_error : bool) : V_ unit :=
  let* s := get in
  ASSERT "(_suspendBlockToken == NULL) && (_toAcquire == false)"
    (negb (suspendBlockToken s) && negb (toAcquire s)) ;;
  set_toAcquire true ;;
  if powerManager s then acquireWakelockWithLock no_error
  else when (negb (connecting s)) startConnectThreadWithLock.

Definition releaseWakelockWithLock : V_ unit :=
  let* s := get in
  ASSERT "_toAcquire == true" (toAcquire s) ;;
  set_toAcquire false ;;
  when (suspendBlockToken s)
    (ASSERT "_powerManager != NULL" (powerManager s) ;;
     emit CallReleaseWakeLock ;;
     set_suspendBlockToken false).

Definition service_release : V_ unit := releaseWakelockWithLock.

(** Called by [PMDeathRecipient::binderDied]. *)
Definition clearPowerManager : V_ unit :=
  let* s := get in
  when (toAcquire s) releaseWakelockWithLock ;;
  set_powerManager false.

(** [~CrmWakelockServiceAndroid]; the binder of a proxy is not [NULL]. *)
Definition service_dispose : V_ unit :=
  let* s := get in
  ASSERT "_powerManager != NULL" (powerManager s) ;;
  service_release ;;
  emit CallUnlinkToDeath ;;
  set_powerManager false.

(** *** [connectAndAcquire], step by step

    The first [ASSERT] and the loop run without [_lock], so the other threads may
    run between any two of these steps. *)

Definition MAX_RETRIES : Z := 200.

Definition set_phase (t : nat) (p : phase) : V_ unit :=
  let* s := get in set_threads (<[t := p]> (threads s)).

Definition connect_begin (t : nat) : V_ unit :=
  let* s := get in
  ASSERT "_powerManager == NULL" (negb (powerManager s)) ;;
  set_phase t (Searching 0).

(** One round of the loop; [found]: [checkService] answers a binder.  The loop ends
    without one at the last round. *)
Definition connect_check (t : nat) (i : Z) (found : bool) : V_ unit :=
  if found then set_phase t Found
  else ASSERT "binder != NULL" (i + 1 <? MAX_RETRIES) ;; set_phase t (Searching (i + 1)).

(** The part under [_lock], to the end of the thread; [interface_cast] of a binder
    is not [NULL]. *)
Definition connect_locked (t : nat) (no_error : bool) : V_ unit :=
  set_powerManager true ;;
  emit CallLinkToDeath ;;
  set_connecting false ;;
  let* s := get in
  when (toAcquire s) (acquireWakelockWithLock no_error) ;;
  let* s := get in
  set_threads (delete t (threads s)).

(** ** The bridge: the multiplexer over its service *)

Record bridge : Type := mk_bridge {
  the_mux : mux;
  the_service : service;
}.

(** [crm_wakelock_init]. *)
Definition bridge_init : bridge := mk_bridge mux_init service_init.

Definition put_service (v : service) (b : bridge) : bridge := mk_bridge (the_mux b) v.

Definition in_service {A} (m : V_ A) : M bridge pm_call A := zoom the_service put_service id m.

Definition serve (no_error : bool) (call : Z) : M bridge pm_call unit :=
  in_service (if call =? SERVICE_ACQUIRE then service_acquire no_error else service_release).

(** A call of the multiplexer, under its [_mutex], with the calls of the service it
    makes: the connect threads do not touch the counters. *)
Definition served (no_error : bool) (m : X_ unit) : M bridge pm_call unit := fun b =>
  match m (the_mux b) with
  | Ok _ x calls => for_each calls (serve no_error) (mk_bridge x (the_service b))
  | Abort r _ => Abort r []
  end.

(** What happens to the bridge: calls of its users, steps of a connect thread [t],
    and the notification of the death of the power manager. *)
Inductive action : Type :=
| UserAcquire (moduleId : Z) (no_error : bool)
| UserRelease (moduleId : Z)
| ThreadBegin (t : nat)
| ThreadCheck (t : nat) (found : bool)
| ThreadLocked (t : nat) (no_error : bool)
| BinderDied.

#[export] Instance action_eq_dec : EqDecision action.
Proof. solve_decision. Defined.

Definition do_action (a : action) : M bridge pm_call unit :=
  let* b := get in
  match a with
  | UserAcquire m no_error => served no_error (mux_acquire m)
  | UserRelease m => served true (mux_release m)
  | ThreadBegin t =>
      match threads (the_service b) !! t with
      | Some Started => in_service (connect_begin t)
      | _ => ret tt
      end
  | ThreadCheck t found =>
      match threads (the_service b) !! t with
      | Some (Searching i) => in_service (connect_check t i found)
      | _ => ret tt
      end
  | ThreadLocked t no_error =>
      match threads (the_service b) !! t with
      | Some Found => in_service (connect_locked t no_error)
      | _ => ret tt
      end
  | BinderDied => in_service clearPowerManager
  end.

Definition run_actions (l : list action) : M bridge pm_call unit := for_each l do_action.

(** [dispose]: deletes the multiplexer, which deletes its service. *)
Definition bridge_dispose : M bridge pm_call unit := in_service service_dispose.

Definition mux_is_held (x : mux) : bool := any_held ((map_to_list (counterMap x)).*2).

(** ** Invariant *)

Definition phase_ok (p : phase) : Prop :=
  match p with Searching i => 0 <= i < MAX_RETRIES | _ => True end.

(** At most one connect thread, running exactly while [_connecting] is set, and then
    without power manager; the token is there exactly when it was asked for and the
    power manager is connected; a request without power manager has its thread. *)
Record service_ok (v : service) : Prop := mk_service_ok {
  so_thread : match threads v with
              | [] => connecting v = false
              | [p] => connecting v = true /\ powerManager v = false /\ phase_ok p
              | _ => False
              end;
  so_token : suspendBlockToken v = toAcquire v && powerManager v;
  so_request : toAcquire v = true -> powerManager v = false -> connecting v = true;
}.

(** The service is asked for the wakelock only while a module holds it, and always
    then as long as no death of the power manager was notified. *)
Record bridge_ok (deaths : bool) (b : bridge) : Prop := mk_bridge_ok {
  bo_service : service_ok (the_service b);
  bo_counters : map_Forall (fun _ n => 0 <= n) (counterMap (the_mux b));
  bo_agree : toAcquire (the_service b) = mux_is_held (the_mux b) \/ (deaths = true /\ toAcquire (the_service b) = false);
}.

(** The faults of a user: a negative module, a release of a module that does not hold
    the wakelock, a counter over [INT_MAX]. *)
Definition misuse (r : abort_reason) : Prop :=
  r = AssertFail "moduleId >= 0" \/ r = AssertFail "it->second >= 0" \/ r = AssertFail "0" \/
  r = Undefined "it->second++".

(** The aborts left besides those: a power manager not found in 200 searches; and, after
    a death of the power manager, a release of what the death took away. *)
Definition bridge_abort (deaths : bool) (r : abort_reason) : Prop :=
  misuse r \/ r = AssertFail "binder != NULL" \/ deaths = true /\ r = AssertFail "_toAcquire == true".

#[local] Hint Unfold misuse bridge_abort : crm.

Lemma mux_is_held_lookup x m n : counterMap x !! m = Some n -> 0 < n -> mux_is_held x = true.
Proof.
  intros Hm Hn. unfold mux_is_held. apply any_held_elem. exists n. split; [|done].
  apply list_elem_of_fmap. exists (m, n). split; [done|]. by apply elem_of_map_to_list.
Qed.

(** The multiplexer asks the service exactly when the first module takes the wakelock
    and when the last one gives it back. *)
Lemma mux_acquire_calls x m :
  map_Forall (fun _ n => 0 <= n) (counterMap x) ->
  wp (mux_acquire m) x misuse (fun _ x' calls =>
    map_Forall (fun _ n => 0 <= n) (counterMap x') /\ mux_is_held x' = true /\
    calls = if mux_is_held x then [] else [SERVICE_ACQUIRE]).
Proof.
  intros Hx. unfold mux_acquire, isHeld, increaseCounter, set_counter.
  assert (forall n, 0 < n -> map_Forall (fun _ n => 0 <= n) (<[m := n]> (counterMap x)) /\
    mux_is_held (mk_mux (<[m := n]> (counterMap x))) = true) as Hi.
  { intros n Hn. split; [apply map_Forall_insert_2; [lia|done]|].
    by apply (mux_is_held_lookup _ m n); [apply lookup_insert_eq|]. }
  wp_run; bool_facts; change (any_held _) with (mux_is_held x) in *; try (by auto 10 with crm).
  all: unfold mux_is_held in *; repeat match goal with H : any_held _ = _ |- _ => rewrite H end.
  all: split_and!; try done; try (apply Hi); try done.
  all: match goal with H : _ !! _ = Some _ |- _ => apply Hx in H; cbn in H; lia end.
Qed.

Lemma mux_release_calls x m :
  map_Forall (fun _ n => 0 <= n) (counterMap x) ->
  wp (mux_release m) x misuse (fun _ x' calls =>
    map_Forall (fun _ n => 0 <= n) (counterMap x') /\ mux_is_held x = true /\
    calls = if mux_is_held x' then [] else [SERVICE_RELEASE]).
Proof.
  intros Hx. unfold mux_release, decreaseCounter, isHeld, set_counter.
  wp_run; bool_facts; try (by auto 10 with crm).
  all: cbn [counterMap] in *; (split_and!; [by apply map_Forall_insert_2|by eapply mux_is_held_lookup; [done|lia]|]).
  all: unfold mux_is_held; cbn [counterMap]; match goal with H : any_held _ = _ |- _ => by rewrite H end.
Qed.

(** *** The service keeps its invariant *)

(** The power manager is connected, or a thread looks for it. *)
Definition linked (v : service) : Prop := connecting v || powerManager v = true.

Section service_theory.
Context (no_error : bool) (v : service) (E : abort_reason -> Prop).
Hypothesis Hok : service_ok v.

Lemma service_acquire_ok :
  toAcquire v = false ->
  wp (service_acquire no_error) v E (fun _ v' _ => service_ok v' /\ toAcquire v' = true /\ linked v' /\
    (linked v -> no_error = true -> threads v' = threads v)).
Proof using Hok.
  intros Ha. destruct Hok as [Ht Htok Hr]. rewrite Ha in Htok. cbn in Htok.
  unfold service_acquire, acquireWakelockWithLock, startConnectThreadWithLock, set_toAcquire, set_connecting,
    set_powerManager, set_suspendBlockToken, set_threads.
  destruct v as [ta c pm tok [|p [|]]]; cbn in *; subst; try done; try destruct Ht as (-> & -> & ?); destruct no_error;
    wp_run; cbn in *; simplify_eq; (split_and!; [split|..]); unfold linked; cbn; auto; try done.
  all: by destruct pm.
Qed.

Lemma releaseWakelockWithLock_ok :
  toAcquire v = true ->
  wp releaseWakelockWithLock v E (fun _ v' _ => 
    service_ok v' /\ toAcquire v' = false /\ (linked v -> linked v') /\ threads v' = threads v).
Proof using Hok.
  intros Ha. destruct Hok as [Ht Htok Hr]. rewrite Ha in Htok. cbn in Htok.
  unfold releaseWakelockWithLock, set_toAcquire, set_suspendBlockToken.
  destruct v as [ta c pm tok l]; cbn in *; subst.
  wp_run; cbn in *; simplify_eq; (split_and!; [split|..]); cbn; auto; done.
Qed.

Lemma connect_locked_ok :
  threads v = [Found] ->
  wp (connect_locked 0 no_error) v E (fun _ v' _ => 
    service_ok v' /\ toAcquire v' = toAcquire v /\ linked v' /\ (no_error = true -> threads v' = [])).
Proof using Hok.
  intros Hf. destruct Hok as [Ht Htok Hr]. rewrite Hf in Ht. destruct Ht as (Hc & Hpm & _).
  unfold connect_locked, acquireWakelockWithLock, startConnectThreadWithLock, set_connecting,
    set_powerManager, set_suspendBlockToken, set_threads.
  destruct v as [ta c pm tok l]; cbn in *; subst. rewrite andb_false_r.
  destruct no_error; wp_run; cbn in *; simplify_eq; (split_and!; [split|..]); unfold linked; cbn; auto; done.
Qed.

End service_theory.

Lemma clearPowerManager_ok v E :
  service_ok v ->
  wp clearPowerManager v E (fun _ v' _ => service_ok v' /\ toAcquire v' = false).
Proof.
  intros Hok. unfold clearPowerManager. apply wp_bind, wp_get, wp_bind.
  assert (forall v', service_ok v' -> toAcquire v' = false ->
    wp (set_powerManager false) v' E (fun _ v' _ => service_ok v' /\ toAcquire v' = false)) as Hset.
  { intros v' [Ht Htok Hr] Ha. apply wp_modify. split; [split|]; cbn; rewrite ?Ha in *; try done.
    destruct (threads v') as [|p [|]]; [done| |done]. by destruct Ht as (? & _ & ?). }
  apply wp_when; intros Ha; [|by apply Hset].
  eapply wp_mono; [by apply releaseWakelockWithLock_ok|done|]. intros [] v' o (? & ? & _ & _). by apply Hset.
Qed.

(** A step of the connect thread that stays out of [_lock]. *)
Lemma set_phase_ok p p' v E :
  service_ok v -> threads v = [p] -> phase_ok p' ->
  wp (set_phase 0 p') v E (fun _ v' _ =>
    service_ok v' /\ toAcquire v' = toAcquire v /\ linked v' /\ threads v' = [p']).
Proof.
  intros [Ht Htok Hr] Hp Hp'. rewrite Hp in Ht. destruct Ht as (Hc & Hpm & _). unfold set_phase, set_threads.
  apply wp_bind, wp_get, wp_modify. rewrite Hp. unfold linked. cbn. rewrite Hc. split_and!; [split|..]; cbn; auto.
Qed.

(** *** Every action keeps the invariant *)

(** The environment helps: the power manager is found and answers [NO_ERROR]. *)
Definition cooperative (a : action) : bool :=
  match a with
  | UserAcquire _ e => e
  | UserRelease _ | ThreadBegin _ => true
  | ThreadCheck _ found => found
  | ThreadLocked _ e => e
  | BinderDied => false
  end.

(** The connect thread after an action of a cooperating environment. *)
Definition advance (a : action) (l : list phase) : list phase :=
  match a, l with
  | ThreadBegin 0, [Started] => [Searching 0]
  | ThreadCheck 0 _, [Searching _] => [Found]
  | ThreadLocked 0 _, [Found] => []
  | _, _ => l
  end.

Definition steady (a : action) (b b' : bridge) : Prop :=
  linked (the_service b) -> cooperative a = true ->
  linked (the_service b') /\ threads (the_service b') = advance a (threads (the_service b)).

Lemma wp_served e m b E Q :
  wp m (the_mux b) E (fun _ x calls => wp (for_each calls (serve e)) (mk_bridge x (the_service b)) E Q) ->
  wp (served e m) b E Q.
Proof. unfold served, wp. by destruct (m (the_mux b)). Qed.

Lemma wp_in_service {A} (m : V_ A) b E Q :
  wp m (the_service b) E (fun a v o => Q a (mk_bridge (the_mux b) v) o) -> wp (in_service m) b E Q.
Proof.
  intros H. apply wp_zoom. eapply wp_mono; [exact H|done|]. intros a v o HQ. cbn. by rewrite list_fmap_id.
Qed.

Section actions.
Context (d : bool) (b : bridge) (E : abort_reason -> Prop).
Hypothesis Hb : bridge_ok d b.

Lemma user_acquire_ok m e P :
  wp (mux_acquire m) (the_mux b) E (fun _ x _ => P x) ->
  wp (served e (mux_acquire m)) b E (fun _ b' _ => bridge_ok d b' /\ steady (UserAcquire m e) b b' /\ P (the_mux b')).
Proof using Hb.
  intros Hm. destruct Hb as [Hs Hc Ha]. apply wp_served.
  eapply wp_mono; [eapply wp_and; [exact Hm|by apply mux_acquire_calls]|done|].
  cbn. intros [] x calls (HP & Hx & Hheld & ->). destruct (mux_is_held (the_mux b)) eqn:Hh; cbn.
  - apply wp_ret. split; [by split; cbn; rewrite ?Hheld|]. done.
  - unfold serve. cbn [Z.eqb]. apply wp_bind, wp_in_service.
    assert (toAcquire (the_service b) = false) as Hf by (destruct Ha as [->|[_ ->]]; done).
    eapply wp_mono; [by apply service_acquire_ok|done|]. cbn. intros [] v o (? & ? & ? & ?). apply wp_ret.
    split; [by split; cbn; [..|left; congruence]|]. split; [|done]. intros Hl He. cbn in *. auto.
Qed.

Lemma user_release_ok m P :
  wp (mux_release m) (the_mux b) E (fun _ x _ => P x) ->
  (d = true -> E (AssertFail "_toAcquire == true")) ->
  wp (served true (mux_release m)) b E (fun _ b' _ => bridge_ok d b' /\ steady (UserRelease m) b b' /\ P (the_mux b')).
Proof using Hb.
  intros Hm Hd. destruct Hb as [Hs Hc Ha]. apply wp_served.
  eapply wp_mono; [eapply wp_and; [exact Hm|by apply mux_release_calls]|done|].
  cbn. intros [] x calls (HP & Hx & Hheld & ->). rewrite Hheld in Ha. destruct (mux_is_held x) eqn:Hh; cbn.
  - apply wp_ret. split; [by split; cbn; rewrite ?Hh|]. done.
  - unfold serve. cbn [Z.eqb]. apply wp_bind, wp_in_service. destruct Ha as [Ha|[Hdt Ha]].
    + eapply wp_mono; [by apply releaseWakelockWithLock_ok|done|]. cbn. intros [] v o (? & ? & ? & ?). apply wp_ret.
      split; [by split; cbn; [..|left; congruence]|]. split; [|done]. intros Hl _. cbn. auto.
    + unfold service_release, releaseWakelockWithLock. apply wp_bind, wp_get, wp_bind, wp_ASSERT; [cbn; by rewrite Ha|auto].
Qed.

(** A step of the service alone that leaves [_toAcquire]. *)
Lemma thread_ok (m : V_ unit) a l' :
  wp m (the_service b) E (fun _ v' _ => service_ok v' /\ toAcquire v' = toAcquire (the_service b) /\ linked v' /\
    (cooperative a = true -> threads v' = l')) ->
  l' = advance a (threads (the_service b)) ->
  wp (in_service m) b E (fun _ b' _ => bridge_ok d b' /\ steady a b b').
Proof using Hb.
  intros Hm ->. destruct Hb as [Hs Hc Ha]. apply wp_in_service. eapply wp_mono; [exact Hm|done|].
  cbn. intros [] v o (? & Heq & ? & ?). split; [split; cbn; rewrite ?Heq; done|]. intros _ Hco. cbn. auto.
Qed.

Lemma one_thread t p :
  threads (the_service b) !! t = Some p ->
  t = 0%nat /\ threads (the_service b) = [p] /\ powerManager (the_service b) = false /\ phase_ok p.
Proof using Hb.
  intros Ht. destruct (bo_service _ _ Hb) as [Hth _ _].
  destruct (threads (the_service b)) as [|q [|]], t as [|t]; cbn in *; simplify_eq; try done. by destruct Hth as (_ & ? & ?).
Qed.

Lemma no_thread_ok a :
  advance a (threads (the_service b)) = threads (the_service b) ->
  wp (ret tt : M bridge pm_call unit) b E (fun _ b' _ => bridge_ok d b' /\ steady a b b').
Proof using Hb. intros Ha. apply wp_ret. split; [exact Hb|]. intros Hl _. by rewrite Ha. Qed.

End actions.

Lemma do_action_ok d a b E :
  bridge_ok d b ->
  (a = BinderDied -> d = true) ->
  (forall r, misuse r -> E r) ->
  (cooperative a = false -> E (AssertFail "binder != NULL")) ->
  (d = true -> E (AssertFail "_toAcquire == true")) ->
  wp (do_action a) b E (fun _ b' _ => bridge_ok d b' /\ steady a b b').
Proof.
  intros Hb Hdied Hmis Hfound Hlost. unfold do_action. apply wp_bind, wp_get.
  destruct a as [m e|m|t|t found|t e|].
  - eapply wp_mono; [apply (user_acquire_ok d b E Hb m e (fun _ => True))|done|by intros [] ? ? (? & ? & _)].
    eapply wp_mono; [by apply mux_acquire_calls, Hb|done|done].
  - eapply wp_mono; [apply (user_release_ok d b E Hb m (fun _ => True)); [|done]|done|by intros [] ? ? (? & ? & _)].
    eapply wp_mono; [by apply mux_release_calls, Hb|done|done].
  - destruct (threads (the_service b) !! t) as [[| |]|] eqn:Ht.
    1: { destruct (one_thread _ _ Hb _ _ Ht) as (-> & Hth & Hpm & _).
         eapply (thread_ok _ _ _ Hb _ _ [Searching 0]); [|by rewrite Hth]. unfold connect_begin.
         apply wp_bind, wp_get, wp_bind, wp_ASSERT; [intros _|by rewrite Hpm].
         eapply wp_mono; [by eapply set_phase_ok; [apply Hb|..]|done|by intros [] v' o (? & ? & ? & ?); auto]. }
    all: apply no_thread_ok; [done|]; destruct t; [|done]; by destruct (threads (the_service b)) as [|[] [|]].
  - destruct (threads (the_service b) !! t) as [[|i|]|] eqn:Ht.
    2: { destruct (one_thread _ _ Hb _ _ Ht) as (-> & Hth & _ & Hi). cbn in Hi.
         eapply (thread_ok _ _ _ Hb _ _ [Found]); [|by rewrite Hth]. unfold connect_check. destruct found.
         - eapply wp_mono; [by eapply set_phase_ok; [apply Hb|..]|done|by intros [] v' o (? & ? & ? & ?); auto].
         - apply wp_bind, wp_ASSERT; [intros ?%Z.ltb_lt|auto].
           eapply wp_mono; [eapply set_phase_ok; [apply Hb|done|cbn; lia]|done|by intros [] v' o (? & ? & ? & ?); auto]. }
    all: apply no_thread_ok; [done|]; destruct t; [|done]; by destruct (threads (the_service b)) as [|[] [|]].
  - destruct (threads (the_service b) !! t) as [[| |]|] eqn:Ht.
    3: { destruct (one_thread _ _ Hb _ _ Ht) as (-> & Hth & _ & _).
         eapply (thread_ok _ _ _ Hb _ _ []); [|by rewrite Hth].
         eapply wp_mono; [by apply connect_locked_ok; [apply Hb|]|done|by intros [] v' o (? & ? & ? & ?); auto]. }
    all: apply no_thread_ok; [done|]; destruct t; [|done]; by destruct (threads (the_service b)) as [|[] [|]].
  - apply wp_in_service. eapply wp_mono; [apply clearPowerManager_ok, Hb|done|]. cbn. intros [] v o [? ?].
    split; [|done]. split; cbn; [done|apply Hb|right; auto].
Qed.

(** *** The whole bridge is a wakelock *)

(** The calls to the power manager, as the messages of the interface. *)
Definition pm_call_id (c : pm_call) : Z :=
  match c with
  | CallAcquireWakeLock => 1
  | CallReleaseWakeLock => 0
  | CallLinkToDeath => 2
  | CallUnlinkToDeath => 3
  | NewThread => 4
  end.

Definition as_wakelock {A} (m : M bridge pm_call A) : M bridge Z A := zoom id (fun b _ => b) pm_call_id m.

Definition put_mux (x : mux) (b : bridge) : bridge := mk_bridge x (the_service b).

(** Either answer of the power manager to an acquisition will do. *)
Definition bridge_ops (no_error : bool) : WakelockOps bridge := {|
  wl_acquire m := as_wakelock (served no_error (mux_acquire m));
  wl_release m := as_wakelock (served true (mux_release m));
  wl_is_held_by_module m := zoom the_mux put_mux id (isHeldBy m);
  wl_is_held := zoom the_mux put_mux id isHeld;
  wl_count b m := counter (the_mux b) m;
  wl_valid b := bridge_ok false b /\ mux_valid (the_mux b);
|}.

Lemma put_mux_same b : put_mux (the_mux b) b = b.
Proof. by destruct b. Qed.

(** What the watchdog and CLA are promised holds of the bridge as a whole, service
    included: its [ASSERT]s do not fail under them. *)
Lemma bridge_laws no_error : @WakelockLaws bridge (bridge_ops no_error).
Proof.
  split; cbn.
  - intros b m [_ Hv] _. by apply counter_nonneg.
  - intros b m [Hb Hv] Hm Hc. apply wp_zoom. eapply wp_mono; [|done|].
    + exact (user_acquire_ok false b no_abort Hb m no_error _ (wl_acquire_spec (W := mux) (the_mux b) m Hv Hm Hc)).
    + cbn. intros [] b' _ (? & _ & ? & ? & ?). done.
  - intros b m [Hb Hv] Hm Hc. apply wp_zoom. eapply wp_mono; [|done|].
    + refine (user_release_ok false b no_abort Hb m _ (wl_release_spec (W := mux) (the_mux b) m Hv Hm Hc) _). done.
    + cbn. intros [] b' _ (? & _ & ? & ? & ?). done.
  - intros b m [Hb Hv] Hm. apply wp_zoom. eapply wp_mono; [exact (wl_is_held_by_module_spec (W := mux) (the_mux b) m Hv Hm)|done|].
    cbn. intros r x _ [-> ->]. by rewrite put_mux_same.
  - intros b [Hb Hv]. apply wp_zoom. eapply wp_mono; [exact (wl_is_held_spec (W := mux) (the_mux b) Hv)|done|].
    cbn. intros r x _ [-> Hr]. by rewrite put_mux_same.
Qed.

(** *** Runs *)

Lemma bridge_init_ok d : bridge_ok d bridge_init.
Proof. split; [split; done|apply map_Forall_empty|by left]. Qed.

Lemma run_actions_ok d l b :
  bridge_ok d b -> (d = false -> BinderDied ∉ l) ->
  wp (run_actions l) b (bridge_abort d) (fun _ b' _ => bridge_ok d b').
Proof.
  intros Hb Hl. eapply (wp_for_each _ _ (bridge_ok d)); [done| |done]. intros a b' Ha Hb'.
  eapply wp_mono; [apply (do_action_ok d); [done|..]|done|by intros [] b'' o [? _]]; unfold bridge_abort; auto.
  intros ->. destruct d; [done|]. by destruct Hl.
Qed.

(** The steps the connect thread has left. *)
Definition steps_left (l : list phase) : list action :=
  match l with
  | [Started] => [ThreadBegin 0; ThreadCheck 0 true; ThreadLocked 0 true]
  | [Searching _] => [ThreadCheck 0 true; ThreadLocked 0 true]
  | [Found] => [ThreadLocked 0 true]
  | _ => []
  end.

Lemma steps_left_advance a l k :
  cooperative a = true -> steps_left l `sublist_of` a :: k -> steps_left (advance a l) `sublist_of` k.
Proof.
  intros Hco Hsub. apply sublist_cons_r in Hsub.
  destruct l as [|[|i|] [|]], a as [? []|?|[]|[] []|[] []|]; cbn in *; try done; destruct Hsub as [Hk|(l' & ? & Hk)]; simplify_eq; auto.
  all: try (by apply sublist_cons_l in Hk as (k1 & k2 & -> & ?); apply sublist_inserts_l, sublist_cons).
Qed.

Lemma steps_left_all l : steps_left l `sublist_of` [ThreadBegin 0; ThreadCheck 0 true; ThreadLocked 0 true].
Proof. destruct l as [|[] [|]]; cbn; repeat constructor. Qed.

Lemma run_cooperative l b :
  bridge_ok false b -> linked (the_service b) -> forallb cooperative l = true ->
  steps_left (threads (the_service b)) `sublist_of` l ->
  wp (run_actions l) b misuse (fun _ b' _ =>
    bridge_ok false b' /\ linked (the_service b') /\ steps_left (threads (the_service b')) = []).
Proof.
  revert b. induction l as [|a l IH]; intros b Hb Hl Hco Hsub; cbn.
  - apply wp_ret. split_and!; [done..|]. by apply sublist_nil_r in Hsub.
  - cbn in Hco. apply andb_true_iff in Hco as [Ha Hco]. apply wp_bind.
    eapply wp_mono; [apply (do_action_ok false); [done|by intros ->|done|congruence|done]|done|].
    intros [] b' o [Hb' Hst]. destruct (Hst Hl Ha) as [Hl' Hth]. cbn.
    apply IH; [done..|]. rewrite Hth. by apply steps_left_advance.
Qed.

Lemma held_linked b : bridge_ok false b -> mux_is_held (the_mux b) = true -> linked (the_service b).
Proof.
  intros [[_ _ Hr] _ [Ha|[? _]]] Hh; [|done]. rewrite Hh in Ha. unfold linked.
  destruct (powerManager (the_service b)) eqn:Hp; [by rewrite orb_true_r|]. by rewrite Hr.
Qed.

(** C5. The wakelock over Android's power manager follows its users: in any run of
    users' calls and connect-thread steps, with any answers of the power manager
    (searches without result, refused acquisitions, each starting a new connection)
    but without its death, once a module holds the wakelock or a connection is there
    or under way, the three steps left to the connect thread, with a power manager
    that is found and accepts and with any further calls of the users in between, end
    with no connect thread, the power manager connected, and the platform's wakelock
    held exactly when some module's counter is positive.  Only a user's fault (a release
    without acquisition, a negative module, a counter beyond [INT_MAX]) aborts. *)
Theorem cpp_wakelock_settles acts bs b o :
  run_actions acts bridge_init = Ok tt b o ->
  BinderDied ∉ acts ->
  mux_is_held (the_mux b) = true \/ linked (the_service b) ->
  forallb cooperative bs = true ->
  [ThreadBegin 0; ThreadCheck 0 true; ThreadLocked 0 true] `sublist_of` bs ->
  wp (run_actions bs) b misuse (fun _ b' _ =>
    threads (the_service b') = [] /\ connecting (the_service b') = false /\
    powerManager (the_service b') = true /\
    suspendBlockToken (the_service b') = mux_is_held (the_mux b')).
Proof.
  intros Hrun Hd Hlink Hco Hsub.
  assert (bridge_ok false b) as Hb.
  { exact (wp_Ok _ _ _ _ _ _ _ (run_actions_ok false acts bridge_init (bridge_init_ok _) (fun _ => Hd)) Hrun). }
  eapply wp_mono; [apply run_cooperative; [done|destruct Hlink; [by apply held_linked|done]|done|]|done|].
  - etrans; [apply steps_left_all|exact Hsub].
  - intros [] b' _ (Hb' & Hl & Hleft). destruct Hb' as [[Hth Htok _] _ [Ha|[? _]]]; [|done].
    destruct (threads (the_service b')) as [|[] [|]]; try done. unfold linked in Hl. rewrite Hth in Hl |- *. cbn in Hl.
    rewrite Htok, Hl, Ha, andb_true_r. done.
Qed.

Lemma cpp_wakelock_settles_witness :
  wp (run_actions [UserAcquire 1 true; ThreadBegin 0; UserRelease 2; ThreadCheck 0 true; ThreadLocked 0 true])
    (match run_actions [UserAcquire 2 true; ThreadBegin 0; ThreadCheck 0 false; ThreadCheck 0 true; ThreadLocked 0 false]
             bridge_init with Ok _ b _ => b | Abort _ _ => bridge_init end)
    misuse (fun _ b' _ =>
      threads (the_service b') = [] /\ connecting (the_service b') = false /\ powerManager (the_service b') = true /\
      suspendBlockToken (the_service b') = mux_is_held (the_mux b')).
Proof.
  eapply (cpp_wakelock_settles
    [UserAcquire 2 true; ThreadBegin 0; ThreadCheck 0 false; ThreadCheck 0 true; ThreadLocked 0 false]).
  - vm_compute. reflexivity.
  - rewrite !not_elem_of_cons. split_and!; try done. apply not_elem_of_nil.
  - left. vm_compute. reflexivity.
  - reflexivity.
  - repeat constructor.
Defined.

(** C18. The wakelock over Android's power manager is safe in every run of users' calls,
    connect-thread steps and deaths of the power manager, whatever the power manager
    answers: never two connect threads at once; the platform's wakelock is held only
    through a connected power manager and only while some module holds it; as long as
    no death was notified it is held exactly when some module holds it and the power
    manager is connected; and no [ASSERT] of the service fails, but that the power
    manager is not found in 200 searches and, after a death only, the one of a release
    without request. *)
Theorem cpp_wakelock_safe l :
  wp (run_actions l) bridge_init (bridge_abort (bool_decide (BinderDied ∈ l))) (fun _ b _ =>
    (length (threads (the_service b)) <= 1)%nat /\
    (suspendBlockToken (the_service b) = true ->
       powerManager (the_service b) = true /\ mux_is_held (the_mux b) = true) /\
    (BinderDied ∉ l -> suspendBlockToken (the_service b) = mux_is_held (the_mux b) && powerManager (the_service b))).
Proof.
  eapply wp_mono; [apply (run_actions_ok (bool_decide (BinderDied ∈ l))); [apply bridge_init_ok|]|done|].
  - by intros ?%bool_decide_eq_false.
  - intros [] b _ [[Hth Htok _] _ Ha]. rewrite bool_decide_eq_true in Ha. split_and!.
    + destruct (threads (the_service b)) as [|? [|]]; cbn; [lia..|done].
    + rewrite Htok. intros [? ?]%andb_true_iff. destruct Ha as [Ha|[_ Ha]]; [|congruence]. split; congruence.
    + intros Hd. destruct Ha as [Ha|[? _]]; [|done]. by rewrite Htok, Ha.
Qed.

(** ** What a death of the power manager does *)

(** A connected bridge whose module 2 holds the wakelock. *)
Definition held_run : list action := [UserAcquire 2 true; ThreadBegin 0; ThreadCheck 0 true; ThreadLocked 0 true].

Definition final (l : list action) : bridge :=
  match run_actions l bridge_init with Ok _ b _ => b | Abort _ _ => bridge_init end.

(** The death drops the request with the token: module 2 still holds the wakelock, no
    thread connects again, and the platform may suspend. *)
Lemma death_loses_request :
  let b := final (held_run ++ [BinderDied]) in
  mux_is_held (the_mux b) = true /\ the_service b = service_init.
Proof. vm_compute. done. Qed.

(** The module's own release then fails [ASSERT(_toAcquire == true)]. *)
Lemma death_aborts_release :
  run_actions (held_run ++ [BinderDied; UserRelease 2]) bridge_init =
    Abort (AssertFail "_toAcquire == true") [NewThread; CallLinkToDeath; CallAcquireWakeLock; CallReleaseWakeLock].
Proof. vm_compute. done. Qed.

(** A refused acquisition starts a new connection, but the notification of the death
    behind the refusal, when it comes after it, drops the request: the thread connects
    and acquires nothing. *)
Lemma late_death_loses_request :
  let b := final (held_run ++ [UserRelease 2; UserAcquire 2 false; BinderDied;
                               ThreadBegin 0; ThreadCheck 0 true; ThreadLocked 0 true]) in
  mux_is_held (the_mux b) = true /\ suspendBlockToken (the_service b) = false /\ threads (the_service b) = [].
Proof. vm_compute. done. Qed.

(** The destructor succeeds only while the wakelock is held (or asked for) with a
    connected power manager: [dispose] of a bridge all of whose modules have released it
    aborts. *)
Lemma dispose_needs_request b d :
  bridge_ok d b ->
  wp bridge_dispose b (fun r => r = AssertFail "_powerManager != NULL" /\ powerManager (the_service b) = false \/
                               r = AssertFail "_toAcquire == true" /\ toAcquire (the_service b) = false)
    (fun _ _ _ => mux_is_held (the_mux b) = true).
Proof.
  intros [[Hth Htok _] _ Ha]. apply wp_in_service. unfold service_dispose, service_release, releaseWakelockWithLock,
    set_toAcquire, set_suspendBlockToken, set_powerManager. destruct (the_service b) as [ta c pm tok th]. cbn in *.
  wp_run; cbn in *; simplify_eq; auto; destruct Ha as [Ha|[_ Ha]]; congruence.
Qed.

Lemma dispose_aborts_released : bridge_dispose (final (held_run ++ [UserRelease 2])) = Abort (AssertFail "_toAcquire == true") [].
Proof. vm_compute. done. Qed.
