(* ===== verification/Watchdog.v ===== *)
(** * The CTRL watchdog (plugins/control/src/watchdog.h, watchdog.c)

    A thread with two timers: REQ, armed by CTRL around every transient state,
    and PING, which checks that the CTRL thread still answers.  Either one
    expiring aborts the process.  The wakelock is used through [WakelockLaws].
    Clock readings are arguments. *)

From S2P Require Import Prelude Timer Wakelock.
From Stdlib Require Import ZArith Lia.
From stdpp Require Import base tactics list strings option.

Open Scope Z_scope.
Open Scope crm_scope.

Definition MAX_PING_ELAPSED : Z := 10000.
Definition CRM_WATCH_START : Z := 1.
Definition CRM_WATCH_STOP : Z := 2.
Definition CRM_WATCH_PING : Z := 3.
Definition CRM_WATCH_PONG : Z := 4.
Definition MAX_REQ_ID : Z := 2147483647.
Definition MAX_TIMEOUT : Z := 8388607.

(** ** The 64-bit message *)

(** The value of [watchdog_gen_scalar] once its assertions hold. *)
Definition pack (request timeout id : Z) : Z :=
  Z.lor (Z.lor (Z.shiftl (Z.land timeout 0x7FFFFF) 40) (Z.shiftl (Z.land id 0x7FFFFFFF) 8))
    (Z.land request 0xFF).

Definition watchdog_gen_scalar {S O} (request timeout id : Z) : M S O Z :=
  ASSERT "timeout <= MAX_TIMEOUT" (timeout <=? MAX_TIMEOUT) ;;
  ASSERT "id <= MAX_REQ_ID" (id <=? MAX_REQ_ID) ;;
  ret (pack request timeout id).

Definition watchdog_get_request (scalar : Z) : Z := Z.land scalar 0xFF.
Definition watchdog_get_id (scalar : Z) : Z := Z.land (Z.shiftr scalar 8) 0x7FFFFFFF.
Definition watchdog_get_timeout (scalar : Z) : Z := Z.land (Z.shiftr scalar 40) 0x7FFFFF.

Definition watchdog_get_new_id (id : Z) : Z := if id <? MAX_REQ_ID then id + 1 else 0.

Section scalar.

Lemma land_mask k n z : 0 <= k -> n = Z.ones k -> Z.land z n = z mod 2 ^ k.
Proof. intros Hk ->. by apply Z.land_ones. Qed.

Lemma pack_arith request timeout id :
  0 <= request < 2 ^ 8 -> 0 <= timeout <= MAX_TIMEOUT -> 0 <= id <= MAX_REQ_ID ->
  pack request timeout id = timeout * 2 ^ 40 + id * 2 ^ 8 + request.
Proof.
  unfold MAX_TIMEOUT, MAX_REQ_ID, pack. intros Hr Ht Hi.
  rewrite (land_mask 23 0x7FFFFF), (land_mask 31 0x7FFFFFFF), (land_mask 8 0xFF) by done.
  rewrite !Z.mod_small by lia. rewrite !Z.shiftl_mul_pow2 by lia.
  rewrite <-Z.lor_assoc.
  rewrite (lor_low id request 8) by lia.
  rewrite (lor_low timeout _ 40) by lia. lia.
Qed.

Lemma pack_fields request timeout id :
  0 <= request < 2 ^ 8 -> 0 <= timeout <= MAX_TIMEOUT -> 0 <= id <= MAX_REQ_ID ->
  watchdog_get_request (pack request timeout id) = request /\
  watchdog_get_id (pack request timeout id) = id /\
  watchdog_get_timeout (pack request timeout id) = timeout /\
  0 <= pack request timeout id < 2 ^ 63.
Proof.
  intros Hr Ht Hi. rewrite pack_arith by done.
  unfold watchdog_get_request, watchdog_get_id, watchdog_get_timeout, MAX_TIMEOUT, MAX_REQ_ID in *.
  rewrite !Z.shiftr_div_pow2 by lia.
  rewrite (land_mask 23 0x7FFFFF), (land_mask 31 0x7FFFFFFF), (land_mask 8 0xFF) by done.
  assert ((timeout * 2 ^ 40 + id * 2 ^ 8 + request) / 2 ^ 8 = timeout * 2 ^ 32 + id) as ->.
  { symmetry. apply (Z.div_unique _ _ _ request); lia. }
  assert ((timeout * 2 ^ 40 + id * 2 ^ 8 + request) / 2 ^ 40 = timeout) as ->.
  { symmetry. apply (Z.div_unique _ _ _ (id * 2 ^ 8 + request)); lia. }
  split_and!; [|..|lia|lia].
  - symmetry. apply (Z.mod_unique _ _ (timeout * 2 ^ 32 + id)); lia.
  - symmetry. apply (Z.mod_unique _ _ (timeout * 2)); lia.
  - apply Z.mod_small. lia.
Qed.

Lemma get_id_range s : 0 <= watchdog_get_id s <= MAX_REQ_ID.
Proof.
  unfold watchdog_get_id. rewrite (land_mask 31) by done.
  pose proof (Z.mod_pos_bound (Z.shiftr s 8) (2 ^ 31) ltac:(lia)). unfold MAX_REQ_ID. lia.
Qed.

Lemma get_timeout_range s : 0 <= watchdog_get_timeout s <= MAX_TIMEOUT.
Proof.
  unfold watchdog_get_timeout. rewrite (land_mask 23) by done.
  pose proof (Z.mod_pos_bound (Z.shiftr s 40) (2 ^ 23) ltac:(lia)). unfold MAX_TIMEOUT. lia.
Qed.

Lemma new_id_range id : -1 <= id <= MAX_REQ_ID -> 0 <= watchdog_get_new_id id <= MAX_REQ_ID.
Proof. unfold watchdog_get_new_id, MAX_REQ_ID. intros H. destruct (Z.ltb_spec id 2147483647); lia. Qed.

End scalar.

(** ** The thread *)

Record watchdog_timer : Type := mk_timer {
  id : Z;
  armed : bool;
  tm_end : timespec;
  waiting_pong : bool;
}.

(** [timer[PING_IDX]], [timer[REQ_IDX]] and the wakelock. *)
Record watchdog_st (W : Type) : Type := mk_wd { ping : watchdog_timer; req : watchdog_timer; wl : W }.
Arguments mk_wd {W} _ _ _.
Arguments ping {W} _.
Arguments req {W} _.
Arguments wl {W} _.

Definition PING_IDX : Z := 0.
Definition REQ_IDX : Z := 1.

(** A message to CTRL, or to the wakelock thread. *)
Inductive wd_out : Type :=
| WdSend (scalar : Z)
| WdWake (scalar : Z).

(** What [poll] reports: an error, the end of the timeout, or messages with
    the clock reading at which each is handled. *)
Inductive poll_result : Type :=
| PollError
| PollTimeout
| PollMsgs (msgs : list (Z * timespec)).

(** The [for] loop of [get_timeout], from index [i] on. *)
Fixpoint scan_timers (now : timespec) (i : Z) (timers : list watchdog_timer) (timeout idx : Z) : Z * Z :=
  match timers with
  | [] => (timeout, idx)
  | t :: timers' =>
      if armed t then
        let remain := crm_time_get_remain_ms now (tm_end t) in
        if remain <=? 1 then (0, i)
        else if remain <? timeout then scan_timers now (i + 1) timers' remain i
        else scan_timers now (i + 1) timers' timeout idx
      else scan_timers now (i + 1) timers' timeout idx
  end.

Section thread.
Context {W : Type} `{!WakelockOps W}.

Definition on_wl {A} (m : M W Z A) : M (watchdog_st W) wd_out A :=
  zoom wl (fun w s => mk_wd (ping s) (req s) w) WdWake m.

Definition set_ping (t : watchdog_timer) : M (watchdog_st W) wd_out unit :=
  modify (fun s => mk_wd t (req s) (wl s)).
Definition set_req (t : watchdog_timer) : M (watchdog_st W) wd_out unit :=
  modify (fun s => mk_wd (ping s) t (wl s)).

Definition get_timeout (now : timespec) : M (watchdog_st W) wd_out (Z * Z) :=
  let* s := get in
  let '(timeout, idx) := scan_timers now 0 [ping s; req s] INT_MAX (-1) in
  ASSERT "timeout != INT_MAX" (negb (timeout =? INT_MAX)) ;;
  ASSERT "*idx != -1" (negb (idx =? -1)) ;;
  ret (timeout, idx).

Definition handle_msg (now : timespec) (scalar ping_period : Z) : M (watchdog_st W) wd_out unit :=
  let request := watchdog_get_request scalar in
  let timeout := watchdog_get_timeout scalar in
  let msg_id := watchdog_get_id scalar in
  let* s := get in
  if request =? CRM_WATCH_START then
    (if id (req s) <? MAX_REQ_ID
     then ASSERT "id == (timer[REQ_IDX].id + 1)" (msg_id =? id (req s) + 1)
     else ASSERT "id == 0" (msg_id =? 0)) ;;
    let* is_held := on_wl (wl_is_held_by_module WAKELOCK_WATCHDOG_REQ) in
    ASSERT "timer[REQ_IDX].armed == is_held" (eqb (armed (req s)) is_held) ;;
    when (negb is_held) (on_wl (wl_acquire WAKELOCK_WATCHDOG_REQ)) ;;
    set_req (mk_timer msg_id true (crm_time_add_ms now timeout) (waiting_pong (req s)))
  else if request =? CRM_WATCH_STOP then
    ASSERT "timer[REQ_IDX].armed == true" (armed (req s)) ;;
    if negb (id (req s) =? msg_id) then ret tt else
    on_wl (wl_release WAKELOCK_WATCHDOG_REQ) ;;
    let* is_held := on_wl (wl_is_held_by_module WAKELOCK_WATCHDOG_REQ) in
    ASSERT "wakelock->is_held_by_module(wakelock, WAKELOCK_WATCHDOG_REQ) == false" (negb is_held) ;;
    set_req (mk_timer (id (req s)) false (tm_end (req s)) (waiting_pong (req s)))
  else if request =? CRM_WATCH_PONG then
    ASSERT "timer[PING_IDX].waiting_pong == true" (waiting_pong (ping s)) ;;
    ASSERT "timer[PING_IDX].id == id" (id (ping s) =? msg_id) ;;
    on_wl (wl_release WAKELOCK_WATCHDOG_PING) ;;
    let* is_held := on_wl (wl_is_held_by_module WAKELOCK_WATCHDOG_PING) in
    ASSERT "wakelock->is_held_by_module(wakelock, WAKELOCK_WATCHDOG_PING) == false" (negb is_held) ;;
    set_ping (mk_timer (id (ping s)) (armed (ping s)) (crm_time_add_ms now ping_period) false)
  else ASSERT "0" false.

(** The [while (get_msg)] loop; the result is the new value of [run]. *)
Fixpoint handle_msgs (ping_period : Z) (msgs : list (Z * timespec)) (run : bool)
    : M (watchdog_st W) wd_out bool :=
  match msgs with
  | [] => ret run
  | (scalar, now) :: msgs' =>
      if scalar =? -1 then handle_msgs ping_period msgs' false
      else handle_msg now scalar ping_period ;; handle_msgs ping_period msgs' run
  end.

(** The two branches of an expired [poll]. *)
Definition ping_expired (now : timespec) : M (watchdog_st W) wd_out unit :=
  let* s := get in
  if waiting_pong (ping s) then
    on_wl (wl_release WAKELOCK_WATCHDOG_PING) ;;
    let* is_held := on_wl (wl_is_held_by_module WAKELOCK_WATCHDOG_PING) in
    ASSERT "wakelock->is_held_by_module(wakelock, WAKELOCK_WATCHDOG_PING) == false" (negb is_held) ;;
    DASSERT "PONG not received. watchdog expiration" false
  else
    on_wl (wl_acquire WAKELOCK_WATCHDOG_PING) ;;
    let new_id := watchdog_get_new_id (id (ping s)) in
    set_ping (mk_timer new_id (armed (ping s)) (crm_time_add_ms now MAX_PING_ELAPSED) true) ;;
    let* scalar := watchdog_gen_scalar CRM_WATCH_PING 0 new_id in
    emit (WdSend scalar).

Definition req_expired : M (watchdog_st W) wd_out unit :=
  on_wl (wl_release WAKELOCK_WATCHDOG_REQ) ;;
  let* is_held := on_wl (wl_is_held_by_module WAKELOCK_WATCHDOG_REQ) in
  ASSERT "wakelock->is_held_by_module(wakelock, WAKELOCK_WATCHDOG_REQ) == false" (negb is_held) ;;
  DASSERT "Answer not received. watchdog expiration" false.

(** One turn of the [while (run)] loop: [now] is the clock when the timeout of
    [poll] is computed, [later] when [poll] has returned. *)
Definition loop_body (ping_period : Z) (now later : timespec) (r : poll_result)
    : M (watchdog_st W) wd_out bool :=
  let* t := get_timeout now in
  let '(_, idx) := t in
  match r with
  | PollError => DASSERT "error in control socket" false ;; ret true
  | PollTimeout =>
      (if idx =? PING_IDX then ping_expired later
       else if idx =? REQ_IDX then req_expired else ret tt) ;;
      ret true
  | PollMsgs msgs => handle_msgs ping_period msgs true
  end.

(** The state on entry of the loop; [junk] stands for the fields of
    [timer[REQ_IDX]] that are not initialised. *)
Definition watchdog_init (now : timespec) (ping_period : Z) (junk : watchdog_timer) (w : W)
    : watchdog_st W :=
  mk_wd (mk_timer (-1) true (crm_time_add_ms now ping_period) false)
    (mk_timer (-1) false (tm_end junk) (waiting_pong junk)) w.

End thread.

(** ** Specification *)

(** What CTRL knows of the watchdog: the last request identifier and the
    deadline of the request in progress, the last ping identifier, its
    deadline and whether its answer is awaited. *)
Record wd_spec : Type := mk_spec {
  sp_req_id : Z;
  sp_req : option timespec;
  sp_ping_id : Z;
  sp_ping_end : timespec;
  sp_waiting : bool;
}.

Definition abs {W} (s : watchdog_st W) : wd_spec :=
  mk_spec (id (req s)) (if armed (req s) then Some (tm_end (req s)) else None)
    (id (ping s)) (tm_end (ping s)) (waiting_pong (ping s)).

(** The protocol of watchdog.h; [None] is a violation of it. *)
Definition spec_msg (now : timespec) (ping_period : Z) (a : wd_spec) (scalar : Z) : option wd_spec :=
  let request := watchdog_get_request scalar in
  let msg_id := watchdog_get_id scalar in
  if request =? CRM_WATCH_START then
    if msg_id =? watchdog_get_new_id (sp_req_id a) then
      Some (mk_spec msg_id (Some (crm_time_add_ms now (watchdog_get_timeout scalar)))
              (sp_ping_id a) (sp_ping_end a) (sp_waiting a))
    else None
  else if request =? CRM_WATCH_STOP then
    match sp_req a with
    | None => None
    | Some _ =>
        if msg_id =? sp_req_id a
        then Some (mk_spec (sp_req_id a) None (sp_ping_id a) (sp_ping_end a) (sp_waiting a))
        else Some a
    end
  else if request =? CRM_WATCH_PONG then
    if sp_waiting a && (msg_id =? sp_ping_id a) then
      Some (mk_spec (sp_req_id a) (sp_req a) (sp_ping_id a) (crm_time_add_ms now ping_period) false)
    else None
  else None.

Fixpoint spec_msgs (ping_period : Z) (a : wd_spec) (msgs : list (Z * timespec)) : option wd_spec :=
  match msgs with
  | [] => Some a
  | (scalar, now) :: msgs' =>
      if scalar =? -1 then spec_msgs ping_period a msgs'
      else a' ← spec_msg now ping_period a scalar; spec_msgs ping_period a' msgs'
  end.

(** A deadline set in the past by [crm_time_add_ms]. *)
Definition deadline (now e : timespec) : Prop :=
  exists t ms, valid_clock t /\ to_ns t <= to_ns now /\ 0 <= ms < INT_MAX /\ e = crm_time_add_ms t ms.

Record wd_inv {W} `{WakelockOps W} (s : watchdog_st W) : Prop := {
  inv_valid : wl_valid (wl s);
  inv_ping_armed : armed (ping s) = true;
  inv_ping_held : wl_count (wl s) WAKELOCK_WATCHDOG_PING = if waiting_pong (ping s) then 1 else 0;
  inv_req_held : wl_count (wl s) WAKELOCK_WATCHDOG_REQ = if armed (req s) then 1 else 0;
  inv_ping_id : -1 <= id (ping s) <= MAX_REQ_ID;
  inv_req_id : -1 <= id (req s) <= MAX_REQ_ID;
}.

Definition deadlines {W} (now : timespec) (s : watchdog_st W) : Prop :=
  deadline now (tm_end (ping s)) /\ (armed (req s) = true -> deadline now (tm_end (req s))).

Section theory.
Context {W : Type} `{HW : WakelockLaws W}.
Implicit Types (s : watchdog_st W).

Lemma wp_on_wl {A} (m : M W Z A) s E (Q : A -> watchdog_st W -> list wd_out -> Prop) :
  wp m (wl s) E (fun a w _ => forall o, Q a (mk_wd (ping s) (req s) w) o) ->
  wp (on_wl m) s E Q.
Proof. intros Hm. apply wp_zoom. eapply wp_mono; [exact Hm|done|]. intros a w o Ha. apply Ha. Qed.

Lemma wp_held m s E (Q : bool -> watchdog_st W -> list wd_out -> Prop) :
  wl_valid (wl s) -> is_module m ->
  (forall o, Q (0 <? wl_count (wl s) m) s o) ->
  wp (on_wl (wl_is_held_by_module m)) s E Q.
Proof.
  intros Hv Hm HQ. apply wp_on_wl.
  eapply wp_mono; [by apply wl_is_held_by_module_spec|done|].
  intros b w o [-> ->] o'. destruct s. apply HQ.
Qed.

Lemma wp_wl_acquire m s E (Q : unit -> watchdog_st W -> list wd_out -> Prop) :
  wl_valid (wl s) -> is_module m -> wl_count (wl s) m < INT_MAX ->
  (forall w o, wl_valid w -> wl_count w m = wl_count (wl s) m + 1 ->
     (forall m', is_module m' -> m' <> m -> wl_count w m' = wl_count (wl s) m') ->
     Q tt (mk_wd (ping s) (req s) w) o) ->
  wp (on_wl (wl_acquire m)) s E Q.
Proof.
  intros Hv Hm Hlt HQ. apply wp_on_wl.
  eapply wp_mono; [by apply wl_acquire_spec|done|].
  intros [] w o (? & ? & ?) o'. by apply HQ.
Qed.

Lemma wp_wl_release m s E (Q : unit -> watchdog_st W -> list wd_out -> Prop) :
  wl_valid (wl s) -> is_module m -> 0 < wl_count (wl s) m ->
  (forall w o, wl_valid w -> wl_count w m = wl_count (wl s) m - 1 ->
     (forall m', is_module m' -> m' <> m -> wl_count w m' = wl_count (wl s) m') ->
     Q tt (mk_wd (ping s) (req s) w) o) ->
  wp (on_wl (wl_release m)) s E Q.
Proof.
  intros Hv Hm Hh HQ. apply wp_on_wl.
  eapply wp_mono; [by apply wl_release_spec|done|].
  intros [] w o (? & ? & ?) o'. by apply HQ.
Qed.

Lemma module_ping : is_module WAKELOCK_WATCHDOG_PING.
Proof. done. Qed.
Lemma module_req : is_module WAKELOCK_WATCHDOG_REQ.
Proof. done. Qed.

(** The release of a held timer, with the assertion that follows it. *)
Lemma wp_release_timer {B} m exp s (k : M (watchdog_st W) wd_out B) E Q :
  wl_valid (wl s) -> is_module m -> wl_count (wl s) m = 1 ->
  (forall w o, wl_valid w -> wl_count w m = 0 ->
     (forall m', is_module m' -> m' <> m -> wl_count w m' = wl_count (wl s) m') ->
     wp k (mk_wd (ping s) (req s) w) E (fun b s' o' => Q b s' (o ++ o'))) ->
  wp (on_wl (wl_release m) ;;
      let* is_held := on_wl (wl_is_held_by_module m) in
      ASSERT exp (negb is_held) ;; k) s E Q.
Proof.
  intros Hv Hm Hc HQ. apply wp_bind, wp_wl_release; [done|done|lia|].
  intros w o Hv' Hc' Hoth. rewrite Hc in Hc'. cbn in Hc'.
  apply wp_bind, wp_held; [done..|]. intros o'. cbn. rewrite Hc'.
  apply wp_bind, wp_ASSERT; [intros _|done].
  eapply wp_mono; [apply (HQ w (o ++ o')); done|done|].
  intros b s' o'' H'. by rewrite app_assoc.
Qed.

Lemma wp_id_check msg_id s E (Q : unit -> watchdog_st W -> list wd_out -> Prop) :
  msg_id = watchdog_get_new_id (id (req s)) -> Q tt s [] ->
  wp (if id (req s) <? MAX_REQ_ID
      then ASSERT "id == (timer[REQ_IDX].id + 1)" (msg_id =? id (req s) + 1)
      else ASSERT "id == 0" (msg_id =? 0)) s E Q.
Proof.
  unfold watchdog_get_new_id. intros Hid HQ.
  destruct (id (req s) <? MAX_REQ_ID); apply wp_ASSERT; try done; intros ?%Z.eqb_neq; congruence.
Qed.

Lemma handle_msg_accepts now period scalar s a :
  wd_inv s -> spec_msg now period (abs s) scalar = Some a ->
  wp (handle_msg now scalar period) s no_abort (fun _ s' _ => abs s' = a /\ wd_inv s').
Proof.
  intros Hinv Hspec. destruct Hinv as [Hv Hpa Hph Hrh Hpi Hri].
  unfold spec_msg in Hspec. unfold handle_msg. cbn in Hspec.
  apply wp_bind, wp_get. cbn.
  destruct (watchdog_get_request scalar =? CRM_WATCH_START).
  { destruct (Z.eqb_spec (watchdog_get_id scalar) (watchdog_get_new_id (id (req s)))) as [Hid|]; [|done].
    injection Hspec as <-. apply wp_bind.
    apply wp_id_check; [done|].
    apply wp_bind, wp_held; [done..|]. intros o. rewrite Hrh.
    apply wp_bind, wp_ASSERT; [intros _|by destruct (armed (req s))].
    pose proof (get_id_range scalar) as Hr.
    destruct (armed (req s)) eqn:Har; cbn.
    - apply wp_bind, wp_ret. apply wp_modify. split; [done|].
      split; cbn; try done. lia.
    - apply wp_bind, wp_wl_acquire; [done..|rewrite Hrh; done|].
      intros w o' Hv' Hc' Hoth. apply wp_modify. split; [done|].
      split; cbn; try done; [by rewrite Hoth| by rewrite Hc', Hrh|lia]. }
  destruct (watchdog_get_request scalar =? CRM_WATCH_STOP).
  { destruct (armed (req s)) eqn:Har; [|done].
    apply wp_bind, wp_ASSERT; [intros _|done]. rewrite (Z.eqb_sym (id (req s))).
    destruct (Z.eqb_spec (watchdog_get_id scalar) (id (req s))) as [Hid|Hid];
      injection Hspec as <-; cbn; [|apply wp_ret; split; [unfold abs; by rewrite Har|split; rewrite ?Har; done]].
    apply wp_release_timer; [done..|]. intros w o Hv' Hc' Hoth. apply wp_modify. split; [done|].
    split; cbn; try done. by rewrite Hoth. }
  destruct (watchdog_get_request scalar =? CRM_WATCH_PONG); [|done].
  destruct (waiting_pong (ping s)) eqn:Hw; cbn in Hspec; [|done].
  rewrite (Z.eqb_sym (id (ping s))).
  destruct (Z.eqb_spec (watchdog_get_id scalar) (id (ping s))) as [Hid|]; [|done]. injection Hspec as <-.
  do 2 (apply wp_bind, wp_ASSERT; [intros _|done]).
  apply wp_release_timer; [done..|]. intros w o Hv' Hc' Hoth. apply wp_modify. split; [done|].
  split; cbn; try done. by rewrite Hoth.
Qed.

Lemma handle_msg_refuses now period scalar s :
  wd_inv s -> spec_msg now period (abs s) scalar = None ->
  exists r o, handle_msg now scalar period s = Abort r o.
Proof.
  intros Hinv Hspec. unfold spec_msg in Hspec. cbn in Hspec. unfold handle_msg.
  erewrite bind_pass by reflexivity.
  destruct (watchdog_get_request scalar =? CRM_WATCH_START).
  { destruct (Z.eqb_spec (watchdog_get_id scalar) (watchdog_get_new_id (id (req s)))) as [|Hid]; [done|].
    unfold watchdog_get_new_id in Hid. unfold bind, ASSERT, fail, ret.
    destruct (id (req s) <? MAX_REQ_ID);
      [destruct (Z.eqb_spec (watchdog_get_id scalar) (id (req s) + 1))
      |destruct (Z.eqb_spec (watchdog_get_id scalar) 0)]; by eauto. }
  destruct (watchdog_get_request scalar =? CRM_WATCH_STOP).
  { destruct (armed (req s)); [by destruct (_ =? _)|]. unfold bind, ASSERT, fail. eauto. }
  destruct (watchdog_get_request scalar =? CRM_WATCH_PONG); [|unfold ASSERT, fail; eauto].
  unfold bind, ASSERT, fail, ret. destruct (waiting_pong (ping s)); [|eauto].
  rewrite (Z.eqb_sym (id (ping s))). destruct (_ =? _); [done|eauto].
Qed.

Lemma handle_msgs_accepts period msgs run s a :
  wd_inv s -> spec_msgs period (abs s) msgs = Some a ->
  wp (handle_msgs period msgs run) s no_abort (fun run' s' _ =>
    run' = run && forallb (fun m => negb (fst m =? -1)) msgs /\ abs s' = a /\ wd_inv s').
Proof.
  revert run s a. induction msgs as [|[scalar now] msgs IH]; intros run s a Hinv Hspec; cbn in *.
  { apply wp_ret. rewrite andb_true_r. split; [done|]. split; [congruence|done]. }
  destruct (scalar =? -1) eqn:Hm1; cbn.
  { eapply wp_mono; [by apply IH|done|]. intros r s' o (-> & ? & ?). by rewrite andb_false_r. }
  destruct (spec_msg now period (abs s) scalar) as [a1|] eqn:H1; [|done]. cbn in Hspec.
  apply wp_bind. eapply wp_mono; [by apply handle_msg_accepts|done|].
  intros [] s1 o1 [<- Hinv1]. by apply IH.
Qed.

Lemma handle_msgs_refuses period msgs run s :
  wd_inv s -> spec_msgs period (abs s) msgs = None ->
  exists r o, handle_msgs period msgs run s = Abort r o.
Proof.
  revert run s. induction msgs as [|[scalar now] msgs IH]; intros run s Hinv Hspec; cbn in *; [done|].
  destruct (scalar =? -1); [by apply IH|].
  destruct (spec_msg now period (abs s) scalar) as [a1|] eqn:H1; cbn in Hspec.
  - destruct (wp_total _ _ _ (handle_msg_accepts now period scalar s a1 Hinv H1))
      as ([] & s1 & o1 & Hrun & <- & Hinv1).
    destruct (IH run s1 Hinv1 Hspec) as (r & o & Hr). unfold bind. rewrite Hrun, Hr. eauto.
  - destruct (handle_msg_refuses now period scalar s Hinv H1) as (r & o & Hr).
    unfold bind. rewrite Hr. eauto.
Qed.

(** *** Timeouts *)

Lemma deadline_remain now e : valid_clock now -> deadline now e ->
  0 <= crm_time_get_remain_ms now e < INT_MAX /\
  (to_ns e <= to_ns now -> crm_time_get_remain_ms now e = 0) /\
  to_ns e - to_ns now < (crm_time_get_remain_ms now e + 1) * 1000000.
Proof.
  intros Hn (t & ms & Ht & Hle & Hms & ->).
  destruct (remaining_time_bounds t ms now Ht Hn ltac:(lia) Hle) as (Hr & Hz & Hp).
  destruct (add_ms_ns t ms Ht ltac:(lia)) as [-> _].
  split; [lia|]. split; [intros; apply Hz; lia|]. nia.
Qed.

(** The timeout given to [poll] and the index of the timer it is for. *)
Lemma scan_spec now s :
  valid_clock now -> deadlines now s -> armed (ping s) = true ->
  let '(timeout, idx) := scan_timers now 0 [ping s; req s] INT_MAX (-1) in
  0 <= timeout < INT_MAX /\
  ((idx = PING_IDX /\ to_ns (tm_end (ping s)) - to_ns now < (timeout + 2) * 1000000) \/
   (idx = REQ_IDX /\ armed (req s) = true /\
    to_ns (tm_end (req s)) - to_ns now < (timeout + 2) * 1000000)).
Proof.
  intros Hn [Hp Hr] Ha. cbn. rewrite Ha.
  destruct (deadline_remain now _ Hn Hp) as (Hp1 & _ & Hp2).
  destruct (Z.leb_spec (crm_time_get_remain_ms now (tm_end (ping s))) 1) as [Hle|Hgt].
  { split; [unfold INT_MAX; lia|]. left. split; [done|lia]. }
  destruct (Z.ltb_spec (crm_time_get_remain_ms now (tm_end (ping s))) INT_MAX); [|lia].
  destruct (armed (req s)) eqn:Hra; [|split; [lia|left; split; [done|lia]]].
  destruct (deadline_remain now _ Hn (Hr eq_refl)) as (Hr1 & _ & Hr2).
  destruct (Z.leb_spec (crm_time_get_remain_ms now (tm_end (req s))) 1).
  { split; [unfold INT_MAX; lia|]. right. split_and!; [done..|lia]. }
  destruct (Z.ltb_spec (crm_time_get_remain_ms now (tm_end (req s)))
    (crm_time_get_remain_ms now (tm_end (ping s)))).
  - split; [lia|]. right. split_and!; [done..|lia].
  - split; [lia|]. left. split; [done|lia].
Qed.

(** The guarantee [poll] gives on the end of its timeout. *)
Definition slept (now later : timespec) (s : watchdog_st W) : Prop :=
  to_ns now + fst (scan_timers now 0 [ping s; req s] INT_MAX (-1)) * 1000000 <= to_ns later.

(** The reasons to abort, each with the deadline that has passed. *)
Definition expired (later : timespec) (s : watchdog_st W) (r : abort_reason) : Prop :=
  (r = DAssertFail "PONG not received. watchdog expiration" /\
   waiting_pong (ping s) = true /\ to_ns (tm_end (ping s)) < to_ns later + 2000000) \/
  (r = DAssertFail "Answer not received. watchdog expiration" /\
   armed (req s) = true /\ to_ns (tm_end (req s)) < to_ns later + 2000000).

(** The messages sent to CTRL. *)
Definition to_ctrl (o : list wd_out) : list Z :=
  omap (fun x => match x with WdSend m => Some m | WdWake _ => None end) o.

(** The PING sent when its period has elapsed: the one message to CTRL, with the next
    identifier, whose answer is then awaited. *)
Definition pinged (later : timespec) (s s' : watchdog_st W) (o : list wd_out) : Prop :=
  waiting_pong (ping s) = false /\
  to_ctrl o = [pack CRM_WATCH_PING 0 (watchdog_get_new_id (id (ping s)))] /\
  abs s' = mk_spec (id (req s)) (sp_req (abs s)) (watchdog_get_new_id (id (ping s)))
             (crm_time_add_ms later MAX_PING_ELAPSED) true.

Lemma wp_get_timeout now s E Q :
  valid_clock now -> deadlines now s -> armed (ping s) = true ->
  Q (scan_timers now 0 [ping s; req s] INT_MAX (-1)) s [] ->
  wp (get_timeout now) s E Q.
Proof.
  intros Hn Hd Ha HQ. pose proof (scan_spec now s Hn Hd Ha) as Hs.
  unfold get_timeout. apply wp_bind, wp_get. cbn [app].
  destruct (scan_timers now 0 [ping s; req s] INT_MAX (-1)) as [timeout idx].
  destruct Hs as [Ht Hi].
  apply wp_bind, wp_ASSERT; [intros _|rewrite negb_false_iff, Z.eqb_eq; lia].
  apply wp_bind, wp_ASSERT; [intros _|].
  - by apply wp_ret.
  - rewrite negb_false_iff, Z.eqb_eq. unfold PING_IDX, REQ_IDX in *. lia.
Qed.

Lemma wp_ping_sent later s E :
  wd_inv s -> waiting_pong (ping s) = false ->
  wp (ping_expired later) s E (fun _ s' o =>
    wd_inv s' /\ pinged later s s' o).
Proof.
  intros [Hv Hpa Hph Hrh Hpi Hri] Hw. unfold ping_expired. apply wp_bind, wp_get. rewrite Hw in *.
  apply wp_bind. unfold on_wl. apply wp_zoom.
  eapply wp_mono; [apply wl_acquire_spec; [done..|rewrite Hph; done]|done|].
  intros [] w o (Hv' & Hc' & Hoth). cbn [app].
  apply wp_bind, wp_modify. unfold watchdog_gen_scalar.
  pose proof (new_id_range (id (ping s)) Hpi) as Hn.
  do 2 apply wp_bind. apply wp_ASSERT; [intros _|done].
  apply wp_bind, wp_ASSERT; [intros _|rewrite Z.leb_gt; lia]. apply wp_ret, wp_emit.
  split; [|split_and!; [done| |done]].
  - split; cbn; try done; [by rewrite Hc', Hph|by rewrite Hoth|lia].
  - unfold to_ctrl. cbn [app]. rewrite omap_app. induction o as [|x o IH]; [done|exact IH].
Qed.

Lemma wp_ping_expired later s :
  wd_inv s -> to_ns (tm_end (ping s)) < to_ns later + 2000000 ->
  wp (ping_expired later) s (expired later s) (fun _ s' o => wd_inv s' /\ pinged later s s' o).
Proof.
  intros Hinv Hend. destruct (waiting_pong (ping s)) eqn:Hw.
  - destruct Hinv as [Hv Hpa Hph Hrh Hpi Hri]. rewrite Hw in Hph.
    unfold ping_expired. apply wp_bind, wp_get. rewrite Hw.
    apply wp_release_timer; [done..|]. intros w o Hv' Hc' _.
    apply wp_DASSERT; [done|]. intros _. left. done.
  - by apply wp_ping_sent.
Qed.

Lemma wp_req_expired later s :
  wd_inv s -> armed (req s) = true -> to_ns (tm_end (req s)) < to_ns later + 2000000 ->
  wp req_expired s (expired later s) (fun _ _ _ => False).
Proof.
  intros [Hv Hpa Hph Hrh Hpi Hri] Ha Hend. unfold req_expired.
  rewrite Ha in Hrh. apply wp_release_timer; [done..|]. intros w o Hv' Hc' _.
  apply wp_DASSERT; [done|]. intros _. right. done.
Qed.

Lemma wp_loop_timeout period now later s :
  wd_inv s -> valid_clock now -> deadlines now s -> slept now later s ->
  wp (loop_body period now later PollTimeout) s (expired later s) (fun run s' o =>
    run = true /\ wd_inv s' /\ pinged later s s' o).
Proof.
  intros Hinv Hn Hd Hsl. unfold loop_body. pose proof Hinv.(inv_ping_armed s) as Ha.
  pose proof (scan_spec now s Hn Hd Ha) as Hs. unfold slept in Hsl.
  apply wp_bind, wp_get_timeout; [done..|].
  destruct (scan_timers now 0 [ping s; req s] INT_MAX (-1)) as [timeout idx]. cbn in Hsl.
  apply wp_bind. destruct Hs as [Ht [[-> Hend]|(-> & Hra & Hend)]]; cbn.
  - eapply wp_mono; [apply (wp_ping_expired later); [done|lia]|done|].
    intros [] s' o (? & ?). apply wp_ret. by rewrite app_nil_r.
  - eapply wp_mono; [apply (wp_req_expired later); [done..|lia]|done|done].
Qed.

End theory.

(** ** Properties *)

Section properties.
Context {W : Type} `{HW : WakelockLaws W}.
Implicit Types (s : watchdog_st W).

(** Round trip of the 64-bit message: for a request of the enumeration, a
    timeout and an identifier within the documented limits, the assertions of
    [watchdog_gen_scalar] hold, the three accessors give back the three
    fields, and the value is a non-negative [long long], hence never the [-1]
    that stops the thread. *)
Lemma watchdog_scalar_roundtrip {S O} request timeout id (s : S) :
  CRM_WATCH_START <= request <= CRM_WATCH_PONG ->
  0 <= timeout <= MAX_TIMEOUT -> 0 <= id <= MAX_REQ_ID ->
  exists m, watchdog_gen_scalar (O:=O) request timeout id s = Ok m s [] /\
    watchdog_get_request m = request /\ watchdog_get_id m = id /\
    watchdog_get_timeout m = timeout /\ 0 <= m < 2 ^ 63.
Proof.
  unfold CRM_WATCH_START, CRM_WATCH_PONG. intros Hr Ht Hi. exists (pack request timeout id).
  split; [|by apply pack_fields; [lia|..]].
  unfold watchdog_gen_scalar. do 2 rewrite (bind_pass _ _ _ tt s)
    by (apply ASSERT_Ok; rewrite Z.leb_le; split; [lia|done]). done.
Qed.

(** C6. The message handler refines the protocol documented in watchdog.h: a
    batch of messages that follows it (START with the successor of the last
    identifier, STOP only while armed, PONG with the identifier of the awaited
    PING) is handled without an abort, has exactly the documented effect on
    the two timers and keeps the invariant that the REQ wakelock is held iff
    the request timer is armed and the PING wakelock iff a PONG is awaited; any
    other batch aborts.  The thread goes on unless it was told to stop. *)
Theorem handle_msgs_refines_protocol period msgs s :
  wd_inv s ->
  match spec_msgs period (abs s) msgs with
  | Some a =>
      exists s' o, handle_msgs period msgs true s
          = Ok (forallb (fun m => negb (fst m =? -1)) msgs) s' o /\
        abs s' = a /\ wd_inv s'
  | None => exists r o, handle_msgs period msgs true s = Abort r o
  end.
Proof.
  intros Hinv. destruct (spec_msgs period (abs s) msgs) as [a|] eqn:Hs.
  - destruct (wp_total _ _ _ (handle_msgs_accepts period msgs true s a Hinv Hs))
      as (r & s' & o & Hrun & -> & ? & ?). eauto 10.
  - by apply handle_msgs_refuses.
Qed.

(** C7. No false alarm: when the timeout of [poll] has really elapsed, the
    thread either sends CTRL exactly one message, the PING with the next identifier,
    and awaits its answer for [MAX_PING_ELAPSED] ms, the request timer untouched; or it
    aborts, and it aborts only because a PONG is awaited or a request is armed whose
    deadline is less than two milliseconds away or past. *)
Theorem watchdog_no_false_alarm period now later s :
  wd_inv s -> valid_clock now -> deadlines now s -> slept now later s ->
  match loop_body period now later PollTimeout s with
  | Ok run s' o => run = true /\ wd_inv s' /\ pinged later s s' o
  | Abort r _ => expired later s r
  end.
Proof. apply wp_loop_timeout. Qed.

End properties.

Lemma watchdog_scalar_roundtrip_witness :
  exists m, watchdog_gen_scalar (O:=unit) CRM_WATCH_START 90000 7 tt = Ok m tt [] /\
    watchdog_get_request m = 1 /\ watchdog_get_id m = 7 /\
    watchdog_get_timeout m = 90000 /\ 0 <= m < 2 ^ 63.
Proof.
  apply (watchdog_scalar_roundtrip CRM_WATCH_START 90000 7 tt);
    unfold CRM_WATCH_START, CRM_WATCH_PONG, MAX_TIMEOUT, MAX_REQ_ID; lia.
Defined.

(** A thread that has just started, with the wakelock of [Wakelock]. *)
Definition demo_wd : watchdog_st wakelock_ctx :=
  watchdog_init (mk_timespec 10 0) 5000 (mk_timer 0 false (mk_timespec 0 0) false) crm_wakelock_init.

Lemma demo_wd_inv : wd_inv demo_wd.
Proof. split; try done; apply init_valid. Qed.

Lemma handle_msgs_refines_protocol_witness :
  exists s' o, handle_msgs 5000 [(pack CRM_WATCH_START 90000 0, mk_timespec 11 0)] true demo_wd = Ok true s' o /\
    abs s' = mk_spec 0 (Some (mk_timespec 101 0)) (-1) (mk_timespec 15 0) false /\ wd_inv s'.
Proof.
  apply (handle_msgs_refines_protocol 5000 [(pack CRM_WATCH_START 90000 0, mk_timespec 11 0)] demo_wd).
  apply demo_wd_inv.
Defined.

Lemma watchdog_no_false_alarm_witness :
  exists s' o, loop_body 5000 (mk_timespec 11 0) (mk_timespec 15 0) PollTimeout demo_wd = Ok true s' o /\
    wd_inv s' /\ pinged (mk_timespec 15 0) demo_wd s' o.
Proof.
  assert (match loop_body 5000 (mk_timespec 11 0) (mk_timespec 15 0) PollTimeout demo_wd with
    | Ok run s' o => run = true /\ wd_inv s' /\ pinged (mk_timespec 15 0) demo_wd s' o
    | Abort r _ => expired (mk_timespec 15 0) demo_wd r end) as H.
  { apply watchdog_no_false_alarm.
    - apply demo_wd_inv.
    - unfold valid_clock, NSEC_PER_SEC; cbn; lia.
    - split; [|done]. exists (mk_timespec 10 0), 5000.
      unfold valid_clock, to_ns, NSEC_PER_SEC, INT_MAX; cbn; split_and!; try lia; done.
    - vm_compute. discriminate. }
  destruct (loop_body 5000 (mk_timespec 11 0) (mk_timespec 15 0) PollTimeout demo_wd) as [run s' o|r o] eqn:E.
  - destruct H as (-> & ? & ?). eauto.
  - vm_compute in E. discriminate.
Defined.
