(* ===== verification/Escalation.v ===== *)
(** * Escalation recovery (plugins/escalation/src/escalation.c)

    Chooses what CTRL does about a modem failure: warm resets, cold resets,
    platform reboots and finally out of service, each level a configured
    number of times; a modem that has been stable long enough starts over.
    The persistent reboot counter ([CRM_KEY_REBOOT_COUNTER]) is part of the
    state: [None] when the property is not set, otherwise the number that the
    code itself has written in decimal. *)

From S2P Require Import Prelude Timer.
From Stdlib Require Import ZArith Lia.
From stdpp Require Import base tactics list strings option.

Open Scope Z_scope.
Open Scope crm_scope.

Definition STEP_MDM_WARM_RESET : Z := 1.
Definition STEP_MDM_COLD_RESET : Z := 2.
Definition STEP_PLATFORM_REBOOT : Z := 3.
Definition STEP_OOS : Z := 4.
Definition STEP_NUM : Z := 5.

Definition IDX_WARM : Z := Eval cbv in STEP_MDM_WARM_RESET - STEP_MDM_WARM_RESET.
Definition IDX_COLD : Z := Eval cbv in STEP_MDM_COLD_RESET - STEP_MDM_WARM_RESET.
Definition IDX_REBOOT : Z := Eval cbv in STEP_PLATFORM_REBOOT - STEP_MDM_WARM_RESET.
Definition IDX_OOS : Z := Eval cbv in STEP_OOS - STEP_MDM_WARM_RESET.
Definition IDX_NUM : Z := Eval cbv in STEP_NUM - STEP_MDM_WARM_RESET.

Record crm_escalation_ctx : Type := mk_esc {
  cfg : list Z;
  modem_stability_timeout : Z;
  cfg_idx : Z;
  counter : Z;
  timer_end : timespec;
  escalation_disabled : bool;
}.

Record esc_st : Type := mk_esc_st { esc : crm_escalation_ctx; reboot_prop : option Z }.

Definition E_ (A : Type) : Type := M esc_st Empty_set A.

Definition set_idx (i : Z) (s : esc_st) : esc_st :=
  let e := esc s in
  mk_esc_st (mk_esc (cfg e) (modem_stability_timeout e) i (counter e) (timer_end e)
    (escalation_disabled e)) (reboot_prop s).
Definition set_counter (n : Z) (s : esc_st) : esc_st :=
  let e := esc s in
  mk_esc_st (mk_esc (cfg e) (modem_stability_timeout e) (cfg_idx e) n (timer_end e)
    (escalation_disabled e)) (reboot_prop s).
Definition set_timer_end (t : timespec) (s : esc_st) : esc_st :=
  let e := esc s in
  mk_esc_st (mk_esc (cfg e) (modem_stability_timeout e) (cfg_idx e) (counter e) t
    (escalation_disabled e)) (reboot_prop s).
Definition set_prop (n : Z) (s : esc_st) : esc_st := mk_esc_st (esc s) (Some n).

(** [i_ctx->cfg[i]]. *)
Definition read_cfg (i : Z) : E_ Z :=
  let* s := get in
  match (if i <? 0 then None else cfg (esc s) !! Z.to_nat i) with
  | Some c => ret c
  | None => fail (Undefined "i_ctx->cfg[i_ctx->cfg_idx]")
  end.

(** The [do .. while] loop; it increases [cfg_idx], which is below [IDX_OOS]
    on entry, so [IDX_NUM] iterations are enough. *)
Fixpoint go_next_step_loop (fuel : nat) : E_ unit :=
  match fuel with
  | 0%nat => fail (Stuck "go_next_step")
  | S fuel =>
      modify (fun s => set_idx (cfg_idx (esc s) + 1) s) ;;
      let* i := gets (fun s => cfg_idx (esc s)) in
      DASSERT "Invalid escalation level reached" (i <=? IDX_NUM) ;;
      let* c := read_cfg i in
      if (c <=? 0) && negb (i =? IDX_OOS) then go_next_step_loop fuel else ret tt
  end.

Definition go_next_step : E_ unit :=
  go_next_step_loop (Z.to_nat IDX_NUM) ;;
  let* i := gets (fun s => cfg_idx (esc s)) in
  let* c := read_cfg i in
  modify (set_counter c).

Definition update_reboot_counter : E_ unit :=
  let* reboot_counter := gets (fun s => default 0 (reboot_prop s)) in
  let* c := read_cfg IDX_REBOOT in
  if c <=? reboot_counter then modify (set_idx IDX_OOS)
  else modify (set_prop (reboot_counter + 1)).

(** [now] is the clock when the stability timer is read, [later] when it is
    set again. *)
Definition get_next_step (now later : timespec) : E_ Z :=
  let* s := get in
  if escalation_disabled (esc s) then ret STEP_MDM_COLD_RESET else
  when (negb (cfg_idx (esc s) =? IDX_OOS))
    (when (crm_time_get_remain_ms now (timer_end (esc s)) <=? 0)
       (modify (set_idx 0) ;;
        let* c := read_cfg 0 in
        modify (set_counter c) ;;
        modify (set_prop 0)) ;;
     let* n := gets (fun s => counter (esc s)) in
     when (n <=? 0) go_next_step ;;
     let* i := gets (fun s => cfg_idx (esc s)) in
     (if negb (i =? IDX_REBOOT) then modify (fun s => set_counter (counter (esc s) - 1) s)
      else update_reboot_counter) ;;
     modify (fun s => set_timer_end (crm_time_add_ms later (modem_stability_timeout (esc s))) s)) ;;
  gets (fun s => cfg_idx (esc s) + STEP_MDM_WARM_RESET).

Definition get_last_step : E_ Z :=
  modify (set_idx IDX_REBOOT) ;;
  update_reboot_counter ;;
  gets (fun s => cfg_idx (esc s) + STEP_MDM_WARM_RESET).

(** The configuration store, as [crm_escalation_init] queries it: the group
    [.escalation] and its integers ([None]: absent). *)
Record tcs_escalation : Type := mk_tcs {
  group_escalation : bool;
  tcs_warm_reset : option Z;
  tcs_cold_reset : option Z;
  tcs_reboot : option Z;
  tcs_timeout : option Z;
  tcs_timeout_sanity : option Z;
}.

(** [!tcs->get_int(tcs, key, &x)], asserted. *)
Definition get_int (exp : string) (v : option Z) : E_ Z :=
  match v with Some x => ret x | None => fail (AssertFail exp) end.

(** The context that [calloc] gives, with [modem_stability_timeout] set. *)
Definition calloc_esc : crm_escalation_ctx :=
  mk_esc [0; 0; 0; 0] (-1) 0 0 (mk_timespec 0 0) false.

Definition crm_escalation_init (disabled sanity_mode : bool) (tcs : tcs_escalation) (now : timespec)
    : E_ unit :=
  if negb disabled then
    ASSERT "!tcs->select_group(tcs, '.escalation')" (group_escalation tcs) ;;
    (match tcs_warm_reset tcs with
     | Some tmp => ASSERT "tmp >= 0" (0 <=? tmp)
     | None => ret tt
     end) ;;
    let warm := default 0 (tcs_warm_reset tcs) in
    let* cold := get_int "!tcs->get_int(tcs, 'cold_reset', ..)" (tcs_cold_reset tcs) in
    let* reboot := get_int "!tcs->get_int(tcs, 'reboot', ..)" (tcs_reboot tcs) in
    ASSERT "i_ctx->cfg[IDX_COLD] >= 0 && i_ctx->cfg[IDX_REBOOT] >= 0"
      ((0 <=? cold) && (0 <=? reboot)) ;;
    let* timeout :=
      (if negb sanity_mode then get_int "!tcs->get_int(tcs, 'timeout', ..)" (tcs_timeout tcs)
       else get_int "!tcs->get_int(tcs, 'timeout_sanity', ..)" (tcs_timeout_sanity tcs)) in
    modify (fun s => mk_esc_st (mk_esc [warm; cold; reboot; 0] timeout (cfg_idx (esc s)) warm
      (timer_end (esc s)) (escalation_disabled (esc s))) (reboot_prop s)) ;;
    let* n := gets (fun s => counter (esc s)) in
    when (n <=? 0) go_next_step ;;
    modify (fun s => set_timer_end (crm_time_add_ms now (modem_stability_timeout (esc s))) s)
  else
    modify (fun s => mk_esc_st (mk_esc (cfg (esc s)) (modem_stability_timeout (esc s)) (cfg_idx (esc s))
      (counter (esc s)) (timer_end (esc s)) true) (reboot_prop s)).

(** ** Specification *)

(** An enabled module with the three configured numbers. *)
Record esc_inv (w c r : Z) (s : esc_st) : Prop := {
  inv_cfg : cfg (esc s) = [w; c; r; 0];
  inv_nonneg : 0 <= w /\ 0 <= c /\ 0 <= r;
  inv_idx : 0 <= cfg_idx (esc s) <= IDX_OOS;
  inv_prop : 0 <= default 0 (reboot_prop s);
  inv_enabled : escalation_disabled (esc s) = false;
}.

(** The reboots that are left. *)
Definition reboots (r k : Z) : list Z := replicate (Z.to_nat (r - k)) STEP_PLATFORM_REBOOT.

(** The resets still to come before the module goes out of service, if the
    modem is never stable. *)
Definition plan (w c r : Z) (s : esc_st) : list Z :=
  let k := default 0 (reboot_prop s) in
  let n := Z.to_nat (counter (esc s)) in
  if cfg_idx (esc s) =? IDX_WARM then
    replicate n STEP_MDM_WARM_RESET ++ replicate (Z.to_nat c) STEP_MDM_COLD_RESET ++ reboots r k
  else if cfg_idx (esc s) =? IDX_COLD then replicate n STEP_MDM_COLD_RESET ++ reboots r k
  else if cfg_idx (esc s) =? IDX_REBOOT then
    if counter (esc s) <=? 0 then [] else reboots r k
  else [].

(** Consecutive calls of [get_next_step]; each comes with its two clock
    readings. *)
Fixpoint get_next_steps (ts : list (timespec * timespec)) : E_ (list Z) :=
  match ts with
  | [] => ret []
  | (now, later) :: ts' =>
      let* st := get_next_step now later in
      let* sts := get_next_steps ts' in ret (st :: sts)
  end.

(** Each call comes before the stability timer armed at [prev] has elapsed. *)
Fixpoint unstable (timeout : Z) (prev : timespec) (ts : list (timespec * timespec)) : Prop :=
  match ts with
  | [] => True
  | (now, later) :: ts' =>
      0 < crm_time_get_remain_ms now (crm_time_add_ms prev timeout) /\ unstable timeout later ts'
  end.

Section theory.
Context (w c r : Z).
#[local] Abbreviation inv := (esc_inv w c r).

Lemma wp_read_cfg i x s (E : abort_reason -> Prop) Q :
  inv s -> 0 <= i -> [w; c; r; 0] !! Z.to_nat i = Some x -> Q x s [] ->
  wp (read_cfg i) s E Q.
Proof.
  intros Hinv Hi Hx HQ. unfold read_cfg. apply wp_bind, wp_get.
  destruct (Z.ltb_spec i 0); [lia|]. destruct Hinv as [-> _ _ _ _]. rewrite Hx. by apply wp_ret.
Qed.

(** The frame of the operations on the level and the counter. *)
Definition same_env (s s' : esc_st) : Prop :=
  reboot_prop s' = reboot_prop s /\ timer_end (esc s') = timer_end (esc s) /\
  modem_stability_timeout (esc s') = modem_stability_timeout (esc s).

Lemma inv_set_idx i s : inv s -> 0 <= i <= IDX_OOS -> inv (set_idx i s).
Proof. intros []. by split. Qed.

Lemma inv_set_counter n s : inv s -> inv (set_counter n s).
Proof. intros []. by split. Qed.

Lemma inv_set_prop n s : inv s -> 0 <= n -> inv (set_prop n s).
Proof. intros []. by split. Qed.

Lemma inv_set_timer_end e s : inv s -> inv (set_timer_end e s).
Proof. intros []. by split. Qed.

(** The level reached by the loop of [go_next_step]: the next one with a
    positive number of attempts, or out of service. *)
Definition next_level (i : Z) : Z :=
  if (i <? IDX_COLD) && (0 <? c) then IDX_COLD
  else if (i <? IDX_REBOOT) && (0 <? r) then IDX_REBOOT
  else IDX_OOS.

Lemma next_level_range i : i < IDX_OOS -> i < next_level i <= IDX_OOS.
Proof.
  unfold next_level, IDX_COLD, IDX_REBOOT, IDX_OOS. cbn. intros Hi.
  destruct (Z.ltb_spec i 1), (0 <? c), (Z.ltb_spec i 2), (0 <? r); cbn; lia.
Qed.

Lemma wp_go_next_step_loop n s :
  inv s -> 3 - cfg_idx (esc s) <= Z.of_nat n -> cfg_idx (esc s) < IDX_OOS ->
  wp (go_next_step_loop n) s no_abort (fun _ s' _ =>
    s' = set_idx (next_level (cfg_idx (esc s))) s).
Proof.
  revert s. induction n as [|n IH]; intros s Hinv Hn Hlt; cbn [go_next_step_loop];
    [unfold IDX_OOS in Hlt; cbn in Hlt; lia|].
  pose proof (inv_idx _ _ _ _ Hinv) as Hi. change IDX_OOS with 3 in *.
  apply wp_bind, wp_modify, wp_bind, wp_gets. cbn.
  apply wp_bind, wp_DASSERT; [intros _|unfold IDX_NUM; cbn; rewrite Z.leb_gt; lia].
  assert (inv (set_idx (cfg_idx (esc s) + 1) s)) as Hinv'.
  { apply inv_set_idx; [done|]. change IDX_OOS with 3. lia. }
  assert (cfg_idx (esc s) = 0 \/ cfg_idx (esc s) = 1 \/ cfg_idx (esc s) = 2) as [Hc|[Hc|Hc]] by lia;
    rewrite Hc in *; (apply wp_bind; eapply wp_read_cfg; [done|lia|reflexivity|]); cbn;
    unfold next_level; cbn; rewrite ?andb_false_r, ?andb_true_r; [| |by apply wp_ret];
    match goal with |- context [if ?x <=? 0 then _ else _] =>
      rewrite (Z.ltb_antisym x 0); destruct (x <=? 0); cbn; [|by apply wp_ret] end;
    (eapply wp_mono; [apply IH; [done|cbn; lia|cbn; lia]|done|]);
    intros _ s' o ->; unfold next_level; cbn; by destruct (0 <? r).
Qed.

(** Moving on from an exhausted level does not change what is to come. *)
Lemma wp_go_next_step s :
  inv s -> cfg_idx (esc s) < IDX_OOS -> counter (esc s) <= 0 ->
  wp go_next_step s no_abort (fun _ s' _ =>
    inv s' /\ same_env s s' /\ plan w c r s' = plan w c r s /\
    (cfg_idx (esc s') = IDX_OOS \/ 0 < counter (esc s'))).
Proof.
  intros Hinv Hlt Hn. unfold go_next_step. apply wp_bind.
  pose proof (inv_idx _ _ _ _ Hinv) as Hi. pose proof (inv_nonneg _ _ _ _ Hinv) as Hp.
  pose proof (inv_prop _ _ _ _ Hinv) as Hk.
  eapply wp_mono; [apply wp_go_next_step_loop; [done| |done]|done|].
  { change (Z.of_nat (Z.to_nat IDX_NUM)) with 4. lia. }
  intros [] s' o ->. pose proof (next_level_range _ Hlt) as Hl.
  assert (inv (set_idx (next_level (cfg_idx (esc s))) s)) as Hinv'.
  { apply inv_set_idx; [done|lia]. }
  apply wp_bind, wp_gets. cbn [set_idx esc cfg_idx].
  assert (Z.to_nat (counter (esc s)) = 0%nat) as Hz by lia.
  assert ((counter (esc s) <=? 0) = true) as Hb by (by apply Z.leb_le).
  unfold next_level, IDX_COLD, IDX_REBOOT, IDX_OOS, plan, reboots in *. cbn in *.
  assert (cfg_idx (esc s) = 0 \/ cfg_idx (esc s) = 1 \/ cfg_idx (esc s) = 2) as [Hc|[Hc|Hc]] by lia;
    rewrite Hc in *; cbn in *; rewrite ?Hz, ?Hb; cbn;
    destruct (Z.ltb_spec 0 c) as [Hc0|Hc0]; cbn in *;
    destruct (Z.ltb_spec 0 r) as [Hr0|Hr0]; cbn in *;
    (apply wp_bind; eapply wp_read_cfg; [done|lia|reflexivity|]);
    apply wp_modify; (split; [by apply inv_set_counter|]); (split; [done|]); cbn; (split; [|lia]);
    try (assert ((r <=? 0) = false) as -> by (by apply Z.leb_gt)); try done;
    try (assert (Z.to_nat c = 0%nat) as -> by lia);
    try (assert (Z.to_nat (r - default 0 (reboot_prop s)) = 0%nat) as -> by lia);
    by rewrite ?app_nil_r.
Qed.

(** One call before the stability timer has elapsed. *)
Lemma wp_count_down s (E : abort_reason -> Prop) :
  inv s -> cfg_idx (esc s) = IDX_OOS \/ 0 < counter (esc s) ->
  wp (if negb (cfg_idx (esc s) =? IDX_REBOOT)
      then modify (fun s => set_counter (counter (esc s) - 1) s)
      else update_reboot_counter) s E (fun _ s' _ =>
    inv s' /\ timer_end (esc s') = timer_end (esc s) /\
    modem_stability_timeout (esc s') = modem_stability_timeout (esc s) /\
    cfg_idx (esc s') + STEP_MDM_WARM_RESET = default STEP_OOS (head (plan w c r s)) /\
    plan w c r s' = tail (plan w c r s)).
Proof.
  intros Hinv Hpos.
  pose proof (inv_idx _ _ _ _ Hinv) as Hi. pose proof (inv_prop _ _ _ _ Hinv) as Hk.
  change IDX_OOS with 3 in *. change IDX_REBOOT with 2.
  assert (0 < counter (esc s) ->
    Z.to_nat (counter (esc s)) = S (Z.to_nat (counter (esc s) - 1))) as Hsucc by lia.
  assert (cfg_idx (esc s) = 0 \/ cfg_idx (esc s) = 1 \/ cfg_idx (esc s) = 2 \/ cfg_idx (esc s) = 3)
    as [Hc|[Hc|[Hc|Hc]]] by lia; rewrite Hc; cbn.
  - apply wp_modify. split; [by apply inv_set_counter|]. do 2 (split; [done|]).
    unfold plan. cbn. rewrite Hc, Hsucc by lia. done.
  - apply wp_modify. split; [by apply inv_set_counter|]. do 2 (split; [done|]).
    unfold plan. cbn. rewrite Hc, Hsucc by lia. done.
  - unfold update_reboot_counter. apply wp_bind, wp_gets. apply wp_bind.
    eapply wp_read_cfg; [done|done|reflexivity|]. unfold plan. cbn. rewrite Hc. cbn.
    destruct (Z.leb_spec (counter (esc s)) 0); [lia|].
    destruct (Z.leb_spec r (default 0 (reboot_prop s))) as [Hle|Hgt]; apply wp_modify.
    + split; [by apply inv_set_idx|]. do 2 (split; [done|]). cbn.
      unfold reboots. replace (Z.to_nat (r - default 0 (reboot_prop s))) with 0%nat by lia. done.
    + split; [apply inv_set_prop; [done|lia]|]. do 2 (split; [done|]). cbn. rewrite Hc. cbn.
      destruct (Z.leb_spec (counter (esc s)) 0); [lia|]. unfold reboots.
      replace (Z.to_nat (r - default 0 (reboot_prop s)))
        with (S (Z.to_nat (r - (default 0 (reboot_prop s) + 1)))) by lia. done.
  - apply wp_modify. split; [by apply inv_set_counter|]. do 2 (split; [done|]).
    unfold plan. cbn. rewrite Hc. done.
Qed.

(** The level a module starts over from when the modem has been stable. *)
Definition fresh (s : esc_st) : esc_st := set_prop 0 (set_counter w (set_idx 0 s)).

Definition stable (now : timespec) (s : esc_st) : bool :=
  crm_time_get_remain_ms now (timer_end (esc s)) <=? 0.

(** The state the call works from. *)
Definition start_from (now : timespec) (s : esc_st) : esc_st :=
  if negb (cfg_idx (esc s) =? IDX_OOS) && stable now s then fresh s else s.

Lemma wp_get_next_step now later s :
  inv s ->
  wp (get_next_step now later) s no_abort (fun st s' _ =>
    inv s' /\ modem_stability_timeout (esc s') = modem_stability_timeout (esc s) /\
    st = default STEP_OOS (head (plan w c r (start_from now s))) /\
    st = cfg_idx (esc s') + STEP_MDM_WARM_RESET /\
    plan w c r s' = tail (plan w c r (start_from now s)) /\
    (cfg_idx (esc s) = IDX_OOS -> cfg_idx (esc s') = IDX_OOS) /\
    (cfg_idx (esc s) <> IDX_OOS ->
     timer_end (esc s') = crm_time_add_ms later (modem_stability_timeout (esc s)))).
Proof.
  intros Hinv. unfold get_next_step. apply wp_bind, wp_get.
  rewrite (inv_enabled _ _ _ _ Hinv). cbn [app]. apply wp_bind, wp_when.
  2:{ intros H%negb_false_iff. apply wp_gets. unfold start_from. rewrite H. cbn.
      apply Z.eqb_eq in H. unfold plan. rewrite H. cbn. done. }
  intros H. unfold start_from. rewrite H. apply negb_true_iff, Z.eqb_neq in H.
  assert (forall (E : abort_reason -> Prop) (Q : unit -> esc_st -> list Empty_set -> Prop),
    Q tt (if stable now s then fresh s else s) [] ->
    wp (when (crm_time_get_remain_ms now (timer_end (esc s)) <=? 0)
      (modify (set_idx 0) ;; let* x := read_cfg 0 in modify (set_counter x) ;; modify (set_prop 0))) s E Q)
    as Hfresh.
  { intros E Q HQ. unfold stable in HQ. apply wp_when; intros Ht; rewrite Ht in HQ; [|done].
    apply wp_bind, wp_modify, wp_bind. eapply wp_read_cfg; [by apply inv_set_idx|done|reflexivity|].
    apply wp_bind, wp_modify, wp_modify. exact HQ. }
  apply wp_bind, Hfresh. clear Hfresh.
  set (s1 := if stable now s then fresh s else s).
  assert (inv s1 /\ modem_stability_timeout (esc s1) = modem_stability_timeout (esc s) /\
    cfg_idx (esc s1) < IDX_OOS) as (Hinv1 & Hto & Hlt).
  { pose proof (inv_idx _ _ _ _ Hinv). subst s1. destruct (stable now s); [|split_and!; [done..|lia]].
    split_and!; [|done..]. apply inv_set_prop; [|done]. by apply inv_set_counter, inv_set_idx. }
  apply wp_bind, wp_gets. apply wp_bind.
  assert (wp (when (counter (esc s1) <=? 0) go_next_step) s1 no_abort (fun _ s' _ =>
    inv s' /\ same_env s1 s' /\ plan w c r s' = plan w c r s1 /\
    (cfg_idx (esc s') = IDX_OOS \/ 0 < counter (esc s')))) as Hgo.
  { apply wp_when; intros Hn; bool_facts; [by apply wp_go_next_step|].
    split; [done|]. split; [done|]. split; [done|]. lia. }
  eapply wp_mono; [exact Hgo|done|]. clear Hgo. intros [] s2 o (Hinv2 & (Hp2 & Ht2 & Hm2) & Hpl2 & Hpos2).
  apply wp_bind, wp_gets. apply wp_bind.
  eapply wp_mono; [by apply wp_count_down|done|].
  intros [] s3 o' (Hinv3 & Ht3 & Hm3 & Hst & Hpl3). apply wp_modify, wp_gets.
  rewrite Hpl2 in Hst, Hpl3. split; [by apply inv_set_timer_end|].
  cbn. split_and!; try done; congruence.
Qed.

(** What is returned when the modem is never stable: the plan, then out of
    service for ever. *)
Fixpoint follow (p : list Z) (n : nat) : list Z :=
  match n with
  | 0%nat => []
  | S n => default STEP_OOS (head p) :: follow (tail p) n
  end.

Lemma follow_take p n : follow p n = take n (p ++ replicate n STEP_OOS).
Proof.
  revert p. induction n as [|n IH]; intros p; cbn [follow]; [done|].
  destruct p as [|x p]; cbn; rewrite IH.
  - done.
  - f_equal. rewrite !take_app. f_equal. change (STEP_OOS :: replicate n STEP_OOS) with (replicate (S n) STEP_OOS).
    rewrite !take_replicate. f_equal. lia.
Qed.

Lemma wp_get_next_steps timeout prev ts s :
  inv s -> modem_stability_timeout (esc s) = timeout ->
  (cfg_idx (esc s) = IDX_OOS \/ timer_end (esc s) = crm_time_add_ms prev timeout) ->
  unstable timeout prev ts ->
  wp (get_next_steps ts) s no_abort (fun sts s' _ =>
    inv s' /\ sts = follow (plan w c r s) (length ts)).
Proof.
  revert prev s. induction ts as [|[now later] ts IH]; intros prev s Hinv Hto Hend Hu;
    cbn [get_next_steps length follow]; [by apply wp_ret|].
  destruct Hu as [Hrem Hu]. apply wp_bind. eapply wp_mono; [by apply wp_get_next_step|done|].
  intros st s1 o (Hinv1 & Hto1 & Hst & _ & Hpl & Hoos & Hend1).
  assert (start_from now s = s) as Hs.
  { unfold start_from, stable. destruct (Z.eqb_spec (cfg_idx (esc s)) IDX_OOS); [done|].
    destruct Hend as [| ->]; [done|]. cbn.
    by destruct (Z.leb_spec (crm_time_get_remain_ms now (crm_time_add_ms prev timeout)) 0); [lia|]. }
  rewrite Hs in *. apply wp_bind. eapply wp_mono; [apply (IH later); [done|congruence| |done]|done|].
  - destruct (decide (cfg_idx (esc s) = IDX_OOS)); [by left; auto|right].
    rewrite Hend1 by done. congruence.
  - intros sts s2 o2 [Hinv2 ->]. apply wp_ret. split; [done|]. by rewrite <-Hpl, Hst.
Qed.

Lemma get_next_steps_oos ts s :
  inv s -> cfg_idx (esc s) = IDX_OOS ->
  wp (get_next_steps ts) s no_abort (fun sts _ _ => sts = replicate (length ts) STEP_OOS).
Proof.
  revert s. induction ts as [|[now later] ts IH]; intros s Hinv Hoos; cbn [get_next_steps length];
    [by apply wp_ret|].
  apply wp_bind. eapply wp_mono; [by apply wp_get_next_step|done|].
  intros st s1 o (Hinv1 & _ & _ & -> & _ & Hoos1 & _).
  apply wp_bind. eapply wp_mono; [by apply IH; auto|done|].
  intros sts s2 o2 ->. apply wp_ret. rewrite Hoos1 by done. done.
Qed.

Lemma wp_get_last_step s :
  inv s ->
  wp get_last_step s no_abort (fun st s' _ => inv s' /\
    if r <=? default 0 (reboot_prop s)
    then st = STEP_OOS /\ cfg_idx (esc s') = IDX_OOS /\ reboot_prop s' = reboot_prop s
    else st = STEP_PLATFORM_REBOOT /\ reboot_prop s' = Some (default 0 (reboot_prop s) + 1)).
Proof.
  intros Hinv. unfold get_last_step, update_reboot_counter.
  assert (inv (set_idx IDX_REBOOT s)) as Hinv1 by (by apply inv_set_idx).
  pose proof (inv_prop _ _ _ _ Hinv) as Hk.
  apply wp_bind, wp_modify, wp_bind, wp_bind, wp_gets, wp_bind.
  eapply wp_read_cfg; [done|done|reflexivity|]. cbn.
  destruct (r <=? default 0 (reboot_prop s)); apply wp_modify, wp_gets.
  - split; [by apply inv_set_idx|done].
  - split; [apply inv_set_prop; [done|lia]|done].
Qed.

End theory.

(** The three counts of a configuration the initialisation accepts. *)
Definition accepted (sanity_mode : bool) (tcs : tcs_escalation) (w c r timeout : Z) : Prop :=
  group_escalation tcs = true /\ w = default 0 (tcs_warm_reset tcs) /\
  tcs_cold_reset tcs = Some c /\ tcs_reboot tcs = Some r /\ 0 <= w /\ 0 <= c /\ 0 <= r /\
  (if sanity_mode then tcs_timeout_sanity tcs else tcs_timeout tcs) = Some timeout.

Lemma wp_init sanity tcs w c r timeout now k :
  accepted sanity tcs w c r timeout -> 0 <= default 0 k ->
  wp (crm_escalation_init false sanity tcs now) (mk_esc_st calloc_esc k) no_abort (fun _ s _ =>
    esc_inv w c r s /\ modem_stability_timeout (esc s) = timeout /\
    timer_end (esc s) = crm_time_add_ms now timeout /\ reboot_prop s = k /\
    plan w c r s = replicate (Z.to_nat w) STEP_MDM_WARM_RESET ++
      replicate (Z.to_nat c) STEP_MDM_COLD_RESET ++ reboots r (default 0 k)).
Proof.
  intros (Hg & Hw & Hc & Hr & Hw0 & Hc0 & Hr0 & Ht) Hk. unfold crm_escalation_init. cbn [negb].
  rewrite Hg, Hc, Hr. apply wp_bind, wp_ret. apply wp_bind.
  assert (forall (E : abort_reason -> Prop) (s : esc_st) (Q : unit -> esc_st -> list Empty_set -> Prop),
    Q tt s [] -> wp (match tcs_warm_reset tcs with
      | Some tmp => ASSERT "tmp >= 0" (0 <=? tmp) | None => ret tt end) s E Q) as Hwarm.
  { intros E s Q HQ. destruct (tcs_warm_reset tcs); [|by apply wp_ret].
    cbn in Hw. apply wp_ASSERT; [done|]. rewrite Z.leb_gt. lia. }
  apply Hwarm. clear Hwarm. apply wp_bind, wp_ret. apply wp_bind, wp_ret.
  apply wp_bind, wp_ASSERT; [intros _|rewrite andb_false_iff, !Z.leb_gt; lia].
  apply wp_bind.
  assert (forall (E : abort_reason -> Prop) (s : esc_st) (Q : Z -> esc_st -> list Empty_set -> Prop),
    Q timeout s [] ->
    wp (if negb sanity then get_int "!tcs->get_int(tcs, 'timeout', ..)" (tcs_timeout tcs)
       else get_int "!tcs->get_int(tcs, 'timeout_sanity', ..)" (tcs_timeout_sanity tcs)) s E Q) as Hto.
  { intros E s Q HQ. destruct sanity; cbn; rewrite Ht; by apply wp_ret. }
  apply Hto. clear Hto. rewrite <-Hw. apply wp_bind, wp_modify, wp_bind, wp_gets. cbn.
  set (s0 := mk_esc_st (mk_esc [w; c; r; 0] timeout 0 w (mk_timespec 0 0) false) k).
  assert (esc_inv w c r s0) as Hinv by (by split).
  apply wp_bind, wp_when; intros Hn; bool_facts.
  - eapply wp_mono; [by apply (wp_go_next_step w c r)|done|].
    intros [] s1 o (Hinv1 & (Hp1 & Ht1 & Hm1) & Hpl1 & _). apply wp_modify.
    split; [by apply inv_set_timer_end|]. cbn. rewrite Hm1. split_and!; [done..|].
    change (plan w c r (set_timer_end ?e s1)) with (plan w c r s1). rewrite Hpl1. done.
  - apply wp_modify. split; [by apply inv_set_timer_end|]. done.
Qed.

(** ** Properties *)

(** C8. The whole recovery of a modem that never becomes stable: after an
    accepted configuration of [w] warm resets, [c] cold resets and [r]
    reboots of which [k] are already used, the successive steps are exactly
    [w] warm resets, [c] cold resets, [r - k] platform reboots, and out of
    service from then on; so the module leaves service after at most
    [w + c + r] failures.  No assertion fails and the level search terminates. *)
Theorem escalation_sequence sanity tcs w c r timeout now k ts :
  accepted sanity tcs w c r timeout -> 0 <= default 0 k -> unstable timeout now ts ->
  exists s o, (crm_escalation_init false sanity tcs now ;; get_next_steps ts) (mk_esc_st calloc_esc k)
    = Ok (take (length ts)
           (replicate (Z.to_nat w) STEP_MDM_WARM_RESET ++ replicate (Z.to_nat c) STEP_MDM_COLD_RESET ++
            replicate (Z.to_nat (r - default 0 k)) STEP_PLATFORM_REBOOT ++
            replicate (length ts) STEP_OOS)) s o.
Proof.
  intros Hacc Hk Hu.
  assert (wp (crm_escalation_init false sanity tcs now ;; get_next_steps ts) (mk_esc_st calloc_esc k)
    no_abort (fun sts _ _ => sts = follow
      (replicate (Z.to_nat w) STEP_MDM_WARM_RESET ++ replicate (Z.to_nat c) STEP_MDM_COLD_RESET ++
       reboots r (default 0 k)) (length ts))) as Hwp.
  { apply wp_bind. eapply wp_mono; [by apply wp_init|done|].
    intros [] s o (Hinv & Hto & Hend & _ & Hpl).
    eapply wp_mono; [by eapply (wp_get_next_steps w c r timeout now); eauto|done|].
    intros sts s' o' [_ ->]. by rewrite Hpl. }
  apply wp_total in Hwp as (sts & s & o & Hrun & ->). rewrite follow_take in Hrun.
  rewrite <-!app_assoc in Hrun. unfold reboots in Hrun. eauto.
Qed.

Definition demo_tcs : tcs_escalation := mk_tcs true None (Some 2) (Some 2) (Some 60000) None.

Lemma escalation_sequence_witness :
  exists s o, (crm_escalation_init false false demo_tcs (mk_timespec 5 0) ;;
     get_next_steps [(mk_timespec 6 0, mk_timespec 6 1); (mk_timespec 7 0, mk_timespec 7 1);
                     (mk_timespec 8 0, mk_timespec 8 1); (mk_timespec 9 0, mk_timespec 9 1)])
    (mk_esc_st calloc_esc (Some 1)) = Ok [2; 2; 3; 4] s o.
Proof.
  apply (escalation_sequence false demo_tcs 0 2 2 60000 (mk_timespec 5 0) (Some 1)).
  - unfold accepted; cbn. split_and!; done || lia.
  - cbn; lia.
  - repeat split.
Defined.

(** Recovery is forgotten when the modem has been stable: a call after the
    stability timer has elapsed, at any level but out of service, answers as a
    module that has just been initialised with no reboot used, and leaves that
    module's remaining plan. *)
Lemma escalation_restarts_when_stable w c r now later s :
  esc_inv w c r s -> cfg_idx (esc s) <> IDX_OOS ->
  crm_time_get_remain_ms now (timer_end (esc s)) <= 0 ->
  let full := replicate (Z.to_nat w) STEP_MDM_WARM_RESET ++
              replicate (Z.to_nat c) STEP_MDM_COLD_RESET ++
              replicate (Z.to_nat r) STEP_PLATFORM_REBOOT in
  exists s' o, get_next_step now later s = Ok (default STEP_OOS (head full)) s' o /\
    plan w c r s' = tail full /\ esc_inv w c r s'.
Proof.
  intros Hinv Hidx Hrem full.
  destruct (wp_total _ _ _ (wp_get_next_step w c r now later s Hinv))
    as (st & s' & o & Hrun & Hinv' & _ & Hst & _ & Hpl & _).
  assert (plan w c r (start_from w now s) = full) as Hfull.
  { unfold start_from, stable. destruct (Z.eqb_spec (cfg_idx (esc s)) IDX_OOS); [done|].
    destruct (Z.leb_spec (crm_time_get_remain_ms now (timer_end (esc s))) 0); [|lia].
    unfold full, plan, reboots. cbn. by rewrite Z.sub_0_r. }
  rewrite Hfull in *. subst st. eauto.
Qed.

Lemma escalation_restarts_when_stable_witness :
  exists s' o, get_next_step (mk_timespec 100 0) (mk_timespec 100 0)
      (mk_esc_st (mk_esc [0; 2; 2; 0] 60000 2 2 (mk_timespec 66 0) false) (Some 2)) = Ok 2 s' o /\
    plan 0 2 2 s' = [2; 3; 3] /\ esc_inv 0 2 2 s'.
Proof.
  apply (escalation_restarts_when_stable 0 2 2).
  - split; cbn; done || lia.
  - done.
  - vm_compute. discriminate.
Defined.

(** Out of service is final: from then on every call of [get_next_step]
    answers out of service, whatever the clock.  [get_last_step], used when
    the modem is unresponsive, skips the resets: it answers platform reboot
    and counts it while reboots are left, and out of service otherwise, which
    is then final. *)
Lemma out_of_service_is_final w c r s ts :
  esc_inv w c r s ->
  (cfg_idx (esc s) = IDX_OOS ->
   exists s' o, get_next_steps ts s = Ok (replicate (length ts) STEP_OOS) s' o) /\
  (default 0 (reboot_prop s) < r ->
   exists s' o, get_last_step s = Ok STEP_PLATFORM_REBOOT s' o /\
     reboot_prop s' = Some (default 0 (reboot_prop s) + 1)) /\
  (r <= default 0 (reboot_prop s) ->
   exists s' o, (get_last_step ;; get_next_steps ts) s = Ok (replicate (length ts) STEP_OOS) s' o).
Proof.
  intros Hinv. pose proof (wp_get_last_step w c r s Hinv) as Hlast. split_and!; intros H.
  - destruct (wp_total _ _ _ (get_next_steps_oos w c r ts s Hinv H)) as (? & ? & ? & ? & ->). eauto.
  - apply wp_total in Hlast as (st & s' & o & Hrun & _ & Hl).
    destruct (Z.leb_spec r (default 0 (reboot_prop s))); [lia|]. destruct Hl as [-> ?]. eauto.
  - assert (wp (get_last_step ;; get_next_steps ts) s no_abort
      (fun sts _ _ => sts = replicate (length ts) STEP_OOS)) as Hwp.
    { apply wp_bind. eapply wp_mono; [exact Hlast|done|]. intros st s1 o [Hinv1 Hl].
      destruct (Z.leb_spec r (default 0 (reboot_prop s))); [|lia]. destruct Hl as (_ & Hi & _).
      eapply wp_mono; [by apply (get_next_steps_oos w c r)|done|done]. }
    apply wp_total in Hwp as (? & ? & ? & ? & ->). eauto.
Qed.

Lemma out_of_service_is_final_witness :
  exists s' o, (get_last_step ;; get_next_steps [(mk_timespec 900 0, mk_timespec 900 0)])
      (mk_esc_st (mk_esc [0; 2; 2; 0] 60000 1 2 (mk_timespec 66 0) false) (Some 2)) = Ok [4] s' o.
Proof.
  apply (out_of_service_is_final 0 2 2 _ [(mk_timespec 900 0, mk_timespec 900 0)]); [|cbn; lia].
  split; cbn; done || lia.
Defined.
