(* ===== verification/MdmCli.v ===== *)
(** * The constants of libmdmcli (header libmdmcli/mdm_cli.h)

    The header is not part of the repository (the library is: mdmcli/src); it gives the
    event identifiers, the limits of the strings and the values used in debug
    information.  They are the fields of a class, and what the code relies on
    (events are small non-negative numbers that fit in a bitmap, distinct from
    each other) is [MdmCliLaws]. *)

From S2P Require Import Prelude.
From Stdlib Require Import ZArith Lia.
From stdpp Require Import base tactics list strings.

Open Scope Z_scope.

Class MdmCli : Type := {
  (* mdm_cli_event_t *)
  MDM_DOWN : Z;
  MDM_ON : Z;
  MDM_UP : Z;
  MDM_OOS : Z;
  MDM_COLD_RESET : Z;
  MDM_SHUTDOWN : Z;
  MDM_DBG_INFO : Z;
  MDM_NUM_EVENTS : Z;
  (* mdm_cli_restart_cause_t *)
  RESTART_MDM_OOS : Z;
  RESTART_MDM_ERR : Z;
  RESTART_APPLY_UPDATE : Z;
  (* limits, terminating NUL included *)
  MDM_CLI_NAME_LEN : Z;
  MDM_CLI_MAX_NB_DATA : Z;
  MDM_CLI_MAX_LEN_DATA : Z;
  (* debug information *)
  DBG_TYPE_STATS : Z;
  DBG_TYPE_INFO : Z;
  DBG_TYPE_DUMP_END : Z;
  DBG_TYPE_FW_SUCCES : Z;
  DBG_TYPE_TLV_NONE : Z;
  DBG_TYPE_NVM_BACKUP_SUCCESS : Z;
  DBG_TYPE_NVM_BACKUP_FAILURE : Z;
  DBG_TYPE_APIMR : Z;
  DBG_TYPE_PLATFORM_REBOOT : Z;
  DBG_TYPE_TLV_SUCCESS : Z;
  DBG_TYPE_TLV_FAILURE : Z;
  DBG_TYPE_DUMP_START : Z;
  DBG_TYPE_ERROR : Z;
  DBG_TYPE_SELF_RESET : Z;
  DBG_TYPE_FW_FAILURE : Z;
  DBG_DEFAULT_LOG_SIZE : Z;
  DBG_DEFAULT_LOG_TIME : Z;
  DBG_DEFAULT_NO_LOG : Z;
  DUMP_STR_LINK_ERR : string;
}.

Class MdmCliLaws `{MdmCli} : Prop := {
  mdm_events_distinct :
    NoDup [MDM_DOWN; MDM_ON; MDM_UP; MDM_OOS; MDM_COLD_RESET; MDM_SHUTDOWN; MDM_DBG_INFO];
  mdm_events_range e :
    e ∈ [MDM_DOWN; MDM_ON; MDM_UP; MDM_OOS; MDM_COLD_RESET; MDM_SHUTDOWN; MDM_DBG_INFO] ->
    0 <= e < MDM_NUM_EVENTS;
  mdm_events_bitmap : MDM_NUM_EVENTS <= 31;
  mdm_name_len : 0 < MDM_CLI_NAME_LEN <= 4096;
  mdm_nb_data : 0 <= MDM_CLI_MAX_NB_DATA <= 4096;
  mdm_len_data : 0 < MDM_CLI_MAX_LEN_DATA <= 4096;
  restart_causes_distinct : NoDup [RESTART_MDM_OOS; RESTART_MDM_ERR; RESTART_APPLY_UPDATE];
}.

(** [mdm_cli_dbg_info_t]; [nb_data] is the length of [data]. *)
Record mdm_cli_dbg_info : Type := mk_dbg {
  dbg_type : Z;
  ap_logs_size : Z;
  bp_logs_size : Z;
  bp_logs_time : Z;
  dbg_data : list string;
}.

#[export] Instance mdm_cli_dbg_info_eq_dec : EqDecision mdm_cli_dbg_info.
Proof. solve_decision. Defined.

(** One header that satisfies the laws, for examples. *)
Definition demo_mdmcli : MdmCli := {|
  MDM_DOWN := 0; MDM_ON := 1; MDM_UP := 2; MDM_OOS := 3; MDM_COLD_RESET := 4; MDM_SHUTDOWN := 5;
  MDM_DBG_INFO := 6; MDM_NUM_EVENTS := 12; RESTART_MDM_OOS := 2; RESTART_MDM_ERR := 0; RESTART_APPLY_UPDATE := 1;
  DBG_TYPE_STATS := 9; DBG_TYPE_INFO := 10; DBG_TYPE_DUMP_END := 11; DBG_TYPE_FW_SUCCES := 12;
  DBG_TYPE_TLV_NONE := 13; DBG_TYPE_NVM_BACKUP_SUCCESS := 14; DBG_TYPE_NVM_BACKUP_FAILURE := 15;
  MDM_CLI_NAME_LEN := 64; MDM_CLI_MAX_NB_DATA := 7; MDM_CLI_MAX_LEN_DATA := 1024;
  DBG_TYPE_APIMR := 1; DBG_TYPE_PLATFORM_REBOOT := 2; DBG_TYPE_TLV_SUCCESS := 3;
  DBG_TYPE_TLV_FAILURE := 4; DBG_TYPE_DUMP_START := 5; DBG_TYPE_ERROR := 6;
  DBG_TYPE_SELF_RESET := 7; DBG_TYPE_FW_FAILURE := 8; DBG_DEFAULT_LOG_SIZE := 5;
  DBG_DEFAULT_LOG_TIME := 60; DBG_DEFAULT_NO_LOG := 0; DUMP_STR_LINK_ERR := "link error"
|}.

Lemma demo_mdmcli_laws : @MdmCliLaws demo_mdmcli.
Proof.
  split; cbn; try lia.
  - apply (bool_decide_unpack _). vm_compute. exact I.
  - intros e He. rewrite !elem_of_cons in He. rewrite elem_of_nil in He. lia.
  - apply (bool_decide_unpack _). vm_compute. exact I.
Qed.
