(* ===== verification/Control.v ===== *)
(** * The CTRL state machine (plugins/control/src/fsm_ctrl.c, common.h)

    CTRL runs the life cycle of the modem: it receives the requests of the
    client abstraction (CLA), the events of the HAL and the results of the
    upload, customization and dump plugins, and drives those plugins.  The
    context is one record, the calls to the other plugins are emitted actions,
    and the answers the code reads from them (clock, elector, telephony
    bridge) are the fields of [env].  The escalation plugin is the component
    of Escalation.v embedded in the context. *)

From S2P Require Import Prelude Fsm Timer Escalation Watchdog MdmCli.
From Stdlib Require Import ZArith Lia.
From stdpp Require Import base tactics list strings option.

Open Scope Z_scope.
Open Scope crm_scope.

Definition MAX_RESET_TIMEOUT : Z := 100.

(** ** Enumerations *)

Definition ST_INITIAL : Z := 0.
Definition ST_DOWN : Z := 1.
Definition ST_PACKAGING : Z := 2.
Definition ST_FLASHING : Z := 3.
Definition ST_CUSTOMIZING : Z := 4.
Definition ST_UP : Z := 5.
Definition ST_WAITING : Z := 6.
Definition ST_DUMPING : Z := 7.
Definition ST_NUM : Z := 8.

Definition EV_CLI_START : Z := 0.
Definition EV_CLI_STOP : Z := 1.
Definition EV_CLI_RESET : Z := 2.
Definition EV_CLI_UPDATE : Z := 3.
Definition EV_CLI_NVM_BACKUP : Z := 4.
Definition EV_HAL_MDM_OFF : Z := 5.
Definition EV_HAL_MDM_RUN : Z := 6.
Definition EV_HAL_MDM_BUSY : Z := 7.
Definition EV_HAL_MDM_NEED_RESET : Z := 8.
Definition EV_HAL_MDM_FLASH : Z := 9.
Definition EV_HAL_MDM_DUMP : Z := 10.
Definition EV_HAL_MDM_UNRESPONSIVE : Z := 11.
Definition EV_NVM_SUCCESS : Z := 12.
Definition EV_FW_SUCCESS : Z := 13.
Definition EV_DUMP_SUCCESS : Z := 14.
Definition EV_FAILURE : Z := 15.
Definition EV_TIMEOUT : Z := 16.
Definition EV_NUM : Z := 17.

Inductive cli_request : Type := REQ_NONE | REQ_RESET | REQ_STOP | REQ_START.

#[export] Instance cli_request_eq_dec : EqDecision cli_request.
Proof. solve_decision. Defined.

(** inc/plugins/dependent_types.h, hal.h and client_abstraction.h *)
Inductive crm_hal_evt_type : Type :=
| HAL_MDM_OFF | HAL_MDM_RUN | HAL_MDM_BUSY | HAL_MDM_NEED_RESET | HAL_MDM_FLASH | HAL_MDM_DUMP
| HAL_MDM_UNRESPONSIVE.

#[export] Instance crm_hal_evt_type_eq_dec : EqDecision crm_hal_evt_type.
Proof. solve_decision. Defined.

Record crm_hal_evt : Type := mk_hal_evt { evt_type : crm_hal_evt_type; nodes : string }.

Inductive crm_hal_reset_type : Type := RESET_WARM | RESET_COLD | RESET_BACKUP.

Inductive crm_cli_abs_mdm_state : Type :=
| MDM_STATE_OFF | MDM_STATE_UNRESP | MDM_STATE_BUSY | MDM_STATE_READY
| MDM_STATE_PLATFORM_REBOOT | MDM_STATE_UNKNOWN.

#[export] Instance crm_cli_abs_mdm_state_eq_dec : EqDecision crm_cli_abs_mdm_state.
Proof. solve_decision. Defined.

(** ** State *)

(** What a [void *] of a message or of [dbg_info.evt] may point to. *)
Inductive evt_data : Type :=
| DbgData (d : mdm_cli_dbg_info)
| HalData (h : crm_hal_evt).

Record crm_ctrl_state : Type := mk_state {
  client_request : cli_request;
  fw_ready : bool;
  hal_evt : option evt_data;
  waiting_hal_busy_reason : bool;
  flash_done : bool;
  run_ipc : bool;
}.

Record crm_ctrl_dbg_info : Type := mk_dbg_info {
  do_not_report : bool;
  reset_initiated_by_cla : bool;
  evt : option evt_data;
}.

(** The context; [dump] tells whether the optional dump plugin is loaded, and
    [msg_ptr] is the local variable of [event_loop] that operations reach
    through [evt_param]. *)
Record crm_control_ctx_internal : Type := mk_ctrl {
  ctrl_state : crm_ctrl_state;
  is_mdm_oos : bool;
  inst_id : Z;
  watch_id : Z;
  timeout : Z;
  dbg_info : crm_ctrl_dbg_info;
  timer_armed : bool;
  ctrl_timer_end : timespec;
  dump : bool;
  escalation_ctx : esc_st;
  msg_ptr : option evt_data;
}.
Abbreviation ctrl := crm_control_ctx_internal (only parsing).

(** [evt_param]: NULL, or the address of [msg_ptr]. *)
Inductive evt_param : Type := PNull | PCell.

(** The calls CTRL makes to the other modules. *)
Inductive ctrl_out : Type :=
| WatchdogSend (scalar : Z)
| NotifyOperationResult (status : Z)
| NotifyModemState (st : crm_cli_abs_mdm_state)
| NotifyClientDbg (d : mdm_cli_dbg_info)
| UploadPackage (fw : string)
| UploadFlash (nodes : string)
| HalPowerOn
| HalBoot
| HalShutdown
| HalReset (t : crm_hal_reset_type)
| NotifyFwFlashed (status : Z)
| NotifyTlvApplied (status : Z)
| CustomizationSend (tlvs : list string) (nb : Z)
| DumpRead (nodes fw : string)
| DumpStop
| BroadcastIntent (name : string) (v : Z).

(** What is read from the outside during one event: the clock, the two clock
    readings of the escalation, the firmware path and the list of
    customization files with its length, and the results of the successive
    reboot broadcasts. *)
Record env : Type := mk_env {
  now : timespec;
  esc_now : timespec;
  esc_later : timespec;
  fw_path : string;
  tlv_list : option (list string);
  tlv_nb : Z;
  reboot_broadcasts : list Z;
}.

Definition C_ (A : Type) : Type := M crm_control_ctx_internal ctrl_out A.

Definition on_state (f : crm_ctrl_state -> crm_ctrl_state) : C_ unit :=
  modify (fun s => mk_ctrl (f (ctrl_state s)) (is_mdm_oos s) (inst_id s) (watch_id s) (timeout s)
    (dbg_info s) (timer_armed s) (ctrl_timer_end s) (dump s) (escalation_ctx s) (msg_ptr s)).

Definition set_client_request (r : cli_request) : C_ unit :=
  on_state (fun t => mk_state r (fw_ready t) (hal_evt t) (waiting_hal_busy_reason t) (flash_done t)
    (run_ipc t)).
Definition set_fw_ready (b : bool) : C_ unit :=
  on_state (fun t => mk_state (client_request t) b (hal_evt t) (waiting_hal_busy_reason t)
    (flash_done t) (run_ipc t)).
Definition set_hal_evt (h : option evt_data) : C_ unit :=
  on_state (fun t => mk_state (client_request t) (fw_ready t) h (waiting_hal_busy_reason t)
    (flash_done t) (run_ipc t)).
Definition set_waiting_hal_busy_reason (b : bool) : C_ unit :=
  on_state (fun t => mk_state (client_request t) (fw_ready t) (hal_evt t) b (flash_done t)
    (run_ipc t)).
Definition set_flash_done (b : bool) : C_ unit :=
  on_state (fun t => mk_state (client_request t) (fw_ready t) (hal_evt t)
    (waiting_hal_busy_reason t) b (run_ipc t)).
Definition set_run_ipc (b : bool) : C_ unit :=
  on_state (fun t => mk_state (client_request t) (fw_ready t) (hal_evt t)
    (waiting_hal_busy_reason t) (flash_done t) b).

Definition on_dbg_info (f : crm_ctrl_dbg_info -> crm_ctrl_dbg_info) : C_ unit :=
  modify (fun s => mk_ctrl (ctrl_state s) (is_mdm_oos s) (inst_id s) (watch_id s) (timeout s)
    (f (dbg_info s)) (timer_armed s) (ctrl_timer_end s) (dump s) (escalation_ctx s) (msg_ptr s)).

Definition set_do_not_report (b : bool) : C_ unit :=
  on_dbg_info (fun d => mk_dbg_info b (reset_initiated_by_cla d) (evt d)).
Definition set_reset_initiated_by_cla (b : bool) : C_ unit :=
  on_dbg_info (fun d => mk_dbg_info (do_not_report d) b (evt d)).
Definition set_dbg_evt (e : option evt_data) : C_ unit :=
  on_dbg_info (fun d => mk_dbg_info (do_not_report d) (reset_initiated_by_cla d) e).

Definition set_is_mdm_oos (b : bool) : C_ unit :=
  modify (fun s => mk_ctrl (ctrl_state s) b (inst_id s) (watch_id s) (timeout s) (dbg_info s)
    (timer_armed s) (ctrl_timer_end s) (dump s) (escalation_ctx s) (msg_ptr s)).
Definition set_watch_id (i : Z) : C_ unit :=
  modify (fun s => mk_ctrl (ctrl_state s) (is_mdm_oos s) (inst_id s) i (timeout s) (dbg_info s)
    (timer_armed s) (ctrl_timer_end s) (dump s) (escalation_ctx s) (msg_ptr s)).
Definition set_timer (b : bool) (e : timespec) : C_ unit :=
  modify (fun s => mk_ctrl (ctrl_state s) (is_mdm_oos s) (inst_id s) (watch_id s) (timeout s)
    (dbg_info s) b e (dump s) (escalation_ctx s) (msg_ptr s)).
Definition set_msg_ptr (m : option evt_data) : C_ unit :=
  modify (fun s => mk_ctrl (ctrl_state s) (is_mdm_oos s) (inst_id s) (watch_id s) (timeout s)
    (dbg_info s) (timer_armed s) (ctrl_timer_end s) (dump s) (escalation_ctx s) m).

(** A call to the escalation plugin. *)
Definition on_escalation {A} (m : M esc_st Empty_set A) : C_ A :=
  zoom escalation_ctx (fun e s => mk_ctrl (ctrl_state s) (is_mdm_oos s) (inst_id s) (watch_id s)
    (timeout s) (dbg_info s) (timer_armed s) (ctrl_timer_end s) (dump s) e (msg_ptr s))
    (fun x : Empty_set => match x with end) m.

(** ** Names *)

Definition get_event_txt (e : Z) : option string :=
  ["CLI: start"; "CLI: stop"; "CLI: reset"; "CLI: update"; "CLI: backup"; "HAL: off"; "HAL: run";
   "HAL: busy"; "HAL: need_reset"; "HAL: flash"; "HAL: dump"; "HAL: unresp"; "OP : nvm ok";
   "OP : fw ok"; "OP : dump ok"; "OP : err"; "OP : timeout"]%string
  !! (if e <? 0 then Z.to_nat EV_NUM else Z.to_nat e).

Definition get_state_txt (st : Z) : option string :=
  ["INITIAL"; "DOWN"; "PACKAGING"; "FLASHING"; "CUSTOMIZING"; "UP"; "WAITING"; "DUMPING"]%string
  !! (if st <? 0 then Z.to_nat ST_NUM else Z.to_nat st).

(** ** Helpers *)

Section operations.
Context `{MdmCli} (e : env).

Definition start_timer (ms : Z) : C_ unit :=
  let* armed := gets timer_armed in
  ASSERT "i_ctx->timer_armed == false" (negb armed) ;;
  ASSERT "timeout >= 0" (0 <=? ms) ;;
  set_timer true (crm_time_add_ms (now e) ms).

Definition get_timeout : C_ Z :=
  let* s := get in
  if negb (timer_armed s) then ret (-1)
  else ret (crm_time_get_remain_ms (now e) (ctrl_timer_end s)).

Definition clear_internal_state : C_ unit :=
  on_state (fun _ => mk_state REQ_NONE false None false false false).

Definition watchdog_start (ms : Z) : C_ unit :=
  let* old := gets watch_id in
  set_watch_id (watchdog_get_new_id old) ;;
  let* scalar := watchdog_gen_scalar CRM_WATCH_START ms (watchdog_get_new_id old) in
  emit (WatchdogSend scalar).

Definition watchdog_stop : C_ unit :=
  let* i := gets watch_id in
  let* scalar := watchdog_gen_scalar CRM_WATCH_STOP 0 i in
  emit (WatchdogSend scalar).

Definition is_request (r : cli_request) : C_ bool :=
  gets (fun s => bool_decide (client_request (ctrl_state s) = r)).

Definition notify_op_result_if_needed (status : Z) : C_ unit :=
  let* none := is_request REQ_NONE in
  when (negb none)
    (set_client_request REQ_NONE ;;
     emit (NotifyOperationResult status)).

Definition mdm_flash : C_ Z :=
  let* s := get in
  match hal_evt (ctrl_state s), fw_ready (ctrl_state s) with
  | Some d, true =>
      match d with
      | HalData h =>
          ASSERT "i_ctx->state.hal_evt->type == HAL_MDM_FLASH" (bool_decide (evt_type h = HAL_MDM_FLASH)) ;;
          emit (UploadFlash (nodes h)) ;;
          set_hal_evt None ;;
          set_fw_ready false ;;
          ret ST_FLASHING
      | DbgData _ => fail (Undefined "mdm_cli_dbg_info_t read as crm_hal_evt_t")
      end
  | _, _ => ret (-1)
  end.

(** [ *evt_param ]: the data of the message. *)
Definition deref (p : evt_param) : C_ (option evt_data) :=
  match p with
  | PCell => gets msg_ptr
  | PNull => fail (Undefined "dereference of a NULL evt_param")
  end.

Definition flash_evt (p : evt_param) : C_ Z :=
  let* s := get in
  ASSERT "i_ctx->state.hal_evt == NULL" (bool_decide (hal_evt (ctrl_state s) = None)) ;;
  let* d := deref p in
  set_hal_evt d ;;
  set_msg_ptr None ;;
  mdm_flash.

Definition fw_ready_evt (p : evt_param) : C_ Z :=
  set_fw_ready true ;;
  mdm_flash.

Definition mdm_cfg : C_ Z :=
  let* s := get in
  if flash_done (ctrl_state s) && run_ipc (ctrl_state s) then
    set_flash_done false ;;
    set_run_ipc false ;;
    match tlv_list e with
    | Some tlvs =>
        ASSERT "nb > 0" (0 <? tlv_nb e) ;;
        emit (CustomizationSend tlvs (tlv_nb e)) ;;
        ret ST_CUSTOMIZING
    | None =>
        ASSERT "nb == 0" (tlv_nb e =? 0) ;;
        notify_op_result_if_needed 0 ;;
        emit (NotifyModemState MDM_STATE_READY) ;;
        ret ST_UP
    end
  else ret (-1).

Definition run_evt_initial (p : evt_param) : C_ Z :=
  set_run_ipc true ;;
  set_flash_done true ;;
  mdm_cfg.

Definition run_evt (p : evt_param) : C_ Z :=
  set_run_ipc true ;;
  mdm_cfg.

Definition flash_success_evt (p : evt_param) : C_ Z :=
  let* s := get in
  when (negb (run_ipc (ctrl_state s))) (emit HalBoot) ;;
  emit (NotifyFwFlashed 0) ;;
  set_flash_done true ;;
  mdm_cfg.

Definition mdm_stop (p : evt_param) : C_ Z :=
  emit HalShutdown ;;
  ret ST_WAITING.

(** Freeing through the wrong type of pointer is undefined. *)
Definition free_dbg_info (d : option evt_data) : C_ unit :=
  match d with
  | Some (HalData _) => fail (Undefined "crm_hal_evt_t freed as mdm_cli_dbg_info_t")
  | _ => ret tt
  end.

(** [store_dbg_info(&i_ctx->dbg_info.evt, evt_param, overwrite)] *)
Definition store_dbg_info (p : evt_param) (overwrite : bool) : C_ unit :=
  match p with
  | PNull => ret tt
  | PCell =>
      let* s := get in
      match msg_ptr s with
      | None => ret tt
      | Some src =>
          (match evt (dbg_info s) with
           | Some dest => when overwrite (free_dbg_info (Some dest) ;; set_dbg_evt None)
           | None => ret tt
           end) ;;
          let* dest := gets (fun s => evt (dbg_info s)) in
          (match dest with
           | None => set_dbg_evt (Some src)
           | Some _ => free_dbg_info (Some src)
           end) ;;
          set_msg_ptr None
      end
  end.

Definition notify_dbg (d : evt_data) : C_ unit :=
  match d with
  | DbgData d => emit (NotifyClientDbg d)
  | HalData _ => fail (Undefined "crm_hal_evt_t sent as mdm_cli_dbg_info_t")
  end.

Definition dbg_info_apimr : mdm_cli_dbg_info :=
  mk_dbg DBG_TYPE_APIMR DBG_DEFAULT_LOG_SIZE DBG_DEFAULT_NO_LOG DBG_DEFAULT_NO_LOG [].

Definition notify_dbg_info (report : bool) : C_ unit :=
  let* s := get in
  when (report && negb (do_not_report (dbg_info s)))
    (when (bool_decide (evt (dbg_info s) = None) && reset_initiated_by_cla (dbg_info s))
       (set_dbg_evt (Some (DbgData dbg_info_apimr))) ;;
     let* d := gets (fun s => evt (dbg_info s)) in
     match d with
     | None => fail (AssertFail "i_ctx->dbg_info.evt")
     | Some d => notify_dbg d
     end) ;;
  set_do_not_report false ;;
  set_reset_initiated_by_cla false ;;
  let* d := gets (fun s => evt (dbg_info s)) in
  free_dbg_info d ;;
  set_dbg_evt None.

Definition broadcast (name : string) : C_ unit :=
  let* i := gets inst_id in
  emit (BroadcastIntent name i).

Definition mdm_restart (report_dbg_info backup : bool) : C_ Z :=
  notify_dbg_info report_dbg_info ;;
  emit (UploadPackage (fw_path e)) ;;
  emit (HalReset (if backup then RESET_BACKUP else RESET_COLD)) ;;
  broadcast "com.intel.action.MODEM_COLD_RESET" ;;
  ret ST_PACKAGING.

Definition set_oos : C_ Z :=
  let* s := get in
  ASSERT "i_ctx->is_mdm_oos != true" (negb (is_mdm_oos s)) ;;
  notify_dbg_info true ;;
  emit (NotifyModemState MDM_STATE_UNRESP) ;;
  notify_op_result_if_needed (-1) ;;
  set_is_mdm_oos true ;;
  broadcast "com.intel.action.MODEM_OUT_OF_SERVICE" ;;
  ret ST_DOWN.

Definition fw_flash_failure (p : evt_param) : C_ Z :=
  store_dbg_info p true ;;
  set_oos.

(** [while (!broadcast(..)) usleep(..)]: the loop is left at the first result
    that is not 0. *)
Fixpoint reboot_loop (results : list Z) : C_ unit :=
  match results with
  | [] => fail (Stuck "reboot broadcast loop")
  | r :: results' =>
      emit (BroadcastIntent "android.intent.action.REBOOT" 1) ;;
      if r =? 0 then reboot_loop results' else ret tt
  end.

Definition dbg_info_reboot : mdm_cli_dbg_info :=
  mk_dbg DBG_TYPE_PLATFORM_REBOOT DBG_DEFAULT_LOG_SIZE DBG_DEFAULT_LOG_SIZE DBG_DEFAULT_LOG_TIME [].

Definition platform_reboot : C_ Z :=
  notify_dbg_info true ;;
  emit (NotifyClientDbg dbg_info_reboot) ;;
  emit (NotifyModemState MDM_STATE_PLATFORM_REBOOT) ;;
  notify_op_result_if_needed (-1) ;;
  set_is_mdm_oos true ;;
  broadcast "com.intel.action.PLATFORM_REBOOT" ;;
  reboot_loop (reboot_broadcasts e) ;;
  ret ST_DOWN.

Definition escalation (p : evt_param) : C_ Z :=
  store_dbg_info p true ;;
  let* step := on_escalation (get_next_step (esc_now e) (esc_later e)) in
  if step =? STEP_MDM_WARM_RESET then DASSERT "not implemented" false ;; ret (-1)
  else if step =? STEP_MDM_COLD_RESET then mdm_restart true false
  else if step =? STEP_PLATFORM_REBOOT then platform_reboot
  else if step =? STEP_OOS then set_oos
  else fail (AssertFail "0").

Definition requested_operation (p : evt_param) : C_ Z :=
  store_dbg_info p true ;;
  let* r := gets (fun s => client_request (ctrl_state s)) in
  match r with
  | REQ_NONE => ret ST_WAITING
  | REQ_RESET | REQ_START => escalation p
  | REQ_STOP => mdm_stop p
  end.

Definition ASSERT_no_request : C_ unit :=
  let* none := is_request REQ_NONE in
  ASSERT "i_ctx->state.client_request == REQ_NONE" none.

Definition accept_stop (p : evt_param) : C_ Z :=
  ASSERT_no_request ;;
  set_client_request REQ_STOP ;;
  ret (-1).

Definition accept_reset (p : evt_param) : C_ Z :=
  ASSERT_no_request ;;
  set_client_request REQ_RESET ;;
  ret (-1).

Definition request_start (p : evt_param) : C_ Z :=
  ASSERT_no_request ;;
  set_client_request REQ_START ;;
  let* oos := gets is_mdm_oos in
  if oos then notify_op_result_if_needed (-1) ;; ret (-1)
  else
    emit (UploadPackage (fw_path e)) ;;
    emit HalPowerOn ;;
    ret ST_PACKAGING.

Definition waiting_reason : C_ bool := gets (fun s => waiting_hal_busy_reason (ctrl_state s)).

Definition request_reset (p : evt_param) : C_ Z :=
  store_dbg_info p false ;;
  ASSERT_no_request ;;
  set_client_request REQ_RESET ;;
  let* w := waiting_reason in
  if w then ret (-1) else escalation PNull.

Definition request_reset_timer (p : evt_param) : C_ Z :=
  store_dbg_info p false ;;
  ASSERT_no_request ;;
  set_client_request REQ_RESET ;;
  set_reset_initiated_by_cla true ;;
  start_timer MAX_RESET_TIMEOUT ;;
  ret (-1).

Definition request_update (p : evt_param) : C_ Z :=
  ASSERT_no_request ;;
  set_do_not_report true ;;
  set_client_request REQ_RESET ;;
  let* w := waiting_reason in
  if w then ret (-1) else mdm_restart false false.

Definition request_backup (p : evt_param) : C_ Z :=
  ASSERT_no_request ;;
  set_client_request REQ_RESET ;;
  mdm_restart false true.

Definition request_stop (p : evt_param) : C_ Z :=
  ASSERT_no_request ;;
  set_client_request REQ_STOP ;;
  let* w := waiting_reason in
  if w then ret (-1) else mdm_stop p.

Definition dbg_info_nolog (type : Z) : mdm_cli_dbg_info :=
  mk_dbg type DBG_DEFAULT_NO_LOG DBG_DEFAULT_NO_LOG DBG_DEFAULT_NO_LOG [].

Definition reset_after_tlv (p : evt_param) : C_ Z :=
  broadcast "com.intel.action.MODEM_TLV_APPLY_SUCCESS" ;;
  emit (NotifyTlvApplied 0) ;;
  emit (NotifyClientDbg (dbg_info_nolog DBG_TYPE_TLV_SUCCESS)) ;;
  mdm_restart false false.

Definition flash_failure (p : evt_param) : C_ Z :=
  emit (NotifyFwFlashed (-1)) ;;
  ret (-2).

Definition custo_failure (p : evt_param) : C_ Z :=
  broadcast "com.intel.action.MODEM_TLV_APPLY_ERROR" ;;
  emit (NotifyTlvApplied (-1)) ;;
  emit (NotifyClientDbg (dbg_info_nolog DBG_TYPE_TLV_FAILURE)) ;;
  ret (-2).

Definition pack_failure (p : evt_param) : C_ Z :=
  emit (NotifyFwFlashed (-1)) ;;
  ret (-2).

Definition notify_off (p : evt_param) : C_ Z :=
  notify_op_result_if_needed 0 ;;
  emit (NotifyModemState MDM_STATE_OFF) ;;
  ret ST_DOWN.

Definition notify_unresp (p : evt_param) : C_ Z :=
  store_dbg_info p true ;;
  let* last_step := on_escalation get_last_step in
  if last_step =? STEP_PLATFORM_REBOOT then platform_reboot
  else if last_step =? STEP_OOS then set_oos
  else fail (AssertFail "0").

Definition notify_busy (p : evt_param) : C_ Z :=
  emit (NotifyModemState MDM_STATE_BUSY) ;;
  ret (-1).

Definition dbg_info_dump_start : mdm_cli_dbg_info :=
  mk_dbg DBG_TYPE_DUMP_START DBG_DEFAULT_LOG_SIZE DBG_DEFAULT_NO_LOG DBG_DEFAULT_NO_LOG [].

Definition dump_start (p : evt_param) : C_ Z :=
  let* d := deref p in
  match d with
  | None => fail (AssertFail "*dump_evt_ptr != NULL")
  | Some d =>
      set_do_not_report true ;;
      emit (NotifyClientDbg dbg_info_dump_start) ;;
      broadcast "com.intel.action.CORE_DUMP_WARNING" ;;
      let* loaded := gets dump in
      ASSERT "i_ctx->dump" loaded ;;
      match d with
      | HalData h => emit (DumpRead (nodes h) (fw_path e))
      | DbgData _ => fail (Undefined "mdm_cli_dbg_info_t read as crm_hal_evt_t")
      end ;;
      ret ST_DUMPING
  end.

Definition dump_end (p : evt_param) : C_ Z :=
  broadcast "com.intel.action.CORE_DUMP_COMPLETE" ;;
  requested_operation p.

Definition dbg_info_dump_error : mdm_cli_dbg_info :=
  mk_dbg DBG_TYPE_ERROR DBG_DEFAULT_LOG_SIZE DBG_DEFAULT_LOG_SIZE DBG_DEFAULT_LOG_TIME
    [DUMP_STR_LINK_ERR].

(** [i_ctx->dump->stop]: DUMPING is entered by [dump_start] only, which has
    checked that the plugin is there; otherwise the call goes through NULL. *)
Definition dump_error (p : evt_param) : C_ Z :=
  let* loaded := gets dump in
  (if loaded then emit DumpStop else fail (Undefined "i_ctx->dump is NULL")) ;;
  emit (NotifyClientDbg dbg_info_dump_error) ;;
  requested_operation PNull.

Definition todo (p : evt_param) : C_ Z := DASSERT "transition not handled" false ;; ret (-1).
Definition assert (p : evt_param) : C_ Z := DASSERT "transition not supported" false ;; ret (-1).

Definition failsafe (p : evt_param) : C_ Z :=
  notify_op_result_if_needed (-1) ;;
  clear_internal_state ;;
  request_stop p.

Definition state_trans (prev_state new_state evt_id : Z) (p : evt_param) : C_ unit :=
  ASSERT "new_state != ST_INITIAL" (negb (new_state =? ST_INITIAL)) ;;
  when ((prev_state =? ST_UP) || (prev_state =? ST_DOWN))
    (let* ms := gets timeout in watchdog_start ms) ;;
  let* s := get in
  when ((prev_state =? ST_UP) && timer_armed s) (set_timer false (ctrl_timer_end s)) ;;
  when ((new_state =? ST_UP) || (new_state =? ST_DOWN)) watchdog_stop.

Definition pre_op (evt_id : Z) : C_ unit :=
  if evt_id =? EV_HAL_MDM_BUSY then set_waiting_hal_busy_reason true
  else if (evt_id =? EV_HAL_MDM_NEED_RESET) || (evt_id =? EV_HAL_MDM_FLASH)
          || (evt_id =? EV_HAL_MDM_DUMP) || (evt_id =? EV_HAL_MDM_UNRESPONSIVE) then
    let* w := waiting_reason in
    ASSERT "i_ctx->state.waiting_hal_busy_reason" w ;;
    set_waiting_hal_busy_reason false
  else ret tt.

(** ** The transition table *)

Definition keep (f : evt_param -> C_ Z) : crm_fsm_ops ctrl ctrl_out evt_param := mk_op (-1) (Some f).
Definition none : crm_fsm_ops ctrl ctrl_out evt_param := mk_op (-1) None.

Definition g_fsm_rows : list (list (crm_fsm_ops ctrl ctrl_out evt_param)) :=
  [ (* ST_INITIAL           ST_DOWN             ST_PACKAGING        ST_FLASHING             ST_CUSTOMIZING       ST_UP                            ST_WAITING                ST_DUMPING *)
   [keep assert;          keep request_start; keep assert;        keep assert;            keep assert;         keep assert;                     keep assert;              keep assert];
   [keep assert;          keep assert;        keep assert;        keep assert;            keep assert;         keep request_stop;               keep request_stop;        keep accept_stop];
   [keep assert;          keep request_start; keep assert;        keep assert;            keep assert;         keep request_reset_timer;        keep request_reset;       keep accept_reset];
   [keep assert;          keep request_start; keep assert;        keep assert;            keep assert;         keep request_update;             keep request_update;      keep accept_reset];
   [keep assert;          keep assert;        keep assert;        keep assert;            keep assert;         keep request_backup;             keep assert;              none];
   [keep notify_off;      none;               keep escalation;    keep todo;              keep todo;           keep todo;                       keep notify_off;          keep assert];
   [keep run_evt_initial; keep mdm_stop;      keep escalation;    keep run_evt;           keep todo;           keep assert;                     keep escalation;          keep assert];
   [keep assert;          none;               keep notify_busy;   none;                   none;                mk_op ST_WAITING (Some notify_busy); none;                 keep dump_error];
   [keep assert;          keep todo;          keep escalation;    keep escalation;        keep escalation;     keep assert;                     keep requested_operation; keep assert];
   [keep assert;          keep todo;          keep flash_evt;     keep assert;            keep todo;           keep assert;                     keep requested_operation; keep assert];
   [keep assert;          keep dump_start;    keep dump_start;    keep dump_start;        keep dump_start;     keep assert;                     keep dump_start;          keep assert];
   [keep assert;          keep assert;        keep notify_unresp; keep fw_flash_failure;  keep assert;         keep assert;                     keep notify_unresp;       keep assert];
   [keep assert;          keep todo;          keep todo;          keep todo;              keep todo;           keep todo;                       keep todo;                keep assert];
   [keep assert;          keep todo;          keep fw_ready_evt;  keep flash_success_evt; keep reset_after_tlv; keep todo;                      keep todo;                keep assert];
   [keep assert;          keep todo;          keep todo;          keep todo;              keep todo;           keep todo;                       keep todo;                keep dump_end];
   [keep assert;          keep failsafe;      keep pack_failure;  keep flash_failure;     keep custo_failure;  keep failsafe;                   keep failsafe;            keep requested_operation];
   [keep assert;          keep assert;        keep assert;        keep assert;            keep assert;         keep escalation;                 keep assert;              keep assert]].

Definition g_fsm_array : list (crm_fsm_ops ctrl ctrl_out evt_param) := concat g_fsm_rows.

Definition ctrl_cfg : fsm_cfg ctrl ctrl_out evt_param :=
  mk_cfg g_fsm_array EV_NUM ST_NUM (Some pre_op) (Some state_trans) failsafe "CTRL"
    get_state_txt get_event_txt.

End operations.

(** ** The event loop *)

Section event_loop.
Context `{MdmCli}.

#[local] Abbreviation F := (fsm_st crm_control_ctx_internal).

Definition on_ctrl {A} (m : C_ A) : M F ctrl_out A := on_param m.

(** The body of [while (get_msg)] for one message that is not [-1]: [msg_ptr]
    is set, the event notified, and what the operation has left in [msg_ptr]
    freed. *)
Definition handle_ipc_msg (e : env) (scalar : Z) (data : option evt_data) : M F ctrl_out unit :=
  on_ctrl (set_msg_ptr data) ;;
  notify_event (ctrl_cfg e) scalar PCell ;;
  on_ctrl (set_msg_ptr None).

(** The whole [while (get_msg)] loop; [-1] clears [running], and the messages
    behind it are still handled. *)
Fixpoint handle_ipc_msgs (l : list (env * Z * option evt_data)) (running : bool) : M F ctrl_out bool :=
  match l with
  | [] => ret running
  | (e, scalar, data) :: l' =>
      if scalar =? -1 then handle_ipc_msgs l' false
      else handle_ipc_msg e scalar data ;; handle_ipc_msgs l' running
  end.

Definition handle_timeout (e : env) : M F ctrl_out unit :=
  let* f := get in
  ASSERT "i_ctx->timer_armed == true" (timer_armed (fsm_param f)) ;;
  notify_event (ctrl_cfg e) EV_TIMEOUT PNull.

(** One message of the watchdog. *)
Definition handle_watchdog_msg (scalar : Z) : M F ctrl_out unit :=
  ASSERT "CRM_WATCH_PING == request" (watchdog_get_request scalar =? CRM_WATCH_PING) ;;
  let* m := watchdog_gen_scalar CRM_WATCH_PONG 0 (watchdog_get_id scalar) in
  emit (WatchdogSend m).

(** What [poll] reports in one turn of the loop. *)
Inductive loop_input : Type :=
| PollError
| PollTimeout (e : env)
| PollIpc (msgs : list (env * Z * option evt_data))
| PollWatchdog (scalars : list Z).

(** One turn of [while (running)]; the result tells whether it goes on. *)
Definition loop_turn (i : loop_input) : M F ctrl_out bool :=
  match i with
  | PollError => DASSERT "error in control socket" false ;; ret true
  | PollTimeout e => handle_timeout e ;; ret true
  | PollIpc msgs => handle_ipc_msgs msgs true
  | PollWatchdog scalars => for_each scalars handle_watchdog_msg ;; ret true
  end.

Fixpoint loop_turns (l : list loop_input) : M F ctrl_out bool :=
  match l with
  | [] => ret true
  | i :: l' =>
      let* running := loop_turn i in
      if running then loop_turns l' else ret false
  end.

(** [crm_ctrl_init]: the fields of the zeroed context that are set. *)
Definition crm_ctrl_init (inst : Z) (watchdog_timeout : Z) (has_dump : bool) (esc0 : esc_st)
    : crm_control_ctx_internal :=
  mk_ctrl (mk_state REQ_NONE false None false false false) false inst (-1) watchdog_timeout
    (mk_dbg_info false false None) false (mk_timespec 0 0) has_dump esc0 None.

(** [event_loop] up to the first [poll]. *)
Definition event_loop_start : M F ctrl_out unit :=
  on_ctrl (let* ms := gets timeout in watchdog_start ms).

Definition event_loop (l : list loop_input) (s : crm_control_ctx_internal)
    : outcome F ctrl_out bool :=
  (event_loop_start ;; loop_turns l) (mk_fsm_st ST_INITIAL s).

End event_loop.
