(* ===== verification/ControlTheory.v ===== *)
(** * Properties of the CTRL state machine

    Every operation of Control.v is executed symbolically once, against the
    postcondition [op_post]; the 136 cells of the transition table are then
    checked against the invariant of the machine by going through them. *)

From S2P Require Import Prelude Fsm Timer Escalation Watchdog MdmCli Control.
From Stdlib Require Import ZArith Lia.
From stdpp Require Import base tactics list strings option.

Open Scope Z_scope.
Open Scope crm_scope.

#[local] Arguments free_dbg_info : simpl never.
#[local] Arguments notify_dbg : simpl never.

(** ** Observations *)

(** The request whose result CLA is still waiting for. *)
Definition pending (s : ctrl) : Z :=
  if decide (client_request (ctrl_state s) = REQ_NONE) then 0 else 1.

Definition is_result (x : ctrl_out) : bool :=
  match x with NotifyOperationResult _ => true | _ => false end.
Definition is_ready (x : ctrl_out) : bool :=
  match x with NotifyModemState MDM_STATE_READY => true | _ => false end.
Definition watchdog_scalar (x : ctrl_out) : option Z :=
  match x with WatchdogSend m => Some m | _ => None end.

Definition count_out (f : ctrl_out -> bool) (o : list ctrl_out) : Z :=
  Z.of_nat (length (List.filter f o)).

(** The number of operation results given to CLA. *)
Definition results (o : list ctrl_out) : Z := count_out is_result o.
Definition readies (o : list ctrl_out) : Z := count_out is_ready o.
Definition watchdog_msgs (o : list ctrl_out) : list Z := omap watchdog_scalar o.

Lemma count_out_app f o o' : count_out f (o ++ o') = count_out f o + count_out f o'.
Proof. unfold count_out. rewrite List.filter_app, length_app. lia. Qed.

Lemma count_out_nonneg f o : 0 <= count_out f o.
Proof. unfold count_out. lia. Qed.

Lemma watchdog_msgs_app o o' : watchdog_msgs (o ++ o') = watchdog_msgs o ++ watchdog_msgs o'.
Proof. apply omap_app. Qed.

(** ** Postconditions *)

(** The part of the context that the handling of debug information and the
    escalation do not touch. *)
Record same_core (s s' : ctrl) : Prop := {
  sc_state : ctrl_state s' = ctrl_state s;
  sc_oos : is_mdm_oos s' = is_mdm_oos s;
  sc_inst : inst_id s' = inst_id s;
  sc_watch : watch_id s' = watch_id s;
  sc_timeout : timeout s' = timeout s;
  sc_armed : timer_armed s' = timer_armed s;
  sc_end : ctrl_timer_end s' = ctrl_timer_end s;
  sc_dump : dump s' = dump s;
}.

#[export] Instance same_core_preorder : PreOrder same_core.
Proof.
  split; [by intros s; split|].
  intros x y z [] []. split; congruence.
Qed.

(** Only debug information is sent. *)
Definition only_dbg (o : list ctrl_out) : Prop :=
  forall x, x ∈ o -> exists d, x = NotifyClientDbg d.

(** A well-formed escalation plugin, enabled or disabled by the debug
    property. *)
Definition esc_ok (s : esc_st) : Prop :=
  (exists w c r, esc_inv w c r s) \/
  (escalation_disabled (esc s) = true /\ cfg (esc s) = [0; 0; 0; 0] /\ 0 <= default 0 (reboot_prop s)).

(** The flash node that is waiting for the firmware. *)
Definition flash_node (d : evt_data) : Prop := exists h, d = HalData h /\ evt_type h = HAL_MDM_FLASH.

Definition hal_ok (t : crm_ctrl_state) : Prop :=
  (forall d, hal_evt t = Some d -> flash_node d) /\
  (is_Some (hal_evt t) -> fw_ready t = false) /\
  (flash_done t = true -> run_ipc t = false).

(** What an operation that counts for [issued] requests guarantees: [r] is its
    result. *)
Record op_post (issued : Z) (s : ctrl) (r : Z) (s' : ctrl) (o : list ctrl_out) : Prop := {
  op_results : pending s' + results o = pending s + issued;
  op_watch : watchdog_msgs o = [] /\ watch_id s' = watch_id s /\ timeout s' = timeout s;
  op_const : inst_id s' = inst_id s /\ dump s' = dump s;
  op_hal : hal_ok (ctrl_state s');
  op_oos : is_mdm_oos s = true -> is_mdm_oos s' = true;
  op_esc : esc_ok (escalation_ctx s');
  op_ready : readies o = if r =? ST_UP then 1 else 0;
  op_down : r = ST_DOWN -> pending s' = 0;
  op_range : -2 <= r < ST_NUM /\ r <> ST_INITIAL;
}.

Lemma pending_bool s : pending s = 0 \/ pending s = 1.
Proof. unfold pending. destruct (decide _); auto. Qed.

Lemma pending_same s s' :
  client_request (ctrl_state s') = client_request (ctrl_state s) -> pending s' = pending s.
Proof. unfold pending. intros E. by rewrite E. Qed.

(** ** The escalation plugin as CTRL uses it *)

Lemma esc_next_ok t0 t1 s :
  esc_ok s ->
  wp (get_next_step t0 t1) s no_abort (fun st s' _ => esc_ok s' /\ 1 <= st <= 4).
Proof.
  intros [(w & c & r & Hinv)|(Hd & Hc & Hp)].
  - eapply wp_mono; [by apply wp_get_next_step|done|].
    intros st s' o (Hinv' & _ & _ & -> & _). pose proof (inv_idx _ _ _ _ Hinv') as Hi.
    unfold IDX_OOS, STEP_MDM_WARM_RESET in *. split; [left; eauto|lia].
  - unfold get_next_step. apply wp_bind, wp_get. rewrite Hd. apply wp_ret.
    unfold STEP_MDM_COLD_RESET. split; [by right|lia].
Qed.

Lemma esc_last_ok s :
  esc_ok s ->
  wp get_last_step s no_abort (fun st s' _ => esc_ok s' /\ 3 <= st <= 4).
Proof.
  intros [(w & c & r & Hinv)|(Hd & Hc & Hp)].
  - eapply wp_mono; [by apply wp_get_last_step|done|].
    intros st s' o (Hinv' & Hst). unfold STEP_OOS, STEP_PLATFORM_REBOOT in *.
    split; [left; eauto|]. destruct (r <=? default 0 (reboot_prop s)); destruct Hst as [-> _]; lia.
  - unfold get_last_step, update_reboot_counter, read_cfg.
    apply wp_bind, wp_modify, wp_bind, wp_bind, wp_gets, wp_bind, wp_bind, wp_get. cbn.
    rewrite Hc. cbn. apply wp_ret. destruct (Z.leb_spec 0 (default 0 (reboot_prop s))); [|lia].
    apply wp_modify, wp_gets. cbn. unfold IDX_OOS, STEP_MDM_WARM_RESET. split; [by right|lia].
Qed.

(** ** Symbolic execution of the operations *)

Ltac head_of t := lazymatch t with ?f _ => head_of f | _ => t end.

Ltac ctrl_unfold :=
  lazymatch goal with
  | |- wp ?m _ _ _ => let h := head_of m in unfold h
  end.

Ltac ctrl_run :=
  repeat first
    [ progress cbn beta iota zeta
    | wp_step
    | ctrl_unfold ].

Section helpers.
Context `{MdmCli} (e : env).
Implicit Types (s : ctrl).

Lemma wp_free_dbg_info d s (Q : unit -> ctrl -> list ctrl_out -> Prop) :
  Q tt s [] -> wp (free_dbg_info d) s any_abort Q.
Proof. intros HQ. destruct d as [[|]|]; by first [apply wp_ret|apply wp_fail]. Qed.

Lemma wp_store_dbg_info p b s (Q : unit -> ctrl -> list ctrl_out -> Prop) :
  (forall s', same_core s s' -> escalation_ctx s' = escalation_ctx s -> Q tt s' []) ->
  wp (store_dbg_info p b) s any_abort Q.
Proof.
  intros HQ. unfold store_dbg_info. destruct p; [apply wp_ret, HQ; by split|].
  unfold set_dbg_evt, set_msg_ptr, on_dbg_info.
  apply wp_bind, wp_get. destruct (msg_ptr s) as [src|]; [|apply wp_ret, HQ; by split].
  apply wp_bind. destruct (evt (dbg_info s)) as [dest|] eqn:Hd; cbn [when].
  - destruct b; cbn [when].
    + apply wp_when; [intros _|done]. apply wp_bind, wp_free_dbg_info, wp_modify.
      apply wp_bind, wp_gets. cbn. apply wp_bind, wp_modify, wp_modify, HQ; by split.
    + apply wp_when; [done|intros _]. apply wp_bind, wp_gets. rewrite Hd.
      apply wp_bind, wp_free_dbg_info, wp_modify, HQ; by split.
  - apply wp_ret, wp_bind, wp_gets. rewrite Hd.
    apply wp_bind, wp_modify, wp_modify, HQ; by split.
Qed.

Lemma only_dbg_counts o : only_dbg o ->
  results o = 0 /\ readies o = 0 /\ watchdog_msgs o = [].
Proof.
  intros Ho. unfold results, readies, watchdog_msgs, count_out.
  induction o as [|x o IH]; [done|].
  destruct (Ho x ltac:(left)) as [d ->]. cbn. apply IH. intros y Hy. apply Ho. by right.
Qed.

Lemma wp_notify_dbg_info b s (Q : unit -> ctrl -> list ctrl_out -> Prop) :
  (forall s' o, same_core s s' -> escalation_ctx s' = escalation_ctx s -> only_dbg o -> Q tt s' o) ->
  wp (notify_dbg_info b) s any_abort Q.
Proof.
  intros HQ. unfold notify_dbg_info. apply wp_bind, wp_get.
  set (R := fun (_ : unit) s' o =>
    same_core s s' /\ escalation_ctx s' = escalation_ctx s /\ only_dbg o).
  assert (forall s', same_core s s' -> escalation_ctx s' = escalation_ctx s ->
    wp (let* d := gets (fun s => evt (dbg_info s)) in
        match d with None => fail (AssertFail "i_ctx->dbg_info.evt") | Some d => notify_dbg d end)
      s' any_abort R) as Hnotify.
  { intros s' Hc He. apply wp_bind, wp_gets.
    destruct (evt (dbg_info s')) as [[d|h]|]; [|by apply wp_fail..].
    apply wp_emit. split_and!; [done..|]. cbn. intros x ->%list_elem_of_singleton. eauto. }
  apply wp_bind. eapply (wp_mono _ _ any_abort any_abort R); [|done|].
  - apply wp_when; [intros _|intros _; split_and!; [by split|done|]; intros x []%elem_of_nil].
    apply wp_bind, wp_when; intros _; [apply wp_modify|];
      (eapply wp_mono; [apply Hnotify; by split|done|]); intros ? ? ? ?; done.
  - intros [] s' o (Hc & He & Ho). unfold set_do_not_report, set_reset_initiated_by_cla, set_dbg_evt, on_dbg_info.
    apply wp_bind, wp_modify, wp_bind, wp_modify, wp_bind, wp_gets, wp_bind, wp_free_dbg_info, wp_modify.
    cbn. rewrite app_nil_r. apply HQ; [|done..]. etrans; [exact Hc|]. by split.
Qed.

End helpers.

(** ** Composition of postconditions *)

Definition quiet (o : list ctrl_out) : Prop :=
  results o = 0 /\ readies o = 0 /\ watchdog_msgs o = [].

Lemma quiet_app o o' : quiet o -> quiet o' -> quiet (o ++ o').
Proof.
  unfold quiet, results, readies. intros (? & ? & E) (? & ? & E').
  rewrite !count_out_app, watchdog_msgs_app, E, E'. split_and!; [lia..|done].
Qed.

Lemma only_dbg_quiet o : only_dbg o -> quiet o.
Proof. apply only_dbg_counts. Qed.

(** The fields an operation keeps, and the flag it never resets. *)
Record core_le (s s' : ctrl) : Prop := {
  cl_watch : watch_id s' = watch_id s;
  cl_timeout : timeout s' = timeout s;
  cl_inst : inst_id s' = inst_id s;
  cl_dump : dump s' = dump s;
  cl_oos : is_mdm_oos s = true -> is_mdm_oos s' = true;
}.

Lemma same_core_le s s' : same_core s s' -> core_le s s'.
Proof. intros []. split; congruence. Qed.

Lemma op_post_from i s0 s1 r s' o :
  core_le s0 s1 -> op_post (i - (pending s1 - pending s0)) s1 r s' o -> op_post i s0 r s' o.
Proof.
  intros [] [Hres [Hw1 [Hw2 Hw3]] [Hc1 Hc2] Hhal Hoos Hesc Hready Hdown Hrange].
  split; try done; try lia; try (split_and!; congruence). auto.
Qed.

Lemma op_post_prefix i s r s' o1 o :
  quiet o1 -> op_post i s r s' o -> op_post i s r s' (o1 ++ o).
Proof.
  intros (H1 & H2 & H3) [Hres [Hw1 [Hw2 Hw3]] Hc Hhal Hoos Hesc Hready Hdown Hrange].
  unfold results, readies in *.
  split; try done; unfold results, readies; rewrite ?count_out_app, ?watchdog_msgs_app; try lia.
  rewrite H3, Hw1. done.
Qed.

(** [op_post], the reset timer untouched, and [R] of the result. *)
Definition op_std (issued : Z) (R : Z -> ctrl -> Prop) (s : ctrl) (r : Z) (s' : ctrl)
    (o : list ctrl_out) : Prop :=
  op_post issued s r s' o /\ timer_armed s' = timer_armed s /\ R r s'.

Definition ctx_ok (s : ctrl) : Prop := hal_ok (ctrl_state s) /\ esc_ok (escalation_ctx s).

Lemma ctx_ok_same s s' :
  same_core s s' -> escalation_ctx s' = escalation_ctx s -> ctx_ok s -> ctx_ok s'.
Proof. intros Hc He [Hh Hk]. split; [by rewrite (sc_state _ _ Hc)|by rewrite He]. Qed.

Ltac quiet_cons := repeat split; by cbn.

(** Closing a leaf: an explicit final state and list of actions. *)
Ltac op_leaf :=
  split; unfold ST_NUM, ST_INITIAL, ST_DOWN, ST_UP, ST_PACKAGING, ST_FLASHING, ST_CUSTOMIZING,
    ST_WAITING, ST_DUMPING in *;
  cbn in *; try done; try lia.

Section op_lemmas.
Context `{MdmCli} (e : env).
Implicit Types (s : ctrl).

(** An action before an operation. *)
Lemma wp_emit_then {A} x (m : C_ A) s (Q : A -> ctrl -> list ctrl_out -> Prop) :
  wp m s any_abort (fun a s' o => Q a s' (x :: o)) -> wp (emit x ;; m) s any_abort Q.
Proof. intros Hw. apply wp_bind, wp_emit. exact Hw. Qed.

Lemma op_post_emit i s r s' x o :
  quiet [x] -> op_post i s r s' o -> op_post i s r s' (x :: o).
Proof. intros Hx Ho. apply (op_post_prefix i s r s' [x]); done. Qed.

(** A result without counted actions. *)
Lemma op_post_quiet s s' r o :
  core_le s s' -> pending s' = pending s -> ctx_ok s' -> quiet o ->
  -2 <= r < ST_NUM -> r <> ST_INITIAL -> r <> ST_UP -> (r = ST_DOWN -> pending s' = 0) ->
  op_post 0 s r s' o.
Proof.
  intros [] Hp [Hh He] (H1 & H2 & H3) Hr1 Hr2 Hr3 Hd.
  split; try done; try lia. destruct (Z.eqb_spec r ST_UP); congruence.
Qed.

Lemma wp_mdm_restart b bk s :
  ctx_ok s -> wp (mdm_restart e b bk) s any_abort (op_std 0 (fun r _ => r = ST_PACKAGING) s).
Proof.
  intros Hok. unfold mdm_restart, broadcast. apply wp_bind, wp_notify_dbg_info.
  intros s' o Hc He Ho. apply wp_bind, wp_emit, wp_bind, wp_emit, wp_bind, wp_bind, wp_gets, wp_emit, wp_ret.
  split; [|split; [apply Hc|done]]. apply op_post_quiet; try done.
  - by apply same_core_le.
  - apply pending_same. by rewrite (sc_state _ _ Hc).
  - by eapply ctx_ok_same.
  - by apply quiet_app; [apply only_dbg_quiet|].
Qed.

(** The answer to the pending request, if there is one. *)
Lemma wp_notify_op_result n s (Q : unit -> ctrl -> list ctrl_out -> Prop) :
  (forall s' o, core_le s s' -> pending s' = 0 -> results o = pending s -> readies o = 0 ->
     watchdog_msgs o = [] -> escalation_ctx s' = escalation_ctx s ->
     (hal_ok (ctrl_state s) -> hal_ok (ctrl_state s')) -> timer_armed s' = timer_armed s ->
     Q tt s' o) ->
  wp (notify_op_result_if_needed n) s any_abort Q.
Proof.
  intros HQ. unfold notify_op_result_if_needed, is_request. apply wp_bind, wp_gets, wp_when; intros Hr.
  - apply wp_bind, wp_modify, wp_emit. bool_facts. apply HQ; try done.
    unfold pending. rewrite decide_False by done. done.
  - bool_facts. apply HQ; try done; unfold pending; by rewrite decide_True.
Qed.

(** The two ways down: notify, answer, mark out of service. *)
Lemma op_post_down s s1 s2 o1 o2 o3 :
  ctx_ok s -> same_core s s1 -> escalation_ctx s1 = escalation_ctx s -> quiet o1 ->
  core_le s1 s2 -> pending s2 = 0 -> results o2 = pending s1 -> readies o2 = 0 ->
  watchdog_msgs o2 = [] -> escalation_ctx s2 = escalation_ctx s1 ->
  (hal_ok (ctrl_state s1) -> hal_ok (ctrl_state s2)) ->
  quiet o3 ->
  forall s3, core_le s2 s3 -> ctrl_state s3 = ctrl_state s2 -> escalation_ctx s3 = escalation_ctx s2 ->
  op_post 0 s ST_DOWN s3 (o1 ++ o2 ++ o3).
Proof.
  intros [Hh He] Hc Hce (Q1 & Q2 & Q3) Hl Hp Hr Hrd Hw Hse Hhal (P1 & P2 & P3) s3 Hl3 Hs3 He3.
  pose proof (same_core_le _ _ Hc) as Hl1.
  assert (pending s1 = pending s) as Hps by (apply pending_same; by rewrite (sc_state _ _ Hc)).
  assert (pending s3 = pending s2) as Hp3 by (apply pending_same; by rewrite Hs3).
  unfold results, readies in *.
  destruct Hl, Hl1, Hl3. split; unfold results, readies; rewrite ?count_out_app, ?watchdog_msgs_app;
    try done; try lia; try (split_and!; congruence); auto.
  - rewrite Q3, Hw, P3. split_and!; [done|congruence..].
  - rewrite Hs3. apply Hhal. by rewrite (sc_state _ _ Hc).
  - rewrite He3, Hse, Hce. done.
  - rewrite Q2, Hrd, P2. done.
Qed.

Lemma wp_set_oos s : ctx_ok s -> wp set_oos s any_abort (op_std 0 (fun r _ => r = ST_DOWN) s).
Proof.
  intros Hok. unfold set_oos, broadcast. apply wp_bind, wp_get, wp_bind, wp_ASSERT; [intros _|done].
  apply wp_bind, wp_notify_dbg_info. intros s1 o1 Hc He1 Ho.
  apply wp_bind, wp_emit, wp_bind, wp_notify_op_result.
  intros s2 o2 Hl Hp Hr Hrd Hw He2 Hh Ht.
  apply wp_bind, wp_modify, wp_bind, wp_bind, wp_gets, wp_emit, wp_ret.
  split; [|split; [cbn; rewrite Ht; apply Hc|done]]. cbn [app].
  change (o1 ++ ?x :: ?l) with (o1 ++ [x] ++ l). rewrite (app_assoc o1 [_]).
  eapply (op_post_down s s1 s2); try done.
  by apply quiet_app; [apply only_dbg_quiet|].
Qed.

Lemma wp_reboot_loop l s (Q : unit -> ctrl -> list ctrl_out -> Prop) :
  (forall o, quiet o -> Q tt s o) -> wp (reboot_loop l) s any_abort Q.
Proof.
  revert Q. induction l as [|r l IH]; intros Q HQ; cbn [reboot_loop]; [by apply wp_fail|].
  apply wp_emit_then. destruct (r =? 0); [apply IH; intros o Ho; by apply HQ|by apply wp_ret, HQ].
Qed.

Lemma wp_platform_reboot s : ctx_ok s -> 
  wp (platform_reboot e) s any_abort (op_std 0 (fun r _ => r = ST_DOWN) s).
Proof.
  intros Hok. unfold platform_reboot, broadcast.
  apply wp_bind, wp_notify_dbg_info. intros s1 o1 Hc He1 Ho.
  apply wp_bind, wp_emit, wp_bind, wp_emit, wp_bind, wp_notify_op_result.
  intros s2 o2 Hl Hp Hr Hrd Hw He2 Hh Ht.
  apply wp_bind, wp_modify, wp_bind, wp_bind, wp_gets, wp_emit, wp_bind, wp_reboot_loop.
  intros o3 Ho3. apply wp_ret.
  split; [|split; [cbn; rewrite Ht; apply Hc|done]]. cbn [app]. rewrite app_nil_r.
  change (o1 ++ ?x :: ?y :: ?l) with (o1 ++ [x; y] ++ l). rewrite (app_assoc o1 [_; _]).
  eapply (op_post_down s s1 s2); try done.
  by apply quiet_app; [apply only_dbg_quiet|].
Qed.


(** Composition of a silent step with an operation. *)
Lemma op_std_from i R s0 s1 r s' o :
  core_le s0 s1 -> timer_armed s1 = timer_armed s0 ->
  op_std (i - (pending s1 - pending s0)) R s1 r s' o -> op_std i R s0 r s' o.
Proof.
  intros Hl Ht (Hp & Hta & HR). split; [by eapply op_post_from|]. split; [congruence|done].
Qed.

Lemma wp_op_from {i R s0 s1} {m : C_ Z} :
  core_le s0 s1 -> timer_armed s1 = timer_armed s0 ->
  wp m s1 any_abort (op_std (i - (pending s1 - pending s0)) R s1) ->
  wp m s1 any_abort (op_std i R s0).
Proof.
  intros Hl Ht Hw. eapply wp_mono; [exact Hw|done|]. intros r s' o. by apply op_std_from.
Qed.

Lemma op_std_weaken i (R R' : Z -> ctrl -> Prop) s r s' o :
  (forall r s', R r s' -> R' r s') -> op_std i R s r s' o -> op_std i R' s r s' o.
Proof. intros HR (? & ? & ?). split; [done|]. split; [done|auto]. Qed.

Lemma wp_op_weaken {i s} {m : C_ Z} (R R' : Z -> ctrl -> Prop) :
  wp m s any_abort (op_std i R s) -> (forall r s', R r s' -> R' r s') ->
  wp m s any_abort (op_std i R' s).
Proof. intros Hw HR. eapply wp_mono; [exact Hw|done|]. intros r s' o. by apply op_std_weaken. Qed.

(** The same with the result of debug information that was stored first. *)
Lemma wp_store_then {i R s b p} {m : C_ Z} :
  (forall s1, same_core s s1 -> escalation_ctx s1 = escalation_ctx s ->
     wp m s1 any_abort (op_std i R s1)) ->
  wp (store_dbg_info p b ;; m) s any_abort (op_std i R s).
Proof.
  intros Hm. apply wp_bind, wp_store_dbg_info. intros s1 Hc He. cbn [app].
  eapply wp_op_from; [by apply same_core_le|apply Hc|].
  rewrite (pending_same s s1) by (by rewrite (sc_state _ _ Hc)).
  rewrite Z.sub_diag, Z.sub_0_r. auto.
Qed.

Definition down_or_packaging (r : Z) (s : ctrl) : Prop := r = ST_PACKAGING \/ r = ST_DOWN.

Lemma wp_on_escalation {A} (m : M esc_st Empty_set A) s (Q : A -> ctrl -> list ctrl_out -> Prop) E :
  wp m (escalation_ctx s) E (fun a t o => forall s', same_core s s' -> escalation_ctx s' = t -> Q a s' []) ->
  wp (on_escalation m) s E Q.
Proof.
  intros Hm. apply wp_zoom. eapply wp_mono; [exact Hm|done|].
  intros a t o HQ. cbn. destruct o as [|[] ?]. apply HQ; by split.
Qed.

(** A choice made by the escalation plugin, then one of the recoveries. *)
Lemma wp_escalate {i R s} {m : M esc_st Empty_set Z} {k : Z -> C_ Z} lo :
  ctx_ok s ->
  wp m (escalation_ctx s) no_abort (fun st t _ => esc_ok t /\ lo <= st <= 4) ->
  (forall st s1, lo <= st <= 4 -> same_core s s1 -> ctx_ok s1 -> wp (k st) s1 any_abort (op_std i R s1)) ->
  wp (let* st := on_escalation m in k st) s any_abort (op_std i R s).
Proof.
  intros [Hh He] Hm Hk. apply wp_bind, wp_on_escalation.
  eapply wp_mono; [exact Hm|done|]. intros st t o [Ht Hst] s1 Hc Hs1. cbn [app].
  eapply wp_op_from; [by apply same_core_le|apply Hc|].
  rewrite (pending_same s s1) by (by rewrite (sc_state _ _ Hc)).
  rewrite Z.sub_diag, Z.sub_0_r. apply Hk; [done..|].
  split; [by rewrite (sc_state _ _ Hc)|by rewrite Hs1].
Qed.

Lemma wp_escalation p s :
  ctx_ok s -> wp (escalation e p) s any_abort (op_std 0 down_or_packaging s).
Proof.
  intros Hok. unfold escalation. apply wp_store_then. intros s1 Hc1 He1.
  assert (ctx_ok s1) as Hok1 by (by eapply ctx_ok_same).
  eapply wp_escalate; [done|apply esc_next_ok, Hok1|].
  intros st s2 Hst Hc2 Hok2. cbn beta.
  destruct (st =? STEP_MDM_WARM_RESET); [apply wp_bind; by apply wp_DASSERT|].
  destruct (st =? STEP_MDM_COLD_RESET); [eapply wp_op_weaken; [by apply wp_mdm_restart|by left]|].
  destruct (st =? STEP_PLATFORM_REBOOT); [eapply wp_op_weaken; [by apply wp_platform_reboot|by right]|].
  destruct (st =? STEP_OOS); [eapply wp_op_weaken; [by apply wp_set_oos|by right]|by apply wp_fail].
Qed.

Lemma wp_notify_unresp p s :
  ctx_ok s -> wp (notify_unresp e p) s any_abort (op_std 0 down_or_packaging s).
Proof.
  intros Hok. unfold notify_unresp. apply wp_store_then. intros s1 Hc1 He1.
  assert (ctx_ok s1) as Hok1 by (by eapply ctx_ok_same).
  eapply wp_escalate; [done|apply esc_last_ok, Hok1|].
  intros st s2 Hst Hc2 Hok2. cbn beta.
  destruct (st =? STEP_PLATFORM_REBOOT); [eapply wp_op_weaken; [by apply wp_platform_reboot|by right]|].
  destruct (st =? STEP_OOS); [eapply wp_op_weaken; [by apply wp_set_oos|by right]|by apply wp_fail].
Qed.

Lemma wp_fw_flash_failure p s :
  ctx_ok s -> wp (fw_flash_failure p) s any_abort (op_std 0 (fun r _ => r = ST_DOWN) s).
Proof.
  intros Hok. apply wp_store_then. intros s1 Hc1 He1. apply wp_set_oos. by eapply ctx_ok_same.
Qed.

Lemma wp_mdm_stop p s : ctx_ok s -> wp (mdm_stop p) s any_abort (op_std 0 (fun r _ => r = ST_WAITING) s).
Proof.
  intros Hok. apply wp_bind, wp_emit, wp_ret. split; [|done]. by apply op_post_quiet.
Qed.

(** Any result but [ST_INITIAL] and [ST_UP], and no more than the table can
    do with it. *)
Definition settled (r : Z) (s : ctrl) : Prop := r = ST_WAITING \/ r = ST_PACKAGING \/ r = ST_DOWN.

Lemma wp_requested_operation p s :
  ctx_ok s -> wp (requested_operation e p) s any_abort (op_std 0 settled s).
Proof.
  intros Hok. unfold requested_operation. apply wp_store_then. intros s1 Hc1 He1.
  assert (ctx_ok s1) as Hok1 by (by eapply ctx_ok_same).
  apply wp_bind, wp_gets. cbn [app].
  destruct (client_request (ctrl_state s1)).
  - apply wp_ret. split; [|split; [done|by left]]. by apply op_post_quiet.
  - eapply wp_op_weaken; [by apply wp_escalation|]. intros r s' [->| ->]; unfold settled; auto.
  - eapply wp_op_weaken; [by apply wp_mdm_stop|]. intros r s' ->. by left.
  - eapply wp_op_weaken; [by apply wp_escalation|]. intros r s' [->| ->]; unfold settled; auto.
Qed.

(** A request of CLA: refused with an abort while another one is pending,
    recorded otherwise. *)
Lemma wp_request {R s req} {k : C_ Z} :
  req <> REQ_NONE ->
  (forall s1, pending s1 = 1 -> core_le s s1 -> timer_armed s1 = timer_armed s ->
     (ctx_ok s -> ctx_ok s1) -> wp k s1 any_abort (op_std 0 R s1)) ->
  wp (ASSERT_no_request ;; set_client_request req ;; k) s any_abort (op_std 1 R s).
Proof.
  intros Hreq Hk. unfold ASSERT_no_request, is_request.
  apply wp_bind, wp_bind, wp_gets, wp_ASSERT; [|done]. intros Hn. bool_facts.
  apply wp_bind, wp_modify. cbn [app].
  match goal with |- wp k ?s1 _ _ =>
    assert (pending s1 = 1) as Hp1 by (unfold pending; by rewrite decide_False);
    assert (pending s = 0) as Hp0 by (unfold pending; by rewrite decide_True);
    eapply (wp_op_from (s0:=s) (s1:=s1) (i:=1)) end; [by split|done|].
  rewrite Hp1, Hp0. by apply Hk.
Qed.

Lemma op_std_ret {R} r s :
  ctx_ok s -> -2 <= r < 0 -> R r s -> op_std 0 R s r s [].
Proof.
  intros Hok Hr HR. split; [|done].
  apply op_post_quiet; try done; unfold ST_NUM, ST_INITIAL, ST_UP, ST_DOWN; lia.
Qed.

(** The request is recorded and the state kept. *)
Definition kept (r : Z) (s : ctrl) : Prop := r = -1 /\ pending s = 1.

Lemma wp_accept_stop p s : ctx_ok s -> wp (accept_stop p) s any_abort (op_std 1 kept s).
Proof.
  intros Hok. apply wp_request; [done|]. intros s1 Hp1 _ _ Hok1. apply wp_ret, op_std_ret; [auto|lia|done].
Qed.

Lemma wp_accept_reset p s : ctx_ok s -> wp (accept_reset p) s any_abort (op_std 1 kept s).
Proof.
  intros Hok. apply wp_request; [done|]. intros s1 Hp1 _ _ Hok1. apply wp_ret, op_std_ret; [auto|lia|done].
Qed.

Definition started (r : Z) (s : ctrl) : Prop := r = ST_PACKAGING \/ (r = -1 /\ pending s = 0).

Lemma wp_request_start p s : ctx_ok s -> wp (request_start e p) s any_abort (op_std 1 started s).
Proof.
  intros Hok. apply wp_request; [done|]. intros s1 Hp Hl Ht Hok1. specialize (Hok1 Hok).
  apply wp_bind, wp_gets. destruct (is_mdm_oos s1); cbn [app].
  - apply wp_bind, wp_notify_op_result. intros s2 o2 Hl2 Hp2 Hr Hrd Hw He2 Hh Ht2. apply wp_ret.
    destruct Hok1 as [Hh1 He1], Hl2. unfold results, readies in *.
    split; [|split; [done|right; done]]. rewrite app_nil_r.
    split; try done; unfold results, readies; try lia; try congruence; auto.
  - apply wp_bind, wp_emit, wp_bind, wp_emit, wp_ret. split; [|split; [done|by left]]. by apply op_post_quiet.
Qed.

Lemma wp_request_reset p s :
  ctx_ok s -> wp (request_reset e p) s any_abort (op_std 1 (fun r s => kept r s \/ down_or_packaging r s) s).
Proof.
  intros Hok. apply wp_store_then. intros s1 Hc1 He1.
  assert (ctx_ok s1) as Hok1 by (by eapply ctx_ok_same).
  apply wp_request; [done|]. intros s2 Hp2 _ _ Hok2. specialize (Hok2 Hok1).
  apply wp_bind, wp_gets. cbn [app]. destruct (waiting_hal_busy_reason (ctrl_state s2)).
  - apply wp_ret, op_std_ret; [done|lia|by left].
  - eapply wp_op_weaken; [by apply wp_escalation|auto].
Qed.

Lemma wp_request_update p s :
  ctx_ok s -> wp (request_update e p) s any_abort (op_std 1 (fun r s => kept r s \/ down_or_packaging r s) s).
Proof.
  intros Hok. unfold request_update.
  assert (wp (ASSERT_no_request ;; set_client_request REQ_RESET ;; set_do_not_report true ;;
    let* w := waiting_reason in if w then ret (-1) else mdm_restart e false false) s any_abort
    (op_std 1 (fun r s => kept r s \/ down_or_packaging r s) s)) as Hw.
  { apply wp_request; [done|]. intros s1 Hp1 _ _ Hok1. specialize (Hok1 Hok).
    apply wp_bind, wp_modify, wp_bind, wp_gets. cbn [app].
    destruct (waiting_hal_busy_reason _).
    - apply wp_ret. split; [|split; [done|by left]]. by apply op_post_quiet.
    - eapply (wp_op_from (s0:=s1)); [by split|done|]. rewrite Z.sub_diag, Z.sub_0_r.
      eapply wp_op_weaken; [by apply wp_mdm_restart|]. intros r s' ->. right. by left. }
  unfold wp, ASSERT_no_request, is_request, bind, gets, ASSERT, ret, fail, modify in *.
  unfold set_do_not_report, set_client_request, on_dbg_info, on_state, modify in *.
  destruct (bool_decide _); exact Hw.
Qed.

Lemma wp_request_backup p s :
  ctx_ok s -> wp (request_backup e p) s any_abort (op_std 1 down_or_packaging s).
Proof.
  intros Hok. apply wp_request; [done|]. intros s1 _ _ _ Hok1.
  eapply wp_op_weaken; [by apply wp_mdm_restart; auto|]. by left.
Qed.

Lemma wp_request_stop p s :
  ctx_ok s -> wp (request_stop p) s any_abort (op_std 1 (fun r s => kept r s \/ r = ST_WAITING) s).
Proof.
  intros Hok. apply wp_request; [done|]. intros s1 Hp1 _ _ Hok1. specialize (Hok1 Hok).
  apply wp_bind, wp_gets. cbn [app]. destruct (waiting_hal_busy_reason (ctrl_state s1)).
  - apply wp_ret, op_std_ret; [done|lia|by left].
  - eapply wp_op_weaken; [by apply wp_mdm_stop|auto].
Qed.

(** The only operation that arms the reset timer. *)
Lemma wp_request_reset_timer p s :
  ctx_ok s -> wp (request_reset_timer e p) s any_abort (fun r s' o =>
    op_post 1 s r s' o /\ r = -1 /\ pending s' = 1).
Proof.
  intros Hok. apply wp_bind, wp_store_dbg_info. intros s1 Hc1 He1. cbn [app].
  assert (ctx_ok s1) as Hok1 by (by eapply ctx_ok_same).
  assert (pending s1 = pending s) as Hps by (apply pending_same; by rewrite (sc_state _ _ Hc1)).
  unfold ASSERT_no_request, is_request, start_timer.
  apply wp_bind, wp_bind, wp_gets, wp_ASSERT; [|done]. intros Hn. bool_facts.
  apply wp_bind, wp_modify, wp_bind, wp_modify, wp_bind, wp_bind, wp_gets, wp_bind, wp_ASSERT; [intros _|done].
  apply wp_bind, wp_ASSERT; [intros _|done]. apply wp_modify, wp_ret. cbn [app].
  match goal with |- op_post 1 s _ ?s2 _ /\ _ =>
    assert (pending s2 = 1) as Hp1 by (unfold pending; by rewrite decide_False);
    assert (pending s = 0) as Hp0 by (rewrite <-Hps; unfold pending; by rewrite decide_True) end.
  split; [|done]. eapply op_post_from; [|rewrite Hp1, Hp0; by apply op_post_quiet].
  destruct Hc1. by split; cbn; congruence.
Qed.

(** A prefix of quiet actions. *)
Lemma wp_op_emit {i R s x} {m : C_ Z} :
  quiet [x] -> wp m s any_abort (op_std i R s) -> wp (emit x ;; m) s any_abort (op_std i R s).
Proof.
  intros Hx Hm. apply wp_emit_then. eapply wp_mono; [exact Hm|done|].
  intros r s' o (? & ? & ?). split; [by apply op_post_emit|done].
Qed.

Lemma wp_op_broadcast {i R s n} {m : C_ Z} :
  wp m s any_abort (op_std i R s) -> wp (broadcast n ;; m) s any_abort (op_std i R s).
Proof.
  intros Hm. unfold broadcast. apply wp_bind, wp_bind, wp_gets, wp_emit. eapply wp_mono; [exact Hm|done|].
  intros r s' o (? & ? & ?). split; [by apply op_post_emit|done].
Qed.

Lemma wp_reset_after_tlv p s :
  ctx_ok s -> wp (reset_after_tlv e p) s any_abort (op_std 0 (fun r _ => r = ST_PACKAGING) s).
Proof.
  intros Hok. apply wp_op_broadcast. do 2 (apply wp_op_emit; [done|]). by apply wp_mdm_restart.
Qed.

Lemma wp_flash_failure p s :
  ctx_ok s -> wp (flash_failure p) s any_abort (op_std 0 (fun r _ => r = -2) s).
Proof. intros Hok. apply wp_op_emit; [done|]. apply wp_ret, op_std_ret; [done|lia|done]. Qed.

Lemma wp_pack_failure p s :
  ctx_ok s -> wp (pack_failure p) s any_abort (op_std 0 (fun r _ => r = -2) s).
Proof. apply wp_flash_failure. Qed.

Lemma wp_custo_failure p s :
  ctx_ok s -> wp (custo_failure p) s any_abort (op_std 0 (fun r _ => r = -2) s).
Proof.
  intros Hok. apply wp_op_broadcast. do 2 (apply wp_op_emit; [done|]).
  apply wp_ret, op_std_ret; [done|lia|done].
Qed.

Lemma wp_notify_busy p s : ctx_ok s -> wp (notify_busy p) s any_abort (op_std 0 (fun r _ => r = -1) s).
Proof. intros Hok. apply wp_op_emit; [done|]. apply wp_ret, op_std_ret; [done|lia|done]. Qed.

Lemma wp_notify_off p s :
  ctx_ok s -> wp (notify_off p) s any_abort (op_std 0 (fun r _ => r = ST_DOWN) s).
Proof.
  intros [Hh He]. apply wp_bind, wp_notify_op_result.
  intros s2 o2 Hl2 Hp2 Hr Hrd Hw He2 Hh2 Ht2. apply wp_bind, wp_emit, wp_ret.
  destruct Hl2. unfold results, readies in *. split; [|done].
  split; try done; unfold results, readies; rewrite ?count_out_app, ?watchdog_msgs_app;
    try (cbn; lia); auto.
  - rewrite Hr, Hp2. change (count_out is_result [_]) with 0. change (count_out is_result []) with 0. lia.
  - rewrite Hw. done.
  - by rewrite He2.
  - rewrite Hrd. done.
Qed.

Lemma wp_dump_start p s :
  ctx_ok s -> wp (dump_start e p) s any_abort (op_std 0 (fun r _ => r = ST_DUMPING) s).
Proof.
  intros Hok. unfold dump_start. apply wp_bind.
  destruct p; [by apply wp_fail|]. apply wp_gets. destruct (msg_ptr s) as [d|]; [|by apply wp_fail].
  apply wp_bind, wp_modify. cbn [app]. eapply wp_op_from; [by split|done|].
  rewrite Z.sub_diag, Z.sub_0_r. apply wp_op_emit; [done|]. apply wp_op_broadcast.
  apply wp_bind, wp_gets, wp_bind, wp_ASSERT; [intros _|done]. cbn [app].
  destruct d as [d|h]; [apply wp_bind; by apply wp_fail|].
  apply wp_op_emit; [done|]. apply wp_ret. split; [|done]. by apply op_post_quiet.
Qed.

Lemma wp_dump_end p s : ctx_ok s -> wp (dump_end e p) s any_abort (op_std 0 settled s).
Proof. intros Hok. apply wp_op_broadcast. by apply wp_requested_operation. Qed.

Lemma wp_dump_error p s : ctx_ok s -> wp (dump_error e p) s any_abort (op_std 0 settled s).
Proof.
  intros Hok. unfold dump_error. apply wp_bind, wp_gets. cbn [app].
  destruct (dump s); [|apply wp_bind; by apply wp_fail].
  do 2 (apply wp_op_emit; [done|]). by apply wp_requested_operation.
Qed.

(** The failsafe answers the pending request, forgets everything and starts a
    stop request of its own. *)
Lemma wp_failsafe p s :
  ctx_ok s -> wp (failsafe p) s any_abort (op_std 1 (fun r _ => r = ST_WAITING) s).
Proof.
  intros Hok. unfold failsafe, clear_internal_state. apply wp_bind, wp_notify_op_result.
  intros s1 o1 Hl Hp Hr Hrd Hw He Hh Ht. apply wp_bind, wp_modify. cbn [app].
  unfold request_stop, ASSERT_no_request, is_request.
  apply wp_bind, wp_bind, wp_gets, wp_ASSERT; [intros _|done].
  apply wp_bind, wp_modify, wp_bind, wp_gets. cbn. apply wp_bind, wp_emit, wp_ret. cbn [app].
  destruct Hl. unfold results, readies in *. split; [|done].
  split; try done; unfold results, readies; rewrite ?count_out_app, ?watchdog_msgs_app; try done; auto.
  - rewrite Hr. change (pending (mk_ctrl _ _ _ _ _ _ _ _ _ _ _)) with 1. change (count_out is_result [HalShutdown]) with 0. lia.
  - rewrite Hw. done.
  - cbn. rewrite He. apply Hok.
  - rewrite Hrd. done.
Qed.

(** *** Flashing and configuration *)

Definition flashing (r : Z) (s : ctrl) : Prop := r = -1 \/ r = ST_FLASHING.

Lemma wp_mdm_flash s :
  (forall d, hal_evt (ctrl_state s) = Some d -> flash_node d) ->
  (flash_done (ctrl_state s) = true -> run_ipc (ctrl_state s) = false) ->
  esc_ok (escalation_ctx s) ->
  wp mdm_flash s any_abort (op_std 0 flashing s).
Proof.
  intros Hn Hf He. unfold mdm_flash. apply wp_bind, wp_get. cbn [app].
  destruct (hal_evt (ctrl_state s)) as [d|] eqn:Hh.
  - destruct (fw_ready (ctrl_state s)) eqn:Hr.
    + destruct (Hn d eq_refl) as (h & -> & Ht).
      apply wp_bind, wp_ASSERT; [intros _|done]. cbn [app]. apply wp_op_emit; [done|].
      apply wp_bind, wp_modify, wp_bind, wp_modify, wp_ret. cbn [app].
      split; [|split; [done|by right]]. apply op_post_quiet; try done.
    + apply wp_ret, op_std_ret; [|lia|by left]. split; [|done]. split_and!; try done.
      intros d' E. rewrite Hh in E. injection E as <-. auto.
  - apply wp_ret, op_std_ret; [|lia|by left]. split; [|done].
    split_and!; try done; rewrite Hh; [done|by intros []].
Qed.

Lemma wp_flash_evt p s :
  ctx_ok s -> (forall d, msg_ptr s = Some d -> flash_node d) ->
  wp (flash_evt p) s any_abort (op_std 0 flashing s).
Proof.
  intros [(H1 & H2 & H3) He] Hm. unfold flash_evt. apply wp_bind, wp_get, wp_bind, wp_ASSERT; [intros _|done].
  apply wp_bind. destruct p; [by apply wp_fail|]. apply wp_gets.
  apply wp_bind, wp_modify, wp_bind, wp_modify. cbn [app].
  eapply (wp_op_from (s0:=s)); [by split|done|]. rewrite Z.sub_diag, Z.sub_0_r.
  by apply wp_mdm_flash.
Qed.

Lemma wp_fw_ready_evt p s : ctx_ok s -> wp (fw_ready_evt p) s any_abort (op_std 0 flashing s).
Proof.
  intros [(H1 & H2 & H3) He]. apply wp_bind, wp_modify. cbn [app].
  eapply (wp_op_from (s0:=s)); [by split|done|]. rewrite Z.sub_diag, Z.sub_0_r.
  by apply wp_mdm_flash.
Qed.

Definition configured (r : Z) (s : ctrl) : Prop := r = -1 \/ r = ST_CUSTOMIZING \/ r = ST_UP.

Lemma wp_mdm_cfg s :
  (forall d, hal_evt (ctrl_state s) = Some d -> flash_node d) ->
  (is_Some (hal_evt (ctrl_state s)) -> fw_ready (ctrl_state s) = false) ->
  esc_ok (escalation_ctx s) ->
  wp (mdm_cfg e) s any_abort (op_std 0 configured s).
Proof.
  intros Hn Hf He. unfold mdm_cfg. apply wp_bind, wp_get. cbn [app].
  destruct (flash_done (ctrl_state s)) eqn:Hfd; cbn [andb];
    [destruct (run_ipc (ctrl_state s)) eqn:Hri|].
  - apply wp_bind, wp_modify, wp_bind, wp_modify. cbn [app].
    eapply (wp_op_from (s0:=s)); [by split|done|]. rewrite Z.sub_diag, Z.sub_0_r.
    destruct (tlv_list e) as [l|]; (apply wp_bind, wp_ASSERT; [intros _|done]); cbn [app].
    + apply wp_op_emit; [done|]. apply wp_ret. split; [|split; [done|by right; left]].
      by apply op_post_quiet.
    + apply wp_bind, wp_notify_op_result. intros s2 o2 Hl2 Hp2 Hr Hrd Hw He2 Hh2 Ht2.
      apply wp_bind, wp_emit, wp_ret. destruct Hl2. unfold results, readies in *.
      split; [|split; [done|by right; right]].
      split; try done; unfold results, readies; rewrite ?count_out_app, ?watchdog_msgs_app, ?Hr, ?Hrd, ?Hw;
        try done; auto.
      * change (count_out is_result [_]) with 0. change (count_out is_result []) with 0. lia.
      * by apply Hh2.
      * by rewrite He2.
  - apply wp_ret, op_std_ret; [|lia|by left]. by split; [split_and!|].
  - apply wp_ret, op_std_ret; [|lia|by left]. split; [|done]. split_and!; try done.
    by rewrite Hfd.
Qed.

Lemma wp_run_evt_initial p s : ctx_ok s -> wp (run_evt_initial e p) s any_abort (op_std 0 configured s).
Proof.
  intros [(H1 & H2 & H3) He]. apply wp_bind, wp_modify, wp_bind, wp_modify. cbn [app].
  eapply (wp_op_from (s0:=s)); [by split|done|]. rewrite Z.sub_diag, Z.sub_0_r.
  by apply wp_mdm_cfg.
Qed.

Lemma wp_run_evt p s : ctx_ok s -> wp (run_evt e p) s any_abort (op_std 0 configured s).
Proof.
  intros [(H1 & H2 & H3) He]. apply wp_bind, wp_modify. cbn [app].
  eapply (wp_op_from (s0:=s)); [by split|done|]. rewrite Z.sub_diag, Z.sub_0_r.
  by apply wp_mdm_cfg.
Qed.

Lemma wp_flash_success_evt p s :
  ctx_ok s -> wp (flash_success_evt e p) s any_abort (op_std 0 configured s).
Proof.
  intros [(H1 & H2 & H3) He]. unfold flash_success_evt. apply wp_bind, wp_get. cbn [app].
  assert (wp (emit (NotifyFwFlashed 0) ;; set_flash_done true ;; mdm_cfg e) s any_abort
    (op_std 0 configured s)) as Hw.
  { apply wp_op_emit; [done|]. apply wp_bind, wp_modify. cbn [app].
    eapply (wp_op_from (s0:=s)); [by split|done|]. rewrite Z.sub_diag, Z.sub_0_r.
    by apply wp_mdm_cfg. }
  unfold when. destruct (negb _); [by apply wp_op_emit|]. apply wp_bind, wp_ret. exact Hw.
Qed.

Lemma wp_todo p s Q : wp (todo p) s any_abort Q.
Proof. apply wp_bind. by apply wp_DASSERT. Qed.

Lemma wp_assert p s Q : wp (assert p) s any_abort Q.
Proof. apply wp_bind. by apply wp_DASSERT. Qed.

End op_lemmas.

(** ** The cells of the table *)

(** The requests an event stands for: those of CLA, except a backup refused
    silently while dumping, and the stop request of the failsafe. *)
Definition issued (evt_id st : Z) : Z :=
  if evt_id <? EV_CLI_NVM_BACKUP then 1
  else if evt_id =? EV_CLI_NVM_BACKUP then if st =? ST_DUMPING then 0 else 1
  else if evt_id =? EV_FAILURE then if st =? ST_DUMPING then 0 else 1
  else 0.

(** Outcome of a cell in state [st]: [new] is the new state. *)
Record cell_post (i st : Z) (s : ctrl) (new : Z) (f : fsm_st ctrl) (o : list ctrl_out) : Prop := {
  cp_state : state f = st;
  cp_results : pending (fsm_param f) + results o = pending s + i;
  cp_watch : watchdog_msgs o = [];
  cp_core : core_le s (fsm_param f);
  cp_ok : ctx_ok (fsm_param f);
  cp_ready : readies o = if (new =? ST_UP) && negb (st =? ST_UP) then 1 else 0;
  cp_idle : new = ST_INITIAL \/ new = ST_DOWN -> pending (fsm_param f) = 0;
  cp_timer : timer_armed (fsm_param f) = true ->
    st = ST_UP /\ (new = ST_UP -> pending (fsm_param f) = 1);
  cp_range : 0 <= new < ST_NUM /\ (new = ST_INITIAL -> st = ST_INITIAL);
}.

(** What relates the state of the machine to its context. *)
Record linked (st : Z) (s : ctrl) : Prop := {
  lk_range : 0 <= st < ST_NUM;
  lk_timer : timer_armed s = true -> st = ST_UP /\ pending s = 1;
  lk_idle : st = ST_INITIAL \/ st = ST_DOWN -> pending s = 0;
}.

(** The results an operation may give in state [st]. *)
Definition admissible (i st : Z) (s : ctrl) (R : Z -> ctrl -> Prop) : Prop :=
  forall r s', R r s' ->
    -1 <= r /\ (st = ST_UP -> r <> ST_UP) /\
    (r = -1 -> (timer_armed s = true -> pending s' = 1) /\
               (i = 0 \/ pending s' = 0 \/ (st <> ST_INITIAL /\ st <> ST_DOWN))).

Section cells.
Context `{MdmCli} (e : env).
Implicit Types (s : ctrl).

Lemma wp_cell_keep {i R st s p} {g : evt_param -> C_ Z} :
  linked st s -> wp (g p) s any_abort (op_std i R s) -> admissible i st s R ->
  wp (run_op (ctrl_cfg e) (keep g) st p) (mk_fsm_st st s) any_abort (cell_post i st s).
Proof.
  intros [Hr Ht Hi] Hw Had. apply wp_run_op. cbn.
  eapply wp_mono; [exact Hw|done|]. intros r s' o (Hp & Hta & HR).
  destruct (Had r s' HR) as (Hr1 & Hup & Hstay).
  destruct Hp as [Hres [Hw1 [Hw2 Hw3]] [Hc1 Hc2] Hhal Hoos Hesc Hready Hdown [Hra Hrb]].
  pose proof (count_out_nonneg is_result o) as Hnn. unfold results in *.
  pose proof (pending_bool s'). pose proof (pending_bool s).
  destruct (Z.leb_spec r (-2)); [lia|]. unfold next_state. cbn.
  destruct (Z.leb_spec r (-2)); [lia|].
  destruct (Z.eqb_spec r (-1)) as [->|Hr0].
  - destruct (Hstay eq_refl) as [Hs1 Hs2]. split; cbn; try done; unfold results.
    + destruct (Z.eqb_spec st ST_UP); cbn; [|]; rewrite ?andb_false_r; exact Hready.
    + intros Hst. specialize (Hi Hst). lia.
    + rewrite Hta. intros Ha. destruct (Ht Ha). split; [done|]. intros _. auto.
  - split; cbn; try done; unfold results.
    + rewrite Hready. destruct (Z.eqb_spec r ST_UP); [|done].
      destruct (Z.eqb_spec st ST_UP); [|done]. exfalso. by apply Hup.
    + intros [|]; [done|auto].
    + rewrite Hta. intros Ha. destruct (Ht Ha). split; [done|]. intros. exfalso. by apply Hup.
    + split; [|done]. lia.
Qed.

(** A cell without an operation. *)
Lemma wp_cell_none {st s p} :
  linked st s -> ctx_ok s ->
  wp (run_op (ctrl_cfg e) none st p) (mk_fsm_st st s) any_abort (cell_post 0 st s).
Proof.
  intros [Hr Ht Hi] Hok. apply wp_run_op. cbn. unfold next_state. cbn.
  split; cbn; try done; unfold results, readies, count_out; cbn.
  - destruct (Z.eqb_spec st ST_UP); cbn; by rewrite ?andb_false_r.
  - intros Ha. by destruct (Ht Ha).
Qed.

(** An operation that reports an error and is followed by the failsafe. *)
Lemma wp_cell_error {st s p} {g : evt_param -> C_ Z} :
  linked st s -> wp (g p) s any_abort (op_std 0 (fun r _ => r = -2) s) ->
  wp (run_op (ctrl_cfg e) (keep g) st p) (mk_fsm_st st s) any_abort (cell_post 1 st s).
Proof.
  intros [Hr Ht Hi] Hw. apply wp_run_op. cbn.
  eapply wp_mono; [exact Hw|done|]. intros r s1 o1 (Hp & Hta & ->). cbn.
  destruct Hp as [Hres [Hw1 [Hw2 Hw3]] [Hc1 Hc2] Hhal Hoos Hesc Hready Hdown [Hra Hrb]].
  eapply wp_mono; [by apply wp_failsafe|done|]. intros r s2 o2 (Hp & Hta2 & ->).
  destruct Hp as [Hres' [Hw1' [Hw2' Hw3']] [Hc1' Hc2'] Hhal' Hoos' Hesc' Hready' Hdown' _].
  unfold next_state. cbn. unfold results, readies in *.
  split; cbn; try done; unfold results, readies; rewrite ?count_out_app, ?watchdog_msgs_app; try lia.
  - by rewrite Hw1, Hw1'.
  - split; try congruence. auto.
  - rewrite Hready, Hready'. done.
  - intros [|]; done.
  - rewrite Hta2, Hta. intros Ha. destruct (Ht Ha). done.
Qed.

(** BUSY in UP: the operation keeps the state, the table forces WAITING. *)
Lemma wp_cell_busy {s p} :
  linked ST_UP s -> ctx_ok s ->
  wp (run_op (ctrl_cfg e) (mk_op ST_WAITING (Some notify_busy)) ST_UP p) (mk_fsm_st ST_UP s) any_abort
    (cell_post 0 ST_UP s).
Proof.
  intros [Hr Ht Hi] Hok. apply wp_run_op. cbn.
  eapply wp_mono; [by apply wp_notify_busy|done|]. intros r s1 o1 (Hp & Hta & ->). cbn.
  destruct Hp as [Hres [Hw1 [Hw2 Hw3]] [Hc1 Hc2] Hhal Hoos Hesc Hready Hdown [Hra Hrb]].
  split; cbn; try done. intros [|]; done.
Qed.

(** CLI_RESET in UP, which arms the timer. *)
Lemma wp_cell_reset_timer {s p} :
  linked ST_UP s -> ctx_ok s ->
  wp (run_op (ctrl_cfg e) (keep (request_reset_timer e)) ST_UP p) (mk_fsm_st ST_UP s) any_abort
    (cell_post 1 ST_UP s).
Proof.
  intros [Hr Ht Hi] Hok. apply wp_run_op. cbn.
  eapply wp_mono; [by apply wp_request_reset_timer|done|]. intros r s1 o1 (Hp & -> & Hp1). cbn.
  destruct Hp as [Hres [Hw1 [Hw2 Hw3]] [Hc1 Hc2] Hhal Hoos Hesc Hready Hdown [Hra Hrb]].
  split; cbn; try done. intros [|]; done.
Qed.

Lemma wp_cell_abort {i st s p} {g : evt_param -> C_ Z} :
  (forall s Q, wp (g p) s any_abort Q) ->
  wp (run_op (ctrl_cfg e) (keep g) st p) (mk_fsm_st st s) any_abort (cell_post i st s).
Proof. intros Hg. apply wp_run_op. cbn. apply Hg. Qed.

End cells.

(** *** Going through the table *)

Create HintDb ctrl_ops.
#[export] Hint Resolve wp_escalation wp_notify_unresp wp_fw_flash_failure wp_mdm_stop
  wp_requested_operation wp_accept_stop wp_accept_reset wp_request_start wp_request_reset
  wp_request_update wp_request_backup wp_request_stop wp_reset_after_tlv wp_notify_busy wp_notify_off
  wp_dump_start wp_dump_end wp_dump_error wp_failsafe wp_fw_ready_evt wp_flash_evt wp_run_evt
  wp_run_evt_initial wp_flash_success_evt wp_flash_failure wp_pack_failure wp_custo_failure : ctrl_ops.

Ltac solve_admissible Hl :=
  let r := fresh "r" in let s' := fresh "s'" in let HR := fresh "HR" in let Ha := fresh "Ha" in
  intros r s' HR; pose proof (lk_timer _ _ Hl) as Ha; cbn beta in HR;
  unfold started, kept, down_or_packaging, settled, flashing, configured, ST_NUM, ST_INITIAL, ST_DOWN,
    ST_UP, ST_PACKAGING, ST_FLASHING, ST_CUSTOMIZING, ST_WAITING, ST_DUMPING in *;
  repeat match type of HR with _ \/ _ => destruct HR as [HR|HR] | _ /\ _ => let X := fresh "X" in destruct HR as [HR X] end;
  subst r; split_and!; try lia; intros; split; try lia; intros; exfalso;
  match goal with A : timer_armed _ = true |- _ => destruct (Ha A); lia end.

Ltac solve_cell Hl :=
  lazymatch goal with
  | |- wp (run_op _ (keep todo) _ _) _ _ _ => apply wp_cell_abort; intros; apply wp_todo
  | |- wp (run_op _ (keep assert) _ _) _ _ _ => apply wp_cell_abort; intros; apply wp_assert
  | |- wp (run_op _ none _ _) _ _ _ => by apply wp_cell_none
  | |- wp (run_op _ (mk_op _ _) _ _) _ _ _ => by apply wp_cell_busy
  | |- wp (run_op _ (keep (request_reset_timer _)) _ _) _ _ _ => by apply wp_cell_reset_timer
  | |- wp (run_op _ (keep flash_failure) _ _) _ _ _ => eapply wp_cell_error; auto with ctrl_ops
  | |- wp (run_op _ (keep pack_failure) _ _) _ _ _ => eapply wp_cell_error; auto with ctrl_ops
  | |- wp (run_op _ (keep custo_failure) _ _) _ _ _ => eapply wp_cell_error; auto with ctrl_ops
  | |- _ => eapply wp_cell_keep; [exact Hl|by eauto with ctrl_ops|solve_admissible Hl]
  end.

Section table.
Context `{MdmCli} (e : env).
Implicit Types (s : ctrl).

Lemma wp_cell_rows evt_id st row op s p :
  g_fsm_rows e !! evt_id = Some row -> row !! st = Some op ->
  linked (Z.of_nat st) s -> ctx_ok s ->
  (Z.of_nat evt_id = EV_HAL_MDM_FLASH -> forall d, msg_ptr s = Some d -> flash_node d) ->
  wp (run_op (ctrl_cfg e) op (Z.of_nat st) p) (mk_fsm_st (Z.of_nat st) s) any_abort
    (cell_post (issued (Z.of_nat evt_id) (Z.of_nat st)) (Z.of_nat st) s).
Proof.
  intros Hrow Hop Hl Hok Hm.
  do 17 (destruct evt_id as [|evt_id];
    [ cbn [lookup list_lookup g_fsm_rows] in Hrow; injection Hrow as <-;
      do 8 (destruct st as [|st];
        [ cbn [lookup list_lookup] in Hop; injection Hop as <-;
          match goal with |- context [issued ?a ?b] =>
            let i := eval vm_compute in (issued a b) in change (issued a b) with i end;
          solve [solve_cell Hl] | ]);
      by destruct st
    | ]).
  by destruct evt_id.
Qed.

End table.

(** ** The whole machine *)

Definition machine_inv (f : fsm_st ctrl) : Prop := linked (state f) (fsm_param f) /\ ctx_ok (fsm_param f).

(** In UP and in DOWN nothing is in progress and the watchdog is stopped. *)
Definition at_rest (st : Z) : bool := (st =? ST_UP) || (st =? ST_DOWN).

(** The watchdog messages of a change of state, [i] being the last identifier
    and [ms] the configured timeout. *)
Definition trans_msgs (st new i ms : Z) : list Z :=
  if st =? new then []
  else (if at_rest st then [pack CRM_WATCH_START ms (watchdog_get_new_id i)] else []) ++
       (if at_rest new then [pack CRM_WATCH_STOP 0 (if at_rest st then watchdog_get_new_id i else i)] else []).

Record step_post (evt_id : Z) (f f' : fsm_st ctrl) (o : list ctrl_out) : Prop := {
  sp_inv : machine_inv f';
  sp_results : pending (fsm_param f') + results o = pending (fsm_param f) + issued evt_id (state f);
  sp_ready : readies o = if (state f' =? ST_UP) && negb (state f =? ST_UP) then 1 else 0;
  sp_watch : watchdog_msgs o
    = trans_msgs (state f) (state f') (watch_id (fsm_param f)) (timeout (fsm_param f));
  sp_watch_id : watch_id (fsm_param f') =
    if at_rest (state f) && negb (state f =? state f')
    then watchdog_get_new_id (watch_id (fsm_param f)) else watch_id (fsm_param f);
  sp_timeout : timeout (fsm_param f') = timeout (fsm_param f);
  sp_initial : state f' = ST_INITIAL -> state f = ST_INITIAL;
  sp_oos : is_mdm_oos (fsm_param f) = true -> is_mdm_oos (fsm_param f') = true;
}.

Section machine.
Context `{MdmCli} (e : env).
Implicit Types (s : ctrl).

(** Everything but the busy flag. *)
Definition pre_same (s s0 : ctrl) : Prop :=
  core_le s s0 /\ pending s0 = pending s /\ timer_armed s0 = timer_armed s /\
  (ctx_ok s -> ctx_ok s0) /\ msg_ptr s0 = msg_ptr s /\ is_mdm_oos s0 = is_mdm_oos s.

Lemma pre_same_refl s : pre_same s s.
Proof. unfold pre_same. by split_and!. Qed.

Lemma wp_pre_op evt_id s :
  wp (pre_op evt_id) s any_abort (fun _ s0 o => pre_same s s0 /\ o = []).
Proof.
  unfold pre_op, waiting_reason, set_waiting_hal_busy_reason, on_state.
  destruct (evt_id =? EV_HAL_MDM_BUSY).
  - apply wp_modify. split; [|done]. unfold pre_same. by split_and!.
  - destruct (_ || _); [|by apply wp_ret; split; [apply pre_same_refl|]].
    apply wp_bind, wp_gets, wp_bind, wp_ASSERT; [intros _|done]. apply wp_modify.
    split; [|done]. unfold pre_same. by split_and!.
Qed.

Lemma wp_gen_scalar {S O} r ms i (s : S) (Q : Z -> S -> list O -> Prop) :
  Q (pack r ms i) s [] -> wp (watchdog_gen_scalar r ms i) s any_abort Q.
Proof.
  intros HQ. unfold watchdog_gen_scalar.
  do 2 (apply wp_bind, wp_ASSERT; [intros _|done]). by apply wp_ret.
Qed.

Lemma wp_state_trans st new evt_id p s :
  wp (if st =? new then ret tt else state_trans st new evt_id p) s any_abort (fun _ s' o =>
    (ctx_ok s -> ctx_ok s') /\ pending s' = pending s /\ is_mdm_oos s' = is_mdm_oos s /\
    timeout s' = timeout s /\ results o = 0 /\ readies o = 0 /\
    timer_armed s' = (if st =? new then timer_armed s else timer_armed s && negb (st =? ST_UP)) /\
    watchdog_msgs o = trans_msgs st new (watch_id s) (timeout s) /\
    watch_id s' = (if at_rest st && negb (st =? new) then watchdog_get_new_id (watch_id s) else watch_id s) /\
    (st <> new -> new <> ST_INITIAL)).
Proof.
  destruct (Z.eqb_spec st new) as [->|Hne].
  { apply wp_ret. unfold trans_msgs. rewrite Z.eqb_refl, andb_false_r. done. }
  unfold state_trans, watchdog_start, watchdog_stop, trans_msgs, set_timer, set_watch_id.
  rewrite (proj2 (Z.eqb_neq st new) Hne), andb_true_r.
  change ((st =? ST_UP) || (st =? ST_DOWN)) with (at_rest st).
  change ((new =? ST_UP) || (new =? ST_DOWN)) with (at_rest new).
  apply wp_bind, wp_ASSERT; [|done]. intros Hi. bool_facts.
  destruct (at_rest st); cbn [when].
  - apply wp_bind, wp_when; [intros _|done].
    apply wp_bind, wp_gets, wp_bind, wp_gets, wp_bind, wp_modify, wp_bind, wp_gen_scalar, wp_emit.
    apply wp_bind, wp_get, wp_bind. cbn.
    destruct (Z.eqb_spec st ST_UP), (timer_armed s) eqn:Ht; cbn [andb negb];
      (apply wp_when; intros; [try done; apply wp_modify|try done]);
      (apply wp_when; intros Hr; rewrite Hr;
        [apply wp_bind, wp_gets, wp_bind, wp_gen_scalar, wp_emit|]); by split_and!.
  - apply wp_bind, wp_when; [done|intros _].
    apply wp_bind, wp_get, wp_bind. cbn.
    destruct (Z.eqb_spec st ST_UP), (timer_armed s) eqn:Ht; cbn [andb negb];
      (apply wp_when; intros; [try done; apply wp_modify|try done]);
      (apply wp_when; intros Hr; rewrite Hr;
        [apply wp_bind, wp_gets, wp_bind, wp_gen_scalar, wp_emit|]); by split_and!.
Qed.

Lemma ctrl_event_named evt_id : 0 <= evt_id < EV_NUM -> is_Some (get_event_txt evt_id).
Proof.
  unfold get_event_txt, EV_NUM. intros [H1 H2]. destruct (Z.ltb_spec evt_id 0); [lia|].
  apply lookup_lt_is_Some_2. cbn. lia.
Qed.

Lemma ctrl_state_named st : 0 <= st < ST_NUM -> is_Some (get_state_txt st).
Proof.
  unfold get_state_txt, ST_NUM. intros [H1 H2]. destruct (Z.ltb_spec st 0); [lia|].
  apply lookup_lt_is_Some_2. cbn. lia.
Qed.

(** Every event has a cell in every state. *)
Lemma ctrl_cell evt_id st : 0 <= evt_id < EV_NUM -> 0 <= st < ST_NUM ->
  exists row op, g_fsm_rows e !! Z.to_nat evt_id = Some row /\ row !! Z.to_nat st = Some op /\
    get_op (ctrl_cfg e) st evt_id = Some op.
Proof.
  unfold EV_NUM, ST_NUM. intros He Hs.
  assert (forall r, r ∈ g_fsm_rows e -> length r = 8%nat) as Hlen.
  { intros r Hr. apply list_elem_of_In in Hr. cbn [g_fsm_rows In] in Hr.
    repeat (destruct Hr as [<-|Hr]; [done|]). done. }
  destruct (lookup_lt_is_Some_2 (g_fsm_rows e) (Z.to_nat evt_id)) as [row Hrow].
  { change (length (g_fsm_rows e)) with 17%nat. lia. }
  assert (length row = 8%nat) as Hl by (eapply Hlen, list_elem_of_lookup_2, Hrow).
  destruct (lookup_lt_is_Some_2 row (Z.to_nat st)) as [op Hop]; [lia|].
  exists row, op. split_and!; [done..|].
  apply (get_op_rows _ (g_fsm_rows e) _ _ row); try done; try lia.
  intros r Hr. rewrite (Hlen r Hr). done.
Qed.

Lemma wp_ctrl_event evt_id p f :
  0 <= evt_id < EV_NUM -> machine_inv f ->
  (evt_id = EV_HAL_MDM_FLASH -> forall d, msg_ptr (fsm_param f) = Some d -> flash_node d) ->
  wp (notify_event (ctrl_cfg e) evt_id p) f any_abort (fun _ f' o => step_post evt_id f f' o).
Proof.
  intros He [Hl Hok] Hm. pose proof (lk_range _ _ Hl) as Hr.
  destruct (ctrl_cell evt_id (state f) He Hr) as (row & op & Hrow & Hop & Hget).
  eapply wp_notify_event; [cbn; lia|by apply ctrl_event_named|by apply ctrl_state_named|done|].
  cbn [pre_op ctrl_cfg]. eapply wp_mono; [apply wp_pre_op|done|].
  intros _ s0 o0 [(Hle & Hp & Ht & Hok0 & Hmp & Hoo) ->]. specialize (Hok0 Hok).
  assert (linked (state f) s0) as Hl0.
  { destruct Hl. split; [done|by rewrite Ht, Hp|by rewrite Hp]. }
  pose proof (wp_cell_rows e (Z.to_nat evt_id) (Z.to_nat (state f)) row op s0 p Hrow Hop) as Hc.
  rewrite !Z2Nat.id in Hc by lia. rewrite Hmp in Hc. specialize (Hc Hl0 Hok0 Hm).
  eapply wp_mono; [exact Hc|done|]. clear Hc.
  intros new f1 o1 [C1 C2 C3 C4 C5 C6 C7 C8 [C9 C10]].
  split; [left; by apply ctrl_state_named|]. intros _.
  cbn [state_trans ctrl_cfg]. eapply wp_mono; [apply wp_state_trans|done|].
  intros _ s2 o2 (T1 & T2 & T3 & T4 & T5 & T6 & T7 & T8 & T9 & T10).
  split; [done|]. destruct Hle, C4. unfold results, readies in *.
  assert (watch_id (fsm_param f1) = watch_id (fsm_param f)) as Hw by congruence.
  assert (timeout (fsm_param f1) = timeout (fsm_param f)) as Hto by congruence.
  split; cbn; unfold results, readies; rewrite ?count_out_app, ?watchdog_msgs_app; try lia.
  - split; [split; cbn|by apply T1].
    + done.
    + rewrite T7, T2. destruct (Z.eqb_spec (state f) new) as [<-|Hne].
      * intros Ha. destruct (C8 Ha) as [-> ?]. auto.
      * intros [Ha Hup]%andb_true_iff. bool_facts. destruct (C8 Ha). done.
    + by rewrite T2.
  - rewrite C3, T8, Hw, Hto. done.
  - rewrite T9, Hw. done.
  - intros Ho. rewrite T3. auto.
Qed.

End machine.

(** ** Runs of the event loop *)

(** A message of the queue: an event of the enumeration, or [-1], with the
    data notify.c attaches to it. *)
Definition msg_ok (scalar : Z) (data : option evt_data) : Prop :=
  (scalar = -1 \/ 0 <= scalar < EV_NUM) /\
  (scalar = EV_HAL_MDM_FLASH -> forall d, data = Some d -> flash_node d).

Definition input_ok (i : loop_input) : Prop :=
  match i with
  | PollIpc msgs => Forall (fun m => msg_ok m.1.2 m.2) msgs
  | _ => True
  end.

(** The events an input delivers to the machine, in order. *)
Definition events_of (i : loop_input) : list Z :=
  match i with
  | PollTimeout _ => [EV_TIMEOUT]
  | PollIpc msgs => List.filter (fun x => negb (x =? -1)) ((fun m => m.1.2) <$> msgs)
  | _ => []
  end.

Definition events (l : list loop_input) : list Z := l ≫= events_of.

Section rule.
Context `{MdmCli}.
(** [I evs o f]: after the events [evs], [o] has been emitted and [f] reached. *)
Variable I : list Z -> list ctrl_out -> fsm_st ctrl -> Prop.
Hypothesis I_event : forall evs o f e evt_id data,
  I evs o f -> 0 <= evt_id < EV_NUM -> msg_ok evt_id data ->
  wp (handle_ipc_msg e evt_id data) f any_abort (fun _ f' o' => I (evs ++ [evt_id]) (o ++ o') f').
Hypothesis I_timeout : forall evs o f e,
  I evs o f ->
  wp (handle_timeout e) f any_abort (fun _ f' o' => I (evs ++ [EV_TIMEOUT]) (o ++ o') f').
Hypothesis I_ping : forall evs o f m,
  I evs o f -> wp (handle_watchdog_msg m) f any_abort (fun _ f' o' => I evs (o ++ o') f').

Lemma wp_ipc_msgs_rule msgs b evs o f :
  I evs o f -> Forall (fun m => msg_ok m.1.2 m.2) msgs ->
  wp (handle_ipc_msgs msgs b) f any_abort (fun _ f' o' =>
    I (evs ++ events_of (PollIpc msgs)) (o ++ o') f').
Proof.
  intros HI Hm. revert b evs o f HI. induction Hm as [|[[e x] d] msgs [Hx Hd] _ IH]; intros b evs o f HI;
    cbn [handle_ipc_msgs].
  { apply wp_ret. by rewrite !app_nil_r. }
  cbn in Hx, Hd. destruct (Z.eqb_spec x (-1)) as [->|Hne].
  { eapply wp_mono; [by apply IH|done|]. done. }
  destruct Hx as [|Hx]; [done|]. apply wp_bind.
  eapply wp_mono; [by apply I_event; [..|split; [by right|]]|done|].
  intros [] f1 o1 HI1. eapply wp_mono; [by apply IH|done|].
  intros b' f2 o2 HI2. cbn in *. destruct (Z.eqb_spec x (-1)); [done|]. cbn.
  rewrite <-!app_assoc in HI2. done.
Qed.

Lemma wp_pings_rule l evs o f :
  I evs o f ->
  wp (for_each l handle_watchdog_msg) f any_abort (fun _ f' o' => I evs (o ++ o') f').
Proof.
  revert o f. induction l as [|m l IH]; intros o f HI; cbn [for_each].
  { apply wp_ret. by rewrite app_nil_r. }
  apply wp_bind. eapply wp_mono; [by apply I_ping|done|]. intros [] f1 o1 HI1.
  eapply wp_mono; [by apply IH|done|]. intros [] f2 o2. by rewrite app_assoc.
Qed.

Lemma wp_loop_turn_rule i evs o f :
  I evs o f -> input_ok i ->
  wp (loop_turn i) f any_abort (fun _ f' o' => I (evs ++ events_of i) (o ++ o') f').
Proof.
  intros HI Hi. destruct i; cbn [loop_turn].
  - apply wp_bind. by apply wp_DASSERT.
  - apply wp_bind. eapply wp_mono; [by apply I_timeout|done|]. intros [] f1 o1 HI1.
    apply wp_ret. by rewrite app_nil_r.
  - by apply wp_ipc_msgs_rule.
  - apply wp_bind. eapply wp_mono; [by apply wp_pings_rule|done|]. intros [] f1 o1 HI1.
    apply wp_ret. cbn. by rewrite !app_nil_r.
Qed.

Lemma wp_loop_turns_rule l evs o f :
  I evs o f -> Forall input_ok l ->
  wp (loop_turns l) f any_abort (fun b f' o' =>
    exists evs', I evs' (o ++ o') f' /\ (b = true -> evs' = evs ++ events l)).
Proof.
  intros HI Hl. revert evs o f HI. induction Hl as [|i l Hi _ IH]; intros evs o f HI; cbn [loop_turns].
  { apply wp_ret. exists evs. cbn. by rewrite !app_nil_r. }
  apply wp_bind. eapply wp_mono; [by apply wp_loop_turn_rule|done|].
  intros b f1 o1 HI1. destruct b.
  - eapply wp_mono; [by apply IH|done|]. intros b f2 o2 (evs' & HI2 & Hb).
    exists evs'. rewrite app_assoc. split; [done|]. intros Ht. rewrite Hb by done.
    cbn. by rewrite app_assoc.
  - apply wp_ret. exists (evs ++ events_of i). by rewrite app_nil_r.
Qed.

End rule.

Section runs.
Context `{MdmCli}.

(** The data of the message is not part of the invariant. *)
Lemma machine_inv_msg st s m :
  machine_inv (mk_fsm_st st s) ->
  machine_inv (mk_fsm_st st (mk_ctrl (ctrl_state s) (is_mdm_oos s) (inst_id s) (watch_id s) (timeout s)
    (dbg_info s) (timer_armed s) (ctrl_timer_end s) (dump s) (escalation_ctx s) m)).
Proof. intros [[? ? ?] Hok]. split; [by split|done]. Qed.

Lemma wp_handle_ipc_msg e evt_id data f :
  0 <= evt_id < EV_NUM -> machine_inv f ->
  (evt_id = EV_HAL_MDM_FLASH -> forall d, data = Some d -> flash_node d) ->
  wp (handle_ipc_msg e evt_id data) f any_abort (fun _ f' o => step_post evt_id f f' o).
Proof.
  intros He Hinv Hd. unfold handle_ipc_msg. apply wp_bind, wp_on_param, wp_modify.
  destruct f as [st s]. cbn [state fsm_param app]. apply wp_bind.
  eapply wp_mono; [apply wp_ctrl_event; [done|by apply machine_inv_msg|done]|done|].
  intros [] f1 o1 [[Hl Hok] ? ? ? ? ? ? ?]. apply wp_on_param, wp_modify. cbn. rewrite app_nil_r.
  split; try done. split; [|done]. by destruct Hl.
Qed.

Lemma wp_handle_timeout e f :
  machine_inv f -> wp (handle_timeout e) f any_abort (fun _ f' o => step_post EV_TIMEOUT f f' o).
Proof.
  intros Hinv. unfold handle_timeout. apply wp_bind, wp_get, wp_bind, wp_ASSERT; [intros _|done].
  eapply wp_mono; [by apply wp_ctrl_event|done|done].
Qed.

Lemma wp_handle_ping m f :
  wp (handle_watchdog_msg m) f any_abort (fun _ f' o =>
    f' = f /\ o = [WatchdogSend (pack CRM_WATCH_PONG 0 (watchdog_get_id m))] /\
    watchdog_get_request m = CRM_WATCH_PING).
Proof.
  unfold handle_watchdog_msg. apply wp_bind, wp_ASSERT; [|done]. intros Hr. bool_facts.
  apply wp_bind, wp_gen_scalar, wp_emit. done.
Qed.

Lemma wp_event_loop_start inst ms dmp esc0 :
  esc_ok esc0 ->
  wp event_loop_start (mk_fsm_st ST_INITIAL (crm_ctrl_init inst ms dmp esc0)) any_abort (fun _ f o =>
    machine_inv f /\ state f = ST_INITIAL /\ pending (fsm_param f) = 0 /\
    watch_id (fsm_param f) = 0 /\ timeout (fsm_param f) = ms /\
    o = [WatchdogSend (pack CRM_WATCH_START ms 0)]).
Proof.
  intros He. unfold event_loop_start, on_ctrl, watchdog_start. apply wp_on_param.
  apply wp_bind, wp_gets, wp_bind, wp_gets, wp_bind, wp_modify, wp_bind, wp_gen_scalar, wp_emit.
  split; [|done]. split; [by split|]. split; [|done]. by split_and!.
Qed.

End runs.
