(* ===== verification/ControlProps.v ===== *)
(** * Properties of CTRL: requests, boot and out of service *)

From S2P Require Import Prelude Fsm Timer Escalation Watchdog MdmCli Control ControlTheory.
From Stdlib Require Import ZArith Lia.
From stdpp Require Import base tactics list strings option.

Open Scope Z_scope.
Open Scope crm_scope.

(** ** Accounting of the requests *)

Definition count_evt (p : Z -> bool) (evs : list Z) : Z := Z.of_nat (length (List.filter p evs)).

Definition requests (evs : list Z) : Z := count_evt (fun x => x <=? EV_CLI_NVM_BACKUP) evs.
Definition backups (evs : list Z) : Z := count_evt (fun x => x =? EV_CLI_NVM_BACKUP) evs.
Definition failures (evs : list Z) : Z := count_evt (fun x => x =? EV_FAILURE) evs.

Lemma count_evt_snoc p evs x :
  count_evt p (evs ++ [x]) = count_evt p evs + if p x then 1 else 0.
Proof.
  unfold count_evt. rewrite List.filter_app, length_app. cbn. destruct (p x); cbn; lia.
Qed.

Lemma count_evt_nonneg p evs : 0 <= count_evt p evs.
Proof. unfold count_evt. lia. Qed.

Lemma issued_bound evt_id st :
  0 <= evt_id < EV_NUM ->
  (if evt_id <=? EV_CLI_NVM_BACKUP then 1 else 0) - (if evt_id =? EV_CLI_NVM_BACKUP then 1 else 0) <= issued evt_id st
    <= (if evt_id <=? EV_CLI_NVM_BACKUP then 1 else 0) + (if evt_id =? EV_FAILURE then 1 else 0) /\
  (evt_id <> EV_CLI_NVM_BACKUP -> evt_id <> EV_FAILURE ->
   issued evt_id st = if evt_id <=? EV_CLI_NVM_BACKUP then 1 else 0).
Proof.
  unfold issued, EV_NUM, EV_CLI_NVM_BACKUP, EV_FAILURE. intros He.
  destruct (Z.ltb_spec evt_id 4), (Z.eqb_spec evt_id 4), (Z.leb_spec evt_id 4), (Z.eqb_spec evt_id 15),
    (st =? ST_DUMPING); lia.
Qed.

Section accounting.
Context `{MdmCli}.

Definition accounted (evs : list Z) (o : list ctrl_out) (f : fsm_st ctrl) : Prop :=
  machine_inv f /\
  requests evs - backups evs <= pending (fsm_param f) + results o <= requests evs + failures evs /\
  (failures evs = 0 -> backups evs = 0 -> pending (fsm_param f) + results o = requests evs).

Lemma accounted_step evs o f evt_id f' o' :
  0 <= evt_id < EV_NUM -> accounted evs o f -> step_post evt_id f f' o' ->
  accounted (evs ++ [evt_id]) (o ++ o') f'.
Proof.
  intros He (Hinv & Hle & Heq) [Hinv' Hres _ _ _ _ _ _].
  destruct (issued_bound evt_id (state f) He) as [Hi1 Hi2].
  pose proof (count_evt_nonneg (fun x => x =? EV_FAILURE) evs) as N1.
  pose proof (count_evt_nonneg (fun x => x =? EV_CLI_NVM_BACKUP) evs) as N2.
  unfold accounted, requests, failures, backups, results in *.
  rewrite !count_evt_snoc, count_out_app. split; [done|]. split; [lia|].
  destruct (Z.eqb_spec evt_id EV_FAILURE), (Z.eqb_spec evt_id EV_CLI_NVM_BACKUP); try lia.
Qed.

Lemma event_loop_accounted l inst ms dmp esc0 :
  esc_ok esc0 -> Forall input_ok l ->
  wp (event_loop_start ;; loop_turns l) (mk_fsm_st ST_INITIAL (crm_ctrl_init inst ms dmp esc0)) any_abort
    (fun running f o => exists evs, accounted evs o f /\ (running = true -> evs = events l)).
Proof.
  intros He Hl. apply wp_bind. eapply wp_mono; [by apply wp_event_loop_start|done|].
  intros [] f0 o0 (Hinv0 & _ & Hp0 & _ & _ & ->).
  eapply wp_mono; [apply (wp_loop_turns_rule accounted) with (evs := []) (o := [WatchdogSend (pack CRM_WATCH_START ms 0)])|done|].
  - intros evs o f e evt_id data HI Hev [_ Hd]. pose proof HI as [Hinv _].
    eapply wp_mono; [by apply wp_handle_ipc_msg|done|]. intros [] f' o' Hs. by eapply accounted_step.
  - intros evs o f e HI. pose proof HI as [Hinv _].
    eapply wp_mono; [by apply wp_handle_timeout|done|]. intros [] f' o' Hs. by eapply accounted_step.
  - intros evs o f m HI. eapply wp_mono; [apply wp_handle_ping|done|].
    intros _ f' o' (-> & -> & _). destruct HI as (? & ? & ?). unfold accounted, results in *.
    rewrite count_out_app. change (count_out is_result [_]) with 0. rewrite Z.add_0_r. done.
  - split; [done|]. by rewrite Hp0.
  - done.
  - intros b f o (evs & HI & Hb). exists evs. split; [done|]. intros Ht. by rewrite Hb.
Qed.

(** C9. What one event does, in any state the machine can be in: either the
    process aborts, or the invariant of the machine still holds (the reset
    timer is armed only in UP with a request pending; nothing is pending in
    INITIAL and DOWN; a firmware waiting for its node and a node waiting for
    its firmware are never both recorded), the requests are conserved
    (pending afterwards + results given = pending before + request issued),
    READY is notified exactly when UP is entered, the watchdog is started when
    UP or DOWN is left and stopped when UP or DOWN is entered, with the next
    identifier, and out of service is never undone. *)
Theorem ctrl_event_step e evt_id data f :
  0 <= evt_id < EV_NUM -> machine_inv f -> msg_ok evt_id data ->
  match handle_ipc_msg e evt_id data f with
  | Ok _ f' o => step_post evt_id f f' o
  | Abort _ _ => True
  end.
Proof. intros He Hinv [_ Hd]. by apply wp_handle_ipc_msg. Qed.

(** C10. The requests of CLA are accounted for: after any run of the event loop from
    its initialisation that has not aborted, the results given to CLA plus the request
    still pending (0 or 1) are exactly the requests received when no plugin reported a
    failure and no backup was requested.  In general they are at least the requests other
    than backups (a backup may be lost while a core dump is read) and at most the requests
    plus the failures: a failure makes the failsafe issue a stop request of its own,
    whose result CLA is given as well. *)
Theorem every_request_answered l inst ms dmp esc0 f o :
  esc_ok esc0 -> Forall input_ok l ->
  event_loop l (crm_ctrl_init inst ms dmp esc0) = Ok true f o ->
  requests (events l) - backups (events l) <= pending (fsm_param f) + results o
    <= requests (events l) + failures (events l) /\
  (failures (events l) = 0 -> backups (events l) = 0 ->
   pending (fsm_param f) + results o = requests (events l)).
Proof.
  intros He Hl Hrun.
  destruct (wp_Ok _ _ _ _ _ _ _ (event_loop_accounted l inst ms dmp esc0 He Hl) Hrun)
    as (evs & (_ & H1 & H2) & Hevs).
  by rewrite <-Hevs.
Qed.

End accounting.

(** ** The nominal boot *)

Section boot.
Context `{MdmCli} (e : env).
Context (inst ms wid : Z) (d : crm_ctrl_dbg_info) (tend : timespec) (dmp : bool) (esc0 : esc_st).
Hypothesis ms_ok : 0 <= ms <= MAX_TIMEOUT.
Hypothesis wid_ok : -1 <= wid <= MAX_REQ_ID.

(** A modem that is down and has not failed, with the given progress. *)
Definition boot_ctx (t : crm_ctrl_state) (i : Z) : ctrl :=
  mk_ctrl t false inst i ms d false tend dmp esc0 None.

Definition idle : crm_ctrl_state := mk_state REQ_NONE false None false false false.

Lemma gen_scalar_Ok {S O} r t i (s : S) :
  t <= MAX_TIMEOUT -> i <= MAX_REQ_ID -> watchdog_gen_scalar (O:=O) r t i s = Ok (pack r t i) s [].
Proof.
  intros Ht Hi. unfold watchdog_gen_scalar.
  do 2 rewrite (bind_pass _ _ _ tt s) by (apply ASSERT_Ok; by rewrite Z.leb_le). done.
Qed.

(** The run of one event, its operation [op] given. *)
Definition runs_to (m : M (fsm_st ctrl) ctrl_out unit) (f f' : fsm_st ctrl) (o : list ctrl_out) : Prop :=
  wp m f no_abort (fun _ f1 o1 => f1 = f' /\ o1 = o).

Lemma runs_to_Ok m f f' o : runs_to m f f' o -> m f = Ok tt f' o.
Proof. intros Hr. apply wp_total in Hr as ([] & ? & ? & Hm & -> & ->). done. Qed.

Lemma wp_gen_scalar_exact {S O} r t i (s : S) (E : abort_reason -> Prop) (Q : Z -> S -> list O -> Prop) :
  t <= MAX_TIMEOUT -> i <= MAX_REQ_ID -> Q (pack r t i) s [] -> wp (watchdog_gen_scalar r t i) s E Q.
Proof. intros Ht Hi HQ. unfold wp. by rewrite gen_scalar_Ok. Qed.

Lemma runs_to_event evt_id data st s op new s0 s1 s2 o1 o2 :
  0 <= evt_id < EV_NUM -> 0 <= st < ST_NUM -> 0 <= new < ST_NUM ->
  get_op (ctrl_cfg e) st evt_id = Some op ->
  wp (Control.pre_op evt_id) s no_abort (fun _ s' o => s' = s0 /\ o = []) ->
  wp (run_op (ctrl_cfg e) op st PCell) (mk_fsm_st st s0) no_abort
    (fun n f' o => n = new /\ f' = mk_fsm_st st s1 /\ o = o1) ->
  wp (if st =? new then ret tt else Control.state_trans st new evt_id PCell) s1 no_abort
    (fun _ s' o => s' = s2 /\ o = o2) ->
  s = mk_ctrl (ctrl_state s) (is_mdm_oos s) (inst_id s) (watch_id s) (timeout s) (dbg_info s) (timer_armed s)
        (ctrl_timer_end s) (dump s) (escalation_ctx s) data ->
  msg_ptr s2 = None ->
  runs_to (handle_ipc_msg e evt_id data)
    (mk_fsm_st st (mk_ctrl (ctrl_state s) (is_mdm_oos s) (inst_id s) (watch_id s) (timeout s) (dbg_info s)
       (timer_armed s) (ctrl_timer_end s) (dump s) (escalation_ctx s) None))
    (mk_fsm_st new s2) (o1 ++ o2).
Proof.
  intros He Hs Hn Hop Hpre Hrun Htr Hdata Hmsg. unfold runs_to, handle_ipc_msg.
  apply wp_bind, wp_on_param, wp_modify. cbn [state fsm_param app].
  cbn [ctrl_state is_mdm_oos inst_id watch_id timeout dbg_info timer_armed ctrl_timer_end dump escalation_ctx].
  rewrite <-Hdata. apply wp_bind.
  eapply wp_notify_event; [cbn; lia|by apply ctrl_event_named|by apply ctrl_state_named|done|].
  cbn [pre_op ctrl_cfg state fsm_param]. eapply wp_mono; [exact Hpre|done|]. intros _ ? ? [-> ->].
  eapply wp_mono; [exact Hrun|done|]. intros ? ? ? (-> & -> & ->).
  split; [left; by apply ctrl_state_named|]. intros _. cbn [state_trans ctrl_cfg fsm_param].
  eapply wp_mono; [exact Htr|done|]. intros _ ? ? [-> ->].
  split; [done|]. apply wp_on_param, wp_modify. cbn. rewrite app_nil_r. split; [|done].
  f_equal. destruct s2. cbn in *. by subst.
Qed.

(** The watchdog is started when the boot begins and stopped when it ends. *)
Lemma trans_leave t i evt_id new :
  new = ST_PACKAGING -> i <= MAX_REQ_ID -> -1 <= i ->
  wp (if ST_DOWN =? new then ret tt else Control.state_trans ST_DOWN new evt_id PCell) (boot_ctx t i) no_abort
    (fun _ s' o => s' = boot_ctx t (watchdog_get_new_id i) /\
       o = [WatchdogSend (pack CRM_WATCH_START ms (watchdog_get_new_id i))]).
Proof.
  intros -> Hi1 Hi2. pose proof (new_id_range i ltac:(lia)) as Hn.
  unfold Control.state_trans, watchdog_start. cbn [Z.eqb ST_DOWN ST_PACKAGING Pos.eqb].
  apply wp_bind, wp_ASSERT; [intros _|done]. apply wp_bind, wp_when; [intros _|done].
  apply wp_bind, wp_gets, wp_bind, wp_gets, wp_bind, wp_modify, wp_bind.
  apply wp_gen_scalar_exact; [cbn; lia|cbn; lia|]. apply wp_emit, wp_bind, wp_get, wp_bind, wp_when; [done|intros _].
  apply wp_when; [done|intros _]. done.
Qed.

Lemma trans_enter t i evt_id :
  i <= MAX_REQ_ID ->
  wp (if ST_FLASHING =? ST_UP then ret tt else Control.state_trans ST_FLASHING ST_UP evt_id PCell)
    (boot_ctx t i) no_abort
    (fun _ s' o => s' = boot_ctx t i /\ o = [WatchdogSend (pack CRM_WATCH_STOP 0 i)]).
Proof.
  intros Hi. unfold Control.state_trans, watchdog_stop. cbn [Z.eqb ST_FLASHING ST_UP Pos.eqb].
  apply wp_bind, wp_ASSERT; [intros _|done]. apply wp_bind, wp_when; [done|intros _].
  apply wp_bind, wp_get, wp_bind, wp_when; [done|intros _].
  apply wp_when; [intros _|done]. apply wp_bind, wp_gets, wp_bind.
  apply wp_gen_scalar_exact; [unfold MAX_TIMEOUT; lia|done|]. by apply wp_emit.
Qed.

End boot.

Section boot_runs.
Context `{MdmCli}.
Context (inst ms wid : Z) (d : crm_ctrl_dbg_info) (tend : timespec) (dmp : bool) (esc0 : esc_st).
Context (t0 t1 t2 : timespec) (fw : string) (tlv : option (list string)) (nb : Z) (rb : list Z) (nodes : string).
Hypothesis nb_ok : match tlv with Some _ => 0 < nb | None => nb = 0 end.
Hypothesis ms_ok : 0 <= ms <= MAX_TIMEOUT.
Hypothesis wid_ok : -1 <= wid <= MAX_REQ_ID.

(** [tlv] are the customization files the elector gives, if any. *)
Definition boot_env : env := mk_env t0 t1 t2 fw tlv nb rb.
Definition node : evt_data := HalData (mk_hal_evt HAL_MDM_FLASH nodes).
#[local] Abbreviation ctx := (boot_ctx inst ms d tend dmp esc0).
#[local] Abbreviation wid' := (watchdog_get_new_id wid).
(** A start in progress: firmware ready, node known, busy reason awaited. *)
#[local] Abbreviation starting r h w := (ctx (mk_state REQ_START r h w false false) wid').

Ltac by_eval := first [reflexivity | hnf; split_and!; reflexivity].

Lemma boot_start :
  runs_to (handle_ipc_msg boot_env EV_CLI_START None) (mk_fsm_st ST_DOWN (ctx idle wid))
    (mk_fsm_st ST_PACKAGING (starting false None false))
    ([UploadPackage fw; HalPowerOn] ++ [WatchdogSend (pack CRM_WATCH_START ms wid')]).
Proof.
  eapply (runs_to_event boot_env EV_CLI_START None ST_DOWN (ctx idle wid));
    [done|done|done|reflexivity|by_eval|by_eval|apply trans_leave; lia || done|reflexivity|reflexivity].
Qed.

Lemma boot_busy r h w :
  runs_to (handle_ipc_msg boot_env EV_HAL_MDM_BUSY None) (mk_fsm_st ST_PACKAGING (starting r h w))
    (mk_fsm_st ST_PACKAGING (starting r h true)) ([NotifyModemState MDM_STATE_BUSY] ++ []).
Proof.
  eapply (runs_to_event boot_env EV_HAL_MDM_BUSY None ST_PACKAGING (starting r h w));
    [done|done|done|reflexivity|by_eval..].
Qed.

Lemma boot_package w :
  runs_to (handle_ipc_msg boot_env EV_FW_SUCCESS None) (mk_fsm_st ST_PACKAGING (starting false None w))
    (mk_fsm_st ST_PACKAGING (starting true None w)) ([] ++ []).
Proof.
  eapply (runs_to_event boot_env EV_FW_SUCCESS None ST_PACKAGING (starting false None w));
    [done|done|done|reflexivity|by_eval..].
Qed.

Lemma boot_node_first :
  runs_to (handle_ipc_msg boot_env EV_HAL_MDM_FLASH (Some node)) (mk_fsm_st ST_PACKAGING (starting false None true))
    (mk_fsm_st ST_PACKAGING (starting false (Some node) false)) ([] ++ []).
Proof.
  eapply (runs_to_event boot_env EV_HAL_MDM_FLASH (Some node) ST_PACKAGING
    (mk_ctrl (mk_state REQ_START false None true false false) false inst wid' ms d false tend dmp esc0 (Some node)));
    [done|done|done|reflexivity|by_eval..].
Qed.

Lemma boot_node_last :
  runs_to (handle_ipc_msg boot_env EV_HAL_MDM_FLASH (Some node)) (mk_fsm_st ST_PACKAGING (starting true None true))
    (mk_fsm_st ST_FLASHING (starting false None false)) ([UploadFlash nodes] ++ []).
Proof.
  eapply (runs_to_event boot_env EV_HAL_MDM_FLASH (Some node) ST_PACKAGING
    (mk_ctrl (mk_state REQ_START true None true false false) false inst wid' ms d false tend dmp esc0 (Some node)));
    [done|done|done|reflexivity|by_eval..].
Qed.

Lemma boot_package_last :
  runs_to (handle_ipc_msg boot_env EV_FW_SUCCESS None) (mk_fsm_st ST_PACKAGING (starting false (Some node) false))
    (mk_fsm_st ST_FLASHING (starting false None false)) ([UploadFlash nodes] ++ []).
Proof.
  eapply (runs_to_event boot_env EV_FW_SUCCESS None ST_PACKAGING (starting false (Some node) false));
    [done|done|done|reflexivity|by_eval..].
Qed.

Lemma boot_flashed :
  runs_to (handle_ipc_msg boot_env EV_FW_SUCCESS None) (mk_fsm_st ST_FLASHING (starting false None false))
    (mk_fsm_st ST_FLASHING (ctx (mk_state REQ_START false None false true false) wid'))
    ([HalBoot; NotifyFwFlashed 0] ++ []).
Proof.
  eapply (runs_to_event boot_env EV_FW_SUCCESS None ST_FLASHING (starting false None false));
    [done|done|done|reflexivity|by_eval..].
Qed.

(** Where the boot leads: to UP, or to the customization of the modem with the request
    still pending. *)
Definition booted : fsm_st ctrl * list ctrl_out :=
  match tlv with
  | None =>
      (mk_fsm_st ST_UP (ctx idle wid'),
       [NotifyOperationResult 0; NotifyModemState MDM_STATE_READY; WatchdogSend (pack CRM_WATCH_STOP 0 wid')])
  | Some tlvs => (mk_fsm_st ST_CUSTOMIZING (starting false None false), [CustomizationSend tlvs nb])
  end.

Lemma boot_run :
  runs_to (handle_ipc_msg boot_env EV_HAL_MDM_RUN None)
    (mk_fsm_st ST_FLASHING (ctx (mk_state REQ_START false None false true false) wid')) booted.1 booted.2.
Proof using nb_ok wid_ok.
  pose proof (new_id_range wid wid_ok). unfold booted. destruct tlv as [tlvs|] eqn:Ht; cbn [fst snd].
  - destruct nb as [|p|p] eqn:Hnb; [lia| |lia]. change [CustomizationSend tlvs (Z.pos p)] with ([CustomizationSend tlvs (Z.pos p)] ++ []).
    eapply (runs_to_event boot_env EV_HAL_MDM_RUN None ST_FLASHING
      (ctx (mk_state REQ_START false None false true false) wid'));
      [done|done|done|reflexivity|by_eval| |by_eval|reflexivity|reflexivity].
    unfold boot_env. rewrite Ht, Hnb. by_eval.
  - change [NotifyOperationResult 0; NotifyModemState MDM_STATE_READY; ?x]
      with ([NotifyOperationResult 0; NotifyModemState MDM_STATE_READY] ++ [x]).
    eapply (runs_to_event boot_env EV_HAL_MDM_RUN None ST_FLASHING
      (ctx (mk_state REQ_START false None false true false) wid'));
      [done|done|done|reflexivity|by_eval| |apply trans_enter; lia|reflexivity|reflexivity].
    unfold boot_env. rewrite Ht, nb_ok. by_eval.
Qed.

(** A sequence of messages, each handled in [boot_env]. *)
Definition boot_msgs (l : list (Z * option evt_data)) : list (env * Z * option evt_data) :=
  (fun m => (boot_env, m.1, m.2)) <$> l.

Lemma boot_msgs_cons x m l f f1 f2 b o1 o2 :
  x <> -1 -> runs_to (handle_ipc_msg boot_env x m) f f1 o1 ->
  handle_ipc_msgs (boot_msgs l) true f1 = Ok b f2 o2 ->
  handle_ipc_msgs (boot_msgs ((x, m) :: l)) true f = Ok b f2 (o1 ++ o2).
Proof.
  intros Hx Hr Hl. cbn [boot_msgs fmap list_fmap handle_ipc_msgs fst snd].
  destruct (Z.eqb_spec x (-1)); [done|]. eapply bind_then; [by apply runs_to_Ok|done].
Qed.

Ltac boot_next o1 H := eapply (boot_msgs_cons _ _ _ _ _ _ _ o1); [|exact H|]; [done|]; cbn [app].

(** What comes while the firmware is packaged: the end of the packaging and the two
    messages of the HAL. *)
Definition boot_reports : list (Z * option evt_data) :=
  [(EV_FW_SUCCESS, None); (EV_HAL_MDM_BUSY, None); (EV_HAL_MDM_FLASH, Some node)].

(** The HAL announces itself busy before it gives the node, as the interface asks. *)
Fixpoint busy_first (l : list (Z * option evt_data)) : bool :=
  match l with
  | [] => false
  | (x, _) :: l => if x =? EV_HAL_MDM_BUSY then true else if x =? EV_HAL_MDM_FLASH then false else busy_first l
  end.

Lemma boot_end :
  handle_ipc_msgs (boot_msgs [(EV_FW_SUCCESS, None); (EV_HAL_MDM_RUN, None)]) true
    (mk_fsm_st ST_FLASHING (starting false None false)) = Ok true booted.1 ([HalBoot; NotifyFwFlashed 0] ++ booted.2).
Proof using nb_ok wid_ok.
  boot_next ([HalBoot; NotifyFwFlashed 0] ++ []) boot_flashed. rewrite <-(app_nil_r booted.2).
  boot_next booted.2 boot_run. reflexivity.
Qed.

Lemma boot_msgs_abort x m l f r o :
  x <> -1 -> handle_ipc_msg boot_env x m f = Abort r o -> handle_ipc_msgs (boot_msgs ((x, m) :: l)) true f = Abort r o.
Proof.
  intros Hx Hr. cbn [boot_msgs fmap list_fmap handle_ipc_msgs fst snd].
  destruct (Z.eqb_spec x (-1)); [done|]. unfold bind. by rewrite Hr.
Qed.

Lemma boot_msgs_abort_later x m l f f1 o1 r :
  x <> -1 -> runs_to (handle_ipc_msg boot_env x m) f f1 o1 ->
  (exists o, handle_ipc_msgs (boot_msgs l) true f1 = Abort r o) ->
  exists o, handle_ipc_msgs (boot_msgs ((x, m) :: l)) true f = Abort r o.
Proof.
  intros Hx Hr [o Hl]. unfold boot_msgs in *. cbn [fmap list_fmap handle_ipc_msgs fst snd] in Hl |- *.
  destruct (Z.eqb_spec x (-1)); [done|]. unfold bind. rewrite (runs_to_Ok _ _ _ _ Hr), Hl. by eexists.
Qed.

(** Without BUSY the node is refused by [pre_op]. *)
Lemma boot_node_refused r l :
  exists o, handle_ipc_msgs (boot_msgs ((EV_HAL_MDM_FLASH, Some node) :: l)) true (mk_fsm_st ST_PACKAGING (starting r None false)) =
    Abort (AssertFail "i_ctx->state.waiting_hal_busy_reason") o.
Proof. exists []. by apply boot_msgs_abort. Qed.

(** C11. The nominal boot, whatever the order of events: on a modem that is down and not
    out of service, with nothing pending, a client's start request, then the end of the
    packaging and the HAL's BUSY and FLASH messages in any order.  In the orders in which
    BUSY comes before FLASH, the end of the flashing and the HAL's RUN follow, and the
    machine gets to UP with nothing pending and the same context up to the watchdog
    identifier when the elector gives no customization file, and to CUSTOMIZING with the
    request still pending when it gives some; the actions are exactly those listed, in
    this order: package the firmware, power on, start the watchdog, report BUSY, flash the
    reported node, boot, then either answer the request with success, report READY and
    stop the watchdog, or send the customization files.  In the other orders the
    assertion of [pre_op] on BUSY aborts the process. *)
Theorem boot_reaches_up l :
  l ≡ₚ boot_reports ->
  let r := handle_ipc_msgs (boot_msgs ([(EV_CLI_START, None)] ++ l ++ [(EV_FW_SUCCESS, None); (EV_HAL_MDM_RUN, None)]))
    true (mk_fsm_st ST_DOWN (ctx idle wid)) in
  if busy_first l then
    r = Ok true booted.1
      ([UploadPackage fw; HalPowerOn; WatchdogSend (pack CRM_WATCH_START ms wid');
        NotifyModemState MDM_STATE_BUSY; UploadFlash nodes; HalBoot; NotifyFwFlashed 0] ++ booted.2)
  else exists o, r = Abort (AssertFail "i_ctx->state.waiting_hal_busy_reason") o.
Proof.
  intros Hl r. subst r. cbn [app]. change (UploadPackage fw :: HalPowerOn :: ?x :: ?o)
    with (([UploadPackage fw; HalPowerOn] ++ [x]) ++ o).
  symmetry in Hl. apply permutations_Permutation in Hl. unfold boot_reports in Hl. cbn in Hl.
  rewrite !elem_of_cons, elem_of_nil in Hl. destruct Hl as [->|[->|[->|[->|[->|[->|[]]]]]]]; cbn [busy_first Z.eqb app];
    cbn -[boot_msgs handle_ipc_msgs pack app];
    first [boot_next ([UploadPackage fw; HalPowerOn] ++ [WatchdogSend (pack CRM_WATCH_START ms wid')]) boot_start
          |eapply boot_msgs_abort_later; [done|exact boot_start|]].
  - boot_next (@nil ctrl_out) (boot_package false).
    boot_next ([NotifyModemState MDM_STATE_BUSY] ++ []) (boot_busy true None false).
    boot_next ([UploadFlash nodes] ++ []) boot_node_last. exact boot_end.
  - boot_next ([NotifyModemState MDM_STATE_BUSY] ++ []) (boot_busy false None false).
    boot_next (@nil ctrl_out) (boot_package true).
    boot_next ([UploadFlash nodes] ++ []) boot_node_last. exact boot_end.
  - boot_next ([NotifyModemState MDM_STATE_BUSY] ++ []) (boot_busy false None false).
    boot_next (@nil ctrl_out) boot_node_first.
    boot_next ([UploadFlash nodes] ++ []) boot_package_last. exact boot_end.
  - eapply boot_msgs_abort_later; [done|exact (boot_package false)|]. apply boot_node_refused.
  - apply boot_node_refused.
  - apply boot_node_refused.
Qed.

End boot_runs.

(** ** Out of service *)

Section oos.
Context `{MdmCli} (e : env).
Implicit Types (s : ctrl).

Definition with_msg (s : ctrl) (m : option evt_data) : ctrl :=
  mk_ctrl (ctrl_state s) (is_mdm_oos s) (inst_id s) (watch_id s) (timeout s) (dbg_info s) (timer_armed s)
    (ctrl_timer_end s) (dump s) (escalation_ctx s) m.

(** Out of service, clients are refused at once: in DOWN, out of service
    and with no request pending, a start, reset or update request is answered
    with a failure, and this is all that happens: no package, no power on, no
    change of state or of context. *)
Lemma out_of_service_refuses evt_id data s :
  client_request (ctrl_state s) = REQ_NONE -> is_mdm_oos s = true ->
  evt_id = EV_CLI_START \/ evt_id = EV_CLI_RESET \/ evt_id = EV_CLI_UPDATE ->
  handle_ipc_msg e evt_id data (mk_fsm_st ST_DOWN s)
  = Ok tt (mk_fsm_st ST_DOWN (with_msg s None)) [NotifyOperationResult (-1)].
Proof.
  intros Hr Ho He. destruct s as [[r fw hal w fd ri] o i wi ms d ta te dm es m]. cbn in Hr, Ho. subst r o.
  destruct He as [->|[->| ->]]; reflexivity.
Qed.

(** A backup request is lost while a core dump is being read: the cell of
    the table is empty, so in DUMPING the request is neither recorded nor
    answered, and nothing else happens. *)
Lemma backup_lost_while_dumping s :
  handle_ipc_msg e EV_CLI_NVM_BACKUP None (mk_fsm_st ST_DUMPING s)
  = Ok tt (mk_fsm_st ST_DUMPING (with_msg s None)) [].
Proof. reflexivity. Qed.

End oos.

(** ** Residues of an interrupted start

    [mdm_restart] goes back to PACKAGING without resetting the flags of the
    start it interrupts. *)

Section residues.
Context `{MdmCli} (e : env).
Context (inst wid ms : Z) (tend : timespec) (dmp : bool) (c : crm_escalation_ctx) (k : option Z).
Context (n1 n2 : string) (dbg : mdm_cli_dbg_info).

(** The escalation answers with a cold reset, as it always does when it is
    disabled by its debug property. *)
Definition cold : esc_st :=
  mk_esc_st (mk_esc (cfg c) (modem_stability_timeout c) (cfg_idx c) (counter c) (timer_end c) true) k.

Definition flash_of (n : string) : option evt_data := Some (HalData (mk_hal_evt HAL_MDM_FLASH n)).

Definition in_packaging (fw : bool) (h : option evt_data) : fsm_st ctrl :=
  mk_fsm_st ST_PACKAGING (mk_ctrl (mk_state REQ_START fw h false false false) false inst wid ms
    (mk_dbg_info false false None) false tend dmp cold None).

(** The modem asks for a reset and comes back to be flashed. *)
Definition reset_and_flash : list (env * Z * option evt_data) :=
  [(e, EV_HAL_MDM_BUSY, None); (e, EV_HAL_MDM_NEED_RESET, Some (DbgData dbg));
   (e, EV_HAL_MDM_BUSY, None); (e, EV_HAL_MDM_FLASH, flash_of n2)].

Definition in_waiting : fsm_st ctrl :=
  mk_fsm_st ST_WAITING (mk_ctrl (mk_state REQ_NONE false None true false false) false inst wid ms
    (mk_dbg_info false false None) false tend dmp cold None).

(** Messages that CTRL does not handle as it means to:
    - a modem that asks for a reset while its firmware is packaged leaves stale
      flags behind: if its flash node was already known, the node it reports
      after the reset makes CTRL abort; if its package was already done, the
      new package is not waited for and flashing starts as soon as the node is
      reported;
    - in WAITING with no request pending, a FLASH event of the HAL is kept where
      debug information is expected, and the next request for a reset frees it
      as such;
    - in DUMPING a backup request is neither recorded nor answered. *)
Lemma ctrl_mishandled_messages :
  (exists o, handle_ipc_msgs reset_and_flash true (in_packaging false (flash_of n1))
     = Abort (AssertFail "i_ctx->state.hal_evt == NULL") o) /\
  (exists f o, handle_ipc_msgs reset_and_flash true (in_packaging true None) = Ok true f o /\
     state f = ST_FLASHING /\
     o = [NotifyModemState MDM_STATE_BUSY; NotifyClientDbg dbg; UploadPackage (fw_path e);
          HalReset RESET_COLD; BroadcastIntent "com.intel.action.MODEM_COLD_RESET" inst;
          NotifyModemState MDM_STATE_BUSY; UploadFlash n2]) /\
  (exists f o, handle_ipc_msgs [(e, EV_HAL_MDM_FLASH, flash_of n1)] true in_waiting = Ok true f o /\
     evt (dbg_info (fsm_param f)) = flash_of n1) /\
  (exists o, handle_ipc_msgs
      [(e, EV_HAL_MDM_FLASH, flash_of n1); (e, EV_HAL_MDM_BUSY, None);
       (e, EV_HAL_MDM_NEED_RESET, Some (DbgData dbg))] true in_waiting
     = Abort (Undefined "crm_hal_evt_t freed as mdm_cli_dbg_info_t") o) /\
  (forall s, handle_ipc_msg e EV_CLI_NVM_BACKUP None (mk_fsm_st ST_DUMPING s)
     = Ok tt (mk_fsm_st ST_DUMPING (with_msg s None)) []).
Proof.
  split_and!.
  - eexists. vm_compute. reflexivity.
  - eexists _, _. split; [vm_compute; reflexivity|done].
  - eexists _, _. split; [vm_compute; reflexivity|done].
  - eexists. vm_compute. reflexivity.
  - apply backup_lost_while_dumping.
Qed.

End residues.

(** ** Instances *)

Definition demo_env : env :=
  mk_env (mk_timespec 20 0) (mk_timespec 20 0) (mk_timespec 20 0) "fw.fls" None 0 [].

Definition demo_esc : esc_st :=
  mk_esc_st (mk_esc [0; 2; 2; 0] 60000 1 2 (mk_timespec 66 0) false) None.

Lemma demo_esc_ok : esc_ok demo_esc.
Proof. left. exists 0, 2, 2. split; cbn; done || lia. Qed.

(** The modem is found off, a client starts it and it boots. *)
Definition demo_inputs : list loop_input :=
  [PollIpc [(demo_env, EV_HAL_MDM_OFF, None); (demo_env, EV_CLI_START, None)];
   PollWatchdog [pack CRM_WATCH_PING 0 0];
   PollIpc [(demo_env, EV_FW_SUCCESS, None); (demo_env, EV_HAL_MDM_BUSY, None);
            (demo_env, EV_HAL_MDM_FLASH, flash_of "/dev/ttyS0"); (demo_env, EV_FW_SUCCESS, None);
            (demo_env, EV_HAL_MDM_RUN, None)]].

Lemma demo_inputs_ok : Forall input_ok demo_inputs.
Proof.
  repeat first [apply List.Forall_nil | apply List.Forall_cons | exact I];
    (split; [right; done|]); try done. intros _ d [= <-]. by eexists.
Qed.

Lemma ctrl_event_step_witness :
  exists f o, @handle_ipc_msg demo_mdmcli demo_env EV_HAL_MDM_OFF None
      (mk_fsm_st ST_INITIAL (crm_ctrl_init 1 90000 true demo_esc)) = Ok tt f o /\
    step_post EV_HAL_MDM_OFF (mk_fsm_st ST_INITIAL (crm_ctrl_init 1 90000 true demo_esc)) f o.
Proof.
  pose proof (@ctrl_event_step demo_mdmcli demo_env EV_HAL_MDM_OFF None
    (mk_fsm_st ST_INITIAL (crm_ctrl_init 1 90000 true demo_esc))) as Hs.
  eexists _, _. split; [vm_compute; reflexivity|]. apply Hs.
  - unfold EV_HAL_MDM_OFF, EV_NUM. lia.
  - split; [by split|]. split; [by split_and!|apply demo_esc_ok].
  - split; [right; done|done].
Defined.

Lemma every_request_answered_witness :
  exists f o, @event_loop demo_mdmcli demo_inputs (crm_ctrl_init 1 90000 true demo_esc) = Ok true f o /\
    pending (fsm_param f) + results o = 1.
Proof.
  eexists _, _. split; [vm_compute; reflexivity|].
  eapply (@every_request_answered demo_mdmcli demo_inputs 1 90000 true demo_esc);
    [apply demo_esc_ok|apply demo_inputs_ok|vm_compute; reflexivity|reflexivity|reflexivity].
Defined.

Lemma boot_reaches_up_witness :
  exists f o, @handle_ipc_msgs demo_mdmcli
    (boot_msgs (mk_timespec 1 0) (mk_timespec 1 0) (mk_timespec 1 0) "fw" (Some ["tlv"]) 1 []
       [(EV_CLI_START, None); (EV_HAL_MDM_BUSY, None); (EV_HAL_MDM_FLASH, Some (node "n")); (EV_FW_SUCCESS, None);
        (EV_FW_SUCCESS, None); (EV_HAL_MDM_RUN, None)])
    true (mk_fsm_st ST_DOWN (boot_ctx 1 90000 (mk_dbg_info false false None) (mk_timespec 0 0) true demo_esc idle 3))
  = Ok true f o /\ state f = ST_CUSTOMIZING.
Proof.
  eexists _, _. split.
  - apply (@boot_reaches_up demo_mdmcli 1 90000 3 (mk_dbg_info false false None) (mk_timespec 0 0) true demo_esc
    (mk_timespec 1 0) (mk_timespec 1 0) (mk_timespec 1 0) "fw" (Some ["tlv"]) 1 [] "n"
    ltac:(done) ltac:(unfold MAX_TIMEOUT; lia) ltac:(unfold MAX_REQ_ID; lia)
    [(EV_HAL_MDM_BUSY, None); (EV_HAL_MDM_FLASH, Some (node "n")); (EV_FW_SUCCESS, None)]).
    symmetry. exact (Permutation_cons_append [(EV_HAL_MDM_BUSY, None); (EV_HAL_MDM_FLASH, Some (node "n"))] (EV_FW_SUCCESS, None)).
  - reflexivity.
Defined.

Lemma out_of_service_refuses_witness :
  exists f, @handle_ipc_msg demo_mdmcli demo_env EV_CLI_START None
    (mk_fsm_st ST_DOWN (mk_ctrl (mk_state REQ_NONE false None false false false) true 1 4 90000
      (mk_dbg_info false false None) false (mk_timespec 0 0) true demo_esc None))
  = Ok tt f [NotifyOperationResult (-1)].
Proof.
  eexists. apply (@out_of_service_refuses demo_mdmcli demo_env EV_CLI_START None); [reflexivity..|by left].
Defined.
