(* ===== verification/CtrlWatchdog.v ===== *)
(** * CTRL and its watchdog together

    The two threads exchange messages through two queues: CTRL sends START,
    STOP and PONG, the watchdog sends PING.  The composition interleaves the
    steps of Control.v and Watchdog.v with each single send; the queues are the
    bounded ones of Ipc.v, which refuse a ninth message, and CTRL ignores the
    result of [send_msg]. *)

From S2P Require Import Prelude Ipc Fsm Timer Wakelock Watchdog Escalation MdmCli Control ControlTheory.
From Stdlib Require Import ZArith Lia.
From stdpp Require Import base tactics list strings option relations.

Open Scope Z_scope.
Open Scope crm_scope.

(** ** The protocol without its deadlines *)

Record proto : Type := mk_proto { p_req_id : Z; p_armed : bool; p_ping_id : Z; p_waiting : bool }.

Definition proto_of (a : wd_spec) : proto :=
  mk_proto (sp_req_id a) (bool_decide (is_Some (sp_req a))) (sp_ping_id a) (sp_waiting a).

Definition proto_msg (p : proto) (m : Z) : option proto :=
  let r := watchdog_get_request m in
  let i := watchdog_get_id m in
  if r =? CRM_WATCH_START then
    if i =? watchdog_get_new_id (p_req_id p)
    then Some (mk_proto i true (p_ping_id p) (p_waiting p)) else None
  else if r =? CRM_WATCH_STOP then
    if p_armed p then
      Some (if i =? p_req_id p then mk_proto (p_req_id p) false (p_ping_id p) (p_waiting p) else p)
    else None
  else if r =? CRM_WATCH_PONG then
    if p_waiting p && (i =? p_ping_id p)
    then Some (mk_proto (p_req_id p) (p_armed p) (p_ping_id p) false) else None
  else None.

Fixpoint proto_msgs (p : proto) (l : list Z) : option proto :=
  match l with
  | [] => Some p
  | m :: l => p' ← proto_msg p m; proto_msgs p' l
  end.

(** The watchdog sends a PING. *)
Definition proto_ping (p : proto) : proto :=
  mk_proto (p_req_id p) (p_armed p) (watchdog_get_new_id (p_ping_id p)) true.

Section protocol.

Lemma spec_proto now period a m :
  proto_of <$> spec_msg now period a m = proto_msg (proto_of a) m.
Proof.
  unfold spec_msg, proto_msg, proto_of. cbn. destruct a as [ri rq pi pe w]; cbn.
  destruct (_ =? CRM_WATCH_START); [by destruct (_ =? _)|].
  destruct (_ =? CRM_WATCH_STOP); [destruct rq; cbn; [by destruct (_ =? _)|done]|].
  destruct (_ =? CRM_WATCH_PONG); [|done]. by destruct (w && _).
Qed.

Lemma proto_msgs_app p l l' : proto_msgs p (l ++ l') = p' ← proto_msgs p l; proto_msgs p' l'.
Proof.
  revert p. induction l as [|m l IH]; intros p; cbn; [done|].
  destruct (proto_msg p m); cbn; [apply IH|done].
Qed.

(** A PING that overtakes the messages on their way to the watchdog does not
    change what they do. *)
Lemma proto_msgs_ping p l p' :
  p_waiting p = false -> proto_msgs p l = Some p' ->
  proto_msgs (proto_ping p) l = Some (proto_ping p').
Proof.
  revert p. induction l as [|m l IH]; intros p Hw Hl; cbn in *.
  { by injection Hl as <-. }
  destruct (proto_msg p m) as [p1|] eqn:Hm; cbn in Hl; [|done].
  assert (p_waiting p1 = false /\ proto_msg (proto_ping p) m = Some (proto_ping p1)) as [Hw1 ->];
    [|by apply IH].
  unfold proto_msg in *. cbn in *.
  destruct (_ =? CRM_WATCH_START).
  { destruct (_ =? _); [|done]. by injection Hm as <-. }
  destruct (_ =? CRM_WATCH_STOP).
  { destruct (p_armed p); [|done]. injection Hm as <-. by destruct (_ =? _). }
  destruct (_ =? CRM_WATCH_PONG); [|done]. by rewrite Hw in Hm.
Qed.

(** Messages do not change the PING identifier, and do not make the watchdog
    wait for a PONG. *)
Lemma proto_msgs_frame p l p' :
  proto_msgs p l = Some p' ->
  p_ping_id p' = p_ping_id p /\ (p_waiting p = false -> p_waiting p' = false).
Proof.
  revert p. induction l as [|m l IH]; intros p Hl; cbn in Hl; [by injection Hl as <-|].
  destruct (proto_msg p m) as [p1|] eqn:Hm; cbn in Hl; [|done].
  destruct (IH _ Hl) as [-> Hw].
  assert (p_ping_id p1 = p_ping_id p /\ (p_waiting p = false -> p_waiting p1 = false)) as [? ?]; [|auto].
  unfold proto_msg in Hm. destruct (_ =? CRM_WATCH_START).
  { destruct (_ =? _); [|done]. by injection Hm as <-. }
  destruct (_ =? CRM_WATCH_STOP).
  { destruct (p_armed p); [|done]. injection Hm as <-. by destruct (_ =? _). }
  destruct (_ =? CRM_WATCH_PONG); [|done]. destruct (_ && _); [|done]. by injection Hm as <-.
Qed.

(** What CTRL believes: the last identifier, and armed outside UP and DOWN. *)
Definition believed (st i : Z) (p : proto) : Prop := p_req_id p = i /\ p_armed p = negb (at_rest st).

Lemma proto_trans st new i ms p :
  0 <= ms <= MAX_TIMEOUT -> 0 <= i <= MAX_REQ_ID -> believed st i p ->
  exists p', proto_msgs p (trans_msgs st new i ms) = Some p' /\
    believed new (if at_rest st && negb (st =? new) then watchdog_get_new_id i else i) p' /\
    p_ping_id p' = p_ping_id p /\ p_waiting p' = p_waiting p.
Proof.
  intros Hms Hi [Hid Ha]. unfold trans_msgs. pose proof (new_id_range i ltac:(lia)) as Hn.
  destruct (Z.eqb_spec st new) as [->|Hne].
  { exists p. rewrite andb_false_r. done. }
  rewrite andb_true_r.
  assert (forall j, 0 <= j <= MAX_REQ_ID -> watchdog_get_request (pack CRM_WATCH_START ms j) = CRM_WATCH_START /\
    watchdog_get_id (pack CRM_WATCH_START ms j) = j) as Hstart.
  { intros j Hj. destruct (pack_fields CRM_WATCH_START ms j) as (? & ? & _); try done; lia. }
  assert (forall j, 0 <= j <= MAX_REQ_ID -> watchdog_get_request (pack CRM_WATCH_STOP 0 j) = CRM_WATCH_STOP /\
    watchdog_get_id (pack CRM_WATCH_STOP 0 j) = j) as Hstop.
  { intros j Hj. destruct (pack_fields CRM_WATCH_STOP 0 j) as (? & ? & _); try done; lia. }
  destruct (at_rest st) eqn:Hr; cbn [negb] in Ha.
  - destruct (Hstart _ Hn) as [S1 S2]. destruct (Hstop _ Hn) as [T1 T2].
    cbn [app proto_msgs]. unfold proto_msg at 1. rewrite S1, S2, Hid, !Z.eqb_refl. cbn.
    unfold believed. destruct (at_rest new) eqn:Hnr; cbn; [|eexists; split; [reflexivity|done]].
    unfold proto_msg. rewrite T1, T2. cbn. rewrite !Z.eqb_refl. cbn. eexists; split; [reflexivity|done].
  - cbn [app]. unfold believed. destruct (at_rest new) eqn:Hnr; [|exists p; by rewrite Ha].
    destruct (Hstop i Hi) as [T1 T2]. cbn. unfold proto_msg.
    rewrite T1, T2, Ha, Hid, !Z.eqb_refl. cbn. eexists; split; [reflexivity|done].
Qed.

Lemma proto_pong p : 0 <= p_ping_id p <= MAX_REQ_ID -> p_waiting p = true ->
  proto_msg p (pack CRM_WATCH_PONG 0 (p_ping_id p))
  = Some (mk_proto (p_req_id p) (p_armed p) (p_ping_id p) false).
Proof.
  intros Hi Hw. destruct (pack_fields CRM_WATCH_PONG 0 (p_ping_id p)) as (R & I & _); try done.
  unfold proto_msg. rewrite R, I, Hw. cbn. by rewrite Z.eqb_refl.
Qed.

End protocol.

(** ** The composition *)

Section system.
Context `{MdmCli} {W : Type} `{HW : WakelockLaws W}.
Variable period : Z.

(** [outbox] holds the messages of the step CTRL is executing which it has not
    sent yet; [refused] remembers the messages that found the queue full. *)
Record sys : Type := mk_sys {
  s_ctrl : fsm_st ctrl;
  outbox : list Z;
  s_wd : watchdog_st W;
  to_wd : list Z;      (** CTRL to watchdog *)
  from_wd : list Z;    (** watchdog to CTRL *)
  refused : list Z;
}.

(** The watchdog's own sends, their results ignored as well. *)
Definition send_all (q l : list Z) : list Z := foldl (fun q m => (fifo_step q (Send m)).1) q l.

(** CTRL handles an event, its timer or a PING once it has sent everything;
    it sends its messages one at a time. *)
Inductive sys_step : sys -> sys -> Prop :=
| sys_event f f' w q r l e evt_id data o :
    0 <= evt_id < EV_NUM -> msg_ok evt_id data ->
    handle_ipc_msg e evt_id data f = Ok tt f' o ->
    sys_step (mk_sys f [] w q r l) (mk_sys f' (watchdog_msgs o) w q r l)
| sys_timeout f f' w q r l e o :
    handle_timeout e f = Ok tt f' o ->
    sys_step (mk_sys f [] w q r l) (mk_sys f' (watchdog_msgs o) w q r l)
| sys_ping_received f f' w q m r l o :
    handle_watchdog_msg m f = Ok tt f' o ->
    sys_step (mk_sys f [] w q (m :: r) l) (mk_sys f' (watchdog_msgs o) w q r l)
| sys_send f m out w q q' r l sent :
    fifo_step q (Send m) = (q', Sent sent) ->
    sys_step (mk_sys f (m :: out) w q r l) (mk_sys f out w q' r (if sent then l else l ++ [m]))
| sys_wd_msg f out w w' m q r l now o :
    m <> -1 -> handle_msg now m period w = Ok tt w' o ->
    sys_step (mk_sys f out w (m :: q) r l) (mk_sys f out w' q r l)
| sys_wd_ping f out w w' q r l later o :
    waiting_pong (ping w) = false -> ping_expired later w = Ok tt w' o ->
    sys_step (mk_sys f out w q r l) (mk_sys f out w' q (send_all r (Watchdog.to_ctrl o)) l).

(** Both sides agree once the messages on their way have been handled. *)
Record sys_inv (ms : Z) (s : sys) : Prop := {
  si_ctrl : machine_inv (s_ctrl s);
  si_timeout : timeout (fsm_param (s_ctrl s)) = ms;
  si_id : 0 <= watch_id (fsm_param (s_ctrl s)) <= MAX_REQ_ID;
  si_wd : wd_inv (s_wd s);
  si_agree : exists p, proto_msgs (proto_of (abs (s_wd s))) (to_wd s ++ outbox s) = Some p /\
    believed (state (s_ctrl s)) (watch_id (fsm_param (s_ctrl s))) p /\
    (if p_waiting p then from_wd s = [pack CRM_WATCH_PING 0 (p_ping_id p)] /\ 0 <= p_ping_id p <= MAX_REQ_ID
     else from_wd s = []);
}.

Lemma sys_inv_ctrl_step ms evt_id f f' w q r l o :
  0 <= ms <= MAX_TIMEOUT ->
  sys_inv ms (mk_sys f [] w q r l) -> step_post evt_id f f' o ->
  sys_inv ms (mk_sys f' (watchdog_msgs o) w q r l).
Proof.
  intros Hms [Hc Ht Hi Hw (p & Hp & Hb & Hpw)] [Sinv _ _ Sw Sid St _ _]. cbn in *.
  rewrite app_nil_r in Hp.
  destruct (proto_trans (state f) (state f') (watch_id (fsm_param f)) ms p Hms Hi Hb)
    as (p' & Hp' & Hb' & Hpi' & Hpw').
  split; cbn; try done; try congruence.
  - rewrite Sid. destruct (_ && _); [apply new_id_range; lia|done].
  - exists p'. rewrite proto_msgs_app, Hp, Sw, Ht. cbn. rewrite Hp', Sid.
    split_and!; try done; try congruence. by rewrite Hpi', Hpw'.
Qed.

(** Nothing that was refused is ever queued again. *)
Lemma refused_grows s s' : sys_step s s' -> refused s' = [] -> refused s = [].
Proof. intros [] Hr; cbn in *; [done..| |done|done]. destruct sent; [done|]. by apply app_nil in Hr as [? _]. Qed.

Lemma sys_inv_step ms s s' :
  0 <= ms <= MAX_TIMEOUT -> sys_inv ms s -> sys_step s s' -> refused s' = [] -> sys_inv ms s'.
Proof.
  intros Hms Hinv Hs Hl. destruct Hs as [f f' w q r l e evt_id data o He [_ Hd] Hrun|f f' w q r l e o Hrun
    |f f' w q m r l o Hrun|f m out w q q' r l sent Hsend|f out w w' m q r l now o Hm Hrun
    |f out w w' q r l later o Hnw Hrun].
  - eapply sys_inv_ctrl_step; [done..|].
    exact (wp_Ok _ _ _ _ _ _ _ (wp_handle_ipc_msg e evt_id data f He (si_ctrl _ _ Hinv) Hd) Hrun).
  - eapply sys_inv_ctrl_step; [done..|].
    exact (wp_Ok _ _ _ _ _ _ _ (wp_handle_timeout e f (si_ctrl _ _ Hinv)) Hrun).
  - destruct (wp_Ok _ _ _ _ _ _ _ (wp_handle_ping m f) Hrun) as (-> & -> & _).
    destruct Hinv as [Hc Ht Hi Hw (p & Hp & Hb & Hpw)]. cbn in *. rewrite app_nil_r in Hp.
    destruct (p_waiting p) eqn:Hwait; [|done]. destruct Hpw as [[= -> ->] Hr].
    destruct (pack_fields CRM_WATCH_PING 0 (p_ping_id p)) as (_ & I & _); try done.
    split; cbn; try done. rewrite proto_msgs_app, Hp. cbn. rewrite I, (proto_pong p Hr Hwait). cbn.
    eexists. split_and!; try done.
  - destruct Hinv as [Hc Ht Hi Hw Hag]. cbn in *. unfold fifo_step in Hsend.
    destruct (_ <? _); injection Hsend as <- <-; [|by destruct l].
    split; cbn; try done. by rewrite <-app_assoc.
  - destruct Hinv as [Hc Ht Hi Hw (p & Hp & Hb & Hpw)]. cbn in *.
    destruct (proto_msg (proto_of (abs w)) m) as [p1|] eqn:Hm1; cbn in Hp; [|done].
    rewrite <-(spec_proto now period) in Hm1. apply fmap_Some in Hm1 as (a & Hspec & ->).
    destruct (wp_Ok _ _ _ _ _ _ _ (handle_msg_accepts now period m w a Hw Hspec) Hrun) as [<- Hw'].
    split; cbn; try done. exists p. done.
  - destruct Hinv as [Hc Ht Hi Hw (p & Hp & Hb & Hpw)]. cbn in *.
    destruct (proto_msgs_frame _ _ _ Hp) as [Hpi Hww]. cbn in Hpi, Hww. rewrite (Hww Hnw) in Hpw. subst r.
    pose proof (new_id_range _ (inv_ping_id _ Hw)) as Hn.
    destruct (wp_Ok _ _ _ _ _ _ _ (wp_ping_sent later w no_abort Hw Hnw) Hrun) as (Hw' & _ & -> & Habs).
    split; cbn [s_ctrl s_wd to_wd from_wd outbox]; try done. exists (proto_ping p).
    assert (proto_of (abs w') = proto_ping (proto_of (abs w))) as -> by (by rewrite Habs).
    rewrite (proto_msgs_ping _ _ p) by done. cbn. rewrite Hpi. done.
Qed.

(** Both threads just started: CTRL has sent its first START. *)
Definition sys_init (ms : Z) (s0 : ctrl) (w0 : watchdog_st W) : sys :=
  mk_sys (mk_fsm_st ST_INITIAL
    (mk_ctrl (ctrl_state s0) (is_mdm_oos s0) (inst_id s0) 0 (timeout s0) (dbg_info s0) (timer_armed s0)
       (ctrl_timer_end s0) (dump s0) (escalation_ctx s0) (msg_ptr s0)))
    [pack CRM_WATCH_START ms 0] w0 [] [] [].

Lemma sys_inv_init inst ms dmp esc0 now junk w :
  0 <= ms <= MAX_TIMEOUT -> esc_ok esc0 -> wl_valid w ->
  wl_count w WAKELOCK_WATCHDOG_PING = 0 -> wl_count w WAKELOCK_WATCHDOG_REQ = 0 ->
  sys_inv ms (sys_init ms (crm_ctrl_init inst ms dmp esc0) (watchdog_init now period junk w)).
Proof.
  intros Hms He Hv Hp Hr. split; cbn; try done.
  - destruct (pack_fields CRM_WATCH_START ms 0) as (R & I & _); try done.
    unfold proto_msg. rewrite R, I. cbn. eexists. split; [reflexivity|]. done.
Qed.

Lemma sys_inv_run ms s s' :
  0 <= ms <= MAX_TIMEOUT -> sys_inv ms s -> rtc sys_step s s' -> refused s' = [] -> sys_inv ms s'.
Proof.
  intros Hms Hini Hrtc. revert s' Hrtc. apply (rtc_ind_r (fun s' => refused s' = [] -> sys_inv ms s')); [done|].
  intros y z _ Hyz IH Hl. apply (sys_inv_step ms y); eauto using refused_grows.
Qed.

(** C12. CTRL follows the watchdog's protocol: from the start of both threads,
    in any interleaving of CTRL's events, of its timer, of the watchdog's
    PINGs, of the sending of each message and of its handling, one of two
    things holds.  Either a message of CTRL was refused because eight were
    pending; or every message that reaches the watchdog is accepted (no
    assertion of its handler can fail), and when no message is on its way the
    watchdog is armed exactly in the states other than UP and DOWN, so it
    never expires on a modem at rest. *)
Theorem ctrl_follows_watchdog_protocol inst ms dmp esc0 now junk w s :
  0 <= ms <= MAX_TIMEOUT -> esc_ok esc0 -> wl_valid w ->
  wl_count w WAKELOCK_WATCHDOG_PING = 0 -> wl_count w WAKELOCK_WATCHDOG_REQ = 0 ->
  rtc sys_step (sys_init ms (crm_ctrl_init inst ms dmp esc0) (watchdog_init now period junk w)) s ->
  refused s <> [] \/
  (forall t m q, to_wd s = m :: q -> exists w' o, handle_msg t m period (s_wd s) = Ok tt w' o) /\
  (to_wd s = [] -> outbox s = [] -> armed (req (s_wd s)) = negb (at_rest (state (s_ctrl s)))).
Proof.
  intros Hms He Hv Hp Hr Hrtc. destruct (refused s) eqn:Hl; [right|by left].
  destruct (sys_inv_run ms _ s Hms (sys_inv_init inst ms dmp esc0 now junk w Hms He Hv Hp Hr) Hrtc Hl)
    as [_ _ _ Hw (p & Hpm & [_ Harm] & _)].
  split.
  - intros t m q Hq. rewrite Hq in Hpm. cbn in Hpm.
    destruct (proto_msg (proto_of (abs (s_wd s))) m) as [p1|] eqn:Hm1; [|done].
    rewrite <-(spec_proto t period) in Hm1. apply fmap_Some in Hm1 as (a & Hspec & ->).
    destruct (wp_total _ _ _ (handle_msg_accepts t period m (s_wd s) a Hw Hspec)) as ([] & w' & o & ? & _).
    eauto.
  - intros Hq Ho. rewrite Hq, Ho in Hpm. injection Hpm as <-. rewrite <-Harm. cbn.
    by destruct (armed (req (s_wd s))).
Qed.

End system.

Definition demo_escalation : esc_st :=
  mk_esc_st (mk_esc [0; 2; 2; 0] 60000 1 2 (mk_timespec 66 0) false) None.

Definition wd_demo_env : env :=
  mk_env (mk_timespec 20 0) (mk_timespec 20 0) (mk_timespec 20 0) "fw.fls" None 0 [].

Definition wd_demo_sys : sys (W:=wakelock_ctx) :=
  sys_init 90000 (crm_ctrl_init 1 90000 true demo_escalation)
    (watchdog_init (mk_timespec 1 0) 5000 (mk_timer 0 false (mk_timespec 0 0) false) crm_wakelock_init).

(** One step of the composition, of the kind named. *)
Ltac sys_sends := eapply rtc_l; [eapply sys_send; vm_compute; reflexivity|].
Ltac sys_handles t :=
  eapply rtc_l; [eapply (@sys_wd_msg demo_mdmcli _ _ 5000 _ _ _ _ _ _ _ _ t); [by vm_compute|vm_compute; reflexivity]|].
Ltac sys_receives evt_id data :=
  eapply rtc_l;
    [eapply (@sys_event demo_mdmcli _ _ 5000 _ _ _ _ _ _ wd_demo_env evt_id data);
       [by vm_compute|split; [by right|done]|vm_compute; reflexivity]|].

(** The modem is found off and both threads have caught up. *)
Lemma ctrl_follows_watchdog_protocol_witness :
  exists s : sys (W:=wakelock_ctx), state (s_ctrl s) = ST_DOWN /\ armed (req (s_wd s)) = false.
Proof.
  assert (exists s, rtc (@sys_step demo_mdmcli _ _ 5000) wd_demo_sys s /\
    (refused s = [] /\ to_wd s = [] /\ outbox s = []) /\ state (s_ctrl s) = ST_DOWN)
    as (s & Hs & (Hl & Hq & Ho) & Hd).
  { eexists. split; [|split; [split_and!|]].
    - sys_sends. sys_handles (mk_timespec 2 0). sys_receives EV_HAL_MDM_OFF (@None evt_data).
      sys_sends. sys_handles (mk_timespec 3 0). apply rtc_refl.
    - reflexivity.
    - reflexivity.
    - reflexivity.
    - reflexivity. }
  exists s. split; [done|].
  assert (armed (req (s_wd s)) = negb (at_rest (state (s_ctrl s)))) as ->; [|by rewrite Hd].
  destruct (@ctrl_follows_watchdog_protocol demo_mdmcli _ _ _ 5000 1 90000 true demo_escalation (mk_timespec 1 0)
    (mk_timer 0 false (mk_timespec 0 0) false) crm_wakelock_init s) as [?|[_ Harm]]; try done.
  - left. exists 0, 2, 2. split; cbn; done || lia.
  - apply init_valid.
  - by apply Harm.
Defined.

(** A START refused: the watchdog thread does not run while three starts of the
    modem fail, so eight messages are pending when a fourth one begins.  The
    STOP of that start then finds no request armed and the watchdog aborts. *)
Lemma refused_start_aborts :
  exists s, rtc (@sys_step demo_mdmcli _ _ 5000) wd_demo_sys s /\
    refused s = [pack CRM_WATCH_START 90000 4] /\ to_wd s = [pack CRM_WATCH_STOP 0 4] /\
    forall t, exists o, handle_msg t (pack CRM_WATCH_STOP 0 4) 5000 (s_wd s) = Abort (AssertFail "timer[REQ_IDX].armed == true") o.
Proof.
  eexists. split; [|split; [|split]].
  - sys_sends. sys_receives EV_HAL_MDM_OFF (@None evt_data). sys_sends.
    do 3 (sys_receives EV_CLI_START (@None evt_data); sys_sends; sys_receives EV_FAILURE (@None evt_data);
      sys_receives EV_HAL_MDM_OFF (@None evt_data); sys_sends).
    sys_receives EV_CLI_START (@None evt_data). sys_sends.
    do 8 sys_handles (mk_timespec 30 0).
    sys_receives EV_FAILURE (@None evt_data). sys_receives EV_HAL_MDM_OFF (@None evt_data). sys_sends.
    apply rtc_refl.
  - reflexivity.
  - reflexivity.
  - intros t. eexists. vm_compute. reflexivity.
Qed.
