(* ===== verification/CtrlApi.v ===== *)
(** * The entry points of CTRL (plugins/control/src/request.c, notify.c, utils.c)

    CLA, the HAL and the plugins call these functions from their own threads;
    each call queues one message for the event loop.  The state is the thread
    queue of Ipc.v, a message being its scalar and the data it points to. *)

From S2P Require Import Prelude Ipc Fsm MdmCli Control ControlTheory.
From Stdlib Require Import ZArith Lia.
From stdpp Require Import base tactics list strings option.

Open Scope Z_scope.
Open Scope crm_scope.

Abbreviation ctrl_msg := (Z * option evt_data)%type.
Abbreviation Q_ A := (M (ring ctrl_msg) Empty_set A).

Inductive crm_ctrl_restart_type : Type := CTRL_MODEM_RESTART | CTRL_MODEM_UPDATE | CTRL_BACKUP_NVM.

(** [crm_hal_evt_t] as the HAL gives it, with its debug information. *)
Record hal_event : Type := mk_hal_event { hal : crm_hal_evt; hal_dbg : option mdm_cli_dbg_info }.

(** The copy has the same contents. *)
Definition copy_dbg_info (d : option mdm_cli_dbg_info) : Q_ mdm_cli_dbg_info :=
  match d with Some d => ret d | None => fail (AssertFail "dbg_info") end.

Definition crm_ctrl_start : Q_ unit :=
  send_msg_thread (EV_CLI_START, None) ;; ret tt.

Definition crm_ctrl_stop : Q_ unit :=
  send_msg_thread (EV_CLI_STOP, None) ;; ret tt.

Definition crm_ctrl_restart (type : crm_ctrl_restart_type) (d : option mdm_cli_dbg_info) : Q_ unit :=
  let* msg :=
    match type with
    | CTRL_MODEM_RESTART =>
        match d with
        | Some _ => let* c := copy_dbg_info d in ret (EV_CLI_RESET, Some (DbgData c))
        | None => ret (EV_CLI_RESET, None)
        end
    | CTRL_MODEM_UPDATE => ASSERT "!dbg_info" (bool_decide (d = None)) ;; ret (EV_CLI_UPDATE, None)
    | CTRL_BACKUP_NVM => ASSERT "!dbg_info" (bool_decide (d = None)) ;; ret (EV_CLI_NVM_BACKUP, None)
    end in
  send_msg_thread msg ;; ret tt.

Definition notify_simple_event (evt_id status : Z) : Q_ unit :=
  send_msg_thread (if status =? 0 then evt_id else EV_FAILURE, None) ;; ret tt.

Definition get_hal_id (type : crm_hal_evt_type) : Z :=
  match type with
  | HAL_MDM_OFF => EV_HAL_MDM_OFF
  | HAL_MDM_RUN => EV_HAL_MDM_RUN
  | HAL_MDM_BUSY => EV_HAL_MDM_BUSY
  | HAL_MDM_NEED_RESET => EV_HAL_MDM_NEED_RESET
  | HAL_MDM_FLASH => EV_HAL_MDM_FLASH
  | HAL_MDM_DUMP => EV_HAL_MDM_DUMP
  | HAL_MDM_UNRESPONSIVE => EV_HAL_MDM_UNRESPONSIVE
  end.

Definition send_asserted (m : ctrl_msg) : Q_ unit :=
  let* sent := send_msg_thread m in
  ASSERT "i_ctx->ipc->send_msg(i_ctx->ipc, &msg)" sent.

Definition notify_hal_event (event : hal_event) : Q_ unit :=
  let scalar := get_hal_id (evt_type (hal event)) in
  match evt_type (hal event) with
  | HAL_MDM_OFF | HAL_MDM_RUN | HAL_MDM_BUSY => send_asserted (scalar, None)
  | HAL_MDM_NEED_RESET | HAL_MDM_UNRESPONSIVE =>
      let* c := copy_dbg_info (hal_dbg event) in
      send_asserted (scalar, Some (DbgData c))
  | HAL_MDM_FLASH | HAL_MDM_DUMP => send_asserted (scalar, Some (HalData (hal event)))
  end.

Definition notify_nvm_status (status : Z) : Q_ unit := notify_simple_event EV_NVM_SUCCESS status.
Definition notify_fw_upload_status (status : Z) : Q_ unit := notify_simple_event EV_FW_SUCCESS status.
Definition notify_customization_status (status : Z) : Q_ unit := notify_simple_event EV_FW_SUCCESS status.
Definition notify_dump_status (status : Z) : Q_ unit := notify_simple_event EV_DUMP_SUCCESS status.

(** The calls of the other modules. *)
Inductive api_call : Type :=
| CallStart
| CallStop
| CallRestart (type : crm_ctrl_restart_type) (d : option mdm_cli_dbg_info)
| CallHalEvent (event : hal_event)
| CallNvmStatus (status : Z)
| CallFwUploadStatus (status : Z)
| CallCustomizationStatus (status : Z)
| CallDumpStatus (status : Z).

Definition api (c : api_call) : Q_ unit :=
  match c with
  | CallStart => crm_ctrl_start
  | CallStop => crm_ctrl_stop
  | CallRestart t d => crm_ctrl_restart t d
  | CallHalEvent ev => notify_hal_event ev
  | CallNvmStatus st => notify_nvm_status st
  | CallFwUploadStatus st => notify_fw_upload_status st
  | CallCustomizationStatus st => notify_customization_status st
  | CallDumpStatus st => notify_dump_status st
  end.

(** ** Specification *)

(** The documented use: debug information only with a plain restart, and
    always with the HAL's reset and unresponsive events. *)
Definition call_ok (c : api_call) : Prop :=
  match c with
  | CallRestart CTRL_MODEM_RESTART _ => True
  | CallRestart _ d => d = None
  | CallHalEvent ev =>
      match evt_type (hal ev) with
      | HAL_MDM_NEED_RESET | HAL_MDM_UNRESPONSIVE => is_Some (hal_dbg ev)
      | _ => True
      end
  | _ => True
  end.

(** The message of a call. *)
Definition message_of (c : api_call) : ctrl_msg :=
  match c with
  | CallStart => (EV_CLI_START, None)
  | CallStop => (EV_CLI_STOP, None)
  | CallRestart CTRL_MODEM_RESTART d => (EV_CLI_RESET, DbgData <$> d)
  | CallRestart CTRL_MODEM_UPDATE _ => (EV_CLI_UPDATE, None)
  | CallRestart CTRL_BACKUP_NVM _ => (EV_CLI_NVM_BACKUP, None)
  | CallHalEvent ev =>
      (get_hal_id (evt_type (hal ev)),
       match evt_type (hal ev) with
       | HAL_MDM_NEED_RESET | HAL_MDM_UNRESPONSIVE => DbgData <$> hal_dbg ev
       | HAL_MDM_FLASH | HAL_MDM_DUMP => Some (HalData (hal ev))
       | _ => None
       end)
  | CallNvmStatus st => (if st =? 0 then EV_NVM_SUCCESS else EV_FAILURE, None)
  | CallFwUploadStatus st | CallCustomizationStatus st => (if st =? 0 then EV_FW_SUCCESS else EV_FAILURE, None)
  | CallDumpStatus st => (if st =? 0 then EV_DUMP_SUCCESS else EV_FAILURE, None)
  end.

Definition is_hal_call (c : api_call) : bool := match c with CallHalEvent _ => true | _ => false end.

(** The queue after a message was offered to it: refused when full. *)
Definition offered (l : list ctrl_msg) (m : ctrl_msg) : list ctrl_msg :=
  if Z.of_nat (length l) <? MSG_QUEUE_SIZE then l ++ [m] else l.

Section theory.

Lemma message_of_ok c : msg_ok (message_of c).1 (message_of c).2 /\ 0 <= (message_of c).1 < EV_NUM.
Proof.
  assert (forall x d, 0 <= x < EV_NUM -> x <> EV_HAL_MDM_FLASH -> msg_ok x d /\ 0 <= x < EV_NUM) as Hmk.
  { intros x d Hx Hne. split; [|done]. split; [by right|]. done. }
  destruct c as [| |[] d|[[[] n] d]|st|st|st|st]; cbn;
    try (apply Hmk; [unfold EV_NUM; done|done]);
    try (destruct (st =? 0); apply Hmk; [done|done|done|done]).
  split; [|done]. split; [by right|]. intros _ d' [= <-]. eexists. done.
Qed.

Lemma wp_send_offered (q : ring ctrl_msg) m E :
  ring_ok q -> opened q ->
  wp (send_msg_thread m) q E (fun b q' _ =>
    ring_ok q' /\ opened q' /\ contents q' = offered (contents q) m /\
    b = (Z.of_nat (length (contents q)) <? MSG_QUEUE_SIZE)).
Proof.
  intros Hok Ho. eapply wp_mono; [by apply wp_send|done|]. intros b q' o (Hok' & Ho' & Hs).
  unfold offered. cbn in Hs. destruct (_ <? MSG_QUEUE_SIZE); injection Hs as -> ->; done.
Qed.

(** Sending with the result ignored, and with the result asserted. *)
Lemma wp_send_ignored (q : ring ctrl_msg) m :
  ring_ok q -> opened q ->
  wp (send_msg_thread m ;; ret tt) q no_abort (fun _ q' _ =>
    ring_ok q' /\ opened q' /\ contents q' = offered (contents q) m).
Proof.
  intros Hok Ho. apply wp_bind. eapply wp_mono; [by apply wp_send_offered|done|].
  intros b q' o (? & ? & ? & _). by apply wp_ret.
Qed.

Lemma wp_send_asserted (q : ring ctrl_msg) m E :
  ring_ok q -> opened q ->
  (MSG_QUEUE_SIZE <= Z.of_nat (length (contents q)) -> E (AssertFail "i_ctx->ipc->send_msg(i_ctx->ipc, &msg)")) ->
  wp (send_asserted m) q E (fun _ q' _ =>
    ring_ok q' /\ opened q' /\ contents q' = offered (contents q) m).
Proof.
  intros Hok Ho HE. apply wp_bind. eapply wp_mono; [by apply wp_send_offered|done|].
  intros b q' o (? & ? & ? & ->). apply wp_ASSERT; [done|]. intros ?%Z.ltb_ge. auto.
Qed.

(** A call with room in the queue, or whose result is not looked at. *)
Lemma wp_api c q :
  ring_ok q -> opened q -> call_ok c ->
  (is_hal_call c = true -> Z.of_nat (length (contents q)) < MSG_QUEUE_SIZE) ->
  wp (api c) q no_abort (fun _ q' _ => ring_ok q' /\ opened q' /\ contents q' = offered (contents q) (message_of c)).
Proof.
  intros Hok Ho Hc Hroom.
  destruct c as [| |[] d|[[[] n] d]|st|st|st|st]; cbn in *;
    try (by apply wp_send_ignored);
    try (by apply wp_send_asserted; [done..|intros; specialize (Hroom eq_refl); lia]).
  - unfold crm_ctrl_restart. apply wp_bind. destruct d; [apply wp_bind, wp_ret, wp_ret|apply wp_ret];
      cbn [app]; by apply wp_send_ignored.
  - subst d. unfold crm_ctrl_restart. apply wp_bind, wp_bind, wp_ASSERT; [intros _|done].
    apply wp_ret. by apply wp_send_ignored.
  - subst d. unfold crm_ctrl_restart. apply wp_bind, wp_bind, wp_ASSERT; [intros _|done].
    apply wp_ret. by apply wp_send_ignored.
  - destruct Hc as [x ->]. unfold notify_hal_event. cbn. apply wp_bind, wp_ret. cbn [app].
    apply wp_send_asserted; [done..|intros; specialize (Hroom eq_refl); lia].
  - destruct Hc as [x ->]. unfold notify_hal_event. cbn. apply wp_bind, wp_ret. cbn [app].
    apply wp_send_asserted; [done..|intros; specialize (Hroom eq_refl); lia].
Qed.

End theory.

(** Every call of the interface, used as documented and with room in the
    queue, queues exactly one message behind those already there, an event of
    the enumeration with the data the event loop expects for it (the
    hypothesis of the properties of CTRL), and aborts nothing. *)
Lemma api_queues_well_formed_message c q :
  ring_ok q -> opened q -> call_ok c -> Z.of_nat (length (contents q)) < MSG_QUEUE_SIZE ->
  msg_ok (message_of c).1 (message_of c).2 /\
  exists q' o, api c q = Ok tt q' o /\ ring_ok q' /\ contents q' = contents q ++ [message_of c].
Proof.
  intros Hok Ho Hc Hroom. split; [apply message_of_ok|].
  destruct (wp_total _ _ _ (wp_api c q Hok Ho Hc (fun _ => Hroom))) as ([] & q' & o & Hrun & Hok' & _ & Hq).
  exists q', o. split_and!; try done. rewrite Hq. unfold offered.
  by destruct (Z.ltb_spec (Z.of_nat (length (contents q))) MSG_QUEUE_SIZE); [|lia].
Qed.

(** A full queue loses the message of every call but those of the HAL:
    [send_msg]'s result is not looked at, so the caller, whose request or
    status has been dropped, is told nothing. *)
Theorem full_queue_drops_silently c q :
  ring_ok q -> opened q -> call_ok c -> MSG_QUEUE_SIZE <= Z.of_nat (length (contents q)) ->
  is_hal_call c = false ->
  exists q' o, api c q = Ok tt q' o /\ contents q' = contents q.
Proof.
  intros Hok Ho Hc Hfull Hn.
  destruct (wp_total _ _ _ (wp_api c q Hok Ho Hc ltac:(congruence))) as ([] & q' & o & Hrun & _ & _ & Hq).
  exists q', o. split; [done|]. rewrite Hq. unfold offered.
  by destruct (Z.ltb_spec (Z.of_nat (length (contents q))) MSG_QUEUE_SIZE); [lia|].
Qed.

Definition demo_ring (n : nat) : ring ctrl_msg :=
  mk_ring (replicate 8 (EV_FW_SUCCESS, None)) (Z.of_nat n) 3 ((3 + Z.of_nat n) mod 8) 5 6 (replicate n 0) 0.

Lemma demo_ring_ok n : (n <= 8)%nat -> ring_ok (demo_ring n).
Proof.
  intros Hn. split; cbn; unfold MSG_QUEUE_SIZE; try done; try lia. by rewrite length_replicate.
Qed.

Lemma api_queues_well_formed_message_witness :
  exists q' o, api (CallRestart CTRL_MODEM_RESTART None) (demo_ring 1) = Ok tt q' o /\ ring_ok q' /\
    contents q' = [(EV_FW_SUCCESS, None); (EV_CLI_RESET, None)].
Proof.
  apply (api_queues_well_formed_message (CallRestart CTRL_MODEM_RESTART None) (demo_ring 1));
    [by apply demo_ring_ok; lia|done|done|vm_compute; reflexivity].
Defined.

Lemma full_queue_drops_silently_witness :
  exists q' o, api CallStart (demo_ring 8) = Ok tt q' o /\ contents q' = contents (demo_ring 8).
Proof.
  apply (full_queue_drops_silently CallStart (demo_ring 8));
    [by apply demo_ring_ok; lia|done|done|vm_compute; discriminate|done].
Defined.
