(* ===== verification/CtrlHal.v ===== *)
(** * The contract between CTRL and a HAL

    What [pre_op] of plugins/control/src/fsm_ctrl.c asks of the reports of a HAL: the
    reason of a failure, a flash or a dump comes after a BUSY.  The HALs are shown to
    keep it, whatever other messages are between their reports. *)

From S2P Require Import Prelude Fsm Timer MdmCli Control CtrlApi.
From Stdlib Require Import ZArith Lia.
From stdpp Require Import base tactics list strings option.

Open Scope Z_scope.
Open Scope crm_scope.

(** The events of the HAL in CTRL's enumeration. *)
Definition is_hal_evt (evt : Z) : bool := (EV_HAL_MDM_OFF <=? evt) && (evt <=? EV_HAL_MDM_UNRESPONSIVE).

(** [pre_op] accepts these reports, [w] telling whether a reason is expected. *)
Fixpoint accepted (w : bool) (l : list crm_hal_evt_type) : Prop :=
  match l with
  | [] => True
  | HAL_MDM_BUSY :: l' => accepted true l'
  | (HAL_MDM_OFF | HAL_MDM_RUN) :: l' => accepted w l'
  | _ :: l' => w = true /\ accepted false l'
  end.

Lemma accepted_mono w l : accepted false l -> accepted w l.
Proof.
  revert w. induction l as [|t l IH]; intros w Hl; [done|]. destruct t; cbn in *; auto; by destruct Hl.
Qed.

Lemma pre_op_accepts evs l (c : ctrl) :
  accepted (waiting_hal_busy_reason (ctrl_state c)) l ->
  List.filter is_hal_evt evs = get_hal_id <$> l ->
  exists c', for_each evs Control.pre_op c = Ok tt c' [].
Proof.
  revert l c. induction evs as [|x evs IH]; intros l c Hl Hf; [by eexists|]. cbn [for_each].
  cbn [List.filter] in Hf.
  assert (exists l' c1, Control.pre_op x c = Ok tt c1 [] /\
    accepted (waiting_hal_busy_reason (ctrl_state c1)) l' /\ List.filter is_hal_evt evs = get_hal_id <$> l')
    as (l' & c1 & Hp & Hl' & Hf').
  - unfold Control.pre_op. destruct (is_hal_evt x) eqn:Hx.
    + destruct l as [|t l]; [done|]. cbn in Hf. injection Hf as -> Hf.
      exists l. destruct t; cbn in Hl |- *;
        try (destruct Hl as [Hw Hl]; unfold waiting_reason, bind, gets; rewrite Hw);
        by eexists; split_and!.
    + exists l, c. split_and!; try done. unfold is_hal_evt in Hx.
      unfold EV_HAL_MDM_OFF, EV_HAL_MDM_UNRESPONSIVE, EV_HAL_MDM_BUSY, EV_HAL_MDM_NEED_RESET, EV_HAL_MDM_FLASH,
        EV_HAL_MDM_DUMP in *.
      repeat match goal with |- context [x =? ?k] => destruct (Z.eqb_spec x k); [subst; done|] end. done.
  - destruct (IH l' c1 Hl' Hf') as [c' Hc]. exists c'. by rewrite (bind_pass _ _ _ _ _ Hp).
Qed.
