(* ===== verification/Wire.v ===== *)
(** * The client wire protocol (plugins/mdmcli_wire/src/mdmcli_wire.c, mdmcli_wire.h)

    Serialization of the messages between CLA and its clients.  Bytes are
    integers from 0 to 255; a buffer being written is the list of the bytes
    written so far with the room that is left, a buffer being read is the list
    of its remaining bytes.  A socket is the list of the bytes that can be read
    from it: [crm_socket_read] reads exactly what it is asked for or fails. *)

From S2P Require Import Prelude MdmCli.
From Stdlib Require Import ZArith Lia Ascii.
From stdpp Require Import base tactics list strings option.

Open Scope Z_scope.
Open Scope crm_scope.

(** ** Identifiers *)

Section ids.
Context `{MdmCli}.

Definition CRM_REQ_REGISTER : Z := MDM_NUM_EVENTS.
Definition CRM_REQ_REGISTER_DBG : Z := MDM_NUM_EVENTS + 1.
Definition CRM_REQ_ACQUIRE : Z := MDM_NUM_EVENTS + 2.
Definition CRM_REQ_RELEASE : Z := MDM_NUM_EVENTS + 3.
Definition CRM_REQ_RESTART : Z := MDM_NUM_EVENTS + 4.
Definition CRM_REQ_SHUTDOWN : Z := MDM_NUM_EVENTS + 5.
Definition CRM_REQ_NVM_BACKUP : Z := MDM_NUM_EVENTS + 6.
Definition CRM_REQ_ACK_COLD_RESET : Z := MDM_NUM_EVENTS + 7.
Definition CRM_REQ_ACK_SHUTDOWN : Z := MDM_NUM_EVENTS + 8.
Definition CRM_REQ_NOTIFY_DBG : Z := MDM_NUM_EVENTS + 9.

Definition MSG_HEADER_SIZE : Z := 2 * 4.
Definition MSG_RESTART_CAUSE : Z := 1 * 4.
Definition MSG_DBG_DATA_FIXED_SIZE : Z := 5 * 4.
Definition MSG_DBG_DATA_DYNAMIC_SIZE_MAX : Z := MDM_CLI_MAX_NB_DATA * (4 + MDM_CLI_MAX_LEN_DATA * 1).
Definition MSG_SIZE_MAX : Z :=
  MSG_HEADER_SIZE + MSG_RESTART_CAUSE + MSG_DBG_DATA_FIXED_SIZE + MSG_DBG_DATA_DYNAMIC_SIZE_MAX.

End ids.

Inductive crm_mdmcli_wire_direction : Type := CRM_CLIENT_TO_SERVER | CRM_SERVER_TO_CLIENT.

#[export] Instance crm_mdmcli_wire_direction_eq_dec : EqDecision crm_mdmcli_wire_direction.
Proof. solve_decision. Defined.

(** The union of [crm_mdmcli_wire_msg_t]; [NoData] when no member is used. *)
Inductive wire_union : Type :=
| NoData
| Debug (d : option mdm_cli_dbg_info)
| Restart (cause : Z) (d : option mdm_cli_dbg_info)
| RegisterClient (events_bitmap : Z) (name : string).

Record crm_mdmcli_wire_msg : Type := mk_wire_msg { msg_id : Z; msg : wire_union }.

(** ** Bytes and strings *)

Definition byte_of (a : ascii) : Z := Z.of_nat (nat_of_ascii a).
Fixpoint string_bytes (s : string) : list Z :=
  match s with
  | EmptyString => []
  | String a s => byte_of a :: string_bytes s
  end.

(** The C string held by a buffer: up to the first NUL. *)
Fixpoint c_string (l : list Z) : string :=
  match l with
  | [] => EmptyString
  | b :: l => if b =? 0 then EmptyString else String (ascii_of_nat (Z.to_nat b)) (c_string l)
  end.

(** [htonl] and [ntohl]: the four bytes of a [uint32_t], most significant
    first. *)
Definition be_bytes (z : Z) : list Z :=
  [z / 16777216; (z / 65536) mod 256; (z / 256) mod 256; z mod 256].

Definition be_value (b3 b2 b1 b0 : Z) : Z := b3 * 16777216 + b2 * 65536 + b1 * 256 + b0.

(** ** Serialization *)

Record wbuf : Type := mk_wbuf { written : list Z; remaining : Z }.
Definition S_ (A : Type) : Type := M wbuf Empty_set A.

Definition serialize_uint32 (data : Z) : S_ unit :=
  let* b := get in
  ASSERT "*remaining_data >= sizeof(data)" (4 <=? remaining b) ;;
  modify (fun b => mk_wbuf (written b ++ be_bytes (u32 data)) (remaining b - 4)).

(** [strlen] stops at the first NUL; the model's strings are C strings. *)
Definition serialize_string (data : string) : S_ unit :=
  let bytes := string_bytes data in
  let len := Z.of_nat (length bytes) in
  serialize_uint32 len ;;
  let* b := get in
  ASSERT "*remaining_data >= len" (len <=? remaining b) ;;
  modify (fun b => mk_wbuf (written b ++ bytes) (remaining b - len)).

Definition serialize_dbg (d : mdm_cli_dbg_info) : S_ unit :=
  serialize_uint32 (dbg_type d) ;;
  serialize_uint32 (ap_logs_size d) ;;
  serialize_uint32 (bp_logs_size d) ;;
  serialize_uint32 (bp_logs_time d) ;;
  serialize_uint32 (Z.of_nat (length (dbg_data d))) ;;
  for_each (dbg_data d) serialize_string.

Definition serialize_dbg_ptr (d : option mdm_cli_dbg_info) : S_ unit :=
  match d with Some d => serialize_dbg d | None => ret tt end.

(** The size written over its placeholder, at offset 4. *)
Definition patch_size (l : list Z) : list Z :=
  take 4 l ++ be_bytes (u32 (Z.of_nat (length l))) ++ drop 8 l.

Section serialize.
Context `{MdmCli}.

Definition is_register (id : Z) : bool := (id =? CRM_REQ_REGISTER) || (id =? CRM_REQ_REGISTER_DBG).
Definition is_debug (id : Z) : bool :=
  (id =? CRM_REQ_RESTART) || (id =? CRM_REQ_NOTIFY_DBG) || (id =? MDM_DBG_INFO).

(** The member of the union that the identifier selects. *)
Definition serialize_body (m : crm_mdmcli_wire_msg) : S_ unit :=
  if is_register (msg_id m) then
    match msg m with
    | RegisterClient bitmap name => serialize_uint32 bitmap ;; serialize_string name
    | _ => fail (Undefined "msg.register_client")
    end
  else if is_debug (msg_id m) then
    if msg_id m =? CRM_REQ_RESTART then
      match msg m with
      | Restart cause d => serialize_uint32 cause ;; serialize_dbg_ptr d
      | _ => fail (Undefined "msg.restart")
      end
    else
      match msg m with
      | Debug d => serialize_dbg_ptr d
      | _ => fail (Undefined "msg.debug")
      end
  else ret tt.

Definition serialize_msg (direction : crm_mdmcli_wire_direction) (m : crm_mdmcli_wire_msg)
    : outcome wbuf Empty_set (list Z) :=
  (ASSERT "((msg->id < MDM_NUM_EVENTS) && ..) || ((msg->id >= CRM_REQ_REGISTER) && ..)"
     ((msg_id m <? MDM_NUM_EVENTS) && bool_decide (direction = CRM_SERVER_TO_CLIENT)
      || (CRM_REQ_REGISTER <=? msg_id m) && bool_decide (direction = CRM_CLIENT_TO_SERVER)) ;;
   serialize_uint32 (msg_id m) ;;
   serialize_uint32 0 ;;
   serialize_body m ;;
   gets (fun b => patch_size (written b))) (mk_wbuf [] MSG_SIZE_MAX).

(** ** Deserialization *)

(** The value, the error flag and what is left. *)
Definition deserialize_uint32 (l : list Z) : Z * bool * list Z :=
  match l with
  | b3 :: b2 :: b1 :: b0 :: l' => (be_value b3 b2 b1 b0, false, l')
  | _ => (0, true, l)
  end.

Definition deserialize_string (l : list Z) (dest_size : Z) : option string * list Z :=
  let '(len, error, l) := deserialize_uint32 l in
  if error || (Z.of_nat (length l) <? len) || (dest_size <=? len) then (None, l)
  else (Some (c_string (take (Z.to_nat len) l)), drop (Z.to_nat len) l).

(** The loop over the [n] strings. *)
Fixpoint deserialize_strings (n : nat) (l : list Z) : option (list string) * list Z :=
  match n with
  | 0%nat => (Some [], l)
  | S n =>
      match deserialize_string l MDM_CLI_MAX_LEN_DATA with
      | (None, l) => (None, l)
      | (Some s, l) =>
          let '(r, l) := deserialize_strings n l in (cons s <$> r, l)
      end
  end.

Definition deserialize_dbg (l : list Z) : option mdm_cli_dbg_info * list Z :=
  let '(type, _, l) := deserialize_uint32 l in
  let '(ap, _, l) := deserialize_uint32 l in
  let '(bp, _, l) := deserialize_uint32 l in
  let '(tm, _, l) := deserialize_uint32 l in
  let '(nb, error, l) := deserialize_uint32 l in
  if error || (MDM_CLI_MAX_NB_DATA <? nb) then (None, l)
  else let '(r, l) := deserialize_strings (Z.to_nat nb) l in (mk_dbg type ap bp tm <$> r, l).

(** The [if (remaining_data)] part, common to the messages with debug
    information; [None] is an error. *)
Definition deserialize_dbg_ptr (l : list Z) : option (option mdm_cli_dbg_info) * list Z :=
  if bool_decide (l = []) then (Some None, l)
  else let '(r, l) := deserialize_dbg l in (Some <$> r, l).

(** The contents of a message after its header. *)
Definition deserialize_body (id : Z) (l : list Z) : option wire_union * list Z :=
  if is_register id then
    let '(bitmap, error, l) := deserialize_uint32 l in
    let '(name, l) := deserialize_string l MDM_CLI_NAME_LEN in
    match name with
    | Some name => if error then (None, l) else (Some (RegisterClient (i32 bitmap) name), l)
    | None => (None, l)
    end
  else if is_debug id then
    if id =? CRM_REQ_RESTART then
      let '(cause, _, l) := deserialize_uint32 l in
      let '(r, l) := deserialize_dbg_ptr l in (Restart cause <$> r, l)
    else let '(r, l) := deserialize_dbg_ptr l in (Debug <$> r, l)
  else (Some NoData, l).

(** [read_from_fd]; nothing is read for a size of 0. *)
Definition read_from_fd (size : Z) : M (list Z) Empty_set (option (list Z)) :=
  if size =? 0 then ret (Some [])
  else
    let* sock := get in
    if size <=? Z.of_nat (length sock) then
      modify (fun sock => drop (Z.to_nat size) sock) ;; ret (Some (take (Z.to_nat size) sock))
    else ret None.

Definition recv_msg (socket : Z) : M (list Z) Empty_set (option crm_mdmcli_wire_msg) :=
  if socket <? 0 then ret None else
  let* hdr := read_from_fd MSG_HEADER_SIZE in
  match hdr with
  | None => ret None
  | Some hdr =>
      let '(id, _, l) := deserialize_uint32 hdr in
      let '(msg_size, error, l) := deserialize_uint32 l in
      if error then ret None else
      ASSERT "remaining_data == 0" (bool_decide (l = [])) ;;
      if (msg_size <? MSG_HEADER_SIZE) || (MSG_SIZE_MAX <? msg_size) then ret None else
      let* body := read_from_fd (msg_size - MSG_HEADER_SIZE) in
      match body with
      | None => ret None
      | Some body =>
          let '(u, l) := deserialize_body (i32 id) body in
          match u with
          | None => ret None
          | Some u => if bool_decide (l = []) then ret (Some (mk_wire_msg (i32 id) u)) else ret None
          end
      end
  end.

(** ** Sending *)

(** The size is read back from the buffer, which is [MSG_SIZE_MAX] bytes long
    whatever the message. *)
Definition send_serialized_msg (buf : list Z) : M (list Z) Empty_set unit :=
  let '(_, error, l) := deserialize_uint32 buf in
  ASSERT "!error" (negb error) ;;
  let '(msg_size, error, _) := deserialize_uint32 l in
  ASSERT "!error" (negb error) ;;
  ASSERT "msg_size >= MSG_HEADER_SIZE" (MSG_HEADER_SIZE <=? msg_size) ;;
  modify (fun sock => sock ++ take (Z.to_nat msg_size) buf).

Definition send_msg (direction : crm_mdmcli_wire_direction) (m : crm_mdmcli_wire_msg)
    : M (list Z) Empty_set unit := fun sock =>
  match serialize_msg direction m with
  | Ok buf _ _ => send_serialized_msg buf sock
  | Abort r _ => Abort r []
  end.

End serialize.

(** ** Specification *)

(** A C string: no NUL inside. *)
Definition no_nul (s : string) : Prop := 0 ∉ string_bytes s.

Definition is_u32 (z : Z) : Prop := 0 <= z < 2 ^ 32.

Section spec.
Context `{MdmCli}.

Definition string_ok (size : Z) (s : string) : Prop :=
  no_nul s /\ Z.of_nat (length (string_bytes s)) < size.

Record dbg_ok (d : mdm_cli_dbg_info) : Prop := {
  do_type : is_u32 (dbg_type d);
  do_ap : is_u32 (ap_logs_size d);
  do_bp : is_u32 (bp_logs_size d);
  do_time : is_u32 (bp_logs_time d);
  do_nb : Z.of_nat (length (dbg_data d)) <= MDM_CLI_MAX_NB_DATA;
  do_data : Forall (string_ok MDM_CLI_MAX_LEN_DATA) (dbg_data d);
}.

Definition dbg_ptr_ok (d : option mdm_cli_dbg_info) : Prop :=
  match d with Some d => dbg_ok d | None => True end.

(** A message that respects the limits of the client interface. *)
Definition body_ok (id : Z) (u : wire_union) : Prop :=
  if is_register id then
    match u with
    | RegisterClient bitmap name =>
        is_int bitmap /\ string_ok MDM_CLI_NAME_LEN name /\
        MSG_HEADER_SIZE + 8 + Z.of_nat (length (string_bytes name)) <= MSG_SIZE_MAX
    | _ => False
    end
  else if is_debug id then
    if id =? CRM_REQ_RESTART then
      match u with Restart cause d => is_u32 cause /\ dbg_ptr_ok d | _ => False end
    else match u with Debug d => dbg_ptr_ok d | _ => False end
  else u = NoData.

Definition msg_wf (direction : crm_mdmcli_wire_direction) (m : crm_mdmcli_wire_msg) : Prop :=
  0 <= msg_id m <= INT_MAX /\ body_ok (msg_id m) (msg m) /\
  match direction with
  | CRM_SERVER_TO_CLIENT => msg_id m < MDM_NUM_EVENTS
  | CRM_CLIENT_TO_SERVER => CRM_REQ_REGISTER <= msg_id m
  end.

(** The bytes of each part. *)
Definition str_enc (s : string) : list Z :=
  be_bytes (Z.of_nat (length (string_bytes s))) ++ string_bytes s.

Definition dbg_enc (d : mdm_cli_dbg_info) : list Z :=
  be_bytes (dbg_type d) ++ be_bytes (ap_logs_size d) ++ be_bytes (bp_logs_size d) ++
  be_bytes (bp_logs_time d) ++ be_bytes (Z.of_nat (length (dbg_data d))) ++ concat (str_enc <$> dbg_data d).

Definition dbg_ptr_enc (d : option mdm_cli_dbg_info) : list Z :=
  match d with Some d => dbg_enc d | None => [] end.

Definition body_enc (u : wire_union) : list Z :=
  match u with
  | NoData => []
  | Debug d => dbg_ptr_enc d
  | Restart cause d => be_bytes cause ++ dbg_ptr_enc d
  | RegisterClient bitmap name => be_bytes (u32 bitmap) ++ str_enc name
  end.

Definition msg_enc (m : crm_mdmcli_wire_msg) : list Z :=
  be_bytes (msg_id m) ++ be_bytes (MSG_HEADER_SIZE + Z.of_nat (length (body_enc (msg m)))) ++ body_enc (msg m).

End spec.

Section wire_theory.
Context `{HM : MdmCliLaws}.

Lemma be_value_bytes z l : is_u32 z -> deserialize_uint32 (be_bytes z ++ l) = (z, false, l).
Proof.
  unfold is_u32. intros Hz. cbn. do 2 f_equal. unfold be_value.
  replace (z / 65536) with (z / 256 / 256) by (by rewrite Z.div_div).
  replace (z / 16777216) with (z / 256 / 256 / 256) by (by rewrite !Z.div_div).
  pose proof (Z.div_mod z 256 ltac:(lia)). pose proof (Z.div_mod (z / 256) 256 ltac:(lia)).
  pose proof (Z.div_mod (z / 256 / 256) 256 ltac:(lia)). lia.
Qed.

Lemma byte_of_nonneg a : 0 <= byte_of a < 256.
Proof. unfold byte_of. pose proof (nat_ascii_bounded a). lia. Qed.

Lemma c_string_bytes s : no_nul s -> c_string (string_bytes s) = s.
Proof.
  unfold no_nul. induction s as [|a s IH]; intros Hs; cbn in *; [done|].
  rewrite not_elem_of_cons in Hs. destruct Hs as [Ha Hs].
  destruct (Z.eqb_spec (byte_of a) 0); [congruence|]. rewrite IH by done. f_equal.
  unfold byte_of. rewrite Nat2Z.id. apply ascii_nat_embedding.
Qed.

Lemma c_string_no_nul l : Forall (fun b => 0 <= b < 256) l -> no_nul (c_string l) /\
  (length (string_bytes (c_string l)) <= length l)%nat.
Proof.
  unfold no_nul. induction 1 as [|b l Hb _ [IH1 IH2]]; cbn.
  { split; [apply not_elem_of_nil|done]. }
  destruct (Z.eqb_spec b 0); cbn; [split; [apply not_elem_of_nil|lia]|].
  split; [|lia]. rewrite not_elem_of_cons. split; [|done].
  unfold byte_of. rewrite nat_ascii_embedding by lia. lia.
Qed.

Lemma be_bytes_length z : length (be_bytes z) = 4%nat.
Proof. done. Qed.

(** *** Writing *)

Lemma wp_uint32 z b E (Q : unit -> wbuf -> list Empty_set -> Prop) :
  4 <= remaining b -> Q tt (mk_wbuf (written b ++ be_bytes (u32 z)) (remaining b - 4)) [] ->
  wp (serialize_uint32 z) b E Q.
Proof.
  intros Hr HQ. apply wp_bind, wp_get, wp_bind, wp_ASSERT; [intros _|rewrite Z.leb_gt; lia].
  by apply wp_modify.
Qed.

Lemma wp_string s b E (Q : unit -> wbuf -> list Empty_set -> Prop) :
  4 + Z.of_nat (length (string_bytes s)) <= remaining b ->
  Z.of_nat (length (string_bytes s)) < 2 ^ 32 ->
  Q tt (mk_wbuf (written b ++ str_enc s) (remaining b - Z.of_nat (length (str_enc s)))) [] ->
  wp (serialize_string s) b E Q.
Proof.
  intros Hr Hu HQ. unfold serialize_string. apply wp_bind, wp_uint32; [lia|].
  apply wp_bind, wp_get, wp_bind, wp_ASSERT; [intros _|cbn; rewrite Z.leb_gt; lia].
  apply wp_modify. cbn [app written remaining]. rewrite u32_small, <-app_assoc by lia.
  unfold str_enc in HQ. rewrite length_app, be_bytes_length in HQ.
  replace (remaining b - 4 - Z.of_nat (length (string_bytes s)))
    with (remaining b - Z.of_nat (4 + length (string_bytes s))) by lia. exact HQ.
Qed.

Definition strings_size (l : list string) : Z := Z.of_nat (length (concat (str_enc <$> l))).

Lemma wp_strings l b E (Q : unit -> wbuf -> list Empty_set -> Prop) :
  Forall (string_ok MDM_CLI_MAX_LEN_DATA) l -> strings_size l <= remaining b ->
  Q tt (mk_wbuf (written b ++ concat (str_enc <$> l)) (remaining b - strings_size l)) [] ->
  wp (for_each l serialize_string) b E Q.
Proof.
  intros Hl. revert b Q. unfold strings_size. pose proof mdm_len_data as Hlen.
  induction Hl as [|s l [_ Hs] _ IH]; intros b Q Hr HQ; cbn [for_each].
  - apply wp_ret. cbn in HQ. rewrite app_nil_r, Z.sub_0_r in HQ. by destruct b.
  - cbn [fmap list_fmap concat] in *. rewrite length_app in *.
    assert (length (str_enc s) = 4 + length (string_bytes s))%nat as He by (unfold str_enc; by rewrite length_app).
    apply wp_bind, wp_string; [lia|lia|]. apply IH; cbn [remaining written]; [lia|]. cbn [app].
    rewrite <-app_assoc.
    replace (remaining b - Z.of_nat (length (str_enc s)) - Z.of_nat (length (concat (str_enc <$> l))))
      with (remaining b - Z.of_nat (length (str_enc s) + length (concat (str_enc <$> l)))) by lia.
    exact HQ.
Qed.

Lemma strings_size_bound l :
  Forall (string_ok MDM_CLI_MAX_LEN_DATA) l ->
  strings_size l <= Z.of_nat (length l) * (4 + MDM_CLI_MAX_LEN_DATA * 1).
Proof.
  unfold strings_size. induction 1 as [|s l [_ Hs] _ IH]; [cbn; lia|].
  cbn [fmap list_fmap concat length]. rewrite length_app. unfold str_enc at 1.
  rewrite length_app, be_bytes_length. lia.
Qed.

Lemma dbg_enc_length d : Z.of_nat (length (dbg_enc d)) = 20 + strings_size (dbg_data d).
Proof. unfold dbg_enc, strings_size. rewrite !length_app, !be_bytes_length. lia. Qed.

Lemma dbg_enc_bound d : dbg_ok d ->
  Z.of_nat (length (dbg_enc d)) <= MSG_DBG_DATA_FIXED_SIZE + MSG_DBG_DATA_DYNAMIC_SIZE_MAX.
Proof.
  intros [_ _ _ _ Hnb Hd]. rewrite dbg_enc_length. pose proof (strings_size_bound _ Hd).
  pose proof mdm_len_data. unfold MSG_DBG_DATA_FIXED_SIZE, MSG_DBG_DATA_DYNAMIC_SIZE_MAX. nia.
Qed.

Lemma wp_dbg d b E (Q : unit -> wbuf -> list Empty_set -> Prop) :
  dbg_ok d -> Z.of_nat (length (dbg_enc d)) <= remaining b ->
  Q tt (mk_wbuf (written b ++ dbg_enc d) (remaining b - Z.of_nat (length (dbg_enc d)))) [] ->
  wp (serialize_dbg d) b E Q.
Proof.
  intros [H1 H2 H3 H4 Hnb Hd] Hr HQ. rewrite dbg_enc_length in *. pose proof mdm_nb_data.
  assert (0 <= strings_size (dbg_data d)) by (unfold strings_size; lia).
  unfold serialize_dbg. do 5 (apply wp_bind, wp_uint32; cbn [remaining written app]; [lia|]).
  apply wp_strings; cbn [remaining written app]; [done|lia|].
  rewrite !u32_small, <-!app_assoc by (unfold is_u32 in *; lia).
  replace (remaining b - 4 - 4 - 4 - 4 - 4 - strings_size (dbg_data d))
    with (remaining b - (20 + strings_size (dbg_data d))) by lia.
  exact HQ.
Qed.

Lemma wp_dbg_ptr d b E (Q : unit -> wbuf -> list Empty_set -> Prop) :
  dbg_ptr_ok d -> Z.of_nat (length (dbg_ptr_enc d)) <= remaining b ->
  Q tt (mk_wbuf (written b ++ dbg_ptr_enc d) (remaining b - Z.of_nat (length (dbg_ptr_enc d)))) [] ->
  wp (serialize_dbg_ptr d) b E Q.
Proof.
  intros Hd Hr HQ. destruct d as [d|]; cbn in *; [by apply wp_dbg|].
  apply wp_ret. rewrite app_nil_r, Z.sub_0_r in HQ. by destruct b.
Qed.

Lemma dbg_ptr_bound d : dbg_ptr_ok d ->
  Z.of_nat (length (dbg_ptr_enc d)) <= MSG_DBG_DATA_FIXED_SIZE + MSG_DBG_DATA_DYNAMIC_SIZE_MAX.
Proof.
  destruct d as [d|]; cbn [dbg_ptr_ok dbg_ptr_enc]; [apply dbg_enc_bound|]. intros _.
  pose proof mdm_len_data. pose proof mdm_nb_data.
  unfold MSG_DBG_DATA_FIXED_SIZE, MSG_DBG_DATA_DYNAMIC_SIZE_MAX. cbn. nia.
Qed.

Lemma body_bound id u : body_ok id u ->
  MSG_HEADER_SIZE + Z.of_nat (length (body_enc u)) <= MSG_SIZE_MAX.
Proof.
  pose proof mdm_len_data. pose proof mdm_nb_data.
  assert (0 <= MSG_DBG_DATA_DYNAMIC_SIZE_MAX) as Hd by (unfold MSG_DBG_DATA_DYNAMIC_SIZE_MAX; nia).
  unfold body_ok, MSG_SIZE_MAX, MSG_RESTART_CAUSE, MSG_DBG_DATA_FIXED_SIZE, MSG_HEADER_SIZE in *.
  destruct (is_register id).
  { destruct u; try done. intros (_ & _ & Hs). cbn [body_enc]. unfold str_enc.
    rewrite !length_app, !be_bytes_length. lia. }
  destruct (is_debug id); [destruct (id =? CRM_REQ_RESTART)|]; [destruct u; try done..|intros ->; cbn; lia].
  - intros [_ Hp]. cbn [body_enc]. rewrite length_app, be_bytes_length. apply dbg_ptr_bound in Hp.
    unfold MSG_DBG_DATA_FIXED_SIZE in Hp. lia.
  - intros Hp. cbn [body_enc]. apply dbg_ptr_bound in Hp. unfold MSG_DBG_DATA_FIXED_SIZE in Hp. lia.
Qed.

Lemma wp_body id u b E (Q : unit -> wbuf -> list Empty_set -> Prop) :
  body_ok id u -> Z.of_nat (length (body_enc u)) <= remaining b ->
  (forall n, Q tt (mk_wbuf (written b ++ body_enc u) n) []) ->
  wp (serialize_body (mk_wire_msg id u)) b E Q.
Proof.
  unfold body_ok, serialize_body. cbn [msg_id msg]. intros Hu Hr HQ.
  destruct (is_register id).
  { destruct u as [| | |bitmap name]; try done. destruct Hu as (Hb & [_ Hl] & _). pose proof mdm_name_len.
    cbn [body_enc] in *. unfold str_enc in Hr. rewrite !length_app, !be_bytes_length in Hr.
    apply wp_bind, wp_uint32; [lia|]. apply wp_string; cbn [remaining written]; [lia|lia|].
    rewrite <-app_assoc. apply HQ. }
  destruct (is_debug id); [destruct (id =? CRM_REQ_RESTART)|].
  - destruct u as [| |cause d|]; try done. destruct Hu as [Hc Hd].
    cbn [body_enc] in *. rewrite length_app, be_bytes_length in Hr.
    apply wp_bind, wp_uint32; [lia|]. rewrite u32_small by done.
    apply wp_dbg_ptr; cbn [remaining written]; [done|lia|]. rewrite <-app_assoc. apply HQ.
  - destruct u as [|d| |]; try done. apply wp_dbg_ptr; [done|done|]. apply HQ.
  - subst u. apply wp_ret. specialize (HQ (remaining b)). cbn in HQ. rewrite app_nil_r in HQ. by destruct b.
Qed.

Lemma header_bytes x y l :
  patch_size (be_bytes x ++ be_bytes y ++ l) = be_bytes x ++ be_bytes (u32 (8 + Z.of_nat (length l))) ++ l.
Proof.
  unfold patch_size. rewrite !length_app, !be_bytes_length.
  replace (Z.of_nat (4 + (4 + length l))) with (8 + Z.of_nat (length l)) by lia. done.
Qed.

Lemma size_max_u32 : MSG_SIZE_MAX < 2 ^ 32.
Proof.
  pose proof mdm_len_data. pose proof mdm_nb_data.
  unfold MSG_SIZE_MAX, MSG_RESTART_CAUSE, MSG_DBG_DATA_FIXED_SIZE, MSG_HEADER_SIZE, MSG_DBG_DATA_DYNAMIC_SIZE_MAX.
  nia.
Qed.

Lemma serialize_msg_enc direction m :
  msg_wf direction m -> exists b, serialize_msg direction m = Ok (msg_enc m) b [].
Proof.
  intros (Hid & Hb & Hdir).
  assert (wp (ASSERT "((msg->id < MDM_NUM_EVENTS) && ..) || ((msg->id >= CRM_REQ_REGISTER) && ..)"
     ((msg_id m <? MDM_NUM_EVENTS) && bool_decide (direction = CRM_SERVER_TO_CLIENT)
      || (CRM_REQ_REGISTER <=? msg_id m) && bool_decide (direction = CRM_CLIENT_TO_SERVER)) ;;
   serialize_uint32 (msg_id m) ;; serialize_uint32 0 ;; serialize_body m ;;
   gets (fun b => patch_size (written b))) (mk_wbuf [] MSG_SIZE_MAX) no_abort
    (fun l _ _ => l = msg_enc m)) as Hwp.
  { pose proof (body_bound _ _ Hb) as Hsz. pose proof size_max_u32 as Hmax.
    unfold MSG_HEADER_SIZE in Hsz.
    apply wp_bind, wp_ASSERT.
    2:{ destruct direction; cbn; rewrite ?andb_true_r, ?andb_false_r, ?orb_false_r, ?orb_false_l.
        - rewrite Z.leb_gt. lia.
        - rewrite Z.ltb_ge. lia. }
    intros _. apply wp_bind, wp_uint32; cbn [remaining written app]; [lia|].
    apply wp_bind, wp_uint32; cbn [remaining written app]; [lia|].
    destruct m as [id u]. cbn [msg_id msg] in *.
    apply wp_bind, (wp_body id u); cbn [remaining written app]; [done|lia|].
    intros n. apply wp_gets. cbn [written]. rewrite <-app_assoc, header_bytes.
    unfold msg_enc, MSG_HEADER_SIZE. cbn [msg_id msg]. rewrite !u32_small; [done|lia|].
    unfold INT_MAX in *. lia. }
  apply wp_total in Hwp as (l & b & o & Hrun & ->). destruct o as [|[] ?].
  exists b. exact Hrun.
Qed.

(** *** Reading *)

Lemma read_string s size l :
  string_ok size s -> size <= 2 ^ 32 -> deserialize_string (str_enc s ++ l) size = (Some s, l).
Proof.
  intros [Hn Hl] Hsz. unfold deserialize_string, str_enc.
  rewrite <-app_assoc, be_value_bytes by (unfold is_u32; lia). cbn [orb].
  destruct (Z.ltb_spec (Z.of_nat (length (string_bytes s ++ l))) (Z.of_nat (length (string_bytes s)))) as [Hlt|_].
  { rewrite length_app in Hlt. lia. }
  destruct (Z.leb_spec size (Z.of_nat (length (string_bytes s)))); [lia|]. cbn [orb].
  rewrite Nat2Z.id, take_app_length, drop_app_length. by rewrite c_string_bytes.
Qed.

Lemma read_strings ss l :
  Forall (string_ok MDM_CLI_MAX_LEN_DATA) ss ->
  deserialize_strings (length ss) (concat (str_enc <$> ss) ++ l) = (Some ss, l).
Proof.
  pose proof mdm_len_data.
  induction 1 as [|s ss Hs _ IH]; [done|]. cbn [length deserialize_strings fmap list_fmap concat].
  rewrite <-app_assoc, read_string by (done || lia). by rewrite IH.
Qed.

Lemma read_dbg d l : dbg_ok d -> deserialize_dbg (dbg_enc d ++ l) = (Some d, l).
Proof.
  intros [H1 H2 H3 H4 Hnb Hd]. pose proof mdm_nb_data. unfold deserialize_dbg, dbg_enc.
  rewrite <-!app_assoc. rewrite !be_value_bytes by (done || unfold is_u32; lia).
  cbn [orb]. destruct (Z.ltb_spec MDM_CLI_MAX_NB_DATA (Z.of_nat (length (dbg_data d)))); [lia|].
  rewrite Nat2Z.id, read_strings by done. by destruct d.
Qed.

Lemma read_dbg_ptr d : dbg_ptr_ok d -> deserialize_dbg_ptr (dbg_ptr_enc d) = (Some d, []).
Proof.
  destruct d as [d|]; cbn [dbg_ptr_ok dbg_ptr_enc]; [|done]. intros Hd.
  unfold deserialize_dbg_ptr. rewrite bool_decide_false by done.
  rewrite <-(app_nil_r (dbg_enc d)), read_dbg by done. done.
Qed.

Lemma read_body id u : body_ok id u -> deserialize_body id (body_enc u) = (Some u, []).
Proof.
  unfold body_ok, deserialize_body. pose proof mdm_name_len as Hnl. destruct (is_register id).
  { destruct u as [| | |bitmap name]; try done. intros (Hb & Hs & _). cbn [body_enc].
    rewrite be_value_bytes by apply u32_range.
    rewrite <-(app_nil_r (str_enc name)), read_string by (done || lia).
    by rewrite i32_u32, i32_small. }
  destruct (is_debug id); [destruct (id =? CRM_REQ_RESTART)|by intros ->].
  - destruct u as [| |cause d|]; try done. intros [Hc Hd]. cbn [body_enc].
    rewrite be_value_bytes by done. by rewrite read_dbg_ptr.
  - destruct u as [|d| |]; try done. intros Hd. cbn [body_enc]. by rewrite read_dbg_ptr.
Qed.

Lemma wp_read n sock E (Q : option (list Z) -> list Z -> list Empty_set -> Prop) :
  0 <= n ->
  Q (if n <=? Z.of_nat (length sock) then Some (take (Z.to_nat n) sock) else None)
    (if n <=? Z.of_nat (length sock) then drop (Z.to_nat n) sock else sock) [] ->
  wp (read_from_fd n) sock E Q.
Proof.
  intros Hn HQ. unfold read_from_fd. destruct (Z.eqb_spec n 0) as [->|].
  { apply wp_ret. destruct (Z.leb_spec 0 (Z.of_nat (length sock))); [done|lia]. }
  apply wp_bind, wp_get. cbn [app]. destruct (n <=? Z.of_nat (length sock)).
  - by apply wp_bind, wp_modify, wp_ret.
  - by apply wp_ret.
Qed.

Lemma wp_read_exact n l rest E (Q : option (list Z) -> list Z -> list Empty_set -> Prop) :
  n = Z.of_nat (length l) -> Q (Some l) rest [] -> wp (read_from_fd n) (l ++ rest) E Q.
Proof.
  intros -> HQ. apply wp_read; [lia|].
  destruct (Z.leb_spec (Z.of_nat (length l)) (Z.of_nat (length (l ++ rest)))) as [_|Hlt].
  - by rewrite Nat2Z.id, take_app_length, drop_app_length.
  - rewrite length_app in Hlt. lia.
Qed.

Lemma wp_recv_enc direction m socket rest :
  msg_wf direction m -> 0 <= socket ->
  wp (recv_msg socket) (msg_enc m ++ rest) no_abort (fun r sock _ => r = Some m /\ sock = rest).
Proof.
  intros (Hid & Hb & _) Hs. pose proof (body_bound _ _ Hb) as Hsz. pose proof size_max_u32 as Hmax.
  unfold recv_msg. destruct (Z.ltb_spec socket 0); [lia|].
  unfold msg_enc. rewrite <-!app_assoc, (app_assoc (be_bytes (msg_id m))).
  apply wp_bind, wp_read_exact; [done|].
  rewrite be_value_bytes by (unfold is_u32, INT_MAX in *; lia).
  rewrite <-(app_nil_r (be_bytes (MSG_HEADER_SIZE + _))), be_value_bytes
    by (unfold is_u32, MSG_HEADER_SIZE in *; lia).
  apply wp_bind, wp_ASSERT; [intros _|done].
  destruct (Z.ltb_spec (MSG_HEADER_SIZE + Z.of_nat (length (body_enc (msg m)))) MSG_HEADER_SIZE); [lia|].
  destruct (Z.ltb_spec MSG_SIZE_MAX (MSG_HEADER_SIZE + Z.of_nat (length (body_enc (msg m))))); [lia|].
  cbn [orb]. apply wp_bind, wp_read_exact; [lia|].
  assert (i32 (msg_id m) = msg_id m) as ->.
  { apply i32_small. unfold is_int, INT_MIN. lia. }
  rewrite read_body by done. apply wp_ret. by destruct m.
Qed.

Lemma send_msg_enc direction m sock :
  msg_wf direction m -> send_msg direction m sock = Ok tt (sock ++ msg_enc m) [].
Proof.
  intros Hwf. destruct (serialize_msg_enc direction m Hwf) as [b Hser].
  unfold send_msg. rewrite Hser. destruct Hwf as (Hid & Hb & _).
  pose proof (body_bound _ _ Hb) as Hsz. pose proof size_max_u32 as Hmax.
  unfold send_serialized_msg, msg_enc at 1. unfold MSG_HEADER_SIZE in *.
  rewrite be_value_bytes by (unfold is_u32, INT_MAX in *; lia).
  erewrite bind_pass by reflexivity. rewrite be_value_bytes by (unfold is_u32; lia).
  erewrite bind_pass by reflexivity.
  rewrite (bind_pass _ _ _ tt sock) by (apply ASSERT_Ok; split; [rewrite Z.leb_le; lia|done]).
  unfold modify. do 2 f_equal. apply take_ge. unfold msg_enc, MSG_HEADER_SIZE.
  rewrite !length_app, !be_bytes_length. lia.
Qed.

Fixpoint recv_msgs (socket : Z) (n : nat) : M (list Z) Empty_set (list (option crm_mdmcli_wire_msg)) :=
  match n with
  | 0%nat => ret []
  | S n => let* m := recv_msg socket in let* ms := recv_msgs socket n in ret (m :: ms)
  end.

Lemma wp_send_wire direction ms sock :
  Forall (msg_wf direction) ms ->
  wp (for_each ms (send_msg direction)) sock no_abort (fun _ sock' _ =>
    sock' = sock ++ concat (msg_enc <$> ms)).
Proof.
  intros Hms. revert sock. induction Hms as [|m ms Hm _ IH]; intros sock; cbn [for_each].
  { apply wp_ret. cbn. by rewrite app_nil_r. }
  apply wp_bind. unfold wp at 1. rewrite (send_msg_enc direction m sock Hm).
  eapply wp_mono; [apply IH|done|]. intros _ sock' _ ->. cbn [fmap list_fmap concat]. by rewrite app_assoc.
Qed.

Lemma wp_recv_msgs direction socket ms rest :
  Forall (msg_wf direction) ms -> 0 <= socket ->
  wp (recv_msgs socket (length ms)) (concat (msg_enc <$> ms) ++ rest) no_abort (fun rs sock _ =>
    rs = Some <$> ms /\ sock = rest).
Proof.
  intros Hms Hs. induction Hms as [|m ms Hm _ IH]; cbn [recv_msgs length]; [by apply wp_ret|].
  cbn [fmap list_fmap concat]. rewrite <-app_assoc.
  apply wp_bind. eapply wp_mono; [by eapply wp_recv_enc|done|]. intros r sock o [-> ->].
  apply wp_bind. eapply wp_mono; [exact IH|done|]. intros rs sock o' [-> ->]. by apply wp_ret.
Qed.

(** *** Arbitrary bytes *)

Definition bytes (l : list Z) : Prop := Forall (fun b => 0 <= b < 256) l.

Lemma des_u32_spec l : bytes l ->
  is_u32 (deserialize_uint32 l).1.1 /\ bytes (deserialize_uint32 l).2.
Proof.
  intros Hl. assert (is_u32 0) as H0 by (unfold is_u32; lia).
  destruct l as [|b3 [|b2 [|b1 [|b0 l]]]]; try done. cbn.
  unfold bytes in *. rewrite !Forall_cons_iff in Hl. destruct Hl as (? & ? & ? & ? & ?).
  split; [|done]. unfold is_u32, be_value. lia.
Qed.

Lemma des_string_spec l size s l' : bytes l ->
  deserialize_string l size = (Some s, l') -> string_ok size s /\ bytes l'.
Proof.
  intros Hl. unfold deserialize_string. destruct (des_u32_spec l Hl) as [Hu Hl1].
  destruct (deserialize_uint32 l) as [[len err] l1]. cbn in *.
  destruct (err || _ || _) eqn:Hc; [done|]. apply orb_false_iff in Hc as [Hc Hc3].
  apply orb_false_iff in Hc as [_ Hc2]. bool_facts. intros [= <- <-].
  assert (bytes (take (Z.to_nat len) l1)) as Ht by (by apply Forall_take).
  destruct (c_string_no_nul _ Ht) as [Hn Hle]. unfold is_u32 in Hu.
  split; [|by apply Forall_drop]. split; [done|]. rewrite length_take in Hle. lia.
Qed.

Lemma des_strings_spec n l ss l' : bytes l ->
  deserialize_strings n l = (Some ss, l') ->
  length ss = n /\ Forall (string_ok MDM_CLI_MAX_LEN_DATA) ss /\ bytes l'.
Proof.
  revert l ss. induction n as [|n IH]; intros l ss Hl; cbn [deserialize_strings].
  { intros [= <- <-]. done. }
  destruct (deserialize_string l MDM_CLI_MAX_LEN_DATA) as [[s|] l1] eqn:Hs; [|done].
  destruct (des_string_spec _ _ _ _ Hl Hs) as [Hok Hl1].
  destruct (deserialize_strings n l1) as [[r|] l2] eqn:Hr; cbn; [|done].
  intros [= <- <-]. destruct (IH _ _ Hl1 Hr) as (<- & ? & ?). split; [done|]. by split; [constructor|].
Qed.

Lemma des_dbg_spec l d l' : bytes l -> deserialize_dbg l = (Some d, l') -> dbg_ok d /\ bytes l'.
Proof.
  intros Hl. unfold deserialize_dbg.
  destruct (des_u32_spec l Hl) as [U1 L1]. destruct (deserialize_uint32 l) as [[x1 e1] l1]. cbn in *.
  destruct (des_u32_spec l1 L1) as [U2 L2]. destruct (deserialize_uint32 l1) as [[x2 e2] l2]. cbn in *.
  destruct (des_u32_spec l2 L2) as [U3 L3]. destruct (deserialize_uint32 l2) as [[x3 e3] l3]. cbn in *.
  destruct (des_u32_spec l3 L3) as [U4 L4]. destruct (deserialize_uint32 l3) as [[x4 e4] l4]. cbn in *.
  destruct (des_u32_spec l4 L4) as [U5 L5]. destruct (deserialize_uint32 l4) as [[x5 e5] l5]. cbn in *.
  destruct (e5 || _) eqn:Hc; [done|]. apply orb_false_iff in Hc as [_ Hc]. bool_facts.
  destruct (deserialize_strings (Z.to_nat x5) l5) as [[r|] l6] eqn:Hr; cbn; [|done].
  intros [= <- <-]. destruct (des_strings_spec _ _ _ _ L5 Hr) as (Hn & Hs & Hb).
  unfold is_u32 in U5. split; [|done]. split; cbn; try done. rewrite Hn. lia.
Qed.

Lemma des_dbg_ptr_spec l d l' : bytes l -> deserialize_dbg_ptr l = (Some d, l') -> dbg_ptr_ok d /\ bytes l'.
Proof.
  intros Hl. unfold deserialize_dbg_ptr. destruct (bool_decide (l = [])).
  { by intros [= <- <-]. }
  destruct (deserialize_dbg l) as [[x|] l1] eqn:Hd; cbn; [|done]. intros [= <- <-].
  by apply des_dbg_spec in Hd.
Qed.

(** What a received message satisfies, whoever sent it. *)
Definition received_ok (m : crm_mdmcli_wire_msg) : Prop :=
  match msg m with
  | NoData => is_register (msg_id m) = false /\ is_debug (msg_id m) = false
  | Debug d => is_debug (msg_id m) = true /\ msg_id m <> CRM_REQ_RESTART /\ dbg_ptr_ok d
  | Restart cause d => msg_id m = CRM_REQ_RESTART /\ is_u32 cause /\ dbg_ptr_ok d
  | RegisterClient bitmap name =>
      is_register (msg_id m) = true /\ is_int bitmap /\ string_ok MDM_CLI_NAME_LEN name
  end.

Lemma des_body_spec id l u l' : bytes l ->
  deserialize_body id l = (Some u, l') -> received_ok (mk_wire_msg id u).
Proof.
  intros Hl. unfold deserialize_body, received_ok. cbn [msg_id msg].
  destruct (des_u32_spec l Hl) as [U1 L1]. destruct (is_register id) eqn:Hr.
  { destruct (deserialize_uint32 l) as [[x1 e1] l1]. cbn in *.
    destruct (deserialize_string l1 MDM_CLI_NAME_LEN) as [[s|] l2] eqn:Hs; [|done].
    destruct e1; [done|]. intros [= <- <-]. split; [done|]. split; [apply i32_range|].
    by apply des_string_spec in Hs as [? _]. }
  destruct (is_debug id) eqn:Hd; [|by intros [= <- <-]].
  destruct (Z.eqb_spec id CRM_REQ_RESTART) as [->|].
  - destruct (deserialize_uint32 l) as [[x1 e1] l1]. cbn in *.
    destruct (deserialize_dbg_ptr l1) as [[d|] l2] eqn:Hp; cbn; [|done]. intros [= <- <-].
    by apply des_dbg_ptr_spec in Hp as [? _].
  - destruct (deserialize_dbg_ptr l) as [[d|] l2] eqn:Hp; cbn; [|done]. intros [= <- <-].
    by apply des_dbg_ptr_spec in Hp as [? _].
Qed.

Lemma wp_recv_any socket sock :
  bytes sock ->
  wp (recv_msg socket) sock no_abort (fun r sock' _ =>
    match r with Some m => received_ok m | None => True end /\
    exists n, sock' = drop n sock /\ Z.of_nat n <= MSG_SIZE_MAX).
Proof.
  intros Hb. pose proof mdm_len_data. pose proof mdm_nb_data.
  assert (8 <= MSG_SIZE_MAX) as Hmax.
  { unfold MSG_SIZE_MAX, MSG_HEADER_SIZE, MSG_RESTART_CAUSE, MSG_DBG_DATA_FIXED_SIZE, MSG_DBG_DATA_DYNAMIC_SIZE_MAX. nia. }
  assert (exists n, sock = drop n sock /\ Z.of_nat n <= MSG_SIZE_MAX) as Hnone by (exists 0%nat; split; [done|lia]).
  unfold recv_msg. destruct (socket <? 0); [by apply wp_ret|].
  apply wp_bind, wp_read; [done|]. unfold MSG_HEADER_SIZE in *.
  destruct (Z.leb_spec (2 * 4) (Z.of_nat (length sock))) as [Hle|]; [|by apply wp_ret].
  change (Z.to_nat (2 * 4)) with 8%nat.
  destruct sock as [|b0 [|b1 [|b2 [|b3 [|b4 [|b5 [|b6 [|b7 sock]]]]]]]]; cbn [length] in Hle; try lia.
  cbn [take drop deserialize_uint32]. apply wp_bind, wp_ASSERT; [intros _|done].
  assert (exists n, sock = drop n (b0 :: b1 :: b2 :: b3 :: b4 :: b5 :: b6 :: b7 :: sock) /\
    Z.of_nat n <= MSG_SIZE_MAX) as Hhdr by (exists 8%nat; split; [done|lia]).
  unfold bytes in Hb. rewrite !Forall_cons_iff in Hb. destruct Hb as (_ & _ & _ & _ & _ & _ & _ & _ & Hb).
  destruct (_ || _) eqn:Hsz; [by apply wp_ret|]. apply orb_false_iff in Hsz as [Hs1 Hs2]. bool_facts.
  apply wp_bind, wp_read; [lia|]. rewrite ?drop_0. set (n := be_value b4 b5 b6 b7) in *.
  destruct (Z.leb_spec (n - 2 * 4) (Z.of_nat (length sock))) as [Hle2|]; [|by apply wp_ret].
  assert (exists k, drop (Z.to_nat (n - 2 * 4)) sock = drop k (b0 :: b1 :: b2 :: b3 :: b4 :: b5 :: b6 :: b7 :: sock) /\
    Z.of_nat k <= MSG_SIZE_MAX) as Hall.
  { exists (8 + Z.to_nat (n - 2 * 4))%nat. split; [done|lia]. }
  destruct (deserialize_body _ _) as [[u|] l] eqn:Hbody; [|by apply wp_ret].
  destruct (bool_decide (l = [])); [|by apply wp_ret]. apply wp_ret. split; [|done].
  by eapply des_body_spec; [|exact Hbody]; apply Forall_take.
Qed.

(** C13. Round trip of the wire protocol: whatever well-formed messages one side
    sends on an empty connection, the other side receives exactly those
    messages, in their order, and nothing is left on the connection.  The
    sending never aborts: the buffer is large enough for the largest message. *)
Theorem wire_roundtrip direction ms socket :
  Forall (msg_wf direction) ms -> 0 <= socket ->
  exists sock o, for_each ms (send_msg direction) [] = Ok tt sock o /\
    exists o', recv_msgs socket (length ms) sock = Ok (Some <$> ms) [] o'.
Proof.
  intros Hms Hs.
  destruct (wp_total _ _ _ (wp_send_wire direction ms [] Hms)) as ([] & sock & o & Hsend & ->).
  eexists _, o. split; [exact Hsend|].
  destruct (wp_total _ _ _ (wp_recv_msgs direction socket ms [] Hms Hs)) as (rs & sock' & o' & Hrecv & -> & ->).
  rewrite app_nil_r in Hrecv. eauto.
Qed.

(** C14. Bytes from an untrusted peer: whatever is on the connection,
    [recv_msg] returns (it never reaches an assertion or reads past its
    buffer), it takes at most [MSG_SIZE_MAX] bytes, and a message it accepts has
    the member its identifier selects, with strings that fit their buffers, are
    NUL-free and at most [MDM_CLI_MAX_NB_DATA] many. *)
Theorem recv_msg_robust socket sock :
  bytes sock ->
  exists r sock' o, recv_msg socket sock = Ok r sock' o /\
    match r with Some m => received_ok m | None => True end /\
    exists n, sock' = drop n sock /\ Z.of_nat n <= MSG_SIZE_MAX.
Proof. intros Hb. exact (wp_total _ _ _ (wp_recv_any socket sock Hb)). Qed.

Lemma restart_is_debug : is_register CRM_REQ_RESTART = false /\ is_debug CRM_REQ_RESTART = true.
Proof.
  unfold is_register, is_debug, CRM_REQ_REGISTER, CRM_REQ_REGISTER_DBG, CRM_REQ_RESTART.
  rewrite Z.eqb_refl. split; [|done]. apply orb_false_iff. split; apply Z.eqb_neq; lia.
Qed.

(** The error of the restart cause is overlooked: a RESTART message made of
    its header alone, without the mandatory cause, is accepted and reads as a
    restart of cause 0 with no debug information. *)
Theorem empty_restart_accepted socket :
  0 <= socket ->
  recv_msg socket (be_bytes CRM_REQ_RESTART ++ be_bytes MSG_HEADER_SIZE) =
    Ok (Some (mk_wire_msg CRM_REQ_RESTART (Restart 0 None))) [] [].
Proof.
  intros Hs. pose proof (mdm_events_range MDM_DOWN ltac:(by left)) as Hr. pose proof mdm_events_bitmap as Hb.
  destruct restart_is_debug as [H1 H2].
  assert (is_u32 CRM_REQ_RESTART) as Hu by (unfold is_u32, CRM_REQ_RESTART; lia).
  assert (i32 CRM_REQ_RESTART = CRM_REQ_RESTART) as Hi.
  { apply i32_small. unfold is_int, INT_MIN, INT_MAX, CRM_REQ_RESTART. lia. }
  assert (8 <= MSG_SIZE_MAX) as Hmax.
  { pose proof mdm_len_data. pose proof mdm_nb_data.
    unfold MSG_SIZE_MAX, MSG_HEADER_SIZE, MSG_RESTART_CAUSE, MSG_DBG_DATA_FIXED_SIZE, MSG_DBG_DATA_DYNAMIC_SIZE_MAX. nia. }
  unfold recv_msg. destruct (Z.ltb_spec socket 0); [lia|].
  rewrite (bind_pass _ _ _ (Some (be_bytes CRM_REQ_RESTART ++ be_bytes MSG_HEADER_SIZE)) []) by done.
  rewrite be_value_bytes by done. change (deserialize_uint32 (be_bytes MSG_HEADER_SIZE)) with (8, false, @nil Z).
  cbn beta iota. rewrite (bind_pass _ _ _ tt []) by done.
  destruct (Z.ltb_spec MSG_SIZE_MAX 8); [lia|]. cbn [orb]. change (8 <? MSG_HEADER_SIZE) with false. cbn [orb].
  rewrite (bind_pass _ _ _ (Some []) []) by done.
  unfold deserialize_body. rewrite Hi, H1, H2, Z.eqb_refl. done.
Qed.

End wire_theory.

(** ** Witnesses *)

Definition demo_dbg : mdm_cli_dbg_info := mk_dbg 6 5 5 60 ["modem"; "crash"].

Definition demo_msgs : list crm_mdmcli_wire_msg :=
  [mk_wire_msg 12 (RegisterClient 15 "rild"); mk_wire_msg 14 NoData; mk_wire_msg 16 (Restart 1 (Some demo_dbg));
   mk_wire_msg 21 (Debug None)].

Lemma demo_string_ok size s :
  bool_decide (0 ∉ string_bytes s) && (Z.of_nat (length (string_bytes s)) <? size) = true -> string_ok size s.
Proof. intros Hb. bool_facts. by split. Qed.

Lemma demo_dbg_ok : @dbg_ok demo_mdmcli demo_dbg.
Proof.
  split; [unfold is_u32; cbn; lia..|cbn; lia|].
  unfold demo_dbg, dbg_data. do 2 (apply Forall_cons_2; [by apply demo_string_ok|]). constructor.
Qed.

Lemma wire_roundtrip_witness :
  exists sock o, for_each demo_msgs (@send_msg demo_mdmcli CRM_CLIENT_TO_SERVER) [] = Ok tt sock o /\
    exists o', @recv_msgs demo_mdmcli 3 4 sock = Ok (Some <$> demo_msgs) [] o'.
Proof.
  apply (@wire_roundtrip demo_mdmcli demo_mdmcli_laws CRM_CLIENT_TO_SERVER demo_msgs 3); [|lia].
  unfold demo_msgs. repeat rewrite Forall_cons_iff. split_and!; [..|constructor]; unfold msg_wf, INT_MAX;
    (split; [cbn; lia|split; [|cbn; unfold CRM_REQ_REGISTER; cbn; lia]]); cbn -[string_ok MSG_SIZE_MAX]; try done.
  - split; [unfold is_int, INT_MIN, INT_MAX; lia|]. split; [by apply demo_string_ok|by vm_compute].
  - split; [unfold is_u32; lia|exact demo_dbg_ok].
Defined.

Lemma recv_msg_robust_witness :
  exists r sock' o, @recv_msg demo_mdmcli 3 [0; 0; 0; 12; 255; 0; 0; 9; 1] = Ok r sock' o /\
    match r with Some m => @received_ok demo_mdmcli m | None => True end /\
    exists n, sock' = drop n [0; 0; 0; 12; 255; 0; 0; 9; 1] /\ Z.of_nat n <= @MSG_SIZE_MAX demo_mdmcli.
Proof.
  apply (@recv_msg_robust demo_mdmcli demo_mdmcli_laws). repeat constructor; lia.
Defined.

Lemma empty_restart_accepted_witness :
  @recv_msg demo_mdmcli 3 [0; 0; 0; 16; 0; 0; 0; 8] =
    Ok (Some (mk_wire_msg 16 (Restart 0 None))) [] [].
Proof. apply (@empty_restart_accepted demo_mdmcli demo_mdmcli_laws 3). lia. Defined.
