(* ===== verification/Names.v ===== *)
(** * Names for the logs (libs/utils/src/string_helpers.c)

    [None] is the [default: ASSERT(0)] branch: the log lines of the program
    evaluate these functions, so a value without a name aborts the process. *)

From S2P Require Import Prelude MdmCli Wire Escalation Control.
From Stdlib Require Import ZArith Lia.
From stdpp Require Import base tactics list strings option.

Open Scope Z_scope.
Open Scope crm_scope.

(** A [switch]: the name of the first case that is equal. *)
Fixpoint switch (cases : list (Z * string)) (id : Z) : option string :=
  match cases with
  | [] => None
  | (c, txt) :: cases => if id =? c then Some txt else switch cases id
  end.

Section names.
Context `{MdmCli}.

Definition crm_mdmcli_wire_req_to_string (req_id : Z) : option string :=
  switch
    [(MDM_DOWN, "MDM_DOWN"); (MDM_ON, "MDM_ON"); (MDM_UP, "MDM_UP"); (MDM_OOS, "MDM_OOS");
     (MDM_COLD_RESET, "MDM_COLD_RESET"); (MDM_SHUTDOWN, "MDM_SHUTDOWN"); (MDM_DBG_INFO, "MDM_DBG_INFO");
     (CRM_REQ_REGISTER, "REGISTER"); (CRM_REQ_REGISTER_DBG, "REGISTER_DBG"); (CRM_REQ_ACQUIRE, "ACQUIRE");
     (CRM_REQ_RELEASE, "RELEASE"); (CRM_REQ_RESTART, "RESTART"); (CRM_REQ_SHUTDOWN, "SHUTDOWN");
     (CRM_REQ_NVM_BACKUP, "NVM_BACKUP"); (CRM_REQ_ACK_COLD_RESET, "ACK_COLD_RESET");
     (CRM_REQ_ACK_SHUTDOWN, "ACK_SHUTDOWN"); (CRM_REQ_NOTIFY_DBG, "NOTIFY_DBG")] req_id.

Definition crm_mdmcli_dbg_type_to_string (id : Z) : option string :=
  switch
    [(DBG_TYPE_STATS, "STATS"); (DBG_TYPE_INFO, "INFO"); (DBG_TYPE_ERROR, "ERROR");
     (DBG_TYPE_PLATFORM_REBOOT, "PLATFORM_REBOOT"); (DBG_TYPE_DUMP_START, "DUMP_START");
     (DBG_TYPE_DUMP_END, "DUMP_END"); (DBG_TYPE_APIMR, "APIMR"); (DBG_TYPE_SELF_RESET, "SELF_RESET");
     (DBG_TYPE_FW_SUCCES, "FW_SUCCESS"); (DBG_TYPE_FW_FAILURE, "FW_FAILURE"); (DBG_TYPE_TLV_NONE, "TLV_NONE");
     (DBG_TYPE_TLV_SUCCESS, "TLV_SUCCESS"); (DBG_TYPE_TLV_FAILURE, "TLV_FAILURE");
     (DBG_TYPE_NVM_BACKUP_SUCCESS, "NVM_BACKUP_SUCCESS"); (DBG_TYPE_NVM_BACKUP_FAILURE, "NVM_BACKUP_FAILURE")] id.

Definition crm_mdmcli_restart_cause_to_string (id : Z) : option string :=
  switch
    [(RESTART_MDM_OOS, "MDM_OOS"); (RESTART_MDM_ERR, "MDM_ERR"); (RESTART_APPLY_UPDATE, "APPLY_UPDATE")] id.

End names.

(** Every value of the enumeration has a name. *)
Definition crm_cli_abs_mdm_state_to_string (mdm_state : crm_cli_abs_mdm_state) : string :=
  match mdm_state with
  | MDM_STATE_OFF => "MDM_STATE_OFF"
  | MDM_STATE_UNRESP => "MDM_STATE_UNRESP"
  | MDM_STATE_BUSY => "MDM_STATE_BUSY"
  | MDM_STATE_READY => "MDM_STATE_READY"
  | MDM_STATE_PLATFORM_REBOOT => "MDM_STATE_PLATFORM_REBOOT"
  | MDM_STATE_UNKNOWN => "MDM_STATE_UNKNOWN"
  end.

Definition crm_escalation_level_to_string (level : Z) : option string :=
  switch
    [(STEP_MDM_WARM_RESET, "warm reset"); (STEP_MDM_COLD_RESET, "cold reset");
     (STEP_PLATFORM_REBOOT, "platform reboot"); (STEP_OOS, "modem oos")] level.

(** A name evaluated for a log line. *)
Definition named {S O} (t : option string) : M S O unit := ASSERT "0" (bool_decide (is_Some t)).

Lemma wp_named {S O} t (s : S) E (Q : unit -> S -> list O -> Prop) :
  is_Some t -> Q tt s [] -> wp (named t) s E Q.
Proof. intros Ht HQ. apply wp_ASSERT; [done|]. by rewrite bool_decide_true. Qed.

Lemma wp_named_any {S O} t (s : S) (E : abort_reason -> Prop) (Q : unit -> S -> list O -> Prop) :
  E (AssertFail "0") -> Q tt s [] -> wp (named t) s E Q.
Proof. intros HE HQ. by apply wp_ASSERT. Qed.

Lemma switch_some cases id : id ∈ cases.*1 <-> is_Some (switch cases id).
Proof.
  induction cases as [|[c t] cases IH]; cbn.
  - split; [by intros ?%elem_of_nil|by intros [? ?]].
  - rewrite elem_of_cons. destruct (Z.eqb_spec id c) as [->|].
    + split; [by eexists|by left].
    + rewrite <-IH. split; [by intros [?|?]|by right].
Qed.
