(* ===== verification/Cla.v ===== *)
(** * The client abstraction, CLA (plugins/client_abstraction/src/client_abstraction.c)

    CLA talks to the clients over the wire protocol of Wire.v and turns their
    acquisitions, releases, restart requests and acknowledgements into requests
    to CTRL.  The context is one record, grouped as in the source; the arrays
    [clients] and [pfd] keep their C length, [pfd] holding the file descriptors
    of the clients from index 2.  The calls to CTRL, to the clients' sockets
    and to the wakelock are emitted actions; the [n]-th clock reading and the
    result of the [n]-th send are given by [clock] and [send_ok], and the
    wakelock is any implementation of the class of Wakelock.v. *)

From S2P Require Import Prelude Fsm Timer Ipc Wakelock Escalation MdmCli Wire Control CtrlApi Names.
From Stdlib Require Import ZArith Lia.
From stdpp Require Import base tactics list strings option.

Open Scope Z_scope.
Open Scope crm_scope.

Definition MAX_CLIENTS : Z := 16.

(** ** Data *)

Record crm_client : Type := mk_client {
  registered : bool;
  name : string;
  events_bitmap : Z;
  acquired : bool;
  waiting_cold_reset_ack : bool;
  waiting_shutdown_ack : bool;
}.

(** What [memset] leaves. *)
Definition no_client : crm_client := mk_client false "" 0 false false false.

(** Clients management. *)
Record clients_mgmt : Type := mk_mgmt {
  num_clients : Z;
  clients : list crm_client;
  pfd : list Z;
  to_clean : Z;
}.

(** Interface with CTRL. *)
Record ctrl_itf : Type := mk_itf {
  modem_state : crm_cli_abs_mdm_state;
  real_modem_state : crm_cli_abs_mdm_state;
  fake_modem_state : bool;
  request_in_progress : bool;
}.

(** Pending procedure handling; no restart type is the value 0. *)
Record pending_proc : Type := mk_pending {
  reject_requests : bool;
  num_acquired : Z;
  num_waiting_cold_reset_ack : Z;
  num_waiting_shutdown_ack : Z;
  restart_type : option crm_ctrl_restart_type;
  dbg_info_present : bool;
  dbg_info : mdm_cli_dbg_info;
}.

Record cla_timers : Type := mk_timers {
  timer_ack_end : timespec;
  timer_boot_end : timespec;
  timer_boot_armed : bool;
}.

(** [crm_cli_abs_internal_ctx_t], and how many times the clock has been read
    and a message sent. *)
Record crm_cli_abs_internal_ctx (W : Type) : Type := mk_cla {
  enable_fmmo : bool;
  sanity_test_mode : bool;
  mgmt : clients_mgmt;
  itf : ctrl_itf;
  pending : pending_proc;
  timers : cla_timers;
  wakelock : W;
  clock_reads : nat;
  sends : nat;
}.
Arguments mk_cla {W} _ _ _ _ _ _ _ _ _.
Arguments enable_fmmo {W} _.
Arguments sanity_test_mode {W} _.
Arguments mgmt {W} _.
Arguments itf {W} _.
Arguments pending {W} _.
Arguments timers {W} _.
Arguments wakelock {W} _.
Arguments clock_reads {W} _.
Arguments sends {W} _.

(** The calls CLA makes to the outside. *)
Inductive cla_out : Type :=
| ToClient (fd : Z) (m : crm_mdmcli_wire_msg) (sent : bool)
| CtrlStart
| CtrlStop
| CtrlRestart (type : crm_ctrl_restart_type) (d : option mdm_cli_dbg_info)
| CloseFd (fd : Z)
| WakelockMsg (m : Z)
| SelfNotify (d : mdm_cli_dbg_info).

(** ** Events and states *)

Definition EV_NONE : Z := -1.
Definition EV_SUCCESS : Z := 0.
Definition EV_FAILURE : Z := 1.
Definition EV_MDM_OFF : Z := 2.
Definition EV_MDM_UNRESP : Z := 3.
Definition EV_MDM_BUSY : Z := 4.
Definition EV_MDM_READY : Z := 5.
Definition EV_CLI_ACQUIRE : Z := 6.
Definition EV_CLI_RELEASE : Z := 7.
Definition EV_CLI_RESTART : Z := 8.
Definition EV_CLI_ACKED : Z := 9.
Definition EV_NUM : Z := 10.

Definition ST_INITIAL : Z := 0.
Definition ST_OFF : Z := 1.
Definition ST_STARTING : Z := 2.
Definition ST_UP : Z := 3.
Definition ST_ACK_WAITING_COLD : Z := 4.
Definition ST_ACK_WAITING_SHTDWN : Z := 5.
Definition ST_STOPPING : Z := 6.
Definition ST_NUM : Z := 7.

Definition get_state_txt : Z -> option string :=
  switch
    [(ST_INITIAL, "INITIAL"); (ST_OFF, "OFF"); (ST_STARTING, "STARTING"); (ST_UP, "UP");
     (ST_ACK_WAITING_COLD, "WAITING C ACK"); (ST_ACK_WAITING_SHTDWN, "WAITING S ACK"); (ST_STOPPING, "STOPPING")].

Definition get_event_txt : Z -> option string :=
  switch
    [(EV_SUCCESS, "CTRL: success"); (EV_FAILURE, "CTRL: failure"); (EV_MDM_OFF, "CTRL: mdm off");
     (EV_MDM_UNRESP, "CTRL: mdm unresp"); (EV_MDM_BUSY, "CTRL: mdm busy"); (EV_MDM_READY, "CTRL: mdm ready");
     (EV_CLI_ACQUIRE, "CLI : acquire"); (EV_CLI_RELEASE, "CLI : release"); (EV_CLI_RESTART, "CLI : restart");
     (EV_CLI_ACKED, "CLI : acked")].

(** ** Messages of the other threads *)

Definition CLI_ABS_MSG_NOTIFY_OPERATION_RESULT : Z := 1.
Definition CLI_ABS_MSG_NOTIFY_CLIENT : Z := 2.
Definition CLI_ABS_MSG_NOTIFY_MODEM_STATE : Z := 3.

Definition CLI_ABS_GEN_SCALAR (t id : Z) : Z := Z.lor (Z.shiftl t 56) id.
Definition CLI_ABS_GET_MSG_TYPE (s : Z) : Z := Z.land (Z.shiftr s 56) 0xFF.
Definition CLI_ABS_GET_MSG_PAYLOAD (s : Z) : Z := Z.land s 0xFFFFFFFFFFFFFF.

(** A message of the queue: its scalar and the serialized message it may
    point to, represented by the message it encodes. *)
Abbreviation cla_msg := (Z * option crm_mdmcli_wire_msg)%type.

(** The numbers of the modem states. *)
Definition mdm_state_id (st : crm_cli_abs_mdm_state) : Z :=
  match st with
  | MDM_STATE_OFF => 0
  | MDM_STATE_UNRESP => 1
  | MDM_STATE_BUSY => 2
  | MDM_STATE_READY => 3
  | MDM_STATE_PLATFORM_REBOOT => 4
  | MDM_STATE_UNKNOWN => 5
  end.

Definition mdm_state_of (id : Z) : option crm_cli_abs_mdm_state :=
  List.find (fun st => mdm_state_id st =? id)
    [MDM_STATE_OFF; MDM_STATE_UNRESP; MDM_STATE_BUSY; MDM_STATE_READY; MDM_STATE_PLATFORM_REBOOT;
     MDM_STATE_UNKNOWN].

Definition TIMEOUT_ACK_IDX : Z := 1.
Definition TIMEOUT_BOOT_IDX : Z := 2.

Section api.
Context `{MdmCli}.

(** [serialize_msg]: only its assertions remain, the buffer being represented
    by the message. *)
Definition serialize {S O} (m : crm_mdmcli_wire_msg) : M S O unit := fun s =>
  match serialize_msg CRM_SERVER_TO_CLIENT m with
  | Ok _ _ _ => Ok tt s []
  | Abort r _ => Abort r []
  end.

Definition cla_send (m : cla_msg) : M (ring cla_msg) Empty_set unit :=
  let* sent := send_msg_thread m in
  ASSERT "i_ctx->ipc_ctx->send_msg(i_ctx->ipc_ctx, &msg)" sent.

(** The entry points, called from CTRL's thread; [data] is debug information
    of the expected size. *)
Definition notify_client (evt_id : Z) (data : option mdm_cli_dbg_info) : M (ring cla_msg) Empty_set unit :=
  named (crm_mdmcli_wire_req_to_string evt_id) ;;
  ASSERT "evt_id >= MDM_DBG_INFO || evt_id == MDM_ON" ((MDM_DBG_INFO <=? evt_id) || (evt_id =? MDM_ON)) ;;
  let s_msg := mk_wire_msg evt_id (Debug data) in
  serialize s_msg ;;
  cla_send (CLI_ABS_GEN_SCALAR CLI_ABS_MSG_NOTIFY_CLIENT evt_id, Some s_msg).

Definition notify_modem_state (mdm_state : crm_cli_abs_mdm_state) : M (ring cla_msg) Empty_set unit :=
  cla_send (CLI_ABS_GEN_SCALAR CLI_ABS_MSG_NOTIFY_MODEM_STATE (mdm_state_id mdm_state), None).

Definition notify_operation_result (result : Z) : M (ring cla_msg) Empty_set unit :=
  cla_send (CLI_ABS_GEN_SCALAR CLI_ABS_MSG_NOTIFY_OPERATION_RESULT (if result =? 0 then 0 else 1), None).

(** The message by which [dispose] stops the thread. *)
Definition dispose : M (ring cla_msg) Empty_set unit := cla_send (-1, None).

End api.

(** ** Accesses to the context *)

Section context.
Context {W : Type}.
#[local] Abbreviation cla := (crm_cli_abs_internal_ctx W).
#[local] Abbreviation A_ T := (M cla cla_out T).

Definition on_mgmt (f : clients_mgmt -> clients_mgmt) : A_ unit :=
  modify (fun s => mk_cla (enable_fmmo s) (sanity_test_mode s) (f (mgmt s)) (itf s) (pending s) (timers s)
    (wakelock s) (clock_reads s) (sends s)).
Definition on_itf (f : ctrl_itf -> ctrl_itf) : A_ unit :=
  modify (fun s => mk_cla (enable_fmmo s) (sanity_test_mode s) (mgmt s) (f (itf s)) (pending s) (timers s)
    (wakelock s) (clock_reads s) (sends s)).
Definition on_pending (f : pending_proc -> pending_proc) : A_ unit :=
  modify (fun s => mk_cla (enable_fmmo s) (sanity_test_mode s) (mgmt s) (itf s) (f (pending s)) (timers s)
    (wakelock s) (clock_reads s) (sends s)).
Definition on_timers (f : cla_timers -> cla_timers) : A_ unit :=
  modify (fun s => mk_cla (enable_fmmo s) (sanity_test_mode s) (mgmt s) (itf s) (pending s) (f (timers s))
    (wakelock s) (clock_reads s) (sends s)).
Definition on_wakelock {T} (m : M W Z T) : A_ T :=
  zoom wakelock (fun w s => mk_cla (enable_fmmo s) (sanity_test_mode s) (mgmt s) (itf s) (pending s) (timers s)
    w (clock_reads s) (sends s)) WakelockMsg m.
Definition next_read : A_ unit :=
  modify (fun s => mk_cla (enable_fmmo s) (sanity_test_mode s) (mgmt s) (itf s) (pending s) (timers s)
    (wakelock s) (Datatypes.S (clock_reads s)) (sends s)).
Definition next_send : A_ unit :=
  modify (fun s => mk_cla (enable_fmmo s) (sanity_test_mode s) (mgmt s) (itf s) (pending s) (timers s)
    (wakelock s) (clock_reads s) (Datatypes.S (sends s))).

Definition set_clients (l : list crm_client) : A_ unit :=
  on_mgmt (fun m => mk_mgmt (num_clients m) l (pfd m) (to_clean m)).
Definition set_to_clean (z : Z) : A_ unit :=
  on_mgmt (fun m => mk_mgmt (num_clients m) (clients m) (pfd m) z).

Definition set_modem_state (st : crm_cli_abs_mdm_state) : A_ unit :=
  on_itf (fun i => mk_itf st (real_modem_state i) (fake_modem_state i) (request_in_progress i)).
Definition set_real_modem_state (st : crm_cli_abs_mdm_state) : A_ unit :=
  on_itf (fun i => mk_itf (modem_state i) st (fake_modem_state i) (request_in_progress i)).
Definition set_fake_modem_state (b : bool) : A_ unit :=
  on_itf (fun i => mk_itf (modem_state i) (real_modem_state i) b (request_in_progress i)).
Definition set_request_in_progress (b : bool) : A_ unit :=
  on_itf (fun i => mk_itf (modem_state i) (real_modem_state i) (fake_modem_state i) b).

Definition set_reject_requests (b : bool) : A_ unit :=
  on_pending (fun p => mk_pending b (num_acquired p) (num_waiting_cold_reset_ack p)
    (num_waiting_shutdown_ack p) (restart_type p) (dbg_info_present p) (dbg_info p)).
Definition set_num_acquired (f : Z -> Z) : A_ unit :=
  on_pending (fun p => mk_pending (reject_requests p) (f (num_acquired p)) (num_waiting_cold_reset_ack p)
    (num_waiting_shutdown_ack p) (restart_type p) (dbg_info_present p) (dbg_info p)).
Definition set_num_cold (f : Z -> Z) : A_ unit :=
  on_pending (fun p => mk_pending (reject_requests p) (num_acquired p) (f (num_waiting_cold_reset_ack p))
    (num_waiting_shutdown_ack p) (restart_type p) (dbg_info_present p) (dbg_info p)).
Definition set_num_shutdown (f : Z -> Z) : A_ unit :=
  on_pending (fun p => mk_pending (reject_requests p) (num_acquired p) (num_waiting_cold_reset_ack p)
    (f (num_waiting_shutdown_ack p)) (restart_type p) (dbg_info_present p) (dbg_info p)).
Definition set_restart_type (t : option crm_ctrl_restart_type) : A_ unit :=
  on_pending (fun p => mk_pending (reject_requests p) (num_acquired p) (num_waiting_cold_reset_ack p)
    (num_waiting_shutdown_ack p) t (dbg_info_present p) (dbg_info p)).
Definition set_dbg (present : bool) (d : mdm_cli_dbg_info) : A_ unit :=
  on_pending (fun p => mk_pending (reject_requests p) (num_acquired p) (num_waiting_cold_reset_ack p)
    (num_waiting_shutdown_ack p) (restart_type p) present d).

(** [i_ctx->clients[idx]]. *)
Definition get_client (idx : Z) : A_ crm_client :=
  let* s := get in
  match (if idx <? 0 then None else clients (mgmt s) !! Z.to_nat idx) with
  | Some c => ret c
  | None => fail (Undefined "i_ctx->clients[client_idx]")
  end.
Definition set_client (idx : Z) (c : crm_client) : A_ unit :=
  let* s := get in set_clients (<[Z.to_nat idx := c]> (clients (mgmt s))).
(** [i_ctx->pfd[2 + idx].fd]. *)
Definition get_fd (idx : Z) : A_ Z :=
  let* s := get in
  match (if idx <? 0 then None else pfd (mgmt s) !! (2 + Z.to_nat idx)%nat) with
  | Some fd => ret fd
  | None => fail (Undefined "i_ctx->pfd[2 + client_idx]")
  end.
(** [(i_ctx->to_clean & (1u << client_idx)) != 0]; shifting by 32 or more is
    undefined. *)
Definition is_to_clean (idx : Z) : A_ bool :=
  let* s := get in
  if (0 <=? idx) && (idx <? 32) then ret (Z.testbit (to_clean (mgmt s)) idx)
  else fail (Undefined "1u << client_idx").
Definition is_waiting : A_ bool :=
  gets (fun s => negb (num_waiting_cold_reset_ack (pending s) =? 0)
                 || negb (num_waiting_shutdown_ack (pending s) =? 0)).

End context.

(** ** Operations *)

Section operations.
Context `{MdmCli} {W : Type} `{WakelockOps W} (clock : nat -> timespec) (send_ok : nat -> bool).
#[local] Abbreviation cla := (crm_cli_abs_internal_ctx W).
#[local] Abbreviation A_ T := (M cla cla_out T).

(** [clock_gettime(CLOCK_BOOTTIME)]. *)
Definition read_clock : A_ timespec :=
  let* s := get in next_read ;; ret (clock (clock_reads s)).

(** [UNKNOWN] and [BUSY] are both down for the clients. *)
Definition map_modem_state_to_cli_event (mdm_state : crm_cli_abs_mdm_state) : Z :=
  match mdm_state with
  | MDM_STATE_OFF => MDM_DOWN
  | MDM_STATE_UNRESP => MDM_OOS
  | MDM_STATE_PLATFORM_REBOOT => MDM_OOS
  | MDM_STATE_BUSY => MDM_DOWN
  | MDM_STATE_READY => MDM_UP
  | MDM_STATE_UNKNOWN => MDM_DOWN
  end.

Definition get_restart_type (cause : Z) : A_ crm_ctrl_restart_type :=
  if cause =? RESTART_MDM_ERR then ret CTRL_MODEM_RESTART
  else if cause =? RESTART_APPLY_UPDATE then ret CTRL_MODEM_UPDATE
  else fail (AssertFail "0").

Definition handle_client_unregister (client_idx : Z) : A_ unit :=
  let* cleaned := is_to_clean client_idx in
  ASSERT "(i_ctx->to_clean & (1u << client_idx)) == 0" (negb cleaned) ;;
  let* c := get_client client_idx in
  when (registered c)
    (when (acquired c)
       (set_client client_idx (mk_client (registered c) (name c) (events_bitmap c) false
          (waiting_cold_reset_ack c) (waiting_shutdown_ack c)) ;;
        set_num_acquired (fun n => n - 1) ;;
        let* s := get in
        ASSERT "i_ctx->num_acquired >= 0" (0 <=? num_acquired (pending s))) ;;
     let* c := get_client client_idx in
     when (waiting_cold_reset_ack c)
       (set_client client_idx (mk_client (registered c) (name c) (events_bitmap c) (acquired c)
          false (waiting_shutdown_ack c)) ;;
        set_num_cold (fun n => n - 1) ;;
        let* s := get in
        ASSERT "i_ctx->num_waiting_cold_reset_ack >= 0" (0 <=? num_waiting_cold_reset_ack (pending s))) ;;
     let* c := get_client client_idx in
     when (waiting_shutdown_ack c)
       (set_client client_idx (mk_client (registered c) (name c) (events_bitmap c) (acquired c)
          (waiting_cold_reset_ack c) false) ;;
        set_num_shutdown (fun n => n - 1) ;;
        let* s := get in
        ASSERT "i_ctx->num_waiting_shutdown_ack >= 0" (0 <=? num_waiting_shutdown_ack (pending s)))) ;;
  let* s := get in
  set_to_clean (Z.lor (to_clean (mgmt s)) (Z.shiftl 1 client_idx)).

(** [(1u << event) & i_ctx->clients[client_idx].events_bitmap]. *)
Definition wants_event (c : crm_client) (event : Z) : A_ bool :=
  if (0 <=? event) && (event <? 32) then ret (Z.testbit (u32 (events_bitmap c)) event)
  else fail (Undefined "1u << event").

(** The acknowledgement that an event asks for. *)
Definition mark_waiting (client_idx event : Z) (c : crm_client) : A_ unit :=
  if event =? MDM_COLD_RESET then
    let* s := get in
    ASSERT "i_ctx->num_waiting_shutdown_ack == 0" (num_waiting_shutdown_ack (pending s) =? 0) ;;
    set_client client_idx (mk_client (registered c) (name c) (events_bitmap c) (acquired c)
      true (waiting_shutdown_ack c)) ;;
    set_num_cold (fun n => n + 1)
  else when (event =? MDM_SHUTDOWN)
    (let* s := get in
     ASSERT "i_ctx->num_waiting_cold_reset_ack == 0" (num_waiting_cold_reset_ack (pending s) =? 0) ;;
     set_client client_idx (mk_client (registered c) (name c) (events_bitmap c) (acquired c)
       (waiting_cold_reset_ack c) true) ;;
     set_num_shutdown (fun n => n + 1)).

(** [serialized] is the message of the buffer; without it the message is built
    and serialized by [send_msg]. *)
Definition notify_cli_event_single (client_idx event : Z) (serialized : option crm_mdmcli_wire_msg) : A_ unit :=
  let* cleaned := is_to_clean client_idx in
  ASSERT "(i_ctx->to_clean & (1u << client_idx)) == 0" (negb cleaned) ;;
  let* c := get_client client_idx in
  let* wanted := wants_event c event in
  when wanted
    (named (crm_mdmcli_wire_req_to_string event) ;;
     mark_waiting client_idx event c ;;
     let* m := (match serialized with
                | Some m => ret m
                | None => serialize (mk_wire_msg event NoData) ;; ret (mk_wire_msg event NoData)
                end) in
     let* fd := get_fd client_idx in
     let* s := get in
     let sent := send_ok (sends s) in
     next_send ;;
     emit (ToClient fd m sent) ;;
     when (negb sent) (handle_client_unregister client_idx)).

(** The indices of the [for] loops over the clients. *)
Definition upto (n : Z) : list Z := seqZ 0 n.

Definition notify_cli_event_all (event : Z) (serialized : option crm_mdmcli_wire_msg) : A_ unit :=
  named (crm_mdmcli_wire_req_to_string event) ;;
  let* s := get in
  for_each (upto (num_clients (mgmt s))) (fun client_idx =>
    let* cleaned := is_to_clean client_idx in
    when (negb cleaned) (notify_cli_event_single client_idx event serialized)).

(** Serializing a message without data and notifying it to all. *)
Definition notify_event_all (event : Z) : A_ unit :=
  serialize (mk_wire_msg event NoData) ;;
  notify_cli_event_all event (Some (mk_wire_msg event NoData)).

Definition failsafe (p : unit) : A_ Z := DASSERT "not implemented" false ;; ret (-1).
Definition assert (p : unit) : A_ Z := ASSERT "0" false ;; ret (-1).

Definition no_request : A_ unit :=
  let* s := get in
  ASSERT "i_ctx->request_in_progress == false" (negb (request_in_progress (itf s))).

Definition client_acquire (p : unit) : A_ Z :=
  no_request ;;
  set_request_in_progress true ;;
  emit CtrlStart ;;
  ret ST_STARTING.

Definition start_ack_timer : A_ unit :=
  let* now := read_clock in
  on_timers (fun t => mk_timers (crm_time_add_ms now 1000) (timer_boot_end t) (timer_boot_armed t)) ;;
  let* held := on_wakelock (wl_is_held_by_module WAKELOCK_CLA) in
  when (negb held) (on_wakelock (wl_acquire WAKELOCK_CLA)).

(** The timeout of [poll] and the timers it stands for. *)
Definition get_timeout : A_ (Z * Z) :=
  let* waiting := is_waiting in
  let* r := (if waiting then
               let* now := read_clock in
               let* s := get in
               ret (crm_time_get_remain_ms now (timer_ack_end (timers s)), TIMEOUT_ACK_IDX)
             else ret (-1, 0)) in
  let '(timeout, idx) := r in
  let* s := get in
  if timer_boot_armed (timers s) then
    let* now := read_clock in
    let tmp := crm_time_get_remain_ms now (timer_boot_end (timers s)) in
    if timeout =? tmp then ret (timeout, Z.lor idx TIMEOUT_BOOT_IDX)
    else if (timeout <? 0) || (0 <? timeout) && (tmp <? timeout) then ret (tmp, TIMEOUT_BOOT_IDX)
    else ret (timeout, idx)
  else ret (timeout, idx).

Definition request_stop : A_ Z :=
  no_request ;;
  set_request_in_progress true ;;
  emit CtrlStop ;;
  ret ST_STOPPING.

Definition request_restart (type : crm_ctrl_restart_type) (d : option mdm_cli_dbg_info) : A_ Z :=
  no_request ;;
  set_request_in_progress true ;;
  emit (CtrlRestart type d) ;;
  ret ST_STARTING.

(** [control_ctx->restart(restart_type, dbg_info_present ? &dbg_info : NULL)];
    0 is not a restart type: [crm_ctrl_restart] refuses it. *)
Definition request_pending_restart : A_ Z :=
  let* s := get in
  let p := pending s in
  match restart_type p with
  | Some t => request_restart t (if dbg_info_present p then Some (dbg_info p) else None)
  | None => fail (AssertFail "0")
  end.

Definition start_shutdown_procedure : A_ Z :=
  notify_event_all MDM_SHUTDOWN ;;
  let* s := get in
  when (negb (fake_modem_state (itf s))) (notify_event_all MDM_DOWN) ;;
  set_fake_modem_state true ;;
  set_modem_state MDM_STATE_OFF ;;
  let* s := get in
  if num_waiting_shutdown_ack (pending s) =? 0 then request_stop
  else start_ack_timer ;; ret ST_ACK_WAITING_SHTDWN.

Definition start_restart_procedure : A_ Z :=
  let* s := get in
  when (negb (bool_decide (modem_state (itf s) = MDM_STATE_BUSY)))
    (notify_event_all MDM_DOWN ;;
     let* s := get in
     ASSERT "!i_ctx->fake_modem_state" (negb (fake_modem_state (itf s))) ;;
     set_modem_state MDM_STATE_BUSY ;;
     set_fake_modem_state true) ;;
  notify_event_all MDM_COLD_RESET ;;
  let* s := get in
  if num_waiting_cold_reset_ack (pending s) =? 0 then request_pending_restart
  else start_ack_timer ;; ret ST_ACK_WAITING_COLD.

Definition mdm_busy (p : unit) : A_ Z :=
  set_restart_type (Some CTRL_MODEM_RESTART) ;;
  start_restart_procedure.

Definition check_pending_up (p : unit) : A_ Z :=
  let* s := get in
  if request_in_progress (itf s) || negb (bool_decide (modem_state (itf s) = MDM_STATE_READY)) then ret (-1)
  else if num_acquired (pending s) =? 0 then start_shutdown_procedure
  else if bool_decide (restart_type (pending s) <> None) then start_restart_procedure
  else ret ST_UP.

Definition check_pending_down (p : unit) : A_ Z :=
  let* s := get in
  if request_in_progress (itf s) || negb (bool_decide (modem_state (itf s) = MDM_STATE_OFF)) then ret (-1)
  else if 0 <? num_acquired (pending s) then
    set_request_in_progress true ;;
    emit CtrlStart ;;
    ret ST_STARTING
  else ret ST_OFF.

Definition client_release (p : unit) : A_ Z := start_shutdown_procedure.
Definition client_restart (p : unit) : A_ Z := start_restart_procedure.

Definition client_acked_cold (p : unit) : A_ Z :=
  let* s := get in
  if bool_decide (modem_state (itf s) = MDM_STATE_UNRESP) then ret ST_OFF
  else if num_acquired (pending s) =? 0 then start_shutdown_procedure
  else if bool_decide (restart_type (pending s) <> None) then request_pending_restart
  else
    no_request ;;
    ASSERT "i_ctx->real_modem_state == MDM_STATE_BUSY" (bool_decide (real_modem_state (itf s) = MDM_STATE_BUSY)) ;;
    request_restart CTRL_MODEM_RESTART None.

Definition client_acked_shtdwn (p : unit) : A_ Z :=
  let* s := get in
  if num_acquired (pending s) =? 0 then request_stop
  else if bool_decide (restart_type (pending s) <> None) then start_restart_procedure
  else if bool_decide (real_modem_state (itf s) = MDM_STATE_READY) then request_stop
  else
    set_fake_modem_state false ;;
    set_modem_state (real_modem_state (itf s)) ;;
    ASSERT "i_ctx->real_modem_state == MDM_STATE_BUSY" (bool_decide (real_modem_state (itf s) = MDM_STATE_BUSY)) ;;
    request_restart CTRL_MODEM_RESTART None.

Definition check_failure (p : unit) : A_ Z :=
  let* s := get in
  when (negb (bool_decide (modem_state (itf s) = MDM_STATE_UNRESP)))
    (emit (SelfNotify (mk_dbg DBG_TYPE_ERROR DBG_DEFAULT_LOG_SIZE DBG_DEFAULT_NO_LOG DBG_DEFAULT_NO_LOG
       ["mismatch between CLA and control"; crm_cli_abs_mdm_state_to_string (modem_state (itf s))])) ;;
     DASSERT "Wrong modem state notification received from control" false) ;;
  ret (-1).

(** ** The transition table *)

Definition keep (f : unit -> A_ Z) : crm_fsm_ops cla cla_out unit := mk_op (-1) (Some f).
Definition none : crm_fsm_ops cla cla_out unit := mk_op (-1) None.
Definition to (st : Z) : crm_fsm_ops cla cla_out unit := mk_op st None.

Definition cla_fsm_rows : list (list (crm_fsm_ops cla cla_out unit)) :=
  [ (* ST_INITIAL             ST_OFF               ST_STARTING            ST_UP                ST_ACK_WAITING_COLD     ST_ACK_WAITING_SHTDWN     ST_STOPPING *)
   [keep assert;             keep assert;         keep check_pending_up; keep assert;         keep assert;            keep assert;              keep check_pending_down];
   [keep assert;             keep check_failure;  keep assert;           keep assert;         keep assert;            keep assert;              to ST_OFF];
   [keep check_pending_down; keep assert;         keep assert;           keep assert;         keep assert;            keep assert;              keep check_pending_down];
   [keep assert;             to ST_OFF;           to ST_OFF;             keep assert;         none;                   keep assert;              none];
   [keep assert;             keep assert;         none;                  keep mdm_busy;       none;                   none;                     none];
   [keep check_pending_up;   keep assert;         keep check_pending_up; keep assert;         keep assert;            keep assert;              keep assert];
   [none;                    keep client_acquire; none;                  keep assert;         none;                   none;                     none];
   [none;                    keep check_failure;  none;                  keep client_release; none;                   none;                     none];
   [none;                    keep assert;         none;                  keep client_restart; keep assert;            none;                     keep assert];
   [none;                    keep assert;         keep assert;           keep assert;         keep client_acked_cold; keep client_acked_shtdwn; keep assert]].

Definition cla_fsm_array : list (crm_fsm_ops cla cla_out unit) := concat cla_fsm_rows.

Definition state_trans (prev_state new_state evt : Z) (p : unit) : A_ unit :=
  ASSERT "new_state != ST_INITIAL" (negb (new_state =? ST_INITIAL)).

Definition cla_cfg : fsm_cfg cla cla_out unit :=
  mk_cfg cla_fsm_array EV_NUM ST_NUM None (Some state_trans) failsafe "CLA" get_state_txt get_event_txt.

(** ** Messages of CTRL *)

#[local] Abbreviation F := (fsm_st cla).
#[local] Abbreviation F_ T := (M F cla_out T).

Definition cla_event (evt : Z) : F_ unit := notify_event cla_cfg evt tt.

(** The tail of the modem state case: the clients are told when the state they
    see changes, and the state machine is. *)
Definition change_modem_state (modem_st : crm_cli_abs_mdm_state) (send_cli_msg : bool) : F_ unit :=
  on_param (
    let* s := get in
    let cli_evt := map_modem_state_to_cli_event modem_st in
    when (send_cli_msg && (bool_decide (modem_state (itf s) = MDM_STATE_UNKNOWN)
            || negb (cli_evt =? map_modem_state_to_cli_event (modem_state (itf s)))))
      (notify_event_all cli_evt) ;;
    set_modem_state modem_st) ;;
  cla_event (mdm_state_id modem_st - mdm_state_id MDM_STATE_OFF + EV_MDM_OFF).

(** The fake state and whether the state is filtered; the two assertions of
    the source on [i_ctx->modem_state] cannot fail. *)
Definition filter_modem_state (modem_st : crm_cli_abs_mdm_state) : A_ bool :=
  let* s := get in
  if fake_modem_state (itf s) then
    ASSERT "(modem_state == OFF && modem_state == READY) == false"
      (negb (bool_decide (modem_state (itf s) = MDM_STATE_OFF) && bool_decide (modem_state (itf s) = MDM_STATE_READY))) ;;
    ASSERT "(modem_state == BUSY && (modem_state == READY || modem_state == OFF)) == false"
      (negb (bool_decide (modem_state (itf s) = MDM_STATE_BUSY)
             && (bool_decide (modem_state (itf s) = MDM_STATE_READY) || bool_decide (modem_state (itf s) = MDM_STATE_OFF)))) ;;
    if bool_decide (modem_st = MDM_STATE_UNRESP) then set_fake_modem_state false ;; ret false
    else when (bool_decide (modem_state (itf s) = modem_st)) (set_fake_modem_state false) ;; ret true
  else ret false.

Definition handle_modem_state (payload : crm_cli_abs_mdm_state) : F_ unit :=
  let reboot := bool_decide (payload = MDM_STATE_PLATFORM_REBOOT) in
  let modem_st := if reboot then MDM_STATE_UNRESP else payload in
  let* filter_state := on_param (
    set_real_modem_state modem_st ;;
    (if bool_decide (modem_st = MDM_STATE_READY) || bool_decide (modem_st = MDM_STATE_OFF) then set_restart_type None
     else when (bool_decide (modem_st = MDM_STATE_UNRESP)) (set_reject_requests true)) ;;
    let* s := get in
    ASSERT "i_ctx->modem_state != MDM_STATE_UNRESP" (negb (bool_decide (modem_state (itf s) = MDM_STATE_UNRESP))) ;;
    filter_modem_state modem_st) in
  let* f := get in
  when (negb filter_state && negb (bool_decide (modem_state (itf (fsm_param f)) = modem_st)))
    (change_modem_state modem_st (negb reboot)).

(** [true] when the thread has to stop.  A state that is not one of the
    enumeration has no name for the log. *)
Definition handle_control_msg (msg : cla_msg) : F_ bool :=
  if fst msg =? -1 then ret true else
  let payload := i32 (CLI_ABS_GET_MSG_PAYLOAD (fst msg)) in
  let type := CLI_ABS_GET_MSG_TYPE (fst msg) in
  (if type =? CLI_ABS_MSG_NOTIFY_OPERATION_RESULT then
     on_param (set_request_in_progress false) ;;
     cla_event (if payload =? 0 then EV_SUCCESS else EV_FAILURE)
   else if type =? CLI_ABS_MSG_NOTIFY_CLIENT then
     named (crm_mdmcli_wire_req_to_string payload) ;;
     match snd msg with
     | Some m => on_param (notify_cli_event_all payload (Some m))
     | None => fail (AssertFail "msg->data != NULL")
     end
   else when (type =? CLI_ABS_MSG_NOTIFY_MODEM_STATE)
     match mdm_state_of payload with
     | Some st => handle_modem_state st
     | None => fail (AssertFail "0")
     end) ;;
  ret false.

(** ** Messages of the clients *)

Definition trunc (size : Z) (s : string) : string := String.substring 0 (Z.to_nat (size - 1)) s.

Definition handle_register (client_idx bitmap : Z) (client_name : string) : A_ unit :=
  let* c := get_client client_idx in
  if registered c then handle_client_unregister client_idx
  else
    set_client client_idx (mk_client true (trunc MDM_CLI_NAME_LEN client_name) bitmap (acquired c)
      (waiting_cold_reset_ack c) (waiting_shutdown_ack c)) ;;
    let* s := get in
    when (negb (bool_decide (modem_state (itf s) = MDM_STATE_UNKNOWN)))
      (notify_cli_event_single client_idx (map_modem_state_to_cli_event (modem_state (itf s))) None).

Definition handle_acquire (client_idx : Z) : A_ unit :=
  let* s := get in
  when (negb (reject_requests (pending s)))
    (let* c := get_client client_idx in
     when (negb (acquired c))
       (set_client client_idx (mk_client (registered c) (name c) (events_bitmap c) true
          (waiting_cold_reset_ack c) (waiting_shutdown_ack c)) ;;
        set_num_acquired (fun n => n + 1))).

Definition handle_release (client_idx : Z) : A_ unit :=
  let* s := get in
  when (negb (reject_requests (pending s)))
    (let* c := get_client client_idx in
     when (acquired c)
       (set_client client_idx (mk_client (registered c) (name c) (events_bitmap c) false
          (waiting_cold_reset_ack c) (waiting_shutdown_ack c)) ;;
        set_num_acquired (fun n => n - 1) ;;
        let* s := get in
        ASSERT "i_ctx->num_acquired >= 0" (0 <=? num_acquired (pending s)))).

(** The strings are copied with [strncpy]. *)
Definition copy_dbg (d : mdm_cli_dbg_info) : mdm_cli_dbg_info :=
  mk_dbg (dbg_type d) (ap_logs_size d) (bp_logs_size d) (bp_logs_time d)
    (trunc MDM_CLI_MAX_LEN_DATA <$> dbg_data d).

Definition handle_restart (cause : Z) (debug : option mdm_cli_dbg_info) : F_ unit :=
  let* f := get in
  let s := fsm_param f in
  let ignore := bool_decide (restart_type (pending s) <> None)
                || negb (bool_decide (real_modem_state (itf s) = MDM_STATE_READY))
                || reject_requests (pending s) in
  named (crm_mdmcli_restart_cause_to_string cause) ;;
  match debug with Some d => named (crm_mdmcli_dbg_type_to_string (dbg_type d)) | None => ret tt end ;;
  when (negb ignore)
    (on_param (
       let* t := get_restart_type cause in
       set_restart_type (Some t) ;;
       let* s := get in
       match debug with
       | Some d =>
           ASSERT "msg->msg.restart.debug->nb_data <= MDM_CLI_MAX_NB_DATA"
             (Z.of_nat (length (dbg_data d)) <=? MDM_CLI_MAX_NB_DATA) ;;
           set_dbg true (copy_dbg d)
       | None => set_dbg false (dbg_info (pending s))
       end) ;;
     cla_event EV_CLI_RESTART).

Definition handle_ack_cold_reset (client_idx : Z) : A_ unit :=
  let* c := get_client client_idx in
  when (waiting_cold_reset_ack c)
    (set_client client_idx (mk_client (registered c) (name c) (events_bitmap c) (acquired c) false
       (waiting_shutdown_ack c)) ;;
     set_num_cold (fun n => n - 1) ;;
     let* s := get in
     ASSERT "i_ctx->num_waiting_cold_reset_ack >= 0" (0 <=? num_waiting_cold_reset_ack (pending s))).

Definition handle_ack_shutdown (client_idx : Z) : A_ unit :=
  let* c := get_client client_idx in
  when (waiting_shutdown_ack c)
    (set_client client_idx (mk_client (registered c) (name c) (events_bitmap c) (acquired c)
       (waiting_cold_reset_ack c) false) ;;
     set_num_shutdown (fun n => n - 1) ;;
     let* s := get in
     ASSERT "i_ctx->num_waiting_shutdown_ack >= 0" (0 <=? num_waiting_shutdown_ack (pending s))).

Definition handle_notify_dbg (debug : option mdm_cli_dbg_info) : A_ unit :=
  match debug with Some d => named (crm_mdmcli_dbg_type_to_string (dbg_type d)) | None => ret tt end ;;
  serialize (mk_wire_msg MDM_DBG_INFO (Debug debug)) ;;
  notify_cli_event_all MDM_DBG_INFO (Some (mk_wire_msg MDM_DBG_INFO (Debug debug))).

(** The [switch] on the identifier, once the message is accepted. *)
Definition client_request (client_idx : Z) (m : crm_mdmcli_wire_msg) : F_ unit :=
  let id := msg_id m in
  if is_register id then
    match msg m with
    | RegisterClient bitmap client_name => on_param (handle_register client_idx bitmap client_name)
    | _ => fail (Undefined "msg.register_client")
    end
  else if id =? CRM_REQ_ACQUIRE then on_param (handle_acquire client_idx)
  else if id =? CRM_REQ_RELEASE then on_param (handle_release client_idx)
  else if id =? CRM_REQ_RESTART then
    match msg m with
    | Restart cause debug => handle_restart cause debug
    | _ => fail (Undefined "msg.restart")
    end
  else if id =? CRM_REQ_SHUTDOWN then
    on_param (set_reject_requests true ;; set_num_acquired (fun _ => 0))
  else if id =? CRM_REQ_NVM_BACKUP then
    on_param (set_restart_type (Some CTRL_BACKUP_NVM)) ;; cla_event EV_CLI_RESTART
  else if id =? CRM_REQ_ACK_COLD_RESET then on_param (handle_ack_cold_reset client_idx)
  else if id =? CRM_REQ_ACK_SHUTDOWN then on_param (handle_ack_shutdown client_idx)
  else when (id =? CRM_REQ_NOTIFY_DBG)
    match msg m with
    | Debug debug => on_param (handle_notify_dbg debug)
    | _ => fail (Undefined "msg.debug")
    end.

Definition handle_client_msg (client_idx : Z) (m : crm_mdmcli_wire_msg) : F_ unit :=
  let id := msg_id m in
  let* cleaned := on_param (is_to_clean client_idx) in
  if cleaned then named (crm_mdmcli_wire_req_to_string id) else
  when (negb (is_register id) && negb (id =? CRM_REQ_RESTART) && negb (id =? CRM_REQ_NOTIFY_DBG))
    (named (crm_mdmcli_wire_req_to_string id)) ;;
  let* f := get in
  let sanity := sanity_test_mode (fsm_param f) in
  if (id =? CRM_REQ_REGISTER) && sanity || (id =? CRM_REQ_REGISTER_DBG) && negb sanity then
    on_param (handle_client_unregister client_idx)
  else
    let* c := on_param (get_client client_idx) in
    if negb (is_register id) && negb (registered c) then on_param (handle_client_unregister client_idx)
    else client_request client_idx m.

(** ** Removing the disconnected clients *)

(** [memmove(&a[j], &a[j + 1], count)]. *)
Definition memmove_down {T} (j count : nat) (a : list T) : list T :=
  take j a ++ take count (drop (S j) a) ++ drop (j + count) a.

(** The [for] loop on [i], with [j] and [n] (the local [num_clients]); the
    result is the final [n]. *)
Fixpoint clean_loop (idxs : list Z) (j n : nat) : A_ nat :=
  match idxs with
  | [] => ret n
  | i :: idxs =>
      let* cleaned := is_to_clean i in
      if cleaned then
        let* fd := get_fd (Z.of_nat j) in
        emit (CloseFd fd) ;;
        when (negb (j =? n - 1)%nat)
          (on_mgmt (fun m => mk_mgmt (num_clients m) (memmove_down j (n - j - 1) (clients m))
             (memmove_down (2 + j) (n - j - 1) (pfd m)) (to_clean m))) ;;
        clean_loop idxs j (n - 1)
      else clean_loop idxs (S j) n
  end.

Definition update_client_list : A_ unit :=
  let* s := get in
  when (negb (to_clean (mgmt s) =? 0))
    (let* n := clean_loop (upto (num_clients (mgmt s))) 0 (Z.to_nat (num_clients (mgmt s))) in
     on_mgmt (fun m => mk_mgmt (Z.of_nat n) (clients m) (pfd m) (to_clean m))).

(** ** The main loop *)

(** What [poll] reports for one descriptor: nothing, an error or hang-up, or
    data to read. *)
Inductive revents (T : Type) : Type := RevNone | RevErr | RevIn (data : T).
#[global] Arguments RevNone {T}.
#[global] Arguments RevErr {T}.
#[global] Arguments RevIn {T} data.

(** One return of [poll]: a timeout, or the messages of the queue, the socket
    of a new client (negative when [accept] fails), and for each client the
    message received ([None] when [recv_msg] fails). *)
Inductive poll_result : Type :=
| PollTimeout
| PollReady (ipc : revents (list cla_msg)) (server : revents Z)
    (from_clients : list (revents (option crm_mdmcli_wire_msg))).

(** The [while (get_msg)] loop; [true] when the thread has to stop. *)
Fixpoint handle_control_msgs (l : list cla_msg) : F_ bool :=
  match l with
  | [] => ret false
  | m :: l =>
      let* e := handle_control_msg m in
      let* e' := handle_control_msgs l in
      ret (e || e')
  end.

Definition main_error {T} : F_ T := fail (DAssertFail "unable to handle errors on main socket / IPC socket, aborting!").

Definition ipc_item (r : revents (list cla_msg)) : F_ bool :=
  match r with
  | RevNone => ret false
  | RevErr => main_error
  | RevIn l => handle_control_msgs l
  end.

Definition accept_client (client_sock : Z) : A_ unit :=
  when (0 <=? client_sock)
    (let* s := get in
     ASSERT "i_ctx->num_clients < MAX_CLIENTS" (num_clients (mgmt s) <? MAX_CLIENTS) ;;
     on_mgmt (fun m => mk_mgmt (num_clients m + 1) (<[Z.to_nat (num_clients m) := no_client]> (clients m))
       (<[(2 + Z.to_nat (num_clients m))%nat := client_sock]> (pfd m)) (to_clean m))).

Definition server_item (r : revents Z) : F_ unit :=
  match r with
  | RevNone => ret tt
  | RevErr => main_error
  | RevIn client_sock => on_param (accept_client client_sock)
  end.

Definition unregister_once (client_idx : Z) : A_ unit :=
  let* cleaned := is_to_clean client_idx in
  when (negb cleaned) (handle_client_unregister client_idx).

Definition client_item (client_idx : Z) (r : revents (option crm_mdmcli_wire_msg)) : F_ unit :=
  match r with
  | RevNone => ret tt
  | RevErr => on_param (unregister_once client_idx)
  | RevIn (Some m) => handle_client_msg client_idx m
  | RevIn None => on_param (unregister_once client_idx)
  end.

(** The event raised after each descriptor, from what has changed since. *)
Definition raise_event (was_acquired was_waiting : bool) : F_ unit :=
  let* evt := on_param (
    let* waiting := is_waiting in
    let evt := if was_waiting && negb waiting then EV_CLI_ACKED else EV_NONE in
    let* s := get in
    if was_acquired && (num_acquired (pending s) =? 0) then
      if evt =? EV_CLI_ACKED then set_restart_type None ;; ret evt else ret EV_CLI_RELEASE
    else if negb was_acquired && negb (num_acquired (pending s) =? 0) then
      ASSERT "evt == EV_NONE" (evt =? EV_NONE) ;; ret EV_CLI_ACQUIRE
    else ret evt) in
  when (negb (evt =? EV_NONE)) (cla_event evt).

(** The body of the [for] loop over the descriptors. *)
Definition item {T} (body : F_ T) : F_ T :=
  let* f := get in
  let was_acquired := negb (num_acquired (pending (fsm_param f)) =? 0) in
  let* was_waiting := on_param is_waiting in
  let* r := body in
  raise_event was_acquired was_waiting ;;
  ret r.

(** The clients stop being waited for. *)
Definition clear_waiting : A_ unit :=
  let* s := get in
  for_each (upto (num_clients (mgmt s))) (fun i =>
    let* c := get_client i in
    set_client i (mk_client (registered c) (name c) (events_bitmap c) (acquired c) false false)) ;;
  set_num_cold (fun _ => 0) ;;
  set_num_shutdown (fun _ => 0).

Definition handle_timeout (idx : Z) : F_ unit :=
  ASSERT "idx != 0" (negb (idx =? 0)) ;;
  let* held := on_param (on_wakelock (wl_is_held_by_module WAKELOCK_CLA)) in
  ASSERT "i_ctx->wakelock->is_held_by_module(i_ctx->wakelock, WAKELOCK_CLA) == true" held ;;
  when (negb (Z.land TIMEOUT_BOOT_IDX idx =? 0))
    (on_param (
       let* now := read_clock in
       on_timers (fun t => mk_timers (timer_ack_end t) (timer_boot_end t)
         (0 <? crm_time_get_remain_ms now (timer_boot_end t))))) ;;
  when (negb (Z.land TIMEOUT_ACK_IDX idx =? 0)) (on_param clear_waiting ;; cla_event EV_CLI_ACKED) ;;
  on_param (
    let* waiting := is_waiting in
    let* s := get in
    when (negb (timer_boot_armed (timers s)) && negb waiting) (on_wakelock (wl_release WAKELOCK_CLA))).

Definition handle_ready (ipc : revents (list cla_msg)) (server : revents Z)
    (from_clients : list (revents (option crm_mdmcli_wire_msg))) : F_ bool :=
  on_param (set_to_clean 0) ;;
  let* end_thread := item (ipc_item ipc) in
  item (server_item server) ;;
  let* f := get in
  for_each (upto (num_clients (mgmt (fsm_param f)))) (fun i =>
    item (client_item i (default RevNone (from_clients !! Z.to_nat i)))) ;;
  on_param update_client_list ;;
  ret (negb end_thread).

(** One turn of [while (running)]; the result tells whether it goes on.  [poll]
    waits for ever when its timeout is negative. *)
Definition main_turn (r : poll_result) : F_ bool :=
  let* t := on_param get_timeout in
  let '(timeout, idx) := t in
  when (timeout =? -1)
    (on_param (
       let* held := on_wakelock (wl_is_held_by_module WAKELOCK_CLA) in
       when held (on_wakelock (wl_release WAKELOCK_CLA)))) ;;
  match r with
  | PollTimeout =>
      if timeout <? 0 then fail (Stuck "poll without timeout") else handle_timeout idx ;; ret true
  | PollReady ipc server from_clients => handle_ready ipc server from_clients
  end.

Fixpoint main_turns (l : list poll_result) : F_ bool :=
  match l with
  | [] => ret true
  | r :: l => let* running := main_turn r in if running then main_turns l else ret false
  end.

(** [main_loop] before its [while]: [server_sock] is what [crm_socket_create]
    returns. *)
Definition main_loop_start (ipc_fd server_sock : Z) : A_ unit :=
  DASSERT "get control socket failed" (0 <=? server_sock) ;;
  on_mgmt (fun m => mk_mgmt (num_clients m) (clients m) (<[0%nat := ipc_fd]> (<[1%nat := server_sock]> (pfd m)))
    (to_clean m)) ;;
  let* _ := read_clock in
  let* now := read_clock in
  on_timers (fun t => mk_timers (timer_ack_end t) (crm_time_add_ms now 2000) true) ;;
  on_wakelock (wl_acquire WAKELOCK_CLA).

(** [crm_cli_abs_init]; [w] is the wakelock it is given. *)
Definition crm_cli_abs_init (fmmo sanity_mode : bool) (w : W) : cla :=
  mk_cla fmmo sanity_mode
    (mk_mgmt 0 (replicate (Z.to_nat MAX_CLIENTS) no_client) (replicate (2 + Z.to_nat MAX_CLIENTS) 0) 0)
    (mk_itf MDM_STATE_UNKNOWN MDM_STATE_UNKNOWN false false)
    (mk_pending false (if fmmo then 0 else 1) 0 0 None false (mk_dbg 0 0 0 0 []))
    (mk_timers (mk_timespec 0 0) (mk_timespec 0 0) false) w 0 0.

Definition main_loop (ipc_fd server_sock : Z) (l : list poll_result) (s : cla) : outcome F cla_out bool :=
  (on_param (main_loop_start ipc_fd server_sock) ;; main_turns l) (mk_fsm_st ST_INITIAL s).

End operations.
