(* ===== verification/ClaClients.v ===== *)
(** * Removing the disconnected clients of CLA

    [update_client_list] compacts the arrays [clients] and [pfd] in place with
    [memmove].  Its reference is the list of the entries whose bit is not set in
    [to_clean]. *)

From S2P Require Import Prelude Wakelock MdmCli Wire Control CtrlApi Cla.
From Stdlib Require Import ZArith Lia.
From stdpp Require Import base tactics list list_numbers strings option.

Open Scope Z_scope.
Open Scope crm_scope.

(** The entries of [l], the first of which has index [i], that stay and that
    go. *)
Fixpoint kept {T} (mask i : Z) (l : list T) : list T :=
  match l with
  | [] => []
  | x :: l => if Z.testbit mask i then kept mask (i + 1) l else x :: kept mask (i + 1) l
  end.

Fixpoint removed {T} (mask i : Z) (l : list T) : list T :=
  match l with
  | [] => []
  | x :: l => if Z.testbit mask i then x :: removed mask (i + 1) l else removed mask (i + 1) l
  end.

Lemma kept_nothing {T} i (l : list T) : kept 0 i l = l /\ removed 0 i l = [].
Proof.
  revert i. induction l as [|x l IH]; intros i; [done|]. cbn. rewrite Z.bits_0.
  destruct (IH (i + 1)) as [-> ->]. done.
Qed.

Lemma kept_le {T} mask i (l : list T) : (length (kept mask i l) <= length l)%nat.
Proof.
  revert i. induction l as [|x l IH]; intros i; cbn; [done|].
  destruct (Z.testbit mask i); cbn; specialize (IH (i + 1)); lia.
Qed.

(** One step of the compaction. *)
Lemma memmove_down_spec {T} (a d r : list T) x n :
  take n a = d ++ x :: r -> (n <= length a)%nat ->
  take (n - 1) (memmove_down (length d) (n - length d - 1) a) = d ++ r /\
  length (memmove_down (length d) (n - length d - 1) a) = length a.
Proof.
  intros Ht Hn.
  assert (length d + S (length r) = n)%nat as Hlen.
  { rewrite <-(length_take_le a n Hn), Ht, length_app. done. }
  assert (a = d ++ x :: r ++ drop n a) as Ha.
  { rewrite <-(take_drop n a) at 1. rewrite Ht. by rewrite <-app_assoc. }
  replace (n - length d - 1)%nat with (length r) by lia.
  assert (memmove_down (length d) (length r) a = d ++ r ++ drop (length d + length r) a) as ->.
  { unfold memmove_down. f_equal; [|f_equal].
    - rewrite Ha. apply take_app_length.
    - rewrite Ha. replace (S (length d)) with (length d + 1)%nat by lia.
      rewrite <-drop_drop, drop_app_length. cbn. rewrite drop_0. apply take_app_length. }
  split.
  - replace (n - 1)%nat with (length (d ++ r)) by (rewrite length_app; lia). rewrite app_assoc. apply take_app_length.
  - rewrite !length_app, length_drop. lia.
Qed.

Lemma memmove_down_last {T} (a d : list T) x n :
  take n a = d ++ [x] -> (n <= length a)%nat -> take (n - 1) a = d.
Proof.
  intros Ht Hn. assert (length d + 1 = n)%nat as Hlen.
  { rewrite <-(length_take_le a n Hn), Ht, length_app. done. }
  replace (n - 1)%nat with (length d) by lia.
  transitivity (take (length d) (take n a)); [rewrite take_take; f_equal; lia|].
  rewrite Ht. apply take_app_length.
Qed.

Lemma memmove_down_shift {T} (j k : nat) (p : list T) :
  (2 <= length p)%nat -> memmove_down (2 + j) k p = take 2 p ++ memmove_down j k (drop 2 p).
Proof. destruct p as [|a [|b p]]; cbn; [lia..|]. done. Qed.

Section removal.
Context {W : Type}.
#[local] Abbreviation cla := (crm_cli_abs_internal_ctx W).
Implicit Types (s : cla).

(** The descriptors of the clients. *)
Definition client_fds s : list Z := drop 2 (pfd (mgmt s)).

Definition with_mgmt s (m : clients_mgmt) : cla :=
  mk_cla (enable_fmmo s) (sanity_test_mode s) m (itf s) (pending s) (timers s) (wakelock s) (clock_reads s) (sends s).

(** The state of the loop: [dc] and [df] have been kept, [rc] and [rf] are still
    to be examined. *)
Definition scan s (n : nat) (dc rc : list crm_client) (df rf : list Z) : Prop :=
  take n (clients (mgmt s)) = dc ++ rc /\ take n (client_fds s) = df ++ rf /\
  length dc = length df /\ length rc = length rf /\ n = (length dc + length rc)%nat /\
  (n <= length (clients (mgmt s)))%nat /\ (n <= length (client_fds s))%nat /\ (2 <= length (pfd (mgmt s)))%nat.

(** What one removal does to the arrays. *)
Lemma wp_remove_one s n dc c rc df fd rf E :
  scan s n dc (c :: rc) df (fd :: rf) ->
  wp (when (negb (length dc =? n - 1)%nat)
        (on_mgmt (fun m => mk_mgmt (num_clients m) (memmove_down (length dc) (n - length dc - 1) (clients m))
           (memmove_down (2 + length dc) (n - length dc - 1) (pfd m)) (to_clean m)))) s E
    (fun _ s' o => exists m', s' = with_mgmt s m' /\ o = [] /\
       num_clients m' = num_clients (mgmt s) /\ to_clean m' = to_clean (mgmt s) /\
       length (clients m') = length (clients (mgmt s)) /\ length (pfd m') = length (pfd (mgmt s)) /\
       take 2 (pfd m') = take 2 (pfd (mgmt s)) /\ scan s' (n - 1) dc rc df rf).
Proof.
  intros (S1 & S2 & S3 & S4 & S5 & S6 & S7 & S8). cbn [length] in *. injection S4 as S4.
  apply wp_when; intros Hj.
  - destruct (memmove_down_spec _ _ _ _ _ S1 S6) as [A1 A2].
    destruct (memmove_down_spec _ _ _ _ _ S2 S7) as [B1 B2]. rewrite <-S3 in B1, B2.
    apply wp_modify. eexists. split; [reflexivity|]. unfold scan, client_fds in *.
    cbn [with_mgmt mgmt num_clients clients pfd to_clean].
    rewrite memmove_down_shift, drop_app_length', take_app_length' by (rewrite ?length_take; lia).
    rewrite length_app, length_take, B2, length_drop in *. split_and!; done || lia.
  - apply negb_false_iff, Nat.eqb_eq in Hj. assert (length rc = 0)%nat as Hr by lia.
    destruct rc; [|done]. destruct rf; [|done].
    pose proof (memmove_down_last _ _ _ _ S1 S6) as A. pose proof (memmove_down_last _ _ _ _ S2 S7) as B.
    exists (mgmt s). split; [by destruct s|]. unfold scan. rewrite !app_nil_r. split_and!; done || (cbn [length]; lia).
Qed.

Lemma wp_clean_loop rc :
  forall s n i dc df rf E (Q : nat -> cla -> list cla_out -> Prop),
  scan s n dc rc df rf -> 0 <= i -> i + Z.of_nat (length rc) <= 32 ->
  (forall s' n', scan s' n' (dc ++ kept (to_clean (mgmt s)) i rc) [] (df ++ kept (to_clean (mgmt s)) i rf) [] ->
     s' = with_mgmt s (mgmt s') -> num_clients (mgmt s') = num_clients (mgmt s) ->
     to_clean (mgmt s') = to_clean (mgmt s) ->
     length (clients (mgmt s')) = length (clients (mgmt s)) -> length (pfd (mgmt s')) = length (pfd (mgmt s)) ->
     take 2 (pfd (mgmt s')) = take 2 (pfd (mgmt s)) ->
     Q n' s' (CloseFd <$> removed (to_clean (mgmt s)) i rf)) ->
  wp (clean_loop (seqZ i (Z.of_nat (length rc))) (length dc) n) s E Q.
Proof.
  induction rc as [|c rc IH]; intros s n i dc df rf E Q Hs Hi Hlim HQ.
  { destruct Hs as (S1 & S2 & S3 & S4 & S5 & S6 & S7 & S8). destruct rf; [|done].
    apply wp_ret. eapply (HQ s n); [|by destruct s|done..]. cbn [kept]. unfold scan. rewrite !app_nil_r in *. split_and!; done || lia. }
  pose proof Hs as (S1 & S2 & S3 & S4 & S5 & S6 & S7 & S8). destruct rf as [|fd rf]; [done|].
  cbn [length] in *. rewrite seqZ_cons by lia. cbn [clean_loop].
  replace (Z.pred (Z.of_nat (S (length rc)))) with (Z.of_nat (length rc)) by lia. change (Z.succ i) with (i + 1).
  apply wp_bind. unfold is_to_clean at 1. apply wp_bind, wp_get.
  destruct (Z.leb_spec 0 i); [|lia]. destruct (Z.ltb_spec i 32); [|lia]. cbn [andb]. apply wp_ret.
  cbn [kept removed] in HQ. destruct (Z.testbit (to_clean (mgmt s)) i) eqn:Hb.
  - assert (client_fds s !! length dc = Some fd) as Hfd.
    { rewrite S3. rewrite <-(lookup_take_lt _ n) by lia. rewrite S2. by apply list_lookup_middle. }
    apply wp_bind. unfold get_fd. apply wp_bind, wp_get. destruct (Z.ltb_spec (Z.of_nat (length dc)) 0); [lia|].
    rewrite Nat2Z.id, <-lookup_drop. unfold client_fds in Hfd. rewrite Hfd. apply wp_ret.
    apply wp_bind, wp_emit, wp_bind.
    match goal with |- wp (when _ ?m) _ _ _ =>
      apply (wp_mono _ _ E _ (fun _ s' o => exists m', s' = with_mgmt s m' /\ o = [] /\
        num_clients m' = num_clients (mgmt s) /\ to_clean m' = to_clean (mgmt s) /\
        length (clients m') = length (clients (mgmt s)) /\ length (pfd m') = length (pfd (mgmt s)) /\
        take 2 (pfd m') = take 2 (pfd (mgmt s)) /\ scan s' (n - 1) dc rc df rf)) end; [|done|].
    { by apply (wp_remove_one s n dc c rc df fd rf). }
    intros ? s1 o1 (m' & -> & -> & M1 & M2 & M3 & M4 & M5 & M6). cbn [app].
    eapply (IH (with_mgmt s m') (n - 1)%nat (i + 1) dc df rf); [done|lia|lia|].
    intros s' n' Hs' E1 E2 E3 E4 E5 E6. cbn in *. rewrite M2 in *. apply HQ; try congruence.
    by rewrite E1 at 1.
  - replace (S (length dc)) with (length (dc ++ [c])) by (rewrite length_app; cbn; lia).
    eapply (IH s n (i + 1) (dc ++ [c]) (df ++ [fd]) rf); [|lia|lia|].
    + split_and!; rewrite <-?app_assoc, ?length_app; cbn; try done; lia.
    + intros s' n' Hs'. rewrite <-!app_assoc in Hs'. by apply HQ.
Qed.

(** The arrays as [crm_cli_abs_init] allocates them. *)
Definition arrays_ok s : Prop :=
  0 <= num_clients (mgmt s) <= MAX_CLIENTS /\ length (clients (mgmt s)) = Z.to_nat MAX_CLIENTS /\
  length (pfd (mgmt s)) = (2 + Z.to_nat MAX_CLIENTS)%nat.

(** What [update_client_list] has to do. *)
Record compacted s s' (o : list cla_out) : Prop := {
  cp_arrays : arrays_ok s';
  cp_clients : take (Z.to_nat (num_clients (mgmt s'))) (clients (mgmt s')) =
    kept (to_clean (mgmt s)) 0 (take (Z.to_nat (num_clients (mgmt s))) (clients (mgmt s)));
  cp_fds : take (Z.to_nat (num_clients (mgmt s'))) (client_fds s') =
    kept (to_clean (mgmt s)) 0 (take (Z.to_nat (num_clients (mgmt s))) (client_fds s));
  cp_close : o = CloseFd <$> removed (to_clean (mgmt s)) 0 (take (Z.to_nat (num_clients (mgmt s))) (client_fds s));
  cp_main : take 2 (pfd (mgmt s')) = take 2 (pfd (mgmt s));
  cp_rest : s' = with_mgmt s (mgmt s');
}.

Lemma wp_update_client_list s E :
  arrays_ok s -> wp update_client_list s E (fun _ s' o => compacted s s' o).
Proof.
  intros (Hn & Hc & Hp). unfold MAX_CLIENTS in *. unfold update_client_list. apply wp_bind, wp_get. cbn [app].
  set (rc := take (Z.to_nat (num_clients (mgmt s))) (clients (mgmt s))).
  set (rf := take (Z.to_nat (num_clients (mgmt s))) (client_fds s)).
  assert (length (client_fds s) = 16%nat) as Hf by (unfold client_fds; rewrite length_drop; lia).
  assert (length rc = Z.to_nat (num_clients (mgmt s))) as Lc by (subst rc; rewrite length_take; lia).
  assert (length rf = Z.to_nat (num_clients (mgmt s))) as Lf by (subst rf; rewrite length_take; lia).
  apply wp_when; intros Hm.
  2: { apply negb_false_iff in Hm. bool_facts. destruct (kept_nothing 0 rc) as [K1 _], (kept_nothing 0 rf) as [K2 K3].
       split; rewrite ?Hm; fold rc rf; rewrite ?K1, ?K2, ?K3; try done. by destruct s. }
  apply wp_bind. unfold upto.
  replace (num_clients (mgmt s)) with (Z.of_nat (length rc)) at 1 by lia. change 0%nat with (@length crm_client []).
  eapply (wp_clean_loop rc s _ 0 [] [] rf); [|lia|lia|].
  { unfold scan. cbn [app length]. split_and!; done || lia. }
  cbn [app]. intros s' n' (S1 & S2 & S3 & S4 & S5 & S6 & S7 & S8) E1 E2 E3 E4 E5 E6.
  apply wp_modify. rewrite !app_nil_r in *. cbn [length] in *. rewrite Nat.add_0_r in S5.
  pose proof (kept_le (to_clean (mgmt s)) 0 rc).
  split; cbn [mgmt num_clients clients pfd client_fds]; rewrite ?Nat2Z.id; try done.
  - unfold arrays_ok, MAX_CLIENTS. cbn. split_and!; lia.
  - by rewrite E1.
Qed.

End removal.

(** C15. The in-place compaction of the client arrays: whatever clients have
    been marked, [update_client_list] returns with exactly the unmarked ones
    left, in their order and each with its own descriptor, closes exactly the
    descriptors of the marked ones, in order, and touches neither the
    descriptors of the queue and of the server nor anything else. *)
Theorem update_client_list_compacts {W} (s : crm_cli_abs_internal_ctx W) :
  arrays_ok s ->
  exists s' o, update_client_list s = Ok tt s' o /\ compacted s s' o.
Proof.
  intros Hs. destruct (wp_total _ _ _ (wp_update_client_list s no_abort Hs)) as ([] & s' & o & Hrun & Hc). eauto.
Qed.

(** Three clients on the descriptors 7, 8 and 9, the first and the last of
    which have left. *)
Definition demo_client (nm : string) : crm_client := mk_client true nm 127 false false false.

Definition demo_left : crm_cli_abs_internal_ctx unit :=
  mk_cla true false
    (mk_mgmt 3 ([demo_client "a"; demo_client "b"; demo_client "c"] ++ replicate 13 no_client)
       ([5; 6; 7; 8; 9] ++ replicate 13 0) 5)
    (mk_itf MDM_STATE_OFF MDM_STATE_OFF false false) (mk_pending false 0 0 0 None false (mk_dbg 0 0 0 0 []))
    (mk_timers (Timer.mk_timespec 0 0) (Timer.mk_timespec 0 0) false) tt 0 0.

Lemma update_client_list_compacts_witness :
  exists s' o, update_client_list demo_left = Ok tt s' o /\ compacted demo_left s' o.
Proof. apply (update_client_list_compacts demo_left). split_and!; done. Defined.
