(* ===== verification/ClaHeld.v ===== *)
(** * CLA never gives the wakelock up while it handles an acknowledgement

    The operations of CLA's state machine only ever acquire the wakelock: it is
    released by the main loop and at the end of a timeout.  CLA therefore releases it
    only when it holds it, which is what the interface [WakelockLaws] asks for. *)

From S2P Require Import Prelude Fsm Timer Ipc Wakelock Escalation MdmCli Wire Control CtrlApi Names Cla.
From Stdlib Require Import ZArith Lia.
From stdpp Require Import base tactics list strings option.

Open Scope Z_scope.
Open Scope crm_scope.

Section held.
Context `{MdmCli} {W : Type} `{HW : WakelockLaws W} (clock : nat -> timespec) (send_ok : nat -> bool).
#[local] Abbreviation cla := (crm_cli_abs_internal_ctx W).
#[local] Abbreviation A_ T := (M cla cla_out T).
#[local] Abbreviation held s := (wl_count (wakelock s) WAKELOCK_CLA).

(** The module of CLA is held at least as often afterwards. *)
Definition keeps_held {T} (m : A_ T) : Prop :=
  forall s, wl_valid (wakelock s) ->
    wp m s any_abort (fun _ s' _ => wl_valid (wakelock s') /\ held s <= held s').

Lemma kh_ret {T} (a : T) : keeps_held (ret a).
Proof. intros s Hs. by apply wp_ret. Qed.
Lemma kh_bind {T U} (m : A_ T) (k : T -> A_ U) : keeps_held m -> (forall a, keeps_held (k a)) -> keeps_held (bind m k).
Proof.
  intros Hm Hk s Hs. apply wp_bind. eapply wp_mono; [by apply Hm|done|]. intros a s1 o1 [Hv H1].
  eapply wp_mono; [by apply Hk|done|]. intros b s2 o2 [Hv' H2]. split; [done|lia].
Qed.
Lemma kh_get : keeps_held get.
Proof. intros s Hs. by apply wp_get. Qed.
Lemma kh_gets {T} (f : cla -> T) : keeps_held (gets f).
Proof. intros s Hs. by apply wp_gets. Qed.
Lemma kh_emit x : keeps_held (emit x).
Proof. intros s Hs. by apply wp_emit. Qed.
Lemma kh_fail {T} r : keeps_held (T := T) (fail r).
Proof. intros s Hs. by apply wp_fail. Qed.
Lemma kh_modify (f : cla -> cla) : (forall s, wakelock (f s) = wakelock s) -> keeps_held (modify f).
Proof. intros Hf s Hs. apply wp_modify. by rewrite Hf. Qed.
Lemma kh_when b (m : A_ unit) : keeps_held m -> keeps_held (when b m).
Proof. intros Hm. destruct b; [done|apply kh_ret]. Qed.
Lemma kh_ASSERT exp b : keeps_held (ASSERT exp b).
Proof. destruct b; [apply kh_ret|apply kh_fail]. Qed.
Lemma kh_serialize m : keeps_held (serialize m).
Proof. intros s Hs. unfold wp, serialize. by destruct (serialize_msg _ _). Qed.
Lemma kh_named o : keeps_held (named o).
Proof. destruct o; [apply kh_ret|apply kh_fail]. Qed.
Lemma kh_for_each {T} (l : list T) (f : T -> A_ unit) : (forall x, keeps_held (f x)) -> keeps_held (for_each l f).
Proof. intros Hf. induction l; cbn; [apply kh_ret|]. by apply kh_bind. Qed.

Ltac kh_step := first
  [ progress intros | apply kh_bind | apply kh_ret | apply kh_get | apply kh_gets | apply kh_emit | apply kh_fail
  | apply kh_when | apply kh_ASSERT | apply kh_serialize | apply kh_named | apply kh_for_each | apply kh_modify; done
  | case_match ].
Ltac kh := repeat kh_step.

Lemma kh_unregister i : keeps_held (handle_client_unregister i).
Proof. unfold handle_client_unregister, is_to_clean, get_client, set_client, set_clients, set_num_acquired, set_num_cold,
  set_num_shutdown, set_to_clean, on_mgmt, on_pending. kh. Qed.

Lemma kh_notify_all event : keeps_held (notify_event_all send_ok event).
Proof.
  unfold notify_event_all, notify_cli_event_all, notify_cli_event_single, mark_waiting, wants_event, is_to_clean, get_client,
    get_fd, set_client, set_clients, set_num_cold, set_num_shutdown, next_send, on_mgmt, on_pending.
  repeat first [apply kh_unregister | kh_step].
Qed.

Lemma kh_start_ack_timer : keeps_held (start_ack_timer clock).
Proof.
  unfold start_ack_timer, read_clock, next_read, on_timers. repeat (apply kh_bind; [by kh|intros]).
  intros s Hs. apply wp_bind, wp_zoom. eapply wp_mono; [by apply wl_is_held_by_module_spec|done|].
  intros h w o [-> ->]. apply wp_when; intros Hh; [|by split].
  apply negb_true_iff, Z.ltb_ge in Hh. apply wp_zoom. cbn.
  pose proof (wl_count_nonneg (wakelock s) WAKELOCK_CLA Hs ltac:(done)).
  eapply wp_mono; [apply wl_acquire_spec; [done|done|unfold INT_MAX; lia]|done|].
  intros [] w' o' (Hv & Hc & _). split; [done|]. cbn. lia.
Qed.

(** The requests to CTRL. *)
Lemma kh_request_stop : keeps_held request_stop.
Proof. unfold request_stop, no_request, set_request_in_progress, on_itf. kh. Qed.
Lemma kh_request_restart t d : keeps_held (request_restart t d).
Proof. unfold request_restart, no_request, set_request_in_progress, on_itf. kh. Qed.
Lemma kh_request_pending : keeps_held request_pending_restart.
Proof. unfold request_pending_restart. repeat first [apply kh_request_restart | kh_step]. Qed.

Ltac kh_op := repeat first
  [ apply kh_notify_all | apply kh_start_ack_timer | apply kh_request_stop | apply kh_request_restart
  | apply kh_request_pending | kh_step ].

Lemma kh_shutdown : keeps_held (start_shutdown_procedure clock send_ok).
Proof. unfold start_shutdown_procedure, set_fake_modem_state, set_modem_state, on_itf. kh_op. Qed.
Lemma kh_restart : keeps_held (start_restart_procedure clock send_ok).
Proof. unfold start_restart_procedure, set_fake_modem_state, set_modem_state, on_itf. kh_op. Qed.

Lemma kh_acked_cold p : keeps_held (client_acked_cold clock send_ok p).
Proof. unfold client_acked_cold, no_request. repeat first [apply kh_shutdown | progress kh_op]. Qed.
Lemma kh_acked_shtdwn p : keeps_held (client_acked_shtdwn clock send_ok p).
Proof.
  unfold client_acked_shtdwn, set_fake_modem_state, set_modem_state, on_itf. repeat first [apply kh_restart | progress kh_op].
Qed.

Lemma state_range st : is_Some (get_state_txt st) -> 0 <= st < ST_NUM.
Proof.
  unfold get_state_txt, switch, ST_NUM, ST_INITIAL, ST_OFF, ST_STARTING, ST_UP, ST_ACK_WAITING_COLD, ST_ACK_WAITING_SHTDWN,
    ST_STOPPING. intros [t Ht]. cbn in Ht. repeat (case_match; [bool_facts; lia|]). done.
Qed.

(** The event of the acknowledgements, in any state of the machine. *)
Lemma wp_acked_held f :
  0 <= state f < ST_NUM -> wl_valid (wakelock (fsm_param f)) ->
  wp (cla_event clock send_ok EV_CLI_ACKED) f any_abort (fun _ f' _ => held (fsm_param f) <= held (fsm_param f')).
Proof.
  intros Hst Hv. destruct f as [st s]. cbn [state fsm_param] in *.
  assert (exists op, get_op (cla_cfg clock send_ok) st EV_CLI_ACKED = Some op /\ is_Some (get_state_txt st) /\
    match operation op with Some g => keeps_held (g tt) | None => True end) as (op & Hop & Hnamed & Hk).
  { assert (st = 0 \/ st = 1 \/ st = 2 \/ st = 3 \/ st = 4 \/ st = 5 \/ st = 6) as Hc by (unfold ST_NUM in Hst; lia).
    repeat destruct Hc as [->|Hc]; subst; eexists; (split; [reflexivity|]); (split; [by eexists|]); cbn;
      first [exact I | apply kh_acked_cold | apply kh_acked_shtdwn | unfold assert; kh]. }
  unfold cla_event. eapply wp_notify_event; [done|by eexists|exact Hnamed|exact Hop|]. cbn [pre_op cla_cfg]. apply wp_ret.
  assert (forall new (s' : cla), held s <= held s' ->
    (is_Some (get_state_txt new) \/ any_abort (AssertFail "0")) /\
    (is_Some (get_state_txt new) ->
     wp (if st =? new then ret tt else state_trans st new EV_CLI_ACKED tt) s' any_abort (fun _ s2 o2 =>
       0 <= new < ST_NUM /\ held s <= held s2))) as Hend.
  { intros new s' Hle. split; [by right|]. intros Hn%state_range.
    destruct (st =? new); [by apply wp_ret|]. by apply wp_ASSERT. }
  apply wp_run_op. cbn [fsm_param state]. destruct (operation op) as [g|]; [|by apply Hend].
  eapply wp_mono; [by apply Hk|done|]. intros r s' o [_ Hle]. case_match; [done|by apply Hend].
Qed.

End held.
