(* ===== verification/ClaTheory.v ===== *)
(** * Invariant of CLA

    The counters of the context agree with the flags of the connected clients,
    the arrays are never read out of their bounds, and the wakelock is held as
    long as a timer runs.  Each operation is traversed once, for the invariant,
    its effect on the timers and the requests it makes to CTRL. *)

From S2P Require Import Prelude Fsm Timer Ipc Wakelock Escalation MdmCli Wire Control CtrlApi Names Cla ClaClients ClaHeld.
From Stdlib Require Import ZArith Lia.
From stdpp Require Import base tactics list list_numbers strings option.

Open Scope Z_scope.
Open Scope crm_scope.

(** ** Counting flags *)

Definition b2z (b : bool) : Z := if b then 1 else 0.
Definition cnt {T} (p : T -> bool) (l : list T) : Z := Z.of_nat (length (List.filter p l)).

Lemma cnt_cons {T} (p : T -> bool) x l : cnt p (x :: l) = b2z (p x) + cnt p l.
Proof. unfold cnt. cbn. destruct (p x); cbn; lia. Qed.

Lemma cnt_app {T} (p : T -> bool) l k : cnt p (l ++ k) = cnt p l + cnt p k.
Proof. unfold cnt. rewrite List.filter_app, length_app. lia. Qed.

Lemma cnt_nonneg {T} (p : T -> bool) l : 0 <= cnt p l.
Proof. unfold cnt. lia. Qed.

Lemma cnt_insert {T} (p : T -> bool) l i x y :
  l !! i = Some x -> cnt p (<[i := y]> l) = cnt p l - b2z (p x) + b2z (p y).
Proof.
  revert i. induction l as [|z l IH]; intros [|i]; cbn [lookup list_lookup insert list_insert]; try done.
  - intros [= ->]. rewrite !cnt_cons. lia.
  - intros Hi. rewrite !cnt_cons, IH by done. lia.
Qed.

Lemma cnt_elem {T} (p : T -> bool) l i x : l !! i = Some x -> b2z (p x) <= cnt p l.
Proof.
  revert i. induction l as [|z l IH]; intros [|i]; cbn; try done; rewrite cnt_cons.
  - intros [= ->]. pose proof (cnt_nonneg p l). lia.
  - intros Hi. pose proof (IH _ Hi). destruct (p z); cbn; lia.
Qed.

(** ** The invariant *)

(** A client nobody waits for and that holds nothing. *)
Definition quiet (c : crm_client) : Prop :=
  acquired c = false /\ waiting_cold_reset_ack c = false /\ waiting_shutdown_ack c = false.

(** An unregistered client is as [memset] left it. *)
Definition client_ok (c : crm_client) : Prop :=
  registered c = false -> quiet c /\ events_bitmap c = 0.

Section invariant.
Context {W : Type}.
#[local] Abbreviation cla := (crm_cli_abs_internal_ctx W).
Implicit Types (s : cla).

(** The connected clients. *)
Definition active s : list crm_client := take (Z.to_nat (num_clients (mgmt s))) (clients (mgmt s)).

(** With the fast modem boot disabled, the modem is held for ever. *)
Definition base s : Z := if enable_fmmo s then 0 else 1.

(** [b] tells that the clients marked in [to_clean] are those disconnected
    during this turn of the loop. *)
Record cla_ok (b : bool) s : Prop := {
  ok_num : 0 <= num_clients (mgmt s) <= MAX_CLIENTS;
  ok_clients : length (clients (mgmt s)) = Z.to_nat MAX_CLIENTS;
  ok_pfd : length (pfd (mgmt s)) = (2 + Z.to_nat MAX_CLIENTS)%nat;
  ok_acquired : num_acquired (pending s) = base s + cnt acquired (active s);
  ok_cold : num_waiting_cold_reset_ack (pending s) = cnt waiting_cold_reset_ack (active s);
  ok_shutdown : num_waiting_shutdown_ack (pending s) = cnt waiting_shutdown_ack (active s);
  ok_client : Forall client_ok (active s);
  ok_clean : b = true -> forall i c, active s !! i = Some c ->
    Z.testbit (to_clean (mgmt s)) (Z.of_nat i) = true -> quiet c;
}.

Lemma active_length b s : cla_ok b s -> length (active s) = Z.to_nat (num_clients (mgmt s)).
Proof. intros [? ? ? ? ? ? ? ?]. unfold active. rewrite length_take. lia. Qed.

(** The client of a valid index. *)
Lemma active_lookup b s i :
  cla_ok b s -> 0 <= i < num_clients (mgmt s) ->
  exists c, active s !! Z.to_nat i = Some c /\ clients (mgmt s) !! Z.to_nat i = Some c.
Proof.
  intros Hok Hi. destruct (lookup_lt_is_Some_2 (active s) (Z.to_nat i)) as [c Hc].
  { rewrite (active_length b) by done. lia. }
  exists c. split; [done|]. unfold active in Hc. by apply lookup_take_Some in Hc as [? _].
Qed.

Lemma active_insert s i c :
  0 <= i < num_clients (mgmt s) ->
  take (Z.to_nat (num_clients (mgmt s))) (<[Z.to_nat i := c]> (clients (mgmt s))) = <[Z.to_nat i := c]> (active s).
Proof. intros Hi. unfold active. rewrite take_insert_lt; [done|lia]. Qed.

(** One client changes, and the counters follow. *)
Lemma cla_ok_update b s s' i c c' :
  cla_ok b s -> 0 <= i < num_clients (mgmt s) -> active s !! Z.to_nat i = Some c ->
  enable_fmmo s' = enable_fmmo s -> num_clients (mgmt s') = num_clients (mgmt s) ->
  clients (mgmt s') = <[Z.to_nat i := c']> (clients (mgmt s)) -> pfd (mgmt s') = pfd (mgmt s) ->
  num_acquired (pending s') = num_acquired (pending s) - b2z (acquired c) + b2z (acquired c') ->
  num_waiting_cold_reset_ack (pending s') =
    num_waiting_cold_reset_ack (pending s) - b2z (waiting_cold_reset_ack c) + b2z (waiting_cold_reset_ack c') ->
  num_waiting_shutdown_ack (pending s') =
    num_waiting_shutdown_ack (pending s) - b2z (waiting_shutdown_ack c) + b2z (waiting_shutdown_ack c') ->
  client_ok c' ->
  (b = true -> Z.testbit (to_clean (mgmt s')) i = true -> quiet c') ->
  (forall j, 0 <= j -> j <> i -> Z.testbit (to_clean (mgmt s')) j = Z.testbit (to_clean (mgmt s)) j) ->
  cla_ok b s'.
Proof.
  intros Hok Hi Hc Hf Hn Hcl Hp Ha Hw1 Hw2 Hco Hcc Hcj.
  assert (active s' = <[Z.to_nat i := c']> (active s)) as Hact.
  { unfold active at 1. rewrite Hn, Hcl. by apply active_insert. }
  pose proof (active_length _ _ Hok) as Hlen. destruct Hok as [H1 H2 H3 H4 H5 H6 H7 H8].
  split; rewrite ?Hact, ?Hn, ?Hcl, ?Hp, ?length_insert; try done.
  - rewrite Ha, H4, (cnt_insert _ _ _ _ _ Hc). unfold base. rewrite Hf. lia.
  - rewrite Hw1, H5, (cnt_insert _ _ _ _ _ Hc). lia.
  - rewrite Hw2, H6, (cnt_insert _ _ _ _ _ Hc). lia.
  - by apply Forall_insert.
  - intros Hb j d Hd Ht. destruct (decide (j = Z.to_nat i)) as [->|Hne].
    + rewrite list_lookup_insert_eq in Hd by lia. injection Hd as <-. rewrite Z2Nat.id in Ht by lia. auto.
    + rewrite list_lookup_insert_ne in Hd by done. rewrite Hcj in Ht by lia. by eapply H8.
Qed.

(** Only fields the invariant does not look at change. *)
Lemma cla_ok_same b s s' :
  cla_ok b s -> enable_fmmo s' = enable_fmmo s -> mgmt s' = mgmt s ->
  num_acquired (pending s') = num_acquired (pending s) ->
  num_waiting_cold_reset_ack (pending s') = num_waiting_cold_reset_ack (pending s) ->
  num_waiting_shutdown_ack (pending s') = num_waiting_shutdown_ack (pending s) ->
  cla_ok b s'.
Proof.
  intros [? ? ? ? ? ? ? ?] Hf Hm Ha H1 H2.
  split; unfold active, base in *; rewrite ?Hm, ?Hf, ?Ha, ?H1, ?H2; done.
Qed.

End invariant.

(** ** Aborts that must not happen *)

(** Undefined behaviour, a counter below zero, a client disconnected twice, a
    shutdown and a restart procedure at the same time, a timeout without a timer
    or without the wakelock. *)
Definition bad_abort (r : abort_reason) : bool :=
  match r with
  | Undefined _ => true
  | AssertFail e =>
      bool_decide (e ∈ ["(i_ctx->to_clean & (1u << client_idx)) == 0"; "i_ctx->num_acquired >= 0";
        "i_ctx->num_waiting_cold_reset_ack >= 0"; "i_ctx->num_waiting_shutdown_ack >= 0"; "i_ctx->num_waiting_cold_reset_ack == 0";
        "i_ctx->num_waiting_shutdown_ack == 0"; "idx != 0";
        "i_ctx->wakelock->is_held_by_module(i_ctx->wakelock, WAKELOCK_CLA) == true"])
  | _ => false
  end.

Definition allowed (r : abort_reason) : Prop := bad_abort r = false.

(** ** Requests to CTRL *)

Definition is_ctrl (x : cla_out) : bool :=
  match x with CtrlStart | CtrlStop | CtrlRestart _ _ => true | _ => false end.

(** How many requests a run makes. *)
Definition ctrl_requests (o : list cla_out) : Z := cnt is_ctrl o.

Definition not_ctrl (x : cla_out) : Prop := is_ctrl x = false.

Lemma no_ctrl_requests o : Forall not_ctrl o -> ctrl_requests o = 0.
Proof.
  unfold ctrl_requests. induction 1 as [|x o Hx _ IH]; [done|].
  rewrite cnt_cons, IH. unfold not_ctrl in Hx. by rewrite Hx.
Qed.

Section clients.
Context `{HM : MdmCliLaws} {W : Type} (send_ok : nat -> bool).
#[local] Abbreviation cla := (crm_cli_abs_internal_ctx W).
Implicit Types (s : cla).

(** What a notification changes: the counters of the acknowledgements, up
    only for the event that asks for them. *)
Record notified (event : Z) s s' : Prop := {
  nt_num : num_clients (mgmt s') = num_clients (mgmt s);
  nt_itf : itf s' = itf s;
  nt_timers : timers s' = timers s;
  nt_wakelock : wakelock s' = wakelock s;
  nt_reads : clock_reads s' = clock_reads s;
  nt_fmmo : enable_fmmo s' = enable_fmmo s;
  nt_restart : restart_type (pending s') = restart_type (pending s);
  nt_cold : event <> MDM_COLD_RESET ->
    num_waiting_cold_reset_ack (pending s') <= num_waiting_cold_reset_ack (pending s);
  nt_shutdown : event <> MDM_SHUTDOWN ->
    num_waiting_shutdown_ack (pending s') <= num_waiting_shutdown_ack (pending s);
}.

Lemma notified_refl event s : notified event s s.
Proof. by split. Qed.

Lemma notified_trans event s s' s'' : notified event s s' -> notified event s' s'' -> notified event s s''.
Proof. intros [] []. split; try congruence; intros; (etrans; [|by auto]); auto. Qed.

Lemma wp_is_to_clean b s i E Q :
  cla_ok b s -> 0 <= i < num_clients (mgmt s) ->
  Q (Z.testbit (to_clean (mgmt s)) i) s [] -> wp (is_to_clean i) s E Q.
Proof.
  intros Hok Hi HQ. pose proof (ok_num _ _ Hok). unfold MAX_CLIENTS in *. unfold is_to_clean.
  apply wp_bind, wp_get. destruct (Z.leb_spec 0 i); [|lia]. destruct (Z.ltb_spec i 32); [|lia].
  by apply wp_ret.
Qed.

Lemma wp_get_client s i c E Q :
  0 <= i -> clients (mgmt s) !! Z.to_nat i = Some c -> Q c s [] -> wp (get_client i) s E Q.
Proof.
  intros Hi Hc HQ. unfold get_client. apply wp_bind, wp_get.
  destruct (Z.ltb_spec i 0); [lia|]. rewrite Hc. by apply wp_ret.
Qed.

Lemma wp_get_fd b s i E Q :
  cla_ok b s -> 0 <= i < num_clients (mgmt s) ->
  (forall fd, pfd (mgmt s) !! (2 + Z.to_nat i)%nat = Some fd -> Q fd s []) -> wp (get_fd i) s E Q.
Proof.
  intros Hok Hi HQ. pose proof (ok_num _ _ Hok). pose proof (ok_pfd _ _ Hok). unfold get_fd.
  apply wp_bind, wp_get. destruct (Z.ltb_spec i 0); [lia|].
  destruct (lookup_lt_is_Some_2 (pfd (mgmt s)) (2 + Z.to_nat i)) as [fd Hfd]; [lia|].
  rewrite Hfd. by apply wp_ret, HQ.
Qed.

(** The context after a disconnection. *)
Definition unregistered s (i : Z) (c : crm_client) : cla :=
  let p := pending s in
  mk_cla (enable_fmmo s) (sanity_test_mode s)
    (mk_mgmt (num_clients (mgmt s))
       (<[Z.to_nat i := mk_client (registered c) (name c) (events_bitmap c) false false false]> (clients (mgmt s)))
       (pfd (mgmt s)) (Z.lor (to_clean (mgmt s)) (Z.shiftl 1 i)))
    (itf s)
    (mk_pending (reject_requests p) (num_acquired p - b2z (acquired c))
       (num_waiting_cold_reset_ack p - b2z (waiting_cold_reset_ack c))
       (num_waiting_shutdown_ack p - b2z (waiting_shutdown_ack c)) (restart_type p) (dbg_info_present p) (dbg_info p))
    (timers s) (wakelock s) (clock_reads s) (sends s).

Lemma cla_eta s :
  s = mk_cla (enable_fmmo s) (sanity_test_mode s)
        (mk_mgmt (num_clients (mgmt s)) (clients (mgmt s)) (pfd (mgmt s)) (to_clean (mgmt s)))
        (itf s)
        (mk_pending (reject_requests (pending s)) (num_acquired (pending s)) (num_waiting_cold_reset_ack (pending s))
           (num_waiting_shutdown_ack (pending s)) (restart_type (pending s)) (dbg_info_present (pending s))
           (dbg_info (pending s)))
        (timers s) (wakelock s) (clock_reads s) (sends s).
Proof. by destruct s as [? ? [] ? [] ? ? ? ?]. Qed.

(** Projections of an explicit context. *)
Ltac cbn_cla :=
  cbn [enable_fmmo sanity_test_mode mgmt itf pending timers wakelock clock_reads sends
       num_clients clients pfd to_clean modem_state real_modem_state fake_modem_state request_in_progress
       reject_requests num_acquired num_waiting_cold_reset_ack num_waiting_shutdown_ack restart_type
       dbg_info_present dbg_info timer_ack_end timer_boot_end timer_boot_armed
       registered name events_bitmap acquired waiting_cold_reset_ack waiting_shutdown_ack app negb].

(** One step of a handler on an explicit context; [lookup] finds the client. *)
Ltac client_step lookup :=
  lazymatch goal with
  | |- wp (get_client _) _ _ _ => eapply wp_get_client; [lia|cbn_cla; lookup|]
  | |- wp (ASSERT _ (0 <=? _)) _ _ _ => apply wp_ASSERT; [intros _|cbn_cla; rewrite Z.leb_gt; lia]
  | |- wp (when true _) _ _ _ => apply wp_when; [intros _|done]
  | |- wp (when false _) _ _ _ => apply wp_when; [done|intros _]
  | |- wp (bind _ _) _ _ _ => apply wp_bind
  | |- wp get _ _ _ => apply wp_get
  | |- wp (modify _) _ _ _ => apply wp_modify
  | |- wp (ret _) _ _ _ => apply wp_ret
  end.

Lemma wp_unregister b s i c E Q :
  cla_ok b s -> 0 <= i < num_clients (mgmt s) -> active s !! Z.to_nat i = Some c ->
  Z.testbit (to_clean (mgmt s)) i = false ->
  Q tt (unregistered s i c) [] -> wp (handle_client_unregister i) s E Q.
Proof.
  intros Hok Hi Hc Ht HQ.
  assert (clients (mgmt s) !! Z.to_nat i = Some c) as Hc'.
  { unfold active in Hc. by apply lookup_take_Some in Hc as [? _]. }
  assert (Z.to_nat i < length (clients (mgmt s)))%nat as Hlt by (by eapply lookup_lt_Some).
  pose proof (cnt_elem acquired _ _ _ Hc) as K1. pose proof (cnt_elem waiting_cold_reset_ack _ _ _ Hc) as K2.
  pose proof (cnt_elem waiting_shutdown_ack _ _ _ Hc) as K3.
  pose proof (Forall_lookup_1 _ _ _ _ (ok_client _ _ Hok) Hc) as Hco.
  rewrite <-(ok_cold _ _ Hok) in K2. rewrite <-(ok_shutdown _ _ Hok) in K3.
  assert (b2z (acquired c) <= num_acquired (pending s)) as K1'.
  { rewrite (ok_acquired _ _ Hok). unfold base. destruct (enable_fmmo s); lia. }
  unfold handle_client_unregister. apply wp_bind. eapply wp_is_to_clean; [done..|]. rewrite Ht.
  apply wp_bind, wp_ASSERT; [intros _|done]. apply wp_bind. eapply wp_get_client; [lia|done|].
  clear Hok Hc K1 Ht. unfold unregistered in HQ.
  destruct s as [fm sn [nc cs pf tc] it [rj na nw ns rt dp di] tm wl cr sd]. cbn in *.
  destruct c as [reg nm bm a w1 w2]. unfold client_ok, quiet in Hco. cbn in *.
  destruct reg; [|destruct (Hco eq_refl) as [(-> & -> & ->) ->]].
  2: { apply wp_bind, wp_when; [done|intros _]. apply wp_bind, wp_get, wp_modify. cbn in *.
       by rewrite list_insert_id, !Z.sub_0_r in HQ by done. }
  apply wp_bind, wp_when; [intros _|done].
  unfold set_client, set_clients, set_to_clean, set_num_acquired, set_num_cold, set_num_shutdown, on_mgmt, on_pending.
  assert (forall c', <[Z.to_nat i := c']> cs !! Z.to_nat i = Some c') as Hl.
  { intros c'. by apply list_lookup_insert_eq. }
  destruct a, w1, w2; cbn in HQ, K1', K2, K3; rewrite ?Z.sub_0_r in HQ;
    repeat (client_step ltac:(rewrite ?list_insert_insert_eq; first [apply Hl|exact Hc']); cbn_cla);
    rewrite ?list_insert_insert_eq; try exact HQ.
  by rewrite list_insert_id in HQ by done.
Qed.

Lemma unregistered_ok b s i c :
  cla_ok b s -> 0 <= i < num_clients (mgmt s) -> active s !! Z.to_nat i = Some c -> cla_ok b (unregistered s i c).
Proof.
  intros Hok Hi Hc. eapply (cla_ok_update b s _ i c); [done..| | | | | |]; cbn; try lia.
  - intros Hr. pose proof (Forall_lookup_1 _ _ _ _ (ok_client _ _ Hok) Hc) as Hco.
    by destruct (Hco Hr) as [_ ?].
  - done.
  - intros j Hj Hne. rewrite Z.lor_spec. rewrite Z.shiftl_spec by lia.
    replace (Z.testbit 1 (j - i)) with false; [by rewrite orb_false_r|].
    symmetry. destruct (Z.lt_ge_cases (j - i) 0); [by apply Z.testbit_neg_r|].
    apply Z.bits_above_log2; cbn; lia.
Qed.

Lemma unregistered_notified b s i c event :
  cla_ok b s -> notified event s (unregistered s i c).
Proof.
  intros Hok. split; cbn; try done; intros _.
  - destruct (waiting_cold_reset_ack c); cbn; lia.
  - destruct (waiting_shutdown_ack c); cbn; lia.
Qed.

(** Events of the client interface. *)
Definition is_event (e : Z) : Prop :=
  e ∈ [MDM_DOWN; MDM_ON; MDM_UP; MDM_OOS; MDM_COLD_RESET; MDM_SHUTDOWN; MDM_DBG_INFO].

Lemma is_event_range e : is_event e -> 0 <= e < MDM_NUM_EVENTS /\ MDM_NUM_EVENTS <= 31.
Proof. intros He. pose proof mdm_events_bitmap. split; [by apply mdm_events_range|done]. Qed.

Lemma event_named e : is_event e -> is_Some (crm_mdmcli_wire_req_to_string e).
Proof.
  intros He. apply switch_some. cbn. unfold is_event in He. rewrite !elem_of_cons in *.
  rewrite elem_of_nil in He. tauto.
Qed.

Lemma dbg_info_other e : e ∈ [MDM_DOWN; MDM_ON; MDM_UP; MDM_OOS; MDM_COLD_RESET; MDM_SHUTDOWN] -> e <> MDM_DBG_INFO.
Proof.
  intros He ->. pose proof mdm_events_distinct as Hn.
  change (NoDup ([MDM_DOWN; MDM_ON; MDM_UP; MDM_OOS; MDM_COLD_RESET; MDM_SHUTDOWN] ++ [MDM_DBG_INFO])) in Hn.
  apply list.NoDup_app in Hn as (_ & Hn & _). apply (Hn _ He). by left.
Qed.

Lemma event_no_data e : is_event e -> e <> MDM_DBG_INFO -> msg_wf CRM_SERVER_TO_CLIENT (mk_wire_msg e NoData).
Proof.
  intros He Hne. destruct (is_event_range e He) as [Hr Hb]. unfold msg_wf, body_ok, is_register, is_debug, INT_MAX. cbn.
  unfold CRM_REQ_REGISTER, CRM_REQ_REGISTER_DBG, CRM_REQ_RESTART, CRM_REQ_NOTIFY_DBG.
  repeat (match goal with |- context [?a =? ?b] => destruct (Z.eqb_spec a b); [lia|] end). cbn. split_and!; done || lia.
Qed.

Lemma event_debug d : dbg_ptr_ok d -> msg_wf CRM_SERVER_TO_CLIENT (mk_wire_msg MDM_DBG_INFO (Debug d)).
Proof.
  intros Hd. destruct (is_event_range MDM_DBG_INFO) as [Hr Hb]; [unfold is_event; rewrite !elem_of_cons; tauto|].
  unfold msg_wf, body_ok, is_register, is_debug, INT_MAX. cbn.
  unfold CRM_REQ_REGISTER, CRM_REQ_REGISTER_DBG, CRM_REQ_RESTART, CRM_REQ_NOTIFY_DBG. rewrite Z.eqb_refl.
  repeat (match goal with |- context [MDM_DBG_INFO =? ?b] => destruct (Z.eqb_spec MDM_DBG_INFO b); [lia|] end). cbn.
  split_and!; done || lia.
Qed.

Lemma wp_serialize {S O} m (s : S) E (Q : unit -> S -> list O -> Prop) :
  msg_wf CRM_SERVER_TO_CLIENT m -> Q tt s [] -> wp (serialize m) s E Q.
Proof.
  intros Hm HQ. unfold wp, serialize. by destruct (serialize_msg_enc _ _ Hm) as [b ->].
Qed.

(** The waiting flag set before the message is sent. *)
Definition marked s (i event : Z) (c : crm_client) : cla :=
  let p := pending s in
  let cold := event =? MDM_COLD_RESET in
  let shut := negb cold && (event =? MDM_SHUTDOWN) in
  mk_cla (enable_fmmo s) (sanity_test_mode s)
    (mk_mgmt (num_clients (mgmt s))
       (<[Z.to_nat i := mk_client (registered c) (name c) (events_bitmap c) (acquired c)
            (cold || waiting_cold_reset_ack c) (shut || waiting_shutdown_ack c)]> (clients (mgmt s)))
       (pfd (mgmt s)) (to_clean (mgmt s)))
    (itf s)
    (mk_pending (reject_requests p) (num_acquired p) (num_waiting_cold_reset_ack p + b2z cold)
       (num_waiting_shutdown_ack p + b2z shut) (restart_type p) (dbg_info_present p) (dbg_info p))
    (timers s) (wakelock s) (clock_reads s) (sends s).

(** The client is not already waited for. *)
Definition fresh (event : Z) (c : crm_client) : Prop :=
  (event = MDM_COLD_RESET -> waiting_cold_reset_ack c = false) /\
  (event = MDM_SHUTDOWN -> waiting_shutdown_ack c = false).

(** The other procedure is not running. *)
Definition alone (event : Z) s : Prop :=
  (event = MDM_COLD_RESET -> num_waiting_shutdown_ack (pending s) = 0) /\
  (event = MDM_SHUTDOWN -> num_waiting_cold_reset_ack (pending s) = 0).

Lemma marked_ok b s i event c :
  cla_ok b s -> 0 <= i < num_clients (mgmt s) -> active s !! Z.to_nat i = Some c ->
  Z.testbit (to_clean (mgmt s)) i = false -> fresh event c -> registered c = true ->
  cla_ok b (marked s i event c).
Proof.
  intros Hok Hi Hc Ht [Hf1 Hf2] Hr. unfold marked. eapply (cla_ok_update b s _ i c); [done..| | | | | |]; cbn.
  - lia.
  - destruct (Z.eqb_spec event MDM_COLD_RESET) as [E1|]; cbn; [rewrite Hf1 by done; cbn|]; lia.
  - destruct (Z.eqb_spec event MDM_COLD_RESET); cbn; [lia|].
    destruct (Z.eqb_spec event MDM_SHUTDOWN); cbn; [rewrite Hf2 by done; cbn|]; lia.
  - unfold client_ok. cbn. congruence.
  - congruence.
  - done.
Qed.

Lemma marked_notified s i event c : notified event s (marked s i event c).
Proof.
  unfold marked. split; cbn; try done; intros Hne.
  - destruct (Z.eqb_spec event MDM_COLD_RESET); [done|cbn; lia].
  - destruct (Z.eqb_spec event MDM_SHUTDOWN); [done|]. rewrite andb_false_r. cbn. lia.
Qed.

(** What one notification guarantees: nothing else than this client and its
    counters changes. *)
Definition single_post (b : bool) (i event : Z) s (s' : cla) (o : list cla_out) : Prop :=
  cla_ok b s' /\ notified event s s' /\ Forall not_ctrl o /\
  (forall j, j <> Z.to_nat i -> active s' !! j = active s !! j).

Lemma unwanted c event : client_ok c -> registered c = false -> Z.testbit (u32 (events_bitmap c)) event = false.
Proof. intros Hc Hr. destruct (Hc Hr) as [_ ->]. apply Z.bits_0. Qed.

(** The message can be sent: the buffer that was serialized, or an event
    without data. *)
Definition sendable (event : Z) (m : option crm_mdmcli_wire_msg) : Prop :=
  match m with None => event <> MDM_DBG_INFO | Some _ => True end.

Lemma wp_mark s i event c (E : abort_reason -> Prop) (Q : unit -> cla -> list cla_out -> Prop) :
  clients (mgmt s) !! Z.to_nat i = Some c -> alone event s ->
  Q tt (marked s i event c) [] -> wp (mark_waiting i event c) s E Q.
Proof.
  intros Hc [Ha1 Ha2] HQ. unfold mark_waiting, marked in *. destruct (Z.eqb_spec event MDM_COLD_RESET) as [Ec|].
  - apply wp_bind, wp_get, wp_bind, wp_ASSERT; [intros _|by rewrite Ha1].
    unfold set_client, set_clients, set_num_cold, on_mgmt, on_pending.
    repeat (client_step ltac:(done)). cbn in *. by rewrite Z.add_0_r in HQ.
  - apply wp_when; intros Hsh; rewrite ?Hsh in HQ; cbn in HQ; [bool_facts|].
    + apply wp_bind, wp_get, wp_bind, wp_ASSERT; [intros _|by rewrite Ha2].
      unfold set_client, set_clients, set_num_shutdown, on_mgmt, on_pending.
      repeat (client_step ltac:(done)). cbn in *. by rewrite Z.add_0_r in HQ.
    + rewrite !Z.add_0_r, list_insert_id in HQ by (rewrite Hc; by destruct c). by rewrite (cla_eta s).
Qed.

(** The send counter is not part of the invariant. *)
Lemma wp_next_send (s : cla) E (Q : unit -> cla -> list cla_out -> Prop) :
  (forall s', mgmt s' = mgmt s -> itf s' = itf s -> pending s' = pending s -> timers s' = timers s ->
     wakelock s' = wakelock s -> clock_reads s' = clock_reads s -> enable_fmmo s' = enable_fmmo s -> Q tt s' []) ->
  wp next_send s E Q.
Proof. intros HQ. by apply wp_modify, HQ. Qed.

Lemma active_other s s' i c :
  0 <= i < num_clients (mgmt s) -> num_clients (mgmt s') = num_clients (mgmt s) ->
  clients (mgmt s') = <[Z.to_nat i := c]> (clients (mgmt s)) ->
  forall j, j <> Z.to_nat i -> active s' !! j = active s !! j.
Proof.
  intros Hi Hn Hc j Hj. unfold active at 1. rewrite Hn, Hc, active_insert by done.
  by apply list_lookup_insert_ne.
Qed.

Lemma wp_single b s i event m :
  cla_ok b s -> 0 <= i < num_clients (mgmt s) -> Z.testbit (to_clean (mgmt s)) i = false ->
  is_event event -> sendable event m -> alone event s ->
  (forall c, active s !! Z.to_nat i = Some c -> fresh event c) ->
  wp (notify_cli_event_single send_ok i event m) s allowed (fun _ s' o => single_post b i event s s' o).
Proof.
  intros Hok Hi Ht He Hm Ha Hfresh. destruct (active_lookup b s i Hok Hi) as (c & Hc & Hc').
  pose proof (Forall_lookup_1 _ _ _ _ (ok_client _ _ Hok) Hc) as Hco. specialize (Hfresh c Hc).
  destruct (is_event_range event He) as [Hr Hb].
  unfold notify_cli_event_single. apply wp_bind. eapply wp_is_to_clean; [done..|]. rewrite Ht.
  apply wp_bind, wp_ASSERT; [intros _|done]. apply wp_bind. eapply wp_get_client; [lia|done|].
  apply wp_bind. unfold wants_event. destruct (Z.leb_spec 0 event); [|lia]. destruct (Z.ltb_spec event 32); [|lia].
  apply wp_ret, wp_when; [intros Hw|intros _].
  2: { split_and!; [done|apply notified_refl|done|done]. }
  assert (registered c = true) as Hreg.
  { destruct (registered c) eqn:Hreg; [done|]. by rewrite unwanted in Hw. }
  apply wp_bind, wp_named; [by apply event_named|]. apply wp_bind, wp_mark; [done..|].
  pose proof (marked_ok b s i event c Hok Hi Hc Ht Hfresh Hreg) as Hok1.
  pose proof (marked_notified s i event c) as Hn1.
  assert (forall j, j <> Z.to_nat i -> active (marked s i event c) !! j = active s !! j) as Ho1
    by (eapply active_other; done).
  assert (Z.testbit (to_clean (mgmt (marked s i event c))) i = false) as Ht1 by done.
  generalize dependent (marked s i event c). intros s1 Hok1 Hn1 Ho1 Ht1.
  apply wp_bind. apply (wp_mono _ _ allowed _ (fun _ s' o => s' = s1 /\ o = [])); [|done|].
  { destruct m as [m|]; [by apply wp_ret|]. apply wp_bind, wp_serialize; [by apply event_no_data|]. by apply wp_ret. }
  intros m' ? ? [-> ->]. rewrite <-(nt_num _ _ _ Hn1) in Hi. apply wp_bind. eapply wp_get_fd; [done..|]. intros fd _.
  apply wp_bind, wp_get, wp_bind, wp_next_send. intros s2 E1 E2 E3 E4 E5 E6 E7.
  assert (cla_ok b s2) as Hok2 by (eapply cla_ok_same; [exact Hok1|rewrite ?E3; done..]).
  assert (notified event s s2) as Hn2 by (destruct Hn1; split; rewrite ?E1, ?E2, ?E3; congruence || done).
  assert (active s2 = active s1) as Ea by (unfold active; by rewrite E1).
  apply wp_bind, wp_emit, wp_when; intros _.
  - rewrite <-E1 in Hi, Ht1. destruct (active_lookup b s2 i Hok2 Hi) as (c2 & Hc2 & _).
    eapply wp_unregister; [done..|]. split_and!.
    + by apply unregistered_ok.
    + eapply notified_trans; [done|]. by eapply unregistered_notified.
    + by repeat constructor.
    + intros j Hj. erewrite active_other; [|exact Hi|done|done|done]. by rewrite Ea, Ho1.
  - split_and!; [done|done|by repeat constructor|]. intros j Hj. by rewrite Ea, Ho1.
Qed.

Lemma cnt_zero {T} (p : T -> bool) l i x : cnt p l = 0 -> l !! i = Some x -> p x = false.
Proof. intros H0 Hi. pose proof (cnt_elem p l i x Hi). destruct (p x); cbn in *; [lia|done]. Qed.

(** No acknowledgement is awaited. *)
Definition settled s : Prop :=
  num_waiting_cold_reset_ack (pending s) = 0 /\ num_waiting_shutdown_ack (pending s) = 0.

Definition may_notify (event : Z) s : Prop :=
  (event = MDM_COLD_RESET \/ event = MDM_SHUTDOWN) -> settled s.

Lemma counters_nonneg b s : cla_ok b s ->
  0 <= num_waiting_cold_reset_ack (pending s) /\ 0 <= num_waiting_shutdown_ack (pending s).
Proof. intros Hok. rewrite (ok_cold _ _ Hok), (ok_shutdown _ _ Hok). split; apply cnt_nonneg. Qed.

Lemma cold_not_shutdown : MDM_COLD_RESET <> MDM_SHUTDOWN.
Proof.
  intros He. pose proof mdm_events_distinct as Hn.
  do 4 apply list.NoDup_cons in Hn as [_ Hn]. apply list.NoDup_cons in Hn as [Hn _].
  apply Hn. rewrite He. by left.
Qed.

Definition all_post (b : bool) (event : Z) s (s' : cla) (o : list cla_out) : Prop :=
  cla_ok b s' /\ notified event s s' /\ Forall not_ctrl o.

Lemma wp_all b s event m :
  cla_ok b s -> is_event event -> sendable event m -> may_notify event s ->
  wp (notify_cli_event_all send_ok event m) s allowed (fun _ s' o => all_post b event s s' o).
Proof.
  intros Hok He Hm Hmay. pose proof (ok_num _ _ Hok) as Hn. unfold notify_cli_event_all.
  apply wp_bind, wp_named; [by apply event_named|]. apply wp_bind, wp_get. unfold upto.
  eapply (wp_for_range _ _ _ (fun i s' => cla_ok b s' /\ notified event s s' /\
    forall j c, i <= Z.of_nat j -> active s' !! j = Some c -> fresh event c)); [lia| | |].
  - split_and!; [done|apply notified_refl|]. intros j c _ Hc.
    split; intros ->; destruct Hmay as [H1 H2]; try tauto.
    + rewrite (ok_cold _ _ Hok) in H1. by eapply cnt_zero.
    + rewrite (ok_shutdown _ _ Hok) in H2. by eapply cnt_zero.
  - intros i s' Hi (Hok' & Hn' & Hf'). cbn in Hi.
    assert (0 <= i < num_clients (mgmt s')) as Hi' by (rewrite (nt_num _ _ _ Hn'); lia).
    apply wp_bind. eapply wp_is_to_clean; [done..|]. apply wp_when; intros Ht.
    + apply negb_true_iff in Ht. destruct (counters_nonneg _ _ Hok') as [N1 N2].
      eapply wp_mono; [eapply wp_single; try done|done|].
      * pose proof cold_not_shutdown. split; intros ->; destruct Hmay as [H1 H2]; try tauto.
        -- pose proof (nt_shutdown _ _ _ Hn' ltac:(done)). lia.
        -- pose proof (nt_cold _ _ _ Hn' ltac:(done)). lia.
      * intros c Hc. eapply Hf'; [|exact Hc]. lia.
      * intros [] s'' o (Hok'' & Hn'' & Ho & Hother). split_and!; [done|by eapply notified_trans| |done].
        intros j c Hj Hc. rewrite Hother in Hc by lia. eapply Hf'; [|done]. lia.
    + split_and!; [done|done| |done]. intros j c Hj. apply Hf'. lia.
  - intros s' o (Hok' & Hn' & _) Ho. by split_and!.
Qed.

Lemma wp_event_all b s event :
  cla_ok b s -> is_event event -> event <> MDM_DBG_INFO -> may_notify event s ->
  wp (notify_event_all send_ok event) s allowed (fun _ s' o => all_post b event s s' o).
Proof.
  intros Hok He Hne Hmay. unfold notify_event_all. apply wp_bind, wp_serialize; [by apply event_no_data|].
  by apply wp_all.
Qed.

End clients.

(** ** The operations of the state machine *)

Section ops.
Context `{HM : MdmCliLaws} {W : Type} `{HW : WakelockLaws W} (clock : nat -> timespec) (send_ok : nat -> bool).
Hypothesis clock_valid : forall n, valid_clock (clock n).
Hypothesis clock_mono : forall n m, (n <= m)%nat -> to_ns (clock n) <= to_ns (clock m).
#[local] Abbreviation cla := (crm_cli_abs_internal_ctx W).
Implicit Types (s : cla).

#[local] Abbreviation held s := (wl_count (wakelock s) WAKELOCK_CLA).

(** A deadline set [ms] after a past reading of the clock. *)
Definition deadline (ms : Z) s (e : timespec) : Prop :=
  exists k, (k < clock_reads s)%nat /\ e = crm_time_add_ms (clock k) ms.

Record timer_base s : Prop := {
  tk_valid : wl_valid (wakelock s);
  tk_count : 0 <= held s <= 1;
  tk_boot : timer_boot_armed (timers s) = true -> held s = 1 /\ deadline 2000 s (timer_boot_end (timers s));
}.

(** The wakelock is held while a timer runs, and the timers have been set. *)
Definition timer_ok s : Prop :=
  timer_base s /\ (~ settled s -> held s = 1 /\ deadline 1000 s (timer_ack_end (timers s))).

(** The acknowledgements that are awaited are those of the state. *)
Definition waits (st : Z) s : Prop :=
  (num_waiting_cold_reset_ack (pending s) <> 0 -> st = ST_ACK_WAITING_COLD) /\
  (num_waiting_shutdown_ack (pending s) <> 0 -> st = ST_ACK_WAITING_SHTDWN).

Lemma settled_waits st s : settled s -> waits st s.
Proof. intros [H1 H2]. split; intros Hne; by destruct Hne. Qed.

Lemma waits_settled st s : waits st s -> st <> ST_ACK_WAITING_COLD -> st <> ST_ACK_WAITING_SHTDWN -> settled s.
Proof.
  intros [H1 H2] N1 N2. split.
  - destruct (Z.eq_dec (num_waiting_cold_reset_ack (pending s)) 0); [done|]. by destruct N1; apply H1.
  - destruct (Z.eq_dec (num_waiting_shutdown_ack (pending s)) 0); [done|]. by destruct N2; apply H2.
Qed.

(** What an operation returns and leaves; a request to CTRL is made only when
    none is in progress. *)
Record op_post (b : bool) s (r : Z) (s' : cla) (o : list cla_out) : Prop := {
  op_ok : cla_ok b s';
  op_timer : timer_ok s';
  op_waits : waits r s';
  op_request : ctrl_requests o + b2z (request_in_progress (itf s)) = b2z (request_in_progress (itf s'));
  op_num : num_clients (mgmt s') = num_clients (mgmt s);
  op_range : -1 <= r < ST_NUM;
}.

Lemma timer_base_notified event s s' : notified event s s' -> timer_base s -> timer_base s'.
Proof.
  intros [? ? Ht Hw Hr _ _ _ _] [H1 H2 H3]. split; rewrite ?Hw, ?Ht; [done..|].
  intros Hb. destruct (H3 Hb) as [? (k & ? & ?)]. split; [done|]. exists k. by rewrite Hr.
Qed.

(** An event that asks for no acknowledgement. *)
Lemma notified_quiet b event s s' :
  event <> MDM_COLD_RESET -> event <> MDM_SHUTDOWN -> cla_ok b s' -> notified event s s' ->
  (settled s -> settled s') /\ (timer_ok s -> timer_ok s') /\ (forall st, waits st s -> waits st s').
Proof.
  intros N1 N2 Hok Hn. destruct (counters_nonneg _ _ Hok) as [P1 P2].
  pose proof (nt_cold _ _ _ Hn N1) as C1. pose proof (nt_shutdown _ _ _ Hn N2) as C2. unfold settled, waits.
  split_and!; [lia| |intros st [H1 H2]; split; intros ?; [apply H1|apply H2]; lia].
  intros [Hb Hw]. split; [by eapply timer_base_notified|]. intros Hs. unfold settled in *.
  destruct Hw as [Hh (k & Hk & Ht)]; [lia|]. destruct Hn as [? ? Et Ew Er _ _ _ _]. rewrite Ew, Et. split; [done|].
  exists k. by rewrite Er.
Qed.

(** Fields that do not matter to the timers. *)
Lemma timer_ok_same s s' :
  timers s' = timers s -> wakelock s' = wakelock s -> clock_reads s' = clock_reads s ->
  num_waiting_cold_reset_ack (pending s') = num_waiting_cold_reset_ack (pending s) ->
  num_waiting_shutdown_ack (pending s') = num_waiting_shutdown_ack (pending s) ->
  timer_ok s -> timer_ok s'.
Proof.
  intros E1 E2 E3 E4 E5 [[H1 H2 H3] H4].
  split; [split|]; unfold settled, deadline in *; rewrite ?E1, ?E2, ?E3, ?E4, ?E5; done.
Qed.

Lemma cla_module : is_module WAKELOCK_CLA.
Proof. unfold is_module, WAKELOCK_CLA, MAX_MODULE. lia. Qed.

Lemma wp_on_wakelock {T} (m : M W Z T) s E (Q : T -> cla -> list cla_out -> Prop) :
  wp m (wakelock s) E (fun a w o => Q a (mk_cla (enable_fmmo s) (sanity_test_mode s) (mgmt s) (itf s) (pending s)
    (timers s) w (clock_reads s) (sends s)) (WakelockMsg <$> o)) ->
  wp (on_wakelock m) s E Q.
Proof. intros Hm. by apply wp_zoom. Qed.

Lemma wakelock_not_ctrl (o : list Z) : Forall not_ctrl (WakelockMsg <$> o).
Proof. induction o; by constructor. Qed.

Ltac no_ctrl :=
  cbn [app]; rewrite ?app_nil_r, ?Forall_app; repeat split;
  solve [done | apply wakelock_not_ctrl | repeat constructor].

Lemma wp_start_ack_timer b s :
  cla_ok b s -> timer_base s ->
  wp (start_ack_timer clock) s allowed (fun _ s' o =>
    cla_ok b s' /\ timer_ok s' /\ mgmt s' = mgmt s /\ itf s' = itf s /\ pending s' = pending s /\ Forall not_ctrl o).
Proof.
  intros Hok [H1 H2 H3]. unfold start_ack_timer, read_clock. apply wp_bind, wp_bind, wp_get, wp_bind, wp_modify, wp_ret.
  apply wp_bind, wp_modify, wp_bind, wp_on_wakelock. cbn.
  eapply wp_mono; [by apply wl_is_held_by_module_spec; [|apply cla_module]|done|].
  intros h w o [-> ->]. apply wp_when; intros Hh.
  - apply negb_true_iff in Hh. bool_facts. apply wp_on_wakelock. cbn.
    eapply wp_mono; [apply wl_acquire_spec; [done|apply cla_module|unfold INT_MAX; lia]|done|].
    intros [] w' o' (Hv & Hc & _). split_and!; try done.
    + eapply cla_ok_same; done.
    + split; [split|]; cbn; [done|lia| |].
      * intros Hb. destruct (H3 Hb) as [? (k & ? & ?)]. lia.
      * intros _. split; [lia|]. exists (clock_reads s). cbn. split; [lia|done].
    + no_ctrl.
  - apply negb_false_iff in Hh. bool_facts. split_and!; try done.
    + eapply cla_ok_same; done.
    + split; [split|]; cbn; [done|lia| |].
      * intros Hb. destruct (H3 Hb) as [? (k & ? & ?)]. split; [done|]. exists k. cbn. split; [lia|done].
      * intros _. split; [lia|]. exists (clock_reads s). cbn. split; [lia|done].
    + no_ctrl.
Qed.

Lemma ctrl_requests_app o o' : ctrl_requests (o ++ o') = ctrl_requests o + ctrl_requests o'.
Proof. apply cnt_app. Qed.

(** An operation after something that makes no request. *)
Lemma op_post_after b s s1 o1 r s' o :
  itf s1 = itf s -> num_clients (mgmt s1) = num_clients (mgmt s) -> Forall not_ctrl o1 ->
  op_post b s1 r s' o -> op_post b s r s' (o1 ++ o).
Proof.
  intros Ei En Ho [H1 H2 H3 H4 H5 H6]. split; try done; [|congruence].
  rewrite ctrl_requests_app, no_ctrl_requests by done. rewrite Ei in H4. lia.
Qed.

Lemma op_post_ret b s r : -1 <= r < ST_NUM -> cla_ok b s -> timer_ok s -> waits r s -> op_post b s r s [].
Proof. by split. Qed.

(** Only the interface with CTRL changes. *)
Definition same_but_itf s s' : Prop :=
  mgmt s' = mgmt s /\ pending s' = pending s /\ timers s' = timers s /\ wakelock s' = wakelock s /\
  clock_reads s' = clock_reads s /\ enable_fmmo s' = enable_fmmo s.

Lemma itf_cla_ok b s s' : same_but_itf s s' -> cla_ok b s -> cla_ok b s'.
Proof. intros (? & E2 & ? & ? & ? & ?) Hok. apply (cla_ok_same b s); [done..| | |]; by rewrite E2. Qed.

Lemma itf_timer_ok s s' : same_but_itf s s' -> timer_ok s -> timer_ok s'.
Proof. intros (? & E2 & ? & ? & ? & ?). apply timer_ok_same; [done..| |]; by rewrite E2. Qed.

Lemma itf_timer_base s s' : same_but_itf s s' -> timer_base s -> timer_base s'.
Proof.
  intros (_ & _ & E3 & E4 & E5 & _) [K1 K2 K3]. split; unfold deadline in *; by rewrite ?E3, ?E4, ?E5.
Qed.

Lemma wp_cla_request b s (m : M cla cla_out Z) x st :
  is_ctrl x = true -> -1 <= st < ST_NUM ->
  m = (no_request ;; set_request_in_progress true ;; emit x ;; ret st) ->
  cla_ok b s -> timer_ok s -> settled s ->
  wp m s allowed (fun r s' o => op_post b s r s' o /\ r = st).
Proof.
  intros Hx Hst -> Hok Ht Hs. unfold no_request. apply wp_bind, wp_bind, wp_get, wp_ASSERT; [intros Hr|done].
  apply negb_true_iff in Hr. apply wp_bind, wp_modify, wp_bind, wp_emit, wp_ret. cbn. split; [|done].
  split; cbn; [by apply (itf_cla_ok b s)|by apply (itf_timer_ok s)|by apply settled_waits| |done|done].
  rewrite Hr. unfold ctrl_requests. rewrite cnt_cons, Hx. done.
Qed.

(** The continuation of a procedure once its event is notified: [num] clients
    have to acknowledge. *)
Lemma wp_ask_acks b s (request : M cla cla_out Z) num st :
  -1 <= st < ST_NUM -> cla_ok b s -> timer_base s ->
  (num = 0 -> settled s) ->
  waits st s ->
  (settled s -> timer_ok s -> wp request s allowed (fun r s' o => op_post b s r s' o)) ->
  wp (if num =? 0 then request else start_ack_timer clock ;; ret st) s allowed (fun r s' o => op_post b s r s' o).
Proof.
  intros Hst Hok Hb Hz Hw Hreq. destruct (Z.eqb_spec num 0) as [E|].
  - specialize (Hz E). apply Hreq; [done|]. by split.
  - apply wp_bind. eapply wp_mono; [by apply wp_start_ack_timer|done|].
    intros [] s' o (Hok' & Ht' & Em & Ei & Ep & Ho). apply wp_ret. rewrite app_nil_r.
    split; [done|done| | |by rewrite Em|done].
    + unfold waits. by rewrite Ep.
    + rewrite no_ctrl_requests, Ei by done. lia.
Qed.

Lemma event_down : is_event MDM_DOWN /\ MDM_DOWN <> MDM_DBG_INFO /\ MDM_DOWN <> MDM_COLD_RESET /\ MDM_DOWN <> MDM_SHUTDOWN.
Proof.
  pose proof mdm_events_distinct as Hn. split; [unfold is_event; rewrite !elem_of_cons; tauto|].
  apply list.NoDup_cons in Hn as [Hn _]. rewrite !elem_of_cons in Hn. split_and!; intros E; apply Hn; tauto.
Qed.

Lemma event_cold : is_event MDM_COLD_RESET /\ MDM_COLD_RESET <> MDM_DBG_INFO.
Proof.
  split; [unfold is_event; rewrite !elem_of_cons; tauto|]. apply dbg_info_other. rewrite !elem_of_cons. tauto.
Qed.

Lemma event_shutdown : is_event MDM_SHUTDOWN /\ MDM_SHUTDOWN <> MDM_DBG_INFO.
Proof.
  split; [unfold is_event; rewrite !elem_of_cons; tauto|]. apply dbg_info_other. rewrite !elem_of_cons. tauto.
Qed.

Lemma wp_notify_down b s (cond : bool) :
  cla_ok b s ->
  wp (when cond (notify_event_all send_ok MDM_DOWN)) s allowed (fun _ s' o => all_post b MDM_DOWN s s' o).
Proof.
  intros Hok. destruct event_down as (H1 & H2 & H3 & H4). apply wp_when; intros _.
  - apply wp_event_all; [done..|]. intros [?|?]; done.
  - split_and!; [done|apply notified_refl|done].
Qed.

Lemma notified_cold b s s' : cla_ok b s' -> settled s -> notified MDM_COLD_RESET s s' ->
  num_waiting_shutdown_ack (pending s') = 0.
Proof.
  intros Hok [_ H2] Hn. destruct (counters_nonneg _ _ Hok).
  pose proof (nt_shutdown _ _ _ Hn cold_not_shutdown). lia.
Qed.

Lemma notified_shutdown b s s' : cla_ok b s' -> settled s -> notified MDM_SHUTDOWN s s' ->
  num_waiting_cold_reset_ack (pending s') = 0.
Proof.
  intros Hok [H1 _] Hn. destruct (counters_nonneg _ _ Hok).
  pose proof (nt_cold _ _ _ Hn (not_eq_sym cold_not_shutdown)). lia.
Qed.

Lemma wp_start_shutdown b s :
  cla_ok b s -> timer_ok s -> settled s ->
  wp (start_shutdown_procedure clock send_ok) s allowed (fun r s' o => op_post b s r s' o).
Proof.
  intros Hok [Hb Hw] Hs. destruct event_shutdown as [E1 E2]. destruct event_down as (_ & _ & D3 & D4).
  unfold start_shutdown_procedure. apply wp_bind. eapply wp_mono; [apply (wp_event_all send_ok b); [done..|by intros _]|done|].
  intros [] s1 o1 (Hok1 & Hn1 & Ho1). pose proof (notified_shutdown _ _ _ Hok1 Hs Hn1) as Hc1.
  apply wp_bind, wp_get, wp_bind. eapply wp_mono; [by apply wp_notify_down|done|].
  intros [] s2 o2 (Hok2 & Hn2 & Ho2).
  assert (num_waiting_cold_reset_ack (pending s2) = 0) as Hc2.
  { destruct (counters_nonneg _ _ Hok2). pose proof (nt_cold _ _ _ Hn2 D3). lia. }
  apply wp_bind, wp_modify, wp_bind, wp_modify, wp_bind, wp_get. cbn [app].
  match goal with |- wp _ ?s3 _ _ => set (s' := s3) end.
  assert (cla_ok b s') as Hok' by (by apply (itf_cla_ok b s2)).
  eapply wp_mono; [apply (wp_ask_acks b s'); [done|done| | | |]|done|].
  - eapply (itf_timer_base s2); [done|]. by do 2 (eapply timer_base_notified; [done|]).
  - intros Hz. by split.
  - split; [|done]. intros Hne. by destruct Hne.
  - intros Hs' Ht'. eapply wp_mono; [apply (wp_cla_request b s' _ CtrlStop ST_STOPPING); [done|done|reflexivity|done..]|done|]. by intros r t o [? _].
  - intros r t o Hp. cbn [app].
    eapply (op_post_after b s s1); [apply (nt_itf _ _ _ Hn1)|apply (nt_num _ _ _ Hn1)|done|].
    eapply (op_post_after b s1 s2); [apply (nt_itf _ _ _ Hn2)|apply (nt_num _ _ _ Hn2)|done|].
    destruct Hp. by split.
Qed.

Lemma wp_request_pending b s :
  cla_ok b s -> timer_ok s -> settled s ->
  wp request_pending_restart s allowed (fun r s' o => op_post b s r s' o).
Proof.
  intros Hok Ht Hs. unfold request_pending_restart. apply wp_bind, wp_get.
  destruct (restart_type (pending s)) as [t|]; [|done].
  eapply wp_mono; [by eapply (wp_cla_request b s _ (CtrlRestart t (if dbg_info_present (pending s) then Some (dbg_info (pending s)) else None)) ST_STARTING)|done|]. by intros r s' o [? _].
Qed.

(** Telling that the modem is down, before a restart. *)
Lemma wp_fake_busy b s (cond : bool) :
  cla_ok b s -> timer_ok s -> settled s ->
  wp (when cond
        (notify_event_all send_ok MDM_DOWN ;;
         let* s := get in
         ASSERT "!i_ctx->fake_modem_state" (negb (fake_modem_state (itf s))) ;;
         set_modem_state MDM_STATE_BUSY ;;
         set_fake_modem_state true)) s allowed (fun _ s' o =>
    cla_ok b s' /\ timer_ok s' /\ settled s' /\ num_clients (mgmt s') = num_clients (mgmt s) /\
    request_in_progress (itf s') = request_in_progress (itf s) /\ Forall not_ctrl o).
Proof.
  intros Hok Ht Hs. destruct event_down as (H1 & H2 & H3 & H4). apply wp_when; intros _; [|done].
  apply wp_bind. eapply wp_mono; [apply (wp_event_all send_ok b); [done..|]|done|].
  { intros [?|?]; done. }
  intros [] s1 o1 (Hok1 & Hn1 & Ho1). destruct (notified_quiet b _ _ _ H3 H4 Hok1 Hn1) as (K1 & K2 & _).
  apply wp_bind, wp_get, wp_bind, wp_ASSERT; [intros _|done]. apply wp_bind, wp_modify, wp_modify. cbn [app].
  rewrite app_nil_r. split_and!.
  - by apply (itf_cla_ok b s1).
  - apply (itf_timer_ok s1); [done|auto].
  - by apply K1.
  - apply (nt_num _ _ _ Hn1).
  - cbn. by rewrite (nt_itf _ _ _ Hn1).
  - done.
Qed.

Lemma wp_start_restart b s :
  cla_ok b s -> timer_ok s -> settled s ->
  wp (start_restart_procedure clock send_ok) s allowed (fun r s' o => op_post b s r s' o).
Proof.
  intros Hok Ht Hs. destruct event_cold as [E1 E2]. unfold start_restart_procedure.
  apply wp_bind, wp_get, wp_bind. eapply wp_mono; [by apply wp_fake_busy|done|].
  intros [] s1 o1 (Hok1 & Ht1 & Hs1 & Hn1 & Hr1 & Ho1).
  apply wp_bind. eapply wp_mono; [apply (wp_event_all send_ok b); [done..|by intros _]|done|].
  intros [] s2 o2 (Hok2 & Hn2 & Ho2). pose proof (notified_cold _ _ _ Hok2 Hs1 Hn2) as Hc2.
  apply wp_bind, wp_get. eapply wp_mono; [apply (wp_ask_acks b s2); [done|done| | | |]|done|].
  - eapply timer_base_notified; [done|]. apply Ht1.
  - intros Hz. by split.
  - split; [done|]. intros Hne. by destruct Hne.
  - intros Hs' Ht'. by apply wp_request_pending.
  - intros r t o [P1 P2 P3 P4 P5 P6]. cbn [app].
    pose proof (nt_itf _ _ _ Hn2) as E. pose proof (nt_num _ _ _ Hn2) as En. split; try done; [|congruence].
    rewrite !ctrl_requests_app, (no_ctrl_requests o1), (no_ctrl_requests o2) by done. rewrite E, Hr1 in P4. lia.
Qed.

(** The operations of the table. *)
Definition op_spec (f : unit -> M cla cla_out Z) : Prop :=
  forall b s, cla_ok b s -> timer_ok s -> settled s -> wp (f tt) s allowed (fun r s' o => op_post b s r s' o).

Ltac op_ret := apply wp_ret, op_post_ret; [done|done|done|by apply settled_waits].

Lemma client_acquire_spec : op_spec client_acquire.
Proof.
  intros b s Hok Ht Hs. eapply wp_mono; [by apply (wp_cla_request b s _ CtrlStart ST_STARTING)|done|].
  by intros r s' o [? _].
Qed.

Lemma mdm_busy_spec : op_spec (mdm_busy clock send_ok).
Proof.
  intros b s Hok Ht Hs. unfold mdm_busy. apply wp_bind, wp_modify.
  match goal with |- wp _ ?t _ _ => set (s1 := t) end.
  eapply wp_mono; [apply (wp_start_restart b s1)|done|].
  - by apply (cla_ok_same b s).
  - by apply (timer_ok_same s).
  - done.
  - intros r s' o [P1 P2 P3 P4 P5 P6]. by split.
Qed.

Lemma check_pending_up_spec : op_spec (check_pending_up clock send_ok).
Proof.
  intros b s Hok Ht Hs. unfold check_pending_up. apply wp_bind, wp_get.
  destruct (_ || _); [op_ret|]. destruct (_ =? _); [by apply wp_start_shutdown|].
  destruct (bool_decide _); [by apply wp_start_restart|op_ret].
Qed.

Lemma check_pending_down_spec : op_spec check_pending_down.
Proof.
  intros b s Hok Ht Hs. unfold check_pending_down. apply wp_bind, wp_get.
  destruct (request_in_progress (itf s)) eqn:Hr; [op_ret|]. destruct (negb _); [op_ret|].
  cbn [orb]. destruct (0 <? _); [|op_ret].
  apply wp_bind, wp_modify, wp_bind, wp_emit, wp_ret.
  split; [by apply (itf_cla_ok b s)|by apply (itf_timer_ok s)|by apply settled_waits|cbn; by rewrite Hr|done|done].
Qed.

Lemma client_release_spec : op_spec (client_release clock send_ok).
Proof. intros b s Hok Ht Hs. by apply wp_start_shutdown. Qed.

Lemma client_restart_spec : op_spec (client_restart clock send_ok).
Proof. intros b s Hok Ht Hs. by apply wp_start_restart. Qed.

Lemma client_acked_cold_spec : op_spec (client_acked_cold clock send_ok).
Proof.
  intros b s Hok Ht Hs. unfold client_acked_cold. apply wp_bind, wp_get.
  destruct (bool_decide _); [op_ret|]. destruct (_ =? _); [by apply wp_start_shutdown|].
  destruct (bool_decide _); [by apply wp_request_pending|].
  unfold no_request at 1. apply wp_bind, wp_bind, wp_get, wp_ASSERT; [intros _|done].
  apply wp_bind, wp_ASSERT; [intros _|done].
  eapply wp_mono; [by apply (wp_cla_request b s _ (CtrlRestart CTRL_MODEM_RESTART None) ST_STARTING)|done|].
  by intros r s' o [? _].
Qed.

Lemma client_acked_shtdwn_spec : op_spec (client_acked_shtdwn clock send_ok).
Proof.
  intros b s Hok Ht Hs. unfold client_acked_shtdwn. apply wp_bind, wp_get.
  assert (wp request_stop s allowed (fun r s' o => op_post b s r s' o)) as Hstop.
  { eapply wp_mono; [by apply (wp_cla_request b s _ CtrlStop ST_STOPPING)|done|]. by intros r s' o [? _]. }
  destruct (_ =? _); [done|]. destruct (bool_decide _); [by apply wp_start_restart|].
  destruct (bool_decide _); [done|]. apply wp_bind, wp_modify, wp_bind, wp_modify, wp_bind, wp_ASSERT; [intros _|done].
  match goal with |- wp _ ?t _ _ => set (s1 := t) end.
  eapply wp_mono; [apply (wp_cla_request b s1 _ (CtrlRestart CTRL_MODEM_RESTART None) ST_STARTING); try done|done|].
  - by apply (itf_cla_ok b s).
  - by apply (itf_timer_ok s).
  - intros r s' o [[P1 P2 P3 P4 P5 P6] _]. by split.
Qed.

Lemma check_failure_spec : op_spec check_failure.
Proof.
  intros b s Hok Ht Hs. unfold check_failure. apply wp_bind, wp_get, wp_bind, wp_when; intros _; [|op_ret].
  by apply wp_bind, wp_emit, wp_DASSERT.
Qed.

Lemma assert_spec : op_spec assert.
Proof. intros b s _ _ _. by apply wp_bind, wp_ASSERT. Qed.

(** ** The table *)

(** When acknowledgements are awaited, only the end of the wait does anything. *)
Definition event_pre (st evt : Z) s : Prop := waits st s /\ (evt = EV_CLI_ACKED -> settled s).

Lemma event_settled st evt s :
  event_pre st evt s -> evt = EV_CLI_ACKED \/ (st <> ST_ACK_WAITING_COLD /\ st <> ST_ACK_WAITING_SHTDWN) -> settled s.
Proof. intros [Hw He] [->|[N1 N2]]; [by apply He|by eapply waits_settled]. Qed.

#[local] Abbreviation cfg := (cla_cfg clock send_ok).

(** What one cell does; [-1] has become the current state. *)
Definition cell_ok (b : bool) (st : Z) s (new : Z) (f' : fsm_st cla) (o : list cla_out) : Prop :=
  state f' = st /\ op_post b s new (fsm_param f') o /\ 0 <= new < ST_NUM.

Lemma cla_cell_keep f b st s :
  op_spec f -> 0 <= st < ST_NUM -> cla_ok b s -> timer_ok s -> settled s ->
  wp (run_op cfg (keep f) st tt) (mk_fsm_st st s) allowed (cell_ok b st s).
Proof.
  intros Hf Hst Hok Ht Hs. apply wp_run_op. cbn. eapply wp_mono; [by apply Hf|done|].
  intros r s' o [P1 P2 P3 P4 P5 P6]. destruct (Z.leb_spec r (-2)); [lia|]. unfold next_state. cbn.
  destruct (Z.leb_spec r (-2)); [lia|]. destruct (Z.eqb_spec r (-1)) as [->|Hr].
  - split_and!; cbn; [done| |lia..]. split; try done; [|lia]. apply settled_waits. by eapply waits_settled.
  - split_and!; cbn; [done|done|lia..].
Qed.

Lemma cla_cell_assert b st s :
  wp (run_op cfg (keep assert) st tt) (mk_fsm_st st s) allowed (cell_ok b st s).
Proof. apply wp_run_op. cbn. by apply wp_bind, wp_ASSERT. Qed.

Lemma cla_cell_none b st s :
  0 <= st < ST_NUM -> cla_ok b s -> timer_ok s -> waits st s ->
  wp (run_op cfg none st tt) (mk_fsm_st st s) allowed (cell_ok b st s).
Proof.
  intros Hst Hok Ht Hw. apply wp_run_op. cbn. split_and!; cbn; [done| |lia..]. by apply op_post_ret; [lia|..].
Qed.

Lemma cla_cell_to new b st s :
  0 <= new < ST_NUM -> cla_ok b s -> timer_ok s -> settled s ->
  wp (run_op cfg (to new) st tt) (mk_fsm_st st s) allowed (cell_ok b st s).
Proof.
  intros Hst Hok Ht Hs. apply wp_run_op. cbn. unfold next_state. cbn.
  destruct (Z.eqb_spec new (-1)); [lia|]. cbn. split_and!; cbn; [done| |lia..].
  apply op_post_ret; [lia|done|done|]. by apply settled_waits.
Qed.

Create HintDb cla_ops.
#[local] Hint Resolve client_acquire_spec mdm_busy_spec check_pending_up_spec check_pending_down_spec
  client_release_spec client_restart_spec client_acked_cold_spec client_acked_shtdwn_spec check_failure_spec : cla_ops.

Ltac solve_cla_cell Hpre :=
  lazymatch goal with
  | |- wp (run_op _ (keep assert) _ _) _ _ _ => apply cla_cell_assert
  | |- wp (run_op _ none _ _) _ _ _ => apply cla_cell_none; [done|done|done|apply Hpre]
  | |- wp (run_op _ (to _) _ _) _ _ _ =>
      apply cla_cell_to; [done|done|done|eapply event_settled; [exact Hpre|right; by split]]
  | |- _ =>
      apply cla_cell_keep; [eauto with cla_ops|done|done|done|
        eapply event_settled; [exact Hpre|first [by left | right; by split]]]
  end.

Lemma cla_cells b evt st row op s :
  cla_fsm_rows clock send_ok !! evt = Some row -> row !! st = Some op ->
  cla_ok b s -> timer_ok s -> event_pre (Z.of_nat st) (Z.of_nat evt) s ->
  wp (run_op cfg op (Z.of_nat st) tt) (mk_fsm_st (Z.of_nat st) s) allowed (cell_ok b (Z.of_nat st) s).
Proof.
  intros Hrow Hop Hok Ht Hpre.
  do 10 (destruct evt as [|evt];
    [ cbn [lookup list_lookup cla_fsm_rows] in Hrow; injection Hrow as <-;
      do 7 (destruct st as [|st];
        [ cbn [lookup list_lookup] in Hop; injection Hop as <-; solve [solve_cla_cell Hpre] | ]);
      by destruct st
    | ]).
  by destruct evt.
Qed.

Lemma cla_cell evt st : 0 <= evt < EV_NUM -> 0 <= st < ST_NUM ->
  exists row op, cla_fsm_rows clock send_ok !! Z.to_nat evt = Some row /\ row !! Z.to_nat st = Some op /\
    get_op cfg st evt = Some op.
Proof.
  unfold EV_NUM, ST_NUM. intros He Hs.
  assert (forall r, r ∈ cla_fsm_rows clock send_ok -> length r = 7%nat) as Hlen.
  { intros r Hr. apply list_elem_of_In in Hr. cbn [cla_fsm_rows In] in Hr.
    repeat (destruct Hr as [<-|Hr]; [done|]). done. }
  destruct (lookup_lt_is_Some_2 (cla_fsm_rows clock send_ok) (Z.to_nat evt)) as [row Hrow].
  { change (length (cla_fsm_rows clock send_ok)) with 10%nat. lia. }
  assert (length row = 7%nat) as Hl by (eapply Hlen, list_elem_of_lookup_2, Hrow).
  destruct (lookup_lt_is_Some_2 row (Z.to_nat st)) as [op Hop]; [lia|].
  exists row, op. split_and!; [done..|].
  apply (get_op_rows _ (cla_fsm_rows clock send_ok) _ _ row); try done; try lia.
  intros r Hr. rewrite (Hlen r Hr). done.
Qed.

Lemma cla_state_named st : 0 <= st < ST_NUM -> is_Some (get_state_txt st).
Proof. intros Hs. apply switch_some. cbn. unfold ST_NUM in Hs. rewrite !elem_of_cons. 
  unfold ST_INITIAL, ST_OFF, ST_STARTING, ST_UP, ST_ACK_WAITING_COLD, ST_ACK_WAITING_SHTDWN, ST_STOPPING. lia. Qed.

Lemma cla_event_named evt : 0 <= evt < EV_NUM -> is_Some (get_event_txt evt).
Proof.
  intros Hs. apply switch_some. cbn. unfold EV_NUM in Hs. rewrite !elem_of_cons.
  unfold EV_SUCCESS, EV_FAILURE, EV_MDM_OFF, EV_MDM_UNRESP, EV_MDM_BUSY, EV_MDM_READY, EV_CLI_ACQUIRE,
    EV_CLI_RELEASE, EV_CLI_RESTART, EV_CLI_ACKED. lia.
Qed.

(** ** The whole machine *)

(** The invariant between two events. *)
Record machine_ok (b : bool) (f : fsm_st cla) : Prop := {
  mk_range : 0 <= state f < ST_NUM;
  mk_ok : cla_ok b (fsm_param f);
  mk_timer : timer_ok (fsm_param f);
  mk_waits : waits (state f) (fsm_param f);
}.

(** What handling something does: [res] is how many results of CTRL it takes
    into account. *)
Record handled (b : bool) (res : Z) (f f' : fsm_st cla) (o : list cla_out) : Prop := {
  hd_ok : machine_ok b f';
  hd_requests : ctrl_requests o + b2z (request_in_progress (itf (fsm_param f)))
    <= b2z (request_in_progress (itf (fsm_param f'))) + res;
  hd_num : num_clients (mgmt (fsm_param f)) <= num_clients (mgmt (fsm_param f'));
}.

Lemma wp_cla_event b evt f :
  0 <= evt < EV_NUM -> machine_ok b f -> (evt = EV_CLI_ACKED -> settled (fsm_param f)) ->
  wp (cla_event clock send_ok evt) f allowed (fun _ f' o => handled b 0 f f' o).
Proof.
  intros He [Hr Hok Ht Hw] Ha. destruct (cla_cell evt (state f) He Hr) as (row & op & Hrow & Hop & Hget).
  unfold cla_event. eapply wp_notify_event; [cbn; lia|by apply cla_event_named|by apply cla_state_named|done|].
  cbn [pre_op cla_cfg]. apply wp_ret.
  pose proof (cla_cells b (Z.to_nat evt) (Z.to_nat (state f)) row op (fsm_param f) Hrow Hop Hok Ht) as Hc.
  rewrite !Z2Nat.id in Hc by lia. eapply wp_mono; [by apply Hc; split|done|].
  intros new f1 o1 (E & [P1 P2 P3 P4 P5 P6] & Hn). split; [left; by apply cla_state_named|]. intros _.
  assert (handled b 0 f (mk_fsm_st new (fsm_param f1)) o1) as Hh.
  { split; cbn; [by split|lia|lia]. }
  cbn [state_trans cla_cfg]. destruct (state f =? new); [apply wp_ret|apply wp_ASSERT; [intros _|done]];
    (split; [cbn; lia|]); cbn [app]; by rewrite app_nil_r.
Qed.

Lemma handled_refl b f : machine_ok b f -> handled b 0 f f [].
Proof. intros Hf. split; [done|unfold ctrl_requests, cnt; cbn; lia|lia]. Qed.

Lemma handled_trans b r1 r2 f f1 f2 o1 o2 :
  handled b r1 f f1 o1 -> handled b r2 f1 f2 o2 -> handled b (r1 + r2) f f2 (o1 ++ o2).
Proof.
  intros [A1 A2 A3] [B1 B2 B3]. split; [done| |lia]. rewrite ctrl_requests_app. lia.
Qed.

(** A step of the context that starts no wait and makes no request. *)
Record ctx_step (b : bool) s s' (o : list cla_out) : Prop := {
  cs_ok : cla_ok b s';
  cs_timer : timer_ok s -> timer_ok s';
  cs_waits st : waits st s -> waits st s';
  cs_request : request_in_progress (itf s') = request_in_progress (itf s);
  cs_num : num_clients (mgmt s) <= num_clients (mgmt s');
  cs_out : Forall not_ctrl o;
}.

Lemma ctx_step_refl b s : cla_ok b s -> ctx_step b s s [].
Proof. by split. Qed.

Lemma ctx_step_trans b s s1 s2 o1 o2 :
  ctx_step b s s1 o1 -> ctx_step b s1 s2 o2 -> ctx_step b s s2 (o1 ++ o2).
Proof.
  intros [A1 A2 A3 A4 A5 A6] [B1 B2 B3 B4 B5 B6]. split; auto; [congruence|lia|by apply Forall_app].
Qed.

(** An event without acknowledgement. *)
Definition neutral (event : Z) : Prop := event <> MDM_COLD_RESET /\ event <> MDM_SHUTDOWN.

Lemma ctx_step_notified b event s s' o :
  neutral event -> all_post b event s s' o -> ctx_step b s s' o.
Proof.
  intros [N1 N2] (Hok & Hn & Ho). destruct (notified_quiet b event s s' N1 N2 Hok Hn) as (K1 & K2 & K3).
  split; [done..|by rewrite (nt_itf _ _ _ Hn)|rewrite (nt_num _ _ _ Hn); lia|done].
Qed.

Lemma handled_ctx b f s' o :
  machine_ok b f -> ctx_step b (fsm_param f) s' o -> handled b 0 f (mk_fsm_st (state f) s') o.
Proof.
  intros [M1 M2 M3 M4] [A1 A2 A3 A4 A5 A6]. split; cbn; [split; cbn; auto| |done].
  rewrite no_ctrl_requests, A4 by done. lia.
Qed.

Lemma wp_on_ctx {T} b (m : M cla cla_out T) f :
  machine_ok b f -> wp m (fsm_param f) allowed (fun _ s' o => ctx_step b (fsm_param f) s' o) ->
  wp (on_param m) f allowed (fun _ f' o => handled b 0 f f' o).
Proof.
  intros Hf Hm. apply wp_on_param. eapply wp_mono; [exact Hm|done|]. intros a s' o Hs. by apply handled_ctx.
Qed.

(** A step on the pending procedure that leaves the counters alone. *)
Lemma ctx_step_fields b s s' :
  cla_ok b s -> enable_fmmo s' = enable_fmmo s -> mgmt s' = mgmt s -> timers s' = timers s ->
  wakelock s' = wakelock s -> clock_reads s' = clock_reads s ->
  request_in_progress (itf s') = request_in_progress (itf s) ->
  num_acquired (pending s') = num_acquired (pending s) ->
  num_waiting_cold_reset_ack (pending s') = num_waiting_cold_reset_ack (pending s) ->
  num_waiting_shutdown_ack (pending s') = num_waiting_shutdown_ack (pending s) ->
  ctx_step b s s' [].
Proof.
  intros Hok E1 E2 E3 E4 E5 E6 E7 E8 E9.
  split; [by apply (cla_ok_same b s)|by apply timer_ok_same| |done|rewrite E2; lia|done].
  intros st. unfold waits. by rewrite E8, E9.
Qed.

(** ** Messages of CTRL *)

Definition is_result_msg (m : cla_msg) : bool :=
  negb (fst m =? -1) && (CLI_ABS_GET_MSG_TYPE (fst m) =? CLI_ABS_MSG_NOTIFY_OPERATION_RESULT).

(** The events CTRL passes on to the clients. *)
Definition control_msg_ok (m : cla_msg) : Prop :=
  fst m <> -1 -> CLI_ABS_GET_MSG_TYPE (fst m) = CLI_ABS_MSG_NOTIFY_CLIENT ->
  i32 (CLI_ABS_GET_MSG_PAYLOAD (fst m)) ∈ [MDM_ON; MDM_DBG_INFO].

Lemma passed_on e : e ∈ [MDM_ON; MDM_DBG_INFO] -> is_event e /\ neutral e.
Proof.
  intros He. assert (is_event e) as Hev.
  { unfold is_event. rewrite !elem_of_cons in *. tauto. }
  split; [done|]. pose proof mdm_events_distinct as Hn.
  apply list.NoDup_cons in Hn as [_ Hn]. apply list.NoDup_cons in Hn as [Hon Hn].
  do 2 apply list.NoDup_cons in Hn as [_ Hn]. apply list.NoDup_cons in Hn as [Hc Hn].
  apply list.NoDup_cons in Hn as [Hs _]. rewrite !elem_of_cons in *. rewrite elem_of_nil in He.
  split; intros ->; intuition congruence.
Qed.

Lemma state_event st : is_event (map_modem_state_to_cli_event st) /\
  map_modem_state_to_cli_event st <> MDM_DBG_INFO /\ neutral (map_modem_state_to_cli_event st).
Proof.
  assert (map_modem_state_to_cli_event st ∈ [MDM_DOWN; MDM_UP; MDM_OOS]) as He.
  { rewrite !elem_of_cons. destruct st; cbn; tauto. }
  generalize dependent (map_modem_state_to_cli_event st). intros e He.
  split; [unfold is_event; rewrite !elem_of_cons in *; tauto|].
  split; [apply dbg_info_other; rewrite !elem_of_cons in *; tauto|].
  pose proof mdm_events_distinct as Hn. apply list.NoDup_cons in Hn as [Hd Hn].
  apply list.NoDup_cons in Hn as [_ Hn]. apply list.NoDup_cons in Hn as [Hu Hn]. apply list.NoDup_cons in Hn as [Ho _].
  rewrite !elem_of_cons in *. rewrite elem_of_nil in He. split; intros ->; intuition congruence.
Qed.

Lemma wp_change_modem_state b f st send :
  machine_ok b f -> wp (change_modem_state clock send_ok st send) f allowed (fun _ f' o => handled b 0 f f' o).
Proof.
  intros Hf. destruct (state_event st) as (E1 & E2 & E3). unfold change_modem_state. apply wp_bind.
  eapply wp_mono; [apply (wp_on_ctx b); [done|]|done|].
  - apply wp_bind, wp_get, wp_bind.
    eapply (wp_mono _ _ allowed _ (fun _ s' o => ctx_step b (fsm_param f) s' o)); [|done|].
    { apply wp_when; intros _; [|by apply ctx_step_refl, Hf].
      eapply wp_mono; [apply (wp_event_all send_ok b); [apply Hf|done|done|]|done|].
      - intros [?|?]; by destruct E3.
      - intros ? s' o Ha. by eapply ctx_step_notified. }
    intros ? s' o Hs. apply wp_modify. cbn [app]. eapply ctx_step_trans; [done|].
    apply ctx_step_fields; try done. apply Hs.
  - intros ? f1 o1 H1. replace 0 with (0 + 0) by lia.
    eapply wp_mono; [apply (wp_cla_event b); [|apply H1|]|done|].
    + destruct st; cbn; unfold EV_MDM_OFF, EV_NUM; lia.
    + destruct st; done.
    + intros ? f2 o2 H2. exact (handled_trans _ _ _ _ _ _ _ _ H1 H2).
Qed.

Lemma wp_filter_modem_state b s st :
  cla_ok b s -> wp (filter_modem_state st) s allowed (fun _ s' o => ctx_step b s s' o).
Proof.
  intros Hok. unfold filter_modem_state. apply wp_bind, wp_get. destruct (fake_modem_state (itf s)).
  2: { by apply wp_ret, ctx_step_refl. }
  do 2 (apply wp_bind, wp_ASSERT; [intros _|done]). destruct (bool_decide _).
  - apply wp_bind, wp_modify, wp_ret. by apply ctx_step_fields.
  - apply wp_bind, wp_when; intros _; [apply wp_modify|]; apply wp_ret; [by apply ctx_step_fields|by apply ctx_step_refl].
Qed.

Lemma wp_handle_modem_state b f st :
  machine_ok b f -> wp (handle_modem_state clock send_ok st) f allowed (fun _ f' o => handled b 0 f f' o).
Proof.
  intros Hf. unfold handle_modem_state. apply wp_bind.
  match goal with |- context [filter_modem_state ?x] => generalize x; intros st' end.
  eapply wp_mono; [apply (wp_on_ctx b); [done|]|done|].
  - apply wp_bind, wp_modify, wp_bind.
    eapply (wp_mono _ _ allowed _ (fun _ s' o => ctx_step b (fsm_param f) s' o)); [|done|].
    { destruct (_ || _); [apply wp_modify; apply ctx_step_fields; done || apply Hf|].
      apply wp_when; intros _; [apply wp_modify|]; apply ctx_step_fields; done || apply Hf. }
    intros ? s' o Hs. apply wp_bind, wp_get, wp_bind, wp_ASSERT; [intros _|done].
    eapply wp_mono; [apply wp_filter_modem_state, Hs|done|]. intros ? s2 o2 H2. cbn [app]. by eapply ctx_step_trans.
  - intros flt f1 o1 H1. apply wp_bind, wp_get. apply wp_when; intros _.
    + eapply wp_mono; [apply wp_change_modem_state, H1|done|]. intros ? f2 o2 H2. cbn [app].
      replace 0 with (0 + 0) by lia. exact (handled_trans _ _ _ _ _ _ _ _ H1 H2).
    + by rewrite app_nil_r.
Qed.

Lemma wp_handle_control_msg b f m :
  machine_ok b f -> control_msg_ok m ->
  wp (handle_control_msg clock send_ok m) f allowed (fun _ f' o => handled b (b2z (is_result_msg m)) f f' o).
Proof.
  intros Hf Hm. unfold handle_control_msg, is_result_msg, control_msg_ok in *.
  destruct (Z.eqb_spec (fst m) (-1)); [by apply wp_ret, handled_refl|]. cbn [negb andb]. specialize (Hm n).
  destruct (Z.eqb_spec (CLI_ABS_GET_MSG_TYPE (fst m)) CLI_ABS_MSG_NOTIFY_OPERATION_RESULT) as [|N1].
  { apply wp_bind, wp_bind, wp_on_param, wp_modify.
    match goal with |- wp _ ?t _ _ => set (f1 := t) end.
    assert (machine_ok b f1) as H1.
    { destruct Hf as [M1 M2 M3 M4]. split; [done|by apply (itf_cla_ok b (fsm_param f))|
        by apply (itf_timer_ok (fsm_param f))|done]. }
    eapply wp_mono; [apply (wp_cla_event b); [by destruct (_ =? 0)|done|by destruct (_ =? 0)]|done|].
    intros ? f2 o2 [A1 A2 A3]. apply wp_ret. rewrite app_nil_r. cbn in *. split; [done| |done].
    destruct (request_in_progress (itf (fsm_param f))); cbn; lia. }
  cbn [b2z]. destruct (Z.eqb_spec (CLI_ABS_GET_MSG_TYPE (fst m)) CLI_ABS_MSG_NOTIFY_CLIENT) as [E|N2].
  { destruct (passed_on _ (Hm E)) as [E1 E2]. apply wp_bind, wp_bind, wp_named; [by apply event_named|].
    destruct (snd m) as [d|]; [|done].
    eapply wp_mono; [apply (wp_on_ctx b); [done|]|done|].
    - eapply wp_mono; [apply (wp_all send_ok b); [apply Hf|done|done|]|done|].
      + intros [?|?]; by destruct E2.
      + intros ? s' o Ha. by eapply ctx_step_notified.
    - intros ? f1 o1 H1. apply wp_ret. cbn [app]. by rewrite app_nil_r. }
  apply wp_bind, wp_when; intros _; [|by apply wp_ret, handled_refl].
  destruct (mdm_state_of _) as [st|]; [|done].
  eapply wp_mono; [by apply wp_handle_modem_state|done|]. intros ? f1 o1 H1. apply wp_ret. by rewrite app_nil_r.
Qed.

(** ** Messages of the clients *)

(** A connected client that is not being removed. *)
Definition live s (i : Z) : Prop :=
  0 <= i < num_clients (mgmt s) /\ Z.testbit (to_clean (mgmt s)) i = false.

Definition is_registered s (i : Z) : Prop :=
  forall c, active s !! Z.to_nat i = Some c -> registered c = true.

Lemma wp_unregister_step b s i :
  cla_ok b s -> live s i -> wp (handle_client_unregister i) s allowed (fun _ s' o => ctx_step b s s' o).
Proof.
  intros Hok [Hi Ht]. destruct (active_lookup b s i Hok Hi) as (c & Hc & _).
  eapply wp_unregister; [done..|]. destruct event_down as (_ & _ & D3 & D4).
  eapply (ctx_step_notified b MDM_DOWN); [done|]. split_and!; [by apply unregistered_ok| |done].
  by eapply unregistered_notified.
Qed.

Lemma wp_single_step b s i event m :
  cla_ok b s -> live s i -> is_event event -> sendable event m -> neutral event ->
  wp (notify_cli_event_single send_ok i event m) s allowed (fun _ s' o => ctx_step b s s' o).
Proof.
  intros Hok [Hi Ht] He Hm [N1 N2]. eapply wp_mono; [apply (wp_single send_ok b); try done|done|].
  - intros ? s' o (? & ? & ? & _). by eapply ctx_step_notified.
Qed.

(** One client changes; the counter of acknowledgements may go down. *)
Lemma ctx_step_client b s s' i c c' :
  cla_ok b s -> live s i -> active s !! Z.to_nat i = Some c ->
  enable_fmmo s' = enable_fmmo s -> num_clients (mgmt s') = num_clients (mgmt s) ->
  clients (mgmt s') = <[Z.to_nat i := c']> (clients (mgmt s)) -> pfd (mgmt s') = pfd (mgmt s) ->
  to_clean (mgmt s') = to_clean (mgmt s) -> itf s' = itf s -> timers s' = timers s ->
  wakelock s' = wakelock s -> clock_reads s' = clock_reads s ->
  num_acquired (pending s') = num_acquired (pending s) - b2z (acquired c) + b2z (acquired c') ->
  num_waiting_cold_reset_ack (pending s') =
    num_waiting_cold_reset_ack (pending s) - b2z (waiting_cold_reset_ack c) + b2z (waiting_cold_reset_ack c') ->
  num_waiting_shutdown_ack (pending s') =
    num_waiting_shutdown_ack (pending s) - b2z (waiting_shutdown_ack c) + b2z (waiting_shutdown_ack c') ->
  b2z (waiting_cold_reset_ack c') <= b2z (waiting_cold_reset_ack c) ->
  b2z (waiting_shutdown_ack c') <= b2z (waiting_shutdown_ack c) ->
  client_ok c' ->
  ctx_step b s s' [].
Proof.
  intros Hok [Hi Ht] Hc E1 E2 E3 E4 E5 E6 E7 E8 E9 A1 A2 A3 L1 L2 Hco.
  assert (cla_ok b s') as Hok'.
  { eapply (cla_ok_update b s s' i c c'); try done; rewrite E5; [by rewrite Ht|done]. }
  destruct (counters_nonneg _ _ Hok') as [P1 P2].
  split; [done| | |by rewrite E6|lia|done].
  - intros [[T1 T2 T3] T4]. split; [split|]; unfold deadline, settled in *; rewrite ?E7, ?E8, ?E9; [done..|].
    intros Hs. apply T4. lia.
  - intros st [W1 W2]. split; intros Hne; [apply W1|apply W2]; lia.
Qed.

Ltac client_fields := unfold set_client, set_clients, set_num_acquired, set_num_cold, set_num_shutdown, on_mgmt, on_pending.

Lemma wp_handle_register b s i bitmap nm :
  cla_ok b s -> live s i ->
  wp (handle_register send_ok i bitmap nm) s allowed (fun _ s' o => ctx_step b s s' o).
Proof.
  intros Hok Hl. pose proof Hl as [Hi Ht]. destruct (active_lookup b s i Hok Hi) as (c & Hc & Hc').
  pose proof (Forall_lookup_1 _ _ _ _ (ok_client _ _ Hok) Hc) as Hco.
  unfold handle_register. apply wp_bind. eapply wp_get_client; [lia|done|].
  destruct (registered c) eqn:Hr; [by apply wp_unregister_step|]. destruct (Hco Hr) as [(Q1 & Q2 & Q3) _].
  client_fields. apply wp_bind, wp_bind, wp_get, wp_modify, wp_bind, wp_get.
  match goal with |- wp _ ?t _ _ => set (s1 := t) end.
  assert (ctx_step b s s1 []) as H1.
  { eapply (ctx_step_client b s s1 i c); try done; cbn; lia. }
  apply wp_when; intros _; [|done]. destruct (state_event (modem_state (itf s1))) as (E1 & E2 & E3).
  eapply wp_mono; [apply (wp_single_step b s1); [apply H1|done|done|done|done]|done|].
  intros ? s2 o2 H2. cbn [app]. exact (ctx_step_trans _ _ _ _ _ _ H1 H2).
Qed.

(** A registered client. *)
Ltac enter_client Hok Hl Hreg :=
  let Hi := fresh "Hi" in let Ht := fresh "Ht" in let c := fresh "c" in let Hc := fresh "Hc" in
  let Hc' := fresh "Hc'" in
  pose proof Hl as [Hi Ht]; destruct (active_lookup _ _ _ Hok Hi) as (c & Hc & Hc');
  pose proof (cnt_elem acquired _ _ _ Hc); pose proof (cnt_elem waiting_cold_reset_ack _ _ _ Hc);
  pose proof (cnt_elem waiting_shutdown_ack _ _ _ Hc); specialize (Hreg c Hc);
  rewrite <-?(ok_cold _ _ Hok), <-?(ok_shutdown _ _ Hok) in *.

Lemma wp_handle_acquire b s i :
  cla_ok b s -> live s i -> is_registered s i ->
  wp (handle_acquire i) s allowed (fun _ s' o => ctx_step b s s' o).
Proof.
  intros Hok Hl Hreg. enter_client Hok Hl Hreg. unfold handle_acquire. apply wp_bind, wp_get.
  apply wp_when; intros _; [|by apply ctx_step_refl]. apply wp_bind. eapply wp_get_client; [lia|done|].
  apply wp_when; intros Ha; [|by apply ctx_step_refl]. apply negb_true_iff in Ha. client_fields.
  apply wp_bind, wp_bind, wp_get, wp_modify, wp_modify. eapply (ctx_step_client b s _ i c); try done; cbn.
  - rewrite Ha. cbn. lia.
  - lia.
  - lia.
  - unfold client_ok. cbn. congruence.
Qed.

Lemma base_nonneg s : 0 <= base s.
Proof. unfold base. destruct (enable_fmmo s); lia. Qed.

Lemma wp_handle_release b s i :
  cla_ok b s -> live s i -> is_registered s i ->
  wp (handle_release i) s allowed (fun _ s' o => ctx_step b s s' o).
Proof.
  intros Hok Hl Hreg. enter_client Hok Hl Hreg. pose proof (ok_acquired _ _ Hok) as Hn. pose proof (base_nonneg s).
  unfold handle_release. apply wp_bind, wp_get.
  apply wp_when; intros _; [|by apply ctx_step_refl]. apply wp_bind. eapply wp_get_client; [lia|done|].
  apply wp_when; intros Ha; [|by apply ctx_step_refl]. client_fields. rewrite Ha in *. cbn [b2z] in *.
  apply wp_bind, wp_bind, wp_get, wp_modify, wp_bind, wp_modify, wp_bind, wp_get, wp_ASSERT;
    [intros _|cbn; rewrite Z.leb_gt; lia].
  eapply (ctx_step_client b s _ i c); try done; cbn.
  - rewrite Ha. cbn. lia.
  - lia.
  - lia.
  - unfold client_ok. cbn. congruence.
Qed.

Lemma wp_handle_ack_cold b s i :
  cla_ok b s -> live s i -> is_registered s i ->
  wp (handle_ack_cold_reset i) s allowed (fun _ s' o => ctx_step b s s' o).
Proof.
  intros Hok Hl Hreg. enter_client Hok Hl Hreg.
  unfold handle_ack_cold_reset. apply wp_bind. eapply wp_get_client; [lia|done|].
  apply wp_when; intros Ha; [|by apply ctx_step_refl]. client_fields. rewrite Ha in *. cbn [b2z] in *.
  apply wp_bind, wp_bind, wp_get, wp_modify, wp_bind, wp_modify, wp_bind, wp_get, wp_ASSERT;
    [intros _|cbn; rewrite Z.leb_gt; lia].
  eapply (ctx_step_client b s _ i c); try done; cbn; rewrite ?Ha; cbn; try lia.
  unfold client_ok. cbn. congruence.
Qed.

Lemma wp_handle_ack_shutdown b s i :
  cla_ok b s -> live s i -> is_registered s i ->
  wp (handle_ack_shutdown i) s allowed (fun _ s' o => ctx_step b s s' o).
Proof.
  intros Hok Hl Hreg. enter_client Hok Hl Hreg.
  unfold handle_ack_shutdown. apply wp_bind. eapply wp_get_client; [lia|done|].
  apply wp_when; intros Ha; [|by apply ctx_step_refl]. client_fields. rewrite Ha in *. cbn [b2z] in *.
  apply wp_bind, wp_bind, wp_get, wp_modify, wp_bind, wp_modify, wp_bind, wp_get, wp_ASSERT;
    [intros _|cbn; rewrite Z.leb_gt; lia].
  eapply (ctx_step_client b s _ i c); try done; cbn; rewrite ?Ha; cbn; try lia.
  unfold client_ok. cbn. congruence.
Qed.

Lemma wp_handle_notify_dbg b s d :
  cla_ok b s -> dbg_ptr_ok d -> wp (handle_notify_dbg send_ok d) s allowed (fun _ s' o => ctx_step b s s' o).
Proof.
  intros Hok Hd. destruct (passed_on MDM_DBG_INFO) as [E1 E2]; [rewrite !elem_of_cons; tauto|].
  unfold handle_notify_dbg. apply wp_bind.
  apply (wp_mono _ _ allowed _ (fun _ s' o => s' = s /\ o = [])); [|done|].
  { destruct d; [by apply wp_named_any|by apply wp_ret]. }
  intros ? ? ? [-> ->]. apply wp_bind, wp_serialize; [by apply event_debug|].
  eapply wp_mono; [apply (wp_all send_ok b); [done..|]|done|].
  - intros [?|?]; by destruct E2.
  - intros ? s' o Ha. by eapply ctx_step_notified.
Qed.

Lemma wp_then_event b f evt (m : M (fsm_st cla) cla_out unit) :
  0 <= evt < EV_NUM -> evt <> EV_CLI_ACKED ->
  wp m f allowed (fun _ f' o => handled b 0 f f' o) ->
  wp (m ;; cla_event clock send_ok evt) f allowed (fun _ f' o => handled b 0 f f' o).
Proof.
  intros He Hne Hm. apply wp_bind. eapply wp_mono; [exact Hm|done|]. intros ? f1 o1 H1.
  eapply wp_mono; [apply (wp_cla_event b); [done|apply H1|done]|done|]. intros ? f2 o2 H2.
  replace 0 with (0 + 0) by lia. exact (handled_trans _ _ _ _ _ _ _ _ H1 H2).
Qed.

Lemma wp_handle_restart b f cause d :
  machine_ok b f -> wp (handle_restart clock send_ok cause d) f allowed (fun _ f' o => handled b 0 f f' o).
Proof.
  intros Hf. unfold handle_restart. apply wp_bind, wp_get, wp_bind, wp_named_any; [done|]. apply wp_bind.
  apply (wp_mono _ _ allowed _ (fun _ f' o => f' = f /\ o = [])); [|done|].
  { destruct d; [by apply wp_named_any|by apply wp_ret]. }
  intros ? ? ? [-> ->]. apply wp_when; intros _; [|by apply handled_refl].
  apply wp_then_event; [done|done|]. apply (wp_on_ctx b); [done|]. apply wp_bind.
  apply (wp_mono _ _ allowed _ (fun _ s' o => s' = fsm_param f /\ o = [])); [|done|].
  { unfold get_restart_type. destruct (_ =? _); [by apply wp_ret|]. destruct (_ =? _); [by apply wp_ret|done]. }
  intros t ? ? [-> ->]. apply wp_bind, wp_modify, wp_bind, wp_get. destruct d as [d|].
  - apply wp_bind, wp_ASSERT; [intros _|done]. apply wp_modify. apply ctx_step_fields; done || apply Hf.
  - apply wp_modify. apply ctx_step_fields; done || apply Hf.
Qed.

(** A message as [recv_msg] gives it, that is not the request to shut
    everything down. *)
Definition client_msg_ok (m : crm_mdmcli_wire_msg) : Prop := received_ok m /\ msg_id m <> CRM_REQ_SHUTDOWN.

Lemma wp_client_request b f i m :
  machine_ok b f -> live (fsm_param f) i -> (is_register (msg_id m) = false -> is_registered (fsm_param f) i) ->
  client_msg_ok m ->
  wp (client_request clock send_ok i m) f allowed (fun _ f' o => handled b 0 f f' o).
Proof.
  intros Hf Hl Hreg [Hm Hns]. pose proof (mk_ok _ _ Hf) as Hok. unfold client_request, received_ok in *.
  destruct (is_register (msg_id m)) eqn:Er.
  { destruct restart_is_debug as [Rd _]. unfold is_debug in Hm.
    destruct (msg m) as [| | |bitmap nm].
    - by destruct Hm.
    - destruct Hm as [Hm _]. exfalso. unfold is_register, CRM_REQ_REGISTER, CRM_REQ_REGISTER_DBG in Er.
      destruct (is_event_range MDM_DBG_INFO) as [? ?]; [unfold is_event; rewrite !elem_of_cons; tauto|].
      unfold CRM_REQ_RESTART, CRM_REQ_NOTIFY_DBG in Hm.
      apply orb_true_iff in Er, Hm. rewrite orb_true_iff, !Z.eqb_eq in Hm. rewrite !Z.eqb_eq in Er. lia.
    - destruct Hm as [Hm _]. by rewrite Hm, Rd in Er.
    - apply (wp_on_ctx b); [done|]. by apply wp_handle_register. }
  specialize (Hreg eq_refl).
  destruct (_ =? CRM_REQ_ACQUIRE); [apply (wp_on_ctx b); [done|by apply wp_handle_acquire]|].
  destruct (_ =? CRM_REQ_RELEASE); [apply (wp_on_ctx b); [done|by apply wp_handle_release]|].
  destruct (Z.eqb_spec (msg_id m) CRM_REQ_RESTART) as [E|].
  { destruct (msg m) as [|d|cause d|]; [| |by apply wp_handle_restart|].
    - destruct Hm as [_ Hm]. unfold is_debug in Hm. rewrite E, Z.eqb_refl in Hm. done.
    - by destruct Hm as (_ & Hm & _).
    - by destruct Hm as [? _]. }
  destruct (Z.eqb_spec (msg_id m) CRM_REQ_SHUTDOWN) as [|_]; [done|].
  destruct (_ =? CRM_REQ_NVM_BACKUP).
  { apply wp_then_event; [done|done|]. apply (wp_on_ctx b); [done|]. apply wp_modify. by apply ctx_step_fields. }
  destruct (_ =? CRM_REQ_ACK_COLD_RESET); [apply (wp_on_ctx b); [done|by apply wp_handle_ack_cold]|].
  destruct (_ =? CRM_REQ_ACK_SHUTDOWN); [apply (wp_on_ctx b); [done|by apply wp_handle_ack_shutdown]|].
  apply wp_when; intros Hd; [|by apply handled_refl].
  destruct (msg m) as [|d|cause d|].
  - destruct Hm as [_ Hm]. unfold is_debug in Hm. by rewrite Hd, orb_true_r in Hm.
  - apply (wp_on_ctx b); [done|]. apply wp_handle_notify_dbg; [done|apply Hm].
  - by destruct Hm as [? _].
  - destruct Hm as [Hm _]. congruence.
Qed.

Lemma wp_handle_client_msg b f i m :
  machine_ok b f -> 0 <= i < num_clients (mgmt (fsm_param f)) -> client_msg_ok m ->
  wp (handle_client_msg clock send_ok i m) f allowed (fun _ f' o => handled b 0 f f' o).
Proof.
  intros Hf Hi Hm. pose proof (mk_ok _ _ Hf) as Hok. unfold handle_client_msg.
  apply wp_bind, wp_on_param. eapply wp_is_to_clean; [done..|].
  destruct (Z.testbit _ i) eqn:Ht.
  { apply wp_named_any; [done|]. destruct f. by apply handled_refl. }
  assert (mk_fsm_st (state f) (fsm_param f) = f) as -> by (by destruct f).
  assert (live (fsm_param f) i) as Hl by done.
  apply wp_bind, wp_when; intros _; [apply wp_named_any; [done|]|];
    (apply wp_bind, wp_get; destruct (_ || _); [apply (wp_on_ctx b); [done|by apply wp_unregister_step]|]);
    destruct (active_lookup b _ i Hok Hi) as (c & Hc & Hc');
    (apply wp_bind, wp_on_param; eapply wp_get_client; [lia|done|]);
    assert (mk_fsm_st (state f) (fsm_param f) = f) as -> by (by destruct f);
    (destruct (negb _ && negb _) eqn:Hu; [apply (wp_on_ctx b); [done|by apply wp_unregister_step]|]);
    (apply wp_client_request; [done|done| |done]);
    intros Hr c2 Hc2; rewrite Hr in Hu; cbn in Hu; apply negb_false_iff in Hu; congruence.
Qed.

Lemma wp_unregister_once b s i :
  cla_ok b s -> 0 <= i < num_clients (mgmt s) ->
  wp (unregister_once i) s allowed (fun _ s' o => ctx_step b s s' o).
Proof.
  intros Hok Hi. unfold unregister_once. apply wp_bind. eapply wp_is_to_clean; [done..|].
  apply wp_when; intros Ht; [|by apply ctx_step_refl]. apply negb_true_iff in Ht. by apply wp_unregister_step.
Qed.

Definition client_rev_ok (r : revents (option crm_mdmcli_wire_msg)) : Prop :=
  match r with RevIn (Some m) => client_msg_ok m | _ => True end.

Lemma wp_client_item b f i r :
  machine_ok b f -> 0 <= i < num_clients (mgmt (fsm_param f)) -> client_rev_ok r ->
  wp (client_item clock send_ok i r) f allowed (fun _ f' o => handled b 0 f f' o).
Proof.
  intros Hf Hi Hr. destruct r as [| |[m|]]; cbn.
  - by apply wp_ret, handled_refl.
  - apply (wp_on_ctx b); [done|]. apply wp_unregister_once; [apply Hf|done].
  - by apply wp_handle_client_msg.
  - apply (wp_on_ctx b); [done|]. apply wp_unregister_once; [apply Hf|done].
Qed.

(** How many results of CTRL a batch of messages carries. *)
Definition results_in (l : list cla_msg) : Z := cnt is_result_msg l.

Lemma wp_handle_control_msgs b f l :
  machine_ok b f -> Forall control_msg_ok l ->
  wp (handle_control_msgs clock send_ok l) f allowed (fun _ f' o => handled b (results_in l) f f' o).
Proof.
  intros Hf Hl. revert f Hf. induction Hl as [|m l Hm _ IH]; intros f Hf; cbn [handle_control_msgs].
  { by apply wp_ret, handled_refl. }
  apply wp_bind. eapply wp_mono; [by apply wp_handle_control_msg|done|]. intros ? f1 o1 H1.
  apply wp_bind. eapply wp_mono; [apply IH, H1|done|]. intros ? f2 o2 H2. apply wp_ret. rewrite app_nil_r.
  unfold results_in. rewrite cnt_cons. exact (handled_trans _ _ _ _ _ _ _ _ H1 H2).
Qed.

Definition ipc_rev_ok (r : revents (list cla_msg)) : Prop :=
  match r with RevIn l => Forall control_msg_ok l | _ => True end.
Definition ipc_results (r : revents (list cla_msg)) : Z :=
  match r with RevIn l => results_in l | _ => 0 end.

Lemma wp_ipc_item b f r :
  machine_ok b f -> ipc_rev_ok r ->
  wp (ipc_item clock send_ok r) f allowed (fun _ f' o => handled b (ipc_results r) f f' o).
Proof.
  intros Hf Hr. destruct r as [| |l]; cbn; [by apply wp_ret, handled_refl|done|by apply wp_handle_control_msgs].
Qed.

(** A new client: the cleared entry adds nothing to the counters, and it is
    not marked as disconnected during this turn. *)
Lemma wp_accept_client b s fd :
  cla_ok b s -> wp (accept_client fd) s allowed (fun _ s' o => ctx_step b s s' o).
Proof.
  intros Hok. unfold accept_client. apply wp_when; intros _; [|by apply ctx_step_refl].
  apply wp_bind, wp_get, wp_bind, wp_ASSERT; [intros Hlt|done]. bool_facts. apply wp_modify.
  match goal with |- ctx_step _ _ ?t _ => set (s' := t) end.
  assert (active s' = active s ++ [no_client]) as Ha.
  { unfold active. cbn. destruct Hok as [H1 H2 _ _ _ _ _ _].
    rewrite Z2Nat.inj_add by lia. change (Z.to_nat 1) with 1%nat. rewrite Nat.add_1_r.
    erewrite take_S_r by (apply list_lookup_insert_eq; lia). by rewrite take_insert_ge. }
  split.
  - destruct Hok as [H1 H2 H3 H4 H5 H6 H7 H8]. split; rewrite ?Ha, ?cnt_app; cbn -[base]; rewrite ?length_insert; try done.
    + lia.
    + change (cnt acquired [no_client]) with 0. rewrite H4. unfold base. cbn. lia.
    + change (cnt waiting_cold_reset_ack [no_client]) with 0. rewrite H5. lia.
    + change (cnt waiting_shutdown_ack [no_client]) with 0. rewrite H6. lia.
    + apply Forall_app. split; [done|]. by repeat constructor.
    + intros Hb i c Hc. apply lookup_app_Some in Hc as [Hc|[_ Hc]]; [by apply (H8 Hb i)|].
      apply list_lookup_singleton_Some in Hc as [_ <-]. done.
  - by apply timer_ok_same.
  - done.
  - done.
  - cbn. lia.
  - done.
Qed.

Lemma wp_server_item b f r :
  machine_ok b f -> wp (server_item r) f allowed (fun _ f' o => handled b 0 f f' o).
Proof.
  intros Hf. destruct r as [| |fd]; cbn; [by apply wp_ret, handled_refl|done|].
  apply (wp_on_ctx b); [done|]. apply wp_accept_client, Hf.
Qed.

Lemma is_waiting_settled s :
  (negb (num_waiting_cold_reset_ack (pending s) =? 0) || negb (num_waiting_shutdown_ack (pending s) =? 0)) = false <->
  settled s.
Proof. rewrite orb_false_iff, !negb_false_iff, !Z.eqb_eq. done. Qed.

Lemma wp_raise_event b f a w :
  machine_ok b f -> wp (raise_event clock send_ok a w) f allowed (fun _ f' o => handled b 0 f f' o).
Proof.
  intros Hf. pose proof (mk_ok _ _ Hf) as Hok. unfold raise_event. apply wp_bind.
  apply (wp_mono _ _ allowed _ (fun evt f' o => handled b 0 f f' o /\
    (evt = EV_NONE \/ 0 <= evt < EV_NUM) /\ (evt = EV_CLI_ACKED -> settled (fsm_param f')))); [|done|].
  { apply wp_on_param. unfold is_waiting. apply wp_bind, wp_gets.
    assert (handled b 0 f (mk_fsm_st (state f) (fsm_param f)) []) as Href by (destruct f; by apply handled_refl).
    destruct (_ || _) eqn:Hw.
    - rewrite andb_false_r. apply wp_bind, wp_get. destruct (a && _); [|destruct (negb a && _)].
      + apply wp_ret. cbn. split_and!; [done|by right|done].
      + apply wp_bind, wp_ASSERT; [intros _|done]. apply wp_ret. cbn. split_and!; [done|by right|done].
      + apply wp_ret. cbn. split_and!; [done|by left|done].
    - apply is_waiting_settled in Hw. apply wp_bind, wp_get.
      assert (forall e, (if w && negb false then EV_CLI_ACKED else EV_NONE) = e ->
        (e = EV_NONE \/ 0 <= e < EV_NUM)) as He by (intros e <-; destruct w; [by right|by left]).
      destruct (a && _); [|destruct (negb a && _)].
      + destruct (_ =? _).
        * apply wp_bind, wp_modify, wp_ret. split_and!; [|by apply He|done].
          apply (handled_ctx b f _ []); [done|]. by apply ctx_step_fields.
        * apply wp_ret. split_and!; [done|by right|done].
      + apply wp_bind, wp_ASSERT; [intros _|done]. apply wp_ret. split_and!; [done|by right|done].
      + apply wp_ret. split_and!; [done|by apply He|done]. }
  intros evt f1 o1 (H1 & He & Ha). apply wp_when; intros Hne; [|by rewrite app_nil_r].
  apply negb_true_iff in Hne. bool_facts. destruct He as [|He]; [done|].
  eapply wp_mono; [apply (wp_cla_event b); [done|apply H1|done]|done|]. intros ? f2 o2 H2.
  replace 0 with (0 + 0) by lia. exact (handled_trans _ _ _ _ _ _ _ _ H1 H2).
Qed.

Lemma wp_item {T} b r f (body : M (fsm_st cla) cla_out T) :
  wp body f allowed (fun _ f' o => handled b r f f' o) ->
  wp (item clock send_ok body) f allowed (fun _ f' o => handled b r f f' o).
Proof.
  intros Hb. unfold item. apply wp_bind, wp_get, wp_bind, wp_on_param, wp_gets.
  assert (mk_fsm_st (state f) (fsm_param f) = f) as -> by (by destruct f).
  apply wp_bind. eapply wp_mono; [exact Hb|done|]. intros v f1 o1 H1.
  apply wp_bind. eapply wp_mono; [apply (wp_raise_event b), H1|done|]. intros ? f2 o2 H2.
  apply wp_ret. cbn [app]. rewrite app_nil_r. replace r with (r + 0) by lia.
  exact (handled_trans _ _ _ _ _ _ _ _ H1 H2).
Qed.

(** ** Disconnections at the end of a turn *)

Lemma cnt_kept {T} (p : T -> bool) mask (l : list T) : forall i,
  (forall k x, l !! k = Some x -> Z.testbit mask (i + Z.of_nat k) = true -> p x = false) ->
  cnt p (kept mask i l) = cnt p l.
Proof.
  induction l as [|x l IH]; intros i Hl; [done|]. cbn [kept]. rewrite cnt_cons.
  assert (cnt p (kept mask (i + 1) l) = cnt p l) as E.
  { apply IH. intros k y Hy Ht. apply (Hl (S k) y Hy). by replace (i + Z.of_nat (S k)) with (i + 1 + Z.of_nat k) by lia. }
  destruct (Z.testbit mask i) eqn:Hb; [|by rewrite cnt_cons, E].
  rewrite E, (Hl 0%nat x); [cbn; lia|done|]. by rewrite Z.add_0_r.
Qed.

Lemma Forall_kept {T} (P : T -> Prop) mask i l : Forall P l -> Forall P (kept mask i l).
Proof.
  intros Hl. revert i. induction Hl as [|x l Hx _ IH]; intros i; cbn; [done|].
  destruct (Z.testbit mask i); [done|]. by constructor.
Qed.

Lemma compacted_step s s' o : cla_ok true s -> compacted s s' o ->
  cla_ok false s' /\ (timer_ok s -> timer_ok s') /\ (forall st, waits st s -> waits st s') /\
  request_in_progress (itf s') = request_in_progress (itf s) /\ Forall not_ctrl o.
Proof.
  intros [H1 H2 H3 H4 H5 H6 H7 H8] [[A1 [A2 A3]] C1 _ -> _ C4]. specialize (H8 eq_refl).
  assert (exists m', s' = with_mgmt s m') as [m' ->] by eauto. clear C4.
  assert (active (with_mgmt s m') = kept (to_clean (mgmt s)) 0 (active s)) as Ha by done.
  assert (forall p, (forall c, quiet c -> p c = false) -> cnt p (active (with_mgmt s m')) = cnt p (active s)) as Hcnt.
  { intros p Hp. rewrite Ha. apply cnt_kept. intros k x Hx Ht. apply Hp. by eapply H8. }
  split_and!.
  - split; cbn; try done.
    + rewrite H4. unfold base. cbn. f_equal. symmetry. apply Hcnt. by intros c [? _].
    + rewrite H5. symmetry. apply Hcnt. by intros c (_ & ? & _).
    + rewrite H6. symmetry. apply Hcnt. by intros c (_ & _ & ?).
    + rewrite Ha. by apply Forall_kept.
  - by apply timer_ok_same.
  - done.
  - done.
  - induction (removed _ _ _); by constructor.
Qed.

(** ** The timers *)

(** The clock only moves forward. *)
Definition only_reads s s' : Prop :=
  exists n, s' = mk_cla (enable_fmmo s) (sanity_test_mode s) (mgmt s) (itf s) (pending s) (timers s) (wakelock s)
    (clock_reads s + n) (sends s).

Lemma only_reads_ok b s s' : only_reads s s' ->
  (cla_ok b s -> cla_ok b s') /\ (timer_ok s -> timer_ok s') /\ (forall st, waits st s -> waits st s').
Proof.
  intros [n ->]. split_and!; [intros Hok; by apply (cla_ok_same b s)| |done].
  intros [[T1 T2 T3] T4]. split; [split|]; cbn; [done|done| |].
  - intros Hb. destruct (T3 Hb) as [? (k & ? & ?)]. split; [done|]. exists k. cbn. split; [lia|done].
  - intros Hs. destruct (T4 Hs) as [? (k & ? & ?)]. split; [done|]. exists k. cbn. split; [lia|done].
Qed.

Lemma deadline_remains ms s e n : 0 <= ms <= INT_MAX -> deadline ms s e -> (clock_reads s <= n)%nat ->
  0 <= crm_time_get_remain_ms (clock n) e.
Proof.
  intros Hms (k & Hk & ->) Hn.
  destruct (remaining_time_bounds (clock k) ms (clock n)) as [Hr _]; [done|done|done|apply clock_mono; lia|].
  cbv zeta in Hr. lia.
Qed.

(** The value [-1] means that no timer runs. *)
Lemma wp_cla_get_timeout s :
  timer_ok s ->
  wp (get_timeout clock) s allowed (fun r s' o => only_reads s s' /\ o = [] /\
    ((r.1 = -1 /\ settled s /\ timer_boot_armed (timers s) = false) \/
     (0 <= r.1 /\ r.2 <> 0 /\ (~ settled s \/ timer_boot_armed (timers s) = true) /\
      (Z.land TIMEOUT_BOOT_IDX r.2 = 0 \/ timer_boot_armed (timers s) = true)))).
Proof.
  intros [[T1 T2 T3] T4]. unfold get_timeout. apply wp_bind. unfold is_waiting at 1. apply wp_gets.
  set (waiting := _ || _). apply wp_bind.
  apply (wp_mono _ _ allowed _ (fun r s' o => only_reads s s' /\ o = [] /\
    ((r = (-1, 0) /\ settled s) \/ (0 <= r.1 /\ r.2 = TIMEOUT_ACK_IDX /\ ~ settled s)))); [|done|].
  { destruct waiting eqn:Hw; subst waiting.
    - assert (~ settled s) as Hs by (rewrite <-is_waiting_settled; congruence). destruct (T4 Hs) as [_ Hd].
      unfold read_clock. apply wp_bind, wp_bind, wp_get, wp_bind, wp_modify, wp_ret, wp_bind, wp_get, wp_ret. cbn.
      split; [exists 1%nat; by rewrite Nat.add_1_r|]. split; [done|]. right. split_and!; [|done|done].
      eapply (deadline_remains 1000); [unfold INT_MAX; lia|done|lia].
    - apply is_waiting_settled in Hw. apply wp_ret. split; [exists 0%nat; destruct s; cbn; by rewrite Nat.add_0_r|].
      split; [done|]. by left. }
  intros [t idx] s1 o1 ([n1 ->] & -> & Hr). cbn [fst snd] in Hr. clear waiting. apply wp_bind, wp_get. cbn [timers].
  destruct (timer_boot_armed (timers s)) eqn:Hb.
  - destruct (T3 eq_refl) as [_ Hd]. unfold read_clock. apply wp_bind, wp_bind, wp_get, wp_bind, wp_modify, wp_ret. cbn.
    assert (0 <= crm_time_get_remain_ms (clock (clock_reads s + n1)) (timer_boot_end (timers s))) as Hp.
    { eapply (deadline_remains 2000); [unfold INT_MAX; lia|done|lia]. }
    assert (only_reads s (mk_cla (enable_fmmo s) (sanity_test_mode s) (mgmt s) (itf s) (pending s) (timers s)
      (wakelock s) (S (clock_reads s + n1)) (sends s))) as Ho.
    { exists (S n1). by rewrite Nat.add_succ_r. }
    destruct (Z.eqb_spec t (crm_time_get_remain_ms (clock (clock_reads s + n1)) (timer_boot_end (timers s)))) as [E|N].
    + apply wp_ret. split_and!; [done|done|]. right. destruct Hr as [[[= -> ->] _]|(? & -> & _)]; [lia|].
      split_and!; [done|done|by right|by right].
    + destruct (_ || _) eqn:Hc; apply wp_ret; (split_and!; [done|done|]); right.
      * split_and!; [done|done|by right|by right].
      * destruct Hr as [[[= -> ->] _]|(? & -> & _)]; [done|]. split_and!; [done|done|by right|by right].
  - apply wp_ret. split_and!; [by exists n1|done|]. destruct Hr as [[[= -> ->] ?]|(? & -> & ?)].
    + by left.
    + right. split_and!; [done|done|by left|by left].
Qed.

Definition cleared (c : crm_client) : crm_client :=
  mk_client (registered c) (name c) (events_bitmap c) (acquired c) false false.

Lemma cnt_cleared l :
  cnt acquired (cleared <$> l) = cnt acquired l /\ cnt waiting_cold_reset_ack (cleared <$> l) = 0 /\
  cnt waiting_shutdown_ack (cleared <$> l) = 0.
Proof.
  induction l as [|c l (E1 & E2 & E3)]; [done|]. rewrite fmap_cons, !cnt_cons, E1, E2, E3. done.
Qed.

Lemma wp_clear_waiting s :
  cla_ok false s ->
  wp clear_waiting s allowed (fun _ s' o => o = [] /\ cla_ok false s' /\ settled s' /\
    itf s' = itf s /\ timers s' = timers s /\ wakelock s' = wakelock s /\ clock_reads s' = clock_reads s /\
    num_clients (mgmt s') = num_clients (mgmt s)).
Proof.
  intros Hok. pose proof (active_length _ _ Hok) as Hal. destruct Hok as [H1 H2 H3 H4 H5 H6 H7 _].
  unfold clear_waiting. apply wp_bind, wp_get, wp_bind. unfold upto.
  set (l := clients (mgmt s)) in *.
  eapply (wp_for_range _ _ _ (fun i s' => s' = with_mgmt s (mk_mgmt (num_clients (mgmt s))
    ((cleared <$> take (Z.to_nat i) l) ++ drop (Z.to_nat i) l) (pfd (mgmt s)) (to_clean (mgmt s))))
    (fun _ => False)); [lia| | |].
  - destruct s as [? ? [] ? ? ? ? ? ?]. cbn. by rewrite drop_0.
  - intros i s' Hi ->. cbn in Hi.
    destruct (lookup_lt_is_Some_2 l (Z.to_nat i)) as [c Hc]; [lia|].
    assert (length (cleared <$> take (Z.to_nat i) l) = Z.to_nat i) as Hlen.
    { rewrite length_fmap, length_take. lia. }
    apply wp_bind. eapply wp_get_client; [lia| |].
    { cbn. rewrite lookup_app_r by lia. rewrite Hlen, Nat.sub_diag, lookup_drop, Nat.add_0_r. done. }
    unfold set_client, set_clients, on_mgmt. apply wp_bind, wp_get, wp_modify. cbn. split; [|done].
    unfold with_mgmt. cbn. do 2 f_equal. replace (Z.to_nat (i + 1)) with (S (Z.to_nat i)) by lia.
    rewrite (drop_S l c) by done. rewrite (take_S_r l _ c) by done. rewrite fmap_app, <-app_assoc. cbn.
    rewrite insert_app_r_alt by lia. by rewrite Hlen, Nat.sub_diag.
  - intros s' o -> Ho. destruct o as [|x o]; [|by inversion Ho].
    apply wp_bind, wp_modify, wp_modify. cbn [app].
    match goal with |- context [cla_ok false ?t] => set (s' := t) end.
    assert (active s' = cleared <$> active s) as Ha.
    { unfold active. cbn. rewrite Z.add_0_l. rewrite take_app_length'; [done|].
      rewrite length_fmap, length_take. subst l. lia. }
    destruct (cnt_cleared (active s)) as (E1 & E2 & E3).
    split_and!; try done. split; rewrite ?Ha, ?E1, ?E2, ?E3; cbn; try done.
    + rewrite length_app, length_fmap, length_take, length_drop. subst l. lia.
    + rewrite Forall_fmap. apply Forall_lookup_2. intros i c Hc Hr.
      destruct (Forall_lookup_1 _ _ _ _ H7 Hc Hr) as [[? _] ?]. by split.
Qed.

(** What one turn guarantees. *)
Record turn_post (res : Z) (f f' : fsm_st cla) (o : list cla_out) : Prop := {
  tp_ok : machine_ok false f';
  tp_requests : ctrl_requests o + b2z (request_in_progress (itf (fsm_param f)))
    <= b2z (request_in_progress (itf (fsm_param f'))) + res;
}.

Lemma turn_post_refl f : machine_ok false f -> turn_post 0 f f [].
Proof. intros Hf. split; [done|]. unfold ctrl_requests, cnt. cbn. lia. Qed.

Lemma turn_post_trans r1 r2 f f1 f2 o1 o2 :
  turn_post r1 f f1 o1 -> turn_post r2 f1 f2 o2 -> turn_post (r1 + r2) f f2 (o1 ++ o2).
Proof. intros [A1 A2] [B1 B2]. split; [done|]. rewrite ctrl_requests_app. lia. Qed.

Lemma handled_turn r f f' o : handled false r f f' o -> turn_post r f f' o.
Proof. by intros [A1 A2 _]. Qed.

(** A step of the context outside the handlers. *)
Lemma turn_post_ctx f s' o :
  machine_ok false f -> cla_ok false s' -> timer_ok s' -> waits (state f) s' ->
  request_in_progress (itf s') = request_in_progress (itf (fsm_param f)) -> Forall not_ctrl o ->
  turn_post 0 f (mk_fsm_st (state f) s') o.
Proof.
  intros [M1 M2 M3 M4] Hok Ht Hw Hr Ho. split; [by split|]. cbn. rewrite no_ctrl_requests, Hr by done. lia.
Qed.

Lemma wp_release_wakelock s :
  cla_ok false s -> timer_base s -> settled s -> timer_boot_armed (timers s) = false -> 0 < held s ->
  wp (on_wakelock (wl_release WAKELOCK_CLA)) s allowed (fun _ s' o =>
    cla_ok false s' /\ timer_ok s' /\ (forall st, waits st s -> waits st s') /\ itf s' = itf s /\ Forall not_ctrl o).
Proof.
  intros Hok [T1 T2 T3] Hs Hb Hh. apply wp_on_wakelock.
  eapply wp_mono; [apply wl_release_spec; [done|apply cla_module|done]|done|].
  intros ? w o (Hv & Hc & _). split_and!.
  - by apply (cla_ok_same false s).
  - split; [split|]; cbn; [done|lia|congruence|]. intros Hn. by destruct Hn.
  - done.
  - done.
  - apply wakelock_not_ctrl.
Qed.

(** The three parts of the handling of a timeout. *)
Lemma wp_boot_timeout f idx :
  machine_ok false f -> Z.land TIMEOUT_BOOT_IDX idx = 0 \/ timer_boot_armed (timers (fsm_param f)) = true ->
  wp (when (negb (Z.land TIMEOUT_BOOT_IDX idx =? 0))
        (on_param (
           let* now := read_clock clock in
           on_timers (fun t => mk_timers (timer_ack_end t) (timer_boot_end t)
             (0 <? crm_time_get_remain_ms now (timer_boot_end t)))))) f allowed (fun _ f' o =>
    turn_post 0 f f' o /\ o = [] /\ held (fsm_param f') = held (fsm_param f)).
Proof.
  intros Hf Hb. apply wp_when; intros Hi; [|by split; [apply turn_post_refl|]].
  apply negb_true_iff in Hi. bool_facts. destruct Hb as [|Hb]; [done|].
  pose proof (mk_timer _ _ Hf) as [[T1 T2 T3] T4]. destruct (T3 Hb) as [Hh (k & Hk & He)].
  unfold read_clock. apply wp_on_param, wp_bind, wp_bind, wp_get, wp_bind, wp_modify, wp_ret, wp_modify. cbn [app].
  split; [|done]. apply turn_post_ctx; [done| | | |done|done].
  - apply (cla_ok_same false (fsm_param f)); done || apply Hf.
  - split; [split|]; cbn; [done|done| |].
    + intros _. split; [done|]. exists k. cbn. split; [lia|done].
    + intros Hs. destruct (T4 Hs) as [? (k' & ? & ?)]. split; [done|]. exists k'. cbn. split; [lia|done].
  - apply Hf.
Qed.

Lemma wp_ack_timeout f (cond : bool) :
  machine_ok false f ->
  wp (when cond (on_param clear_waiting ;; cla_event clock send_ok EV_CLI_ACKED)) f allowed
    (fun _ f' o => turn_post 0 f f' o /\ held (fsm_param f) <= held (fsm_param f')).
Proof.
  intros Hf. apply wp_when; intros _; [|by split; [apply turn_post_refl|]].
  apply wp_bind, wp_on_param. eapply wp_mono; [apply wp_clear_waiting, Hf|done|].
  intros ? s1 o1 (-> & Hok & Hs & E1 & E2 & E3 & E4 & E5). cbn [app].
  assert (turn_post 0 f (mk_fsm_st (state f) s1) []) as H1.
  { apply turn_post_ctx; [done|done| |by apply settled_waits|by rewrite E1|done].
    destruct (mk_timer _ _ Hf) as [[T1 T2 T3] T4]. split; [split|]; unfold deadline in *; rewrite ?E2, ?E3, ?E4; try done. }
  eapply wp_mono; [apply (wp_and _ _ _ any_abort); [apply (wp_cla_event false); [done|apply H1|done]|apply wp_acked_held; apply H1]|done|].
  intros ? f2 o2 [H2%handled_turn Hh]. cbn [fsm_param] in Hh. rewrite E3 in Hh. split; [|done].
  replace 0 with (0 + 0) by lia. exact (turn_post_trans _ _ _ _ _ _ _ H1 H2).
Qed.

Lemma wp_timeout_release f :
  machine_ok false f -> 0 < held (fsm_param f) ->
  wp (on_param (
        let* waiting := is_waiting in
        let* s := get in
        when (negb (timer_boot_armed (timers s)) && negb waiting) (on_wakelock (wl_release WAKELOCK_CLA)))) f allowed
    (fun _ f' o => turn_post 0 f f' o).
Proof.
  intros Hf Hh. apply wp_on_param. unfold is_waiting. apply wp_bind, wp_gets, wp_bind, wp_get. apply wp_when; intros Hc.
  - apply andb_true_iff in Hc as [Hb Hw]. apply negb_true_iff in Hb, Hw. apply is_waiting_settled in Hw.
    eapply wp_mono; [apply wp_release_wakelock; [apply Hf|apply Hf|done|done|done]|done|].
    intros ? s' o (K1 & K2 & K3 & K4 & K5). cbn [app]. apply turn_post_ctx; try done; [apply K3, Hf|by rewrite K4].
  - destruct f. by apply turn_post_refl.
Qed.

Lemma wp_handle_timeout_cla f idx :
  machine_ok false f -> idx <> 0 -> ~ settled (fsm_param f) \/ timer_boot_armed (timers (fsm_param f)) = true ->
  Z.land TIMEOUT_BOOT_IDX idx = 0 \/ timer_boot_armed (timers (fsm_param f)) = true ->
  wp (Cla.handle_timeout clock send_ok idx) f allowed (fun _ f' o => turn_post 0 f f' o).
Proof.
  intros Hf Hidx Hrun Hboot. pose proof (mk_timer _ _ Hf) as [[T1 T2 T3] T4]. unfold Cla.handle_timeout.
  apply wp_bind, wp_ASSERT; [intros _|by destruct (Z.eqb_spec idx 0)].
  apply wp_bind, wp_on_param, wp_on_wakelock.
  eapply wp_mono; [apply wl_is_held_by_module_spec; [done|apply cla_module]|done|]. intros h w o0 [-> ->].
  assert (held (fsm_param f) = 1) as Hh by (destruct Hrun as [Hs|Hb]; [by apply T4|by apply T3]).
  apply wp_bind, wp_ASSERT; [intros _|by rewrite Hh].
  assert (mk_fsm_st (state f) (mk_cla (enable_fmmo (fsm_param f)) (sanity_test_mode (fsm_param f)) (mgmt (fsm_param f))
    (itf (fsm_param f)) (pending (fsm_param f)) (timers (fsm_param f)) (wakelock (fsm_param f))
    (clock_reads (fsm_param f)) (sends (fsm_param f))) = f) as -> by (by destruct f as [? []]).
  apply wp_bind. eapply wp_mono; [by apply wp_boot_timeout|done|]. intros ? f1 o1 (H1 & -> & Hh1).
  apply wp_bind. eapply wp_mono; [apply wp_ack_timeout, H1|done|]. intros ? f2 o2 [H2 Hh2].
  eapply wp_mono; [apply wp_timeout_release; [apply H2|lia]|done|]. intros ? f3 o3 H3. cbn [app].
  pose proof (turn_post_trans _ _ _ _ _ _ _ H1 (turn_post_trans _ _ _ _ _ _ _ H2 H3)) as [A1 A2].
  split; [done|]. rewrite ctrl_requests_app, (no_ctrl_requests (WakelockMsg <$> o0)) by apply wakelock_not_ctrl.
  cbn [app] in A2. lia.
Qed.

(** ** The main loop *)

Definition poll_ok (r : poll_result) : Prop :=
  match r with
  | Cla.PollTimeout => True
  | PollReady ipc server from => ipc_rev_ok ipc /\ Forall client_rev_ok from
  end.

Definition poll_results (r : poll_result) : Z :=
  match r with PollReady ipc _ _ => ipc_results ipc | _ => 0 end.

Lemma rev_ok_default from i : Forall client_rev_ok from -> client_rev_ok (default RevNone (from !! i)).
Proof. intros Hf. destruct (from !! i) as [r|] eqn:Hr; [|done]. by eapply Forall_lookup_1 in Hf. Qed.

Lemma wp_client_items b from idxs : forall f,
  machine_ok b f -> Forall (fun i => 0 <= i < num_clients (mgmt (fsm_param f))) idxs -> Forall client_rev_ok from ->
  wp (for_each idxs (fun i => item clock send_ok (client_item clock send_ok i (default RevNone (from !! Z.to_nat i))))) f
    allowed (fun _ f' o => handled b 0 f f' o).
Proof.
  induction idxs as [|i idxs IH]; intros f Hf Hi Hfrom; cbn [for_each]; [by apply wp_ret, handled_refl|].
  inversion Hi as [|? ? Hi1 Hi2]; subst. apply wp_bind.
  eapply wp_mono; [apply (wp_item b), wp_client_item; [done|done|by apply rev_ok_default]|done|].
  intros ? f1 o1 H1. eapply wp_mono; [apply IH; [apply H1| |done]|done|].
  - eapply Forall_impl; [|exact Hi2]. intros k Hk. pose proof (hd_num _ _ _ _ _ H1). cbn in *. lia.
  - intros ? f2 o2 H2. replace 0 with (0 + 0) by lia. exact (handled_trans _ _ _ _ _ _ _ _ H1 H2).
Qed.

(** The clients disconnected during the turn are removed at its end. *)
Lemma wp_end_of_turn f :
  machine_ok true f -> wp (on_param update_client_list) f allowed (fun _ f' o => turn_post 0 f f' o).
Proof.
  intros Hf. pose proof (mk_ok _ _ Hf) as Hok. apply wp_on_param.
  eapply wp_mono; [apply wp_update_client_list|done|].
  { split_and!; apply Hok. }
  intros ? s' o Hc. destruct (compacted_step _ _ _ Hok Hc) as (K1 & K2 & K3 & K4 & K5).
  destruct Hf as [M1 M2 M3 M4]. split; [split; auto|]. cbn. rewrite no_ctrl_requests, K4 by done. lia.
Qed.

Lemma wp_handle_ready f ipc server from :
  machine_ok false f -> ipc_rev_ok ipc -> Forall client_rev_ok from ->
  wp (handle_ready clock send_ok ipc server from) f allowed (fun _ f' o => turn_post (ipc_results ipc) f f' o).
Proof.
  intros Hf Hipc Hfrom. unfold handle_ready. apply wp_bind, wp_on_param, wp_modify. cbn [app].
  match goal with |- wp _ ?t _ _ => set (f0 := t) end.
  assert (machine_ok true f0) as H0'.
  { destruct Hf as [M1 M2 M3 M4]. split; cbn; [done| |by apply (timer_ok_same (fsm_param f))|done].
    destruct M2. split; try done. intros _ i c _. cbn. by rewrite Z.bits_0. }
  apply wp_bind. eapply wp_mono; [apply (wp_item true), wp_ipc_item; done|done|]. intros e f1 o1 H1.
  apply wp_bind. eapply wp_mono; [apply (wp_item true), wp_server_item, H1|done|]. intros ? f2 o2 H2.
  apply wp_bind, wp_get, wp_bind. unfold upto.
  eapply wp_mono; [apply (wp_client_items true); [apply H2| |done]|done|].
  { apply Forall_forall. intros i Hi%list_elem_of_In%elem_of_seqZ. lia. }
  intros ? f3 o3 H3. apply wp_bind. eapply wp_mono; [apply wp_end_of_turn, H3|done|].
  intros ? f4 o4 [A1 A2]. apply wp_ret. cbn [app]. rewrite app_nil_r.
  pose proof (hd_requests _ _ _ _ _ H1) as R1. pose proof (hd_requests _ _ _ _ _ H2) as R2.
  pose proof (hd_requests _ _ _ _ _ H3) as R3. split; [done|]. rewrite !ctrl_requests_app. cbn in R1. lia.
Qed.

Lemma wp_main_turn f r :
  machine_ok false f -> poll_ok r ->
  wp (main_turn clock send_ok r) f allowed (fun _ f' o => turn_post (poll_results r) f f' o).
Proof.
  intros Hf Hr. unfold main_turn. apply wp_bind, wp_on_param.
  eapply wp_mono; [apply wp_cla_get_timeout, Hf|done|]. intros [t idx] s1 o1 (Hs1 & -> & Ht). cbn [fst snd app] in *.
  destruct (only_reads_ok false _ _ Hs1) as (K1 & K2 & K3). pose proof Hf as [M1 M2 M3 M4].
  assert (machine_ok false (mk_fsm_st (state f) s1)) as H1 by (split; cbn; auto).
  assert (pending s1 = pending (fsm_param f) /\ timers s1 = timers (fsm_param f) /\ itf s1 = itf (fsm_param f))
    as (E1 & E2 & E3) by (by destruct Hs1 as [n ->]).
  apply wp_bind. eapply (wp_mono _ _ allowed _ (fun _ f' o => turn_post 0 f f' o /\
    (0 <= t -> f' = mk_fsm_st (state f) s1))); [|done|].
  { assert (turn_post 0 f (mk_fsm_st (state f) s1) []) as H2.
    { apply turn_post_ctx; auto. by rewrite E3. }
    apply wp_when; intros Hm; [|by split]. bool_facts. apply wp_on_param, wp_bind, wp_on_wakelock. cbn [fsm_param].
    destruct Ht as [(_ & Hset & Hb)|(? & _)]; [|lia].
    eapply wp_mono; [apply wl_is_held_by_module_spec; [apply K2, M3|apply cla_module]|done|]. intros h w o [-> ->].
    assert (mk_cla (enable_fmmo s1) (sanity_test_mode s1) (mgmt s1) (itf s1) (pending s1) (timers s1) (wakelock s1)
      (clock_reads s1) (sends s1) = s1) as -> by (by destruct s1).
    apply wp_when; intros Hheld; bool_facts.
    - eapply wp_mono; [apply wp_release_wakelock; [auto|apply K2, M3| |by rewrite E2|done]|done|].
      { unfold settled. by rewrite E1. }
      intros ? s' o' (P1 & P2 & P3 & P4 & P5). split; [|lia]. cbn [state].
      apply turn_post_ctx; auto; [by rewrite P4, E3|]. apply Forall_app. split; [apply wakelock_not_ctrl|done].
    - cbn [state]. rewrite app_nil_r. split; [|lia]. apply turn_post_ctx; auto; [by rewrite E3|apply wakelock_not_ctrl]. }
  intros ? f2 o2 [H2 Hsame]. destruct r as [|ipc server from].
  - destruct (Z.ltb_spec t 0); [done|]. rewrite Hsame in * by done. destruct Ht as [(? & _)|(_ & Hi & Hrun & Hboot)]; [lia|].
    apply wp_bind. eapply wp_mono; [apply wp_handle_timeout_cla; cbn [fsm_param]; unfold settled in *; rewrite ?E1, ?E2; done|done|].
    intros ? f3 o3 Hx3. apply wp_ret. rewrite app_nil_r. replace (poll_results _) with (0 + 0) by done.
    exact (turn_post_trans _ _ _ _ _ _ _ H2 Hx3).
  - destruct Hr as [Hipc Hfrom]. eapply wp_mono; [apply wp_handle_ready; [apply H2|done|done]|done|].
    intros ? f3 o3 Hx3. change (poll_results _) with (0 + ipc_results ipc).
    exact (turn_post_trans _ _ _ _ _ _ _ H2 Hx3).
Qed.

(** How many results of CTRL a run takes into account. *)
Fixpoint run_results (l : list poll_result) : Z :=
  match l with [] => 0 | r :: l => poll_results r + run_results l end.

Lemma cnt_results_nonneg r : 0 <= poll_results r.
Proof. destruct r as [|[| |l] ? ?]; cbn; try done. apply cnt_nonneg. Qed.

Lemma run_results_nonneg l : 0 <= run_results l.
Proof. induction l as [|r l IH]; cbn; [done|]. pose proof (cnt_results_nonneg r). lia. Qed.

Lemma wp_main_turns l : forall f, machine_ok false f -> Forall poll_ok l ->
  wp (main_turns clock send_ok l) f allowed (fun _ f' o => turn_post (run_results l) f f' o).
Proof.
  induction l as [|r l IH]; intros f Hf Hl; cbn [main_turns]; [by apply wp_ret, turn_post_refl|].
  inversion Hl as [|? ? Hr Hl']; subst. apply wp_bind. eapply wp_mono; [by apply wp_main_turn|done|].
  intros running f1 o1 H1. destruct running.
  - eapply wp_mono; [apply IH; [apply H1|done]|done|]. intros ? f2 o2 H2. exact (turn_post_trans _ _ _ _ _ _ _ H1 H2).
  - apply wp_ret. rewrite app_nil_r. destruct H1 as [A1 A2]. split; [done|]. cbn [run_results].
    pose proof (run_results_nonneg l). lia.
Qed.

Lemma wp_main_loop_start fmmo sanity w ipc_fd server_sock :
  wl_valid w -> wl_count w WAKELOCK_CLA = 0 ->
  wp (on_param (main_loop_start clock ipc_fd server_sock)) (mk_fsm_st ST_INITIAL (crm_cli_abs_init fmmo sanity w)) allowed
    (fun _ f o => machine_ok false f /\ request_in_progress (itf (fsm_param f)) = false /\ Forall not_ctrl o).
Proof.
  intros Hv Hc. unfold main_loop_start, read_clock. apply wp_on_param, wp_bind, wp_DASSERT; [intros _|done].
  apply wp_bind, wp_modify.
  do 2 (apply wp_bind, wp_bind, wp_get, wp_bind, wp_modify, wp_ret).
  apply wp_bind, wp_modify, wp_on_wakelock.
  eapply wp_mono; [apply wl_acquire_spec; [done|apply cla_module|]|done|].
  { cbn. rewrite Hc. done. }
  intros ? w' o (Hv' & Hc' & _). cbn in Hc'. rewrite Hc in Hc'. split_and!; [|done|].
  - split; cbn; [done| | |done].
    + split; cbn; try done. by destruct fmmo.
    + split; [split|]; cbn; [done|lia| |].
      * intros _. split; [done|]. exists 1%nat. cbn. split; [lia|done].
      * intros Hs. by destruct Hs.
  - cbn [app]. apply wakelock_not_ctrl.
Qed.

End ops.
