(* ===== verification/ClaProps.v ===== *)
(** * Properties of CLA

    The safety of every run of the main loop, the discipline of the requests to
    CTRL, and runs in which the code does not do what it means to. *)

From S2P Require Import Prelude Fsm Timer Ipc Wakelock Escalation MdmCli Wire Control CtrlApi Names Cla ClaClients ClaTheory.
From Stdlib Require Import ZArith Lia.
From stdpp Require Import base tactics list strings option.

Open Scope Z_scope.
Open Scope crm_scope.

Section runs.
Context `{HM : MdmCliLaws} {W : Type} `{HW : WakelockLaws W} (clock : nat -> timespec) (send_ok : nat -> bool).
Hypothesis clock_valid : forall n, valid_clock (clock n).
Hypothesis clock_mono : forall n m, (n <= m)%nat -> to_ns (clock n) <= to_ns (clock m).
Context (ipc_fd server_sock : Z) (l : list poll_result) (fmmo sanity : bool) (w : W).
Hypothesis w_valid : wl_valid w.
Hypothesis w_free : wl_count w WAKELOCK_CLA = 0.
Hypothesis inputs_ok : Forall poll_ok l.

#[local] Abbreviation run := (main_loop clock send_ok ipc_fd server_sock l (crm_cli_abs_init fmmo sanity w)).

Lemma main_loop_post :
  match run with
  | Ok _ f o => machine_ok clock false f /\
      ctrl_requests o <= b2z (request_in_progress (itf (fsm_param f))) + run_results l
  | Abort r _ => allowed r
  end.
Proof using All.
  assert (wp (on_param (main_loop_start clock ipc_fd server_sock) ;; main_turns clock send_ok l)
    (mk_fsm_st ST_INITIAL (crm_cli_abs_init fmmo sanity w)) allowed (fun _ f o => machine_ok clock false f /\
      ctrl_requests o <= b2z (request_in_progress (itf (fsm_param f))) + run_results l)) as Hwp; [|exact Hwp].
  apply wp_bind. eapply wp_mono; [by apply wp_main_loop_start|done|]. intros ? f1 o1 (H1 & Hr & Ho).
  eapply wp_mono; [by apply wp_main_turns|done|]. intros ? f2 o2 [A1 A2]. split; [done|].
  rewrite ctrl_requests_app, no_ctrl_requests by done. rewrite Hr in A2. cbn in A2. lia.
Qed.

(** C16. Memory safety and counters of CLA.  Whatever the clients send (any
    message the wire protocol accepts but the global SHUTDOWN request), whatever
    sends fail, and whatever CTRL reports, a run of the main loop never
    indexes the client arrays out of bounds, never disconnects a client twice,
    never mixes up a shutdown and a restart procedure and never brings a counter
    below zero; when it goes on, [num_acquired], [num_waiting_cold_reset_ack] and
    [num_waiting_shutdown_ack] are exactly the numbers of connected clients that
    hold the modem or are waited for, and acknowledgements are awaited only in
    the state that waits for them. *)
Theorem cla_counters_exact :
  match run with
  | Ok _ f _ =>
      cla_ok false (fsm_param f) /\ waits (state f) (fsm_param f)
  | Abort r _ => bad_abort r = false
  end.
Proof using All.
  pose proof main_loop_post as Hp. destruct run as [v f o|r o]; [|done]. destruct Hp as [[M1 M2 M3 M4] _]. done.
Qed.

(** C17. CLA keeps the platform awake while one of its timers runs: after any
    such run it holds the wakelock at most once, and exactly once as long as an
    acknowledgement is awaited or the boot timer is armed, the deadlines being
    the documented 1 s and 2 s after a past reading of the clock. *)
Theorem cla_awake_while_timing :
  match run with
  | Ok _ f _ =>
      let s := fsm_param f in
      wl_valid (wakelock s) /\ 0 <= wl_count (wakelock s) WAKELOCK_CLA <= 1 /\
      (~ settled s -> wl_count (wakelock s) WAKELOCK_CLA = 1 /\ deadline clock 1000 s (timer_ack_end (timers s))) /\
      (timer_boot_armed (timers s) = true ->
        wl_count (wakelock s) WAKELOCK_CLA = 1 /\ deadline clock 2000 s (timer_boot_end (timers s)))
  | Abort r _ => bad_abort r = false
  end.
Proof using All.
  pose proof main_loop_post as Hp. destruct run as [v f o|r o]; [|done].
  destruct Hp as [[_ _ [[T1 T2 T3] T4] _] _]. done.
Qed.

(** CLA never overruns CTRL: in any such run, the requests made to CTRL
    (start, stop, restart) exceed the results CTRL has returned by at most one,
    and by none when no request is recorded as in progress. *)
Lemma cla_one_request_at_a_time v f o :
  run = Ok v f o ->
  ctrl_requests o <= run_results l + (if request_in_progress (itf (fsm_param f)) then 1 else 0).
Proof using All.
  intros Hrun. pose proof main_loop_post as Hp. rewrite Hrun in Hp. destruct Hp as [_ Hp].
  destruct (request_in_progress _); cbn in Hp; lia.
Qed.

End runs.

(** ** Concrete runs *)

(** The clock ticks once a second, and every send succeeds. *)
Definition demo_clock (n : nat) : timespec := mk_timespec (Z.of_nat n) 0.
Definition all_sent (n : nat) : bool := true.

Lemma demo_clock_ok : (forall n, valid_clock (demo_clock n)) /\
  (forall n m, (n <= m)%nat -> to_ns (demo_clock n) <= to_ns (demo_clock m)).
Proof. split; [intros n|intros n m Hnm]; unfold valid_clock, to_ns, NSEC_PER_SEC; cbn; lia. Qed.

(** What CTRL reports. *)
Definition modem_msg (st : crm_cli_abs_mdm_state) : cla_msg :=
  (CLI_ABS_GEN_SCALAR CLI_ABS_MSG_NOTIFY_MODEM_STATE (mdm_state_id st), None).
Definition result_msg : cla_msg := (CLI_ABS_GEN_SCALAR CLI_ABS_MSG_NOTIFY_OPERATION_RESULT 0, None).
Definition dbg_msg : cla_msg := (CLI_ABS_GEN_SCALAR CLI_ABS_MSG_NOTIFY_CLIENT 6, Some (mk_wire_msg 6 (Debug None))).
Definition ctrl_says (msgs : list cla_msg) : poll_result := PollReady (RevIn msgs) RevNone [].

(** A client connects, the clients send. *)
Definition connects (fd : Z) : poll_result := PollReady RevNone (RevIn fd) [].
Definition says (id : Z) (u : wire_union) : revents (option crm_mdmcli_wire_msg) := RevIn (Some (mk_wire_msg id u)).
Definition clients_say (l : list (revents (option crm_mdmcli_wire_msg))) : poll_result := PollReady RevNone RevNone l.
Definition registers (nm : string) : revents (option crm_mdmcli_wire_msg) := says 12 (RegisterClient 127 nm).

Section demo.
#[local] Existing Instance demo_mdmcli.

Definition demo_run (send_ok : nat -> bool) (l : list poll_result) : outcome _ cla_out bool :=
  main_loop demo_clock send_ok 5 6 l (crm_cli_abs_init true false crm_wakelock_init).

(** One client, on descriptor 9, has acquired the modem, and the modem is up. *)
Definition one_client_up : list poll_result :=
  [ctrl_says [modem_msg MDM_STATE_OFF]; connects 9; clients_say [registers "a"]; clients_say [says CRM_REQ_ACQUIRE NoData];
   ctrl_says [modem_msg MDM_STATE_BUSY; modem_msg MDM_STATE_READY; result_msg]].

(** Two clients, on descriptors 8 and 9; the second has acquired the modem,
    which is up. *)
Definition two_clients_up : list poll_result :=
  [ctrl_says [modem_msg MDM_STATE_OFF]; connects 8; connects 9; clients_say [registers "a"; registers "b"];
   clients_say [RevNone; says CRM_REQ_ACQUIRE NoData];
   ctrl_says [modem_msg MDM_STATE_BUSY; modem_msg MDM_STATE_READY; result_msg]].

(** An event was sent to a descriptor. *)
Definition told (fd event : Z) (o : list cla_out) : bool :=
  existsb (fun x => match x with ToClient fd' m _ => (fd' =? fd) && (msg_id m =? event) | _ => false end) o.

Definition asked (p : cla_out -> bool) (o : list cla_out) : bool := existsb p o.

(** Runs in which CLA aborts the process or misleads its clients:
    - a global SHUTDOWN request clears [num_acquired] but not the flags of the
      clients: when a client that still holds the modem then disconnects, the
      counter drops below zero and the process aborts;
    - a backup request is not filtered as a restart request is: sent by any
      registered client while the modem is off, it aborts the process;
    - the debug information of a restart is never forgotten: a backup requested
      later is passed to CTRL with it, which [crm_ctrl_restart] refuses with an
      assertion;
    - [to_clean] is reset only when [poll] reports something: after a
      disconnection followed by a timeout, the client that has taken the place
      of the disconnected one is not told of the shutdown, and CTRL is asked to
      stop the modem without its acknowledgement;
    - a restart requested during a shutdown procedure, the modem being acquired
      again, aborts on the last acknowledgement: the procedure asserts that the
      modem state is not faked, as the shutdown has just done;
    - the identifier of a request is not checked on reception and the log line
      asserts that it has a name: eight bytes from any connected process abort
      CLA;
    - the last acknowledgement can be lost: when the wait for a cold reset begins
      and its only client is found disconnected while the same batch of CTRL
      messages is handled, no event is raised; CLA stays in the waiting state with
      nobody to wait for, no timer and no request to CTRL. *)
Lemma cla_failing_runs :
  (exists o, demo_run all_sent (one_client_up ++ [clients_say [says CRM_REQ_SHUTDOWN NoData]; clients_say [RevErr]]) =
    Abort (AssertFail "i_ctx->num_acquired >= 0") o) /\
  (exists o, demo_run all_sent [ctrl_says [modem_msg MDM_STATE_OFF]; connects 9; clients_say [registers "a"];
      clients_say [says CRM_REQ_NVM_BACKUP NoData]] = Abort (AssertFail "0") o) /\
  (exists f o, demo_run all_sent (one_client_up ++
      [clients_say [says CRM_REQ_RESTART (Restart RESTART_MDM_ERR (Some demo_dbg))];
       clients_say [says CRM_REQ_ACK_COLD_RESET NoData];
       ctrl_says [modem_msg MDM_STATE_BUSY; modem_msg MDM_STATE_READY; result_msg];
       clients_say [says CRM_REQ_NVM_BACKUP NoData]; clients_say [says CRM_REQ_ACK_COLD_RESET NoData]]) = Ok true f o /\
    List.hd_error (List.rev o) = Some (CtrlRestart CTRL_BACKUP_NVM (Some demo_dbg)) /\
    forall q, crm_ctrl_restart CTRL_BACKUP_NVM (Some demo_dbg) q = Abort (AssertFail "!dbg_info") []) /\
  (exists f o, demo_run all_sent (two_clients_up ++
      [clients_say [RevNone; says CRM_REQ_RESTART (Restart RESTART_MDM_ERR None)];
       clients_say [RevNone; says CRM_REQ_RELEASE NoData]; clients_say [RevErr; RevNone]; Cla.PollTimeout]) = Ok true f o /\
    num_clients (mgmt (fsm_param f)) = 1 /\ client_fds (fsm_param f) !! 0%nat = Some 9 /\
    Z.testbit 127 MDM_SHUTDOWN = true /\ told 9 MDM_SHUTDOWN o = false /\
    asked (fun x => match x with CtrlStop => true | _ => false end) o = true) /\
  (exists o, demo_run all_sent (two_clients_up ++
      [clients_say [RevNone; says CRM_REQ_RELEASE NoData]; clients_say [RevNone; says CRM_REQ_ACQUIRE NoData];
       clients_say [RevNone; says CRM_REQ_RESTART (Restart RESTART_MDM_ERR None)];
       clients_say [says CRM_REQ_ACK_SHUTDOWN NoData; says CRM_REQ_ACK_SHUTDOWN NoData]]) =
    Abort (AssertFail "!i_ctx->fake_modem_state") o) /\
  (exists m o, recv_msg 9 [0; 0; 0; 99; 0; 0; 0; 8] = Ok (Some m) [] [] /\
    demo_run all_sent [connects 9; clients_say [RevIn (Some m)]] = Abort (AssertFail "0") o) /\
  (exists f o, demo_run (fun n => negb (n =? 4)%nat)
      (one_client_up ++ [ctrl_says [modem_msg MDM_STATE_BUSY; dbg_msg]]) = Ok true f o /\
    state f = ST_ACK_WAITING_COLD /\ settled (fsm_param f) /\
    request_in_progress (itf (fsm_param f)) = false /\ num_clients (mgmt (fsm_param f)) = 0).
Proof.
  split_and!.
  - eexists. vm_compute. reflexivity.
  - eexists. vm_compute. reflexivity.
  - eexists _, _. split_and!; [vm_compute; reflexivity|vm_compute; reflexivity|done].
  - eexists _, _. split_and!; vm_compute; reflexivity.
  - eexists. vm_compute. reflexivity.
  - exists (mk_wire_msg 99 NoData). eexists. split; vm_compute; reflexivity.
  - eexists _, _. split_and!; [vm_compute; reflexivity|done|by split|done|done].
Qed.

Lemma demo_state_msg_ok st : control_msg_ok (modem_msg st).
Proof. intros _ Ht. by destruct st; vm_compute in Ht. Qed.

Lemma demo_result_msg_ok : control_msg_ok result_msg.
Proof. intros _ Ht. by vm_compute in Ht. Qed.

Lemma demo_register_ok nm : string_ok MDM_CLI_NAME_LEN nm -> client_rev_ok (registers nm).
Proof. intros Hn. split; [|done]. split; [done|]. split; [unfold is_int, INT_MIN, INT_MAX; lia|done]. Qed.

Lemma cla_demo_inputs_ok : Forall poll_ok one_client_up.
Proof.
  pose proof demo_state_msg_ok. pose proof demo_result_msg_ok.
  assert (client_rev_ok (registers "a")) by (apply demo_register_ok; by apply demo_string_ok).
  assert (client_rev_ok (says CRM_REQ_ACQUIRE NoData)) by (by split).
  unfold one_client_up.
  apply Forall_cons_2; [split; [by repeat apply Forall_cons_2|done]|].
  apply Forall_cons_2; [by split|].
  apply Forall_cons_2; [split; [done|by apply Forall_cons_2]|].
  apply Forall_cons_2; [split; [done|by apply Forall_cons_2]|].
  apply Forall_cons_2; [split; [by repeat apply Forall_cons_2|done]|done].
Qed.

Lemma demo_wakelock_ok : wl_valid crm_wakelock_init /\ wl_count crm_wakelock_init WAKELOCK_CLA = 0.
Proof. split; [|done]. split; [done|]. by repeat constructor. Qed.

End demo.

(** ** Witnesses *)

Lemma cla_counters_exact_witness :
  match demo_run all_sent one_client_up with
  | Ok _ f _ => cla_ok false (fsm_param f) /\ waits (state f) (fsm_param f)
  | Abort r _ => bad_abort r = false
  end.
Proof.
  destruct demo_clock_ok, demo_wakelock_ok.
  exact (@cla_counters_exact demo_mdmcli demo_mdmcli_laws wakelock_ctx wakelock_ops _ demo_clock all_sent ltac:(done)
    ltac:(done) 5 6 one_client_up true false crm_wakelock_init ltac:(done) ltac:(done) cla_demo_inputs_ok).
Defined.

Lemma cla_awake_while_timing_witness :
  match demo_run all_sent one_client_up with
  | Ok _ f _ =>
      let s := fsm_param f in
      wl_valid (wakelock s) /\ 0 <= wl_count (wakelock s) WAKELOCK_CLA <= 1 /\
      (~ settled s -> wl_count (wakelock s) WAKELOCK_CLA = 1 /\ deadline demo_clock 1000 s (timer_ack_end (timers s))) /\
      (timer_boot_armed (timers s) = true ->
        wl_count (wakelock s) WAKELOCK_CLA = 1 /\ deadline demo_clock 2000 s (timer_boot_end (timers s)))
  | Abort r _ => bad_abort r = false
  end.
Proof.
  destruct demo_clock_ok, demo_wakelock_ok.
  exact (@cla_awake_while_timing demo_mdmcli demo_mdmcli_laws wakelock_ctx wakelock_ops _ demo_clock all_sent ltac:(done)
    ltac:(done) 5 6 one_client_up true false crm_wakelock_init ltac:(done) ltac:(done) cla_demo_inputs_ok).
Defined.

Lemma cla_one_request_at_a_time_witness :
  exists f o, demo_run all_sent one_client_up = Ok true f o /\
    ctrl_requests o <= run_results one_client_up + (if request_in_progress (itf (fsm_param f)) then 1 else 0).
Proof.
  destruct demo_clock_ok, demo_wakelock_ok. eexists _, _. split; [vm_compute; reflexivity|].
  eapply (@cla_one_request_at_a_time demo_mdmcli demo_mdmcli_laws wakelock_ctx wakelock_ops _ demo_clock all_sent ltac:(done)
    ltac:(done) 5 6 one_client_up true false crm_wakelock_init ltac:(done) ltac:(done) cla_demo_inputs_ok true).
  vm_compute. reflexivity.
Defined.
