(* ===== verification/CppClients.v ===== *)
(** * CLA and the watchdog over the C++ wakelock

    The theorems of the watchdog and of CLA, proved against [WakelockLaws], at the
    wakelock over Android's power manager: when one of their timers runs, the service
    holds the platform's wakelock or a thread is connecting to get it. *)

From S2P Require Import Prelude Fsm Timer Ipc Wakelock Watchdog Escalation MdmCli Wire Control CtrlApi Names Cla ClaClients ClaTheory ClaProps CppWakelock.
From Stdlib Require Import ZArith Lia.
From stdpp Require Import base tactics list strings option gmap fin_maps.

Open Scope Z_scope.
Open Scope crm_scope.

(** The service has the wakelock, or is about to have it. *)
Definition kept_awake (b : bridge) : Prop :=
  suspendBlockToken (the_service b) = true \/ length (threads (the_service b)) = 1%nat /\ toAcquire (the_service b) = true.

Lemma count_kept_awake b m :
  bridge_ok false b -> 0 < counter (the_mux b) m -> kept_awake b.
Proof.
  intros [[Hth Htok Hr] _ [Ha|[? _]]] Hm; [|done].
  assert (mux_is_held (the_mux b) = true) as Hh.
  { unfold counter in Hm. destruct (counterMap (the_mux b) !! m) as [n|] eqn:Hn; cbn in Hm; [|lia].
    by eapply mux_is_held_lookup. }
  rewrite Hh in Ha. rewrite Ha in Htok. unfold kept_awake. rewrite Ha, Htok.
  destruct (powerManager (the_service b)); [by left|right]. rewrite Hr in Hth by done.
  by destruct (threads (the_service b)) as [|? [|]].
Qed.

Section clients.
Context (no_error : bool).
#[local] Instance ops : WakelockOps bridge := bridge_ops no_error.
#[local] Instance laws : WakelockLaws bridge := bridge_laws no_error.

(** The watchdog: messages that follow the protocol are handled over the bridge
    without an abort, and the platform is kept awake as long as a request is armed or a
    PONG awaited. *)
Lemma watchdog_over_bridge period msgs (s : watchdog_st bridge) a :
  wd_inv s -> spec_msgs period (Watchdog.abs s) msgs = Some a ->
  exists r s' o, Watchdog.handle_msgs period msgs true s = Ok r s' o /\ Watchdog.abs s' = a /\
    (Watchdog.armed (Watchdog.req s') = true \/ Watchdog.waiting_pong (Watchdog.ping s') = true ->
     kept_awake (Watchdog.wl s')).
Proof using no_error.
  intros Hinv Hs. destruct (wp_total _ _ _ (handle_msgs_accepts period msgs true s a Hinv Hs)) as (r & s' & o & Hrun & _ & Ha & Hi).
  exists r, s', o. split_and!; [done..|]. destruct Hi as [[Hb _] _ Hp Hr _ _]. cbn in Hp, Hr.
  intros [Ht|Ht]; rewrite Ht in *; eapply count_kept_awake; [done|rewrite Hr; lia|done|rewrite Hp; lia].
Qed.

(** CLA, from a bridge in any state the service may be in: the platform is kept awake
    as long as acknowledgements are awaited or the boot timer is armed. *)
Lemma cla_over_bridge `{MdmCliLaws} clock send_ok ipc_fd server_sock l fmmo sanity (b : bridge) :
  (forall n, valid_clock (clock n)) -> (forall n m, (n <= m)%nat -> to_ns (clock n) <= to_ns (clock m)) ->
  bridge_ok false b -> mux_valid (the_mux b) -> counter (the_mux b) WAKELOCK_CLA = 0 -> Forall poll_ok l ->
  match main_loop clock send_ok ipc_fd server_sock l (crm_cli_abs_init fmmo sanity b) with
  | Ok _ f _ =>
      let s := fsm_param f in
      ~ settled s \/ timer_boot_armed (timers s) = true -> kept_awake (Cla.wakelock s)
  | Abort r _ => allowed r
  end.
Proof using no_error.
  intros Hc Hm Hb Hv Hfree Hl.
  pose proof (main_loop_post clock send_ok Hc Hm ipc_fd server_sock l fmmo sanity b (conj Hb Hv) Hfree Hl) as Hp.
  destruct (main_loop _ _ _ _ _ _) as [v f o|r o]; [|done]. destruct Hp as [[_ _ [[[T1 _] T2 T3] T4] _] _]. cbn in T1, T3, T4.
  intros s Hs. subst s. apply (count_kept_awake _ WAKELOCK_CLA); [done|].
  destruct Hs as [Hs|Hs]; [destruct (T4 Hs) as [-> _]|destruct (T3 Hs) as [-> _]]; lia.
Qed.

End clients.
