(* ===== verification/ClaCtrl.v ===== *)
(** * CLA and CTRL composed

    The two threads with the two queues between them: the calls CLA makes to
    CTRL (request.c) are run on CTRL's queue, the notifications of CTRL
    (client_abstraction.c) on CLA's, both being the ring buffers of Ipc.v.
    The HAL and the plugins report to CTRL at any time.  CTRL takes its messages
    one by one and a turn of CLA's loop is one step; the steps interleave
    freely. *)

From S2P Require Import Prelude Fsm Timer Ipc Wakelock Escalation Watchdog MdmCli Wire Control ControlTheory ControlProps.
From S2P Require Import CtrlApi Names Cla ClaClients ClaTheory ClaProps.
From Stdlib Require Import ZArith Lia.
From stdpp Require Import base tactics list strings option.

Open Scope Z_scope.
Open Scope crm_scope.

Section system.
Context `{MdmCli} {W : Type} `{WakelockOps W} (clock : nat -> timespec) (send_ok : nat -> bool).

Record crm : Type := mk_crm {
  cla_thread : fsm_st (crm_cli_abs_internal_ctx W);
  ctrl_thread : fsm_st crm_control_ctx_internal;
  to_ctrl : ring ctrl_msg;
  to_cla : ring cla_msg;
}.

Inductive crm_out : Type :=
| FromCla (x : cla_out)
| FromCtrl (x : ctrl_out).

Definition quiet (x : Empty_set) : crm_out := match x with end.

#[local] Abbreviation S_ A := (M crm crm_out A).

Definition on_cla {A} (m : M _ cla_out A) : S_ A :=
  zoom cla_thread (fun t s => mk_crm t (ctrl_thread s) (to_ctrl s) (to_cla s)) FromCla m.
Definition on_ctrl_thread {A} (m : M _ ctrl_out A) : S_ A :=
  zoom ctrl_thread (fun t s => mk_crm (cla_thread s) t (to_ctrl s) (to_cla s)) FromCtrl m.
Definition on_ctrl_queue {A} (m : M (ring ctrl_msg) Empty_set A) : S_ A :=
  zoom to_ctrl (fun q s => mk_crm (cla_thread s) (ctrl_thread s) q (to_cla s)) quiet m.
Definition on_cla_queue {A} (m : M (ring cla_msg) Empty_set A) : S_ A :=
  zoom to_cla (fun q s => mk_crm (cla_thread s) (ctrl_thread s) (to_ctrl s) q) quiet m.

(** ** The calls between the two *)

(** What an action of one of the threads does to the queues. *)
Definition deliver (x : crm_out) : S_ unit :=
  match x with
  | FromCla CtrlStart => on_ctrl_queue crm_ctrl_start
  | FromCla CtrlStop => on_ctrl_queue crm_ctrl_stop
  | FromCla (CtrlRestart type d) => on_ctrl_queue (crm_ctrl_restart type d)
  | FromCla (SelfNotify d) => on_cla_queue (Cla.notify_client MDM_DBG_INFO (Some d))
  | FromCtrl (NotifyOperationResult st) => on_cla_queue (Cla.notify_operation_result st)
  | FromCtrl (NotifyModemState st) => on_cla_queue (Cla.notify_modem_state st)
  | FromCtrl (NotifyClientDbg d) => on_cla_queue (Cla.notify_client MDM_DBG_INFO (Some d))
  | _ => ret tt
  end.

(** A computation of one thread, then its calls, in their order: only the other
    thread reads the queues they fill. *)
Definition calling {A} (m : S_ A) : S_ unit := fun s =>
  match m s with
  | Ok _ s' o =>
      match for_each o deliver s' with
      | Ok _ s'' _ => Ok tt s'' o
      | Abort r _ => Abort r o
      end
  | Abort r o => Abort r o
  end.

(** ** Steps *)

(** The [while (get_msg)] loop of CLA empties the queue. *)
Fixpoint drain (n : nat) : M (ring cla_msg) Empty_set (list cla_msg) :=
  match n with
  | 0%nat => ret []
  | S n =>
      let* m := get_msg_thread in
      match m with
      | None => ret []
      | Some m => let* l := drain n in ret (m :: l)
      end
  end.

Inductive action : Type :=
| Report (c : api_call)
| CtrlTakes (e : env)
| CtrlTimesOut (e : env)
| CtrlPinged (scalar : Z)
| ClaTimesOut
| ClaTakes (read_queue : bool) (server : revents Z) (from_clients : list (revents (option crm_mdmcli_wire_msg))).

Definition cla_turn (r : poll_result) : S_ unit := calling (on_cla (main_turn clock send_ok r)).

Definition read_cla_queue : S_ (list cla_msg) :=
  let* q := gets to_cla in
  on_cla_queue (drain (Z.to_nat (num_msgs_in_queue q))).

Definition act (a : action) : S_ unit :=
  match a with
  | Report c => on_ctrl_queue (api c)
  | CtrlTakes e =>
      let* m := on_ctrl_queue get_msg_thread in
      match m with
      | Some (scalar, data) => calling (on_ctrl_thread (handle_ipc_msg e scalar data))
      | None => ret tt
      end
  | CtrlTimesOut e => calling (on_ctrl_thread (Control.handle_timeout e))
  | CtrlPinged scalar => calling (on_ctrl_thread (handle_watchdog_msg scalar))
  | ClaTimesOut => cla_turn Cla.PollTimeout
  | ClaTakes true server from_clients =>
      let* l := read_cla_queue in cla_turn (PollReady (RevIn l) server from_clients)
  | ClaTakes false server from_clients => cla_turn (PollReady RevNone server from_clients)
  end.

Definition acts (l : list action) : S_ unit := for_each l act.

(** Both threads started, [s] being CLA's context and [t] CTRL's. *)
Definition crm_start (ipc_fd server_sock : Z) : S_ unit :=
  on_cla (on_param (main_loop_start clock ipc_fd server_sock)) ;;
  on_ctrl_thread event_loop_start.

Definition crm_init (s : crm_cli_abs_internal_ctx W) (t : crm_control_ctx_internal) (r w r' w' : Z) : crm :=
  mk_crm (mk_fsm_st ST_INITIAL s) (mk_fsm_st Control.ST_INITIAL t)
    (crm_ipc_init (0, None) r w) (crm_ipc_init (0, None) r' w').

Definition crm_run (ipc_fd server_sock : Z) (l : list action) : S_ unit :=
  crm_start ipc_fd server_sock ;; acts l.

End system.

(** ** The messages of CTRL to CLA *)

Lemma gen_scalar_fields t id :
  0 < t < 256 -> 0 <= id < 2 ^ 56 ->
  CLI_ABS_GEN_SCALAR t id <> -1 /\ CLI_ABS_GET_MSG_TYPE (CLI_ABS_GEN_SCALAR t id) = t /\
  CLI_ABS_GET_MSG_PAYLOAD (CLI_ABS_GEN_SCALAR t id) = id.
Proof.
  intros Ht Hid. unfold CLI_ABS_GEN_SCALAR, CLI_ABS_GET_MSG_TYPE, CLI_ABS_GET_MSG_PAYLOAD.
  rewrite Z.shiftl_mul_pow2, lor_low by lia. split_and!; [lia| |].
  - rewrite Z.shiftr_div_pow2 by lia. rewrite Z.div_add_l, Z.div_small, Z.add_0_r by lia.
    change 0xFF with (Z.ones 8). rewrite Z.land_ones by lia. apply Z.mod_small. lia.
  - change 0xFFFFFFFFFFFFFF with (Z.ones 56). rewrite Z.land_ones by lia.
    rewrite Z.add_comm, Z.mod_add by lia. apply Z.mod_small. lia.
Qed.

Section theory.
Context `{HM : MdmCliLaws} {W : Type} `{HW : WakelockLaws W} (clock : nat -> timespec) (send_ok : nat -> bool).

Lemma result_msg_is_result st :
  is_result_msg (CLI_ABS_GEN_SCALAR CLI_ABS_MSG_NOTIFY_OPERATION_RESULT (if st =? 0 then 0 else 1), None) = true /\
  control_msg_ok (CLI_ABS_GEN_SCALAR CLI_ABS_MSG_NOTIFY_OPERATION_RESULT (if st =? 0 then 0 else 1), None).
Proof. destruct (st =? 0); (split; [done|]); intros _ Ht; vm_compute in Ht; discriminate. Qed.

Lemma state_msg_no_result st :
  is_result_msg (CLI_ABS_GEN_SCALAR CLI_ABS_MSG_NOTIFY_MODEM_STATE (mdm_state_id st), None) = false /\
  control_msg_ok (CLI_ABS_GEN_SCALAR CLI_ABS_MSG_NOTIFY_MODEM_STATE (mdm_state_id st), None).
Proof. split; [by destruct st|]. intros _ Ht. by destruct st; vm_compute in Ht. Qed.

Lemma dbg_msg_no_result d :
  is_result_msg (CLI_ABS_GEN_SCALAR CLI_ABS_MSG_NOTIFY_CLIENT MDM_DBG_INFO, d) = false /\
  control_msg_ok (CLI_ABS_GEN_SCALAR CLI_ABS_MSG_NOTIFY_CLIENT MDM_DBG_INFO, d).
Proof using HM.
  assert (is_event MDM_DBG_INFO) as He by (unfold is_event; rewrite !elem_of_cons; tauto).
  pose proof (is_event_range _ He) as [Hr Hm].
  destruct (gen_scalar_fields CLI_ABS_MSG_NOTIFY_CLIENT MDM_DBG_INFO) as (N & T & P); [done|lia|].
  unfold is_result_msg, control_msg_ok. cbn [fst]. rewrite T, P. split; [by rewrite andb_false_r|].
  intros _ _. rewrite i32_small by (unfold is_int, INT_MIN, INT_MAX; lia). rewrite !elem_of_cons. tauto.
Qed.

(** ** The invariant *)

Definition is_cli_request (m : ctrl_msg) : bool := m.1 <=? EV_CLI_NVM_BACKUP.

(** A request is waiting to be taken, pending, or its result is on its way. *)
Definition in_flight (s : crm (W := W)) : Z :=
  cnt is_cli_request (contents (to_ctrl s)) + ControlTheory.pending (fsm_param (ctrl_thread s))
  + results_in (contents (to_cla s)).

Definition in_progress (s : crm (W := W)) : bool := request_in_progress (itf (fsm_param (cla_thread s))).

Definition ctrl_queue_ok (q : ring ctrl_msg) : Prop :=
  ring_ok q /\ opened q /\
  Forall (fun m => msg_ok m.1 m.2 /\ 0 <= m.1 < Control.EV_NUM /\ m.1 <> Control.EV_FAILURE) (contents q).

Definition cla_queue_ok (q : ring cla_msg) : Prop := ring_ok q /\ opened q /\ Forall control_msg_ok (contents q).

Record crm_inv (s : crm (W := W)) : Prop := {
  ci_cla : machine_ok clock false (cla_thread s);
  ci_ctrl : machine_inv (ctrl_thread s);
  ci_to_ctrl : ctrl_queue_ok (to_ctrl s);
  ci_to_cla : cla_queue_ok (to_cla s);
  ci_flight : in_flight s <= b2z (in_progress s);
}.

(** The reports of the HAL and of the plugins, other than a failure. *)
Definition report_ok (c : api_call) : Prop :=
  match c with
  | CallStart | CallStop | CallRestart _ _ => False
  | _ => (message_of c).1 <> Control.EV_FAILURE
  end.

Definition action_ok (a : action) : Prop :=
  match a with
  | Report c => report_ok c
  | ClaTakes _ _ from_clients => Forall client_rev_ok from_clients
  | _ => True
  end.

(** ** The queues *)

Lemma offered_ok q c :
  ctrl_queue_ok q -> (message_of c).1 <> Control.EV_FAILURE ->
  wp (api c) q any_abort (fun _ q' _ => ctrl_queue_ok q' /\
    cnt is_cli_request (contents q') <= cnt is_cli_request (contents q) + b2z (is_cli_request (message_of c))).
Proof.
  intros (Hr & Ho & Hf) Hc.
  assert (wp (api c) q any_abort (fun _ q' _ => ring_ok q' /\ opened q' /\
    contents q' = offered (contents q) (message_of c))) as Hw.
  { assert (forall m, wp (send_msg_thread m ;; ret tt) q any_abort (fun _ q' _ => ring_ok q' /\ opened q' /\
      contents q' = offered (contents q) m)) as H1.
    { intros m. eapply wp_mono; [by apply wp_send_ignored|done|done]. }
    assert (forall m, wp (send_asserted m) q any_abort (fun _ q' _ => ring_ok q' /\ opened q' /\
      contents q' = offered (contents q) m)) as H2.
    { intros m. by apply wp_send_asserted. }
    destruct c as [| |[] [d|]|[[[] n] [d|]]|st|st|st|st]; cbn; first [apply H1 | apply H2 | idtac];
      first
        [ by apply wp_bind, wp_fail
        | apply wp_bind, wp_ret; first [apply H1 | apply H2]
        | apply wp_bind, wp_bind, wp_ret, wp_ret; apply H1
        | apply wp_bind, wp_bind, wp_ASSERT; [intros _; apply wp_ret, H1|done] ]. }
  eapply wp_mono; [exact Hw|done|]. intros ? q' o (Hr' & Ho' & Hq).
  pose proof (message_of_ok c) as [? ?]. unfold ctrl_queue_ok. rewrite Hq. unfold offered.
  destruct (_ <? _).
  - rewrite cnt_app, cnt_cons. change (cnt is_cli_request []) with 0. split; [|lia]. split_and!; try done.
    apply Forall_app. split; [done|]. by apply Forall_cons_2.
  - split; [done|]. destruct (is_cli_request _); cbn; lia.
Qed.

Lemma cla_send_ok q m :
  cla_queue_ok q -> control_msg_ok m ->
  wp (cla_send m) q any_abort (fun _ q' _ => cla_queue_ok q' /\
    results_in (contents q') <= results_in (contents q) + b2z (is_result_msg m)).
Proof.
  intros (Hr & Ho & Hf) Hm. unfold cla_send. apply wp_bind. eapply wp_mono; [by apply wp_send|done|].
  intros b q' o (Hr' & Ho' & Hs). apply wp_ASSERT; [|done]. intros ->. cbn in Hs.
  destruct (_ <? _); [|done]. injection Hs as Hq. unfold cla_queue_ok. rewrite Hq. unfold results_in.
  rewrite cnt_app, cnt_cons. change (cnt is_result_msg []) with 0. split; [|lia]. split_and!; try done.
  apply Forall_app. split; [done|]. by apply Forall_cons_2.
Qed.

Lemma notify_client_ok q d :
  cla_queue_ok q ->
  wp (Cla.notify_client MDM_DBG_INFO (Some d)) q any_abort (fun _ q' _ => cla_queue_ok q' /\
    results_in (contents q') <= results_in (contents q)).
Proof using HM.
  intros Hq. unfold Cla.notify_client, named. apply wp_bind, wp_ASSERT; [intros _|done].
  apply wp_bind, wp_ASSERT; [intros _|done]. apply wp_bind.
  unfold serialize, wp. destruct (serialize_msg _ _); [|done].
  destruct (dbg_msg_no_result (Some (mk_wire_msg MDM_DBG_INFO (Debug (Some d))))) as [Hn Hok].
  pose proof (cla_send_ok q _ Hq Hok) as Hw. unfold wp in Hw. destruct (cla_send _ q); [|done].
  rewrite Hn in Hw. cbn in Hw. rewrite Z.add_0_r in Hw. exact Hw.
Qed.

Lemma drain_ok n q :
  cla_queue_ok q ->
  wp (drain n) q any_abort (fun l q' _ => cla_queue_ok q' /\ contents q = l ++ contents q').
Proof.
  revert q. induction n as [|n IH]; intros q Hq; cbn [drain]; [by apply wp_ret|].
  destruct Hq as (Hr & Ho & Hf). apply wp_bind. eapply wp_mono; [by apply wp_get_msg|done|].
  intros r q1 o (Hr1 & Ho1 & Hs). cbn in Hs. injection Hs as Hc ->.
  destruct (contents q) as [|m l] eqn:Hl; cbn in Hc |- *.
  { apply wp_ret. unfold cla_queue_ok. rewrite Hc. split_and!; done. }
  inversion Hf; subst. apply wp_bind.
  eapply wp_mono; [apply IH; by split_and!|done|]. intros l' q2 o2 [Hq2 Hc2]. apply wp_ret.
  split; [done|]. cbn. by rewrite Hc2.
Qed.

(** ** The calls *)

Definition req_out (x : crm_out) : bool := match x with FromCla x => is_ctrl x | FromCtrl _ => false end.
Definition res_out (x : crm_out) : bool := match x with FromCla _ => false | FromCtrl x => is_result x end.

(** The effect of delivering [o]. *)
Record delivered (o : list crm_out) (s s' : crm (W := W)) : Prop := {
  dl_cla : cla_thread s' = cla_thread s;
  dl_ctrl : ctrl_thread s' = ctrl_thread s;
  dl_to_ctrl : ctrl_queue_ok (to_ctrl s');
  dl_to_cla : cla_queue_ok (to_cla s');
  dl_requests : cnt is_cli_request (contents (to_ctrl s')) <= cnt is_cli_request (contents (to_ctrl s)) + cnt req_out o;
  dl_results : results_in (contents (to_cla s')) <= results_in (contents (to_cla s)) + cnt res_out o;
}.

Lemma wp_ctrl_queue s c (m : M (ring ctrl_msg) Empty_set unit) x :
  m = api c -> (message_of c).1 <> Control.EV_FAILURE -> is_cli_request (message_of c) = req_out x -> res_out x = false ->
  ctrl_queue_ok (to_ctrl s) -> cla_queue_ok (to_cla s) ->
  wp (on_ctrl_queue m) s any_abort (fun _ s' _ => delivered [x] s s').
Proof.
  intros -> Hc Hx Hy H1 H2. apply wp_zoom. eapply wp_mono; [by apply offered_ok|done|].
  intros ? q' o [Hq Hn]. split; cbn; try done; rewrite cnt_cons, ?Hy, <-?Hx; change (cnt _ []) with 0; cbn; lia.
Qed.

Lemma wp_cla_queue s (m : M (ring cla_msg) Empty_set unit) x :
  req_out x = false ->
  wp m (to_cla s) any_abort (fun _ q' _ => cla_queue_ok q' /\
    results_in (contents q') <= results_in (contents (to_cla s)) + b2z (res_out x)) ->
  ctrl_queue_ok (to_ctrl s) ->
  wp (on_cla_queue m) s any_abort (fun _ s' _ => delivered [x] s s').
Proof.
  intros Hx Hw H1. apply wp_zoom. eapply wp_mono; [exact Hw|done|].
  intros ? q' o [Hq Hn]. split; cbn; try done; rewrite cnt_cons, ?Hx; change (cnt _ []) with 0; cbn; lia.
Qed.

Lemma wp_deliver x s :
  ctrl_queue_ok (to_ctrl s) -> cla_queue_ok (to_cla s) ->
  wp (deliver x) s any_abort (fun _ s' _ => delivered [x] s s').
Proof using HM.
  intros H1 H2.
  assert (forall d, wp (Cla.notify_client MDM_DBG_INFO (Some d)) (to_cla s) any_abort (fun _ q' _ => cla_queue_ok q' /\
    results_in (contents q') <= results_in (contents (to_cla s)) + 0)) as Hd.
  { intros d. rewrite Z.add_0_r. by apply notify_client_ok. }
  assert (req_out x = false -> res_out x = false -> wp (ret tt) s any_abort (fun _ s' (_ : list crm_out) => delivered [x] s s')) as Hn.
  { intros Ha Hb. apply wp_ret. split; try done; rewrite cnt_cons, ?Ha, ?Hb; change (cnt _ []) with 0; cbn; lia. }
  destruct x as [x|x]; destruct x; cbn [deliver]; try (by apply Hn); try (by apply wp_cla_queue).
  - by apply (wp_ctrl_queue _ CallStart).
  - by apply (wp_ctrl_queue _ CallStop).
  - apply (wp_ctrl_queue _ (CallRestart type d)); try done; by destruct type.
  - apply wp_cla_queue; [done| |done]. destruct (result_msg_is_result status) as [Hr Hok].
    eapply wp_mono; [by apply cla_send_ok|done|]. intros ? q' o. by rewrite Hr.
  - apply wp_cla_queue; [done| |done]. destruct (state_msg_no_result st) as [Hr Hok].
    eapply wp_mono; [by apply cla_send_ok|done|]. intros ? q' o. by rewrite Hr.
Qed.

Lemma wp_deliveries o s :
  ctrl_queue_ok (to_ctrl s) -> cla_queue_ok (to_cla s) ->
  wp (for_each o deliver) s any_abort (fun _ s' _ => delivered o s s').
Proof using HM.
  revert s. induction o as [|x o IH]; intros s H1 H2; cbn [for_each].
  { apply wp_ret. split; try done; unfold cnt; cbn; lia. }
  apply wp_bind. eapply wp_mono; [by apply wp_deliver|done|]. intros ? s1 o1 [A1 A2 A3 A4 A5 A6].
  eapply wp_mono; [by apply IH|done|]. intros ? s2 o2 [B1 B2 B3 B4 B5 B6].
  rewrite cnt_cons in A5, A6. change (cnt _ []) with 0 in A5, A6.
  split; try done; [congruence|congruence|rewrite cnt_cons; lia|rewrite cnt_cons; lia].
Qed.

Lemma wp_calling {A} (m : M crm crm_out A) s (Q : unit -> crm -> list crm_out -> Prop) :
  wp m s any_abort (fun _ s' o => ctrl_queue_ok (to_ctrl s') /\ cla_queue_ok (to_cla s') /\
    forall s'', delivered o s' s'' -> Q tt s'' o) ->
  wp (calling m) s any_abort Q.
Proof using HM.
  unfold wp, calling. destruct (m s) as [a s' o|r o]; [|done]. intros (H1 & H2 & HQ).
  pose proof (wp_deliveries o s' H1 H2) as Hw. unfold wp in Hw. destruct (for_each o deliver s'); [|done]. by apply HQ.
Qed.

Lemma cla_outputs o : cnt req_out (FromCla <$> o) = ctrl_requests o /\ cnt res_out (FromCla <$> o) = 0.
Proof.
  unfold ctrl_requests. induction o as [|x o [IH1 IH2]]; [done|]. rewrite fmap_cons, !cnt_cons, IH1, IH2. done.
Qed.

Lemma ctrl_outputs o : cnt req_out (FromCtrl <$> o) = 0 /\ cnt res_out (FromCtrl <$> o) = results o.
Proof.
  unfold results, count_out. induction o as [|x o [IH1 IH2]]; [done|].
  rewrite fmap_cons, !cnt_cons, IH1, IH2. split; [done|]. cbn. destruct (is_result x); cbn; lia.
Qed.

(** ** The steps keep the invariant *)

Hypothesis clock_valid : forall n, valid_clock (clock n).
Hypothesis clock_mono : forall n m, (n <= m)%nat -> to_ns (clock n) <= to_ns (clock m).

#[local] Abbreviation keeps_inv m s := (wp m s any_abort (fun _ s' _ => crm_inv s')).

(** A turn of CTRL, [d] requests having been taken from its queue. *)
Lemma ctrl_turn_inv (m : M (fsm_st crm_control_ctx_internal) ctrl_out unit) d s :
  machine_ok clock false (cla_thread s) -> ctrl_queue_ok (to_ctrl s) -> cla_queue_ok (to_cla s) ->
  in_flight s + d <= b2z (in_progress s) ->
  wp m (ctrl_thread s) any_abort (fun _ f' o => machine_inv f' /\
    ControlTheory.pending (fsm_param f') + results o <= ControlTheory.pending (fsm_param (ctrl_thread s)) + d) ->
  keeps_inv (calling (on_ctrl_thread m)) s.
Proof using HM.
  intros H1 H2 H3 H4 Hw. apply wp_calling, wp_zoom. eapply wp_mono; [exact Hw|done|].
  intros ? f' o [Hinv Hn]. cbn. split; [done|]. split; [done|]. intros s' [A1 A2 A3 A4 A5 A6]. cbn in *.
  destruct (ctrl_outputs o) as [O1 O2]. rewrite O1 in A5. rewrite O2 in A6.
  unfold in_flight, in_progress in *. split; try done; [by rewrite A1|by rewrite A2|].
  unfold in_flight, in_progress. rewrite A1, A2. lia.
Qed.

(** A turn of CLA, [r] results having been taken from its queue. *)
Lemma cla_turn_inv p s :
  machine_ok clock false (cla_thread s) -> machine_inv (ctrl_thread s) ->
  ctrl_queue_ok (to_ctrl s) -> cla_queue_ok (to_cla s) -> poll_ok p ->
  in_flight s + poll_results p <= b2z (in_progress s) ->
  keeps_inv (cla_turn clock send_ok p) s.
Proof using All.
  intros H1 H2 H3 H4 Hp H5. apply wp_calling, wp_zoom.
  eapply wp_mono; [by apply wp_main_turn|done|]. intros ? f' o [Hok Hn]. cbn. split; [done|]. split; [done|].
  intros s' [A1 A2 A3 A4 A5 A6]. cbn in *. destruct (cla_outputs o) as [O1 O2]. rewrite O1 in A5. rewrite O2 in A6.
  unfold in_flight, in_progress in *. split; try done; [by rewrite A1|by rewrite A2|].
  unfold in_flight, in_progress. rewrite A1, A2. lia.
Qed.

Lemma report_inv c s : crm_inv s -> report_ok c -> keeps_inv (on_ctrl_queue (api c)) s.
Proof.
  intros [H1 H2 H3 H4 H5] Hc. apply wp_zoom.
  assert ((message_of c).1 <> Control.EV_FAILURE /\ is_cli_request (message_of c) = false) as [Hf Hr].
  { destruct c as [| |[] ?|[[[] ?] ?]|?|?|?|?]; cbn in *; try done; unfold is_cli_request; cbn;
      by destruct (_ =? 0). }
  eapply wp_mono; [by apply offered_ok|done|]. intros ? q' o [Hq Hn]. rewrite Hr in Hn.
  split; try done. unfold in_flight, in_progress in *. cbn in *. lia.
Qed.

Lemma ctrl_takes_inv e s : crm_inv s -> keeps_inv (act clock send_ok (CtrlTakes e)) s.
Proof using HM.
  intros [H1 H2 (Hr & Ho & Hf) H4 H5]. cbn [act]. apply wp_bind, wp_zoom.
  eapply wp_mono; [by apply wp_get_msg|done|]. intros m q' o (Hr' & Ho' & Hs). cbn in Hs. injection Hs as Hc ->.
  assert (ctrl_queue_ok q') as Hq'.
  { split_and!; [done..|]. rewrite Hc. destruct (contents (to_ctrl s)); [done|]. by inversion Hf. }
  unfold in_flight in H5. destruct (contents (to_ctrl s)) as [|[scalar data] l]; cbn in Hc |- *.
  { apply wp_ret. split; try done. unfold in_flight. cbn [to_ctrl ctrl_thread to_cla]. rewrite Hc. done. }
  apply Forall_cons_1 in Hf as [(Hm & Hi & Hnf) _]. cbn in Hm, Hi, Hnf. rewrite cnt_cons in H5.
  apply (ctrl_turn_inv _ (b2z (is_cli_request (scalar, data)))); cbn [cla_thread to_ctrl to_cla ctrl_thread]; try done.
  { unfold in_flight. cbn [cla_thread to_ctrl to_cla ctrl_thread]. rewrite Hc. change (in_progress _) with (in_progress s). lia. }
  eapply wp_mono; [apply wp_handle_ipc_msg; [done|done|apply Hm]|done|]. intros ? f' o' Hp. split; [apply Hp|].
  pose proof (sp_results _ _ _ _ Hp). destruct (issued_bound scalar (state (ctrl_thread s)) Hi) as [[_ Hb] _].
  unfold is_cli_request. cbn [fst]. destruct (Z.eqb_spec scalar Control.EV_FAILURE); [done|].
  destruct (scalar <=? EV_CLI_NVM_BACKUP); cbn; lia.
Qed.

Lemma act_inv a s : crm_inv s -> action_ok a -> keeps_inv (act clock send_ok a) s.
Proof using All.
  intros Hs Ha. pose proof Hs as [H1 H2 H3 H4 H5]. destruct a as [c|e|e|m| |[] server from].
  - by apply report_inv.
  - by apply ctrl_takes_inv.
  - apply (ctrl_turn_inv _ 0); try done; [lia|].
    eapply wp_mono; [by apply wp_handle_timeout|done|]. intros ? f' o Hp. split; [apply Hp|].
    pose proof (sp_results _ _ _ _ Hp) as Hr. change (issued _ _) with 0 in Hr. lia.
  - apply (ctrl_turn_inv _ 0); try done; [lia|].
    eapply wp_mono; [apply wp_handle_ping|done|]. intros ? f' o (-> & -> & _). split; [done|].
    change (results [_]) with 0. lia.
  - apply cla_turn_inv; try done. cbn. lia.
  - apply wp_bind, wp_bind, wp_gets, wp_zoom. eapply wp_mono; [by apply drain_ok|done|].
    intros l q' o [Hq Hc]. cbn. apply cla_turn_inv; cbn [cla_thread to_ctrl to_cla ctrl_thread poll_ok ipc_rev_ok]; try done.
    + split; [|done]. destruct H4 as (_ & _ & Hf). rewrite Hc in Hf. by apply Forall_app in Hf as [? _].
    + unfold in_flight in *. cbn [cla_thread to_ctrl to_cla ctrl_thread poll_results ipc_results].
      change (in_progress _) with (in_progress s). unfold results_in in *. rewrite Hc, cnt_app in H5. lia.
  - apply cla_turn_inv; try done; cbn; try lia.
Qed.

Context (ipc_fd server_sock : Z) (fmmo sanity : bool) (w : W) (inst ms : Z) (dmp : bool) (esc0 : esc_st) (r1 w1 r2 w2 : Z).
Hypothesis w_valid : wl_valid w.
Hypothesis w_free : wl_count w WAKELOCK_CLA = 0.
Hypothesis esc0_ok : esc_ok esc0.
Hypothesis fds_ok : r1 <> -1 /\ w1 <> -1 /\ r2 <> -1 /\ w2 <> -1.

#[local] Abbreviation initial :=
  (crm_init (crm_cli_abs_init fmmo sanity w) (crm_ctrl_init inst ms dmp esc0) r1 w1 r2 w2).

Lemma start_inv : keeps_inv (crm_start clock ipc_fd server_sock) initial.
Proof using All.
  destruct fds_ok as (? & ? & ? & ?).
  apply wp_bind, wp_zoom. eapply wp_mono; [by apply wp_main_loop_start|done|].
  intros ? f o (Hf & Hr & _). apply wp_zoom. cbn [crm_init ctrl_thread].
  eapply wp_mono; [by apply wp_event_loop_start|done|]. intros ? f' o' (Hinv & _ & Hp & _). cbn.
  assert (contents (crm_ipc_init ((0, None) : ctrl_msg) r1 w1) = [] /\ contents (crm_ipc_init ((0, None) : cla_msg) r2 w2) = [])
    as [E1 E2] by done.
  split; cbn [cla_thread to_ctrl to_cla ctrl_thread crm_init].
  - exact Hf.
  - exact Hinv.
  - split; [apply init_ok|]. split; [by split|]. by rewrite E1.
  - split; [apply init_ok|]. split; [by split|]. by rewrite E2.
  - unfold in_flight, in_progress. cbn [cla_thread to_ctrl to_cla ctrl_thread]. rewrite E1, E2, Hp, Hr. done.
Qed.

Lemma crm_run_inv l : Forall action_ok l -> keeps_inv (crm_run clock send_ok ipc_fd server_sock l) initial.
Proof using All.
  intros Hl. apply wp_bind. eapply wp_mono; [apply start_inv|done|]. intros ? s o Hs.
  apply (wp_for_each _ _ crm_inv); [done| |done]. intros x s' Ha Hs'. apply act_inv; [done|].
  destruct (list_elem_of_lookup_1 _ _ Ha) as [i Hi]. by eapply Forall_lookup_1 in Hl.
Qed.

(** C19. CLA and CTRL agree on whose turn it is: in any run of the two threads
    and of their queues, whatever the clients send, whatever the HAL and the
    plugins report but a failure, and however the steps interleave, at most one
    request is between them (queued, pending in CTRL, or answered by a result
    CLA has not read yet), and none when CLA has none in progress; so when CTRL
    takes a request of CLA, none is pending, and the assertion that every
    request handler of CTRL begins with holds. *)
Theorem requests_do_not_overlap l s o :
  Forall action_ok l -> crm_run clock send_ok ipc_fd server_sock l initial = Ok tt s o ->
  in_flight s <= 1 /\
  (in_progress s = false -> in_flight s = 0) /\
  (forall scalar data rest, contents (to_ctrl s) = (scalar, data) :: rest -> scalar <= EV_CLI_NVM_BACKUP ->
    Control.client_request (ctrl_state (fsm_param (ctrl_thread s))) = REQ_NONE /\
    forall s', ctrl_state s' = ctrl_state (fsm_param (ctrl_thread s)) -> ASSERT_no_request s' = Ok tt s' []).
Proof using All.
  intros Hl Hrun. pose proof (wp_Ok _ _ _ _ _ _ _ (crm_run_inv l Hl) Hrun) as [_ _ _ _ Hf].
  assert (0 <= in_flight s) as Hpos.
  { unfold in_flight, ControlTheory.pending, results_in. pose proof (cnt_nonneg is_cli_request (contents (to_ctrl s))).
    pose proof (cnt_nonneg is_result_msg (contents (to_cla s))). destruct (decide _); lia. }
  split; [destruct (in_progress s); cbn in Hf; lia|]. split; [intros Hp; rewrite Hp in Hf; cbn in Hf; lia|].
  intros scalar data rest Hc Hle. assert (Control.client_request (ctrl_state (fsm_param (ctrl_thread s))) = REQ_NONE) as Hn.
  { assert (in_flight s <= 1) as Hone by (destruct (in_progress s); cbn in Hf; lia).
    unfold in_flight, ControlTheory.pending, results_in in Hone. rewrite Hc, cnt_cons in Hone. unfold is_cli_request in Hone at 1. cbn [fst] in Hone.
    pose proof (cnt_nonneg is_cli_request rest). pose proof (cnt_nonneg is_result_msg (contents (to_cla s))).
    destruct (Z.leb_spec scalar EV_CLI_NVM_BACKUP); [|lia]. cbn [b2z] in Hone. destruct (decide _); [done|lia]. }
  split; [done|]. intros s' Hs'. unfold ASSERT_no_request, is_request, bind, gets. rewrite Hs', Hn. done.
Qed.

End theory.

(** ** Concrete runs *)

Section demo.
#[local] Existing Instance demo_mdmcli.

Definition demo_crm : crm (W := wakelock_ctx) :=
  crm_init (crm_cli_abs_init true false crm_wakelock_init) (crm_ctrl_init 1 90000 true demo_esc) 3 4 7 8.

Definition demo_acts (l : list action) : outcome crm crm_out unit :=
  crm_run demo_clock all_sent 5 6 l demo_crm.

Definition ctrl_takes : action := CtrlTakes demo_env.
Definition cla_reads : action := ClaTakes true RevNone [].
Definition client_says (id : Z) (u : wire_union) : action := ClaTakes false RevNone [says id u].
Definition hal_says (t : crm_hal_evt_type) (nodes : string) (d : option mdm_cli_dbg_info) : action :=
  Report (CallHalEvent (mk_hal_event (mk_hal_evt t nodes) d)).

(** The modem is found off; a client connects, on descriptor 9, registers and
    acquires the modem; CTRL takes the start request. *)
Definition started : list action :=
  [hal_says HAL_MDM_OFF "" None; ctrl_takes; cla_reads; ClaTakes false (RevIn 9) [];
   ClaTakes false RevNone [registers "a"]; client_says CRM_REQ_ACQUIRE NoData; ctrl_takes].

(** The firmware is packaged and flashed, and the modem boots. *)
Definition boots : list action :=
  [Report (CallFwUploadStatus 0); ctrl_takes; hal_says HAL_MDM_BUSY "" None; hal_says HAL_MDM_FLASH "/dev/ttyS0" None;
   ctrl_takes; ctrl_takes; cla_reads; Report (CallFwUploadStatus 0); ctrl_takes; hal_says HAL_MDM_RUN "" None;
   ctrl_takes; cla_reads].

(** The client releases the modem and acknowledges, and the modem stops. *)
Definition stops : list action :=
  [client_says CRM_REQ_RELEASE NoData; client_says CRM_REQ_ACK_SHUTDOWN NoData; ctrl_takes;
   hal_says HAL_MDM_OFF "" None; ctrl_takes; cla_reads].

(** The events the client is sent. *)
Definition sent_to_client (o : list crm_out) : list Z :=
  omap (fun x => match x with FromCla (ToClient _ m _) => Some (msg_id m) | _ => None end) o.

(** A whole life of the modem: the client is told of each state, the two
    machines end at rest, nothing being left in the queues. *)
Example demo_life :
  match demo_acts (started ++ boots ++ stops ++ [client_says CRM_REQ_ACQUIRE NoData; ctrl_takes] ++ boots) with
  | Ok _ s o =>
      state (cla_thread s) = ST_UP /\ state (ctrl_thread s) = Control.ST_UP /\ in_flight s = 0 /\
      contents (to_ctrl s) = [] /\ contents (to_cla s) = [] /\
      sent_to_client o = [MDM_DOWN; MDM_UP; MDM_SHUTDOWN; MDM_DOWN; MDM_UP]
  | Abort _ _ => False
  end.
Proof. vm_compute. by split_and!. Qed.

(** Runs of the two threads that end badly:
    - the firmware upload reports a failure during a start: CTRL's failsafe
      gives CLA a negative result while the modem is still seen as off, an event
      CLA's table asserts in STARTING: the whole process aborts (the out of
      service path, by contrast, notifies the new state before the result);
    - a backup is requested and acknowledged while the report that the modem is
      busy waits in CLA's queue: CTRL, already WAITING, aborts;
    - the same with a core dump in progress: the request is taken and ignored;
      after the dump CTRL waits for a request, CLA for a result, and nothing is
      left in the queues. *)
Lemma composed_failing_runs :
  (exists o, demo_acts (started ++ [Report (CallFwUploadStatus (-1)); ctrl_takes; cla_reads]) =
    Abort (AssertFail "0") o /\ FromCtrl (NotifyOperationResult (-1)) ∈ o) /\
  (exists o, demo_acts (started ++ boots ++
      [hal_says HAL_MDM_BUSY "" None; ctrl_takes; client_says CRM_REQ_NVM_BACKUP NoData;
       client_says CRM_REQ_ACK_COLD_RESET NoData; ctrl_takes]) =
    Abort (DAssertFail "transition not supported") o) /\
  (exists s o, demo_acts (started ++ boots ++
      [hal_says HAL_MDM_BUSY "" None; ctrl_takes; hal_says HAL_MDM_DUMP "/dev/dump" None; ctrl_takes;
       client_says CRM_REQ_NVM_BACKUP NoData; client_says CRM_REQ_ACK_COLD_RESET NoData; ctrl_takes;
       Report (CallDumpStatus 0); ctrl_takes; cla_reads]) = Ok tt s o /\
    in_progress s = true /\ in_flight s = 0 /\ state (ctrl_thread s) = Control.ST_WAITING /\
    state (cla_thread s) = ST_STARTING /\ contents (to_ctrl s) = [] /\ contents (to_cla s) = []).
Proof.
  split_and!.
  - eexists. split; [vm_compute; reflexivity|]. rewrite !elem_of_cons. tauto.
  - eexists. vm_compute. reflexivity.
  - eexists _, _. split; [vm_compute; reflexivity|]. by split_and!.
Qed.

Lemma demo_actions_ok : Forall action_ok (started ++ boots).
Proof.
  assert (client_rev_ok (registers "a")) by (apply demo_register_ok; by apply demo_string_ok).
  assert (client_rev_ok (says CRM_REQ_ACQUIRE NoData)) by (by split).
  unfold started, boots. cbn [app]. repeat (apply Forall_cons_2; [|]); cbn;
    first [done | by apply Forall_nil_2 | by apply Forall_cons_2].
Qed.

End demo.

Lemma requests_do_not_overlap_witness :
  exists s o, demo_acts started = Ok tt s o /\ in_flight s <= 1 /\ (in_progress s = false -> in_flight s = 0).
Proof.
  destruct demo_clock_ok, demo_wakelock_ok. eexists _, _. split; [vm_compute; reflexivity|].
  edestruct (@requests_do_not_overlap demo_mdmcli demo_mdmcli_laws wakelock_ctx wakelock_ops _ demo_clock all_sent ltac:(done)
    ltac:(done) 5 6 true false crm_wakelock_init 1 90000 true demo_esc 3 4 7 8 ltac:(done) ltac:(done) demo_esc_ok
    ltac:(done) started) as (A & B & _).
  - apply (proj1 (proj1 (Forall_app _ started boots) demo_actions_ok)).
  - vm_compute. reflexivity.
  - exact (conj A B).
Defined.
