(* ===== verification/HalSofia.v ===== *)
(** * The HAL of SoFIA platforms (plugins/hal/sofia/src, plugins/hal/common/src)

    The modem is a virtual machine, driven through two sysfs files and
    observed through kernel events.  The context is one record; the calls to
    CTRL, the writes to sysfs and to Android properties and the handling of the
    ping thread are emitted actions.  The [n]-th clock reading and the result of
    the [n]-th write to sysfs are given by [clock] and [write_ok]. *)

From S2P Require Import Prelude Ipc Fsm Timer MdmCli Control CtrlApi.
From Stdlib Require Import ZArith Lia Ascii.
From stdpp Require Import base tactics list strings option.

Open Scope Z_scope.
Open Scope crm_scope.

(** ** Constants *)

Definition ST_INITIAL : Z := 0.
Definition ST_OFF : Z := 1.
Definition ST_BOOTING : Z := 2.
Definition ST_PINGING : Z := 3.
Definition ST_WAITING_RPC : Z := 4.
Definition ST_RUN : Z := 5.
Definition ST_STOPPING : Z := 6.
Definition ST_NEED_RESETTING : Z := 7.
Definition ST_NUM : Z := 8.

Definition EV_POWER : Z := 0.
Definition EV_BOOT : Z := 1.
Definition EV_STOP : Z := 2.
Definition EV_RESET : Z := 3.
Definition EV_BACKUP : Z := 4.
Definition EV_MDM_OFF : Z := 5.
Definition EV_MDM_ON : Z := 6.
Definition EV_MDM_TRAP : Z := 7.
Definition EV_MDM_FW_FAIL : Z := 8.
Definition EV_MDM_RUN : Z := 9.
Definition EV_TIMEOUT : Z := 10.
Definition EV_RPC_DEAD : Z := 11.
Definition EV_RPC_RUN : Z := 12.
Definition EV_NUM : Z := 13.

(** Target builds. *)
Definition TIMEOUT_MDM_OFF : Z := 100.
Definition TIMEOUT_MDM_ON : Z := 5000.
Definition TIMEOUT_RPCD_START : Z := 5000.
Definition RECV_BUFFER : Z := 1024.

Definition CRM_HAL_RPCD_STATE_FOLDER : string := "/data/telephony/crm".
Definition CRM_HAL_RPCD_STATE_FILE_STARTED : string := "rpcd_started".
Definition CRM_HAL_RPCD_STATE_FILE_STOPPED : string := "rpcd_stopped".
Definition MAX_WATCHED_PATH : Z := 256.

Definition get_event_txt (evt : Z) : option string :=
  if evt =? EV_POWER then Some "REQ: power"
  else if evt =? EV_BOOT then Some "REQ: boot"
  else if evt =? EV_STOP then Some "REQ: stop"
  else if evt =? EV_RESET then Some "REQ: reset"
  else if evt =? EV_MDM_OFF then Some "MDM: off"
  else if evt =? EV_MDM_ON then Some "MDM: on"
  else if evt =? EV_MDM_TRAP then Some "MDM: trap"
  else if evt =? EV_MDM_RUN then Some "MDM: run"
  else if evt =? EV_MDM_FW_FAIL then Some "MDM: bad firmware"
  else if evt =? EV_TIMEOUT then Some "TIMEOUT"
  else if evt =? EV_RPC_DEAD then Some "RPC: dead"
  else if evt =? EV_RPC_RUN then Some "RPC: run"
  else None.

Definition get_state_txt (state : Z) : option string :=
  if state <? 0 then None else
  ["INITIAL"; "OFF"; "BOOTING"; "PINGING"; "WAIT RPC"; "RUN"; "STOPPING"; "NEED RESET"] !! Z.to_nat state.

(** ** C strings *)

(** A buffer read as a C string: up to its first NUL. *)
Fixpoint c_str (s : string) : string :=
  match s with
  | EmptyString => EmptyString
  | String a s' => if bool_decide (a = Ascii.zero) then EmptyString else String a (c_str s')
  end.

(** [snprintf(buf, size, "%s", s)]. *)
Definition snprintf_s (size : nat) (s : string) : string := String.substring 0 (size - 1) s.

Definition tolower (a : ascii) : ascii :=
  let n := nat_of_ascii a in
  if (65 <=? n)%nat && (n <=? 90)%nat then ascii_of_nat (n + 32) else a.

Fixpoint lower (s : string) : string :=
  match s with EmptyString => EmptyString | String a s' => String (tolower a) (lower s') end.

(** Whether [strcasestr] finds the needle. *)
Definition strcasestr (hay needle : string) : bool :=
  match String.index 0 (lower needle) (lower hay) with Some _ => true | None => false end.

(** ** State *)

(** [crm_hal_ctx_internal_t]: [thread_ping] tells whether the pointer is set,
    [net_device_state] is the property the code reads and writes, the last two
    fields count the readings of the clock and the writes to sysfs. *)
Record crm_hal_ctx_internal : Type := mk_hal {
  thread_ping : bool;
  uevent_vmodem : string;
  dump_node : string;
  flash_node : string;
  dump_enabled : bool;
  silent_reset_enabled : bool;
  secvm_flash : bool;
  support_mdm_up_on_start : bool;
  stopping : bool;
  timer_armed : bool;
  timer_end : timespec;
  mdm_state : Z;
  rpcd_running : bool;
  net_device_state : string;
  clock_reads : nat;
  writes : nat;
}.
Abbreviation hal_ctx := crm_hal_ctx_internal (only parsing).

Inductive hal_out : Type :=
| NotifyHalEvent (ev : hal_event)
| WriteCtrl (value : string) (ok : bool)
| WriteDump (value : string) (ok : bool)
| SetProperty (key value : string)
| PingStart
| PingDispose
| Unlink (path : string).

Abbreviation H_ A := (M crm_hal_ctx_internal hal_out A).

Definition set_thread_ping (b : bool) : H_ unit :=
  modify (fun s => mk_hal b (uevent_vmodem s) (dump_node s) (flash_node s) (dump_enabled s)
    (silent_reset_enabled s) (secvm_flash s) (support_mdm_up_on_start s) (stopping s) (timer_armed s)
    (timer_end s) (mdm_state s) (rpcd_running s) (net_device_state s) (clock_reads s) (writes s)).
Definition set_stopping (b : bool) : H_ unit :=
  modify (fun s => mk_hal (thread_ping s) (uevent_vmodem s) (dump_node s) (flash_node s) (dump_enabled s)
    (silent_reset_enabled s) (secvm_flash s) (support_mdm_up_on_start s) b (timer_armed s)
    (timer_end s) (mdm_state s) (rpcd_running s) (net_device_state s) (clock_reads s) (writes s)).
Definition set_timer (b : bool) (t : timespec) : H_ unit :=
  modify (fun s => mk_hal (thread_ping s) (uevent_vmodem s) (dump_node s) (flash_node s) (dump_enabled s)
    (silent_reset_enabled s) (secvm_flash s) (support_mdm_up_on_start s) (stopping s) b
    t (mdm_state s) (rpcd_running s) (net_device_state s) (clock_reads s) (writes s)).
Definition set_mdm_state (z : Z) : H_ unit :=
  modify (fun s => mk_hal (thread_ping s) (uevent_vmodem s) (dump_node s) (flash_node s) (dump_enabled s)
    (silent_reset_enabled s) (secvm_flash s) (support_mdm_up_on_start s) (stopping s) (timer_armed s)
    (timer_end s) z (rpcd_running s) (net_device_state s) (clock_reads s) (writes s)).
Definition set_rpcd_running (b : bool) : H_ unit :=
  modify (fun s => mk_hal (thread_ping s) (uevent_vmodem s) (dump_node s) (flash_node s) (dump_enabled s)
    (silent_reset_enabled s) (secvm_flash s) (support_mdm_up_on_start s) (stopping s) (timer_armed s)
    (timer_end s) (mdm_state s) b (net_device_state s) (clock_reads s) (writes s)).
Definition set_net_device_state (v : string) : H_ unit :=
  modify (fun s => mk_hal (thread_ping s) (uevent_vmodem s) (dump_node s) (flash_node s) (dump_enabled s)
    (silent_reset_enabled s) (secvm_flash s) (support_mdm_up_on_start s) (stopping s) (timer_armed s)
    (timer_end s) (mdm_state s) (rpcd_running s) v (clock_reads s) (writes s)).
Definition next_read : H_ unit :=
  modify (fun s => mk_hal (thread_ping s) (uevent_vmodem s) (dump_node s) (flash_node s) (dump_enabled s)
    (silent_reset_enabled s) (secvm_flash s) (support_mdm_up_on_start s) (stopping s) (timer_armed s)
    (timer_end s) (mdm_state s) (rpcd_running s) (net_device_state s) (Datatypes.S (clock_reads s)) (writes s)).
Definition next_write : H_ unit :=
  modify (fun s => mk_hal (thread_ping s) (uevent_vmodem s) (dump_node s) (flash_node s) (dump_enabled s)
    (silent_reset_enabled s) (secvm_flash s) (support_mdm_up_on_start s) (stopping s) (timer_armed s)
    (timer_end s) (mdm_state s) (rpcd_running s) (net_device_state s) (clock_reads s) (Datatypes.S (writes s))).

Section operations.
Context `{MdmCli} (clock : nat -> timespec) (write_ok : nat -> bool).

Definition read_clock : H_ timespec :=
  let* s := get in next_read ;; ret (clock (clock_reads s)).

(** [crm_file_write]: 0, or -1. *)
Definition write_file (out : bool -> hal_out) : H_ Z :=
  let* s := get in
  next_write ;;
  emit (out (write_ok (writes s))) ;;
  ret (if write_ok (writes s) then 0 else -1).

(** ** modem.c *)

Definition crm_hal_start_modem : H_ Z := write_file (WriteCtrl "1").
Definition crm_hal_stop_modem : H_ Z := write_file (WriteCtrl "0").

(** libs/utils/src/file.c, [crm_file_read], for a file that is opened, read in
    one go and closed ([None]: one of the three fails). *)
Definition crm_file_read (content : option string) (size : nat) : H_ (option string) :=
  match content with
  | None => ret None
  | Some v =>
      DASSERT "value truncated. buffer too small." (String.length v <? size)%nat ;;
      ret (if (0 <? String.length v)%nat then Some (c_str v) else None)
  end.

Definition get_mdm_state_from_sysfs (content : option string) : H_ Z :=
  let* r := crm_file_read content 15 in
  match r with
  | None => DASSERT "Failed to read SYSFS modem state value" false ;; ret (-1)
  | Some tmp =>
      if strcasestr tmp "trap" then ret EV_MDM_TRAP
      else if strcasestr tmp "turning_on" || strcasestr tmp "shutting_down" then ret (-1)
      else if strcasestr tmp "on" then ret EV_MDM_ON
      else if strcasestr tmp "off" then ret EV_MDM_OFF
      else if strcasestr tmp "verify-fail" then ret EV_MDM_FW_FAIL
      else DASSERT "unknown sysfs value" false ;; ret (-1)
  end.

(** What the socket of kernel events gives: an error flag, nothing, or a
    datagram, of which [recv] keeps at most [RECV_BUFFER] bytes. *)
Inductive uevent : Type :=
| UeventError
| UeventNothing
| UeventData (datagram : string).

(** [tmp] has [RECV_BUFFER] bytes, and [tmp[len]] is written. *)
Definition is_modem_event (u : uevent) : H_ bool :=
  match u with
  | UeventError | UeventNothing => ret false
  | UeventData d =>
      let tmp := String.substring 0 (Z.to_nat RECV_BUFFER) d in
      if (0 <? String.length tmp)%nat then
        (if (String.length tmp <? Z.to_nat RECV_BUFFER)%nat then ret tt
         else fail (Undefined "write past the end of tmp")) ;;
        gets (fun s => bool_decide (c_str tmp = uevent_vmodem s))
      else ret false
  end.

Definition crm_hal_get_mdm_state (u : uevent) (sysfs : option string) : H_ Z :=
  let* b := is_modem_event u in
  if b then get_mdm_state_from_sysfs sysfs else ret (-1).

(** The turns of the loop of [crm_hal_init_modem]: the timeout of [poll], an
    event, or another return of [poll]. *)
Inductive init_poll : Type :=
| InitTimeout
| InitUevent (u : uevent) (sysfs : option string)
| InitOther.

(** The loop; [Stuck] when the turns given do not reach its end. *)
Fixpoint init_modem_loop (stop_at : timespec) (l : list init_poll) : H_ unit :=
  let* now := read_clock in
  if 0 <? crm_time_get_remain_ms now stop_at then
    match l with
    | [] => fail (Stuck "crm_hal_init_modem")
    | InitTimeout :: _ => ret tt
    | InitOther :: l' => init_modem_loop stop_at l'
    | InitUevent u sysfs :: l' =>
        let* evt := crm_hal_get_mdm_state u sysfs in
        if negb (evt =? -1) then
          set_mdm_state evt ;;
          if (evt =? EV_MDM_OFF) || (evt =? EV_MDM_TRAP) then ret tt
          else init_modem_loop stop_at l'
        else init_modem_loop stop_at l'
    end
  else ret tt.

Definition crm_hal_init_modem (force_stop : bool) (sysfs : option string) (l : list init_poll) : H_ unit :=
  let* s := get in
  when (silent_reset_enabled s)
    (let* r := write_file (WriteDump "set_coredump_config silent_reset=1") in
     ASSERT "crm_file_write(i_ctx->dump_node) == 0" (r =? 0)) ;;
  let* st := get_mdm_state_from_sysfs sysfs in
  set_mdm_state st ;;
  when (force_stop || negb (support_mdm_up_on_start s) || (st =? EV_MDM_TRAP) || (st =? EV_MDM_FW_FAIL)
        || (st =? -1))
    (let* r := crm_hal_stop_modem in
     DASSERT "Failed to write" (r =? 0) ;;
     set_mdm_state EV_MDM_OFF ;;
     let* now := read_clock in
     init_modem_loop (crm_time_add_ms now TIMEOUT_MDM_OFF) l).

(** ** rpcd.c *)

Definition service (key : string) : H_ unit := emit (SetProperty key "rpc-daemon").

Definition crm_hal_rpcd_init : H_ unit :=
  service "ctl.stop" ;;
  set_rpcd_running false ;;
  emit (Unlink (CRM_HAL_RPCD_STATE_FOLDER +:+ "/" +:+ CRM_HAL_RPCD_STATE_FILE_STARTED)) ;;
  emit (Unlink (CRM_HAL_RPCD_STATE_FOLDER +:+ "/" +:+ CRM_HAL_RPCD_STATE_FILE_STOPPED)).

Definition crm_hal_rpcd_start : H_ unit :=
  let* s := get in
  ASSERT "i_ctx->rpcd_running == false" (negb (rpcd_running s)) ;;
  set_rpcd_running true ;;
  service "ctl.start".

Definition crm_hal_rpcd_stop : H_ unit :=
  let* s := get in
  ASSERT "i_ctx->rpcd_running == true" (rpcd_running s) ;;
  set_rpcd_running false ;;
  service "ctl.stop".

(** The loop over the files reported in one read, [fsm_evt] being the event so
    far; an event without a name is the empty string. *)
Fixpoint rpcd_event_loop (names : list string) (fsm_evt : Z) : H_ Z :=
  match names with
  | [] => ret fsm_evt
  | name :: names' =>
      let found (evt : Z) :=
        ASSERT "fsm_evt == -1" (fsm_evt =? -1) ;;
        let path := CRM_HAL_RPCD_STATE_FOLDER +:+ "/" +:+ name in
        ASSERT "len >= 0 && len < sizeof(name_buf)" (Z.of_nat (String.length path) <? MAX_WATCHED_PATH) ;;
        emit (Unlink path) ;;
        rpcd_event_loop names' evt in
      if bool_decide (name = CRM_HAL_RPCD_STATE_FILE_STOPPED) then found EV_RPC_DEAD
      else if bool_decide (name = CRM_HAL_RPCD_STATE_FILE_STARTED) then found EV_RPC_RUN
      else rpcd_event_loop names' fsm_evt
  end.

Definition crm_hal_rpcd_event (names : list string) : H_ Z :=
  DASSERT "error" (negb (bool_decide (names = []))) ;;
  rpcd_event_loop names (-1).

(** ** fsm_hal.c *)

Definition notify_hal (type : crm_hal_evt_type) (nodes : string) (dbg : option mdm_cli_dbg_info) : H_ unit :=
  emit (NotifyHalEvent (mk_hal_event (mk_hal_evt type nodes) dbg)).

Definition notify_ctrl_event_only (evt : crm_hal_evt_type) : H_ unit := notify_hal evt "" None.

Definition timer_start (ms : Z) : H_ unit :=
  let* s := get in
  ASSERT "i_ctx->timer_armed == false" (negb (timer_armed s)) ;;
  let* now := read_clock in
  set_timer true (crm_time_add_ms now ms).

Definition get_timeout : H_ Z :=
  let* s := get in
  if negb (timer_armed s) then ret (-1)
  else let* now := read_clock in ret (crm_time_get_remain_ms now (timer_end s)).

Definition notify_run (p : unit) : H_ Z :=
  notify_hal HAL_MDM_RUN "" None ;;
  let* s := get in
  when (negb (bool_decide (String.get 0 (net_device_state s) = Some "1"%char)))
    (emit (SetProperty "system.net_device.state" "1") ;; set_net_device_state "1") ;;
  ret ST_RUN.

Definition notify_flash (p : unit) : H_ Z :=
  notify_ctrl_event_only HAL_MDM_BUSY ;;
  let* s := get in
  notify_hal HAL_MDM_FLASH (snprintf_s 128 (flash_node s)) None ;;
  ret ST_OFF.

Definition notify_off (p : unit) : H_ Z :=
  notify_ctrl_event_only HAL_MDM_BUSY ;;
  notify_ctrl_event_only HAL_MDM_OFF ;;
  ret ST_OFF.

Definition notify_off_only (p : unit) : H_ Z :=
  notify_ctrl_event_only HAL_MDM_OFF ;;
  ret ST_OFF.

Definition notify_off_or_flash (p : unit) : H_ Z :=
  let* s := get in
  ASSERT "i_ctx->mdm_state == EV_MDM_OFF" (mdm_state s =? EV_MDM_OFF) ;;
  if stopping s then set_stopping false ;; notify_off p
  else notify_flash p.

Definition notify_need_reset (dbg : mdm_cli_dbg_info) : H_ Z :=
  notify_ctrl_event_only HAL_MDM_BUSY ;;
  notify_hal HAL_MDM_NEED_RESET "" (Some dbg) ;;
  let* s := get in
  ret (if EV_MDM_OFF =? mdm_state s then ST_OFF else ST_NEED_RESETTING).

Definition dbg_self_reset : mdm_cli_dbg_info :=
  mk_dbg DBG_TYPE_SELF_RESET DBG_DEFAULT_LOG_SIZE DBG_DEFAULT_NO_LOG DBG_DEFAULT_NO_LOG [].
Definition dbg_error (data : string) : mdm_cli_dbg_info :=
  mk_dbg DBG_TYPE_ERROR DBG_DEFAULT_LOG_SIZE DBG_DEFAULT_NO_LOG DBG_DEFAULT_NO_LOG [data].

Definition self_reset (p : unit) : H_ Z :=
  crm_hal_stop_modem ;;
  notify_need_reset dbg_self_reset.

Definition notify_trap_evt (p : unit) : H_ Z :=
  let* s := get in
  if dump_enabled s then
    notify_ctrl_event_only HAL_MDM_BUSY ;;
    notify_hal HAL_MDM_DUMP (snprintf_s 128 (dump_node s)) None ;;
    ret ST_NEED_RESETTING
  else notify_need_reset dbg_self_reset.

Definition notify_fw_failure (p : unit) : H_ Z :=
  notify_ctrl_event_only HAL_MDM_BUSY ;;
  notify_hal HAL_MDM_UNRESPONSIVE ""
    (Some (mk_dbg DBG_TYPE_FW_FAILURE DBG_DEFAULT_LOG_SIZE DBG_DEFAULT_NO_LOG DBG_DEFAULT_NO_LOG
             ["firmware is corrupted"])) ;;
  ret ST_OFF.

Definition notify_rpc_dead (p : unit) : H_ Z := notify_need_reset (dbg_error "RPC dead").
Definition notify_timeout (p : unit) : H_ Z := notify_need_reset (dbg_error "HAL timeout").

Definition stop_mdm (stopping : bool) : H_ Z :=
  let* s := get in
  if EV_MDM_OFF =? mdm_state s then ret ST_OFF else
  let* r := crm_hal_stop_modem in
  if r =? 0 then
    timer_start TIMEOUT_MDM_OFF ;;
    set_stopping stopping ;;
    ret ST_STOPPING
  else ret (-2).

Definition request_stop (p : unit) : H_ Z := stop_mdm true.
Definition request_reset (p : unit) : H_ Z := stop_mdm false.

Definition start_ping (p : unit) : H_ Z :=
  let* s := get in
  ASSERT "i_ctx->thread_ping == NULL" (negb (thread_ping s)) ;;
  set_thread_ping true ;;
  emit PingStart ;;
  ret ST_PINGING.

Definition request_boot (p : unit) : H_ Z :=
  let* s := get in
  if secvm_flash s then
    if mdm_state s =? EV_MDM_ON then start_ping p
    else timer_start TIMEOUT_MDM_ON ;; ret ST_BOOTING
  else
    let* r := crm_hal_start_modem in
    if r =? 0 then timer_start TIMEOUT_MDM_ON ;; ret ST_BOOTING
    else ret (-2).

Definition modem_on (p : unit) : H_ Z :=
  let* s := get in
  ASSERT "i_ctx->secvm_flash" (secvm_flash s) ;;
  ret (-1).

Definition reject (p : unit) : H_ Z :=
  DASSERT "Control request during modem transition. There is an error in control FSM" false ;;
  ret (-2).

Definition assert (p : unit) : H_ Z := ASSERT "0" false ;; ret (-1).

Definition start_rpcd (p : unit) : H_ Z :=
  crm_hal_rpcd_start ;;
  timer_start TIMEOUT_RPCD_START ;;
  ret ST_WAITING_RPC.

(** The timer of the state that is left. *)
Definition stop_timer : H_ unit :=
  let* s := get in
  ASSERT "i_ctx->timer_armed == true" (timer_armed s) ;;
  set_timer false (timer_end s).

Definition state_trans (prev_state new_state evt : Z) (p : unit) : H_ unit :=
  if (prev_state =? ST_STOPPING) || (prev_state =? ST_BOOTING) then stop_timer
  else if prev_state =? ST_PINGING then
    let* s := get in
    when (thread_ping s) (emit PingDispose ;; set_thread_ping false)
  else if prev_state =? ST_RUN then crm_hal_rpcd_stop
  else if prev_state =? ST_WAITING_RPC then
    stop_timer ;;
    when (negb (new_state =? ST_RUN)) crm_hal_rpcd_stop
  else ret tt.

#[local] Abbreviation cell := (crm_fsm_ops crm_hal_ctx_internal hal_out unit).
Definition keep (f : unit -> H_ Z) : cell := mk_op (-1) (Some f).
Definition none : cell := mk_op (-1) None.

Definition g_fsm_rows : list (list cell) :=
  [ (* ST_INITIAL         ST_OFF                ST_BOOTING              ST_PINGING            ST_WAITING_RPC        ST_RUN                ST_STOPPING               ST_NEED_RESETTING *)
   [keep assert;          keep notify_flash;    keep reject;            keep reject;          keep reject;          keep reject;          keep reject;              keep reject];
   [keep assert;          keep request_boot;    keep reject;            keep reject;          keep reject;          keep reject;          keep reject;              keep reject];
   [keep assert;          keep notify_off;      keep reject;            keep reject;          keep reject;          keep request_stop;    keep reject;              keep request_stop];
   [keep assert;          keep notify_flash;    keep reject;            keep reject;          keep reject;          keep request_reset;   keep reject;              keep request_reset];
   [keep assert;          keep assert;          keep assert;            keep assert;          keep assert;          keep assert;          keep assert;              keep assert];
   [keep notify_off_only; keep assert;          keep self_reset;        keep self_reset;      keep self_reset;      keep self_reset;      keep notify_off_or_flash; keep assert];
   [keep start_ping;      keep modem_on;        keep start_ping;        keep assert;          keep assert;          keep assert;          keep assert;              keep assert];
   [keep assert;          keep notify_trap_evt; keep notify_trap_evt;   keep notify_trap_evt; keep notify_trap_evt; keep notify_trap_evt; keep notify_trap_evt;     keep notify_trap_evt];
   [keep assert;          keep assert;          keep notify_fw_failure; keep assert;          keep assert;          keep assert;          keep assert;              keep assert];
   [keep assert;          keep assert;          keep assert;            keep start_rpcd;      keep assert;          keep assert;          keep assert;              keep assert];
   [keep assert;          keep assert;          keep notify_timeout;    keep notify_timeout;  keep notify_timeout;  keep assert;          keep assert;              keep assert];
   [keep assert;          none;                 none;                   none;                 keep notify_rpc_dead; keep notify_rpc_dead; none;                     none];
   [keep assert;          keep assert;          keep assert;            keep assert;          keep notify_run;      keep assert;          keep assert;              keep assert]].

Definition g_fsm_array : list cell := concat g_fsm_rows.

Definition hal_cfg : fsm_cfg crm_hal_ctx_internal hal_out unit :=
  mk_cfg g_fsm_array EV_NUM ST_NUM None (Some state_trans) request_stop "HAL" get_state_txt get_event_txt.

(** ** The event loop *)

#[local] Abbreviation F := (fsm_st crm_hal_ctx_internal).

(** What [poll] reports, the first ready descriptor only: the others are
    reported again by the next turn.  [PollNothing]: [poll] has failed or a
    signal has interrupted it, and no descriptor is ready. *)
Inductive poll_result : Type :=
| PollError
| PollTimeout
| PollIpc (msgs : list Z)
| PollUevent (u : uevent) (sysfs : option string)
| PollPing (msgs : list Z)
| PollRpcd (names : list string)
| PollNothing.

Definition notify (evt : Z) : M F hal_out unit := notify_event hal_cfg evt tt.

(** The [while (get_msg)] loop of the requests. *)
Fixpoint handle_requests (msgs : list Z) (running : bool) : M F hal_out bool :=
  match msgs with
  | [] => ret running
  | scalar :: msgs' =>
      if scalar =? -1 then handle_requests msgs' false
      else notify scalar ;; handle_requests msgs' running
  end.

(** The [while (get_msg)] loop of the ping thread. *)
Fixpoint ping_event (msgs : list Z) (evt : Z) : M F hal_out Z :=
  match msgs with
  | [] => ret evt
  | scalar :: msgs' => ASSERT "evt == -1" (evt =? -1) ;; ping_event msgs' scalar
  end.

Definition loop_turn (i : poll_result) : M F hal_out bool :=
  on_param get_timeout ;;
  match i with
  | PollError => DASSERT "error on fd" false ;; ret true
  | PollTimeout =>
      let* f := get in
      ASSERT "i_ctx->timer_armed" (timer_armed (fsm_param f)) ;;
      notify EV_TIMEOUT ;; ret true
  | PollIpc msgs => handle_requests msgs true
  | PollUevent u sysfs =>
      let* evt := on_param (crm_hal_get_mdm_state u sysfs) in
      when (negb (evt =? -1)) (on_param (set_mdm_state evt) ;; notify evt) ;;
      ret true
  | PollPing msgs =>
      let* f := get in
      ASSERT "i_ctx->thread_ping != NULL" (thread_ping (fsm_param f)) ;;
      let* evt := ping_event msgs (-1) in
      on_param (emit PingDispose ;; set_thread_ping false) ;;
      notify evt ;; ret true
  | PollRpcd names =>
      let* evt := on_param (crm_hal_rpcd_event names) in
      when (negb (evt =? -1)) (notify evt) ;;
      ret true
  | PollNothing => ASSERT "0" false ;; ret true
  end.

Fixpoint loop_turns (l : list poll_result) : M F hal_out bool :=
  match l with
  | [] => ret true
  | i :: l' =>
      let* running := loop_turn i in
      if running then loop_turns l' else ret false
  end.

(** [crm_hal_sofia_fsm] up to the loop: [first_start] is the property as it is
    read, ["1"] by default. *)
Definition fsm_start (first_start : string) (sysfs : option string) (init : list init_poll) : M F hal_out unit :=
  let first := bool_decide (String.get 0 first_start = Some "1"%char) in
  on_param (when first (emit (SetProperty "sys.crm@.first_start" "0")) ;;
            crm_hal_init_modem (negb first) sysfs init ;;
            crm_hal_rpcd_init) ;;
  let* f := get in
  let st := mdm_state (fsm_param f) in
  ASSERT "i_ctx->mdm_state == EV_MDM_OFF || i_ctx->mdm_state == EV_MDM_ON"
    ((st =? EV_MDM_OFF) || (st =? EV_MDM_ON)) ;;
  notify st.

Definition crm_hal_sofia_fsm (first_start : string) (sysfs : option string) (init : list init_poll)
    (l : list poll_result) (s : crm_hal_ctx_internal) : outcome F hal_out bool :=
  (fsm_start first_start sysfs init ;; loop_turns l) (mk_fsm_st ST_INITIAL s).

End operations.

(** ** init.c *)

(** The configuration group [.hal] ([None]: a key that is absent or of another
    type). *)
Record tcs_hal : Type := mk_tcs_hal {
  group_hal : bool;
  tcs_vmodem_sysfs_mdm_state : option string;
  tcs_vmodem_sysfs_mdm_ctrl : option string;
  tcs_uevent_vmodem_filter : option string;
  tcs_ping_node : option string;
  tcs_dump_node : option string;
  tcs_sevcm_flash : option bool;
  tcs_flash_node : option string;
  tcs_uevent_host_debug_socket : option string;
  tcs_ping_timeout : option Z;
  tcs_support_modem_up_at_start : option bool;
}.

Definition not_null {A} (exp : string) (x : option A) : M unit hal_out A :=
  match x with Some v => ret v | None => fail (AssertFail exp) end.

(** The context that is created; [silent_reset] is the property as it is read,
    ["false"] by default, and [net_state] the property [net_device_state]
    stands for. *)
Definition crm_hal_init (host_debug : bool) (tcs : tcs_hal) (silent_reset net_state : string)
    : M unit hal_out crm_hal_ctx_internal :=
  ASSERT "tcs->select_group(tcs, .hal) == 0" (group_hal tcs) ;;
  not_null "i_ctx->vmodem_sysfs_mdm_state != NULL" (tcs_vmodem_sysfs_mdm_state tcs) ;;
  not_null "i_ctx->vmodem_sysfs_mdm_ctrl != NULL" (tcs_vmodem_sysfs_mdm_ctrl tcs) ;;
  let* uevent_vmodem := not_null "i_ctx->uevent_vmodem != NULL" (tcs_uevent_vmodem_filter tcs) in
  not_null "i_ctx->ping_node != NULL" (tcs_ping_node tcs) ;;
  let* dump_node := not_null "i_ctx->dump_node != NULL" (tcs_dump_node tcs) in
  DASSERT "buffer too small" (String.length dump_node <? 128)%nat ;;
  let* secvm_flash := not_null "tcs->get_bool(tcs, sevcm_flash) == 0" (tcs_sevcm_flash tcs) in
  let* flash_node :=
    (if secvm_flash then
       ASSERT "i_ctx->flash_node == NULL" (bool_decide (tcs_flash_node tcs = None)) ;; ret ""
     else
       let* n := not_null "i_ctx->flash_node != NULL" (tcs_flash_node tcs) in
       DASSERT "buffer too small" (String.length n <? 128)%nat ;; ret n) in
  when host_debug (not_null "host_dbg_socket" (tcs_uevent_host_debug_socket tcs) ;; ret tt) ;;
  let silent := bool_decide (silent_reset = "true"%string) in
  not_null "tcs->get_int(tcs, ping_timeout) == 0" (tcs_ping_timeout tcs) ;;
  let* up := not_null "tcs->get_bool(tcs, support_modem_up_at_start) == 0" (tcs_support_modem_up_at_start tcs) in
  ret (mk_hal false uevent_vmodem dump_node flash_node silent silent secvm_flash up false false
         (mk_timespec 0 0) 0 false net_state 0 0).

(** ** ping.c and the ping thread *)

(** One turn of the loop: the result of [open], of the terminal settings, of
    [crm_send_at], two readings of the clock, and whether the thread was told to
    stop during the pause. *)
Record ping_turn : Type := mk_ping {
  open_fd : Z;
  tty_ok : bool;
  at_result : Z;
  ping_now : timespec;
  pause_revents : bool;
}.

Fixpoint ping_loop (timer_end : timespec) (is_tty : bool) (l : list ping_turn) : M unit hal_out Z :=
  match l with
  | [] => fail (Stuck "crm_hal_ping_modem")
  | t :: l' =>
      let retry :=
        if crm_time_get_remain_ms (ping_now t) timer_end <=? 0 then ret (-1)
        else if pause_revents t then ret (-2)
        else ping_loop timer_end is_tty l' in
      if 0 <=? open_fd t then
        when is_tty (ASSERT "!tcgetattr && !tcsetattr" (tty_ok t)) ;;
        if at_result t =? 0 then ret (open_fd t)
        else if at_result t =? -2 then ret (-2)
        else retry
      else retry
  end.

Definition crm_hal_ping_modem (start : timespec) (ping_timeout : Z) (is_tty : bool) (l : list ping_turn)
    : M unit hal_out Z :=
  ASSERT "ping_timeout > 0" (0 <? ping_timeout) ;;
  ping_loop (crm_time_add_ms start ping_timeout) is_tty l.

(** The messages the thread sends. *)
Definition crm_hal_ping_modem_thread (start : timespec) (ping_timeout : Z) (l : list ping_turn)
    : M unit hal_out (list Z) :=
  let* fd := crm_hal_ping_modem start ping_timeout false l in
  ret (if -2 <? fd then [if fd =? -1 then EV_TIMEOUT else EV_MDM_RUN] else []).

(** ** request.c *)

Definition hal_power_on : M (ring Z) Empty_set unit := send_msg_thread EV_POWER ;; ret tt.
Definition hal_boot : M (ring Z) Empty_set unit := send_msg_thread EV_BOOT ;; ret tt.
Definition hal_shutdown : M (ring Z) Empty_set unit := send_msg_thread EV_STOP ;; ret tt.
Definition hal_reset (type : crm_hal_reset_type) : M (ring Z) Empty_set unit :=
  send_msg_thread (match type with RESET_WARM | RESET_COLD => EV_RESET | RESET_BACKUP => EV_BACKUP end) ;;
  ret tt.
