(* ===== verification/HalSofiaTheory.v ===== *)
(** * Invariant of the SoFIA HAL

    Every cell of the table of HalSofia.v is executed symbolically once,
    against one postcondition: the resources of the HAL (timer, ping thread,
    RPC daemon) follow its state, and what it reports to CTRL is exactly what is
    due. *)

From S2P Require Import Prelude Ipc Fsm Timer MdmCli Control CtrlApi HalSofia.
From Stdlib Require Import ZArith Lia Ascii.
From stdpp Require Import base tactics list strings option.

Open Scope Z_scope.
Open Scope crm_scope.

(** ** Resources and state *)

(** The states in which a timer runs, the RPC daemon is started, the modem
    is not known to be off, and an answer is due to CTRL. *)
Definition timed (st : Z) : bool := (st =? ST_BOOTING) || (st =? ST_WAITING_RPC) || (st =? ST_STOPPING).
Definition with_rpcd (st : Z) : bool := (st =? ST_WAITING_RPC) || (st =? ST_RUN).
Definition live (st : Z) : bool :=
  (st =? ST_PINGING) || (st =? ST_WAITING_RPC) || (st =? ST_RUN) || (st =? ST_STOPPING) ||
  (st =? ST_NEED_RESETTING).
Definition answering (st : Z) : bool :=
  (st =? ST_INITIAL) || (st =? ST_BOOTING) || (st =? ST_PINGING) || (st =? ST_WAITING_RPC) || (st =? ST_STOPPING).

Definition nodes_ok (s : crm_hal_ctx_internal) : Prop :=
  (String.length (flash_node s) < 128)%nat /\ (String.length (dump_node s) < 128)%nat.

Record resources (st : Z) (s : crm_hal_ctx_internal) : Prop := {
  rs_range : 0 <= st < ST_NUM;
  rs_timer : timer_armed s = timed st;
  rs_rpcd : rpcd_running s = with_rpcd st;
  rs_nodes : nodes_ok s;
}.

(** Between two turns of the loop. *)
Record hal_inv (f : fsm_st crm_hal_ctx_internal) : Prop := {
  hi_resources : resources (state f) (fsm_param f);
  hi_ping : thread_ping (fsm_param f) = (state f =? ST_PINGING);
  hi_live : live (state f) = true -> mdm_state (fsm_param f) <> EV_MDM_OFF;
  hi_started : state f <> ST_INITIAL;
}.

(** The events of the hardware, which the loop records in [mdm_state]. *)
Definition is_hw (evt : Z) : bool :=
  (evt =? EV_MDM_OFF) || (evt =? EV_MDM_ON) || (evt =? EV_MDM_TRAP) || (evt =? EV_MDM_FW_FAIL).

(** When an event is notified: the hardware state has just been updated, and
    the ping thread has been disposed of when the event comes from it. *)
Record event_pre (evt : Z) (f : fsm_st crm_hal_ctx_internal) : Prop := {
  ep_event : 0 <= evt < EV_NUM;
  ep_resources : resources (state f) (fsm_param f);
  ep_ping : thread_ping (fsm_param f) =
    (state f =? ST_PINGING) && negb ((evt =? EV_TIMEOUT) || (evt =? EV_MDM_RUN));
  ep_hw : is_hw evt = true -> mdm_state (fsm_param f) = evt;
  ep_live : is_hw evt = false -> live (state f) = true -> mdm_state (fsm_param f) <> EV_MDM_OFF;
  ep_initial : state f = ST_INITIAL -> evt = EV_MDM_OFF \/ evt = EV_MDM_ON;
}.

(** ** Reports to CTRL *)

Definition report (x : hal_out) : option hal_event :=
  match x with NotifyHalEvent ev => Some ev | _ => None end.
Definition reports (o : list hal_out) : list hal_event := omap report o.
Definition report_types (o : list hal_out) : list crm_hal_evt_type := (fun ev => evt_type (hal ev)) <$> reports o.

Definition is_busy (t : crm_hal_evt_type) : bool := match t with HAL_MDM_BUSY => true | _ => false end.

(** The answers: every report but BUSY, which only announces one. *)
Definition answers (o : list hal_out) : Z := Z.of_nat (length (List.filter (fun t => negb (is_busy t)) (report_types o))).

Definition is_request (evt : Z) : bool :=
  (evt =? EV_POWER) || (evt =? EV_BOOT) || (evt =? EV_STOP) || (evt =? EV_RESET).

(** A failure of a modem at rest. *)
Definition failure (evt st : Z) : bool :=
  (evt =? EV_MDM_TRAP) || ((st =? ST_RUN) && ((evt =? EV_MDM_OFF) || (evt =? EV_RPC_DEAD))).

Section due.
Context (write_ok : nat -> bool).

(** A boot request whose write to sysfs fails, on a modem that is off. *)
Definition lost_boot (evt : Z) (f : fsm_st crm_hal_ctx_internal) : bool :=
  (evt =? EV_BOOT) && negb (secvm_flash (fsm_param f)) && (mdm_state (fsm_param f) =? EV_MDM_OFF) &&
  negb (write_ok (writes (fsm_param f))).

(** How many answers are due by an event. *)
Definition due (evt : Z) (f : fsm_st crm_hal_ctx_internal) : Z :=
  if answering (state f) || (is_request evt && negb (lost_boot evt f)) || failure evt (state f) then 1 else 0.

End due.

Definition b2z (b : bool) : Z := if b then 1 else 0.

(** The shapes of what one event reports. *)
Definition report_shape (l : list crm_hal_evt_type) : Prop :=
  l = [] \/ l = [HAL_MDM_OFF] \/ l = [HAL_MDM_RUN] \/
  exists t, l = [HAL_MDM_BUSY; t] /\ t <> HAL_MDM_BUSY /\ t <> HAL_MDM_RUN.

(** A report CTRL accepts, with the configured node. *)
Definition report_ok (s : crm_hal_ctx_internal) (ev : hal_event) : Prop :=
  call_ok (CallHalEvent ev) /\
  nodes (hal ev) = match evt_type (hal ev) with
                   | HAL_MDM_FLASH => flash_node s
                   | HAL_MDM_DUMP => dump_node s
                   | _ => ""%string
                   end.

(** The configuration does not change. *)
Definition same_cfg (s s' : crm_hal_ctx_internal) : Prop :=
  flash_node s' = flash_node s /\ dump_node s' = dump_node s /\ dump_enabled s' = dump_enabled s /\
  secvm_flash s' = secvm_flash s /\ uevent_vmodem s' = uevent_vmodem s.

(** The aborts that would be a failure of the HAL itself. *)
Definition bad_abort (r : abort_reason) : bool :=
  match r with
  | AssertFail exp =>
      bool_decide (exp ∈ ["i_ctx->timer_armed == false"; "i_ctx->timer_armed == true";
                          "i_ctx->thread_ping == NULL"; "i_ctx->rpcd_running == false";
                          "i_ctx->rpcd_running == true"; "i_ctx->mdm_state == EV_MDM_OFF";
                          "i_ctx->state >= 0"; "i_ctx->state < i_ctx->num_states"; "evt == -1";
                          "len >= 0 && len < sizeof(name_buf)";
                          "evt < i_ctx->num_events"]%string)
  | Undefined what => bool_decide (what = "read outside the FSM array"%string)
  | _ => false
  end.
Definition allowed (r : abort_reason) : Prop := bad_abort r = false.

Record event_post (write_ok : nat -> bool) (evt : Z) (f f' : fsm_st crm_hal_ctx_internal) (o : list hal_out) : Prop := {
  ev_inv : hal_inv f';
  ev_answers : answers o + b2z (answering (state f')) = due write_ok evt f;
  ev_shape : report_shape (report_types o);
  ev_reports : Forall (report_ok (fsm_param f)) (reports o);
  ev_cfg : same_cfg (fsm_param f) (fsm_param f');
}.

Lemma substring_all s n : (String.length s <= n)%nat -> String.substring 0 n s = s.
Proof.
  revert n. induction s as [|a s IH]; intros [|n] Hn; cbn in *; try done; [lia|].
  rewrite IH by lia. done.
Qed.

Lemma snprintf_fits s : (String.length s < 128)%nat -> snprintf_s 128 s = s.
Proof. intros Hs. apply substring_all. lia. Qed.

Section cells.
Context `{MdmCli} (clock : nat -> timespec) (write_ok : nat -> bool).

(** Every event has a cell in every state. *)
Lemma hal_cell evt st : 0 <= evt < EV_NUM -> 0 <= st < ST_NUM ->
  exists row op, g_fsm_rows clock write_ok !! Z.to_nat evt = Some row /\ row !! Z.to_nat st = Some op /\
    get_op (hal_cfg clock write_ok) st evt = Some op.
Proof.
  unfold EV_NUM, ST_NUM. intros He Hs.
  assert (forall r, r ∈ g_fsm_rows clock write_ok -> length r = 8%nat) as Hlen.
  { intros r Hr. apply list_elem_of_In in Hr. cbn [g_fsm_rows In] in Hr.
    repeat (destruct Hr as [<-|Hr]; [done|]). done. }
  destruct (lookup_lt_is_Some_2 (g_fsm_rows clock write_ok) (Z.to_nat evt)) as [row Hrow].
  { change (length (g_fsm_rows clock write_ok)) with 13%nat. lia. }
  assert (length row = 8%nat) as Hl by (eapply Hlen, list_elem_of_lookup_2, Hrow).
  destruct (lookup_lt_is_Some_2 row (Z.to_nat st)) as [op Hop]; [lia|].
  exists row, op. split_and!; [done..|].
  apply (get_op_rows _ (g_fsm_rows clock write_ok) _ _ row); try done; try lia.
  intros r Hr. rewrite (Hlen r Hr). done.
Qed.

(** What has to be shown of a cell, once the stages of [notify_event] are
    peeled off. *)
Definition cell_goal (evt st : Z) (op : crm_fsm_ops crm_hal_ctx_internal hal_out unit) (s : crm_hal_ctx_internal) : Prop :=
  wp (run_op (hal_cfg clock write_ok) op st tt) (mk_fsm_st st s) allowed (fun new f1 o1 =>
    is_Some (get_state_txt new) ->
    wp (if st =? new then ret tt else state_trans st new evt tt) (fsm_param f1) allowed (fun _ s2 o2 =>
      0 <= new < ST_NUM /\ event_post write_ok evt (mk_fsm_st st s) (mk_fsm_st new s2) (o1 ++ o2))).

Lemma cell_assert evt st s : cell_goal evt st (keep assert) s.
Proof. by apply wp_run_op. Qed.

Lemma cell_reject evt st s : cell_goal evt st (keep reject) s.
Proof. by apply wp_run_op. Qed.

Ltac hal_unfold :=
  unfold notify_run, notify_flash, notify_off, notify_off_only, notify_off_or_flash, notify_need_reset, self_reset,
    notify_trap_evt, notify_fw_failure, notify_rpc_dead, notify_timeout, request_stop, request_reset, stop_mdm,
    start_ping, request_boot, modem_on, start_rpcd, crm_hal_stop_modem, crm_hal_start_modem, write_file,
    timer_start, read_clock, notify_ctrl_event_only, notify_hal, crm_hal_rpcd_start, crm_hal_rpcd_stop, service,
    set_thread_ping, set_stopping, set_timer, set_rpcd_running, set_net_device_state, next_read, next_write,
    state_trans, stop_timer in *.



(** Tests on constants. *)
Ltac closed_tests :=
  repeat match goal with
  | |- context [Z.eqb ?a ?b] =>
      let v := eval vm_compute in (Z.eqb a b) in
      match v with true => change (Z.eqb a b) with true | false => change (Z.eqb a b) with false end
  | |- context [Z.leb ?a ?b] =>
      let v := eval vm_compute in (Z.leb a b) in
      match v with true => change (Z.leb a b) with true | false => change (Z.leb a b) with false end
  end.

Ltac hal_simpl :=
  cbn -[Z.eqb Z.leb Z.ltb next_state get_state_txt snprintf_s crm_time_add_ms bool_decide];
  unfold next_state; closed_tests; cbn -[Z.eqb Z.leb Z.ltb next_state get_state_txt snprintf_s crm_time_add_ms bool_decide].


Ltac hal_run :=
  repeat (hal_simpl; first
    [ match goal with |- is_Some _ -> _ => intros ? end
    | match goal with |- context [EV_MDM_OFF =? ?m] => is_var m; destruct (EV_MDM_OFF =? m) eqn:? end
    | wp_step
    | progress hal_unfold ]).

(** The postcondition at the end of a path. *)
Ltac hal_inv_leaf :=
  split; [split; [by split; vm_compute|done|done|by split]|done| |done];
  cbn; intros; try done; bool_facts; subst; try done; try congruence; try (unfold is_hw in *; cbn in *; auto; done).

Ltac hal_answers_leaf :=
  unfold due, lost_boot; cbn [state fsm_param secvm_flash mdm_state writes];
  repeat match goal with
  | |- context [write_ok ?n] => let Hw := fresh "Hw" in destruct (write_ok n) eqn:Hw; rewrite ?Hw in *
  end; bool_facts; try reflexivity; try done;
  repeat match goal with |- context [Z.eqb ?m EV_MDM_OFF] => is_var m; destruct (Z.eqb_spec m EV_MDM_OFF) end;
  subst; try done; try congruence.

Ltac hal_shape_leaf :=
  unfold report_shape; cbn;
  first [by left | by right; left | by right; right; left | do 3 right; eexists; by split_and!].

Ltac hal_leaf :=
  first
  [ done
  | exfalso; congruence
  | exfalso; match goal with H : is_Some (get_state_txt _) |- _ => by destruct H end
  | split; [by split; vm_compute|];
    split; [hal_inv_leaf|hal_answers_leaf|hal_shape_leaf
           |rewrite ?snprintf_fits by done; cbn; repeat first [apply Forall_nil_2 | apply Forall_cons_2; [split; [cbn; by eauto|done]|]]
           |by split_and!] ].

(** A cell whose operation is executed. *)
Ltac hal_cell Hpre :=
  cbn [Z.of_nat Pos.of_succ_nat Pos.succ] in *; unfold cell_goal; apply wp_run_op;
  destruct Hpre as [_ [_ ?P1 ?P2 [?P3 ?P4]] ?P5 ?P6 ?P7 ?P8];
  match goal with s : crm_hal_ctx_internal |- _ => destruct s end; cbn in *; subst;
  try (specialize (P6 eq_refl); subst); try specialize (P7 eq_refl eq_refl);
  hal_unfold; hal_run; bool_facts; hal_leaf.

Ltac solve_cell Hpre :=
  lazymatch goal with
  | |- cell_goal _ _ (keep assert) _ => apply cell_assert
  | |- cell_goal _ _ (keep reject) _ => apply cell_reject
  | |- _ => hal_cell Hpre
  end.

Lemma hal_wp_cell_rows evt st row op s :
  g_fsm_rows clock write_ok !! evt = Some row -> row !! st = Some op ->
  event_pre (Z.of_nat evt) (mk_fsm_st (Z.of_nat st) s) ->
  cell_goal (Z.of_nat evt) (Z.of_nat st) op s.
Proof.
  intros Hrow Hop Hpre.
  do 13 (destruct evt as [|evt];
    [ cbn [lookup list_lookup g_fsm_rows] in Hrow; injection Hrow as <-;
      do 8 (destruct st as [|st];
        [ cbn [lookup list_lookup] in Hop; injection Hop as <-; solve [solve_cell Hpre] | ]);
      by destruct st
    | ]).
  by destruct evt.
Qed.


Lemma wp_no_name evt f Q :
  evt < EV_NUM -> get_event_txt evt = None -> wp (notify clock write_ok evt) f allowed Q.
Proof.
  intros He Ht. unfold notify, notify_event. apply wp_bind, wp_ASSERT.
  - intros _. apply wp_bind, wp_gets, wp_bind. cbn [Fsm.get_event_txt hal_cfg]. rewrite Ht. done.
  - intros Hc. bool_facts. cbn in Hc. lia.
Qed.

Lemma hal_state_named st : 0 <= st < ST_NUM -> is_Some (get_state_txt st).
Proof.
  unfold get_state_txt, ST_NUM. intros [H1 H2]. destruct (Z.ltb_spec st 0); [lia|].
  apply lookup_lt_is_Some_2. cbn. lia.
Qed.

Lemma wp_hal_event evt f :
  event_pre evt f -> wp (notify clock write_ok evt) f allowed (fun _ f' o => event_post write_ok evt f f' o).
Proof.
  intros Hpre. pose proof (ep_event _ _ Hpre) as He. pose proof (rs_range _ _ (ep_resources _ _ Hpre)) as Hs.
  destruct (get_event_txt evt) as [t|] eqn:Ht; [|apply wp_no_name; [lia|done]].
  destruct (hal_cell evt (state f) He Hs) as (row & op & Hrow & Hop & Hget).
  eapply wp_notify_event; [cbn; lia|cbn [Fsm.get_event_txt hal_cfg]; rewrite Ht; by eexists|by apply hal_state_named|exact Hget|].
  cbn [pre_op hal_cfg]. apply wp_ret.
  pose proof (hal_wp_cell_rows (Z.to_nat evt) (Z.to_nat (state f)) row op (fsm_param f) Hrow Hop) as Hc.
  rewrite !Z2Nat.id in Hc by lia. destruct f as [st s]. cbn [state fsm_param] in *. specialize (Hc Hpre).
  eapply wp_mono; [exact Hc|done|]. intros new f1 o1 Hn.
  split; [by right|]. exact Hn.
Qed.

End cells.

(** ** Turns of the loop *)

(** The ping thread sends one message, the requests come from request.c. *)
Definition input_ok (i : poll_result) : Prop :=
  match i with
  | PollIpc msgs => Forall (fun m => m = -1 \/ 0 <= m <= EV_BACKUP) msgs
  | PollPing msgs => (length msgs <= 1)%nat /\ Forall (fun m => m = EV_TIMEOUT \/ m = EV_MDM_RUN) msgs
  | _ => True
  end.

(** What the events of a run report, one after the other. *)
Definition shapes (l : list crm_hal_evt_type) : Prop := exists ls, l = concat ls /\ Forall report_shape ls.

Lemma shapes_nil : shapes [].
Proof. by exists []. Qed.

Lemma shapes_app l1 l2 : shapes l1 -> shapes l2 -> shapes (l1 ++ l2).
Proof.
  intros (a & -> & Ha) (b & -> & Hb). exists (a ++ b). rewrite concat_app. split; [done|by apply Forall_app].
Qed.

Lemma shapes_one l : report_shape l -> shapes l.
Proof. intros Hl. exists [l]. cbn. rewrite app_nil_r. split; [done|by apply Forall_singleton]. Qed.

Lemma reports_app o1 o2 : reports (o1 ++ o2) = reports o1 ++ reports o2.
Proof. unfold reports. by rewrite omap_app. Qed.

Lemma report_types_app o1 o2 : report_types (o1 ++ o2) = report_types o1 ++ report_types o2.
Proof. unfold report_types. by rewrite reports_app, fmap_app. Qed.

Record reported (s s' : crm_hal_ctx_internal) (o : list hal_out) : Prop := {
  rp_shapes : shapes (report_types o);
  rp_ok : Forall (report_ok s) (reports o);
  rp_cfg : same_cfg s s';
}.

Lemma reported_trans s s1 s2 o1 o2 : reported s s1 o1 -> reported s1 s2 o2 -> reported s s2 (o1 ++ o2).
Proof.
  intros [A1 A2 A3] [B1 B2 B3]. destruct A3 as (? & ? & ? & ? & ?), B3 as (? & ? & ? & ? & ?). split.
  - rewrite report_types_app. by apply shapes_app.
  - rewrite reports_app. apply Forall_app. split; [done|]. eapply List.Forall_impl; [|exact B2].
    intros ev [Hc Hn]. split; [done|]. rewrite Hn. by destruct (evt_type (hal ev)).
  - split_and!; congruence.
Qed.

Lemma reported_silent s s' o : reports o = [] -> same_cfg s s' -> reported s s' o.
Proof. intros Hr Hc. split; unfold report_types; rewrite ?Hr; [by apply shapes_nil|done|done]. Qed.

Lemma event_reported w evt f f' o : event_post w evt f f' o -> reported (fsm_param f) (fsm_param f') o.
Proof. intros [? ? Hs ? ?]. split; [by apply shapes_one|done|done]. Qed.


Section turns.
Context `{MdmCli} (clock : nat -> timespec) (write_ok : nat -> bool).
Implicit Types (f : fsm_st crm_hal_ctx_internal) (s : crm_hal_ctx_internal).

Definition turn_post f f' (o : list hal_out) : Prop := hal_inv f' /\ reported (fsm_param f) (fsm_param f') o.

(** The inputs of one event. *)
Lemma inv_event_pre evt f :
  hal_inv f -> 0 <= evt < EV_NUM -> is_hw evt = false ->
  ((evt =? EV_TIMEOUT) || (evt =? EV_MDM_RUN) = true -> state f <> ST_PINGING) -> event_pre evt f.
Proof.
  intros [Hr Hp Hl Hs] He Hh Ht. split; try done.
  - rewrite Hp. destruct (Z.eqb_spec (state f) ST_PINGING) as [Hst|]; [|done]. cbn.
    destruct (_ || _); [|done]. by destruct Ht.
  - by rewrite Hh.
Qed.

Lemma inv_hw_pre evt st s :
  hal_inv (mk_fsm_st st s) -> is_hw evt = true ->
  wp (set_mdm_state evt) s allowed (fun _ s' o => event_pre evt (mk_fsm_st st s') /\ o = [] /\ same_cfg s s').
Proof.
  intros [[Hr Ht Hd Hn] Hp Hl Hs] Hh. apply wp_modify. split_and!; try done. unfold is_hw in Hh.
  assert (evt = EV_MDM_OFF \/ evt = EV_MDM_ON \/ evt = EV_MDM_TRAP \/ evt = EV_MDM_FW_FAIL) as He.
  { unfold EV_MDM_OFF, EV_MDM_ON, EV_MDM_TRAP, EV_MDM_FW_FAIL in *.
    rewrite !orb_true_iff, !Z.eqb_eq in Hh. tauto. }
  split; cbn in *.
  - unfold EV_NUM. destruct He as [->|[->|[->| ->]]]; split; done.
  - by split.
  - rewrite Hp. destruct He as [->|[->|[->| ->]]]; by rewrite andb_true_r.
  - done.
  - intros Hh'. destruct He as [->|[->|[->| ->]]]; done.
  - done.
Qed.

Lemma hal_wp_get_timeout f Q :
  hal_inv f ->
  (forall f', hal_inv f' -> same_cfg (fsm_param f) (fsm_param f') -> Q f' []) ->
  wp (on_param (get_timeout clock)) f allowed (fun _ f' o => Q f' o).
Proof.
  intros Hi HQ. apply wp_on_param. unfold get_timeout, read_clock, next_read. destruct f as [st s].
  apply wp_bind, wp_get. cbn. destruct (negb (timer_armed s)).
  - apply wp_ret. by apply HQ.
  - apply wp_bind, wp_bind, wp_get, wp_bind, wp_modify, wp_ret, wp_ret. cbn. apply HQ; [|done].
    by destruct Hi as [[] ? ? ?].
Qed.

Lemma wp_sysfs content s :
  wp (get_mdm_state_from_sysfs content) s allowed (fun evt s' o =>
    s' = s /\ o = [] /\ (evt = -1 \/ is_hw evt = true)).
Proof.
  unfold get_mdm_state_from_sysfs, crm_file_read. apply wp_bind. destruct content as [v|]; [|by apply wp_ret].
  apply wp_bind, wp_DASSERT; [intros _|done]. apply wp_ret. destruct (_ <? _)%nat; [|done].
  repeat (destruct (strcasestr _ _); [apply wp_ret; by auto|]). cbn [orb].
  repeat (destruct (strcasestr _ _); [apply wp_ret; by auto|]). done.
Qed.

Lemma wp_get_mdm_state u content s :
  wp (crm_hal_get_mdm_state u content) s allowed (fun evt s' o =>
    s' = s /\ o = [] /\ (evt = -1 \/ is_hw evt = true)).
Proof.
  unfold crm_hal_get_mdm_state, is_modem_event. apply wp_bind. destruct u as [| |d].
  1, 2: by apply wp_ret, wp_ret; auto.
  destruct (0 <? _)%nat; [|by apply wp_ret, wp_ret; auto].
  apply wp_bind. destruct (_ <? Z.to_nat RECV_BUFFER)%nat; [|done].
  apply wp_ret, wp_gets. destruct (bool_decide _); [|by apply wp_ret; auto]. by apply wp_sysfs.
Qed.

Lemma wp_rpcd_loop names evt s :
  evt = -1 \/ evt = EV_RPC_DEAD \/ evt = EV_RPC_RUN ->
  wp (rpcd_event_loop names evt) s allowed (fun r s' o =>
    s' = s /\ reports o = [] /\ (r = -1 \/ r = EV_RPC_DEAD \/ r = EV_RPC_RUN)).
Proof.
  revert evt s. induction names as [|n names IH]; intros evt s He; cbn [rpcd_event_loop]; [by apply wp_ret|].
  destruct (bool_decide_reflect (n = CRM_HAL_RPCD_STATE_FILE_STOPPED)) as [->|_];
    [|destruct (bool_decide_reflect (n = CRM_HAL_RPCD_STATE_FILE_STARTED)) as [->|_]; [|by apply IH]].
  all: apply wp_bind, wp_ASSERT; [intros _|done].
  all: apply wp_bind, wp_ASSERT; [intros _|done].
  all: apply wp_bind, wp_emit; eapply wp_mono; [by apply IH; auto|done|].
  all: intros r s' o (-> & Hr & Hv); done.
Qed.


Lemma wp_notify_turn evt f :
  event_pre evt f -> wp (notify clock write_ok evt) f allowed (fun _ f' o => turn_post f f' o).
Proof.
  intros Hp. eapply wp_mono; [by apply wp_hal_event|done|]. intros [] f' o He.
  split; [apply He|by eapply event_reported].
Qed.

Lemma hal_turn_post_refl f : hal_inv f -> turn_post f f [].
Proof. intros Hi. split; [done|]. by apply reported_silent. Qed.

Lemma hal_turn_post_trans f f1 f2 o1 o2 : turn_post f f1 o1 -> turn_post f1 f2 o2 -> turn_post f f2 (o1 ++ o2).
Proof. intros [_ A] [B1 B2]. split; [done|]. by eapply reported_trans. Qed.

Lemma wp_handle_requests msgs b f :
  hal_inv f -> Forall (fun m => m = -1 \/ 0 <= m <= EV_BACKUP) msgs ->
  wp (handle_requests clock write_ok msgs b) f allowed (fun _ f' o => turn_post f f' o).
Proof.
  intros Hi Hm. revert b f Hi. induction Hm as [|m msgs Hm _ IH]; intros b f Hi; cbn [handle_requests].
  { apply wp_ret. by apply hal_turn_post_refl. }
  destruct (Z.eqb_spec m (-1)) as [->|Hne]; [by apply IH|]. destruct Hm as [|Hm]; [done|].
  unfold EV_BACKUP in Hm. apply wp_bind. eapply wp_mono; [apply wp_notify_turn|done|].
  - apply inv_event_pre; [done|unfold EV_NUM; lia| |].
    + unfold is_hw, EV_MDM_OFF, EV_MDM_ON, EV_MDM_TRAP, EV_MDM_FW_FAIL.
      rewrite !orb_false_iff, !Z.eqb_neq. lia.
    + unfold EV_TIMEOUT, EV_MDM_RUN. rewrite orb_true_iff, !Z.eqb_eq. lia.
  - intros [] f1 o1 H1. eapply wp_mono; [apply IH, H1|done|]. intros ? f2 o2 H2. by eapply hal_turn_post_trans.
Qed.

Lemma wp_ping_event msgs f :
  (length msgs <= 1)%nat -> Forall (fun m => m = EV_TIMEOUT \/ m = EV_MDM_RUN) msgs ->
  wp (ping_event msgs (-1)) f allowed (fun evt f' o =>
    f' = f /\ o = [] /\ (evt = -1 \/ evt = EV_TIMEOUT \/ evt = EV_MDM_RUN)).
Proof.
  intros Hl Hm. destruct msgs as [|m [|? ?]]; cbn [ping_event]; [by apply wp_ret; auto| |cbn in Hl; lia].
  apply wp_bind, wp_ASSERT; [intros _|done]. apply wp_ret. apply Forall_cons_1 in Hm as [? _]. auto.
Qed.

Lemma wp_uevent_turn u sysfs f :
  hal_inv f ->
  wp (let* evt := on_param (crm_hal_get_mdm_state u sysfs) in
      when (negb (evt =? -1)) (on_param (set_mdm_state evt) ;; notify clock write_ok evt) ;; ret true)
    f allowed (fun _ f' o => turn_post f f' o).
Proof.
  intros Hi. destruct f as [st s]. apply wp_bind, wp_on_param. eapply wp_mono; [apply wp_get_mdm_state|done|].
  intros evt ? ? (-> & -> & He). cbn. apply wp_bind, wp_when; intros Hne; bool_facts.
  - destruct He as [|He]; [done|]. apply wp_bind, wp_on_param. eapply wp_mono; [by apply inv_hw_pre|done|].
    intros [] s1 o1 (Hp & -> & Hc). cbn. eapply wp_mono; [by apply wp_notify_turn|done|].
    intros [] f2 o2 [H1 H2]. apply wp_ret. rewrite app_nil_r. split; [done|].
    eapply (reported_trans _ s1 _ []); [by apply reported_silent|done].
  - apply wp_ret. by apply hal_turn_post_refl.
Qed.

Lemma wp_ping_turn msgs f :
  hal_inv f -> input_ok (PollPing msgs) ->
  wp (let* f := get in
      ASSERT "i_ctx->thread_ping != NULL" (thread_ping (fsm_param f)) ;;
      let* evt := ping_event msgs (-1) in
      on_param (emit PingDispose ;; set_thread_ping false) ;;
      notify clock write_ok evt ;; ret true) f allowed (fun _ f' o => turn_post f f' o).
Proof.
  intros [[Hr Ht Hd Hn] Hp Hl Hs] [Hlen Hm]. apply wp_bind, wp_get, wp_bind, wp_ASSERT; [intros Hth|done].
  apply wp_bind. eapply wp_mono; [by apply wp_ping_event|done|]. intros evt ? ? (-> & -> & He).
  destruct f as [st s]. cbn in *. rewrite Hth in Hp. symmetry in Hp. bool_facts. subst st.
  apply wp_bind, wp_on_param, wp_bind, wp_emit, wp_modify. cbn. apply wp_bind.
  destruct (decide (evt = -1)) as [->|Hne]; [by apply wp_no_name|].
  eapply wp_mono; [apply wp_notify_turn|done|].
  - destruct He as [?|[->| ->]]; [done|split; try done; by split..].
  - intros [] f1 o1 [H1 H2]. apply wp_ret. rewrite app_nil_r. split; [done|].
    by eapply (reported_trans _ _ _ [PingDispose]); [apply reported_silent|exact H2].
Qed.

Lemma wp_rpcd_turn names f :
  hal_inv f ->
  wp (let* evt := on_param (crm_hal_rpcd_event names) in
      when (negb (evt =? -1)) (notify clock write_ok evt) ;; ret true) f allowed (fun _ f' o => turn_post f f' o).
Proof.
  intros Hi. destruct f as [st s]. unfold crm_hal_rpcd_event.
  apply wp_bind, wp_on_param, wp_bind, wp_DASSERT; [intros _|done].
  eapply wp_mono; [apply wp_rpcd_loop; by left|done|]. intros evt ? o (-> & Hr & He). cbn [app state].
  assert (turn_post (mk_fsm_st st s) (mk_fsm_st st s) o) as H0 by (split; [done|by apply reported_silent]).
  apply wp_bind, wp_when; intros Hne; bool_facts.
  - eapply wp_mono; [apply wp_notify_turn|done|].
    + apply inv_event_pre; [done|destruct He as [?|[->| ->]]; [done|by split; vm_compute..]| |];
        by destruct He as [?|[->| ->]].
    + intros [] f2 o2 H2. apply wp_ret. rewrite app_nil_r. by eapply hal_turn_post_trans.
  - apply wp_ret. by rewrite app_nil_r.
Qed.

Lemma wp_loop_turn i f :
  hal_inv f -> input_ok i -> wp (loop_turn clock write_ok i) f allowed (fun _ f' o => turn_post f f' o).
Proof.
  intros Hi Hin. unfold loop_turn. apply wp_bind. apply hal_wp_get_timeout; [done|]. intros f1 Hi1 Hc. cbn [app].
  eapply (wp_mono _ _ allowed _ (fun _ f' o => turn_post f1 f' o)); [|done|].
  - destruct i as [| |msgs|u sysfs|msgs|names|].
    + done.
    + apply wp_bind, wp_get, wp_bind, wp_ASSERT; [intros Ha|done]. apply wp_bind.
      eapply wp_mono; [apply wp_notify_turn|done|].
      * apply inv_event_pre; [done|by split; vm_compute|done|]. intros _ Hst.
        destruct Hi1 as [[_ Ht _ _] _ _ _]. by rewrite Ha, Hst in Ht.
      * intros [] f2 o2 H2. apply wp_ret. by rewrite app_nil_r.
    + by apply wp_handle_requests.
    + by apply wp_uevent_turn.
    + by apply wp_ping_turn.
    + by apply wp_rpcd_turn.
    + done.
  - intros _ f2 o [H1 H2]. split; [done|]. by eapply (reported_trans _ _ _ []); [apply reported_silent|exact H2].
Qed.

Lemma wp_loop_turns l f :
  hal_inv f -> Forall input_ok l -> wp (loop_turns clock write_ok l) f allowed (fun _ f' o => turn_post f f' o).
Proof.
  intros Hi Hl. revert f Hi. induction Hl as [|i l Hin _ IH]; intros f Hi; cbn [loop_turns].
  { apply wp_ret. by apply hal_turn_post_refl. }
  apply wp_bind. eapply wp_mono; [by apply wp_loop_turn|done|]. intros [] f1 o1 H1.
  - eapply wp_mono; [apply IH, H1|done|]. intros ? f2 o2 H2. by eapply hal_turn_post_trans.
  - apply wp_ret. by rewrite app_nil_r.
Qed.

End turns.

(** ** The start of the thread *)

Section start.
Context `{MdmCli} (clock : nat -> timespec) (write_ok : nat -> bool).
Implicit Types (s : crm_hal_ctx_internal).

(** The context as [crm_hal_init] leaves it. *)
Definition fresh_hal s : Prop := thread_ping s = false /\ timer_armed s = false /\ nodes_ok s.

Definition quiet s s' : Prop :=
  same_cfg s s' /\ thread_ping s' = thread_ping s /\ timer_armed s' = timer_armed s.

Lemma quiet_trans s s1 s2 : quiet s s1 -> quiet s1 s2 -> quiet s s2.
Proof.
  intros ((? & ? & ? & ? & ?) & ? & ?) ((? & ? & ? & ? & ?) & ? & ?). unfold quiet, same_cfg. split_and!; congruence.
Qed.

#[local] Abbreviation Q0 s := (fun (_ : unit) s' (o : list hal_out) => quiet s s' /\ reports o = []).

Lemma wp_quiet_bind {A} (m : H_ A) k s (R : A -> Prop) :
  wp m s allowed (fun a s' o => quiet s s' /\ reports o = [] /\ R a) ->
  (forall a s1, quiet s s1 -> R a -> wp (k a) s1 allowed (Q0 s1)) ->
  wp (bind m k) s allowed (Q0 s).
Proof.
  intros Hm Hk. apply wp_bind. eapply wp_mono; [exact Hm|done|]. intros a s1 o1 (H1 & H2 & H3).
  eapply wp_mono; [by apply Hk|done|]. intros [] s2 o2 [H4 H5].
  split; [by eapply quiet_trans|]. by rewrite reports_app, H2, H5.
Qed.

Lemma wp_write_quiet out s :
  (forall b, report (out b) = None) ->
  wp (write_file write_ok out) s allowed (fun _ s' o => quiet s s' /\ reports o = [] /\ True).
Proof.
  intros Ho. unfold write_file, next_write. apply wp_bind, wp_get, wp_bind, wp_modify, wp_bind, wp_emit, wp_ret.
  cbn. split_and!; try done. unfold reports. cbn. by rewrite Ho.
Qed.

Lemma wp_clock_quiet s : wp (read_clock clock) s allowed (fun _ s' o => quiet s s' /\ reports o = [] /\ True).
Proof. by apply wp_bind, wp_get, wp_bind, wp_modify, wp_ret. Qed.

Lemma wp_set_mdm_quiet z s : wp (set_mdm_state z) s allowed (fun _ s' o => quiet s s' /\ reports o = [] /\ True).
Proof. by apply wp_modify. Qed.

Lemma quiet_refl s : quiet s s.
Proof. by unfold quiet, same_cfg. Qed.

Lemma wp_init_loop stop_at l s : wp (init_modem_loop clock stop_at l) s allowed (Q0 s).
Proof.
  revert s. induction l as [|i l IH]; intros s; cbn [init_modem_loop];
    (eapply wp_quiet_bind; [apply wp_clock_quiet|]); intros now s1 _ _;
    (destruct (0 <? _); [|apply wp_ret; by split; [apply quiet_refl|]]); [done|].
  destruct i as [|u sysfs|]; [apply wp_ret; by split; [apply quiet_refl|]| |apply IH].
  eapply (wp_quiet_bind _ _ _ (fun _ => True)).
  { eapply wp_mono; [apply wp_get_mdm_state|done|]. intros ? ? ? (-> & -> & _). by split; [apply quiet_refl|]. }
  intros evt s2 _ _. destruct (negb (evt =? -1)); [|apply IH].
  eapply wp_quiet_bind; [apply wp_set_mdm_quiet|]. intros [] s3 _ _.
  destruct (_ || _); [|apply IH]. apply wp_ret. by split; [apply quiet_refl|].
Qed.

Lemma wp_init_modem force sysfs l s : wp (crm_hal_init_modem clock write_ok force sysfs l) s allowed (Q0 s).
Proof.
  unfold crm_hal_init_modem. eapply (wp_quiet_bind _ _ _ (fun _ => True)).
  { apply wp_get. by split; [apply quiet_refl|]. }
  intros s0 s1 _ _. eapply (wp_quiet_bind _ _ _ (fun _ => True)).
  { apply wp_when; [|by split; [apply quiet_refl|]]. intros _.
    apply wp_bind. eapply wp_mono; [by apply wp_write_quiet|done|]. intros r s2 o2 (H1 & H2 & _).
    apply wp_ASSERT; [|done]. intros _. rewrite app_nil_r. done. }
  intros [] s2 _ _. eapply (wp_quiet_bind _ _ _ (fun _ => True)).
  { eapply wp_mono; [apply wp_sysfs|done|]. intros ? ? ? (-> & -> & _). by split; [apply quiet_refl|]. }
  intros st s3 _ _. eapply wp_quiet_bind; [apply wp_set_mdm_quiet|]. intros [] s4 _ _.
  apply wp_when; [|by split; [apply quiet_refl|]]. intros _.
  eapply wp_quiet_bind; [by apply wp_write_quiet|]. intros r s5 _ _.
  eapply (wp_quiet_bind _ _ _ (fun _ => True)).
  { apply wp_DASSERT; [|done]. intros _. by split; [apply quiet_refl|]. }
  intros [] s6 _ _. eapply wp_quiet_bind; [apply wp_set_mdm_quiet|]. intros [] s7 _ _.
  eapply wp_quiet_bind; [apply wp_clock_quiet|]. intros now s8 _ _. apply wp_init_loop.
Qed.

Lemma wp_fsm_start first sysfs init s :
  fresh_hal s ->
  wp (fsm_start clock write_ok first sysfs init) (mk_fsm_st ST_INITIAL s) allowed (fun _ f' o =>
    turn_post (mk_fsm_st ST_INITIAL s) f' o).
Proof.
  intros (Hp & Ht & Hn). unfold fsm_start. apply wp_bind, wp_on_param.
  eapply (wp_mono _ _ allowed _ (fun _ s' o => quiet s s' /\ reports o = [] /\ rpcd_running s' = false)); [|done|].
  { apply wp_bind. apply wp_when; intros _; [apply wp_emit|].
    all: apply wp_bind; eapply wp_mono; [apply wp_init_modem|done|]; intros [] s1 o1 [H1 H2];
      apply wp_bind, wp_emit, wp_bind, wp_modify, wp_bind, wp_emit, wp_emit; cbn;
      (split_and!; [by eapply quiet_trans; [exact H1|]| |done]);
      unfold reports in *; cbn; by rewrite omap_app, H2. }
  intros [] s1 o1 (((Q1 & Q2 & Q3 & Q4 & Q5) & Q6 & Q7) & Q8 & Q9). cbn [state].
  apply wp_bind, wp_get, wp_bind, wp_ASSERT; [|done]. cbn [fsm_param]. intros Hst.
  eapply wp_mono; [apply wp_notify_turn|done|].
  - apply orb_true_iff in Hst. rewrite !Z.eqb_eq in Hst.
    split; cbn; try done; try (by destruct Hst as [-> | ->]); [|by rewrite Q6].
    split; cbn; [done|by rewrite Q7|done|]. unfold nodes_ok in *. by rewrite Q1, Q2.
  - intros [] f2 o2 [H1 H2]. cbn [app]. split; [done|]. cbn [app fsm_param].
    eapply (reported_trans _ s1); [by apply reported_silent|done].
Qed.

(** [crm_hal_init] either refuses the configuration or gives such a context. *)
Lemma hal_init_fresh dbg tcs silent net s o :
  crm_hal_init dbg tcs silent net tt = Ok s tt o -> fresh_hal s.
Proof.
  intros Hi. eapply (wp_Ok (crm_hal_init dbg tcs silent net) tt any_abort (fun s _ _ => fresh_hal s)); [|exact Hi].
  unfold crm_hal_init, not_null. repeat first [done | wp_step]; bool_facts; cbn;
    repeat match goal with Hl : (_ <? _)%nat = true |- _ => apply Nat.ltb_lt in Hl end;
    unfold fresh_hal, nodes_ok; cbn; split_and!; try done; lia.
Qed.

End start.

