(* ===== verification/HalSofiaProps.v ===== *)
(** * Properties of the SoFIA HAL

    Safety of every run, answers to the requests of CTRL, the contract of the
    reports with CTRL's own state machine, and termination of the ping loop. *)

From S2P Require Import Prelude Ipc Fsm Timer MdmCli Control CtrlApi CtrlHal HalSofia HalSofiaTheory.
From Stdlib Require Import ZArith Lia Ascii.
From stdpp Require Import base tactics list strings option.

Open Scope Z_scope.
Open Scope crm_scope.

(** ** Runs *)

Section runs.
Context `{MdmCli} (clock : nat -> timespec) (write_ok : nat -> bool).

Lemma hal_run_post dbg tcs silent net s0 oi first sysfs init l :
  crm_hal_init dbg tcs silent net tt = Ok s0 tt oi -> Forall input_ok l ->
  match crm_hal_sofia_fsm clock write_ok first sysfs init l s0 with
  | Ok _ f o => hal_inv f /\ reported s0 (fsm_param f) o
  | Abort r _ => allowed r
  end.
Proof.
  intros Hi Hl. apply hal_init_fresh in Hi.
  assert (wp (fsm_start clock write_ok first sysfs init ;; loop_turns clock write_ok l) (mk_fsm_st ST_INITIAL s0)
    allowed (fun _ f o => turn_post (mk_fsm_st ST_INITIAL s0) f o)) as Hwp; [|exact Hwp].
  apply wp_bind. eapply wp_mono; [by apply wp_fsm_start|done|]. intros [] f1 o1 H1.
  eapply wp_mono; [apply wp_loop_turns; [apply H1|done]|done|]. intros b f2 o2 H2. by eapply hal_turn_post_trans.
Qed.

(** C20. The resources of the HAL follow its state.  From any configuration
    that [crm_hal_init] accepts, whatever the kernel events, the contents of
    sysfs, the failures of writes and the requests, a run of the thread never
    arms a timer twice nor disarms one that is not armed, never starts the ping
    thread or the RPC daemon twice nor stops a daemon that is not started, and
    never leaves the table; as long as it goes on, a timer is armed exactly in
    BOOTING, WAITING_RPC and STOPPING, the ping thread exists exactly in PINGING
    (so that no transient state is without a way out), the RPC daemon is
    started exactly in WAITING_RPC and RUN, and a modem known to be off is in
    OFF or BOOTING. *)
Theorem hal_resources_follow_state dbg tcs silent net s0 oi first sysfs init l :
  crm_hal_init dbg tcs silent net tt = Ok s0 tt oi -> Forall input_ok l ->
  match crm_hal_sofia_fsm clock write_ok first sysfs init l s0 with
  | Ok _ f _ =>
      let s := fsm_param f in
      0 <= state f < ST_NUM /\
      timer_armed s = timed (state f) /\
      thread_ping s = (state f =? ST_PINGING) /\
      rpcd_running s = with_rpcd (state f) /\
      (mdm_state s = EV_MDM_OFF -> state f = ST_OFF \/ state f = ST_BOOTING)
  | Abort r _ => bad_abort r = false
  end.
Proof.
  intros Hi Hl. pose proof (hal_run_post _ _ _ _ _ _ first sysfs init l Hi Hl) as Hp.
  destruct (crm_hal_sofia_fsm _ _ _ _ _ _ _) as [b f o|r o]; [|done].
  destruct Hp as [[[R1 R2 R3 R4] H1 H2 H3] _]. cbn. split_and!; try done; try lia.
  intros Hoff. destruct (live (state f)) eqn:Hv; [by destruct (H2 eq_refl)|].
  unfold live in Hv. repeat rewrite orb_false_iff in Hv. rewrite !Z.eqb_neq in Hv.
  unfold ST_NUM, ST_OFF, ST_BOOTING, ST_INITIAL, ST_PINGING, ST_WAITING_RPC, ST_RUN, ST_STOPPING,
    ST_NEED_RESETTING in *. lia.
Qed.

(** C21. CTRL is answered.  Whatever the event, in any state a run can reach:
    the answers reported (every report but BUSY) plus the answer still due
    afterwards are exactly what was due before, or one for a request and one for
    a failure of a modem at rest.  The only exception is a boot request whose
    write to sysfs fails while the modem is off: nothing is reported. *)
Theorem hal_answers_ctrl evt f :
  event_pre evt f ->
  match notify clock write_ok evt f with
  | Ok _ f' o => answers o + b2z (answering (state f')) = due write_ok evt f
  | Abort r _ => bad_abort r = false
  end.
Proof.
  intros Hp. pose proof (wp_hal_event clock write_ok evt f Hp) as Hw. unfold wp in Hw.
  destruct (notify _ _ _ _); [apply Hw|done].
Qed.

End runs.

(** ** The contract with CTRL *)

Lemma shapes_accepted l : shapes l -> accepted false l.
Proof.
  intros (ls & -> & Hls). induction Hls as [|x ls Hx _ IH]; [done|]. cbn.
  destruct Hx as [->|[->|[->|(t & -> & Ht)]]]; try done.
  destruct t; cbn; try done; by apply accepted_mono.
Qed.

(** C22. The HAL keeps its contract with CTRL: over any run, every report has
    what [notify_hal_event] needs (debug information with NEED_RESET and
    UNRESPONSIVE) and carries the configured node untruncated; and however the
    reports are interleaved with the other events of CTRL's queue, CTRL's
    [pre_op] accepts them all: its assertion that a reason follows a BUSY never
    fails. *)
Theorem hal_reports_accepted `{MdmCli} clock write_ok dbg tcs silent net s0 oi first sysfs init l b f o :
  crm_hal_init dbg tcs silent net tt = Ok s0 tt oi -> Forall input_ok l ->
  crm_hal_sofia_fsm clock write_ok first sysfs init l s0 = Ok b f o ->
  Forall (report_ok s0) (reports o) /\
  forall evs (c : ctrl), List.filter is_hal_evt evs = get_hal_id <$> report_types o ->
    exists c', for_each evs Control.pre_op c = Ok tt c' [].
Proof.
  intros Hi Hl Hr. pose proof (hal_run_post clock write_ok _ _ _ _ _ _ first sysfs init l Hi Hl) as Hp.
  rewrite Hr in Hp. destruct Hp as [_ [Hs Hok _]]. split; [done|]. intros evs c Hf.
  eapply pre_op_accepts; [|exact Hf]. by apply accepted_mono, shapes_accepted.
Qed.

(** ** The ping thread *)

(** A turn whose clock is past the deadline, and the clocks of a run. *)
Definition past (start : timespec) (ms : Z) (t : ping_turn) : Prop :=
  to_ns start + ms * 1000000 <= to_ns (ping_now t).
Definition clock_of (start : timespec) (t : ping_turn) : Prop :=
  valid_clock (ping_now t) /\ to_ns start <= to_ns (ping_now t).

Lemma wp_ping_loop start ms l :
  valid_clock start -> 0 < ms <= INT_MAX -> Forall (clock_of start) l -> List.Exists (past start ms) l ->
  wp (ping_loop (crm_time_add_ms start ms) false l) tt no_abort (fun r _ o =>
    o = [] /\ -2 <= r /\ (r = -1 -> List.Exists (fun t => past start (ms - 1) t) l)).
Proof.
  intros Hs Hms. induction l as [|t l IH]; intros Hc He; [by inversion He|].
  apply Forall_cons_1 in Hc as [[Hv Hle] Hc]. cbn [ping_loop].
  pose proof (remaining_time_bounds start ms (ping_now t) Hs Hv ltac:(lia) Hle) as (Hr & Hp & Hq). cbn in Hr, Hp, Hq.
  assert (wp (if crm_time_get_remain_ms (ping_now t) (crm_time_add_ms start ms) <=? 0 then ret (-1)
              else if pause_revents t then ret (-2) else ping_loop (crm_time_add_ms start ms) false l)
      tt no_abort (fun r _ o => o = [] /\ -2 <= r /\ (r = -1 -> List.Exists (fun t => past start (ms - 1) t) (t :: l))))
    as Hretry.
  { destruct (Z.leb_spec (crm_time_get_remain_ms (ping_now t) (crm_time_add_ms start ms)) 0).
    - apply wp_ret. split_and!; [done|lia|]. intros _. left. unfold past. lia.
    - destruct (pause_revents t); [by apply wp_ret|].
      eapply wp_mono; [apply IH; [done|]|done|].
      + apply List.Exists_cons in He as [He|He]; [|done]. unfold past in He. lia.
      + intros r [] o (Ho & Hr2 & Hx). split_and!; [done..|]. intros H1. right. by apply Hx. }
  destruct (Z.leb_spec 0 (open_fd t)); [|exact Hretry].
  apply wp_bind, wp_ret. cbn [app]. destruct (at_result t =? 0); [apply wp_ret; split_and!; [done|lia|lia]|].
  destruct (at_result t =? -2); [by apply wp_ret|exact Hretry].
Qed.

(** The ping thread ends: however the attempts turn out, once the clock
    has reached the timeout the loop has returned, and the thread has sent
    at most one message, either RUN or TIMEOUT, which is what the loop of the HAL
    expects of it; TIMEOUT is sent only within a millisecond of the timeout or
    after it. *)
Lemma ping_thread_ends start ms l :
  valid_clock start -> 0 < ms <= INT_MAX -> Forall (clock_of start) l -> List.Exists (past start ms) l ->
  exists msgs, crm_hal_ping_modem_thread start ms l tt = Ok msgs tt [] /\ input_ok (PollPing msgs) /\
    (msgs = [EV_TIMEOUT] -> List.Exists (past start (ms - 1)) l).
Proof.
  intros Hs Hms Hc He.
  assert (wp (crm_hal_ping_modem_thread start ms l) tt no_abort (fun msgs _ o => o = [] /\
    input_ok (PollPing msgs) /\ (msgs = [EV_TIMEOUT] -> List.Exists (past start (ms - 1)) l))) as Hw.
  { unfold crm_hal_ping_modem_thread, crm_hal_ping_modem. apply wp_bind, wp_bind, wp_ASSERT; [|intros; bool_facts; lia].
    intros _. cbn [app]. eapply wp_mono; [by apply wp_ping_loop|done|]. intros r [] o (-> & Hr & Hx).
    apply wp_ret. split; [done|]. destruct (Z.ltb_spec (-2) r); [|by split; [split; [cbn; lia|done]|]].
    destruct (Z.eqb_spec r (-1)) as [->|Hne]; split; try (by split; [cbn; lia|apply Forall_singleton; auto]);
      intros Hm; [by apply Hx|done]. }
  destruct (wp_total _ _ _ Hw) as (msgs & [] & o & Hok & -> & Hp). by exists msgs.
Qed.

(** ** Witnesses *)

Section demo.
#[local] Existing Instance demo_mdmcli.

Definition demo_tcs : tcs_hal :=
  mk_tcs_hal true (Some "/sys/state") (Some "/sys/ctrl") (Some "change@vmodem") (Some "/dev/ping")
    (Some "/dev/dump") (Some false) (Some "/dev/flash") None (Some 10000) (Some true).

Definition demo_hal : crm_hal_ctx_internal :=
  mk_hal false "change@vmodem" "/dev/dump" "/dev/flash" false false false true false false (mk_timespec 0 0) 0
    false "" 0 0.

(** A modem that is off at start, is flashed, booted, runs and is stopped. *)
Definition demo_turns : list poll_result :=
  [PollIpc [EV_POWER]; PollIpc [EV_BOOT]; PollUevent (UeventData "change@vmodem") (Some "on");
   PollPing [EV_MDM_RUN]; PollRpcd ["rpcd_started"]; PollIpc [EV_STOP];
   PollUevent (UeventData "change@vmodem") (Some "off")].

Definition tick (n : nat) : timespec := mk_timespec (Z.of_nat n) 0.

Lemma demo_turns_ok : Forall input_ok demo_turns.
Proof.
  assert (forall m, 0 <= m <= EV_BACKUP -> input_ok (PollIpc [m])) as Hipc.
  { intros m Hm. apply Forall_singleton. by right. }
  assert (input_ok (PollPing [EV_MDM_RUN])) as Hping.
  { split; [cbn; lia|]. apply Forall_singleton. by right. }
  apply List.Forall_forall. intros x Hx.
  repeat (destruct Hx as [<-|Hx]; [first [exact Hping|exact I|apply Hipc; by split; vm_compute]|]). done.
Qed.

Lemma hal_resources_follow_state_witness :
  match crm_hal_sofia_fsm tick (fun _ => true) "1" (Some "off") [] demo_turns demo_hal with
  | Ok _ f _ => state f = ST_OFF /\ timer_armed (fsm_param f) = timed (state f)
  | Abort _ _ => False
  end.
Proof.
  pose proof (hal_resources_follow_state tick (fun _ => true) false demo_tcs "false" "" demo_hal [] "1" (Some "off") []
    demo_turns eq_refl demo_turns_ok) as Hw.
  assert (crm_hal_sofia_fsm tick (fun _ => true) "1" (Some "off") [] demo_turns demo_hal =
          ltac:(let v := eval vm_compute in
            (crm_hal_sofia_fsm tick (fun _ => true) "1" (Some "off") [] demo_turns demo_hal) in exact v))
    as He by (vm_compute; reflexivity).
  rewrite He in Hw |- *. split; [reflexivity|apply Hw].
Defined.

Lemma hal_answers_ctrl_witness :
  match notify tick (fun _ => true) EV_BOOT (mk_fsm_st ST_OFF demo_hal) with
  | Ok _ f' o => answers o + b2z (answering (state f')) = 1
  | Abort r _ => bad_abort r = false
  end.
Proof.
  apply (hal_answers_ctrl tick (fun _ => true) EV_BOOT (mk_fsm_st ST_OFF demo_hal)).
  split; try done. split; try done. split; cbn; lia.
Defined.

Lemma hal_reports_accepted_witness :
  exists b f o, crm_hal_sofia_fsm tick (fun _ => true) "1" (Some "off") [] demo_turns demo_hal = Ok b f o /\
    report_types o = [HAL_MDM_OFF; HAL_MDM_BUSY; HAL_MDM_FLASH; HAL_MDM_RUN; HAL_MDM_BUSY; HAL_MDM_OFF] /\
    Forall (report_ok demo_hal) (reports o).
Proof.
  eexists _, _, _. split; [vm_compute; reflexivity|]. split; [reflexivity|].
  refine (proj1 (hal_reports_accepted tick (fun _ => true) false demo_tcs "false" "" demo_hal [] "1" (Some "off") []
    demo_turns _ _ _ eq_refl demo_turns_ok _)). vm_compute. reflexivity.
Defined.

Lemma ping_thread_ends_witness :
  exists msgs, crm_hal_ping_modem_thread (tick 1) 500
    [mk_ping (-1) true 0 (tick 1) false; mk_ping 3 true (-1) (tick 2) false] tt = Ok msgs tt [] /\
    input_ok (PollPing msgs).
Proof.
  destruct (ping_thread_ends (tick 1) 500
    [mk_ping (-1) true 0 (tick 1) false; mk_ping 3 true (-1) (tick 2) false]) as (m & H1 & H2 & _).
  - unfold valid_clock, tick, NSEC_PER_SEC. cbn. lia.
  - unfold INT_MAX. lia.
  - repeat apply Forall_cons_2; try done; unfold clock_of, valid_clock, to_ns, tick, NSEC_PER_SEC; cbn; lia.
  - right. left. unfold past, to_ns, tick, NSEC_PER_SEC. cbn. lia.
  - by exists m.
Defined.

End demo.
