(* ===== verification/CtrlSofia.v ===== *)
(** * CTRL on the HAL of SoFIA platforms

    CTRL, the HAL, the queues between them, the ping thread, the RPC daemon, the
    upload plugin and the kernel driver of the modem, as one system of which every
    interleaving is explored.  CLA is a script: its next request comes once CTRL has
    answered the last one and told it the state of the modem the request is for.

    What is not code of the repository behaves as documented or as the code expects: the
    driver carries out the writes to sysfs in order and raises an event when the state of
    the modem changes (the HAL reads the state when it takes the event); the upload and
    dump plugins report each operation once, with a success; the ping thread and the RPC
    daemon answer in time.  The escalation allows two cold resets. *)

From S2P Require Import Prelude Fsm Timer Ipc Escalation Watchdog MdmCli Control ControlProps CtrlApi HalSofia.
From Stdlib Require Import ZArith Lia.
From stdpp Require Import base tactics list strings option.

Open Scope Z_scope.
Open Scope crm_scope.

(** ** The system *)

(** What surrounds the two threads: what sysfs reads for the modem, the kernel events
    not read yet, the orders the driver has not carried out yet ([true] to turn the modem on), the ping thread, the
    RPC daemon being started, the uploads and dumps under way, and what CLA was told. *)
Record world : Type := mk_world {
  sysfs : string;
  uevents : nat;
  orders : list bool;
  pinging : bool;
  rpcd_starting : bool;
  flashing : list bool;
  dumping : nat;
  script : list (crm_cli_abs_mdm_state * api_call);
  may_ask : bool;
  results : list Z;
  told : option crm_cli_abs_mdm_state;
  faults : list string;
}.

Record sofia : Type := mk_sofia {
  ctrl_thread : fsm_st Control.crm_control_ctx_internal;
  hal_thread : fsm_st HalSofia.crm_hal_ctx_internal;
  to_ctrl : ring ctrl_msg;
  to_hal : ring Z;
  outside : world;
}.

#[local] Abbreviation S_ A := (M sofia Empty_set A).

Definition on_ctrl_queue {A} (m : M (ring ctrl_msg) Empty_set A) : S_ A :=
  zoom to_ctrl (fun q s => mk_sofia (ctrl_thread s) (hal_thread s) q (to_hal s) (outside s)) (fun x => x) m.
Definition on_hal_queue {A} (m : M (ring Z) Empty_set A) : S_ A :=
  zoom to_hal (fun q s => mk_sofia (ctrl_thread s) (hal_thread s) (to_ctrl s) q (outside s)) (fun x => x) m.
Definition on_world (f : world -> world) : S_ unit :=
  modify (fun s => mk_sofia (ctrl_thread s) (hal_thread s) (to_ctrl s) (to_hal s) (f (outside s))).

(** A run of a thread, whose calls [k] carries to the other parts. *)
Definition carrying {T P A} (k : P -> S_ unit) (g : sofia -> T) (p : T -> sofia -> sofia) (m : M T P A) : S_ unit := fun s =>
  match m (g s) with
  | Ok _ t o => for_each o k (p t s)
  | Abort r _ => Abort r []
  end.

Definition set_modem (st : string) (w : world) : world :=
  mk_world st (S (uevents w)) (orders w) (pinging w) (rpcd_starting w) (flashing w) (dumping w) (script w) (may_ask w)
    (results w) (told w) (faults w).
Definition set_uevents (n : nat) (w : world) : world :=
  mk_world (sysfs w) n (orders w) (pinging w) (rpcd_starting w) (flashing w) (dumping w) (script w) (may_ask w)
    (results w) (told w) (faults w).
Definition set_orders (l : list bool) (w : world) : world :=
  mk_world (sysfs w) (uevents w) l (pinging w) (rpcd_starting w) (flashing w) (dumping w) (script w) (may_ask w)
    (results w) (told w) (faults w).
Definition set_pinging (b : bool) (w : world) : world :=
  mk_world (sysfs w) (uevents w) (orders w) b (rpcd_starting w) (flashing w) (dumping w) (script w) (may_ask w)
    (results w) (told w) (faults w).
Definition set_rpcd_starting (b : bool) (w : world) : world :=
  mk_world (sysfs w) (uevents w) (orders w) (pinging w) b (flashing w) (dumping w) (script w) (may_ask w)
    (results w) (told w) (faults w).
Definition set_flashing (l : list bool) (w : world) : world :=
  mk_world (sysfs w) (uevents w) (orders w) (pinging w) (rpcd_starting w) l (dumping w) (script w) (may_ask w)
    (results w) (told w) (faults w).
Definition set_dumping (n : nat) (w : world) : world :=
  mk_world (sysfs w) (uevents w) (orders w) (pinging w) (rpcd_starting w) (flashing w) n (script w) (may_ask w)
    (results w) (told w) (faults w).
Definition set_script (l : list (crm_cli_abs_mdm_state * api_call)) (w : world) : world :=
  mk_world (sysfs w) (uevents w) (orders w) (pinging w) (rpcd_starting w) (flashing w) (dumping w) l false
    (results w) (told w) (faults w).
Definition add_result (r : Z) (w : world) : world :=
  mk_world (sysfs w) (uevents w) (orders w) (pinging w) (rpcd_starting w) (flashing w) (dumping w) (script w) true
    (results w ++ [r]) (told w) (faults w).
Definition set_told (st : crm_cli_abs_mdm_state) (w : world) : world :=
  mk_world (sysfs w) (uevents w) (orders w) (pinging w) (rpcd_starting w) (flashing w) (dumping w) (script w)
    (may_ask w || bool_decide (told w = None)) (results w) (Some st) (faults w).
Definition set_faults (l : list string) (w : world) : world :=
  mk_world (sysfs w) (uevents w) (orders w) (pinging w) (rpcd_starting w) (flashing w) (dumping w) (script w) (may_ask w)
    (results w) (told w) l.

(** The first request of the script for the state that CLA was told. *)
Fixpoint pick (st : option crm_cli_abs_mdm_state) (l : list (crm_cli_abs_mdm_state * api_call))
    : option (api_call * list (crm_cli_abs_mdm_state * api_call)) :=
  match l with
  | [] => None
  | (st', call) :: l =>
      if bool_decide (st = Some st') then Some (call, l)
      else (fun x => (x.1, (st', call) :: x.2)) <$> pick st l
  end.

Section composed.
Context `{MdmCli} (clock : nat -> timespec) (e : env).

(** The calls of CTRL, run in its thread.  With the secure VM the upload of the
    firmware turns the modem on. *)
Definition ctrl_calls (x : ctrl_out) : S_ unit :=
  match x with
  | HalPowerOn => on_hal_queue hal_power_on
  | HalBoot => on_hal_queue hal_boot
  | HalReset t => on_hal_queue (hal_reset t)
  | HalShutdown => on_hal_queue hal_shutdown
  | UploadPackage _ => on_world (fun w => set_flashing (flashing w ++ [false]) w)
  | UploadFlash _ => on_world (fun w => set_flashing (flashing w ++ [true]) w)
  | DumpRead _ _ => on_world (fun w => set_dumping (S (dumping w)) w)
  | NotifyOperationResult r => on_world (add_result r)
  | NotifyModemState st => on_world (set_told st)
  | _ => ret tt
  end.

(** The calls of the HAL, run in its thread. *)
Definition hal_calls (x : hal_out) : S_ unit :=
  match x with
  | NotifyHalEvent ev => on_ctrl_queue (notify_hal_event ev)
  | WriteCtrl v _ =>
      on_world (fun w => set_orders (orders w ++ [String.eqb v "1"]) w)
  | SetProperty k _ =>
      if String.eqb k "ctl.start" then on_world (set_rpcd_starting true)
      else if String.eqb k "ctl.stop" then on_world (set_rpcd_starting false) else ret tt
  | PingStart => on_world (set_pinging true)
  | PingDispose => on_world (set_pinging false)
  | _ => ret tt
  end.

Definition ctrl_runs {A} (m : M (fsm_st Control.crm_control_ctx_internal) ctrl_out A) : S_ unit :=
  carrying ctrl_calls ctrl_thread (fun t s => mk_sofia t (hal_thread s) (to_ctrl s) (to_hal s) (outside s)) m.
Definition hal_runs {A} (m : M (fsm_st HalSofia.crm_hal_ctx_internal) hal_out A) : S_ unit :=
  carrying hal_calls hal_thread (fun t s => mk_sofia (ctrl_thread s) t (to_ctrl s) (to_hal s) (outside s)) m.

Definition hal_turn (i : HalSofia.poll_result) : S_ unit := hal_runs (HalSofia.loop_turn clock (fun _ => true) i).

(** Who goes on: CLA, CTRL with a message or its timer, the HAL with a request, a
    kernel event, the ping thread or the RPC daemon, the driver, the upload and dump
    plugins, a fault of the modem. *)
Inductive choice : Type :=
| Cla
| CtrlMsg
| CtrlTimer
| HalMsg
| HalUevent
| HalPing
| HalRpcd
| Driver
| Upload
| Dump
| Fault.

Definition empty {A} (q : ring A) : bool := match contents q with [] => true | _ => false end.

(** What may happen next.  A thread takes the first of its descriptors that is
    ready. *)
Definition enabled (s : sofia) (c : choice) : bool :=
  let w := outside s in
  match c with
  | Cla => may_ask w && match pick (told w) (script w) with Some _ => true | None => false end
  | CtrlMsg => negb (empty (to_ctrl s))
  | CtrlTimer => empty (to_ctrl s) && Control.timer_armed (fsm_param (ctrl_thread s))
  | HalMsg => negb (empty (to_hal s))
  | HalUevent => empty (to_hal s) && (0 <? uevents w)%nat
  | HalPing => empty (to_hal s) && (uevents w =? 0)%nat && pinging w
  | HalRpcd => empty (to_hal s) && (uevents w =? 0)%nat && negb (pinging w) && rpcd_starting w
  | Driver => negb (bool_decide (length (orders w) = 0%nat))
  | Upload => negb (bool_decide (length (flashing w) = 0%nat))
  | Dump => (0 <? dumping w)%nat
  | Fault => negb (bool_decide (length (faults w) = 0%nat)) && String.eqb (sysfs w) "on" && (uevents w =? 0)%nat
  end.

Definition all_choices : list choice :=
  [Cla; CtrlMsg; CtrlTimer; HalMsg; HalUevent; HalPing; HalRpcd; Driver; Upload; Dump; Fault].

Definition choices (s : sofia) : list choice := List.filter (enabled s) all_choices.

Definition act (c : choice) : S_ unit :=
  let* s := get in
  let w := outside s in
  match c with
  | Cla =>
      match pick (told w) (script w) with
      | Some (call, rest) => on_world (set_script rest) ;; on_ctrl_queue (api call)
      | None => ret tt
      end
  | CtrlMsg =>
      let* m := on_ctrl_queue get_msg_thread in
      match m with
      | Some (scalar, data) => ctrl_runs (handle_ipc_msg e scalar data)
      | None => ret tt
      end
  | CtrlTimer => ctrl_runs (handle_timeout e)
  | HalMsg =>
      let* m := on_hal_queue get_msg_thread in
      match m with
      | Some scalar => hal_turn (HalSofia.PollIpc [scalar])
      | None => ret tt
      end
  | HalUevent =>
      on_world (set_uevents (pred (uevents w))) ;;
      hal_turn (PollUevent (UeventData (uevent_vmodem (fsm_param (hal_thread s)))) (Some (sysfs w)))
  | HalPing => hal_turn (PollPing [EV_MDM_RUN])
  | HalRpcd => on_world (set_rpcd_starting false) ;; hal_turn (PollRpcd [CRM_HAL_RPCD_STATE_FILE_STARTED])
  | Driver =>
      match orders w with
      | on :: rest =>
          on_world (set_orders rest) ;;
          let st := if on then "on" else "off" in
          when (negb (String.eqb (sysfs w) st)) (on_world (set_modem st))
      | [] => ret tt
      end
  | Upload =>
      match flashing w with
      | flash :: rest =>
          on_world (set_flashing rest) ;;
          when (flash && secvm_flash (fsm_param (hal_thread s))) (on_world (fun w => set_orders (orders w ++ [true]) w)) ;;
          on_ctrl_queue (notify_fw_upload_status 0)
      | [] => ret tt
      end
  | Dump => on_world (set_dumping (pred (dumping w))) ;; on_ctrl_queue (notify_dump_status 0)
  | Fault =>
      match faults w with
      | st :: rest => on_world (fun w => set_modem st (set_faults rest w))
      | [] => ret tt
      end
  end.

End composed.

(** ** Exploration *)

(** Equality of the states, so that those that several interleavings reach are
    explored once. *)
#[local] Instance crm_hal_evt_eq_dec : EqDecision crm_hal_evt.
Proof. solve_decision. Defined.
#[local] Instance evt_data_eq_dec : EqDecision evt_data.
Proof. solve_decision. Defined.
#[local] Instance crm_ctrl_state_eq_dec : EqDecision crm_ctrl_state.
Proof. solve_decision. Defined.
#[local] Instance crm_ctrl_dbg_info_eq_dec : EqDecision crm_ctrl_dbg_info.
Proof. solve_decision. Defined.
#[local] Instance crm_escalation_ctx_eq_dec : EqDecision crm_escalation_ctx.
Proof. solve_decision. Defined.
#[local] Instance esc_st_eq_dec : EqDecision esc_st.
Proof. solve_decision. Defined.
#[local] Instance ctrl_ctx_eq_dec : EqDecision Control.crm_control_ctx_internal.
Proof. solve_decision. Defined.
#[local] Instance hal_ctx_eq_dec : EqDecision HalSofia.crm_hal_ctx_internal.
Proof. solve_decision. Defined.
#[local] Instance fsm_st_eq_dec {A} `{EqDecision A} : EqDecision (fsm_st A).
Proof. solve_decision. Defined.
#[local] Instance ring_eq_dec {A} `{EqDecision A} : EqDecision (ring A).
Proof. solve_decision. Defined.
#[local] Instance restart_type_eq_dec : EqDecision crm_ctrl_restart_type.
Proof. solve_decision. Defined.
#[local] Instance hal_event_eq_dec : EqDecision hal_event.
Proof. solve_decision. Defined.
#[local] Instance api_call_eq_dec : EqDecision api_call.
Proof. solve_decision. Defined.
#[local] Instance world_eq_dec : EqDecision world.
Proof. solve_decision. Defined.
#[local] Instance sofia_eq_dec : EqDecision sofia.
Proof. solve_decision. Defined.

Section exploration.
Context `{MdmCli} (clock : nat -> timespec) (e : env) (final : sofia -> bool).

(** The states one step further, or [None] when a step aborts or [s] is an end that is
    not the one wanted. *)
Fixpoint try_all (s : sofia) (l : list choice) : option (list sofia) :=
  match l with
  | [] => Some []
  | c :: l =>
      match act clock e c s, try_all s l with
      | Ok _ s' _, Some r => Some (s' :: r)
      | _, _ => None
      end
  end.

Definition successors (s : sofia) : option (list sofia) :=
  match choices s with
  | [] => if final s then Some [] else None
  | cs => try_all s cs
  end.

Fixpoint next_level (l : list sofia) (acc : list sofia) : option (list sofia) :=
  match l with
  | [] => Some acc
  | s :: l =>
      match successors s with
      | Some r => next_level l (foldr (fun s' acc => if bool_decide (s' ∈ acc) then acc else s' :: acc) acc r)
      | None => None
      end
  end.

(** Every run from the states of [l] has fewer than [n] steps, aborts nowhere, and ends
    in a state that satisfies [final]. *)
Fixpoint explore (n : nat) (l : list sofia) : bool :=
  match l, n with
  | [], _ => true
  | _, O => false
  | _, S n => match next_level l [] with Some l' => explore n l' | None => false end
  end.

(** ** Soundness of the exploration *)

Inductive reaches : nat -> sofia -> sofia -> Prop :=
| reaches_refl s : reaches 0 s s
| reaches_step n c s s' s'' o :
    enabled s c = true -> act clock e c s = Ok tt s' o -> reaches n s' s'' -> reaches (S n) s s''.

(** No way to abort, and the wanted end where nothing goes on. *)
Definition sound (s : sofia) : Prop :=
  (forall c, enabled s c = true -> exists s' o, act clock e c s = Ok tt s' o) /\
  ((forall c, enabled s c = false) -> final s = true).

Lemma elem_of_choices s c : c ∈ choices s <-> enabled s c = true.
Proof.
  unfold choices. rewrite list_elem_of_In, List.filter_In. split; [by intros [_ ?]|]. intros Hc. split; [|done].
  destruct c; cbn; auto 20.
Qed.

Lemma try_all_spec s l r c :
  try_all s l = Some r -> c ∈ l -> exists s' o, act clock e c s = Ok tt s' o /\ s' ∈ r.
Proof.
  revert r. induction l as [|c' l IH]; intros r Hr Hc; [by apply elem_of_nil in Hc|]. cbn in Hr.
  destruct (act clock e c' s) as [[] s' o|] eqn:Ha; [|done]. destruct (try_all s l) as [r'|] eqn:Hl; [|done].
  simplify_eq. apply elem_of_cons in Hc as [->|Hc]; [exists s', o; split; [done|left]|].
  destruct (IH _ eq_refl Hc) as (s'' & o' & ? & ?). exists s'', o'. split; [done|by right].
Qed.

Lemma successors_spec s r :
  successors s = Some r ->
  sound s /\ forall c s' o, enabled s c = true -> act clock e c s = Ok tt s' o -> s' ∈ r.
Proof.
  unfold successors. intros Hr.
  assert (forall c, enabled s c = true -> exists s' o, act clock e c s = Ok tt s' o /\ s' ∈ r) as Hall.
  { intros c Hc%elem_of_choices. destruct (choices s) as [|c' l]; [by apply elem_of_nil in Hc|]. by eapply try_all_spec. }
  split; [split|].
  - intros c Hc. destruct (Hall c Hc) as (s' & o & ? & _). eauto.
  - intros Hno. destruct (choices s) as [|c l] eqn:Hch; [by destruct (final s)|].
    assert (c ∈ choices s) as Hc%elem_of_choices by (rewrite Hch; left). by rewrite Hno in Hc.
  - intros c s' o Hc Ha. destruct (Hall c Hc) as (s'' & o' & Ha' & ?). rewrite Ha in Ha'. by injection Ha' as -> ->.
Qed.

Lemma insert_all_spec (r acc : list sofia) s :
  s ∈ foldr (fun s' acc => if bool_decide (s' ∈ acc) then acc else s' :: acc) acc r <-> s ∈ r \/ s ∈ acc.
Proof.
  revert s. induction r as [|s' r IH]; intros s; cbn; [rewrite elem_of_nil; tauto|].
  case_bool_decide as Hin; rewrite !elem_of_cons, IH.
  - apply IH in Hin. split; [tauto|]. intros [[->|?]|?]; auto.
  - tauto.
Qed.

Lemma next_level_spec l acc l' :
  next_level l acc = Some l' ->
  (forall s, s ∈ acc -> s ∈ l') /\ forall s, s ∈ l -> exists r, successors s = Some r /\ forall s', s' ∈ r -> s' ∈ l'.
Proof.
  revert acc. induction l as [|s l IH]; intros acc Hl; cbn in Hl.
  - simplify_eq. split; [done|]. intros s Hs. by apply elem_of_nil in Hs.
  - destruct (successors s) as [r|] eqn:Hr; [|done]. destruct (IH _ Hl) as [Hacc Hrest]. split.
    + intros s' Hs'. apply Hacc, insert_all_spec. by right.
    + intros s' [->|Hs']%elem_of_cons; [|by apply Hrest]. exists r. split; [done|].
      intros s'' Hs''. apply Hacc, insert_all_spec. by left.
Qed.

Lemma explore_sound n l s k s' :
  explore n l = true -> s ∈ l -> reaches k s s' -> (k < n)%nat /\ sound s'.
Proof.
  revert l s k. induction n as [|n IH]; intros l s k Hex Hs Hr.
  - by destruct l; [apply elem_of_nil in Hs|].
  - destruct l as [|s0 l]; [by apply elem_of_nil in Hs|]. cbn in Hex.
    destruct (next_level (s0 :: l) []) as [l'|] eqn:Hn; unfold next_level in Hn; fold next_level in Hn; rewrite Hn in Hex; [|done].
    change (next_level (s0 :: l) [] = Some l') in Hn.
    destruct (next_level_spec _ _ _ Hn) as [_ Hnext]. destruct (Hnext s Hs) as (r & Hsucc & Hin).
    destruct (successors_spec _ _ Hsucc) as [Hsound Hstep].
    destruct Hr as [s|k c s s1 s2 o Hc Ha Hr]; [split; [lia|done]|].
    destruct (IH l' s1 k Hex) as [Hk ?]; [by eapply Hin, Hstep|done|]. split; [lia|done].
Qed.

(** A given sequence of choices. *)
Fixpoint run_choices (l : list choice) (s : sofia) : option (sofia + abort_reason) :=
  match l with
  | [] => Some (inl s)
  | c :: l =>
      if enabled s c then match act clock e c s with Ok _ s' _ => run_choices l s' | Abort r _ => Some (inr r) end
      else None
  end.

Lemma run_choices_reaches l s s' : run_choices l s = Some (inl s') -> reaches (length l) s s'.
Proof.
  revert s. induction l as [|c l IH]; intros s Hr; cbn in Hr; [simplify_eq; constructor|].
  destruct (enabled s c) eqn:Hc; [|done]. destruct (act clock e c s) as [[] s1 o|] eqn:Ha; [|done].
  by eapply reaches_step; [..|apply IH].
Qed.

End exploration.

(** ** Scenarios *)

#[local] Existing Instance demo_mdmcli.

(** The clock of the HAL; CTRL reads the time of [demo_env]. *)
Definition each_second (n : nat) : timespec := mk_timespec (Z.of_nat n) 0.

Definition start_request : crm_cli_abs_mdm_state * api_call := (MDM_STATE_OFF, CallStart).
Definition stop_request : crm_cli_abs_mdm_state * api_call := (MDM_STATE_READY, CallStop).
Definition restart_request : crm_cli_abs_mdm_state * api_call := (MDM_STATE_READY, CallRestart CTRL_MODEM_RESTART None).
Definition update_request : crm_cli_abs_mdm_state * api_call := (MDM_STATE_READY, CallRestart CTRL_MODEM_UPDATE None).
(** What CLA asks for when the modem is lost. *)
Definition recovery : crm_cli_abs_mdm_state * api_call := (MDM_STATE_BUSY, CallRestart CTRL_MODEM_RESTART None).
Definition stop_when_lost : crm_cli_abs_mdm_state * api_call := (MDM_STATE_BUSY, CallStop).

(** A configuration of the HAL ([dumps]: core dumps are enabled; [secvm]: the secure VM
    starts the modem), the requests of CLA, the faults of the modem (what sysfs reads after
    each: "off" for a self reset, "trap" for a crash that can be dumped), and whether the
    modem is to be up at the end. *)
Record scenario : Type := mk_scenario {
  sc_dumps : bool;
  sc_secvm : bool;
  sc_script : list (crm_cli_abs_mdm_state * api_call);
  sc_faults : list string;
  sc_up : bool;
}.

Definition sofia_hal (dumps secvm : bool) : HalSofia.crm_hal_ctx_internal :=
  mk_hal false "change@vmodem" "/dev/dump" "/dev/flash" dumps dumps secvm true false false (mk_timespec 0 0) 0 false "" 0 0.

Definition powered_off (sc : scenario) : sofia :=
  mk_sofia (mk_fsm_st Control.ST_INITIAL (crm_ctrl_init 1 90000 true demo_esc))
    (mk_fsm_st HalSofia.ST_INITIAL (sofia_hal (sc_dumps sc) (sc_secvm sc)))
    (crm_ipc_init (0, None) 3 4) (crm_ipc_init 0 5 6)
    (mk_world "off" 0 [] false false [] 0 (sc_script sc) false [] None (sc_faults sc)).

(** The HAL has started on a modem that is off. *)
Definition start_of (sc : scenario) : sofia :=
  match hal_runs (HalSofia.fsm_start each_second (fun _ => true) "1" (Some "off") []) (powered_off sc) with
  | Ok _ s _ => s
  | Abort _ _ => powered_off sc
  end.

(** Where the system should be in the end: modem, HAL and CTRL agree, CLA was told and has
    got a success for each of its requests. *)
Definition settled_up (s : sofia) : bool :=
  (state (ctrl_thread s) =? Control.ST_UP) && (state (hal_thread s) =? HalSofia.ST_RUN) && String.eqb (sysfs (outside s)) "on" &&
  bool_decide (told (outside s) = Some MDM_STATE_READY) && may_ask (outside s) && forallb (Z.eqb 0) (results (outside s)).
Definition settled_down (s : sofia) : bool :=
  (state (ctrl_thread s) =? Control.ST_DOWN) && (state (hal_thread s) =? HalSofia.ST_OFF) && String.eqb (sysfs (outside s)) "off" &&
  bool_decide (told (outside s) = Some MDM_STATE_OFF) && may_ask (outside s) && forallb (Z.eqb 0) (results (outside s)).
Definition settled_as (sc : scenario) (s : sofia) : bool := if sc_up sc then settled_up s else settled_down s.

Definition bools : list bool := [false; true].

(** Without faults, all requests on all platforms; with faults, a start, a restart or a
    stop on platforms where the HAL starts the modem. *)
Definition scenarios : list scenario :=
  (dumps ← bools; secvm ← bools;
   [mk_scenario dumps secvm [start_request] [] true;
    mk_scenario dumps secvm [start_request; restart_request] [] true;
    mk_scenario dumps secvm [start_request; update_request] [] true;
    mk_scenario dumps secvm [start_request; stop_request] [] false]) ++
  (dumps ← bools; faults ← [["off"]; ["trap"]; ["off"; "off"]; ["off"; "trap"]; ["trap"; "off"]; ["trap"; "trap"]];
   [mk_scenario dumps false [start_request; recovery; recovery] faults true]) ++
  (dumps ← bools;
   [mk_scenario dumps false [start_request; restart_request; recovery] ["off"] true;
    mk_scenario dumps false [start_request; stop_request; stop_when_lost] ["off"] false]).

Definition explored (sc : scenario) : bool := explore each_second demo_env (settled_as sc) 100 [start_of sc].

Lemma all_explored : forallb explored scenarios = true.
Proof. vm_compute. reflexivity. Qed.

(** CTRL and the HAL of SoFIA platforms, explored exhaustively on the runs of
    [scenarios] in the environment [demo_env], where the timers do not expire and
    the writes succeed: a start; a start and then a restart, an update or a stop,
    with either kind of firmware upload; up to two crashes or self resets of the
    modem at the moments at which the HAL has read the kernel's earlier events,
    CLA asking for a restart when it is told; a self reset that crosses a restart
    or a stop.  In every interleaving of CTRL, the HAL, their queues, the ping
    thread, the RPC daemon, the plugins and the driver no assertion fails, the
    run ends within a hundred steps, and where it ends CTRL, the HAL and the modem
    are all up (or all down), CLA has been told so and its requests have been
    answered with a success.  The runs at the end of the file are not among the
    scenarios, and abort. *)
Lemma sofia_system_settles sc n s :
  sc ∈ scenarios ->
  reaches each_second demo_env n (start_of sc) s ->
  (n < 100)%nat /\
  (forall c, enabled s c = true -> exists s' o, act each_second demo_env c s = Ok tt s' o) /\
  ((forall c, enabled s c = false) -> settled_as sc s = true).
Proof.
  intros Hsc Hr. pose proof all_explored as Hall. rewrite forallb_forall in Hall.
  apply list_elem_of_In, Hall in Hsc. unfold explored in Hsc.
  destruct (explore_sound _ _ _ _ _ _ _ _ Hsc (list_elem_of_here _ _) Hr) as [? [? ?]]. done.
Qed.

(** A crash while the RPC daemon starts. *)
Definition crash_run : list choice :=
  [CtrlMsg; Cla; CtrlMsg; HalMsg; CtrlMsg; CtrlMsg; Upload; CtrlMsg; Upload; CtrlMsg; HalMsg; Driver; HalUevent; HalPing;
   Fault; HalUevent; CtrlMsg; CtrlMsg].

Definition crash_scenario : scenario := mk_scenario false false [start_request; recovery; recovery] ["trap"] true.

Lemma crash_scenario_listed : crash_scenario ∈ scenarios.
Proof. apply list_elem_of_In. vm_compute. repeat (first [left; reflexivity | right]). Qed.

Lemma sofia_system_settles_witness :
  match run_choices each_second demo_env crash_run (start_of crash_scenario) with
  | Some (inl s) => state (ctrl_thread s) = Control.ST_PACKAGING /\
      forall c, enabled s c = true -> exists s' o, act each_second demo_env c s = Ok tt s' o
  | _ => False
  end.
Proof.
  destruct (run_choices each_second demo_env crash_run (start_of crash_scenario)) as [[s|r]|] eqn:Hrun;
    [|by vm_compute in Hrun..].
  pose proof (sofia_system_settles crash_scenario _ s crash_scenario_listed (run_choices_reaches _ _ _ _ _ Hrun)) as (_ & Hs & _).
  split; [|exact Hs]. vm_compute in Hrun. by injection Hrun as <-.
Defined.

(** ** Runs that end badly *)

(** The modem crashes while the HAL stops it: the HAL leaves STOPPING for NEED_RESETTING,
    where the "off" that the stop then brings about is refused. *)
Lemma crash_while_stopping_aborts :
  run_choices each_second demo_env
    [CtrlMsg; Cla; CtrlMsg; HalMsg; CtrlMsg; CtrlMsg; Upload; CtrlMsg; Upload; CtrlMsg; HalMsg; Driver; HalUevent; HalPing; HalRpcd;
     CtrlMsg; Cla; CtrlMsg; HalMsg; Fault; HalUevent; CtrlMsg; Driver; HalUevent]
    (start_of (mk_scenario false false [start_request; stop_request] ["trap"] false)) = Some (inr (AssertFail "0")).
Proof. vm_compute. reflexivity. Qed.

(** A self reset that crosses an update request: CTRL restarts the modem for the request
    and again for the report, and the second node to flash fails an assertion. *)
Lemma update_crossing_reset_aborts :
  run_choices each_second demo_env
    [CtrlMsg; Cla; CtrlMsg; HalMsg; CtrlMsg; CtrlMsg; Upload; CtrlMsg; Upload; CtrlMsg; HalMsg; Driver; HalUevent; HalPing; HalRpcd;
     CtrlMsg; Cla; Fault; HalUevent; CtrlMsg; CtrlMsg; CtrlMsg; HalMsg; CtrlMsg; CtrlMsg; HalMsg; CtrlMsg; CtrlMsg]
    (start_of (mk_scenario false false [start_request; update_request; recovery] ["off"] true)) =
  Some (inr (AssertFail "i_ctx->state.hal_evt == NULL")).
Proof. vm_compute. reflexivity. Qed.

(** With the secure VM the upload starts the modem: when it crashes before CTRL has asked
    for the boot, the request is refused, or the "off" is. *)
Lemma secvm_crash_before_boot_aborts :
  run_choices each_second demo_env
    [CtrlMsg; Cla; CtrlMsg; HalMsg; CtrlMsg; CtrlMsg; Upload; CtrlMsg; Upload; Driver; HalUevent; Fault; HalUevent; CtrlMsg; CtrlMsg;
     CtrlMsg; HalMsg]
    (start_of (mk_scenario false true [start_request; recovery] ["trap"] true)) =
  Some (inr (DAssertFail "Control request during modem transition. There is an error in control FSM")) /\
  run_choices each_second demo_env
    [CtrlMsg; Cla; CtrlMsg; HalMsg; CtrlMsg; CtrlMsg; Upload; CtrlMsg; Upload; Driver; HalUevent; Fault; HalUevent]
    (start_of (mk_scenario false true [start_request; recovery] ["off"] true)) = Some (inr (AssertFail "0")).
Proof. split; vm_compute; reflexivity. Qed.
