(* ===== verification/Daemons.v ===== *)
(** * Daemons of the HAL (plugins/hal/common/src/daemons.c, daemons.h)

    The HAL starts and stops Android services; each connects back to a local
    socket and registers under its name.  A connection is pending until it has
    registered.  The context is embedded in that of a HAL, which is reached
    through the class [DaemonStore]; the callback of the HAL is an argument.
    What the sockets give is the record [sock_env]. *)

From S2P Require Import Prelude.
From Stdlib Require Import ZArith Lia.
From stdpp Require Import base tactics list strings option.

Open Scope Z_scope.
Open Scope crm_scope.

Definition CRM_HAL_MAX_DAEMONS : Z := 2.
Definition CRM_PROPERTY_VALUE_MAX : Z := 92.
Definition POLLIN : Z := 1.

Inductive crm_hal_daemon_evt : Type := HAL_DAEMON_CONNECTED | HAL_DAEMON_DISCONNECTED | HAL_DAEMON_DATA_IN.

(** The result of [handle_poll], with the value stored in [*cb_ret]. *)
Inductive crm_hal_daemon_poll : Type :=
| HAL_DAEMON_POLL_NOT_HANDLED
| HAL_DAEMON_NO_CALLBACK_RETVALUE_SET
| HAL_DAEMON_CALLBACK_RETVALUE_SET (cb_ret : Z).

(** [has_cb] tells whether [callback] is set; it is the same for all. *)
Record crm_hal_daemons : Type := mk_daemon {
  d_name : option string;
  has_cb : bool;
  d_socket : Z;
  msg_to_read : Z;
}.

Record crm_hal_daemon_ctx : Type := mk_daemon_ctx {
  server_socket : Z;
  num_sockets : Z;
  d_pending : list Z;
  daemons : list crm_hal_daemons;
}.

Inductive daemon_out : Type :=
| CloseFd (fd : Z)
| ServiceStart (name : string)
| ServiceStop (name : string)
| DaemonSend (fd msg_id len : Z) (ok : bool)
| DaemonSendData (fd len : Z) (ok : bool).

(** What the sockets give during one call: the result of [accept], the header
    of a message, the size and the bytes of a registered name ([None]: the read
    fails). *)
Record sock_env : Type := mk_sock_env {
  accepted_fd : Z;
  msg_hdr : option (Z * Z);
  name_size : option Z;
  client_name : option string;
}.

(** Where the context is in that of the HAL. *)
Class DaemonStore (S O : Type) : Type := {
  dget : S -> crm_hal_daemon_ctx;
  dset : crm_hal_daemon_ctx -> S -> S;
  dout : daemon_out -> O;
  is_close : O -> bool;
}.

Class DaemonStoreLaws (S O : Type) `{DaemonStore S O} : Prop := {
  dget_dset d s : dget (dset d s) = d;
  dset_dset d d' s : dset d (dset d' s) = dset d s;
  dset_dget s : dset (dget s) s = s;
  is_close_dout x : is_close (dout x) = match x with CloseFd _ => true | _ => false end;
}.

Definition ids : list Z := seqZ 0 CRM_HAL_MAX_DAEMONS.

Section operations.
Context {S O : Type} `{DaemonStore S O}.
#[local] Abbreviation D_ A := (M S O A).

Definition on_daemons (f : crm_hal_daemon_ctx -> crm_hal_daemon_ctx) : D_ unit :=
  modify (fun s => dset (f (dget s)) s).
Definition set_num_sockets (f : Z -> Z) : D_ unit :=
  on_daemons (fun d => mk_daemon_ctx (server_socket d) (f (num_sockets d)) (d_pending d) (daemons d)).
Definition set_pending (i fd : Z) : D_ unit :=
  on_daemons (fun d => mk_daemon_ctx (server_socket d) (num_sockets d) (<[Z.to_nat i := fd]> (d_pending d)) (daemons d)).
Definition set_daemon (i : Z) (x : crm_hal_daemons) : D_ unit :=
  on_daemons (fun d => mk_daemon_ctx (server_socket d) (num_sockets d) (d_pending d) (<[Z.to_nat i := x]> (daemons d))).

(** Reading the arrays. *)
Definition get_pending (i : Z) : D_ Z :=
  let* s := get in
  match d_pending (dget s) !! Z.to_nat i with
  | Some fd => ret fd
  | None => fail (Undefined "pending[] out of bounds")
  end.
Definition get_daemon (i : Z) : D_ crm_hal_daemons :=
  let* s := get in
  match daemons (dget s) !! Z.to_nat i with
  | Some x => ret x
  | None => fail (Undefined "daemons[] out of bounds")
  end.

Definition close (fd : Z) : D_ unit := emit (dout (CloseFd fd)).

Definition crm_hal_daemon_init (fd : Z) : D_ unit :=
  on_daemons (fun _ => mk_daemon_ctx fd 0 (replicate (Z.to_nat CRM_HAL_MAX_DAEMONS) (-1))
    (replicate (Z.to_nat CRM_HAL_MAX_DAEMONS) (mk_daemon None false (-1) 0))) ;;
  DASSERT "Could not open control socket" (0 <=? fd).

Definition crm_hal_daemon_dispose : D_ unit :=
  for_each ids (fun i =>
    let* x := get_daemon i in
    when (0 <=? d_socket x)
      (close (d_socket x) ;; set_daemon i (mk_daemon (d_name x) (has_cb x) (-1) (msg_to_read x)))) ;;
  let* s := get in
  close (server_socket (dget s)) ;;
  on_daemons (fun d => mk_daemon_ctx (-1) (num_sockets d) (d_pending d) (daemons d)).

(** The descriptors to poll, in the order they are written to [pfd]. *)
Fixpoint add_sockets (l : list Z) (keep : Z -> bool) (fds : list Z) : D_ (list Z) :=
  match l with
  | [] => ret fds
  | fd :: l' =>
      if keep fd then
        ASSERT "n <= (1 + CRM_HAL_MAX_DAEMONS)" (Z.of_nat (length (fds ++ [fd])) <=? 1 + CRM_HAL_MAX_DAEMONS) ;;
        add_sockets l' keep (fds ++ [fd])
      else add_sockets l' keep fds
  end.

Definition connected (x : crm_hal_daemons) : option Z :=
  match d_name x with Some _ => if 0 <=? d_socket x then Some (d_socket x) else None | None => None end.

Definition crm_hal_daemon_get_sockets : D_ (list Z) :=
  let* s := get in
  ASSERT "ctx->server_socket >= 0" (0 <=? server_socket (dget s)) ;;
  let* fds := add_sockets (omap connected (daemons (dget s))) (fun _ => true) [server_socket (dget s)] in
  add_sockets (d_pending (dget s)) (fun fd => 0 <=? fd) fds.

(** The first [i] for which the test holds, [CRM_HAL_MAX_DAEMONS] when none. *)
Fixpoint find_id (l : list Z) (test : Z -> D_ bool) : D_ (option Z) :=
  match l with
  | [] => ret None
  | i :: l' => let* b := test i in if b then ret (Some i) else find_id l' test
  end.

Definition crm_hal_daemon_add (service_name : string) : D_ Z :=
  let* r := find_id ids (fun i => let* x := get_daemon i in ret (bool_decide (d_name x = None))) in
  match r with
  | None => DASSERT "Trying to register too many daemons" false ;; ret (-1)
  | Some i =>
      let* x := get_daemon i in
      set_daemon i (mk_daemon (Some service_name) true (-1) (msg_to_read x)) ;;
      emit (dout (ServiceStop service_name)) ;;
      ret i
  end.

Definition check_id (id : Z) : D_ unit :=
  ASSERT "id >= 0 && id < CRM_HAL_MAX_DAEMONS" ((0 <=? id) && (id <? CRM_HAL_MAX_DAEMONS)).

Definition get_name (x : crm_hal_daemons) : D_ string :=
  match d_name x with Some n => ret n | None => fail (AssertFail "ctx->daemons[id].name != NULL") end.

Definition crm_hal_daemon_start (id : Z) : D_ unit :=
  check_id id ;;
  let* x := get_daemon id in
  let* n := get_name x in
  ASSERT "ctx->daemons[id].socket == -1" (d_socket x =? -1) ;;
  emit (dout (ServiceStart n)).

Definition crm_hal_daemon_stop (id : Z) : D_ unit :=
  check_id id ;;
  let* x := get_daemon id in
  let* n := get_name x in
  emit (dout (ServiceStop n)) ;;
  when (0 <=? d_socket x)
    (close (d_socket x) ;;
     set_num_sockets (fun n => n - 1) ;;
     let* s := get in
     ASSERT "ctx->num_sockets >= 0" (0 <=? num_sockets (dget s)) ;;
     set_daemon id (mk_daemon (d_name x) (has_cb x) (-1) (msg_to_read x))).

Definition crm_hal_daemon_remove (id : Z) : D_ unit :=
  crm_hal_daemon_stop id ;;
  let* x := get_daemon id in
  set_daemon id (mk_daemon None (has_cb x) (d_socket x) (msg_to_read x)).

(** Sending the header, then the data ([has_data]: the pointer is not null);
    [ok] and [data_ok] tell whether the two writes succeed. *)
Definition crm_hal_daemon_msg_send (id msg_id : Z) (has_data : bool) (data_len : Z) (ok data_ok : bool) : D_ Z :=
  check_id id ;;
  ASSERT "data_len == 0 || data" ((data_len =? 0) || has_data) ;;
  let* x := get_daemon id in
  ASSERT "ctx->daemons[id].socket >= 0" (0 <=? d_socket x) ;;
  emit (dout (DaemonSend (d_socket x) msg_id data_len ok)) ;;
  if negb ok then ret (-1) else
  if 0 <? data_len then
    emit (dout (DaemonSendData (d_socket x) data_len data_ok)) ;;
    ret (if data_ok then data_len else -1)
  else ret data_len.

(** The bytes that follow the header, when the callback reads them. *)
Definition crm_hal_daemon_msg_read (id data_len : Z) (data : option string) : D_ Z :=
  check_id id ;;
  let* x := get_daemon id in
  ASSERT "msg_to_read > 0 && data_len >= msg_to_read" ((0 <? msg_to_read x) && (msg_to_read x <=? data_len)) ;;
  ASSERT "ctx->daemons[id].socket >= 0" (0 <=? d_socket x) ;;
  ret (match data with Some _ => msg_to_read x | None => -1 end).

(** ** [crm_hal_daemon_handle_poll] *)

Section poll.
Context (cb : Z -> crm_hal_daemon_evt -> Z -> Z -> D_ Z).

Definition callback (id : Z) (evt : crm_hal_daemon_evt) (msg_id msg_len : Z) : D_ crm_hal_daemon_poll :=
  let* x := get_daemon id in
  ASSERT "ctx->daemons[i].callback" (has_cb x) ;;
  let* r := cb id evt msg_id msg_len in
  ret (HAL_DAEMON_CALLBACK_RETVALUE_SET r).

(** An event on the server socket. *)
Definition poll_server (e : sock_env) (revents : Z) : D_ crm_hal_daemon_poll :=
  DASSERT "Event received" (revents =? POLLIN) ;;
  (if 0 <=? accepted_fd e then
     let* r := find_id ids (fun i => let* fd := get_pending i in ret (fd =? -1)) in
     let* s := get in
     match r with
     | Some i =>
         if num_sockets (dget s) <? CRM_HAL_MAX_DAEMONS then
           set_num_sockets (fun n => n + 1) ;; set_pending i (accepted_fd e)
         else close (accepted_fd e) ;; DASSERT "not able to handle incoming daemon connection" false
     | None => close (accepted_fd e) ;; DASSERT "not able to handle incoming daemon connection" false
     end
   else ret tt) ;;
  ret HAL_DAEMON_NO_CALLBACK_RETVALUE_SET.

(** The conversion of a length to [size_t]. *)
Definition size_t (n : Z) : Z := n mod 2 ^ 64.

(** An event on the socket of a registered daemon. *)
Definition poll_daemon (e : sock_env) (i revents : Z) : D_ crm_hal_daemon_poll :=
  match (if revents =? POLLIN then msg_hdr e else None) with
  | Some (msg_id, len) =>
      let* x := get_daemon i in
      set_daemon i (mk_daemon (d_name x) (has_cb x) (d_socket x) (size_t len)) ;;
      callback i HAL_DAEMON_DATA_IN msg_id (size_t len)
  | None =>
      let* x := get_daemon i in
      ASSERT "ctx->daemons[i].callback" (has_cb x) ;;
      crm_hal_daemon_stop i ;;
      callback i HAL_DAEMON_DISCONNECTED 0 0
  end.

(** [crm_socket_read(fd, client_name, name_size)] into the [92] bytes of
    [client_name], the size converted to [size_t]. *)
Definition read_name (e : sock_env) (size : Z) : D_ (option string) :=
  ASSERT "data_size > 0" (negb (size =? 0)) ;;
  if size <? 0 then fail (Undefined "read past the end of client_name")
  else ret (client_name e).

(** The search of the registered daemon; the result of the call so far and
    [close_socket]. *)
Fixpoint register_loop (l : list Z) (i : Z) (name : string) (acc : crm_hal_daemon_poll * bool)
    : D_ (crm_hal_daemon_poll * bool) :=
  match l with
  | [] => ret acc
  | id :: l' =>
      let* x := get_daemon id in
      if bool_decide (d_name x = Some name) then
        if 0 <=? d_socket x then
          crm_hal_daemon_remove id ;;
          let* r := callback id HAL_DAEMON_DISCONNECTED 0 0 in
          register_loop l' i name (r, acc.2)
        else
          let* fd := get_pending i in
          set_daemon id (mk_daemon (d_name x) (has_cb x) fd (msg_to_read x)) ;;
          set_pending i (-1) ;;
          let* r := callback id HAL_DAEMON_CONNECTED 0 0 in
          register_loop l' i name (r, false)
      else register_loop l' i name acc
  end.

(** An event on the socket of a connection that has not registered. *)
Definition poll_pending (e : sock_env) (i revents : Z) : D_ crm_hal_daemon_poll :=
  let* r :=
    (match (if revents =? POLLIN then name_size e else None) with
     | Some size =>
         if size <? CRM_PROPERTY_VALUE_MAX then
           let* name := read_name e size in
           match name with
           | Some n => register_loop ids i n (HAL_DAEMON_NO_CALLBACK_RETVALUE_SET, true)
           | None => ret (HAL_DAEMON_NO_CALLBACK_RETVALUE_SET, true)
           end
         else ret (HAL_DAEMON_NO_CALLBACK_RETVALUE_SET, true)
     | None => ret (HAL_DAEMON_NO_CALLBACK_RETVALUE_SET, true)
     end) in
  let '(code, close_socket) := r in
  when close_socket
    (let* fd := get_pending i in
     close fd ;;
     set_pending i (-1) ;;
     set_num_sockets (fun n => n - 1) ;;
     let* s := get in
     ASSERT "ctx->num_sockets >= 0" (0 <=? num_sockets (dget s))) ;;
  ret code.

Definition crm_hal_daemon_handle_poll (e : sock_env) (fd revents : Z) : D_ crm_hal_daemon_poll :=
  let* s := get in
  if fd =? server_socket (dget s) then poll_server e revents else
  let* r := find_id ids (fun i => let* x := get_daemon i in ret (fd =? d_socket x)) in
  match r with
  | Some i => poll_daemon e i revents
  | None =>
      let* r := find_id ids (fun i => let* p := get_pending i in ret (fd =? p)) in
      match r with
      | Some i => poll_pending e i revents
      | None => ret HAL_DAEMON_POLL_NOT_HANDLED
      end
  end.

End poll.
End operations.
