(* ===== verification/DaemonsTheory.v ===== *)
(** * Sockets of the daemons

    Every descriptor that is accepted is in one of the two arrays until it is
    closed, and [num_sockets] counts them. *)

From S2P Require Import Prelude Daemons.
From Stdlib Require Import ZArith Lia.
From stdpp Require Import base tactics list strings option.

Open Scope Z_scope.
Open Scope crm_scope.

(** ** Counting descriptors *)

Definition op (fd : Z) : Z := if 0 <=? fd then 1 else 0.

Fixpoint zsum (l : list Z) : Z := match l with [] => 0 | x :: l' => x + zsum l' end.

Lemma zsum_insert {A} (f : A -> Z) l i x y :
  l !! i = Some y -> zsum (f <$> <[i := x]> l) = zsum (f <$> l) - f y + f x.
Proof.
  revert i. induction l as [|z l IH]; intros [|i] Hi; [done..| |].
  - injection Hi as ->. cbn. lia.
  - change (f z + zsum (f <$> <[i := x]> l) = f z + zsum (f <$> l) - f y + f x). rewrite (IH i Hi). lia.
Qed.

Lemma op_range fd : 0 <= op fd <= 1.
Proof. unfold op. destruct (0 <=? fd); lia. Qed.

Lemma zsum_op_nonneg {A} (f : A -> Z) l : 0 <= zsum ((fun x => op (f x)) <$> l).
Proof. induction l as [|x l IH]; cbn; [lia|]. pose proof (op_range (f x)). lia. Qed.

Lemma zsum_op_elem {A} (f : A -> Z) l i x : l !! i = Some x -> op (f x) <= zsum ((fun x => op (f x)) <$> l).
Proof.
  revert i. induction l as [|y l IH]; intros [|i] Hi; cbn in *; [done..| |].
  - injection Hi as ->. pose proof (zsum_op_nonneg f l). lia.
  - specialize (IH i Hi). pose proof (op_range (f y)). lia.
Qed.

Definition open_count (d : crm_hal_daemon_ctx) : Z :=
  zsum (op <$> d_pending d) + zsum ((fun x => op (d_socket x)) <$> daemons d).

(** ** Invariant *)

Definition daemon_ok (x : crm_hal_daemons) : Prop :=
  -1 <= d_socket x /\ (0 <= d_socket x -> is_Some (d_name x)) /\ (is_Some (d_name x) -> has_cb x = true).

Record daemons_ok (d : crm_hal_daemon_ctx) : Prop := {
  ok_pending : Z.of_nat (length (d_pending d)) = CRM_HAL_MAX_DAEMONS;
  ok_daemons : Z.of_nat (length (daemons d)) = CRM_HAL_MAX_DAEMONS;
  ok_num : num_sockets d = open_count d;
  ok_max : num_sockets d <= CRM_HAL_MAX_DAEMONS;
  ok_fds : Forall (fun fd => -1 <= fd) (d_pending d);
  ok_each : Forall daemon_ok (daemons d);
}.

Lemma daemons_ok_init fd :
  daemons_ok (mk_daemon_ctx fd 0 (replicate (Z.to_nat CRM_HAL_MAX_DAEMONS) (-1))
    (replicate (Z.to_nat CRM_HAL_MAX_DAEMONS) (mk_daemon None false (-1) 0))).
Proof.
  split; cbn; try done; repeat first [apply Forall_nil_2 | apply Forall_cons_2; [try done|]].
  all: split_and!; cbn; first [lia | by eauto | by intros [? ?]].
Qed.

(** The aborts the daemons can cause: a failure of the environment or a
    misuse, never one of the counter or of the arrays. *)
Definition daemon_reason (r : abort_reason) : bool :=
  match r with
  | AssertFail exp =>
      bool_decide (exp ∈ ["ctx->daemons[id].name != NULL"; "ctx->daemons[id].socket == -1";
                          "ctx->daemons[id].socket >= 0"; "data_size > 0"; "data_len == 0 || data"]%string)
  | DAssertFail log => bool_decide (log ∈ ["Event received"; "not able to handle incoming daemon connection"]%string)
  | Undefined what => bool_decide (what = "read past the end of client_name"%string)
  | Stuck _ | Exited _ => false
  end.

Section theory.
Context {S O : Type} `{DaemonStoreLaws S O}.
Implicit Types (s : S) (o : list O).
#[local] Abbreviation D_ A := (M S O A).

Definition closes o : Z := zsum ((fun x => if is_close x then 1 else 0) <$> o).

#[local] Arguments closes : simpl never.

Lemma closes_app o1 o2 : closes (o1 ++ o2) = closes o1 + closes o2.
Proof. unfold closes. induction o1 as [|x o1 IH]; cbn; [done|]. rewrite IH. lia. Qed.

(** The rest of the HAL's context is framed: [R] relates the contexts before
    and after, [P] holds of what is emitted. *)
Context (R : S -> S -> Prop) (P : O -> Prop).
Context `{!PreOrder R}.
Hypothesis R_dset : forall d s, R s (dset d s).
Hypothesis P_dout : forall x, P (dout x).

Record framed s s' o : Prop := {
  fr_server : server_socket (dget s') = server_socket (dget s);
  fr_rest : R s s';
  fr_out : Forall P o;
}.

(** What a call does: the invariant holds, and [n] descriptors have been
    opened, the others of before being still open or closed. *)
Definition accounted (n : Z) s s' o : Prop :=
  daemons_ok (dget s') /\ num_sockets (dget s') + closes o = num_sockets (dget s) + n /\ framed s s' o.

Lemma framed_refl s : framed s s [].
Proof. split; done. Qed.

Lemma framed_trans s s1 s2 o1 o2 : framed s s1 o1 -> framed s1 s2 o2 -> framed s s2 (o1 ++ o2).
Proof.
  intros [A1 A2 A3] [B1 B2 B3]. split; [congruence|by etrans|by apply Forall_app].
Qed.

Lemma framed_dset d s o : server_socket d = server_socket (dget s) -> Forall P o -> framed s (dset d s) o.
Proof. intros Hs Ho. split; [by rewrite dget_dset|apply R_dset|done]. Qed.

(** The same when nothing is opened and the pending connections are not
    touched. *)
Definition kept s s' o : Prop := accounted 0 s s' o /\ d_pending (dget s') = d_pending (dget s).

Lemma accounted_refl s : daemons_ok (dget s) -> accounted 0 s s [].
Proof. intros Hd. split; [done|]. split; [unfold closes; cbn; lia|apply framed_refl]. Qed.

Lemma accounted_trans n m s s1 s2 o1 o2 :
  accounted n s s1 o1 -> accounted m s1 s2 o2 -> accounted (n + m) s s2 (o1 ++ o2).
Proof. intros (_ & A & A') (B1 & B2 & B3). split; [done|]. rewrite closes_app. split; [lia|by eapply framed_trans]. Qed.

Lemma kept_refl s : daemons_ok (dget s) -> kept s s [].
Proof. intros Hd. split; [by apply accounted_refl|done]. Qed.

Lemma kept_trans s s1 s2 o1 o2 : kept s s1 o1 -> kept s1 s2 o2 -> kept s s2 (o1 ++ o2).
Proof. intros [A A'] [B B']. split; [by eapply (accounted_trans 0 0)|congruence]. Qed.

Lemma kept_accounted n s s1 s2 o1 o2 : kept s s1 o1 -> accounted n s1 s2 o2 -> accounted n s s2 (o1 ++ o2).
Proof. intros [A _] B. by eapply (accounted_trans 0 n). Qed.

Lemma lookup_some {A} (l : list A) i : Z.of_nat (length l) = CRM_HAL_MAX_DAEMONS -> i ∈ ids -> exists x, l !! Z.to_nat i = Some x.
Proof.
  unfold ids, CRM_HAL_MAX_DAEMONS. intros Hl Hi. apply elem_of_seqZ in Hi.
  apply lookup_lt_is_Some_2. lia.
Qed.

Lemma wp_get_daemon i s E (Q : crm_hal_daemons -> S -> list O -> Prop) :
  daemons_ok (dget s) -> i ∈ ids ->
  (forall x, daemons (dget s) !! Z.to_nat i = Some x -> daemon_ok x -> Q x s []) ->
  wp (get_daemon i) s E Q.
Proof.
  intros Hd Hi HQ. unfold get_daemon. apply wp_bind, wp_get.
  destruct (lookup_some _ i (ok_daemons _ Hd) Hi) as [x Hx]. rewrite Hx. apply wp_ret, HQ; [done|].
  eapply Forall_lookup_1; [apply Hd|exact Hx].
Qed.

Lemma wp_get_pending i s E (Q : Z -> S -> list O -> Prop) :
  daemons_ok (dget s) -> i ∈ ids ->
  (forall fd, d_pending (dget s) !! Z.to_nat i = Some fd -> -1 <= fd -> Q fd s []) ->
  wp (get_pending i) s E Q.
Proof.
  intros Hd Hi HQ. unfold get_pending. apply wp_bind, wp_get.
  destruct (lookup_some _ i (ok_pending _ Hd) Hi) as [x Hx]. rewrite Hx. apply wp_ret, HQ; [done|].
  eapply (Forall_lookup_1 (fun fd => -1 <= fd)); [apply Hd|exact Hx].
Qed.

(** The search returns an index for which the test has held. *)
Lemma wp_find_id {E} l (test : Z -> D_ bool) s (T : Z -> Prop) (Q : option Z -> S -> list O -> Prop) :
  (forall i, i ∈ l -> wp (test i) s E (fun b s' o => s' = s /\ o = [] /\ (b = true -> T i))) ->
  (forall i, i ∈ l -> T i -> Q (Some i) s []) -> Q None s [] ->
  wp (find_id l test) s E Q.
Proof.
  revert Q. induction l as [|i l IH]; intros Q Ht Hs Hn; cbn [find_id]; [by apply wp_ret|].
  apply wp_bind. eapply wp_mono; [apply Ht; by left|done|]. intros b s' o (-> & -> & Hb). cbn.
  destruct b; [apply wp_ret, Hs; [by left|by apply Hb]|]. apply IH; [|intros; apply Hs; [by right|done]|done].
  intros j Hj. apply Ht. by right.
Qed.

(** Replacing an entry. *)
Lemma wp_set_daemon {E} i x y s (Q : unit -> S -> list O -> Prop) :
  daemons (dget s) !! Z.to_nat i = Some y -> daemons_ok (dget s) -> daemon_ok x ->
  op (d_socket x) = op (d_socket y) ->
  (forall s', daemons_ok (dget s') -> num_sockets (dget s') = num_sockets (dget s) ->
    framed s s' [] -> d_pending (dget s') = d_pending (dget s) ->
    daemons (dget s') = <[Z.to_nat i := x]> (daemons (dget s)) -> Q tt s' []) ->
  wp (set_daemon i x) s E Q.
Proof.
  intros Hy [A1 A2 A3 A4 A5 A6] Hx Hop HQ. unfold set_daemon, on_daemons. apply wp_modify.
  apply HQ; rewrite ?dget_dset; try done; [|by apply framed_dset]. split; cbn; try done.
  - by rewrite length_insert.
  - rewrite A3. unfold open_count. cbn. rewrite (zsum_insert (fun x => op (d_socket x)) _ _ _ _ Hy). lia.
  - by apply Forall_insert.
Qed.


Variable E : abort_reason -> Prop.
Hypothesis E_daemon : forall r, daemon_reason r = true -> E r.

Lemma closes_emit x : closes [dout x] = match x with CloseFd _ => 1 | _ => 0 end.
Proof. unfold closes. cbn. rewrite is_close_dout. by destruct x. Qed.

Lemma op_open fd : 0 <= fd -> op fd = 1.
Proof. unfold op. intros Hf. by destruct (Z.leb_spec 0 fd); [|lia]. Qed.

Lemma op_shut fd : fd < 0 -> op fd = 0.
Proof. unfold op. intros Hf. by destruct (Z.leb_spec 0 fd); [lia|]. Qed.

(** Closing the descriptor of a daemon. *)
Lemma daemons_ok_shut d i x :
  daemons_ok d -> daemons d !! i = Some x -> 0 <= d_socket x -> daemon_ok x ->
  daemons_ok (mk_daemon_ctx (server_socket d) (num_sockets d - 1) (d_pending d)
    (<[i := mk_daemon (d_name x) (has_cb x) (-1) (msg_to_read x)]> (daemons d))) /\ 1 <= num_sockets d.
Proof.
  intros [A1 A2 A3 A4 A5 A6] Hx Hs (B1 & B2 & B3). split.
  - split; cbn; try done; try lia.
    + by rewrite length_insert.
    + rewrite A3. unfold open_count. cbn. rewrite (zsum_insert (fun x => op (d_socket x)) _ _ _ _ Hx).
      cbn [d_socket]. rewrite (op_open (d_socket x)), (op_shut (-1)) by lia. lia.
    + apply Forall_insert; [done|]. split; cbn; [lia|]. split; [lia|done].
  - rewrite A3. unfold open_count. pose proof (zsum_op_nonneg (fun x => x) (d_pending d)) as Hp.
    pose proof (zsum_op_elem d_socket _ _ _ Hx) as He. rewrite op_open in He by done.
    change (zsum (op <$> d_pending d)) with (zsum ((fun x => op x) <$> d_pending d)). lia.
Qed.

Lemma wp_check_id i s : i ∈ ids -> wp (check_id i) s E (fun _ s' (o : list O) => s' = s /\ o = []).
Proof.
  intros Hi. unfold check_id. apply wp_ASSERT; [done|].
  unfold ids, CRM_HAL_MAX_DAEMONS in *. apply elem_of_seqZ in Hi. intros Hb. exfalso.
  destruct (Z.leb_spec 0 i), (Z.ltb_spec i 2); try done; lia.
Qed.

Lemma kept_silent s x : daemons_ok (dget s) -> (forall fd, x <> CloseFd fd) -> kept s s [dout x].
Proof.
  intros Hd Hx. split; [|done]. split; [done|]. rewrite closes_emit. split.
  - destruct x; try lia. by destruct (Hx fd).
  - split; [done..|]. by repeat constructor.
Qed.

Lemma wp_stop i s :
  daemons_ok (dget s) -> i ∈ ids ->
  wp (crm_hal_daemon_stop i) s E (fun _ s' o => kept s s' o /\
    exists x, daemons (dget s') !! Z.to_nat i = Some x /\ d_socket x = -1 /\ has_cb x = true /\
      is_Some (d_name x)).
Proof.
  intros Hd Hi. unfold crm_hal_daemon_stop, get_name, close, set_num_sockets, set_daemon, on_daemons.
  apply wp_bind. eapply wp_mono; [by apply wp_check_id|done|]. intros [] ? ? (-> & ->).
  apply wp_bind, wp_get_daemon; [done..|]. intros x Hx Hok. destruct (Hok) as (B1 & B2 & B3).
  destruct (d_name x) as [n|] eqn:Hn; [|by apply wp_bind, wp_fail, E_daemon]. specialize (B3 ltac:(by eexists)).
  apply wp_bind, wp_ret, wp_bind, wp_emit, wp_when; intros Hs; bool_facts.
  - apply wp_bind, wp_emit, wp_bind, wp_modify, wp_bind, wp_get, wp_bind.
    rewrite dget_dset. cbn [num_sockets].
    destruct (daemons_ok_shut _ _ _ Hd Hx Hs Hok) as [Hd' Hn1].
    apply wp_ASSERT; [intros _|intros; bool_facts; lia]. apply wp_modify. rewrite !dget_dset, dset_dset. cbn.
    split.
    + unfold kept, accounted. rewrite ?dget_dset. cbn. rewrite <-Hn. split; [|done]. split; [done|].
      unfold closes. cbn. rewrite !is_close_dout. cbn. split; [lia|].
      apply framed_dset; [done|]. by repeat constructor.
    + eexists. split; [apply list_lookup_insert_eq; by eapply lookup_lt_Some|].
      cbn. rewrite ?Hn. by split_and!.
  - split; [|exists x; split_and!; [done|lia|done|rewrite Hn; by eexists]].
    split; [|done]. split; [done|]. cbn [app]. rewrite closes_emit. split; [lia|].
    split; [done..|]. by repeat constructor.
Qed.

Lemma wp_remove i s :
  daemons_ok (dget s) -> i ∈ ids ->
  wp (crm_hal_daemon_remove i) s E (fun _ s' o => kept s s' o /\
    exists x, daemons (dget s') !! Z.to_nat i = Some x /\ has_cb x = true).
Proof.
  intros Hd Hi. unfold crm_hal_daemon_remove. apply wp_bind. eapply wp_mono; [by apply wp_stop|done|].
  intros [] s1 o1 (((A1 & A2 & A3) & A4) & x & Hx & Hs & Hc & _). apply wp_bind, wp_get_daemon; [done..|].
  intros y Hy Hok. rewrite Hx in Hy. injection Hy as <-.
  eapply wp_set_daemon; [exact Hx|done| |done|].
  - split; cbn; [lia|]. split; [lia|]. by intros [? ?].
  - intros s2 B1 B2 B3 B4 B5. cbn. rewrite app_nil_r. split; [split; [split; [done|]; split; [lia|]|congruence]|].
    { rewrite <-(app_nil_r o1). by eapply framed_trans. }
    rewrite B5. eexists. split; [apply list_lookup_insert_eq; by eapply lookup_lt_Some|done].
Qed.

Lemma wp_add name s Q :
  daemons_ok (dget s) ->
  (forall r s' o, kept s s' o -> Q r s' o) ->
  wp (crm_hal_daemon_add name) s any_abort Q.
Proof.
  intros Hd HQ. unfold crm_hal_daemon_add. apply wp_bind.
  set (T := fun i => exists x, daemons (dget s) !! Z.to_nat i = Some x /\ d_name x = None).
  apply (wp_find_id ids _ s T).
  - intros i Hi. apply wp_bind, wp_get_daemon; [done..|]. intros x Hx _. apply wp_ret. split_and!; [done..|].
    intros Hb. bool_facts. by exists x.
  - intros i Hi (x & Hx & Hn).
    apply wp_bind, wp_get_daemon; [done..|]. intros y Hy (B1 & B2 & B3). rewrite Hx in Hy. injection Hy as <-.
    assert (d_socket x < 0) as Hsock.
    { destruct (Z.ltb_spec (d_socket x) 0) as [|Hge]; [done|]. destruct (B2 Hge) as [? Hc]. by rewrite Hn in Hc. }
    apply wp_bind. eapply wp_set_daemon; [exact Hx|done|..].
    + split; cbn; [lia|]. split; [lia|done].
    + cbn [d_socket]. by rewrite !op_shut by lia.
    + intros s1 C1 C2 C3 C4 C5. apply wp_bind, wp_emit, wp_ret. cbn. apply HQ.
      eapply (kept_trans _ s1 _ []); [|by apply kept_silent].
      split; [|done]. split; [done|]. split; [unfold closes; cbn; lia|done].
  - by apply wp_bind, wp_DASSERT.
Qed.

Lemma wp_start i s :
  daemons_ok (dget s) -> i ∈ ids -> wp (crm_hal_daemon_start i) s E (fun _ s' o => kept s s' o).
Proof.
  intros Hd Hi. unfold crm_hal_daemon_start. apply wp_bind. eapply wp_mono; [by apply wp_check_id|done|].
  intros [] ? ? (-> & ->). apply wp_bind, wp_get_daemon; [done..|]. intros x Hx _. unfold get_name.
  destruct (d_name x); [|by apply wp_bind, wp_fail, E_daemon].
  apply wp_bind, wp_ret, wp_bind, wp_ASSERT; [intros _|by intros; apply E_daemon]. apply wp_emit.
  by apply kept_silent.
Qed.

Lemma wp_msg_send i m b n ok ok' s :
  daemons_ok (dget s) -> i ∈ ids -> wp (crm_hal_daemon_msg_send i m b n ok ok') s E (fun _ s' o => kept s s' o).
Proof.
  intros Hd Hi. unfold crm_hal_daemon_msg_send. apply wp_bind. eapply wp_mono; [by apply wp_check_id|done|].
  intros [] ? ? (-> & ->). apply wp_bind, wp_ASSERT; [intros _|by intros; apply E_daemon].
  apply wp_bind, wp_get_daemon; [done..|]. intros x Hx _.
  apply wp_bind, wp_ASSERT; [intros _|by intros; apply E_daemon]. apply wp_bind, wp_emit.
  destruct (negb ok); [apply wp_ret; by apply kept_silent|].
  destruct (0 <? n); [apply wp_bind, wp_emit, wp_ret|apply wp_ret; by apply kept_silent]. cbn.
  eapply (kept_trans _ s _ [_] [_]); by apply kept_silent.
Qed.

(** ** Events of the sockets *)

Section poll.
Context (cb : Z -> crm_hal_daemon_evt -> Z -> Z -> D_ Z).
Context (T : Z -> Prop).
Hypothesis cb_ok : forall id evt m n s, id ∈ ids -> daemons_ok (dget s) ->
  wp (cb id evt m n) s E (fun r s' o => kept s s' o /\ T r).

(** What the call answers comes from the callback. *)
Definition answer_ok (r : crm_hal_daemon_poll) : Prop :=
  match r with HAL_DAEMON_CALLBACK_RETVALUE_SET v => T v | _ => True end.

Lemma wp_callback i evt m n s x :
  daemons_ok (dget s) -> i ∈ ids -> daemons (dget s) !! Z.to_nat i = Some x -> has_cb x = true ->
  wp (callback cb i evt m n) s E (fun r s' o => kept s s' o /\ answer_ok r).
Proof.
  intros Hd Hi Hx Hc. unfold callback. apply wp_bind, wp_get_daemon; [done..|]. intros y Hy _.
  rewrite Hx in Hy. injection Hy as <-. rewrite Hc. apply wp_bind, wp_ASSERT; [intros _|done].
  apply wp_bind. eapply wp_mono; [by apply cb_ok|done|]. intros r s' o [Ha Hr]. apply wp_ret. by rewrite app_nil_r.
Qed.

Lemma wp_poll_server e revents s :
  daemons_ok (dget s) ->
  wp (poll_server e revents) s E (fun r s' o => accounted (op (accepted_fd e)) s s' o /\ answer_ok r).
Proof.
  intros Hd. unfold poll_server, close, set_num_sockets, set_pending, on_daemons.
  apply wp_bind, wp_DASSERT; [intros _|by intros; apply E_daemon]. apply wp_bind. unfold op at 1.
  destruct (Z.leb_spec 0 (accepted_fd e)) as [Ha|Ha].
  2: { apply wp_ret, wp_ret. by split; [apply accounted_refl|]. }
  apply wp_bind, (wp_find_id _ _ _ (fun i => d_pending (dget s) !! Z.to_nat i = Some (-1))).
  - intros i Hi. apply wp_bind, wp_get_pending; [done..|]. intros fd Hf _. apply wp_ret. split_and!; [done..|].
    intros Hm. bool_facts. by subst.
  - intros i Hi Hp. apply wp_bind, wp_get. destruct (Z.ltb_spec (num_sockets (dget s)) CRM_HAL_MAX_DAEMONS) as [Hlt|].
    2: { apply wp_bind, wp_emit, wp_DASSERT; [done|]. intros _. by apply E_daemon. }
    apply wp_bind, wp_modify, wp_modify, wp_ret. split; [|done]. unfold accounted. rewrite !dget_dset. cbn.
    destruct Hd as [A1 A2 A3 A4 A5 A6]. split; [|split; [unfold closes; cbn; lia|]].
    2: { rewrite dset_dset. by apply framed_dset. }
    split; cbn; try done.
    + by rewrite length_insert.
    + rewrite A3. unfold open_count. cbn. pose proof (zsum_insert op _ _ (accepted_fd e) _ Hp) as Hz.
      rewrite Hz, (op_open (accepted_fd e)), (op_shut (-1)) by lia. lia.
    + lia.
    + apply Forall_insert; [done|lia].
  - apply wp_bind, wp_get, wp_bind, wp_emit, wp_DASSERT; [done|]. intros _. by apply E_daemon.
Qed.

Lemma wp_poll_daemon e i revents s :
  daemons_ok (dget s) -> i ∈ ids -> (exists x, daemons (dget s) !! Z.to_nat i = Some x /\ 0 <= d_socket x) ->
  wp (poll_daemon cb e i revents) s E (fun r s' o => kept s s' o /\ answer_ok r).
Proof.
  intros Hd Hi (x & Hx & Hs). unfold poll_daemon.
  destruct (if revents =? POLLIN then msg_hdr e else None) as [[msg_id len]|].
  - apply wp_bind, wp_get_daemon; [done..|]. intros y Hy Hok. rewrite Hx in Hy. injection Hy as <-.
    apply wp_bind. eapply wp_set_daemon; [exact Hx|done|done|done|]. intros s1 B1 B2 B3 B4 B5.
    eapply wp_mono; [eapply wp_callback; [done|done| |]|done|].
    + rewrite B5. apply list_lookup_insert_eq. by eapply lookup_lt_Some.
    + cbn. destruct Hok as (? & Hn & Hc). auto.
    + intros ? s2 o2 (((C1 & C2 & C3) & C4) & C5). cbn. split; [|done]. split; [|congruence]. split; [done|]. split; [lia|by eapply (framed_trans _ _ _ [])].
  - apply wp_bind, wp_get_daemon; [done..|]. intros y Hy (B1 & B2 & B3). rewrite Hx in Hy. injection Hy as <-.
    apply wp_bind, wp_ASSERT; [intros _|intros Hc; rewrite B3 in Hc; auto].
    apply wp_bind. eapply wp_mono; [by apply wp_stop|done|]. intros [] s1 o1 (A & y & Hy & _ & Hc & _).
    eapply wp_mono; [eapply wp_callback; [apply A|done|exact Hy|done]|done|].
    intros r s2 o2 [A2 Hr]. cbn. split; [by eapply kept_trans|done].
Qed.


(** A pending connection becomes that of a daemon. *)
Lemma daemons_ok_move d id i x fd :
  daemons_ok d -> daemons d !! id = Some x -> daemon_ok x -> d_socket x < 0 -> is_Some (d_name x) ->
  d_pending d !! i = Some fd -> -1 <= fd ->
  daemons_ok (mk_daemon_ctx (server_socket d) (num_sockets d) (<[i := -1]> (d_pending d))
    (<[id := mk_daemon (d_name x) (has_cb x) fd (msg_to_read x)]> (daemons d))).
Proof.
  intros [A1 A2 A3 A4 A5 A6] Hx (B1 & B2 & B3) Hs Hn Hp Hf. split; cbn; try done; rewrite ?length_insert; try done.
  - rewrite A3. unfold open_count. cbn. rewrite (zsum_insert (fun x => op (d_socket x)) _ _ _ _ Hx).
    pose proof (zsum_insert op _ _ (-1) _ Hp) as Hz. rewrite Hz. cbn [d_socket].
    rewrite (op_shut (d_socket x)), (op_shut (-1)) by lia. lia.
  - apply Forall_insert; [done|lia].
  - apply Forall_insert; [done|]. by split.
Qed.

(** The connection stays where it was as long as it has to be closed. *)
Lemma wp_register_loop l i name acc s fd :
  daemons_ok (dget s) -> i ∈ ids -> l ⊆ ids ->
  (acc.2 = true -> d_pending (dget s) !! Z.to_nat i = Some fd) -> answer_ok acc.1 ->
  wp (register_loop cb l i name acc) s E (fun acc' s' o =>
    accounted 0 s s' o /\ answer_ok acc'.1 /\ (acc'.2 = true -> d_pending (dget s') !! Z.to_nat i = Some fd)).
Proof.
  intros Hd Hi Hl Ha Hr. revert acc s Hd Ha Hr.
  induction l as [|id l IH]; intros acc s Hd Ha Hr; cbn [register_loop].
  { apply wp_ret. split; [by apply accounted_refl|done]. }
  assert (id ∈ ids) as Hid by (apply Hl; by left).
  assert (l ⊆ ids) as Hl' by (intros j Hj; apply Hl; by right).
  apply wp_bind, wp_get_daemon; [done..|]. intros x Hx Hok.
  destruct (bool_decide_reflect (d_name x = Some name)) as [Hn|_].
  2: { by apply IH. }
  destruct (Z.leb_spec 0 (d_socket x)) as [Hs|Hs].
  - apply wp_bind. eapply wp_mono; [by apply wp_remove|done|]. intros [] s1 o1 (K1 & y & Hy & Hc).
    apply wp_bind. eapply wp_mono; [eapply wp_callback; [apply K1|done|exact Hy|done]|done|].
    intros r s2 o2 [K2 Hr']. eapply wp_mono; [apply IH; [done|apply K2| |done]|done|].
    + intros Ht. destruct K1 as [_ E1], K2 as [_ E2]. rewrite E2, E1. auto.
    + intros acc' s3 o3 [A3 Hp]. split; [|done]. cbn.
      eapply kept_accounted; [exact K1|]. eapply kept_accounted; [exact K2|exact A3].
  - unfold set_daemon, set_pending, on_daemons. apply wp_bind, wp_get_pending; [done..|]. intros fd' Hf Hge.
    apply wp_bind, wp_modify, wp_bind, wp_modify.
    pose proof (daemons_ok_move _ _ _ _ _ Hd Hx Hok Hs ltac:(by rewrite Hn) Hf Hge) as Hm.
    rewrite dget_dset, dset_dset. cbn.
    set (s1 := dset _ s). assert (daemons_ok (dget s1)) as Hd1 by (unfold s1; by rewrite dget_dset).
    apply wp_bind. eapply wp_mono; [eapply (wp_callback id); [done|done| |]|done|].
    + unfold s1. rewrite dget_dset. cbn. apply list_lookup_insert_eq. by eapply lookup_lt_Some.
    + cbn. apply Hok. by rewrite Hn.
    + intros r s2 o2 [K2 Hr']. eapply wp_mono; [by apply IH; [|apply K2| |]|done|].
      intros acc' s3 o3 [A3 Hp]. split; [|done]. cbn.
      eapply (accounted_trans 0 0 _ s1 _ []); [|eapply kept_accounted; [exact K2|exact A3]].
      unfold accounted. unfold s1 at 1 2. rewrite dget_dset. cbn. unfold closes. cbn. split; [done|].
      split; [lia|by apply framed_dset].
Qed.

Lemma ids_refl : ids ⊆ ids.
Proof. done. Qed.

Lemma wp_poll_pending e i revents s fd :
  daemons_ok (dget s) -> i ∈ ids -> d_pending (dget s) !! Z.to_nat i = Some fd -> 0 <= fd ->
  wp (poll_pending cb e i revents) s E (fun r s' o => accounted 0 s s' o /\ answer_ok r).
Proof.
  intros Hd Hi Hp Hf. unfold poll_pending. apply wp_bind.
  assert (wp (ret (HAL_DAEMON_NO_CALLBACK_RETVALUE_SET, true)) s E (fun acc (s' : S) (o : list O) =>
    accounted 0 s s' o /\ answer_ok acc.1 /\ ((acc : crm_hal_daemon_poll * bool).2 = true -> d_pending (dget s') !! Z.to_nat i = Some fd)))
    as Hret.
  { apply wp_ret. split; [by apply accounted_refl|done]. }
  eapply (wp_mono _ _ E _ (fun acc s' o => accounted 0 s s' o /\ answer_ok acc.1 /\
    (acc.2 = true -> d_pending (dget s') !! Z.to_nat i = Some fd))); [|done|].
  { destruct (if revents =? POLLIN then name_size e else None) as [size|]; [|done].
    destruct (size <? CRM_PROPERTY_VALUE_MAX); [|done]. apply wp_bind. unfold read_name.
    apply wp_bind, wp_ASSERT; [intros _|by intros; apply E_daemon].
    destruct (size <? 0); [by apply wp_fail, E_daemon|]. apply wp_ret.
    destruct (client_name e); [|exact Hret]. by apply wp_register_loop; [..|apply ids_refl| |]. }
  intros [c b] s1 o1 [(A1 & A2 & A3) [Hc Hb]]. cbn [fst snd] in Hb, Hc. apply wp_bind, wp_when; intros ->.
  2: { apply wp_ret. cbn. rewrite app_nil_r. by split. }
  specialize (Hb eq_refl). unfold close, set_pending, set_num_sockets, on_daemons.
  apply wp_bind, wp_get_pending; [done..|]. intros fd' Hf' _. rewrite Hb in Hf'. injection Hf' as <-.
  apply wp_bind, wp_emit, wp_bind, wp_modify, wp_bind, wp_modify, wp_bind, wp_get.
  rewrite !dget_dset, dset_dset. cbn [num_sockets server_socket d_pending daemons].
  destruct A1 as [B1 B2 B3 B4 B5 B6]. pose proof (zsum_insert op _ _ (-1) _ Hb) as Hz.
  pose proof (zsum_op_elem (fun x => x) _ _ _ Hb) as He. cbn in He.
  pose proof (zsum_op_nonneg d_socket (daemons (dget s1))) as Hs.
  rewrite (op_open fd) in He, Hz by done. rewrite (op_shut (-1)) in Hz by lia.
  assert (num_sockets (dget s1) = zsum (op <$> d_pending (dget s1)) +
    zsum ((fun x => op (d_socket x)) <$> daemons (dget s1))) as Hn by done.
  change (zsum ((fun x => op x) <$> d_pending (dget s1))) with (zsum (op <$> d_pending (dget s1))) in He.
  apply wp_ASSERT; [intros _|intros; bool_facts; lia]. apply wp_ret. split; [|done]. unfold accounted. rewrite dget_dset.
  cbn [num_sockets server_socket d_pending daemons]. rewrite !closes_app, closes_emit. unfold closes. cbn.
  split; [|split; [unfold closes in A2; lia|]].
  2: { eapply framed_trans; [exact A3|]. apply framed_dset; [done|]. by repeat constructor. }
  split; cbn; try done; rewrite ?length_insert; try done; try lia.
  - unfold open_count. cbn. rewrite Hz. lia.
  - apply Forall_insert; [done|lia].
Qed.

Lemma wp_handle_poll e fd revents s :
  daemons_ok (dget s) -> 0 <= fd ->
  wp (crm_hal_daemon_handle_poll cb e fd revents) s E (fun r s' o =>
    accounted (if fd =? server_socket (dget s) then op (accepted_fd e) else 0) s s' o /\ answer_ok r).
Proof.
  intros Hd Hf. unfold crm_hal_daemon_handle_poll. apply wp_bind, wp_get.
  destruct (fd =? server_socket (dget s)).
  { eapply wp_mono; [by apply wp_poll_server|done|done]. }
  apply wp_bind, (wp_find_id _ _ _ (fun i => exists x, daemons (dget s) !! Z.to_nat i = Some x /\ 0 <= d_socket x)).
  - intros i Hi. apply wp_bind, wp_get_daemon; [done..|]. intros x Hx _. apply wp_ret. split_and!; [done..|].
    intros Hb. bool_facts. exists x. split; [done|lia].
  - intros i Hi Hx. eapply wp_mono; [by apply wp_poll_daemon|done|]. intros ? ? ? [K Hr]. by split; [apply K|].
  - apply wp_bind, (wp_find_id _ _ _ (fun i => d_pending (dget s) !! Z.to_nat i = Some fd)).
    + intros i Hi. apply wp_bind, wp_get_pending; [done..|]. intros x Hx _. apply wp_ret. split_and!; [done..|].
      intros Hb. bool_facts. by subst.
    + intros i Hi Hx. eapply wp_mono; [by eapply wp_poll_pending|done|done].
    + apply wp_ret. by split; [apply accounted_refl|].
Qed.

End poll.

(** ** The descriptors to poll *)

Lemma wp_add_sockets l keep fds s :
  wp (add_sockets l keep fds) s (fun r => r = AssertFail "n <= (1 + CRM_HAL_MAX_DAEMONS)" /\
      1 + CRM_HAL_MAX_DAEMONS < Z.of_nat (length fds + length (List.filter keep l)))
    (fun r s' (o : list O) => s' = s /\ o = [] /\ r = fds ++ List.filter keep l).
Proof.
  revert fds. induction l as [|fd l IH]; intros fds; cbn [add_sockets List.filter].
  { apply wp_ret. by rewrite app_nil_r. }
  destruct (keep fd); [|apply IH].
  apply wp_bind, wp_ASSERT; intros Hb; bool_facts.
  - eapply wp_mono; [apply IH| |].
    + intros r [-> Hr]. split; [done|]. rewrite length_app in Hr. cbn in *. lia.
    + intros r s' o (-> & -> & ->). by rewrite <-app_assoc.
  - split; [done|]. rewrite length_app in Hb. cbn in *. lia.
Qed.


Lemma connected_count l :
  Forall daemon_ok l -> Z.of_nat (length (omap connected l)) = zsum ((fun x => op (d_socket x)) <$> l).
Proof.
  induction 1 as [|x l (H1 & H2 & H3) _ IH]; [done|].
  change (Z.of_nat (length (match connected x with Some y => y :: omap connected l | None => omap connected l end))
    = op (d_socket x) + zsum ((fun x => op (d_socket x)) <$> l)). rewrite <-IH. unfold connected at 1, op.
  destruct (Z.leb_spec 0 (d_socket x)) as [Hs|Hs].
  - destruct (H2 Hs) as [n ->]. cbn. lia.
  - destruct (d_name x); cbn; lia.
Qed.

Lemma filter_count l : Z.of_nat (length (List.filter (fun fd => 0 <=? fd) l)) = zsum (op <$> l).
Proof. induction l as [|x l IH]; [done|]. cbn. unfold op at 1. destruct (0 <=? x); cbn; lia. Qed.

Lemma filter_true {A} (l : list A) : List.filter (fun _ => true) l = l.
Proof. induction l as [|x l IH]; cbn; [done|by rewrite IH]. Qed.

(** The descriptors given to [poll] are the server and every open connection,
    so they are at most [1 + CRM_HAL_MAX_DAEMONS]. *)
Lemma wp_get_sockets s :
  daemons_ok (dget s) -> 0 <= server_socket (dget s) ->
  wp crm_hal_daemon_get_sockets s no_abort (fun fds s' (o : list O) => s' = s /\ o = [] /\
    Z.of_nat (length fds) = 1 + num_sockets (dget s) /\ Forall (fun fd => 0 <= fd) fds).
Proof.
  intros Hd Hs. unfold crm_hal_daemon_get_sockets. apply wp_bind, wp_get, wp_bind, wp_ASSERT; [intros _|].
  2: { intros Hb. bool_facts. lia. }
  destruct Hd as [A1 A2 A3 A4 A5 A6]. pose proof (connected_count _ A6) as Hc.
  pose proof (filter_count (d_pending (dget s))) as Hp. unfold open_count in A3.
  apply wp_bind. eapply wp_mono; [apply wp_add_sockets| |].
  { intros r [_ Hr]. rewrite filter_true in Hr. cbn in Hr. unfold CRM_HAL_MAX_DAEMONS in *. lia. }
  intros fds s' o (-> & -> & ->). rewrite filter_true.
  eapply wp_mono; [apply wp_add_sockets| |].
  { intros r [_ Hr]. rewrite length_app in Hr. cbn in Hr. unfold CRM_HAL_MAX_DAEMONS in *. lia. }
  intros fds s' o (-> & -> & ->). split_and!; [done..| |].
  - rewrite !length_app. cbn. lia.
  - apply Forall_app. split; [apply Forall_app; split; [by apply Forall_singleton|]|].
    + apply List.Forall_forall. intros fd Hf. apply list_elem_of_In in Hf. apply list_elem_of_omap in Hf as (x & _ & Hx).
      unfold connected in Hx. destruct (d_name x); [|done]. destruct (Z.leb_spec 0 (d_socket x)); [|done].
      by injection Hx as <-.
    + apply List.Forall_forall. intros fd Hf. apply List.filter_In in Hf as [_ Hf]. bool_facts. lia.
Qed.

End theory.

(** ** Runs *)

Definition sock_event : Type := sock_env * Z * Z.

Section runs.
Context {S O : Type} `{DaemonStoreLaws S O}.
Implicit Types (s : S) (o : list O).
Context (cb : Z -> crm_hal_daemon_evt -> Z -> Z -> M S O Z).

(** The events of the sockets, one call each. *)
Definition poll_all (l : list sock_event) : M S O unit :=
  for_each l (fun '(e, fd, revents) => crm_hal_daemon_handle_poll cb e fd revents ;; ret tt).

(** The connections accepted meanwhile. *)
Definition opens (server : Z) (l : list sock_event) : Z :=
  zsum ((fun '(e, fd, _) => if fd =? server then op (accepted_fd e) else 0) <$> l).

(** What a callback may do: anything that leaves the counter right and the
    pending connections and the server alone. *)
Definition callback_contract (E : abort_reason -> Prop) : Prop :=
  forall id evt m n s, id ∈ ids -> daemons_ok (dget s) ->
    wp (cb id evt m n) s E (fun _ s' o =>
      daemons_ok (dget s') /\ num_sockets (dget s') + closes o = num_sockets (dget s) /\
      server_socket (dget s') = server_socket (dget s) /\ d_pending (dget s') = d_pending (dget s)).

#[local] Abbreviation anyR := (fun _ _ : S => True).
#[local] Abbreviation anyP := (fun _ : O => True).

#[local] Instance anyR_preorder : PreOrder anyR.
Proof. by split. Qed.

Lemma accounted_any n s s' o :
  accounted anyR anyP n s s' o <->
  daemons_ok (dget s') /\ num_sockets (dget s') + closes o = num_sockets (dget s) + n /\
  server_socket (dget s') = server_socket (dget s).
Proof.
  unfold accounted. split; [by intros (? & ? & [])|]. intros (? & ? & ?). split_and!; [done..|].
  split; [done..|]. by apply List.Forall_forall.
Qed.

Lemma contract_kept E id evt m n s :
  callback_contract E -> id ∈ ids -> daemons_ok (dget s) ->
  wp (cb id evt m n) s E (fun r s' o => kept anyR anyP s s' o /\ True).
Proof.
  intros Hcb Hid Hd. eapply wp_mono; [by apply Hcb|done|]. intros r s' o (A1 & A2 & A3 & A4).
  split; [|done]. split; [|done]. apply accounted_any. split_and!; [done|lia|done].
Qed.

Lemma wp_poll_all E l s :
  (forall r, daemon_reason r = true -> E r) -> callback_contract E ->
  daemons_ok (dget s) -> Forall (fun '(_, fd, _) => 0 <= fd) l ->
  wp (poll_all l) s E (fun _ s' o => accounted anyR anyP (opens (server_socket (dget s)) l) s s' o).
Proof.
  intros HE Hcb Hd Hl. revert s Hd. induction Hl as [|[[e fd] revents] l Hfd _ IH]; intros s Hd.
  { apply wp_ret. by apply accounted_refl. }
  unfold poll_all in *. cbn [for_each]. apply wp_bind, wp_bind. eapply wp_mono.
  - apply (wp_handle_poll anyR anyP (fun _ _ => I) (fun _ => I) E HE cb (fun _ => True)
      (fun id evt m n s => contract_kept E id evt m n s Hcb)); done.
  - done.
  - intros r s1 o1 [H1 _]. apply wp_ret. rewrite app_nil_r. eapply wp_mono; [apply IH, H1|done|].
    intros [] s2 o2 H2. apply accounted_any in H1, H2. apply accounted_any.
    destruct H1 as (A1 & A2 & A3), H2 as (B1 & B2 & B3). rewrite A3 in B2. cbn [fmap list_fmap opens].
    split_and!; [done| |congruence]. rewrite closes_app. unfold opens in *. cbn. lia.
Qed.

(** The context with its daemons registered. *)
Definition daemon_setup (server : Z) (names : list string) : M S O unit :=
  crm_hal_daemon_init server ;; for_each names (fun n => crm_hal_daemon_add n ;; ret tt).

Lemma daemon_setup_ok server names s0 s oi :
  daemon_setup server names s0 = Ok tt s oi ->
  daemons_ok (dget s) /\ server_socket (dget s) = server /\ num_sockets (dget s) + closes oi = 0 /\ 0 <= server.
Proof.
  intros Hi. eapply (wp_Ok (daemon_setup server names) s0 any_abort (fun _ s o => daemons_ok (dget s) /\
    server_socket (dget s) = server /\ num_sockets (dget s) + closes o = 0 /\ 0 <= server)); [|exact Hi].
  apply wp_bind, wp_bind, wp_modify, wp_DASSERT; [|done]. intros Hb. bool_facts. cbn [app].
  set (s1 := dset _ s0). assert (daemons_ok (dget s1) /\ server_socket (dget s1) = server /\ num_sockets (dget s1) = 0)
    as (D1 & D2 & D3) by (unfold s1; rewrite dget_dset; split_and!; [apply daemons_ok_init|done..]).
  eapply (wp_mono _ _ any_abort _ (fun _ s' o => accounted (fun _ _ => True) (fun _ => True) 0 s1 s' o)); [|done|].
  - clearbody s1. clear -D1 H0. revert s1 D1. induction names as [|n names IH]; intros s1 D1; cbn [for_each].
    { apply wp_ret. by apply accounted_refl. }
    apply wp_bind, wp_bind, (wp_add (fun _ _ => True) (fun _ => True) (fun _ _ => I) (fun _ => I)); [done|].
    intros r s2 o2 [K _]. apply wp_ret. rewrite app_nil_r. eapply wp_mono; [apply IH, K|done|].
    intros [] s3 o3 K'. by eapply (accounted_trans _ _ 0 0).
  - intros [] s2 o2 (A1 & A2 & A3)%accounted_any. split_and!; [done|congruence|lia|done].
Qed.

End runs.

(** C23. No descriptor of a daemon is lost.  Whatever happens on the sockets,
    with any callback that respects the contract, starting from the context of
    [crm_hal_daemon_init] with any daemons registered: the calls of [crm_hal_daemon_handle_poll] abort only
    for a failure of a peer or a misuse (never on the counter, an index or a
    missing callback), the connections accepted and not closed are exactly
    [num_sockets] and at most [CRM_HAL_MAX_DAEMONS], and
    [crm_hal_daemon_get_sockets] then gives [1 + num_sockets] descriptors, all
    valid, without touching anything. *)
Theorem daemon_sockets_accounted {S O : Type} `{DaemonStoreLaws S O}
    (cb : Z -> crm_hal_daemon_evt -> Z -> Z -> M S O Z) (E : abort_reason -> Prop) server names s0 s oi l :
  (forall r, daemon_reason r = true -> E r) -> callback_contract cb E ->
  daemon_setup server names s0 = Ok tt s oi ->
  Forall (fun '(_, fd, _) => 0 <= fd) l ->
  match poll_all cb l s with
  | Ok _ s' o =>
      opens server l - closes (oi ++ o) = num_sockets (dget s') /\ num_sockets (dget s') <= CRM_HAL_MAX_DAEMONS /\
      exists fds, crm_hal_daemon_get_sockets s' = Ok fds s' [] /\
        Z.of_nat (length fds) = 1 + num_sockets (dget s') /\ Forall (fun fd => 0 <= fd) fds
  | Abort r _ => E r
  end.
Proof.
  intros HE Hcb Hi Hl.
  apply daemon_setup_ok in Hi as (Hd & Hs & Hn & Hpos).
  pose proof (wp_poll_all cb E l s HE Hcb Hd Hl) as Hw. unfold wp in Hw.
  destruct (poll_all cb l s) as [[] s' o|r o]; [|done]. apply accounted_any in Hw as (A1 & A2 & A3).
  rewrite Hs in A2, A3. split_and!; [rewrite closes_app; lia|apply A1|].
  destruct (wp_total _ _ _ (wp_get_sockets s' A1 ltac:(lia))) as (fds & s'' & o' & Hr & -> & -> & Hg).
  by exists fds.
Qed.

(** ** The context on its own *)

#[local] Instance plain_store : DaemonStore crm_hal_daemon_ctx daemon_out := {
  dget d := d;
  dset d _ := d;
  dout x := x;
  is_close x := match x with CloseFd _ => true | _ => false end;
}.

#[local] Instance plain_laws : DaemonStoreLaws crm_hal_daemon_ctx daemon_out.
Proof. by split; try done; intros []. Qed.

(** A connection registers, sends a message and hangs up; another one is
    pending. *)
Definition plain_cb (id : Z) (evt : crm_hal_daemon_evt) (m n : Z) : M crm_hal_daemon_ctx daemon_out Z := ret 4.
Definition example_events : list sock_event :=
  [(mk_sock_env 20 None None None, 10, POLLIN); (mk_sock_env (-1) None (Some 3) (Some "nvm"%string), 20, POLLIN);
   (mk_sock_env 21 None None None, 10, POLLIN); (mk_sock_env (-1) (Some (0, 0)) None None, 20, POLLIN);
   (mk_sock_env (-1) None None None, 20, POLLIN)].

Lemma plain_contract : callback_contract plain_cb (fun r => daemon_reason r = true).
Proof. intros id evt m n s _ Hs. apply wp_ret. split_and!; [done| |done..]. unfold closes. cbn. lia. Qed.

Lemma daemon_sockets_accounted_witness :
  exists s oi s' o, daemon_setup 10 ["nvm"%string] (mk_daemon_ctx 0 0 [] []) = Ok tt s oi /\
    poll_all plain_cb example_events s = Ok tt s' o /\ num_sockets s' = 1 /\
    opens 10 example_events - closes (oi ++ o) = num_sockets s' /\ num_sockets s' <= CRM_HAL_MAX_DAEMONS /\
    exists fds, crm_hal_daemon_get_sockets s' = Ok fds s' [] /\
      Z.of_nat (length fds) = 1 + num_sockets s' /\ Forall (fun fd => 0 <= fd) fds.
Proof.
  eexists _, _, _, _. split; [vm_compute; reflexivity|]. split; [vm_compute; reflexivity|].
  split; [reflexivity|].
  refine (daemon_sockets_accounted plain_cb (fun r => daemon_reason r = true) 10 ["nvm"%string]
    (mk_daemon_ctx 0 0 [] []) _ _ example_events (fun r Hr => Hr) plain_contract eq_refl _).
  by repeat apply Forall_cons_2.
Defined.
