(* ===== verification/HalPcie.v ===== *)
(** * The HAL of PCIe platforms (plugins/hal/pcie/src: fsm_hal.c, modem.c, nvm_manager.c, init.c)

    The modem is driven through ioctls of its control driver, observed through
    netlink events, configured by a thread, and has a companion daemon, the NVM
    manager, handled by the daemons of Daemons.v.  The context is one record,
    the calls to CTRL, to the drivers and to the daemons are emitted actions.
    The [n]-th clock reading is [clock n]; the outcome of the [n]-th call that
    can fail (ioctl, message to the daemon, file copy, open) is [call_ok n]. *)

From S2P Require Import Prelude Fsm Timer MdmCli Control CtrlApi Daemons.
From Stdlib Require Import ZArith Lia Ascii.
From stdpp Require Import base tactics list strings option.

Open Scope Z_scope.
Open Scope crm_scope.

Definition ST_OFF : Z := 0.
Definition ST_BOOTING : Z := 1.
Definition ST_FLASHING : Z := 2.
Definition ST_CONFIGURING : Z := 3.
Definition ST_STARTING_DAEMONS : Z := 4.
Definition ST_RUN : Z := 5.
Definition ST_WAITING_DUMP : Z := 6.
Definition ST_STOPPING_DAEMONS : Z := 7.
Definition ST_WAITING_LINK : Z := 8.
Definition ST_NUM : Z := 9.

Definition EV_POWER : Z := 0.
Definition EV_BOOT : Z := 1.
Definition EV_STOP : Z := 2.
Definition EV_RESET : Z := 3.
Definition EV_BACKUP : Z := 4.
Definition EV_MDM_OFF : Z := 5.
Definition EV_MDM_FLASH : Z := 6.
Definition EV_MDM_RUN : Z := 7.
Definition EV_MDM_CRASH : Z := 8.
Definition EV_MDM_DUMP_READY : Z := 9.
Definition EV_MDM_LINK_DOWN : Z := 10.
Definition EV_MDM_CONFIGURED : Z := 11.
Definition EV_MUX_ERR : Z := 12.
Definition EV_MUX_DEAD : Z := 13.
Definition EV_TIMEOUT : Z := 14.
Definition EV_RPC_DEAD : Z := 15.
Definition EV_RPC_RUN : Z := 16.
Definition EV_NVM_RUN : Z := 17.
Definition EV_NVM_STOP : Z := 18.
Definition EV_NUM : Z := 19.

Definition FSM_HAL_FDS_TO_POLL : Z := 5.
Definition TIMEOUT_MDM_OFF : Z := 1000.
Definition CRM_MMB_MSG_START : Z := 0.
Definition CRM_MMB_MSG_STOP : Z := 1.
Definition MMB_CRM_MSG_SUCCESS : Z := 0.

Inductive ctrl_request : Type := REQ_NONE | REQ_POWER | REQ_BOOT | REQ_RESET | REQ_STOP.

#[export] Instance ctrl_request_eq_dec : EqDecision ctrl_request.
Proof. solve_decision. Defined.

Definition get_event_txt (evt : Z) : option string :=
  if evt <? 0 then None else
  ["REQ: power"; "REQ: boot"; "REQ: stop"; "REQ: reset"; "REQ: backup"; "MDM: off"; "MDM: flash"; "MDM: run";
   "MDM: crash"; "MDM: dump"; "LINK: down"; "MDM: configured"; "MUX: hangout"; "MUX: dead"; "TIMEOUT";
   "RPC: dead"; "RPC: run"; "NVM: run"; "NVM: stop"] !! Z.to_nat evt.

Definition get_state_txt (state : Z) : option string :=
  if state <? 0 then None else
  ["OFF"; "BOOTING"; "FLASHING"; "CONFIGURING"; "STARTING DAEMONS"; "RUN"; "WAITING DUMP"; "STOPPING DAEMONS";
   "WAITING LINK"] !! Z.to_nat state.

(** ** State *)

(** The configuration: the optional sysfs files are present or not, the
    fallback copy of the calibration file is not modelled further than its
    result. *)
Record pcie_cfg : Type := mk_pcie_cfg {
  flash_node : string;
  has_rm : bool;
  has_rescan : bool;
  has_rtpm : bool;
  dump_disabled : bool;
}.

Record nvm_manager : Type := mk_nvm {
  daemon_ctx : crm_hal_daemon_ctx;
  nvm_daemon_id : Z;
  nvm_daemon_connected : bool;
  nvm_daemon_syncing : bool;
}.

(** [crm_hal_ctx_internal_t]: [thread_cfg] tells whether the pointer is set; the
    last two fields count the clock readings and the calls that can fail. *)
Record crm_hal_ctx_internal : Type := mk_pcie {
  cfg : pcie_cfg;
  thread_cfg : bool;
  mux_fd : Z;
  mdm_state : Z;
  timer_armed : bool;
  first_expiration : bool;
  timer_end : timespec;
  request : ctrl_request;
  backup : bool;
  nvm : nvm_manager;
  clock_reads : nat;
  calls : nat;
}.
Abbreviation pcie_ctx := crm_hal_ctx_internal (only parsing).

Inductive ioctl_op : Type := POWER_ON | POWER_OFF | WARM_RESET | COLD_RESET.

Inductive pcie_out : Type :=
| NotifyHalEvent (ev : hal_event)
| NotifyClient (d : mdm_cli_dbg_info)
| Ioctl (op : ioctl_op) (ok : bool)
| WriteFile (file value : string)
| CloseMux
| CfgStart
| CfgDispose
| SetProperty (key value : string)
| CopyCalibration (ok : bool)
| SendAt (cmd : string)
| DaemonOut (x : daemon_out).

Abbreviation P_ A := (M crm_hal_ctx_internal pcie_out A).

Definition set_thread_cfg (b : bool) : P_ unit :=
  modify (fun s => mk_pcie (cfg s) b (mux_fd s) (mdm_state s) (timer_armed s) (first_expiration s) (timer_end s)
    (request s) (backup s) (nvm s) (clock_reads s) (calls s)).
Definition set_mux_fd (fd : Z) : P_ unit :=
  modify (fun s => mk_pcie (cfg s) (thread_cfg s) fd (mdm_state s) (timer_armed s) (first_expiration s) (timer_end s)
    (request s) (backup s) (nvm s) (clock_reads s) (calls s)).
Definition set_mdm_state (z : Z) : P_ unit :=
  modify (fun s => mk_pcie (cfg s) (thread_cfg s) (mux_fd s) z (timer_armed s) (first_expiration s) (timer_end s)
    (request s) (backup s) (nvm s) (clock_reads s) (calls s)).
Definition set_timer (b : bool) (t : timespec) : P_ unit :=
  modify (fun s => mk_pcie (cfg s) (thread_cfg s) (mux_fd s) (mdm_state s) b (first_expiration s) t
    (request s) (backup s) (nvm s) (clock_reads s) (calls s)).
Definition timer_off : P_ unit :=
  modify (fun s => mk_pcie (cfg s) (thread_cfg s) (mux_fd s) (mdm_state s) false (first_expiration s) (timer_end s)
    (request s) (backup s) (nvm s) (clock_reads s) (calls s)).
Definition set_first_expiration (b : bool) : P_ unit :=
  modify (fun s => mk_pcie (cfg s) (thread_cfg s) (mux_fd s) (mdm_state s) (timer_armed s) b (timer_end s)
    (request s) (backup s) (nvm s) (clock_reads s) (calls s)).
Definition set_request (r : ctrl_request) : P_ unit :=
  modify (fun s => mk_pcie (cfg s) (thread_cfg s) (mux_fd s) (mdm_state s) (timer_armed s) (first_expiration s)
    (timer_end s) r (backup s) (nvm s) (clock_reads s) (calls s)).
Definition set_backup (b : bool) : P_ unit :=
  modify (fun s => mk_pcie (cfg s) (thread_cfg s) (mux_fd s) (mdm_state s) (timer_armed s) (first_expiration s)
    (timer_end s) (request s) b (nvm s) (clock_reads s) (calls s)).
Definition on_nvm (f : nvm_manager -> nvm_manager) : P_ unit :=
  modify (fun s => mk_pcie (cfg s) (thread_cfg s) (mux_fd s) (mdm_state s) (timer_armed s) (first_expiration s)
    (timer_end s) (request s) (backup s) (f (nvm s)) (clock_reads s) (calls s)).
Definition next_read : P_ unit :=
  modify (fun s => mk_pcie (cfg s) (thread_cfg s) (mux_fd s) (mdm_state s) (timer_armed s) (first_expiration s)
    (timer_end s) (request s) (backup s) (nvm s) (Datatypes.S (clock_reads s)) (calls s)).
Definition next_call : P_ unit :=
  modify (fun s => mk_pcie (cfg s) (thread_cfg s) (mux_fd s) (mdm_state s) (timer_armed s) (first_expiration s)
    (timer_end s) (request s) (backup s) (nvm s) (clock_reads s) (Datatypes.S (calls s))).

Definition set_connected (b : bool) : P_ unit :=
  on_nvm (fun n => mk_nvm (daemon_ctx n) (nvm_daemon_id n) b (nvm_daemon_syncing n)).
Definition set_syncing (b : bool) : P_ unit :=
  on_nvm (fun n => mk_nvm (daemon_ctx n) (nvm_daemon_id n) (nvm_daemon_connected n) b).

(** The daemons' context is a part of that of the HAL. *)
#[export] Instance pcie_daemons : DaemonStore crm_hal_ctx_internal pcie_out := {
  dget s := daemon_ctx (nvm s);
  dset d s := mk_pcie (cfg s) (thread_cfg s) (mux_fd s) (mdm_state s) (timer_armed s) (first_expiration s)
    (timer_end s) (request s) (backup s)
    (mk_nvm d (nvm_daemon_id (nvm s)) (nvm_daemon_connected (nvm s)) (nvm_daemon_syncing (nvm s)))
    (clock_reads s) (calls s);
  dout := DaemonOut;
  is_close o := match o with DaemonOut (CloseFd _) => true | _ => false end;
}.

#[export] Instance pcie_daemons_laws : DaemonStoreLaws crm_hal_ctx_internal pcie_out.
Proof. split; [done|done|by intros [? ? ? ? ? ? ? ? ? [] ? ?]|by intros []]. Qed.

Section operations.
Context `{MdmCli} (clock : nat -> timespec) (call_ok : nat -> bool).

Definition read_clock : P_ timespec :=
  let* s := get in next_read ;; ret (clock (clock_reads s)).

(** The outcome of the next call that can fail. *)
Definition outcome_of_call : P_ bool :=
  let* s := get in next_call ;; ret (call_ok (calls s)).

(** ** modem.c *)

Definition optional_write (b : pcie_cfg -> bool) (file value : string) : P_ unit :=
  let* s := get in when (b (cfg s)) (emit (WriteFile file value)).
Definition pcie_rescan : P_ unit := optional_write has_rescan "rescan" "1".
Definition pcie_remove : P_ unit := optional_write has_rm "remove" "1".
Definition pcie_force_power_on : P_ unit := emit (WriteFile "power_control" "on").
Definition pcie_enable_lpm : P_ unit := optional_write has_rtpm "rtpm_enable" "1".
Definition pcie_disable_lpm : P_ unit := optional_write has_rtpm "rtpm_enable" "0".

Definition ioctl (op : ioctl_op) : P_ Z :=
  let* ok := outcome_of_call in
  emit (Ioctl op ok) ;;
  ret (if ok then 0 else -1).

Definition close_mux_if_open : P_ unit :=
  let* s := get in
  when (0 <? mux_fd s) (emit CloseMux ;; set_mux_fd (-1)).

Definition crm_hal_start_modem : P_ Z :=
  let* s := get in
  ASSERT "i_ctx->mux_fd == -1" (mux_fd s =? -1) ;;
  let* r := ioctl POWER_ON in
  when (r =? 0) (pcie_rescan ;; pcie_force_power_on ;; pcie_enable_lpm) ;;
  ret r.

Definition crm_hal_stop_modem : P_ Z :=
  close_mux_if_open ;;
  pcie_force_power_on ;;
  pcie_disable_lpm ;;
  let* r := ioctl POWER_OFF in
  when (r =? 0) (pcie_remove ;; pcie_rescan) ;;
  ret r.

Definition crm_hal_warm_reset_modem : P_ Z :=
  close_mux_if_open ;;
  pcie_disable_lpm ;;
  let* r := ioctl WARM_RESET in
  when (r =? 0) (pcie_remove ;; pcie_rescan ;; pcie_enable_lpm) ;;
  ret r.

Definition crm_hal_cold_reset_modem : P_ Z :=
  close_mux_if_open ;;
  pcie_force_power_on ;;
  pcie_disable_lpm ;;
  let* r := ioctl COLD_RESET in
  when (r =? 0) (pcie_enable_lpm ;; pcie_remove ;; pcie_rescan) ;;
  ret r.

(** [strncmp(a, b, n) == 0]. *)
Fixpoint strncmp_eq (n : nat) (a b : string) : bool :=
  match n with
  | O => true
  | Datatypes.S n' =>
      match a, b with
      | EmptyString, EmptyString => true
      | String x a', String y b' => bool_decide (x = y) && strncmp_eq n' a' b'
      | _, _ => false
      end
  end.

Definition netlink_events : list (string * Z) :=
  [("MDM_NOT_READY", EV_MDM_OFF); ("ROM_READY", EV_MDM_FLASH); ("MDM_READY", EV_MDM_RUN); ("CRASH", EV_MDM_CRASH);
   ("CD_READY", EV_MDM_DUMP_READY); ("CD_READY_LINK_DOWN", EV_MDM_LINK_DOWN)]%string.

(** A netlink message: its payload as a C string and the length of its header
    field ([None]: nothing is received). *)
Definition crm_hal_get_mdm_state (r : option (string * Z)) : P_ Z :=
  match r with
  | None => ret (-1)
  | Some (state, nlmsg_len) =>
      let size := Z.to_nat (Z.min (u32 (nlmsg_len - 16)) 200) in
      ret (match List.find (fun e => strncmp_eq size state e.1) netlink_events with
           | Some e => e.2
           | None => -1
           end)
  end.

Inductive init_poll : Type := InitTimeout | InitEvent (r : option (string * Z)) | InitOther.

Fixpoint init_modem_loop (stop_at : timespec) (l : list init_poll) : P_ unit :=
  let* now := read_clock in
  if 0 <? crm_time_get_remain_ms now stop_at then
    match l with
    | [] => fail (Stuck "crm_hal_init_modem")
    | InitTimeout :: _ => ret tt
    | InitOther :: l' => init_modem_loop stop_at l'
    | InitEvent r :: l' =>
        let* evt := crm_hal_get_mdm_state r in
        if negb (evt =? -1) then
          set_mdm_state evt ;;
          if evt =? EV_MDM_OFF then ret tt else init_modem_loop stop_at l'
        else init_modem_loop stop_at l'
    end
  else ret tt.

(** [mcd_ok]: the driver is opened and accepts its configuration. *)
Definition crm_hal_init_modem (mcd_ok : bool) (l : list init_poll) : P_ unit :=
  DASSERT "failed to open or configure MCD" mcd_ok ;;
  set_mdm_state EV_MDM_OFF ;;
  let* r := crm_hal_stop_modem in
  ASSERT "!crm_hal_stop_modem(i_ctx)" (r =? 0) ;;
  pcie_remove ;;
  pcie_rescan ;;
  let* now := read_clock in
  init_modem_loop (crm_time_add_ms now TIMEOUT_MDM_OFF) l.

(** What the drivers answer while the MUX is mounted: the AT command, the line
    discipline set, read and found to be the right one, the MUX's configuration
    read and written. *)
Record mux_env : Type := mk_mux_env {
  at_cmux : Z;
  setd_ok : bool;
  getd_ok : bool;
  ldisc_is_gsm : bool;
  getconf_ok : bool;
  setconf : Z;
}.

Definition mount_mux (fd : Z) (m : mux_env) : P_ Z :=
  ASSERT "fd >= 0" (0 <=? fd) ;;
  if negb (at_cmux m =? 0) then ret (-1) else
  ASSERT "!ioctl(fd, TIOCSETD, &ldisc)" (setd_ok m) ;;
  ASSERT "!ioctl(fd, TIOCGETD, &ldisc)" (getd_ok m) ;;
  if negb (ldisc_is_gsm m) then ret (-2) else
  ASSERT "!ioctl(fd, GSMIOC_GETCONF, &cfg)" (getconf_ok m) ;;
  ret (if setconf m =? 0 then 0 else -2).

(** What the configuration thread does, given the results of the first ping, of
    the mounting of the MUX and of the second ping: the message it sends.  It
    runs beside the loop; what it does is placed when its message is
    received. *)
Definition crm_hal_cfg_modem (ping : Z) (mux : mux_env) (ping_mux : Z) : P_ Z :=
  let* s := get in
  ASSERT "i_ctx->mux_fd == -1" (mux_fd s =? -1) ;;
  if 0 <=? ping then
    set_mux_fd ping ;;
    let* err := mount_mux ping mux in
    if err =? 0 then ret (if 0 <=? ping_mux then EV_MDM_CONFIGURED else EV_TIMEOUT)
    else
      emit CloseMux ;;
      set_mux_fd (-1) ;;
      ret (if err =? -1 then EV_MUX_ERR else EV_MUX_DEAD)
  else ret EV_MUX_ERR.

(** ** nvm_manager.c *)

Definition nvm_id : P_ Z := gets (fun s => nvm_daemon_id (nvm s)).

Definition crm_hal_nvm_daemon_cb (id : Z) (evt : crm_hal_daemon_evt) (msg_id msg_len : Z) : P_ Z :=
  let* nid := nvm_id in
  ASSERT "i_ctx->nvm_daemon_id == id" (nid =? id) ;;
  match evt with
  | HAL_DAEMON_CONNECTED => set_connected true ;; ret (-1)
  | HAL_DAEMON_DISCONNECTED =>
      crm_hal_daemon_start nid ;;
      set_connected false ;;
      set_syncing false ;;
      ret EV_NVM_STOP
  | HAL_DAEMON_DATA_IN =>
      if msg_id =? MMB_CRM_MSG_SUCCESS then
        ASSERT "msg_len == 0" (msg_len =? 0) ;;
        set_syncing true ;;
        ret EV_NVM_RUN
      else DASSERT "Unexpected message id received" false ;; ret (-1)
  end.

Definition nvm_send (msg_id : Z) : P_ Z :=
  let* nid := nvm_id in
  let* ok := outcome_of_call in
  crm_hal_daemon_msg_send nid msg_id false 0 ok true.

Definition crm_hal_nvm_on_modem_up : P_ unit :=
  let* sent := nvm_send CRM_MMB_MSG_START in
  when (sent <? 0)
    (set_connected false ;;
     let* nid := nvm_id in crm_hal_daemon_stop nid ;; crm_hal_daemon_start nid).

Definition crm_hal_nvm_on_modem_down : P_ unit :=
  let* sent := nvm_send CRM_MMB_MSG_STOP in
  when (sent <? 0) (let* nid := nvm_id in crm_hal_daemon_stop nid).

Definition crm_hal_nvm_on_manager_crash : P_ unit :=
  let* nid := nvm_id in
  crm_hal_daemon_stop nid ;;
  crm_hal_daemon_start nid ;;
  set_syncing false.

(** ** fsm_hal.c *)

Definition notify_hal (type : crm_hal_evt_type) (nodes : string) (dbg : option mdm_cli_dbg_info) : P_ unit :=
  emit (NotifyHalEvent (mk_hal_event (mk_hal_evt type nodes) dbg)).
Definition notify_ctrl_event_only (evt : crm_hal_evt_type) : P_ unit := notify_hal evt "" None.

Definition timer_start (ms : Z) (update : bool) : P_ unit :=
  let* s := get in
  when (timer_armed s) (ASSERT "update" update) ;;
  let* now := read_clock in
  set_timer true (crm_time_add_ms now ms).

Definition get_timeout : P_ Z :=
  let* s := get in
  if negb (timer_armed s) then ret (-1)
  else let* now := read_clock in ret (crm_time_get_remain_ms now (timer_end s)).

Definition stop_daemons : P_ unit :=
  crm_hal_nvm_on_modem_down ;;
  timer_start 10000 false.

Definition is_req (r : ctrl_request) : P_ bool := gets (fun s => bool_decide (request s = r)).

Definition cfg_modem (p : unit) : P_ Z :=
  let* boot := is_req REQ_BOOT in
  if boot then
    let* s := get in
    ASSERT "!i_ctx->thread_cfg" (negb (thread_cfg s)) ;;
    emit (SetProperty "sys.wwan0.state" "ready") ;;
    set_request REQ_NONE ;;
    timer_off ;;
    emit CfgStart ;;
    set_thread_cfg true ;;
    ret ST_CONFIGURING
  else ret (-1).

Definition stop_or_reset_requested : P_ unit :=
  let* s := get in
  ASSERT "i_ctx->request == REQ_STOP || i_ctx->request == REQ_RESET"
    (bool_decide (request s = REQ_STOP) || bool_decide (request s = REQ_RESET)) ;;
  ASSERT "i_ctx->timer_armed" (timer_armed s).

Definition link_down_evt (p : unit) : P_ Z :=
  stop_or_reset_requested ;;
  notify_ctrl_event_only HAL_MDM_BUSY ;;
  let* stop := is_req REQ_STOP in
  if stop then
    let* r := crm_hal_stop_modem in
    if negb (r =? 0) then ret (-2)
    else timer_start 1000 true ;; ret (-1)
  else ret (-1).

Definition timeout_waiting_link (p : unit) : P_ Z :=
  let* s := get in
  ASSERT "i_ctx->timer_armed == true" (timer_armed s) ;;
  if first_expiration s then
    set_first_expiration false ;;
    let* stop := is_req REQ_STOP in
    let* err := (if stop then crm_hal_stop_modem else crm_hal_cold_reset_modem) in
    if err =? 0 then timer_start 1000 true ;; ret (-1) else ret (-2)
  else ret (-2).

Definition dbg_backup : mdm_cli_dbg_info :=
  mk_dbg DBG_TYPE_NVM_BACKUP_SUCCESS DBG_DEFAULT_NO_LOG DBG_DEFAULT_NO_LOG DBG_DEFAULT_NO_LOG [].

Definition save_calibration : P_ unit :=
  let* s := get in
  when (backup s)
    (set_backup false ;;
     let* ok := outcome_of_call in
     emit (CopyCalibration ok) ;;
     ASSERT "!crm_file_copy(...)" ok ;;
     emit (NotifyClient dbg_backup)).

Definition reset_or_stop (p : unit) : P_ Z :=
  let* s := get in
  if nvm_daemon_syncing (nvm s) then ret (-1) else
  save_calibration ;;
  timer_off ;;
  match request s with
  | REQ_RESET =>
      let* r := crm_hal_cold_reset_modem in
      ASSERT "!crm_hal_cold_reset_modem(i_ctx)" (r =? 0) ;;
      timer_start 100000 true ;;
      ret ST_WAITING_LINK
  | REQ_STOP =>
      let* r := crm_hal_stop_modem in
      ASSERT "!crm_hal_stop_modem(i_ctx)" (r =? 0) ;;
      if (EV_MDM_LINK_DOWN =? mdm_state s) || (EV_MDM_OFF =? mdm_state s) then ret ST_OFF
      else timer_start 1000 true ;; ret ST_WAITING_LINK
  | _ => ret (-1)
  end.

Definition timeout_daemons (p : unit) : P_ Z :=
  let* s := get in
  if first_expiration s then
    set_first_expiration false ;;
    ASSERT "i_ctx->nvm_daemon_connected" (nvm_daemon_connected (nvm s)) ;;
    crm_hal_nvm_on_manager_crash ;;
    timer_off ;;
    reset_or_stop p
  else ret (-2).

Definition mdm_off_evt (p : unit) : P_ Z :=
  stop_or_reset_requested ;;
  notify_ctrl_event_only HAL_MDM_BUSY ;;
  let* stop := is_req REQ_STOP in
  if stop then
    crm_hal_stop_modem ;;
    notify_ctrl_event_only HAL_MDM_OFF ;;
    timer_off ;;
    set_request REQ_NONE ;;
    ret ST_OFF
  else ret (-1).

Definition notify_need_reset (dbg : mdm_cli_dbg_info) : P_ Z :=
  notify_ctrl_event_only HAL_MDM_BUSY ;;
  notify_hal HAL_MDM_NEED_RESET "" (Some dbg) ;;
  crm_hal_nvm_on_modem_down ;;
  timer_start 10000 true ;;
  ret ST_STOPPING_DAEMONS.

Definition dbg_of (type : Z) (data : list string) : mdm_cli_dbg_info :=
  mk_dbg type DBG_DEFAULT_LOG_SIZE DBG_DEFAULT_LOG_SIZE DBG_DEFAULT_LOG_TIME data.

Definition notify_mux_err (p : unit) : P_ Z := notify_need_reset (dbg_of DBG_TYPE_ERROR ["MUX hangup"%string]).
Definition notify_timeout (p : unit) : P_ Z := notify_need_reset (dbg_of DBG_TYPE_ERROR ["timeout"%string]).
Definition notify_self (p : unit) : P_ Z := notify_need_reset (dbg_of DBG_TYPE_SELF_RESET []).

(** [snprintf(event.nodes, 128, ...)]. *)
Definition node_of (s : crm_hal_ctx_internal) : string := String.substring 0 127 (flash_node (cfg s)).

Definition notify_dump (p : unit) : P_ Z :=
  let* s := get in
  notify_hal HAL_MDM_DUMP (node_of s) None ;;
  ret (-1).

Definition notify_crash (p : unit) : P_ Z :=
  notify_ctrl_event_only HAL_MDM_BUSY ;;
  ret ST_WAITING_DUMP.

Definition prepare_dump (p : unit) : P_ Z :=
  let* s := get in
  if dump_disabled (cfg s) then notify_self p
  else crm_hal_warm_reset_modem ;; ret (-1).

Definition notify_flash (p : unit) : P_ Z :=
  let* s := get in
  ASSERT "i_ctx->timer_armed" (timer_armed s) ;;
  timer_off ;;
  notify_ctrl_event_only HAL_MDM_BUSY ;;
  notify_hal HAL_MDM_FLASH (node_of s) None ;;
  ret ST_FLASHING.

Definition start_daemons (p : unit) : P_ Z :=
  let* s := get in
  ASSERT "!i_ctx->timer_armed" (negb (timer_armed s)) ;;
  timer_start 5000 false ;;
  ASSERT "i_ctx->nvm_daemon_connected && !i_ctx->nvm_daemon_syncing"
    (nvm_daemon_connected (nvm s) && negb (nvm_daemon_syncing (nvm s))) ;;
  crm_hal_nvm_on_modem_up ;;
  ret ST_STARTING_DAEMONS.

Definition notify_run (p : unit) : P_ Z :=
  let* s := get in
  ASSERT "i_ctx->timer_armed" (timer_armed s) ;;
  timer_off ;;
  notify_ctrl_event_only HAL_MDM_RUN ;;
  ret ST_RUN.

Definition notify_dead (reason : string) : P_ Z :=
  crm_hal_stop_modem ;;
  notify_ctrl_event_only HAL_MDM_BUSY ;;
  notify_hal HAL_MDM_UNRESPONSIVE ""
    (Some (mk_dbg DBG_TYPE_ERROR DBG_DEFAULT_LOG_SIZE DBG_DEFAULT_NO_LOG DBG_DEFAULT_NO_LOG [reason])) ;;
  ret ST_OFF.

Definition mux_dead (p : unit) : P_ Z := notify_dead "MUX is dead".
Definition modem_dead (p : unit) : P_ Z := notify_dead "failsafe".

Definition no_request : P_ unit :=
  let* none := is_req REQ_NONE in
  ASSERT "i_ctx->request == REQ_NONE" none.

Definition request_stop (p : unit) : P_ Z :=
  no_request ;;
  set_request REQ_STOP ;;
  stop_daemons ;;
  let* s := get in
  when (EV_MDM_RUN =? mdm_state s)
    (let* ok := outcome_of_call in
     when ok (emit (SendAt "AT+CFUN=0"))) ;;
  ret ST_STOPPING_DAEMONS.

Definition request_reset (p : unit) : P_ Z :=
  no_request ;;
  set_request REQ_RESET ;;
  stop_daemons ;;
  ret ST_STOPPING_DAEMONS.

Definition request_backup (p : unit) : P_ Z :=
  set_backup true ;;
  request_reset p.

Definition request_power (p : unit) : P_ Z :=
  no_request ;;
  set_request REQ_POWER ;;
  let* r := crm_hal_start_modem in
  if r =? 0 then timer_start 3000 false ;; ret ST_BOOTING else ret (-2).

Definition request_boot (p : unit) : P_ Z :=
  let* s := get in
  ASSERT "i_ctx->request == REQ_POWER || i_ctx->request == REQ_RESET"
    (bool_decide (request s = REQ_POWER) || bool_decide (request s = REQ_RESET)) ;;
  set_request REQ_BOOT ;;
  if mdm_state s =? EV_MDM_RUN then cfg_modem p
  else timer_start 1000 false ;; ret (-1).

Definition accept_stop (p : unit) : P_ Z := set_request REQ_STOP ;; reset_or_stop p.
Definition accept_reset (p : unit) : P_ Z := set_request REQ_RESET ;; reset_or_stop p.

Definition reject (p : unit) : P_ Z :=
  DASSERT "Control request during modem transition. There is an error in control FSM" false ;; ret (-2).
Definition assert (p : unit) : P_ Z := ASSERT "0" false ;; ret (-1).
Definition todo (p : unit) : P_ Z := ASSERT "0" false ;; ret (-1).

Definition state_trans (prev_state new_state evt : Z) (p : unit) : P_ unit :=
  set_first_expiration true ;;
  when (prev_state =? ST_RUN) (emit (SetProperty "ctl.stop" "rpc-daemon")).

#[local] Abbreviation cell := (crm_fsm_ops crm_hal_ctx_internal pcie_out unit).
Definition keep (f : unit -> P_ Z) : cell := mk_op (-1) (Some f).
Definition none : cell := mk_op (-1) None.

Definition g_fsm_rows : list (list cell) :=
  [ (* ST_OFF          ST_BOOTING         ST_FLASHING          ST_CONFIGURING       ST_STARTING_DAEMONS  ST_RUN               ST_WAITING_DUMP     ST_STOPPING_DAEMONS   ST_WAITING_LINK *)
   [keep request_power; keep reject;       keep reject;         keep reject;         keep reject;         keep reject;         keep reject;        keep reject;          keep reject];
   [keep reject;        keep reject;       keep request_boot;   keep reject;         keep reject;         keep reject;         keep reject;        keep reject;          keep reject];
   [keep reject;        keep reject;       keep reject;         keep reject;         keep reject;         keep request_stop;   keep request_stop;  keep accept_stop;     keep reject];
   [keep reject;        keep reject;       keep reject;         keep reject;         keep reject;         keep request_reset;  keep request_reset; keep accept_reset;    keep reject];
   [keep reject;        keep reject;       keep reject;         keep reject;         keep reject;         keep request_backup; keep reject;        keep reject;          keep reject];
   [keep assert;        keep notify_self;  keep notify_self;    keep notify_self;    keep notify_self;    keep notify_self;    none;               none;                 keep mdm_off_evt];
   [keep assert;        keep notify_flash; keep assert;         keep assert;         keep assert;         keep assert;         keep notify_dump;   keep todo;            keep notify_flash];
   [keep assert;        keep assert;       keep cfg_modem;      keep assert;         keep assert;         keep assert;         keep assert;        keep todo;            keep assert];
   [keep todo;          keep todo;         keep todo;           keep todo;           keep todo;           keep notify_crash;   keep assert;        keep todo;            keep todo];
   [keep assert;        keep assert;       keep assert;         keep assert;         keep assert;         keep assert;         keep prepare_dump;  keep todo;            keep assert];
   [keep assert;        keep notify_self;  keep notify_self;    keep notify_self;    keep notify_self;    keep notify_self;    keep notify_self;   keep todo;            keep link_down_evt];
   [keep assert;        keep assert;       keep assert;         keep start_daemons;  keep assert;         keep assert;         keep assert;        keep todo;            keep assert];
   [keep assert;        keep assert;       keep assert;         keep notify_mux_err; keep notify_mux_err; keep notify_mux_err; keep assert;        none;                 keep assert];
   [keep assert;        keep assert;       keep assert;         keep mux_dead;       keep assert;         keep assert;         keep assert;        keep todo;            keep assert];
   [keep assert;        keep assert;       keep notify_timeout; keep notify_timeout; keep todo;           keep assert;         keep todo;          keep timeout_daemons; keep timeout_waiting_link];
   [keep assert;        keep assert;       keep assert;         keep assert;         keep todo;           keep todo;           keep assert;        keep todo;            keep assert];
   [keep assert;        keep assert;       keep assert;         keep assert;         keep todo;           keep assert;         keep assert;        keep todo;            keep assert];
   [keep assert;        keep todo;         keep todo;           keep todo;           keep notify_run;     keep todo;           keep todo;          none;                 keep todo];
   [keep assert;        keep todo;         keep todo;           keep todo;           keep todo;           keep todo;           keep todo;          keep reset_or_stop;   keep todo]].

Definition g_fsm_array : list cell := concat g_fsm_rows.

Definition pcie_fsm : fsm_cfg crm_hal_ctx_internal pcie_out unit :=
  mk_cfg g_fsm_array EV_NUM ST_NUM None (Some state_trans) modem_dead "HAL" get_state_txt get_event_txt.

(** ** The event loop *)

#[local] Abbreviation F := (fsm_st crm_hal_ctx_internal).

(** What [poll] reports, the first kind of descriptor that is ready: the
    configuration thread gives its message with the results it is computed
    from, the daemons' sockets are given by their index in [pfd]. *)
Inductive poll_result : Type :=
| PollError
| PollTimeout
| PollIpc (msgs : list Z)
| PollNetlink (r : option (string * Z))
| PollCfg (ping : Z) (mux : mux_env) (ping_mux : Z)
| PollMux
| PollRpcd
| PollDaemons (l : list (nat * Z * sock_env)).

Definition notify (evt : Z) : M F pcie_out unit := notify_event pcie_fsm evt tt.

Fixpoint handle_requests (msgs : list Z) (running : bool) : M F pcie_out bool :=
  match msgs with
  | [] => ret running
  | scalar :: msgs' =>
      if scalar =? -1 then handle_requests msgs' false
      else notify scalar ;; handle_requests msgs' running
  end.

(** The events on the daemons' sockets [fds], in the order of [pfd]. *)
Fixpoint handle_daemons (fds : list Z) (l : list (nat * Z * sock_env)) : M F pcie_out unit :=
  match l with
  | [] => ret tt
  | (i, revents, e) :: l' =>
      match fds !! i with
      | None => ret tt
      | Some fd =>
          let* r := on_param (crm_hal_daemon_handle_poll crm_hal_nvm_daemon_cb e fd revents) in
          match r with
          | HAL_DAEMON_POLL_NOT_HANDLED => fail (AssertFail "ret != HAL_DAEMON_POLL_NOT_HANDLED")
          | HAL_DAEMON_NO_CALLBACK_RETVALUE_SET => ret tt
          | HAL_DAEMON_CALLBACK_RETVALUE_SET evt => when (negb (evt =? -1)) (notify evt)
          end
      end ;;
      handle_daemons fds l'
  end.

(** [poll] does not time out when its timeout is -1, and the descriptor of the
    configuration thread is -1 when there is none.  The array [pfd] has [FSM_HAL_FDS_TO_POLL + 2] entries, of which
    [crm_hal_daemon_get_sockets] fills those after the first
    [FSM_HAL_FDS_TO_POLL]. *)
Definition loop_turn (i : poll_result) : M F pcie_out bool :=
  let* fds := on_param crm_hal_daemon_get_sockets in
  (if (length fds <=? 2)%nat then ret tt else fail (Undefined "write past the end of pfd")) ;;
  let* timeout := on_param get_timeout in
  match i with
  | PollError => DASSERT "error on fd" false ;; ret true
  | PollTimeout =>
      (if timeout =? -1 then fail (Stuck "poll blocks") else ret tt) ;;
      let* f := get in
      ASSERT "i_ctx->timer_armed" (timer_armed (fsm_param f)) ;;
      notify EV_TIMEOUT ;; ret true
  | PollIpc msgs => handle_requests msgs true
  | PollNetlink r =>
      let* evt := on_param (crm_hal_get_mdm_state r) in
      when (negb (evt =? -1)) (on_param (set_mdm_state evt) ;; notify evt) ;;
      ret true
  | PollCfg ping mux ping_mux =>
      let* f := get in
      (if thread_cfg (fsm_param f) then ret tt else fail (Stuck "poll blocks")) ;;
      ASSERT "i_ctx->thread_cfg != NULL" (thread_cfg (fsm_param f)) ;;
      let* evt := on_param (crm_hal_cfg_modem ping mux ping_mux) in
      on_param (emit CfgDispose ;; set_thread_cfg false) ;;
      notify evt ;; ret true
  | PollMux => on_param (emit CloseMux ;; set_mux_fd (-1)) ;; notify EV_MUX_ERR ;; ret true
  | PollRpcd => DASSERT "TODO" false ;; ret true
  | PollDaemons l =>
      handle_daemons fds l ;;
      ASSERT "handled" (negb (bool_decide (l = []))) ;;
      ret true
  end.

Fixpoint loop_turns (l : list poll_result) : M F pcie_out bool :=
  match l with
  | [] => ret true
  | i :: l' =>
      let* running := loop_turn i in
      if running then loop_turns l' else ret false
  end.

Definition fsm_start (mcd_ok : bool) (init : list init_poll) : M F pcie_out unit :=
  on_param (crm_hal_init_modem mcd_ok init ;;
            emit (SetProperty "ctl.stop" "rpc-daemon") ;;
            notify_ctrl_event_only HAL_MDM_OFF).

Definition crm_hal_pcie_fsm (mcd_ok : bool) (init : list init_poll) (l : list poll_result)
    (s : crm_hal_ctx_internal) : outcome F pcie_out bool :=
  (fsm_start mcd_ok init ;; loop_turns l) (mk_fsm_st ST_OFF s).

(** init.c: the context, with the daemon of the NVM manager registered and
    started; [server] is the control socket. *)
Definition crm_hal_init (server : Z) : P_ unit :=
  crm_hal_daemon_init server ;;
  let* id := crm_hal_daemon_add "nvm_manager" in
  on_nvm (fun n => mk_nvm (daemon_ctx n) id (nvm_daemon_connected n) (nvm_daemon_syncing n)) ;;
  ASSERT "i_ctx->nvm_daemon_id >= 0" (0 <=? id) ;;
  crm_hal_daemon_start id ;;
  set_connected false.

End operations.

(** The zeroed context with its configuration. *)
Definition calloc_hal (c : pcie_cfg) : crm_hal_ctx_internal :=
  mk_pcie c false (-1) 0 false true (mk_timespec 0 0) REQ_NONE false
    (mk_nvm (mk_daemon_ctx 0 0 [] []) 0 false false) 0 0.
