(* ===== verification/HalPcieTheory.v ===== *)
(** * Invariant of the PCIe HAL

    The timer and the request recorded in the context follow the state, and
    the sockets of the daemons are accounted for.  Every cell of the table of
    HalPcie.v is executed symbolically once; the drivers and the NVM manager
    are summarised by one rule, which says what they leave alone. *)

From S2P Require Import Prelude Fsm Timer MdmCli Control CtrlApi Daemons DaemonsTheory HalPcie.
From Stdlib Require Import ZArith Lia.
From stdpp Require Import base tactics list strings option.

Open Scope Z_scope.
Open Scope crm_scope.

(** ** The discipline of the timer and of the requests *)

Definition discipline (st : Z) (s : crm_hal_ctx_internal) : Prop :=
  if st =? ST_OFF then request s = REQ_NONE -> timer_armed s = false
  else if st =? ST_BOOTING then request s = REQ_POWER /\ timer_armed s = true
  else if st =? ST_FLASHING then
    request s <> REQ_NONE /\ timer_armed s = bool_decide (request s = REQ_BOOT)
  else if st =? ST_STARTING_DAEMONS then request s = REQ_NONE /\ timer_armed s = true
  else if st =? ST_STOPPING_DAEMONS then first_expiration s = false -> timer_armed s = false
  else if st =? ST_WAITING_LINK then (request s = REQ_RESET \/ request s = REQ_STOP) /\ timer_armed s = true
  else request s = REQ_NONE /\ timer_armed s = false.

Record nvm_ok (n : nvm_manager) : Prop := {
  nv_daemons : daemons_ok (daemon_ctx n);
  nv_server : 0 <= server_socket (daemon_ctx n);
  nv_id : nvm_daemon_id n ∈ ids;
}.

Record pcie_core (st : Z) (s : crm_hal_ctx_internal) : Prop := {
  pc_range : 0 <= st < ST_NUM;
  pc_discipline : discipline st s;
  pc_nvm : nvm_ok (nvm s);
}.

(** Between two turns of the loop: the discipline, and a configuration thread
    whenever one is waited for. *)
Definition pcie_inv (f : fsm_st crm_hal_ctx_internal) : Prop :=
  pcie_core (state f) (fsm_param f) /\ (state f = ST_CONFIGURING -> thread_cfg (fsm_param f) = true).

(** The events after which the configuration thread is gone. *)
Definition ends_cfg (evt : Z) : bool :=
  (evt =? EV_MDM_CONFIGURED) || (evt =? EV_MUX_ERR) || (evt =? EV_MUX_DEAD) || (evt =? EV_TIMEOUT).

Record event_pre (evt : Z) (f : fsm_st crm_hal_ctx_internal) : Prop := {
  ep_event : 0 <= evt < EV_NUM;
  ep_core : pcie_core (state f) (fsm_param f);
  ep_cfg : ends_cfg evt = false -> state f = ST_CONFIGURING -> thread_cfg (fsm_param f) = true;
}.

(** The aborts that can happen: the cells that reject an event ([assert], [todo],
    [reject]), the tests of what the request, the thread and the MUX of an earlier
    failure have left, the tests of what the NVM manager answers, the drivers'
    refusals, an error of [poll], a message or a connection that is not
    expected, and the write past the array of descriptors. *)
Definition pcie_failure (r : abort_reason) : bool :=
  match r with
  | AssertFail exp =>
      bool_decide (exp ∈ ["0";
        "i_ctx->request == REQ_NONE"; "i_ctx->request == REQ_POWER || i_ctx->request == REQ_RESET";
        "!i_ctx->thread_cfg"; "i_ctx->mux_fd == -1";
        "i_ctx->nvm_daemon_connected"; "i_ctx->nvm_daemon_connected && !i_ctx->nvm_daemon_syncing";
        "i_ctx->nvm_daemon_id == id"; "msg_len == 0"; "ret != HAL_DAEMON_POLL_NOT_HANDLED"; "handled";
        "!crm_hal_stop_modem(i_ctx)"; "!crm_hal_cold_reset_modem(i_ctx)"; "!crm_file_copy(...)";
        "!ioctl(fd, TIOCSETD, &ldisc)"; "!ioctl(fd, TIOCGETD, &ldisc)"; "!ioctl(fd, GSMIOC_GETCONF, &cfg)"]%string)
  | DAssertFail log =>
      bool_decide (log ∈ ["Control request during modem transition. There is an error in control FSM";
        "Unexpected message id received"; "error on fd"; "TODO"; "failed to open or configure MCD"]%string)
  | Undefined what => bool_decide (what = "write past the end of pfd"%string)
  | Stuck _ => true
  | Exited _ => false
  end || daemon_reason r.
Definition allowed (r : abort_reason) : Prop := pcie_failure r = true.

(** What CTRL accepts: the reports of a failure carry debug information. *)
Definition sound (x : pcie_out) : Prop :=
  match x with NotifyHalEvent ev => CtrlApi.call_ok (CallHalEvent ev) | _ => True end.

(** No report to CTRL. *)
Definition silent (x : pcie_out) : Prop := match x with NotifyHalEvent _ => False | _ => True end.

Lemma silent_sound o : Forall silent o -> Forall sound o.
Proof. induction 1 as [|[] o Hx _ IH]; by constructor. Qed.

(** The types of the reports. *)
Definition pcie_types (o : list pcie_out) : list crm_hal_evt_type :=
  omap (fun x => match x with NotifyHalEvent ev => Some (evt_type (hal ev)) | _ => None end) o.

Lemma pcie_types_app o o' : pcie_types (o ++ o') = pcie_types o ++ pcie_types o'.
Proof. unfold pcie_types. apply omap_app. Qed.

Lemma pcie_types_cons x o :
  pcie_types (x :: o) = match x with NotifyHalEvent ev => [evt_type (hal ev)] | _ => [] end ++ pcie_types o.
Proof. by destruct x. Qed.

Lemma pcie_types_silent o : Forall silent o -> pcie_types o = [].
Proof. induction 1 as [|[] o Hx _ IH]; cbn in *; done. Qed.

(** What one event reports when it leads from [st] to [st']: a failure and a
    flash always come with a BUSY, a dump is reported only while it is waited for,
    which begins with a BUSY. *)
Definition block (st st' : Z) (l : list crm_hal_evt_type) : bool :=
  match l with
  | [] => negb (st' =? ST_WAITING_DUMP) || (st =? ST_WAITING_DUMP)
  | [HAL_MDM_DUMP] => (st =? ST_WAITING_DUMP) && (st' =? ST_WAITING_DUMP)
  | [HAL_MDM_BUSY] => true
  | [HAL_MDM_OFF] | [HAL_MDM_RUN] | [HAL_MDM_BUSY; HAL_MDM_OFF]
  | [HAL_MDM_BUSY; (HAL_MDM_NEED_RESET | HAL_MDM_FLASH | HAL_MDM_UNRESPONSIVE)]
  | [HAL_MDM_BUSY; HAL_MDM_BUSY; HAL_MDM_UNRESPONSIVE] => negb (st' =? ST_WAITING_DUMP)
  | _ => false
  end.

Inductive blocks : Z -> Z -> list crm_hal_evt_type -> Prop :=
| blocks_nil st : blocks st st []
| blocks_cons st st1 st2 l l' : block st st1 l = true -> blocks st1 st2 l' -> blocks st st2 (l ++ l').

Lemma blocks_one st st' l : block st st' l = true -> blocks st st' l.
Proof. intros Hb. rewrite <-(app_nil_r l). eapply blocks_cons; [exact Hb|constructor]. Qed.

Lemma blocks_app st st1 st2 l l' : blocks st st1 l -> blocks st1 st2 l' -> blocks st st2 (l ++ l').
Proof. induction 1 as [|a b c m m' Hb _ IH]; intros Hl; [done|]. rewrite <-(assoc_L (++)). by eapply blocks_cons; [|apply IH]. Qed.

Lemma blocks_silent st o : Forall silent o -> blocks st st (pcie_types o).
Proof. intros Ho. rewrite pcie_types_silent by done. constructor. Qed.

(** OFF with nothing left of the last cycle, or BOOTING, which comes right after. *)
Definition clean (f : fsm_st crm_hal_ctx_internal) : bool :=
  (state f =? ST_BOOTING) ||
  (state f =? ST_OFF) && bool_decide (request (fsm_param f) = REQ_NONE) && negb (timer_armed (fsm_param f)).

(** What the reports of a step say of the state it leads to: after an OFF the
    state is clean, and it stays so while nothing is reported. *)
Definition off_rule (was_clean : bool) (l : list crm_hal_evt_type) (f' : fsm_st crm_hal_ctx_internal) : Prop :=
  match list.last l with
  | None => was_clean = true -> clean f' = true
  | Some HAL_MDM_OFF => clean f' = true
  | Some _ => True
  end.

Lemma clean_spec f :
  clean f = true ->
  state f = ST_BOOTING \/ state f = ST_OFF /\ request (fsm_param f) = REQ_NONE /\ timer_armed (fsm_param f) = false.
Proof. unfold clean. rewrite orb_true_iff, !andb_true_iff, !Z.eqb_eq, bool_decide_eq_true, negb_true_iff. tauto. Qed.

Definition view (f : fsm_st crm_hal_ctx_internal) : Z * bool := (state f, clean f).

Lemma off_rule_app c l l' f1 f2 :
  off_rule c l f1 -> off_rule (clean f1) l' f2 -> off_rule c (l ++ l') f2.
Proof.
  unfold off_rule. intros H1 H2. rewrite last_app. destruct (list.last l') as [[]|]; try done.
  destruct (list.last l) as [[]|]; auto.
Qed.

(** ** Building blocks *)

(** The context with other values of what the drivers and the daemons touch. *)
Definition upd (s : crm_hal_ctx_internal) (mux : Z) (n : nvm_manager) (c : nat) : crm_hal_ctx_internal :=
  mk_pcie (cfg s) (thread_cfg s) mux (mdm_state s) (timer_armed s) (first_expiration s) (timer_end s)
    (request s) (backup s) n (clock_reads s) c.

Lemma daemon_allowed r : daemon_reason r = true -> allowed r.
Proof. unfold allowed, pcie_failure. intros ->. apply orb_true_r. Qed.

Section blocks.
Context `{MdmCli} (clock : nat -> timespec) (call_ok : nat -> bool).
Implicit Types (s : crm_hal_ctx_internal).

Lemma upd_self s : upd s (mux_fd s) (nvm s) (calls s) = s.
Proof. by destruct s. Qed.

Lemma upd_upd s m n c m' n' c' : upd (upd s m n c) m' n' c' = upd s m' n' c'.
Proof. done. Qed.

(** A call that touches nothing but the drivers and the daemons. *)
Definition peripheral {A} (m : P_ A) : Prop :=
  forall s, nvm_ok (nvm s) -> wp m s allowed (fun _ s' o =>
    exists mux n c, s' = upd s mux n c /\ nvm_ok n /\ Forall silent o).

Lemma wp_peripheral {A} (m : P_ A) s (Q : A -> crm_hal_ctx_internal -> list pcie_out -> Prop) :
  peripheral m -> nvm_ok (nvm s) ->
  (forall r mux n c o, nvm_ok n -> Forall silent o -> Q r (upd s mux n c) o) -> wp m s allowed Q.
Proof.
  intros Hm Hs HQ. eapply wp_mono; [by apply Hm|done|]. intros r s' o (mux & n & c & -> & Hn & Ho). by apply HQ.
Qed.

Lemma peripheral_ret {A} (a : A) : peripheral (ret a).
Proof. intros s Hs. apply wp_ret. exists (mux_fd s), (nvm s), (calls s). by rewrite upd_self. Qed.

Lemma peripheral_bind {A B} (m : P_ A) (k : A -> P_ B) :
  peripheral m -> (forall a, peripheral (k a)) -> peripheral (bind m k).
Proof.
  intros Hm Hk s Hs. apply wp_bind. eapply wp_mono; [by apply Hm|done|].
  intros a s1 o1 (mux & n & c & -> & Hn & Ho). eapply wp_mono; [by apply Hk|done|].
  intros b s2 o2 (mux' & n' & c' & -> & Hn' & Ho'). rewrite upd_upd. exists mux', n', c'.
  split_and!; [done..|by apply Forall_app].
Qed.

Lemma peripheral_get : peripheral get.
Proof. intros s Hs. apply wp_get. exists (mux_fd s), (nvm s), (calls s). by rewrite upd_self. Qed.

Lemma peripheral_gets {A} (f : crm_hal_ctx_internal -> A) : peripheral (gets f).
Proof. intros s Hs. apply wp_gets. exists (mux_fd s), (nvm s), (calls s). by rewrite upd_self. Qed.

Lemma peripheral_emit x : silent x -> peripheral (emit x).
Proof.
  intros Hx s Hs. apply wp_emit. exists (mux_fd s), (nvm s), (calls s). rewrite upd_self.
  split_and!; [done..|by apply Forall_singleton].
Qed.

Lemma peripheral_when b (m : P_ unit) : peripheral m -> peripheral (when b m).
Proof. intros Hm. destruct b; [done|apply peripheral_ret]. Qed.

Lemma peripheral_assert exp b : allowed (AssertFail exp) -> peripheral (ASSERT exp b).
Proof. intros He. destruct b; [apply peripheral_ret|]. intros s _. by apply wp_ASSERT. Qed.

Lemma peripheral_call : peripheral (outcome_of_call call_ok).
Proof.
  intros s Hs. apply wp_bind, wp_get, wp_bind, wp_modify, wp_ret.
  by exists (mux_fd s), (nvm s), (Datatypes.S (calls s)).
Qed.

Lemma peripheral_mux fd : peripheral (set_mux_fd fd).
Proof. intros s Hs. apply wp_modify. by exists fd, (nvm s), (calls s). Qed.

Lemma peripheral_connected b : peripheral (set_connected b).
Proof.
  intros s [A1 A2 A3]. apply wp_modify. eexists (mux_fd s), _, (calls s). split; [done|]. by split; [split|].
Qed.

Lemma peripheral_syncing b : peripheral (set_syncing b).
Proof.
  intros s [A1 A2 A3]. apply wp_modify. eexists (mux_fd s), _, (calls s). split; [done|]. by split; [split|].
Qed.

Ltac periph_step := first
  [ progress intros | apply peripheral_bind | apply peripheral_ret | apply peripheral_get | apply peripheral_gets
  | apply peripheral_when | apply peripheral_emit; exact I | apply peripheral_assert; reflexivity
  | apply peripheral_call | apply peripheral_mux | apply peripheral_connected | apply peripheral_syncing ].
Ltac periph := repeat periph_step.

(** The drivers. *)
Lemma peripheral_stop_modem : peripheral (crm_hal_stop_modem call_ok).
Proof. unfold crm_hal_stop_modem, close_mux_if_open, pcie_force_power_on, pcie_disable_lpm, pcie_remove, pcie_rescan,
  optional_write, ioctl. periph. Qed.

Lemma peripheral_start_modem : peripheral (crm_hal_start_modem call_ok).
Proof. unfold crm_hal_start_modem, pcie_rescan, pcie_force_power_on, pcie_enable_lpm, optional_write, ioctl. periph. Qed.

Lemma peripheral_cold_reset : peripheral (crm_hal_cold_reset_modem call_ok).
Proof. unfold crm_hal_cold_reset_modem, close_mux_if_open, pcie_force_power_on, pcie_disable_lpm, pcie_enable_lpm,
  pcie_remove, pcie_rescan, optional_write, ioctl. periph. Qed.

Lemma peripheral_warm_reset : peripheral (crm_hal_warm_reset_modem call_ok).
Proof. unfold crm_hal_warm_reset_modem, close_mux_if_open, pcie_disable_lpm, pcie_enable_lpm, pcie_remove, pcie_rescan,
  optional_write, ioctl. periph. Qed.

(** The NVM manager: the daemons change nothing but their own context. *)
Definition nvm_frame s s' : Prop :=
  exists mux n c, s' = upd s mux n c /\ nvm_daemon_id n = nvm_daemon_id (nvm s).

#[local] Instance nvm_frame_preorder : PreOrder nvm_frame.
Proof.
  split.
  - intros s. exists (mux_fd s), (nvm s), (calls s). by rewrite upd_self.
  - intros s1 s2 s3 (m & n & c & -> & Hn) (m' & n' & c' & -> & Hn'). exists m', n', c'. by rewrite upd_upd, Hn'.
Qed.

Lemma nvm_frame_dset d s : nvm_frame s (dset d s).
Proof. by eexists (mux_fd s), _, (calls s). Qed.

Lemma dout_silent x : silent (dout x).
Proof. done. Qed.

Lemma framed_peripheral n s s' o :
  nvm_ok (nvm s) -> accounted nvm_frame silent n s s' o ->
  exists mux n c, s' = upd s mux n c /\ nvm_ok n /\ Forall silent o.
Proof.
  intros [A1 A2 A3] (B1 & B2 & [B3 (mux & n' & c & -> & Hn) B5]). exists mux, n', c.
  split_and!; [done| |done]. cbn in *. split; [done|congruence|by rewrite Hn].
Qed.

Lemma peripheral_daemon {A} (m : P_ A) :
  (forall s, nvm_ok (nvm s) -> wp m s allowed (fun _ s' o => kept nvm_frame silent s s' o)) -> peripheral m.
Proof.
  intros Hm s Hs. eapply wp_mono; [by apply Hm|done|]. intros a s' o [K _]. by eapply framed_peripheral.
Qed.

Lemma peripheral_daemon_stop i : i ∈ ids -> peripheral (crm_hal_daemon_stop i).
Proof.
  intros Hi. apply peripheral_daemon. intros s [A1 A2 A3]. eapply wp_mono.
  - apply (wp_stop nvm_frame silent nvm_frame_dset dout_silent allowed daemon_allowed); done.
  - done.
  - intros [] s' o [K _]. done.
Qed.

Lemma peripheral_daemon_start i : i ∈ ids -> peripheral (crm_hal_daemon_start i).
Proof.
  intros Hi. apply peripheral_daemon. intros s [A1 A2 A3].
  by apply (wp_start nvm_frame silent dout_silent allowed daemon_allowed).
Qed.

Lemma peripheral_msg_send i m b n ok ok' : i ∈ ids -> peripheral (crm_hal_daemon_msg_send i m b n ok ok').
Proof.
  intros Hi. apply peripheral_daemon. intros s [A1 A2 A3].
  by apply (wp_msg_send nvm_frame silent dout_silent allowed daemon_allowed).
Qed.

(** The identifier of the daemon is one of the array. *)
Lemma peripheral_nvm_id {A} (k : Z -> P_ A) :
  (forall i, i ∈ ids -> peripheral (k i)) -> peripheral (bind nvm_id k).
Proof.
  intros Hk s Hs. apply wp_bind, wp_gets. cbn. apply Hk; [apply Hs|done].
Qed.

Ltac periph_nvm := repeat first
  [ progress intros | apply peripheral_nvm_id | apply peripheral_daemon_stop; done
  | apply peripheral_daemon_start; done | apply peripheral_msg_send; done | periph_step ].

Lemma peripheral_modem_up : peripheral (crm_hal_nvm_on_modem_up call_ok).
Proof. unfold crm_hal_nvm_on_modem_up, nvm_send. periph_nvm. Qed.

Lemma peripheral_modem_down : peripheral (crm_hal_nvm_on_modem_down call_ok).
Proof. unfold crm_hal_nvm_on_modem_down, nvm_send. periph_nvm. Qed.

Lemma peripheral_manager_crash : peripheral crm_hal_nvm_on_manager_crash.
Proof. unfold crm_hal_nvm_on_manager_crash. periph_nvm. Qed.

Lemma peripheral_cfg ping mux ping_mux : peripheral (crm_hal_cfg_modem ping mux ping_mux).
Proof.
  unfold crm_hal_cfg_modem, mount_mux. repeat first [progress periph | case_match].
Qed.

(** The callback leaves the sockets to the daemons. *)
Definition nvm_event (r : Z) : Prop := r = -1 \/ r = EV_NVM_RUN \/ r = EV_NVM_STOP.

Lemma kept_flags s s' :
  daemons_ok (dget s) -> nvm_frame s s' -> daemon_ctx (nvm s') = daemon_ctx (nvm s) ->
  kept nvm_frame silent s s' [].
Proof.
  intros Hd Hf He. unfold kept, accounted, closes. cbn in *. rewrite He. split_and!; [done|lia| |done].
  split; [cbn; congruence|done|done].
Qed.

Lemma nvm_cb_ok id evt m n s :
  id ∈ ids -> daemons_ok (dget s) ->
  wp (crm_hal_nvm_daemon_cb id evt m n) s allowed (fun r s' o => kept nvm_frame silent s s' o /\ nvm_event r).
Proof.
  intros Hi Hd. unfold crm_hal_nvm_daemon_cb, set_connected, set_syncing, on_nvm.
  apply wp_bind, wp_gets, wp_bind, wp_ASSERT; [intros Heq|done]. bool_facts. rewrite Heq. destruct evt.
  - apply wp_bind, wp_modify, wp_ret. split; [|by left].
    apply kept_flags; [done| |done]. by eexists (mux_fd s), _, (calls s).
  - apply wp_bind. eapply wp_mono; [by apply (wp_start nvm_frame silent dout_silent allowed daemon_allowed)|done|].
    intros [] s1 o1 K. apply wp_bind, wp_modify, wp_bind, wp_modify, wp_ret. cbn [app].
    split; [|by right; right]. eapply kept_trans; [apply _|exact K|]. apply kept_flags; [apply K| |done].
    by eexists (mux_fd s1), _, (calls s1).
  - destruct (m =? MMB_CRM_MSG_SUCCESS); [|by apply wp_bind, wp_DASSERT].
    apply wp_bind, wp_ASSERT; [intros _|done]. apply wp_bind, wp_modify, wp_ret. split; [|by right; left].
    apply kept_flags; [done| |done]. by eexists (mux_fd s), _, (calls s).
Qed.

Lemma wp_nvm_poll e fd revents s :
  nvm_ok (nvm s) -> 0 <= fd ->
  wp (crm_hal_daemon_handle_poll crm_hal_nvm_daemon_cb e fd revents) s allowed (fun r s' o =>
    (exists mux n c, s' = upd s mux n c /\ nvm_ok n /\ Forall silent o) /\ answer_ok nvm_event r).
Proof.
  intros Hs Hf. eapply wp_mono.
  - apply (wp_handle_poll nvm_frame silent nvm_frame_dset dout_silent allowed daemon_allowed
      crm_hal_nvm_daemon_cb nvm_event nvm_cb_ok); [apply Hs|done].
  - done.
  - intros r s' o [K Hr]. split; [|done]. by eapply framed_peripheral.
Qed.

End blocks.

(** ** The cells *)

Section cells.
Context `{MdmCli} (clock : nat -> timespec) (call_ok : nat -> bool).

Lemma pcie_cell evt st : 0 <= evt < EV_NUM -> 0 <= st < ST_NUM ->
  exists row op, g_fsm_rows clock call_ok !! Z.to_nat evt = Some row /\ row !! Z.to_nat st = Some op /\
    get_op (pcie_fsm clock call_ok) st evt = Some op.
Proof.
  unfold EV_NUM, ST_NUM. intros He Hs.
  assert (forall r, r ∈ g_fsm_rows clock call_ok -> length r = 9%nat) as Hlen.
  { intros r Hr. apply list_elem_of_In in Hr. cbn [g_fsm_rows In] in Hr.
    repeat (destruct Hr as [<-|Hr]; [done|]). done. }
  destruct (lookup_lt_is_Some_2 (g_fsm_rows clock call_ok) (Z.to_nat evt)) as [row Hrow].
  { change (length (g_fsm_rows clock call_ok)) with 19%nat. lia. }
  assert (length row = 9%nat) as Hl by (eapply Hlen, list_elem_of_lookup_2, Hrow).
  destruct (lookup_lt_is_Some_2 row (Z.to_nat st)) as [op Hop]; [lia|].
  exists row, op. split_and!; [done..|].
  apply (get_op_rows _ (g_fsm_rows clock call_ok) _ _ row); try done; try lia.
  intros r Hr. rewrite (Hlen r Hr). done.
Qed.

Definition event_post (v : Z * bool) (f' : fsm_st crm_hal_ctx_internal) (o : list pcie_out) : Prop :=
  pcie_inv f' /\ Forall sound o /\ blocks v.1 (state f') (pcie_types o) /\ off_rule v.2 (pcie_types o) f'.

(** What has to be shown of a cell, once the stages of [notify_event] are
    peeled off. *)
Definition cell_goal (evt st : Z) (op : crm_fsm_ops crm_hal_ctx_internal pcie_out unit) (s : crm_hal_ctx_internal) : Prop :=
  wp (run_op (pcie_fsm clock call_ok) op st tt) (mk_fsm_st st s) allowed (fun new f1 o1 =>
    is_Some (get_state_txt new) ->
    wp (if st =? new then ret tt else state_trans st new evt tt) (fsm_param f1) allowed (fun _ s2 o2 =>
      0 <= new < ST_NUM /\ event_post (view (mk_fsm_st st s)) (mk_fsm_st new s2) (o1 ++ o2))).

Lemma pcie_cell_assert evt st s : cell_goal evt st (keep assert) s.
Proof. by apply wp_run_op. Qed.
Lemma pcie_cell_reject evt st s : cell_goal evt st (keep reject) s.
Proof. by apply wp_run_op. Qed.
Lemma pcie_cell_todo evt st s : cell_goal evt st (keep todo) s.
Proof. by apply wp_run_op. Qed.

Ltac pcie_unfold :=
  unfold notify_mux_err, notify_timeout, notify_self, notify_need_reset, notify_dump, notify_crash, prepare_dump,
    notify_flash, start_daemons, notify_run, mux_dead, modem_dead, notify_dead, request_backup, request_stop, request_reset,
    request_power, no_request, request_boot, accept_stop, accept_reset, timeout_daemons, reset_or_stop,
    save_calibration, mdm_off_evt, link_down_evt, timeout_waiting_link, stop_or_reset_requested, cfg_modem,
    is_req, stop_daemons, timer_start, read_clock, next_read, notify_ctrl_event_only, notify_hal,
    outcome_of_call, next_call, set_thread_cfg, set_mdm_state, set_timer, timer_off, set_first_expiration,
    set_request, set_backup, state_trans, upd in *.

Ltac pcie_closed :=
  repeat match goal with
  | |- context [Z.eqb ?a ?b] =>
      let v := eval vm_compute in (Z.eqb a b) in
      match v with true => change (Z.eqb a b) with true | false => change (Z.eqb a b) with false end
  | |- context [Z.leb ?a ?b] =>
      let v := eval vm_compute in (Z.leb a b) in
      match v with true => change (Z.leb a b) with true | false => change (Z.leb a b) with false end
  end.

Ltac pcie_simpl :=
  cbn -[Z.eqb Z.leb Z.ltb next_state get_state_txt crm_time_add_ms bool_decide node_of];
  unfold next_state; pcie_closed;
  cbn -[Z.eqb Z.leb Z.ltb next_state get_state_txt crm_time_add_ms bool_decide node_of].

Ltac pcie_call := apply wp_peripheral; [|cbn; done|intros].

Ltac pcie_step :=
  lazymatch goal with
  | |- is_Some _ -> _ => intros ?
  | |- wp (crm_hal_stop_modem _) _ _ _ => pcie_call; [apply peripheral_stop_modem|]
  | |- wp (crm_hal_start_modem _) _ _ _ => pcie_call; [apply peripheral_start_modem|]
  | |- wp (crm_hal_cold_reset_modem _) _ _ _ => pcie_call; [apply peripheral_cold_reset|]
  | |- wp (crm_hal_warm_reset_modem _) _ _ _ => pcie_call; [apply peripheral_warm_reset|]
  | |- wp (crm_hal_nvm_on_modem_up _) _ _ _ => pcie_call; [apply peripheral_modem_up|]
  | |- wp (crm_hal_nvm_on_modem_down _) _ _ _ => pcie_call; [apply peripheral_modem_down|]
  | |- wp crm_hal_nvm_on_manager_crash _ _ _ => pcie_call; [apply peripheral_manager_crash|]
  | |- _ => wp_step
  end.

Ltac pcie_run := repeat (pcie_simpl; first [ pcie_step | progress pcie_unfold ]).

Ltac sound_leaf :=
  repeat first [ by apply silent_sound | apply Forall_nil_2 | apply Forall_app; split | apply Forall_cons_2; [cbn; by eauto|] ].

Ltac shape_leaf :=
  repeat first [rewrite pcie_types_app | rewrite pcie_types_cons];
  repeat match goal with H : Forall silent ?o |- _ => rewrite (pcie_types_silent o H); clear H end;
  split; [apply blocks_one; reflexivity|unfold off_rule, clean; cbn -[bool_decide]].

(** The rule of OFF at the end of a path. *)
Ltac off_leaf :=
  cbn -[bool_decide] in *; destruct_and?; destruct_or?; subst;
  first [ done | intros ?; bool_facts; subst; first [done | congruence | tauto] ].

(** The postcondition at the end of a path. *)
Ltac pcie_leaf :=
  first
  [ done
  | exfalso; congruence
  | exfalso; match goal with H : is_Some (get_state_txt _) |- _ => by destruct H end
  | exfalso; destruct_and?; destruct_or?; subst; done
  | split; [by split; vm_compute|];
    split; [split; [split; [by split; vm_compute| |done]|done]|split; [sound_leaf|shape_leaf; off_leaf]];
    cbn -[bool_decide]; destruct_and?; destruct_or?; subst;
    first [ done | split_and?; first [done | by auto | congruence]
          | match goal with r : ctrl_request |- _ => destruct r end; cbn in *; intuition congruence ]
  | exfalso; destruct_and?; match goal with r : ctrl_request |- _ => destruct r end; subst; first [done | congruence | intuition congruence] ].

Ltac pcie_exec Hpre :=
  repeat match goal with
  | |- context [Z.of_nat ?n] =>
      let v := eval vm_compute in (Z.of_nat n) in change (Z.of_nat n) with v in *
  end;
  unfold cell_goal; apply wp_run_op; destruct Hpre as [_ [_ ?P1 ?P2] ?P3];
  match goal with s : crm_hal_ctx_internal |- _ => destruct s end;
  cbn -[bool_decide] in P1, P2, P3;
  pcie_unfold; pcie_run; bool_facts; pcie_leaf.

Ltac pcie_solve Hpre :=
  lazymatch goal with
  | |- cell_goal _ _ (keep assert) _ => apply pcie_cell_assert
  | |- cell_goal _ _ (keep reject) _ => apply pcie_cell_reject
  | |- cell_goal _ _ (keep todo) _ => apply pcie_cell_todo
  | |- _ => pcie_exec Hpre
  end.

Lemma wp_pcie_rows evt st row op s :
  g_fsm_rows clock call_ok !! evt = Some row -> row !! st = Some op ->
  event_pre (Z.of_nat evt) (mk_fsm_st (Z.of_nat st) s) ->
  cell_goal (Z.of_nat evt) (Z.of_nat st) op s.
Proof.
  intros Hrow Hop Hpre.
  do 19 (destruct evt as [|evt];
    [ cbn [lookup list_lookup g_fsm_rows] in Hrow; injection Hrow as <-;
      do 9 (destruct st as [|st];
        [ cbn [lookup list_lookup] in Hop; injection Hop as <-; solve [pcie_solve Hpre] | ]);
      by destruct st
    | ]).
  by destruct evt.
Qed.

Lemma pcie_state_named st : 0 <= st < ST_NUM -> is_Some (get_state_txt st).
Proof.
  unfold get_state_txt, ST_NUM. intros [H1 H2]. destruct (Z.ltb_spec st 0); [lia|].
  apply lookup_lt_is_Some_2. cbn. lia.
Qed.

Lemma pcie_event_named evt : 0 <= evt < EV_NUM -> is_Some (get_event_txt evt).
Proof.
  unfold get_event_txt, EV_NUM. intros [H1 H2]. destruct (Z.ltb_spec evt 0); [lia|].
  apply lookup_lt_is_Some_2. cbn. lia.
Qed.

Lemma wp_pcie_event evt f :
  event_pre evt f -> wp (notify clock call_ok evt) f allowed (fun _ f' o => event_post (view f) f' o).
Proof.
  intros Hpre. pose proof (ep_event _ _ Hpre) as He. pose proof (pc_range _ _ (ep_core _ _ Hpre)) as Hs.
  destruct (pcie_cell evt (state f) He Hs) as (row & op & Hrow & Hop & Hget).
  eapply wp_notify_event; [cbn; lia|by apply pcie_event_named|by apply pcie_state_named|exact Hget|].
  cbn [pre_op pcie_fsm]. apply wp_ret.
  pose proof (wp_pcie_rows (Z.to_nat evt) (Z.to_nat (state f)) row op (fsm_param f) Hrow Hop) as Hc.
  rewrite !Z2Nat.id in Hc by lia. destruct f as [st s]. cbn [state fsm_param] in *. specialize (Hc Hpre).
  eapply wp_mono; [exact Hc|done|]. intros new f1 o1 Hn. split; [by right|exact Hn].
Qed.

End cells.

(** ** Turns of the loop *)

(** The messages of the queue are those of request.c. *)
Definition input_ok (i : poll_result) : Prop :=
  match i with
  | PollIpc msgs => Forall (fun m => m = -1 \/ 0 <= m <= EV_BACKUP) msgs
  | _ => True
  end.

Section turns.
Context `{MdmCli} (clock : nat -> timespec) (call_ok : nat -> bool).
Implicit Types (f : fsm_st crm_hal_ctx_internal) (s : crm_hal_ctx_internal).

#[local] Abbreviation post v := (fun _ f' o => event_post v f' o).

Lemma wp_seq {A B} (m : M (fsm_st crm_hal_ctx_internal) pcie_out A) (k : A -> M _ _ B) f :
  wp m f allowed (fun _ f' o => event_post (view f) f' o) ->
  (forall a f', pcie_inv f' -> wp (k a) f' allowed (post (view f'))) ->
  wp (bind m k) f allowed (post (view f)).
Proof.
  intros Hm Hk. apply wp_bind. eapply wp_mono; [exact Hm|done|]. intros a f1 o1 (H1 & H2 & H3 & H3').
  eapply wp_mono; [by apply Hk|done|]. intros b f2 o2 (H4 & H5 & H6 & H6').
  split_and!; [done|by apply Forall_app|rewrite pcie_types_app..]; [by eapply blocks_app|by eapply off_rule_app].
Qed.

(** Silent actions before an event. *)
Lemma post_after v f o1 o2 : Forall silent o1 -> event_post v f o2 -> event_post v f (o1 ++ o2).
Proof.
  intros Ho (H1 & H2 & H3 & H4). split_and!; [done|apply Forall_app; split; [by apply silent_sound|done]|..];
    by rewrite pcie_types_app, (pcie_types_silent o1 Ho).
Qed.

Lemma post_nil f : pcie_inv f -> event_post (view f) f [].
Proof. intros Hi. split_and!; [done|done|exact (blocks_nil _)|exact (fun H => H)]. Qed.

Lemma post_ret {A} (a : A) f : pcie_inv f -> wp (ret a) f allowed (fun _ f' o => event_post (view f) f' o).
Proof. intros Hi. apply wp_ret. by apply post_nil. Qed.

(** A peripheral call between two events. *)
Lemma core_upd st s mux n c : pcie_core st s -> nvm_ok n -> pcie_core st (upd s mux n c).
Proof. intros [A1 A2 A3] Hn. by split. Qed.

Lemma inv_upd st s mux n c : pcie_inv (mk_fsm_st st s) -> nvm_ok n -> pcie_inv (mk_fsm_st st (upd s mux n c)).
Proof. intros [A B] Hn. split; [by apply core_upd|done]. Qed.

Lemma inv_event evt f : pcie_inv f -> 0 <= evt < EV_NUM -> event_pre evt f.
Proof. intros [A B] He. by split. Qed.

Lemma wp_event_at evt f st :
  view f = st -> event_pre evt f -> wp (notify clock call_ok evt) f allowed (fun _ f' o => event_post st f' o).
Proof. intros <-. apply wp_pcie_event. Qed.

Lemma wp_event_ret evt f st :
  view f = st -> event_pre evt f -> wp (notify clock call_ok evt ;; ret true) f allowed (post st).
Proof. intros <- Hp. apply wp_seq; [by apply wp_pcie_event|]. intros [] f' Hf. by apply post_ret. Qed.

Lemma wp_pcie_requests msgs b f :
  pcie_inv f -> Forall (fun m => m = -1 \/ 0 <= m <= EV_BACKUP) msgs ->
  wp (handle_requests clock call_ok msgs b) f allowed (post (view f)).
Proof.
  intros Hi Hm. revert b f Hi. induction Hm as [|m msgs Hm _ IH]; intros b f Hi; cbn [handle_requests].
  { by apply post_ret. }
  destruct (Z.eqb_spec m (-1)) as [->|Hne]; [by apply IH|]. destruct Hm as [|Hm]; [done|].
  apply wp_seq; [|by auto]. apply wp_pcie_event, inv_event; [done|]. unfold EV_BACKUP, EV_NUM in *. lia.
Qed.

Lemma wp_pcie_timeout f :
  pcie_inv f ->
  wp (on_param (get_timeout clock)) f allowed (fun r f' o =>
    pcie_inv f' /\ o = [] /\ view f' = view f /\ timer_armed (fsm_param f') = timer_armed (fsm_param f) /\
    nvm (fsm_param f') = nvm (fsm_param f) /\ (timer_armed (fsm_param f) = false -> r = -1)).
Proof.
  intros [[A1 A2 A3] B]. apply wp_on_param. unfold get_timeout, read_clock, next_read. destruct f as [st s].
  apply wp_bind, wp_get. cbn in *. destruct (timer_armed s) eqn:Ht; cbn.
  - apply wp_bind, wp_bind, wp_get, wp_bind, wp_modify, wp_ret, wp_ret. cbn. split_and!; try done.
  - apply wp_ret. by split_and!.
Qed.

Lemma wp_pcie_netlink r s :
  wp (crm_hal_get_mdm_state r) s allowed (fun evt s' (o : list pcie_out) =>
    s' = s /\ o = [] /\ (evt = -1 \/ EV_MDM_OFF <= evt <= EV_MDM_LINK_DOWN)).
Proof.
  unfold crm_hal_get_mdm_state. destruct r as [[x n]|]; apply wp_ret; [|by auto]. split_and!; [done..|].
  destruct (List.find _ netlink_events) as [e|] eqn:Hf; [|by left]. right.
  apply List.find_some in Hf as [Hf _]. cbn in Hf.
  repeat (destruct Hf as [<-|Hf]; [by split; vm_compute|]). done.
Qed.

Lemma wp_netlink_turn r f :
  pcie_inv f ->
  wp (let* evt := on_param (crm_hal_get_mdm_state r) in
      when (negb (evt =? -1)) (on_param (set_mdm_state evt) ;; notify clock call_ok evt) ;; ret true)
    f allowed (post (view f)).
Proof.
  intros Hi. destruct f as [st s]. apply wp_bind, wp_on_param. eapply wp_mono; [apply wp_pcie_netlink|done|].
  intros evt ? ? (-> & -> & He). cbn [app]. apply wp_seq; [|intros [] f' Hf; by apply post_ret].
  apply wp_when; [|intros _; by apply post_nil]. intros Hne. bool_facts. destruct He as [|He]; [done|].
  apply wp_bind, wp_on_param, wp_modify. cbn [app]. apply wp_event_at; [done|]. apply inv_event.
  - destruct Hi as [[A1 A2 A3] B]. by split.
  - unfold EV_MDM_OFF, EV_MDM_LINK_DOWN, EV_NUM in *. lia.
Qed.

Lemma wp_cfg_event ping mux ping_mux s :
  nvm_ok (nvm s) ->
  wp (crm_hal_cfg_modem ping mux ping_mux) s allowed (fun evt s' o =>
    (exists mux n c, s' = upd s mux n c /\ nvm_ok n /\ Forall silent o) /\
    0 <= evt < EV_NUM /\ ends_cfg evt = true).
Proof.
  intros Hs. pose proof (peripheral_cfg ping mux ping_mux s Hs) as Hp.
  assert (wp (crm_hal_cfg_modem ping mux ping_mux) s allowed (fun evt s' (o : list pcie_out) =>
    0 <= evt < EV_NUM /\ ends_cfg evt = true)) as Hq.
  { unfold crm_hal_cfg_modem, mount_mux, set_mux_fd. repeat wp_step; try done; repeat case_match; (split; [by split; vm_compute|done]). }
  unfold wp in *. by destruct (crm_hal_cfg_modem ping mux ping_mux s).
Qed.

Lemma wp_cfg_turn ping mux ping_mux f :
  pcie_inv f ->
  wp (let* f := get in
      (if thread_cfg (fsm_param f) then ret tt else fail (Stuck "poll blocks")) ;;
      ASSERT "i_ctx->thread_cfg != NULL" (thread_cfg (fsm_param f)) ;;
      let* evt := on_param (crm_hal_cfg_modem ping mux ping_mux) in
      on_param (emit CfgDispose ;; set_thread_cfg false) ;;
      notify clock call_ok evt ;; ret true) f allowed (post (view f)).
Proof.
  intros [Hc Hth]. destruct f as [st s]. apply wp_bind, wp_get, wp_bind. cbn [fsm_param].
  destruct (thread_cfg s); [|by apply wp_fail]. apply wp_ret. cbn [app]. apply wp_bind, wp_ASSERT; [intros _|done].
  apply wp_bind, wp_on_param. eapply wp_mono; [apply wp_cfg_event, Hc|done|].
  intros evt ? o ((mux' & n & c & -> & Hn & Ho) & He & Hends). cbn [state].
  apply wp_bind, wp_on_param, wp_bind, wp_emit, wp_modify. cbn [app].
  eapply wp_mono; [apply (wp_event_ret _ _ (view (mk_fsm_st st s))); [done|]|done|].
  - destruct Hc as [A1 A2 A3]. split; [done|by split|]. by rewrite Hends.
  - intros ? f' o' Hp. apply post_after; [done|]. by apply (post_after _ _ [CfgDispose]); [apply Forall_singleton|].
Qed.

Lemma wp_mux_turn f :
  pcie_inv f ->
  wp (on_param (emit CloseMux ;; set_mux_fd (-1)) ;; notify clock call_ok EV_MUX_ERR ;; ret true) f allowed (post (view f)).
Proof.
  intros [[A1 A2 A3] B]. destruct f as [st s]. apply wp_bind, wp_on_param, wp_bind, wp_emit, wp_modify. cbn [app].
  eapply wp_mono; [apply (wp_event_ret _ _ (view (mk_fsm_st st s))); [done|]|done|].
  - split; [by split; vm_compute|by split|done].
  - intros ? f' o' Hp. by apply (post_after _ _ [CloseMux]); [apply Forall_singleton|].
Qed.

Lemma wp_pcie_daemons fds l f :
  pcie_inv f -> Forall (fun fd => 0 <= fd) fds ->
  wp (handle_daemons clock call_ok fds l) f allowed (post (view f)).
Proof.
  intros Hi Hfds. revert f Hi. induction l as [|[[i revents] e] l IH]; intros f Hi; cbn [handle_daemons].
  { by apply post_ret. }
  apply wp_seq; [|by auto]. destruct (fds !! i) as [fd|] eqn:Hfd; [|by apply post_ret].
  apply wp_bind, wp_on_param. destruct f as [st s].
  eapply wp_mono; [apply wp_nvm_poll; [apply Hi|by eapply (Forall_lookup_1 (fun fd => 0 <= fd))]|done|].
  intros r ? o [(mux & n & c & -> & Hn & Ho) Hr]. cbn [state].
  pose proof (inv_upd _ _ mux n c Hi Hn) as Hi'.
  assert (event_post (view (mk_fsm_st st s)) (mk_fsm_st st (upd s mux n c)) (o ++ [])) as Hnone.
  { apply post_after; [done|]. exact (post_nil _ Hi'). }
  destruct r as [| |evt]; [done|by apply wp_ret|]. apply wp_when; intros Hne; bool_facts.
  - eapply wp_mono; [apply (wp_event_at _ _ (view (mk_fsm_st st s))); [done|]; apply inv_event; [done|]|done|].
    + destruct Hr as [?|[->| ->]]; [done|by split; vm_compute..].
    + intros [] f' o' Hp. by apply post_after.
  - done.
Qed.

Lemma wp_pcie_sockets f :
  pcie_inv f -> wp (on_param crm_hal_daemon_get_sockets) f allowed (fun fds f' o =>
    f' = f /\ o = [] /\ Forall (fun fd => 0 <= fd) fds).
Proof.
  intros [[_ _ [A1 A2 A3]] _]. destruct f as [st s]. apply wp_on_param.
  eapply wp_mono; [by apply wp_get_sockets|done|]. by intros fds ? ? (-> & -> & _ & Hf).
Qed.

Lemma wp_pcie_turn i f :
  pcie_inv f -> input_ok i -> wp (loop_turn clock call_ok i) f allowed (post (view f)).
Proof.
  intros Hi Hin. unfold loop_turn. apply wp_bind. eapply wp_mono; [by apply wp_pcie_sockets|done|].
  intros fds ? ? (-> & -> & Hfds). cbn [app].
  apply wp_seq; [destruct (_ <=? 2)%nat; [by apply post_ret|done]|]. clear f Hi. intros [] f Hi.
  apply wp_bind. eapply wp_mono; [by apply wp_pcie_timeout|done|].
  intros r f1 ? (Hi1 & -> & Hst & Ht & Hn & Hr). cbn [app].
  rewrite <-Hst. destruct i as [| |msgs|nl|ping mux ping_mux| | |l].
  - by apply wp_bind, wp_DASSERT.
  - apply wp_bind. destruct (Z.eqb_spec r (-1)) as [|Hne]; [by apply wp_fail|]. apply wp_ret. cbn [app].
    apply wp_bind, wp_get, wp_bind, wp_ASSERT; [intros _|].
    + apply wp_event_ret; [done|]. apply inv_event; [done|by split; vm_compute].
    + rewrite Ht. intros Hf. by destruct Hne; auto.
  - by apply wp_pcie_requests.
  - by apply wp_netlink_turn.
  - by apply wp_cfg_turn.
  - by apply wp_mux_turn.
  - by apply wp_bind, wp_DASSERT.
  - apply wp_seq; [by apply wp_pcie_daemons|]. intros [] f2 Hf2. apply wp_bind, wp_ASSERT; [intros _|done].
    by apply post_ret.
Qed.

Lemma wp_pcie_turns l f :
  pcie_inv f -> Forall input_ok l -> wp (loop_turns clock call_ok l) f allowed (post (view f)).
Proof.
  intros Hi Hl. revert f Hi. induction Hl as [|i l Hin _ IH]; intros f Hi; cbn [loop_turns]; [by apply post_ret|].
  apply wp_seq; [by apply wp_pcie_turn|]. intros [] f' Hf; [by auto|by apply post_ret].
Qed.

End turns.

(** ** The start of the thread *)

Section start.
Context `{MdmCli} (clock : nat -> timespec) (call_ok : nat -> bool).
Implicit Types (s : crm_hal_ctx_internal).

(** The context as [crm_hal_init] leaves it. *)
Definition fresh_pcie s : Prop := request s = REQ_NONE /\ timer_armed s = false /\ nvm_ok (nvm s).

#[local] Abbreviation fresh_post := (fun _ s' (o : list pcie_out) => fresh_pcie s' /\ Forall silent o).

Lemma wp_fresh_seq {A B} (m : P_ A) (k : A -> P_ B) s :
  wp m s allowed (fun _ s' o => fresh_pcie s' /\ Forall silent o) ->
  (forall a s', fresh_pcie s' -> wp (k a) s' allowed fresh_post) ->
  wp (bind m k) s allowed fresh_post.
Proof.
  intros Hm Hk. apply wp_bind. eapply wp_mono; [exact Hm|done|]. intros a s1 o1 [H1 H2].
  eapply wp_mono; [by apply Hk|done|]. intros b s2 o2 [H3 H4]. split; [done|by apply Forall_app].
Qed.

Lemma fresh_peripheral {A} (m : P_ A) s : peripheral m -> fresh_pcie s -> wp m s allowed fresh_post.
Proof. intros Hm (A1 & A2 & A3). apply wp_peripheral; [done..|]. intros. split; [by split_and!|done]. Qed.

Lemma fresh_mdm_state z s : fresh_pcie s -> wp (set_mdm_state z) s allowed fresh_post.
Proof. by intros. Qed.

Lemma fresh_clock s : fresh_pcie s -> wp (read_clock clock) s allowed fresh_post.
Proof. intros Hs. by apply wp_bind, wp_get, wp_bind, wp_modify, wp_ret. Qed.

Lemma wp_pcie_init_loop stop_at l s : fresh_pcie s -> wp (init_modem_loop clock stop_at l) s allowed fresh_post.
Proof.
  revert s. induction l as [|i l IH]; intros s Hs; cbn [init_modem_loop];
    (apply wp_fresh_seq; [by apply fresh_clock|]); intros now s1 H1; (destruct (0 <? _); [|by apply wp_ret]); [done|].
  destruct i as [|r|]; [by apply wp_ret| |by apply IH]. apply wp_fresh_seq.
  { eapply wp_mono; [apply wp_pcie_netlink|done|]. by intros ? ? ? (-> & -> & _). }
  intros evt s2 H2. destruct (negb _); [|by apply IH]. apply wp_fresh_seq; [by apply fresh_mdm_state|].
  intros [] s3 H3. destruct (_ =? _); [by apply wp_ret|by apply IH].
Qed.

Lemma wp_pcie_init_modem mcd_ok init s :
  fresh_pcie s -> wp (crm_hal_init_modem clock call_ok mcd_ok init) s allowed fresh_post.
Proof.
  intros Hs. unfold crm_hal_init_modem.
  apply wp_fresh_seq; [by apply wp_DASSERT|]. intros [] s1 H1. apply wp_fresh_seq; [by apply fresh_mdm_state|].
  intros [] s2 H2. apply wp_fresh_seq; [apply fresh_peripheral; [apply peripheral_stop_modem|done]|].
  intros r s3 H3. apply wp_fresh_seq; [by apply wp_ASSERT|]. intros [] s4 H4.
  do 2 (apply wp_fresh_seq; [apply fresh_peripheral; [|done];
    apply peripheral_bind; [apply peripheral_get|intros; apply peripheral_when, peripheral_emit; done]|];
    clear s4 H4; intros [] s4 H4).
  apply wp_fresh_seq; [by apply fresh_clock|]. intros now s5 H5. by apply wp_pcie_init_loop.
Qed.

(** The first report is OFF. *)
Lemma wp_pcie_start mcd_ok init s :
  fresh_pcie s ->
  wp (fsm_start clock call_ok mcd_ok init) (mk_fsm_st ST_OFF s) allowed (fun _ f' o => event_post (view (mk_fsm_st ST_OFF s)) f' o).
Proof.
  intros Hs. unfold fsm_start. apply wp_on_param, wp_bind. eapply wp_mono; [by apply wp_pcie_init_modem|done|].
  intros [] s' o [(A1 & A2 & A3) Ho]. apply wp_bind, wp_emit, wp_emit. apply post_after; [done|].
  split_and!; [|by repeat constructor|by apply blocks_one|unfold off_rule, clean; cbn -[bool_decide]; by rewrite A1, A2].
  split; [|done]. split; [by split; vm_compute|by intros _|done].
Qed.

(** [crm_hal_init] opens the control socket and registers the NVM manager. *)
Lemma pcie_init_fresh server c s o :
  crm_hal_init server (calloc_hal c) = Ok tt s o -> fresh_pcie s /\ nvm_daemon_id (nvm s) = 0.
Proof.
  destruct (Z.leb_spec 0 server) as [Hs|Hs].
  - intros Hi. cbv -[Z.leb] in Hi. destruct (Z.leb_spec 0 server); [|lia]. injection Hi as <- <-.
    split; [|done]. split_and!; [done..|]. split; [|done|by apply elem_of_seqZ].
    split; cbn; try done; repeat first [apply Forall_nil_2 | apply Forall_cons_2; [try done|]].
    all: split_and!; cbn; first [lia | by eauto | by intros [? ?]].
  - intros Hi. cbv -[Z.leb] in Hi. by destruct (Z.leb_spec 0 server); [lia|].
Qed.

End start.
