(* ===== verification/HalPcieProps.v ===== *)
(** * Properties of the PCIe HAL

    The discipline over any run, its reports accepted by CTRL, a complete boot, and
    the runs that abort the process. *)

From S2P Require Import Prelude Fsm Timer MdmCli Control ControlTheory ControlProps CtrlApi CtrlHal Daemons DaemonsTheory HalPcie HalPcieTheory.
From Stdlib Require Import ZArith Lia.
From stdpp Require Import base tactics list strings option.

Open Scope Z_scope.
Open Scope crm_scope.

(** The whole thread. *)
Lemma wp_pcie_run `{MdmCli} (clock : nat -> timespec) (call_ok : nat -> bool) mcd_ok init l s0 :
  fresh_pcie s0 -> Forall input_ok l ->
  wp (fsm_start clock call_ok mcd_ok init ;; loop_turns clock call_ok l) (mk_fsm_st ST_OFF s0) allowed
    (fun _ f o => event_post (view (mk_fsm_st ST_OFF s0)) f o).
Proof.
  intros Hf Hl. apply (wp_seq _ _ (mk_fsm_st ST_OFF s0)); [by apply wp_pcie_start|]. intros [] f1 H1. by apply wp_pcie_turns.
Qed.

(** C24. What the PCIe HAL keeps of its requests and of its timer, state by
    state, and how it can end.  From the context of [crm_hal_init], whatever the
    kernel events, the results of the drivers, of the configuration thread and
    of the daemons, and the requests, as long as the thread goes on:
    - in BOOTING the request is a power-on and the timer runs; in FLASHING there
      is a request and the timer runs exactly when it is a boot; in
      STARTING_DAEMONS there is no request and the timer runs; in WAITING_LINK the
      request is a reset or a stop and the timer runs; in CONFIGURING, RUN and
      WAITING_DUMP there is neither, and in CONFIGURING the thread exists; in
      STOPPING_DAEMONS the timer is off after its first expiration;
    - in OFF a timer runs only with a request left over, and there is no request
      and no timer whenever OFF is the last thing CTRL was told (which also holds
      in BOOTING, the next state); after a failure or a stop of a modem already
      down both may be left;
    - the sockets of the daemons are counted right, and every report carries the
      debug information CTRL asserts.
    When it aborts, the reason is one of [pcie_failure]: a timer armed twice or
    expected and missing, a link event without its request, an index outside of an
    array other than [pfd] and a wrong count of sockets are none of them; the
    leftovers of OFF, the cells that reject an event and the peers are
    ([pcie_failing_runs]). *)
Theorem pcie_bookkeeping `{MdmCli} (clock : nat -> timespec) (call_ok : nat -> bool) server c s0 oi mcd_ok init l :
  crm_hal_init server (calloc_hal c) = Ok tt s0 oi -> Forall input_ok l ->
  match crm_hal_pcie_fsm clock call_ok mcd_ok init l s0 with
  | Ok _ f o =>
      0 <= state f < ST_NUM /\ discipline (state f) (fsm_param f) /\
      (state f = ST_CONFIGURING -> thread_cfg (fsm_param f) = true) /\
      (list.last (pcie_types o) = Some HAL_MDM_OFF ->
       state f = ST_BOOTING \/
       state f = ST_OFF /\ request (fsm_param f) = REQ_NONE /\ timer_armed (fsm_param f) = false) /\
      daemons_ok (daemon_ctx (nvm (fsm_param f))) /\
      Forall sound o
  | Abort r _ => pcie_failure r = true
  end.
Proof.
  intros Hi Hl. apply pcie_init_fresh in Hi as [Hf _].
  pose proof (wp_pcie_run clock call_ok mcd_ok init l s0 Hf Hl) as Hw. unfold wp in Hw. change ((fsm_start clock call_ok mcd_ok init ;; loop_turns clock call_ok l) (mk_fsm_st ST_OFF s0))
    with (crm_hal_pcie_fsm clock call_ok mcd_ok init l s0) in Hw.
  destruct (crm_hal_pcie_fsm _ _ _ _ _ _); [|done].
  destruct Hw as ([[A1 A2 [A3 A4 A5]] B] & Ho & _ & Hoff). split_and!; [apply A1..|done|done| |done|done].
  intros Hl'. unfold off_rule in Hoff. rewrite Hl' in Hoff. by apply clean_spec.
Qed.

(** ** The contract with CTRL *)

(** No dump is reported twice in a row, [last] being the report before. *)
Fixpoint single_dumps (last : option crm_hal_evt_type) (l : list crm_hal_evt_type) : Prop :=
  match l with
  | [] => True
  | t :: l' => ~ (t = HAL_MDM_DUMP /\ last = Some HAL_MDM_DUMP) /\ single_dumps (Some t) l'
  end.

(** While a dump is waited for, the last report is the BUSY that began the wait, or
    a dump. *)
Lemma blocks_accepted st st' l w last :
  blocks st st' l -> (st = ST_WAITING_DUMP -> w = true \/ last = Some HAL_MDM_DUMP) ->
  single_dumps last l -> accepted w l.
Proof.
  intros Hl. revert w last. induction Hl as [|st st1 st2 l l' Hb _ IH]; intros w last Hw Hs; [done|].
  destruct (Z.eqb_spec st1 ST_WAITING_DUMP) as [->|Hn].
  - repeat (destruct l as [|[] l]; cbn in Hb, Hs |- *; try done);
      destruct_and?; bool_facts; subst.
    + apply (IH _ last); [intros _; by apply Hw|done].
    + apply (IH _ (Some HAL_MDM_BUSY)); [by left|done].
    + destruct (Hw eq_refl) as [->| ->]; [|tauto]. split; [done|].
      by apply (IH _ (Some HAL_MDM_DUMP)); [right|].
  - assert (forall w last, single_dumps last l' -> accepted w l') as IH' by (intros ???; by eapply IH).
    repeat (destruct l as [|[] l]; cbn in Hb, Hs |- *; try done); destruct_and?; bool_facts; subst; eauto.
Qed.

(** C25. The reports of the PCIe HAL keep the contract of CTRL.  Over any run of its
    thread in which a dump is not announced twice in a row, whatever other messages
    are between the reports in CTRL's queue, the assertion of CTRL's [pre_op] that a
    reason comes after a BUSY holds for every one of them. *)
Theorem pcie_reports_accepted `{MdmCli} (clock : nat -> timespec) (call_ok : nat -> bool) server c s0 oi mcd_ok init l b f o :
  crm_hal_init server (calloc_hal c) = Ok tt s0 oi -> Forall input_ok l ->
  crm_hal_pcie_fsm clock call_ok mcd_ok init l s0 = Ok b f o ->
  single_dumps None (pcie_types o) ->
  forall evs (t : crm_control_ctx_internal), List.filter is_hal_evt evs = get_hal_id <$> pcie_types o ->
    exists t', for_each evs Control.pre_op t = Ok tt t' [].
Proof.
  intros Hi Hl Hr Hd evs t Hf. apply pcie_init_fresh in Hi as [Hfr _].
  pose proof (wp_pcie_run clock call_ok mcd_ok init l s0 Hfr Hl) as Hw. unfold wp in Hw.
  unfold crm_hal_pcie_fsm in Hr. rewrite Hr in Hw. destruct Hw as (_ & _ & Hb & _).
  eapply pre_op_accepts; [|exact Hf]. by eapply blocks_accepted.
Qed.

(** ** Concrete runs *)

(** The context of [crm_hal_init], the control socket being 10. *)
Definition started (c : pcie_cfg) : crm_hal_ctx_internal :=
  mk_pcie c false (-1) 0 false true (mk_timespec 0 0) REQ_NONE false
    (mk_nvm (mk_daemon_ctx 10 0 [-1; -1] [mk_daemon (Some "nvm_manager"%string) true (-1) 0; mk_daemon None false (-1) 0])
       0 false false) 0 0.

Lemma started_init c : crm_hal_init 10 (calloc_hal c) =
  Ok tt (started c) [DaemonOut (ServiceStop "nvm_manager"); DaemonOut (ServiceStart "nvm_manager")].
Proof. reflexivity. Qed.

(** A message of the NVM manager, a kernel event. *)
Definition nvm_connects : list poll_result :=
  [PollDaemons [(0%nat, POLLIN, mk_sock_env 20 None None None)];
   PollDaemons [(1%nat, POLLIN, mk_sock_env (-1) None (Some 12) (Some "nvm_manager"%string))]].
Definition nvm_success : poll_result := PollDaemons [(1%nat, POLLIN, mk_sock_env (-1) (Some (0, 0)) None None)].
Definition nvm_hangs_up : poll_result := PollDaemons [(1%nat, POLLIN, mk_sock_env (-1) None None None)].
Definition uevent (s : string) : poll_result := PollNetlink (Some (s, 16 + Z.of_nat (String.length s) + 1)).

Definition mux_ok : mux_env := mk_mux_env 0 true true true true 0.

Definition boot : list poll_result :=
  nvm_connects ++
  [PollIpc [EV_POWER]; uevent "ROM_READY"; PollIpc [EV_BOOT]; uevent "MDM_READY"; PollCfg 30 mux_ok 31; nvm_success].

Definition report_of (x : pcie_out) : option hal_event :=
  match x with NotifyHalEvent ev => Some ev | _ => None end.
Definition ioctl_of (x : pcie_out) : option ioctl_op := match x with Ioctl op _ => Some op | _ => None end.
Definition report (t : crm_hal_evt_type) (n : string) : hal_event := mk_hal_event (mk_hal_evt t n) None.

(** The start of the thread, whatever the clock. *)
Definition after_start (c : pcie_cfg) : crm_hal_ctx_internal :=
  mk_pcie c false (-1) EV_MDM_OFF false true (mk_timespec 0 0) REQ_NONE false (nvm (started c)) 2 1.

Lemma start_run `{MdmCli} (clock : nat -> timespec) (c : pcie_cfg) :
  fsm_start clock (fun _ => true) true [InitTimeout] (mk_fsm_st ST_OFF (started c)) =
  Ok tt (mk_fsm_st ST_OFF (after_start c))
    ([WriteFile "power_control" "on"] ++
     (if has_rtpm c then [WriteFile "rtpm_enable" "0"] else []) ++ [Ioctl POWER_OFF true] ++
     (if has_rm c then [WriteFile "remove" "1"] else []) ++ (if has_rescan c then [WriteFile "rescan" "1"] else []) ++
     (if has_rm c then [WriteFile "remove" "1"] else []) ++ (if has_rescan c then [WriteFile "rescan" "1"] else []) ++
     [SetProperty "ctl.stop" "rpc-daemon"; NotifyHalEvent (report HAL_MDM_OFF "")]).
Proof.
  destruct c as [node [] [] [] dis].
  all: cbv -[crm_time_get_remain_ms crm_time_add_ms];
    match goal with |- context [crm_time_get_remain_ms ?a ?b] => by destruct (crm_time_get_remain_ms a b) end.
Qed.

(** A boot that goes well: with the NVM manager connected, whatever the
    clock and the optional sysfs files of the configuration, a power request,
    the ROM, a boot request, the modem, the configuration thread and the NVM
    manager, in this order, lead to RUN with no timer, no request and no
    configuration thread left; CTRL is told OFF, BUSY, FLASH with the configured
    node, and RUN, and the modem is switched off once and on once. *)
Lemma pcie_boot_reaches_run `{MdmCli} (clock : nat -> timespec) (c : pcie_cfg) :
  exists f o, crm_hal_pcie_fsm clock (fun _ => true) true [InitTimeout] boot (started c) = Ok true f o /\
    state f = ST_RUN /\ timer_armed (fsm_param f) = false /\ request (fsm_param f) = REQ_NONE /\
    thread_cfg (fsm_param f) = false /\ mux_fd (fsm_param f) = 30 /\
    omap report_of o = [report HAL_MDM_OFF ""; report HAL_MDM_BUSY "";
      report HAL_MDM_FLASH (String.substring 0 127 (flash_node c)); report HAL_MDM_RUN ""] /\
    omap ioctl_of o = [POWER_OFF; POWER_ON].
Proof.
  unfold crm_hal_pcie_fsm. destruct c as [node [] [] [] dis].
  all: eexists _, _; split;
    [eapply bind_then; [apply start_run|cbv -[crm_time_get_remain_ms crm_time_add_ms String.substring]; reflexivity]
    |repeat split].
Qed.

(** ** Runs that abort *)

(** The result of a run, all drivers answering. *)
Definition run_of `{MdmCli} (call_ok : nat -> bool) (l : list poll_result) : option abort_reason :=
  match crm_hal_pcie_fsm (fun n => mk_timespec (Z.of_nat n) 0) call_ok true [InitTimeout] l
    (started (mk_pcie_cfg "/dev/flash" true true true false)) with
  | Ok _ _ _ => None
  | Abort r _ => Some r
  end.

(** What CTRL has been told when a run has come to an end, and where it is. *)
Definition told_of `{MdmCli} (l : list poll_result) : option (Z * list crm_hal_evt_type) :=
  match crm_hal_pcie_fsm (fun n => mk_timespec (Z.of_nat n) 0) (fun _ => true) true [InitTimeout] l
    (started (mk_pcie_cfg "/dev/flash" true true true false)) with
  | Ok _ f o => Some (state f, (fun ev => evt_type (hal ev)) <$> omap report_of o)
  | Abort _ _ => None
  end.

Definition all_ok (_ : nat) : bool := true.

(** A crash with its core dump, and one that the modem announces twice: the HAL
    reports it twice. *)
Definition crash : list poll_result := [uevent "CRASH"; uevent "CD_READY"; uevent "ROM_READY"].

Example dump_reported_twice `{MdmCli} :
  told_of (boot ++ crash ++ [uevent "ROM_READY"]) =
    Some (ST_WAITING_DUMP, [HAL_MDM_OFF; HAL_MDM_BUSY; HAL_MDM_FLASH; HAL_MDM_RUN; HAL_MDM_BUSY; HAL_MDM_DUMP; HAL_MDM_DUMP]).
Proof. by vm_compute. Qed.

(** Failures of the environment that abort the process, each a run from
    the start of the thread:
    - the modem goes down by itself and CTRL asks for a stop: the HAL goes to
      OFF without a report, and the next power request aborts, the recorded
      request having been kept;
    - a power-on refused by the driver is reported, and the next power request
      aborts for the same reason;
    - no event within three seconds of a power-on aborts;
    - a reset whose two attempts are not answered is reported as unresponsive,
      and the timer left armed aborts in OFF;
    - the modem disappears before the NVM manager has connected: the message to
      the manager aborts;
    - a second connection to the control socket, the NVM manager being
      connected, makes the loop write past the end of its array of descriptors. *)
Lemma pcie_failing_runs `{MdmCli} :
  told_of (boot ++ [uevent "MDM_NOT_READY"; nvm_hangs_up; PollIpc [EV_STOP]]) =
    Some (ST_OFF, [HAL_MDM_OFF; HAL_MDM_BUSY; HAL_MDM_FLASH; HAL_MDM_RUN; HAL_MDM_BUSY; HAL_MDM_NEED_RESET]) /\
  run_of all_ok (boot ++ [uevent "MDM_NOT_READY"; nvm_hangs_up; PollIpc [EV_STOP]; PollIpc [EV_POWER]]) =
    Some (AssertFail "i_ctx->request == REQ_NONE") /\
  run_of (fun n => negb (n =? 1)%nat) (nvm_connects ++ [PollIpc [EV_POWER]; PollIpc [EV_POWER]]) =
    Some (AssertFail "i_ctx->request == REQ_NONE") /\
  run_of all_ok (nvm_connects ++ [PollIpc [EV_POWER]; PollTimeout]) = Some (AssertFail "0") /\
  told_of (boot ++ [PollIpc [EV_RESET]; nvm_hangs_up; PollTimeout; PollTimeout]) =
    Some (ST_OFF, [HAL_MDM_OFF; HAL_MDM_BUSY; HAL_MDM_FLASH; HAL_MDM_RUN; HAL_MDM_BUSY; HAL_MDM_UNRESPONSIVE]) /\
  run_of all_ok (boot ++ [PollIpc [EV_RESET]; nvm_hangs_up; PollTimeout; PollTimeout; PollTimeout]) =
    Some (AssertFail "0") /\
  run_of all_ok [PollIpc [EV_POWER]; uevent "MDM_NOT_READY"] = Some (AssertFail "ctx->daemons[id].socket >= 0") /\
  run_of all_ok (nvm_connects ++ [PollDaemons [(0%nat, POLLIN, mk_sock_env 21 None None None)]; PollIpc [EV_POWER]]) =
    Some (Undefined "write past the end of pfd").
Proof. by repeat split; vm_compute. Qed.

(** ** Witnesses *)

Section demo.
#[local] Existing Instance demo_mdmcli.

Definition demo_cfg : pcie_cfg := mk_pcie_cfg "/dev/flash" true false true false.
Definition demo_clock (n : nat) : timespec := mk_timespec (Z.of_nat n) 0.

Lemma boot_inputs : Forall input_ok boot.
Proof.
  assert (forall m, 0 <= m <= EV_BACKUP -> input_ok (PollIpc [m])) as Hipc.
  { intros m Hm. apply Forall_singleton. by right. }
  apply List.Forall_forall. intros x Hx.
  repeat (destruct Hx as [<-|Hx]; [first [exact I|apply Hipc; by split; vm_compute]|]). done.
Qed.

Lemma pcie_bookkeeping_witness :
  match crm_hal_pcie_fsm demo_clock all_ok true [InitTimeout] boot (started demo_cfg) with
  | Ok _ f _ => state f = ST_RUN /\ request (fsm_param f) = REQ_NONE /\ timer_armed (fsm_param f) = false
  | Abort _ _ => False
  end.
Proof.
  pose proof (pcie_bookkeeping demo_clock all_ok 10 demo_cfg (started demo_cfg) _ true [InitTimeout] boot
    (started_init demo_cfg) boot_inputs) as Hw.
  assert (match crm_hal_pcie_fsm demo_clock all_ok true [InitTimeout] boot (started demo_cfg) with
          | Ok _ f _ => state f = ST_RUN | Abort _ _ => False end) as Hr by (vm_compute; reflexivity).
  destruct (crm_hal_pcie_fsm _ _ _ _ _ _) as [b f o|r o]; [|exact Hr].
  split; [exact Hr|]. destruct Hw as (_ & Hd & _). by rewrite Hr in Hd.
Defined.

Lemma crash_inputs : Forall input_ok (boot ++ crash).
Proof. apply Forall_app. split; [exact boot_inputs|]. by repeat constructor. Qed.

Lemma pcie_reports_accepted_witness :
  match crm_hal_pcie_fsm demo_clock all_ok true [InitTimeout] (boot ++ crash) (started demo_cfg) with
  | Ok _ _ o =>
      pcie_types o = [HAL_MDM_OFF; HAL_MDM_BUSY; HAL_MDM_FLASH; HAL_MDM_RUN; HAL_MDM_BUSY; HAL_MDM_DUMP] /\
      exists t', for_each [EV_HAL_MDM_OFF; EV_CLI_START; EV_HAL_MDM_BUSY; EV_FW_SUCCESS; EV_HAL_MDM_FLASH; EV_FW_SUCCESS;
        EV_HAL_MDM_RUN; EV_HAL_MDM_BUSY; EV_HAL_MDM_DUMP] Control.pre_op
        (Control.crm_ctrl_init 1 90000 true demo_esc) = Ok tt t' []
  | Abort _ _ => False
  end.
Proof.
  assert (match crm_hal_pcie_fsm demo_clock all_ok true [InitTimeout] (boot ++ crash) (started demo_cfg) with
    | Ok _ _ o => pcie_types o = [HAL_MDM_OFF; HAL_MDM_BUSY; HAL_MDM_FLASH; HAL_MDM_RUN; HAL_MDM_BUSY; HAL_MDM_DUMP]
    | Abort _ _ => False end) as Hr by (vm_compute; reflexivity).
  destruct (crm_hal_pcie_fsm demo_clock all_ok true [InitTimeout] (boot ++ crash) (started demo_cfg)) as [b f o|r o] eqn:Hrun; [|exact Hr].
  split; [exact Hr|].
  apply (pcie_reports_accepted demo_clock all_ok 10 demo_cfg (started demo_cfg) _ true [InitTimeout] (boot ++ crash) b f o
    (started_init demo_cfg) crash_inputs Hrun); rewrite Hr; [cbn; intuition discriminate|vm_compute; reflexivity].
Defined.

End demo.
