(* ===== verification/MdmcliClient.v ===== *)
(** * The client library (mdmcli/src/mdmcli.c)

    The other end of the wire protocol: an application registers callbacks, and
    a thread of the library receives the events of CLA, calls the callbacks,
    acknowledges for them, and connects again when CRM restarts.  The calls of
    the application and the thread share the context under a mutex.  Every
    critical section is a function in [M]; the functions of the source are their
    sequences, and [lib_step] interleaves them with the calls of the
    application, callbacks included; [session_step] adds the call of
    [crm_connect] that creates the thread and is still running beside it.  The results of connections, of sends and
    of callbacks are read from the arguments [connect_fd], [send_ok], [cb_ret]
    by their number; [sanity] is [crm_is_in_sanity_test_mode]. *)

From S2P Require Import Prelude MdmCli Wire Names.
From Stdlib Require Import ZArith Lia.
From stdpp Require Import base tactics list strings option.

Open Scope Z_scope.
Open Scope crm_scope.

(** [mdm_cli_register_t] *)
Record mdm_cli_register : Type := mk_register {
  reg_id : Z;
  has_callback : bool;
  reg_context : Z;
}.

(** [crm_mdm_cli_ctx_t]: [thread] tells whether the thread has been created,
    [ipc_msg] whether its queue holds a message; the last fields number the
    connections, the sends and the callbacks. *)
Record crm_mdm_cli_ctx : Type := mk_cli {
  evts : list mdm_cli_register;
  events_bitmap : Z;
  sock_fd : Z;
  cli_name : string;
  reconnect_flag : bool;
  disconnect : bool;
  acquired : bool;
  register_id : Z;
  thread : bool;
  ipc_msg : bool;
  n_connects : nat;
  n_sends : nat;
  n_callbacks : nat;
}.

Inductive cli_out : Type :=
| Connected (fd : Z)
| Sent (fd : Z) (m : crm_mdmcli_wire_msg) (ok : bool)
| CloseSock (fd : Z)
| Callback (id context : Z) (data : option mdm_cli_dbg_info) (result : Z).

Abbreviation L_ A := (M crm_mdm_cli_ctx cli_out A).

Definition set_sock (fd : Z) : L_ unit :=
  modify (fun s => mk_cli (evts s) (events_bitmap s) fd (cli_name s) (reconnect_flag s) (disconnect s) (acquired s)
    (register_id s) (thread s) (ipc_msg s) (n_connects s) (n_sends s) (n_callbacks s)).
Definition set_reconnect (b : bool) : L_ unit :=
  modify (fun s => mk_cli (evts s) (events_bitmap s) (sock_fd s) (cli_name s) b (disconnect s) (acquired s)
    (register_id s) (thread s) (ipc_msg s) (n_connects s) (n_sends s) (n_callbacks s)).
Definition set_acquired (b : bool) : L_ unit :=
  modify (fun s => mk_cli (evts s) (events_bitmap s) (sock_fd s) (cli_name s) (reconnect_flag s) (disconnect s) b
    (register_id s) (thread s) (ipc_msg s) (n_connects s) (n_sends s) (n_callbacks s)).
Definition set_disconnect : L_ unit :=
  modify (fun s => mk_cli (evts s) (events_bitmap s) (sock_fd s) (cli_name s) (reconnect_flag s) true (acquired s)
    (register_id s) (thread s) true (n_connects s) (n_sends s) (n_callbacks s)).
Definition set_thread (b : bool) : L_ unit :=
  modify (fun s => mk_cli (evts s) (events_bitmap s) (sock_fd s) (cli_name s) (reconnect_flag s) (disconnect s)
    (acquired s) (register_id s) b (ipc_msg s) (n_connects s) (n_sends s) (n_callbacks s)).
Definition next_connect : L_ unit :=
  modify (fun s => mk_cli (evts s) (events_bitmap s) (sock_fd s) (cli_name s) (reconnect_flag s) (disconnect s)
    (acquired s) (register_id s) (thread s) (ipc_msg s) (Datatypes.S (n_connects s)) (n_sends s) (n_callbacks s)).
Definition next_send : L_ unit :=
  modify (fun s => mk_cli (evts s) (events_bitmap s) (sock_fd s) (cli_name s) (reconnect_flag s) (disconnect s)
    (acquired s) (register_id s) (thread s) (ipc_msg s) (n_connects s) (Datatypes.S (n_sends s)) (n_callbacks s)).
Definition next_callback : L_ unit :=
  modify (fun s => mk_cli (evts s) (events_bitmap s) (sock_fd s) (cli_name s) (reconnect_flag s) (disconnect s)
    (acquired s) (register_id s) (thread s) (ipc_msg s) (n_connects s) (n_sends s) (Datatypes.S (n_callbacks s))).

Section library.
Context `{MdmCli} (connect_fd : nat -> Z) (send_ok : nat -> bool) (cb_ret : nat -> Z) (sanity : bool).

(** [crm_socket_connect]: a descriptor, or -1. *)
Definition crm_socket_connect : L_ Z :=
  let* s := get in
  let fd := connect_fd (n_connects s) in
  next_connect ;;
  set_sock fd ;;
  when (0 <=? fd) (emit (Connected fd)) ;;
  ret fd.

(** [wire->send_msg] on a descriptor: the message is serialized, then
    [crm_socket_write] asserts the descriptor and succeeds or not. *)
Definition wire_send_to (fd : Z) (m : crm_mdmcli_wire_msg) : L_ Z := fun s =>
  match serialize_msg CRM_CLIENT_TO_SERVER m with
  | Abort r _ => Abort r []
  | Ok _ _ _ =>
      (ASSERT "fd >= 0" (0 <=? fd) ;;
       let ok := send_ok (n_sends s) in
       next_send ;;
       emit (Sent fd m ok) ;;
       ret (if ok then 0 else -1)) s
  end.

(** On the current socket. *)
Definition wire_send (m : crm_mdmcli_wire_msg) : L_ Z := fun s => wire_send_to (sock_fd s) m s.

(** A callback: what it returns. *)
Definition call (r : mdm_cli_register) (data : option mdm_cli_dbg_info) : L_ Z :=
  let* s := get in
  let v := cb_ret (n_callbacks s) in
  next_callback ;;
  emit (Callback (reg_id r) (reg_context r) data v) ;;
  ret v.

(** The first registered event with that identifier. *)
Definition find_evt (s : crm_mdm_cli_ctx) (id : Z) : option mdm_cli_register :=
  List.find (fun r => reg_id r =? id) (evts s).

(** ** Connecting again *)

Definition register_msg (s : crm_mdm_cli_ctx) : crm_mdmcli_wire_msg :=
  mk_wire_msg (register_id s) (RegisterClient (events_bitmap s) (cli_name s)).

(** The critical section of [reconnect]. *)
Definition reconnect_register : L_ unit :=
  let* s := get in
  let* r := wire_send (register_msg s) in
  (if negb (r =? 0) then ret tt
   else if acquired s then
     let* r := wire_send (mk_wire_msg CRM_REQ_ACQUIRE NoData) in
     when (r =? 0) (set_reconnect false)
   else set_reconnect false) ;;
  let* s := get in
  when (reconnect_flag s) (emit (CloseSock (sock_fd s)) ;; set_sock (-1)).

Definition reconnect : L_ unit :=
  let* s := get in
  ASSERT "ctx->reconnect" (reconnect_flag s) ;;
  let* fd := crm_socket_connect in
  when (0 <=? fd) reconnect_register.

(** The critical section of [handle_error]. *)
Definition handle_error_close : L_ unit :=
  let* s := get in
  emit (CloseSock (sock_fd s)) ;;
  set_sock (-1) ;;
  set_reconnect true.

Definition notify_error (id : Z) : L_ unit :=
  let* s := get in
  match find_evt s id with
  | Some r => call r None ;; ret tt
  | None => ret tt
  end.

Definition may_reconnect (s : crm_mdm_cli_ctx) : bool := negb sanity || (register_id s =? CRM_REQ_REGISTER_DBG).

Definition handle_error : L_ unit :=
  handle_error_close ;;
  notify_error MDM_DOWN ;;
  notify_error MDM_COLD_RESET ;;
  let* s := get in
  when (may_reconnect s) reconnect.

(** ** Requests of the application *)

Definition mdm_cli_send_simple_msg (message : Z) : L_ Z :=
  let* s := get in
  named (crm_mdmcli_wire_req_to_string message) ;;
  if reconnect_flag s then ret (-1) else wire_send (mk_wire_msg message NoData).

Definition mdm_cli_acquire : L_ Z :=
  let* s := get in
  let* r := (if reconnect_flag s then ret 0 else wire_send (mk_wire_msg CRM_REQ_ACQUIRE NoData)) in
  when (r =? 0) (set_acquired true) ;;
  ret r.

Definition mdm_cli_release : L_ Z :=
  let* s := get in
  let* r := (if reconnect_flag s then ret 0 else wire_send (mk_wire_msg CRM_REQ_RELEASE NoData)) in
  when (r =? 0) (set_acquired false) ;;
  ret r.

Definition log_dbg (data : option mdm_cli_dbg_info) : L_ unit :=
  match data with Some d => named (crm_mdmcli_dbg_type_to_string (dbg_type d)) | None => ret tt end.

Definition mdm_cli_restart (cause : Z) (data : option mdm_cli_dbg_info) : L_ Z :=
  let* s := get in
  named (crm_mdmcli_restart_cause_to_string cause) ;;
  log_dbg data ;;
  if reconnect_flag s then ret (-1) else wire_send (mk_wire_msg CRM_REQ_RESTART (Restart cause data)).

Definition mdm_cli_shutdown : L_ Z := mdm_cli_send_simple_msg CRM_REQ_SHUTDOWN.
Definition mdm_cli_nvm_bckup : L_ Z := mdm_cli_send_simple_msg CRM_REQ_NVM_BACKUP.
Definition mdm_cli_ack_cold_reset : L_ Z := mdm_cli_send_simple_msg CRM_REQ_ACK_COLD_RESET.
Definition mdm_cli_ack_shutdown : L_ Z := mdm_cli_send_simple_msg CRM_REQ_ACK_SHUTDOWN.

Definition mdm_cli_notify_dbg (data : option mdm_cli_dbg_info) : L_ Z :=
  let* s := get in
  log_dbg data ;;
  if reconnect_flag s then ret (-1) else wire_send (mk_wire_msg CRM_REQ_NOTIFY_DBG (Debug data)).

(** ** The thread *)

(** A message of the server, up to its callback: the acknowledgement to send
    next.  The log line of a debug information reads it without a test. *)
Definition dispatch (m : crm_mdmcli_wire_msg) : L_ (option Z) :=
  let id := msg_id m in
  let* data :=
    (if id =? MDM_DBG_INFO then
       match msg m with
       | Debug (Some d) =>
           named (crm_mdmcli_wire_req_to_string id) ;;
           named (crm_mdmcli_dbg_type_to_string (dbg_type d)) ;; ret (Some d)
       | _ => fail (Undefined "msg->msg.debug is NULL")
       end
     else named (crm_mdmcli_wire_req_to_string id) ;; ret None) in
  let* s := get in
  match find_evt s id with
  | Some r =>
      let* v := call r data in
      ret (if (id =? MDM_COLD_RESET) && (v =? 0) then Some CRM_REQ_ACK_COLD_RESET
           else if (id =? MDM_SHUTDOWN) && (v =? 0) then Some CRM_REQ_ACK_SHUTDOWN
           else None)
  | None => fail (AssertFail "i < ctx->nb_evts")
  end.

Definition handle_event (m : crm_mdmcli_wire_msg) : L_ unit :=
  let* ack := dispatch m in
  match ack with Some req => mdm_cli_send_simple_msg req ;; ret tt | None => ret tt end.

(** What [poll] reports. *)
Inductive cli_poll : Type :=
| CliPollError
| CliTimeout
| CliIpcError
| CliIpcIn
| CliSockError
| CliSockIn (m : option crm_mdmcli_wire_msg).

(** The timeout of [poll]; -1 blocks. *)
Definition poll_timeout (s : crm_mdm_cli_ctx) : Z :=
  if reconnect_flag s then (if sanity && (register_id s =? CRM_REQ_REGISTER) then 10000 else 1000) else -1.

(** One turn of the loop: [false] when it ends.  The socket is polled only when
    it is connected. *)
Definition event_loop_turn (i : cli_poll) : L_ bool :=
  let* s := get in
  match i with
  | CliPollError => ASSERT "0" false ;; ret true
  | CliTimeout => if poll_timeout s =? -1 then fail (Stuck "poll blocks") else reconnect ;; ret true
  | CliIpcError => if disconnect s then ret false else ASSERT "0" false ;; ret true
  | CliIpcIn => if ipc_msg s then ret false else fail (Stuck "poll blocks")
  | CliSockError => if reconnect_flag s then fail (Stuck "poll blocks") else handle_error ;; ret true
  | CliSockIn None => if reconnect_flag s then fail (Stuck "poll blocks") else handle_error ;; ret true
  | CliSockIn (Some m) => if reconnect_flag s then fail (Stuck "poll blocks") else handle_event m ;; ret true
  end.

Fixpoint mdmcli_event_loop (l : list cli_poll) : L_ bool :=
  match l with
  | [] => ret true
  | i :: l' => let* running := event_loop_turn i in if running then mdmcli_event_loop l' else ret false
  end.

(** ** Connection and disconnection *)

(** The end of the thread is waited for; it ends when its queue holds a
    message. *)
Definition dispose : L_ unit :=
  let* s := get in
  when (thread s) (if ipc_msg s then set_thread false else fail (Stuck "pthread_join")) ;;
  when (0 <=? sock_fd s) (emit (CloseSock (sock_fd s)) ;; set_sock (-1)).

Definition mdm_cli_disconnect : L_ Z :=
  let* s := get in
  ASSERT "ctx->thread != NULL" (thread s) ;;
  set_disconnect ;;
  dispose ;;
  ret 0.

(** The copy of the registrations and the bitmap. *)
Fixpoint build_bitmap {S O} (l : list mdm_cli_register) (bitmap : Z) : M S O Z :=
  match l with
  | [] => ret bitmap
  | r :: l' =>
      (if (0 <=? reg_id r) && (reg_id r <? 31) then ret tt else fail (Undefined "1 << evts[i].id")) ;;
      let event_bit := Z.shiftl 1 (reg_id r) in
      ASSERT "(event_bit & events_bitmap) == 0" (Z.land event_bit bitmap =? 0) ;;
      ASSERT "evts[i].callback != NULL" (has_callback r) ;;
      build_bitmap l' (Z.lor bitmap event_bit)
  end.

(** [crm_connect] up to the creation of the thread, then the message it sends
    once the thread runs: the descriptor is read without the lock. *)
Definition connect_start (client_name : string) (l : list mdm_cli_register) (request : Z) : L_ bool :=
  ASSERT "client_name != NULL && strlen(client_name) < MDM_CLI_NAME_LEN"
    (Z.of_nat (String.length client_name) <? MDM_CLI_NAME_LEN) ;;
  ASSERT "nb_evts <= MDM_NUM_EVENTS && nb_evts >= 0" (Z.of_nat (length l) <=? MDM_NUM_EVENTS) ;;
  ASSERT "request == CRM_REQ_REGISTER || request == CRM_REQ_REGISTER_DBG"
    ((request =? CRM_REQ_REGISTER) || (request =? CRM_REQ_REGISTER_DBG)) ;;
  let* bitmap := build_bitmap l 0 in
  modify (fun s => mk_cli l bitmap (-1) client_name false false false request false false
    (n_connects s) (n_sends s) (n_callbacks s)) ;;
  let* fd := crm_socket_connect in
  if fd <? 0 then ret false else set_thread true ;; ret true.

Definition connect_send (fd : Z) : L_ bool :=
  let* s := get in
  let* r := wire_send_to fd (register_msg s) in
  ret (r =? 0).

Definition connect_register : L_ bool :=
  let* s := get in
  connect_send (sock_fd s).

(** [true]: the handle is given.  The parts follow each other here without a
    step of the new thread between them; [session_step] has those steps. *)
Definition crm_connect (client_name : string) (l : list mdm_cli_register) (request : Z) : L_ bool :=
  let* started := connect_start client_name l request in
  let* ok := (if started then connect_register else ret false) in
  when (negb ok) dispose ;;
  ret ok.

Definition mdm_cli_connect (client_name : string) (l : list mdm_cli_register) : L_ bool :=
  crm_connect client_name l CRM_REQ_REGISTER.
Definition mdm_cli_connect_dbg (client_name : string) (l : list mdm_cli_register) : L_ bool :=
  crm_connect client_name l CRM_REQ_REGISTER_DBG.

(** ** Interleaving *)

Inductive api_call : Type :=
| Acquire | Release | RestartReq (cause : Z) (data : option mdm_cli_dbg_info) | ShutdownReq | Backup
| AckColdReset | AckShutdown | NotifyDbg (data : option mdm_cli_dbg_info).

#[export] Instance api_call_eq_dec : EqDecision api_call.
Proof. solve_decision. Defined.

Definition run_call (c : api_call) : L_ Z :=
  match c with
  | Acquire => mdm_cli_acquire
  | Release => mdm_cli_release
  | RestartReq cause data => mdm_cli_restart cause data
  | ShutdownReq => mdm_cli_shutdown
  | Backup => mdm_cli_nvm_bckup
  | AckColdReset => mdm_cli_ack_cold_reset
  | AckShutdown => mdm_cli_ack_shutdown
  | NotifyDbg data => mdm_cli_notify_dbg data
  end.

(** Where the thread is: waiting, calling the callbacks of [handle_error], about
    to connect, connected and about to register, about to acknowledge. *)
Inductive thread_at : Type :=
| AtPoll
| AtErrorCallbacks (ids : list Z)
| AtConnect
| AtRegister
| AtAck (req : Z).

Record lib_st : Type := mk_lib { lib_ctx : crm_mdm_cli_ctx; lib_at : thread_at }.

Inductive lib_label : Type := ByApplication (c : api_call) (result : Z) | ByThread.

Inductive lib_step : lib_st -> lib_label -> list cli_out -> lib_st -> Prop :=
| step_api s p c r s' o :
    run_call c s = Ok r s' o -> lib_step (mk_lib s p) (ByApplication c r) o (mk_lib s' p)
| step_error s s' o :
    reconnect_flag s = false -> handle_error_close s = Ok tt s' o ->
    lib_step (mk_lib s AtPoll) ByThread o (mk_lib s' (AtErrorCallbacks [MDM_DOWN; MDM_COLD_RESET]))
| step_callback s id ids s' o :
    notify_error id s = Ok tt s' o ->
    lib_step (mk_lib s (AtErrorCallbacks (id :: ids))) ByThread o (mk_lib s' (AtErrorCallbacks ids))
| step_callbacks_done s :
    lib_step (mk_lib s (AtErrorCallbacks [])) ByThread [] (mk_lib s (if may_reconnect s then AtConnect else AtPoll))
| step_timeout s :
    reconnect_flag s = true -> lib_step (mk_lib s AtPoll) ByThread [] (mk_lib s AtConnect)
| step_connect s fd s' o :
    crm_socket_connect s = Ok fd s' o ->
    lib_step (mk_lib s AtConnect) ByThread o (mk_lib s' (if 0 <=? fd then AtRegister else AtPoll))
| step_register s s' o :
    reconnect_register s = Ok tt s' o -> lib_step (mk_lib s AtRegister) ByThread o (mk_lib s' AtPoll)
| step_event s m ack s' o :
    reconnect_flag s = false -> dispatch m s = Ok ack s' o ->
    lib_step (mk_lib s AtPoll) ByThread o (mk_lib s' (match ack with Some req => AtAck req | None => AtPoll end))
| step_ack s req r s' o :
    mdm_cli_send_simple_msg req s = Ok r s' o -> lib_step (mk_lib s (AtAck req)) ByThread o (mk_lib s' AtPoll).

(** A run: its labels and its actions, in order. *)
Inductive lib_run : lib_st -> list lib_label -> list cli_out -> lib_st -> Prop :=
| run_refl st : lib_run st [] [] st
| run_step st ls o st1 l o' st2 :
    lib_run st ls o st1 -> lib_step st1 l o' st2 -> lib_run st (ls ++ [l]) (o ++ o') st2.

(** ** The call that connects, beside the thread it has created *)

(** Where the application is: about to read the descriptor, about to send
    REGISTER on the descriptor it has read, in possession of the handle. *)
Inductive app_at : Type :=
| AppConnecting
| AppSending (fd : Z)
| AppConnected.

(** [se_lost]: the thread has seen the connection closed before REGISTER was
    sent. *)
Record session : Type := mk_session { se_lib : lib_st; se_app : app_at; se_lost : bool }.

Definition connecting (a : app_at) : bool := match a with AppConnected => false | _ => true end.

(** Until the handle is given only the thread runs beside [crm_connect]. *)
Inductive session_step : session -> list lib_label -> list cli_out -> session -> Prop :=
| session_reads s p lost :
    session_step (mk_session (mk_lib s p) AppConnecting lost) [] []
      (mk_session (mk_lib s p) (AppSending (sock_fd s)) lost)
| session_sends s p fd s' o lost :
    connect_send fd s = Ok true s' o ->
    session_step (mk_session (mk_lib s p) (AppSending fd) lost) [] o (mk_session (mk_lib s' p) AppConnected lost)
| session_thread st a o st' lost :
    connecting a = true -> lib_step st ByThread o st' ->
    session_step (mk_session st a lost) [ByThread] o (mk_session st' a (lost || reconnect_flag (lib_ctx st')))
| session_lib st l o st' lost :
    lib_step st l o st' ->
    session_step (mk_session st AppConnected lost) [l] o (mk_session st' AppConnected lost).

Inductive session_run : session -> list lib_label -> list cli_out -> session -> Prop :=
| session_refl x : session_run x [] [] x
| session_more x ls o x1 ls' o' x2 :
    session_run x ls o x1 -> session_step x1 ls' o' x2 -> session_run x (ls ++ ls') (o ++ o') x2.

End library.
