(* ===== verification/MdmcliClientProps.v ===== *)
(** * Properties of the client library

    What the server is told on a connection stays in step with what the
    application asked for, whatever the interleaving and the restarts of the
    server; the events CLA sends are those the library can dispatch. *)

From S2P Require Import Prelude Timer Fsm Wakelock MdmCli Control Wire Cla ClaProps Names MdmcliClient.
From Stdlib Require Import ZArith Lia.
From stdpp Require Import base tactics list strings option sets.

Open Scope Z_scope.
Open Scope crm_scope.

(** ** The server's view of a connection *)

Record view : Type := mk_view {
  v_fd : Z;
  v_registered : list (Z * Z * string);
  v_acquired : bool;
}.

Section view.
Context `{MdmCli}.

Definition receive (v : view) (m : crm_mdmcli_wire_msg) : view :=
  match msg m with
  | RegisterClient bitmap name => mk_view (v_fd v) (v_registered v ++ [(msg_id m, bitmap, name)]) (v_acquired v)
  | _ =>
      if msg_id m =? CRM_REQ_ACQUIRE then mk_view (v_fd v) (v_registered v) true
      else if msg_id m =? CRM_REQ_RELEASE then mk_view (v_fd v) (v_registered v) false
      else v
  end.

(** A connection begins with nothing; what is sent to another descriptor, or
    after the end of the connection, is not received. *)
Definition server_sees (v : option view) (x : cli_out) : option view :=
  match x with
  | Connected fd => Some (mk_view fd [] false)
  | Sent fd m true => match v with Some v => if fd =? v_fd v then Some (receive v m) else Some v | None => None end
  | CloseSock fd => match v with Some v => if fd =? v_fd v then None else Some v | None => None end
  | _ => v
  end.
Definition sees (v : option view) (o : list cli_out) : option view := fold_left server_sees o v.

(** What the application asked for last and was granted. *)
Definition want (w : bool) (l : lib_label) : bool :=
  match l with
  | ByApplication Acquire r => if r =? 0 then true else w
  | ByApplication Release r => if r =? 0 then false else w
  | _ => w
  end.
Definition wants (w : bool) (ls : list lib_label) : bool := fold_left want ls w.

End view.

(** ** The invariant *)

Section sync.
Context `{MdmCliLaws} (connect_fd : nat -> Z) (send_ok : nat -> bool) (cb_ret : nat -> Z) (sanity : bool).
Implicit Types (s : crm_mdm_cli_ctx) (v : option view) (w : bool).

Definition identity s : Z * Z * string := (register_id s, events_bitmap s, cli_name s).

Section registrations.

(** [N]: how often the client has registered on a connection that is in use;
    [K]: the same on the connection that is about to be registered again. *)
Variables N K : nat -> Prop.

Definition registered (P : nat -> Prop) v w s : Prop :=
  0 <= sock_fd s /\ exists n, P n /\ v = Some (mk_view (sock_fd s) (replicate n (identity s)) w).

(** Connected and registered, or not connected. *)
Definition settled_view v w s : Prop :=
  if reconnect_flag s then v = None else registered N v w s.

Definition lib_inv v w (st : lib_st) : Prop :=
  let s := lib_ctx st in
  acquired s = w /\
  match lib_at st with
  | AtPoll => settled_view v w s
  | AtAck req => settled_view v w s /\ (req = CRM_REQ_ACK_COLD_RESET \/ req = CRM_REQ_ACK_SHUTDOWN)
  | AtErrorCallbacks _ | AtConnect => reconnect_flag s = true /\ v = None
  | AtRegister => reconnect_flag s = true /\ registered K v false s
  end.

(** A new connection begins without registration, and [reconnect] adds one. *)
Definition reconnects : Prop := K 0 /\ forall k, K k -> N (Datatypes.S k).

(** Sending: either the assertion of the descriptor or of the message fails, or
    the message has been handed over, received or not. *)
Lemma wire_send_to_Ok fd m s r s' o :
  wire_send_to send_ok fd m s = Ok r s' o ->
  0 <= fd /\ exists ok : bool, r = (if ok then 0 else -1) /\ o = [Sent fd m ok] /\
    s' = mk_cli (evts s) (events_bitmap s) (sock_fd s) (cli_name s) (reconnect_flag s) (disconnect s) (acquired s)
      (register_id s) (thread s) (ipc_msg s) (n_connects s) (Datatypes.S (n_sends s)) (n_callbacks s).
Proof.
  unfold wire_send_to. destruct (serialize_msg _ m); [|done]. intros (? & ? & ? & ? & Ha & Hr & ->)%bind_Ok.
  apply ASSERT_Ok in Ha as (Hb & -> & ->). bool_facts. split; [done|]. exists (send_ok (n_sends s)).
  injection Hr as <- <- <-. done.
Qed.

Lemma wire_send_Ok m s r s' o :
  wire_send send_ok m s = Ok r s' o ->
  0 <= sock_fd s /\ exists ok : bool, r = (if ok then 0 else -1) /\ o = [Sent (sock_fd s) m ok] /\
    s' = mk_cli (evts s) (events_bitmap s) (sock_fd s) (cli_name s) (reconnect_flag s) (disconnect s) (acquired s)
      (register_id s) (thread s) (ipc_msg s) (n_connects s) (Datatypes.S (n_sends s)) (n_callbacks s).
Proof. apply wire_send_to_Ok. Qed.

Lemma named_Ok {S O} t (s s' : S) u (o : list O) : named t s = Ok u s' o -> s' = s /\ o = [].
Proof. intros (_ & -> & ->)%ASSERT_Ok. done. Qed.

(** A request that is neither ACQUIRE nor RELEASE nor a registration. *)
Definition plain_msg (m : crm_mdmcli_wire_msg) : Prop :=
  msg_id m <> CRM_REQ_ACQUIRE /\ msg_id m <> CRM_REQ_RELEASE /\
  match msg m with RegisterClient _ _ => False | _ => True end.

Lemma receive_plain (v : view) m : plain_msg m -> receive v m = v.
Proof.
  intros (H1 & H2 & H3). unfold receive. destruct (msg m); try done;
    by destruct (Z.eqb_spec (msg_id m) CRM_REQ_ACQUIRE), (Z.eqb_spec (msg_id m) CRM_REQ_RELEASE).
Qed.

(** Nothing but the counters changes, and the server's view does not. *)
Definition same_ctx s s' : Prop :=
  evts s' = evts s /\ events_bitmap s' = events_bitmap s /\ cli_name s' = cli_name s /\
  register_id s' = register_id s /\ sock_fd s' = sock_fd s /\ reconnect_flag s' = reconnect_flag s /\
  acquired s' = acquired s.
Definition harmless s s' (o : list cli_out) : Prop := same_ctx s s' /\ forall v, sees v o = v.

Lemma harmless_refl s : harmless s s [].
Proof. done. Qed.

Lemma harmless_send m s r s' o : plain_msg m -> wire_send send_ok m s = Ok r s' o -> harmless s s' o.
Proof.
  intros Hm (_ & ok & -> & -> & ->)%wire_send_Ok. split; [done|]. intros [v|]; cbn; [|by destruct ok].
  destruct ok; [|done]. destruct (sock_fd s =? v_fd v); [|done]. by rewrite receive_plain.
Qed.

Lemma harmless_inv v w s p s' o :
  lib_inv v w (mk_lib s p) -> harmless s s' o -> lib_inv (sees v o) w (mk_lib s' p).
Proof.
  intros [Ha Hp] [(E1 & E2 & E3 & E4 & E5 & E6 & E7) Hv]. rewrite Hv.
  unfold lib_inv, settled_view, registered, identity in *.
  cbn in *. rewrite E2, E3, E4, E5, E6, E7. done.
Qed.

Lemma simple_msg_harmless req s r s' o :
  req <> CRM_REQ_ACQUIRE -> req <> CRM_REQ_RELEASE ->
  mdm_cli_send_simple_msg send_ok req s = Ok r s' o -> harmless s s' o.
Proof.
  intros H1 H2 (s0 & ? & ? & ? & Hg & Hr & ->)%bind_Ok. injection Hg as <- <- <-.
  apply bind_Ok in Hr as (? & ? & ? & ? & [-> ->]%named_Ok & Hr & ->). cbn.
  destruct (reconnect_flag s); [injection Hr as <- <- <-; apply harmless_refl|].
  eapply harmless_send; [|exact Hr]. done.
Qed.

Lemma log_then_harmless (k : L_ Z) d s r s' o :
  (forall r s' o, k s = Ok r s' o -> harmless s s' o) ->
  (log_dbg d ;; k) s = Ok r s' o -> harmless s s' o.
Proof.
  intros Hk (? & ? & ? & ? & Hl & Hr & ->)%bind_Ok. unfold log_dbg in Hl.
  destruct d; [apply named_Ok in Hl as [-> ->]|injection Hl as <- <- <-]; by eapply Hk.
Qed.

Lemma send_if_connected m s r s' o :
  plain_msg m -> (if reconnect_flag s then ret (-1) else wire_send send_ok m) s = Ok r s' o -> harmless s s' o.
Proof.
  intros Hm. destruct (reconnect_flag s); [|by apply harmless_send].
  intros Hr. injection Hr as <- <- <-. apply harmless_refl.
Qed.

(** The requests other than [mdm_cli_acquire] and [mdm_cli_release]. *)
Lemma call_harmless c s r s' o :
  c <> Acquire -> c <> Release -> run_call send_ok c s = Ok r s' o -> harmless s s' o.
Proof.
  intros Ha Hr. destruct c; cbn [run_call]; try done;
    try (apply simple_msg_harmless; unfold CRM_REQ_SHUTDOWN, CRM_REQ_NVM_BACKUP, CRM_REQ_ACK_COLD_RESET,
      CRM_REQ_ACK_SHUTDOWN, CRM_REQ_ACQUIRE, CRM_REQ_RELEASE; lia).
  - intros (s0 & ? & ? & ? & Hg & Hk & ->)%bind_Ok. injection Hg as <- <- <-.
    apply bind_Ok in Hk as (? & ? & ? & ? & [-> ->]%named_Ok & Hk & ->). cbn.
    eapply log_then_harmless; [|exact Hk]. intros ? ? ?. apply send_if_connected.
    split; [|split; [|done]]; cbn; unfold CRM_REQ_RESTART, CRM_REQ_ACQUIRE, CRM_REQ_RELEASE; lia.
  - intros (s0 & ? & ? & ? & Hg & Hk & ->)%bind_Ok. injection Hg as <- <- <-. cbn.
    eapply log_then_harmless; [|exact Hk]. intros ? ? ?. apply send_if_connected.
    split; [|split; [|done]]; cbn; unfold CRM_REQ_NOTIFY_DBG, CRM_REQ_ACQUIRE, CRM_REQ_RELEASE; lia.
Qed.

(** [mdm_cli_acquire] and [mdm_cli_release]. *)
Definition asks (b : bool) : crm_mdmcli_wire_msg := mk_wire_msg (if b then CRM_REQ_ACQUIRE else CRM_REQ_RELEASE) NoData.

Lemma receive_asks b (v : view) : receive v (asks b) = mk_view (v_fd v) (v_registered v) b.
Proof.
  unfold receive, asks. cbn. destruct b; [by rewrite Z.eqb_refl|]. rewrite Z.eqb_refl.
  destruct (Z.eqb_spec CRM_REQ_RELEASE CRM_REQ_ACQUIRE) as [Hc|]; [|done].
  unfold CRM_REQ_RELEASE, CRM_REQ_ACQUIRE in Hc. lia.
Qed.

Lemma asks_inv b v w s p r s' o :
  lib_inv v w (mk_lib s p) ->
  (let* s := get in
   let* r := (if reconnect_flag s then ret 0 else wire_send send_ok (asks b)) in
   when (r =? 0) (set_acquired b) ;; ret r) s = Ok r s' o ->
  lib_inv (sees v o) (if r =? 0 then b else w) (mk_lib s' p).
Proof.
  intros [Ha Hp] (s0 & ? & ? & ? & Hg & Hk & ->)%bind_Ok. injection Hg as <- <- <-. cbn [app].
  apply bind_Ok in Hk as (r0 & s1 & o1 & o2 & Hs & Hk & ->). cbn in Ha, Hp.
  destruct (reconnect_flag s) eqn:Hre.
  - injection Hs as <- <- <-. injection Hk as <- <- <-. cbn. split; [done|]. cbn.
    unfold settled_view in *. destruct p; cbn; rewrite ?Hre in Hp; rewrite ?Hre; done.
  - destruct (wire_send_Ok _ _ _ _ _ Hs) as (Hfd & ok & -> & -> & ->).
    assert (settled_view v w s) as Hv by (destruct p; [done|by destruct Hp..|apply Hp]).
    unfold settled_view in Hv. rewrite Hre in Hv. destruct Hv as (_ & n & Hn & ->).
    assert (lib_at (mk_lib s p) = AtPoll \/ exists q, lib_at (mk_lib s p) = AtAck q) as Hat.
    { destruct p; cbn; [by left|by destruct Hp..|by right; eexists]. }
    destruct ok; injection Hk as <- <- <-; cbn -[receive asks]; rewrite ?Z.eqb_refl, ?receive_asks; split; try done;
      cbn in Hat |- *; destruct Hat as [->|[q ->]]; unfold settled_view, registered; cbn; rewrite ?Hre;
      first [by eauto | split; [by eauto|apply Hp]].
Qed.

Lemma call_harmless_cb r d s x s' o : call cb_ret r d s = Ok x s' o -> harmless s s' o.
Proof. intros Hc. injection Hc as <- <- <-. done. Qed.

Lemma notify_error_harmless id s s' o : notify_error cb_ret id s = Ok tt s' o -> harmless s s' o.
Proof.
  intros (s0 & ? & ? & ? & Hg & Hk & ->)%bind_Ok. injection Hg as <- <- <-. cbn.
  destruct (find_evt s id) as [r|]; [|injection Hk as <- <-; apply harmless_refl].
  apply bind_Ok in Hk as (v & s1 & o1 & o2 & Hc & Hr & ->). injection Hr as <- <-. rewrite app_nil_r.
  by eapply call_harmless_cb.
Qed.

Lemma dispatch_Ok m s ack s' o :
  dispatch cb_ret m s = Ok ack s' o ->
  exists r d x, find_evt s (msg_id m) = Some r /\ call cb_ret r d s = Ok x s' o /\
    d = (if msg_id m =? MDM_DBG_INFO then match msg m with Debug d => d | _ => None end else None) /\
    ack = (if (msg_id m =? MDM_COLD_RESET) && (x =? 0) then Some CRM_REQ_ACK_COLD_RESET
           else if (msg_id m =? MDM_SHUTDOWN) && (x =? 0) then Some CRM_REQ_ACK_SHUTDOWN else None).
Proof.
  intros (d & s1 & o1 & o2 & Hd & Hk & ->)%bind_Ok.
  assert (s1 = s /\ o1 = [] /\
    d = (if msg_id m =? MDM_DBG_INFO then match msg m with Debug d => d | _ => None end else None)) as (-> & -> & Hd').
  { destruct (msg_id m =? MDM_DBG_INFO).
    - destruct (msg m) as [|[d'|]| |]; try done.
      apply bind_Ok in Hd as (? & ? & ? & ? & [-> ->]%named_Ok & Hd & ->).
      apply bind_Ok in Hd as (? & ? & ? & ? & [-> ->]%named_Ok & Hd & ->). by injection Hd as <- <- <-.
    - apply bind_Ok in Hd as (? & ? & ? & ? & [-> ->]%named_Ok & Hd & ->). by injection Hd as <- <- <-. }
  apply bind_Ok in Hk as (s0 & ? & ? & ? & Hg & Hk & ->). injection Hg as <- <- <-. cbn [app].
  destruct (find_evt s (msg_id m)) as [r|]; [|done].
  apply bind_Ok in Hk as (v & s2 & o3 & o4 & Hc & Hr & ->). injection Hr as <- <- <-. rewrite app_nil_r.
  by exists r, d, v.
Qed.

Lemma register_inv v w s s' o :
  reconnects -> lib_inv v w (mk_lib s AtRegister) -> reconnect_register send_ok s = Ok tt s' o ->
  lib_inv (sees v o) w (mk_lib s' AtPoll).
Proof.
  intros [_ HK] (Ha & Hre & Hfd & k & Hn & ->) (s0 & ? & ? & ? & Hg & Hk & ->)%bind_Ok. cbn in Ha, Hre, Hfd.
  apply HK in Hn.
  injection Hg as <- <- <-. cbn [app]. apply bind_Ok in Hk as (r & s1 & o1 & o2 & Hs & Hk & ->).
  destruct (wire_send_Ok _ _ _ _ _ Hs) as (_ & ok & -> & -> & ->). clear Hs.
  apply bind_Ok in Hk as ([] & s2 & o3 & o4 & Hm & Hk & ->).
  apply bind_Ok in Hk as (s3 & ? & ? & ? & Hg & Hk & ->). injection Hg as <- <- <-.
  destruct ok; cbn [Z.eqb negb] in Hm.
  - destruct (acquired s) eqn:Hac.
    + apply bind_Ok in Hm as (r & s4 & o5 & o6 & Hs & Hm & ->).
      destruct (wire_send_Ok _ _ _ _ _ Hs) as (_ & ok & -> & -> & ->). clear Hs.
      destruct ok; injection Hm as <- <-; cbn in Hk; rewrite ?Hre in Hk; injection Hk as <- <-;
        cbn -[receive]; rewrite ?Z.eqb_refl; unfold receive; cbn; rewrite ?Z.eqb_refl; cbn; rewrite ?Z.eqb_refl;
        (split; [done|]); unfold settled_view, registered; cbn; rewrite ?Hre; subst w; [|done];
        (split; [done|]); exists (Datatypes.S k); by rewrite replicate_S_end.
    + injection Hm as <- <-. cbn in Hk. injection Hk as <- <-. cbn -[receive]. rewrite Z.eqb_refl.
      unfold receive. cbn. split; [done|]. unfold settled_view, registered. cbn. subst w.
      split; [done|]. exists (Datatypes.S k). by rewrite replicate_S_end.
  - injection Hm as <- <-. cbn in Hk. rewrite Hre in Hk. injection Hk as <- <-. cbn. rewrite Z.eqb_refl.
    split; [done|]. unfold settled_view. cbn. by rewrite ?Hre.
Qed.

Lemma step_inv v w st l o st' :
  (reconnect_flag (lib_ctx st) = true -> reconnects) ->
  lib_inv v w st -> lib_step connect_fd send_ok cb_ret sanity st l o st' -> lib_inv (sees v o) (want w l) st'.
Proof.
  intros HR Hi Hs. destruct Hs as [s p c r s' o Hc|s s' o Hre Hc|s id ids s' o Hc|s|s Hre|s fd s' o Hc|s s' o Hc
    |s m ack s' o Hre Hc|s req r s' o Hc].
  - destruct (decide (c = Acquire)) as [->|Ha]; [by eapply (asks_inv true)|].
    destruct (decide (c = Release)) as [->|Hr]; [by eapply (asks_inv false)|].
    replace (want w (ByApplication c r)) with w by (by destruct c).
    eapply harmless_inv; [exact Hi|]. by eapply call_harmless.
  - destruct Hi as [Ha Hv]. cbn in Ha, Hv. unfold settled_view in Hv. rewrite Hre in Hv. destruct Hv as (Hfd & n & _ & ->).
    injection Hc as <- <-. cbn. rewrite Z.eqb_refl. done.
  - apply notify_error_harmless in Hc. pose proof (harmless_inv _ _ _ _ _ _ Hi Hc) as Hi'. exact Hi'.
  - destruct Hi as (Ha & Hre & ->). cbn in Ha, Hre. split; [done|]. cbn. unfold settled_view.
    destruct (may_reconnect sanity s); cbn; rewrite ?Hre; done.
  - destruct Hi as [Ha Hv]. cbn in Ha, Hv. unfold settled_view in Hv. rewrite Hre in Hv. done.
  - destruct Hi as (Ha & Hre & ->). cbn in Ha, Hre. apply bind_Ok in Hc as (s0 & ? & ? & ? & Hg & Hk & ->).
    injection Hg as <- <- <-. cbn in Hk. unfold bind, next_connect, set_sock, modify, when in Hk. cbn in Hk.
    destruct (Z.leb_spec 0 (connect_fd (n_connects s))); injection Hk as <- <- <-; cbn.
    + destruct (Z.leb_spec 0 (connect_fd (n_connects s))); [|lia]. split; [done|]. cbn. split; [done|].
      split; [done|]. exists 0%nat. by split; [apply HR|].
    + destruct (Z.leb_spec 0 (connect_fd (n_connects s))); [lia|]. split; [done|]. cbn. unfold settled_view. cbn.
      by rewrite Hre.
  - eapply register_inv; [apply HR; apply Hi|done..].
  - apply dispatch_Ok in Hc as (r & d & v0 & _ & Hc & _ & Hack). apply call_harmless_cb in Hc.
    pose proof (harmless_inv _ _ _ _ _ _ Hi Hc) as [Ha Hv]. cbn in Ha, Hv. split; [by destruct ack|].
    cbn [want]. destruct ack as [req|]; [|done]. cbn. split; [done|].
    destruct (_ && _); [injection Hack as ->; by left|].
    destruct (_ && _); [injection Hack as ->; by right|done].
  - destruct Hi as (Ha & Hv & Hreq). cbn in Ha, Hv, Hreq.
    assert (harmless s s' o) as Hh.
    { eapply simple_msg_harmless; [| |exact Hc]; destruct Hreq as [->| ->];
        unfold CRM_REQ_ACK_COLD_RESET, CRM_REQ_ACK_SHUTDOWN, CRM_REQ_ACQUIRE, CRM_REQ_RELEASE; lia. }
    eapply (harmless_inv v w s AtPoll); [|exact Hh]. done.
Qed.

Lemma sees_app v o1 o2 : sees v (o1 ++ o2) = sees (sees v o1) o2.
Proof. apply fold_left_app. Qed.

End registrations.

(** ** The loop is a run of its steps *)

#[local] Abbreviation step := (lib_step connect_fd send_ok cb_ret sanity).
#[local] Abbreviation run := (lib_run connect_fd send_ok cb_ret sanity).

Definition thread_run st o st' : Prop := exists ls, run st ls o st' /\ Forall (fun l => l = ByThread) ls.

Lemma thread_refl st : thread_run st [] st.
Proof. exists []. split; [constructor|done]. Qed.

Lemma thread_snoc st o st1 o' st2 : thread_run st o st1 -> step st1 ByThread o' st2 -> thread_run st (o ++ o') st2.
Proof.
  intros (ls & Hr & Hl) Hs. exists (ls ++ [ByThread]). split; [by econstructor|].
  apply Forall_app. split; [done|by apply Forall_singleton].
Qed.

Lemma reconnect_run s s' o :
  reconnect connect_fd send_ok s = Ok tt s' o -> thread_run (mk_lib s AtConnect) o (mk_lib s' AtPoll).
Proof.
  intros (s0 & ? & ? & ? & Hg & Hk & ->)%bind_Ok. injection Hg as <- <- <-. cbn [app].
  apply bind_Ok in Hk as (? & ? & ? & ? & (_ & -> & ->)%ASSERT_Ok & Hk & ->). cbn [app].
  apply bind_Ok in Hk as (fd & s1 & o1 & o2 & Hc & Hk & ->).
  pose proof (step_connect connect_fd send_ok cb_ret sanity _ _ _ _ Hc) as Hs.
  destruct (0 <=? fd).
  - eapply thread_snoc; [eapply (thread_snoc _ []); [apply thread_refl|exact Hs]|]. by apply step_register.
  - injection Hk as <- <-. rewrite app_nil_r. eapply (thread_snoc _ []); [apply thread_refl|exact Hs].
Qed.

Lemma thread_trans st o st1 o' st2 : thread_run st o st1 -> thread_run st1 o' st2 -> thread_run st (o ++ o') st2.
Proof.
  intros Ha (ls & Hr & Hl). induction Hr as [|st0 ls o0 st1 l o' st2 _ IH Hs]; [by rewrite app_nil_r|].
  apply Forall_app in Hl as [Hl1 Hl2]. apply Forall_inv in Hl2 as ->. rewrite app_assoc.
  eapply thread_snoc; [by apply IH|done].
Qed.

Lemma handle_error_run s s' o :
  reconnect_flag s = false -> handle_error connect_fd send_ok cb_ret sanity s = Ok tt s' o ->
  thread_run (mk_lib s AtPoll) o (mk_lib s' AtPoll).
Proof.
  intros Hre (? & s1 & o1 & ? & H1 & Hk & ->)%bind_Ok.
  apply bind_Ok in Hk as ([] & s2 & o2 & ? & H2 & Hk & ->). apply bind_Ok in Hk as ([] & s3 & o3 & ? & H3 & Hk & ->).
  apply bind_Ok in Hk as (s4 & ? & ? & ? & Hg & Hk & ->). injection Hg as <- <- <-. cbn [app].
  rewrite !app_assoc. destruct x.
  eapply thread_trans.
  - eapply thread_snoc; [eapply thread_snoc; [eapply (thread_snoc _ []); [apply thread_refl|by apply step_error]|]|];
      by apply step_callback.
  - pose proof (step_callbacks_done connect_fd send_ok cb_ret sanity s3) as Hd.
    destruct (may_reconnect sanity s3).
    + eapply (thread_trans _ []); [eapply (thread_snoc _ []); [apply thread_refl|exact Hd]|]. by apply reconnect_run.
    + injection Hk as <- <-. eapply (thread_snoc _ []); [apply thread_refl|exact Hd].
Qed.

Lemma event_loop_turn_run i s s' o :
  event_loop_turn connect_fd send_ok cb_ret sanity i s = Ok true s' o ->
  thread_run (mk_lib s AtPoll) o (mk_lib s' AtPoll).
Proof.
  intros (s0 & ? & ? & ? & Hg & Hk & ->)%bind_Ok. injection Hg as <- <- <-. cbn [app].
  assert (forall (m : L_ unit) o', (m ;; ret true) s = Ok true s' o' -> m s = Ok tt s' o') as Hseq.
  { intros m o' (u & s1 & o1 & ? & Hm & Hr & ->)%bind_Ok. injection Hr as <- <-. rewrite app_nil_r. by destruct u. }
  destruct i as [| | | | |[m|]].
  - done.
  - unfold poll_timeout in Hk. destruct (reconnect_flag s) eqn:Hre; [|done].
    destruct (_ && _); cbn in Hk; apply Hseq in Hk;
      (eapply (thread_trans _ []); [eapply (thread_snoc _ []); [apply thread_refl|by apply step_timeout]|];
       by apply reconnect_run).
  - by destruct (disconnect s).
  - by destruct (ipc_msg s).
  - destruct (reconnect_flag s) eqn:Hre; [done|]. apply Hseq in Hk. by apply handle_error_run.
  - destruct (reconnect_flag s) eqn:Hre; [done|]. apply Hseq in Hk.
    apply bind_Ok in Hk as (ack & s1 & o1 & o2 & Hd & Hk & ->).
    pose proof (step_event connect_fd send_ok cb_ret sanity _ _ _ _ _ Hre Hd) as Hs. destruct ack as [req|].
    + apply bind_Ok in Hk as (r & s2 & o3 & ? & Ha & Hr & ->). injection Hr as <- <-. rewrite app_nil_r.
      eapply thread_snoc; [eapply (thread_snoc _ []); [apply thread_refl|exact Hs]|]. by eapply step_ack.
    + injection Hk as <- <-. rewrite app_nil_r. eapply (thread_snoc _ []); [apply thread_refl|exact Hs].
  - destruct (reconnect_flag s) eqn:Hre; [done|]. apply Hseq in Hk. by apply handle_error_run.
Qed.


(** ** Connection *)

Lemma build_bitmap_Ok {S O} l b (s s' : S) b' (o : list O) :
  build_bitmap l b s = Ok b' s' o -> 0 <= b < 2 ^ 31 ->
  s' = s /\ o = [] /\ 0 <= b' < 2 ^ 31 /\
  forall e, 0 <= e -> Z.testbit b' e = Z.testbit b e || existsb (fun r => reg_id r =? e) l.
Proof.
  revert b s o. induction l as [|r l IH]; intros b s o Hr Hb; cbn [build_bitmap] in Hr.
  { injection Hr as <- <- <-. split_and!; try done; try lia. intros e _. by rewrite orb_false_r. }
  apply bind_Ok in Hr as ([] & s1 & o1 & o2 & Hc & Hr & ->).
  destruct ((0 <=? reg_id r) && (reg_id r <? 31)) eqn:Hid; [|done]. injection Hc as <- <-. bool_facts.
  apply bind_Ok in Hr as (? & ? & ? & ? & (_ & -> & ->)%ASSERT_Ok & Hr & ->).
  apply bind_Ok in Hr as (? & ? & ? & ? & (_ & -> & ->)%ASSERT_Ok & Hr & ->).
  assert (0 <= Z.lor b (Z.shiftl 1 (reg_id r)) < 2 ^ 31) as Hb'.
  { split; [apply Z.lor_nonneg; split; [lia|]; by apply Z.shiftl_nonneg|].
    rewrite Z.shiftl_1_l. apply Z.log2_lt_cancel. rewrite Z.log2_lor by (try lia; apply Z.pow_nonneg; lia).
    rewrite Z.log2_pow2 by done. change (Z.log2 (2 ^ 31)) with 31. apply Z.max_lub_lt; [|lia].
    destruct (decide (b = 0)) as [->|]; [done|]. apply Z.log2_lt_pow2; lia. }
  destruct (IH _ _ _ Hr Hb') as (-> & -> & Hbb & Ht). split_and!; try done; try lia.
  intros e He. rewrite Ht by done. rewrite Z.lor_spec, Z.shiftl_1_l, <-orb_assoc. f_equal. cbn. f_equal.
  rewrite Z.pow2_bits_eqb by done. done.
Qed.

Definition registers_of (s : crm_mdm_cli_ctx) (l : list mdm_cli_register) : Prop :=
  evts s = l /\ 0 <= events_bitmap s < 2 ^ 31 /\
  forall e, 0 <= e -> Z.testbit (events_bitmap s) e = existsb (fun r => reg_id r =? e) l.

Lemma connect_start_Ok name l req s0 started s oi :
  connect_start connect_fd name l req s0 = Ok started s oi ->
  reconnect_flag s = false /\ acquired s = false /\ cli_name s = name /\ register_id s = req /\ registers_of s l /\
  (started = true -> 0 <= sock_fd s /\ sees None oi = Some (mk_view (sock_fd s) [] false)).
Proof.
  intros Hc. unfold connect_start in Hc.
  apply bind_Ok in Hc as (? & ? & ? & ? & (_ & -> & ->)%ASSERT_Ok & Hc & ->).
  apply bind_Ok in Hc as (? & ? & ? & ? & (_ & -> & ->)%ASSERT_Ok & Hc & ->).
  apply bind_Ok in Hc as (? & ? & ? & ? & (_ & -> & ->)%ASSERT_Ok & Hc & ->).
  apply bind_Ok in Hc as (bm & s2 & o3 & o4 & Hb & Hc & ->).
  apply build_bitmap_Ok in Hb as (-> & -> & Hbm & Hbits); [|lia]. cbn [app] in *.
  unfold crm_socket_connect, next_connect, set_sock, set_thread in Hc.
  unfold bind, modify, get, when, emit, ret in Hc. cbn in Hc.
  destruct (Z.leb_spec 0 (connect_fd (n_connects s0))) as [Hfd|Hfd]; cbn in Hc.
  all: destruct (Z.ltb_spec (connect_fd (n_connects s0)) 0); try lia; injection Hc as <- <- <-; split_and!; try done.
  all: split; [done|split; [done|]]; intros e He; cbn; by rewrite Hbits, Z.testbit_0_l.
Qed.


(** What no step changes: the registrations and the identity. *)
Definition fixed s : list mdm_cli_register * (Z * Z * string) := (evts s, identity s).

Lemma step_fixed st l o st' : step st l o st' -> fixed (lib_ctx st') = fixed (lib_ctx st).
Proof.
  revert st l o st'.
  assert (forall s s' o, harmless s s' o -> fixed s' = fixed s) as Hh.
  { intros s s' o [(E1 & E2 & E3 & E4 & _) _]. unfold fixed, identity. congruence. }
  assert (forall b s r s' o, (let* s := get in
    let* r := (if reconnect_flag s then ret 0 else wire_send send_ok (asks b)) in
    when (r =? 0) (set_acquired b) ;; ret r) s = Ok r s' o -> fixed s' = fixed s) as Hasks.
  { intros b s r s' o (s0 & ? & ? & ? & Hg & Hk & ->)%bind_Ok. injection Hg as <- <- <-.
    apply bind_Ok in Hk as (r0 & s1 & o1 & o2 & Hs & Hk & ->).
    assert (fixed s1 = fixed s) as <-.
    { destruct (reconnect_flag s); [by injection Hs as <- <- <-|].
      by destruct (wire_send_Ok _ _ _ _ _ Hs) as (_ & ok & _ & _ & ->). }
    unfold bind, when in Hk. destruct (r0 =? 0); by injection Hk as <- <- <-. }
  intros st l o st' Hs. destruct Hs as [s p c r s' o Hc|s s' o Hre Hc|s id ids s' o Hc|s|s Hre|s fd s' o Hc|s s' o Hc
    |s m ack s' o Hre Hc|s req r s' o Hc]; cbn.
  - destruct (decide (c = Acquire)) as [->|Ha]; [by eapply (Hasks true)|].
    destruct (decide (c = Release)) as [->|Hr]; [by eapply (Hasks false)|]. eapply Hh. by eapply call_harmless.
  - by injection Hc as <- <-.
  - eapply Hh. by eapply notify_error_harmless.
  - done.
  - done.
  - unfold crm_socket_connect, bind, get, next_connect, set_sock, modify, when in Hc. cbn in Hc.
    destruct (0 <=? _); by injection Hc as <- <- <-.
  - apply bind_Ok in Hc as (s0 & ? & ? & ? & Hg & Hk & ->). injection Hg as <- <- <-.
    apply bind_Ok in Hk as (r & s1 & o1 & o2 & Hs & Hk & ->).
    destruct (wire_send_Ok _ _ _ _ _ Hs) as (_ & ok & -> & -> & ->). clear Hs.
    apply bind_Ok in Hk as ([] & s2 & o3 & o4 & Hm & Hk & ->).
    assert (fixed s2 = fixed s) as <-.
    { destruct (negb _); [by injection Hm as <- <-|]. destruct (acquired s); [|by injection Hm as <- <-].
      apply bind_Ok in Hm as (r & s4 & o5 & o6 & Hs & Hm & ->).
      destruct (wire_send_Ok _ _ _ _ _ Hs) as (_ & ok' & -> & -> & ->).
      unfold when in Hm. destruct (_ =? _); by injection Hm as <- <-. }
    unfold bind, get, when in Hk. destruct (reconnect_flag s2); by injection Hk as <- <-.
  - apply dispatch_Ok in Hc as (r & d & v0 & _ & Hc & _). eapply Hh. by eapply call_harmless_cb.
  - apply bind_Ok in Hc as (s0 & ? & ? & ? & Hg & Hk & ->). injection Hg as <- <- <-.
    apply bind_Ok in Hk as (? & ? & ? & ? & [-> ->]%named_Ok & Hk & ->).
    destruct (reconnect_flag s); [by injection Hk as <- <- <-|].
    by destruct (wire_send_Ok _ _ _ _ _ Hk) as (_ & ok & _ & _ & ->).
Qed.


(** *** Sessions *)

#[local] Abbreviation sstep := (session_step connect_fd send_ok cb_ret sanity).
#[local] Abbreviation srun := (session_run connect_fd send_ok cb_ret sanity).

(** How often the client is registered: once, unless the connection was lost
    before [crm_connect] sent its REGISTER, which can then be a second one. *)
Definition in_use (connecting lost : bool) (n : nat) : Prop :=
  match connecting, lost with
  | true, false => n = 0%nat
  | true, true | false, false => n = 1%nat
  | false, true => (1 <= n <= 2)%nat
  end.
Definition in_registration (connecting lost : bool) (k : nat) : Prop :=
  if negb connecting && lost then (k <= 1)%nat else k = 0%nat.

Record session_inv v w (x : session) : Prop := {
  sv_lib : lib_inv (in_use (connecting (se_app x)) (se_lost x)) (in_registration (connecting (se_app x)) (se_lost x))
             v w (se_lib x);
  sv_first : connecting (se_app x) = true -> se_lost x = false -> reconnect_flag (lib_ctx (se_lib x)) = false;
  sv_fd : forall fd, se_app x = AppSending fd -> se_lost x = false -> fd = sock_fd (lib_ctx (se_lib x));
  sv_free : connecting (se_app x) = true -> w = false;
}.

Lemma counts_reconnect c lost : c = false \/ lost = true -> reconnects (in_use c lost) (in_registration c lost).
Proof. intros Hc. destruct c, lost; destruct_or?; try done; split; cbn; intros; lia. Qed.

(** The registration of [crm_connect] received, or sent to a descriptor that is
    not the connection's any more. *)
Lemma registered_sent (P P' : nat -> Prop) v w s s' fd :
  sock_fd s' = sock_fd s -> identity s' = identity s ->
  (forall n, P n -> P' (Datatypes.S n) /\ (fd <> sock_fd s -> P' n)) ->
  registered P v w s -> registered P' (sees v [Sent fd (register_msg s) true]) w s'.
Proof.
  intros E1 E2 HP (Hfd & n & Hn & ->). destruct (HP n Hn) as [H1 H2].
  unfold registered. rewrite E1, E2. split; [done|]. cbn.
  destruct (Z.eqb_spec fd (sock_fd s)) as [->|Hne]; [|eauto].
  exists (Datatypes.S n). split; [done|]. by rewrite replicate_S_end.
Qed.

Lemma session_sends_inv v s p fd s' o lost :
  session_inv v false (mk_session (mk_lib s p) (AppSending fd) lost) -> connect_send send_ok fd s = Ok true s' o ->
  session_inv (sees v o) false (mk_session (mk_lib s' p) AppConnected lost).
Proof.
  intros [[Ha Hv] Hf Hfd _] (s0 & ? & ? & ? & Hg & Hk & ->)%bind_Ok. injection Hg as <- <- <-. cbn [app].
  apply bind_Ok in Hk as (r & s1 & o1 & o2 & Hs & Hk & ->). apply wire_send_to_Ok in Hs as (_ & ok & -> & -> & ->).
  destruct ok; [|done]. injection Hk as <- <-. rewrite app_nil_r. cbn [connecting se_app se_lost se_lib lib_ctx] in *.
  split; [|done..]. split; [done|]. cbn [lib_at lib_ctx se_lib se_lost se_app connecting] in *.
  assert (forall n, in_use true lost n ->
    in_use false lost (Datatypes.S n) /\ (fd <> sock_fd s -> in_use false lost n)) as HN.
  { intros n. destruct lost; cbn; intros ->; split; try lia. by destruct (Hfd fd). }
  assert (forall n, in_registration true true n ->
    in_registration false true (Datatypes.S n) /\ (fd <> sock_fd s -> in_registration false true n)) as HK.
  { cbn. intros n ->. lia. }
  assert (settled_view (in_use true lost) v false s ->
    settled_view (in_use false lost) (sees v [Sent fd (register_msg s) true]) false
      (mk_cli (evts s) (events_bitmap s) (sock_fd s) (cli_name s) (reconnect_flag s) (disconnect s) (acquired s)
        (register_id s) (thread s) (ipc_msg s) (n_connects s) (Datatypes.S (n_sends s)) (n_callbacks s))) as Hset.
  { unfold settled_view. cbn [reconnect_flag]. destruct (reconnect_flag s); [by intros ->|]. by apply registered_sent. }
  destruct p; cbn in Hv |- *.
  - by apply Hset.
  - by destruct Hv as [-> ->].
  - by destruct Hv as [-> ->].
  - destruct Hv as [Hre Hv]. split; [done|]. destruct lost; [|by rewrite Hf in Hre].
    by refine (registered_sent _ _ _ _ s _ fd _ _ HK Hv).
  - by destruct Hv as [Hv ?]; split; [apply Hset|].
Qed.

(** A step of the thread that loses the connection changes what is known of the
    next one. *)
Lemma lib_inv_lost (N K N' K' : nat -> Prop) v w st :
  reconnect_flag (lib_ctx st) = true -> lib_at st <> AtRegister -> lib_inv N K v w st -> lib_inv N' K' v w st.
Proof.
  intros Hre Hat [Ha Hv]. split; [done|]. unfold settled_view in *. rewrite Hre in *. by destruct (lib_at st).
Qed.

(** The thread sees the connection closed: it is about to call the callbacks. *)
Lemma step_loses N K v w st o st' :
  lib_inv N K v w st -> reconnect_flag (lib_ctx st) = false -> step st ByThread o st' ->
  reconnect_flag (lib_ctx st') = true -> lib_at st' <> AtRegister.
Proof.
  intros [_ Hv] Hre Hs Hre'. inversion Hs as [|s0 s1 o0 _ Hc|s0 id ids s1 o0 Hc|s0|s0 Hq|s0 fd s1 o0 Hc|s0 s1 o0 Hc
    |s0 m ack s1 o0 Hq Hc|s0 req r s1 o0 Hc]; subst; cbn in *; try done; try (by destruct_and?; congruence).
  by destruct ack.
Qed.

Lemma step_sock N K v w st o st' :
  lib_inv N K v w st -> reconnect_flag (lib_ctx st) = false -> step st ByThread o st' ->
  reconnect_flag (lib_ctx st') = false -> sock_fd (lib_ctx st') = sock_fd (lib_ctx st).
Proof.
  intros [_ Hv] Hre Hs Hre'. inversion Hs as [|s0 s1 o0 _ Hc|s0 id ids s1 o0 Hc|s0|s0 Hq|s0 fd s1 o0 Hc|s0 s1 o0 Hc
    |s0 m ack s1 o0 Hq Hc|s0 req r s1 o0 Hc]; subst; cbn in *; try (by destruct_and?; congruence).
  - by injection Hc as <- <-.
  - apply dispatch_Ok in Hc as (r & d & x & _ & Hc & _). by apply call_harmless_cb in Hc as [(_ & _ & _ & _ & Hsock & _) _].
  - destruct Hv as [_ Hreq]. eapply simple_msg_harmless in Hc as [(_ & _ & _ & _ & Hsock & _) _]; [done| |];
      destruct Hreq as [->| ->];
      unfold CRM_REQ_ACK_COLD_RESET, CRM_REQ_ACK_SHUTDOWN, CRM_REQ_ACQUIRE, CRM_REQ_RELEASE; lia.
Qed.

Lemma session_step_inv v w x ls o x' :
  session_inv v w x -> sstep x ls o x' -> session_inv (sees v o) (wants w ls) x'.
Proof.
  intros Hi Hs. destruct Hs as [s p lost|s p fd s' o lost Hc|st a o st' lost Hc Hst|st l o st' lost Hst].
  - destruct Hi as [H1 H2 H3 H4]. split; [exact H1|done| |done]. by intros fd [= <-] _.
  - pose proof (sv_free _ _ _ Hi eq_refl) as ->. by eapply session_sends_inv.
  - destruct Hi as [H1 H2 H3 H4]. cbn in *. rewrite Hc in *. destruct lost; cbn in *.
    + split; cbn; rewrite ?Hc; try done; try congruence.
      apply (step_inv _ _ v w st ByThread o st'); [|exact H1|exact Hst]. intros _. apply counts_reconnect. by right.
    + specialize (H2 eq_refl eq_refl).
      assert (lib_inv (in_use true false) (in_registration true false) (sees v o) w st') as Hi.
      { apply (step_inv _ _ v w st ByThread o st'); [|exact H1|exact Hst]. congruence. }
      destruct (reconnect_flag (lib_ctx st')) eqn:Hre; split; cbn; rewrite ?Hc; try done.
      * eapply lib_inv_lost; [done| |exact Hi]. exact (step_loses _ _ _ _ _ _ _ H1 H2 Hst Hre).
      * intros fd -> _. rewrite (H3 fd eq_refl eq_refl). symmetry. exact (step_sock _ _ _ _ _ _ _ H1 H2 Hst Hre).
  - destruct Hi as [H1 H2 H3 H4]. split; cbn; try done.
    apply (step_inv _ _ v w st l o st'); [|exact H1|exact Hst]. intros _. apply counts_reconnect. by left.
Qed.

Lemma session_run_inv v w x ls o x' :
  session_inv v w x -> srun x ls o x' -> session_inv (sees v o) (wants w ls) x'.
Proof.
  intros Hi Hr. induction Hr as [|x ls o x1 ls' o' x2 _ IH Hs]; [done|].
  rewrite sees_app. unfold wants. rewrite fold_left_app. eapply session_step_inv; [by apply IH|exact Hs].
Qed.

Lemma session_fixed x ls o x' : srun x ls o x' -> fixed (lib_ctx (se_lib x')) = fixed (lib_ctx (se_lib x)).
Proof.
  induction 1 as [|x ls o x1 ls' o' x2 _ IH Hs]; [done|]. rewrite <-IH.
  destruct Hs as [s p lost|s p fd s' o' lost Hc|st a o' st' lost _ Hst|st l o' st' lost Hst]; cbn; try done.
  - apply bind_Ok in Hc as (s0 & ? & ? & ? & Hg & Hk & _). injection Hg as <- <- <-.
    apply bind_Ok in Hk as (r & s1 & o1 & o2 & Hs & Hk & _). apply wire_send_to_Ok in Hs as (_ & ok & _ & _ & ->).
    by injection Hk as _ <-.
  - by eapply step_fixed.
  - by eapply step_fixed.
Qed.

(** C26. The server is told what the application asked for.  The runs begin when
    [crm_connect] has created its thread; the thread runs while [crm_connect]
    reads the descriptor and sends REGISTER, and once [crm_connect] has given the
    handle the application calls the library in any interleaving with the
    thread, from callbacks or other threads.  Whatever the failures of sends and
    connections (a send that fails is not received) and however often the server
    restarts, once the handle has been given: when the library is connected, the
    server has received exactly one registration on the current connection, with
    the request, the bitmap and the name of [crm_connect], or, only if the
    connection was lost before REGISTER was sent, one or two of them; and it holds
    the modem for this client exactly when the last [mdm_cli_acquire] or
    [mdm_cli_release] that returned 0 was an acquire.  When the library is not
    connected, the previous connection is closed, and the library only tries to
    connect when it is not connected. *)
Theorem server_view_in_sync name l req s0 s oi ls o x :
  connect_start connect_fd name l req s0 = Ok true s oi ->
  srun (mk_session (mk_lib s AtPoll) AppConnecting false) ls o x -> se_app x = AppConnected ->
  let c := lib_ctx (se_lib x) in
  let v := sees None (oi ++ o) in
  acquired c = wants false ls /\
  (reconnect_flag c = false ->
    0 <= sock_fd c /\ exists n, (if se_lost x then 1 <= n <= 2 else n = 1)%nat /\
      v = Some (mk_view (sock_fd c) (replicate n (req, events_bitmap s, name)) (wants false ls))) /\
  (reconnect_flag c = true -> lib_at (se_lib x) = AtRegister \/ v = None) /\
  (lib_at (se_lib x) = AtConnect \/ lib_at (se_lib x) = AtRegister -> reconnect_flag c = true).
Proof.
  intros Hc Hr Happ. apply connect_start_Ok in Hc as (Hre & Hac & Hn & Hid & _ & Hv).
  destruct (Hv eq_refl) as [Hfd Hv0]. cbn. rewrite sees_app, Hv0.
  assert (session_inv (Some (mk_view (sock_fd s) [] false)) false (mk_session (mk_lib s AtPoll) AppConnecting false)) as Hi.
  { split; [|done..]. split; [done|]. cbn. unfold settled_view. rewrite Hre. split; [done|]. by exists 0%nat. }
  pose proof (session_fixed _ _ _ _ Hr) as Hf. cbn in Hf. injection Hf as _ Hid' Hbm Hnm.
  destruct (session_run_inv _ _ _ _ _ _ Hi Hr) as [[Ha Hl] _ _ _]. rewrite Happ in Hl.
  destruct x as [[c p] a lost]. cbn -[in_use in_registration] in *. split; [done|].
  unfold settled_view, registered, identity in Hl. rewrite Hid', Hbm, Hnm, Hid, Hn in Hl. clear Hi.
  destruct p; destruct (reconnect_flag c); destruct_and?; split_and!; try done; intros; destruct_or?; auto; try done.
  all: match goal with H : exists n, _ |- _ => destruct H as (n & HN & ->) end; exists n; by destruct lost.
Qed.


(** ** Events of CLA *)










(** *** Building sessions *)

Lemma session_cons x ls o x1 ls' o' x2 : sstep x ls o x1 -> srun x1 ls' o' x2 -> srun x (ls ++ ls') (o ++ o') x2.
Proof.
  intros Hs Hr. induction Hr as [x1|x1 la oa x3 lb ob x4 _ IH Hst].
  - rewrite !app_nil_r. exact (session_more _ _ _ _ _ [] [] x _ _ _ (session_refl _ _ _ _ x) Hs).
  - rewrite !app_assoc. econstructor; [by apply IH|done].
Qed.

Lemma session_of_run st ls o st' lost :
  run st ls o st' -> srun (mk_session st AppConnected lost) ls o (mk_session st' AppConnected lost).
Proof.
  induction 1 as [|st ls o st1 l o' st2 _ IH Hs]; [constructor|]. econstructor; [exact IH|by apply session_lib].
Qed.

End sync.

(** ** Runs of the library *)

Section demo.
#[local] Existing Instance demo_mdmcli.

Definition demo_fd (n : nat) : Z := 7 + Z.of_nat n.
Definition always_sent (_ : nat) : bool := true.
Definition accepts (_ : nat) : Z := 0.
Definition demo_registers : list mdm_cli_register :=
  [mk_register MDM_UP true 10; mk_register MDM_COLD_RESET true 11; mk_register MDM_DBG_INFO true 12].
Definition no_handle : crm_mdm_cli_ctx := mk_cli [] 0 (-1) "" false false false 0 false false 0 0 0.

Definition demo_connect (send_ok : nat -> bool) : outcome crm_mdm_cli_ctx cli_out bool :=
  crm_connect demo_fd send_ok "a" demo_registers CRM_REQ_REGISTER no_handle.

(** The state of an outcome. *)
Definition final {S O A} (x : S) (r : outcome S O A) : S := match r with Ok _ s _ => s | Abort _ _ => x end.
Definition demo_connected : crm_mdm_cli_ctx := final no_handle (demo_connect always_sent).

(** Failures of the library:
    - when the REGISTER message cannot be sent, [crm_connect] waits for the end
      of its thread, which nobody has told to end: the call never returns;
    - the thread runs before REGISTER is sent, and the lock is not held: if the
      thread sees the connection closed first, the registration is sent to the
      descriptor -1 and the process aborts;
    - [mdm_cli_notify_dbg] accepts a NULL debug information and CLA forwards it
      to every registered client, whose thread then dereferences it. *)
Lemma client_library_failures :
  (exists o, demo_connect (fun _ => false) = Abort (Stuck "pthread_join") o) /\
  (exists s1 o1 s2 o2,
    connect_start demo_fd "a" demo_registers CRM_REQ_REGISTER no_handle = Ok true s1 o1 /\
    handle_error_close s1 = Ok tt s2 o2 /\
    connect_register always_sent s2 = Abort (AssertFail "fd >= 0") []) /\
  (exists s1 o1 f o m,
    mdm_cli_notify_dbg always_sent None demo_connected = Ok 0 s1 o1 /\
    o1 = [Sent 7 (mk_wire_msg CRM_REQ_NOTIFY_DBG (Debug None)) true] /\
    demo_run all_sent (two_clients_up ++ [clients_say [says CRM_REQ_NOTIFY_DBG (Debug None); RevNone]]) = Ok true f o /\
    List.hd_error (List.rev o) = Some (ToClient 9 m true) /\
    event_loop_turn demo_fd always_sent accepts false (CliSockIn (Some m)) demo_connected =
      Abort (Undefined "msg->msg.debug is NULL") []).
Proof.
  split_and!.
  - eexists. vm_compute. reflexivity.
  - do 4 eexists. split; [vm_compute; reflexivity|].
    split; [vm_compute; reflexivity|]. vm_compute. reflexivity.
  - eexists _, _, _, _, (mk_wire_msg MDM_DBG_INFO (Debug None)).
    split; [vm_compute; reflexivity|]. split; [reflexivity|]. split; [vm_compute; reflexivity|].
    split; vm_compute; reflexivity.
Qed.

(** The modem is acquired, the server restarts, the thread connects again. *)
Definition demo_ctx (fd : Z) (re acq : bool) (connects sends callbacks : nat) : crm_mdm_cli_ctx :=
  mk_cli demo_registers 84 fd "a" re false acq CRM_REQ_REGISTER true false connects sends callbacks.
Definition demo_labels : list lib_label :=
  [ByApplication Acquire 0; ByThread; ByThread; ByThread; ByThread; ByThread; ByThread].

Lemma demo_reconnection : exists o,
  lib_run demo_fd always_sent accepts false (mk_lib demo_connected AtPoll) demo_labels o
    (mk_lib (demo_ctx 8 false true 2 4 1) AtPoll).
Proof.
  unfold demo_labels. eexists.
  eapply (run_step _ _ _ _ _ [_; _; _; _; _; _] _ (mk_lib (demo_ctx 8 true true 2 2 1) AtRegister)).
  2: { apply step_register. vm_compute. reflexivity. }
  eapply (run_step _ _ _ _ _ [_; _; _; _; _] _ (mk_lib (demo_ctx (-1) true true 1 2 1) AtConnect)).
  2: { eapply (step_connect _ _ _ _ _ 8). vm_compute. reflexivity. }
  eapply (run_step _ _ _ _ _ [_; _; _; _] _ (mk_lib (demo_ctx (-1) true true 1 2 1) (AtErrorCallbacks []))).
  2: { apply step_callbacks_done. }
  eapply (run_step _ _ _ _ _ [_; _; _] _ (mk_lib (demo_ctx (-1) true true 1 2 0) (AtErrorCallbacks [MDM_COLD_RESET]))).
  2: { apply step_callback. vm_compute. reflexivity. }
  eapply (run_step _ _ _ _ _ [_; _] _ (mk_lib (demo_ctx (-1) true true 1 2 0) (AtErrorCallbacks [MDM_DOWN; MDM_COLD_RESET]))).
  2: { apply step_callback. vm_compute. reflexivity. }
  eapply (run_step _ _ _ _ _ [_] _ (mk_lib (demo_ctx 7 false true 1 2 0) AtPoll)).
  2: { apply step_error; vm_compute; reflexivity. }
  eapply (run_step _ _ _ _ _ [] _ (mk_lib demo_connected AtPoll)).
  2: { apply step_api. vm_compute. reflexivity. }
  apply run_refl.
Qed.

(** The context once the thread has been created. *)
Definition demo_started : crm_mdm_cli_ctx := demo_ctx 7 false false 1 0 0.

Lemma demo_start_Ok :
  connect_start demo_fd "a" demo_registers CRM_REQ_REGISTER no_handle = Ok true demo_started [Connected 7].
Proof. vm_compute. reflexivity. Qed.

Lemma demo_session : exists o,
  session_run demo_fd always_sent accepts false (mk_session (mk_lib demo_started AtPoll) AppConnecting false)
    demo_labels o (mk_session (mk_lib (demo_ctx 8 false true 2 4 1) AtPoll) AppConnected false).
Proof.
  destruct demo_reconnection as [o Hr]. eexists.
  eapply (session_cons _ _ _ _ _ []); [apply session_reads|].
  eapply (session_cons _ _ _ _ _ []); [apply session_sends; vm_compute; reflexivity|].
  exact (session_of_run _ _ _ _ _ _ _ _ false Hr).
Qed.

(** The connection is lost before REGISTER is sent, and the thread has connected
    and registered again: the server receives a second registration. *)
Lemma registered_twice : exists ls o,
  session_run demo_fd always_sent accepts false (mk_session (mk_lib demo_started AtPoll) AppConnecting false)
    ls o (mk_session (mk_lib (demo_ctx 8 false false 2 2 1) AtPoll) AppConnected true) /\
  sees None ([Connected 7] ++ o) =
    Some (mk_view 8 [(CRM_REQ_REGISTER, 84, "a"%string); (CRM_REQ_REGISTER, 84, "a"%string)] false).
Proof.
  do 2 eexists. split.
  - eapply session_cons; [apply session_thread; [done|]; apply step_error; vm_compute; reflexivity|].
    eapply session_cons; [apply session_thread; [done|]; apply step_callback; vm_compute; reflexivity|].
    eapply session_cons; [apply session_thread; [done|]; apply step_callback; vm_compute; reflexivity|].
    eapply session_cons; [apply session_thread; [done|]; apply step_callbacks_done|].
    eapply session_cons; [apply session_thread; [done|]; eapply step_connect; vm_compute; reflexivity|].
    eapply session_cons; [apply session_thread; [done|]; apply step_register; vm_compute; reflexivity|].
    eapply session_cons; [apply session_reads|].
    eapply session_cons; [apply session_sends; vm_compute; reflexivity|]. apply session_refl.
  - vm_compute. reflexivity.
Qed.

End demo.

(** ** Witnesses *)

Lemma server_view_in_sync_witness : exists oi o,
  @sees demo_mdmcli None (oi ++ o) = Some (mk_view 8 [(@CRM_REQ_REGISTER demo_mdmcli, 84, "a")] true).
Proof.
  destruct demo_session as [o Hr]. exists [Connected 7], o.
  destruct (@server_view_in_sync demo_mdmcli demo_fd always_sent accepts false _ _ _ _ _ _ _ _ _ demo_start_Ok Hr eq_refl)
    as (_ & Hv & _).
  destruct (Hv eq_refl) as (_ & n & Hn & ->). cbn in Hn. by rewrite Hn.
Defined.

