(* ===== verification/Socket.v ===== *)
(** * Transfers on a socket (libs/utils/src/socket.c)

    [crm_socket_write] and [crm_socket_read] repeat [poll] and [write] or
    [read] until everything is transferred or the time is over.  The state is
    the stream of the bytes between the two ends: those written and not yet
    read.  A turn of the loop is a clock reading and what the system calls
    return; how many bytes each call transfers is up to the kernel. *)

From S2P Require Import Prelude Timer MdmCli Wire.
From Stdlib Require Import ZArith Lia.
From stdpp Require Import base tactics list strings option.

Open Scope Z_scope.
Open Scope crm_scope.

(** [poll]: interrupted, a failure or an error on the descriptor, ready. *)
Inductive poll_out : Type := PollEintr | PollFailed | PollReady.

(** [write] and [read]: interrupted, a failure or the end of the stream, a
    number of bytes. *)
Inductive io_out : Type := IoEintr | IoFailed | IoDone (n : nat).

Record io_turn : Type := mk_turn { io_now : timespec; io_poll : poll_out; io_res : io_out }.

Abbreviation K_ A := (M (list Z) Empty_set A).

(** The turns the kernel has not made are not known. *)
Fixpoint write_loop (timer_end : timespec) (left : list Z) (l : list io_turn) : K_ Z :=
  match left with
  | [] => ret 0
  | _ =>
      match l with
      | [] => fail (Stuck "crm_socket_write")
      | t :: l' =>
          if crm_time_get_remain_ms (io_now t) timer_end <=? 0 then ret (-1) else
          match io_poll t with
          | PollEintr => write_loop timer_end left l'
          | PollFailed => ret (-1)
          | PollReady =>
              match io_res t with
              | IoEintr => write_loop timer_end left l'
              | IoFailed => ret (-1)
              | IoDone n => modify (fun sock => sock ++ take n left) ;; write_loop timer_end (drop n left) l'
              end
          end
      end
  end.

Definition crm_socket_write (fd timeout : Z) (start : timespec) (data : list Z) (l : list io_turn) : K_ Z :=
  ASSERT "fd >= 0" (0 <=? fd) ;;
  ASSERT "timeout > 0" (0 <? timeout) ;;
  ASSERT "data_size > 0" (0 <? Z.of_nat (length data)) ;;
  write_loop (crm_time_add_ms start timeout) data l.

(** [rcvd] is what the buffer holds, [todo] what is missing; the result with
    the buffer. *)
Fixpoint read_loop (timer_end : timespec) (rcvd : list Z) (todo : nat) (l : list io_turn) : K_ (Z * list Z) :=
  match todo with
  | O => ret (0, rcvd)
  | _ =>
      match l with
      | [] => fail (Stuck "crm_socket_read")
      | t :: l' =>
          if crm_time_get_remain_ms (io_now t) timer_end <=? 0 then ret (-1, rcvd) else
          match io_poll t with
          | PollEintr => read_loop timer_end rcvd todo l'
          | PollFailed => ret (-1, rcvd)
          | PollReady =>
              match io_res t with
              | IoEintr => read_loop timer_end rcvd todo l'
              | IoFailed => ret (-1, rcvd)
              | IoDone n =>
                  let* sock := get in
                  modify (fun sock => drop n sock) ;;
                  read_loop timer_end (rcvd ++ take n sock) (todo - n) l'
              end
          end
      end
  end.

Definition crm_socket_read (fd timeout : Z) (start : timespec) (data_size : nat) (l : list io_turn) : K_ (Z * list Z) :=
  ASSERT "fd >= 0" (0 <=? fd) ;;
  ASSERT "timeout > 0" (0 <? timeout) ;;
  ASSERT "data_size > 0" (0 <? Z.of_nat data_size) ;;
  read_loop (crm_time_add_ms start timeout) [] data_size l.

(** ** Creation *)

(** The system calls made; their results are arguments. *)
Inductive sock_call : Type :=
| CallListen (fd max_conn : Z)
| CallClose (fd : Z)
| CallAccept (fd : Z)
| CallLocalClient (socket_name : string).

#[local] Abbreviation L_ A := (M unit sock_call A).

Definition crm_socket_connect (socket_name : string) (res : Z) : L_ Z :=
  emit (CallLocalClient socket_name) ;; ret res.

(** [fd] is what [android_get_control_socket] gives, [res] what [listen] returns. *)
Definition crm_socket_create (max_conn fd res : Z) : L_ Z :=
  if 0 <=? fd then
    emit (CallListen fd max_conn) ;;
    if negb (res =? 0) then emit (CallClose fd) ;; ret (-1) else ret fd
  else ret fd.

Definition crm_socket_accept (fd res : Z) : L_ Z :=
  ASSERT "fd >= 0" (0 <=? fd) ;;
  emit (CallAccept fd) ;; ret res.

(** A descriptor is returned exactly when it listens; one that cannot listen is closed. *)
Lemma crm_socket_create_spec max_conn fd res u :
  exists r o, crm_socket_create max_conn fd res u = Ok r u o /\
    (0 <= r <-> 0 <= fd /\ res = 0) /\ (0 <= r -> r = fd /\ o = [CallListen fd max_conn]) /\
    (r < 0 -> 0 <= fd -> o = [CallListen fd max_conn; CallClose fd]).
Proof.
  unfold crm_socket_create. destruct (Z.leb_spec 0 fd); [destruct (Z.eqb_spec res 0)|]; cbn;
    eexists _, _; (split; [reflexivity|]); split_and!; intros; auto; lia.
Qed.

(** ** What the kernel guarantees *)

(** The bytes of a [read] are in the stream and fit in the buffer; those of a
    [write] are bytes given to it; at least one is transferred. *)
Fixpoint write_fair (left : nat) (l : list io_turn) : Prop :=
  match l with
  | [] => True
  | t :: l' =>
      match io_poll t, io_res t with
      | PollReady, IoDone n => (1 <= n <= left)%nat /\ write_fair (left - n) l'
      | _, _ => write_fair left l'
      end
  end.

Fixpoint read_fair (avail todo : nat) (l : list io_turn) : Prop :=
  match l with
  | [] => True
  | t :: l' =>
      match io_poll t, io_res t with
      | PollReady, IoDone n => (1 <= n <= todo /\ n <= avail)%nat /\ read_fair (avail - n) (todo - n) l'
      | _, _ => read_fair avail todo l'
      end
  end.

(** A clock that does not run backwards from [start], and reaches the end of the
    allotted time. *)
Definition runs_from (start : timespec) (t : io_turn) : Prop :=
  valid_clock (io_now t) /\ to_ns start <= to_ns (io_now t).
Definition over (start : timespec) (ms : Z) (t : io_turn) : Prop := to_ns start + ms * 1000000 <= to_ns (io_now t).

Section transfers.
Context (start : timespec) (timeout : Z) (Hstart : valid_clock start) (Htimeout : 0 < timeout <= INT_MAX).

Lemma over_expires t : runs_from start t -> over start timeout t ->
  (crm_time_get_remain_ms (io_now t) (crm_time_add_ms start timeout) <=? 0) = true.
Proof.
  intros [Hv Hle] Ho. unfold over in Ho.
  destruct (remaining_time_bounds start timeout (io_now t) Hstart Hv ltac:(lia) Hle) as (_ & He & _).
  apply Z.leb_le. rewrite He; lia.
Qed.

(** How a turn goes on: the time is over, or the rest is enough for the time to
    be over later. *)
Lemma turn_cases t l : Forall (runs_from start) (t :: l) -> List.Exists (over start timeout) (t :: l) ->
  (crm_time_get_remain_ms (io_now t) (crm_time_add_ms start timeout) <=? 0) = true \/
  Forall (runs_from start) l /\ List.Exists (over start timeout) l.
Proof.
  intros [Hc Hl]%Forall_cons_1 He. apply List.Exists_cons in He as [He|He]; [left; by apply over_expires|by right].
Qed.

Lemma wp_write_loop l left sock :
  Forall (runs_from start) l -> List.Exists (over start timeout) l -> write_fair (length left) l ->
  wp (write_loop (crm_time_add_ms start timeout) left l) sock no_abort (fun r sock' _ =>
    exists k, sock' = sock ++ take k left /\
      (r = 0 /\ (k = length left) \/ r = -1 /\ (k < length left)%nat)).
Proof.
  revert left sock. induction l as [|t l IH]; intros left sock Hc He Hf; [by inversion He|].
  cbn [write_loop]. destruct left as [|b left]; [apply wp_ret; exists 0%nat; split; [by rewrite app_nil_r|by left]|].
  assert (wp (O := Empty_set) (ret (-1)) sock no_abort (fun r sock' _ => exists k, sock' = sock ++ take k (b :: left) /\
    (r = 0 /\ k = length (b :: left) \/ r = -1 /\ (k < length (b :: left))%nat))) as Hfail.
  { apply wp_ret. exists 0%nat. split; [by rewrite app_nil_r|]. right. split; [done|cbn; lia]. }
  destruct (crm_time_get_remain_ms _ _ <=? 0) eqn:Hr; [exact Hfail|].
  destruct (turn_cases t l Hc He) as [?|[Hc' He']]; [congruence|]. cbn [write_fair] in Hf.
  destruct (io_poll t); [by apply IH|exact Hfail|]. destruct (io_res t) as [| |n]; [by apply IH|exact Hfail|].
  destruct Hf as [Hn Hf]. apply wp_bind, wp_modify.
  eapply wp_mono; [apply IH; [done|done|by rewrite length_drop]|done|].
  intros r sock' o (k & -> & Hk). exists (n + k)%nat. rewrite length_drop in Hk. split; [|destruct Hk as [[-> ->]|[-> Hk]]; [left|right]; split; [done|lia|done|lia]].
  by rewrite <-app_assoc, take_take_drop.
Qed.

Lemma wp_read_loop l rcvd todo sock :
  Forall (runs_from start) l -> List.Exists (over start timeout) l -> read_fair (length sock) todo l ->
  wp (read_loop (crm_time_add_ms start timeout) rcvd todo l) sock no_abort (fun r sock' _ =>
    exists k, r.2 = rcvd ++ take k sock /\ sock' = drop k sock /\ (k <= length sock)%nat /\
      (r.1 = 0 /\ k = todo \/ r.1 = -1 /\ (k < todo)%nat)).
Proof.
  revert rcvd todo sock. induction l as [|t l IH]; intros rcvd todo sock Hc He Hf; [by inversion He|].
  cbn [read_loop]. destruct todo as [|todo].
  { apply wp_ret. exists 0%nat. cbn. rewrite app_nil_r, drop_0. split_and!; [done..|lia|by left]. }
  assert (wp (O := Empty_set) (ret (-1, rcvd)) sock no_abort (fun r sock' _ =>
    exists k, r.2 = rcvd ++ take k sock /\ sock' = drop k sock /\ (k <= length sock)%nat /\
      (r.1 = 0 /\ k = S todo \/ r.1 = -1 /\ (k < S todo)%nat))) as Hfail.
  { apply wp_ret. exists 0%nat. cbn. rewrite app_nil_r, drop_0. split_and!; [done..|lia|]. right. split; [done|lia]. }
  destruct (crm_time_get_remain_ms _ _ <=? 0) eqn:Hr; [exact Hfail|].
  destruct (turn_cases t l Hc He) as [?|[Hc' He']]; [congruence|]. cbn [read_fair] in Hf.
  destruct (io_poll t); [by apply IH|exact Hfail|]. destruct (io_res t) as [| |n]; [by apply IH|exact Hfail|].
  destruct Hf as [Hn Hf]. apply wp_bind, wp_get, wp_bind, wp_modify.
  eapply wp_mono; [apply IH; [done|done|by rewrite length_drop]|done|].
  intros [r buf] sock' o (k & -> & -> & Hle & Hk). cbn in *. rewrite length_drop in Hle. exists (n + k)%nat.
  split; [by rewrite <-app_assoc, take_take_drop|]. split; [by rewrite drop_drop|]. split; [lia|].
  destruct Hk as [[-> ->]|[-> Hk]]; [left|right]; split; [done|lia|done|lia].
Qed.

End transfers.

Lemma no_output (o : list Empty_set) : o = [].
Proof. by destruct o as [|[]]. Qed.

(** C30. Transfers end and are exact.  Whatever the fragmentation the kernel
    chooses and the interruptions, once the clock has reached the timeout
    [crm_socket_write] and [crm_socket_read] have returned.  A write that
    returns 0 has put exactly the data at the end of the stream, one that
    returns -1 a strict prefix of it.  A read that returns 0 has taken from the
    stream exactly what the model of the receiving side of the wire protocol
    ([Wire.read_from_fd]) takes in one step; one that returns -1 has consumed
    fewer bytes than asked. *)
Theorem socket_transfers start timeout fd data n sock lw lr :
  valid_clock start -> 0 < timeout <= INT_MAX -> 0 <= fd -> data <> [] -> (0 < n)%nat ->
  Forall (runs_from start) (lw ++ lr) ->
  List.Exists (over start timeout) lw -> List.Exists (over start timeout) lr ->
  write_fair (length data) lw -> read_fair (length sock) n lr ->
  (exists r sock', crm_socket_write fd timeout start data lw sock = Ok r sock' [] /\
    (r = 0 /\ sock' = sock ++ data \/ r = -1 /\ exists k, (k < length data)%nat /\ sock' = sock ++ take k data)) /\
  (exists r buf sock', crm_socket_read fd timeout start n lr sock = Ok (r, buf) sock' [] /\
    (r = 0 /\ read_from_fd (Z.of_nat n) sock = Ok (Some buf) sock' [] \/
     r = -1 /\ exists k, (k < n)%nat /\ buf = take k sock /\ sock' = drop k sock)).
Proof.
  intros Hs Ht Hfd Hd Hn [Hcw Hcr]%Forall_app Hew Her Hfw Hfr.
  assert (forall A x (m : M (list Z) Empty_set A) b, b = true -> (ASSERT x b ;; m) sock = m sock) as Hassert.
  { intros A x m b ->. by apply (bind_pass _ (fun _ => m) sock tt sock). }
  split.
  - assert (0 < Z.of_nat (length data)) by (destruct data; cbn; [done|lia]).
    destruct (wp_total _ _ _ (wp_write_loop start timeout Hs Ht lw data sock Hcw Hew Hfw)) as (r & sock' & o & Hr & k & -> & Hk).
    rewrite (no_output o) in Hr. exists r, (sock ++ take k data). split.
    + unfold crm_socket_write. rewrite !Hassert by (first [apply Z.leb_le | apply Z.ltb_lt]; lia). done.
    + destruct Hk as [[-> ->]|[-> Hk]]; [left; by rewrite firstn_all|right]. split; [done|]. by exists k.
  - destruct (wp_total _ _ _ (wp_read_loop start timeout Hs Ht lr [] n sock Hcr Her Hfr))
      as ([r buf] & sock' & o & Hr & k & Hb & -> & Hle & Hk). cbn in Hb, Hk. subst buf.
    rewrite (no_output o) in Hr. exists r, (take k sock), (drop k sock). split.
    + unfold crm_socket_read. rewrite !Hassert by (first [apply Z.leb_le | apply Z.ltb_lt]; lia). done.
    + destruct Hk as [[-> ->]|[-> Hk]]; [left|right]; (split; [done|]).
      * unfold read_from_fd. destruct (Z.eqb_spec (Z.of_nat n) 0); [lia|].
        rewrite (bind_pass get _ sock sock sock) by done.
        rewrite (proj2 (Z.leb_le _ _)) by lia. by rewrite Nat2Z.id.
      * by exists k.
Qed.

(** Seven bytes in three pieces, with an interruption; the clock passes the
    timeout of one second. *)
Definition demo_turns (l : list (poll_out * io_out)) : list io_turn :=
  ((fun x => mk_turn (mk_timespec 10 0) x.1 x.2) <$> l) ++ [mk_turn (mk_timespec 12 0) PollFailed IoFailed].
Definition demo_writes : list io_turn := demo_turns [(PollReady, IoDone 3); (PollEintr, IoEintr); (PollReady, IoDone 4)].
Definition demo_reads : list io_turn := demo_turns [(PollReady, IoEintr); (PollReady, IoDone 5); (PollReady, IoDone 2)].

Lemma socket_transfers_witness :
  let data := [1; 2; 3; 4; 5; 6; 7] in
  (exists r sock', crm_socket_write 5 1000 (mk_timespec 10 0) data demo_writes data = Ok r sock' [] /\
    (r = 0 /\ sock' = data ++ data \/ r = -1 /\ exists k, (k < length data)%nat /\ sock' = data ++ take k data)) /\
  (exists r buf sock', crm_socket_read 5 1000 (mk_timespec 10 0) 7 demo_reads data = Ok (r, buf) sock' [] /\
    (r = 0 /\ read_from_fd 7 data = Ok (Some buf) sock' [] \/
     r = -1 /\ exists k, (k < 7)%nat /\ buf = take k data /\ sock' = drop k data)).
Proof.
  apply (socket_transfers (mk_timespec 10 0) 1000 5 [1; 2; 3; 4; 5; 6; 7] 7 [1; 2; 3; 4; 5; 6; 7] demo_writes demo_reads).
  - by split_and!.
  - by vm_compute.
  - lia.
  - done.
  - lia.
  - repeat (apply Forall_cons_2; [by split_and!; vm_compute|]). apply Forall_nil_2.
  - do 3 right. left. by vm_compute.
  - do 3 right. left. by vm_compute.
  - cbn. lia.
  - cbn. lia.
Defined.
