(* ===== verification/Factory.v ===== *)
(** * The process factory (libs/utils/src/process_factory.c)

    A process forked at the start of CRM creates the other processes on demand:
    CRM asks for a process, for its end ([kill]) or tells that it has read
    everything ([clean]) through a control pipe; the SIGCHLD handler of the
    factory writes to the same pipe.  The state holds what the processes share:
    the pipes, as the lists of their messages ([Ipc.process_pipe_roundtrip]
    shows that a pipe is such a list, scalars cut down to an [int]), and the
    fields of the factory's copy of the structure.  [zombies] is what [waitpid]
    will report: the pids of the children that have died and whether a signal
    killed them; [fork_pid] gives the pid of a new child, from the pids in the
    table. *)

From S2P Require Import Prelude Ipc.
From Stdlib Require Import ZArith Lia.
From stdpp Require Import base tactics list strings option.

Open Scope Z_scope.
Open Scope crm_scope.

(** [factory_events_t] *)
Definition CREATE : Z := 0.
Definition CLEAN : Z := 1.
Definition KILL : Z := 2.
Definition DEAD : Z := 3.
Definition DISPOSE : Z := 4.

Definition gen_scalar (evt id : Z) : Z :=
  Z.lor (Z.shiftl (Z.land id 0x7FFFFFFF) 8) (Z.land evt 0xFF).
Definition get_id (scalar : Z) : Z := Z.land (Z.shiftr scalar 8) 0x7FFFFFFF.
Definition get_event (scalar : Z) : Z := Z.land scalar 0xFF.

Record crm_process : Type := mk_process {
  pid : Z;
  events : Z;
  ipc_p2c : list crm_ipc_msg;
  ipc_c2p : list crm_ipc_msg;
}.

(** [crm_process_factory_ctx_internal_t]; [nb_processes] is the length of
    [processes]. [stopping] is a variable of the factory's loop. *)
Record factory : Type := mk_factory {
  pid_parent : Z;
  ipc_ctrl : list crm_ipc_msg;
  ipc_evt : list crm_ipc_msg;
  processes : list crm_process;
  g_factory : bool;
  stopping : bool;
  zombies : list (Z * bool);
}.

Inductive fact_out : Type :=
| Forked (idx : nat) (child : Z) (data : list Z)
| SigKill (target : Z).

Abbreviation F_ A := (M factory fact_out A).

Definition set_ctrl (l : list crm_ipc_msg) : F_ unit :=
  modify (fun f => mk_factory (pid_parent f) l (ipc_evt f) (processes f) (g_factory f) (stopping f) (zombies f)).
Definition set_evt (l : list crm_ipc_msg) : F_ unit :=
  modify (fun f => mk_factory (pid_parent f) (ipc_ctrl f) l (processes f) (g_factory f) (stopping f) (zombies f)).
Definition set_process (i : nat) (p : crm_process) : F_ unit :=
  modify (fun f => mk_factory (pid_parent f) (ipc_ctrl f) (ipc_evt f) (<[i := p]> (processes f)) (g_factory f)
    (stopping f) (zombies f)).
Definition set_g_factory (b : bool) : F_ unit :=
  modify (fun f => mk_factory (pid_parent f) (ipc_ctrl f) (ipc_evt f) (processes f) b (stopping f) (zombies f)).
Definition set_stopping : F_ unit :=
  modify (fun f => mk_factory (pid_parent f) (ipc_ctrl f) (ipc_evt f) (processes f) (g_factory f) true (zombies f)).
Definition set_zombies (l : list (Z * bool)) : F_ unit :=
  modify (fun f => mk_factory (pid_parent f) (ipc_ctrl f) (ipc_evt f) (processes f) (g_factory f) (stopping f) l).

Definition nb_processes (f : factory) : Z := Z.of_nat (length (processes f)).

(** [send_msg] on the control pipe and on the pipe of the replies. *)
Definition send_ctrl (m : crm_ipc_msg) : F_ unit := let* f := get in set_ctrl (ipc_ctrl f ++ [received m]).
Definition send_evt (m : crm_ipc_msg) : F_ unit := let* f := get in set_evt (ipc_evt f ++ [received m]).

(** [factory->processes[i]] *)
Definition get_process (i : Z) : F_ crm_process :=
  let* f := get in
  match (if 0 <=? i then processes f !! Z.to_nat i else None) with
  | Some p => ret p
  | None => fail (Undefined "processes[idx] out of bounds")
  end.

(** [p->events & (1u << e)] and [p->events |= (1u << e)] *)
Definition has_event (e : Z) (p : crm_process) : bool := Z.testbit (events p) e.
Definition add_event (e : Z) (p : crm_process) : crm_process :=
  mk_process (pid p) (Z.lor (events p) (Z.shiftl 1 e)) (ipc_p2c p) (ipc_c2p p).
Definition set_pid (n : Z) (p : crm_process) : crm_process := mk_process n (events p) (ipc_p2c p) (ipc_c2p p).

Definition running_process (f : factory) : Z :=
  Z.of_nat (length (filter (fun p => pid p <> -1) (processes f))).

Definition kill_all : F_ unit :=
  let* f := get in
  for_each (processes f) (fun p => when (0 <? pid p) (emit (SigKill (pid p)))) ;;
  emit (SigKill (pid_parent f)) ;;
  fail (Exited (-1)).

Inductive signal : Type := SIGABRT | SIGTERM | SIGCHLD.

Definition sig_handler (sig : signal) : F_ unit :=
  let* f := get in
  when (g_factory f)
    match sig with
    | SIGABRT | SIGTERM => set_g_factory false ;; kill_all
    | SIGCHLD => send_ctrl (mk_msg (gen_scalar DEAD 0) 0 [])
    end.

(** ** The forked process *)

Section forked.
Context (fork_pid : list Z -> Z).

(** The messages left in a pipe are read and freed. *)
Fixpoint flush_pipe (killed : bool) (l : list crm_ipc_msg) : F_ unit :=
  match l with
  | [] => ret tt
  | _ :: l' =>
      DASSERT "remaining data while client has requested a clean" killed ;;
      flush_pipe killed l'
  end.

Definition forked_flush_ipcs (p : crm_process) : F_ crm_process :=
  flush_pipe (has_event KILL p) (ipc_p2c p) ;;
  flush_pipe (has_event KILL p) (ipc_c2p p) ;;
  ret (mk_process (pid p) (events p) [] []).

(** In the factory; the child runs [child_args] on the data. *)
Definition forked_create_process (m : crm_ipc_msg) : F_ Z :=
  let* f := get in
  match list_find (fun p => pid p = -1) (processes f) with
  | None => ret (-1)
  | Some (idx, process) =>
      let child := fork_pid (pid <$> processes f) in
      set_process idx (mk_process child 0 (ipc_p2c process) (ipc_c2p process)) ;;
      ASSERT "process->pid >= 0" (0 <=? child) ;;
      emit (Forked idx child (data m)) ;;
      ret (Z.of_nat idx)
  end.

(** The name of the library and the data given to [start_process]: what is
    before and after the first ';'. *)
Fixpoint split_semicolon (l : list Z) : option (list Z * list Z) :=
  match l with
  | [] => None
  | b :: l' => if b =? 59 then Some ([], l') else (fun '(x, y) => (b :: x, y)) <$> split_semicolon l'
  end.
Definition child_args (data : list Z) : option (list Z * list Z) := split_semicolon data.

(** One child reported by [waitpid]. *)
Definition reap_child (child : Z) (signaled : bool) : F_ unit :=
  let* f := get in
  match list_find (fun p => pid p = child) (processes f) with
  | None => ret tt
  | Some (i, p) =>
      if has_event KILL p || has_event CLEAN p then
        let* p := forked_flush_ipcs p in
        set_process i (set_pid (-1) p)
      else if signaled then set_g_factory false ;; kill_all
      else set_process i (add_event DEAD p)
  end.

Fixpoint reap (l : list (Z * bool)) : F_ unit :=
  match l with
  | [] => ret tt
  | (child, signaled) :: l' => reap_child child signaled ;; reap l'
  end.

Definition no_data (m : crm_ipc_msg) : bool := (data_size m =? 0) && bool_decide (data m = []).

(** The branches of the [switch]. *)
Definition on_create (m : crm_ipc_msg) : F_ unit :=
  let* idx := forked_create_process m in
  send_evt (mk_msg idx 0 []).

Definition on_dispose : F_ unit :=
  set_stopping ;;
  let* f := get in
  for_each (processes f) (fun p => when (0 <? pid p) (emit (SigKill (pid p)))).

Definition on_dead : F_ unit :=
  let* f := get in
  set_zombies [] ;;
  reap (zombies f).

Definition free_slot (idx : Z) (p : crm_process) : F_ unit :=
  let* p := forked_flush_ipcs p in
  set_process (Z.to_nat idx) (set_pid (-1) p).

Definition on_clean (idx : Z) : F_ unit :=
  let* f := get in
  ASSERT "idx >= 0 && idx < factory->nb_processes" ((0 <=? idx) && (idx <? nb_processes f)) ;;
  let* p := get_process idx in
  ASSERT "factory->processes[idx].pid > 0" (0 <? pid p) ;;
  if has_event DEAD p then free_slot idx p
  else set_process (Z.to_nat idx) (add_event CLEAN p).

Definition on_kill (idx : Z) : F_ unit :=
  let* f := get in
  ASSERT "idx >= 0 && idx < factory->nb_processes" ((0 <=? idx) && (idx <? nb_processes f)) ;;
  let* p := get_process idx in
  when (0 <? pid p)
    (if has_event DEAD p then free_slot idx p
     else set_process (Z.to_nat idx) (add_event KILL p) ;; emit (SigKill (pid p))).

Definition handle_ctrl (m : crm_ipc_msg) : F_ unit :=
  let event := get_event (scalar m) in
  if event =? CREATE then on_create m
  else if event =? DISPOSE then ASSERT "msg.data_size == 0 && !msg.data" (no_data m) ;; on_dispose
  else if event =? DEAD then ASSERT "msg.data_size == 0 && !msg.data" (no_data m) ;; on_dead
  else if event =? CLEAN then ASSERT "msg.data_size == 0 && !msg.data" (no_data m) ;; on_clean (get_id (scalar m))
  else if event =? KILL then ASSERT "msg.data_size == 0 && !msg.data" (no_data m) ;; on_kill (get_id (scalar m))
  else DASSERT "command not supported" false.

(** A child that has died and that CRM has not cleaned; the timeout of [poll]
    (-1 blocks). *)
Definition uncleaned (p : crm_process) : bool := (0 <? pid p) && has_event DEAD p.
Definition poll_timeout (f : factory) : Z := if existsb uncleaned (processes f) then 500 else -1.

(** What [poll] reports on the control pipe. *)
Inductive fact_poll : Type := FactEintr | FactTimeout | FactIn | FactErr.

(** One turn of the loop: [false] when it ends. *)
Definition forked_turn (i : fact_poll) : F_ bool :=
  let* f := get in
  match i with
  | FactEintr => ret true
  | FactTimeout => if poll_timeout f =? -1 then fail (Stuck "poll blocks") else ASSERT "0" false ;; ret true
  | FactErr => DASSERT "event err" false ;; ret true
  | FactIn =>
      match ipc_ctrl f with
      | [] => fail (Stuck "poll blocks")
      | m :: l =>
          set_ctrl l ;;
          handle_ctrl m ;;
          let* f := get in
          ret (negb (stopping f && (running_process f =? 0)))
      end
  end.

Fixpoint forked_handle_events (l : list fact_poll) : F_ bool :=
  match l with
  | [] => ret true
  | i :: l' => let* running := forked_turn i in if running then forked_handle_events l' else ret false
  end.

End forked.

(** ** The calls of CRM *)

(** [create] up to the wait for the reply: [name] is a C string, a NULL [arg]
    is [None]. *)
Definition create_send (name : list Z) (arg : option (list Z)) : F_ unit :=
  let d := default [] arg in
  let data_len := Z.of_nat (length d) in
  ASSERT "!((data == NULL) ^ (data_len == 0))" (negb (xorb (bool_decide (arg = None)) (data_len =? 0))) ;;
  let len := Z.of_nat (length name) in
  let buffer_size := len + data_len + 1 in
  ASSERT "len > 0 && len < buffer_size" ((0 <? len) && (len <? buffer_size)) ;;
  send_ctrl (mk_msg (gen_scalar CREATE 0) buffer_size (name ++ 59 :: d)).

(** Its end, when the reply has come. *)
Definition create_reply : F_ Z :=
  let* f := get in
  match ipc_evt f with
  | m :: l => set_evt l ;; ret (scalar m)
  | [] => fail (DAssertFail "err=0")
  end.

Definition valid_idx (idx : Z) : F_ unit :=
  let* f := get in
  ASSERT "idx >= 0 && idx < factory->nb_processes" ((0 <=? idx) && (idx <? nb_processes f)).

Definition clean (idx : Z) : F_ unit :=
  valid_idx idx ;; send_ctrl (mk_msg (gen_scalar CLEAN idx) 0 []).

Definition kill_process (idx : Z) : F_ unit :=
  valid_idx idx ;; send_ctrl (mk_msg (gen_scalar KILL idx) 0 []).

(** The pipe of a child is readable: what [poll] tells on [get_poll_fd]. *)
Definition readable (idx : Z) : F_ bool :=
  valid_idx idx ;; let* p := get_process idx in ret (negb (bool_decide (ipc_c2p p = []))).

(** [get_msg] blocks on an empty pipe. *)
Definition get_msg (idx : Z) : F_ crm_ipc_msg :=
  valid_idx idx ;;
  let* p := get_process idx in
  match ipc_c2p p with
  | m :: l => set_process (Z.to_nat idx) (mk_process (pid p) (events p) (ipc_p2c p) l) ;; ret m
  | [] => fail (Stuck "read on an empty pipe")
  end.

Definition send_msg (idx : Z) (m : crm_ipc_msg) : F_ unit :=
  valid_idx idx ;;
  let* p := get_process idx in
  set_process (Z.to_nat idx) (mk_process (pid p) (events p) (ipc_p2c p ++ [received m]) (ipc_c2p p)).

(** [dispose] sends this message and waits for the end of the factory. *)
Definition dispose : F_ unit := send_ctrl (mk_msg (gen_scalar DISPOSE 0) 0 []).

Definition crm_process_factory_init (parent nb : Z) : factory :=
  mk_factory parent [] [] (replicate (Z.to_nat nb) (mk_process (-1) 0 [] [])) true false [].
