(* ===== verification/FactoryTheory.v ===== *)
(** * The process factory refines a table of children

    The abstract table says, for each slot, who holds the child and whether it
    lives; the factory's pids, event bits, pipes and pending messages are
    related to it by [related], which every step of the factory, of its
    children and of a client that follows the documentation preserves. *)

From S2P Require Import Prelude Ipc Factory.
From Stdlib Require Import ZArith Lia.
From stdpp Require Import base tactics list strings option.

Open Scope Z_scope.
Open Scope crm_scope.

(** ** Specification *)

(** Who answers for a child: the reply to [create] is on its way, CRM holds it,
    CRM has asked for CLEAN or KILL, the factory knows it has. *)
Inductive owner : Type := Replying | Held | Asked (e : Z) | Released (e : Z).
Inductive life : Type := Alive | Zombie (signaled : bool) | Reaped.

#[export] Instance owner_eq_dec : EqDecision owner.
Proof. solve_decision. Defined.
#[export] Instance life_eq_dec : EqDecision life.
Proof. solve_decision. Defined.

(** [finished]: the child will not send any more. *)
Record child : Type := mk_child { own : owner; living : life; finished : bool }.

Abbreviation table := (list (option child)).

Definition with_own (o : owner) (c : child) : child := mk_child o (living c) (finished c).
Definition with_life (l : life) (c : child) : child := mk_child (own c) l (finished c).

(** A release frees the slot of a child that is known to be dead. *)
Definition release (e : Z) (c : child) : option child :=
  match living c with Reaped => None | _ => Some (with_own (Released e) c) end.

Definition reap_slot (a : option child) : option child :=
  match a with
  | Some c =>
      match living c, own c with
      | Zombie _, Released _ => None
      | Zombie _, _ => Some (with_life Reaped c)
      | _, _ => Some c
      end
  | None => None
  end.

Definition at_slot (i : nat) (f : child -> option child) (t : table) : table :=
  match t !! i with Some (Some c) => <[i := f c]> t | _ => t end.

(** The table after a control message, given the reply it causes. *)
Definition spec_handle (m : crm_ipc_msg) (reply : list crm_ipc_msg) (t : table) : table :=
  let event := get_event (scalar m) in
  if event =? CREATE then
    match reply with
    | r :: _ => if 0 <=? scalar r then <[Z.to_nat (scalar r) := Some (mk_child Replying Alive false)]> t else t
    | [] => t
    end
  else if event =? DEAD then reap_slot <$> t
  else if (event =? CLEAN) || (event =? KILL) then at_slot (Z.to_nat (get_id (scalar m))) (release event) t
  else t.

(** CREATE is granted a free slot, or refused when there is none. *)
Definition granted (m : crm_ipc_msg) (reply : list crm_ipc_msg) (t : table) : Prop :=
  if get_event (scalar m) =? CREATE then
    (exists i : nat, reply = [mk_msg (Z.of_nat i) 0 []] /\ t !! i = Some None) \/
    (reply = [mk_msg (-1) 0 []] /\ Forall is_Some t)
  else reply = [].

(** ** The relation *)

Definition owner_bits (o : owner) : Z := match o with Released e => Z.shiftl 1 e | _ => 0 end.
Definition life_bits (l : life) : Z := match l with Reaped => 8 | _ => 0 end.
Definition is_release (e : Z) : Prop := e = CLEAN \/ e = KILL.

Definition drained (p : crm_process) : Prop := ipc_p2c p = [] /\ ipc_c2p p = [].

Record child_ok (zs : list (Z * bool)) (p : crm_process) (c : child) : Prop := {
  co_pid : 0 < pid p;
  co_events : events p = owner_bits (own c) + life_bits (living c);
  co_zombie sig : (pid p, sig) ∈ zs <-> living c = Zombie sig;
  co_release e : own c = Asked e \/ own c = Released e -> is_release e;
  co_released e : own c = Released e -> living c <> Reaped;
  co_clean : own c = Asked CLEAN \/ own c = Released CLEAN -> finished c = true /\ drained p;
}.

Definition slot_ok (zs : list (Z * bool)) (p : crm_process) (a : option child) : Prop :=
  match a with
  | None => pid p = -1 /\ drained p
  | Some c => child_ok zs p c
  end.

Definition distinct_pids (l : list crm_process) : Prop :=
  forall i j p q, l !! i = Some p -> l !! j = Some q -> 0 < pid p -> pid p = pid q -> i = j.

Record slots_ok (zs : list (Z * bool)) (l : list crm_process) (t : table) : Prop := {
  so_slots : Forall2 (slot_ok zs) l t;
  so_distinct : distinct_pids l;
  so_once : NoDup zs.*1;
  so_known z : z ∈ zs.*1 -> 0 < z /\ exists p, p ∈ l /\ pid p = z;
}.

(** The control messages. *)
Definition ctrl_msg (nb : nat) (m : crm_ipc_msg) : Prop :=
  get_event (scalar m) = CREATE \/
  no_data m = true /\
  (get_event (scalar m) = DEAD \/
   is_release (get_event (scalar m)) /\ 0 <= get_id (scalar m) < Z.of_nat nb).

(** The releases of a slot on their way. *)
Definition release_of (i : nat) (m : crm_ipc_msg) : option Z :=
  let e := get_event (scalar m) in
  if ((e =? CLEAN) || (e =? KILL)) && (get_id (scalar m) =? Z.of_nat i) then Some e else None.
Definition releases (i : nat) (l : list crm_ipc_msg) : list Z := omap (release_of i) l.

Definition asked (a : option child) : list Z :=
  match a with Some c => match own c with Asked e => [e] | _ => [] end | None => [] end.

Definition is_create (m : crm_ipc_msg) : bool := get_event (scalar m) =? CREATE.
Definition is_dead (m : crm_ipc_msg) : bool := get_event (scalar m) =? DEAD.

Definition creates (l : list crm_ipc_msg) : nat := length (filter (fun m => is_create m = true) l).

#[global] Arguments releases : simpl never.
#[global] Arguments creates : simpl never.

(** [waiting]: CRM waits for the reply to [create]; [sigchld]: the signal is
    pending. *)
Record related (f : factory) (t : table) (waiting sigchld : bool) : Prop := {
  re_slots : slots_ok (zombies f) (processes f) t;
  re_ctrl : Forall (ctrl_msg (length t)) (ipc_ctrl f);
  re_asked i a : t !! i = Some a -> releases i (ipc_ctrl f) = asked a;
  re_dead : zombies f <> [] -> existsb is_dead (ipc_ctrl f) = true \/ sigchld = true;
  re_wait : (creates (ipc_ctrl f) + length (ipc_evt f) = if waiting then 1 else 0)%nat;
  re_reply i c : t !! i = Some (Some c) -> own c = Replying -> ipc_evt f = [mk_msg (Z.of_nat i) 0 []];
  re_evt m : m ∈ ipc_evt f -> m = mk_msg (-1) 0 [] \/
    exists i c, m = mk_msg (Z.of_nat i) 0 [] /\ t !! i = Some (Some c) /\ own c = Replying;
  re_flags : stopping f = false /\ g_factory f = true;
}.

(** ** Scalars *)

Lemma gen_scalar_value e id : 0 <= e < 256 -> 0 <= id < 2 ^ 31 -> gen_scalar e id = id * 256 + e.
Proof.
  intros He Hi. unfold gen_scalar.
  change 0x7FFFFFFF with (Z.ones 31). change 0xFF with (Z.ones 8).
  rewrite !Z.land_ones, !Z.mod_small by lia.
  pose proof (Z.add_lor_land (Z.shiftl id 8) e) as Hor.
  assert (Z.land (Z.shiftl id 8) e = 0) as Hz.
  { apply Z.bits_inj'. intros n Hn. rewrite Z.land_spec, Z.shiftl_spec, Z.bits_0 by lia.
    destruct (Z.ltb_spec n 8); [rewrite (Z.testbit_neg_r id) by lia; done|].
    destruct (Z.eq_dec e 0) as [->|]; [by rewrite Z.bits_0, andb_false_r|].
    rewrite (Z.bits_above_log2 e), andb_false_r; [done|lia|].
    apply Z.log2_lt_pow2; [lia|]. apply Z.lt_le_trans with (2 ^ 8); [lia|]. apply Z.pow_le_mono_r; lia. }
  rewrite Hz, Z.shiftl_mul_pow2 in Hor by lia. rewrite Z.shiftl_mul_pow2 by lia. lia.
Qed.

(** What the factory reads back, for the identifiers that survive the cut to
    an [int]. *)
Lemma scalar_read e id : 0 <= e < 256 -> 0 <= id < 2 ^ 23 ->
  let s := i32 (gen_scalar e id) in get_event s = e /\ get_id s = id.
Proof.
  intros He Hi s. subst s. rewrite gen_scalar_value by lia.
  rewrite i32_small by (unfold is_int, INT_MIN, INT_MAX; lia).
  unfold get_event, get_id. change 0x7FFFFFFF with (Z.ones 31). change 0xFF with (Z.ones 8).
  rewrite !Z.land_ones, Z.shiftr_div_pow2 by lia. change (2 ^ 8) with 256.
  rewrite Z.add_comm, Z.mod_add, Z.div_add, (Z.div_small e), !Z.mod_small by lia. lia.
Qed.

Lemma child_args_roundtrip name d : (59 ∉ name) -> child_args (name ++ 59 :: d) = Some (name, d).
Proof.
  unfold child_args. induction name as [|b name IH]; intros Hn; cbn; [done|].
  apply not_elem_of_cons in Hn as [Hb Hn]. destruct (Z.eqb_spec b 59); [done|]. by rewrite IH.
Qed.

(** ** The slots *)

Section slots.
Context (fork_pid : list Z -> Z).
Implicit Types (zs : list (Z * bool)) (l : list crm_process) (t : table) (p : crm_process) (c : child).

Lemma child_bits zs p c : child_ok zs p c ->
  has_event DEAD p = bool_decide (living c = Reaped) /\
  has_event KILL p = bool_decide (own c = Released KILL) /\
  has_event CLEAN p = bool_decide (own c = Released CLEAN).
Proof.
  intros Hc. unfold has_event. rewrite (co_events _ _ _ Hc).
  destruct (own c) as [| | |e] eqn:Ho, (living c) eqn:Hl; try done.
  - destruct (co_release _ _ _ Hc e ltac:(by right)) as [-> | ->]; done.
  - destruct (co_release _ _ _ Hc e ltac:(by right)) as [-> | ->]; done.
  - by destruct (co_released _ _ _ Hc e Ho).
Qed.

Lemma slots_lookup zs l t i p : slots_ok zs l t -> l !! i = Some p -> exists a, t !! i = Some a /\ slot_ok zs p a.
Proof. intros Hs Hp. eapply Forall2_lookup_l; [apply Hs|done]. Qed.

Lemma slots_lookup_t zs l t i a : slots_ok zs l t -> t !! i = Some a -> exists p, l !! i = Some p /\ slot_ok zs p a.
Proof. intros Hs Hp. eapply Forall2_lookup_r; [apply Hs|done]. Qed.

Lemma slots_length zs l t : slots_ok zs l t -> length l = length t.
Proof. intros Hs. eapply Forall2_length, Hs. Qed.

(** A slot is replaced by one with the same pid, or freed, or by a new child. *)
Lemma slots_replace zs l t i p p' a' :
  slots_ok zs l t -> l !! i = Some p -> slot_ok zs p' a' ->
  (pid p' = pid p \/
   pid p' = -1 /\ pid p ∉ zs.*1 \/
   pid p = -1 /\ pid p' ∉ (pid <$> l)) ->
  slots_ok zs (<[i := p']> l) (<[i := a']> t).
Proof.
  intros Hs Hp Ha Hpid. pose proof (slots_lookup _ _ _ _ _ Hs Hp) as (a & Hti & Hok).
  assert (forall j q, l !! j = Some q -> j <> i -> 0 < pid p' -> pid q = pid p' -> False) as Hother.
  { intros j q Hj Hne Hpos Hq. destruct Hpid as [He|[[He _]|[_ He]]]; [|lia|].
    - apply Hne. eapply (so_distinct _ _ _ Hs j i q p); [done..|lia|lia].
    - apply He. rewrite <-Hq. apply list_elem_of_fmap. exists q. split; [done|]. by eapply list_elem_of_lookup_2. }
  assert (i < length l)%nat as Hlt by (by eapply lookup_lt_Some).
  split.
  - apply Forall2_insert; [apply Hs|done].
  - intros j k q r Hj Hk Hpos He. destruct (decide (j = i)) as [->|Hji], (decide (k = i)) as [->|Hki]; [done| | |].
    + rewrite list_lookup_insert_eq in Hj by done. rewrite list_lookup_insert_ne in Hk by done. injection Hj as <-.
      destruct (Hother k r); [done..|lia|done].
    + rewrite list_lookup_insert_eq in Hk by done. rewrite list_lookup_insert_ne in Hj by done. injection Hk as <-.
      destruct (Hother j q); [done..|lia|done].
    + rewrite list_lookup_insert_ne in Hj, Hk by done. by eapply (so_distinct _ _ _ Hs).
  - apply Hs.
  - intros z Hz. destruct (so_known _ _ _ Hs z Hz) as (Hpos & q & [j Hj]%list_elem_of_lookup_1 & Hq). split; [done|].
    destruct (decide (j = i)) as [->|Hji].
    + rewrite Hp in Hj. injection Hj as <-. exists p'.
      split; [apply list_elem_of_lookup; exists i; by apply list_lookup_insert_eq|].
      destruct Hpid as [He|[[_ He]|[He _]]]; [lia|by subst z|lia].
    + exists q. split; [|done]. apply list_elem_of_lookup. exists j. by rewrite list_lookup_insert_ne.
Qed.

Lemma slots_fresh zs l t z : slots_ok zs l t -> z ∉ (pid <$> l) -> z ∉ zs.*1.
Proof.
  intros Hs Hz Hin. destruct (so_known _ _ _ Hs z Hin) as (_ & p & Hp & <-). apply Hz. by apply list_elem_of_fmap_2.
Qed.

(** ** The operations of the factory on the slots *)

Definition upd (f : factory) (l : list crm_process) : factory :=
  mk_factory (pid_parent f) (ipc_ctrl f) (ipc_evt f) l (g_factory f) (stopping f) (zombies f).

Definition remaining : abort_reason := DAssertFail "remaining data while client has requested a clean".

Lemma wp_flush_pipe k ms f E (Q : unit -> factory -> list fact_out -> Prop) :
  (k = true \/ ms = [] -> Q tt f []) -> (k = false /\ ms <> [] -> E remaining) ->
  wp (flush_pipe k ms) f E Q.
Proof.
  intros HQ HE. destruct k.
  - assert (forall Q : unit -> factory -> list fact_out -> Prop, Q tt f [] -> wp (flush_pipe true ms) f E Q) as Hk.
    { clear. induction ms as [|m ms IH]; intros Q HQ; cbn; [by apply wp_ret|]. apply wp_bind, wp_ret. by apply IH. }
    apply Hk, HQ. by left.
  - destruct ms as [|m ms]; cbn; [apply wp_ret, HQ; by right|]. apply wp_bind, wp_fail, HE. done.
Qed.

Lemma wp_forked_flush p f E (Q : crm_process -> factory -> list fact_out -> Prop) :
  (has_event KILL p = true \/ drained p -> Q (mk_process (pid p) (events p) [] []) f []) ->
  (has_event KILL p = false /\ ~ drained p -> E remaining) ->
  wp (forked_flush_ipcs p) f E Q.
Proof.
  intros HQ HE. unfold forked_flush_ipcs, drained in *.
  apply wp_bind, wp_flush_pipe; [intros Hp|intros [Hk Hn]; apply HE; by split; [|intros [? _]]].
  apply wp_bind, wp_flush_pipe; [intros Hc|intros [Hk Hn]; apply HE; by split; [|intros [_ ?]]].
  apply wp_ret, HQ. destruct Hp; [by left|]. destruct Hc; [by left|by right].
Qed.

Lemma drained_nil p z e : drained (mk_process z e [] []).
Proof. done. Qed.

(** The free slot. *)
Lemma free_slot_ok zs p : slot_ok zs (set_pid (-1) (mk_process (pid p) (events p) [] [])) None.
Proof. done. Qed.

Lemma child_zombie_out zs z sig p c : NoDup ((z, sig) :: zs).*1 ->
  child_ok ((z, sig) :: zs) p c -> pid p <> z -> child_ok zs p c.
Proof.
  intros Hn [H1 H2 H3 H4 H5 H6] Hz. split; try done.
  intros s. rewrite <-H3, elem_of_cons. split; [by right|]. intros [[=]|]; [congruence|done].
Qed.

Lemma slots_zombie_out zs z sig l t i p a' p' :
  slots_ok ((z, sig) :: zs) l t -> l !! i = Some p -> pid p = z -> slot_ok zs p' a' ->
  pid p' = z \/ pid p' = -1 ->
  slots_ok zs (<[i := p']> l) (<[i := a']> t).
Proof.
  intros Hs Hp Hz Ha Hp'. pose proof (so_once _ _ _ Hs) as Hn. cbn in Hn. pose proof (NoDup_cons_1_1 _ _ Hn) as Hzn. apply NoDup_cons_1_2 in Hn.
  destruct (so_known _ _ _ Hs z) as [Hpos _]; [by left|].
  assert (i < length l)%nat as Hlt by (by eapply lookup_lt_Some).
  assert (forall j q, l !! j = Some q -> j <> i -> pid q <> z) as Hother.
  { intros j q Hj Hne Hq. apply Hne. eapply (so_distinct _ _ _ Hs j i q p); [done..|lia|lia]. }
  split.
  - apply Forall2_lookup. intros j. destruct (decide (j = i)) as [->|Hne].
    + pose proof (slots_length _ _ _ Hs). rewrite !list_lookup_insert_eq by lia. by constructor.
    + rewrite !list_lookup_insert_ne by done.
      destruct (l !! j) as [q|] eqn:Hj.
      * destruct (slots_lookup _ _ _ _ _ Hs Hj) as (a & -> & Hok). constructor.
        destruct a as [c|]; [|done]. eapply child_zombie_out; [apply Hs|done|by eapply Hother].
      * rewrite (proj2 (lookup_ge_None t j)); [constructor|].
        rewrite <-(slots_length _ _ _ Hs). by apply lookup_ge_None.
  - intros j k q r Hj Hk Hq He.
    destruct (decide (j = i)) as [->|Hji], (decide (k = i)) as [->|Hki]; [done| | |].
    + rewrite list_lookup_insert_eq in Hj by done. rewrite list_lookup_insert_ne in Hk by done. injection Hj as <-.
      destruct (Hother k r); [done..|lia].
    + rewrite list_lookup_insert_eq in Hk by done. rewrite list_lookup_insert_ne in Hj by done. injection Hk as <-.
      destruct (Hother j q); [done..|lia].
    + rewrite list_lookup_insert_ne in Hj, Hk by done. by eapply (so_distinct _ _ _ Hs).
  - done.
  - intros y Hy. destruct (so_known _ _ _ Hs y) as (Hy0 & q & [j Hj]%list_elem_of_lookup_1 & Hq); [by right|].
    split; [done|]. exists q. split; [|done]. apply list_elem_of_lookup. exists j.
    rewrite list_lookup_insert_ne; [done|]. intros <-. rewrite Hp in Hj. injection Hj as <-.
    apply Hzn. by rewrite <-Hz, Hq.
Qed.

(** A child that CRM has not released has died of a signal: the factory kills
    the children, CRM and itself. *)
Definition crashed (t : table) (r : abort_reason) : Prop :=
  r = Exited (-1) /\ exists i c, t !! i = Some (Some c) /\ living c = Zombie true /\ forall e, own c <> Released e.

Lemma kill_all_run f :
  kill_all f = Abort (Exited (-1))
    ((SigKill <$> filter (fun z => 0 < z) (pid <$> processes f)) ++ [SigKill (pid_parent f)]).
Proof.
  assert (forall l, for_each l (fun p => when (0 <? pid p) (emit (SigKill (pid p)))) f =
    Ok tt f (SigKill <$> filter (fun z => 0 < z) (pid <$> l))) as Hl.
  { induction l as [|p l IH]; [done|]. cbn [for_each fmap list_fmap]. unfold bind at 1.
    destruct (Z.ltb_spec 0 (pid p)).
    - rewrite filter_cons_True by done. unfold when at 1, emit at 1. by rewrite IH.
    - rewrite filter_cons_False by lia. unfold when at 1, ret at 1. by rewrite IH. }
  unfold kill_all. rewrite (bind_pass get _ f f f) by done. unfold bind at 1. rewrite Hl. done.
Qed.

Lemma crashed_before t i a r : t !! i = Some a -> crashed (<[i := reap_slot a]> t) r -> crashed t r.
Proof.
  intros Hi (-> & j & c & Hj & Hl & Ho). split; [done|]. exists j, c. split; [|done].
  destruct (decide (j = i)) as [->|Hne]; [|by rewrite list_lookup_insert_ne in Hj].
  rewrite list_lookup_insert_eq in Hj by (by eapply lookup_lt_Some).
  destruct a as [[[] [] ?]|]; cbn in Hj; by simplify_eq.
Qed.

Lemma wp_reap_child z sig zs f t :
  slots_ok ((z, sig) :: zs) (processes f) t ->
  wp (reap_child z sig) f (crashed t) (fun _ f' o => o = [] /\ exists i a l',
    f' = upd f l' /\ t !! i = Some a /\ slots_ok zs l' (<[i := reap_slot a]> t)).
Proof.
  intros Hs. unfold reap_child. apply wp_bind, wp_get.
  destruct (so_known _ _ _ Hs z) as (Hpos & q & Hq & Hqz); [by left|].
  destruct (list_find (fun p => pid p = z) (processes f)) as [[i p]|] eqn:Hf.
  2: { apply list_find_None in Hf. rewrite Forall_forall in Hf. apply list_elem_of_In in Hq. by destruct (Hf q Hq). }
  apply list_find_Some in Hf as (Hi & Hp & _).
  destruct (slots_lookup _ _ _ _ _ Hs Hi) as (a & Ha & Hok).
  destruct a as [c|]; [|destruct Hok; lia]. destruct (child_bits _ _ _ Hok) as (_ & Hk & Hc).
  assert (living c = Zombie sig) as Hl. { apply (co_zombie _ _ _ Hok). rewrite Hp. by left. }
  destruct (has_event KILL p || has_event CLEAN p) eqn:Hb.
  - assert (exists e, own c = Released e) as [e He].
    { rewrite Hk, Hc in Hb. apply orb_true_iff in Hb as [Hb|Hb]; bool_facts; eauto. }
    apply wp_bind, wp_forked_flush.
    + intros _. apply wp_modify. split; [done|]. eexists i, (Some c), _. split; [reflexivity|]. split; [done|].
      cbn. rewrite Hl, He. eapply slots_zombie_out; [done..| |by right]. apply free_slot_ok.
    + intros [Hk' Hd]. exfalso. apply Hd. apply (co_clean _ _ _ Hok). right.
      rewrite Hk', Hc in Hb. cbn in Hb. by bool_facts.
  - apply orb_false_iff in Hb as [Hb1 Hb2]. rewrite Hk in Hb1. rewrite Hc in Hb2. bool_facts.
    destruct sig.
    { apply wp_bind, wp_modify. unfold wp. rewrite kill_all_run. split; [done|]. exists i, c. split; [done|]. split; [done|].
      intros e Ho. destruct (co_release _ _ _ Hok e ltac:(by right)) as [-> | ->]; congruence. }
    apply wp_modify. split; [done|]. eexists i, (Some c), _. split; [reflexivity|]. split; [done|].
    cbn [reap_slot]. rewrite Hl.
    assert (match own c with Released _ => None | _ => Some (with_life Reaped c) end = Some (with_life Reaped c)) as ->.
    { destruct (own c) as [| | |e] eqn:Ho; try done.
      destruct (co_release _ _ _ Hok e ltac:(by right)) as [-> | ->]; congruence. }
    eapply slots_zombie_out; [done..| |by left].
    pose proof (so_once _ _ _ Hs) as Hn. cbn in Hn. pose proof (NoDup_cons_1_1 _ _ Hn) as Hzn.
    destruct Hok as [H1 H2 H3 H4 H5 H6]. split; cbn; try done.
    + rewrite H2, Hl. destruct (own c) as [| | |e] eqn:Ho; try done.
      destruct (H4 e ltac:(by right)) as [-> | ->]; congruence.
    + intros s. split; [|done]. intros Hin. exfalso. apply Hzn. rewrite <-Hp. by apply (list_elem_of_fmap_2 fst) in Hin.
    + intros e He. destruct (H4 e ltac:(by right)) as [-> | ->]; congruence.
Qed.

Lemma reap_slot_idem a : reap_slot (reap_slot a) = reap_slot a.
Proof. destruct a as [[[] [] ?]|]; done. Qed.

Lemma wp_reap zs f t :
  slots_ok zs (processes f) t ->
  wp (reap zs) f (crashed t) (fun _ f' o => o = [] /\ exists l', f' = upd f l' /\ slots_ok [] l' (reap_slot <$> t)).
Proof.
  revert f t. induction zs as [|[z sig] zs IH]; intros f t Hs; cbn [reap].
  - apply wp_ret. split; [done|]. exists (processes f). split; [by destruct f|].
    assert (reap_slot <$> t = t) as ->; [|done].
    apply list_eq. intros i. rewrite list_lookup_fmap. destruct (t !! i) as [[c|]|] eqn:Hi; try done. cbn.
    destruct (slots_lookup_t _ _ _ _ _ Hs Hi) as (p & _ & Hok). destruct (living c) as [|sig|] eqn:Hl; try done.
    by apply (co_zombie _ _ _ Hok), elem_of_nil in Hl.
  - apply wp_bind. eapply wp_mono; [by apply wp_reap_child|done|].
    intros [] f' o (-> & i & a & l' & -> & Ha & Hs').
    eapply wp_mono; [by apply IH|intros r; by apply crashed_before|].
    intros [] f'' o (-> & l'' & -> & Hs''). split; [done|]. exists l''. split; [done|].
    assert (reap_slot <$> <[i:=reap_slot a]> t = reap_slot <$> t) as <-; [|done].
    rewrite list_fmap_insert, reap_slot_idem. apply list_insert_id. by rewrite list_lookup_fmap, Ha.
Qed.

(** What a control message does to the factory. *)
Definition handled (m : crm_ipc_msg) (f : factory) (t : table) (f' : factory) : Prop := exists l' reply zs',
  f' = mk_factory (pid_parent f) (ipc_ctrl f) (ipc_evt f ++ reply) l' (g_factory f) (stopping f) zs' /\
  granted m reply t /\
  slots_ok zs' l' (spec_handle m reply t) /\
  zs' = (if is_dead m then [] else zombies f).

(** A child has died, unread messages are left and CRM asks to
    kill it. *)
Definition killed_too_late (m : crm_ipc_msg) (l : list crm_process) (t : table) (r : abort_reason) : Prop :=
  exists p c, r = remaining /\ get_event (scalar m) = KILL /\
    l !! Z.to_nat (get_id (scalar m)) = Some p /\ t !! Z.to_nat (get_id (scalar m)) = Some (Some c) /\
    living c = Reaped /\ ~ drained p.

(** What a control message can fail of. *)
Definition fatal (m : crm_ipc_msg) (l : list crm_process) (t : table) (r : abort_reason) : Prop :=
  killed_too_late m l t r \/ get_event (scalar m) = DEAD /\ crashed t r.

Definition fork_ok : Prop := forall l : list Z, 0 < fork_pid l /\ fork_pid l ∉ l.

(** The identifiers that survive the cut of the scalar to an [int]. *)
Definition small (t : table) : Prop := Z.of_nat (length t) <= 2 ^ 23.

Lemma wp_on_create m f t E : fork_ok -> small t -> get_event (scalar m) = CREATE ->
  slots_ok (zombies f) (processes f) t ->
  wp (on_create fork_pid m) f E (fun _ f' _ => handled m f t f').
Proof.
  intros Hfork Hsmall Hm Hs. unfold on_create, forked_create_process, send_evt, set_process, set_evt.
  destruct (Hfork (pid <$> processes f)) as [Hpos Hnew].
  assert (is_dead m = false) as Hd by (unfold is_dead; by rewrite Hm).
  unfold handled, granted, spec_handle. rewrite Hm, Hd. cbn [Z.eqb CREATE].
  do 2 apply wp_bind. apply wp_get.
  destruct (list_find (fun p => pid p = -1) (processes f)) as [[i p]|] eqn:Hf.
  - apply list_find_Some in Hf as (Hi & Hp & _).
    destruct (slots_lookup _ _ _ _ _ Hs Hi) as (a & Ha & Hok).
    destruct a as [c|]; [pose proof (co_pid _ _ _ Hok); lia|]. destruct Hok as [_ [Hp1 Hp2]].
    pose proof (lookup_lt_Some _ _ _ Ha). unfold small in Hsmall.
    wp_run; bool_facts; [|lia].
    eexists _, [mk_msg (Z.of_nat i) 0 []], _.
    split; [unfold received; cbn; rewrite i32_small by (unfold is_int, INT_MIN, INT_MAX; lia); reflexivity|].
    split; [left; by exists i|]. split; [|done]. cbn. rewrite Nat2Z.id.
    replace (0 <=? Z.of_nat i) with true by (symmetry; apply Z.leb_le; lia).
    eapply slots_replace; [done..| |right; right; by split].
    pose proof (slots_fresh _ _ _ _ Hs Hnew) as Hz.
    split; cbn; try done.
    + intros sig. split; [|done]. intros Hin. by apply (list_elem_of_fmap_2 fst) in Hin.
    + by intros e [?|?].
    + by intros [?|?].
  - apply list_find_None in Hf. wp_run.
    eexists (processes f), [mk_msg (-1) 0 []], _. split; [reflexivity|]. split; [|done].
    right. split; [done|]. apply Forall_lookup. intros i a Ha.
    destruct (slots_lookup_t _ _ _ _ _ Hs Ha) as (p & Hp & Hok). destruct a as [c|]; [done|].
    destruct Hok as [Hpid _]. rewrite Forall_lookup in Hf. by destruct (Hf i p Hp).
Qed.

Lemma wp_on_dead m f t : get_event (scalar m) = DEAD ->
  slots_ok (zombies f) (processes f) t ->
  wp on_dead f (crashed t) (fun _ f' _ => handled m f t f').
Proof.
  intros Hm Hs. unfold on_dead, set_zombies. do 2 (apply wp_bind; wp_step).
  eapply wp_mono; [apply wp_reap; exact Hs|done|].
  intros [] f' o (_ & l' & -> & Hs'). unfold handled, granted, spec_handle, is_dead. rewrite Hm.
  eexists l', [], _. split; [|by split_and!]. unfold upd. cbn. by rewrite app_nil_r.
Qed.

(** CLEAN and KILL of a child whose release has been asked. *)
Lemma get_process_at i p f E (Q : crm_process -> factory -> list fact_out -> Prop) :
  processes f !! Z.to_nat i = Some p -> 0 <= i -> Q p f [] -> wp (get_process i) f E Q.
Proof.
  intros Hp Hi HQ. unfold get_process. apply wp_bind, wp_get.
  replace (0 <=? i) with true by (symmetry; apply Z.leb_le; lia). rewrite Hp. by apply wp_ret.
Qed.

Lemma released_ok zs p c e : child_ok zs p c -> own c = Asked e -> living c <> Reaped ->
  child_ok zs (add_event e p) (with_own (Released e) c).
Proof.
  intros [H1 H2 H3 H4 H5 H6] Ho Hl. pose proof (H4 e ltac:(by left)) as He. split; cbn; try done.
  - rewrite H2, Ho. destruct (living c); [| |done]; cbn [owner_bits life_bits]; by rewrite !Z.add_0_r, Z.lor_0_l.
  - intros e' [?|[= <-]]; [done|]. apply (H4 e). by left.
  - intros [?|[= ->]]; [done|]. apply H6. by left.
Qed.

Lemma reaped_not_zombie zs p c : child_ok zs p c -> living c = Reaped -> pid p ∉ zs.*1.
Proof.
  intros Hok Hl Hin. apply list_elem_of_fmap in Hin as ([z sig] & Hz & Hin). cbn in Hz. subst z.
  apply (co_zombie _ _ _ Hok) in Hin. congruence.
Qed.

Lemma wp_free_slot i p c f t m e : 
  slots_ok (zombies f) (processes f) t -> 0 <= i -> processes f !! Z.to_nat i = Some p ->
  t !! Z.to_nat i = Some (Some c) -> own c = Asked e -> living c = Reaped ->
  get_event (scalar m) = e -> get_id (scalar m) = i ->
  wp (free_slot i p) f (killed_too_late m (processes f) t) (fun _ f' _ => handled m f t f').
Proof.
  intros Hs Hi Hp Ht Ho Hl He Hid.
  destruct (slots_lookup _ _ _ _ _ Hs Hp) as (a & Ha & Hok). rewrite Ht in Ha. injection Ha as <-.
  pose proof (co_release _ _ _ Hok e ltac:(by left)) as Hrel.
  unfold free_slot. apply wp_bind, wp_forked_flush.
  - intros _. apply wp_modify. unfold handled, granted, spec_handle, is_dead, at_slot, release.
    rewrite He, Hid, Ht, Hl.
    eexists _, [], _. split; [cbn; rewrite app_nil_r; reflexivity|].
    destruct Hrel as [-> | ->]; (split; [done|]; split; [|done]); cbn.
    all: eapply slots_replace; [done..|apply free_slot_ok|].
    all: right; left; split; [done|]; by eapply reaped_not_zombie.
  - intros [Hk Hd]. destruct Hrel as [-> | ->]; [by destruct Hd; apply (co_clean _ _ _ Hok); left|].
    exists p, c. rewrite Hid. split_and!; done.
Qed.

Lemma handled_release i p c f t m e :
  slots_ok (zombies f) (processes f) t -> 0 <= i -> processes f !! Z.to_nat i = Some p ->
  t !! Z.to_nat i = Some (Some c) -> own c = Asked e -> living c <> Reaped ->
  get_event (scalar m) = e -> get_id (scalar m) = i ->
  handled m f t (upd f (<[Z.to_nat i := add_event e p]> (processes f))).
Proof.
  intros Hs Hi Hp Ht Ho Hl He Hid.
  destruct (slots_lookup _ _ _ _ _ Hs Hp) as (a & Ha & Hok). rewrite Ht in Ha. injection Ha as <-.
  pose proof (co_release _ _ _ Hok e ltac:(by left)) as Hrel.
  unfold handled, granted, spec_handle, is_dead, at_slot, release. rewrite He, Hid, Ht.
  eexists _, [], _. split; [cbn; rewrite app_nil_r; reflexivity|].
  assert (match living c with Reaped => None | _ => Some (with_own (Released e) c) end = Some (with_own (Released e) c))
    as -> by (by destruct (living c)).
  destruct Hrel as [-> | ->]; (split; [done|]; split; [|done]); cbn.
  all: eapply slots_replace; [done..| |by left].
  all: by apply released_ok.
Qed.

Lemma wp_release m f t c i : let e := get_event (scalar m) in
  slots_ok (zombies f) (processes f) t -> is_release e ->
  0 <= get_id (scalar m) < Z.of_nat (length t) -> i = Z.to_nat (get_id (scalar m)) ->
  t !! i = Some (Some c) -> own c = Asked e ->
  wp (if e =? CLEAN then on_clean (get_id (scalar m)) else on_kill (get_id (scalar m))) f
    (killed_too_late m (processes f) t) (fun _ f' _ => handled m f t f').
Proof.
  intros e Hs Hrel Hid -> Ht Ho. set (i := get_id (scalar m)) in *.
  destruct (slots_lookup_t _ _ _ _ _ Hs Ht) as (p & Hp & Hok). destruct (child_bits _ _ _ Hok) as (Hdead & _ & _).
  pose proof (co_pid _ _ _ Hok). pose proof (slots_length _ _ _ Hs).
  assert (((0 <=? i) && (i <? nb_processes f)) = true) as Hr.
  { unfold nb_processes. apply andb_true_iff. split; [apply Z.leb_le|apply Z.ltb_lt]; lia. }
  assert ((0 <? pid p) = true) as Hpos by (apply Z.ltb_lt; lia).
  destruct Hrel as [He | He]; rewrite He in *; cbn [Z.eqb CLEAN KILL Pos.eqb].
  - unfold on_clean. apply wp_bind, wp_get. rewrite Hr. apply wp_bind, wp_ret, wp_bind.
    eapply get_process_at; [done|lia|]. rewrite Hpos. apply wp_bind, wp_ret.
    rewrite Hdead. case_bool_decide as Hl.
    + eapply wp_mono; [eapply (wp_free_slot i p c f t m CLEAN); done || lia|done|done].
    + apply wp_modify. eapply (handled_release i p c f t m CLEAN); done || lia.
  - unfold on_kill. apply wp_bind, wp_get. rewrite Hr. apply wp_bind, wp_ret, wp_bind.
    eapply get_process_at; [done|lia|]. rewrite Hpos. apply wp_when; [intros _|done].
    rewrite Hdead. case_bool_decide as Hl.
    + eapply wp_mono; [eapply (wp_free_slot i p c f t m KILL); done || lia|done|done].
    + apply wp_bind, wp_modify, wp_emit. eapply (handled_release i p c f t m KILL); done || lia.
Qed.

(** ** One control message keeps the relation *)

Lemma spec_handle_length m reply t : length (spec_handle m reply t) = length t.
Proof.
  unfold spec_handle, at_slot. repeat case_match; rewrite ?length_insert, ?length_fmap; done.
Qed.

Lemma releases_other i m ms : release_of i m = None -> releases i (m :: ms) = releases i ms.
Proof. unfold releases. cbn. by intros ->. Qed.

Lemma creates_cons m ms : creates (m :: ms) = ((if is_create m then 1 else 0) + creates ms)%nat.
Proof. unfold creates. cbn. destruct (is_create m) eqn:He; by rewrite ?filter_cons_True, ?filter_cons_False by congruence. Qed.

(** What a message leaves of the other fields of [related]: the slots keep
    their releases and their replies. *)
Lemma related_next f f' t t' w g m ms reply zs' l' :
  related f t w g -> ipc_ctrl f = m :: ms ->
  f' = mk_factory (pid_parent f) ms (ipc_evt f ++ reply) l' (g_factory f) (stopping f) zs' ->
  slots_ok zs' l' t' -> length t' = length t ->
  (zs' <> [] -> is_dead m = false /\ zombies f <> []) ->
  length reply = (if is_create m then 1 else 0)%nat ->
  (forall i a', t' !! i = Some a' -> releases i ms = asked a') ->
  (forall i c, t' !! i = Some (Some c) -> own c = Replying -> ipc_evt f ++ reply = [mk_msg (Z.of_nat i) 0 []]) ->
  (forall x, x ∈ ipc_evt f ++ reply -> x = mk_msg (-1) 0 [] \/
    exists i c, x = mk_msg (Z.of_nat i) 0 [] /\ t' !! i = Some (Some c) /\ own c = Replying) ->
  related f' t' w g.
Proof.
  intros [Hs Hc Ha Hd Hw Hr He Hf] Hm -> Hs' Hlen Hz Hrep Ha' Hr' He'. rewrite Hm in *.
  split; cbn; try done.
  - rewrite Hlen. by inversion Hc.
  - intros Hne. destruct (Hz Hne) as [Hnd Hne']. specialize (Hd Hne'). cbn in Hd. by rewrite Hnd in Hd.
  - rewrite creates_cons in Hw. rewrite length_app, Hrep. fold (creates ms). destruct (is_create m), w; lia.
Qed.

Lemma release_event i m : is_create m || is_dead m = true -> release_of i m = None.
Proof.
  unfold is_create, is_dead, release_of. intros [He|He]%orb_true_iff; bool_facts; by rewrite He.
Qed.

Lemma create_next f f' t w g m ms : related f t w g -> ipc_ctrl f = m :: ms -> is_create m = true ->
  handled m (mk_factory (pid_parent f) ms (ipc_evt f) (processes f) (g_factory f) (stopping f) (zombies f)) t f' ->
  exists reply, ipc_evt f' = ipc_evt f ++ reply /\ granted m reply t /\ related f' (spec_handle m reply t) w g.
Proof.
  intros Hrel Hm Hcr (l' & reply & zs' & -> & Hg & Hs' & Hz). exists reply. split; [done|]. split; [done|].
  pose proof (re_wait _ _ _ _ Hrel) as Hw. rewrite Hm, creates_cons, Hcr in Hw.
  assert (ipc_evt f = []) as Hevt by (destruct (ipc_evt f); [done|cbn in Hw; destruct w; lia]).
  assert (is_dead m = false) as Hnd. { unfold is_create, is_dead in *. bool_facts. by rewrite Hcr. }
  assert (forall i a, t !! i = Some a -> releases i ms = asked a) as Ha.
  { intros i a Hi. rewrite <-(re_asked _ _ _ _ Hrel i a Hi), Hm. symmetry. apply releases_other, release_event. by rewrite Hcr. }
  assert (forall i c, t !! i = Some (Some c) -> own c <> Replying) as Hno.
  { intros i c Hi Ho. pose proof (re_reply _ _ _ _ Hrel i c Hi Ho) as He. by rewrite Hevt in He. }
  rewrite Hnd in Hz. subst zs'. unfold granted in Hg. unfold is_create in Hcr. rewrite Hcr in Hg.
  eapply related_next; [done|done|reflexivity|done|apply spec_handle_length|done|..].
  all: unfold is_create; rewrite ?Hcr, ?Hevt; unfold spec_handle; rewrite ?Hcr; cbn [app].
  - by destruct Hg as [(i & -> & _)|[-> _]].
  - destruct Hg as [(j & -> & Hj)|[-> _]]; cbn; [|done].
    replace (0 <=? Z.of_nat j) with true by (symmetry; apply Z.leb_le; lia). rewrite Nat2Z.id.
    intros i a. destruct (decide (i = j)) as [->|Hne]; [|rewrite list_lookup_insert_ne by done; apply Ha].
    rewrite list_lookup_insert_eq by (by eapply lookup_lt_Some). intros [= <-]. cbn. by rewrite (Ha j None).
  - destruct Hg as [(j & -> & Hj)|[-> _]]; cbn; [|intros i c Hi Ho; by destruct (Hno i c)].
    replace (0 <=? Z.of_nat j) with true by (symmetry; apply Z.leb_le; lia). rewrite Nat2Z.id.
    intros i c. destruct (decide (i = j)) as [->|Hne]; [done|].
    rewrite list_lookup_insert_ne by done. intros Hi Ho. by destruct (Hno i c).
  - destruct Hg as [(j & -> & Hj)|[-> _]]; cbn; intros x Hx; apply list_elem_of_singleton in Hx as ->; [|by left].
    replace (0 <=? Z.of_nat j) with true by (symmetry; apply Z.leb_le; lia). rewrite Nat2Z.id.
    right. eexists j, _. split; [done|]. split; [apply list_lookup_insert_eq; by eapply lookup_lt_Some|done].
Qed.

(** The messages that cause no reply. *)
Lemma quiet_next f f' t w g m ms : related f t w g -> ipc_ctrl f = m :: ms -> is_create m = false ->
  handled m (mk_factory (pid_parent f) ms (ipc_evt f) (processes f) (g_factory f) (stopping f) (zombies f)) t f' ->
  (forall i a a', t !! i = Some a -> spec_handle m [] t !! i = Some a' ->
    asked a = match release_of i m with Some e => e :: asked a' | None => asked a' end /\
    (forall c, a = Some c -> own c = Replying -> exists c', a' = Some c' /\ own c' = Replying) /\
    (forall c', a' = Some c' -> own c' = Replying -> exists c, a = Some c /\ own c = Replying)) ->
  exists reply, ipc_evt f' = ipc_evt f ++ reply /\ granted m reply t /\ related f' (spec_handle m reply t) w g.
Proof.
  intros Hrel Hm Hcr (l' & reply & zs' & -> & Hg & Hs' & Hz) Hkeep. exists reply. split; [done|]. split; [done|].
  unfold granted in Hg. unfold is_create in Hcr. rewrite Hcr in Hg. subst reply.
  assert (forall i a', spec_handle m [] t !! i = Some a' -> exists a, t !! i = Some a) as Hold.
  { intros i a' Hi. apply lookup_lt_is_Some. rewrite <-(spec_handle_length m []). by eapply lookup_lt_Some. }
  eapply related_next; [done|done|reflexivity|done|apply spec_handle_length|..].
  - rewrite Hz. cbn. by destruct (is_dead m).
  - unfold is_create. by rewrite Hcr.
  - intros i a' Hi. destruct (Hold i a' Hi) as [a Ha]. destruct (Hkeep i a a' Ha Hi) as (Hasked & _).
    pose proof (re_asked _ _ _ _ Hrel i a Ha) as Hr. rewrite Hm, Hasked in Hr. unfold releases in *. cbn in Hr.
    destruct (release_of i m); [|done]. by injection Hr.
  - intros i c' Hi Ho. destruct (Hold i _ Hi) as [a Ha]. destruct (Hkeep i a _ Ha Hi) as (_ & _ & Hb).
    destruct (Hb c' eq_refl Ho) as (c & -> & Ho'). rewrite app_nil_r. by eapply (re_reply _ _ _ _ Hrel).
  - intros x. rewrite app_nil_r. intros Hx. destruct (re_evt _ _ _ _ Hrel x Hx) as [?|(i & c & -> & Hi & Ho)]; [by left|].
    right. assert (is_Some (spec_handle m [] t !! i)) as [a' Ha'].
    { apply lookup_lt_is_Some. rewrite spec_handle_length. by eapply lookup_lt_Some. }
    destruct (Hkeep i _ a' Hi Ha') as (_ & Hf & _). destruct (Hf c eq_refl Ho) as (c' & -> & Ho'). eauto.
Qed.

Lemma dead_next f f' t w g m ms : related f t w g -> ipc_ctrl f = m :: ms -> get_event (scalar m) = DEAD ->
  handled m (mk_factory (pid_parent f) ms (ipc_evt f) (processes f) (g_factory f) (stopping f) (zombies f)) t f' ->
  exists reply, ipc_evt f' = ipc_evt f ++ reply /\ granted m reply t /\ related f' (spec_handle m reply t) w g.
Proof.
  intros Hrel Hm He Hh. eapply quiet_next; [done|done|unfold is_create; by rewrite He|done|].
  intros i a a' Ha Ha'. rewrite release_event by (unfold is_dead; rewrite He; by rewrite orb_true_r).
  unfold spec_handle in Ha'. rewrite He in Ha'. cbn in Ha'. rewrite list_lookup_fmap, Ha in Ha'. injection Ha' as <-.
  destruct a as [[[] [] ?]|]; cbn; (split; [done|]); split; intros c Hc Ho; simplify_eq; cbn in *; try done; eauto.
Qed.

(** The slot a release is for. *)
Lemma release_target f t w g m ms : related f t w g -> ipc_ctrl f = m :: ms -> is_release (get_event (scalar m)) ->
  0 <= get_id (scalar m) < Z.of_nat (length t) ->
  exists c, t !! Z.to_nat (get_id (scalar m)) = Some (Some c) /\ own c = Asked (get_event (scalar m)).
Proof.
  intros Hrel Hm He Hid. destruct (lookup_lt_is_Some_2 t (Z.to_nat (get_id (scalar m))) ltac:(lia)) as [a Ha].
  pose proof (re_asked _ _ _ _ Hrel _ _ Ha) as Hr. rewrite Hm in Hr. unfold releases in Hr. cbn in Hr.
  unfold release_of in Hr at 1. rewrite Z2Nat.id, Z.eqb_refl, andb_true_r in Hr by lia.
  assert (((get_event (scalar m) =? CLEAN) || (get_event (scalar m) =? KILL)) = true) as Hb
    by (destruct He as [-> | ->]; done).
  rewrite Hb in Hr. destruct a as [c|]; [|done]. cbn in Hr. destruct (own c) eqn:Ho; try done.
  exists c. split; [done|]. rewrite Ho. injection Hr as -> _. done.
Qed.

Lemma release_next f f' t w g m ms : related f t w g -> ipc_ctrl f = m :: ms -> is_release (get_event (scalar m)) ->
  0 <= get_id (scalar m) < Z.of_nat (length t) ->
  handled m (mk_factory (pid_parent f) ms (ipc_evt f) (processes f) (g_factory f) (stopping f) (zombies f)) t f' ->
  exists reply, ipc_evt f' = ipc_evt f ++ reply /\ granted m reply t /\ related f' (spec_handle m reply t) w g.
Proof.
  intros Hrel Hm He Hid Hh. destruct (release_target _ _ _ _ _ _ Hrel Hm He Hid) as (c0 & H0 & Ho0).
  eapply quiet_next; [done|done|unfold is_create; by destruct He as [-> | ->]|done|].
  intros i a a' Ha Ha'. unfold spec_handle, at_slot in Ha'. rewrite H0 in Ha'.
  assert (<[Z.to_nat (get_id (scalar m)) := release (get_event (scalar m)) c0]> t !! i = Some a') as Hi
    by (destruct He as [He | He]; rewrite He in *; done). clear Ha'.
  assert (release_of i m = if get_id (scalar m) =? Z.of_nat i then Some (get_event (scalar m)) else None) as ->.
  { unfold release_of. by destruct He as [-> | ->]. }
  destruct (Z.eqb_spec (get_id (scalar m)) (Z.of_nat i)) as [Hx|Hx].
  - assert (Z.to_nat (get_id (scalar m)) = i) as Hi' by lia. rewrite Hi' in *.
    rewrite list_lookup_insert_eq in Hi by (by eapply lookup_lt_Some). injection Hi as <-.
    rewrite H0 in Ha. injection Ha as <-. cbn. rewrite Ho0. unfold release.
    destruct (living c0); cbn; (split; [done|]); split; intros c Hc Ho; simplify_eq; cbn in *; congruence.
  - rewrite list_lookup_insert_ne in Hi by lia. rewrite Ha in Hi. injection Hi as <-.
    split; [done|]. split; intros c -> Ho; eauto.
Qed.

Lemma handle_ctrl_cases nb m f E Q : ctrl_msg nb m ->
  (is_create m = true -> wp (on_create fork_pid m) f E Q) ->
  (get_event (scalar m) = DEAD -> wp on_dead f E Q) ->
  (is_release (get_event (scalar m)) -> 0 <= get_id (scalar m) < Z.of_nat nb ->
    wp (if get_event (scalar m) =? CLEAN then on_clean (get_id (scalar m)) else on_kill (get_id (scalar m))) f E Q) ->
  wp (handle_ctrl fork_pid m) f E Q.
Proof.
  intros Hm Hc Hd Hr. unfold handle_ctrl, is_create in *. destruct Hm as [He|[Hn [He|[[He|He] Hid]]]]; rewrite He in *; cbn.
  - by apply Hc.
  - rewrite Hn. unfold bind, ASSERT, ret, wp in *. cbn. specialize (Hd eq_refl). by destruct (on_dead f).
  - rewrite Hn. unfold bind, ASSERT, ret, wp in *. cbn. specialize (Hr (or_introl eq_refl) Hid). cbn in Hr.
    by destruct (on_clean _ f).
  - rewrite Hn. unfold bind, ASSERT, ret, wp in *. cbn. specialize (Hr (or_intror eq_refl) Hid). cbn in Hr.
    by destruct (on_kill _ f).
Qed.

(** One turn of the factory. *)
Lemma wp_forked_turn f t w g m ms : fork_ok -> small t -> related f t w g -> ipc_ctrl f = m :: ms ->
  wp (forked_turn fork_pid FactIn) f (fatal m (processes f) t) (fun running f' _ =>
    running = true /\ exists reply, ipc_evt f' = ipc_evt f ++ reply /\ granted m reply t /\
    related f' (spec_handle m reply t) w g).
Proof.
  intros Hfork Hsmall Hrel Hm. unfold forked_turn. apply wp_bind, wp_get. rewrite Hm.
  apply wp_bind, wp_modify, wp_bind. pose proof (re_slots _ _ _ _ Hrel) as Hs.
  set (f1 := mk_factory _ _ _ _ _ _ _).
  assert (forall f' : factory, stopping f' = false -> forall (P : factory -> Prop), P f' ->
    wp (O := fact_out) (let* f := get in ret (negb (stopping f && (running_process f =? 0)))) f' 
      (fatal m (processes f) t) (fun r f'' _ => r = true /\ P f'')) as Hend.
  { intros f' Hst P HP. apply wp_bind, wp_get, wp_ret. by rewrite Hst. }
  assert (ctrl_msg (length t) m) as Hmsg.
  { pose proof (re_ctrl _ _ _ _ Hrel) as Hc. rewrite Hm in Hc. by inversion Hc. }
  apply (handle_ctrl_cases _ _ _ _ _ Hmsg).
  - intros Hc. eapply wp_mono; [apply (wp_on_create m f1 t); [done|done|unfold is_create in Hc; by bool_facts|done]|done|].
    intros [] f' o Hh. destruct (create_next _ _ _ _ _ _ _ Hrel Hm Hc Hh) as (reply & H1 & H2 & H3). cbn.
    apply Hend; [apply H3|]. eauto.
  - intros Hd. eapply wp_mono; [by apply (wp_on_dead m f1 t)|intros r Hr; by right|].
    intros [] f' o Hh. destruct (dead_next _ _ _ _ _ _ _ Hrel Hm Hd Hh) as (reply & H1 & H2 & H3). cbn.
    apply Hend; [apply H3|]. eauto.
  - intros He Hid. destruct (release_target _ _ _ _ _ _ Hrel Hm He Hid) as (c & Hc & Ho).
    eapply wp_mono; [by eapply (wp_release m f1 t c)|intros r Hr; by left|].
    intros [] f' o Hh. destruct (release_next _ _ _ _ _ _ _ Hrel Hm He Hid Hh) as (reply & H1 & H2 & H3). cbn.
    apply Hend; [apply H3|]. eauto.
Qed.

End slots.
