(* ===== verification/FactoryProps.v ===== *)
(** * Properties of the process factory

    Clients that follow the documentation get a table of children; what the
    plugins of the repository do instead. *)

From S2P Require Import Prelude Ipc Factory FactoryTheory.
From Stdlib Require Import ZArith Lia.
From stdpp Require Import base tactics list strings option.

Open Scope Z_scope.
Open Scope crm_scope.

(** ** The system: CRM, the factory and the children *)

Record fact_sys : Type := mk_sys {
  fac : factory;
  tab : table;
  waiting : bool;
  sigchld : bool;
}.

Definition sys_init (parent nb : Z) : fact_sys :=
  mk_sys (crm_process_factory_init parent nb) (replicate (Z.to_nat nb) None) false false.

(** Messages written and read by a child, and its death. *)
Definition child_sends (i : nat) (m : crm_ipc_msg) (f : factory) : factory :=
  upd f (alter (fun p => mk_process (pid p) (events p) (ipc_p2c p) (ipc_c2p p ++ [received m])) i (processes f)).
Definition child_gets (i : nat) (f : factory) : factory :=
  upd f (alter (fun p => mk_process (pid p) (events p) (tail (ipc_p2c p)) (ipc_c2p p)) i (processes f)).
Definition child_dies (z : Z) (signaled : bool) (f : factory) : factory :=
  mk_factory (pid_parent f) (ipc_ctrl f) (ipc_evt f) (processes f) (g_factory f) (stopping f) (zombies f ++ [(z, signaled)]).

Section system.
Context (fork_pid : list Z -> Z).

(** CRM holds at most one request of creation at a time ([create] keeps the
    lock), uses a child only between its creation and its release, and
    releases it once: by [kill] at any time, by [clean] when the child has
    sent its last message and everything has been read.  A child may end or die
    of a signal at any time.  The steps that end the factory, an abort of
    [forked_turn] among them, are not steps of the system. *)
Inductive fact_step : fact_sys -> fact_sys -> Prop :=
| st_create f t g name arg f' o :
    create_send name arg f = Ok tt f' o -> fact_step (mk_sys f t false g) (mk_sys f' t true g)
| st_created f t g idx f' o :
    create_reply f = Ok idx f' o ->
    fact_step (mk_sys f t true g)
      (mk_sys f' (if 0 <=? idx then at_slot (Z.to_nat idx) (fun c => Some (with_own Held c)) t else t) false g)
| st_clean f t w g i c p f' o :
    t !! i = Some (Some c) -> own c = Held -> finished c = true -> processes f !! i = Some p -> drained p ->
    clean (Z.of_nat i) f = Ok tt f' o ->
    fact_step (mk_sys f t w g) (mk_sys f' (<[i := Some (with_own (Asked CLEAN) c)]> t) w g)
| st_kill f t w g i c f' o :
    t !! i = Some (Some c) -> own c = Held -> kill_process (Z.of_nat i) f = Ok tt f' o ->
    fact_step (mk_sys f t w g) (mk_sys f' (<[i := Some (with_own (Asked KILL) c)]> t) w g)
| st_get f t w g i c m f' o :
    t !! i = Some (Some c) -> own c = Held -> get_msg (Z.of_nat i) f = Ok m f' o ->
    fact_step (mk_sys f t w g) (mk_sys f' t w g)
| st_send f t w g i c m f' o :
    t !! i = Some (Some c) -> own c = Held -> send_msg (Z.of_nat i) m f = Ok tt f' o ->
    fact_step (mk_sys f t w g) (mk_sys f' t w g)
| st_child_send f t w g i c m last :
    t !! i = Some (Some c) -> living c = Alive -> finished c = false ->
    fact_step (mk_sys f t w g) (mk_sys (child_sends i m f) (<[i := Some (mk_child (own c) Alive last)]> t) w g)
| st_child_get f t w g i c :
    t !! i = Some (Some c) -> living c = Alive -> fact_step (mk_sys f t w g) (mk_sys (child_gets i f) t w g)
| st_child_dies f t w g i c p signaled :
    t !! i = Some (Some c) -> living c = Alive -> processes f !! i = Some p ->
    fact_step (mk_sys f t w g)
      (mk_sys (child_dies (pid p) signaled f) (<[i := Some (mk_child (own c) (Zombie signaled) true)]> t) w true)
| st_sigchld f t w f' o :
    sig_handler SIGCHLD f = Ok tt f' o -> fact_step (mk_sys f t w true) (mk_sys f' t w false)
| st_turn f t w g m ms running f' o reply :
    ipc_ctrl f = m :: ms -> forked_turn fork_pid FactIn f = Ok running f' o -> ipc_evt f' = ipc_evt f ++ reply ->
    fact_step (mk_sys f t w g) (mk_sys f' (spec_handle m reply t) w g).

Inductive fact_run : fact_sys -> fact_sys -> Prop :=
| fact_refl st : fact_run st st
| fact_more st st' st'' : fact_run st st' -> fact_step st' st'' -> fact_run st st''.

Definition sys_ok (st : fact_sys) : Prop := related (fac st) (tab st) (waiting st) (sigchld st).

Lemma sys_init_ok parent nb : sys_ok (sys_init parent nb).
Proof.
  split; cbn; try done.
  - split; try done.
    + apply Forall2_replicate. done.
    + intros i j p q Hi _ Hp _. apply lookup_replicate in Hi as [-> _]. cbn in Hp. lia.
    + constructor.
    + by intros z Hz%elem_of_nil.
  - intros i a Ha. by apply lookup_replicate in Ha as [-> _].
  - intros i c Hc. by apply lookup_replicate in Hc as [? _].
  - by intros m Hm%elem_of_nil.
Qed.

(** ** Each step keeps the relation *)

(** A slot changes and the queues do not. *)
Lemma related_slot f t w g i c c' l' :
  related f t w g -> t !! i = Some (Some c) ->
  slots_ok (zombies f) l' (<[i := Some c']> t) -> own c' = own c ->
  related (upd f l') (<[i := Some c']> t) w g.
Proof.
  intros [Hs Hc Ha Hd Hw Hr He Hf] Hi Hs' Ho. assert (i < length t)%nat by (by eapply lookup_lt_Some).
  split; cbn; try done.
  - by rewrite length_insert.
  - intros j a Hj. destruct (decide (j = i)) as [->|Hne].
    + rewrite list_lookup_insert_eq in Hj by done. injection Hj as <-. cbn. rewrite Ho. by apply (Ha i (Some c)).
    + rewrite list_lookup_insert_ne in Hj by done. by apply Ha.
  - intros j x Hj Hx. destruct (decide (j = i)) as [->|Hne].
    + rewrite list_lookup_insert_eq in Hj by done. injection Hj as <-. eapply Hr; [done|]. by rewrite <-Ho.
    + rewrite list_lookup_insert_ne in Hj by done. by eapply Hr.
  - intros m Hm. destruct (He m Hm) as [?|(j & x & -> & Hj & Hx)]; [by left|]. right.
    destruct (decide (j = i)) as [->|Hne].
    + rewrite Hi in Hj. injection Hj as <-. exists i, c'. rewrite list_lookup_insert_eq by done. by rewrite Ho.
    + exists j, x. by rewrite list_lookup_insert_ne.
Qed.

(** The pipes of a slot change. *)
Definition same_child (p p' : crm_process) : Prop := pid p' = pid p /\ events p' = events p.

Lemma related_pipes f t w g i c c' p p' :
  related f t w g -> t !! i = Some (Some c) -> processes f !! i = Some p -> same_child p p' ->
  own c' = own c -> living c' = living c ->
  (own c = Asked CLEAN \/ own c = Released CLEAN -> finished c = true -> drained p ->
    finished c' = true /\ drained p') ->
  related (upd f (<[i := p']> (processes f))) (<[i := Some c']> t) w g.
Proof.
  intros Hr Hi Hp [Hpid Hev] Ho Hl Hd. pose proof (re_slots _ _ _ _ Hr) as Hs.
  destruct (slots_lookup _ _ _ _ _ Hs Hp) as (a & Ha & Hok).
  rewrite Hi in Ha. injection Ha as <-. destruct Hok as [H1 H2 H3 H4 H5 H6].
  eapply related_slot; [done|done| |done]. eapply slots_replace; [done..| |by left].
  split; rewrite ?Hpid, ?Hev, ?Ho, ?Hl; try done. intros Hc. destruct (H6 Hc). by apply Hd.
Qed.

(** A message is queued for the factory. *)
Definition queue (m : crm_ipc_msg) (f : factory) : factory :=
  mk_factory (pid_parent f) (ipc_ctrl f ++ [m]) (ipc_evt f) (processes f) (g_factory f) (stopping f) (zombies f).

Lemma creates_app l1 l2 : creates (l1 ++ l2) = (creates l1 + creates l2)%nat.
Proof. unfold creates. by rewrite list.filter_app, length_app. Qed.

Lemma releases_app i l1 l2 : releases i (l1 ++ l2) = releases i l1 ++ releases i l2.
Proof. unfold releases. by rewrite omap_app. Qed.

Lemma related_queue f t w w' g g' m :
  related f t w g -> ctrl_msg (length t) m -> is_create m || is_dead m = true ->
  (is_create m = true -> w = false /\ w' = true) -> (is_create m = false -> w' = w) ->
  (g' = g \/ is_dead m = true) ->
  related (queue m f) t w' g'.
Proof.
  intros [Hs Hc Ha Hd Hw Hr He Hf] Hm Hnr Hcr Hncr Hg. split; cbn; try done.
  - apply Forall_app. by split; [|constructor].
  - intros i a Hi. rewrite releases_app. unfold releases at 2. cbn. rewrite release_event by done.
    rewrite app_nil_r. by apply Ha.
  - intros Hz. rewrite existsb_app. destruct (Hd Hz) as [-> | ->]; [by left|].
    destruct Hg as [->|Hdm]; [by right|]. left. cbn. by rewrite Hdm, orb_true_r.
  - rewrite creates_app, creates_cons. change (creates []) with 0%nat. destruct (is_create m) eqn:Hm'.
    + destruct (Hcr eq_refl) as [-> ->]. cbn in *. lia.
    + rewrite (Hncr eq_refl). cbn in *. destruct w; lia.
Qed.

Lemma related_ask f t w g i c e m :
  related f t w g -> t !! i = Some (Some c) -> own c = Held -> is_release e ->
  get_event (scalar m) = e -> get_id (scalar m) = Z.of_nat i -> no_data m = true ->
  (e = CLEAN -> finished c = true /\ forall p, processes f !! i = Some p -> drained p) ->
  related (queue m f) (<[i := Some (with_own (Asked e) c)]> t) w g.
Proof.
  intros [Hs Hc Ha Hd Hw Hr He Hf] Hi Ho Hrel Hev Hid Hn Hcl.
  assert (i < length t)%nat by (by eapply lookup_lt_Some).
  assert (is_create m = false /\ is_dead m = false) as [Hnc Hnd].
  { unfold is_create, is_dead. rewrite Hev. by destruct Hrel as [-> | ->]. }
  split; cbn; try done.
  - destruct (slots_lookup_t _ _ _ _ _ Hs Hi) as (p & Hp & [H1 H2 H3 H4 H5 H6]).
    rewrite <-(list_insert_id (processes f) i p Hp). eapply slots_replace; [done..| |by left].
    split; cbn; try done.
    + by rewrite H2, Ho.
    + intros e' [[= <-]|?]; done.
    + intros [[= ->]|?]; [|done]. destruct (Hcl eq_refl) as [? Hp']. split; [done|]. by apply Hp'.
  - rewrite length_insert. apply Forall_app. split; [done|]. constructor; [|done]. right. split; [done|]. right.
    rewrite Hev, Hid. split; [done|lia].
  - intros j a Hj. rewrite releases_app. unfold releases at 2. cbn. unfold release_of. rewrite Hev, Hid.
    replace ((e =? CLEAN) || (e =? KILL)) with true by (by destruct Hrel as [-> | ->]). cbn.
    destruct (decide (j = i)) as [->|Hne].
    + rewrite list_lookup_insert_eq in Hj by done. injection Hj as <-. rewrite Z.eqb_refl, (Ha i _ Hi). cbn. by rewrite Ho.
    + rewrite list_lookup_insert_ne in Hj by done. destruct (Z.eqb_spec (Z.of_nat i) (Z.of_nat j)); [lia|].
      rewrite app_nil_r. by apply Ha.
  - intros Hz. rewrite existsb_app. destruct (Hd Hz) as [-> | ->]; [by left|by right].
  - rewrite creates_app, creates_cons, Hnc. change (creates []) with 0%nat. cbn in *. destruct w; lia.
  - intros j x Hj Hx. destruct (decide (j = i)) as [->|Hne].
    + rewrite list_lookup_insert_eq in Hj by done. by injection Hj as <-.
    + rewrite list_lookup_insert_ne in Hj by done. by eapply Hr.
  - intros x Hx. destruct (He x Hx) as [?|(j & y & -> & Hj & Hy)]; [by left|]. right. exists j, y.
    rewrite list_lookup_insert_ne; [done|]. intros <-. rewrite Hi in Hj. injection Hj as <-. congruence.
Qed.

(** ** The steps *)

Lemma send_ctrl_Ok m f u f' o : send_ctrl m f = Ok u f' o -> f' = queue (received m) f.
Proof. by injection 1 as _ <- _. Qed.

Lemma assert_then_Ok {A} x b (k : M factory fact_out A) f a f' o :
  (ASSERT x b ;; k) f = Ok a f' o -> exists o', k f = Ok a f' o'.
Proof. intros (u & s' & o1 & o2 & (_ & -> & _)%ASSERT_Ok & Hk & _)%bind_Ok. eauto. Qed.

Lemma create_send_Ok name arg f f' o : create_send name arg f = Ok tt f' o ->
  exists m, f' = queue m f /\ get_event (scalar m) = CREATE.
Proof.
  intros [o1 [o2 H%send_ctrl_Ok]%assert_then_Ok]%assert_then_Ok. eexists. split; [exact H|done].
Qed.

Lemma valid_then_Ok {A} i (k : M factory fact_out A) f a f' o :
  (valid_idx i ;; k) f = Ok a f' o -> exists o', k f = Ok a f' o'.
Proof.
  intros (u & s' & o1 & o2 & Hv & Hk & _)%bind_Ok. unfold valid_idx in Hv.
  rewrite (bind_pass get _ f f f) in Hv by done. apply ASSERT_Ok in Hv as (_ & -> & _). eauto.
Qed.

Lemma release_msg e i : is_release e -> (Z.of_nat i < 2 ^ 23) ->
  let m := received (mk_msg (gen_scalar e (Z.of_nat i)) 0 []) in
  get_event (scalar m) = e /\ get_id (scalar m) = Z.of_nat i /\ no_data m = true.
Proof.
  intros He Hi. cbn. destruct (scalar_read e (Z.of_nat i)); [by destruct He as [-> | ->]|lia|]. done.
Qed.

Lemma get_process_Ok i f p f' o : get_process (Z.of_nat i) f = Ok p f' o ->
  processes f !! i = Some p /\ f' = f.
Proof.
  unfold get_process. rewrite (bind_pass get _ f f f) by done.
  replace (0 <=? Z.of_nat i) with true by (symmetry; apply Z.leb_le; lia). rewrite Nat2Z.id.
  destruct (processes f !! i); [|done]. by injection 1 as <- <- _.
Qed.

(** The pipes after [get_msg] and [send_msg]. *)
Lemma get_msg_Ok i f m f' o : get_msg (Z.of_nat i) f = Ok m f' o ->
  exists p p', processes f !! i = Some p /\ same_child p p' /\ f' = upd f (<[i := p']> (processes f)).
Proof.
  intros [o1 (p & f1 & o2 & o3 & [Hp ->]%get_process_Ok & Hk & _)%bind_Ok]%valid_then_Ok.
  destruct (ipc_c2p p) as [|x l]; [done|]. rewrite Nat2Z.id in Hk.
  apply bind_Ok in Hk as (u & f2 & o4 & o5 & Hs & Hk & _). injection Hs as _ <- _. injection Hk as _ <- _.
  exists p. eexists. split; [done|]. split; [|reflexivity]. done.
Qed.

Lemma send_msg_Ok i m f f' o : send_msg (Z.of_nat i) m f = Ok tt f' o ->
  exists p p', processes f !! i = Some p /\ same_child p p' /\ f' = upd f (<[i := p']> (processes f)).
Proof.
  intros [o1 (p & f1 & o2 & o3 & [Hp ->]%get_process_Ok & Hk & _)%bind_Ok]%valid_then_Ok.
  rewrite Nat2Z.id in Hk. injection Hk as <- _. exists p. eexists. split; [done|]. split; [|reflexivity]. done.
Qed.

Lemma held_not_clean c : own c = Held -> own c = Asked CLEAN \/ own c = Released CLEAN -> False.
Proof. intros -> [?|?]; done. Qed.

Lemma alter_insert f (h : crm_process -> crm_process) i p : processes f !! i = Some p ->
  alter h i (processes f) = <[i := h p]> (processes f).
Proof.
  intros Hp. apply list_eq. intros j. destruct (decide (j = i)) as [->|Hne].
  - rewrite list_lookup_alter_eq, Hp, list_lookup_insert_eq by (by eapply lookup_lt_Some). done.
  - by rewrite list_lookup_alter_ne, list_lookup_insert_ne.
Qed.

(** The reply to [create] is read. *)
Lemma created_ok f t g m ms : related f t true g -> ipc_evt f = m :: ms ->
  let f' := mk_factory (pid_parent f) (ipc_ctrl f) ms (processes f) (g_factory f) (stopping f) (zombies f) in
  related f' (if 0 <=? scalar m then at_slot (Z.to_nat (scalar m)) (fun c => Some (with_own Held c)) t else t) false g.
Proof.
  intros Hrel Hm f'. pose proof Hrel as [Hs Hc Ha Hd Hw Hr He Hf]. rewrite Hm in Hw. cbn in Hw.
  assert (ms = []) as -> by (destruct ms; [done|cbn in Hw; lia]).
  assert (creates (ipc_ctrl f) = 0%nat) as Hcr by lia.
  destruct (He m) as [-> | (i & c & -> & Hi & Ho)]; [rewrite Hm; by left| |].
  - split; cbn; try done; [lia| |by intros ? ?%elem_of_nil].
    intros j x Hj Hx. pose proof (Hr j x Hj Hx) as Hr'. rewrite Hm in Hr'. injection Hr'. lia.
  - cbn [scalar]. replace (0 <=? Z.of_nat i) with true by (symmetry; apply Z.leb_le; lia). rewrite Nat2Z.id.
    unfold at_slot. rewrite Hi. assert (i < length t)%nat by (by eapply lookup_lt_Some).
    destruct (slots_lookup_t _ _ _ _ _ Hs Hi) as (p & Hp & [H1 H2 H3 H4 H5 H6]).
    split; cbn; try done.
    + rewrite <-(list_insert_id (processes f) i p Hp). eapply slots_replace; [done..| |by left].
      split; cbn; try done.
      * by rewrite H2, Ho.
      * by intros e [?|?].
      * by intros [?|?].
    + by rewrite length_insert.
    + intros j a Hj. destruct (decide (j = i)) as [->|Hne].
      * rewrite list_lookup_insert_eq in Hj by done. injection Hj as <-. rewrite (Ha i _ Hi). cbn. by rewrite Ho.
      * rewrite list_lookup_insert_ne in Hj by done. by apply Ha.
    + lia.
    + intros j x Hj Hx. destruct (decide (j = i)) as [->|Hne].
      * rewrite list_lookup_insert_eq in Hj by done. by injection Hj as <-.
      * rewrite list_lookup_insert_ne in Hj by done. pose proof (Hr j x Hj Hx) as Hr'. rewrite Hm in Hr'.
        injection Hr'. lia.
    + by intros ? ?%elem_of_nil.
Qed.

(** A child dies. *)
Lemma dies_slots zs l t i p c sig :
  slots_ok zs l t -> l !! i = Some p -> t !! i = Some (Some c) -> living c = Alive ->
  slots_ok (zs ++ [(pid p, sig)]) l (<[i := Some (mk_child (own c) (Zombie sig) true)]> t).
Proof.
  intros Hs Hp Hi Hl. pose proof Hs as [Hs1 Hs2 Hs3 Hs4].
  destruct (slots_lookup_t _ _ _ _ _ Hs Hi) as (q & Hq & Hok). rewrite Hp in Hq. injection Hq as <-.
  pose proof (co_pid _ _ _ Hok) as Hpos.
  assert (pid p ∉ zs.*1) as Hnew.
  { intros Hin. apply list_elem_of_fmap in Hin as ([z s] & Hz & Hin). cbn in Hz. subst z.
    apply (co_zombie _ _ _ Hok) in Hin. congruence. }
  destruct Hok as [H1 H2 H3 H4 H5 H6]. rewrite Hl in *.
  split; [|done| |].
  - rewrite <-(list_insert_id l i p Hp). apply Forall2_lookup. intros j. destruct (decide (j = i)) as [->|Hne].
    + rewrite !list_lookup_insert_eq by (by eapply lookup_lt_Some). constructor. split; cbn; try done.
      * intros s. rewrite elem_of_app, list_elem_of_singleton, H3. split; [by intros [?|[= ->]]|].
        intros [= ->]. by right.
      * intros Hc. split; [done|]. by apply H6.
    + rewrite !list_lookup_insert_ne by done. rewrite Forall2_lookup in Hs1. specialize (Hs1 j).
      destruct (l !! j) as [r|] eqn:Hj; inversion Hs1 as [? a Hslot|]; constructor; [|done..].
      destruct a as [y|]; [|done]. destruct Hslot as [G1 G2 G3 G4 G5 G6]. split; try done.
      intros s. rewrite elem_of_app, list_elem_of_singleton, <-G3. split; [|by left]. intros [?|[= He _]]; [done|].
      destruct Hne. by eapply (Hs2 j i r p).
  - rewrite fmap_app. apply list.NoDup_app. split; [done|]. split; [|apply NoDup_singleton].
    intros x Hx. cbn. rewrite list_elem_of_singleton. by intros ->.
  - intros z. rewrite fmap_app, elem_of_app. intros [Hz|Hz]; [by apply Hs4|].
    apply list_elem_of_singleton in Hz as ->. split; [done|]. exists p. split; [|done]. by eapply list_elem_of_lookup_2.
Qed.

Lemma dies_ok f t w g i p c sig :
  related f t w g -> processes f !! i = Some p -> t !! i = Some (Some c) -> living c = Alive ->
  related (child_dies (pid p) sig f) (<[i := Some (mk_child (own c) (Zombie sig) true)]> t) w true.
Proof.
  intros Hrel Hp Hi Hl. pose proof (dies_slots _ _ _ _ _ _ sig (re_slots _ _ _ _ Hrel) Hp Hi Hl) as Hs'.
  pose proof Hrel as [Hs Hc Ha Hd Hw Hr He Hf]. assert (i < length t)%nat by (by eapply lookup_lt_Some).
  split; cbn; try done.
  - by rewrite length_insert.
  - intros j a Hj. destruct (decide (j = i)) as [->|Hne].
    + rewrite list_lookup_insert_eq in Hj by done. injection Hj as <-. by rewrite (Ha i _ Hi).
    + rewrite list_lookup_insert_ne in Hj by done. by apply Ha.
  - by right.
  - intros j x Hj Hx. destruct (decide (j = i)) as [->|Hne].
    + rewrite list_lookup_insert_eq in Hj by done. injection Hj as <-. by eapply Hr.
    + rewrite list_lookup_insert_ne in Hj by done. by eapply Hr.
  - intros m Hm. destruct (He m Hm) as [?|(j & x & -> & Hj & Hx)]; [by left|]. right.
    destruct (decide (j = i)) as [->|Hne].
    + rewrite Hi in Hj. injection Hj as <-. eexists i, _. by rewrite list_lookup_insert_eq.
    + exists j, x. by rewrite list_lookup_insert_ne.
Qed.

Lemma slot_process f t w g i a : related f t w g -> t !! i = Some a -> exists p, processes f !! i = Some p.
Proof. intros Hr Hi. destruct (slots_lookup_t _ _ _ _ _ (re_slots _ _ _ _ Hr) Hi) as (p & ? & _). eauto. Qed.

Lemma step_ok st st' : fork_ok fork_pid -> small (tab st) -> sys_ok st -> fact_step st st' ->
  sys_ok st' /\ length (tab st') = length (tab st).
Proof.
  intros Hfork Hsmall Hok Hstep. unfold sys_ok, small in *.
  destruct Hstep as [f t g name arg f' o Hc|f t g idx f' o Hc|f t w g i c p f' o Hi Ho Hfin Hp Hdr Hc
    |f t w g i c f' o Hi Ho Hc|f t w g i c m f' o Hi Ho Hc|f t w g i c m f' o Hi Ho Hc
    |f t w g i c m last Hi Hl Hfin|f t w g i c Hi Hl|f t w g i c p sig Hi Hl Hp
    |f t w f' o Hc|f t w g m ms r f' o reply Hm Hc Hrep]; cbn [fac tab waiting sigchld] in *.
  - destruct (create_send_Ok _ _ _ _ _ Hc) as (m & -> & Hm). split; [|done].
    eapply related_queue; [done|by left|..]; unfold is_create, is_dead; rewrite Hm; by try left.
  - split; [|unfold at_slot; repeat case_match; by rewrite ?length_insert].
    unfold create_reply in Hc. rewrite (bind_pass get _ f f f) in Hc by done.
    destruct (ipc_evt f) as [|m ms] eqn:He; [done|].
    apply bind_Ok in Hc as (u & f1 & o1 & o2 & Hs & Hk & _). injection Hs as _ <- _. injection Hk as <- <- _.
    by apply created_ok.
  - apply valid_then_Ok in Hc as [o' ->%send_ctrl_Ok]. pose proof (lookup_lt_Some _ _ _ Hi).
    split; [|by rewrite length_insert]. destruct (release_msg CLEAN i) as (? & ? & ?); [by left|lia|].
    eapply related_ask; try done; [by left|]. intros _. split; [done|]. intros q Hq. rewrite Hp in Hq. by injection Hq as <-.
  - apply valid_then_Ok in Hc as [o' ->%send_ctrl_Ok]. pose proof (lookup_lt_Some _ _ _ Hi).
    split; [|by rewrite length_insert]. destruct (release_msg KILL i) as (? & ? & ?); [by right|lia|].
    eapply related_ask; try done. by right.
  - destruct (get_msg_Ok _ _ _ _ _ Hc) as (p & p' & Hp & Hsame & ->). split; [|done].
    rewrite <-(list_insert_id t i (Some c) Hi). eapply related_pipes; try done.
    intros Hx. by destruct (held_not_clean c).
  - destruct (send_msg_Ok _ _ _ _ _ Hc) as (p & p' & Hp & Hsame & ->). split; [|done].
    rewrite <-(list_insert_id t i (Some c) Hi). eapply related_pipes; try done.
    intros Hx. by destruct (held_not_clean c).
  - split; [|by rewrite length_insert]. destruct (slot_process _ _ _ _ _ _ Hok Hi) as [p Hp].
    unfold child_sends. rewrite (alter_insert f _ i p Hp). eapply related_pipes; try done.
    intros _ Hx. congruence.
  - split; [|done]. destruct (slot_process _ _ _ _ _ _ Hok Hi) as [p Hp].
    unfold child_gets. rewrite (alter_insert f _ i p Hp). rewrite <-(list_insert_id t i (Some c) Hi).
    eapply related_pipes; try done. intros _ Hx [H1 H2]. split; [done|]. split; cbn; by rewrite ?H1.
  - split; [|by rewrite length_insert]. by apply (dies_ok f t w g).
  - split; [|done]. unfold sig_handler in Hc. rewrite (bind_pass get _ f f f) in Hc by done.
    destruct (re_flags _ _ _ _ Hok) as [_ Hg]. rewrite Hg in Hc. apply send_ctrl_Ok in Hc as ->.
    eapply related_queue; [done|right; split; [done|by left]|done|done|done|by right].
  - pose proof (wp_forked_turn fork_pid f t w g m ms Hfork Hsmall Hok Hm) as Hwp. unfold wp in Hwp. rewrite Hc in Hwp.
    destruct Hwp as (_ & reply' & He & _ & Hr). rewrite He in Hrep. apply app_inv_head in Hrep as <-.
    split; [done|]. apply spec_handle_length.
Qed.

Lemma run_ok st st' : fork_ok fork_pid -> small (tab st) -> sys_ok st -> fact_run st st' ->
  sys_ok st' /\ length (tab st') = length (tab st).
Proof.
  intros Hfork Hsmall Hok Hr. induction Hr as [|st st' st'' Hr IH Hs]; [done|].
  destruct (IH Hsmall Hok) as [Hok' Hlen]. unfold small in *.
  destruct (step_ok st' st'' Hfork ltac:(unfold small; lia) Hok' Hs). split; [done|lia].
Qed.

(** C28. The process factory keeps a table of children.  CRM creates processes,
    exchanges messages with them, and releases each one once, by [kill] at any
    time or by [clean] when it has read the last message; the children run, end
    and die of a signal at any time; all of this in any order, until the factory
    is disposed or ends as said below.  Then:
    - a slot of the factory is free, with empty pipes, exactly when the table
      has no child there;
    - the next control message does to the table what [spec_handle] says, and
      [create] is given a slot that nobody uses, or refused when there is none;
      there are two exceptions, which end the factory: a [kill] that arrives when
      the child is known to be dead and left unread messages, and the notice that
      a child CRM has not released was killed by a signal, upon which the factory
      kills CRM and every child;
    - when nothing is pending, the slots in use are those of living children
      and of children CRM has not released;
    - the factory limits its wait to 500 ms exactly when it knows of a dead
      child that CRM has not released, and the end of that wait aborts it. *)
Theorem factory_keeps_table parent nb st :
  fork_ok fork_pid -> nb <= 2 ^ 23 -> fact_run (sys_init parent nb) st ->
  let f := fac st in
  (forall i p, processes f !! i = Some p ->
    exists a, tab st !! i = Some a /\ match a with None => pid p = -1 /\ drained p | Some _ => 0 < pid p end) /\
  (forall m ms, ipc_ctrl f = m :: ms ->
    match forked_turn fork_pid FactIn f with
    | Ok running f' o => running = true /\ exists reply, ipc_evt f' = ipc_evt f ++ reply /\ granted m reply (tab st) /\
        fact_step st (mk_sys f' (spec_handle m reply (tab st)) (waiting st) (sigchld st))
    | Abort r _ => fatal m (processes f) (tab st) r
    end) /\
  (ipc_ctrl f = [] -> sigchld st = false -> forall i c, tab st !! i = Some (Some c) ->
    living c = Alive \/ own c = Held \/ own c = Replying) /\
  (poll_timeout f = 500 <-> exists i c, tab st !! i = Some (Some c) /\ living c = Reaped) /\
  forked_turn fork_pid FactTimeout f =
    Abort (if poll_timeout f =? 500 then AssertFail "0" else Stuck "poll blocks") [].
Proof.
  intros Hfork Hnb Hrun f.
  assert (small (tab (sys_init parent nb))) as Hsmall0.
  { unfold small. cbn. rewrite length_replicate. destruct (Z.le_gt_cases 0 nb); [rewrite Z2Nat.id by lia; done|].
    rewrite Z2Nat.nonpos by lia. done. }
  destruct (run_ok _ _ Hfork Hsmall0 (sys_init_ok parent nb) Hrun) as [Hok Hlen].
  assert (small (tab st)) as Hsmall by (unfold small in *; lia). unfold sys_ok in Hok.
  pose proof (re_slots _ _ _ _ Hok) as Hs. split_and!.
  - intros i p Hp. destruct (slots_lookup _ _ _ _ _ Hs Hp) as (a & Ha & Hslot). exists a. split; [done|].
    destruct a as [c|]; [by apply (co_pid _ _ _ Hslot)|done].
  - intros m ms Hm. pose proof (wp_forked_turn fork_pid f _ _ _ m ms Hfork Hsmall Hok Hm) as Hwp. unfold wp in Hwp.
    destruct (forked_turn fork_pid FactIn f) as [running f' o|] eqn:Ht; [|done].
    destruct Hwp as (Hr & reply & He & Hg & _). split; [done|]. exists reply. split; [done|]. split; [done|].
    destruct st as [f0 t w g]. by eapply st_turn.
  - intros Hc Hg i c Hi. destruct (slots_lookup_t _ _ _ _ _ Hs Hi) as (p & Hp & Hslot).
    pose proof (re_asked _ _ _ _ Hok i _ Hi) as Ha. fold f in Ha. rewrite Hc in Ha. cbn in Ha.
    destruct (own c) as [| |e|e] eqn:Ho; [by right; right|by right; left|done|]. left.
    destruct (living c) as [|sig|] eqn:Hl; [done| |by destruct (co_released _ _ _ Hslot e Ho)].
    apply (co_zombie _ _ _ Hslot) in Hl. destruct (re_dead _ _ _ _ Hok) as [Hd|Hd]; [|by fold f in Hd; rewrite Hc in Hd|congruence].
    intros Hz. rewrite Hz in Hl. by apply elem_of_nil in Hl.
  - unfold poll_timeout. destruct (existsb uncleaned (processes f)) eqn:Hex; (split; [intros H500|]); try done.
    + apply existsb_exists in Hex as (p & Hp & Hu). apply list_elem_of_In, list_elem_of_lookup_1 in Hp as [i Hp].
      destruct (slots_lookup _ _ _ _ _ Hs Hp) as ([c|] & Ha & Hslot).
      * exists i, c. split; [done|]. destruct (child_bits _ _ _ Hslot) as (Hb & _). unfold uncleaned in Hu.
        rewrite Hb in Hu. by bool_facts.
      * unfold uncleaned in Hu. bool_facts. destruct Hslot. lia.
    + intros (i & c & Hi & Hl). destruct (slots_lookup_t _ _ _ _ _ Hs Hi) as (p & Hp & Hslot).
      assert (existsb uncleaned (processes f) = true) as Ht; [|congruence].
      apply existsb_exists. exists p. split; [apply list_elem_of_In; by eapply list_elem_of_lookup_2|].
      unfold uncleaned. destruct (child_bits _ _ _ Hslot) as (-> & _). rewrite Hl.
      pose proof (co_pid _ _ _ Hslot). rewrite bool_decide_true, andb_true_r by done. apply Z.ltb_lt. lia.
  - unfold forked_turn, poll_timeout. rewrite (bind_pass get _ f f f) by done. by destruct (existsb _ _).
Qed.

End system.

(** ** Runs *)

(** A kernel that gives the next pid. *)
Definition demo_fork (l : list Z) : Z := 1 + foldr Z.max 0 l.

Lemma demo_fork_ok : fork_ok demo_fork.
Proof.
  intros l. unfold demo_fork. assert (0 <= foldr Z.max 0 l) by (induction l; cbn; lia). split; [lia|].
  assert (forall x, x ∈ l -> x <= foldr Z.max 0 l) as Hl.
  { clear. induction l as [|y l IH]; intros x; [by intros ?%elem_of_nil|].
    intros [-> | Hx]%elem_of_cons; cbn; [lia|]. specialize (IH x Hx). lia. }
  intros Hin. specialize (Hl _ Hin). lia.
Qed.

Definition result_msg : crm_ipc_msg := mk_msg 0 0 [].

(** A factory of two slots has created a process in the first, which has sent
    its result and ended; the factory knows. *)
Definition one_ended : M factory fact_out unit :=
  create_send [108] None ;;
  forked_turn demo_fork FactIn ;;
  create_reply ;;
  (fun f => Ok tt (child_dies 1 false (child_sends 0 result_msg f)) []) ;;
  sig_handler SIGCHLD ;;
  forked_turn demo_fork FactIn ;;
  ret tt.

(** A process that runs. *)
Definition one_running : M factory fact_out unit :=
  create_send [108] None ;; forked_turn demo_fork FactIn ;; create_reply ;; ret tt.

Definition dies (signaled : bool) : M factory fact_out unit :=
  (fun f => Ok tt (child_dies 1 signaled f) []) ;; sig_handler SIGCHLD.

Definition turns (n : nat) : M factory fact_out bool := forked_handle_events demo_fork (replicate n FactIn).

Lemma factory_keeps_table_witness : exists f t,
  fact_run demo_fork (sys_init 99 2) (mk_sys f t true false) /\
  (forall i p, processes f !! i = Some p ->
    exists a, t !! i = Some a /\ match a with None => pid p = -1 /\ drained p | Some _ => 0 < pid p end).
Proof.
  assert (exists f o, create_send [108] None (crm_process_factory_init 99 2) = Ok tt f o) as (f & o & Hf)
    by (eexists _, _; reflexivity).
  assert (fact_run demo_fork (sys_init 99 2) (mk_sys f [None; None] true false)) as Hrun.
  { eapply fact_more; [apply fact_refl|]. by eapply st_create. }
  exists f, [None; None]. split; [exact Hrun|].
  apply (factory_keeps_table demo_fork 99 2 _ demo_fork_ok ltac:(done) Hrun).
Defined.
