(* ===== verification/FwUpload.v ===== *)
(** * The plugins of PCIe platforms that run processes: firmware upload and dump

    plugins/fw_upload/pcie/src/fw_upload.c and fw_upload_process.c,
    plugins/dump/pcie/src/dump.c and dump_process.c.  A plugin asks the factory
    for a process, gives it its parameters separated by semicolons, and a
    thread waits for the result.  The state is the context of the plugin and
    the factory of Factory.v; C strings are lists of bytes without NUL.  The
    download library (libs/ifwd) is called in the child: its results are
    arguments. *)

From S2P Require Import Prelude Ipc MdmCli Factory.
From Stdlib Require Import ZArith Lia.
From stdpp Require Import base tactics list strings option.

Open Scope Z_scope.
Open Scope crm_scope.

Abbreviation cstr := (list Z).

(** The string literals of the source. *)
Definition bytes (s : string) : cstr := (fun c => Z.of_N (Ascii.N_of_ascii c)) <$> String.list_ascii_of_string s.
Definition FWUP_PROCESS_LIB : cstr := bytes "libcrm_fw_upload_pcie_process.so".
Definition DUMP_PROCESS_LIB : cstr := bytes "libcrm_dump_pcie_process.so".
Definition DUMP_FOLDER : cstr := bytes "/data/logs/modemcrash".
Definition TRACE_FILE : cstr := DUMP_FOLDER ++ bytes "/download_lib_logs.log".

(** The bytes before the first NUL. *)
Fixpoint up_to_nul (l : list Z) : cstr :=
  match l with [] => [] | b :: l' => if b =? 0 then [] else b :: up_to_nul l' end.

(** [args_size]: the lengths of the parameters, a semicolon for each and the
    NUL. *)
Definition args_size (l : list cstr) : nat := foldr (fun s n => length s + n)%nat 0%nat l + length l + 1.

(** [snprintf(args, args_size, "%s;...;")]: every parameter followed by a
    semicolon, cut to what fits before the NUL. *)
Definition join_params (l : list cstr) : list Z := take (args_size l - 1) (concat ((fun s => s ++ [59]) <$> l)) ++ [0].

(** ** In the child *)

Inductive child_out : Type :=
| WriteFirmware (dev_node fw log_file : cstr)
| ReadDump (dev_node fw dump_path log_file : cstr)
| ChildSend (m : crm_ipc_msg).

(** [get_next_param] of both processes and [get_next_file] of the dump plugin:
    the parameter and what is left ([None] is NULL). *)
Definition get_next_param {S O} (data : option (list Z)) : M S O (cstr * option (list Z)) :=
  match data with
  | None => fail (AssertFail "*data")
  | Some d =>
      ASSERT "size && *size > 0" (0 <? Z.of_nat (length d)) ;;
      match split_semicolon d with
      | Some (param, rest) => ret (up_to_nul param, if bool_decide (rest = []) then None else Some rest)
      | None => fail (DAssertFail "parameter not found")
      end
  end.

(** [start_process] of the upload: [err] is what [crm_ifwd_write_firmware]
    returns. *)
Definition fw_start_process (err : Z) (data : option (list Z)) : M unit child_out unit :=
  ASSERT "data && data_size > 0" (match data with Some d => 0 <? Z.of_nat (length d) | None => false end) ;;
  let* p := get_next_param data in let '(dev_node, cur) := p in
  let* p := get_next_param cur in let '(fw, cur) := p in
  let* p := get_next_param cur in let '(log_file, cur) := p in
  emit (WriteFirmware dev_node fw log_file) ;;
  emit (ChildSend (mk_msg err 0 [])).

(** [start_process] of the dump: [files] is what [crm_ifwd_read_dump]
    returns. *)
Definition dump_start_process (files : option cstr) (data : option (list Z)) : M unit child_out unit :=
  ASSERT "data && data_size > 0" (match data with Some d => 0 <? Z.of_nat (length d) | None => false end) ;;
  let* p := get_next_param data in let '(dev_node, cur) := p in
  let* p := get_next_param cur in let '(fw, cur) := p in
  let* p := get_next_param cur in let '(dump_path, cur) := p in
  let* p := get_next_param cur in let '(log_file, cur) := p in
  emit (ReadDump dev_node fw dump_path log_file) ;;
  emit (ChildSend match files with
                  | Some fs => mk_msg 0 (Z.of_nat (length fs) + 1) (fs ++ [0])
                  | None => mk_msg (-1) 0 []
                  end).

(** ** The plugins *)

(** [crm_fw_upload_internal_ctx_t], with the factory. *)
Record fw_upload : Type := mk_upload {
  timeout : Z;
  nvm_folder : cstr;
  run_folder : cstr;
  process_id : Z;
  fw_injected_ready : bool;
  injected_fw : cstr;
  trace_file_path : cstr;
  up_factory : factory;
}.

(** [crm_dump_internal_ctx_t], with the factory. *)
Record dump : Type := mk_dump {
  dump_process_id : Z;
  log_file : cstr;
  dump_factory : factory;
}.

Inductive plugin_out : Type :=
| FactoryDoes (x : fact_out)
| Packaged (fw_path injected_fw nvm_folder : cstr)
| NotifyStatus (status : Z)
| NotifyClient (dbg : mdm_cli_dbg_info)
| NotifyDumpEnd (info_file dump_file : cstr)
| ThreadStarted.

Abbreviation U_ A := (M fw_upload plugin_out A).
Abbreviation P_ A := (M dump plugin_out A).

Definition set_upload (id : Z) (ready : bool) : U_ unit :=
  modify (fun s => mk_upload (timeout s) (nvm_folder s) (run_folder s) id ready (injected_fw s) (trace_file_path s)
    (up_factory s)).
Definition on_factory {A} (m : M factory fact_out A) : U_ A :=
  zoom up_factory (fun f s => mk_upload (timeout s) (nvm_folder s) (run_folder s) (process_id s) (fw_injected_ready s)
    (injected_fw s) (trace_file_path s) f) FactoryDoes m.
Definition set_dump_id (id : Z) : P_ unit := modify (fun s => mk_dump id (log_file s) (dump_factory s)).
Definition on_dump_factory {A} (m : M factory fact_out A) : P_ A :=
  zoom dump_factory (fun f s => mk_dump (dump_process_id s) (log_file s) f) FactoryDoes m.

(** What [poll] tells the thread: its timeout, something else than POLLIN, or
    POLLIN on the pipe of the process. *)
Inductive wait_result : Type := WaitTimeout | WaitOther | WaitIn.

(** The loop of [control_flash_process], which every branch leaves. *)
Definition flash_wait (r : wait_result) : U_ Z :=
  let* s := get in
  ASSERT "i_ctx->process_id >= 0" (0 <=? process_id s) ;;
  match r with
  | WaitIn =>
      let* m := on_factory (get_msg (process_id s)) in
      ASSERT "msg.scalar == 0 || msg.scalar == -1" ((scalar m =? 0) || (scalar m =? -1)) ;;
      ret (scalar m)
  | WaitTimeout => on_factory (kill_process (process_id s)) ;; ret (-1)
  | WaitOther => ASSERT "0" false ;; ret (-1)
  end.

Definition flash_end (status : Z) : U_ unit :=
  let* s := get in
  on_factory (clean (process_id s)) ;;
  set_upload (-1) false ;;
  emit (NotifyStatus status).

Definition control_flash_process (r : wait_result) : U_ unit :=
  let* status := flash_wait r in
  flash_end status.

Definition package (fw_path : cstr) (file_exists : bool) : U_ unit :=
  let* s := get in
  ASSERT "i_ctx->process_id == -1" (process_id s =? -1) ;;
  if fw_injected_ready s then ret tt else
  ASSERT "crm_file_exists(fw_path)" file_exists ;;
  emit (Packaged fw_path (injected_fw s) (nvm_folder s)) ;;
  set_upload (process_id s) true ;;
  emit (NotifyStatus 0).

(** [flash], before and after the reply of the factory. *)
Definition flash_send (nodes : cstr) : U_ unit :=
  let* s := get in
  ASSERT "i_ctx->fw_injected_ready == true" (fw_injected_ready s) ;;
  ASSERT "i_ctx->process_id == -1" (process_id s =? -1) ;;
  on_factory (create_send FWUP_PROCESS_LIB (Some (join_params [nodes; injected_fw s; trace_file_path s]))).

Definition flash_created : U_ unit :=
  let* s := get in
  let* id := on_factory create_reply in
  set_upload id (fw_injected_ready s) ;;
  if 0 <=? id then emit ThreadStarted else emit (NotifyStatus (-1)).

Definition upload_dispose : U_ unit :=
  let* s := get in ASSERT "i_ctx->process_id == -1" (process_id s =? -1).

(** [src[find - src] = '0' + inst_id] for the first '@'. *)
Fixpoint set_instance_id (src : cstr) (inst_id : Z) : option cstr :=
  match src with
  | [] => None
  | b :: l => if b =? 64 then Some (48 + inst_id :: l) else cons b <$> set_instance_id l inst_id
  end.

Definition compute_path (folder filename : cstr) : cstr := folder ++ bytes "/" ++ filename.

(** The values read from the configuration are arguments. *)
Definition crm_fw_upload_init {S O} (inst_id : Z) (run : cstr) (tmo : Z) (nvm : cstr) (flashing_log : bool) (f : factory)
    : M S O fw_upload :=
  match set_instance_id run inst_id with
  | None => fail (AssertFail "find != NULL")
  | Some run =>
      ASSERT "i_ctx->timeout > 0" (0 <? tmo) ;;
      ret (mk_upload tmo nvm run (-1) false (compute_path run (bytes "injected_firmware.fls"))
        (if flashing_log then compute_path run (bytes "download_lib_logs.log") else []) f)
  end.

(** ** The dump plugin *)

Section dump.
Context `{MdmCli}.

(** The loop of [control_dump_process]; [size] of the text of the files is its
    [strlen]. *)
Definition dump_wait (r : wait_result) : P_ Z :=
  let* s := get in
  ASSERT "i_ctx->process_id >= 0" (0 <=? dump_process_id s) ;;
  match r with
  | WaitIn =>
      let* m := on_dump_factory (get_msg (dump_process_id s)) in
      ASSERT "msg.scalar == 0 || msg.scalar == -1" ((scalar m =? 0) || (scalar m =? -1)) ;;
      when (scalar m =? 0)
        (ASSERT "msg.data" (negb (data_size m =? 0)) ;;
         let* p := get_next_param (Some (up_to_nul (data m))) in let '(info_file, cur) := p in
         let* p := get_next_param cur in let '(dump_file, cur) := p in
         ASSERT "info_file && strlen(info_file) <= 512" (Z.of_nat (length info_file) <=? 512) ;;
         ASSERT "dump_file && strlen(dump_file) <= 512" (Z.of_nat (length dump_file) <=? 512) ;;
         emit (NotifyDumpEnd info_file dump_file)) ;;
      ret (scalar m)
  | WaitTimeout => on_dump_factory (kill_process (dump_process_id s)) ;; ret (-1)
  | WaitOther => ASSERT "0" false ;; ret (-1)
  end.

Definition dump_end (status : Z) : P_ unit :=
  let* s := get in
  on_dump_factory (clean (dump_process_id s)) ;;
  set_dump_id (-1) ;;
  emit (NotifyStatus status).

Definition control_dump_process (r : wait_result) : P_ unit :=
  let* status := dump_wait r in
  dump_end status.

(** [read_dump], before and after the reply of the factory. *)
Definition read_dump_send (link fw : cstr) : P_ unit :=
  let* s := get in
  ASSERT "i_ctx->process_id == -1" (dump_process_id s =? -1) ;;
  emit (NotifyClient (mk_dbg DBG_TYPE_DUMP_START DBG_DEFAULT_NO_LOG DBG_DEFAULT_NO_LOG DBG_DEFAULT_NO_LOG [])) ;;
  on_dump_factory (create_send DUMP_PROCESS_LIB (Some (join_params [link; fw; DUMP_FOLDER; log_file s]))).

Definition read_dump_created : P_ unit :=
  let* id := on_dump_factory create_reply in
  set_dump_id id ;;
  if 0 <=? id then emit ThreadStarted else emit (NotifyStatus (-1)).

Definition crm_dump_init (flashing_log : bool) (f : factory) : dump :=
  mk_dump (-1) (if flashing_log then TRACE_FILE else []) f.

End dump.
