(* ===== verification/FwUploadProps.v ===== *)
(** * Properties of the plugins that run processes *)

From S2P Require Import Prelude Ipc MdmCli Factory FactoryTheory FactoryProps FwUpload.
From Stdlib Require Import ZArith Lia.
From stdpp Require Import base tactics list strings option.

Open Scope Z_scope.
Open Scope crm_scope.

(** ** Parameters *)

(** A C string without semicolon. *)
Definition plain (s : cstr) : Prop := (59 ∉ s) /\ (0 ∉ s).

Lemma split_plain s d : 59 ∉ s -> split_semicolon (s ++ 59 :: d) = Some (s, d).
Proof. apply child_args_roundtrip. Qed.

Lemma up_to_nul_plain s : 0 ∉ s -> up_to_nul s = s.
Proof.
  induction s as [|b s IH]; intros Hs; cbn; [done|]. apply not_elem_of_cons in Hs as [Hb Hs].
  destruct (Z.eqb_spec b 0); [done|]. by rewrite IH.
Qed.

Lemma up_to_nul_app s : 0 ∉ s -> up_to_nul (s ++ [0]) = s.
Proof.
  induction s as [|b s IH]; intros Hs; cbn; [done|]. apply not_elem_of_cons in Hs as [Hb Hs].
  destruct (Z.eqb_spec b 0); [done|]. by rewrite IH.
Qed.

(** One parameter is taken from the front. *)
Lemma next_param {S O B} x d (k : cstr * option (list Z) -> M S O B) s : plain x ->
  bind (get_next_param (Some (x ++ 59 :: d))) k s = k (x, if bool_decide (d = []) then None else Some d) s.
Proof.
  intros [H1 H2]. apply bind_pass. unfold get_next_param.
  replace (0 <? Z.of_nat (length (x ++ 59 :: d))) with true by (symmetry; apply Z.ltb_lt; rewrite length_app; cbn; lia).
  rewrite (bind_pass (ASSERT _ true) _ s tt s) by done. by rewrite split_plain, up_to_nul_plain.
Qed.

(** The size is the right one: nothing is cut. *)
Lemma join_fits l : join_params l = concat ((fun s : cstr => s ++ [59]) <$> l) ++ [0] /\ length (join_params l) = args_size l.
Proof.
  assert (length (concat ((fun s : cstr => s ++ [59%Z]) <$> l)) = args_size l - 1)%nat as Hl.
  { unfold args_size. induction l as [|x l IH]; [done|]. cbn in *. rewrite !length_app. cbn. lia. }
  unfold join_params. rewrite take_ge by lia. split; [done|]. rewrite length_app, Hl. unfold args_size. cbn. lia.
Qed.

Lemma join_cons x l : join_params (x :: l) = x ++ 59 :: join_params l.
Proof. rewrite !(proj1 (join_fits _)). cbn. by rewrite <-!app_assoc. Qed.

Lemma join_some {A} l (a b : A) : (if bool_decide (join_params l = []) then a else b) = b.
Proof. rewrite bool_decide_false; [done|]. unfold join_params. intros [_ ?]%app_eq_nil. done. Qed.

Lemma fw_start_params err a b c : plain a -> plain b -> plain c ->
  fw_start_process err (Some (join_params [a; b; c])) () =
    Ok () () [WriteFirmware a b c; ChildSend (mk_msg err 0 [])].
Proof.
  intros Ha Hb Hc. unfold fw_start_process. rewrite !join_cons.
  rewrite (bind_pass (ASSERT _ _) _ () tt ()) by (unfold ASSERT; rewrite length_app; cbn; by rewrite Nat2Z.inj_add, Nat2Z.inj_succ, (proj2 (Z.ltb_lt _ _)) by lia).
  do 3 (rewrite next_param by done; rewrite <-?join_cons, ?join_some, ?join_cons). done.
Qed.

Lemma dump_start_params files a b c d : plain a -> plain b -> plain c -> plain d ->
  exists m, dump_start_process files (Some (join_params [a; b; c; d])) () = Ok () () [ReadDump a b c d; ChildSend m] /\
  m = match files with Some fs => mk_msg 0 (Z.of_nat (length fs) + 1) (fs ++ [0]) | None => mk_msg (-1) 0 [] end.
Proof.
  intros Ha Hb Hc Hd. unfold dump_start_process. rewrite !join_cons.
  rewrite (bind_pass (ASSERT _ _) _ () tt ()) by (unfold ASSERT; rewrite length_app; cbn; by rewrite Nat2Z.inj_add, Nat2Z.inj_succ, (proj2 (Z.ltb_lt _ _)) by lia).
  do 4 (rewrite next_param by done; rewrite <-?join_cons, ?join_some, ?join_cons). eexists. split; reflexivity.
Qed.

Lemma create_queues name d f u f' o : create_send name (Some d) f = Ok u f' o ->
  ipc_ctrl f' = ipc_ctrl f ++ [mk_msg (i32 (gen_scalar CREATE 0)) (Z.of_nat (length name) + Z.of_nat (length d) + 1) (name ++ 59 :: d)].
Proof.
  unfold create_send. cbn [default]. intros [o1 [o2 H%send_ctrl_Ok]%assert_then_Ok]%assert_then_Ok. by rewrite H.
Qed.

Lemma zoom_Ok {S T O P A} (g : S -> T) (p : T -> S -> S) (h : P -> O) (m : M T P A) s a s' o :
  zoom g p h m s = Ok a s' o -> exists t o', m (g s) = Ok a t o' /\ s' = p t s.
Proof. unfold zoom. destruct (m (g s)) as [a' t o'|]; [|done]. intros [= <- <- _]. eauto. Qed.

Lemma lib_names_plain : (59 ∉ FWUP_PROCESS_LIB) /\ (59 ∉ DUMP_PROCESS_LIB).
Proof. split; by apply (bool_decide_unpack _); vm_compute. Qed.

(** The text of the files a dump gives. *)
Definition files_text (info dump : cstr) : cstr := info ++ 59 :: dump ++ [59].

Lemma get_msg_run i p m l f : 0 <= i -> processes f !! Z.to_nat i = Some p -> ipc_c2p p = m :: l ->
  exists f', get_msg i f = Ok m f' [].
Proof.
  intros Hi Hp Hm. unfold get_msg. pose proof (lookup_lt_Some _ _ _ Hp). eexists.
  assert (((0 <=? i) && (i <? nb_processes f)) = true) as Hr.
  { unfold nb_processes. apply andb_true_iff. split; [apply Z.leb_le|apply Z.ltb_lt]; lia. }
  rewrite (bind_pass (valid_idx i) _ f tt f) by (unfold valid_idx, bind, get; by rewrite Hr).
  rewrite (bind_pass (get_process i) _ f p f)
    by (unfold get_process, bind, get; by rewrite (proj2 (Z.leb_le _ _) Hi), Hp).
  rewrite Hm. reflexivity.
Qed.

Lemma dump_files_read e p l info dump_file :
  plain info -> plain dump_file -> Z.of_nat (length info) <= 512 -> Z.of_nat (length dump_file) <= 512 ->
  0 <= dump_process_id e -> processes (dump_factory e) !! Z.to_nat (dump_process_id e) = Some p ->
  let fs := files_text info dump_file in
  ipc_c2p p = received (mk_msg 0 (Z.of_nat (length fs) + 1) (fs ++ [0])) :: l ->
  exists e', dump_wait WaitIn e = Ok 0 e' [NotifyDumpEnd info dump_file].
Proof.
  intros Hi Hd Hl1 Hl2 He Hp fs Hm. destruct (get_msg_run _ _ _ _ _ He Hp Hm) as [f' Hg].
  unfold dump_wait. rewrite (bind_pass get _ e e e) by done.
  rewrite (bind_pass (ASSERT _ _) _ e tt e) by (unfold ASSERT; by rewrite (proj2 (Z.leb_le _ _) He)).
  erewrite bind_pass; [|unfold on_dump_factory, zoom; rewrite Hg; reflexivity].
  unfold received. cbn [scalar data_size data].
  rewrite (bind_pass (ASSERT _ _) _ _ tt _) by done.
  assert ((i32 0 =? 0) = true) as -> by done. unfold when.
  replace (Z.of_nat (length fs) + 1 =? 0) with false by (symmetry; apply Z.eqb_neq; lia).
  rewrite up_to_nul_app.
  2: { destruct Hi, Hd. subst fs. unfold files_text. rewrite !elem_of_app, elem_of_cons, elem_of_app, list_elem_of_singleton.
       intros [?|[?|[?|?]]]; done. }
  eexists. unfold bind at 1. rewrite (bind_pass (ASSERT _ _) _ _ tt _) by done.
  subst fs. unfold files_text. rewrite next_param by done.
  rewrite bool_decide_false by (by intros [_ ?]%app_eq_nil).
  rewrite next_param by done. cbn [bool_decide].
  rewrite (bind_pass (ASSERT _ _) _ _ tt _) by (unfold ASSERT; by rewrite (proj2 (Z.leb_le _ _) Hl1)).
  rewrite (bind_pass (ASSERT _ _) _ _ tt _) by (unfold ASSERT; by rewrite (proj2 (Z.leb_le _ _) Hl2)).
  reflexivity.
Qed.

(** C29. The parameters of a process arrive.  When no path holds a semicolon or
    a NUL, what [flash] puts in the control pipe makes the factory start the
    upload library with arguments from which the child takes exactly the
    device nodes, the firmware and the trace file, whatever the download
    library then answers; likewise for a dump; and the names of the two files a
    dump has produced are those reported to CRM. *)
Theorem process_parameters_delivered `{MdmCli} s nodes s' o err d link fw d' o' files info dump_file :
  plain nodes -> plain (injected_fw s) -> plain (trace_file_path s) ->
  flash_send nodes s = Ok tt s' o ->
  plain link -> plain fw -> plain (log_file d) -> read_dump_send link fw d = Ok tt d' o' ->
  plain info -> plain dump_file -> Z.of_nat (length info) <= 512 -> Z.of_nat (length dump_file) <= 512 ->
  (exists m args, ipc_ctrl (up_factory s') = ipc_ctrl (up_factory s) ++ [m] /\
    child_args (data m) = Some (FWUP_PROCESS_LIB, args) /\
    fw_start_process err (Some args) () =
      Ok () () [WriteFirmware nodes (injected_fw s) (trace_file_path s); ChildSend (mk_msg err 0 [])]) /\
  (exists m args r, ipc_ctrl (dump_factory d') = ipc_ctrl (dump_factory d) ++ [m] /\
    child_args (data m) = Some (DUMP_PROCESS_LIB, args) /\
    dump_start_process files (Some args) () = Ok () () [ReadDump link fw DUMP_FOLDER (log_file d); ChildSend r] /\
    (files = Some (files_text info dump_file) ->
      forall e p l, 0 <= dump_process_id e -> processes (dump_factory e) !! Z.to_nat (dump_process_id e) = Some p ->
        ipc_c2p p = received r :: l ->
        exists e', dump_wait WaitIn e = Ok 0 e' [NotifyDumpEnd info dump_file])).
Proof.
  intros Hn Hi Ht Hf Hl Hw Hlog Hr Hinfo Hdump Hl1 Hl2. destruct lib_names_plain as [Hlib1 Hlib2].
  assert (plain DUMP_FOLDER) as Hfold by (split; by apply (bool_decide_unpack _); vm_compute). split.
  - unfold flash_send in Hf. rewrite (bind_pass get _ s s s) in Hf by done.
    apply bind_Ok in Hf as (? & ? & ? & ? & (_ & -> & _)%ASSERT_Ok & Hf & _).
    apply bind_Ok in Hf as (? & ? & ? & ? & (_ & -> & _)%ASSERT_Ok & Hf & _).
    apply zoom_Ok in Hf as (f' & o2 & Hc%create_queues & ->). cbn. eexists _, _. split; [exact Hc|].
    split; [by apply child_args_roundtrip|]. by apply fw_start_params.
  - unfold read_dump_send in Hr. rewrite (bind_pass get _ d d d) in Hr by done.
    apply bind_Ok in Hr as (? & ? & ? & ? & (_ & -> & _)%ASSERT_Ok & Hr & _).
    apply bind_Ok in Hr as (? & ? & ? & ? & He & Hr & _). injection He as _ <- _.
    apply zoom_Ok in Hr as (f' & o2 & Hc%create_queues & ->). cbn.
    destruct (dump_start_params files link fw DUMP_FOLDER (log_file d)) as (r & Hs & Hrm); [done..|].
    eexists _, _, r. split; [exact Hc|]. split; [by apply child_args_roundtrip|]. split; [exact Hs|].
    intros -> e p l He Hp Hm. subst r. by eapply dump_files_read.
Qed.

(** ** Runs *)

Section demo.
#[local] Existing Instance demo_mdmcli.

Definition demo_factory : factory := crm_process_factory_init 99 2.

(** The firmware is packaged, and the process that flashes it runs. *)
Definition flashing : M fw_upload plugin_out unit :=
  package (bytes "/fw.fls") true ;; flash_send (bytes "/dev/ttyS0") ;; on_factory (forked_turn demo_fork FactIn) ;; flash_created.

Definition demo_upload : fw_upload :=
  mk_upload 1000 (bytes "/nvm") (bytes "/run0") (-1) false (bytes "/run0/injected_firmware.fls") [] demo_factory.
Definition demo_dump : dump := crm_dump_init true demo_factory.

Definition dumping : M dump plugin_out unit :=
  read_dump_send (bytes "/dev/ttyS0") (bytes "/fw.fls") ;; on_dump_factory (forked_turn demo_fork FactIn) ;; read_dump_created.

Definition demo_ready : fw_upload :=
  mk_upload 1000 [] [] (-1) true (bytes "/run0/injected_firmware.fls") [] demo_factory.

(** Runs in which the factory kills CRM.  An assertion that fails in the
    factory raises SIGABRT, whose handler kills every process and CRM itself
    (first point).
    - After a timeout, the threads of the upload and of the dump call [kill],
      then [clean]: if the death of the process is handled in between, its slot
      is free again and CLEAN fails the assertion on its pid;
    - a process that has sent its result and ended, then killed because CRM has
      timed out, fails the assertion on remaining data;
    - [dispose] kills the children without marking them, so that their death is
      taken for a crash: CRM is killed;
    - [dispose] while a dead child has not been cleaned never ends by itself:
      after 500 ms an assertion fails. *)
Lemma factory_kills_crm :
  (forall f o, one_running demo_factory = Ok tt f o -> sig_handler SIGABRT f = Abort (Exited (-1)) [SigKill 1; SigKill 99]) /\
  (exists o, (flashing ;; let* st := flash_wait WaitTimeout in
      on_factory (forked_turn demo_fork FactIn ;; dies true ;; forked_turn demo_fork FactIn) ;;
      flash_end st ;; on_factory (forked_turn demo_fork FactIn)) demo_upload =
    Abort (AssertFail "factory->processes[idx].pid > 0") o) /\
  (exists o, (dumping ;; let* st := dump_wait WaitTimeout in
      on_dump_factory (forked_turn demo_fork FactIn ;; dies true ;; forked_turn demo_fork FactIn) ;;
      dump_end st ;; on_dump_factory (forked_turn demo_fork FactIn)) demo_dump =
    Abort (AssertFail "factory->processes[idx].pid > 0") o) /\
  (exists o, (one_ended ;; kill_process 0 ;; forked_turn demo_fork FactIn) demo_factory = Abort remaining o) /\
  (exists o, (one_running ;; dispose ;; forked_turn demo_fork FactIn ;; dies true ;; forked_turn demo_fork FactIn) demo_factory =
    Abort (Exited (-1)) (o ++ [SigKill 99])) /\
  (exists o, (one_ended ;; get_msg 0 ;; dispose ;; forked_turn demo_fork FactIn ;; forked_turn demo_fork FactTimeout)
      demo_factory = Abort (AssertFail "0") o).
Proof.
  split; [|split; [|split; [|split; [|split]]]].
  - intros f o. vm_compute. by injection 1 as <- <-.
  - eexists. vm_compute. reflexivity.
  - eexists. vm_compute. reflexivity.
  - eexists. vm_compute. reflexivity.
  - exists [Forked 0 1 [108; 59]; SigKill 1; SigKill 1]. vm_compute. reflexivity.
  - eexists. vm_compute. reflexivity.
Qed.

Lemma process_parameters_delivered_witness : exists m args,
  child_args (data m) = Some (FWUP_PROCESS_LIB, args) /\
  fw_start_process 0 (Some args) () =
    Ok () () [WriteFirmware (bytes "/dev/ttyS0") (bytes "/run0/injected_firmware.fls") []; ChildSend (mk_msg 0 0 [])].
Proof.
  assert (plain (bytes "/dev/ttyS0")) as Hn by (split; by apply (bool_decide_unpack _); vm_compute).
  assert (plain (bytes "/fw.fls")) as Hw by (split; by apply (bool_decide_unpack _); vm_compute).
  assert (plain (bytes "/run0/injected_firmware.fls")) as Hi by (split; by apply (bool_decide_unpack _); vm_compute).
  assert (plain TRACE_FILE) as Ht by (split; by apply (bool_decide_unpack _); vm_compute).
  assert (plain []) as He by (split; apply not_elem_of_nil).
  assert (exists s o, flash_send (bytes "/dev/ttyS0") demo_ready = Ok tt s o) as (s & o & Hf)
    by (eexists _, _; vm_compute; reflexivity).
  assert (exists d o, read_dump_send (bytes "/dev/ttyS0") (bytes "/fw.fls") demo_dump = Ok tt d o) as (d & o' & Hd)
    by (eexists _, _; vm_compute; reflexivity).
  destruct (process_parameters_delivered demo_ready (bytes "/dev/ttyS0") s o 0 demo_dump (bytes "/dev/ttyS0") (bytes "/fw.fls") d o'
    None (bytes "/fw.fls") (bytes "/fw.fls") Hn Hi He Hf Hn Hw Ht Hd Hw Hw ltac:(done) ltac:(done))
    as [(m & args & _ & H1 & H2) _].
  by exists m, args.
Defined.

End demo.
