(* ===== verification/Elector.v ===== *)
(** * The firmware elector (plugins/fw_elector/src/elector.c)

    Chooses the firmware file and tells which customization files (TLVs) have
    to be applied: all of them when the hash of the blob or that of the
    configuration differs from what was recorded in the Android properties the
    last time they were applied, none otherwise.  The state is the context and
    the properties; the directories are arguments of each call, as are the
    regular expressions of libc ([regcomp], [regexec]) and the digest of openssl ([md5]).
    The parts of property.c and file.c the plugin uses are here too. *)

From S2P Require Import Prelude.
From Stdlib Require Import ZArith Lia Ascii.
From stdpp Require Import base tactics list strings option gmap.

Open Scope Z_scope.
Open Scope crm_scope.

Definition FW_FOLDER : string := "/system/vendor/firmware/telephony/".
Definition MIU_FOLDER : string := "/system/vendor/firmware/telephony/miu_@/".
Definition CRM_KEY_BLOB_HASH : string := "persist.sys.crm@.blob_hash".
Definition CRM_KEY_CONFIG_HASH : string := "persist.sys.crm@.config_hash".
Definition CRM_KEY_DATA_PARTITION_ENCRYPTION : string := "vold.decrypt".
Definition HASH_SIZE : nat := 33.

(** [crm_fw_elector_ctx_internal_t]: the array [tlvs] of the source is
    [tlvs ++ found_tlvs], of sizes [nb_tlvs] and [nb_found_tlvs]. *)
Record elector_ctx : Type := mk_elector {
  fw_filter : string;
  fw_path : option string;
  tlvs : list string;
  found_tlvs : list string;
  blob_hash_value : string;
  config_hash_value : string;
  miu_folder : string;
  are_hashes_readable : bool;
}.

Record elector : Type := mk_el { ectx : elector_ctx; props : gmap string string }.

(** The directories: [miu_dir] is [None] when the folder is not there, and
    [Some None] when [scandir] fails; its files are in the order of
    [alphasort]. *)
Record file_system : Type := mk_fs { miu_dir : option (option (list string)); fw_dir : list string }.

Abbreviation E_ A := (M elector Empty_set A).

Definition set_fw_path (p : option string) : E_ unit :=
  modify (fun s => mk_el (mk_elector (fw_filter (ectx s)) p (tlvs (ectx s)) (found_tlvs (ectx s)) (blob_hash_value (ectx s))
    (config_hash_value (ectx s)) (miu_folder (ectx s)) (are_hashes_readable (ectx s))) (props s)).
Definition set_found (l : list string) : E_ unit :=
  modify (fun s => mk_el (mk_elector (fw_filter (ectx s)) (fw_path (ectx s)) (tlvs (ectx s)) l (blob_hash_value (ectx s))
    (config_hash_value (ectx s)) (miu_folder (ectx s)) (are_hashes_readable (ectx s))) (props s)).
Definition set_config_hash (h : string) : E_ unit :=
  modify (fun s => mk_el (mk_elector (fw_filter (ectx s)) (fw_path (ectx s)) (tlvs (ectx s)) (found_tlvs (ectx s))
    (blob_hash_value (ectx s)) h (miu_folder (ectx s)) (are_hashes_readable (ectx s))) (props s)).

(** ** property.c and file.c *)

(** The first '@' is replaced by the digit of the instance. *)
Fixpoint subst_at (s : string) (digit : ascii) : option string :=
  match s with
  | EmptyString => None
  | String c s' => if Ascii.eqb c "@"%char then Some (String digit s') else String c <$> subst_at s' digit
  end.
Definition instance_digit (inst_id : Z) : ascii := ascii_of_N (Z.to_N (48 + inst_id)).
Definition compute_key (inst_id : Z) (key : string) : string := default key (subst_at key (instance_digit inst_id)).

Definition crm_property_get (inst_id : Z) (key default_value : string) : E_ string :=
  gets (fun s => default default_value (props s !! compute_key inst_id key)).
Definition crm_property_set (inst_id : Z) (key value : string) : E_ unit :=
  modify (fun s => mk_el (ectx s) (<[compute_key inst_id key := value]> (props s))).

(** The content of the file, [None] when it cannot be opened. *)
Definition crm_file_read {S O} (content : option string) (size : nat) : M S O (option string) :=
  match content with
  | None => ret None
  | Some text =>
      DASSERT "value truncated. buffer too small" (negb (size <=? String.length text)%nat) ;;
      ret (if (0 <? String.length text)%nat then Some text else None)
  end.

(** ** elector.c *)

Section elector.
Context (inst_id : Z) (regcomp : string -> bool) (regexec : string -> string -> bool) (md5 : string -> list Z).

Definition is_hash_equal (hash_key hash_value : string) : E_ bool :=
  let* value := crm_property_get inst_id hash_key "" in
  ret (String.eqb value hash_value).

Definition filter_tlv (name : string) : bool :=
  match String.index 0 ".tlv" name with Some _ => true | None => false end.

Definition update_miu_tlvs (fs : file_system) : E_ unit :=
  let* s := get in
  set_found [] ;;
  match miu_dir fs with
  | None => ret tt
  | Some None => fail (DAssertFail "error")
  | Some (Some files) => set_found ((fun name => miu_folder (ectx s) ++ name)%string <$> List.filter filter_tlv files)
  end.

(** [sprintf("%02x")] of each byte of the digest. *)
Definition hex_digit (n : Z) : ascii := ascii_of_N (Z.to_N (if n <? 10 then 48 + n else 87 + n)).
Fixpoint hex (l : list Z) : string :=
  match l with [] => EmptyString | b :: l' => String (hex_digit (b / 16)) (String (hex_digit (b mod 16)) (hex l')) end.

(** What is given to [MD5_Update], in order. *)
Definition config_text (l : list string) (fw : string) : string := (String.concat "" l ++ fw)%string.

Definition compute_config_hash : E_ unit :=
  let* s := get in
  match fw_path (ectx s) with
  | None => fail (AssertFail "i_ctx->fw_path != NULL")
  | Some fw => set_config_hash (hex (md5 (config_text (tlvs (ectx s) ++ found_tlvs (ectx s)) fw)))
  end.

(** The file of the folder that matches; two are refused. *)
Fixpoint search_loop (folder filter : string) (files : list string) (found : option string) : E_ (option string) :=
  match files with
  | [] => ret found
  | name :: files' =>
      if regexec filter name then
        DASSERT "at least two firmware files have been found" (bool_decide (found = None)) ;;
        search_loop folder filter files' (Some (folder ++ name)%string)
      else search_loop folder filter files' found
  end.

Definition search_fw (folder filter : string) (files : list string) : E_ (option string) :=
  DASSERT "wrong filter provided" (regcomp filter) ;;
  search_loop folder filter files None.

Definition fls_filter : string := "\.fls$".

Definition get_fw_path (fs : file_system) : E_ string :=
  let* s := get in
  set_fw_path None ;;
  let* path :=
    match miu_dir fs with
    | Some r => search_fw (miu_folder (ectx s)) fls_filter (default [] r)
    | None => ret None
    end in
  let* path := (match path with Some p => ret (Some p) | None => search_fw FW_FOLDER (fw_filter (ectx s)) (fw_dir fs) end) in
  set_fw_path path ;;
  match path with
  | Some p => ret p
  | None => fail (AssertFail "i_ctx->fw_path != NULL")
  end.

Definition get_rnd_path : E_ string := fail (DAssertFail "not implemented").

(** [None]: the list is NULL and its size 0. *)
Definition get_tlv_list (fs : file_system) : E_ (option (list string)) :=
  let* s := get in
  if are_hashes_readable (ectx s) then
    update_miu_tlvs fs ;;
    compute_config_hash ;;
    let* s := get in
    let* blob_same := is_hash_equal CRM_KEY_BLOB_HASH (blob_hash_value (ectx s)) in
    let* config_same := (if blob_same then is_hash_equal CRM_KEY_CONFIG_HASH (config_hash_value (ectx s)) else ret false) in
    let all := tlvs (ectx s) ++ found_tlvs (ectx s) in
    ret (if (blob_same && config_same) || bool_decide (all = []) then None else Some all)
  else ret None.

Definition notify_fw_flashed (status : Z) : E_ unit := ret tt.

Definition notify_tlv_applied (status : Z) : E_ unit :=
  let* s := get in
  when ((0 =? status) && are_hashes_readable (ectx s))
    (crm_property_set inst_id CRM_KEY_BLOB_HASH (blob_hash_value (ectx s)) ;;
     crm_property_set inst_id CRM_KEY_CONFIG_HASH (config_hash_value (ectx s))).

(** The configuration ([filter] and the names of the TLVs) and the content of the
    file of the blob's hash are arguments. *)
Definition crm_fw_elector_init (filter : string) (names : list string) (blob : option string) (p : gmap string string)
    : outcome elector Empty_set unit :=
  let s := mk_el (mk_elector filter None ((fun n => FW_FOLDER ++ n)%string <$> names) [] "" "" MIU_FOLDER false) p in
  match subst_at MIU_FOLDER (instance_digit inst_id) with
  | None => Abort (AssertFail "find != NULL") []
  | Some miu =>
      (let* value := crm_property_get inst_id CRM_KEY_DATA_PARTITION_ENCRYPTION "" in
       let* blob_hash := (if String.eqb value "trigger_restart_framework" then
           let* h := crm_file_read blob (HASH_SIZE + 1) in
           match h with
           | Some h => ret (Some (String.substring 0 (HASH_SIZE - 1) h))
           | None => fail (DAssertFail "Failed to read blob hash from file")
           end
         else ret None) in
       modify (fun s => mk_el (mk_elector filter None (tlvs (ectx s)) [] (default ""%string blob_hash) "" miu
         (bool_decide (is_Some blob_hash))) (props s))) s
  end.

(** ** Properties *)

(** What CTRL asks for before the modem starts. *)
Definition elect (fs : file_system) : E_ (string * option (list string)) :=
  let* p := get_fw_path fs in
  let* l := get_tlv_list fs in
  ret (p, l).

(** The customization files of the platform. *)
Definition miu_tlvs (c : elector_ctx) (fs : file_system) : list string :=
  match miu_dir fs with
  | Some (Some files) => (fun name => miu_folder c ++ name)%string <$> List.filter filter_tlv files
  | _ => []
  end.
Definition all_tlvs (c : elector_ctx) (fs : file_system) : list string := tlvs c ++ miu_tlvs c fs.

(** What has been recorded. *)
Definition recorded (key : string) (s : elector) : string := default ""%string (props s !! compute_key inst_id key).
Definition up_to_date (s : elector) (text : string) : Prop :=
  recorded CRM_KEY_BLOB_HASH s = blob_hash_value (ectx s) /\ recorded CRM_KEY_CONFIG_HASH s = hex (md5 text).

Definition same_config (c c' : elector_ctx) : Prop :=
  tlvs c' = tlvs c /\ miu_folder c' = miu_folder c /\ blob_hash_value c' = blob_hash_value c /\
  are_hashes_readable c' = are_hashes_readable c.

Lemma wp_search_loop folder filter files found s :
  wp (search_loop folder filter files found) s any_abort (fun _ s' _ => s' = s).
Proof.
  revert found. induction files as [|x files IH]; intros found; cbn; [by apply wp_ret|].
  destruct (regexec filter x); [|apply IH]. apply wp_bind, wp_DASSERT; [|done]. intros _. eapply wp_mono; [apply IH|done|done].
Qed.

Lemma wp_search_fw folder filter files s :
  wp (search_fw folder filter files) s any_abort (fun _ s' _ => s' = s).
Proof.
  apply wp_bind, wp_DASSERT; [|done]. intros _. eapply wp_mono; [apply wp_search_loop|done|done].
Qed.

Lemma wp_get_fw_path fs s :
  wp (get_fw_path fs) s any_abort (fun p s' _ => fw_path (ectx s') = Some p /\ same_config (ectx s) (ectx s') /\
    props s' = props s).
Proof.
  unfold get_fw_path, set_fw_path. apply wp_bind, wp_get, wp_bind, wp_modify, wp_bind.
  eapply (wp_mono _ _ any_abort _ (fun _ s' _ => same_config (ectx s) (ectx s') /\ props s' = props s)); [|done|].
  { destruct (miu_dir fs) as [r|]; [|by apply wp_ret]. eapply wp_mono; [apply wp_search_fw|done|]. by intros ? ? ? ->. }
  intros path s1 o1 [Hs1 Hp1]. apply wp_bind.
  eapply (wp_mono _ _ any_abort _ (fun _ s' _ => s' = s1)); [|done|].
  { destruct path; [by apply wp_ret|apply wp_search_fw]. }
  intros path' s2 o2 ->. apply wp_bind, wp_modify. destruct path'; [|done]. by apply wp_ret.
Qed.

Lemma wp_get_tlv_list fs s p : fw_path (ectx s) = Some p -> are_hashes_readable (ectx s) = true ->
  wp (get_tlv_list fs) s any_abort (fun l s' _ =>
    let text := config_text (all_tlvs (ectx s) fs) p in
    (up_to_date s text \/ all_tlvs (ectx s) fs = [] -> l = None) /\
    (~ up_to_date s text -> all_tlvs (ectx s) fs <> [] -> l = Some (all_tlvs (ectx s) fs)) /\
    same_config (ectx s) (ectx s') /\ props s' = props s /\ config_hash_value (ectx s') = hex (md5 text)).
Proof.
  intros Hp Hr. unfold get_tlv_list, update_miu_tlvs, set_found. apply wp_bind, wp_get. rewrite Hr.
  apply wp_bind, wp_bind, wp_get, wp_bind, wp_modify.
  set (s1 := mk_el (mk_elector (fw_filter (ectx s)) (fw_path (ectx s)) (tlvs (ectx s)) (miu_tlvs (ectx s) fs)
    (blob_hash_value (ectx s)) (config_hash_value (ectx s)) (miu_folder (ectx s)) (are_hashes_readable (ectx s))) (props s)).
  eapply (wp_mono _ _ any_abort _ (fun _ s' _ => s' = s1)); [|done|].
  { unfold s1, miu_tlvs. destruct (miu_dir fs) as [[files|]|]; [by apply wp_modify|done|by apply wp_ret]. }
  intros [] s2 o2 ->. unfold compute_config_hash. apply wp_bind, wp_bind, wp_get.
  change (fw_path (ectx s1)) with (fw_path (ectx s)). rewrite Hp. apply wp_modify, wp_bind, wp_get.
  unfold is_hash_equal, crm_property_get. apply wp_bind, wp_bind, wp_gets, wp_ret, wp_bind. cbn [ectx blob_hash_value].
  set (text := config_text _ _).
  match goal with |- context [String.eqb ?a ?b] => destruct (String.eqb_spec a b) as [Hb|Hb] end.
  - apply wp_bind, wp_gets, wp_ret, wp_ret. cbn [ectx config_hash_value andb].
    match goal with |- context [String.eqb ?a ?b] => destruct (String.eqb_spec a b) as [Hc|Hc] end.
    + split_and!; [done| |done..]. intros []. by split.
    + cbn. case_bool_decide as Ha; split_and!; try done.
      intros [[_ ?]|?]; done.
  - apply wp_ret, wp_ret. cbn [andb orb]. case_bool_decide as Ha; split_and!; try done.
    intros [[? _]|?]; done.
Qed.

Lemma keys_distinct : compute_key inst_id CRM_KEY_BLOB_HASH <> compute_key inst_id CRM_KEY_CONFIG_HASH.
Proof. unfold compute_key. cbn. intros H. by injection H. Qed.

Lemma wp_elect fs s : are_hashes_readable (ectx s) = true ->
  wp (elect fs) s any_abort (fun r s' _ =>
    let text := config_text (all_tlvs (ectx s) fs) r.1 in
    (up_to_date s text \/ all_tlvs (ectx s) fs = [] -> r.2 = None) /\
    (~ up_to_date s text -> all_tlvs (ectx s) fs <> [] -> r.2 = Some (all_tlvs (ectx s) fs)) /\
    same_config (ectx s) (ectx s') /\ props s' = props s /\ config_hash_value (ectx s') = hex (md5 text)).
Proof.
  intros Hr. unfold elect. apply wp_bind. eapply wp_mono; [apply wp_get_fw_path|done|].
  intros p s1 o1 (Hp & (H1 & H2 & H3 & H4) & Hprops). apply wp_bind.
  eapply wp_mono; [by apply (wp_get_tlv_list fs s1 p); [|congruence]|done|].
  assert (all_tlvs (ectx s1) fs = all_tlvs (ectx s) fs) as Ha by (unfold all_tlvs, miu_tlvs; by rewrite H1, H2).
  intros l s2 o2 (G1 & G2 & (G3 & G4 & G5 & G6) & G7 & G8). apply wp_ret. cbn. unfold up_to_date, recorded in *.
  rewrite Ha, Hprops, H3 in *. split_and!; try done. unfold same_config. split_and!; congruence.
Qed.

Lemma notify_applied s : are_hashes_readable (ectx s) = true -> exists s',
  notify_tlv_applied 0 s = Ok tt s' [] /\ ectx s' = ectx s /\
  recorded CRM_KEY_BLOB_HASH s' = blob_hash_value (ectx s) /\
  recorded CRM_KEY_CONFIG_HASH s' = config_hash_value (ectx s).
Proof.
  intros Hr. unfold notify_tlv_applied. rewrite (bind_pass get _ s s s), Hr by done. eexists. split; [reflexivity|].
  split; [done|]. unfold recorded. cbn [props].
  rewrite (lookup_insert_ne (<[_ := _]> _)) by (apply not_eq_sym, keys_distinct).
  split; by rewrite lookup_insert_eq.
Qed.

End elector.

Lemma up_to_date_dec inst_id md5 s text : up_to_date inst_id md5 s text \/ ~ up_to_date inst_id md5 s text.
Proof.
  unfold up_to_date. destruct (decide (recorded inst_id CRM_KEY_BLOB_HASH s = blob_hash_value (ectx s))),
    (decide (recorded inst_id CRM_KEY_CONFIG_HASH s = hex (md5 text))); tauto.
Qed.

(** The text of a digest determines it. *)
Lemma hex_digit_inj a b : 0 <= a < 16 -> 0 <= b < 16 -> hex_digit a = hex_digit b -> a = b.
Proof.
  intros Ha Hb H%(f_equal N_of_ascii). unfold hex_digit in H. rewrite !N_ascii_embedding in H;
    repeat match goal with |- context [if ?c then _ else _] => destruct c end; try lia.
  destruct (Z.ltb_spec a 10), (Z.ltb_spec b 10); lia.
Qed.

Definition is_byte (b : Z) : Prop := 0 <= b < 256.

Lemma hex_inj l l' : Forall is_byte l -> Forall is_byte l' -> hex l = hex l' -> l = l'.
Proof.
  intros Hl. revert l'. induction Hl as [|b l Hb _ IH]; intros [|b' l'] Hl' Heq; try done.
  apply Forall_cons_1 in Hl' as [Hb' Hl']. cbn in Heq. injection Heq as H1 H2 H3. unfold is_byte in *.
  pose proof (Z.div_mod b 16 ltac:(lia)). pose proof (Z.div_mod b' 16 ltac:(lia)).
  pose proof (Z.mod_pos_bound b 16 ltac:(lia)). pose proof (Z.mod_pos_bound b' 16 ltac:(lia)).
  apply hex_digit_inj in H1; [|lia..]. apply hex_digit_inj in H2; [|lia..].
  f_equal; [lia|by apply IH].
Qed.

(** C31. Customization is asked for exactly when it is needed.  When the hashes
    can be read, the elector gives every configured file and every file of the
    MIU folder, in order, or nothing; nothing exactly when the recorded hashes
    are those of the blob and of the present files and firmware, or when there
    is no file.  A failed application records nothing.  After a successful one,
    also when CRM has been restarted with the same configuration, the same files
    and firmware give nothing, and others, whose names have another digest,
    give the whole new list. *)
Theorem elector_applies_once inst_id regcomp regexec md5 fs s p l s1 o1 :
  (forall x, Forall is_byte (md5 x)) ->
  are_hashes_readable (ectx s) = true -> elect inst_id regcomp regexec md5 fs s = Ok (p, l) s1 o1 ->
  let text := config_text (all_tlvs (ectx s) fs) p in
  (l = None <-> up_to_date inst_id md5 s text \/ all_tlvs (ectx s) fs = []) /\
  (l = None \/ l = Some (all_tlvs (ectx s) fs)) /\
  (forall status, status <> 0 -> notify_tlv_applied inst_id status s1 = Ok tt s1 []) /\
  exists s2, notify_tlv_applied inst_id 0 s1 = Ok tt s2 [] /\
    forall t fs' p' l' t' o', same_config (ectx s) (ectx t) -> props t = props s2 ->
      elect inst_id regcomp regexec md5 fs' t = Ok (p', l') t' o' ->
      let text' := config_text (all_tlvs (ectx t) fs') p' in
      (text' = text -> l' = None) /\
      (text' <> text -> (md5 text' = md5 text -> text' = text) -> all_tlvs (ectx t) fs' <> [] ->
        l' = Some (all_tlvs (ectx t) fs')).
Proof.
  intros Hmd5 Hr He text. pose proof (wp_Ok _ _ _ _ _ _ _ (wp_elect inst_id regcomp regexec md5 fs s Hr) He) as Hw.
  cbn in Hw. fold text in Hw. destruct Hw as (H1 & H2 & (G1 & G2 & G3 & G4) & H4 & H5).
  assert (l = None \/ l = Some (all_tlvs (ectx s) fs)) as Hl.
  { destruct (up_to_date_dec inst_id md5 s text); [left; auto|].
    destruct (decide (all_tlvs (ectx s) fs = [])); [left; auto|right; auto]. }
  split; [|split; [done|split]].
  - split; [|auto]. intros ->. destruct (up_to_date_dec inst_id md5 s text) as [|Hn]; [by left|].
    destruct (decide (all_tlvs (ectx s) fs = [])) as [|Ha]; [by right|]. by specialize (H2 Hn Ha).
  - intros status Hst. unfold notify_tlv_applied. rewrite (bind_pass get _ s1 s1 s1) by done.
    by destruct (Z.eqb_spec 0 status); [lia|].
  - destruct (notify_applied inst_id s1 ltac:(congruence)) as (s2 & Hn & Hctx & Hb & Hc). exists s2. split; [done|].
    intros t fs' p' l' t' o' (K1 & K2 & K3 & K4) Hp Ht text'.
    pose proof (wp_Ok _ _ _ _ _ _ _ (wp_elect inst_id regcomp regexec md5 fs' t ltac:(congruence)) Ht) as Hw.
    cbn in Hw. fold text' in Hw. destruct Hw as (L1 & L2 & _).
    assert (up_to_date inst_id md5 t text' <-> hex (md5 text') = hex (md5 text)) as Hu.
    { unfold up_to_date, recorded in *. rewrite Hp, Hb, Hc, H5. split; [by intros [_ ?]|intros ->]. split; [congruence|done]. }
    split.
    + intros Heq. apply L1. left. apply Hu. by rewrite Heq.
    + intros Hne Hcol Ha. apply L2; [|done]. rewrite Hu. intros Hx. apply Hne, Hcol. by apply hex_inj.
Qed.

(** A digest for the example: the length of the text, twice. *)
Definition demo_md5 (x : string) : list Z := [Z.of_nat (String.length x) mod 256; 7].
Definition demo_el : elector :=
  mk_el (mk_elector "fw" None [FW_FOLDER ++ "a.tlv"]%string [] "b10b" "" "/miu_1/" true) ∅.
Definition demo_files : file_system := mk_fs (Some (Some ["readme"; "x.tlv"])) ["fw.fls"; "other"].
Definition demo_regexec (filter name : string) : bool := String.prefix filter name.

Lemma elector_applies_once_witness : exists s1 o1,
  elect 1 (fun _ => true) demo_regexec demo_md5 demo_files demo_el =
    Ok (FW_FOLDER ++ "fw.fls", Some [FW_FOLDER ++ "a.tlv"; "/miu_1/x.tlv"])%string s1 o1 /\
  exists s2, notify_tlv_applied 1 0 s1 = Ok tt s2 [].
Proof.
  eexists _, _. split; [vm_compute; reflexivity|].
  edestruct (elector_applies_once 1 (fun _ => true) demo_regexec demo_md5 demo_files demo_el) as (_ & _ & _ & s2 & Hs & _).
  - intros x. apply Forall_cons_2; [|apply Forall_cons_2; [|apply Forall_nil_2]]; unfold is_byte; [|lia].
    apply Z.mod_pos_bound. lia.
  - reflexivity.
  - vm_compute. reflexivity.
  - exists s2. exact Hs.
Defined.
