(* ===== verification/At.v ===== *)
(** * AT commands (libs/utils/src/at.c)

    [crm_send_at] writes a command to the modem and reads its answer, line by
    line, in a buffer of 2048 bytes: a line OK or ERROR ends the exchange.  The
    buffer is the array of its bytes; complete lines are removed from its front
    by a [memmove] that leaves what follows as it was. *)

From S2P Require Import Prelude.
From Stdlib Require Import ZArith Lia.
From stdpp Require Import base tactics list strings option.

Open Scope Z_scope.
Open Scope crm_scope.

Definition BUFFER_SIZE : nat := 2048.

Record at_buffer : Type := mk_at { buffer : list Z; idx : nat }.

Abbreviation T_ A := (M at_buffer Empty_set A).

Definition OK_LINE : list Z := [79; 75].
Definition ERROR_LINE : list Z := [69; 82; 82; 79; 82].

(** [strstr(buffer, "\r\n")]: the offset of the first CR LF of the C string. *)
Fixpoint strstr_crlf (l : list Z) : option nat :=
  match l with
  | [] => None
  | b :: l' =>
      if b =? 0 then None
      else match l' with
           | c :: _ => if (b =? 13) && (c =? 10) then Some 0%nat else S <$> strstr_crlf l'
           | [] => None
           end
  end.

(** The inner loop: [Some r] when the exchange ends with [r].  An index below
    zero is a huge [size_t], and [memmove] leaves the buffer. *)
Fixpoint lines_loop (fuel : nat) : T_ (option Z) :=
  match fuel with
  | O => fail (Stuck "while ((cr = strstr(buffer, ..)) != NULL)")
  | S fuel' =>
      let* s := get in
      match strstr_crlf (buffer s) with
      | None => ret None
      | Some cr =>
          let buf := <[cr := 0]> (buffer s) in
          let line := take cr buf in
          modify (fun s => mk_at buf (idx s)) ;;
          if bool_decide (line = OK_LINE) then ret (Some 0)
          else if bool_decide (line = ERROR_LINE) then ret (Some (-1))
          else if (idx s <? cr + 2)%nat then fail (Undefined "memmove of a negative size")
          else
            let n := (idx s - (cr + 2))%nat in
            modify (fun _ => mk_at (take n (drop (cr + 2) buf) ++ drop n buf) n) ;;
            lines_loop fuel'
      end
  end.

(** What [poll] reports: the timeout or an error of the device, the abort
    descriptor, nothing that is looked at, data ([None]: [read] fails; no byte
    is the end of the file). *)
Inductive at_poll : Type := AtTimeout | AtAbort | AtNothing | AtIn (chunk : option (list Z)).

(** [read] into the rest of the buffer, then the NUL. *)
Definition append (chunk : list Z) : T_ unit :=
  let* s := get in
  let i := (idx s + length chunk)%nat in
  modify (fun s => mk_at (take (idx s) (buffer s) ++ chunk ++ drop i (buffer s)) i) ;;
  DASSERT "internal buffer too small" (i <? BUFFER_SIZE)%nat ;;
  modify (fun s => mk_at (<[i := 0]> (buffer s)) i).

Fixpoint answer_loop (l : list at_poll) : T_ Z :=
  match l with
  | [] => fail (Stuck "poll")
  | i :: l' =>
      match i with
      | AtTimeout => ret (-1)
      | AtAbort => ret (-2)
      | AtNothing => answer_loop l'
      | AtIn None => ret (-1)
      | AtIn (Some chunk) =>
          if bool_decide (chunk = []) then ret (-1) else
          append chunk ;;
          let* r := lines_loop (S BUFFER_SIZE) in
          match r with Some r => ret r | None => answer_loop l' end
      end
  end.

(** [written] is what [write] returns; [at_cmd] a C string. *)
Definition crm_send_at (fd : Z) (at_cmd : list Z) (written : Z) (l : list at_poll) : T_ Z :=
  ASSERT "fd >= 0" (0 <=? fd) ;;
  let text := at_cmd ++ [13; 10] in
  DASSERT "internal buffer too small" (length text <? BUFFER_SIZE)%nat ;;
  modify (fun s => mk_at (text ++ 0 :: drop (S (length text)) (buffer s)) 0) ;;
  if negb (written =? Z.of_nat (length text)) then ret (-1) else answer_loop l.

(** ** Specification *)

(** The first line of a text, and what follows its CR LF. *)
Fixpoint first_line (l : list Z) : option (list Z * list Z) :=
  match l with
  | [] => None
  | b :: l' =>
      match l' with
      | c :: rest => if (b =? 13) && (c =? 10) then Some ([], rest) else (fun '(x, y) => (b :: x, y)) <$> first_line l'
      | [] => None
      end
  end.

(** The verdict of a text: that of its first OK or ERROR line, or what is left
    after its last complete line. *)
Fixpoint verdict (fuel : nat) (text : list Z) : Z + list Z :=
  match fuel with
  | O => inr text
  | S fuel' =>
      match first_line text with
      | None => inr text
      | Some (line, rest) =>
          if bool_decide (line = OK_LINE) then inl 0
          else if bool_decide (line = ERROR_LINE) then inl (-1)
          else verdict fuel' rest
      end
  end.

(** The answer of a modem whose text comes in pieces. *)
Fixpoint answer (pending : list Z) (l : list at_poll) : option Z :=
  match l with
  | [] => None
  | AtTimeout :: _ | AtIn None :: _ => Some (-1)
  | AtAbort :: _ => Some (-2)
  | AtNothing :: l' => answer pending l'
  | AtIn (Some chunk) :: l' =>
      if bool_decide (chunk = []) then Some (-1) else
      match verdict (S (length (pending ++ chunk))) (pending ++ chunk) with
      | inl r => Some r
      | inr rest => answer rest l'
      end
  end.

(** The pieces a reader can rely on: a piece brings no complete line, or ends
    one; the text has no NUL and fits in the buffer. *)
Fixpoint whole_lines (pending : list Z) (l : list at_poll) : Prop :=
  match l with
  | [] => True
  | AtIn (Some chunk) :: l' =>
      let text := pending ++ chunk in
      (length text < BUFFER_SIZE)%nat /\ (0 ∉ text) /\
      (first_line text = None \/ verdict (S (length text)) text = inr [] \/
       exists r, verdict (S (length text)) text = inl r) /\
      match verdict (S (length text)) text with inl _ => True | inr rest => whole_lines rest l' end
  | _ :: l' => whole_lines pending l'
  end.

(** ** The scan *)

Lemma first_line_cons b c l : first_line (b :: c :: l) =
  if (b =? 13) && (c =? 10) then Some ([], l) else (fun '(x, y) => (b :: x, y)) <$> first_line (c :: l).
Proof. done. Qed.

Lemma strstr_cons b c l : strstr_crlf (b :: c :: l) =
  if b =? 0 then None else if (b =? 13) && (c =? 10) then Some 0%nat else S <$> strstr_crlf (c :: l).
Proof. done. Qed.

Lemma first_line_app l line rest : first_line l = Some (line, rest) -> l = line ++ 13 :: 10 :: rest.
Proof.
  revert line. induction l as [|b [|c l] IH]; intros line H; try done. rewrite first_line_cons in H.
  destruct ((b =? 13) && (c =? 10)) eqn:Hb; [injection H as <- <-; bool_facts; by subst|].
  destruct (first_line (c :: l)) as [[x y]|] eqn:Hf; [|done]. cbn in H. injection H as <- <-. cbn. by rewrite (IH x).
Qed.

(** The offset found in a buffer that begins with a complete line. *)
Lemma strstr_first l line rest junk : (0 ∉ l) -> first_line l = Some (line, rest) ->
  strstr_crlf (l ++ junk) = Some (length line).
Proof.
  revert line. induction l as [|b [|c l] IH]; intros line Hn H; try done. rewrite first_line_cons in H.
  apply not_elem_of_cons in Hn as [Hb Hn]. cbn [app]. rewrite strstr_cons.
  destruct (Z.eqb_spec b 0); [lia|]. destruct ((b =? 13) && (c =? 10)); [by injection H as <- _|].
  destruct (first_line (c :: l)) as [[x y]|] eqn:Hf; [|done]. cbn in H. injection H as <- <-.
  change (c :: l ++ junk) with ((c :: l) ++ junk). rewrite (IH x) by done. done.
Qed.

(** No complete line before a NUL. *)
Lemma strstr_none l junk : first_line l = None -> strstr_crlf (l ++ 0 :: junk) = None.
Proof.
  induction l as [|b [|c l] IH]; intros H; [done| |].
  - cbn. destruct (b =? 0); [done|]. by rewrite andb_false_r.
  - rewrite first_line_cons in H. cbn [app]. rewrite strstr_cons. destruct (b =? 0); [done|]. destruct ((b =? 13) && (c =? 10)); [done|].
    destruct (first_line (c :: l)) as [[x y]|] eqn:Hf; [done|]. cbn [app] in IH. by rewrite IH.
Qed.

Lemma line_no_line l line rest : first_line l = Some (line, rest) -> first_line line = None.
Proof.
  revert line. induction l as [|b [|c l] IH]; intros line H; try done. rewrite first_line_cons in H.
  destruct ((b =? 13) && (c =? 10)) eqn:Hb; [by injection H as <- _|].
  destruct (first_line (c :: l)) as [[x y]|] eqn:Hf; [|done]. cbn in H. injection H as <- <-.
  specialize (IH x eq_refl). pose proof (first_line_app _ _ _ Hf) as He. destruct x as [|d x]; [done|].
  cbn in He. injection He as -> _. rewrite first_line_cons, Hb, IH. done.
Qed.

Lemma verdict_fuel n m text : (length text < n)%nat -> (length text < m)%nat -> verdict n text = verdict m text.
Proof.
  revert m text. induction n as [|n IH]; intros m text Hn Hm; [lia|]. destruct m as [|m]; [lia|]. cbn.
  destruct (first_line text) as [[line rest]|] eqn:Hf; [|done].
  pose proof (first_line_app _ _ _ Hf) as He. rewrite He, length_app in Hn, Hm. cbn in Hn, Hm.
  repeat case_bool_decide; try done. apply IH; lia.
Qed.

(** ** The buffer *)

Lemma insert_app_mid (l1 l2 : list Z) x y : <[length l1 := x]> (l1 ++ y :: l2) = l1 ++ x :: l2.
Proof. by rewrite insert_app_r_alt, Nat.sub_diag by lia. Qed.

Lemma wp_lines fuel T junk s :
  buffer s = T ++ junk -> idx s = length T -> 0 ∉ T -> (length T < fuel)%nat -> is_Some (first_line T) ->
  (verdict (S (length T)) T = inr [] \/ exists r, verdict (S (length T)) T = inl r) ->
  wp (lines_loop fuel) s no_abort (fun r s' _ => length (buffer s') = length (buffer s) /\
    match verdict (S (length T)) T with inl v => r = Some v | inr _ => r = None /\ idx s' = 0%nat end).
Proof.
  revert T junk s. induction fuel as [|fuel IH]; intros T junk s Hb Hi Hn Hf [[line rest] Hl] Hv; [lia|].
  cbn [lines_loop]. apply wp_bind, wp_get. rewrite Hb, (strstr_first _ _ _ _ Hn Hl).
  pose proof (first_line_app _ _ _ Hl) as HT.
  assert (<[length line := 0]> (T ++ junk) = line ++ 0 :: 10 :: rest ++ junk) as Hbuf.
  { rewrite HT, <-app_assoc. apply insert_app_mid. }
  rewrite Hbuf, take_app_length. apply wp_bind, wp_modify.
  assert (length T = length line + 2 + length rest)%nat as HlenT by (rewrite HT, length_app; cbn; lia).
  cbn [verdict] in Hv |- *. rewrite Hl in Hv |- *.
  assert (length (line ++ 0 :: 10 :: rest ++ junk) = length (T ++ junk)) as Hlen.
  { rewrite HT, !length_app. cbn. rewrite !length_app. cbn. lia. }
  case_bool_decide; [by apply wp_ret|].
  case_bool_decide; [by apply wp_ret|].
  rewrite Hi. destruct (Nat.ltb_spec (length T) (length line + 2)); [lia|].
  replace (length T - (length line + 2))%nat with (length rest) by lia.
  assert (drop (length line + 2) (line ++ 0 :: 10 :: rest ++ junk) = rest ++ junk) as ->.
  { by rewrite drop_app_add. }
  rewrite take_app_length. apply wp_bind, wp_modify.
  assert (length (rest ++ drop (length rest) (line ++ 0 :: 10 :: rest ++ junk)) = length (T ++ junk)) as Hlen'.
  { rewrite length_app, length_drop, HT, !length_app. cbn. rewrite !length_app. cbn. lia. }
  assert (0 ∉ rest) as Hnr by (intros Hin; apply Hn; rewrite HT; apply elem_of_app; right; by do 2 right).
  rewrite (verdict_fuel _ (S (length rest))) in Hv |- * by lia.
  destruct rest as [|b rest].
  - cbn [app length drop]. destruct fuel as [|fuel]; [cbn in *; lia|]. cbn [lines_loop]. apply wp_bind, wp_get.
    cbn [buffer]. rewrite ?drop_0, (strstr_none line) by (by eapply line_no_line). by apply wp_ret.
  - assert (is_Some (first_line (b :: rest))) as Hs.
    { destruct (first_line (b :: rest)) as [?|] eqn:Hfr; [done|]. cbn [verdict] in Hv. rewrite Hfr in Hv.
      destruct Hv as [?|[? ?]]; done. }
    eapply wp_mono; [eapply (IH (b :: rest) _); [reflexivity|done|done|lia|done|done]|done|].
    intros r s' o [Hx Hy]. cbn [buffer] in Hx. rewrite Hx. by split.
Qed.

Definition holds (s : at_buffer) (pending : list Z) : Prop :=
  length (buffer s) = BUFFER_SIZE /\ idx s = length pending /\ exists junk, buffer s = pending ++ junk.

Lemma wp_append chunk s pending : holds s pending -> (length (pending ++ chunk) < BUFFER_SIZE)%nat ->
  wp (append chunk) s no_abort (fun _ s' _ => holds s' (pending ++ chunk) /\
    exists junk, buffer s' = (pending ++ chunk) ++ 0 :: junk).
Proof.
  intros (Hl & Hi & junk & Hb) Hfit. unfold append. apply wp_bind, wp_get, wp_bind, wp_modify, wp_bind.
  rewrite length_app in Hfit. rewrite Hi. apply wp_DASSERT; [intros _|rewrite (proj2 (Nat.ltb_lt _ _)) by done; done].
  apply wp_modify. cbn [buffer idx]. rewrite Hb, take_app_length.
  assert (length (pending ++ junk) = BUFFER_SIZE) as Hl' by (by rewrite <-Hb).
  destruct (drop (length pending + length chunk) (pending ++ junk)) as [|x l] eqn:Hd.
  { apply (f_equal length) in Hd. rewrite length_drop in Hd. cbn in Hd. lia. }
  assert (<[(length pending + length chunk)%nat := 0]> (pending ++ chunk ++ x :: l) = (pending ++ chunk) ++ 0 :: l) as ->.
  { rewrite <-length_app, app_assoc. apply insert_app_mid. }
  split; [|by exists l]. split; [|split; [by rewrite length_app|by exists (0 :: l)]]. cbn [buffer].
  apply (f_equal length) in Hd. rewrite length_drop in Hd. rewrite !length_app in *. cbn in *. lia.
Qed.

(** The answer, or the loop still waits. *)
Definition gives (r : option Z) (x : outcome at_buffer Empty_set Z) : Prop :=
  match r with
  | Some v => exists s' o, x = Ok v s' o
  | None => exists o, x = Abort (Stuck "poll") o
  end.

Lemma gives_bind {A} (m : T_ A) k s a s' o r : m s = Ok a s' o -> gives r (k a s') -> gives r (bind m k s).
Proof.
  intros Hm Hk. unfold bind. rewrite Hm. destruct r as [v|]; cbn in *.
  - destruct Hk as (s2 & o2 & ->). by eexists _, _.
  - destruct Hk as (o2 & ->). by eexists.
Qed.

Lemma answer_loop_ok l pending s : holds s pending -> whole_lines pending l ->
  gives (answer pending l) (answer_loop l s).
Proof.
  revert pending s. induction l as [|i l IH]; intros pending s Hh Hw; [by exists []|].
  destruct i as [| | |[chunk|]]; cbn [answer answer_loop]; [by exists s, []|by exists s, []|by apply IH| |by exists s, []].
  case_bool_decide; [by exists s, []|].
  cbn [whole_lines] in Hw. destruct Hw as (Hfit & Hn & Hcase & Hrest).
  destruct (wp_total _ _ _ (wp_append chunk s pending Hh Hfit)) as ([] & s1 & o1 & Ha & Hh1 & junk & Hb1).
  eapply gives_bind; [exact Ha|]. set (text := pending ++ chunk) in *.
  destruct (first_line text) as [x|] eqn:Hf.
  - destruct Hh1 as (Hl1 & Hi1 & _).
    assert (wp (lines_loop (S BUFFER_SIZE)) s1 no_abort (fun r s' _ => length (buffer s') = length (buffer s1) /\
      match verdict (S (length text)) text with inl v => r = Some v | inr _ => r = None /\ idx s' = 0%nat end)) as Hw.
    { eapply (wp_lines _ text (0 :: junk)); [done|done|done|lia|by rewrite Hf|]. destruct Hcase as [?|?]; done. }
    destruct (wp_total _ _ _ Hw) as (r & s2 & o2 & Hr & Hl2 & Hv). eapply gives_bind; [exact Hr|].
    destruct (verdict (S (length text)) text) as [v|rest] eqn:Hver.
    + subst r. by eexists _, _.
    + destruct Hv as [-> Hi2]. assert (rest = []) as ->.
      { destruct Hcase as [?|[[= ->]|[? ?]]]; done. }
      apply IH; [|done]. split; [lia|split; [done|by exists (buffer s2)]].
  - assert (verdict (S (length text)) text = inr text) as Hver by (cbn; by rewrite Hf). rewrite Hver in Hrest |- *.
    assert (lines_loop (S BUFFER_SIZE) s1 = Ok None s1 []) as Hr.
    { cbn [lines_loop]. rewrite (bind_pass get _ s1 s1 s1) by done. by rewrite Hb1, (strstr_none text). }
    eapply gives_bind; [exact Hr|]. by apply IH.
Qed.

Definition text (s : string) : list Z := (fun c => Z.of_N (Ascii.N_of_ascii c)) <$> String.list_ascii_of_string s.
Definition CRLF : list Z := [13; 10].

(** C32. The answer of the modem.  When the text the modem sends has no NUL and
    fits in the buffer, and every piece of it that brings a complete line either
    ends with a line end or contains the line OK or ERROR that answers, then
    [crm_send_at] returns 0 or -1 by the first line OK or ERROR of the text, -1
    when the modem is silent or its descriptor fails, -2 when the wait is aborted,
    and else still waits; the loop over the lines of a piece ends. *)
Theorem at_answer_read fd cmd l s :
  0 <= fd -> (length cmd + 2 < BUFFER_SIZE)%nat -> length (buffer s) = BUFFER_SIZE -> whole_lines [] l ->
  gives (answer [] l) (crm_send_at fd cmd (Z.of_nat (length cmd) + 2) l s).
Proof.
  intros Hfd Hc Hb Hw. unfold crm_send_at.
  eapply gives_bind; [unfold ASSERT; rewrite (proj2 (Z.leb_le _ _) Hfd); reflexivity|].
  eapply gives_bind; [unfold DASSERT; rewrite length_app; cbn [length]; rewrite (proj2 (Nat.ltb_lt _ _) Hc); reflexivity|].
  eapply gives_bind; [reflexivity|]. rewrite length_app. cbn [length].
  replace (Z.of_nat (length cmd) + 2 =? Z.of_nat (length cmd + 2)) with true by (symmetry; apply Z.eqb_eq; lia). cbn [negb].
  apply answer_loop_ok; [|done]. split; [|split; [done|by eexists]]. cbn [buffer].
  rewrite !length_app. cbn [length]. rewrite length_drop. lia.
Qed.

(** The piece that ends inside a line after complete ones: the NUL that ends the
    text is not moved with it, so what is behind is read again.  An echo and an
    empty line before an OK cut from its line end make [memmove] move a
    negative size; after one line only, the same cut does no harm. *)
Example cut_answer_misread :
  crm_send_at 3 (text "AT") 4 [AtIn (Some (text "AT" ++ CRLF ++ CRLF ++ OK_LINE)); AtIn (Some CRLF)]
    (mk_at (replicate BUFFER_SIZE 0) 0) = Abort (Undefined "memmove of a negative size") [] /\
  answer [] [AtIn (Some (text "AT" ++ CRLF ++ CRLF ++ OK_LINE)); AtIn (Some CRLF)] = Some 0 /\
  exists s o, crm_send_at 3 (text "AT") 4 [AtIn (Some (text "HELLO" ++ CRLF ++ text "O")); AtIn (Some (text "K" ++ CRLF))]
    (mk_at (replicate BUFFER_SIZE 0) 0) = Ok 0 s o.
Proof.
  split; [vm_compute; reflexivity|]. split; [vm_compute; reflexivity|]. eexists _, _. vm_compute. reflexivity.
Qed.

Lemma at_answer_read_witness : exists s' o,
  crm_send_at 3 (text "AT") 4 [AtIn (Some (text "AT" ++ CRLF)); AtNothing; AtIn (Some (OK_LINE ++ CRLF))]
    (mk_at (replicate BUFFER_SIZE 0) 0) = Ok 0 s' o.
Proof.
  apply (at_answer_read 3 (text "AT") [AtIn (Some (text "AT" ++ CRLF)); AtNothing; AtIn (Some (OK_LINE ++ CRLF))]).
  - lia.
  - by apply (bool_decide_unpack _); vm_compute.
  - reflexivity.
  - split; [by apply (bool_decide_unpack _); vm_compute|].
    split; [by apply (bool_decide_unpack _); vm_compute|]. split; [by right; left|]. cbn.
    split; [by apply (bool_decide_unpack _); vm_compute|].
    split; [by apply (bool_decide_unpack _); vm_compute|]. split; [|done]. right. right. by exists 0.
Defined.
