(* ===== verification/Custo.v ===== *)
(** * The customization plugin (plugins/customization/src/customization.c)

    The thread started by [send] cuts each TLV file in chunks of 256 bytes, gives
    every chunk to the modem as an AT command with the decimal values of its
    bytes, then asks for the execution.  The files and what the modem answers are
    arguments; a command goes through [crm_send_at] (At.v).  A C string is the
    list of its bytes. *)

From S2P Require Import Prelude MdmCli Wire At.
From Stdlib Require Import ZArith Lia.
From stdpp Require Import base tactics list strings option.

Open Scope Z_scope.
Open Scope crm_scope.

Definition TLV_CHUNK : Z := 256.
Definition TLV_ENCODED_CHUNK : Z := TLV_CHUNK * 4 + 100.

(** [crm_customization_internal_ctx_t]; [tlvs_nb] is the length of [tlvs]. *)
Record custo_ctx : Type := mk_custo {
  tlvs : option (list string);
  op_ongoing : bool;
  tlv_node : string;
}.

Inductive custo_out : Type :=
| ThreadInit
| SentAt (at_cmd : list Z) (err : Z)
| NotifyTlvFailure (path : string)
| NotifyStatus (err : Z).

Abbreviation C_ A := (M custo_ctx custo_out A).

(** ** Decimal numbers ([%d] and [%zu]) *)

Fixpoint dec_rev (fuel : nat) (n : Z) : list Z :=
  match fuel with
  | O => []
  | S fuel' => if n <? 10 then [48 + n] else (48 + n mod 10) :: dec_rev fuel' (n / 10)
  end.

(** Twenty digits are enough for a [size_t]. *)
Definition dec (n : Z) : list Z := rev (dec_rev 20 n).

(** ** The command of a chunk *)

Definition gti_header : list Z := string_bytes "AT@gticom:config_script[".
Definition run_configuration : list Z := string_bytes "AT@gticom:run_configuration()".

(** [gti_idx += snprintf(&gti_cmd[gti_idx], ...)] followed by the assertion on
    [gti_idx], which fails when the text was cut. *)
Definition append_text (gti text : list Z) : C_ (list Z) :=
  ASSERT "gti_idx < sizeof(gti_cmd)" (Z.of_nat (length (gti ++ text)) <? TLV_ENCODED_CHUNK) ;;
  ret (gti ++ text).

Fixpoint append_bytes (gti chunk : list Z) : C_ (list Z) :=
  match chunk with
  | [] => ret gti
  | b :: chunk' =>
      let* gti := append_text gti (dec b ++ [44]) in
      append_bytes gti chunk'
  end.

(** The first [snprintf] is not followed by an assertion; the last comma is
    replaced. *)
Definition gti_cmd (offset : Z) (chunk : list Z) : C_ (list Z) :=
  let gti := gti_header ++ dec offset ++ string_bytes "]={" in
  if TLV_ENCODED_CHUNK <=? Z.of_nat (length gti) then fail (Undefined "gti_cmd[gti_idx] out of bounds") else
  let* gti := append_bytes gti chunk in
  ASSERT "gti_idx > 0" (0 <? Z.of_nat (length gti)) ;;
  append_text (take (length gti - 1) gti) [125].

Section plugin.

(** [file]: the content of a file, [None] when it cannot be read; [node_fd]: the
    descriptor of the modem's node; [junk]: the buffer of [crm_send_at] before it
    is used. *)
Context (file : string -> option (list Z)) (node_fd : Z) (junk : list Z).

(** What the modem does for one command: what [write] returns, what [poll]
    reports. *)
Definition at_answer : Type := Z * list at_poll.

Definition send_at (at_cmd : list Z) (answers : list at_answer) : C_ (Z * list at_answer) := fun s =>
  match answers with
  | [] => Abort (Stuck "modem") []
  | (written, polls) :: rest =>
      match crm_send_at node_fd at_cmd written polls (mk_at junk 0) with
      | Ok err _ _ => Ok (err, rest) s [SentAt at_cmd err]
      | Abort r _ => Abort r []
      end
  end.

Definition load_tlv_file (path : string) : C_ (list Z) :=
  match file path with
  | Some data => ret data
  | None => fail (DAssertFail "open or read failed")
  end.

(** The chunks of a file from [data_idx], [n] of them at most. *)
Fixpoint send_chunks (n : nat) (data_idx : Z) (tlv_data : list Z) (err : Z) (answers : list at_answer)
    : C_ (Z * list at_answer) :=
  match n with
  | O => ret (err, answers)
  | S n' =>
      if err =? 0 then
        let chunk := take (Z.to_nat (Z.min TLV_CHUNK (Z.of_nat (length tlv_data) - data_idx * TLV_CHUNK)))
                       (drop (Z.to_nat (data_idx * TLV_CHUNK)) tlv_data) in
        let* cmd := gti_cmd (data_idx * TLV_CHUNK) chunk in
        let* r := send_at cmd answers in
        send_chunks n' (data_idx + 1) tlv_data r.1 r.2
      else ret (err, answers)
  end.

Definition send_tlv (path : string) (answers : list at_answer) : C_ (Z * list at_answer) :=
  let* tlv_data := load_tlv_file path in
  let nb := (Z.of_nat (length tlv_data) + TLV_CHUNK - 1) / TLV_CHUNK in
  let* r := send_chunks (Z.to_nat nb) 0 tlv_data 0 answers in
  let* r := (if r.1 =? 0 then send_at run_configuration r.2 else ret r) in
  when (negb (r.1 =? 0)) (emit (NotifyTlvFailure path)) ;;
  ret r.

Fixpoint send_tlvs (l : list string) (err : Z) (answers : list at_answer) : C_ Z :=
  match l with
  | [] => ret err
  | path :: l' =>
      if err =? 0 then
        let* r := send_tlv path answers in
        send_tlvs l' r.1 r.2
      else ret err
  end.

Definition write_tlvs (answers : list at_answer) : C_ unit :=
  let* s := get in
  match tlvs s with
  | None => fail (AssertFail "i_ctx->tlvs != NULL")
  | Some l => (* the closing of the node, asserted to work, has no effect here *)
      ASSERT "i_ctx->op_ongoing == false" (negb (op_ongoing s)) ;;
      modify (fun s => mk_custo (tlvs s) true (tlv_node s)) ;;
      DASSERT "open failed" (0 <=? node_fd) ;;
      let* err := send_tlvs l 0 answers in
      modify (fun s => mk_custo None (op_ongoing s) (tlv_node s)) ;;
      modify (fun s => mk_custo (tlvs s) false (tlv_node s)) ;;
      emit (NotifyStatus err)
  end.

End plugin.

(** [tlv_list] is not null. *)
Definition send (tlv_list : list string) : C_ unit :=
  let* s := get in
  ASSERT "nb > 0" (0 <? Z.of_nat (length tlv_list)) ;;
  ASSERT "i_ctx->op_ongoing == false" (negb (op_ongoing s)) ;;
  ASSERT "i_ctx->tlvs == NULL" (bool_decide (tlvs s = None)) ;;
  modify (fun s => mk_custo (Some tlv_list) (op_ongoing s) (tlv_node s)) ;;
  emit ThreadInit.

(** [node]: the string of the configuration. *)
Definition crm_customization_init (node : option string) : C_ unit :=
  match node with
  | Some n => modify (fun _ => mk_custo None false n)
  | None => fail (AssertFail "i_ctx->tlv_node != NULL")
  end.

(** ** The commands as the modem reads them *)

Definition is_digit (b : Z) : bool := (48 <=? b) && (b <=? 57).

Fixpoint span_digits (l : list Z) : list Z * list Z :=
  match l with
  | b :: l' => if is_digit b then (fun '(x, y) => (b :: x, y)) (span_digits l') else ([], l)
  | [] => ([], [])
  end.

Definition value (ds : list Z) : Z := foldl (fun a d => 10 * a + (d - 48)) 0 ds.

Definition read_num (l : list Z) : option (Z * list Z) :=
  match span_digits l with
  | ([], _) => None
  | (ds, r) => Some (value ds, r)
  end.

Fixpoint strip (p l : list Z) : option (list Z) :=
  match p, l with
  | [], _ => Some l
  | a :: p', b :: l' => if a =? b then strip p' l' else None
  | _ :: _, [] => None
  end.

(** Numbers separated by commas, up to the closing brace. *)
Fixpoint read_nums (fuel : nat) (l : list Z) : option (list Z) :=
  match fuel with
  | O => None
  | S fuel' =>
      match read_num l with
      | Some (n, 44 :: l') => cons n <$> read_nums fuel' l'
      | Some (n, [125]) => Some [n]
      | _ => None
      end
  end.

Inductive gti : Type := Script (offset : Z) (values : list Z) | Run.

Definition read_cmd (l : list Z) : option gti :=
  if bool_decide (l = run_configuration) then Some Run else
  match strip gti_header l with
  | Some l =>
      match read_num l with
      | Some (offset, l) =>
          match strip (string_bytes "]={") l with
          | Some l => Script offset <$> read_nums (length l) l
          | None => None
          end
      | None => None
      end
  | None => None
  end.

(** *** Numbers *)

Lemma dec_rev_spec fuel n : 0 <= n < 10 ^ Z.of_nat fuel -> (0 < fuel)%nat ->
  value (rev (dec_rev fuel n)) = n /\ Forall (fun b => 48 <= b <= 57) (dec_rev fuel n) /\ dec_rev fuel n <> [] /\
  (forall k : nat, (0 < k)%nat -> n < 10 ^ Z.of_nat k -> (length (dec_rev fuel n) <= k)%nat).
Proof.
  revert n. induction fuel as [|fuel IH]; intros n Hn Hf; [lia|]. cbn [dec_rev]. destruct (Z.ltb_spec n 10).
  - split; [cbn; lia|]. split; [constructor; [lia|constructor]|]. split; [done|]. cbn. lia.
  - rewrite Nat2Z.inj_succ, Z.pow_succ_r in Hn by lia.
    assert (Hd : 0 <= n / 10 < 10 ^ Z.of_nat fuel) by (split; [apply Z.div_pos; lia|apply Z.div_lt_upper_bound; lia]).
    destruct fuel as [|fuel]; [cbn in Hd; assert (1 <= n / 10) by (apply Z.div_le_lower_bound; lia); lia|].
    destruct (IH (n / 10) Hd ltac:(lia)) as (Hv & Hdig & Hne & Hlen). pose proof (Z.mod_pos_bound n 10 ltac:(lia)).
    split; [|split; [constructor; [lia|done]|split; [done|]]].
    + cbn [rev]. unfold value in *. rewrite foldl_app, Hv. cbn. pose proof (Z.div_mod n 10 ltac:(lia)). lia.
    + intros [|k] Hk Hnk; [lia|]. cbn. apply le_n_S. destruct k as [|k].
      * cbn in Hnk. lia.
      * apply Hlen; [lia|]. rewrite Nat2Z.inj_succ, Z.pow_succ_r in Hnk by lia. apply Z.div_lt_upper_bound; lia.
Qed.

Lemma dec_spec n : 0 <= n < 10 ^ 20 ->
  value (dec n) = n /\ Forall (fun b => 48 <= b <= 57) (dec n) /\ dec n <> [] /\
  (forall k : nat, (0 < k)%nat -> n < 10 ^ Z.of_nat k -> (length (dec n) <= k)%nat).
Proof.
  intros Hn. destruct (dec_rev_spec 20 n Hn ltac:(lia)) as (H1 & H2 & H3 & H4). unfold dec.
  split; [done|]. split; [by apply List.Forall_rev|]. split; [by intros E; apply (f_equal (@rev Z)) in E; rewrite rev_involutive in E|].
  intros k Hk Hnk. rewrite length_rev. by apply H4.
Qed.

Lemma read_num_dec n b r : 0 <= n < 10 ^ 20 -> is_digit b = false -> read_num (dec n ++ b :: r) = Some (n, b :: r).
Proof.
  intros Hn Hb. destruct (dec_spec n Hn) as (Hv & Hd & Hne & _). unfold read_num.
  assert (forall ds, Forall (fun b => 48 <= b <= 57) ds -> span_digits (ds ++ b :: r) = (ds, b :: r)) as Hs.
  { induction 1 as [|d ds Hdd _ IH]; cbn; [by rewrite Hb|]. rewrite IH. unfold is_digit.
    by rewrite (proj2 (Z.leb_le _ _)), (proj2 (Z.leb_le _ _)) by lia. }
  rewrite Hs by done. rewrite <- Hv at 2. by destruct (dec n).
Qed.

Lemma strip_app p l : strip p (p ++ l) = Some l.
Proof. induction p as [|a p IH]; cbn; [by destruct l|]. by rewrite Z.eqb_refl. Qed.

(** *** The command of a chunk *)

Definition comma_text (chunk : list Z) : list Z := concat ((fun b => dec b ++ [44]) <$> chunk).

(** The same with the last comma replaced by the brace. *)
Fixpoint brace_text (chunk : list Z) : list Z :=
  match chunk with
  | [] => []
  | [b] => dec b ++ [125]
  | b :: chunk' => dec b ++ 44 :: brace_text chunk'
  end.

Definition cmd_text (offset : Z) (chunk : list Z) : list Z :=
  gti_header ++ dec offset ++ string_bytes "]={" ++ brace_text chunk.

Lemma byte_dec b : 0 <= b < 256 -> (length (dec b) <= 3)%nat.
Proof. intros Hb. apply (dec_spec b); [|lia|]; [split; [lia|]|]; cbn; lia. Qed.

Lemma comma_text_length chunk : bytes chunk -> Z.of_nat (length (comma_text chunk)) <= 4 * Z.of_nat (length chunk).
Proof.
  induction 1 as [|b chunk Hb _ IH]; [done|]. unfold comma_text in *. cbn -[Z.of_nat dec]. rewrite !length_app. cbn [length].
  pose proof (byte_dec b Hb). lia.
Qed.

Lemma brace_comma chunk : chunk <> [] -> exists t, comma_text chunk = t ++ [44] /\ brace_text chunk = t ++ [125].
Proof.
  induction chunk as [|b chunk IH]; [done|]. intros _. destruct chunk as [|b' chunk].
  - exists (dec b). split; [|done]. unfold comma_text. cbn -[dec]. by rewrite app_nil_r.
  - destruct IH as (t & Ht & Hb); [done|]. exists (dec b ++ 44 :: t). split.
    + unfold comma_text in *. cbn [fmap list_fmap concat] in *. rewrite Ht, <- !app_assoc. done.
    + change (brace_text (b :: b' :: chunk)) with (dec b ++ 44 :: brace_text (b' :: chunk)). rewrite Hb, <- !app_assoc. done.
Qed.

Lemma append_text_run gti text s : Z.of_nat (length (gti ++ text)) < TLV_ENCODED_CHUNK -> append_text gti text s = Ok (gti ++ text) s [].
Proof. intros H. unfold append_text, ASSERT. by rewrite (proj2 (Z.ltb_lt _ _) H). Qed.

Lemma append_bytes_run chunk gti s : bytes chunk ->
  Z.of_nat (length gti) + 4 * Z.of_nat (length chunk) < TLV_ENCODED_CHUNK ->
  append_bytes gti chunk s = Ok (gti ++ comma_text chunk) s [].
Proof.
  intros Hc. revert gti. induction Hc as [|b chunk Hb _ IH]; intros gti Hl; cbn [append_bytes]; [by rewrite app_nil_r|].
  pose proof (byte_dec b Hb). cbn [length] in Hl.
  erewrite bind_pass; [|apply append_text_run; rewrite !length_app; cbn [length]; lia].
  rewrite IH by (rewrite !length_app; cbn [length]; lia). unfold comma_text. cbn [fmap list_fmap concat]. by rewrite <- !app_assoc.
Qed.

Definition small_offset (offset : Z) : Prop := 0 <= offset < 10 ^ 20.

Lemma gti_prefix_length offset : small_offset offset ->
  Z.of_nat (length (gti_header ++ dec offset ++ string_bytes "]={")) <= 47.
Proof.
  intros Ho. destruct (dec_spec offset Ho) as (_ & _ & _ & Hl). pose proof (Hl 20%nat ltac:(lia) ltac:(apply Ho)).
  rewrite !length_app. change (length gti_header) with 24%nat. change (length (string_bytes "]={")) with 3%nat. lia.
Qed.

(** Whatever the bytes, the text fits: no assertion fails. *)
Lemma gti_cmd_run offset chunk s : small_offset offset -> bytes chunk -> chunk <> [] -> (length chunk <= 256)%nat ->
  gti_cmd offset chunk s = Ok (cmd_text offset chunk) s [] /\ Z.of_nat (length (cmd_text offset chunk)) < TLV_ENCODED_CHUNK.
Proof.
  intros Ho Hc Hne Hl. pose proof (gti_prefix_length offset Ho) as Hp. destruct (brace_comma chunk Hne) as (t & Ht & Hb).
  pose proof (comma_text_length chunk Hc) as Hcl. rewrite Ht, length_app in Hcl. cbn [length] in Hcl.
  unfold gti_cmd, cmd_text. set (p := gti_header ++ dec offset ++ string_bytes "]={") in *.
  assert (Hfull : Z.of_nat (length ((p ++ t) ++ [125])) < TLV_ENCODED_CHUNK).
  { rewrite !length_app. cbn [length]. unfold TLV_ENCODED_CHUNK, TLV_CHUNK. lia. }
  rewrite Hb, !(app_assoc _ _ (t ++ _)). fold p. rewrite (app_assoc p t). split; [|done].
  rewrite (proj2 (Z.leb_gt _ _)) by (unfold TLV_ENCODED_CHUNK, TLV_CHUNK; lia).
  erewrite bind_pass; [|apply append_bytes_run; [done|unfold TLV_ENCODED_CHUNK, TLV_CHUNK; lia]].
  rewrite Ht, app_assoc, length_app. cbn [length]. unfold ASSERT. rewrite (proj2 (Z.ltb_lt _ _)) by lia.
  rewrite (bind_pass _ _ s tt s) by done. rewrite Nat.add_sub, take_app_length. by apply append_text_run.
Qed.

Lemma read_nums_brace chunk n : bytes chunk -> chunk <> [] -> (length chunk <= n)%nat -> read_nums n (brace_text chunk) = Some chunk.
Proof.
  intros Hc. revert n. induction Hc as [|b chunk Hb _ IH]; intros n Hne Hn; [done|]. destruct n as [|n]; cbn [length] in Hn; [lia|].
  assert (Hs : 0 <= b < 10 ^ 20) by lia. cbn [read_nums]. destruct chunk as [|b' chunk].
  - cbn [brace_text]. by rewrite read_num_dec.
  - change (brace_text (b :: b' :: chunk)) with (dec b ++ 44 :: brace_text (b' :: chunk)). rewrite read_num_dec by done.
    by rewrite IH by (done || lia).
Qed.

Lemma brace_length chunk : (length chunk <= length (brace_text chunk))%nat.
Proof.
  induction chunk as [|b [|b' chunk] IH]; [done|cbn -[dec]; rewrite length_app; cbn; lia|].
  change (brace_text (b :: b' :: chunk)) with (dec b ++ 44 :: brace_text (b' :: chunk)). rewrite length_app. cbn [length] in *. lia.
Qed.

Lemma read_cmd_text offset chunk : small_offset offset -> bytes chunk -> chunk <> [] ->
  read_cmd (cmd_text offset chunk) = Some (Script offset chunk).
Proof.
  intros Ho Hc Hne. unfold read_cmd, cmd_text. rewrite bool_decide_eq_false_2 by done. rewrite strip_app.
  change (string_bytes "]={" ++ brace_text chunk) with (93 :: [61; 123] ++ brace_text chunk). rewrite read_num_dec by done.
  change (93 :: [61; 123] ++ brace_text chunk) with (string_bytes "]={" ++ brace_text chunk). rewrite strip_app.
  by rewrite read_nums_brace by (done || apply brace_length).
Qed.

Lemma read_cmd_run : read_cmd run_configuration = Some Run.
Proof. by vm_compute. Qed.

(** ** Specification *)

(** The chunks of a file, [n] of them from the [k]-th. *)
Fixpoint chunks_from (n : nat) (k : Z) (data : list Z) : list gti :=
  match n with
  | O => []
  | S n' => Script (k * TLV_CHUNK) (take 256 (drop (Z.to_nat (k * TLV_CHUNK)) data)) :: chunks_from n' (k + 1) data
  end.
Definition nb_chunks (data : list Z) : nat := Z.to_nat ((Z.of_nat (length data) + TLV_CHUNK - 1) / TLV_CHUNK).
Definition tlv_cmds (data : list Z) : list gti := chunks_from (nb_chunks data) 0 data ++ [Run].

Definition out_of (sent : list (list Z * Z)) : list custo_out := (fun x => SentAt x.1 x.2) <$> sent.

(** The commands sent are the first ones expected, all of them when there is no
    error; every answer but a last one, the error, is a success. *)
Record delivered (spec : list gti) (sent : list (list Z * Z)) (err : Z) : Prop := {
  de_cmds : read_cmd <$> sent.*1 = Some <$> take (length sent) spec;
  de_last : err = 0 /\ length sent = length spec /\ Forall (fun e => e = 0) (sent.*2) \/
            err <> 0 /\ (length sent <= length spec)%nat /\ exists sent', Forall (fun e => e = 0) sent' /\ sent.*2 = sent' ++ [err];
}.

Lemma delivered_nil : delivered [] [] 0.
Proof. split; [done|]. left. by split_and!. Qed.

Lemma delivered_app s1 t1 s2 t2 e : delivered s1 t1 0 -> delivered s2 t2 e -> delivered (s1 ++ s2) (t1 ++ t2) e.
Proof.
  intros [H1 [(_ & Hl1 & Ha1)|[? _]]] [H2 Hd2]; [|done]. split.
  - rewrite !fmap_app, H1, H2, <- fmap_app. f_equal. rewrite length_app, take_app. f_equal; [by rewrite !take_ge by lia|].
    f_equal. lia.
  - rewrite !length_app, fmap_app. destruct Hd2 as [(He & Hl2 & Ha2)|(He & Hl2 & s' & Hs' & Hs)].
    + left. split_and!; [done|lia|by apply Forall_app].
    + right. split_and!; [done|lia|]. exists (t1.*2 ++ s'). rewrite Hs, app_assoc. split; [by apply Forall_app|done].
Qed.

Lemma delivered_fail s1 t1 s2 e : e <> 0 -> delivered s1 t1 e -> delivered (s1 ++ s2) t1 e.
Proof.
  intros He [H1 [(? & _)|(_ & Hl & Hs)]]; [done|]. split; [by rewrite take_app_le by lia|]. right. rewrite length_app. split_and!; [done|lia|done].
Qed.

Lemma delivered_one c cmd e : read_cmd cmd = Some c -> delivered [c] [(cmd, e)] e.
Proof.
  intros Hc. split; [cbn; by rewrite Hc|]. destruct (decide (e = 0)) as [->|He]; [left|right].
  - split_and!; [done|done|]. by constructor.
  - split_and!; [done|done|]. by exists [].
Qed.

Section delivery.
Context (file : string -> option (list Z)) (node_fd : Z) (junk : list Z).
#[local] Abbreviation send_at := (send_at node_fd junk).
#[local] Abbreviation send_chunks := (send_chunks node_fd junk).
#[local] Abbreviation send_tlv := (send_tlv file node_fd junk).
#[local] Abbreviation send_tlvs := (send_tlvs file node_fd junk).

(** [crm_send_at] returns, with whatever value. *)
Definition responsive (a : at_answer) : Prop :=
  forall cmd, Z.of_nat (length cmd) < TLV_ENCODED_CHUNK -> exists err b o, crm_send_at node_fd cmd a.1 a.2 (mk_at junk 0) = Ok err b o.

Lemma wp_send_at cmd c answers s : read_cmd cmd = Some c -> Z.of_nat (length cmd) < TLV_ENCODED_CHUNK ->
  Forall responsive answers -> answers <> [] ->
  wp (send_at cmd answers) s no_abort (fun r s' o => s' = s /\ exists sent, o = out_of sent /\ r.2 = drop (length sent) answers /\
    delivered [c] sent r.1).
Proof.
  intros Hc Hl Ha Hne. unfold Custo.send_at, wp. destruct answers as [|[w polls] rest]; [done|].
  apply Forall_cons_1 in Ha as [Ha _]. destruct (Ha cmd Hl) as (err & b & o & He). cbn in He. rewrite He.
  split; [done|]. exists [(cmd, err)]. split_and!; [done|done|]. by apply delivered_one.
Qed.

(** What one part of the work ensures: [spec] is delivered, the answers used. *)
Definition sends (spec : list gti) (answers : list at_answer) (s : custo_ctx) (r : Z * list at_answer) (s' : custo_ctx) (o : list custo_out) : Prop :=
  s' = s /\ exists sent, o = out_of sent /\ r.2 = drop (length sent) answers /\ delivered spec sent r.1.

Lemma wp_send_chunks n k data answers s : bytes data -> Z.of_nat (length data) < 2 ^ 64 -> 0 <= k ->
  (Z.of_nat n + k - 1) * TLV_CHUNK < Z.of_nat (length data) \/ n = 0%nat -> Forall responsive answers -> (n <= length answers)%nat ->
  wp (send_chunks n k data 0 answers) s no_abort (sends (chunks_from n k data) answers s).
Proof.
  intros Hd Hl. revert k answers. induction n as [|n IH]; intros k answers Hk Hn Ha Hlen.
  { apply wp_ret. split; [done|]. exists []. split_and!; [done|done|apply delivered_nil]. }
  destruct Hn as [Hn|Hn]; [|discriminate Hn]. unfold TLV_CHUNK in *. cbn [Custo.send_chunks Z.eqb chunks_from].
  set (off := Z.to_nat (k * TLV_CHUNK)). unfold TLV_CHUNK in *.
  assert (Hoff : (off < length data)%nat) by (subst off; lia).
  assert (Hch : take (Z.to_nat (Z.min 256 (Z.of_nat (length data) - k * 256))) (drop off data) = take 256 (drop off data)).
  { destruct (decide (Z.of_nat (length data) - k * 256 < 256)).
    - rewrite !take_ge by (rewrite length_drop; subst off; lia). done.
    - f_equal. lia. }
  rewrite Hch. set (chunk := take 256 (drop off data)) in *.
  assert (Hcl : (0 < length chunk <= 256)%nat) by (subst chunk; rewrite length_take, length_drop; lia).
  assert (Hcb : bytes chunk) by (by apply Forall_take, Forall_drop).
  assert (Hcn : chunk <> []) by (intros E; rewrite E in Hcl; cbn in Hcl; lia).
  assert (Ho : small_offset (k * 256)) by (unfold small_offset; lia).
  destruct (gti_cmd_run (k * 256) chunk s Ho Hcb Hcn ltac:(lia)) as [Hrun Hshort].
  apply wp_bind. unfold wp at 1. rewrite Hrun. cbn beta iota. apply wp_bind.
  assert (Hans : answers <> []) by (destruct answers; cbn in Hlen; [lia|done]).
  eapply wp_mono; [apply (wp_send_at _ (Script (k * 256) chunk)); [by apply read_cmd_text|done|done|done]|done|].
  cbn. intros [err rest] s' o (-> & sent & -> & Hrest & Hdel). cbn in *. subst rest.
  destruct (decide (err = 0)) as [->|He].
  - assert (Hs1 : length sent = 1%nat) by (destruct Hdel as [_ [(_ & -> & _)|[? _]]]; done).
    eapply wp_mono; [apply IH; [lia|destruct n; [by right|left; lia]|by apply Forall_drop|rewrite Hs1, length_drop; lia]|done|].
    cbn. intros [err rest] s' o (-> & sent' & -> & Hrest & Hdel'). split; [done|]. exists (sent ++ sent').
    unfold out_of. rewrite fmap_app, length_app. split_and!; [done|by rewrite Hrest, drop_drop|].
    by apply (delivered_app [Script (k * 256) chunk]).
  - assert (wp (send_chunks n (k + 1) data err (drop (length sent) answers)) s no_abort
      (fun r s' o => r = (err, drop (length sent) answers) /\ s' = s /\ o = [])) as Hstop.
    { destruct n; cbn [Custo.send_chunks]; [apply wp_ret; split_and!; reflexivity|].
      rewrite (proj2 (Z.eqb_neq _ _) He). apply wp_ret. split_and!; reflexivity. }
    eapply wp_mono; [exact Hstop|done|]. cbn. intros r s' o (-> & -> & ->). split; [done|]. exists sent. rewrite app_nil_r.
    split_and!; [done|done|]. by apply (delivered_fail [Script (k * 256) chunk]).
Qed.

Lemma nb_chunks_bound data : (Z.of_nat (nb_chunks data) + 0 - 1) * TLV_CHUNK < Z.of_nat (length data) \/ nb_chunks data = 0%nat.
Proof.
  unfold nb_chunks, TLV_CHUNK. pose proof (Z.div_mod (Z.of_nat (length data) + 256 - 1) 256 ltac:(lia)).
  pose proof (Z.mod_pos_bound (Z.of_nat (length data) + 256 - 1) 256 ltac:(lia)). lia.
Qed.

Definition failure_of (path : string) (err : Z) : list custo_out := if err =? 0 then [] else [NotifyTlvFailure path].

Lemma wp_send_tlv path data answers s : file path = Some data -> bytes data -> Z.of_nat (length data) < 2 ^ 64 ->
  Forall responsive answers -> (length (tlv_cmds data) <= length answers)%nat ->
  wp (send_tlv path answers) s no_abort (fun r s' o => s' = s /\ exists sent, o = out_of sent ++ failure_of path r.1 /\
    r.2 = drop (length sent) answers /\ delivered (tlv_cmds data) sent r.1).
Proof.
  intros Hf Hb Hl Ha Hn. unfold tlv_cmds in *. rewrite length_app in Hn. cbn in Hn.
  assert (Hcn : forall n k, length (chunks_from n k data) = n) by (induction n; intros k; cbn; congruence). rewrite Hcn in Hn.
  unfold Custo.send_tlv, load_tlv_file. rewrite Hf. wp_step. wp_step. cbn zeta. fold (nb_chunks data). apply wp_bind.
  eapply wp_mono; [apply wp_send_chunks; [done|exact Hl|lia|apply nb_chunks_bound|done|lia]|done|].
  cbn beta. intros [err rest] s' o (-> & sent & -> & Hrest & Hdel). cbn in Hrest, Hdel |- *. subst rest. apply wp_bind.
  destruct (Z.eqb_spec err 0) as [->|He].
  - assert (Hsl : length sent = nb_chunks data) by (destruct Hdel as [_ [(_ & -> & _)|[? _]]]; [apply Hcn|done]).
    eapply wp_mono; [apply (wp_send_at _ Run); [apply read_cmd_run|by vm_compute|by apply Forall_drop|]|done|].
    { intros E. apply (f_equal length) in E. rewrite length_drop in E. cbn in E. lia. }
    cbn beta. intros [err rest] s' o (-> & sent' & -> & Hrest & Hdel'). cbn in Hrest, Hdel' |- *. subst rest.
    unfold failure_of. apply wp_bind, wp_when; intros He; [apply wp_emit|]; apply wp_ret; cbn; (split; [done|]); exists (sent ++ sent').
    all: unfold out_of; rewrite fmap_app, length_app, <- drop_drop, ?app_nil_r; (split; [|split; [done|by apply delivered_app]]).
    + apply negb_true_iff in He. by rewrite He, <- app_assoc.
    + apply negb_false_iff in He. by rewrite He, app_nil_r.
  - apply wp_ret, wp_bind. cbn [fst snd]. rewrite (proj2 (Z.eqb_neq _ _) He). cbn [negb]. apply wp_when; [intros _|done]. apply wp_emit, wp_ret. cbn.
    split; [done|]. exists sent. unfold failure_of. rewrite (proj2 (Z.eqb_neq _ _) He), ?app_nil_r. split; [done|]. split; [done|].
    by apply delivered_fail.
Qed.

(** The commands of the files, in order. *)
Definition content (path : string) : list Z := default [] (file path).
Definition all_cmds (l : list string) : list gti := concat ((fun p => tlv_cmds (content p)) <$> l).

Definition readable (path : string) : Prop :=
  exists data, file path = Some data /\ bytes data /\ Z.of_nat (length data) < 2 ^ 64.

(** The file whose command failed. *)
Definition failed_file (l : list string) (n : nat) (path : string) : Prop :=
  exists pre post, l = pre ++ path :: post /\ (length (all_cmds pre) < n <= length (all_cmds (pre ++ [path])))%nat.

Lemma wp_send_tlvs l answers s : Forall readable l -> Forall responsive answers -> (length (all_cmds l) <= length answers)%nat ->
  wp (send_tlvs l 0 answers) s no_abort (fun err s' o => s' = s /\ exists sent, delivered (all_cmds l) sent err /\
    (err = 0 /\ o = out_of sent \/ err <> 0 /\ exists path, o = out_of sent ++ [NotifyTlvFailure path] /\ failed_file l (length sent) path)).
Proof.
  intros Hl. revert answers. induction Hl as [|path l (data & Hf & Hb & Hd) Hl IH]; intros answers Ha Hn.
  { apply wp_ret. split; [done|]. exists []. split; [apply delivered_nil|by left]. }
  assert (Hc : content path = data) by (unfold content; by rewrite Hf).
  unfold all_cmds in Hn |- *. cbn [fmap list_fmap concat Custo.send_tlvs Z.eqb] in Hn |- *. rewrite Hc in *. rewrite length_app in Hn.
  apply wp_bind. eapply wp_mono; [apply (wp_send_tlv path data); [done|done|exact Hd|done|lia]|done|].
  cbn beta. intros [err rest] s' o (-> & sent & -> & Hrest & Hdel). cbn in Hrest, Hdel |- *. subst rest. unfold failure_of.
  destruct (Z.eqb_spec err 0) as [->|He].
  - assert (Hsl : length sent = length (tlv_cmds data)) by (destruct Hdel as [_ [(_ & -> & _)|[? _]]]; done).
    eapply wp_mono; [apply IH; [by apply Forall_drop|rewrite length_drop; unfold all_cmds; lia]|done|].
    cbn beta. intros err s' o (-> & sent' & Hdel' & Ho). split; [done|]. exists (sent ++ sent'). split; [by apply delivered_app|].
    unfold out_of. rewrite app_nil_r, fmap_app. destruct Ho as [[-> ->]|(He & p & -> & pre & post & -> & Hlen)]; [by left|].
    right. split; [done|]. exists p. split; [by rewrite app_assoc|]. exists (path :: pre), post. split; [done|].
    unfold all_cmds in *. cbn [fmap list_fmap concat app]. rewrite !length_app, Hc in *. lia.
  - assert (wp (send_tlvs l err (drop (length sent) answers)) s no_abort (fun r s' o => r = err /\ s' = s /\ o = [])) as Hstop.
    { destruct l; cbn [Custo.send_tlvs]; [apply wp_ret; split_and!; reflexivity|].
      rewrite (proj2 (Z.eqb_neq _ _) He). apply wp_ret. split_and!; reflexivity. }
    eapply wp_mono; [exact Hstop|done|]. cbn beta. intros r s' o (-> & -> & ->). split; [done|]. exists sent.
    split; [by apply delivered_fail|]. right. split; [done|]. exists path. rewrite app_nil_r. split; [done|].
    exists [], l. split; [done|]. unfold all_cmds. cbn [fmap list_fmap concat app length]. rewrite Hc, app_nil_r.
    destruct Hdel as [_ [[? _]|(_ & Hle & s' & _ & Hs)]]; [done|]. split; [|done].
    apply (f_equal length) in Hs. rewrite length_fmap, length_app in Hs. cbn in Hs. lia.
Qed.

End delivery.

(** What the modem has received when the commands of a file are in place: the
    values of the chunks, each at the offset where the previous one ends. *)
Fixpoint assemble (pos : Z) (l : list gti) : option (list Z) :=
  match l with
  | [Run] => Some []
  | Script off v :: l' => if off =? pos then (fun r => v ++ r) <$> assemble (pos + Z.of_nat (length v)) l' else None
  | _ => None
  end.

Lemma assemble_chunks n k data : 0 <= k ->
  (n = 0%nat /\ Z.of_nat (length data) <= k * 256) \/
  ((0 < n)%nat /\ (Z.of_nat n + k - 1) * 256 < Z.of_nat (length data) <= (Z.of_nat n + k) * 256) ->
  assemble (k * 256) (chunks_from n k data ++ [Run]) = Some (drop (Z.to_nat (k * 256)) data).
Proof.
  revert k. induction n as [|n IH]; intros k Hk Hn.
  { destruct Hn as [[_ Hn]|[? _]]; [|lia]. cbn. by rewrite drop_ge by lia. }
  destruct Hn as [[? _]|[_ Hn]]; [discriminate|]. cbn [chunks_from app assemble]. unfold TLV_CHUNK. rewrite Z.eqb_refl.
  set (off := Z.to_nat (k * 256)). destruct n as [|n].
  - cbn. rewrite app_nil_r, take_ge; [done|]. rewrite length_drop. subst off. lia.
  - rewrite length_take, length_drop. replace (k * 256 + Z.of_nat _) with ((k + 1) * 256) by (subst off; lia).
    rewrite IH by lia. cbn. f_equal. replace (Z.to_nat ((k + 1) * 256)) with (off + 256)%nat by (subst off; lia).
    by rewrite <- drop_drop, take_drop.
Qed.

Lemma assemble_tlv data : assemble 0 (tlv_cmds data) = Some data.
Proof.
  unfold tlv_cmds. pose proof (assemble_chunks (nb_chunks data) 0 data ltac:(lia)) as H. change (0 * 256) with 0 in H. rewrite H; [done|].
  unfold nb_chunks, TLV_CHUNK. pose proof (Z.div_mod (Z.of_nat (length data) + 256 - 1) 256 ltac:(lia)).
  pose proof (Z.mod_pos_bound (Z.of_nat (length data) + 256 - 1) 256 ltac:(lia)).
  destruct (decide (length data = 0%nat)) as [->|]; [left; by vm_compute|]. right. lia.
Qed.

Lemma drop_out sent o : drop (length sent) (out_of sent ++ o) = o.
Proof. unfold out_of. rewrite drop_app_length'; [done|]. by rewrite length_fmap. Qed.

(** C33. The customization thread, started with a list of readable files and a
    modem that answers each command in some way, ends with the plugin ready for
    another request and one status for CTRL.  The commands it has sent, read by a
    parser of their syntax, are the chunks of the files in order, each file
    followed by its execution: all of them when the status is 0, and otherwise up
    to the one whose answer is the status, the clients being told of the file of
    that command.  The chunks of a file put together are the file.  No command is
    too long for its buffer. *)
Theorem customization_delivers file node_fd junk l answers s :
  0 <= node_fd -> Forall (readable file) l -> Forall (responsive node_fd junk) answers ->
  (length (all_cmds file l) <= length answers)%nat -> tlvs s = Some l -> op_ongoing s = false ->
  (exists err sent note,
     write_tlvs file node_fd junk answers s = Ok tt (mk_custo None false (tlv_node s)) (out_of sent ++ note ++ [NotifyStatus err]) /\
     delivered (all_cmds file l) sent err /\
     (err = 0 /\ note = [] \/
      err <> 0 /\ exists path, note = [NotifyTlvFailure path] /\ failed_file file l (length sent) path)) /\
  Forall (fun path => assemble 0 (tlv_cmds (content file path)) = Some (content file path)) l.
Proof.
  intros Hfd Hl Ha Hn Ht Hop. split; [|by apply Forall_true; intros; apply assemble_tlv].
  unfold write_tlvs. rewrite (bind_pass _ _ s s s) by done. rewrite Ht, Hop. cbn [negb]. unfold ASSERT, DASSERT.
  rewrite (bind_pass _ _ s tt s) by done. rewrite (bind_pass _ _ s tt (mk_custo (tlvs s) true (tlv_node s))) by done.
  rewrite (proj2 (Z.leb_le _ _) Hfd). rewrite (bind_pass _ _ _ tt (mk_custo (tlvs s) true (tlv_node s))) by done.
  destruct (wp_total _ _ _ (wp_send_tlvs file node_fd junk l answers (mk_custo (tlvs s) true (tlv_node s)) Hl Ha Hn))
    as (err & s' & o & Hrun & -> & sent & Hdel & Ho).
  exists err, sent, (if decide (err = 0) then [] else drop (length sent) o). split.
  - erewrite bind_then; [|exact Hrun|reflexivity]. cbn. rewrite app_assoc. do 2 f_equal.
    destruct Ho as [[-> ->]|(He & p & -> & _)]; [by rewrite decide_True, app_nil_r by done|].
    rewrite decide_False by done. by rewrite drop_out.
  - split; [done|]. destruct Ho as [[-> ->]|(He & p & -> & Hff)]; [left; by rewrite decide_True|].
    right. split; [done|]. exists p. rewrite decide_False by done. split; [|done]. apply drop_out.
Qed.

(** Two files, the first of more than one chunk; the modem answers OK to every
    command. *)
Definition demo_file (path : string) : option (list Z) :=
  if bool_decide (path = "a") then Some ((fun z => z mod 256) <$> seqZ 0 300) else
  if bool_decide (path = "b") then Some [255; 0] else None.
Definition demo_junk : list Z := replicate BUFFER_SIZE 0.
Definition demo_l : list string := ["a"; "b"].
Definition demo_custo : custo_ctx := mk_custo (Some demo_l) false "node".
Definition answer_ok (n : Z) : at_answer := (n, [AtIn (Some (OK_LINE ++ [13; 10]))]).
Definition demo_answers : list at_answer := [answer_ok 944; answer_ok 154; answer_ok 31; answer_ok 36; answer_ok 31].

(** The answer OK is seen whatever the rest of the buffer. *)
Lemma ok_line n b i : lines_loop (S n) (mk_at (79 :: 75 :: 13 :: 10 :: b) i) = Ok (Some 0) (mk_at (79 :: 75 :: 0 :: 10 :: b) i) [].
Proof. reflexivity. Qed.

Lemma ok_answer b : exists s, answer_loop [AtIn (Some (OK_LINE ++ [13; 10]))] (mk_at b 0) = Ok 0 s [].
Proof.
  cbn [answer_loop]. rewrite bool_decide_eq_false_2 by done.
  erewrite (bind_pass (append _)); [|unfold append; cbn -[BUFFER_SIZE]; reflexivity].
  eexists. erewrite bind_pass; [|apply ok_line]. reflexivity.
Qed.

Lemma ok_responsive node_fd n : 0 <= node_fd -> responsive node_fd demo_junk (answer_ok n).
Proof.
  intros Hfd cmd Hl. unfold crm_send_at, ASSERT, DASSERT. rewrite (proj2 (Z.leb_le _ _) Hfd).
  rewrite (bind_pass _ _ _ tt (mk_at demo_junk 0)) by done. cbn zeta.
  assert (Nat.ltb (length (cmd ++ [13; 10])) BUFFER_SIZE = true) as Hs.
  { apply Nat.ltb_lt. rewrite length_app. cbn [length]. unfold TLV_ENCODED_CHUNK, TLV_CHUNK, BUFFER_SIZE in *. lia. }
  rewrite Hs. rewrite (bind_pass _ _ _ tt (mk_at demo_junk 0)) by done.
  erewrite bind_pass; [|unfold modify; reflexivity]. destruct (negb _); [by eexists _, _, _|].
  destruct (ok_answer ((cmd ++ [13; 10]) ++ 0 :: drop (S (length (cmd ++ [13; 10]))) demo_junk)) as [b Hb].
  eexists _, _, _. exact Hb.
Qed.

Lemma customization_delivers_witness :
  (exists err sent note,
     write_tlvs demo_file 5 demo_junk demo_answers demo_custo = Ok tt (mk_custo None false (tlv_node demo_custo)) (out_of sent ++ note ++ [NotifyStatus err]) /\
     delivered (all_cmds demo_file demo_l) sent err /\
     (err = 0 /\ note = [] \/
      err <> 0 /\ exists path, note = [NotifyTlvFailure path] /\ failed_file demo_file demo_l (length sent) path)) /\
  Forall (fun path => assemble 0 (tlv_cmds (content demo_file path)) = Some (content demo_file path)) demo_l.
Proof.
  apply (customization_delivers demo_file 5 demo_junk demo_l demo_answers demo_custo).
  - lia.
  - apply Forall_cons_2; [|apply Forall_cons_2; [|apply Forall_nil_2]]; eexists; (split; [reflexivity|]).
    all: split; [apply (bool_decide_unpack _); vm_compute; exact I|vm_compute; reflexivity].
  - repeat (apply Forall_cons_2; [by apply ok_responsive|]). apply Forall_nil_2.
  - vm_compute. lia.
  - reflexivity.
  - reflexivity.
Defined.

(** With these answers everything is delivered. *)
Example demo_delivered :
  match write_tlvs demo_file 5 demo_junk demo_answers demo_custo with
  | Ok _ _ o => length o = 6%nat /\ List.hd_error (rev o) = Some (NotifyStatus 0)
  | Abort _ _ => False
  end.
Proof. vm_compute. split; reflexivity. Qed.
