(* ===== verification/File.v ===== *)
(** * Files (libs/utils/src/file.c)

    Writing a value, reading one into a buffer, copying a file, and the formats of
    the names of files.  The results
    of the system calls are arguments; the trace records them in order, with the
    bytes the destination receives. *)

From S2P Require Import Prelude.
From Stdlib Require Import ZArith Lia Ascii.
From stdpp Require Import base tactics list strings option pretty.

Open Scope Z_scope.
Open Scope crm_scope.

(** ** Names with a date *)

Record tm : Type := mk_tm { tm_year : Z; tm_mon : Z; tm_mday : Z; tm_hour : Z; tm_min : Z; tm_sec : Z }.

(** [%*d] with a padding character, for a non-negative number. *)
Fixpoint pad (c : Ascii.ascii) (n : nat) : string :=
  match n with 0%nat => EmptyString | S n => String c (pad c n) end.
Definition fmt_d (c : Ascii.ascii) (width : nat) (z : Z) : string :=
  let t := pretty z in String.append (pad c (width - String.length t)) t.

(** A buffer of [size] bytes filled by [snprintf]. *)
Definition snprintf (size : nat) (s : string) : string := String.substring 0 (size - 1) s.

(** ** System calls *)

Inductive file_out : Type :=
| Umask (mask : Z)
| OpenedIn
| OpenedOut
| Wrote (bytes : list Z)
| ClosedIn
| ClosedOut.

#[local] Abbreviation F_ A := (M unit file_out A).

(** ** Values *)

(** [opened] tells whether [open] works, [written] is the result of [write],
    [closed] that of [close]; the result is the C one. *)
Definition crm_file_write (value : list Z) (opened : bool) (written closed : Z) : F_ Z :=
  if negb opened then ret (-1) else
  emit OpenedOut ;;
  let size := Z.of_nat (length value) in
  let write_size := if 0 <? size then written else 0 in
  emit (Wrote (take (Z.to_nat write_size) value)) ;;
  emit ClosedOut ;;
  ret (if (closed =? 0) && (write_size =? size) then 0 else -1).

(** [content] is what [read] gives, [None] when it fails; the result is the
    return code and the buffer's bytes up to the terminating NUL, [None] when
    the buffer is left as it was.  A value that fills the buffer aborts. *)
Definition crm_file_read (opened : bool) (content : option (list Z)) (size : nat) (closed : Z) : F_ (Z * option (list Z)) :=
  if negb opened then ret (-1, None) else
  emit OpenedIn ;;
  let value := if (0 <? size)%nat then take size <$> content else Some [] in
  match value with
  | Some v =>
      DASSERT "value truncated. buffer too small. read: %s" (negb ((0 <? size)%nat && (length v =? size)%nat)) ;;
      emit ClosedIn ;;
      if (0 <? length v)%nat
      then ret (if closed =? 0 then 0 else -1, Some (take (Nat.min (length v) (size - 1)) v))
      else ret (-1, None)
  | None => emit ClosedIn ;; ret (-1, None)
  end.

Definition crm_file_exists (stat_ok is_reg : bool) : bool := stat_ok && is_reg.

(** ** Copies *)

(** The results of the calls of one copy: [src_size] is what the first four
    bytes give ([in_raw]) or [st_size], [None] on a failure; [head_ok] the
    writing of the size; [sent] the result of [sendfile]. *)
Record copy_env : Type := mk_copy_env {
  in_ok : bool;
  out_ok : bool;
  src_size : option Z;
  head_ok : bool;
  sent : Z;
  close_out : Z;
  old_umask : Z;
}.

(** The four bytes of a [uint32_t] in memory, little endian. *)
Definition uint32_bytes (z : Z) : list Z := [z mod 256; z / 256 mod 256; z / 65536 mod 256; z / 16777216 mod 256].

(** 0777 *)
Definition rwx : Z := 511.

(** From [if (size)] to [ret = 0]: [body] is what follows the header of the
    source. *)
Definition copy_body (e : copy_env) (out_raw : bool) (body : list Z) (size : Z) : F_ Z :=
  if size =? 0 then ret 0
  else if out_raw && negb (head_ok e) then ret (-1)
  else
    when out_raw (emit (Wrote (uint32_bytes size))) ;;
    if sent e =? -1 then ret (-1)
    else
      emit (Wrote (take (Z.to_nat (sent e)) body)) ;;
      ret (if sent e =? size then 0 else -1).

(** [size] is a [uint32_t]. *)
Definition crm_file_copy (e : copy_env) (in_raw out_raw : bool) (dst_mode : Z) (body : list Z) : F_ Z :=
  emit (Umask (Z.land (Z.lnot dst_mode) rwx)) ;;
  let* r :=
    if negb (in_ok e) then ret (-1) else
    emit OpenedIn ;;
    let* r :=
      if negb (out_ok e) then ret (-1) else
      emit OpenedOut ;;
      let* r :=
        match src_size e with
        | None => ret (-1)
        | Some size => copy_body e out_raw body (u32 size)
        end in
      ret r in
    emit ClosedIn ;;
    if out_ok e then emit ClosedOut ;; ret (if close_out e <? 0 then -1 else r) else ret r in
  emit (Umask (Z.land (old_umask e) rwx)) ;;
  ret r.

(** ** Specification *)

(** The bytes the destination receives. *)
Definition written (o : list file_out) : list Z := concat (omap (fun x => match x with Wrote b => Some b | _ => None end) o).

Definition count (p : file_out -> bool) (o : list file_out) : nat := length (List.filter p o).

(** Every descriptor opened is closed once. *)
Definition balanced (o : list file_out) : Prop :=
  count (fun x => match x with OpenedIn => true | _ => false end) o
  = count (fun x => match x with ClosedIn => true | _ => false end) o /\
  count (fun x => match x with OpenedOut => true | _ => false end) o
  = count (fun x => match x with ClosedOut => true | _ => false end) o.

(** What the calls of a copy can return: [sendfile] gives at most what is asked
    for and what is there; [fstat] gives the length, and the source's header, in
    raw mode, any 32-bit value. *)
Definition copy_env_ok (e : copy_env) (in_raw : bool) (body : list Z) : Prop :=
  -1 <= sent e <= Z.of_nat (length body) /\
  (in_raw = false -> forall n, src_size e = Some n -> n = Z.of_nat (length body)).

(** Every call worked and [sendfile] sent the whole size. *)
Definition copy_works (e : copy_env) (out_raw : bool) (n : Z) : Prop :=
  in_ok e = true /\ out_ok e = true /\ src_size e = Some n /\ 0 <= close_out e /\
  (u32 n <> 0 -> (out_raw = true -> head_ok e = true) /\ sent e = u32 n).

Ltac copy_done := eexists _, _; split; [reflexivity|]; split_and!; try done;
  try lazymatch goal with |- _ \/ _ => first [by left | by right] end;
  try lazymatch goal with |- _ <-> _ => split; [intros _|done] end.
Ltac copy_fails := copy_done;
  try lazymatch goal with |- _ <-> _ => split; [done|] end; try (intros (n' & Hi' & Ho' & Hn' & Hc' & Hx'); simplify_eq;
    first [lia | destruct Hx' as [Hh' Hs']; [done|]; try specialize (Hh' eq_refl); first [congruence|lia]]).

(** Copying a file: the call always returns, 0 or -1; it closes what it has
    opened, and restores the [umask].  It returns 0 exactly when every call has
    worked, and then the destination has received the first [n mod 2^32] bytes of
    a source of [n] bytes, behind their number when [out_raw] asks for it: the
    whole file if it is shorter than 4 GiB. *)
Lemma file_copied e in_raw out_raw dst_mode body :
  copy_env_ok e in_raw body ->
  exists r o, crm_file_copy e in_raw out_raw dst_mode body tt = Ok r tt o /\
    (r = 0 \/ r = -1) /\ balanced o /\
    List.hd_error o = Some (Umask (Z.land (Z.lnot dst_mode) rwx)) /\ List.hd_error (List.rev o) = Some (Umask (Z.land (old_umask e) rwx)) /\
    (r = 0 <-> exists n, copy_works e out_raw n) /\
    (r = 0 -> forall n, src_size e = Some n ->
      written o = (if out_raw && negb (u32 n =? 0) then uint32_bytes (u32 n) else []) ++ take (Z.to_nat (u32 n)) body).
Proof.
  intros [Hs _]. destruct e as [io oo sz hd st co um]; cbn in Hs.
  unfold copy_works, crm_file_copy, copy_body, bind, emit, ret, when. cbn.
  destruct io; cbn; [|copy_fails].
  destruct oo; cbn; [|copy_fails].
  destruct sz as [n|]; cbn; [|destruct (Z.ltb_spec co 0); copy_fails].
  destruct (Z.eqb_spec (u32 n) 0) as [H0|H0]; cbn.
  { destruct (Z.ltb_spec co 0); [copy_fails|]. copy_done; [by exists n|].
    intros _ n' [= <-]. by rewrite H0, andb_false_r. }
  destruct out_raw, hd; cbn; try (destruct (Z.ltb_spec co 0); copy_fails);
    (destruct (Z.eqb_spec st (-1)) as [->|]; cbn;
      [pose proof (u32_range n); destruct (Z.ltb_spec co 0); copy_fails|]);
    (destruct (Z.eqb_spec st (u32 n)) as [->|]; cbn; [|destruct (Z.ltb_spec co 0); copy_fails]);
    (destruct (Z.ltb_spec co 0); [copy_fails|]);
    (copy_done; [by exists n|]; intros _ n' [= <-]; unfold written; cbn; rewrite ?app_nil_r;
     destruct (Z.eqb_spec (u32 n) 0); done).
Qed.

(** A file shorter than 4 GiB is copied whole when the copy returns 0. *)
Lemma file_copied_whole e dst_mode body r o :
  copy_env_ok e false body -> Z.of_nat (length body) < 2 ^ 32 ->
  crm_file_copy e false false dst_mode body tt = Ok r tt o -> r = 0 -> written o = body.
Proof.
  intros He Hl Hrun Hr. destruct (file_copied e false false dst_mode body He) as (r' & o' & Hrun' & _ & _ & _ & _ & Hi & Hw).
  rewrite Hrun in Hrun'. injection Hrun' as <- <-. destruct (proj1 Hi Hr) as (n & Hn). destruct Hn as (_ & _ & Hn & _).
  rewrite (Hw Hr n Hn). cbn [andb app]. rewrite (proj2 He eq_refl n Hn), u32_small by lia. by rewrite Nat2Z.id, firstn_all.
Qed.

(** The size is held in 32 bits: a source whose length is a multiple of 4 GiB is
    copied as an empty file, and the copy is reported as a success. *)
Lemma huge_file_lost body :
  Z.of_nat (length body) = 2 ^ 32 ->
  let e := mk_copy_env true true (Some (Z.of_nat (length body))) true 0 0 18 in
  copy_env_ok e false body /\
  exists o, crm_file_copy e false false 420 body tt = Ok 0 tt o /\ written o = [].
Proof.
  intros Hl. cbn. rewrite Hl. split; [split; cbn; [lia|congruence]|].
  unfold crm_file_copy. cbn. eexists. split; [reflexivity|done].
Qed.

(** Writing a value: 0 exactly when all of it was written, and the file is closed
    whenever it was opened. *)
Lemma file_written value opened n closed :
  exists r o, crm_file_write value opened n closed tt = Ok r tt o /\ balanced o /\
    (r = 0 <-> opened = true /\ closed = 0 /\ (value <> [] -> n = Z.of_nat (length value))) /\
    (r = 0 -> written o = value) /\ (r = 0 \/ r = -1).
Proof.
  assert (forall P Q : Prop, ~ Q -> (-1 = 0 <-> Q) /\ (-1 = 0 -> P) /\ (-1 = 0 \/ -1 = -1)) as Hfail
    by (intros P Q HQ; split_and!; [by split|done|by right]).
  unfold crm_file_write, bind, emit, ret. destruct opened; cbn [negb].
  2: { eexists _, _. split; [reflexivity|]. split; [done|]. apply Hfail. by intros [? _]. }
  set (n' := if 0 <? _ then n else 0).
  assert (n' = Z.of_nat (length value) <-> (value <> [] -> n = Z.of_nat (length value))) as Hn'.
  { unfold n'. destruct value; cbn [length]; [by split|].
    destruct (Z.ltb_spec 0 (Z.of_nat (S (length value)))); [|lia]. split; [by intros|intros H1; by apply H1]. }
  destruct (Z.eqb_spec closed 0) as [Hc|Hc]; [destruct (Z.eqb_spec n' (Z.of_nat (length value))) as [He|He]|]; cbn [andb];
    (eexists _, _; split; [reflexivity|]; split; [done|]).
  - split; [split; [intros _; split_and!; [done..|by apply Hn']|done]|]. split; [|by left].
    intros _. unfold written. cbn [omap list_omap concat app]. rewrite He, Nat2Z.id, firstn_all. apply app_nil_r.
  - apply Hfail. intros (_ & _ & ?). by apply He, Hn'.
  - apply Hfail. by intros (_ & ? & _).
Qed.

(** Reading a value: the buffer is never overrun, and what is returned is the
    whole file, followed by a NUL; a file that does not fit aborts. *)
Lemma file_read content size closed :
  (0 < size)%nat ->
  match crm_file_read true (Some content) size closed tt with
  | Ok (r, v) _ o => balanced o /\ (length content < size)%nat /\ (r = 0 <-> content <> [] /\ closed = 0) /\
      (content <> [] -> v = Some content)
  | Abort r _ => r = DAssertFail "value truncated. buffer too small. read: %s" /\ (size <= length content)%nat
  end.
Proof.
  intros Hs. unfold crm_file_read, bind, emit, ret, DASSERT, fail. cbn [negb].
  assert ((0 <? size)%nat = true) as -> by (by apply Nat.ltb_lt). cbn [fmap option_fmap option_map andb].
  rewrite length_take. destruct (Nat.eqb_spec (size `min` length content) size) as [He|He]; cbn [negb].
  { split; [done|lia]. }
  assert (length content < size)%nat as Hlt by lia. clear He. rewrite (Nat.min_r size (length content)), (take_ge content size), take_ge by lia. unfold ret.
  destruct content as [|b l]; cbn -[take].
  { split; [done|]. split; [lia|]. split; [|done]. split; [done|]. by intros [? _]. }
  split; [done|]. split; [done|]. split; [|done].
  destruct (Z.eqb_spec closed 0); (split; [done|]); [done|]. by intros [_ ?].
Qed.
