(* ===== verification/Logs.v ===== *)
(** * Logs (libs/utils/src/logs.c)

    The tag of a log line, of a fixed width, and its text, both cut to the size of
    their buffers.  The text is the format already expanded. *)

From S2P Require Import Prelude HalSofia HalSofiaTheory File.
From Stdlib Require Import ZArith Lia.
From stdpp Require Import base tactics list strings option pretty.

Open Scope Z_scope.
Open Scope crm_scope.

Definition TAG_LEN : nat := 10.
Definition LOG_LEN : nat := 1024.

Inductive log_level : Type := VERBOSE | DEBUG | INFO | ERROR.

(** The state is [g_inst_id]; a line of the log is its level, its tag and its text. *)
#[local] Abbreviation G_ A := (M Z (log_level * string * string) A).

(** [CRM_MODULE_TAG] of logs.c is "CRM". *)
Definition plugin_tag (tag : string) (inst_id : Z) : string :=
  snprintf TAG_LEN ("CRM" +:+ tag +:+ pretty inst_id +:+ "     ").

Definition crm_log (level : log_level) (tag text : string) : G_ unit :=
  let* inst_id := get in
  emit (level, plugin_tag tag inst_id, snprintf LOG_LEN text).

Definition crm_logs_debug : string -> string -> G_ unit := crm_log DEBUG.
Definition crm_logs_verbose : string -> string -> G_ unit := crm_log VERBOSE.
Definition crm_logs_info : string -> string -> G_ unit := crm_log INFO.
Definition crm_logs_error : string -> string -> G_ unit := crm_log ERROR.

Definition crm_logs_init (id : Z) : G_ unit := modify (fun _ => id).

(** ** Strings *)

Lemma append_length s t : String.length (s +:+ t) = (String.length s + String.length t)%nat.
Proof.
  induction s as [|c s IH]; [done|]. change (String c s +:+ t) with (String c (s +:+ t)). cbn. by rewrite IH.
Qed.

Lemma append_assoc s t u : s +:+ t +:+ u = (s +:+ t) +:+ u.
Proof.
  induction s as [|c s IH]; [done|]. change (String c (s +:+ t +:+ u) = String c ((s +:+ t) +:+ u)). by rewrite IH.
Qed.

Lemma substring_length n s : (n <= String.length s)%nat -> String.length (String.substring 0 n s) = n.
Proof.
  revert n. induction s as [|c s IH]; intros [|n]; cbn; [done|lia|done|]. intros Hn. rewrite IH; lia.
Qed.

Lemma substring_append s t n :
  (String.length s <= n)%nat -> String.substring 0 n (s +:+ t) = s +:+ String.substring 0 (n - String.length s) t.
Proof.
  revert n. induction s as [|c s IH]; intros n Hn; [cbn; by rewrite Nat.sub_0_r|].
  cbn in Hn. destruct n as [|n]; [lia|]. change (String c s +:+ t) with (String c (s +:+ t)). cbn. rewrite IH by lia. done.
Qed.

Lemma snprintf_all s n : (String.length s < n)%nat -> snprintf n s = s.
Proof. intros Hs. apply substring_all. lia. Qed.

(** The decimal digits of a number. *)
Lemma pretty_N_go_length n x s :
  (x < 10 ^ N.of_nat n)%N -> (String.length (pretty_N_go x s) <= n + String.length s)%nat.
Proof.
  revert x s. induction n as [|n IH]; intros x s Hx.
  - assert (x = 0%N) as -> by (cbn in Hx; lia). by rewrite pretty_N_go_0.
  - destruct (decide (x = 0%N)) as [->|Hne]; [rewrite pretty_N_go_0; lia|].
    rewrite pretty_N_go_step by lia. etrans; [apply IH|cbn; lia].
    apply N.Div0.div_lt_upper_bound. rewrite Nat2N.inj_succ, N.pow_succ_r' in Hx. lia.
Qed.

(** A descriptor, or any non-negative [int], has at most ten digits. *)
Lemma pretty_int_length z : 0 <= z <= INT_MAX -> (1 <= String.length (pretty z) <= 10)%nat.
Proof.
  intros Hz. destruct z as [|p|p]; [cbn; lia| |lia].
  assert (pretty (Z.pos p) = pretty_N_go (N.pos p) "") as -> by done. split.
  - rewrite pretty_N_go_step by lia. generalize (N.pos p `div` 10)%N (pretty_N_char (N.pos p `mod` 10)).
    intros x c. assert (forall x s, String.length s <= String.length (pretty_N_go x s))%nat as Hgo.
    { clear. intros x. induction (N.lt_wf_0 x) as [x _ IH]. intros s. destruct (decide (x = 0%N)) as [->|Hne]; [by rewrite pretty_N_go_0|].
      rewrite (pretty_N_go_step x) by lia. etrans; [|apply IH]; [cbn; lia|]. apply N.div_lt; lia. }
    etrans; [|apply Hgo]. cbn. lia.
  - etrans; [apply (pretty_N_go_length 10)|cbn; lia]. change (10 ^ N.of_nat 10)%N with 10000000000%N. unfold INT_MAX in Hz. lia.
Qed.

(** ** Properties *)

(** The five blanks of the format do what its comment says: the tag fills its buffer,
    whatever the module and the instance. *)
Lemma plugin_tag_width tag inst_id : 0 <= inst_id <= INT_MAX -> String.length (plugin_tag tag inst_id) = (TAG_LEN - 1)%nat.
Proof.
  intros Hi. apply pretty_int_length in Hi. unfold plugin_tag, snprintf. apply substring_length.
  rewrite !append_length. cbn. unfold TAG_LEN. lia.
Qed.

(** Module and instance can be read in the tag when they have together six characters
    at most. *)
Lemma plugin_tag_readable tag inst_id :
  (String.length tag + String.length (pretty inst_id) <= 6)%nat ->
  exists blanks, plugin_tag tag inst_id = ("CRM" +:+ tag +:+ pretty inst_id) +:+ blanks.
Proof.
  intros Hl. unfold plugin_tag, snprintf, TAG_LEN. rewrite !append_assoc.
  rewrite substring_append; [by eexists|]. rewrite !append_length. cbn. lia.
Qed.

(** With a longer name of the module the instance is cut off. *)
Lemma plugin_tag_cut : plugin_tag "CLIENT" 0 = plugin_tag "CLIENT" 1.
Proof. done. Qed.

(** The instance given at the start is in every later line. *)
Lemma crm_logs_init_used id level tag text old :
  (crm_logs_init id ;; crm_log level tag text) old = Ok tt id [(level, plugin_tag tag id, snprintf LOG_LEN text)].
Proof. done. Qed.
