(* ===== verification/Host.v ===== *)
(** * Host builds (libs/host_only/utils/src/host_utils.c, libs/utils/src/property.c)

    What replaces Android when the program is built for a host: properties kept as
    environment variables, local sockets under /tmp, and the helpers that start a
    stub of the modem.  The results of the system calls are arguments. *)

From S2P Require Import Prelude Socket Elector HalSofia HalSofiaTheory File Logs.
From Stdlib Require Import ZArith Lia.
From stdpp Require Import base tactics list strings option gmap pretty.

Open Scope Z_scope.
Open Scope crm_scope.

Definition CRM_PROPERTY_KEY_MAX : nat := 32.
Definition CRM_PROPERTY_VALUE_MAX : nat := 92.
Definition MDM_STUB_SOFIA_CTRL : string := "/tmp/crm_sofia_modem_control".
Definition MREQ_READY : Z := 1.

(** [sizeof(sun_path)] of Linux. *)
Definition SUN_PATH : nat := 108.

(** The environment of the process, and whether the pipe of the properties is open. *)
Record host : Type := mk_host { environ : gmap string string; prop_pipe : bool }.

Inductive host_call : Type :=
| HostWrite (text : string)
| HostUnlink (path : string)
| HostBind (fd : Z) (path : string)
| HostConnect (fd : Z) (path : string)
| HostClose (fd : Z)
| HostExec (args : list string)
| HostTcsInit (group : string).

#[local] Abbreviation H_ A := (M host host_call A).

Definition setenv (key value : string) : H_ unit :=
  modify (fun s => mk_host (<[key := value]> (environ s)) (prop_pipe s)).

(** ** Properties *)

Definition env_get (key : string) (default_value : option string) : H_ string :=
  let* s := get in
  ret (match environ s !! key with
       | Some tmp => snprintf CRM_PROPERTY_VALUE_MAX tmp
       | None => match default_value with Some d => snprintf CRM_PROPERTY_VALUE_MAX d | None => "" end
       end).

(** [ok]: [setenv] returns 0; [written]: what [write] returns. *)
Definition env_set (ok : bool) (written : Z) (key value : string) : H_ unit :=
  DASSERT "Failed to set environment variable (%s)" ok ;;
  setenv key value ;;
  let* s := get in
  when (prop_pipe s)
    (let size := (CRM_PROPERTY_VALUE_MAX + CRM_PROPERTY_KEY_MAX + 2)%nat in
     ASSERT "(strlen(key) + strlen(value) + 2) < sizeof(buf)"
       (Z.of_nat (String.length key + String.length value + 2) <? Z.of_nat size) ;;
     let buf := snprintf size (key +:+ "=" +:+ value) in
     emit (HostWrite buf) ;;
     ASSERT "write(prop_pipe, buf, len) == len" (written =? Z.of_nat (String.length buf))).

Definition host_property_get (inst_id : Z) (key : string) (default_value : option string) : H_ string :=
  env_get (compute_key inst_id key) default_value.
Definition host_property_set (ok : bool) (written inst_id : Z) (key value : string) : H_ unit :=
  env_set ok written (compute_key inst_id key) value.

(** ** Sockets *)

Definition socket_local_client (name : string) (sock_fd connected : Z) : H_ Z :=
  if sock_fd <? 0 then ret (-1)
  else
    emit (HostConnect sock_fd (snprintf SUN_PATH ("/tmp/" +:+ name))) ;;
    if connected <? 0 then emit (HostClose sock_fd) ;; ret (-1) else ret sock_fd.

Definition CRM_TEST_get_control_socket_android (name : string) (sock_fd bound : Z) (ok : bool) : H_ unit :=
  DASSERT "Failed to open socket %s" (0 <=? sock_fd) ;;
  let path := snprintf SUN_PATH ("/tmp/" +:+ name) in
  emit (HostUnlink path) ;;
  emit (HostBind sock_fd path) ;;
  DASSERT "Failed to bind socket %s" (bound =? 0) ;;
  DASSERT "Failed to set environment variable (%s)" ok ;;
  setenv (snprintf 128 ("ANDROID_SOCKET_" +:+ name)) (snprintf 128 (pretty sock_fd)).

(** The loop goes on until [connect] returns 0: the results are a list. *)
Fixpoint connect_loop (fd : Z) (path : string) (results : list Z) : H_ Z :=
  match results with
  | [] => fail (Stuck "CRM_TEST_connect_socket")
  | r :: results =>
      emit (HostConnect fd path) ;;
      if r =? 0 then ret fd else connect_loop fd path results
  end.

Definition CRM_TEST_connect_socket (name : string) (fd : Z) (results : list Z) : H_ Z :=
  DASSERT "Failed to open socket %s" (0 <=? fd) ;;
  connect_loop fd (snprintf SUN_PATH name) results.

(** ** The stub of the modem and the configuration *)

(** [get_string group key] of the configuration library, [None] for [NULL]; [tcs]
    has the groups. *)
Definition CRM_TEST_start_stub_sofia_mdm (get_string : string -> string -> option string) (child : Z) : H_ Z :=
  ASSERT "child != -1" (negb (child =? -1)) ;;
  if child =? 0 then
    match get_string ".hal" "vmodem_sysfs_mdm_state", get_string ".hal" "vmodem_sysfs_mdm_ctrl",
          get_string ".hal" "uevent_vmodem_filter", get_string ".hal" "ping_node", get_string ".hal" "dump_node",
          get_string ".hal" "flash_node", get_string ".hal" "uevent_host_debug_socket" with
    | Some st, Some ctrl, Some uevent, Some ping, Some dump, Some _, Some debug =>
        match get_string ".customization" "node" with
        | Some streamline =>
            emit (HostExec ["crm_test_stub_modem_sofia"; "--control-socket"; MDM_STUB_SOFIA_CTRL; "--uevent-socket"; debug;
                            "--uevent-cmd"; uevent; "--sysfs-mdm-state"; st; "--sysfs-mdm-ctrl"; ctrl; "--ping-ap"; ping;
                            "--dump"; dump; "--streamline"; streamline; "--on"; "1"; "--off"; "0"]) ;;
            fail (Exited 0)
        | None => fail (AssertFail "streamline_node")
        end
    | None, _, _, _, _, _, _ => fail (AssertFail "vmodem_sysfs_mdm_state != NULL")
    | _, None, _, _, _, _, _ => fail (AssertFail "vmodem_sysfs_mdm_ctrl != NULL")
    | _, _, None, _, _, _, _ => fail (AssertFail "uevent_vmodem != NULL")
    | _, _, _, None, _, _, _ => fail (AssertFail "ping_node != NULL")
    | _, _, _, _, None, _, _ => fail (AssertFail "dump_node != NULL")
    | _, _, _, _, _, None, _ => fail (AssertFail "flash_path != NULL")
    | _, _, _, _, _, _, None => fail (AssertFail "uevent_debug_socket != NULL")
    end
  else ret child.

(** [recv] has given [len] bytes, the value of which is [id]. *)
Definition CRM_TEST_wait_stub_sofia_mdm_readiness (c_fd len id : Z) : H_ unit :=
  ASSERT "c_fd >= 0" (0 <=? c_fd) ;;
  DASSERT "Failed to read data %s" (len =? 4) ;;
  ASSERT "MREQ_READY == id" (MREQ_READY =? id).

(** [r1], [r2]: the results of [setenv] and [write] for the two properties; [tcs]: the
    configuration was found. *)
Definition CRM_TEST_tcs_init (inst : Z) (name : string) (inst_id : Z) (r1 r2 : bool * Z) (tcs : bool) : H_ unit :=
  let* s := get in
  match environ s !! "ANDROID_BUILD_TOP" with
  | None => fail (DAssertFail "set Android environment first")
  | Some root =>
      let text := root +:+ "/out/debug/host/linux-x86/telephony/tcs" in
      DASSERT "path too long" (Z.of_nat (String.length text) <? Z.of_nat CRM_PROPERTY_VALUE_MAX) ;;
      host_property_set r1.1 r1.2 inst "tcs.dbg.host.hw_folder" (snprintf CRM_PROPERTY_VALUE_MAX text) ;;
      host_property_set r2.1 r2.2 inst "ro.telephony.tcs.hw_name" name ;;
      emit (HostTcsInit (snprintf 10 ("crm" +:+ pretty inst_id))) ;;
      ASSERT "tcs" tcs
  end.

(** ** Properties *)

(** A property set is read back, cut to the size of the reader's buffer, and the one
    who listens to the pipe is told the key and the whole value. *)
Lemma host_property_roundtrip inst_id key value dflt s :
  let k := compute_key inst_id key in
  (String.length k + String.length value + 2 < CRM_PROPERTY_VALUE_MAX + CRM_PROPERTY_KEY_MAX + 2)%nat ->
  (host_property_set true (Z.of_nat (String.length (k +:+ "=" +:+ value))) inst_id key value ;;
   host_property_get inst_id key dflt) s
  = Ok (snprintf CRM_PROPERTY_VALUE_MAX value) (mk_host (<[k := value]> (environ s)) (prop_pipe s))
      (if prop_pipe s then [HostWrite (k +:+ "=" +:+ value)] else []).
Proof.
  intros k Hl. unfold host_property_set, host_property_get, env_set, env_get, setenv. fold k.
  assert (snprintf (CRM_PROPERTY_VALUE_MAX + CRM_PROPERTY_KEY_MAX + 2) (k +:+ "=" +:+ value) = k +:+ "=" +:+ value) as Hs.
  { apply snprintf_all. rewrite !append_length. change (String.length "=") with 1%nat. lia. }
  rewrite <-(app_nil_r (if prop_pipe s then _ else _)).
  apply (bind_then _ _ _ tt (mk_host (<[k := value]> (environ s)) (prop_pipe s))).
  - unfold bind, DASSERT, ret, modify, get, when, emit, ASSERT. cbn [prop_pipe]. destruct (prop_pipe s); cbn [app]; [|done].
    destruct (Z.ltb_spec (Z.of_nat (String.length k + String.length value + 2))
      (Z.of_nat (CRM_PROPERTY_VALUE_MAX + CRM_PROPERTY_KEY_MAX + 2))); [|lia].
    rewrite Hs, Z.eqb_refl. done.
  - unfold bind, get, ret. cbn [environ]. by rewrite lookup_insert_eq.
Qed.

(** An empty variable is read as an empty value on a host, where the documentation of
    [crm_property_get] gives the default value. *)
Lemma host_empty_property key dflt e :
  env_get key (Some dflt) (mk_host (<[key := ""]> e) false) = Ok "" (mk_host (<[key := ""]> e) false) [].
Proof. unfold env_get, bind, get, ret. cbn [environ]. by rewrite lookup_insert_eq. Qed.

(** *** Servers and clients meet *)

Section rendezvous.
(** [android_get_control_socket] of libcutils: the descriptor announced in the
    environment. *)
Context (android_get_control_socket : gmap string string -> string -> Z).
Hypothesis control_socket_announced : forall env name fd,
  0 <= fd -> env !! ("ANDROID_SOCKET_" +:+ name) = Some (pretty fd) -> android_get_control_socket env name = fd.

(** The server's socket, prepared by the test, is the one [crm_socket_create] listens
    on, and it is bound to the address where [socket_local_client] connects. *)
Lemma host_rendezvous name fd c max_conn s :
  0 <= fd <= INT_MAX -> 0 <= c -> (String.length name <= 100)%nat ->
  exists s', CRM_TEST_get_control_socket_android name fd 0 true s =
      Ok tt s' [HostUnlink ("/tmp/" +:+ name); HostBind fd ("/tmp/" +:+ name)] /\
    crm_socket_create max_conn (android_get_control_socket (environ s') name) 0 tt = Ok fd tt [CallListen fd max_conn] /\
    socket_local_client name c 0 s' = Ok c s' [HostConnect c ("/tmp/" +:+ name)].
Proof using control_socket_announced.
  intros Hfd Hc Hn. pose proof (pretty_int_length fd Hfd) as Hp.
  assert (snprintf SUN_PATH ("/tmp/" +:+ name) = "/tmp/" +:+ name) as Hpath.
  { apply snprintf_all. rewrite append_length. cbn. unfold SUN_PATH. lia. }
  assert (snprintf 128 ("ANDROID_SOCKET_" +:+ name) = "ANDROID_SOCKET_" +:+ name) as Hkey.
  { apply snprintf_all. rewrite append_length. cbn. lia. }
  exists (mk_host (<["ANDROID_SOCKET_" +:+ name := pretty fd]> (environ s)) (prop_pipe s)). split_and!.
  - unfold CRM_TEST_get_control_socket_android, setenv. rewrite Hpath, Hkey, (snprintf_all (pretty fd)) by lia.
    unfold bind, DASSERT, ret, modify, emit. destruct (Z.leb_spec 0 fd); [done|lia].
  - cbn [environ]. rewrite (control_socket_announced _ name fd); [|lia|apply lookup_insert_eq].
    unfold crm_socket_create, bind, emit, ret. destruct (Z.leb_spec 0 fd); [done|lia].
  - unfold socket_local_client. rewrite Hpath. unfold bind, emit, ret. destruct (Z.ltb_spec c 0); [lia|done].
Qed.

End rendezvous.

(** A client of the host that cannot connect leaves no descriptor open. *)
Lemma socket_local_client_closes name fd r s :
  0 <= fd -> r < 0 ->
  socket_local_client name fd r s = Ok (-1) s [HostConnect fd (snprintf SUN_PATH ("/tmp/" +:+ name)); HostClose fd].
Proof.
  intros Hfd Hr. unfold socket_local_client, bind, emit, ret.
  destruct (Z.ltb_spec fd 0); [lia|]. destruct (Z.ltb_spec r 0); [done|lia].
Qed.

(** The loop ends with the first success of [connect]. *)
Lemma connect_socket_ends name fd failures s :
  0 <= fd -> Forall (fun r => r <> 0) failures ->
  exists o, CRM_TEST_connect_socket name fd (failures ++ [0]) s = Ok fd s o /\ length o = S (length failures).
Proof.
  intros Hfd Hf. unfold CRM_TEST_connect_socket. rewrite (bind_pass _ _ _ tt s)
    by (unfold DASSERT; destruct (Z.leb_spec 0 fd); [done|lia]).
  induction Hf as [|r l Hr _ (o & IH & Hlen)]; cbn [app connect_loop]; [by eexists|].
  destruct (Z.eqb_spec r 0); [done|]. exists ([HostConnect fd (snprintf SUN_PATH name)] ++ o).
  split; [|cbn; by rewrite Hlen]. by eapply bind_then.
Qed.
