(* ===== verification/Archive.v ===== *)
(** * Archives (libs/ifwd/src/archive.c)

    The core dump of PCIe platforms is stored in a compressed tar archive written
    by hand.  The compressed stream is the list of the bytes given to [gzwrite];
    the results of the calls are arguments.  The specification is a reader of the
    ustar format. *)

From S2P Require Import Prelude.
From Stdlib Require Import ZArith Lia.
From stdpp Require Import base tactics list list_numbers strings option.

Open Scope Z_scope.
Open Scope crm_scope.

#[local] Abbreviation bytes := (list Z).

Definition zeroes (n : nat) : bytes := replicate n 0.

(** [memcpy] or [snprintf] of [b] in a field of [n] bytes set to 0. *)
Definition field (n : nat) (b : bytes) : bytes := b ++ zeroes (n - length b).

(** ** Octal numbers *)

(** The octal digits of a 64-bit value, most significant first, without leading
    zeros; 22 digits are enough. *)
Fixpoint octal (fuel : nat) (value : Z) : bytes :=
  match fuel with
  | 0%nat => []
  | S fuel => if value =? 0 then [] else octal fuel (value / 8) ++ [48 + value mod 8]
  end.

(** [snprintf(dest, len, "%0<len - 1>llo", value)]: padded with zeros, cut at
    [len - 1] digits. *)
Definition compute_octal (len : nat) (value : Z) : bytes :=
  let digits := octal 22 value in
  let padded := replicate (len - 1 - length digits) 48 ++ digits in
  take (len - 1) padded ++ [0].

(** ** Headers *)

Record stat : Type := mk_stat { st_reg : bool; st_mtime : Z; st_uid : Z; st_gid : Z; st_size : Z }.

(** [crm_tar_header_t], as its 512 bytes. *)
Definition crm_tar_header (name uid gid size mtime checksum : bytes) : bytes :=
  field 100 name ++ [48; 48; 48; 48; 54; 54; 54; 0] ++ uid ++ gid ++ size ++ mtime ++ checksum ++
  [48] ++ zeroes 100 ++ [117; 115; 116; 97; 114; 32] ++ [32; 0] ++
  field 32 [115; 121; 115; 116; 101; 109] ++ field 32 [115; 121; 115; 116; 101; 109] ++
  zeroes 8 ++ zeroes 8 ++ zeroes 167.

Definition sum (l : bytes) : Z := foldr Z.add 0 l.

(** The header and [st_size]; [st] is [None] when [stat] fails. *)
Definition compute_header {S O} (st : option stat) (filename : bytes) : M S O (bytes * Z) :=
  match st with
  | None => fail (AssertFail "!stat(path, &st) && S_ISREG(st.st_mode)")
  | Some st =>
      ASSERT "!stat(path, &st) && S_ISREG(st.st_mode)" (st_reg st) ;;
      ASSERT "strlen(filename) < sizeof(header->name)" (Z.of_nat (length filename) <? 100) ;;
      let header := crm_tar_header filename (compute_octal 8 (st_uid st)) (compute_octal 8 (st_gid st))
        (compute_octal 12 (st_size st)) (compute_octal 12 (st_mtime st)) in
      let checksum := u32 (sum (header (replicate 8 32))) in
      ret (header (compute_octal 6 checksum ++ [32; 32]), st_size st)
  end.

(** ** The archive *)

(** One file of the folder: its name, what [stat] gives, whether it can be opened,
    its contents. *)
Record file : Type := mk_file { f_name : bytes; f_stat : option stat; f_opens : bool; f_content : bytes }.

(** The stream, and how many [gzwrite] were made. *)
Record gz : Type := mk_gz { stream : bytes; writes : nat }.

Section create.
(** What the n-th [gzwrite], of that many bytes, returns. *)
Context (gzres : nat -> Z -> Z).

#[local] Abbreviation G_ A := (M gz Empty_set A).

Definition gzwrite (b : bytes) : G_ Z :=
  let* s := get in
  modify (fun s => mk_gz (stream s ++ b) (writes s + 1)) ;;
  ret (gzres (writes s) (Z.of_nat (length b))).

Definition write_all (b : bytes) : G_ unit :=
  let* r := gzwrite b in
  ASSERT "gzwrite(fd_out, ...) == ..." (r =? Z.of_nat (length b)).

(** The body of the loop on the files; [file_size] is an [int]. *)
Definition add_file (f : file) : G_ unit :=
  let* h := compute_header (f_stat f) (f_name f) in
  let '(header, size) := h in
  let file_size := i32 size in
  ASSERT "file_size > 0" (0 <? file_size) ;;
  ASSERT "fd_in >= 0" (f_opens f) ;;
  write_all header ;;
  write_all (take (Z.to_nat file_size) (f_content f)) ;;
  write_all (zeroes (Z.to_nat (512 - file_size mod 512))).

Definition crm_ifwd_tgz_create (gz_open gz_close : bool) (files : list file) : G_ unit :=
  DASSERT "failed to open %s. error: %s" gz_open ;;
  for_each files add_file ;;
  for_each (seq 0 8) (fun _ => write_all (zeroes 1024)) ;;
  DASSERT "failed to close %s" gz_close.

End create.

(** ** Specification: a reader *)

(** The value of octal digits, up to the first other byte. *)
Fixpoint read_octal (acc : Z) (b : bytes) : Z :=
  match b with
  | d :: b => if (48 <=? d) && (d <=? 55) then read_octal (8 * acc + (d - 48)) b else acc
  | [] => acc
  end.

Fixpoint up_to_nul (b : bytes) : bytes :=
  match b with [] => [] | c :: b => if c =? 0 then [] else c :: up_to_nul b end.

Definition slice (from len : nat) (b : bytes) : bytes := take len (drop from b).

(** The stored checksum is that of the header with spaces in its place. *)
Definition checksum_ok (h : bytes) : bool :=
  read_octal 0 (slice 148 8 h) =? sum (take 148 h ++ replicate 8 32 ++ drop 156 h).

Definition roundup512 (n : nat) : nat := ((n + 511) / 512 * 512)%nat.

(** The files of an archive, up to the first block of zeros; [None] when a header
    is wrong or the archive is cut.  Each turn uses a block at least. *)
Fixpoint untar (fuel : nat) (b : bytes) : option (list (bytes * bytes)) :=
  match fuel with
  | 0%nat => None
  | S fuel =>
      let h := take 512 b in
      if negb (length h =? 512)%nat then None
      else if forallb (Z.eqb 0) h then Some []
      else if negb (checksum_ok h) then None
      else
        let size := Z.to_nat (read_octal 0 (slice 124 12 h)) in
        let body := drop 512 b in
        if (length body <? size)%nat then None
        else cons (up_to_nul (take 100 h), take size body) <$> untar fuel (drop (roundup512 size) body)
  end.

(** A file the archive can hold: a plain name of less than 100 characters, a
    positive size below 2 GiB. *)
Record file_ok (f : file) : Prop := {
  fo_stat : exists st, f_stat f = Some st /\ st_reg st = true /\ 0 <= st_uid st /\ 0 <= st_gid st /\ 0 <= st_mtime st /\
    st_size st = Z.of_nat (length (f_content f));
  fo_opens : f_opens f = true;
  fo_name : f_name f <> [] /\ Z.of_nat (length (f_name f)) < 100 /\ Forall (fun c => 0 < c < 128) (f_name f);
  fo_size : 0 < Z.of_nat (length (f_content f)) < 2 ^ 31;
}.

(** The size is not a multiple of that of a block. *)
Definition packed (f : file) : bool := negb (Z.of_nat (length (f_content f)) mod 512 =? 0).

(** What a reader finds: the files up to the first that fills its last block. *)
Fixpoint readable (files : list file) : list file :=
  match files with
  | [] => []
  | f :: files => f :: if packed f then readable files else []
  end.

Definition entry (f : file) : bytes * bytes := (f_name f, f_content f).

(** ** Octal numbers *)

Definition digit (d : Z) : Prop := 48 <= d <= 55.
Definition value (acc : Z) (ds : bytes) : Z := foldl (fun a d => 8 * a + (d - 48)) acc ds.

Lemma value_app acc a b : value acc (a ++ b) = value (value acc a) b.
Proof. apply foldl_app. Qed.

Lemma value_zeros n : value 0 (replicate n 48) = 0.
Proof. induction n as [|n IH]; [done|]. exact IH. Qed.

Lemma read_octal_digits ds acc r : Forall digit ds -> read_octal acc (ds ++ 0 :: r) = value acc ds.
Proof.
  intros Hd. revert acc. induction Hd as [|d ds [H1 H2] _ IH]; intros acc; cbn; [done|].
  destruct (Z.leb_spec 48 d), (Z.leb_spec d 55); try lia. apply IH.
Qed.

Lemma octal_digits fuel v : 0 <= v -> Forall digit (octal fuel v).
Proof.
  revert v. induction fuel as [|fuel IH]; intros v Hv; cbn; [done|]. destruct (Z.eqb_spec v 0); [done|].
  apply Forall_app. split; [apply IH, Z.div_pos; lia|]. apply Forall_cons_2; [|done].
  pose proof (Z.mod_pos_bound v 8 ltac:(lia)). unfold digit. lia.
Qed.

Lemma octal_value fuel v : 0 <= v < 8 ^ Z.of_nat fuel -> value 0 (octal fuel v) = v.
Proof.
  revert v. induction fuel as [|fuel IH]; intros v Hv; [cbn in *; lia|]. cbn [octal]. destruct (Z.eqb_spec v 0); [done|].
  rewrite Nat2Z.inj_succ, Z.pow_succ_r in Hv by lia.
  rewrite value_app, IH by (split; [apply Z.div_pos; lia|apply Z.div_lt_upper_bound; lia]).
  cbn. pose proof (Z.div_mod v 8 ltac:(lia)). lia.
Qed.

Lemma octal_length fuel n v : 0 <= v < 8 ^ Z.of_nat n -> (length (octal fuel v) <= n)%nat.
Proof.
  revert n v. induction fuel as [|fuel IH]; intros n v Hv; cbn; [lia|]. destruct (Z.eqb_spec v 0); [cbn; lia|].
  destruct n as [|n]; [cbn in Hv; lia|]. rewrite Nat2Z.inj_succ, Z.pow_succ_r in Hv by lia.
  rewrite length_app. cbn. enough (length (octal fuel (v / 8)) <= n)%nat by lia.
  apply IH. split; [apply Z.div_pos; lia|apply Z.div_lt_upper_bound; lia].
Qed.

(** The digits and the NUL of a field. *)
Lemma compute_octal_shape len v :
  (1 <= len)%nat -> 0 <= v ->
  exists ds, compute_octal len v = ds ++ [0] /\ length ds = (len - 1)%nat /\ Forall digit ds /\
    (v < 8 ^ Z.of_nat (len - 1) -> (len <= 23)%nat -> value 0 ds = v).
Proof.
  intros Hl Hv. unfold compute_octal. eexists. split; [reflexivity|]. split_and!.
  - rewrite length_take, length_app, length_replicate. lia.
  - apply Forall_take, Forall_app. split; [|by apply octal_digits].
    apply Forall_replicate. unfold digit. lia.
  - intros Hlt H23. pose proof (octal_length 22 (len - 1) v ltac:(lia)) as Hn.
    rewrite take_ge by (rewrite length_app, length_replicate; lia).
    rewrite value_app, value_zeros. apply octal_value. split; [done|].
    eapply Z.lt_le_trans; [exact Hlt|]. apply Z.pow_le_mono_r; lia.
Qed.

Lemma compute_octal_length len v : (1 <= len)%nat -> 0 <= v -> length (compute_octal len v) = len.
Proof. intros Hl Hv. destruct (compute_octal_shape len v Hl Hv) as (ds & -> & Hd & _). rewrite length_app. cbn. lia. Qed.

(** ** Headers *)

Lemma sum_app a b : sum (a ++ b) = sum a + sum b.
Proof. unfold sum. induction a as [|x a IH]; cbn; [done|]. lia. Qed.

Lemma sum_bound k l : Forall (fun b => 0 <= b <= k) l -> 0 <= sum l <= k * Z.of_nat (length l).
Proof. unfold sum. induction 1 as [|x l Hx _ IH]; cbn; lia. Qed.

Lemma digits_bound len v : (1 <= len)%nat -> 0 <= v -> Forall (fun b => 0 <= b <= 55) (compute_octal len v).
Proof.
  intros Hl Hv. destruct (compute_octal_shape len v Hl Hv) as (ds & -> & _ & Hd & _). apply Forall_app. split.
  - eapply List.Forall_impl; [|exact Hd]. unfold digit. intros; lia.
  - apply Forall_cons_2; [lia|done].
Qed.

Lemma field_length n b : (length b <= n)%nat -> length (field n b) = n.
Proof. intros. unfold field, zeroes. rewrite length_app, length_replicate. lia. Qed.

(** What is before and after the checksum. *)
Definition header_pre (name uid gid size mtime : bytes) : bytes :=
  field 100 name ++ [48; 48; 48; 48; 54; 54; 54; 0] ++ uid ++ gid ++ size ++ mtime.
Definition header_post : bytes :=
  [48] ++ zeroes 100 ++ [117; 115; 116; 97; 114; 32] ++ [32; 0] ++
  field 32 [115; 121; 115; 116; 101; 109] ++ field 32 [115; 121; 115; 116; 101; 109] ++
  zeroes 8 ++ zeroes 8 ++ zeroes 167.

Lemma header_split name uid gid size mtime c :
  crm_tar_header name uid gid size mtime c = header_pre name uid gid size mtime ++ c ++ header_post.
Proof. unfold crm_tar_header, header_pre, header_post. by rewrite <-!app_assoc. Qed.

Section header.
Context (name : bytes) (uid gid size mtime : Z).
Hypothesis name_ok : name <> [] /\ Z.of_nat (length name) < 100 /\ Forall (fun c => 0 < c < 128) name.
Hypothesis nonneg : 0 <= uid /\ 0 <= gid /\ 0 <= size < 2 ^ 31 /\ 0 <= mtime.

#[local] Abbreviation pre := (header_pre name (compute_octal 8 uid) (compute_octal 8 gid) (compute_octal 12 size) (compute_octal 12 mtime)).

Lemma pre_length : length pre = 148%nat.
Proof using All.
  destruct name_ok as (_ & Hn & _), nonneg as (? & ? & [? _] & ?). unfold header_pre. rewrite !length_app, field_length by lia.
  rewrite !compute_octal_length by lia. done.
Qed.

Lemma pre_sum : 0 <= sum pre <= 20000.
Proof using All.
  destruct name_ok as (_ & Hn & Hc), nonneg as (? & ? & [? _] & ?). unfold header_pre, field, zeroes. rewrite !sum_app.
  pose proof (sum_bound 127 name ltac:(eapply List.Forall_impl; [|exact Hc]; cbn; intros; lia)).
  pose proof (sum_bound 0 (replicate (100 - length name) 0) ltac:(apply Forall_replicate; lia)).
  pose proof (sum_bound 55 _ (digits_bound 8 uid ltac:(lia) ltac:(lia))) as Hd1.
  pose proof (sum_bound 55 _ (digits_bound 8 gid ltac:(lia) ltac:(lia))) as Hd2.
  pose proof (sum_bound 55 _ (digits_bound 12 size ltac:(lia) ltac:(lia))) as Hd3.
  pose proof (sum_bound 55 _ (digits_bound 12 mtime ltac:(lia) ltac:(lia))) as Hd4.
  rewrite compute_octal_length in Hd1, Hd2, Hd3, Hd4 by lia.
  change (sum [48; 48; 48; 48; 54; 54; 54; 0]) with 354. lia.
Qed.

(** The header of a file: a block a reader accepts, with its name and size. *)
Lemma header_read :
  exists h, crm_tar_header name (compute_octal 8 uid) (compute_octal 8 gid) (compute_octal 12 size) (compute_octal 12 mtime)
      (compute_octal 6 (u32 (sum (crm_tar_header name (compute_octal 8 uid) (compute_octal 8 gid) (compute_octal 12 size)
        (compute_octal 12 mtime) (replicate 8 32)))) ++ [32; 32]) = h /\
    length h = 512%nat /\ forallb (Z.eqb 0) h = false /\ checksum_ok h = true /\
    read_octal 0 (slice 124 12 h) = size /\ up_to_nul (take 100 h) = name.
Proof using All.
  destruct name_ok as (Hne & Hn & Hc), nonneg as (? & ? & [Hs1 Hs2] & ?). rewrite !header_split.
  set (c := sum (pre ++ replicate 8 32 ++ header_post)).
  assert (0 <= c < 32768) as Hcs.
  { unfold c. rewrite !sum_app. pose proof pre_sum. change (sum (replicate 8 32)) with 256.
    assert (sum header_post = 2025) as -> by reflexivity. lia. }
  rewrite (u32_small c) by lia. eexists. split; [reflexivity|].
  destruct (compute_octal_shape 6 c ltac:(lia) ltac:(lia)) as (ds & Hds & Hdl & Hdd & Hdv). rewrite Hds.
  specialize (Hdv ltac:(cbn; lia) ltac:(lia)).
  assert (length ((ds ++ [0]) ++ [32; 32]) = 8%nat) as Hl8 by (rewrite !length_app; cbn; lia).
  pose proof pre_length as Hpl. split_and!.
  - rewrite !length_app, Hpl. rewrite !length_app in Hl8. assert (length header_post = 356%nat) as -> by reflexivity. cbn in Hl8 |- *. lia.
  - unfold header_pre, field. destruct name as [|b l]; [done|]. cbn. inversion Hc; subst. destruct b; [lia|done|done].
  - unfold checksum_ok, slice. rewrite drop_app_length', take_app_length', (take_app_length' pre) by done.
    replace 156%nat with (148 + 8)%nat by lia. rewrite <-drop_drop, drop_app_length', drop_app_length' by done.
    rewrite <-app_assoc. cbn [app]. rewrite read_octal_digits by done. rewrite Hdv. apply Z.eqb_refl.
  - destruct (compute_octal_shape 12 size ltac:(lia) ltac:(lia)) as (es & Hes & Hel & Hed & Hev).
    unfold slice, header_pre. rewrite <-!app_assoc.
    replace 124%nat with (100 + (8 + (8 + (8 + 0))))%nat by lia.
    rewrite <-!drop_drop.
    rewrite (drop_app_length' (field 100 name)) by (symmetry; apply field_length; lia).
    rewrite (drop_app_length' [48; 48; 48; 48; 54; 54; 54; 0]) by done.
    rewrite (drop_app_length' (compute_octal 8 uid)) by (symmetry; apply compute_octal_length; lia).
    rewrite (drop_app_length' (compute_octal 8 gid)) by (symmetry; apply compute_octal_length; lia).
    rewrite drop_0, take_app_length' by (symmetry; apply compute_octal_length; lia). rewrite Hes, read_octal_digits by done.
    apply Hev; [|lia]. eapply Z.lt_le_trans; [exact Hs2|]. by vm_compute.
  - unfold header_pre. rewrite <-app_assoc, take_app_length' by (symmetry; apply field_length; lia).
    unfold field. assert (0 < 100 - length name)%nat as Hz by lia. clear -Hc Hz.
    destruct (100 - length name)%nat as [|k]; [lia|]. induction Hc as [|b l Hb _ IH]; cbn; [done|].
    destruct (Z.eqb_spec b 0); [lia|]. f_equal. exact IH.
Qed.

End header.

(** ** The archive *)

(** The bytes of one file: header, contents, padding. *)
Definition record (h : bytes) (f : file) : bytes :=
  h ++ f_content f ++ zeroes (Z.to_nat (512 - Z.of_nat (length (f_content f)) mod 512)).

(** A header that a reader accepts for this file. *)
Record header_of (f : file) (h : bytes) : Prop := {
  ho_length : length h = 512%nat;
  ho_nonzero : forallb (Z.eqb 0) h = false;
  ho_checksum : checksum_ok h = true;
  ho_size : read_octal 0 (slice 124 12 h) = Z.of_nat (length (f_content f));
  ho_name : up_to_nul (take 100 h) = f_name f;
}.

Section writing.
Context (gzres : nat -> Z -> Z).
Hypothesis gz_writes : forall n len, gzres n len = len.

Lemma write_all_run b s : write_all gzres b s = Ok tt (mk_gz (stream s ++ b) (writes s + 1)) [].
Proof using All.
  unfold write_all, gzwrite, bind, get, modify, ret, ASSERT. cbn. by rewrite gz_writes, Z.eqb_refl.
Qed.

Lemma add_file_run f s :
  file_ok f -> exists h n, header_of f h /\ add_file gzres f s = Ok tt (mk_gz (stream s ++ record h f) n) [].
Proof using All.
  intros [(st & Hst & Hreg & Hu & Hg & Hm & Hsz) Ho Hn Hs].
  destruct (header_read (f_name f) (st_uid st) (st_gid st) (st_size st) (st_mtime st)) as (h & Hh & H1 & H2 & H3 & H4 & H5);
    [done|split_and!; try done; lia|].
  exists h. eexists. split; [split; try done; by rewrite H4|].
  unfold add_file, bind, compute_header. rewrite Hst, Hreg, Ho. unfold bind, ASSERT. destruct Hn as (_ & Hn & _).
  destruct (Z.ltb_spec (Z.of_nat (length (f_name f))) 100); [|lia]. unfold ret. rewrite Hh, Hsz.
  rewrite i32_small by (unfold is_int, INT_MIN, INT_MAX; lia).
  destruct (Z.ltb_spec 0 (Z.of_nat (length (f_content f)))); [|lia]. cbn [app].
  rewrite !write_all_run. cbn [stream writes app]. unfold record. rewrite Nat2Z.id, firstn_all, <-!app_assoc. reflexivity.
Qed.

Lemma add_files_run files s :
  Forall file_ok files ->
  exists hs n, Forall2 header_of files hs /\
    for_each files (add_file gzres) s = Ok tt (mk_gz (stream s ++ concat (zip_with record hs files)) n) [].
Proof using All.
  intros Hf. revert s. induction Hf as [|f files Hf _ IH]; intros s; cbn [for_each].
  { exists [], (writes s). split; [done|]. cbn. rewrite app_nil_r. by destruct s. }
  destruct (add_file_run f s Hf) as (h & n & Hh & Hr). destruct (IH (mk_gz (stream s ++ record h f) n)) as (hs & n' & Hhs & Hr').
  exists (h :: hs), n'. split; [by constructor|]. unfold bind. rewrite Hr, Hr'. cbn [stream zip_with concat app]. by rewrite app_assoc.
Qed.

Lemma end_records_run l s :
  exists n, for_each l (fun _ : nat => write_all gzres (zeroes 1024)) s
    = Ok tt (mk_gz (stream s ++ zeroes (length l * 1024)) n) [].
Proof using All.
  revert s. induction l as [|x l IH]; intros s; cbn [for_each length].
  { exists (writes s). cbn. rewrite app_nil_r. by destruct s. }
  unfold bind. rewrite write_all_run. destruct (IH (mk_gz (stream s ++ zeroes 1024) (writes s + 1))) as [n Hr].
  exists n. rewrite Hr. cbn [stream app]. unfold zeroes. by rewrite <-app_assoc, <-replicate_add.
Qed.

End writing.

Lemma untar_zeros fuel n r : (512 <= n)%nat -> untar (S fuel) (zeroes n ++ r) = Some [].
Proof.
  intros Hn. cbn [untar]. unfold zeroes.
  assert (take 512 (replicate n 0 ++ r) = replicate 512 0) as ->.
  { rewrite take_app_le by (rewrite length_replicate; lia). rewrite take_replicate. f_equal. lia. }
  rewrite length_replicate. reflexivity.
Qed.

Lemma roundup_padding n : (0 < n)%nat ->
  roundup512 n = if Z.of_nat n mod 512 =? 0 then n else (n + Z.to_nat (512 - Z.of_nat n mod 512))%nat.
Proof.
  intros Hn. unfold roundup512. apply Nat2Z.inj. pose proof (Z.mod_pos_bound (Z.of_nat n) 512 ltac:(lia)).
  pose proof (Z.div_mod (Z.of_nat n) 512 ltac:(lia)) as Hd.
  rewrite Nat2Z.inj_mul, Nat2Z.inj_div, Nat2Z.inj_add. change (Z.of_nat 511) with 511. change (Z.of_nat 512) with 512.
  destruct (Z.eqb_spec (Z.of_nat n mod 512) 0) as [He|He].
  - replace ((Z.of_nat n + 511) / 512) with (Z.of_nat n / 512); [lia|].
    apply (Z.div_unique_pos _ _ _ 511); lia.
  - replace ((Z.of_nat n + 511) / 512) with (Z.of_nat n / 512 + 1); [lia|].
    apply (Z.div_unique_pos _ _ _ (Z.of_nat n mod 512 - 1)); lia.
Qed.

(** One file, then what follows its padding. *)
Lemma untar_record fuel h f r :
  header_of f h -> 0 < Z.of_nat (length (f_content f)) ->
  untar (S fuel) (record h f ++ r) =
    cons (entry f) <$> (if packed f then untar fuel r else untar fuel (zeroes 512 ++ r)).
Proof.
  intros [H1 H2 H3 H4 H5] Hs. cbn [untar]. unfold record. rewrite <-!app_assoc.
  rewrite take_app_length', drop_app_length' by done. rewrite H1, H2, H3, H4, H5, Nat2Z.id. cbn [Nat.eqb negb].
  rewrite length_app. destruct (Nat.ltb_spec (length (f_content f) + length (zeroes (Z.to_nat (512 - Z.of_nat (length (f_content f)) mod 512)) ++ r))
    (length (f_content f))); [lia|].
  rewrite take_app_length' by done. unfold entry, packed. rewrite roundup_padding by lia.
  pose proof (Z.mod_pos_bound (Z.of_nat (length (f_content f))) 512 ltac:(lia)).
  destruct (Z.eqb_spec (Z.of_nat (length (f_content f)) mod 512) 0) as [He|He]; cbn [negb].
  - rewrite drop_app_length' by done. rewrite He. done.
  - rewrite <-drop_drop, drop_app_length', drop_app_length' by (unfold zeroes; rewrite ?length_replicate; done). done.
Qed.

Lemma untar_records files hs n :
  Forall2 header_of files hs -> Forall file_ok files -> (512 <= n)%nat ->
  untar (S (length files)) (concat (zip_with record hs files) ++ zeroes n) = Some (entry <$> readable files).
Proof.
  intros Hh Hf Hn. induction Hh as [|f h files hs Hfh Hh IH]; cbn [length zip_with concat].
  { rewrite <-(app_nil_r (zeroes n)). by apply untar_zeros. }
  inversion Hf as [|? ? Hf1 Hf2]; subst. rewrite <-app_assoc, untar_record by (try done; apply Hf1). cbn [readable].
  destruct (packed f).
  - by rewrite IH.
  - by rewrite untar_zeros.
Qed.

(** C34. Reading the archive back: for any plain files below 2 GiB, when the
    calls work, the archive is written whole, every checksum and size in it is
    right whatever the owner and the date, and a reader of the ustar format finds,
    name and contents, the files up to the first whose size is a multiple of 512:
    the padding then written is a whole block of zeros, which is the mark of the
    end.  If no file but the last has such a size, all of them are found. *)
Theorem archive_read_back gzres files :
  (forall n len, gzres n len = len) -> Forall file_ok files ->
  exists s, crm_ifwd_tgz_create gzres true true files (mk_gz [] 0) = Ok tt s [] /\
    untar (S (length files)) (stream s) = Some (entry <$> readable files) /\
    (forall l f, files = l ++ [f] -> Forall (fun f => packed f = true) l -> readable files = files).
Proof.
  intros Hgz Hf. destruct (add_files_run gzres Hgz files (mk_gz [] 0) Hf) as (hs & n & Hh & Hr).
  destruct (end_records_run gzres Hgz (seq 0 8) (mk_gz (stream (mk_gz [] 0) ++ concat (zip_with record hs files)) n)) as (n' & Hr').
  unfold crm_ifwd_tgz_create, bind, DASSERT, ret. rewrite Hr, Hr'. eexists. split; [reflexivity|]. split.
  - cbn [stream app]. apply untar_records; [done|done|]. cbn. lia.
  - intros l f -> Hl. clear -Hl. induction Hl as [|g l Hg _ IH]; cbn [app readable]; [by destruct (packed f)|].
    by rewrite Hg, IH.
Qed.

(** ** Instances *)

Definition demo_file (name content : bytes) : file :=
  mk_file name (Some (mk_stat true 1420792000 1000 1001 (Z.of_nat (length content)))) true content.

Lemma demo_file_ok name content :
  name <> [] -> Z.of_nat (length name) < 100 -> Forall (fun c => 0 < c < 128) name ->
  0 < Z.of_nat (length content) < 2 ^ 31 -> file_ok (demo_file name content).
Proof. intros. split; cbn; [|done|done|done]. by eexists. Qed.

(** A core dump that fills its last block hides the traces that follow it. *)
Example core_dump_hides_traces :
  readable [demo_file [100] (replicate 1024 7); demo_file [116] [1; 2]] = [demo_file [100] (replicate 1024 7)].
Proof. reflexivity. Qed.

Lemma archive_read_back_witness :
  exists s, crm_ifwd_tgz_create (fun _ len => len) true true [demo_file [97] [1; 2; 3]; demo_file [98; 99] [4]] (mk_gz [] 0) = Ok tt s [] /\
    untar 3 (stream s) = Some [([97], [1; 2; 3]); ([98; 99], [4])].
Proof.
  destruct (archive_read_back (fun _ len => len) [demo_file [97] [1; 2; 3]; demo_file [98; 99] [4]]) as (s & H1 & H2 & _).
  - reflexivity.
  - repeat (apply Forall_cons_2; [apply demo_file_ok; cbn; [done|lia|repeat (apply Forall_cons_2; [lia|]); by apply Forall_nil_2|lia]|]).
    by apply Forall_nil_2.
  - exact (ex_intro _ s (conj H1 H2)).
Defined.
