(* ===== verification/Ifwd.v ===== *)
(** * The wrapper of the download library (libs/ifwd/src/crm_ifwd.c)

    It runs in the processes of FwUpload.v: it configures the vendor's library,
    boots the modem in flashing mode, downloads the parts of a firmware or
    collects the files of a core dump.  The library is a parameter: [lib] tells
    whether a call returns [IFWD_DL_OK], and the table of contents of the
    firmware gives the classes of its parts.  Every call is recorded; the files
    are a map from paths to contents. *)

From S2P Require Import Prelude File Archive.
From Stdlib Require Import ZArith Lia Permutation Ascii.
From stdpp Require Import base tactics list list_numbers strings option gmap.

Open Scope Z_scope.
Open Scope crm_scope.

Inductive parameter : Type :=
| set_trace_filename (f : string)
| set_trace (b : bool)
| allow_hw_channel_switch (n : Z)
| coredump_mode_auto
| coredump_mode_disable
| set_coredump_path (f : string)
| stay_in_function (n : Z).

(** The calls of the library, and those made on files. *)
Inductive ifwd_call : Type :=
| SetDllParameter (p : parameter)
| OpenCommPort (dev_node : string)
| InitCallback
| GetHwPlatform (fw : string)
| PreBootTarget
| BootTarget (fw : string)
| DownloadFls (part : Z)
| DownloadCust (part : Z)
| ForceTargetReset
| CloseCommPort
| InjectNvm (fw injected nvm : string)
| Unlink (path : string)
| Rename (src dst : string)
| Chown (path : string).

Abbreviation fs := (gmap string (list Z)).

Section ifwd.
Context (lib : ifwd_call -> bool).

#[local] Abbreviation I_ A := (M fs ifwd_call A).

Definition lib_call (c : ifwd_call) : I_ bool := emit c ;; ret (lib c).

Definition SET_CFG (p : parameter) : I_ unit :=
  let* ok := lib_call (SetDllParameter p) in DASSERT "Failed to set" ok.

Definition unlink (path : string) : I_ bool :=
  let* ok := lib_call (Unlink path) in
  when ok (modify (fun s => delete path s)) ;; ret ok.

Definition path_of (folder file : string) : string := snprintf 128 (folder +:+ "/" +:+ file).

Definition delete_file (folder file : string) : I_ unit :=
  let path := path_of folder file in
  let* s := get in
  when (bool_decide (is_Some (s !! path)))
    (let* ok := unlink path in ASSERT "!unlink(path)" ok).

Definition delete_dump_files (folder info_file : string) (dump_files : list string) : I_ unit :=
  delete_file folder info_file ;;
  for_each dump_files (delete_file folder).

Definition set_name (t : tm) (folder type extension : string) : string :=
  snprintf 128 (folder +:+ "/coredump_" +:+ type +:+ "_" +:+ fmt_d " "%char 4 (tm_year t + 1900) +:+ "-"
    +:+ fmt_d "0"%char 2 (tm_mon t + 1) +:+ "-" +:+ fmt_d "0"%char 2 (tm_mday t) +:+ "-" +:+ fmt_d "0"%char 2 (tm_hour t) +:+ "."
    +:+ fmt_d "0"%char 2 (tm_min t) +:+ "." +:+ fmt_d "0"%char 2 (tm_sec t) +:+ "." +:+ extension).

(** [is_reg] tells whether [fw_path] is a regular file. *)
Definition package (fw_path injected_fw nvm_folder : string) (is_reg : bool) : I_ unit :=
  let* s := get in
  ASSERT "stat(fw_path, &st) == 0" (bool_decide (is_Some (s !! fw_path))) ;;
  ASSERT "S_ISREG(st.st_mode) == true" is_reg ;;
  let* _ := unlink injected_fw in
  let* ok := lib_call (InjectNvm fw_path injected_fw nvm_folder) in
  ASSERT "fls_access_flashless_inject_nvm(0, fw_path, injected_fw, nvm_folder, 0) != 0" ok.

(** [dump_folder] is given when the dump is enabled. *)
Definition boot_modem_flashing_mode (dev_node fw log_file : string) (dump_folder : option string) : I_ Z :=
  when (negb (String.eqb log_file ""))
    (let* _ := unlink log_file in
     SET_CFG (set_trace_filename log_file) ;;
     SET_CFG (set_trace true)) ;;
  match dump_folder with
  | Some folder =>
      SET_CFG (allow_hw_channel_switch 0) ;;
      SET_CFG coredump_mode_auto ;;
      SET_CFG (set_coredump_path folder)
  | None => SET_CFG coredump_mode_disable
  end ;;
  SET_CFG (allow_hw_channel_switch 0) ;;
  let* ok := lib_call (OpenCommPort dev_node) in
  DASSERT "Failed to open comm port (%s)" ok ;;
  let* ok := lib_call InitCallback in
  DASSERT "Failed to initialize callback (%s)" ok ;;
  SET_CFG (stay_in_function 1) ;;
  let* ok := lib_call (GetHwPlatform fw) in
  DASSERT "Failed to receive code section" ok ;;
  let* ok := lib_call PreBootTarget in
  if negb ok then ret (-1) else
  let* ok := lib_call (BootTarget fw) in
  if negb ok then ret (-1) else ret 0.

Definition boot_modem_normal_mode : I_ Z :=
  let* ok := lib_call ForceTargetReset in
  ret (if ok then 0 else -1).

Definition cleanup (log_file : string) : I_ unit :=
  let* _ := lib_call CloseCommPort in
  when (negb (String.eqb log_file "")) (SET_CFG (set_trace false)).

(** ** Firmware *)

Section firmware.
(** The constants of the library, and the table of contents of the firmware. *)
Context (MEMORY_CLASS_CODE MEMORY_CLASS_CUST : Z) (nb_parts : Z) (memory_class : Z -> Z).

(** The body of the loop on the parts; the result is [parts_flashed]. *)
Definition flash_part (cls part_idx parts_flashed : Z) : I_ Z :=
  if memory_class part_idx =? cls then
    let* ok :=
      if cls =? MEMORY_CLASS_CODE then lib_call (DownloadFls part_idx)
      else if cls =? MEMORY_CLASS_CUST then lib_call (DownloadCust part_idx)
      else fail (AssertFail "0") in
    DASSERT "failed to flash %s. reason: %s" ok ;;
    ret (u32 (parts_flashed + 1))
  else ret parts_flashed.

Fixpoint flash_parts (cls : Z) (idxs : list Z) (parts_flashed : Z) : I_ Z :=
  match idxs with
  | [] => ret parts_flashed
  | i :: idxs => let* n := flash_part cls i parts_flashed in flash_parts cls idxs n
  end.

Definition write_fw (dev_node fw log_file : string) : I_ Z :=
  let* err := boot_modem_flashing_mode dev_node fw log_file None in
  let* r :=
    if err =? 0 then
      ASSERT "nb_parts > 0" (0 <? nb_parts) ;;
      let* n := flash_parts MEMORY_CLASS_CODE (seqZ 0 nb_parts) 0 in
      let* n := flash_parts MEMORY_CLASS_CUST (seqZ 0 nb_parts) n in
      ASSERT "parts_flashed == nb_parts" (n =? nb_parts) ;;
      boot_modem_normal_mode
    else ret (-1) in
  cleanup log_file ;;
  ret r.

Definition crm_ifwd_write_firmware := write_fw.

End firmware.

(** ** Core dump *)

(** What the library leaves in the folder while it boots the modem. *)
Record dump_env : Type := mk_dump_env {
  local : tm;
  left_by_lib : list (string * list Z);
  stats : string -> option stat;
  gzres : nat -> Z -> Z;
  accounts : bool;
}.

Definition INFO_FILE : string := "report.json".
Definition DUMP_FILES : list string := ["coredump.fcd"; "bootcore_prev_trace.bin"; "bootcore_trace.bin"].

Definition text (s : string) : list Z := (fun c => Z.of_N (Ascii.N_of_ascii c)) <$> String.list_ascii_of_string s.

(** The files given to the archive, as the folder has them. *)
Definition dump_file_of (e : dump_env) (s : fs) (folder name : string) : file :=
  let path := path_of folder name in
  mk_file (text name) (stats e path) (bool_decide (is_Some (s !! path))) (default [] (s !! path)).

(** The archive written at [dump_path]. *)
Definition create_archive (e : dump_env) (folder dump_path : string) : I_ unit := fun s =>
  match crm_ifwd_tgz_create (gzres e) true true (dump_file_of e s folder <$> DUMP_FILES) (mk_gz [] 0) with
  | Ok _ g _ => Ok tt (<[dump_path := stream g]> s) []
  | Abort r _ => Abort r []
  end.

Definition rename_file (src dst : string) : I_ unit :=
  let* ok := lib_call (Rename src dst) in
  let* s := get in
  match s !! src with
  | Some c => ASSERT "!rename(file, info_path)" ok ;; modify (fun s => <[dst := c]> (delete src s))
  | None => fail (AssertFail "!rename(file, info_path)")
  end.

Definition chown_file (path : string) : I_ unit :=
  let* ok := lib_call (Chown path) in ASSERT "!chown(path, pwd->pw_uid, gp->gr_gid)" ok.

(** The paths of the information and of the dump, each followed by a semicolon. *)
Definition collect (e : dump_env) (dump_folder : string) : I_ string :=
  let info_path := set_name (local e) dump_folder "info" "json" in
  let dump_path := set_name (local e) dump_folder "modem" "tgz" in
  create_archive e dump_folder dump_path ;;
  rename_file (path_of dump_folder INFO_FILE) info_path ;;
  ASSERT "pwd && gp" (accounts e) ;;
  chown_file info_path ;;
  chown_file dump_path ;;
  ret (info_path +:+ ";" +:+ dump_path +:+ ";").

Definition read_dump (e : dump_env) (dev_node fw dump_folder log_file : string) : I_ (option string) :=
  delete_dump_files dump_folder INFO_FILE DUMP_FILES ;;
  let* err := boot_modem_flashing_mode dev_node fw log_file (Some dump_folder) in
  modify (fun s => foldr (fun p s => <[path_of dump_folder p.1 := p.2]> s) s (left_by_lib e)) ;;
  let* files := if err =? 0 then let* f := collect e dump_folder in ret (Some f) else ret None in
  cleanup log_file ;;
  delete_dump_files dump_folder INFO_FILE DUMP_FILES ;;
  ret files.

Definition crm_ifwd_read_dump := read_dump.
Definition crm_ifwd_package := package.

End ifwd.

(** ** The parts of a firmware *)

Section theory.
Context (lib : ifwd_call -> bool) (MEMORY_CLASS_CODE MEMORY_CLASS_CUST : Z) (nb_parts : Z) (memory_class : Z -> Z).
Hypothesis classes_distinct : MEMORY_CLASS_CODE <> MEMORY_CLASS_CUST.

(** The download of a part of the firmware, by its class. *)
Definition download (cls i : Z) : ifwd_call := if cls =? MEMORY_CLASS_CODE then DownloadFls i else DownloadCust i.

Definition of_class (cls : Z) : list Z := List.filter (fun i => memory_class i =? cls) (seqZ 0 nb_parts).

(** The documented order: the code first, then the customization. *)
Definition plan : list ifwd_call :=
  (download MEMORY_CLASS_CODE <$> of_class MEMORY_CLASS_CODE) ++ (download MEMORY_CLASS_CUST <$> of_class MEMORY_CLASS_CUST).

Definition is_download (c : ifwd_call) : bool := match c with DownloadFls _ | DownloadCust _ => true | _ => false end.
Definition downloads (o : list ifwd_call) : list ifwd_call := List.filter is_download o.

(** Why the process may abort: each reason with its cause. *)
Definition blamed (r : abort_reason) : Prop :=
  match r with
  | DAssertFail _ => exists c, lib c = false
  | AssertFail exp =>
      exp = "nb_parts > 0"%string /\ nb_parts <= 0 \/
      exp = "parts_flashed == nb_parts"%string /\
      exists i, 0 <= i < nb_parts /\ memory_class i <> MEMORY_CLASS_CODE /\ memory_class i <> MEMORY_CLASS_CUST
  | _ => False
  end.

Lemma downloads_app a b : downloads (a ++ b) = downloads a ++ downloads b.
Proof. apply List.filter_app. Qed.

Lemma wp_SET_CFG p s (Q : unit -> fs -> list ifwd_call -> Prop) :
  Q tt s [SetDllParameter p] -> wp (SET_CFG lib p) s blamed Q.
Proof.
  intros HQ. unfold SET_CFG, lib_call. apply wp_bind, wp_bind, wp_emit, wp_ret, wp_DASSERT; [done|].
  intros Hf. by eexists.
Qed.

Lemma wp_unlink path s (Q : bool -> fs -> list ifwd_call -> Prop) :
  (forall b s', Q b s' [Unlink path]) -> wp (unlink lib path) s blamed Q.
Proof. intros HQ. unfold unlink, lib_call. apply wp_bind, wp_bind, wp_emit, wp_ret, wp_bind, wp_when; intros _; [apply wp_modify|]; apply wp_ret, HQ. Qed.

Lemma wp_lib_DASSERT c log s (Q : unit -> fs -> list ifwd_call -> Prop) :
  Q tt s [c] -> wp (let* ok := lib_call lib c in DASSERT log ok) s blamed Q.
Proof.
  intros HQ. unfold lib_call. apply wp_bind, wp_bind, wp_emit, wp_ret, wp_DASSERT; [done|]. intros Hf. by eexists.
Qed.

(** The boot downloads nothing. *)
Lemma wp_boot dev_node fw log_file dump_folder s :
  wp (boot_modem_flashing_mode lib dev_node fw log_file dump_folder) s blamed (fun r _ o =>
    downloads o = [] /\ (r = 0 \/ r = -1) /\ (r = 0 <-> lib PreBootTarget = true /\ lib (BootTarget fw) = true)).
Proof.
  unfold boot_modem_flashing_mode. apply wp_bind.
  eapply (wp_mono _ _ blamed _ (fun _ _ o => downloads o = [])); [|done|].
  { apply wp_when; intros _; [|done]. apply wp_bind, wp_unlink. intros _ s'.
    apply wp_bind, wp_SET_CFG, wp_SET_CFG. done. }
  intros ? s1 o1 H1. apply wp_bind. eapply (wp_mono _ _ blamed _ (fun _ _ o => downloads o = [])); [|done|].
  { destruct dump_folder; [apply wp_bind, wp_SET_CFG, wp_bind, wp_SET_CFG|]; by apply wp_SET_CFG. }
  intros ? s2 o2 H2. apply wp_bind, wp_SET_CFG.
  apply wp_bind, wp_bind, wp_emit, wp_ret, wp_bind, wp_DASSERT; [intros _|intros Hf; by eexists].
  apply wp_bind, wp_bind, wp_emit, wp_ret, wp_bind, wp_DASSERT; [intros _|intros Hf; by eexists].
  apply wp_bind, wp_SET_CFG.
  apply wp_bind, wp_bind, wp_emit, wp_ret, wp_bind, wp_DASSERT; [intros _|intros Hf; by eexists].
  apply wp_bind, wp_bind, wp_emit, wp_ret. destruct (lib PreBootTarget) eqn:Hp; cbn [negb].
  - apply wp_bind, wp_bind, wp_emit, wp_ret. destruct (lib (BootTarget fw)) eqn:Hb; cbn [negb]; apply wp_ret;
      rewrite !downloads_app, H1, H2; (split; [done|]); split; [by left|done|by right|]. split; [done|by intros [_ ?]].
  - apply wp_ret. rewrite !downloads_app, H1, H2. split; [done|]. split; [by right|]. split; [done|by intros [? _]].
Qed.

Lemma wp_flash_parts cls idxs n s :
  cls = MEMORY_CLASS_CODE \/ cls = MEMORY_CLASS_CUST -> 0 <= n ->
  let l := List.filter (fun i => memory_class i =? cls) idxs in
  n + Z.of_nat (length l) < 2 ^ 32 ->
  wp (flash_parts lib MEMORY_CLASS_CODE MEMORY_CLASS_CUST memory_class cls idxs n) s blamed (fun n' _ o =>
    o = download cls <$> l /\ n' = n + Z.of_nat (length l)).
Proof using classes_distinct.
  intros Hc. revert n s. induction idxs as [|i idxs IH]; intros n s Hn l Hl; subst l; cbn [flash_parts List.filter] in *.
  { apply wp_ret. split; [done|]. cbn. lia. }
  apply wp_bind. unfold flash_part. destruct (Z.eqb_spec (memory_class i) cls) as [He|He]; cbn [length] in Hl.
  - apply wp_bind. eapply (wp_mono _ _ blamed _ (fun ok s' o => o = [download cls i] /\ ok = lib (download cls i))); [|done|].
    { unfold lib_call, download. destruct (Z.eqb_spec cls MEMORY_CLASS_CODE) as [->|Hne]; [by apply wp_bind, wp_emit, wp_ret|].
      destruct (Z.eqb_spec cls MEMORY_CLASS_CUST); [by apply wp_bind, wp_emit, wp_ret|]. by destruct Hc. }
    intros ok s1 o1 [-> ->]. apply wp_bind, wp_DASSERT; [intros _|intros Hf; by eexists]. apply wp_ret.
    rewrite u32_small by lia. eapply wp_mono; [apply IH; lia|done|]. intros n' s2 o2 [-> ->].
    split; [by rewrite fmap_cons|]. cbn [length]. lia.
  - apply wp_ret. eapply wp_mono; [apply IH; lia|done|]. intros n' s2 o2 [-> ->]. done.
Qed.

Lemma wp_cleanup log_file s :
  wp (cleanup lib log_file) s blamed (fun _ _ o =>
    o = CloseCommPort :: if String.eqb log_file "" then [] else [SetDllParameter (set_trace false)]).
Proof.
  unfold cleanup. apply wp_bind, wp_bind, wp_emit, wp_ret. destruct (String.eqb log_file ""); cbn [negb].
  - apply wp_when; [done|]. done.
  - apply wp_when; [intros _|done]. by apply wp_SET_CFG.
Qed.

Lemma downloads_plan : downloads plan = plan.
Proof.
  unfold plan. rewrite downloads_app. f_equal; unfold downloads; apply List.forallb_filter_id; apply List.forallb_forall;
    intros c Hc%list_elem_of_In; apply list_elem_of_fmap in Hc as (i & -> & _); unfold download; by destruct (_ =? _).
Qed.

(** The two filters select all the parts exactly when their sizes add up. *)
Lemma filters_cover (f g : Z -> bool) l :
  (forall x, f x = true -> g x = false) ->
  (length (List.filter f l) + length (List.filter g l) <= length l)%nat /\
  ((length (List.filter f l) + length (List.filter g l) = length l)%nat ->
    Permutation (List.filter f l ++ List.filter g l) l) /\
  ((length (List.filter f l) + length (List.filter g l) < length l)%nat -> exists x, x ∈ l /\ f x = false /\ g x = false).
Proof.
  intros Hfg. induction l as [|x l (IH1 & IH2 & IH3)]; cbn [List.filter length]; [split_and!; [lia|done|lia]|].
  destruct (f x) eqn:Hf; [rewrite (Hfg x Hf); cbn [length app]|destruct (g x) eqn:Hg; cbn [length]].
  - split_and!; [lia| |].
    + intros ?. constructor. apply IH2. lia.
    + intros ?. destruct IH3 as (y & Hy & ?); [lia|]. exists y. split; [by right|done].
  - split_and!; [lia| |].
    + intros ?. rewrite <-Permutation_middle. constructor. apply IH2. lia.
    + intros ?. destruct IH3 as (y & Hy & ?); [lia|]. exists y. split; [by right|done].
  - split_and!; [lia|lia|]. intros _. exists x. split; [by left|done].
Qed.

Definition part_of (c : ifwd_call) : Z := match c with DownloadFls i | DownloadCust i => i | _ => -1 end.

Lemma part_of_plan : part_of <$> plan = of_class MEMORY_CLASS_CODE ++ of_class MEMORY_CLASS_CUST.
Proof.
  assert (forall cls (l : list Z), part_of <$> (download cls <$> l) = l) as Hd.
  { intros cls l. induction l as [|i l IH]; [done|]. rewrite !fmap_cons, IH. f_equal. unfold download. by destruct (_ =? _). }
  unfold plan. by rewrite fmap_app, !Hd.
Qed.

(** C35. The firmware is written whole and in order: when [write_fw] returns,
    it has closed the port (and stopped the traces it had started) last, and it
    has downloaded either nothing, because the modem could not be booted in
    flashing mode, or exactly the parts of class code followed by those of class
    customization, in the order of the table of contents, which are all the
    parts, each once; it returns 0 exactly when the modem was booted in both
    modes.  It aborts only when a call of the library has failed, when the
    firmware is empty, or when a part is of another class. *)
Theorem firmware_written_in_order dev_node fw log_file s :
  nb_parts < 2 ^ 32 ->
  match write_fw lib MEMORY_CLASS_CODE MEMORY_CLASS_CUST nb_parts memory_class dev_node fw log_file s with
  | Ok r _ o =>
      (exists o', o = o' ++ CloseCommPort :: if String.eqb log_file "" then [] else [SetDllParameter (set_trace false)]) /\
      (r = 0 <-> lib PreBootTarget = true /\ lib (BootTarget fw) = true /\ lib ForceTargetReset = true) /\
      (if lib PreBootTarget && lib (BootTarget fw)
       then downloads o = plan /\ Permutation (part_of <$> plan) (seqZ 0 nb_parts)
       else downloads o = [])
  | Abort r _ => blamed r
  end.
Proof using classes_distinct.
  intros Hnb.
  assert (wp (write_fw lib MEMORY_CLASS_CODE MEMORY_CLASS_CUST nb_parts memory_class dev_node fw log_file) s blamed (fun r _ o =>
      (exists o', o = o' ++ CloseCommPort :: if String.eqb log_file "" then [] else [SetDllParameter (set_trace false)]) /\
      (r = 0 <-> lib PreBootTarget = true /\ lib (BootTarget fw) = true /\ lib ForceTargetReset = true) /\
      (if lib PreBootTarget && lib (BootTarget fw)
       then downloads o = plan /\ Permutation (part_of <$> plan) (seqZ 0 nb_parts)
       else downloads o = []))) as Hwp; [|exact Hwp].
  assert (downloads (CloseCommPort :: if String.eqb log_file "" then [] else [SetDllParameter (set_trace false)]) = []) as Hend
    by (by destruct (String.eqb log_file "")).
  unfold write_fw. apply wp_bind. eapply wp_mono; [apply wp_boot|done|]. intros err s1 o1 (H1 & H2 & H3). apply wp_bind.
  destruct (Z.eqb_spec err 0) as [He|He].
  - destruct (proj1 H3 He) as [P1 P2].
    apply wp_bind, wp_ASSERT; [intros Hpos; bool_facts|intros ?%Z.ltb_ge; left; split; [done|lia]].
    assert (Z.of_nat (length (seqZ 0 nb_parts)) = nb_parts) as Hlen by (rewrite length_seqZ; lia).
    destruct (filters_cover (fun i => memory_class i =? MEMORY_CLASS_CODE) (fun i => memory_class i =? MEMORY_CLASS_CUST)
      (seqZ 0 nb_parts)) as (F1 & F2 & F3).
    { intros x Hx. destruct (Z.eqb_spec (memory_class x) MEMORY_CLASS_CODE) as [->|]; [|done].
      destruct (Z.eqb_spec MEMORY_CLASS_CODE MEMORY_CLASS_CUST); [done|done]. }
    apply wp_bind. eapply wp_mono; [apply wp_flash_parts; [by left|lia|lia]|done|]. intros n1 s2 o2 [-> ->].
    apply wp_bind. eapply wp_mono; [apply wp_flash_parts; [by right|lia|lia]|done|].
    intros n2 s3 o3 [-> ->].
    apply wp_bind, wp_ASSERT.
    + intros Hn. bool_facts. unfold boot_modem_normal_mode, lib_call. apply wp_bind, wp_bind, wp_emit, wp_ret, wp_ret, wp_bind.
      eapply wp_mono; [apply wp_cleanup|done|]. intros ? s4 o4 ->. apply wp_ret. cbn [app]. rewrite !app_nil_r.
      split; [eexists; rewrite ?app_assoc; reflexivity|]. rewrite P1, P2. cbn [andb]. split.
      * destruct (lib ForceTargetReset); [by split|split; [done|by intros (_ & _ & ?)]].
      * split; [|rewrite part_of_plan; apply F2; lia].
        rewrite !downloads_app, H1, Hend. cbn [app]. rewrite !app_nil_r, <-downloads_app.
        change (downloads plan = plan). apply downloads_plan.
    + intros Hn. bool_facts. right. split; [done|]. destruct F3 as (x & Hx & Hx1 & Hx2); [lia|]. exists x. bool_facts.
      apply elem_of_seqZ in Hx. split; [lia|done].
  - apply wp_ret, wp_bind. eapply wp_mono; [apply wp_cleanup|done|]. intros ? s4 o4 ->. apply wp_ret. cbn [app]. rewrite app_nil_r.
    split; [by eexists|].
    assert (lib PreBootTarget && lib (BootTarget fw) = false) as Hb.
    { destruct (lib PreBootTarget), (lib (BootTarget fw)); try done. destruct He. by apply H3. }
    rewrite Hb. split; [split; [done|]|by rewrite downloads_app, H1, Hend]. intros (Hx & Hy & _). by rewrite Hx, Hy in Hb.
Qed.

End theory.

(** ** Instances *)

(** Five parts, code and customization interleaved. *)
Definition demo_class (i : Z) : Z := if Z.even i then 1 else 2.

Lemma firmware_written_in_order_witness :
  match write_fw (fun _ => true) 1 2 5 demo_class "/dev/ttyIFX0" "fw.fls" "log" ∅ with
  | Ok r _ o =>
      (exists o', o = o' ++ [CloseCommPort; SetDllParameter (set_trace false)]) /\
      (r = 0 <-> true = true /\ true = true /\ true = true) /\
      downloads o = [DownloadFls 0; DownloadFls 2; DownloadFls 4; DownloadCust 1; DownloadCust 3] /\
      Permutation [0; 2; 4; 1; 3] (seqZ 0 5)
  | Abort r _ => blamed (fun _ => true) 1 2 5 demo_class r
  end.
Proof. exact (firmware_written_in_order (fun _ => true) 1 2 5 demo_class ltac:(done) "/dev/ttyIFX0" "fw.fls" "log" ∅ ltac:(done)). Defined.

(** A core dump of four files of a few bytes, the library having left them in the
    folder: the archive and the information are kept under the names returned, the
    rest is removed. *)
Definition demo_left : list (string * list Z) :=
  [("report.json", [123; 125]); ("coredump.fcd", [1; 2; 3]); ("bootcore_prev_trace.bin", [4]); ("bootcore_trace.bin", [5; 6])].

Definition demo_dump_env : dump_env :=
  mk_dump_env (mk_tm 115 0 9 7 5 3) demo_left
    (fun path => (fun p => mk_stat true 1420792000 1000 1001 (Z.of_nat (length p.2)))
       <$> List.find (fun p => String.eqb (path_of "/d" p.1) path) demo_left)
    (fun _ len => len) true.

Example demo_dump_collected :
  match read_dump (fun _ => true) demo_dump_env "/dev/ttyIFX0" "fw.fls" "/d" "" {["/d/coredump.fcd" := [9]]} with
  | Ok files s o =>
      files = Some "/d/coredump_info_2015-01-09-07.05.03.json;/d/coredump_modem_2015-01-09-07.05.03.tgz;" /\
      s !! "/d/coredump_info_2015-01-09-07.05.03.json" = Some [123; 125] /\
      (untar 4 <$> s !! "/d/coredump_modem_2015-01-09-07.05.03.tgz")
        = Some (Some [(text "coredump.fcd", [1; 2; 3]); (text "bootcore_prev_trace.bin", [4]); (text "bootcore_trace.bin", [5; 6])]) /\
      size s = 2%nat /\ List.hd_error (List.rev o) = Some (Unlink "/d/bootcore_trace.bin")
  | Abort _ _ => False
  end.
Proof. vm_compute. by split_and!. Qed.
