(* ===== verification/PcieInit.v ===== *)
(** * Initialisation of the PCIe HAL (plugins/hal/pcie/src/init.c)

    The configuration is read, and the calibration of the modem is restored from
    its backup when the working file is missing.  The configuration library is a
    parameter; the files are a map from paths to contents, and a copy is that of
    File.v.  Restoring is shown to undo the backup of fsm_hal.c. *)

From S2P Require Import Prelude File MdmCli HalPcie.
From Stdlib Require Import ZArith Lia.
From stdpp Require Import base tactics list strings option gmap pretty.

Open Scope Z_scope.
Open Scope crm_scope.

(** ** Copies on the file system *)

Abbreviation fs := (gmap string (list Z)).

(** The results of the calls of one copy, but those the files determine. *)
Record copy_res : Type := mk_copy_res { out_opens : bool; head_written : bool; sendfile : Z; closes : Z; umask0 : Z }.

(** The [uint32_t] at the beginning of a partition. *)
Definition raw_size (c : list Z) : option Z :=
  match c with
  | b0 :: b1 :: b2 :: b3 :: _ => Some (b0 + 256 * b1 + 65536 * b2 + 16777216 * b3)
  | _ => None
  end.

Definition env_of (src : option (list Z)) (in_raw : bool) (r : copy_res) : copy_env :=
  mk_copy_env (bool_decide (is_Some src)) (out_opens r)
    (match src with Some c => if in_raw then raw_size c else Some (Z.of_nat (length c)) | None => None end)
    (head_written r) (sendfile r) (closes r) (umask0 r).

Definition body_of (src : option (list Z)) (in_raw : bool) : list Z :=
  let c := default [] src in if in_raw then drop 4 c else c.

(** The destination: [O_TRUNC] empties a file; a partition keeps what is beyond
    the bytes written. *)
Definition stored (out_raw : bool) (old new : list Z) : list Z := if out_raw then new ++ drop (length new) old else new.

(** [crm_file_copy(src, dst, in_raw, out_raw, mode)]. *)
Definition fs_copy {O} (r : copy_res) (src dst : string) (in_raw out_raw : bool) (mode : Z) : M fs O Z := fun s =>
  match crm_file_copy (env_of (s !! src) in_raw r) in_raw out_raw mode (body_of (s !! src) in_raw) tt with
  | Ok err _ o =>
      Ok err (if bool_decide (is_Some (s !! src)) && out_opens r
              then <[dst := stored out_raw (default [] (s !! dst)) (written o)]> s else s) []
  | Abort x _ => Abort x []
  end.

(** ** Configuration *)

(** libtcs2: the groups that can be selected, and the values of a group. *)
Record tcs : Type := mk_tcs {
  has_group : string -> bool;
  get_string : string -> string -> option string;
  get_int : string -> string -> option Z;
  get_bool : string -> string -> option bool;
}.

Record init_cfg : Type := mk_init_cfg {
  ping_timeout : Z;
  pcie : pcie_cfg;
  modem_node : string;
  ping_mux_node : string;
  shutdown_node : string;
  dbg_socket : option string;
  pcie_pwr_ctrl : string;
  nvm_folder : string;
  nvm_calib_file : string;
  nvm_calib_bkup_is_raw : bool;
  nvm_calib_bkup_file : string;
}.

Inductive init_out : Type :=
| Mkdir (path : string)
| Chmod (path : string)
| ChownDir (path : string)
| SetUmask (mask : Z).

#[local] Abbreviation N_ A := (M fs init_out A).

Definition required {A} (exp : string) (o : option A) : N_ A :=
  match o with Some a => ret a | None => fail (AssertFail exp) end.

(** [nvm_folder] and [file_name] joined; the two buffers have the right size. *)
Definition gen_path (nvm_folder : string) (file_name : option string) : N_ string :=
  let* f := required "file_name" file_name in
  ret (nvm_folder +:+ "/" +:+ f).

(** The reading of the configuration; [disable_dump] is the property
    CRM_KEY_DBG_DISABLE_DUMP. *)
Definition read_config (t : tcs) (inst_id : Z) (debug : bool) (disable_dump : string) : N_ init_cfg :=
  ASSERT "tcs->select_group(tcs, .hal) == 0" (has_group t ".hal") ;;
  let* timeout := required "!tcs->get_int(tcs, ping_timeout)" (get_int t ".hal" "ping_timeout") in
  let* flash := required "i_ctx->flash_node" (get_string t ".hal" "flash_node") in
  let* modem := required "i_ctx->modem_node" (get_string t ".hal" "modem_node") in
  let* ping_mux := required "i_ctx->ping_mux_node" (get_string t ".hal" "ping_mux_node") in
  let* shutdown := required "i_ctx->shutdown_node" (get_string t ".hal" "shutdown_node") in
  let* dbg :=
    if debug then let* d := required "dbg_socket" (get_string t ".hal" "debug_socket") in ret (Some d) else ret None in
  ASSERT "tcs->select_group(tcs, .hal.pcie) == 0" (has_group t ".hal.pcie") ;;
  let* pwr := required "i_ctx->pcie_pwr_ctrl" (get_string t ".hal.pcie" "power_control") in
  let rm := get_string t ".hal.pcie" "remove" in
  let rescan := get_string t ".hal.pcie" "rescan" in
  let rtpm := get_string t ".hal.pcie" "rtpm_enable" in
  let group := "nvm" +:+ pretty inst_id in
  ASSERT "!tcs->select_group(tcs, group)" (has_group t group) ;;
  let* folder := required "nvm_folder" (get_string t group "data_folder") in
  let calib := group +:+ ".calib" in
  ASSERT "!tcs->select_group(tcs, group)" (has_group t calib) ;;
  let* calib_file := gen_path folder (get_string t calib "work_file") in
  let* raw := required "!tcs->get_bool(tcs, backup_is_raw)" (get_bool t calib "backup_is_raw") in
  let* backup := required "backup_file" (get_string t calib "backup_file") in
  let* bkup := if raw then ret backup else gen_path folder (Some backup) in
  ret (mk_init_cfg timeout
    (mk_pcie_cfg flash (bool_decide (is_Some rm)) (bool_decide (is_Some rescan)) (bool_decide (is_Some rtpm))
       (String.eqb disable_dump "true"))
    modem ping_mux shutdown dbg pwr folder calib_file raw bkup).

(** ** Calibration *)

(** S_IRUSR | S_IWUSR | S_IXUSR | S_IRGRP | S_IWGRP | S_IXGRP, and the permissions
    of the files. *)
Definition NVM_FOLDER_PERMISSION : Z := 504.
Definition NVM_FILE_PERMISSION : Z := 436.

(** The results of the calls: [mkdir] works, the folder exists already or there is
    another error; [system] and [radio] are known. *)
Inductive mkdir_res : Type := Created | Exists | MkdirError.

Definition folder_create (path : string) (r : mkdir_res) (accounts : bool) (old_umask : Z) : N_ unit :=
  emit (SetUmask (Z.land (Z.lnot NVM_FOLDER_PERMISSION) rwx)) ;;
  match r with
  | Created =>
      emit (Mkdir path) ;;
      emit (Chmod path) ;;
      when accounts (emit (ChownDir path))
  | Exists => ret tt
  | MkdirError => fail (DAssertFail "Failed to create %s: %s")
  end ;;
  emit (SetUmask (Z.land old_umask rwx)).

(** A failed restoration is only logged. *)
Definition restore_calibration (c : init_cfg) (mk : mkdir_res) (accounts : bool) (r : copy_res) : N_ unit :=
  let* s := get in
  when (negb (bool_decide (is_Some (s !! nvm_calib_file c))))
    (folder_create (nvm_folder c) mk accounts (umask0 r) ;;
     let* _ := fs_copy r (nvm_calib_bkup_file c) (nvm_calib_file c) (nvm_calib_bkup_is_raw c) false NVM_FILE_PERMISSION in
     ret tt).

(** The backup made by [reset_or_stop] of fsm_hal.c. *)
Definition backup_calibration (c : init_cfg) (r : copy_res) : N_ unit :=
  let* err := fs_copy r (nvm_calib_file c) (nvm_calib_bkup_file c) false (nvm_calib_bkup_is_raw c) NVM_FILE_PERMISSION in
  ASSERT "!crm_file_copy(i_ctx->nvm_calib_file, i_ctx->nvm_calib_bkup_file, ...)" (err =? 0).

(** ** Backup and restoration *)

(** Every call works, and [sendfile] sends [n] bytes at once. *)
Definition copy_good (r : copy_res) (n : Z) : Prop :=
  out_opens r = true /\ head_written r = true /\ sendfile r = n /\ 0 <= closes r.

Lemma uint32_raw n l : 0 <= n < 2 ^ 32 -> raw_size (uint32_bytes n ++ l) = Some n.
Proof.
  intros Hn. unfold uint32_bytes, raw_size. cbn [app]. f_equal.
  change 65536 with (256 * 256). change 16777216 with (256 * 256 * 256). rewrite <-!Z.div_div by lia.
  pose proof (Z.div_mod n 256 ltac:(lia)). pose proof (Z.div_mod (n / 256) 256 ltac:(lia)).
  pose proof (Z.div_mod (n / 256 / 256) 256 ltac:(lia)).
  rewrite (Z.mod_small (n / 256 / 256 / 256)); [lia|].
  rewrite !Z.div_div by lia. split; [apply Z.div_pos; lia|apply Z.div_lt_upper_bound; lia].
Qed.

(** What a copy that works leaves at its destination. *)
Lemma fs_copy_works {O : Type} r src dst (in_raw out_raw : bool) mode (s : fs) c n :
  s !! src = Some c -> (if in_raw then raw_size c else Some (Z.of_nat (length c))) = Some n -> 0 < n < 2 ^ 32 ->
  n <= Z.of_nat (length (body_of (Some c) in_raw)) -> copy_good r n ->
  fs_copy (O := O) r src dst in_raw out_raw mode s =
    Ok 0 (<[dst := stored out_raw (default [] (s !! dst))
      ((if out_raw then uint32_bytes n else []) ++ take (Z.to_nat n) (body_of (Some c) in_raw))]> s) [].
Proof.
  intros Hsrc Hn Hr Hb (G1 & G2 & G3 & G4). unfold fs_copy. rewrite Hsrc.
  assert (copy_works (env_of (Some c) in_raw r) out_raw n) as Hw.
  { split_and!; try done. cbn. intros _. split; [done|]. rewrite G3, u32_small; lia. }
  assert (-1 <= sent (env_of (Some c) in_raw r) <= Z.of_nat (length (body_of (Some c) in_raw)) /\
    (in_raw = false -> forall m, src_size (env_of (Some c) in_raw r) = Some m -> m = Z.of_nat (length (body_of (Some c) in_raw)))) as Hok.
  { split; [cbn; lia|]. intros ->. cbn. intros m Hm. by injection Hm. }
  destruct (file_copied (env_of (Some c) in_raw r) in_raw out_raw mode (body_of (Some c) in_raw) Hok)
    as (err & o & Hrun & _ & _ & _ & _ & Hi & Hwr).
  assert (err = 0) as -> by (apply Hi; by exists n).
  rewrite Hrun, G1. cbn [andb]. rewrite bool_decide_eq_true_2 by done. do 2 f_equal.
  rewrite (Hwr eq_refl n Hn), u32_small by lia. destruct (Z.eqb_spec n 0); [lia|]. by rewrite andb_true_r.
Qed.

(** Restoring undoes a backup: a calibration that was backed up, in a file or in
    a raw partition of any contents, and then lost is restored byte for byte the
    next time the HAL starts. *)
Lemma calibration_roundtrip c mk accounts r r' (s : fs) body :
  s !! nvm_calib_file c = Some body -> 0 < Z.of_nat (length body) < 2 ^ 32 ->
  nvm_calib_file c <> nvm_calib_bkup_file c -> mk <> MkdirError ->
  copy_good r (Z.of_nat (length body)) -> copy_good r' (Z.of_nat (length body)) ->
  exists s1 s2 o, backup_calibration c r s = Ok tt s1 [] /\
    restore_calibration c mk accounts r' (delete (nvm_calib_file c) s1) = Ok tt s2 o /\
    s2 !! nvm_calib_file c = Some body.
Proof.
  intros Hs Hl Hne Hmk Hr Hr'.
  assert (exists o, forall s0, folder_create (nvm_folder c) mk accounts (umask0 r') s0 = Ok tt s0 o) as [o Ho].
  { unfold folder_create, bind, emit, when. destruct mk; [destruct accounts| |done]; by eexists. }
  unfold backup_calibration, bind.
  rewrite (fs_copy_works r _ _ false _ _ s body (Z.of_nat (length body)) Hs eq_refl Hl ltac:(done) Hr). cbn [Z.eqb app].
  rewrite Nat2Z.id. cbn [body_of default]. rewrite firstn_all.
  eexists _, _, _. split; [reflexivity|].
  set (img := stored _ _ _). set (s1 := <[nvm_calib_bkup_file c := img]> s).
  unfold restore_calibration, when, bind, get. rewrite lookup_delete_eq. cbn [negb bool_decide].
  rewrite bool_decide_eq_false_2 by (by intros [? ?]). cbn [negb].
  assert (delete (nvm_calib_file c) s1 !! nvm_calib_bkup_file c = Some img) as Himg
    by (unfold s1; by rewrite lookup_delete_ne, lookup_insert_eq by done).
  assert ((if nvm_calib_bkup_is_raw c then raw_size img else Some (Z.of_nat (length img))) = Some (Z.of_nat (length body)) /\
    take (length body) (body_of (Some img) (nvm_calib_bkup_is_raw c)) = body) as [Hsz Hbody].
  { unfold img, stored, body_of. destruct (nvm_calib_bkup_is_raw c); cbn [default].
    - rewrite <-app_assoc. split; [apply uint32_raw; lia|].
      unfold uint32_bytes. cbn -[take]. by rewrite drop_0, take_app_length.
    - cbn [app]. by rewrite firstn_all. }
  rewrite Ho, (fs_copy_works r' _ _ _ _ _ _ img (Z.of_nat (length body)) Himg Hsz Hl); [|clear Ho|done].
  - split; [reflexivity|]. rewrite lookup_insert_eq, Nat2Z.id. f_equal. exact Hbody.
  - rewrite <-Hbody at 1. rewrite length_take. lia.
Qed.

(** An empty calibration file is not recorded in a raw backup: the header is
    written only for a size that is not 0, so an older calibration stays there. *)
Example empty_backup_keeps_old :
  let c := mk_init_cfg 0 (mk_pcie_cfg "" false false false false) "" "" "" None "" "/n" "/n/calib" true "/dev/gpp" in
  backup_calibration c (mk_copy_res true true 0 0 18) {["/n/calib" := []; "/dev/gpp" := uint32_bytes 2 ++ [7; 8]]}
  = Ok tt {["/n/calib" := []; "/dev/gpp" := uint32_bytes 2 ++ [7; 8]]} [].
Proof. vm_compute. reflexivity. Qed.
