(* ===== verification/Startup.v ===== *)
(** * Start and end of the process (main/src/crm_main.c, plugins/control/src/init.c, libs/utils/src/plugins.c)

    The command line, the loading of the plugins, the creation of the services of
    CTRL in their order and their disposal.  The configuration library, the
    dynamic linker and the properties are parameters.  A service's pointer is
    null, live or freed, so that a call on a service that does not exist any more
    is a value of the model. *)

From S2P Require Import Prelude File PcieInit.
From Stdlib Require Import ZArith Lia Ascii.
From stdpp Require Import base tactics list strings option functions pretty.

Open Scope Z_scope.
Open Scope crm_scope.

(** ** Data *)

Inductive ctrl_plugins : Type :=
| PLUGIN_CLIENTS | PLUGIN_HAL | PLUGIN_FW_UPLOAD | PLUGIN_FW_ELECTOR | PLUGIN_CUSTOMIZATION | PLUGIN_ESCALATION
| PLUGIN_WAKELOCK | PLUGIN_DUMP.

#[export] Instance ctrl_plugins_eq_dec : EqDecision ctrl_plugins.
Proof. solve_decision. Defined.

(** The indexes below [PLUGIN_NB]. *)
Definition all_plugins : list ctrl_plugins :=
  [PLUGIN_CLIENTS; PLUGIN_HAL; PLUGIN_FW_UPLOAD; PLUGIN_FW_ELECTOR; PLUGIN_CUSTOMIZATION; PLUGIN_ESCALATION;
   PLUGIN_WAKELOCK; PLUGIN_DUMP].

(** A handle stands for the file it was opened for, a function for its file and
    its symbol. *)
Record crm_plugin : Type := mk_plugin { handle : option string; init : option (string * string) }.

(** The dynamic linker: the files it opens, their symbols. *)
Record linker : Type := mk_linker { dl_opens : string -> bool; dl_symbol : string -> string -> bool }.

Inductive service : Type :=
| Ipc | Wakelock | Watchdog | Clients | Hal | Upload | Elector | Customization | Escalation | Dump.

#[export] Instance service_eq_dec : EqDecision service.
Proof. solve_decision. Defined.

Inductive pointer : Type := Null | Live | Freed.

Record process : Type := mk_process {
  group : string;                           (** the group selected in the configuration *)
  libs : list string;                       (** the libraries opened *)
  plugins : ctrl_plugins -> crm_plugin;
  services : service -> pointer;
}.

(** The calls of the initialisation functions with what they are given, but the
    contexts. *)
Inductive init_call : Type :=
| InitIpc
| InitWakelock (name : string)
| InitWatchdog (ping_period : Z)
| InitClients (inst_id : Z) (sanity_mode : bool)
| InitHal (inst_id : Z) (host_debug dump_enabled : bool)
| InitUpload (inst_id : Z) (flashless : bool)
| InitElector (inst_id : Z)
| InitCustomization
| InitEscalation (sanity_mode : bool)
| InitDump (host_debug : bool).

Definition service_of (c : init_call) : service :=
  match c with
  | InitIpc => Ipc | InitWakelock _ => Wakelock | InitWatchdog _ => Watchdog | InitClients _ _ => Clients
  | InitHal _ _ _ => Hal | InitUpload _ _ => Upload | InitElector _ => Elector | InitCustomization => Customization
  | InitEscalation _ => Escalation | InitDump _ => Dump
  end.

Inductive start_out : Type :=
| Sigaction (sig : string)
| SetProperty (key value : string)
| FactoryInit
| FactoryDispose
| TcsInit (name : string)
| TcsDispose
| DlOpen (file : string)
| DlClose (file : string)
| Init (c : init_call)
| SendStop (x : service)
| Dispose (x : service)
| EventLoop.

#[local] Abbreviation B_ A := (M process start_out A).

Definition set_plugin (i : ctrl_plugins) (p : crm_plugin) : B_ unit :=
  modify (fun s => mk_process (group s) (libs s) (<[i := p]> (plugins s)) (services s)).
Definition set_service (x : service) (p : pointer) : B_ unit :=
  modify (fun s => mk_process (group s) (libs s) (plugins s) (<[x := p]> (services s))).
Definition set_libs (l : list string) : B_ unit :=
  modify (fun s => mk_process (group s) l (plugins s) (services s)).

(** ** plugins.c *)

Definition select_group (t : tcs) (g : string) : B_ bool :=
  if has_group t g then modify (fun s => mk_process g (libs s) (plugins s) (services s)) ;; ret true else ret false.

(** [None] stands for the result -1, which leaves the plugin as it was. *)
Definition crm_plugin_load (t : tcs) (lk : linker) (plugin_name init_name : string) : B_ (option crm_plugin) :=
  let* s := get in
  match get_string t (group s) plugin_name with
  | Some filename =>
      DASSERT "Failed to load %s: %s" (dl_opens lk filename) ;;
      set_libs (filename :: libs s) ;;
      emit (DlOpen filename) ;;
      DASSERT "Symbol (%s) not found in library (%s)" (dl_symbol lk filename init_name) ;;
      ret (Some (mk_plugin (Some filename) (Some (filename, init_name))))
  | None => ret None
  end.

Fixpoint remove_one (f : string) (l : list string) : list string :=
  match l with [] => [] | g :: l => if String.eqb f g then l else g :: remove_one f l end.

(** [dlclose] fails on what is not open. *)
Definition crm_plugin_unload (p : crm_plugin) : B_ crm_plugin :=
  let* s := get in
  match handle p with
  | None => fail (Undefined "dlclose(NULL)")
  | Some f =>
      ASSERT "dlclose(plugin->handle) == 0" (bool_decide (f ∈ libs s)) ;;
      set_libs (remove_one f (libs s)) ;;
      emit (DlClose f) ;;
      ret (mk_plugin None None)
  end.

(** ** debug.c and keys.h *)

(** [crm_property_get(key, value, default_value)]. *)
Definition properties : Type := string -> string -> string.

Definition CRM_KEY_DBG_LOAD_STUB : string := "persist.sys.crm@.load_stub".
Definition CRM_KEY_DBG_SANITY_TEST_MODE : string := "sys.crm@.sanity".
Definition CRM_KEY_DBG_HOST : string := "crm@.host_test".
Definition CRM_KEY_BUILD_TYPE : string := "ro.build.type".

Definition crm_is_in_sanity_test_mode (prop : properties) : bool :=
  if negb (String.eqb (prop CRM_KEY_BUILD_TYPE "") "user")
  then String.eqb (prop CRM_KEY_DBG_SANITY_TEST_MODE "") "true" else false.

(** ** init.c *)

Section ctrl.
Context (t : tcs) (lk : linker) (prop : properties).

(** [ASSERT(!crm_plugin_load(tcs, name, init_name, &i_ctx->plugins[i]))]. *)
Definition load_required (i : ctrl_plugins) (name init_name : string) : B_ unit :=
  let* r := crm_plugin_load t lk name init_name in
  match r with
  | Some p => set_plugin i p
  | None => fail (AssertFail "!crm_plugin_load(tcs, name, init_name, &i_ctx->plugins[i])")
  end.

Definition load_plugins : B_ unit :=
  let load_hw_stub := String.eqb (prop CRM_KEY_DBG_LOAD_STUB "false") "true" in
  let* ok := select_group t ".control.plugins" in
  ASSERT "tcs->select_group(tcs, .control.plugins) == 0" ok ;;
  (if negb load_hw_stub then load_required PLUGIN_HAL "hal" "crm_hal_init"
   else load_required PLUGIN_HAL "hal_stub" "crm_hal_init") ;;
  load_required PLUGIN_CLIENTS "clients" "crm_cli_abs_init" ;;
  load_required PLUGIN_FW_UPLOAD "fw_upload" "crm_fw_upload_init" ;;
  load_required PLUGIN_FW_ELECTOR "fw_elector" "crm_fw_elector_init" ;;
  load_required PLUGIN_CUSTOMIZATION "customization" "crm_customization_init" ;;
  load_required PLUGIN_WAKELOCK "wakelock" "crm_wakelock_init" ;;
  load_required PLUGIN_ESCALATION "escalation" "crm_escalation_init" ;;
  let* r := crm_plugin_load t lk "dump" "crm_dump_init" in
  match r with Some p => set_plugin PLUGIN_DUMP p | None => ret tt end.

Definition unload_plugins : B_ unit :=
  for_each all_plugins (fun i =>
    let* s := get in
    match handle (plugins s i) with
    | Some _ => let* p := crm_plugin_unload (plugins s i) in set_plugin i p
    | None => ret tt
    end).

(** A service is created by the program itself, or by the function of a plugin. *)
Definition start_service (c : init_call) : B_ unit := emit (Init c) ;; set_service (service_of c) Live.
Definition start_plugin (i : ctrl_plugins) (c : init_call) : B_ unit :=
  let* s := get in
  match init (plugins s i) with
  | Some _ => start_service c
  | None => fail (Undefined "call of a null function")
  end.

Definition start_plugins (inst_id ping_period : Z) : B_ unit :=
  start_service InitIpc ;;
  start_plugin PLUGIN_WAKELOCK (InitWakelock (snprintf 5 ("crm" +:+ pretty inst_id))) ;;
  start_service (InitWatchdog ping_period) ;;
  let sanity_mode := crm_is_in_sanity_test_mode prop in
  let* s := get in
  let dump_enabled := bool_decide (is_Some (init (plugins s PLUGIN_DUMP))) in
  let host_debug := String.eqb (prop CRM_KEY_DBG_HOST "false") "true" in
  start_plugin PLUGIN_CLIENTS (InitClients inst_id sanity_mode) ;;
  start_plugin PLUGIN_HAL (InitHal inst_id host_debug dump_enabled) ;;
  start_plugin PLUGIN_FW_UPLOAD (InitUpload inst_id true) ;;
  start_plugin PLUGIN_FW_ELECTOR (InitElector inst_id) ;;
  start_plugin PLUGIN_CUSTOMIZATION InitCustomization ;;
  start_plugin PLUGIN_ESCALATION (InitEscalation sanity_mode) ;;
  when dump_enabled (start_plugin PLUGIN_DUMP (InitDump host_debug)).

(** A call on a service; [dispose] frees it. *)
Definition live (x : service) : B_ unit :=
  let* s := get in
  match services s x with
  | Live => ret tt
  | Null => fail (Undefined "call on a null context")
  | Freed => fail (Undefined "call on a freed context")
  end.
Definition send_stop (x : service) : B_ unit := live x ;; emit (SendStop x).
Definition dispose_service (x : service) : B_ unit := live x ;; emit (Dispose x) ;; set_service x Freed.

Definition stop_plugins : B_ unit :=
  send_stop Ipc ;;
  send_stop Watchdog ;;
  dispose_service Clients ;;
  dispose_service Hal ;;
  dispose_service Upload ;;
  dispose_service Customization ;;
  dispose_service Watchdog ;;
  dispose_service Wakelock ;;
  dispose_service Elector ;;
  (let* s := get in match services s Dump with Null => ret tt | _ => dispose_service Dump end) ;;
  dispose_service Ipc.

Definition dispose : B_ unit := stop_plugins ;; unload_plugins.

(** The zeroed context, then its plugins; the timeouts are read but the first is
    only kept.  The fields of the event loop are those of Control.v. *)
Definition crm_ctrl_init (inst_id : Z) : B_ Z :=
  modify (fun s => mk_process (group s) (libs s) (fun _ => mk_plugin None None) (fun _ => Null)) ;;
  let* ok := select_group t ".control" in
  ASSERT "tcs->select_group(tcs, .control) == 0" ok ;;
  let* s := get in
  match get_int t (group s) "watchdog_timeout", get_int t (group s) "ping_period" with
  | None, _ => fail (AssertFail "tcs->get_int(tcs, watchdog_timeout, &i_ctx->timeout) == 0")
  | _, None => fail (AssertFail "tcs->get_int(tcs, ping_period, &ping_period) == 0")
  | Some timeout, Some ping_period =>
      load_plugins ;; start_plugins inst_id ping_period ;; ret timeout
  end.

End ctrl.

(** ** crm_main.c *)

(** The characters of [strtol]. *)
Definition isspace (c : ascii) : bool := let n := N_of_ascii c in ((9 <=? n) && (n <=? 13) || (n =? 32))%N.
Definition digit (c : ascii) : option Z :=
  let n := Z.of_N (N_of_ascii c) in if (48 <=? n) && (n <=? 57) then Some (n - 48) else None.

Fixpoint skip_spaces (s : string) : string :=
  match s with String c s' => if isspace c then skip_spaces s' else s | EmptyString => s end.
Fixpoint read_digits (s : string) (acc : Z) : Z :=
  match s with
  | String c s' => match digit c with Some d => read_digits s' (10 * acc + d) | None => acc end
  | EmptyString => acc
  end.

(** [strtol(s, &end_ptr, 10)] with a [long] of [bits] bits: [None] when [errno] is
    set or when [end_ptr] is [s]. *)
Definition strtol (bits : Z) (s : string) : option Z :=
  let s := skip_spaces s in
  let '(neg, s) :=
    match s with
    | String "-" s' => (true, s')
    | String "+" s' => (false, s')
    | _ => (false, s)
    end in
  match s with
  | String c _ =>
      match digit c with
      | Some _ =>
          let v := if neg then - read_digits s 0 else read_digits s 0 in
          if (- 2 ^ (bits - 1) <=? v) && (v <? 2 ^ (bits - 1)) then Some v else None
      | None => None
      end
  | EmptyString => None
  end.

(** What [getopt(argc, argv, "hvi:")] gives. *)
Inductive cli_option : Type := OptHelp | OptVersion | OptInstance (optarg : string) | OptUnknown.

Definition usage {A} : B_ A := fail (Exited (-1)).

Definition sig_handler (g_factory : bool) : B_ unit :=
  when g_factory (emit FactoryDispose) ;;
  fail (Exited (-1)).

Section main.
Context (long_bits : Z) (tcs2_init : string -> option tcs) (lk : linker) (prop : properties).

Fixpoint parse_options (l : list cli_option) (inst_id : Z) : B_ Z :=
  match l with
  | [] => ret inst_id
  | OptHelp :: _ => usage
  | OptVersion :: l => parse_options l inst_id
  | OptInstance optarg :: l =>
      match strtol long_bits optarg with
      | Some v => parse_options l (i32 v)
      | None => fail (AssertFail "errno == 0 && end_ptr != optarg")
      end
  | OptUnknown :: _ => usage
  end.

(** The check of [crm_property_init], after the identifier has been kept. *)
Definition crm_property_init (id : Z) : B_ unit := ASSERT "id >= 0 && id <= 9" ((0 <=? id) && (id <=? 9)).

(** The configuration folder forced by a property. *)
Definition hack : B_ unit :=
  let persist_prop := prop "persist.config.specific" "" in
  when (negb (String.eqb persist_prop ""))
    (emit (SetProperty "ro.telephony.tcs.sw_folder" persist_prop)).

(** [main] up to the event loop: the instance, its configuration and the plugin of
    CTRL.  [MDM_CLI_DEFAULT_INSTANCE] is [dflt].  [ctrl_plugin] is not initialised,
    and the result of its loading is not looked at. *)
Definition main_start (dflt : Z) (argv : list cli_option) : B_ (Z * crm_plugin) :=
  emit (Sigaction "SIGCHLD") ;; emit (Sigaction "SIGABRT") ;; emit (Sigaction "SIGTERM") ;;
  hack ;;
  let* inst_id := parse_options argv dflt in
  crm_property_init inst_id ;;
  emit FactoryInit ;;
  let name := snprintf 5 ("crm" +:+ pretty inst_id) in
  emit (TcsInit name) ;;
  match tcs2_init name with
  | None => fail (AssertFail "tcs")
  | Some t =>
      let* ok := select_group t ".main" in
      ASSERT "tcs->select_group(tcs, .main) == 0" ok ;;
      let* r := crm_plugin_load t lk "control" "crm_ctrl_init" in
      match r with
      | None => fail (Undefined "ctrl_plugin.init is not initialised")
      | Some ctrl_plugin =>
          crm_ctrl_init t lk prop inst_id ;;
          emit TcsDispose ;;
          ret (inst_id, ctrl_plugin)
      end
  end.

(** [main] from the end of the event loop. *)
Definition main_end (ctrl_plugin : crm_plugin) : B_ unit :=
  dispose ;;
  emit FactoryDispose ;;
  crm_plugin_unload ctrl_plugin ;;
  ret tt.

Definition main (dflt : Z) (argv : list cli_option) : B_ unit :=
  let* r := main_start dflt argv in
  emit EventLoop ;;
  main_end r.2.

End main.

(** ** Loading and unloading *)

Lemma remove_one_perm f l : f ∈ l -> f :: remove_one f l ≡ₚ l.
Proof.
  induction l as [|g l IH]; intros Hf; [by apply not_elem_of_nil in Hf|]. cbn.
  destruct (String.eqb_spec f g) as [->|Hn]; [done|].
  apply elem_of_cons in Hf as [?|Hf]; [done|]. rewrite Permutation_swap. by constructor; apply IH.
Qed.

Section loading.
Context (t : tcs) (lk : linker).
Implicit Types (s : process).

(** What has been opened since [s0] is what the plugins of [l] hold. *)
Definition held (s : process) (l : list ctrl_plugins) : list string := omap (fun i => handle (plugins s i)) l.

Lemma held_cons s i l : held s (i :: l) = option_list (handle (plugins s i)) ++ held s l.
Proof. unfold held. cbn. by destruct (handle _). Qed.

(** Only the plugins of [l] matter. *)
Lemma held_ext s s' l : (forall i, i ∈ l -> plugins s' i = plugins s i) -> held s' l = held s l.
Proof.
  induction l as [|i l IH]; intros Hp; [done|]. rewrite !held_cons, Hp, IH; [done|intros; apply Hp; by right|by left].
Qed.

Lemma wp_crm_plugin_load name init_name s :
  wp (crm_plugin_load t lk name init_name) s any_abort (fun r s' o =>
    plugins s' = plugins s /\ services s' = services s /\ group s' = group s /\
    match r with
    | Some p => exists f, p = mk_plugin (Some f) (Some (f, init_name)) /\ libs s' = f :: libs s /\ o = [DlOpen f]
    | None => libs s' = libs s /\ o = []
    end).
Proof.
  unfold crm_plugin_load. apply wp_bind, wp_get. case_match; [|by apply wp_ret].
  apply wp_bind, wp_DASSERT; [intros _|done]. apply wp_bind, wp_modify, wp_bind, wp_emit, wp_bind.
  apply wp_DASSERT; [intros _|done]. apply wp_ret. cbn. split_and!; try done. by eexists.
Qed.

Lemma wp_unload_one i s :
  (forall f, handle (plugins s i) = Some f -> f ∈ libs s) ->
  wp (let* s := get in
    match handle (plugins s i) with
    | Some _ => let* p := crm_plugin_unload (plugins s i) in set_plugin i p
    | None => ret tt
    end) s no_abort (fun _ s' o =>
    services s' = services s /\ (forall j, j <> i -> plugins s' j = plugins s j) /\
    option_list (handle (plugins s i)) ++ libs s' ≡ₚ libs s /\
    o = DlClose <$> option_list (handle (plugins s i))).
Proof.
  intros Hf. apply wp_bind, wp_get. destruct (handle (plugins s i)) as [f|] eqn:Hh; cbn; [|by apply wp_ret].
  unfold crm_plugin_unload. apply wp_bind, wp_bind, wp_get. rewrite Hh.
  apply wp_bind, wp_ASSERT; rewrite ?bool_decide_eq_true, ?bool_decide_eq_false; [intros Hin|intros []; by apply Hf].
  apply wp_bind, wp_modify, wp_bind, wp_emit, wp_ret, wp_modify. cbn. split_and!; [done| |by apply remove_one_perm|done].
  intros j Hj. by rewrite fn_lookup_insert_ne.
Qed.

(** The loop of [unload_plugins], from any of its turns. *)
Lemma wp_unload l s base :
  NoDup l -> libs s ≡ₚ held s l ++ base ->
  wp (for_each l (fun i =>
    let* s := get in
    match handle (plugins s i) with
    | Some _ => let* p := crm_plugin_unload (plugins s i) in set_plugin i p
    | None => ret tt
    end)) s no_abort (fun _ s' o => services s' = services s /\ libs s' ≡ₚ base /\ o = DlClose <$> held s l).
Proof.
  revert s. induction l as [|i l IH]; intros s Hnd Hl; cbn [for_each]; [by apply wp_ret|].
  apply NoDup_cons in Hnd as [Hi Hnd]. apply wp_bind.
  pose proof (held_cons s i l) as Heq.
  eapply wp_mono; [apply wp_unload_one|done|].
  { intros f Hf. rewrite Hl, Heq, Hf. apply elem_of_app. left. by left. }
  intros _ s1 o (Hsv & Hpl & Hlib & ->).
  assert (held s1 l = held s l) as Hh by (apply held_ext; intros j Hj; apply Hpl; by intros ->).
  eapply wp_mono; [apply IH; [done|]|done|].
  - apply (Permutation_app_inv_l (option_list (handle (plugins s i)))). rewrite Hlib, Hl, Heq, Hh. by rewrite (assoc_L (++)).
  - intros _ s2 o (-> & Hb & ->). split_and!; [done..|]. by rewrite Heq, Hh, fmap_app.
Qed.

End loading.

(** ** The services of CTRL *)

(** What a service calls: its own clients' contexts, and through the context of
    CTRL the queue ([notify_hal_event] and the like) and CLA ([notify_client],
    called by the HAL and the dump plugins). *)
Definition uses (x : service) : list service :=
  match x with
  | Watchdog => [Wakelock]
  | Clients => [Ipc; Wakelock]
  | Hal | Dump => [Ipc; Clients]
  | Upload | Customization => [Ipc]
  | Ipc | Wakelock | Elector | Escalation => []
  end.

Definition created (o : list start_out) : list service :=
  omap (fun a => match a with Init c => Some (service_of c) | _ => None end) o.
Definition disposed (o : list start_out) : list service :=
  omap (fun a => match a with Dispose x => Some x | _ => None end) o.

(** [x] is in the list, and [y] after it. *)
Fixpoint before (x y : service) (l : list service) : bool :=
  match l with
  | [] => false
  | z :: l => if bool_decide (z = x) then bool_decide (y ∈ l) else before x y l
  end.

Section lifetime.
Context (t : tcs) (lk : linker) (prop : properties).
Implicit Types (s : process).

Lemma created_app o o' : created (o ++ o') = created o ++ created o'.
Proof. unfold created. apply omap_app. Qed.
Lemma disposed_app o o' : disposed (o ++ o') = disposed o ++ disposed o'.
Proof. unfold disposed. apply omap_app. Qed.
Lemma disposed_closes l : disposed (DlClose <$> l) = [].
Proof. by induction l. Qed.

(** The plugins of [l] are loaded, the others are not. *)
Record loaded (s : process) (l : list ctrl_plugins) (s' : process) : Prop := {
  ld_services : services s' = services s;
  ld_libs : libs s' ≡ₚ held s' l ++ libs s;
  ld_in : forall i, i ∈ l -> is_Some (init (plugins s' i));
  ld_out : forall i, i ∉ l -> plugins s' i = mk_plugin None None;
}.

Lemma loaded_more i f init_name s l s1 s2 :
  i ∉ l -> loaded s l s1 -> services s2 = services s1 -> libs s2 = f :: libs s1 ->
  plugins s2 = <[i := mk_plugin (Some f) (Some (f, init_name))]> (plugins s1) ->
  loaded s (i :: l) s2.
Proof.
  intros Hi [Hs Hl Hin Hout] Hs2 Hl2 Hp2. split.
  - by rewrite Hs2.
  - assert (held s2 l = held s1 l) as Hh.
    { apply held_ext. intros j Hj. rewrite Hp2. apply fn_lookup_insert_ne. by intros ->. }
    rewrite held_cons, Hh, Hl2, Hl, Hp2, fn_lookup_insert. done.
  - intros j Hj. rewrite Hp2. destruct (decide (j = i)) as [->|Hne]; [rewrite fn_lookup_insert; by eexists|].
    rewrite fn_lookup_insert_ne by done. apply Hin. by apply elem_of_cons in Hj as [?|?].
  - intros j [? ?]%not_elem_of_cons. rewrite Hp2, fn_lookup_insert_ne by done. by apply Hout.
Qed.

Lemma wp_load_required i name init_name s l s1 :
  i ∉ l -> loaded s l s1 ->
  wp (load_required t lk i name init_name) s1 any_abort (fun _ s2 o => loaded s (i :: l) s2 /\ created o = []).
Proof.
  intros Hi Hs1. unfold load_required. apply wp_bind. eapply wp_mono; [apply wp_crm_plugin_load|done|].
  intros [p|] s2 o (Hp & Hs & Hg & Hr); [|by apply wp_fail]. destruct Hr as (f & -> & Hl & ->).
  apply wp_modify. split; [|done]. apply (loaded_more i f init_name s l s1); [done..|]. cbn. by rewrite Hp.
Qed.

(** All the plugins but that of dumps. *)
Definition required_plugins : list ctrl_plugins :=
  [PLUGIN_ESCALATION; PLUGIN_WAKELOCK; PLUGIN_CUSTOMIZATION; PLUGIN_FW_ELECTOR; PLUGIN_FW_UPLOAD; PLUGIN_CLIENTS; PLUGIN_HAL].

Lemma wp_load_plugins s :
  plugins s = (fun _ => mk_plugin None None) ->
  wp (load_plugins t lk prop) s any_abort (fun _ s' o => exists d : bool,
    loaded s ((if d then [PLUGIN_DUMP] else []) ++ required_plugins) s' /\ created o = []).
Proof.
  intros Hs. unfold load_plugins, select_group. destruct (has_group t _); [|by apply wp_bind, wp_ret, wp_bind].
  do 2 apply wp_bind. apply wp_modify, wp_ret, wp_bind, wp_ret. cbn [app].
  match goal with |- wp (let* _ := ?c in _) _ _ _ =>
    assert (exists n, c = load_required t lk PLUGIN_HAL n "crm_hal_init") as [n ->] by (destruct (negb _); by eexists) end.
  match goal with |- wp _ ?s0 _ _ => assert (loaded s [] s0) as Hl by (split; cbn; [done|done|by intros ? ?%elem_of_nil|by rewrite Hs]);
    generalize dependent s0 end.
  intros s0 Hl.
  do 7 (apply wp_bind; eapply wp_mono;
    [apply wp_load_required; [|exact Hl]; by apply (bool_decide_unpack _)|done|];
    clear dependent s0; let Hc := fresh "Hc" in intros _ s0 ? [Hl Hc]).
  apply wp_bind. eapply wp_mono; [apply wp_crm_plugin_load|done|].
  intros [p|] s2 o7 (Hp & Hsv & Hg & Hr).
  - destruct Hr as (f7 & -> & Hl7 & ->). apply wp_modify. exists true. split.
    + apply (loaded_more _ f7 "crm_dump_init" s _ s0); [by apply (bool_decide_unpack _)|done..|]. cbn. by rewrite Hp.
    + rewrite !created_app. cbn. by rewrite Hc, Hc0, Hc1, Hc2, Hc3, Hc4, Hc5.
  - destruct Hr as (Hl7 & ->). apply wp_ret. exists false. split.
    + destruct Hl as [? ? ? ?]. split; unfold held; rewrite ?Hp, ?Hl7, ?Hsv; done.
    + rewrite !created_app. cbn. by rewrite Hc, Hc0, Hc1, Hc2, Hc3, Hc4, Hc5.
Qed.

(** The services of [l] are created, the others are not. *)
Record started (s : process) (l : list service) (s' : process) : Prop := {
  st_libs : libs s' = libs s;
  st_plugins : plugins s' = plugins s;
  st_services : forall x, services s' x = if bool_decide (x ∈ l) then Live else Null;
}.

Lemma wp_start_service c s l s1 E :
  started s l s1 ->
  wp (start_service c) s1 E (fun _ s2 o => started s (service_of c :: l) s2 /\ o = [Init c]).
Proof.
  intros [Hl Hp Hs]. apply wp_bind, wp_emit, wp_modify. split; [|done]. split; [done..|]. intros x. cbn.
  destruct (decide (x = service_of c)) as [->|Hn].
  - rewrite fn_lookup_insert, bool_decide_true by (by left). done.
  - rewrite fn_lookup_insert_ne, Hs by done.
    by rewrite (bool_decide_ext (x ∈ l) (x ∈ service_of c :: l)) by (rewrite elem_of_cons; tauto).
Qed.

Lemma wp_start_plugin i c s l s1 E :
  started s l s1 -> is_Some (init (plugins s i)) ->
  wp (start_plugin i c) s1 E (fun _ s2 o => started s (service_of c :: l) s2 /\ o = [Init c]).
Proof. intros Hs [x Hx]. apply wp_bind, wp_get. rewrite (st_plugins _ _ _ Hs), Hx. by apply wp_start_service. Qed.

(** The services, in the order of their creation; [d] tells whether dumps are collected. *)
Definition creation (d : bool) : list service :=
  [Ipc; Wakelock; Watchdog; Clients; Hal; Upload; Elector; Customization; Escalation] ++ (if d then [Dump] else []).

Definition running (d : bool) (x : service) : pointer := if bool_decide (x = Dump) && negb d then Null else Live.

Lemma started_running s l s' (d : bool) :
  started s l s' -> (forall x, bool_decide (x ∈ l) = bool_decide (x ∈ creation d)) ->
  forall x, services s' x = running d x.
Proof. intros [_ _ Hs] Hx x. rewrite Hs, Hx. by destruct d, x. Qed.

Lemma wp_start_plugins inst ping (d : bool) s :
  (forall i, is_Some (init (plugins s i)) <-> i <> PLUGIN_DUMP \/ d = true) ->
  services s = (fun _ => Null) ->
  wp (start_plugins prop inst ping) s no_abort (fun _ s' o =>
    libs s' = libs s /\ plugins s' = plugins s /\ (forall x, services s' x = running d x) /\ created o = creation d).
Proof.
  intros Hp Hs. unfold start_plugins.
  assert (started s [] s) as Hst by (split; [done..|]; intros x; by rewrite Hs).
  remember s as s0 eqn:Hs0 in Hst at 2 |- * at 1. clear Hs0.
  do 3 (apply wp_bind; eapply wp_mono;
    [first [apply wp_start_service; exact Hst|apply wp_start_plugin; [exact Hst|apply Hp; by left]]|done|];
    clear dependent s0; intros _ s0 ? [Hst ->]).
  apply wp_bind, wp_get. rewrite (st_plugins _ _ _ Hst).
  assert (bool_decide (is_Some (init (plugins s PLUGIN_DUMP))) = d) as ->.
  { destruct d; [apply bool_decide_true|apply bool_decide_false]; rewrite Hp; [by right|]. by intros [?|?]. }
  do 6 (apply wp_bind; eapply wp_mono; [apply wp_start_plugin; [exact Hst|apply Hp; by left]|done|];
    clear dependent s0; intros _ s0 ? [Hst ->]).
  apply wp_when; intros ->.
  - eapply wp_mono; [apply wp_start_plugin; [exact Hst|apply Hp; by right]|done|].
    intros _ s1 ? [Hst1 ->]. pose proof Hst1 as [-> -> _]. split_and!; [done..| |done].
    apply (started_running _ _ _ _ Hst1). by intros [].
  - pose proof Hst as [-> -> _]. split_and!; [done..| |done]. apply (started_running _ _ _ _ Hst). by intros [].
Qed.

Lemma wp_dispose_service x s :
  services s x = Live ->
  wp (dispose_service x) s no_abort (fun _ s' o =>
    s' = mk_process (group s) (libs s) (plugins s) (<[x := Freed]> (services s)) /\ o = [Dispose x]).
Proof.
  intros Hx. apply wp_bind. unfold live. apply wp_bind, wp_get. rewrite Hx. apply wp_ret. cbn.
  by apply wp_bind, wp_emit, wp_modify.
Qed.

Lemma wp_send_stop x s :
  services s x = Live -> wp (send_stop x) s no_abort (fun _ s' o => s' = s /\ o = [SendStop x]).
Proof.
  intros Hx. apply wp_bind. unfold live. apply wp_bind, wp_get. rewrite Hx. apply wp_ret. by apply wp_emit.
Qed.

(** The order of the disposals. *)
Definition disposal (d : bool) : list service :=
  [Clients; Hal; Upload; Customization; Watchdog; Wakelock; Elector] ++ (if d then [Dump] else []) ++ [Ipc].

Lemma wp_stop_plugins d s :
  (forall x, services s x = running d x) ->
  wp stop_plugins s no_abort (fun _ s' o =>
    libs s' = libs s /\ plugins s' = plugins s /\ disposed o = disposal d).
Proof.
  intros Hs. unfold stop_plugins.
  do 2 (apply wp_bind; eapply wp_mono; [apply wp_send_stop; by rewrite Hs|done|]; intros ? ? ? [-> ->]).
  do 7 (apply wp_bind; eapply wp_mono;
    [apply wp_dispose_service; cbn [services]; rewrite ?fn_lookup_insert_ne by done; by rewrite Hs|done|];
    intros ? ? ? [-> ->]).
  do 2 apply wp_bind. apply wp_get. cbn [services]. rewrite !fn_lookup_insert_ne, Hs by done.
  destruct d; cbn.
  - eapply wp_mono; [apply wp_dispose_service; cbn [services]; rewrite ?fn_lookup_insert_ne by done; by rewrite Hs|done|].
    intros ? ? ? [-> ->].
    eapply wp_mono; [apply wp_dispose_service; cbn [services]; rewrite ?fn_lookup_insert_ne by done; by rewrite Hs|done|].
    by intros ? ? ? [-> ->].
  - apply wp_ret.
    eapply wp_mono; [apply wp_dispose_service; cbn [services]; rewrite ?fn_lookup_insert_ne by done; by rewrite Hs|done|].
    by intros ? ? ? [-> ->].
Qed.

Lemma loaded_init s (d : bool) s' :
  loaded s ((if d then [PLUGIN_DUMP] else []) ++ required_plugins) s' ->
  forall i, is_Some (init (plugins s' i)) <-> i <> PLUGIN_DUMP \/ d = true.
Proof.
  intros [_ _ Hin Hout] i.
  assert (i ∈ (if d then [PLUGIN_DUMP] else []) ++ required_plugins <-> i <> PLUGIN_DUMP \/ d = true) as <-.
  { rewrite <-(bool_decide_eq_true (i ∈ _)), <-(bool_decide_eq_true (i <> _)).
    destruct d, i; vm_compute; intuition discriminate. }
  split; [|by apply Hin]. destruct (decide (i ∈ (if d then [PLUGIN_DUMP] else []) ++ required_plugins)); [done|].
  rewrite Hout by done. by intros [? [=]].
Qed.

Lemma loaded_libs s (d : bool) s' :
  loaded s ((if d then [PLUGIN_DUMP] else []) ++ required_plugins) s' -> libs s' ≡ₚ held s' all_plugins ++ libs s.
Proof.
  intros [_ Hl _ Hout]. rewrite Hl. f_equiv.
  assert (all_plugins ≡ₚ [PLUGIN_DUMP] ++ required_plugins) as Ha by (unfold all_plugins, required_plugins; solve_Permutation).
  unfold held. rewrite Ha. destruct d; [done|]. cbn [app omap list_omap].
  by rewrite (Hout PLUGIN_DUMP) by (by apply (bool_decide_unpack _)).
Qed.

Lemma wp_crm_ctrl_init inst s :
  wp (crm_ctrl_init t lk prop inst) s any_abort (fun _ s' o => exists d,
    libs s' ≡ₚ held s' all_plugins ++ libs s /\ (forall x, services s' x = running d x) /\ created o = creation d).
Proof.
  unfold crm_ctrl_init. apply wp_bind, wp_modify. unfold select_group at 1.
  destruct (has_group t _); [|by apply wp_bind, wp_ret, wp_bind].
  do 2 apply wp_bind. apply wp_modify, wp_ret, wp_bind, wp_ret, wp_bind, wp_get. cbn [app].
  repeat (case_match; [|by apply wp_fail]).
  apply wp_bind. eapply wp_mono; [by apply wp_load_plugins|done|].
  intros _ s1 o1 (d & Hld & Hc). apply wp_bind.
  eapply wp_mono; [apply (wp_start_plugins inst _ d); [by apply (loaded_init _ d _ Hld)|by apply Hld]|done|].
  intros _ s2 o2 (Hl2 & Hp2 & Hs2 & Hc2). apply wp_ret. exists d. split_and!; [|done|].
  - rewrite Hl2. unfold held at 1. rewrite Hp2. by apply (loaded_libs _ d _ Hld).
  - rewrite !app_nil_r. cbn. by rewrite created_app, Hc, Hc2.
Qed.

Lemma wp_dispose d s base :
  libs s ≡ₚ held s all_plugins ++ base -> (forall x, services s x = running d x) ->
  wp dispose s no_abort (fun _ s' o => libs s' ≡ₚ base /\ disposed o = disposal d).
Proof.
  intros Hl Hs. apply wp_bind. eapply wp_mono; [by apply wp_stop_plugins|done|].
  intros _ s1 o1 (Hl1 & Hp1 & Hd1). unfold unload_plugins.
  eapply wp_mono; [apply (wp_unload all_plugins s1 base)|done|].
  - by apply (bool_decide_unpack _).
  - rewrite Hl1, Hl. unfold held. by rewrite Hp1.
  - intros _ s2 o2 (_ & Hb & ->). split; [done|]. by rewrite disposed_app, Hd1, disposed_closes, app_nil_r.
Qed.

End lifetime.

Lemma dump_created x d : x ∈ creation d -> x <> Dump \/ d = true.
Proof.
  destruct d; [by right|]. intros Hx. left. intros ->. revert Hx. apply (bool_decide_unpack (Dump ∉ creation false)). done.
Qed.
Lemma dump_disposed x d : x ∈ disposal d -> x <> Dump \/ d = true.
Proof.
  destruct d; [by right|]. intros Hx. left. intros ->. revert Hx. apply (bool_decide_unpack (Dump ∉ disposal false)). done.
Qed.

(** C36. Once CTRL is initialised, its disposal calls no service that is missing or
    already freed and closes exactly the libraries that the initialisation opened.
    Every service is created after those it uses and disposed of before them, but
    for two things: CLA is disposed of before the HAL and the dump plugin, which
    call it, and the escalation is never disposed of. *)
Theorem plugins_lifetime t lk prop inst s timeout s1 o1 :
  crm_ctrl_init t lk prop inst s = Ok timeout s1 o1 ->
  exists s2 o2, dispose s1 = Ok tt s2 o2 /\ libs s2 ≡ₚ libs s /\
    NoDup (created o1) /\ NoDup (disposed o2) /\
    (forall x, x ∈ created o1 <-> x ∈ disposed o2 \/ x = Escalation) /\
    (forall x y, x ∈ created o1 -> y ∈ uses x -> before y x (created o1) = true) /\
    (forall x y, x ∈ disposed o2 -> y ∈ uses x -> before x y (disposed o2) = negb (bool_decide (y = Clients))).
Proof.
  intros Hrun. pose proof (wp_crm_ctrl_init t lk prop inst s) as Hw. unfold wp in Hw. rewrite Hrun in Hw.
  destruct Hw as (d & Hl & Hs & Hc).
  destruct (wp_total _ _ _ (wp_dispose d s1 (libs s) Hl Hs)) as ([] & s2 & o2 & Hd & Hl2 & Hd2).
  exists s2, o2. rewrite Hc, Hd2. split_and!; [done..| | | | |].
  - apply (bool_decide_unpack _). by destruct d.
  - apply (bool_decide_unpack _). by destruct d.
  - intros x. rewrite <-(bool_decide_eq_true (x ∈ creation d)), <-(bool_decide_eq_true (x ∈ disposal d)).
    destruct d, x; vm_compute; intuition discriminate.
  - intros x y Hx Hy. pose proof (dump_created x d Hx) as Hxd.
    destruct x; cbn in Hy; repeat (apply elem_of_cons in Hy as [->|Hy]; [destruct d; by destruct Hxd|]); by apply elem_of_nil in Hy.
  - intros x y Hx Hy. pose proof (dump_disposed x d Hx) as Hxd.
    destruct x; cbn in Hy; repeat (apply elem_of_cons in Hy as [->|Hy]; [destruct d; by destruct Hxd|]); by apply elem_of_nil in Hy.
Qed.

(** ** The whole process *)

(** The buffers of five characters hold the names of the ten instances, which are
    all different. *)
Lemma instance_names i : 0 <= i <= 9 -> snprintf 5 ("crm" +:+ pretty i) = "crm" +:+ pretty i.
Proof.
  intros Hi. assert (i = 0 \/ i = 1 \/ i = 2 \/ i = 3 \/ i = 4 \/ i = 5 \/ i = 6 \/ i = 7 \/ i = 8 \/ i = 9) as Hc by lia.
  by repeat destruct Hc as [->|Hc]; subst.
Qed.

Section whole.
Context (bits : Z) (tcs2_init : string -> option tcs) (lk : linker) (prop : properties).

Lemma wp_main_start dflt argv s :
  wp (main_start bits tcs2_init lk prop dflt argv) s any_abort (fun r s' o => exists f d,
    0 <= r.1 <= 9 /\ TcsInit ("crm" +:+ pretty r.1) ∈ o /\ handle r.2 = Some f /\
    libs s' ≡ₚ held s' all_plugins ++ f :: libs s /\ forall x, services s' x = running d x).
Proof.
  unfold main_start. do 3 (apply wp_bind, wp_emit). apply wp_bind.
  assert (wp (hack prop) s any_abort (fun _ s' _ => s' = s)) as Hh.
  { apply wp_when; intros _; [by apply wp_emit|done]. }
  eapply wp_mono; [apply Hh|done|]. intros _ ? oh ->. apply wp_bind.
  assert (forall i, wp (parse_options bits argv i) s any_abort (fun _ s' _ => s' = s)) as Hp.
  { induction argv as [|[| |a|] l IH]; intros i; cbn; try (by apply wp_fail); [by apply wp_ret|apply IH|].
    case_match; [apply IH|by apply wp_fail]. }
  eapply wp_mono; [apply Hp|done|]. intros i ? op ->. apply wp_bind, wp_ASSERT; [intros Hi|done].
  apply andb_true_iff in Hi as [?%Z.leb_le ?%Z.leb_le]. rewrite instance_names by lia.
  do 2 (apply wp_bind, wp_emit). destruct (tcs2_init _) as [t|]; [|by apply wp_fail].
  unfold select_group. destruct (has_group t _); [|by apply wp_bind, wp_ret, wp_bind].
  do 2 apply wp_bind. apply wp_modify, wp_ret, wp_bind, wp_ret. cbn [app].
  apply wp_bind. eapply wp_mono; [apply wp_crm_plugin_load|done|].
  intros [p|] s1 o1 (_ & _ & _ & Hr); [|by apply wp_fail]. destruct Hr as (f & -> & Hl & ->).
  apply wp_bind. eapply wp_mono; [apply wp_crm_ctrl_init|done|].
  intros _ s2 o2 (d & Hl2 & Hs2 & _). apply wp_bind, wp_emit, wp_ret. exists f, d.
  split_and!; cbn; [lia..| |done| |done].
  - rewrite !elem_of_cons, !elem_of_app, !elem_of_cons. tauto.
  - rewrite Hl2, Hl. done.
Qed.

(** A process that has started has one of ten instance numbers and reads the
    configuration of that number; once its event loop has ended, it ends without
    an abort, with every library it opened closed. *)
Lemma main_ends dflt argv s r s1 o1 :
  main_start bits tcs2_init lk prop dflt argv s = Ok r s1 o1 ->
  0 <= r.1 <= 9 /\ TcsInit ("crm" +:+ pretty r.1) ∈ o1 /\
  exists s2 o2, main_end r.2 s1 = Ok tt s2 o2 /\ libs s2 ≡ₚ libs s.
Proof.
  intros Hrun. pose proof (wp_main_start dflt argv s) as Hw. unfold wp in Hw. rewrite Hrun in Hw.
  destruct Hw as (f & d & Hi & Ht & Hf & Hl & Hs). split_and!; [lia..|done|].
  assert (wp (main_end r.2) s1 no_abort (fun _ s' _ => libs s' ≡ₚ libs s)) as He.
  { apply wp_bind. eapply wp_mono; [by apply (wp_dispose d)|done|]. intros _ s2 o2 [Hl2 _].
    apply wp_bind, wp_emit, wp_bind. unfold crm_plugin_unload. apply wp_bind, wp_get. rewrite Hf.
    assert (f ∈ libs s2) as Hin by (rewrite Hl2; by left).
    apply wp_bind, wp_ASSERT; rewrite ?bool_decide_eq_true, ?bool_decide_eq_false; [intros _|done].
    apply wp_bind, wp_modify, wp_bind, wp_emit, wp_ret, wp_ret. cbn.
    apply (Permutation_cons_inv (a := f)). by rewrite remove_one_perm. }
  destruct (wp_total _ _ _ He) as ([] & s2 & o2 & H1 & H2). by exists s2, o2.
Qed.

End whole.

(** ** Runs *)

Definition demo_tcs (control dump : bool) : tcs :=
  mk_tcs (fun _ => true)
    (fun g k => if (String.eqb k "control" && negb control) || (String.eqb k "dump" && negb dump) then None
                else Some ("libcrm_" +:+ k +:+ ".so"))
    (fun _ _ => Some 1000) (fun _ _ => None).
Definition demo_linker : linker := mk_linker (fun _ => true) (fun _ _ => true).
Definition demo_prop : properties := fun _ d => d.
Definition demo_process : process := mk_process "" [] (fun _ => mk_plugin None None) (fun _ => Null).

(** The trailing characters of an instance number are ignored, and its upper bits
    too; a configuration without a control plugin calls an indeterminate pointer. *)
Example instance_arguments :
  parse_options 64 [OptInstance " +2x"] 1 demo_process = Ok 2 demo_process [] /\
  parse_options 64 [OptInstance "4294967297"] 0 demo_process = Ok 1 demo_process [] /\
  parse_options 32 [OptInstance "4294967297"] 0 demo_process = Abort (AssertFail "errno == 0 && end_ptr != optarg") [] /\
  match main 64 (fun _ => Some (demo_tcs false true)) demo_linker demo_prop 1 [] demo_process with
  | Abort r _ => r = Undefined "ctrl_plugin.init is not initialised" | Ok _ _ _ => False end.
Proof. split_and!; vm_compute; reflexivity. Qed.

(** A HAL or dump thread that calls [notify_client] after the first disposal would
    call a freed context. *)
Example clients_freed_first :
  match (let* _ := crm_ctrl_init (demo_tcs true true) demo_linker demo_prop 1 in
         dispose_service Clients ;; live Clients) demo_process with
  | Abort r _ => r = Undefined "call on a freed context" | Ok _ _ _ => False end.
Proof. vm_compute. reflexivity. Qed.

Definition is_ok {S O A} (r : outcome S O A) : bool := match r with Ok _ _ _ => true | Abort _ _ => false end.

Lemma plugins_lifetime_witness :
  match crm_ctrl_init (demo_tcs true true) demo_linker demo_prop 1 demo_process with
  | Ok _ s1 _ => exists s2 o2, dispose s1 = Ok tt s2 o2 /\ libs s2 ≡ₚ []
  | Abort _ _ => False
  end.
Proof.
  assert (is_ok (crm_ctrl_init (demo_tcs true true) demo_linker demo_prop 1 demo_process) = true) as Hok by (vm_compute; reflexivity).
  destruct (crm_ctrl_init (demo_tcs true true) demo_linker demo_prop 1 demo_process) as [ms s1 o1|r o1] eqn:Hrun; [|discriminate].
  destruct (plugins_lifetime _ _ _ _ _ _ _ _ Hrun) as (s2 & o2 & H1 & H2 & _). by exists s2, o2.
Defined.
