(* ===== verification/Stubs.v ===== *)
(** * The stub HAL and the stub upload plugin (plugins/hal/stub, plugins/fw_upload/stub)

    The HAL that is loaded when the debug property asks for it answers every
    request of CTRL without hardware; the upload plugin answers at once.  Both are
    composed with CTRL through the real queues: CTRL's own, and the one of the
    HAL's thread. *)

From S2P Require Import Prelude Fsm Timer Ipc Escalation Watchdog MdmCli Control ControlTheory ControlProps CtrlApi.
From Stdlib Require Import ZArith Lia.
From stdpp Require Import base tactics list strings option.

Open Scope Z_scope.
Open Scope crm_scope.

(** ** hal_stub.c *)

Definition STUB_MDM_POWER : Z := 0.
Definition STUB_MDM_BOOT : Z := 1.
Definition STUB_MDM_RESET : Z := 2.
Definition STUB_MDM_STOP : Z := 3.

(** The HAL's interface; the messages of its thread hold only a scalar. *)
#[local] Abbreviation P_ A := (M (ring Z) Empty_set A).

Definition power_on : P_ unit := send_msg_thread STUB_MDM_POWER ;; ret tt.
Definition boot : P_ unit := send_msg_thread STUB_MDM_BOOT ;; ret tt.
Definition reset (type : crm_hal_reset_type) : P_ unit := send_msg_thread STUB_MDM_RESET ;; ret tt.
Definition shutdown : P_ unit := send_msg_thread STUB_MDM_STOP ;; ret tt.

(** The thread, which only calls [notify_hal_event]. *)
#[local] Abbreviation T_ A := (M unit hal_event A).

Definition notify_ctrl (evt : list crm_hal_evt_type) : T_ unit :=
  for_each evt (fun t => emit (mk_hal_event (mk_hal_evt t "") None)).

Definition fake_mdm_power : T_ unit := notify_ctrl [HAL_MDM_FLASH].
Definition fake_mdm_boot : T_ unit := notify_ctrl [HAL_MDM_RUN].
Definition fake_mdm_reset : T_ unit := notify_ctrl [HAL_MDM_BUSY; HAL_MDM_FLASH].
Definition fake_mdm_shutdown : T_ unit := notify_ctrl [HAL_MDM_BUSY; HAL_MDM_OFF].

(** The [switch] of the thread. *)
Definition hal_stub_msg (scalar : Z) : T_ unit :=
  if scalar =? STUB_MDM_POWER then fake_mdm_power
  else if scalar =? STUB_MDM_BOOT then fake_mdm_boot
  else if scalar =? STUB_MDM_RESET then fake_mdm_reset
  else if scalar =? STUB_MDM_STOP then fake_mdm_shutdown
  else ret tt.

(** The loop of the thread: what each [poll] gives, [None] for an error. *)
Fixpoint hal_stub (polls : list (option (list Z))) : T_ unit :=
  match polls with
  | [] => ret tt
  | None :: _ => ret tt
  | Some msgs :: polls' => for_each msgs hal_stub_msg ;; hal_stub polls'
  end.

Definition CRM_KEY_SERVICE_START : string := "ctl.start".
Definition CRM_KEY_CONTENT_SERVICE_RPCD : string := "rpc-daemon".

(** The property that is set, and the queue of the thread; [fds] is its pipe. *)
Definition crm_hal_init (fds : Z * Z) : string * string * ring Z :=
  (CRM_KEY_SERVICE_START, CRM_KEY_CONTENT_SERVICE_RPCD, crm_ipc_init 0 fds.1 fds.2).

(** ** fw_upload.c *)

Definition package (fw_path : string) : M unit Z unit := emit 0.
Definition flash (nodes : string) : M unit Z unit := emit 0.

(** ** CTRL on the stubs *)

Section composed.
Context `{MdmCli}.

Record stubs : Type := mk_stubs {
  ctrl_thread : fsm_st crm_control_ctx_internal;
  to_ctrl : ring ctrl_msg;
  to_hal : ring Z;
}.

#[local] Abbreviation S_ A := (M stubs Empty_set A).

Definition on_ctrl_queue {A} (m : M (ring ctrl_msg) Empty_set A) : S_ A :=
  zoom to_ctrl (fun q s => mk_stubs (ctrl_thread s) q (to_hal s)) (fun x => x) m.
Definition on_hal_queue {A} (m : P_ A) : S_ A :=
  zoom to_hal (fun q s => mk_stubs (ctrl_thread s) (to_ctrl s) q) (fun x => x) m.

(** A run of code whose actions [k] carries to the other parts. *)
Definition carrying {T P} (k : P -> S_ unit) (g : stubs -> T) (p : T -> stubs -> stubs) (m : M T P unit) : S_ unit := fun s =>
  match m (g s) with
  | Ok _ t o => for_each o k (p t s)
  | Abort r _ => Abort r []
  end.

Definition plain {P} (k : P -> S_ unit) (m : M unit P unit) : S_ unit := carrying k (fun _ => tt) (fun _ s => s) m.

(** The calls of CTRL that reach the stubs, run in its thread. *)
Definition call (x : ctrl_out) : S_ unit :=
  match x with
  | HalPowerOn => on_hal_queue power_on
  | HalBoot => on_hal_queue boot
  | HalReset t => on_hal_queue (reset t)
  | HalShutdown => on_hal_queue shutdown
  | UploadPackage fw => plain (fun st => on_ctrl_queue (notify_fw_upload_status st)) (package fw)
  | UploadFlash nodes => plain (fun st => on_ctrl_queue (notify_fw_upload_status st)) (flash nodes)
  | _ => ret tt
  end.

(** A call of CLA, a message taken by CTRL, a message taken by the HAL's thread. *)
Inductive stub_action : Type :=
| Ask (c : api_call)
| CtrlTakes (e : env)
| HalTakes.

Definition stub_act (a : stub_action) : S_ unit :=
  match a with
  | Ask c => on_ctrl_queue (api c)
  | CtrlTakes e =>
      let* m := on_ctrl_queue get_msg_thread in
      match m with
      | Some (scalar, data) =>
          carrying call ctrl_thread (fun t s => mk_stubs t (to_ctrl s) (to_hal s)) (handle_ipc_msg e scalar data)
      | None => ret tt
      end
  | HalTakes =>
      let* m := on_hal_queue get_msg_thread in
      match m with
      | Some scalar => plain (fun ev => on_ctrl_queue (notify_hal_event ev)) (hal_stub_msg scalar)
      | None => ret tt
      end
  end.

Definition stubs_init (t : crm_control_ctx_internal) : stubs :=
  mk_stubs (mk_fsm_st ST_INITIAL t) (crm_ipc_init (0, None) 3 4) (crm_hal_init (5, 6)).2.

End composed.

(** ** What the stub HAL answers *)

Definition answer (scalar : Z) : list crm_hal_evt_type :=
  if scalar =? STUB_MDM_POWER then [HAL_MDM_FLASH]
  else if scalar =? STUB_MDM_BOOT then [HAL_MDM_RUN]
  else if scalar =? STUB_MDM_RESET then [HAL_MDM_BUSY; HAL_MDM_FLASH]
  else if scalar =? STUB_MDM_STOP then [HAL_MDM_BUSY; HAL_MDM_OFF]
  else [].

(** The messages read before the first error of [poll]. *)
Fixpoint readable (polls : list (option (list Z))) : list Z :=
  match polls with Some msgs :: polls' => msgs ++ readable polls' | _ => [] end.

Lemma hal_stub_msg_run scalar :
  hal_stub_msg scalar tt = Ok tt tt ((fun t => mk_hal_event (mk_hal_evt t "") None) <$> answer scalar).
Proof. unfold hal_stub_msg, answer. by repeat case_match. Qed.

(** The thread reports the answers of the requests it reads, in order, and never
    aborts. *)
Lemma hal_stub_run polls :
  wp (hal_stub polls) tt no_abort (fun _ _ o =>
    o = (fun t => mk_hal_event (mk_hal_evt t "") None) <$> (readable polls ≫= answer)).
Proof.
  induction polls as [|[msgs|] polls IH]; cbn; [by apply wp_ret| |by apply wp_ret].
  apply wp_bind.
  assert (wp (for_each msgs hal_stub_msg) tt no_abort (fun _ _ o =>
    o = (fun t => mk_hal_event (mk_hal_evt t "") None) <$> (msgs ≫= answer))) as Hm.
  { clear IH. induction msgs as [|m msgs IH]; cbn; [by apply wp_ret|]. apply wp_bind.
    unfold wp at 1. rewrite hal_stub_msg_run. eapply wp_mono; [apply IH|done|].
    intros _ _ o ->. by rewrite fmap_app. }
  eapply wp_mono; [apply Hm|done|]. intros _ [] o ->.
  eapply wp_mono; [apply IH|done|]. intros _ _ o' ->. by rewrite bind_app, fmap_app.
Qed.

(** ** CTRL never leaves its first state on the stub HAL *)

Section initial.
Context `{MdmCli}.

(** The requests of CLA. *)
Definition is_request (c : api_call) : bool :=
  match c with CallStart | CallStop | CallRestart _ _ => true | _ => false end.

Definition request_scalar (z : Z) : Prop := EV_CLI_START <= z <= EV_CLI_NVM_BACKUP.

Record waiting (s : stubs) : Prop := {
  w_state : state (ctrl_thread s) = ST_INITIAL;
  w_ring : ring_ok (to_ctrl s) /\ opened (to_ctrl s);
  w_hal_ring : ring_ok (to_hal s) /\ opened (to_hal s);
  w_requests : Forall (fun m : ctrl_msg => request_scalar m.1) (contents (to_ctrl s));
  w_no_call : contents (to_hal s) = [];
}.

Lemma wp_stub_request c q :
  ring_ok q -> opened q -> is_request c = true ->
  Forall (fun m : ctrl_msg => request_scalar m.1) (contents q) ->
  wp (api c) q any_abort (fun _ q' _ => ring_ok q' /\ opened q' /\
    Forall (fun m : ctrl_msg => request_scalar m.1) (contents q')).
Proof.
  intros Hok Ho Hc Hq.
  assert (forall m : ctrl_msg, request_scalar m.1 ->
    wp (send_msg_thread m ;; ret tt) q any_abort (fun _ q' _ => ring_ok q' /\ opened q' /\
      Forall (fun m : ctrl_msg => request_scalar m.1) (contents q'))) as Hsend.
  { intros m Hm. eapply wp_mono; [by apply wp_send_ignored|done|]. intros _ q' _ (? & ? & ->).
    split_and!; [done..|]. unfold offered. case_match; [|done]. apply Forall_app. by split; [|apply Forall_singleton]. }
  destruct c as [| |[] d| | | | |]; try done; cbn;
    try (apply Hsend; unfold request_scalar; by vm_compute).
  all: unfold crm_ctrl_restart; apply wp_bind; destruct d; cbn;
    first [apply wp_bind, wp_ret, wp_ret | apply wp_ret | apply wp_bind, wp_ASSERT; [intros _; apply wp_ret|done] | idtac];
    cbn [app]; try (apply Hsend; unfold request_scalar; by vm_compute).
Qed.

(** Every request is refused in the first state. *)
Lemma wp_refused e scalar d f Q :
  request_scalar scalar -> state f = ST_INITIAL -> wp (handle_ipc_msg e scalar d) f any_abort Q.
Proof.
  unfold request_scalar, EV_CLI_START, EV_CLI_NVM_BACKUP. intros Hs Hf.
  destruct f as [st c]. cbn in Hf. subst st.
  assert (scalar = 0 \/ scalar = 1 \/ scalar = 2 \/ scalar = 3 \/ scalar = 4) as Hcases by lia.
  by repeat destruct Hcases as [->|Hcases]; subst.
Qed.

Definition from_cla (a : stub_action) : Prop := match a with Ask c => is_request c = true | _ => True end.

Lemma wp_stub_act a s :
  from_cla a -> waiting s -> wp (stub_act a) s any_abort (fun _ s' _ => waiting s').
Proof.
  intros Ha [Hst [Hok Ho] [Hok' Ho'] Hq Hh]. destruct a as [c|e|]; cbn in *.
  - apply wp_zoom. eapply wp_mono; [by apply wp_stub_request|done|].
    intros _ q _ (? & ? & ?). by split.
  - apply wp_bind, wp_zoom. eapply wp_mono; [by apply wp_get_msg|done|].
    intros m q _ (Hok1 & Ho1 & [= Hc ->]). destruct (contents (to_ctrl s)) as [|[z d] l]; cbn.
    + apply wp_ret. by split; [|split|split|cbn; rewrite Hc|].
    + apply Forall_cons_1 in Hq as [Hz _]. unfold wp, carrying. cbn.
      pose proof (wp_refused e z d (ctrl_thread s) (fun _ _ _ => False) Hz Hst) as Hr. unfold wp in Hr.
      by destruct (handle_ipc_msg e z d (ctrl_thread s)).
  - apply wp_bind, wp_zoom. eapply wp_mono; [by apply wp_get_msg|done|].
    intros m q _ (Hok1 & Ho1 & [= Hc ->]). rewrite Hh in Hc |- *. cbn. apply wp_ret. by split; [|split|split| |].
Qed.

(** On the stub HAL, which reports nothing by itself, CTRL never leaves its first
    state: whatever CLA asks for and however the threads are interleaved, CTRL
    still waits, or a request has aborted the process. *)
Lemma stub_hal_never_starts l t s o :
  Forall from_cla l -> for_each l stub_act (stubs_init t) = Ok tt s o ->
  state (ctrl_thread s) = ST_INITIAL /\ contents (to_hal s) = [].
Proof.
  intros Hl Hrun.
  assert (wp (for_each l stub_act) (stubs_init t) any_abort (fun _ s _ => waiting s)) as Hw.
  { apply wp_for_each with (I := waiting); [|intros a s' Hin Hs'|done].
    - split; [done|split; [apply init_ok|by split]|split; [apply init_ok|by split]|constructor|done].
    - apply wp_stub_act; [|done]. by apply (proj1 (List.Forall_forall _ _) Hl), list_elem_of_In. }
  unfold wp in Hw. rewrite Hrun in Hw. by destruct Hw.
Qed.

End initial.

Section demo.
#[local] Existing Instance demo_mdmcli.

Definition demo_stubs (l : list stub_action) : outcome stubs Empty_set unit :=
  for_each l stub_act (stubs_init (crm_ctrl_init 1 90000 true demo_esc)).

(** The report the stub leaves out, made by hand. *)
Definition off_reported : list stub_action :=
  [Ask (CallHalEvent (mk_hal_event (mk_hal_evt HAL_MDM_OFF "") None)); CtrlTakes demo_env].

(** With that report CTRL gets to its second state, and its first power on aborts:
    the stub answers [HAL_MDM_FLASH], which [pre_op] accepts only after
    [HAL_MDM_BUSY]. *)
Example stub_power_on_refused :
  match demo_stubs off_reported with Ok _ s _ => state (ctrl_thread s) = ST_DOWN | Abort _ _ => False end /\
  demo_stubs (off_reported ++ [Ask CallStart; CtrlTakes demo_env; CtrlTakes demo_env; HalTakes; CtrlTakes demo_env]) =
    Abort (AssertFail "i_ctx->state.waiting_hal_busy_reason") [].
Proof. split; vm_compute; reflexivity. Qed.

Lemma stub_hal_never_starts_witness :
  exists s o, demo_stubs [HalTakes; Ask CallStart; HalTakes] = Ok tt s o /\ state (ctrl_thread s) = ST_INITIAL.
Proof.
  unfold demo_stubs. do 2 eexists. split; [reflexivity|].
  apply (stub_hal_never_starts [HalTakes; Ask CallStart; HalTakes] (crm_ctrl_init 1 90000 true demo_esc) _ []);
    [by repeat constructor|reflexivity].
Defined.

End demo.
