(* ===== verification/SofiaUpload.v ===== *)
(** * The firmware upload plugin of SoFIA platforms (plugins/fw_upload/sofia_vmodem)

    The plugin copies the firmware to the modem's device.  CTRL's thread calls
    [package] and [flash]; a detached thread writes the firmware.  The context is
    shared without a lock: the steps of the thread and the calls are
    interleaved.  At the end, the plugin is composed with CTRL. *)

From S2P Require Import Prelude Fsm Timer Ipc Escalation Watchdog MdmCli Control ControlTheory ControlProps CtrlApi File.
From Stdlib Require Import ZArith Lia.
From stdpp Require Import base tactics list strings option.

Open Scope Z_scope.
Open Scope crm_scope.

(** What the plugin does: report to CTRL, create its thread, work on files. *)
Inductive upload_out : Type :=
| NotifyFwUploadStatus (status : Z)
| ThreadInit
| FileOp (x : file_out).

(** A writing thread: created, then past its first lines. *)
Inductive phase : Type := Created | Writing.

(** The statuses reported. *)
Definition statuses (o : list upload_out) : list Z :=
  omap (fun x => match x with NotifyFwUploadStatus s => Some s | _ => None end) o.

Lemma statuses_app o o' : statuses (o ++ o') = statuses o ++ statuses o'.
Proof. unfold statuses. apply omap_app. Qed.

Record fw_upload : Type := mk_up { op_ongoing : bool; fw_path : option string; dev_path : option string }.

#[local] Abbreviation U_ A := (M fw_upload upload_out A).

Definition not_ongoing : U_ unit :=
  let* s := get in ASSERT "i_ctx->op_ongoing == false" (negb (op_ongoing s)).

Definition package (fw : string) : U_ unit :=
  not_ongoing ;;
  let* s := get in
  match fw_path s with
  | Some _ => ret tt
  | None =>
      modify (fun s => mk_up (op_ongoing s) (Some fw) (dev_path s)) ;;
      emit (NotifyFwUploadStatus 0)
  end.

Definition flash (node : option string) : U_ unit :=
  not_ongoing ;;
  let* s := get in
  ASSERT "i_ctx->dev_path == NULL" (bool_decide (dev_path s = None)) ;;
  ASSERT "i_ctx->fw_path != NULL" (bool_decide (fw_path s <> None)) ;;
  ASSERT "node" (bool_decide (node <> None)) ;;
  modify (fun s => mk_up (op_ongoing s) (fw_path s) node) ;;
  emit ThreadInit.

(** [write_firmware] up to the copy. *)
Definition write_begin : U_ unit :=
  not_ongoing ;;
  modify (fun s => mk_up true (fw_path s) (dev_path s)).

(** [crm_file_copy(i_ctx->fw_path, i_ctx->dev_path, false, false, 0)]. *)
Definition copy_firmware (e : copy_env) (body : list Z) : U_ Z :=
  let* s := get in
  ASSERT "src != NULL" (bool_decide (fw_path s <> None)) ;;
  ASSERT "dst != NULL" (bool_decide (dev_path s <> None)) ;;
  zoom (fun _ => tt) (fun _ s => s) FileOp (crm_file_copy e false false 0 body).

(** [write_firmware] from the copy on, as one step: the calls of CTRL come before
    it or after its report. *)
Definition write_end (e : copy_env) (body : list Z) : U_ unit :=
  let* err := copy_firmware e body in
  modify (fun s => mk_up (op_ongoing s) None None) ;;
  modify (fun s => mk_up false (fw_path s) (dev_path s)) ;;
  emit (NotifyFwUploadStatus (if err =? 0 then 0 else -1)).

Definition dispose : U_ unit := not_ongoing.

Definition crm_fw_upload_init : fw_upload := mk_up false None None.

(** ** The calls and the threads *)

Record sys : Type := mk_sys { ctx : fw_upload; threads : list phase }.

Inductive action : Type :=
| Package (fw : string)
| Flash (node : option string)
| Begin (i : nat)
| Finish (i : nat) (e : copy_env) (body : list Z).

#[local] Abbreviation S_ A := (M sys upload_out A).

Definition on_ctx {A} (m : U_ A) : S_ A := zoom ctx (fun u s => mk_sys u (threads s)) (fun x => x) m.

Definition act (a : action) : S_ unit :=
  match a with
  | Package fw => on_ctx (package fw)
  | Flash node => on_ctx (flash node) ;; modify (fun s => mk_sys (ctx s) (threads s ++ [Created]))
  | Begin i =>
      let* s := get in
      match threads s !! i with
      | Some Created => on_ctx write_begin ;; modify (fun s => mk_sys (ctx s) (<[i := Writing]> (threads s)))
      | _ => fail (Stuck "no such thread")
      end
  | Finish i e body =>
      let* s := get in
      match threads s !! i with
      | Some Writing => on_ctx (write_end e body) ;; modify (fun s => mk_sys (ctx s) (list_delete i (threads s)))
      | _ => fail (Stuck "no such thread")
      end
  end.

(** ** Specification: the life of a firmware *)

Inductive life : Type :=
| Empty
| Packaged (fw : string)
| Launched (fw node : string)
| Flashing (fw node : string).

(** What an action does to it: the next state and the status reported, or the
    assertion that fails. *)
Definition life_step (a : action) (l : life) : (life * list Z) + abort_reason :=
  match a, l with
  | Package fw, Empty => inl (Packaged fw, [0])
  | Package _, Flashing _ _ => inr (AssertFail "i_ctx->op_ongoing == false")
  | Package _, _ => inl (l, [])
  | Flash _, Flashing _ _ => inr (AssertFail "i_ctx->op_ongoing == false")
  | Flash _, Launched _ _ => inr (AssertFail "i_ctx->dev_path == NULL")
  | Flash _, Empty => inr (AssertFail "i_ctx->fw_path != NULL")
  | Flash None, Packaged _ => inr (AssertFail "node")
  | Flash (Some node), Packaged fw => inl (Launched fw node, [])
  | Begin 0%nat, Launched fw node => inl (Flashing fw node, [])
  | Finish 0%nat e body, Flashing fw node =>
      inl (Empty, [match crm_file_copy e false false 0 body tt with Ok 0 _ _ => 0 | _ => -1 end])
  | _, _ => inr (Stuck "no such thread")
  end.

Definition sys_of (l : life) : sys :=
  match l with
  | Empty => mk_sys (mk_up false None None) []
  | Packaged fw => mk_sys (mk_up false (Some fw) None) []
  | Launched fw node => mk_sys (mk_up false (Some fw) (Some node)) [Created]
  | Flashing fw node => mk_sys (mk_up true (Some fw) (Some node)) [Writing]
  end.

Fixpoint life_run (l : list action) (s : life) : (life * list Z) + abort_reason :=
  match l with
  | [] => inl (s, [])
  | a :: l =>
      match life_step a s with
      | inl (s', o) => match life_run l s' with inl (s'', o') => inl (s'', o ++ o') | inr r => inr r end
      | inr r => inr r
      end
  end.

Definition copies_ok (a : action) : Prop :=
  match a with Finish _ e body => copy_env_ok e false body | _ => True end.

(** The outcome of a run, against that of the specification. *)
Definition agrees (r : outcome sys upload_out unit) (l : (life * list Z) + abort_reason) : Prop :=
  match r, l with
  | Ok _ s o, inl (x, st) => s = sys_of x /\ statuses o = st
  | Abort r _, inr r' => r = r'
  | _, _ => False
  end.

Lemma statuses_files o : statuses (FileOp <$> o) = [].
Proof. induction o; [done|]. done. Qed.

Lemma write_end_run e body fw node :
  copy_env_ok e false body ->
  exists o, write_end e body (mk_up true (Some fw) (Some node)) = Ok tt (mk_up false None None) o /\
    statuses o = [match crm_file_copy e false false 0 body tt with Ok 0 _ _ => 0 | _ => -1 end].
Proof.
  intros He. destruct (file_copied e false false 0 body He) as (r & o & Hr & _).
  unfold write_end, copy_firmware, bind, get, ASSERT, zoom, ret, modify, emit. cbn [fw_path dev_path].
  rewrite !bool_decide_eq_true_2 by done. rewrite Hr. cbn [app]. eexists. split; [reflexivity|].
  rewrite !statuses_app, statuses_files. cbn. by destruct r.
Qed.

Lemma act_refines a x : copies_ok a -> agrees (act a (sys_of x)) (life_step a x).
Proof.
  intros Ha. destruct a as [fw|node|i|i e body].
  - by destruct x.
  - by destruct x, node.
  - destruct x as [| | |]; destruct i as [|i]; done.
  - destruct x as [|fw|fw node|fw node]; destruct i as [|i]; try done.
    destruct (write_end_run e body fw node Ha) as (o & Hr & Hs). unfold act, bind, get. cbn [sys_of threads ctx lookup list_lookup].
    unfold on_ctx, zoom. cbn [ctx]. rewrite Hr. cbn -[crm_file_copy]. split; [done|].
    by rewrite app_nil_r, list_fmap_id.
Qed.

(** C37. The vmodem upload plugin is a four-state machine: for any interleaving
    of CTRL's calls and of the steps of its thread, the context, the threads and
    the statuses are those of the life of a firmware (none, packaged, being
    launched, being flashed): there is never more than one thread, each flash is
    answered once, by 0 exactly when the copy returns 0, a package is answered
    only when no firmware is held, and the calls abort exactly where the
    specification says. *)
Theorem vmodem_upload_refines l x :
  Forall copies_ok l -> agrees (for_each l act (sys_of x)) (life_run l x).
Proof.
  intros Hl. revert x. induction Hl as [|a l Ha _ IH]; intros x; cbn [for_each life_run]; [done|].
  pose proof (act_refines a x Ha) as Hs. unfold bind.
  destruct (act a (sys_of x)) as [[] s o|r o], (life_step a x) as [[x' st]|r']; cbn in Hs; try done.
  destruct Hs as [-> Ho]. specialize (IH x').
  destruct (for_each l act (sys_of x')) as [[] s' o'|r' o'], (life_run l x') as [[x'' st']|r'']; cbn in IH |- *; try done.
  destruct IH as [-> Ho']. by rewrite statuses_app, Ho, Ho'.
Qed.


(** ** CTRL and the vmodem plugin composed *)

Section composed.
Context `{MdmCli}.

Record sofia : Type := mk_sofia {
  ctrl_thread : fsm_st crm_control_ctx_internal;
  to_ctrl : ring ctrl_msg;
  upload : sys;
}.

#[local] Abbreviation S_ A := (M sofia Empty_set A).

(** A run of one part, whose actions [k] carries to the others. *)
Definition part {T P} (g : sofia -> T) (p : T -> sofia -> sofia) (k : P -> S_ unit) (m : M T P unit) : S_ unit := fun s =>
  match m (g s) with
  | Ok _ t o => for_each o k (p t s)
  | Abort r _ => Abort r []
  end.

Definition on_queue {A} (m : M (ring ctrl_msg) Empty_set A) : S_ A :=
  zoom to_ctrl (fun q s => mk_sofia (ctrl_thread s) q (upload s)) (fun x => x) m.

(** The statuses go to CTRL's queue. *)
Definition report (x : upload_out) : S_ unit :=
  match x with
  | NotifyFwUploadStatus st => on_queue (notify_fw_upload_status st)
  | _ => ret tt
  end.

Definition on_upload (a : action) : S_ unit :=
  part upload (fun u s => mk_sofia (ctrl_thread s) (to_ctrl s) u) report (act a).

(** The calls of CTRL are run in its own thread. *)
Definition call (x : ctrl_out) : S_ unit :=
  match x with
  | UploadPackage fw => on_upload (Package fw)
  | UploadFlash nodes => on_upload (Flash (Some nodes))
  | _ => ret tt
  end.

Inductive sofia_action : Type :=
| Post (c : api_call)
| CtrlTakes (e : env)
| Thread (a : action).

Definition sofia_act (a : sofia_action) : S_ unit :=
  match a with
  | Post c => on_queue (api c)
  | CtrlTakes e =>
      let* m := on_queue get_msg_thread in
      match m with
      | Some (scalar, data) =>
          part ctrl_thread (fun t s => mk_sofia t (to_ctrl s) (upload s)) call (handle_ipc_msg e scalar data)
      | None => ret tt
      end
  | Thread a => on_upload a
  end.

Definition sofia_init (t : crm_control_ctx_internal) : sofia :=
  mk_sofia (mk_fsm_st ST_INITIAL t) (crm_ipc_init (0, None) 3 4) (sys_of Empty).

End composed.

Section demo.
#[local] Existing Instance demo_mdmcli.

Definition demo_sofia (l : list sofia_action) : outcome sofia Empty_set unit :=
  for_each l sofia_act (sofia_init (crm_ctrl_init 1 90000 true demo_esc)).

Definition takes : sofia_action := CtrlTakes demo_env.
Definition hal_reports (t : crm_hal_evt_type) (nodes : string) (d : option mdm_cli_dbg_info) : list sofia_action :=
  [Post (CallHalEvent (mk_hal_event (mk_hal_evt t nodes) d)); takes].

(** A copy that works, of a firmware of three bytes. *)
Definition copied : copy_env := mk_copy_env true true (Some 3) true 3 0 18.
Definition writes : list sofia_action := [Thread (Begin 0); Thread (Finish 0 copied [1; 2; 3]); takes].

(** Up to the flash request. *)
Definition flashing : list sofia_action :=
  hal_reports HAL_MDM_OFF "" None ++ [Post CallStart; takes; takes] ++
  hal_reports HAL_MDM_BUSY "" None ++ hal_reports HAL_MDM_FLASH "/dev/vmodem" None.

Definition crashes : list sofia_action :=
  hal_reports HAL_MDM_BUSY "" None ++
  hal_reports HAL_MDM_NEED_RESET "" (Some (mk_dbg DBG_TYPE_ERROR 5 5 60 ["crash"])).

(** A boot goes through. *)
Example demo_sofia_boot :
  match demo_sofia (flashing ++ writes ++ hal_reports HAL_MDM_RUN "" None) with
  | Ok _ s _ => state (ctrl_thread s) = ST_UP /\ upload s = sys_of Empty /\ contents (to_ctrl s) = []
  | Abort _ _ => False
  end.
Proof. vm_compute. by split_and!. Qed.

(** A crash of the modem reported while the firmware is being written aborts the
    process: CTRL's escalation packages again, which the plugin refuses with an
    assertion.  Reported between the request and the start of the thread, the
    package is ignored, the status of the flash is taken for that of the package,
    and the next flash, for which there is no firmware, aborts. *)
Lemma crash_while_flashing :
  demo_sofia (flashing ++ [Thread (Begin 0)] ++ crashes) = Abort (AssertFail "i_ctx->op_ongoing == false") [] /\
  demo_sofia (flashing ++ crashes ++ writes ++ hal_reports HAL_MDM_BUSY "" None ++
    hal_reports HAL_MDM_FLASH "/dev/vmodem" None) = Abort (AssertFail "i_ctx->fw_path != NULL") [].
Proof. split; vm_compute; reflexivity. Qed.

End demo.

Lemma vmodem_upload_refines_witness :
  agrees
    (for_each [Package "fw"; Flash (Some "/dev/vmodem"); Package "fw"; Begin 0;
       Finish 0 copied [1; 2; 3]] act (sys_of Empty))
    (inl (Empty, [0; 0])).
Proof.
  apply (vmodem_upload_refines [Package "fw"; Flash (Some "/dev/vmodem"); Package "fw";
    Begin 0; Finish 0 copied [1; 2; 3]] Empty).
  repeat (apply Forall_cons_2; [done|]). apply Forall_cons_2; [|by apply Forall_nil_2].
  split; cbn; [lia|]. by intros _ n [= <-].
Defined.
