(* ===== verification/SofiaSecvm.v ===== *)
(** * The secure firmware upload plugin of SoFIA platforms (plugins/fw_upload/sofia_secvm)

    The plugin gives the firmware to the secure world, whose answer is an argument;
    its calls and its thread are interleaved as in SofiaUpload.v. *)

From S2P Require Import Prelude.
From Stdlib Require Import ZArith.
From stdpp Require Import base tactics list strings option.

Open Scope Z_scope.
Open Scope crm_scope.

Inductive secvm_out : Type :=
| NotifyFwUploadStatus (status : Z)
| ThreadInit
| TeeUpdate (fw : option string).

(** A writing thread: created, then past its first lines. *)
Inductive phase : Type := Created | Writing.


Record fw_upload : Type := mk_up { op_ongoing : bool; fw_path : option string }.

#[local] Abbreviation U_ A := (M fw_upload secvm_out A).

Definition not_ongoing : U_ unit :=
  let* s := get in ASSERT "i_ctx->op_ongoing == false" (negb (op_ongoing s)).

Definition package (fw : string) : U_ unit :=
  not_ongoing ;;
  let* s := get in
  match fw_path s with
  | Some _ => ret tt
  | None =>
      modify (fun s => mk_up (op_ongoing s) (Some fw)) ;;
      emit (NotifyFwUploadStatus 0)
  end.

Definition flash (node : option string) : U_ unit :=
  not_ongoing ;;
  let* s := get in
  ASSERT "i_ctx->fw_path != NULL" (bool_decide (fw_path s <> None)) ;;
  emit ThreadInit.

(** [write_firmware] up to the call of the secure world. *)
Definition write_begin : U_ unit :=
  not_ongoing ;;
  modify (fun s => mk_up true (fw_path s)).

(** [r] is what [tee_sec_boot_firmware_update] returns. *)
Definition write_end (r : Z) : U_ unit :=
  let* s := get in
  emit (TeeUpdate (fw_path s)) ;;
  modify (fun s => mk_up (op_ongoing s) None) ;;
  modify (fun s => mk_up false (fw_path s)) ;;
  emit (NotifyFwUploadStatus (if r =? 0 then 0 else -1)).

Definition dispose : U_ unit := not_ongoing.

Definition crm_fw_upload_init : fw_upload := mk_up false None.

Record sys : Type := mk_sys { ctx : fw_upload; threads : list phase }.

Inductive action : Type :=
| Package (fw : string)
| Flash (node : option string)
| Begin (i : nat)
| Finish (i : nat) (r : Z).

#[local] Abbreviation S_ A := (M sys secvm_out A).

Definition on_ctx {A} (m : U_ A) : S_ A := zoom ctx (fun u s => mk_sys u (threads s)) (fun x => x) m.

Definition act (a : action) : S_ unit :=
  match a with
  | Package fw => on_ctx (package fw)
  | Flash node => on_ctx (flash node) ;; modify (fun s => mk_sys (ctx s) (threads s ++ [Created]))
  | Begin i =>
      let* s := get in
      match threads s !! i with
      | Some Created => on_ctx write_begin ;; modify (fun s => mk_sys (ctx s) (<[i := Writing]> (threads s)))
      | _ => fail (Stuck "no such thread")
      end
  | Finish i r =>
      let* s := get in
      match threads s !! i with
      | Some Writing => on_ctx (write_end r) ;; modify (fun s => mk_sys (ctx s) (list_delete i (threads s)))
      | _ => fail (Stuck "no such thread")
      end
  end.

(** As long as CTRL waits for the answer of a flash before it asks for another,
    every firmware given to the secure world is one that was packaged, and it is
    given once: the context and the threads go through four states. *)
Inductive stage : Type := Empty | Packaged (fw : string) | Launched (fw : string) | Flashing (fw : string).

Definition sys_of (x : stage) : sys :=
  match x with
  | Empty => mk_sys (mk_up false None) []
  | Packaged fw => mk_sys (mk_up false (Some fw)) []
  | Launched fw => mk_sys (mk_up false (Some fw)) [Created]
  | Flashing fw => mk_sys (mk_up true (Some fw)) [Writing]
  end.

Definition stage_step (a : action) (x : stage) : option (stage * list secvm_out) :=
  match a, x with
  | Package fw, Empty => Some (Packaged fw, [NotifyFwUploadStatus 0])
  | Package _, Packaged _ | Package _, Launched _ => Some (x, [])
  | Flash _, Packaged fw => Some (Launched fw, [ThreadInit])
  | Begin 0%nat, Launched fw => Some (Flashing fw, [])
  | Finish 0%nat r, Flashing fw => Some (Empty, [TeeUpdate (Some fw); NotifyFwUploadStatus (if r =? 0 then 0 else -1)])
  | _, _ => None
  end.

Lemma secvm_step a x :
  (forall node, a = Flash node -> forall fw, x <> Launched fw) ->
  match stage_step a x with
  | Some (x', o) => act a (sys_of x) = Ok tt (sys_of x') o
  | None => exists r o, act a (sys_of x) = Abort r o
  end.
Proof.
  intros Ha. destruct a as [fw|node|i|i r], x as [|fw'|fw'|fw']; try destruct i as [|i];
    try done; try (eexists _, _; reflexivity). by destruct (Ha node eq_refl fw').
Qed.

(** Unlike that of sofia_vmodem, a second flash before the thread has started is accepted:
    two threads run, and the second one gives the secure world no firmware. *)
Example secvm_second_flash :
  exists s o,
    for_each [Package "fw"; Flash None; Flash None; Begin 0; Finish 0 0; Begin 0; Finish 0 0] act (sys_of Empty) = Ok tt s o /\
    o = [NotifyFwUploadStatus 0; ThreadInit; ThreadInit; TeeUpdate (Some "fw"); NotifyFwUploadStatus 0;
         TeeUpdate None; NotifyFwUploadStatus 0].
Proof. eexists _, _. split; reflexivity. Qed.
