(* ===== verification/SofiaDump.v ===== *)
(** * The dump plugin of SoFIA platforms (plugins/dump/sofia/src/dump.c)

    A detached thread reads the crash report and the core dump from the modem's
    device and stores them in two compressed files, then reports to the clients
    and to CTRL.  The device's answers, the results of the file operations and
    the date are arguments; the files are a map from paths to contents. *)

From S2P Require Import Prelude MdmCli File.
From Stdlib Require Import ZArith Lia Ascii.
From stdpp Require Import base tactics list strings option gmap.

Open Scope Z_scope.
Open Scope crm_scope.

(** What one turn of the reading loop sees: nothing for a second, data with the
    result of [gzwrite], the end, or an error (EIO or another). *)
Inductive rd : Type :=
| PollSilence
| Data (bytes : list Z) (gz : Z)
| Eof
| ReadErr (eio : bool).

(** The results of the calls of one [dump_data]. *)
Record transfer : Type := mk_transfer {
  gz_open : bool;
  cmd_written : Z;
  reads : list rd;
  gz_close : bool;
  strerror : string;
}.

Inductive dump_out : Type :=
| ThreadInit
| DevCmd (cmd : string)
| NotifyClient (d : mdm_cli_dbg_info)
| NotifyDumpStatus (status : Z).

(** [files] is the part of the file system the plugin writes. *)
Record dump : Type := mk_dump {
  host_debug : bool;
  vdump_path : option string;
  op_ongoing : bool;
  files : gmap string (list Z);
}.

#[local] Abbreviation D_ A := (M dump dump_out A).

Definition on_files (f : gmap string (list Z) -> gmap string (list Z)) : D_ unit :=
  modify (fun s => mk_dump (host_debug s) (vdump_path s) (op_ongoing s) (f (files s))).

Definition DUMP_FOLDER : string := "/data/logs/modemcrash".

Definition dump_file (type extension : string) (t : tm) : string :=
  snprintf 512 (DUMP_FOLDER +:+ "/coredump_" +:+ type +:+ "_" +:+ fmt_d " "%char 4 (tm_year t + 1900) +:+ "-"
    +:+ fmt_d "0"%char 2 (tm_mon t + 1) +:+ "-" +:+ fmt_d "0"%char 2 (tm_mday t) +:+ "-" +:+ fmt_d "0"%char 2 (tm_hour t) +:+ "."
    +:+ fmt_d "0"%char 2 (tm_min t) +:+ "." +:+ fmt_d "0"%char 2 (tm_sec t) +:+ "." +:+ extension +:+ ".gz").

(** The [for (;;)] loop, into the file [output]. *)
Fixpoint read_loop (output : string) (l : list rd) : D_ Z :=
  match l with
  | [] => fail (Stuck "read on a silent device")
  | PollSilence :: _ => fail (AssertFail "err != 0")
  | Data bytes gz :: l =>
      if gz =? Z.of_nat (length bytes)
      then on_files (alter (fun c => c ++ bytes) output) ;; read_loop output l
      else ret (-1)
  | Eof :: _ => ret 0
  | ReadErr eio :: _ =>
      let* s := get in
      ret (if host_debug s && eio then 0 else -1)
  end.

(** The status, and the path of the file or the reason of the failure. *)
Definition dump_data (v_fd : Z) (cmd type extension : string) (t : tm) (x : transfer) : D_ (Z * string) :=
  ASSERT "v_fd >= 0" (0 <=? v_fd) ;;
  let output := dump_file type extension t in
  DASSERT "failed to open %s. reason: %s" (gz_open x) ;;
  on_files (insert output []) ;;
  emit (DevCmd cmd) ;;
  ASSERT "cmd_write > 0 && (size_t)cmd_write == len_cmd"
    ((0 <? cmd_written x) && (cmd_written x =? Z.of_nat (String.length cmd))) ;;
  let* success := read_loop output (reads x) in
  DASSERT "failed to close %s" (gz_close x) ;;
  if success =? 0 then ret (0, output)
  else on_files (delete output) ;; ret (success, snprintf 512 ("Failed to retrieve " +:+ type +:+ ". error: " +:+ strerror x)).

(** The loop that opens the device again, for the tests on the host. *)
Fixpoint reopen (n : nat) (opens : list Z) : Z :=
  match n, opens with
  | S n, fd :: opens => if 0 <=? fd then fd else reopen n opens
  | _, _ => -1
  end.

Section plugin.
Context `{MdmCli} (DUMP_STR_SUCCEED : string).

(** The results of the calls of one run of the thread. *)
Record session : Type := mk_session {
  date : tm;
  dev_open : Z;
  info : transfer;
  dev_opens : list Z;
  modem : transfer;
  dev_close : Z;
}.

(** The second transfer, when the first one has worked. *)
Definition dump_modem (x : session) : D_ (Z * string) :=
  let* s := get in
  let v_fd := if host_debug s then reopen 2000 (dev_opens x) else dev_open x in
  when (host_debug s) (ASSERT "v_fd >= 0" (0 <=? v_fd)) ;;
  dump_data v_fd "get_coredump" "modem" "istp" (date x) (modem x).

Definition dump_thread (x : session) : D_ unit :=
  let* s := get in
  ASSERT "i_ctx->op_ongoing == false" (negb (op_ongoing s)) ;;
  modify (fun s => mk_dump (host_debug s) (vdump_path s) true (files s)) ;;
  DASSERT "[VDUMP] failed to open %s. reason: %s" (0 <=? dev_open x) ;;
  let* i := dump_data (dev_open x) "get_coredump_info" "info" "txt" (date x) (info x) in
  let* m := if i.1 =? 0 then dump_modem x else ret (i.1, EmptyString) in
  DASSERT "[VDUMP] failed to close %s.reason: %s" (dev_close x =? 0) ;;
  let status := m.1 in
  emit (NotifyClient (mk_dbg DBG_TYPE_DUMP_END DBG_DEFAULT_LOG_SIZE DBG_DEFAULT_LOG_SIZE DBG_DEFAULT_LOG_TIME
    [if status =? 0 then DUMP_STR_SUCCEED else DUMP_STR_LINK_ERR; m.2; i.2])) ;;
  modify (fun s => mk_dump (host_debug s) None false (files s)) ;;
  emit (NotifyDumpStatus status).

Definition read_dump (link : option string) (fw : string) : D_ unit :=
  let* s := get in
  ASSERT "i_ctx->op_ongoing == false" (negb (op_ongoing s)) ;;
  ASSERT "i_ctx->vdump_path == NULL" (bool_decide (vdump_path s = None)) ;;
  ASSERT "link" (bool_decide (link <> None)) ;;
  modify (fun s => mk_dump (host_debug s) link (op_ongoing s) (files s)) ;;
  emit ThreadInit.

Definition stop : D_ unit := DASSERT "not implemented" false.

Definition dispose : D_ unit :=
  let* s := get in ASSERT "i_ctx->op_ongoing == false" (negb (op_ongoing s)).

Definition crm_dump_init (host : bool) (fs : gmap string (list Z)) : dump := mk_dump host None false fs.

(** ** Specification *)

(** What the device has sent, when the transfer ends and everything received was
    written. *)
Fixpoint received (host : bool) (l : list rd) : option (list Z) :=
  match l with
  | Data bytes gz :: l => if gz =? Z.of_nat (length bytes) then app bytes <$> received host l else None
  | Eof :: _ => Some []
  | ReadErr eio :: _ => if host && eio then Some [] else None
  | PollSilence :: _ | [] => None
  end.

(** The device says something every second until the transfer ends. *)
Fixpoint answers (l : list rd) : bool :=
  match l with
  | Data bytes gz :: l => if gz =? Z.of_nat (length bytes) then answers l else true
  | Eof :: _ | ReadErr _ :: _ => true
  | PollSilence :: _ | [] => false
  end.

Definition transfer_ok (cmd : string) (x : transfer) : Prop :=
  gz_open x = true /\ gz_close x = true /\ cmd_written x = Z.of_nat (String.length cmd) /\ answers (reads x) = true.

Definition session_ok (host : bool) (x : session) : Prop :=
  0 <= dev_open x /\ dev_close x = 0 /\ transfer_ok "get_coredump_info" (info x) /\
  transfer_ok "get_coredump" (modem x) /\ (host = true -> 0 <= reopen 2000 (dev_opens x)).

Definition failure (type : string) (x : transfer) : string :=
  snprintf 512 ("Failed to retrieve " +:+ type +:+ ". error: " +:+ strerror x).

(** One transfer: its status, its text, and the files. *)
Definition transferred (host : bool) (type extension : string) (t : tm) (x : transfer) (fs : gmap string (list Z))
    : Z * string * gmap string (list Z) :=
  let output := dump_file type extension t in
  match received host (reads x) with
  | Some bytes => (0, output, <[output := bytes]> fs)
  | None => (-1, failure type x, delete output fs)
  end.

(** The whole session: commands sent, status, texts, files. *)
Definition collected (host : bool) (x : session) (fs : gmap string (list Z))
    : list string * Z * (string * string) * gmap string (list Z) :=
  let '(st, i, fs1) := transferred host "info" "txt" (date x) (info x) fs in
  if st =? 0 then
    let '(st, m, fs2) := transferred host "modem" "istp" (date x) (modem x) fs1 in
    (["get_coredump_info"; "get_coredump"], st, (m, i), fs2)
  else (["get_coredump_info"], st, (EmptyString, i), fs1).

Lemma wp_dump_loop output l s acc :
  answers l = true -> files s !! output = Some acc ->
  wp (read_loop output l) s no_abort (fun r s' o => o = [] /\
    host_debug s' = host_debug s /\ vdump_path s' = vdump_path s /\ op_ongoing s' = op_ongoing s /\
    match received (host_debug s) l with
    | Some bytes => r = 0 /\ files s' = <[output := acc ++ bytes]> (files s)
    | None => r = -1 /\ delete output (files s') = delete output (files s)
    end).
Proof.
  revert s acc. induction l as [|[|bytes gz| |eio] l IH]; intros s acc Ha Hf; cbn [read_loop answers received] in *; try done.
  - destruct (gz =? _); [|by apply wp_ret]. apply wp_bind, wp_modify. cbn [app].
    eapply wp_mono; [apply (IH _ (acc ++ bytes)); [done|]|done|].
    { cbn. by rewrite lookup_alter_eq, Hf. }
    cbn. intros r s' o (-> & E1 & E2 & E3 & Hr). split_and!; try done.
    destruct (received (host_debug s) l) as [b|]; cbn; destruct Hr as [-> Hr]; (split; [done|]); rewrite Hr.
    + rewrite <-app_assoc. apply map_eq. intros k. destruct (decide (k = output)) as [->|Hk];
        [by rewrite !lookup_insert_eq|by rewrite !lookup_insert_ne, lookup_alter_ne by done].
    + apply map_eq. intros k. destruct (decide (k = output)) as [->|Hk];
        [by rewrite !lookup_delete_eq|by rewrite !lookup_delete_ne, lookup_alter_ne by done].
  - apply wp_ret. split_and!; try done. rewrite app_nil_r. symmetry. by apply insert_id.
  - apply wp_bind, wp_get, wp_ret. destruct (host_debug s && eio); split_and!; try done.
    rewrite app_nil_r. symmetry. by apply insert_id.
Qed.

Lemma wp_dump_data v_fd cmd type extension t x s :
  0 <= v_fd -> 0 < Z.of_nat (String.length cmd) -> transfer_ok cmd x ->
  wp (dump_data v_fd cmd type extension t x) s no_abort (fun r s' o =>
    (r, files s') = transferred (host_debug s) type extension t x (files s) /\ o = [DevCmd cmd] /\
    host_debug s' = host_debug s /\ vdump_path s' = vdump_path s /\ op_ongoing s' = op_ongoing s).
Proof.
  intros Hv Hc (H1 & H2 & H3 & H4). unfold dump_data, transferred.
  apply wp_bind, wp_ASSERT; [intros _|intros ?%Z.leb_gt; lia]. apply wp_bind, wp_DASSERT; [intros _|by rewrite H1].
  apply wp_bind, wp_modify, wp_bind, wp_emit, wp_bind, wp_ASSERT; [intros _|].
  2: { rewrite H3, Z.eqb_refl. intros Hx. bool_facts. lia. }
  apply wp_bind. set (output := dump_file type extension t).
  eapply wp_mono; [apply (wp_dump_loop output _ _ []); [done|by cbn; rewrite lookup_insert_eq]|done|].
  cbn. intros r s1 o (-> & E1 & E2 & E3 & Hr). apply wp_bind, wp_DASSERT; [intros _|by rewrite H2].
  destruct (received (host_debug s) (reads x)) as [b|]; destruct Hr as [-> Hr]; cbn [Z.eqb].
  - apply wp_ret. rewrite Hr. by rewrite insert_insert_eq.
  - apply wp_bind, wp_modify, wp_ret. cbn. rewrite Hr. by rewrite delete_insert_eq.
Qed.

Lemma dump_files_distinct e e' t : dump_file "info" e t <> dump_file "modem" e' t.
Proof.
  intros Heq. assert (String.get 32 (dump_file "info" e t) = String.get 32 (dump_file "modem" e' t)) as Hc by (by rewrite Heq).
  unfold dump_file, snprintf in Hc. cbn in Hc. discriminate.
Qed.

Lemma wp_dump_thread x s :
  session_ok (host_debug s) x -> op_ongoing s = false ->
  wp (dump_thread x) s no_abort (fun _ s' o =>
    let '(cmds, st, (m, i), fs) := collected (host_debug s) x (files s) in
    s' = mk_dump (host_debug s) None false fs /\
    o = (DevCmd <$> cmds) ++
      [NotifyClient (mk_dbg DBG_TYPE_DUMP_END DBG_DEFAULT_LOG_SIZE DBG_DEFAULT_LOG_SIZE DBG_DEFAULT_LOG_TIME
         [if st =? 0 then DUMP_STR_SUCCEED else DUMP_STR_LINK_ERR; m; i]);
       NotifyDumpStatus st]).
Proof.
  intros (Ho & Hc & Hi & Hm & Hr) Hon. unfold dump_thread, collected.
  apply wp_bind, wp_get, wp_bind, wp_ASSERT; [intros _|by rewrite Hon]. apply wp_bind, wp_modify.
  apply wp_bind, wp_DASSERT; [intros _|intros ?%Z.leb_gt; lia]. apply wp_bind.
  eapply wp_mono; [by apply wp_dump_data|done|]. cbn [files host_debug]. intros [st i] s1 o1 (H1 & -> & E1 & _ & _).
  rewrite <-H1. cbn [fst snd]. destruct (Z.eqb_spec st 0) as [->|Hst].
  - apply wp_bind. unfold dump_modem. apply wp_bind, wp_get. apply wp_bind, wp_when.
    + intros Hh. apply wp_ASSERT; [intros _|]; rewrite Hh.
      * eapply wp_mono; [apply wp_dump_data; [apply Hr; congruence|done|done]|done|].
        intros [st' m] s2 o2 (H2 & -> & E2 & _ & _). apply wp_bind, wp_DASSERT; [intros _|by rewrite Hc].
        apply wp_bind, wp_emit, wp_bind, wp_modify, wp_emit. rewrite E1 in H2. rewrite <-H2. cbn. by rewrite E2, E1.
      * intros ?%Z.leb_gt. rewrite E1 in Hh. specialize (Hr Hh). lia.
    + intros Hh. rewrite Hh. eapply wp_mono; [by apply wp_dump_data|done|].
      intros [st' m] s2 o2 (H2 & -> & E2 & _ & _). apply wp_bind, wp_DASSERT; [intros _|by rewrite Hc].
      apply wp_bind, wp_emit, wp_bind, wp_modify, wp_emit. rewrite E1 in H2. rewrite <-H2. cbn. by rewrite E2, E1.
  - apply wp_bind, wp_ret, wp_bind, wp_DASSERT; [intros _|by rewrite Hc].
    apply wp_bind, wp_emit, wp_bind, wp_modify, wp_emit. cbn. rewrite E1.
    by destruct (Z.eqb_spec st 0).
Qed.

(** C38. A core dump session: when the device and the file system answer, the
    thread ends with the context as it was before the request (so that the next
    request is accepted), having sent exactly the commands due, then one report
    to the clients and one status to CTRL, in this order.  The status is 0 exactly
    when both transfers have ended and everything received was written; then the
    two files hold exactly the bytes the device has sent.  Otherwise the report
    says why, the file of the failed transfer is removed and the core dump is not
    asked for when the crash report has failed. *)
Theorem sofia_dump_exact x s link fw :
  session_ok (host_debug s) x -> op_ongoing s = false -> vdump_path s = None ->
  exists o s' (st : Z) (m i : string),
    (read_dump (Some link) fw ;; dump_thread x) s = Ok tt s' (ThreadInit :: o) /\
    op_ongoing s' = false /\ vdump_path s' = None /\
    o = (DevCmd <$> (collected (host_debug s) x (files s)).1.1.1) ++
      [NotifyClient (mk_dbg DBG_TYPE_DUMP_END DBG_DEFAULT_LOG_SIZE DBG_DEFAULT_LOG_SIZE DBG_DEFAULT_LOG_TIME
         [if st =? 0 then DUMP_STR_SUCCEED else DUMP_STR_LINK_ERR; m; i]);
       NotifyDumpStatus st] /\
    (st = 0 <-> is_Some (received (host_debug s) (reads (info x))) /\ is_Some (received (host_debug s) (reads (modem x)))) /\
    (st = 0 -> files s' !! i = received (host_debug s) (reads (info x)) /\
      files s' !! m = received (host_debug s) (reads (modem x))) /\
    (received (host_debug s) (reads (info x)) = None ->
      (collected (host_debug s) x (files s)).1.1.1 = ["get_coredump_info"] /\
      i = failure "info" (info x) /\ files s' = delete (dump_file "info" "txt" (date x)) (files s)) /\
    (is_Some (received (host_debug s) (reads (info x))) -> received (host_debug s) (reads (modem x)) = None ->
      m = failure "modem" (modem x) /\ files s' !! dump_file "modem" "istp" (date x) = None).
Proof.
  intros Hok Hon Hp.
  set (s0 := mk_dump (host_debug s) (Some link) (op_ongoing s) (files s)).
  assert (read_dump (Some link) fw s = Ok tt s0 [ThreadInit]) as Hread.
  { unfold read_dump, bind, get, ASSERT. by rewrite Hon, Hp. }
  destruct (wp_total _ _ _ (wp_dump_thread x s0 Hok Hon)) as ([] & s' & o & Hrun & Hpost). cbn [s0 host_debug files] in Hpost.
  unfold bind. rewrite Hread, Hrun. cbn [app].
  pose proof (dump_files_distinct "txt" "istp" (date x)) as Hne.
  unfold collected, transferred in *.
  destruct (received (host_debug s) (reads (info x))) as [ib|]; cbn [Z.eqb] in *;
    [destruct (received (host_debug s) (reads (modem x))) as [mb|]|]; destruct Hpost as [-> ->].
  - eexists _, _, 0, _, _. split; [reflexivity|]. split_and!; cbn; try done.
    intros _. by rewrite lookup_insert_eq, lookup_insert_ne, lookup_insert_eq by congruence.
  - eexists _, _, (-1), _, _. split; [reflexivity|]. split_and!; cbn; try done.
    + split; [done|]. by intros [_ [? ?]].
    + intros _ _. by rewrite lookup_delete_eq.
  - eexists _, _, (-1), EmptyString, _. split; [reflexivity|]. split_and!; cbn; try done.
    + split; [done|]. by intros [[? ?] _].
Qed.

(** A device silent for a second aborts the process, whatever the transfer. *)
Lemma silence_aborts v_fd cmd type extension t x s l bytes :
  0 <= v_fd -> gz_open x = true -> cmd_written x = Z.of_nat (String.length cmd) -> 0 < cmd_written x ->
  reads x = Data bytes (Z.of_nat (length bytes)) :: PollSilence :: l ->
  exists o, dump_data v_fd cmd type extension t x s = Abort (AssertFail "err != 0") o.
Proof.
  intros Hv Hg Hc Hp Hr. unfold dump_data, bind, ASSERT, DASSERT, on_files, modify, emit, ret.
  rewrite Hg, Hr, <-Hc, Z.eqb_refl. destruct (Z.leb_spec 0 v_fd), (Z.ltb_spec 0 (cmd_written x)); try lia. cbn [andb read_loop].
  rewrite Z.eqb_refl. unfold bind, on_files, modify. eexists. reflexivity.
Qed.

End plugin.

(** ** An instance *)

Definition demo_session : session :=
  mk_session (mk_tm 115 0 9 7 5 3) 4 (mk_transfer true 17 [Data [1; 2] 2; Eof] true "") []
    (mk_transfer true 12 [Data [3] 1; Data [4; 5] 2; Eof] true "") 0.

Lemma demo_session_ok : session_ok false demo_session.
Proof. split_and!; try done; by split_and!. Qed.

Example demo_dump_file : dump_file "modem" "istp" (date demo_session) = "/data/logs/modemcrash/coredump_modem_2015-01-09-07.05.03.istp.gz".
Proof. vm_compute. reflexivity. Qed.

Lemma sofia_dump_exact_witness :
  exists o s' (st : Z) (m i : string),
    (read_dump (Some "/dev/vdump") "fw" ;; @dump_thread demo_mdmcli "ok" demo_session) (crm_dump_init false ∅) = Ok tt s' (ThreadInit :: o) /\
    (st = 0 -> files s' !! i = Some [1; 2] /\ files s' !! m = Some [3; 4; 5]).
Proof.
  destruct (@sofia_dump_exact demo_mdmcli "ok" demo_session (crm_dump_init false ∅) "/dev/vdump" "fw" demo_session_ok
    eq_refl eq_refl) as (o & s' & st & m & i & H1 & _ & _ & _ & _ & H2 & _).
  exact (ex_intro _ o (ex_intro _ s' (ex_intro _ st (ex_intro _ m (ex_intro _ i (conj H1 H2)))))).
Defined.
