(* ===== verification/Bridge.v ===== *)
(** * The telephony bridge daemon (bridge/c/daemon/src/daemon.c)

    The daemon forwards the messages of its C clients to the Java application,
    one at a time, each acknowledged before the next, and tells it whether one
    of the clients holds a wakelock.  The state is [daemon_context_t]; a turn of
    the main loop is what the clock, [poll] and the system calls give.  Bytes
    are integers from 0 to 255.  A buffer being filled is the list of the bytes
    received in it, the linked list of the messages is a list whose last element
    is the one [msg_queue_tail] designates.  [abort()] apart, what the C standard
    leaves undefined (an indeterminate or freed pointer that is used, a second
    [free]) ends a run with [Undefined]. *)

From S2P Require Import Prelude Timer Wire.
From Stdlib Require Import ZArith Lia.
From stdpp Require Import base tactics list strings option.

Open Scope Z_scope.
Open Scope crm_scope.

(** [tel_bridge_commands_t] *)
Definition TEL_BRIDGE_COMMAND_WAKELOCK_ACQUIRE : Z := 0.
Definition TEL_BRIDGE_COMMAND_WAKELOCK_RELEASE : Z := 1.
Definition TEL_BRIDGE_COMMAND_START_SERVICE : Z := 2.
Definition TEL_BRIDGE_COMMAND_BROADCAST_INTENT : Z := 3.
Definition TEL_BRIDGE_COMMAND_NUM : Z := 4.

Definition MAX_CLIENTS : Z := 3.
Definition MAX_RETRIES : Z := 3.
Definition MAX_CLIENT_MSG_DURATION : Z := 500.
Definition MAX_JAVA_MSG_DURATION : Z := 1000.
Definition MAX_JAVA_ACK_DURATION : Z := 5000.
Definition MAX_MSG_SIZE : Z := 2048.

Inductive msg_state_t : Type := MSG_STATE_NONE | MSG_STATE_IN_HDR | MSG_STATE_IN_MSG.

#[export] Instance msg_state_eq_dec : EqDecision msg_state_t.
Proof. solve_decision. Defined.

(** [char *msg_buffer]: null, a block that has been freed, a block with the bytes
    written so far. *)
Inductive buffer : Type := BufNull | BufFreed | Buf (bytes : list Z).

Record client_context : Type := mk_client {
  c_fd : Z;
  msg_state : msg_state_t;
  msg_hdr : list Z;
  msg_buffer : buffer;
  data_read : Z;
  data_to_read : Z;
  wakelock_cnt : Z;
  msg_read_end : timespec;
}.

Record msg_queue_t : Type := mk_queued { q_msg : list Z; q_size : Z; retries : Z }.

(** [char *msg] of [java_context_t]: not initialised, [wakelock_msg], the message
    of the head of the queue, a message that has been freed. *)
Inductive java_msg : Type := MsgUninit | MsgWakelock | MsgHead | MsgFreed.

(** [ack_reply_pos] is the length of [ack_reply]. *)
Record java_context : Type := mk_java {
  j_fd : Z;
  msg_count : Z;
  msg_end : timespec;
  msg_in_progress : bool;
  msg_queue : list msg_queue_t;
  wakelock_msg : list Z;
  j_msg : java_msg;
  data_to_send : Z;
  data_sent : Z;
  j_wakelock_held : bool;
  wait_ack : bool;
  wait_ack_count : Z;
  ack_reply : list Z;
}.

Record daemon_context : Type := mk_daemon {
  c_sock_l : Z;
  j_sock_l : Z;
  wakelock_held : bool;
  client_ctx : list client_context;
  java_ctx : java_context;
}.

(** What the daemon does to its descriptors, and what it logs of the messages. *)
Inductive bridge_out : Type :=
| CloseFd (fd : Z)
| ClientConnected (idx : nat)
| ClientRemoved (idx : nat)
| JavaConnected
| JavaRemoved
| JavaWrite (bytes : list Z)
| MsgQueued (msg : list Z)
| MsgAcked (msg : list Z)
| MsgDropped (msg : list Z)
| WakelockAcked (msg : list Z).

Abbreviation B_ A := (M daemon_context bridge_out A).

(** ** Access to the state *)

Definition set_held (b : bool) : B_ unit :=
  modify (fun s => mk_daemon (c_sock_l s) (j_sock_l s) b (client_ctx s) (java_ctx s)).
Definition set_client (i : nat) (c : client_context) : B_ unit :=
  modify (fun s => mk_daemon (c_sock_l s) (j_sock_l s) (wakelock_held s) (<[i := c]> (client_ctx s)) (java_ctx s)).
Definition set_java (f : java_context -> java_context) : B_ unit :=
  modify (fun s => mk_daemon (c_sock_l s) (j_sock_l s) (wakelock_held s) (client_ctx s) (f (java_ctx s))).
Definition get_client (i : nat) : B_ client_context :=
  let* s := get in
  match client_ctx s !! i with
  | Some c => ret c
  | None => fail (Undefined "client_ctx[] out of bounds")
  end.

Definition with_j_fd (fd : Z) (j : java_context) : java_context :=
  mk_java fd (msg_count j) (msg_end j) (msg_in_progress j) (msg_queue j) (wakelock_msg j) (j_msg j) (data_to_send j)
    (data_sent j) (j_wakelock_held j) (wait_ack j) (wait_ack_count j) (ack_reply j).
Definition with_count (n : Z) (j : java_context) : java_context :=
  mk_java (j_fd j) n (msg_end j) (msg_in_progress j) (msg_queue j) (wakelock_msg j) (j_msg j) (data_to_send j)
    (data_sent j) (j_wakelock_held j) (wait_ack j) (wait_ack_count j) (ack_reply j).
Definition with_queue (q : list msg_queue_t) (m : java_msg) (j : java_context) : java_context :=
  mk_java (j_fd j) (msg_count j) (msg_end j) (msg_in_progress j) q (wakelock_msg j) m (data_to_send j)
    (data_sent j) (j_wakelock_held j) (wait_ack j) (wait_ack_count j) (ack_reply j).
Definition with_sent (n : Z) (j : java_context) : java_context :=
  mk_java (j_fd j) (msg_count j) (msg_end j) (msg_in_progress j) (msg_queue j) (wakelock_msg j) (j_msg j) (data_to_send j)
    n (j_wakelock_held j) (wait_ack j) (wait_ack_count j) (ack_reply j).
Definition with_j_held (b : bool) (j : java_context) : java_context :=
  mk_java (j_fd j) (msg_count j) (msg_end j) (msg_in_progress j) (msg_queue j) (wakelock_msg j) (j_msg j) (data_to_send j)
    (data_sent j) b (wait_ack j) (wait_ack_count j) (ack_reply j).
Definition with_ack (b : bool) (reply : list Z) (j : java_context) : java_context :=
  mk_java (j_fd j) (msg_count j) (msg_end j) (msg_in_progress j) (msg_queue j) (wakelock_msg j) (j_msg j) (data_to_send j)
    (data_sent j) (j_wakelock_held j) b (wait_ack_count j) reply.

(** ** Words of a message *)

(** [ntohl] of the [k]-th word of a buffer. *)
Definition word (k : nat) (l : list Z) : Z :=
  match drop (4 * k) l with
  | b3 :: b2 :: b1 :: b0 :: _ => be_value b3 b2 b1 b0
  | _ => 0
  end.

(** The bytes [bs] read at the offset [off] of a buffer. *)
Definition read_at (off : Z) (buf bs : list Z) : list Z := take (Z.to_nat off) buf ++ bs.

(** [msg_to_string] gives a name to the logs, or aborts. *)
Definition msg_to_string (msg : Z) : B_ string :=
  if msg =? TEL_BRIDGE_COMMAND_WAKELOCK_ACQUIRE then ret "WAKE_ACQUIRE" else
  if msg =? TEL_BRIDGE_COMMAND_WAKELOCK_RELEASE then ret "WAKE_RELEASE" else
  if msg =? TEL_BRIDGE_COMMAND_START_SERVICE then ret "START_SERVICE" else
  if msg =? TEL_BRIDGE_COMMAND_BROADCAST_INTENT then ret "BROADCAST_INTENT" else
  fail (DAssertFail "Invalid message type").

(** The bytes [java_ctx.msg] designates. *)
Definition java_bytes (j : java_context) : option (list Z) :=
  match j_msg j, msg_queue j with
  | MsgWakelock, _ => Some (wakelock_msg j)
  | MsgHead, x :: _ => Some (q_msg x)
  | _, _ => None
  end.
Definition get_java_bytes : B_ (list Z) :=
  let* s := get in
  match java_bytes (java_ctx s) with
  | Some l => ret l
  | None => fail (Undefined "java_ctx.msg")
  end.

(** [java_ctx.msg == wakelock_msg] *)
Definition is_wakelock_msg : B_ bool :=
  let* s := get in
  match j_msg (java_ctx s) with
  | MsgUninit => fail (Undefined "java_ctx.msg is not initialised")
  | MsgWakelock => ret true
  | MsgHead | MsgFreed => ret false
  end.

(** ** Poll *)

Record revents_t : Type := mk_revents { r_in : bool; r_out : bool; r_err : bool }.
Record pollfd : Type := mk_pollfd { p_fd : Z; want_in : bool; want_out : bool }.

Definition none_set (r : revents_t) : bool := negb (r_in r || r_out r || r_err r).

(** [poll] reports nothing of a negative descriptor, and [POLLERR], [POLLHUP] and
    [POLLNVAL] (all [r_err]) whatever was asked for. *)
Definition poll_one (p : pollfd) (r : revents_t) : revents_t :=
  if p_fd p <? 0 then mk_revents false false false
  else mk_revents (r_in r && want_in p) (r_out r && want_out p) (r_err r).

Definition min_timeout (timeout to : Z) : Z := if (timeout =? -1) || (to <? timeout) then to else timeout.

Definition reading (c : client_context) : bool := (0 <=? c_fd c) && negb (bool_decide (msg_state c = MSG_STATE_NONE)).

(** The message that is sent next. *)
Definition start_msg (now : timespec) : B_ unit :=
  let* s := get in
  let j := java_ctx s in
  (if negb (bool_decide (j_wakelock_held j = wakelock_held s)) then
     let cmd_id := if wakelock_held s then TEL_BRIDGE_COMMAND_WAKELOCK_ACQUIRE else TEL_BRIDGE_COMMAND_WAKELOCK_RELEASE in
     set_java (fun j => mk_java (j_fd j) (u32 (msg_count j + 1)) (crm_time_add_ms now MAX_JAVA_MSG_DURATION) true
       (msg_queue j) (be_bytes (msg_count j) ++ be_bytes 0 ++ be_bytes cmd_id) MsgWakelock 12 0
       (j_wakelock_held j) (wait_ack j) (wait_ack_count j) (ack_reply j))
   else
     match msg_queue j with
     | [] => fail (Undefined "java_ctx.msg_queue is null")
     | x :: _ =>
         set_java (fun j => mk_java (j_fd j) (msg_count j) (crm_time_add_ms now MAX_JAVA_MSG_DURATION) true
           (msg_queue j) (wakelock_msg j) MsgHead (q_size x) 0
           (j_wakelock_held j) (wait_ack j) (wait_ack_count j) (ack_reply j))
     end) ;;
  let* m := get_java_bytes in
  let* _ := msg_to_string (word 2 m) in
  ret tt.

(** The descriptors of the clients, then that of the bridge, with the timeout. *)
Definition fill_pollfd (now : timespec) : B_ (list pollfd * Z) :=
  let* s := get in
  let timeout := foldl (fun t c => if reading c then min_timeout t (crm_time_get_remain_ms now (msg_read_end c)) else t)
                   (-1) (client_ctx s) in
  let clients := (fun c => mk_pollfd (c_fd c) true false) <$> client_ctx s in
  let j := java_ctx s in
  if 0 <=? j_fd j then
    let send := negb (wait_ack j) && (negb (bool_decide (msg_queue j = []))
                 || negb (bool_decide (j_wakelock_held j = wakelock_held s)) || msg_in_progress j) in
    when (send && negb (msg_in_progress j)) (start_msg now) ;;
    let* s := get in
    let j := java_ctx s in
    ret (clients ++ [mk_pollfd (j_fd j) (wait_ack j) send],
         if msg_in_progress j || wait_ack j then min_timeout timeout (crm_time_get_remain_ms now (msg_end j)) else timeout)
  else ret (clients ++ [mk_pollfd (j_fd j) false false], timeout).

(** ** Handlers *)

Definition handle_wakelock_change : B_ unit :=
  let* s := get in
  set_held (existsb (fun c => negb (c_fd c =? -1) && (0 <? wakelock_cnt c)) (client_ctx s)).

(** The head of the queue is unlinked and freed; [java_ctx.msg] designated it. *)
Definition free_head : B_ unit :=
  set_java (fun j => with_queue (tail (msg_queue j)) (match j_msg j with MsgHead => MsgFreed | m => m end) j).

(** The head of the queue has been tried once more. *)
Definition retry_head : B_ unit :=
  let* s := get in
  match msg_queue (java_ctx s) with
  | [] => fail (AssertFail "to_free")
  | x :: q =>
      let x := mk_queued (q_msg x) (q_size x) (retries x + 1) in
      set_java (fun j => with_queue (x :: q) (j_msg j) j) ;;
      when (MAX_RETRIES <=? retries x)
        (let* m := get_java_bytes in
         let* _ := msg_to_string (word 2 m) in
         emit (MsgDropped (q_msg x)) ;;
         free_head)
  end.

Definition handle_java_bridge_remove : B_ unit :=
  let* s := get in
  emit (CloseFd (j_fd (java_ctx s))) ;;
  emit JavaRemoved ;;
  set_java (with_j_fd (-1)) ;;
  let* w := is_wakelock_msg in
  when (negb w) retry_head.

(** [free]: a block is freed once. *)
Definition free_buffer (b : buffer) : B_ buffer :=
  match b with
  | BufNull => ret BufNull
  | BufFreed => fail (Undefined "msg_buffer is freed twice")
  | Buf _ => ret BufFreed
  end.

Definition handle_c_client_remove (i : nat) : B_ unit :=
  let* c := get_client i in
  emit (CloseFd (c_fd c)) ;;
  emit (ClientRemoved i) ;;
  let* b := free_buffer (msg_buffer c) in
  set_client i (mk_client (-1) (msg_state c) (msg_hdr c) b (data_read c) (data_to_read c) (wakelock_cnt c) (msg_read_end c)) ;;
  when (0 <? wakelock_cnt c) handle_wakelock_change.

Definition client_ids : list nat := seq 0 (Z.to_nat MAX_CLIENTS).

Definition handle_timeout (now : timespec) : B_ unit :=
  for_each client_ids (fun i =>
    let* c := get_client i in
    when (reading c && (crm_time_get_remain_ms now (msg_read_end c) =? 0)) (handle_c_client_remove i)) ;;
  let* s := get in
  let j := java_ctx s in
  when ((0 <=? j_fd j) && (msg_in_progress j || wait_ack j) && (crm_time_get_remain_ms now (msg_end j) =? 0))
    handle_java_bridge_remove.

(** [pfd->revents == POLLIN] *)
Definition only_in (r : revents_t) : bool := r_in r && negb (r_out r) && negb (r_err r).

(** The result of [accept] is [sock]. *)
Definition handle_c_client_conn (r : revents_t) (sock : Z) : B_ unit :=
  if only_in r then
    when (0 <=? sock)
      (let* s := get in
       match list_find (fun c => c_fd c = -1) (client_ctx s) with
       | Some (i, c) =>
           set_client i (mk_client sock MSG_STATE_NONE (msg_hdr c) (msg_buffer c) (data_read c) (data_to_read c) 0 (msg_read_end c)) ;;
           emit (ClientConnected i)
       | None => emit (CloseFd sock)
       end)
  else fail (DAssertFail "Error on C control socket").

Definition handle_java_bridge_conn (r : revents_t) (sock : Z) : B_ unit :=
  if only_in r then
    when (0 <=? sock)
      (let* s := get in
       if j_fd (java_ctx s) =? -1 then
         set_java (fun j => mk_java sock (msg_count j) (msg_end j) false (msg_queue j) (wakelock_msg j) (j_msg j)
           (data_to_send j) 0 false false (wait_ack_count j) (ack_reply j)) ;;
         emit JavaConnected
       else emit (CloseFd sock))
  else fail (DAssertFail "Error on Java control socket").

(** [read] of at most [n] bytes, of those that can be read; [None] for a
    failure or the end of the stream. *)
Definition read_fd (n : Z) (r : option (list Z)) : option (list Z) :=
  match r with
  | Some bs => match take (Z.to_nat n) bs with [] => None | l => Some l end
  | None => None
  end.

(** The acknowledgement of the message in [java_ctx.msg]. *)
Definition handle_ack : B_ unit :=
  set_java (fun j => with_ack false (ack_reply j) j) ;;
  let* w := is_wakelock_msg in
  let* s := get in
  if w then
    emit (WakelockAcked (wakelock_msg (java_ctx s))) ;;
    set_java (with_j_held (word 2 (wakelock_msg (java_ctx s)) =? TEL_BRIDGE_COMMAND_WAKELOCK_ACQUIRE))
  else
    match msg_queue (java_ctx s) with
    | [] => fail (AssertFail "to_free")
    | x :: _ => emit (MsgAcked (q_msg x)) ;; free_head
    end.

(** [r_read] and [written] are the results of [read] and [write]. *)
Definition handle_java_bridge_event (r : revents_t) (now : timespec) (r_read : option (list Z)) (written : Z) : B_ unit :=
  if r_in r || r_out r then
    if r_in r then
      let* s := get in
      let j := java_ctx s in
      match read_fd (4 - Z.of_nat (length (ack_reply j))) r_read with
      | None => handle_java_bridge_remove
      | Some bs =>
          let reply := ack_reply j ++ bs in
          set_java (with_ack (wait_ack j) reply) ;;
          when (Z.of_nat (length reply) =? 4)
            (if word 0 reply =? wait_ack_count j then handle_ack else handle_java_bridge_remove)
      end
    else
      let* m := get_java_bytes in
      let* s := get in
      let j := java_ctx s in
      let len := Z.min written (data_to_send j - data_sent j) in
      if len <=? 0 then handle_java_bridge_remove
      else
        emit (JavaWrite (take (Z.to_nat len) (drop (Z.to_nat (data_sent j)) m))) ;;
        set_java (with_sent (data_sent j + len)) ;;
        when (data_sent j + len =? data_to_send j)
          (set_java (fun j => mk_java (j_fd j) (msg_count j) (crm_time_add_ms now MAX_JAVA_ACK_DURATION) false (msg_queue j)
             (wakelock_msg j) (j_msg j) (data_to_send j) (data_sent j) (j_wakelock_held j) true (word 0 m) []))
  else when (r_err r) handle_java_bridge_remove.

Definition queue_msg (msg : list Z) (msg_size : Z) : B_ unit :=
  emit (MsgQueued msg) ;;
  set_java (fun j => with_queue (msg_queue j ++ [mk_queued msg msg_size 0]) (j_msg j) j).

Definition is_wakelock_cmd (t : Z) : bool :=
  (t =? TEL_BRIDGE_COMMAND_WAKELOCK_ACQUIRE) || (t =? TEL_BRIDGE_COMMAND_WAKELOCK_RELEASE).

(** A complete header, [c] being the client with it. *)
Definition handle_header (i : nat) (c : client_context) : B_ unit :=
  let msg_size := word 0 (msg_hdr c) in
  let msg_type := word 1 (msg_hdr c) in
  if is_wakelock_cmd msg_type then
    if negb (msg_size =? 0) then handle_c_client_remove i
    else
      let cnt := wakelock_cnt c + (if msg_type =? TEL_BRIDGE_COMMAND_WAKELOCK_ACQUIRE then 1 else -1) in
      if INT_MAX <? cnt then fail (Undefined "wakelock_cnt overflows") else
      set_client i (mk_client (c_fd c) (msg_state c) (msg_hdr c) (msg_buffer c) (data_read c) (data_to_read c) cnt (msg_read_end c)) ;;
      if cnt <? 0 then handle_c_client_remove i
      else
        let* _ := msg_to_string msg_type in
        handle_wakelock_change ;;
        set_client i (mk_client (c_fd c) MSG_STATE_NONE (msg_hdr c) (msg_buffer c) (data_read c) (data_to_read c) cnt (msg_read_end c))
  else if (TEL_BRIDGE_COMMAND_NUM <=? msg_type) || (MAX_MSG_SIZE <=? msg_size) then handle_c_client_remove i
  else
    let* s := get in
    let n := msg_count (java_ctx s) in
    set_java (with_count (u32 (n + 1))) ;;
    set_client i (mk_client (c_fd c) MSG_STATE_IN_MSG (msg_hdr c) (Buf (be_bytes n ++ msg_hdr c)) 12 (msg_size + 12)
      (wakelock_cnt c) (msg_read_end c)).

(** The switch on [msg_state]: a new message starts. *)
Definition start_read (now : timespec) (c : client_context) : client_context :=
  match msg_state c with
  | MSG_STATE_NONE => mk_client (c_fd c) MSG_STATE_IN_HDR (msg_hdr c) (msg_buffer c) 0 8 (wakelock_cnt c)
                        (crm_time_add_ms now MAX_CLIENT_MSG_DURATION)
  | _ => c
  end.

(** [bs] stored at [location + data_read]. *)
Definition store (c : client_context) (bs : list Z) : B_ client_context :=
  let n := data_read c + Z.of_nat (length bs) in
  match msg_state c, msg_buffer c with
  | MSG_STATE_IN_MSG, Buf l =>
      ret (mk_client (c_fd c) (msg_state c) (msg_hdr c) (Buf (read_at (data_read c) l bs)) n (data_to_read c) (wakelock_cnt c) (msg_read_end c))
  | MSG_STATE_IN_MSG, _ => fail (Undefined "msg_buffer")
  | _, b =>
      ret (mk_client (c_fd c) (msg_state c) (read_at (data_read c) (msg_hdr c) bs) b n (data_to_read c) (wakelock_cnt c) (msg_read_end c))
  end.

(** Everything that was to be read has been: a header or a message. *)
Definition handle_complete (i : nat) (c : client_context) : B_ unit :=
  match msg_state c, msg_buffer c with
  | MSG_STATE_IN_HDR, _ => handle_header i c
  | _, Buf l =>
      let* _ := msg_to_string (word 1 (msg_hdr c)) in
      queue_msg l (data_to_read c) ;;
      set_client i (mk_client (c_fd c) MSG_STATE_NONE (msg_hdr c) BufNull (data_read c) (data_to_read c) (wakelock_cnt c) (msg_read_end c))
  | _, _ => fail (AssertFail "msg")
  end.

Definition handle_c_client_event (i : nat) (r : revents_t) (now : timespec) (r_read : option (list Z)) : B_ unit :=
  if r_in r then
    let* c := get_client i in
    let c := start_read now c in
    set_client i c ;;
    match read_fd (data_to_read c - data_read c) r_read with
    | None => handle_c_client_remove i
    | Some bs =>
        let* c := store c bs in
        set_client i c ;;
        when (data_read c =? data_to_read c) (handle_complete i c)
    end
  else when (r_err r) (handle_c_client_remove i).

(** ** The main loop *)

(** The contexts before their initialisation: their values are arbitrary. *)
Definition init (c_sock j_sock : Z) (s : daemon_context) : daemon_context :=
  mk_daemon c_sock j_sock false
    ((fun c => mk_client (-1) (msg_state c) (msg_hdr c) BufNull (data_read c) (data_to_read c) (wakelock_cnt c) (msg_read_end c)) <$> client_ctx s)
    (let j := java_ctx s in
     mk_java (-1) 0 (msg_end j) (msg_in_progress j) [] (wakelock_msg j) MsgUninit (data_to_send j) (data_sent j)
       (j_wakelock_held j) false (wait_ack_count j) (ack_reply j)).

(** What the system gives during a turn: the clock when the descriptors are
    filled and afterwards, whether [poll] fails, the events of the two listening
    sockets, of the clients and of the bridge, the results of [accept], [read]
    and [write]. *)
Record turn : Type := mk_turn {
  t_fill : timespec;
  t_now : timespec;
  t_poll_fails : bool;
  t_c_rev : revents_t;
  t_c_accept : Z;
  t_j_rev : revents_t;
  t_j_accept : Z;
  t_clients : list (revents_t * option (list Z));
  t_java_rev : revents_t;
  t_java_read : option (list Z);
  t_java_write : Z;
}.

Definition no_events : revents_t := mk_revents false false false.

(** The events of the [i]-th client. *)
Definition client_rev (t : turn) (i : nat) : revents_t * option (list Z) :=
  default (no_events, None) (t_clients t !! i).

Definition main_turn (t : turn) : B_ unit :=
  let* s := get in
  let* p := fill_pollfd (t_fill t) in
  let pfd := p.1 in
  ASSERT "ret >= 0" (negb (t_poll_fails t)) ;;
  let c_rev := poll_one (mk_pollfd (c_sock_l s) true false) (t_c_rev t) in
  let j_rev := poll_one (mk_pollfd (j_sock_l s) true false) (t_j_rev t) in
  let rev i := poll_one (default (mk_pollfd (-1) false false) (pfd !! i))
                 (if (i =? Z.to_nat MAX_CLIENTS)%nat then t_java_rev t else (client_rev t i).1) in
  if forallb none_set (c_rev :: j_rev :: (rev <$> seq 0 (S (Z.to_nat MAX_CLIENTS)))) then handle_timeout (t_now t)
  else
    when (negb (none_set c_rev)) (handle_c_client_conn c_rev (t_c_accept t)) ;;
    when (negb (none_set j_rev)) (handle_java_bridge_conn j_rev (t_j_accept t)) ;;
    for_each client_ids (fun i =>
      when (negb (none_set (rev i))) (handle_c_client_event i (rev i) (t_now t) (client_rev t i).2)) ;;
    when (negb (none_set (rev (Z.to_nat MAX_CLIENTS))))
      (handle_java_bridge_event (rev (Z.to_nat MAX_CLIENTS)) (t_now t) (t_java_read t) (t_java_write t)).

Fixpoint main_loop (l : list turn) : B_ unit :=
  match l with
  | [] => ret tt
  | t :: l' => main_turn t ;; main_loop l'
  end.

(** [fd] is the result of [android_get_control_socket], [listen_ret] that of
    [listen]. *)
Definition socket_create (fd listen_ret : Z) : B_ Z :=
  let* fd :=
    (if (0 <=? fd) && negb (listen_ret =? 0) then emit (CloseFd fd) ;; ret (-1) else ret fd) in
  DASSERT "Could not open socket" (0 <=? fd) ;;
  ret fd.

(** The turns of the main loop that are made. *)
Definition main (c_sock c_listen j_sock j_listen : Z) (l : list turn) : B_ unit :=
  let* c := socket_create c_sock c_listen in
  let* j := socket_create j_sock j_listen in
  modify (init c j) ;;
  main_loop l.
