(* ===== verification/BridgeTheory.v ===== *)
(** * Invariant and specification of the telephony bridge daemon

    [bspec] is what the daemon promises to its clients and to the Java
    application: messages are given in the order of their reception, one at a
    time and whole; a message leaves the queue when it is acknowledged, or after
    the application has been lost three times.  [bridge_inv] is the invariant
    of the state, [rel] relates it to the specification, [good] is what every
    handler ensures. *)

From S2P Require Import Prelude Timer Wire Bridge.
From Stdlib Require Import ZArith Lia.
From stdpp Require Import base tactics list strings option.

Open Scope Z_scope.
Open Scope crm_scope.

(** ** Specification *)

(** [b_link]: the bytes of the message that has not been acknowledged yet given
    to the application, when it is connected; [b_tries]: how many times it has
    been lost since the first message of the queue is the first; [b_view]: what
    the application knows of the wakelock. *)
Record bspec : Type := mk_bspec {
  b_link : option (list Z);
  b_queue : list (list Z);
  b_tries : Z;
  b_view : bool;
}.

Definition bspec_step (a : bspec) (x : bridge_out) : option bspec :=
  match x with
  | JavaConnected =>
      match b_link a with None => Some (mk_bspec (Some []) (b_queue a) (b_tries a) false) | Some _ => None end
  | JavaRemoved =>
      match b_link a with Some _ => Some (mk_bspec None (b_queue a) (b_tries a + 1) (b_view a)) | None => None end
  | JavaWrite bs =>
      match b_link a with Some cur => Some (mk_bspec (Some (cur ++ bs)) (b_queue a) (b_tries a) (b_view a)) | None => None end
  | MsgQueued m =>
      Some (mk_bspec (b_link a) (b_queue a ++ [m]) (if decide (b_queue a = []) then 0 else b_tries a) (b_view a))
  | MsgAcked m =>
      match b_queue a with
      | m' :: q => if decide (m = m' /\ b_link a = Some m) then Some (mk_bspec (Some []) q 0 (b_view a)) else None
      | [] => None
      end
  | MsgDropped m =>
      match b_queue a with
      | m' :: q => if decide (m = m' /\ MAX_RETRIES <= b_tries a) then Some (mk_bspec (b_link a) q 0 (b_view a)) else None
      | [] => None
      end
  | WakelockAcked m =>
      if decide (b_link a = Some m) then
        Some (mk_bspec (Some []) (b_queue a) (b_tries a) (word 2 m =? TEL_BRIDGE_COMMAND_WAKELOCK_ACQUIRE))
      else None
  | CloseFd _ | ClientConnected _ | ClientRemoved _ => Some a
  end.

Fixpoint bspec_run (a : bspec) (o : list bridge_out) : option bspec :=
  match o with
  | [] => Some a
  | x :: o' => match bspec_step a x with Some a' => bspec_run a' o' | None => None end
  end.

Lemma bspec_run_app a o1 o2 :
  bspec_run a (o1 ++ o2) = match bspec_run a o1 with Some a' => bspec_run a' o2 | None => None end.
Proof. revert a. induction o1 as [|x o1 IH]; intros a; cbn; [done|]. destruct (bspec_step a x); [apply IH|done]. Qed.

(** ** Invariant *)

(** A message for the application: its number, its size, its type and its data. *)
Record queued_ok (x : msg_queue_t) : Prop := {
  qo_size : q_size x = Z.of_nat (length (q_msg x));
  qo_len : (12 <= length (q_msg x))%nat;
  qo_type : word 2 (q_msg x) = TEL_BRIDGE_COMMAND_START_SERVICE \/ word 2 (q_msg x) = TEL_BRIDGE_COMMAND_BROADCAST_INTENT;
  qo_retries : 0 <= retries x < MAX_RETRIES;
}.

Record java_ok (j : java_context) : Prop := {
  jo_fd : j_fd j = -1 \/ 0 <= j_fd j;
  jo_count : is_u32 (msg_count j);
  jo_queue : Forall queued_ok (msg_queue j);
  jo_fresh : Forall (fun x => retries x = 0) (tail (msg_queue j));
  jo_head : j_msg j = MsgHead -> msg_queue j <> [];
  jo_wakelock : j_msg j = MsgWakelock -> length (wakelock_msg j) = 12%nat /\
    (word 2 (wakelock_msg j) = TEL_BRIDGE_COMMAND_WAKELOCK_ACQUIRE \/ word 2 (wakelock_msg j) = TEL_BRIDGE_COMMAND_WAKELOCK_RELEASE);
  jo_progress : 0 <= j_fd j -> msg_in_progress j = true -> wait_ack j = false /\
    exists m, java_bytes j = Some m /\ data_to_send j = Z.of_nat (length m) /\ 0 <= data_sent j < data_to_send j;
  jo_wait : 0 <= j_fd j -> wait_ack j = true -> msg_in_progress j = false /\
    exists m, java_bytes j = Some m /\ wait_ack_count j = word 0 m /\ (length (ack_reply j) <= 4)%nat;
}.

(** The buffer of a client is its own only while it receives a message. *)
Definition no_buffer (b : buffer) : Prop := b = BufNull \/ b = BufFreed.

Record in_message (c : client_context) : Prop := {
  im_hdr : length (msg_hdr c) = 8%nat;
  im_type : word 1 (msg_hdr c) = TEL_BRIDGE_COMMAND_START_SERVICE \/ word 1 (msg_hdr c) = TEL_BRIDGE_COMMAND_BROADCAST_INTENT;
  im_size : data_to_read c = word 0 (msg_hdr c) + 12 /\ 12 <= data_to_read c < MAX_MSG_SIZE + 12;
  im_buffer : exists n body, is_u32 n /\ msg_buffer c = Buf (be_bytes n ++ msg_hdr c ++ body) /\
    data_read c = 12 + Z.of_nat (length body) /\ data_read c <= data_to_read c;
}.

Definition client_ok (c : client_context) : Prop :=
  if c_fd c =? -1 then no_buffer (msg_buffer c)
  else 0 <= c_fd c /\ 0 <= wakelock_cnt c <= INT_MAX /\
    match msg_state c with
    | MSG_STATE_NONE => no_buffer (msg_buffer c)
    | MSG_STATE_IN_HDR => no_buffer (msg_buffer c) /\ data_to_read c = 8 /\ 0 <= data_read c <= 8 /\
        (Z.to_nat (data_read c) <= length (msg_hdr c))%nat /\ bytes (take (Z.to_nat (data_read c)) (msg_hdr c))
    | MSG_STATE_IN_MSG => in_message c
    end.

Definition holds (c : client_context) : bool := negb (c_fd c =? -1) && (0 <? wakelock_cnt c).

Record bridge_inv (s : daemon_context) : Prop := {
  bi_java : java_ok (java_ctx s);
  bi_len : length (client_ctx s) = 3%nat;
  bi_clients : Forall client_ok (client_ctx s);
  bi_held : wakelock_held s = existsb holds (client_ctx s);
}.

(** ** Simulation *)

(** The bytes of the message in progress or awaiting its acknowledgement. *)
Definition given (j : java_context) : list Z :=
  if msg_in_progress j then take (Z.to_nat (data_sent j)) (default [] (java_bytes j))
  else if wait_ack j then default [] (java_bytes j) else [].

Record rel (s : daemon_context) (a : bspec) : Prop := {
  rel_link : b_link a = if 0 <=? j_fd (java_ctx s) then Some (given (java_ctx s)) else None;
  rel_queue : b_queue a = q_msg <$> msg_queue (java_ctx s);
  rel_tries : match msg_queue (java_ctx s) with x :: _ => retries x <= b_tries a | [] => True end;
  rel_view : 0 <= j_fd (java_ctx s) -> b_view a = j_wakelock_held (java_ctx s);
}.

Definition sim (s : daemon_context) (o : list bridge_out) (s' : daemon_context) : Prop :=
  forall a, rel s a -> exists a', bspec_run a o = Some a' /\ rel s' a'.

Lemma sim_refl s : sim s [] s.
Proof. intros a Ha. by exists a. Qed.

Lemma sim_trans s1 o1 s2 o2 s3 : sim s1 o1 s2 -> sim s2 o2 s3 -> sim s1 (o1 ++ o2) s3.
Proof.
  intros H1 H2 a Ha. destruct (H1 a Ha) as (a2 & Hr & Ha2). destruct (H2 a2 Ha2) as (a3 & Hr3 & Ha3).
  exists a3. by rewrite bspec_run_app, Hr.
Qed.

(** What a client does is not seen by the specification. *)
Lemma sim_same_java s o s' : java_ctx s' = java_ctx s ->
  Forall (fun x => match x with CloseFd _ | ClientConnected _ | ClientRemoved _ => True | _ => False end) o -> sim s o s'.
Proof.
  intros Hj Ho a Ha. exists a. split.
  - induction Ho as [|x o Hx _ IH]; cbn; [done|]. by destruct x.
  - destruct Ha as [H1 H2 H3 H4]. split; by rewrite ?Hj.
Qed.

Definition good (s : daemon_context) (s' : daemon_context) (o : list bridge_out) : Prop := bridge_inv s' /\ sim s o s'.

(** How the daemon may end: [poll] fails, a listening socket is in error, the
    counter of a client overflows, or one of the four defects. *)
Definition double_free : abort_reason := Undefined "msg_buffer is freed twice".
Definition msg_uninit : abort_reason := Undefined "java_ctx.msg is not initialised".
Definition queue_empty : abort_reason := AssertFail "to_free".
Definition msg_freed : abort_reason := Undefined "java_ctx.msg".

Definition bridge_abort (r : abort_reason) : Prop :=
  r ∈ [AssertFail "ret >= 0"; DAssertFail "Error on C control socket"; DAssertFail "Error on Java control socket";
       Undefined "wakelock_cnt overflows"; double_free; msg_uninit; queue_empty; msg_freed].

Lemma wp_bridge_seq {A B} (m : B_ A) (k : A -> B_ B) s :
  wp m s bridge_abort (fun a s' o => good s s' o /\ wp (k a) s' bridge_abort (fun _ s'' o' => good s' s'' o')) ->
  wp (bind m k) s bridge_abort (fun _ s' o => good s s' o).
Proof.
  intros H. apply wp_bind. eapply wp_mono; [exact H|done|]. cbn. intros a s' o [[Hi Hs] Hk].
  eapply wp_mono; [exact Hk|done|]. cbn. intros b s'' o' [Hi' Hs']. split; [done|by eapply sim_trans].
Qed.

Lemma good_refl s : bridge_inv s -> good s s [].
Proof. split; [done|apply sim_refl]. Qed.

Lemma wp_good_when b (m : B_ unit) s : bridge_inv s ->
  (b = true -> wp m s bridge_abort (fun _ s' o => good s s' o)) ->
  wp (when b m) s bridge_abort (fun _ s' o => good s s' o).
Proof. intros Hi Hm. apply wp_when; [done|]. intros _. by apply good_refl. Qed.

Lemma wp_good_for_each {A} (l : list A) (f : A -> B_ unit) s : bridge_inv s ->
  (forall x s, x ∈ l -> bridge_inv s -> wp (f x) s bridge_abort (fun _ s' o => good s s' o)) ->
  wp (for_each l f) s bridge_abort (fun _ s' o => good s s' o).
Proof.
  revert s. induction l as [|x l IH]; intros s Hi Hf; cbn; [by apply wp_ret, good_refl|].
  apply wp_bridge_seq. eapply wp_mono; [apply Hf; [left|done]|done|]. cbn. intros [] s' o Hg. split; [done|].
  apply IH; [apply Hg|]. intros y s'' Hy. apply Hf. by right.
Qed.

Ltac find_reason := first [apply list_elem_of_here | apply list_elem_of_further; find_reason].
Ltac abort_here := unfold bridge_abort; find_reason.

(** ** Words and buffers *)

Lemma word_range k l : bytes l -> 0 <= word k l < 2 ^ 32.
Proof.
  intros Hl. unfold word. assert (Hd : bytes (drop (4 * k) l)) by by apply Forall_drop.
  destruct (drop (4 * k) l) as [|b3 [|b2 [|b1 [|b0 r]]]]; try lia.
  apply Forall_cons_1 in Hd as [H3 Hd]. apply Forall_cons_1 in Hd as [H2 Hd]. apply Forall_cons_1 in Hd as [H1 Hd].
  apply Forall_cons_1 in Hd as [H0 _]. unfold be_value. lia.
Qed.

Lemma word_be k n l r : is_u32 n -> length l = (4 * k)%nat -> word k (l ++ be_bytes n ++ r) = n.
Proof.
  intros Hn Hl. unfold word. rewrite <- Hl, drop_app_length. unfold be_bytes. cbn.
  pose proof (be_value_bytes n [] Hn) as H. unfold deserialize_uint32, be_bytes in H. cbn in H. by injection H.
Qed.

Lemma word_app k l r : (4 * k + 4 <= length l)%nat -> word k (l ++ r) = word k l.
Proof.
  intros Hl. unfold word. rewrite drop_app_le by lia.
  assert (Hd : (4 <= length (drop (4 * k) l))%nat) by (rewrite length_drop; lia).
  destruct (drop (4 * k) l) as [|b3 [|b2 [|b1 [|b0 d]]]]; cbn in Hd |- *; try lia; done.
Qed.

Lemma word_shift k l r : length l = 4%nat -> word (S k) (l ++ r) = word k r.
Proof.
  intros Hl. unfold word. replace (4 * S k)%nat with (length l + 4 * k)%nat by lia.
  by rewrite drop_app_add.
Qed.

Lemma read_fd_Some n r bs : read_fd n r = Some bs ->
  (1 <= length bs)%nat /\ Z.of_nat (length bs) <= n /\ exists l, r = Some l /\ bs = take (Z.to_nat n) l.
Proof.
  unfold read_fd. destruct r as [l|]; [|done]. destruct (take (Z.to_nat n) l) as [|x t] eqn:Ht; [done|].
  intros [= <-]. split; [cbn; lia|]. split; [|by exists l].
  rewrite <- Ht, length_take. cut (take (Z.to_nat n) l <> []); [|by rewrite Ht].
  destruct (Z.le_gt_cases n 0); [|lia]. replace (Z.to_nat n) with 0%nat by lia. done.
Qed.

Lemma read_at_length off buf bs : 0 <= off -> (Z.to_nat off <= length buf)%nat ->
  Z.of_nat (length (read_at off buf bs)) = off + Z.of_nat (length bs).
Proof. intros H0 Hl. unfold read_at. rewrite length_app, length_take. lia. Qed.

Lemma type_known t : t = TEL_BRIDGE_COMMAND_WAKELOCK_ACQUIRE \/ t = TEL_BRIDGE_COMMAND_WAKELOCK_RELEASE \/
  t = TEL_BRIDGE_COMMAND_START_SERVICE \/ t = TEL_BRIDGE_COMMAND_BROADCAST_INTENT ->
  exists n, forall s, msg_to_string t s = Ok n s [].
Proof.
  intros [->|[->|[->| ->]]]; eexists; intros s; reflexivity.
Qed.

Lemma wp_msg_to_string t s E (Q : string -> daemon_context -> list bridge_out -> Prop) :
  t = TEL_BRIDGE_COMMAND_WAKELOCK_ACQUIRE \/ t = TEL_BRIDGE_COMMAND_WAKELOCK_RELEASE \/
  t = TEL_BRIDGE_COMMAND_START_SERVICE \/ t = TEL_BRIDGE_COMMAND_BROADCAST_INTENT ->
  (forall n, Q n s []) -> wp (msg_to_string t) s E Q.
Proof. intros Ht HQ. destruct (type_known t Ht) as [n Hn]. unfold wp. rewrite Hn. apply HQ. Qed.

(** The message [java_ctx.msg] designates has a known type. *)
Lemma java_bytes_type j m : java_ok j -> java_bytes j = Some m ->
  word 2 m = TEL_BRIDGE_COMMAND_WAKELOCK_ACQUIRE \/ word 2 m = TEL_BRIDGE_COMMAND_WAKELOCK_RELEASE \/
  word 2 m = TEL_BRIDGE_COMMAND_START_SERVICE \/ word 2 m = TEL_BRIDGE_COMMAND_BROADCAST_INTENT.
Proof.
  intros Hj. unfold java_bytes. destruct (j_msg j) eqn:Hm; try done.
  - intros [= <-]. destruct (jo_wakelock j Hj Hm) as [_ [H|H]]; auto.
  - pose proof (jo_queue j Hj) as Hq. destruct (msg_queue j) as [|x q]; [done|]. intros [= <-].
    apply Forall_cons_1 in Hq as [Hx _]. destruct (qo_type x Hx); auto.
Qed.

Lemma wp_java_bytes s m E (Q : list Z -> daemon_context -> list bridge_out -> Prop) :
  java_bytes (java_ctx s) = Some m -> Q m s [] -> wp get_java_bytes s E Q.
Proof. intros Hm HQ. unfold get_java_bytes. wp_step. wp_step. rewrite Hm. by apply wp_ret. Qed.

(** ** Clients *)

Definition others_ok (i : nat) (l : list client_context) : Prop := forall k c, k <> i -> l !! k = Some c -> client_ok c.

Lemma others_insert i c l : others_ok i l -> client_ok c -> Forall client_ok (<[i := c]> l).
Proof.
  intros Ho Hc. apply Forall_lookup. intros k x. destruct (decide (k = i)) as [->|Hk].
  - intros Hx. destruct (decide (i < length l)%nat) as [Hi|Hi].
    + rewrite list_lookup_insert_eq in Hx by done. by injection Hx as <-.
    + rewrite list_insert_ge in Hx by lia. apply lookup_lt_Some in Hx. lia.
  - rewrite list_lookup_insert_ne by done. by apply Ho.
Qed.

Lemma others_all i l : Forall client_ok l -> others_ok i l.
Proof. intros Hl k c _ Hk. by eapply Forall_lookup_1. Qed.

Lemma others_over i c l : others_ok i l -> others_ok i (<[i := c]> l).
Proof. intros Ho k x Hk. rewrite list_lookup_insert_ne by done. by apply Ho. Qed.

(** A client that holds as much as before does not change the wakelock. *)
Lemma held_insert i c c' l : l !! i = Some c -> holds c' = holds c -> existsb holds (<[i := c']> l) = existsb holds l.
Proof.
  intros Hi Hc. revert i Hi. induction l as [|x l IH]; intros [|i] Hi; cbn in *; try done.
  - injection Hi as ->. by rewrite Hc.
  - f_equal. by apply IH.
Qed.

Lemma held_swap i c1 c2 l : holds c1 = holds c2 -> existsb holds (<[i := c1]> l) = existsb holds (<[i := c2]> l).
Proof. intros Hc. revert i. induction l as [|x l IH]; intros [|i]; cbn; [done..|by rewrite Hc|]. f_equal. apply IH. Qed.

Lemma wp_bridge_client i s c E (Q : client_context -> daemon_context -> list bridge_out -> Prop) :
  client_ctx s !! i = Some c -> Q c s [] -> wp (get_client i) s E Q.
Proof. intros Hi HQ. unfold get_client. wp_step. wp_step. rewrite Hi. by apply wp_ret. Qed.

Lemma removed_ok c b : no_buffer b ->
  client_ok (mk_client (-1) (msg_state c) (msg_hdr c) b (data_read c) (data_to_read c) (wakelock_cnt c) (msg_read_end c)).
Proof. done. Qed.

Lemma removed_holds c b : (0 <? wakelock_cnt c) = false ->
  holds (mk_client (-1) (msg_state c) (msg_hdr c) b (data_read c) (data_to_read c) (wakelock_cnt c) (msg_read_end c)) = holds c.
Proof. unfold holds. cbn. intros ->. by rewrite andb_false_r. Qed.

Lemma wp_remove_client i s c :
  java_ok (java_ctx s) -> length (client_ctx s) = 3%nat -> others_ok i (client_ctx s) ->
  wakelock_held s = existsb holds (client_ctx s) -> client_ctx s !! i = Some c ->
  wp (handle_c_client_remove i) s bridge_abort (fun _ s' o => good s s' o).
Proof.
  intros Hj Hl Ho Hh Hi. unfold handle_c_client_remove.
  apply wp_bind, (wp_bridge_client _ _ c); [done|]. wp_step. wp_step. cbn. wp_step. wp_step. wp_step.
  unfold free_buffer. destruct (msg_buffer c) eqn:Hb; [wp_step|wp_step; abort_here|wp_step].
  all: wp_step; unfold set_client; wp_step; wp_step.
  all: unfold handle_wakelock_change; repeat wp_step; cbn.
  all: split; [split; cbn; [done|by rewrite length_insert| |]|by apply sim_same_java; [done|repeat constructor]].
  all: try (apply others_insert; [done|]; apply removed_ok; unfold no_buffer; auto).
  all: try reflexivity.
  all: rewrite Hh; symmetry; eapply held_insert, removed_holds; eassumption.
Qed.

Definition put_client (i : nat) (c : client_context) (s : daemon_context) : daemon_context :=
  mk_daemon (c_sock_l s) (j_sock_l s) (wakelock_held s) (<[i := c]> (client_ctx s)) (java_ctx s).

Lemma put_ok i c c' s : bridge_inv s -> client_ctx s !! i = Some c -> client_ok c' -> holds c' = holds c ->
  good s (put_client i c' s) [].
Proof.
  intros [Hj Hl Hc Hh] Hi Hok Hho. split; [split; cbn|by apply sim_same_java].
  - done.
  - by rewrite length_insert.
  - apply others_insert; [by apply others_all|done].
  - rewrite Hh. symmetry. by apply (held_insert _ c).
Qed.

Lemma put_lookup i c c' s : client_ctx s !! i = Some c -> client_ctx (put_client i c' s) !! i = Some c'.
Proof. intros Hi. cbn. apply list_lookup_insert_eq. by eapply lookup_lt_Some. Qed.

Lemma wp_set_client {A} i c s (k : unit -> B_ A) Q :
  wp (k tt) (put_client i c s) bridge_abort Q -> wp (bind (set_client i c) k) s bridge_abort Q.
Proof. intros H. apply wp_bind. unfold set_client. by wp_step. Qed.

Lemma wp_good_mono {A} (m : B_ A) s s0 o0 : good s0 s o0 ->
  wp m s bridge_abort (fun _ s' o => good s s' o) -> wp m s bridge_abort (fun _ s' o => good s0 s' (o0 ++ o)).
Proof.
  intros [_ H0] H. eapply wp_mono; [exact H|done|]. intros a s' o [Hi Hs]. split; [done|by eapply sim_trans].
Qed.

Definition header_read (c : client_context) : Prop :=
  0 <= c_fd c /\ 0 <= wakelock_cnt c <= INT_MAX /\ msg_state c = MSG_STATE_IN_HDR /\ no_buffer (msg_buffer c) /\
  length (msg_hdr c) = 8%nat /\ bytes (msg_hdr c).

Lemma fd_up z : 0 <= z -> (z =? -1) = false.
Proof. intros H. apply Z.eqb_neq. lia. Qed.

(** The counter of a client is changed, and what the daemon holds with it. *)
Lemma recomputed_good i c c' b s : bridge_inv s -> client_ctx s !! i = Some c ->
  b = existsb holds (<[i := c']> (client_ctx s)) -> client_ok c' ->
  good s (mk_daemon (c_sock_l s) (j_sock_l s) b (<[i := c']> (client_ctx s)) (java_ctx s)) [].
Proof.
  intros [Hj Hl Hc Hh] Hi Hb Hok. split; [split; cbn|by apply sim_same_java]; try done.
  - by rewrite length_insert.
  - apply others_insert; [by apply others_all|done].
Qed.

Lemma wp_header i c s : bridge_inv s -> client_ctx s !! i = Some c -> header_read c ->
  wp (handle_header i c) s bridge_abort (fun _ s' o => good s s' o).
Proof.
  intros Hi Hc (Hfd & Hcnt & Hst & Hnb & Hlen & Hby). pose proof Hi as [Hj Hl Hcl Hh]. unfold handle_header.
  destruct (is_wakelock_cmd (word 1 (msg_hdr c))) eqn:Hw.
  - destruct (negb (word 0 (msg_hdr c) =? 0)); [by eapply wp_remove_client; eauto using others_all|].
    set (d := if word 1 (msg_hdr c) =? TEL_BRIDGE_COMMAND_WAKELOCK_ACQUIRE then 1 else -1).
    assert (Hd : d = 1 \/ d = -1) by (subst d; destruct (_ =? _); auto). clearbody d.
    destruct (Z.ltb_spec INT_MAX (wakelock_cnt c + d)); [apply wp_fail; abort_here|].
    apply wp_set_client. destruct (Z.ltb_spec (wakelock_cnt c + d) 0).
    + eapply wp_mono; [eapply wp_remove_client; [done|cbn; by rewrite length_insert|cbn; by apply others_over, others_all| |by eapply put_lookup]|done|].
      * cbn. rewrite Hh. symmetry. apply (held_insert _ c); [done|]. unfold holds. cbn. f_equal.
        transitivity false; [apply Z.ltb_ge; lia|symmetry; apply Z.ltb_ge; lia].
      * cbn. intros _ s' o [Hi' Hs']. split; [done|]. intros a Ha. apply Hs'. destruct Ha. by split.
    + apply wp_bind, wp_msg_to_string.
      { unfold is_wakelock_cmd in Hw. apply orb_true_iff in Hw as [Hw|Hw]; apply Z.eqb_eq in Hw; auto. }
      intros _. unfold handle_wakelock_change, set_client, set_held. repeat wp_step. cbn.
      rewrite list_insert_insert_eq.
      change (fun c : client_context => negb (c_fd c =? -1) && (0 <? wakelock_cnt c)) with holds.
      eapply recomputed_good; [done|done|by apply held_swap|]. unfold client_ok. cbn. rewrite fd_up by done.
      split; [done|]. split; [lia|done].
  - destruct ((TEL_BRIDGE_COMMAND_NUM <=? word 1 (msg_hdr c)) || (MAX_MSG_SIZE <=? word 0 (msg_hdr c))) eqn:Hv;
      [by eapply wp_remove_client; eauto using others_all|].
    bool_facts. pose proof (word_range 0 _ Hby). pose proof (word_range 1 _ Hby).
    unfold is_wakelock_cmd, TEL_BRIDGE_COMMAND_WAKELOCK_ACQUIRE, TEL_BRIDGE_COMMAND_WAKELOCK_RELEASE, TEL_BRIDGE_COMMAND_NUM in *. bool_facts.
    unfold set_java, set_client. repeat wp_step. cbn.
    split; [split; cbn|].
    + destruct Hj. split; cbn; try done. apply u32_range.
    + by rewrite length_insert.
    + apply others_insert; [by apply others_all|]. unfold client_ok. cbn. rewrite fd_up by done.
      split; [done|]. split; [done|]. split; cbn.
      * done.
      * unfold TEL_BRIDGE_COMMAND_START_SERVICE, TEL_BRIDGE_COMMAND_BROADCAST_INTENT. lia.
      * lia.
      * exists (msg_count (java_ctx s)), []. rewrite app_nil_r. split; [apply Hj|]. cbn. split; [done|lia].
    + rewrite Hh. symmetry. by apply (held_insert _ c).
    + intros a [Hr1 Hr2 Hr3 Hr4]. exists a. split; [done|]. by split.
Qed.

Definition read_ok (r : option (list Z)) : Prop := match r with Some l => bytes l | None => True end.

Lemma start_read_ok now c : client_ok c -> 0 <= c_fd c ->
  client_ok (start_read now c) /\ holds (start_read now c) = holds c /\ msg_state (start_read now c) <> MSG_STATE_NONE /\
  c_fd (start_read now c) = c_fd c.
Proof.
  unfold client_ok, start_read. intros Hc Hfd. rewrite fd_up in Hc by done.
  destruct (msg_state c) eqn:Hs; cbn; rewrite ?Hs, ?fd_up by done; try done.
  destruct Hc as (H1 & H2 & H3). split; [|done]. split; [done|]. split; [done|]. split; [done|]. split; [done|].
  split; [lia|]. split; [cbn; lia|constructor].
Qed.

(** A message at the end of the queue changes neither the one that is sent nor
    what has been given of it. *)
Lemma java_bytes_append j q m :
  java_bytes j = Some m -> java_bytes (with_queue (msg_queue j ++ q) (j_msg j) j) = Some m.
Proof. unfold java_bytes. cbn. by destruct (j_msg j), (msg_queue j). Qed.

Lemma java_ok_append j x : java_ok j -> queued_ok x -> retries x = 0 ->
  java_ok (with_queue (msg_queue j ++ [x]) (j_msg j) j).
Proof.
  intros [] Hx Hr. split; cbn -[java_bytes]; try done.
  - apply Forall_app. split; [done|]. by constructor.
  - destruct (msg_queue j) as [|y q]; cbn in *; [done|]. apply Forall_app. split; [done|]. by constructor.
  - by destruct (msg_queue j).
  - intros H1 H2. destruct (jo_progress0 H1 H2) as (H3 & m & Hm & H4). eauto using java_bytes_append.
  - intros H1 H2. destruct (jo_wait0 H1 H2) as (H3 & m & Hm & H4). eauto using java_bytes_append.
Qed.

Lemma given_append j q : java_ok j -> 0 <= j_fd j -> given (with_queue (msg_queue j ++ q) (j_msg j) j) = given j.
Proof.
  intros Hj Hup. unfold given. cbn -[java_bytes]. destruct (msg_in_progress j) eqn:Hp.
  - destruct (jo_progress _ Hj Hup Hp) as (_ & m & Hm & _). by rewrite Hm, (java_bytes_append j q m Hm).
  - destruct (wait_ack j) eqn:Hw; [|done].
    destruct (jo_wait _ Hj Hup Hw) as (_ & m & Hm & _). by rewrite Hm, (java_bytes_append j q m Hm).
Qed.

Lemma message_queued_ok c n body : in_message c -> is_u32 n -> data_read c = 12 + Z.of_nat (length body) ->
  data_read c = data_to_read c -> queued_ok (mk_queued (be_bytes n ++ msg_hdr c ++ body) (data_to_read c) 0).
Proof.
  intros [Hlen Hty Hsz _] Hn Hrd Hd. split; cbn -[be_bytes]; rewrite ?length_app, ?be_bytes_length; [lia|lia| |].
  - rewrite word_shift by apply be_bytes_length. by rewrite word_app by lia.
  - unfold MAX_RETRIES. lia.
Qed.

(** The message is whole: it is queued. *)
Lemma wp_queue i c s l :
  bridge_inv s -> client_ctx s !! i = Some c -> 0 <= c_fd c -> msg_state c = MSG_STATE_IN_MSG -> msg_buffer c = Buf l ->
  data_read c = data_to_read c -> wp
    (let* _ := msg_to_string (word 1 (msg_hdr c)) in
     queue_msg l (data_to_read c) ;;
     set_client i (mk_client (c_fd c) MSG_STATE_NONE (msg_hdr c) BufNull (data_read c) (data_to_read c) (wakelock_cnt c) (msg_read_end c)))
    s bridge_abort (fun _ s' o => good s s' o).
Proof.
  intros Hi Hc Hfd Hst Hb Hd. pose proof Hi as [Hj Hl Hcl Hh].
  assert (Hok : client_ok c) by by eapply Forall_lookup_1. unfold client_ok in Hok. rewrite fd_up, Hst in Hok by done.
  destruct Hok as (_ & Hcnt & Him). pose proof Him as [Hlen Hty Hsz (n & body & Hn & Hbuf & Hrd & _)].
  rewrite Hb in Hbuf. injection Hbuf as ->.
  apply wp_bind, wp_msg_to_string; [by destruct Hty; auto|]. intros _.
  unfold queue_msg, set_java, set_client. repeat wp_step. cbn.
  split; [split; cbn -[be_bytes with_queue]|].
  - apply java_ok_append; [done| |done]. by apply message_queued_ok.
  - by rewrite length_insert.
  - apply others_insert; [by apply others_all|]. unfold client_ok. cbn. rewrite fd_up by done. split; [done|]. split; [done|by left].
  - rewrite Hh. symmetry. by apply (held_insert _ c).
  - intros a [Hr1 Hr2 Hr3 Hr4]. eexists. split; [reflexivity|]. split; cbn -[be_bytes given].
    + rewrite Hr1. destruct (0 <=? j_fd (java_ctx s)) eqn:Hup; [|done]. apply Z.leb_le in Hup. f_equal.
      symmetry. by apply given_append.
    + by rewrite Hr2, fmap_app.
    + destruct (msg_queue (java_ctx s)) as [|x q] eqn:Hq'; cbn -[be_bytes]; rewrite Hr2; cbn; [by case_decide|done].
    + done.
Qed.

(** What is read is stored: the header or the message grows. *)
Lemma store_ok c bs : client_ok c -> 0 <= c_fd c -> msg_state c <> MSG_STATE_NONE -> bytes bs ->
  Z.of_nat (length bs) <= data_to_read c - data_read c ->
  exists c', (forall s, store c bs s = Ok c' s []) /\ client_ok c' /\ holds c' = holds c /\ c_fd c' = c_fd c /\
    msg_state c' = msg_state c /\ data_to_read c' = data_to_read c /\
    (msg_state c = MSG_STATE_IN_HDR -> data_read c' = 8 -> header_read c').
Proof.
  intros Hok Hfd Hst Hbs Hle. unfold client_ok in Hok. rewrite fd_up in Hok by done. unfold store.
  destruct (msg_state c) eqn:Hs; [done| |].
  - destruct Hok as (_ & Hcnt & Hnb & Hto & Hrd & Hlen & Hby).
    assert (Hrb : bytes (read_at (data_read c) (msg_hdr c) bs)) by (apply Forall_app; done).
    pose proof (read_at_length (data_read c) (msg_hdr c) bs ltac:(lia) Hlen) as Hrl.
    eexists. split; [intros s; reflexivity|]. unfold client_ok, header_read. cbn. rewrite fd_up by done.
    split_and!; try done; try lia.
    + by apply Forall_take.
    + intros _ H8. split_and!; try done; lia.
  - destruct Hok as (_ & Hcnt & [Hlen Hty Hsz (n & body & Hn & Hbuf & Hrd & Hmax)]). rewrite Hbuf.
    eexists. split; [done|]. unfold client_ok. cbn -[be_bytes read_at]. rewrite fd_up by done.
    split; [|done]. split; [done|]. split; [done|]. split; cbn -[be_bytes read_at]; [done|done|done|].
    exists n, (body ++ bs). split; [done|]. rewrite length_app. split; [|lia]. unfold read_at.
    rewrite take_ge by (rewrite !length_app, be_bytes_length; lia). by rewrite <- !app_assoc.
Qed.

Lemma wp_client_event i s r now rd : bridge_inv s -> read_ok rd ->
  (exists c, client_ctx s !! i = Some c /\ 0 <= c_fd c) ->
  wp (handle_c_client_event i r now rd) s bridge_abort (fun _ s' o => good s s' o).
Proof.
  intros Hi Hrd (c & Hc & Hfd). unfold handle_c_client_event.
  assert (Hrm : forall s c, bridge_inv s -> client_ctx s !! i = Some c -> wp (handle_c_client_remove i) s bridge_abort (fun _ s' o => good s s' o)).
  { intros s0 c0 [] H0. eapply wp_remove_client; eauto using others_all. }
  destruct (r_in r); [|apply wp_good_when; [done|]; intros _; by eapply Hrm].
  assert (Hok : client_ok c) by (eapply Forall_lookup_1; [apply Hi|done]).
  destruct (start_read_ok now c Hok Hfd) as (Hok1 & Hh1 & Hst1 & Hfd1).
  apply wp_bind, (wp_bridge_client _ _ c); [done|]. cbn zeta. set (c1 := start_read now c) in *.
  pose proof (put_ok i c c1 s Hi Hc Hok1 Hh1) as Hg1. pose proof (put_lookup i c c1 s Hc) as Hl1.
  apply wp_set_client. apply (wp_good_mono _ _ _ _ Hg1). set (s1 := put_client i c1 s) in *.
  destruct Hg1 as [Hi1 _]. destruct (read_fd _ rd) as [bs|] eqn:Hread; [|by eapply Hrm].
  apply read_fd_Some in Hread as (Hn1 & Hn2 & l & -> & ->).
  destruct (store_ok c1 (take (Z.to_nat (data_to_read c1 - data_read c1)) l) Hok1) as (c2 & Hst & Hok2 & Hh2 & Hfd2 & Hs2 & Hto2 & Hhdr);
    [lia|done|by apply Forall_take|done|].
  apply wp_bind. unfold wp at 1. rewrite Hst. cbn beta iota.
  pose proof (put_ok i c1 c2 s1 Hi1 Hl1 Hok2 Hh2) as Hg2. pose proof (put_lookup i c1 c2 s1 Hl1) as Hl2.
  apply wp_set_client, (wp_good_mono _ _ _ _ Hg2). destruct Hg2 as [Hi2 _]. set (s2 := put_client i c2 s1) in *.
  apply wp_good_when; [done|]. intros Hfull. apply Z.eqb_eq in Hfull.
  assert (Hok2' := Hok2). unfold client_ok in Hok2'. rewrite fd_up in Hok2' by lia. rewrite Hs2 in *.
  unfold handle_complete. rewrite Hs2. destruct (msg_state c1) eqn:Hms; [done| |].
  - apply wp_header; [done|done|]. apply Hhdr; [done|]. lia.
  - destruct Hok2' as (_ & _ & Him). destruct (im_buffer _ Him) as (n & body & _ & Hbuf & _). rewrite Hbuf.
    eapply wp_queue; eauto; lia.
Qed.

Lemma wp_client_conn s r sock : bridge_inv s ->
  wp (handle_c_client_conn r sock) s bridge_abort (fun _ s' o => good s s' o).
Proof.
  intros Hi. unfold handle_c_client_conn. destruct (only_in r); [|apply wp_fail; abort_here].
  apply wp_good_when; [done|]. intros Hs. apply Z.leb_le in Hs. wp_step. wp_step.
  destruct (list_find _ _) as [[i c]|] eqn:Hf; [|wp_step; split; [done|by apply sim_same_java; [|repeat constructor]]].
  apply list_find_Some in Hf as (Hc & Hfd & _). pose proof Hi as [_ _ Hcl _].
  assert (Hok : client_ok c) by by eapply Forall_lookup_1. unfold client_ok in Hok. rewrite Hfd in Hok. cbn in Hok.
  apply wp_set_client. wp_step. cbn.
  split; [eapply proj1, (put_ok i c); [done|done| |]|].
  - unfold client_ok. cbn. rewrite fd_up by done. split; [done|]. split; [unfold INT_MAX; lia|done].
  - unfold holds. cbn. by rewrite Hfd, andb_false_r.
  - by apply sim_same_java; [|repeat constructor].
Qed.

(** ** The Java application *)

(** A context that differs in nothing the invariant needs of a lost link. *)
Lemma java_ok_down j : java_ok j -> java_ok (with_j_fd (-1) j).
Proof. intros []. split; cbn; auto; lia. Qed.

Lemma java_ok_retry j x q : java_ok j -> j_fd j = -1 -> msg_queue j = x :: q -> retries x + 1 < MAX_RETRIES ->
  java_ok (with_queue (mk_queued (q_msg x) (q_size x) (retries x + 1) :: q) (j_msg j) j).
Proof.
  intros [] Hd Hq Hr. rewrite Hq in *. apply Forall_cons_1 in jo_queue0 as [[] ?].
  split; cbn; try done; try lia. constructor; [|done]. split; cbn; try done. lia.
Qed.

Lemma java_ok_pop j x q m : java_ok j -> msg_queue j = x :: q -> m = MsgFreed \/ m <> MsgHead /\ m = j_msg j ->
  (0 <= j_fd j -> msg_in_progress j = false /\ wait_ack j = false) -> java_ok (with_queue q m j).
Proof.
  intros [] Hq Hm Hidle. rewrite Hq in *. apply Forall_cons_1 in jo_queue0 as [_ ?]. cbn in jo_fresh0.
  split; cbn; try done.
  - by destruct q; [|apply Forall_cons_1 in jo_fresh0 as []].
  - intros ->. by destruct Hm as [|[? _]].
  - intros ->. destruct Hm as [|[_ Hm]]; [done|]. by apply jo_wakelock0.
  - intros H1 H2. destruct (Hidle H1). congruence.
  - intros H1 H2. destruct (Hidle H1). congruence.
Qed.

Lemma fresh_head j x q : java_ok j -> msg_queue j = x :: q -> match q with y :: _ => retries y <= 0 | [] => True end.
Proof.
  intros [] Hq. rewrite Hq in *. destruct q as [|y q]; [done|]. cbn in *. apply Forall_cons_1 in jo_fresh0 as [-> _]. lia.
Qed.

Definition put_java (j : java_context) (s : daemon_context) : daemon_context :=
  mk_daemon (c_sock_l s) (j_sock_l s) (wakelock_held s) (client_ctx s) j.

Lemma put_java_inv j s : bridge_inv s -> java_ok j -> bridge_inv (put_java j s).
Proof. intros [] Hj. by split. Qed.

Lemma wp_retry s : bridge_inv s -> j_fd (java_ctx s) = -1 ->
  wp retry_head s bridge_abort (fun _ s' o => bridge_inv s' /\ forall a, rel s a ->
    match msg_queue (java_ctx s) with x :: _ => retries x + 1 <= b_tries a | [] => True end ->
    exists a', bspec_run a o = Some a' /\ rel s' a').
Proof.
  intros Hi Hd. pose proof (bi_java s Hi) as Hj. unfold retry_head. wp_step. wp_step.
  destruct (msg_queue (java_ctx s)) as [|x q] eqn:Hq; [wp_step; abort_here|]. unfold set_java. wp_step. wp_step. cbn.
  pose proof (jo_queue _ Hj) as Hqo. rewrite Hq in Hqo. apply Forall_cons_1 in Hqo as [Hx _].
  wp_step; bool_facts.
  - unfold get_java_bytes. wp_step. wp_step. wp_step. unfold java_bytes at 1. cbn -[java_bytes].
    destruct (j_msg (java_ctx s)) eqn:Hm; [wp_step; abort_here| | |wp_step; abort_here].
    all: wp_step; wp_step; apply wp_msg_to_string.
    all: try (destruct (jo_wakelock _ Hj Hm) as [_ [H'|H']]; by auto). all: try (destruct (qo_type x Hx); by auto).
    all: intros _; unfold free_head, set_java; repeat wp_step; cbn.
    all: (split; [apply (put_java_inv (with_queue q _ (java_ctx s)) s Hi), (java_ok_pop _ x); auto; rewrite Hd; lia|]).
    all: intros a [Hr1 Hr2 Hr3 Hr4] Ht; rewrite Hq in Hr2; cbn in Hr2; eexists; rewrite Hr2, decide_True by (split; [done|lia]).
    all: (split; [reflexivity|]); split; cbn; rewrite ?Hd in *; [done|done|by eapply fresh_head|lia].
  - split; [apply (put_java_inv (with_queue _ _ (java_ctx s)) s Hi), java_ok_retry; done|].
    intros a [Hr1 Hr2 Hr3 Hr4] Ht. rewrite Hq in Hr2. exists a. split; [done|]. split; cbn; rewrite ?Hd in *; done || lia.
Qed.

Lemma wp_java_remove s : bridge_inv s -> 0 <= j_fd (java_ctx s) ->
  wp handle_java_bridge_remove s bridge_abort (fun _ s' o => good s s' o).
Proof.
  intros Hi Hup. pose proof (bi_java s Hi) as Hj. pose proof (java_ok_down _ Hj) as Hjd.
  pose proof (put_java_inv _ s Hi Hjd) as Hid.
  assert (Hrel : forall a, rel s a -> exists a', bspec_run a [CloseFd (j_fd (java_ctx s)); JavaRemoved] = Some a' /\
    rel (put_java (with_j_fd (-1) (java_ctx s)) s) a' /\ b_tries a' = b_tries a + 1).
  { intros a [Hr1 Hr2 Hr3 Hr4]. eexists. cbn. rewrite Hr1, (proj2 (Z.leb_le _ _) Hup). split; [reflexivity|].
    split; [|done]. split; cbn; [done|done| |lia]. destruct (msg_queue (java_ctx s)); [done|lia]. }
  unfold handle_java_bridge_remove, is_wakelock_msg, set_java. do 8 wp_step. apply wp_bind. wp_step. wp_step. cbn.
  destruct (j_msg (java_ctx s)) eqn:Hm; [apply wp_fail; abort_here| | |].
  { wp_step. wp_step; [done|]. split; [done|]. intros a Ha. destruct (Hrel a Ha) as (a' & ? & ? & _). eauto. }
  all: wp_step; (wp_step; [|done]); (eapply wp_mono; [apply (wp_retry _ Hid); done|done|]); cbn; intros _ s' o [Hi' Hs'].
  all: (split; [done|]); intros a Ha; destruct (Hrel a Ha) as (a' & Hr & Ha' & Ht).
  all: destruct (Hs' a' Ha') as (a'' & Hr' & Ha''); [pose proof (rel_tries _ _ Ha) as Hrt; destruct (msg_queue (java_ctx s)); [done|lia]|].
  all: exists a''; change (CloseFd (j_fd (java_ctx s)) :: JavaRemoved :: o) with ([CloseFd (j_fd (java_ctx s)); JavaRemoved] ++ o);
    by rewrite bspec_run_app, Hr.
Qed.

Lemma wp_java_conn s r sock : bridge_inv s ->
  wp (handle_java_bridge_conn r sock) s bridge_abort (fun _ s' o => good s s' o).
Proof.
  intros Hi. unfold handle_java_bridge_conn. destruct (only_in r); [|apply wp_fail; abort_here].
  apply wp_good_when; [done|]. intros Hs. apply Z.leb_le in Hs. wp_step. wp_step.
  destruct (Z.eqb_spec (j_fd (java_ctx s)) (-1)) as [Hd|Hd]; [|wp_step; split; [done|by apply sim_same_java; [|repeat constructor]]].
  unfold set_java. repeat wp_step. cbn. split.
  - apply (put_java_inv _ s Hi). destruct (bi_java s Hi). split; cbn; auto; done.
  - intros a [Hr1 Hr2 Hr3 Hr4]. rewrite Hd in *. cbn in Hr1. eexists. cbn. rewrite Hr1. split; [reflexivity|].
    split; cbn; [|done|done|done]. by rewrite (proj2 (Z.leb_le 0 sock) Hs).
Qed.

(** [ack_reply] is not seen. *)
Lemma ack_progress_good s l : bridge_inv s -> (length l <= 4)%nat ->
  good s (put_java (with_ack (wait_ack (java_ctx s)) l (java_ctx s)) s) [].
Proof.
  intros Hi Hl. split.
  - apply put_java_inv; [done|]. destruct (bi_java s Hi). split; cbn; auto.
    intros H1 H2. destruct (jo_wait0 H1 H2) as (? & m & ? & ? & _). eauto 10.
  - intros a [Hr1 Hr2 Hr3 Hr4]. exists a. split; [done|]. by split.
Qed.

Lemma wp_ack s : bridge_inv s -> 0 <= j_fd (java_ctx s) -> wait_ack (java_ctx s) = true ->
  wp handle_ack s bridge_abort (fun _ s' o => good s s' o).
Proof.
  intros Hi Hup Hw. pose proof (bi_java s Hi) as Hj. pose proof (proj2 (Z.leb_le _ _) Hup) as Hup'.
  destruct (jo_wait _ Hj Hup Hw) as (Hp & m & Hm & _ & _).
  assert (Hj0 : java_ok (with_ack false (ack_reply (java_ctx s)) (java_ctx s))).
  { destruct Hj. split; cbn; auto; congruence. }
  assert (Hg : forall a, rel s a -> b_link a = Some m).
  { intros a Ha. rewrite (rel_link _ _ Ha), Hup'. unfold given. by rewrite Hp, Hw, Hm. }
  unfold handle_ack, set_java, is_wakelock_msg. do 4 wp_step. wp_step. cbn -[java_bytes]. unfold java_bytes in Hm.
  destruct (j_msg (java_ctx s)) eqn:Hjm; [done| | |done]; wp_step; wp_step; wp_step; cbn.
  - injection Hm as <-. repeat wp_step. cbn. split.
    + apply (put_java_inv (with_j_held _ (with_ack false (ack_reply (java_ctx s)) (java_ctx s))) s Hi).
      destruct Hj0. split; cbn in *; auto.
    + intros a Ha. pose proof (Hg a Ha) as Hl. destruct Ha as [Hr1 Hr2 Hr3 Hr4]. eexists. cbn. rewrite decide_True by done.
      split; [reflexivity|]. split; cbn; [|done|done|done]. rewrite Hup'. unfold given. cbn. by rewrite Hp.
  - destruct (msg_queue (java_ctx s)) as [|x q] eqn:Hq; [done|]. injection Hm as <-. unfold free_head, set_java. repeat wp_step. cbn.
    rewrite Hq, Hjm. cbn. split.
    + apply (put_java_inv (with_queue q MsgFreed (with_ack false (ack_reply (java_ctx s)) (java_ctx s))) s Hi).
      eapply java_ok_pop; [done|done|by left|done].
    + intros a Ha. pose proof (Hg a Ha) as Hl. destruct Ha as [Hr1 Hr2 Hr3 Hr4]. rewrite Hq in Hr2. cbn in Hr2.
      eexists. cbn. rewrite Hr2, decide_True by done. split; [reflexivity|]. split; cbn; [|done| |done].
      * rewrite Hup'. unfold given. cbn. by rewrite Hp.
      * by eapply fresh_head.
Qed.

Lemma wp_java_write s now n : bridge_inv s -> 0 <= j_fd (java_ctx s) -> msg_in_progress (java_ctx s) = true ->
  wp (handle_java_bridge_event (mk_revents false true false) now None n) s bridge_abort (fun _ s' o => good s s' o).
Proof.
  intros Hi Hup Hp. pose proof (bi_java s Hi) as Hj.
  destruct (jo_progress _ Hj Hup Hp) as (Hw & m & Hm & Hts & Hsent).
  unfold handle_java_bridge_event. cbn [r_in r_out orb]. unfold get_java_bytes. do 2 wp_step. wp_step. rewrite Hm. do 3 wp_step.
  destruct (Z.leb_spec (Z.min n (data_to_send (java_ctx s) - data_sent (java_ctx s))) 0); [by apply wp_java_remove|].
  set (len := Z.min n (data_to_send (java_ctx s) - data_sent (java_ctx s))) in *.
  assert (Hlen : 0 < len <= data_to_send (java_ctx s) - data_sent (java_ctx s)) by lia. clearbody len.
  assert (Hgiv : take (Z.to_nat (data_sent (java_ctx s))) m ++ take (Z.to_nat len) (drop (Z.to_nat (data_sent (java_ctx s))) m)
    = take (Z.to_nat (data_sent (java_ctx s) + len)) m).
  { rewrite Z2Nat.inj_add by lia. by rewrite take_take_drop. }
  unfold set_java. do 4 wp_step. wp_step; bool_facts; [wp_step|]; cbn; pose proof (proj2 (Z.leb_le _ _) Hup) as Hup'.
  - split.
    + apply (put_java_inv (mk_java _ _ _ _ _ _ _ _ _ _ _ _ _) s Hi). destruct Hj. split; cbn; auto; [done|].
      intros _ _. split; [done|]. exists m. split; [exact Hm|]. split; [done|lia].
    + intros a [Hr1 Hr2 Hr3 Hr4]. rewrite Hup' in Hr1. eexists. cbn. rewrite Hr1. split; [reflexivity|].
      split; cbn; [|done|done|done]. rewrite Hup'. f_equal. unfold given. rewrite Hp, Hm. cbn. rewrite Hgiv.
      change (take (Z.to_nat (data_sent (java_ctx s) + len)) m = default [] (java_bytes (java_ctx s))). rewrite Hm. cbn.
      apply take_ge. lia.
  - split.
    + apply (put_java_inv (with_sent _ (java_ctx s)) s Hi). destruct Hj. split; cbn; auto.
      intros _ _. split; [done|]. exists m. split; [exact Hm|lia].
    + intros a [Hr1 Hr2 Hr3 Hr4]. rewrite Hup' in Hr1. eexists. cbn. rewrite Hr1. split; [reflexivity|].
      split; cbn; [|done|done|done]. rewrite Hup'. f_equal. unfold given. rewrite Hp, Hm. cbn. rewrite Hp, Hgiv.
      change (take (Z.to_nat (data_sent (java_ctx s) + len)) m = take (Z.to_nat (data_sent (java_ctx s) + len)) (default [] (java_bytes (java_ctx s)))).
      by rewrite Hm.
Qed.

(** What [poll] reports of the bridge is what it was asked for. *)
Lemma wp_java_event s r now rd n : bridge_inv s -> 0 <= j_fd (java_ctx s) ->
  (r_in r = true -> wait_ack (java_ctx s) = true) -> (r_out r = true -> msg_in_progress (java_ctx s) = true) ->
  wp (handle_java_bridge_event r now rd n) s bridge_abort (fun _ s' o => good s s' o).
Proof.
  intros Hi Hup Hin Hout. unfold handle_java_bridge_event at 1. destruct (r_in r) eqn:Hr; cbn [orb].
  - pose proof (bi_java s Hi) as Hj. destruct (jo_wait _ Hj Hup (Hin eq_refl)) as (_ & m & _ & _ & Hl).
    wp_step. wp_step. cbn zeta. destruct (read_fd _ rd) as [bs|] eqn:Hrd; [|by apply wp_java_remove].
    apply read_fd_Some in Hrd as (_ & Hbs & _).
    pose proof (ack_progress_good s (ack_reply (java_ctx s) ++ bs) Hi ltac:(rewrite length_app; lia)) as Hg.
    unfold set_java. wp_step. wp_step. apply (wp_good_mono _ _ _ _ Hg).
    apply wp_good_when; [apply Hg|]. intros _. destruct (_ =? _).
    + apply wp_ack; [apply Hg|done|by apply Hin].
    + apply wp_java_remove; [apply Hg|done].
  - destruct (r_out r) eqn:Hro.
    + exact (wp_java_write s now n Hi Hup (Hout eq_refl)).
    + apply wp_good_when; [done|]. intros _. by apply wp_java_remove.
Qed.

Lemma wp_timeout s now : bridge_inv s -> wp (handle_timeout now) s bridge_abort (fun _ s' o => good s s' o).
Proof.
  intros Hi. unfold handle_timeout. apply wp_bridge_seq. eapply wp_mono; [apply wp_good_for_each; [done|]|done|].
  - intros i s' Hin Hi'. apply elem_of_seq in Hin. assert (exists c, client_ctx s' !! i = Some c) as [c Hc].
    { apply lookup_lt_is_Some. rewrite (bi_len _ Hi'). unfold MAX_CLIENTS in Hin. lia. }
    apply wp_bind, (wp_bridge_client _ _ c); [done|]. cbn. apply wp_good_when; [done|]. intros _.
    destruct Hi'. eapply wp_remove_client; eauto using others_all.
  - cbn. intros [] s' o Hg. split; [done|]. wp_step. wp_step. cbn zeta. apply wp_good_when; [apply Hg|].
    intros Hb. bool_facts. by apply wp_java_remove; [apply Hg|].
Qed.

(** ** The main loop *)

(** The message that starts is the wakelock one, or the head of the queue. *)
Lemma wp_start_msg s now : bridge_inv s -> 0 <= j_fd (java_ctx s) ->
  wait_ack (java_ctx s) = false -> msg_in_progress (java_ctx s) = false ->
  msg_queue (java_ctx s) <> [] \/ j_wakelock_held (java_ctx s) <> wakelock_held s ->
  wp (start_msg now) s no_abort (fun _ s' o => good s s' o /\ client_ctx s' = client_ctx s /\
    j_fd (java_ctx s') = j_fd (java_ctx s) /\ wait_ack (java_ctx s') = false /\ msg_in_progress (java_ctx s') = true).
Proof.
  intros Hi Hup Hw Hp Hwork. pose proof (bi_java s Hi) as Hj. pose proof (proj2 (Z.leb_le _ _) Hup) as Hup'.
  unfold start_msg, set_java. do 2 wp_step. cbn zeta. case_bool_decide as Hh; cbn [negb].
  - destruct (msg_queue (java_ctx s)) as [|x q] eqn:Hq; [by destruct Hwork|].
    pose proof (jo_queue _ Hj) as Hqo. rewrite Hq in Hqo. apply Forall_cons_1 in Hqo as [Hx _].
    do 2 wp_step. cbn. apply wp_bind, (wp_java_bytes _ (q_msg x)); [by unfold java_bytes; cbn; rewrite Hq|].
    apply wp_bind, wp_msg_to_string; [destruct (qo_type x Hx); by auto|]. intros _.
    wp_step. cbn. split; [|done]. split.
    + apply (put_java_inv (mk_java _ _ _ _ _ _ _ _ _ _ _ _ _) s Hi). destruct Hj. split; cbn; auto; rewrite ?Hq in *; try done; [|congruence].
      intros _ _. split; [done|]. exists (q_msg x). unfold java_bytes. cbn. destruct Hx. split; [done|lia].
    + intros a [Hr1 Hr2 Hr3 Hr4]. exists a. split; [done|]. split; cbn; [|done|done|done].
      rewrite Hr1, Hup'. f_equal. unfold given. by rewrite Hp, Hw.
  - do 2 wp_step. cbn -[be_bytes]. apply wp_bind. eapply wp_java_bytes; [reflexivity|].
    set (cmd := if wakelock_held s then _ else _).
    assert (Hcmd : word 2 (be_bytes (msg_count (java_ctx s)) ++ be_bytes 0 ++ be_bytes cmd) = cmd).
    { rewrite <- (app_nil_r (be_bytes cmd)), app_assoc. apply word_be; [|done]. subst cmd. by destruct (wakelock_held s). }
    assert (Hc2 : cmd = TEL_BRIDGE_COMMAND_WAKELOCK_ACQUIRE \/ cmd = TEL_BRIDGE_COMMAND_WAKELOCK_RELEASE).
    { subst cmd. destruct (wakelock_held s); auto. }
    apply wp_bind, wp_msg_to_string; [cbn -[be_bytes]; rewrite Hcmd; destruct Hc2; auto|]. intros _. wp_step. cbn -[be_bytes]. split; [|done]. split.
    + apply (put_java_inv (mk_java _ _ _ _ _ _ _ _ _ _ _ _ _) s Hi). destruct Hj. split; cbn -[be_bytes word]; auto; try done.
      * apply u32_range.
      * intros _. split; [done|]. by rewrite Hcmd.
      * intros _ _. split; [done|]. eexists. split; [reflexivity|]. cbn. lia.
      * congruence.
    + intros a [Hr1 Hr2 Hr3 Hr4]. exists a. split; [done|]. split; cbn; [|done|done|done].
      rewrite Hr1, Hup'. f_equal. unfold given. by rewrite Hp, Hw.
Qed.

Record filled (s : daemon_context) (p : list pollfd * Z) (s' : daemon_context) : Prop := {
  fi_clients : client_ctx s' = client_ctx s;
  fi_pfd : forall i c, client_ctx s !! i = Some c -> p.1 !! i = Some (mk_pollfd (c_fd c) true false);
  fi_java : exists w_in w_out, p.1 !! length (client_ctx s) = Some (mk_pollfd (j_fd (java_ctx s')) w_in w_out) /\
    (0 <= j_fd (java_ctx s') -> (w_in = true -> wait_ack (java_ctx s') = true) /\ (w_out = true -> msg_in_progress (java_ctx s') = true));
  fi_work : 0 <= j_fd (java_ctx s') -> msg_in_progress (java_ctx s') = true \/ wait_ack (java_ctx s') = true \/
    msg_queue (java_ctx s') = [] /\ j_wakelock_held (java_ctx s') = wakelock_held s';
}.

Lemma clients_pfd (l : list client_context) p i c : l !! i = Some c ->
  (((fun c => mk_pollfd (c_fd c) true false) <$> l) ++ [p]) !! i = Some (mk_pollfd (c_fd c) true false).
Proof. intros Hi. rewrite lookup_app_l by (rewrite length_fmap; by eapply lookup_lt_Some). by rewrite list_lookup_fmap, Hi. Qed.

Lemma java_pfd (l : list client_context) p :
  (((fun c => mk_pollfd (c_fd c) true false) <$> l) ++ [p]) !! length l = Some p.
Proof. rewrite lookup_app_r by (by rewrite length_fmap). by rewrite length_fmap, Nat.sub_diag. Qed.

(** Whether the bridge has something to write. *)
Definition to_send (s : daemon_context) : bool :=
  negb (wait_ack (java_ctx s)) && (negb (bool_decide (msg_queue (java_ctx s) = []))
    || negb (bool_decide (j_wakelock_held (java_ctx s) = wakelock_held s)) || msg_in_progress (java_ctx s)).

Lemma to_send_starts s : to_send s && negb (msg_in_progress (java_ctx s)) = true ->
  wait_ack (java_ctx s) = false /\ msg_in_progress (java_ctx s) = false /\
  (msg_queue (java_ctx s) <> [] \/ j_wakelock_held (java_ctx s) <> wakelock_held s).
Proof.
  unfold to_send. destruct (wait_ack (java_ctx s)), (msg_in_progress (java_ctx s)); cbn; rewrite ?andb_false_r, ?andb_true_r, ?orb_false_r; try done.
  repeat case_bool_decide; cbn; auto.
Qed.

Lemma to_send_not s : to_send s && negb (msg_in_progress (java_ctx s)) = false ->
  (to_send s = true -> msg_in_progress (java_ctx s) = true) /\
  (msg_in_progress (java_ctx s) = true \/ wait_ack (java_ctx s) = true \/
   msg_queue (java_ctx s) = [] /\ j_wakelock_held (java_ctx s) = wakelock_held s).
Proof.
  unfold to_send. destruct (wait_ack (java_ctx s)), (msg_in_progress (java_ctx s)); cbn; rewrite ?andb_false_r, ?andb_true_r, ?orb_false_r; auto.
  repeat case_bool_decide; cbn; auto.
Qed.

Lemma wp_fill s now : bridge_inv s ->
  wp (fill_pollfd now) s no_abort (fun p s' o => good s s' o /\ filled s p s').
Proof.
  intros Hi. unfold fill_pollfd. wp_step. wp_step. cbn zeta. destruct (Z.leb_spec 0 (j_fd (java_ctx s))) as [Hup|Hd].
  - change (negb (wait_ack (java_ctx s)) && _) with (to_send s). wp_step. wp_step.
    + destruct (to_send_starts s ltac:(done)) as (Hw & Hp & Hwork).
      eapply wp_mono; [by apply wp_start_msg|done|]. cbn. intros [] s' o (Hg & Hc & Hfd & Hw' & Hp').
      repeat wp_step; rewrite ?app_nil_r; (split; [done|]); (split; cbn; [done|intros; by apply clients_pfd| |by left]).
      all: eexists _, _; (split; [apply java_pfd|done]).
    + destruct (to_send_not s ltac:(done)) as (Hsend & Hidle).
      repeat wp_step; rewrite ?app_nil_r; (split; [by apply good_refl|]); (split; cbn; [done|intros; by apply clients_pfd| |done]).
      all: eexists _, _; (split; [apply java_pfd|done]).
  - wp_step. split; [by apply good_refl|]. split; cbn; [done|intros; by apply clients_pfd| |lia].
    eexists _, _. split; [apply java_pfd|]. lia.
Qed.

(** *** What a handler leaves as it is *)

Definition link (j : java_context) : Z * bool * bool := (j_fd j, wait_ack j, msg_in_progress j).

Definition framed (i : nat) (s s' : daemon_context) : Prop :=
  link (java_ctx s') = link (java_ctx s) /\ forall k, k <> i -> client_ctx s' !! k = client_ctx s !! k.

Lemma bridge_framed_trans i s1 s2 s3 : framed i s1 s2 -> framed i s2 s3 -> framed i s1 s3.
Proof. intros [H1 H2] [H3 H4]. split; [congruence|]. intros k Hk. rewrite H4, H2; done. Qed.

Lemma wp_framed_remove i s : wp (handle_c_client_remove i) s any_abort (fun _ s' _ => framed i s s').
Proof.
  unfold handle_c_client_remove, get_client, free_buffer, set_client, handle_wakelock_change, set_held.
  repeat wp_step; try done; (split; [done|]); intros k Hk; cbn; by rewrite list_lookup_insert_ne.
Qed.

Lemma wp_framed_seq {A} i (m : B_ A) s0 s : framed i s0 s ->
  wp m s any_abort (fun _ s' _ => framed i s s') -> wp m s any_abort (fun _ s' _ => framed i s0 s').
Proof. intros H0 H. eapply wp_mono; [exact H|done|]. intros a s' o Hf. by eapply bridge_framed_trans. Qed.

Lemma framed_put i c s : framed i s (put_client i c s).
Proof. split; [done|]. intros k Hk. cbn. by rewrite list_lookup_insert_ne. Qed.

Lemma wp_any_string t s (Q : string -> daemon_context -> list bridge_out -> Prop) :
  (forall n, Q n s []) -> wp (msg_to_string t) s any_abort Q.
Proof. intros HQ. unfold msg_to_string. repeat wp_step; done. Qed.

Ltac frame_done := (split; [done|]); intros k Hk; cbn; by rewrite ?list_lookup_insert_ne.

Lemma wp_framed_header i c s : wp (handle_header i c) s any_abort (fun _ s' _ => framed i s s').
Proof.
  unfold handle_header, set_client, set_java, handle_wakelock_change, set_held. cbn zeta.
  repeat first [wp_step | apply wp_any_string; intros]; try done; try apply wp_framed_remove.
  all: try (eapply wp_framed_seq, wp_framed_remove; apply framed_put).
  all: frame_done.
Qed.

Lemma wp_framed_event i r now rd s : wp (handle_c_client_event i r now rd) s any_abort (fun _ s' _ => framed i s s').
Proof.
  unfold handle_c_client_event, get_client, set_client. destruct (r_in r); [|wp_step; [apply wp_framed_remove|done]].
  wp_step. do 2 wp_step. destruct (client_ctx s !! i) as [c|]; [|by apply wp_fail]. wp_step. cbn zeta. wp_step. wp_step.
  apply (wp_framed_seq _ _ _ _ (framed_put i (start_read now c) s)). set (s1 := put_client i _ s).
  destruct (read_fd _ rd) as [bs|]; [|apply wp_framed_remove]. apply wp_bind. unfold store.
  assert (Hrest : forall c2, wp (when (data_read c2 =? data_to_read c2) (handle_complete i c2)) (put_client i c2 s1)
    any_abort (fun _ s' _ => framed i s1 s')).
  { intros c2. apply (wp_framed_seq _ _ _ _ (framed_put i c2 s1)). wp_step; [|done].
    unfold handle_complete. destruct (msg_state c2); [|apply wp_framed_header|].
    all: destruct (msg_buffer c2); unfold queue_msg, set_java, set_client; repeat first [wp_step | apply wp_any_string; intros]; try done; frame_done. }
  destruct (msg_state (start_read now c)); [|..|destruct (msg_buffer (start_read now c)); [by apply wp_fail..|]].
  all: wp_step; wp_step; wp_step; apply Hrest.
Qed.

Lemma wp_conn_frame r sock s : wp (handle_c_client_conn r sock) s any_abort (fun _ s' _ =>
  link (java_ctx s') = link (java_ctx s) /\
  forall k c, client_ctx s !! k = Some c -> 0 <= c_fd c -> client_ctx s' !! k = Some c).
Proof.
  unfold handle_c_client_conn, set_client. destruct (only_in r); [|by apply wp_fail]. wp_step; [|done]. wp_step. wp_step.
  destruct (list_find _ _) as [[i c]|] eqn:Hf; [|by wp_step]. repeat wp_step. split; [done|].
  apply list_find_Some in Hf as (Hi & Hd & _). intros k c' Hk Hfd. cbn. rewrite list_lookup_insert_ne; [done|].
  intros ->. rewrite Hi in Hk. injection Hk as ->. lia.
Qed.

Lemma wp_java_conn_frame r sock s : wp (handle_java_bridge_conn r sock) s any_abort (fun _ s' _ =>
  client_ctx s' = client_ctx s /\ (0 <= j_fd (java_ctx s) -> link (java_ctx s') = link (java_ctx s))).
Proof.
  unfold handle_java_bridge_conn, set_java. destruct (only_in r); [|by apply wp_fail]. wp_step; [|done]. wp_step. wp_step.
  destruct (Z.eqb_spec (j_fd (java_ctx s)) (-1)); repeat wp_step; [|done]. cbn. split; [done|lia].
Qed.

Lemma wp_both {A} (m : B_ A) s E (Q1 Q2 : A -> daemon_context -> list bridge_out -> Prop) :
  wp m s E Q1 -> wp m s any_abort Q2 -> wp m s E (fun a s' o => Q1 a s' o /\ Q2 a s' o).
Proof. unfold wp. destruct (m s); done. Qed.

(** The clients that have events, one after the other. *)
Lemma wp_clients l (P : nat -> bool) (f : nat -> B_ unit) s :
  NoDup l -> bridge_inv s ->
  (forall i, i ∈ l -> P i = true -> exists c, client_ctx s !! i = Some c /\ 0 <= c_fd c) ->
  (forall i s, bridge_inv s -> (exists c, client_ctx s !! i = Some c /\ 0 <= c_fd c) ->
    wp (f i) s bridge_abort (fun _ s' o => good s s' o /\ framed i s s')) ->
  wp (for_each l (fun i => when (P i) (f i))) s bridge_abort (fun _ s' o => good s s' o /\ link (java_ctx s') = link (java_ctx s)).
Proof.
  revert s. induction l as [|i l IH]; intros s Hnd Hi Hev Hf; cbn; [by apply wp_ret; split; [apply good_refl|]|].
  pose proof (NoDup_cons_1_1 _ _ Hnd) as Hni. apply NoDup_cons_1_2 in Hnd. apply wp_bind. wp_step.
  - eapply wp_mono; [apply Hf; [done|apply Hev; [left|done]]|done|]. cbn. intros [] s' o [Hg [Hlk Hfr]].
    eapply wp_mono; [apply IH; [done|apply Hg| |done]|done|].
    + intros k Hk HP. rewrite Hfr by (intros ->; done). apply Hev; [by right|done].
    + cbn. intros [] s'' o' [[Hi'' Hs''] Hlk']. split; [|congruence]. split; [done|]. eapply sim_trans; [apply Hg|done].
  - cbn. apply IH; [done|done| |done]. intros k Hk. apply Hev. by right.
Qed.

(** What the system gives: bytes. *)
Definition turn_ok (t : turn) : Prop := Forall (fun x => read_ok x.2) (t_clients t) /\ read_ok (t_java_read t).

Lemma turn_client_ok t i : turn_ok t -> read_ok (client_rev t i).2.
Proof.
  intros [H _]. unfold client_rev. destruct (t_clients t !! i) as [x|] eqn:Hx; cbn; [|done]. by eapply Forall_lookup_1 in H.
Qed.

Lemma poll_down w1 w2 fd r : none_set (poll_one (mk_pollfd fd w1 w2) r) = false -> 0 <= fd.
Proof. unfold poll_one. cbn. destruct (Z.ltb_spec fd 0); [done|lia]. Qed.

Definition client_ids_3 : Z.to_nat MAX_CLIENTS = 3%nat := eq_refl.

(** The handlers run on what [poll] reported: the connections first, then the
    clients, then the application. *)
Lemma wp_dispatch s1 t c_rev j_rev (rev : nat -> revents_t) : bridge_inv s1 -> turn_ok t ->
  (forall i c, client_ctx s1 !! i = Some c -> negb (none_set (rev i)) = true -> 0 <= c_fd c) ->
  (negb (none_set (rev 3%nat)) = true -> 0 <= j_fd (java_ctx s1) /\
    (r_in (rev 3%nat) = true -> wait_ack (java_ctx s1) = true) /\ (r_out (rev 3%nat) = true -> msg_in_progress (java_ctx s1) = true)) ->
  wp (when (negb (none_set c_rev)) (handle_c_client_conn c_rev (t_c_accept t)) ;;
      when (negb (none_set j_rev)) (handle_java_bridge_conn j_rev (t_j_accept t)) ;;
      for_each client_ids (fun i => when (negb (none_set (rev i))) (handle_c_client_event i (rev i) (t_now t) (client_rev t i).2)) ;;
      when (negb (none_set (rev 3%nat))) (handle_java_bridge_event (rev 3%nat) (t_now t) (t_java_read t) (t_java_write t)))
    s1 bridge_abort (fun _ s' o => good s1 s' o).
Proof.
  intros Hi1 Ht Hrev Hjr.
  apply wp_bridge_seq. eapply wp_mono; [apply (wp_both _ _ _ (fun _ s' o => good s1 s' o) (fun _ s' _ => link (java_ctx s') = link (java_ctx s1) /\
    forall k c, client_ctx s1 !! k = Some c -> 0 <= c_fd c -> client_ctx s' !! k = Some c))|done|].
  { apply wp_good_when; [done|]. intros _. by apply wp_client_conn. }
  { wp_step; [apply wp_conn_frame|done]. }
  cbn beta. intros [] s2 o2 [Hg2 [Hlk2 Hcl2]]. split; [done|]. pose proof Hg2 as [Hi2 _].
  apply wp_bridge_seq. eapply wp_mono; [apply (wp_both _ _ _ (fun _ s' o => good s2 s' o) (fun _ s' _ => client_ctx s' = client_ctx s2 /\
    (0 <= j_fd (java_ctx s2) -> link (java_ctx s') = link (java_ctx s2))))|done|].
  { apply wp_good_when; [done|]. intros _. by apply wp_java_conn. }
  { wp_step; [apply wp_java_conn_frame|done]. }
  cbn beta. intros [] s3 o3 [Hg3 [Hcl3 Hlk3]]. split; [done|]. pose proof Hg3 as [Hi3 _].
  apply wp_bridge_seq. eapply wp_mono; [apply wp_clients; [apply NoDup_seq|done| |]|done|].
  - intros i Hin Hn. apply elem_of_seq in Hin. unfold MAX_CLIENTS in Hin.
    destruct (lookup_lt_is_Some_2 (client_ctx s1) i) as [c Hc]; [rewrite (bi_len _ Hi1); lia|].
    assert (0 <= c_fd c) by by eapply Hrev. exists c. rewrite Hcl3. auto.
  - intros i s' Hi' Hc'. apply wp_both; [|apply wp_framed_event]. apply wp_client_event; [done|by apply turn_client_ok|done].
  - cbn beta. intros [] s4 o4 [Hg4 Hlk4]. split; [done|]. apply wp_good_when; [apply Hg4|]. intros Hn.
    destruct (Hjr Hn) as (Hup & Hin & Hout). unfold link in *. injection Hlk2 as Hf2 Hw2 Hq2.
    assert (0 <= j_fd (java_ctx s2)) as Hup2 by congruence. specialize (Hlk3 Hup2). injection Hlk3 as Hf3 Hw3 Hq3.
    injection Hlk4 as Hf4 Hw4 Hq4.
    apply wp_java_event; [apply Hg4|congruence| |]; rewrite ?Hw4, ?Hw3, ?Hw2, ?Hq4, ?Hq3, ?Hq2; done.
Qed.

Lemma wp_bridge_turn s t : bridge_inv s -> turn_ok t ->
  wp (main_turn t) s bridge_abort (fun _ s' o => good s s' o).
Proof.
  intros Hi Ht. unfold main_turn. wp_step. wp_step. cbn zeta. apply wp_bridge_seq.
  eapply wp_mono; [by apply wp_fill|done|]. cbn beta. intros [pfd timeout] s1 o1 [Hg1 [Hc1 Hp1 (wi & wo & Hjp & Hj1) _]].
  split; [done|]. pose proof Hg1 as [Hi1 _]. cbn [fst] in *. rewrite (bi_len _ Hi) in Hjp. rewrite client_ids_3.
  apply wp_bind, wp_ASSERT; [intros _|intros _; abort_here].
  set (c_rev := poll_one _ (t_c_rev t)). set (j_rev := poll_one _ (t_j_rev t)). set (rev := fun i : nat => poll_one _ _).
  destruct (forallb _ _); [by apply wp_timeout|].
  apply (wp_dispatch s1 t c_rev j_rev rev Hi1 Ht).
  - intros i c Hic Hn. rewrite Hc1 in Hic. unfold rev in Hn. rewrite (Hp1 i c Hic) in Hn. cbn [default] in Hn.
    apply negb_true_iff in Hn. by apply poll_down in Hn.
  - unfold rev. rewrite Hjp. cbn [default]. intros Hn. apply negb_true_iff in Hn. pose proof (poll_down _ _ _ _ Hn) as Hup.
    destruct (Hj1 Hup) as [H1 H2]. unfold poll_one. cbn. destruct (Z.ltb_spec (j_fd (java_ctx s1)) 0); [lia|].
    cbn. split; [done|]. split; intros [_ H']%andb_true_iff; auto.
Qed.

Lemma wp_main_loop l s : bridge_inv s -> Forall turn_ok l -> wp (main_loop l) s bridge_abort (fun _ s' o => good s s' o).
Proof.
  intros Hi Hl. revert s Hi. induction Hl as [|t l Ht Hl IH]; intros s Hi; cbn [main_loop]; [by apply wp_ret, good_refl|].
  apply wp_bridge_seq. eapply wp_mono; [by apply wp_bridge_turn|done|]. cbn. intros [] s' o Hg. split; [done|]. apply IH, Hg.
Qed.

Definition init_spec : bspec := mk_bspec None [] 0 false.

Lemma init_good c j s : length (client_ctx s) = 3%nat ->
  bridge_inv (init c j s) /\ rel (init c j s) init_spec.
Proof.
  intros Hl. split; [split; cbn|split; cbn; done || lia].
  - split; cbn; try done. by left.
  - by rewrite length_fmap.
  - apply Forall_fmap, Forall_true. intros c'. cbn. by left.
  - symmetry. generalize (client_ctx s). induction l; cbn; done.
Qed.
