(* ===== verification/BridgeLib.v ===== *)
(** * The client library of the telephony bridge (bridge/c/lib/src/telbridgelib.c)

    [send_msg] computes the size of a message, serializes its parameters in the
    format of bridge_internal.h and writes it to the daemon.  A [char *] is the
    list of the bytes before its NUL, a [va_list] the list of the arguments that
    have not been taken.  The state is the descriptor of the library and the
    bytes written on the connection; the kernel's turns are those of Socket.v. *)

From S2P Require Import Prelude Timer Wire Socket Bridge.
From Stdlib Require Import ZArith Lia Ascii.
From stdpp Require Import base tactics list strings option.

Open Scope Z_scope.
Open Scope crm_scope.

Definition MAX_SOCKET_TIMEOUT : Z := 500.

(** [tel_bridge_data_type_t] *)
Definition TEL_BRIDGE_DATA_TYPE_INT : Z := 0.
Definition TEL_BRIDGE_DATA_TYPE_STRING : Z := 1.

Inductive va_value : Type := VaInt (z : Z) | VaStr (s : list Z).

Record tel_java_bridge_ctx : Type := mk_lib { l_fd : Z; l_sent : list Z }.
Inductive lib_out : Type := LibClose (fd : Z).
Abbreviation L_ A := (M tel_java_bridge_ctx lib_out A).

(** ** Serialization: the bytes written in [org], which has [len] *)

Abbreviation W_ A := (M (list Z) Empty_set A).

Definition serialize_uint32 (val len : Z) : W_ unit :=
  let* w := get in
  ASSERT "*msg - org + sizeof(uint32_t) <= len" (Z.of_nat (length w) + 4 <=? len) ;;
  modify (fun w => w ++ be_bytes (u32 val)).

(** [param] is what is copied: [len_copy] bytes, or the whole string. *)
Definition serialize_string (param : list Z) (len : Z) : W_ unit :=
  let* w := get in
  let param_len := Z.of_nat (length param) in
  ASSERT "*msg - org + 2 * sizeof(uint32_t) + param_len <= len" (Z.of_nat (length w) + 8 + param_len <=? len) ;;
  serialize_uint32 param_len len ;;
  serialize_uint32 TEL_BRIDGE_DATA_TYPE_STRING len ;;
  modify (fun w => w ++ param).

(** [strchr(c_format, '%')]: what is before and after the first percent sign. *)
Fixpoint split_percent (f : list Z) : option (list Z * list Z) :=
  match f with
  | [] => None
  | b :: f' => if b =? 37 then Some ([], f') else (fun '(x, y) => (b :: x, y)) <$> split_percent f'
  end.

(** The name of the next parameter, its type ('d' or 's') and the rest of the
    format. *)
Definition next_param {S O : Type} (f : list Z) : M S O (list Z * Z * list Z) :=
  match split_percent f with
  | Some (name, c :: f') =>
      ASSERT "sep != c_format && sep != NULL" (negb (bool_decide (name = []))) ;;
      ASSERT "c == 'd' || c == 's'" ((c =? 100) || (c =? 115)) ;;
      ret (name, c, f')
  | Some (name, []) =>
      ASSERT "sep != c_format && sep != NULL" (negb (bool_decide (name = []))) ;;
      fail (AssertFail "c == 'd' || c == 's'")
  | None => fail (AssertFail "sep != c_format && sep != NULL")
  end.

(** [va_arg] *)
Definition va_arg {S O : Type} (c : Z) (args : list va_value) : M S O (va_value * list va_value) :=
  match args with
  | VaInt z :: args' => if c =? 100 then ret (VaInt z, args') else fail (Undefined "va_arg")
  | VaStr s :: args' => if c =? 100 then fail (Undefined "va_arg") else ret (VaStr s, args')
  | [] => fail (Undefined "va_arg")
  end.

(** The size of the parameters of the format; at most one turn per byte. *)
Fixpoint params_size (fuel : nat) (f : list Z) (args : list va_value) : W_ Z :=
  match f, fuel with
  | [], _ => ret 0
  | _, O => fail (Stuck "format")
  | _, S fuel =>
      let* p := next_param f in
      let '(name, c, f') := p in
      let* a := va_arg c args in
      let* n := params_size fuel f' a.2 in
      ret (8 + Z.of_nat (length name) + 8 + (match a.1 with VaInt _ => 4 | VaStr s => Z.of_nat (length s) end) + n)
  end.

Fixpoint serialize_params (fuel : nat) (f : list Z) (args : list va_value) (len : Z) : W_ unit :=
  match f, fuel with
  | [], _ => ret tt
  | _, O => fail (Stuck "format")
  | _, S fuel =>
      let* p := next_param f in
      let '(name, c, f') := p in
      serialize_string name len ;;
      let* a := va_arg c args in
      match a.1 with
      | VaInt val =>
          serialize_uint32 4 len ;;
          serialize_uint32 TEL_BRIDGE_DATA_TYPE_INT len ;;
          serialize_uint32 val len
      | VaStr val => serialize_string val len
      end ;;
      serialize_params fuel f' a.2 len
  end.

Definition opt_size (p : option (list Z)) : Z := match p with Some s => 8 + Z.of_nat (length s) | None => 0 end.
Definition serialize_opt (p : option (list Z)) (len : Z) : W_ unit :=
  match p with Some s => serialize_string s len | None => ret tt end.

(** The message, in the buffer allocated for it; [format] is empty when the
    pointer is null. *)
Definition build_msg (cmd : Z) (param1 param2 : option (list Z)) (format : list Z) (params3 : list va_value) : W_ (list Z) :=
  let* n := params_size (length format) format params3 in
  let msg_size := i32 (8 + opt_size param1 + opt_size param2 + n) in
  let len := msg_size mod 2 ^ 64 in
  serialize_uint32 (msg_size - 8) len ;;
  serialize_uint32 cmd len ;;
  serialize_opt param1 len ;;
  serialize_opt param2 len ;;
  serialize_params (length format) format params3 len ;;
  get.

(** ** Sending *)

(** A failure of [write] sets a variable of the loop's body only: the loop goes
    on. *)
Fixpoint send_loop (timer_end : timespec) (left : list Z) (l : list io_turn) : L_ Z :=
  match left with
  | [] => ret 0
  | _ =>
      match l with
      | [] => fail (Stuck "send_msg")
      | t :: l' =>
          if crm_time_get_remain_ms (io_now t) timer_end <=? 0 then ret (-1) else
          match io_poll t with
          | PollEintr => send_loop timer_end left l'
          | PollFailed => ret (-1)
          | PollReady =>
              match io_res t with
              | IoEintr | IoFailed => send_loop timer_end left l'
              | IoDone n =>
                  modify (fun c => mk_lib (l_fd c) (l_sent c ++ take n left)) ;;
                  send_loop timer_end (drop n left) l'
              end
          end
      end
  end.

(** A computation on the buffer, empty at first. *)
Definition in_buffer {A} (m : W_ A) : L_ A := fun c =>
  match m [] with
  | Ok a _ _ => Ok a c []
  | Abort r _ => Abort r []
  end.

Section api.
Context (start : timespec) (turns : list io_turn).

Definition send_msg (cmd : Z) (param1 param2 : option (list Z)) (format : list Z) (params3 : list va_value) : L_ Z :=
  let* c := get in
  if l_fd c <? 0 then ret (-1)
  else
    let* msg := in_buffer (build_msg cmd param1 param2 format params3) in
    send_loop (crm_time_add_ms start MAX_SOCKET_TIMEOUT) msg turns.

Definition wakelock (acquire : bool) : L_ Z :=
  send_msg (if acquire then TEL_BRIDGE_COMMAND_WAKELOCK_ACQUIRE else TEL_BRIDGE_COMMAND_WAKELOCK_RELEASE) None None [] [].

Definition start_service (s_package s_class : option (list Z)) : L_ Z :=
  send_msg TEL_BRIDGE_COMMAND_START_SERVICE s_package s_class [] [].

Definition broadcast_intent (name : option (list Z)) (format : list Z) (params : list va_value) : L_ Z :=
  send_msg TEL_BRIDGE_COMMAND_BROADCAST_INTENT name None format params.

(** [fd]: the result of [socket_local_client]. *)
Definition bridge_connect (fd : Z) : L_ Z :=
  modify (fun _ => mk_lib fd []) ;;
  ret (if 0 <=? fd then 0 else -1).

Definition bridge_disconnect : L_ unit :=
  let* c := get in
  when (0 <=? l_fd c) (modify (fun c => mk_lib (-1) (l_sent c)) ;; emit (LibClose (l_fd c))).

Definition get_poll_fd : L_ Z := gets l_fd.

(** [err]: the events hold [POLLERR], [POLLHUP] or [POLLNVAL]. *)
Definition handle_poll_event (err : bool) : L_ Z :=
  if err then
    let* c := get in
    modify (fun c => mk_lib (-1) (l_sent c)) ;;
    emit (LibClose (l_fd c)) ;;
    ret (-1)
  else ret 0.

Definition dispose : L_ unit :=
  let* c := get in
  when (0 <=? l_fd c) (emit (LibClose (l_fd c))).

(** The functions without context: one is made for the call. *)
Definition tel_java_bridge_init : tel_java_bridge_ctx := mk_lib (-1) [].

Definition contextless (fd : Z) (call : L_ Z) : L_ Z :=
  modify (fun _ => tel_java_bridge_init) ;;
  let* r := bridge_connect fd in
  let* ret_ := (if r =? 0 then call else ret (-1)) in
  dispose ;;
  ret ret_.

Definition tel_java_brige_broadcast_intent (fd : Z) (name : option (list Z)) (format : list Z) (params : list va_value) : L_ Z :=
  contextless fd (send_msg TEL_BRIDGE_COMMAND_BROADCAST_INTENT name None format params).

Definition tel_java_brige_start_service (fd : Z) (s_package s_class : option (list Z)) : L_ Z :=
  contextless fd (send_msg TEL_BRIDGE_COMMAND_START_SERVICE s_package s_class [] []).

End api.

(** ** The Java application (bridge/java: DaemonSocket.java)

    The application reads the connection through an [InputStreamReader], which
    decodes UTF-8 (the default charset), so its buffers hold UTF-16 characters
    and not the bytes of the message; all sizes count characters. *)

(** The decoder of [InputStreamReader]: malformed input is replaced by U+FFFD,
    one for each malformed sequence in the way of the JDK's decoder; a sequence
    that is not complete yet waits for the next bytes. *)
Definition REPLACEMENT : Z := 65533.
Definition continuation (b : Z) : bool := Z.land b 192 =? 128.
Definition low6 (b : Z) : Z := Z.land b 63.

Fixpoint utf8_decode (l : list Z) : list Z :=
  match l with
  | [] => []
  | b1 :: l1 =>
      if b1 <? 128 then b1 :: utf8_decode l1
      else if (194 <=? b1) && (b1 <=? 223) then
        match l1 with
        | [] => []
        | b2 :: l2 =>
            if continuation b2 then Z.lor (Z.shiftl (Z.land b1 31) 6) (low6 b2) :: utf8_decode l2
            else REPLACEMENT :: utf8_decode l1
        end
      else if (224 <=? b1) && (b1 <=? 239) then
        match l1 with
        | [] => []
        | b2 :: l2 =>
            if negb (continuation b2) || (b1 =? 224) && (b2 <? 160) then REPLACEMENT :: utf8_decode l1 else
            match l2 with
            | [] => []
            | b3 :: l3 =>
                if continuation b3 then
                  let c := Z.lor (Z.lor (Z.shiftl (Z.land b1 15) 12) (Z.shiftl (low6 b2) 6)) (low6 b3) in
                  (if (55296 <=? c) && (c <=? 57343) then REPLACEMENT else c) :: utf8_decode l3
                else REPLACEMENT :: utf8_decode l2
            end
        end
      else if (240 <=? b1) && (b1 <=? 244) then
        match l1 with
        | [] => []
        | b2 :: l2 =>
            if negb (continuation b2) || (b1 =? 240) && (b2 <? 144) || (b1 =? 244) && (143 <? b2)
            then REPLACEMENT :: utf8_decode l1 else
            match l2 with
            | [] => []
            | b3 :: l3 =>
                if negb (continuation b3) then REPLACEMENT :: utf8_decode l2 else
                match l3 with
                | [] => []
                | b4 :: l4 =>
                    if continuation b4 then
                      let c := Z.lor (Z.lor (Z.shiftl (Z.land b1 7) 18) (Z.shiftl (low6 b2) 12))
                                 (Z.lor (Z.shiftl (low6 b3) 6) (low6 b4)) in
                      55296 + Z.shiftr (c - 65536) 10 :: 56320 + Z.land (c - 65536) 1023 :: utf8_decode l4
                    else REPLACEMENT :: utf8_decode l3
                end
            end
        end
      else REPLACEMENT :: utf8_decode l1
  end.

(** What the application makes of the characters of a message.  A failed
    conversion, a size out of the buffer or a wrong type throws; the connection
    is closed. *)

Definition getInt (buf : list Z) : option (Z * list Z) :=
  match buf with
  | b0 :: b1 :: b2 :: b3 :: rest =>
      Some (i32 (Z.lor (Z.lor (Z.lor (Z.shiftl b0 24) (Z.shiftl b1 16)) (Z.shiftl b2 8)) b3), rest)
  | _ => None
  end.

Definition getSerializedType (buf : list Z) : option (va_value * list Z) :=
  match getInt buf with
  | None => None
  | Some (size, buf) =>
      match getInt buf with
      | None => None
      | Some (type, buf) =>
          if type =? TEL_BRIDGE_DATA_TYPE_INT then
            if negb (size =? 4) then None else (fun '(z, r) => (VaInt z, r)) <$> getInt buf
          else if type =? TEL_BRIDGE_DATA_TYPE_STRING then
            if (size <? 0) || (Z.of_nat (length buf) <? size) then None
            else Some (VaStr (take (Z.to_nat size) buf), drop (Z.to_nat size) buf)
          else None
      end
  end.

(** [(String)msgContent.getSerializedType()] *)
Definition get_string (buf : list Z) : option (list Z * list Z) :=
  match getSerializedType buf with Some (VaStr s, r) => Some (s, r) | _ => None end.

Inductive core_call : Type :=
| WakelockAcquire
| WakelockRelease
| StartService (servicePkg serviceClass : list Z)
| BroadcastIntent (intentName : list Z) (params : list (list Z * va_value)).

(** The parameters of an intent, until the end of the message. *)
Fixpoint get_params (fuel : nat) (buf : list Z) : option (list (list Z * va_value)) :=
  match buf, fuel with
  | [], _ => Some []
  | _, O => None
  | _, S fuel =>
      match get_string buf with
      | None => None
      | Some (name, buf) =>
          match getSerializedType buf with
          | None => None
          | Some (p, buf) => (fun l => (name, p) :: l) <$> get_params fuel buf
          end
      end
  end.

Definition on_content (msgType : Z) (buf : list Z) : option core_call :=
  if msgType =? TEL_BRIDGE_COMMAND_START_SERVICE then
    match get_string buf with
    | Some (servicePkg, buf) => (fun '(serviceClass, _) => StartService servicePkg serviceClass) <$> get_string buf
    | None => None
    end
  else if msgType =? TEL_BRIDGE_COMMAND_BROADCAST_INTENT then
    match get_string buf with
    | Some (intentName, buf) => BroadcastIntent intentName <$> get_params (length buf) buf
    | None => None
    end
  else None.

(** One message of the loop of [run]: the header has 12 characters (number, size,
    type), then comes the content; the answer is the four characters of the
    number, as they were read.  [Waits]: more characters are needed. *)
Inductive java_turn : Type :=
| Waits
| Throws
| Calls (ack : list Z) (call : core_call) (rest : list Z).

Definition on_header (msgType : Z) : option core_call :=
  if msgType =? TEL_BRIDGE_COMMAND_WAKELOCK_ACQUIRE then Some WakelockAcquire
  else if msgType =? TEL_BRIDGE_COMMAND_WAKELOCK_RELEASE then Some WakelockRelease
  else None.

Definition calls (ack : list Z) (c : option core_call) (rest : list Z) : java_turn :=
  match c with Some c => Calls ack c rest | None => Throws end.

Definition read_message (chars : list Z) : java_turn :=
  match getInt chars with
  | None => Waits
  | Some (_, chars1) =>
      match getInt chars1 with
      | None => Waits
      | Some (msgSize, chars2) =>
          match getInt chars2 with
          | None => Waits
          | Some (msgType, chars3) =>
              if 0 <? msgSize then
                if Z.of_nat (length chars3) <? msgSize then Waits
                else calls (take 4 chars) (on_content msgType (take (Z.to_nat msgSize) chars3)) (drop (Z.to_nat msgSize) chars3)
              else calls (take 4 chars) (on_header msgType) chars3
          end
      end
  end.

(** From the bytes of the connection. *)
Definition java_reads (bytes : list Z) : java_turn := read_message (utf8_decode bytes).
