(* ===== verification/BridgeProps.v ===== *)
(** * Properties of the telephony bridge

    The daemon over any run, the message of a client from the library to the
    Java application, and the runs in which the daemon stops. *)

From S2P Require Import Prelude Timer Wire Socket Bridge BridgeTheory BridgeLib.
From Stdlib Require Import ZArith Lia.
From stdpp Require Import base tactics list strings option.

Open Scope Z_scope.
Open Scope crm_scope.

(** ** The format of a message (bridge_internal.h) *)

Definition str_data (s : list Z) : list Z := be_bytes (Z.of_nat (length s)) ++ be_bytes TEL_BRIDGE_DATA_TYPE_STRING ++ s.
Definition int_data (z : Z) : list Z := be_bytes 4 ++ be_bytes TEL_BRIDGE_DATA_TYPE_INT ++ be_bytes (u32 z).
Definition va_data (v : va_value) : list Z := match v with VaInt z => int_data z | VaStr s => str_data s end.
Definition opt_data (p : option (list Z)) : list Z := match p with Some s => str_data s | None => [] end.
Definition item_data (x : list Z * va_value) : list Z := str_data x.1 ++ va_data x.2.

(** The format string of named parameters, such as "instId%ddata_key%s". *)
Definition va_char (v : va_value) : Z := match v with VaInt _ => 100 | VaStr _ => 115 end.
Definition item_format (x : list Z * va_value) : list Z := x.1 ++ [37; va_char x.2].
Definition format_of (items : list (list Z * va_value)) : list Z := concat (item_format <$> items).

(** A name is not empty and has no percent sign; sizes are those of [int]s. *)
Definition va_ok (v : va_value) : Prop := match v with VaInt z => is_int z | VaStr s => Z.of_nat (length s) <= INT_MAX end.
Definition item_ok (x : list Z * va_value) : Prop :=
  x.1 <> [] /\ (37 ∉ x.1) /\ Z.of_nat (length x.1) <= INT_MAX /\ va_ok x.2.

Definition body_of (p1 p2 : option (list Z)) (items : list (list Z * va_value)) : list Z :=
  opt_data p1 ++ opt_data p2 ++ concat (item_data <$> items).
Definition frame_of (cmd : Z) (p1 p2 : option (list Z)) (items : list (list Z * va_value)) : list Z :=
  be_bytes (Z.of_nat (length (body_of p1 p2 items))) ++ be_bytes cmd ++ body_of p1 p2 items.

Lemma split_percent_name name c f : 37 ∉ name -> split_percent (name ++ 37 :: c :: f) = Some (name, c :: f).
Proof.
  induction name as [|b name IH]; cbn; [done|]. intros Hn. apply not_elem_of_cons in Hn as [Hb Hn].
  destruct (Z.eqb_spec b 37); [congruence|]. by rewrite IH.
Qed.

Lemma next_param_item {S O} x f (s : S) : item_ok x ->
  next_param (S := S) (O := O) (item_format x ++ f) s = Ok (x.1, va_char x.2, f) s [].
Proof.
  intros (Hne & Hp & _). unfold next_param, item_format. rewrite <- app_assoc. cbn.
  rewrite split_percent_name by done. rewrite bool_decide_eq_false_2 by done. by destruct x as [n []].
Qed.

Lemma va_arg_item {S O} v l (s : S) : va_arg (S := S) (O := O) (va_char v) (v :: l) s = Ok (v, l) s [].
Proof. by destruct v. Qed.

Lemma item_format_cons x f : item_format x ++ f <> [].
Proof. unfold item_format. by destruct x.1. Qed.

Lemma va_data_length v : Z.of_nat (length (va_data v)) = 8 + match v with VaInt _ => 4 | VaStr s => Z.of_nat (length s) end.
Proof. destruct v; cbn -[be_bytes]; unfold int_data, str_data; rewrite !length_app, !be_bytes_length; lia. Qed.

Lemma str_data_length s : Z.of_nat (length (str_data s)) = 8 + Z.of_nat (length s).
Proof. unfold str_data. rewrite !length_app, !be_bytes_length. lia. Qed.

Lemma format_of_cons x items : format_of (x :: items) = item_format x ++ format_of items.
Proof. done. Qed.

Lemma params_size_items items n w : Forall item_ok items -> (length items <= n)%nat ->
  params_size n (format_of items) (items.*2) w = Ok (Z.of_nat (length (concat (item_data <$> items)))) w [].
Proof.
  intros Hi. revert n. induction Hi as [|x items Hx Hi IH]; intros n Hn; [by destruct n|].
  destruct n as [|n]; cbn in Hn; [lia|]. rewrite format_of_cons. cbn [params_size fmap list_fmap].
  destruct (item_format x ++ format_of items) as [|b f] eqn:Hf; [by apply item_format_cons in Hf|]. rewrite <- Hf.
  rewrite (bind_pass _ _ _ _ _ (next_param_item x (format_of items) w Hx)).
  rewrite (bind_pass _ _ _ _ _ (va_arg_item x.2 (items.*2) w)). cbn [fst snd].
  rewrite (bind_pass _ _ _ _ _ (IH n ltac:(lia))). unfold ret. f_equal.
  cbn -[item_data]. rewrite length_app. unfold item_data at 2. rewrite length_app.
  pose proof (va_data_length x.2). pose proof (str_data_length x.1). lia.
Qed.

(** ** Serialization *)

Lemma serialize_uint32_run v len w : Z.of_nat (length w) + 4 <= len ->
  BridgeLib.serialize_uint32 v len w = Ok tt (w ++ be_bytes (u32 v)) [].
Proof.
  intros H. unfold BridgeLib.serialize_uint32. rewrite (bind_pass _ _ w w w) by done.
  unfold ASSERT. rewrite (proj2 (Z.leb_le _ _) H). by rewrite (bind_pass _ _ w tt w).
Qed.

(** A step of a serialization, the room it needs being there. *)
Ltac ser_room := rewrite ?length_app, ?be_bytes_length; cbn [length]; lia.
Ltac ser_step H := erewrite bind_pass; [|apply H; ser_room].

Lemma serialize_string_run s len w : Z.of_nat (length s) < 2 ^ 32 -> Z.of_nat (length w) + 8 + Z.of_nat (length s) <= len ->
  BridgeLib.serialize_string s len w = Ok tt (w ++ str_data s) [].
Proof.
  intros Hs H. unfold BridgeLib.serialize_string. rewrite (bind_pass _ _ w w w) by done. cbn zeta.
  unfold ASSERT. rewrite (proj2 (Z.leb_le _ _) H). rewrite (bind_pass _ _ w tt w) by done.
  ser_step serialize_uint32_run.
  ser_step serialize_uint32_run.
  unfold modify, str_data. rewrite u32_small by lia. by rewrite <- !app_assoc.
Qed.

Lemma serialize_opt_run p len w : opt_size p < 2 ^ 32 -> Z.of_nat (length w) + opt_size p <= len ->
  serialize_opt p len w = Ok tt (w ++ opt_data p) [].
Proof.
  destruct p as [s|]; cbn -[Z.pow]; intros Hs H; [|by rewrite app_nil_r].
  apply serialize_string_run; lia.
Qed.

Lemma serialize_va_run v len w : va_ok v -> Z.of_nat (length w) + Z.of_nat (length (va_data v)) <= len ->
  (match v with
   | VaInt val => BridgeLib.serialize_uint32 4 len ;; BridgeLib.serialize_uint32 TEL_BRIDGE_DATA_TYPE_INT len ;; BridgeLib.serialize_uint32 val len
   | VaStr val => BridgeLib.serialize_string val len
   end) w = Ok tt (w ++ va_data v) [].
Proof.
  intros Hv H. rewrite va_data_length in H. destruct v as [z|s]; cbn [va_data].
  - ser_step serialize_uint32_run.
    ser_step serialize_uint32_run.
    rewrite serialize_uint32_run by (rewrite !length_app, !be_bytes_length; lia). unfold int_data. by rewrite <- !app_assoc.
  - unfold va_ok, INT_MAX in Hv. apply serialize_string_run; lia.
Qed.

Lemma serialize_params_run items n len w : Forall item_ok items -> (length items <= n)%nat ->
  Z.of_nat (length w) + Z.of_nat (length (concat (item_data <$> items))) <= len ->
  serialize_params n (format_of items) (items.*2) len w = Ok tt (w ++ concat (item_data <$> items)) [].
Proof.
  intros Hi. revert n w. induction Hi as [|x items Hx Hi IH]; intros n w Hn Hlen; [destruct n; cbn; by rewrite app_nil_r|].
  destruct n as [|n]; cbn in Hn; [lia|]. rewrite format_of_cons. cbn [serialize_params fmap list_fmap].
  destruct (item_format x ++ format_of items) as [|b f] eqn:Hf; [by apply item_format_cons in Hf|]. rewrite <- Hf.
  rewrite (bind_pass _ _ _ _ _ (next_param_item x (format_of items) w Hx)). pose proof Hx as (_ & _ & Hnl & Hv).
  cbn [fmap list_fmap concat] in Hlen. rewrite length_app in Hlen. unfold item_data at 1 in Hlen. rewrite length_app in Hlen.
  pose proof (str_data_length x.1) as Hsl. unfold INT_MAX in Hnl.
  erewrite bind_pass; [|apply serialize_string_run; lia].
  rewrite (bind_pass _ _ _ _ _ (va_arg_item x.2 (items.*2) _)). cbn [fst snd].
  erewrite bind_pass; [|apply serialize_va_run; [done|rewrite length_app; lia]].
  rewrite IH; [|lia|rewrite !length_app; lia]. cbn. unfold item_data at 2. by rewrite <- !app_assoc.
Qed.

Lemma items_fuel items : Forall item_ok items -> (length items <= length (format_of items))%nat.
Proof.
  induction 1 as [|x items Hx _ IH]; [done|]. rewrite format_of_cons, length_app. cbn.
  unfold item_format. rewrite length_app. cbn. lia.
Qed.

Lemma opt_data_length p : Z.of_nat (length (opt_data p)) = opt_size p.
Proof. destruct p; [apply str_data_length|done]. Qed.

(** The message in the buffer is the frame, whose size was computed. *)
Lemma build_msg_run cmd p1 p2 items : is_u32 cmd -> Forall item_ok items ->
  Z.of_nat (length (frame_of cmd p1 p2 items)) <= INT_MAX ->
  exists w, build_msg cmd p1 p2 (format_of items) (items.*2) [] = Ok (frame_of cmd p1 p2 items) w [].
Proof.
  intros Hc Hi Hl. unfold build_msg. rewrite (bind_pass _ _ _ _ _ (params_size_items items _ [] Hi (items_fuel items Hi))).
  unfold frame_of, body_of in Hl. rewrite !length_app, !be_bytes_length in Hl. pose proof (opt_data_length p1). pose proof (opt_data_length p2).
  set (n := Z.of_nat (length (concat (item_data <$> items)))) in *. cbn zeta. unfold INT_MAX in *.
  assert (0 <= opt_size p1 /\ 0 <= opt_size p2) by lia.
  rewrite i32_small by (unfold is_int, INT_MIN, INT_MAX; lia). rewrite Z.mod_small by lia.
  ser_step serialize_uint32_run.
  ser_step serialize_uint32_run.
  erewrite bind_pass; [|apply serialize_opt_run; [lia|ser_room]].
  erewrite bind_pass; [|apply serialize_opt_run; [lia|ser_room]].
  erewrite bind_pass; [|apply serialize_params_run; [done|by apply items_fuel|ser_room]].
  eexists. unfold get. f_equal. unfold frame_of, body_of. rewrite !length_app, app_nil_l, <- !app_assoc. f_equal; [f_equal|].
  - rewrite u32_small by lia. lia.
  - by rewrite u32_small by apply Hc.
Qed.

(** ** Sending *)

Lemma wp_send_loop start l left c : valid_clock start ->
  Forall (runs_from start) l -> List.Exists (over start MAX_SOCKET_TIMEOUT) l -> write_fair (length left) l ->
  wp (send_loop (crm_time_add_ms start MAX_SOCKET_TIMEOUT) left l) c no_abort (fun r c' _ =>
    l_fd c' = l_fd c /\ exists k, l_sent c' = l_sent c ++ take k left /\
      (r = 0 /\ k = length left \/ r = -1 /\ (k < length left)%nat)).
Proof.
  intros Hstart. revert left c. induction l as [|t l IH]; intros left c Hc He Hf; [by inversion He|].
  cbn [send_loop]. destruct left as [|b left]; [apply wp_ret; split; [done|]; exists 0%nat; split; [by rewrite app_nil_r|by left]|].
  assert (wp (O := lib_out) (ret (-1)) c no_abort (fun r c' _ => l_fd c' = l_fd c /\ exists k, l_sent c' = l_sent c ++ take k (b :: left) /\
    (r = 0 /\ k = length (b :: left) \/ r = -1 /\ (k < length (b :: left))%nat))) as Hfail.
  { apply wp_ret. split; [done|]. exists 0%nat. split; [by rewrite app_nil_r|]. right. split; [done|cbn; lia]. }
  destruct (crm_time_get_remain_ms _ _ <=? 0) eqn:Hr; [exact Hfail|].
  destruct (turn_cases start MAX_SOCKET_TIMEOUT Hstart ltac:(unfold MAX_SOCKET_TIMEOUT, INT_MAX; lia) t l Hc He) as [?|[Hc' He']]; [congruence|].
  cbn [write_fair] in Hf.
  destruct (io_poll t); [by apply IH|exact Hfail|]. destruct (io_res t) as [| |n]; [by apply IH|by apply IH|].
  destruct Hf as [Hn Hf]. apply wp_bind, wp_modify.
  eapply wp_mono; [apply IH; [done|done|by rewrite length_drop]|done|].
  intros r c' o (Hfd & k & Hs & Hk). split; [done|]. exists (n + k)%nat. rewrite length_drop in Hk. cbn in Hs.
  split; [by rewrite Hs, <- app_assoc, take_take_drop|destruct Hk as [[-> ->]|[-> Hk]]; [left|right]; split; [done|lia|done|lia]].
Qed.

(** ** Reception by the daemon *)

(** The bytes of a client arrive at the daemon: each number is how many of those
    that remain can be read at the next turn. *)
Definition asked (now : timespec) (c : client_context) : Z :=
  data_to_read (start_read now c) - data_read (start_read now c).

Fixpoint feed (i : nat) (now : timespec) (ks : list nat) (stream : list Z) : B_ (list Z) :=
  match ks with
  | [] => ret stream
  | k :: ks' =>
      match stream with
      | [] => ret []
      | _ =>
          let* c := get_client i in
          handle_c_client_event i (mk_revents true false false) now (Some (take k stream)) ;;
          feed i now ks' (drop (Nat.min k (Z.to_nat (asked now c))) stream)
      end
  end.

Record msg_frame (frame : list Z) : Prop := {
  mf_size : word 0 frame = Z.of_nat (length frame) - 8;
  mf_len : 8 < Z.of_nat (length frame) < MAX_MSG_SIZE + 8;
  mf_type : word 1 frame = TEL_BRIDGE_COMMAND_START_SERVICE \/ word 1 frame = TEL_BRIDGE_COMMAND_BROADCAST_INTENT;
}.

(** The daemon has read the bytes [p] of the message, whose number is [n]. *)
Definition partway (i : nat) (n : Z) (q : list msg_queue_t) (frame p : list Z) (s : daemon_context) : Prop :=
  msg_queue (java_ctx s) = q /\ exists c, client_ctx s !! i = Some c /\
  if decide (length p < 8)%nat then
    msg_count (java_ctx s) = n /\
    (msg_state c = MSG_STATE_NONE /\ p = [] \/
     msg_state c = MSG_STATE_IN_HDR /\ data_to_read c = 8 /\ data_read c = Z.of_nat (length p) /\ take (length p) (msg_hdr c) = p)
  else
    msg_state c = MSG_STATE_IN_MSG /\ msg_hdr c = take 8 frame /\ msg_buffer c = Buf (be_bytes n ++ p) /\
    data_read c = 4 + Z.of_nat (length p) /\ data_to_read c = 4 + Z.of_nat (length frame).

(** The message is in the queue, the client is ready for the next one. *)
Definition delivered (i : nat) (n : Z) (q : list msg_queue_t) (frame : list Z) (s : daemon_context) : Prop :=
  msg_queue (java_ctx s) = q ++ [mk_queued (be_bytes n ++ frame) (4 + Z.of_nat (length frame)) 0] /\
  exists c, client_ctx s !! i = Some c /\ msg_state c = MSG_STATE_NONE.

Lemma start_read_other now c : msg_state c <> MSG_STATE_NONE -> start_read now c = c.
Proof. unfold start_read. by destruct (msg_state c). Qed.

Lemma read_fd_take n k l : 0 < n -> (1 <= k)%nat -> l <> [] ->
  read_fd n (Some (take k l)) = Some (take (Nat.min k (Z.to_nat n)) l).
Proof.
  intros Hn Hk Hl. unfold read_fd. rewrite take_take, Nat.min_comm.
  destruct (Nat.min k (Z.to_nat n)) eqn:Hm; [lia|]. by destruct l.
Qed.

(** A read that stays in the header, that ends it, that is in the message. *)
Lemma header_step i n q frame p piece c s : msg_frame frame -> client_ctx s !! i = Some c ->
  msg_queue (java_ctx s) = q -> msg_count (java_ctx s) = n -> msg_state c = MSG_STATE_IN_HDR ->
  msg_hdr c = p ++ piece -> take 8 frame = p ++ piece ->
  wp (handle_header i c) s no_abort (fun _ s' o => o = [] /\ partway i n q frame (p ++ piece) s').
Proof.
  intros [Hsz Hlen Hty] Hc Hq Hn Hst Hh Hf. unfold handle_header, partway. rewrite Hh, <- Hf.
  assert (Hw : forall k, (k < 2)%nat -> word k (take 8 frame) = word k frame).
  { intros k Hk. rewrite <- (take_drop 8 frame) at 2. rewrite word_app; [done|]. rewrite length_take. lia. }
  rewrite !Hw, Hsz by lia.
  assert (is_wakelock_cmd (word 1 frame) = false) as -> by (destruct Hty as [-> | ->]; done).
  assert ((TEL_BRIDGE_COMMAND_NUM <=? word 1 frame) = false) as -> by (destruct Hty as [-> | ->]; done).
  unfold MAX_MSG_SIZE in *. rewrite (proj2 (Z.leb_gt _ _)) by lia. cbn [orb]. unfold set_java, set_client. repeat wp_step. cbn.
  split; [done|]. split; [done|]. eexists. split; [apply list_lookup_insert_eq; by eapply lookup_lt_Some|].
  rewrite decide_False by (rewrite length_take; lia). cbn. rewrite length_take, Hn.
  split_and!; try done; lia.
Qed.

Definition step_post (i : nat) (n : Z) (q : list msg_queue_t) (frame p' : list Z) (s' : daemon_context) (o : list bridge_out) : Prop :=
  o = [] /\ partway i n q frame p' s' /\ p' <> frame \/
  o = [MsgQueued (be_bytes n ++ frame)] /\ delivered i n q frame s' /\ p' = frame.

(** One event: [c] is the client at its start, [c1] when the read starts. *)
Lemma wp_event_start i now c s bs E Q : client_ctx s !! i = Some c ->
  let c1 := start_read now c in
  forall c2 piece, read_fd (data_to_read c1 - data_read c1) (Some bs) = Some piece ->
  (forall s, store c1 piece s = Ok c2 s []) ->
  wp (when (data_read c2 =? data_to_read c2) (handle_complete i c2)) (put_client i c2 (put_client i c1 s)) E Q ->
  wp (handle_c_client_event i (mk_revents true false false) now (Some bs)) s E Q.
Proof.
  intros Hc c1 c2 piece Hr Hs H. unfold handle_c_client_event. cbn [r_in]. apply wp_bind, (wp_bridge_client _ _ c); [done|].
  cbn zeta. fold c1. apply wp_bind. unfold set_client at 1. wp_step. cbn beta. rewrite Hr. apply wp_bind.
  unfold wp at 1. rewrite Hs. unfold set_client. wp_step. wp_step. cbn. exact H.
Qed.

Lemma partway_none i n q frame s c : msg_queue (java_ctx s) = q -> client_ctx s !! i = Some c ->
  msg_count (java_ctx s) = n -> msg_state c = MSG_STATE_NONE -> partway i n q frame [] s.
Proof. intros. split; [done|]. exists c. split; [done|]. rewrite decide_True by (cbn; lia). auto. Qed.

Lemma take_length_idem m (l : list Z) : take (length (take m l)) l = take m l.
Proof. rewrite length_take. by rewrite <- take_take, firstn_all. Qed.

Lemma put_put_lookup i c1 c2 c s : client_ctx s !! i = Some c -> client_ctx (put_client i c2 (put_client i c1 s)) !! i = Some c2.
Proof. intros Hc. eapply put_lookup. by eapply put_lookup. Qed.

Section feed_steps.
Context (i : nat) (now : timespec) (k : nat) (n : Z) (q : list msg_queue_t) (frame p stream : list Z) (s : daemon_context) (c : client_context).
Hypothesis (Hf : msg_frame frame) (Hp : p ++ stream = frame) (Hne : stream <> []) (Hk : (1 <= k)%nat).
Hypothesis (Hq : msg_queue (java_ctx s) = q) (Hc : client_ctx s !! i = Some c).

Lemma stream_length : (length p + length stream = length frame /\ 0 < length stream)%nat.
Proof using All. split; [by rewrite <- Hp, length_app|]. destruct stream; cbn; [done|lia]. Qed.

Let piece := take (Nat.min k (Z.to_nat (asked now c))) stream.
Let goal := piece <> [] /\ wp (handle_c_client_event i (mk_revents true false false) now (Some (take k stream))) s no_abort
  (fun _ s' o => step_post i n q frame (p ++ piece) s' o).

Lemma feed_header c1 : (length p < 8)%nat -> msg_count (java_ctx s) = n -> start_read now c = c1 ->
  msg_state c1 = MSG_STATE_IN_HDR -> data_to_read c1 = 8 -> data_read c1 = Z.of_nat (length p) -> take (length p) (msg_hdr c1) = p -> goal.
Proof using All.
  intros H8 Hn H1 Hs1 Ht1 Hd1 Hh1. destruct stream_length as [Hl Hsl]. pose proof (mf_len _ Hf) as Hfl.
  assert (Hask : asked now c = 8 - Z.of_nat (length p)) by (unfold asked; rewrite H1; lia).
  assert (Hpl : (1 <= length piece <= 8 - length p)%nat) by (subst piece; rewrite length_take, Hask; lia).
  split; [by intros Hnil; rewrite Hnil in Hpl; cbn in Hpl; lia|].
  eapply (wp_event_start i now c s _ _ _ Hc); [rewrite H1; apply read_fd_take; [lia|done|done]|rewrite H1; unfold store; rewrite Hs1; reflexivity|].
  fold (asked now c). rewrite <- H1 in Hd1, Ht1. change (data_to_read (start_read now c) - data_read (start_read now c)) with (asked now c).
  replace (data_to_read c1 - data_read c1) with (asked now c) by (by rewrite <- H1). fold piece. rewrite H1 in Hd1, Ht1.
  set (c2 := mk_client _ _ _ _ _ _ _ _).
  assert (Hh2 : msg_hdr c2 = p ++ piece) by (cbn; unfold read_at; by rewrite Hd1, Nat2Z.id, Hh1).
  assert (Hl2 : client_ctx (put_client i c2 (put_client i c1 s)) !! i = Some c2) by by eapply put_put_lookup.
  assert (Hd2 : data_read c2 = Z.of_nat (length (p ++ piece))) by (cbn; rewrite length_app; lia).
  assert (Hto2 : data_to_read c2 = 8) by done. rewrite H1.
  assert (Hnf : p ++ piece <> frame) by (intros He; apply (f_equal length) in He; rewrite length_app in He; lia).
  apply wp_when; intros Hfull; bool_facts.
  - unfold handle_complete. cbn [msg_state c2]. eapply wp_mono; [apply (header_step i n q frame p piece c2); try done|done|].
    + rewrite length_app in Hd2. rewrite <- Hp, take_app, take_ge by lia. f_equal.
      replace (8 - length p)%nat with (length piece) by lia. apply take_length_idem.
    + intros [] s' o [-> Hpw]. left. done.
  - left. split; [done|]. split; [|done]. split; [done|]. exists c2. split; [done|].
    rewrite decide_True by (rewrite length_app in *; lia). split; [done|]. right. cbn [msg_state c2]. split_and!; try done.
    by rewrite Hh2, firstn_all.
Qed.

Lemma feed_message : (8 <= length p)%nat -> msg_state c = MSG_STATE_IN_MSG -> msg_hdr c = take 8 frame ->
  msg_buffer c = Buf (be_bytes n ++ p) -> data_read c = 4 + Z.of_nat (length p) -> data_to_read c = 4 + Z.of_nat (length frame) -> goal.
Proof using All.
  intros H8 Hs Hh Hb Hd Ht. destruct stream_length as [Hl Hsl]. pose proof (mf_len _ Hf) as Hfl.
  assert (H1 : start_read now c = c) by (apply start_read_other; congruence).
  assert (Hask : asked now c = Z.of_nat (length stream)) by (unfold asked; rewrite H1; lia).
  assert (Hpl : (1 <= length piece)%nat) by (subst piece; rewrite length_take, Hask; lia).
  assert (Hpe : piece = take (length piece) stream) by (symmetry; apply take_length_idem).
  split; [by intros Hnil; rewrite Hnil in Hpl; cbn in Hpl; lia|].
  eapply (wp_event_start i now c s _ _ _ Hc); [rewrite H1; apply read_fd_take; [lia|done|done]|rewrite H1; unfold store; rewrite Hs, Hb; reflexivity|].
  replace (data_to_read c - data_read c) with (asked now c) by (unfold asked; by rewrite H1). fold piece. rewrite H1.
  set (c2 := mk_client _ _ _ _ _ _ _ _).
  assert (Hb2 : msg_buffer c2 = Buf (be_bytes n ++ p ++ piece)).
  { cbn -[be_bytes]. unfold read_at. rewrite take_ge by (rewrite length_app, be_bytes_length; lia). by rewrite <- app_assoc. }
  assert (Hl2 : client_ctx (put_client i c2 (put_client i c s)) !! i = Some c2) by by eapply put_put_lookup.
  assert (Hd2 : data_read c2 = 4 + Z.of_nat (length (p ++ piece))) by (cbn; rewrite length_app; lia).
  assert (Hto2 : data_to_read c2 = 4 + Z.of_nat (length frame)) by done.
  apply wp_when; intros Hfull; bool_facts.
  - unfold handle_complete. rewrite Hb2. cbn [msg_state c2 msg_hdr].
    assert (Hpf : p ++ piece = frame).
    { rewrite length_app in Hd2. rewrite <- Hp. f_equal. rewrite Hpe. apply take_ge. lia. }
    rewrite Hpf. apply wp_bind, wp_msg_to_string.
    { rewrite Hh. rewrite <- (word_app 1 (take 8 frame) (drop 8 frame)) by (rewrite length_take; lia). rewrite take_drop.
      destruct (mf_type _ Hf); auto. }
    intros _. unfold queue_msg, set_java, set_client. repeat wp_step. cbn -[be_bytes c2]. right. split; [done|]. split; [|done].
    split; [by rewrite <- Hq, Hto2|]. eexists. split; [apply list_lookup_insert_eq; by eapply lookup_lt_Some|done].
  - left. split; [done|]. assert (p ++ piece <> frame) by (intros He; rewrite He in Hd2; lia). split; [|done].
    split; [done|]. exists c2. split; [done|]. rewrite decide_False by (rewrite length_app; lia). by split_and!.
Qed.

End feed_steps.

Lemma feed_step i now k n q frame p stream s c : msg_frame frame -> p ++ stream = frame -> stream <> [] -> (1 <= k)%nat ->
  partway i n q frame p s -> client_ctx s !! i = Some c ->
  let piece := take (Nat.min k (Z.to_nat (asked now c))) stream in
  piece <> [] /\
  wp (handle_c_client_event i (mk_revents true false false) now (Some (take k stream))) s no_abort
    (fun _ s' o => step_post i n q frame (p ++ piece) s' o).
Proof.
  intros Hf Hp Hne Hk (Hq & c' & Hc' & Hst) Hc. rewrite Hc in Hc'. injection Hc' as <-.
  destruct (decide (length p < 8)%nat) as [H8|H8].
  - destruct Hst as [Hn [[Hs ->]|(Hs & Ht & Hd & Hh)]].
    + eapply feed_header; try done; unfold start_read; by rewrite Hs.
    + apply (feed_header i now k n q frame p stream s c Hf Hp Hne Hk Hq Hc c); try done. apply start_read_other. congruence.
  - destruct Hst as (Hs & Hh & Hb & Hd & Ht). apply feed_message; try done. lia.
Qed.

(** However the bytes of a message arrive, with enough turns it is queued whole,
    once, with the number of the daemon. *)
Lemma wp_feed i now ks n q frame p stream s : msg_frame frame -> p ++ stream = frame -> stream <> [] ->
  Forall (fun k => 1 <= k)%nat ks -> (length stream <= length ks)%nat -> partway i n q frame p s ->
  wp (feed i now ks stream) s no_abort (fun rest s' o => rest = [] /\ o = [MsgQueued (be_bytes n ++ frame)] /\ delivered i n q frame s').
Proof.
  intros Hf. revert p stream s. induction ks as [|k ks IH]; intros p stream s Hp Hne Hks Hlen Hpw; [destruct stream; cbn in Hlen; [done|lia]|].
  apply Forall_cons_1 in Hks as [Hk Hks]. pose proof Hpw as (_ & c & Hc & _). cbn [feed].
  destruct stream as [|b stream'] eqn:Hst; [done|]. rewrite <- Hst in *. clear b stream' Hst.
  destruct (feed_step i now k n q frame p stream s c Hf Hp Hne Hk Hpw Hc) as [Hpn Hstep].
  set (m := Nat.min k _) in *. apply wp_bind, (wp_bridge_client _ _ c); [done|]. apply wp_bind.
  eapply wp_mono; [exact Hstep|done|]. cbn beta. fold m. intros [] s' o [(-> & Hpw' & Hnf)|(-> & Hd & Hpf)].
  - assert (Hrest : drop m stream <> []).
    { intros Hd. apply Hnf. rewrite <- Hp. f_equal. rewrite <- (take_drop m stream) at 2. by rewrite Hd, app_nil_r. }
    eapply wp_mono; [apply (IH (p ++ take m stream)); [|done|done| |done]|done|].
    + by rewrite <- app_assoc, take_drop.
    + rewrite length_drop. cbn in Hlen. assert (m <> 0)%nat by (intros ->; done). lia.
    + cbn. done.
  - assert (drop m stream = []) as ->.
    { rewrite <- (take_drop m stream) in Hp. rewrite app_assoc, Hpf in Hp. rewrite <- (app_nil_r frame) in Hp at 2. by apply app_inv_head in Hp. }
    destruct ks; cbn [feed]; apply wp_ret; by cbn.
Qed.

(** ** What the application reads *)

Lemma getInt_be z r : is_u32 z -> getInt (be_bytes z ++ r) = Some (i32 z, r).
Proof.
  unfold is_u32. intros Hz. unfold getInt, be_bytes. cbn [app]. do 2 f_equal. f_equal.
  pose proof (Z.mod_pos_bound z 256 ltac:(lia)). pose proof (Z.mod_pos_bound (z / 256) 256 ltac:(lia)).
  pose proof (Z.mod_pos_bound (z / 65536) 256 ltac:(lia)). rewrite !Z.shiftl_mul_pow2 by lia.
  replace (z / 16777216 * 2 ^ 24) with (z / 16777216 * 2 ^ 8 * 2 ^ 16) by lia.
  rewrite <- !Z.lor_assoc. rewrite (lor_low (_ mod 256) (z mod 256) 8) by lia.
  rewrite (lor_low ((z / 65536) mod 256) _ 16) by lia.
  replace (z / 16777216 * 2 ^ 8 * 2 ^ 16) with (z / 16777216 * 2 ^ 24) by lia.
  rewrite (lor_low (z / 16777216) _ 24) by lia.
  pose proof (be_value_bytes z [] Hz) as Hb. unfold deserialize_uint32, be_bytes, be_value in Hb. cbn in Hb. injection Hb as Hb. etransitivity; [|exact Hb]. ring.
Qed.

Lemma small_int z : 0 <= z <= INT_MAX -> i32 z = z.
Proof. intros H. apply i32_small. unfold is_int, INT_MIN. lia. Qed.

Lemma get_str_data s r : Z.of_nat (length s) <= INT_MAX -> getSerializedType (str_data s ++ r) = Some (VaStr s, r).
Proof.
  intros Hs. unfold getSerializedType, str_data. rewrite <- !app_assoc.
  rewrite getInt_be by (unfold is_u32, INT_MAX in *; lia). rewrite getInt_be by done.
  rewrite (small_int (Z.of_nat _)) by lia. change (i32 TEL_BRIDGE_DATA_TYPE_STRING =? TEL_BRIDGE_DATA_TYPE_INT) with false.
  change (i32 TEL_BRIDGE_DATA_TYPE_STRING =? TEL_BRIDGE_DATA_TYPE_STRING) with true. cbn iota.
  rewrite (proj2 (Z.ltb_ge _ _)) by lia. rewrite (proj2 (Z.ltb_ge _ _)) by (rewrite length_app; lia). cbn [orb].
  by rewrite Nat2Z.id, take_app_length, drop_app_length.
Qed.

Lemma get_va_data v r : va_ok v -> getSerializedType (va_data v ++ r) = Some (v, r).
Proof.
  destruct v as [z|s]; cbn [va_ok va_data]; intros Hv; [|by apply get_str_data].
  unfold getSerializedType, int_data. rewrite <- !app_assoc. rewrite !getInt_be by first [done | apply u32_range].
  change (i32 TEL_BRIDGE_DATA_TYPE_INT =? TEL_BRIDGE_DATA_TYPE_INT) with true. change (i32 4 =? 4) with true. cbn [negb].
  rewrite i32_u32, i32_small by done. done.
Qed.

Lemma get_string_data s r : Z.of_nat (length s) <= INT_MAX -> get_string (str_data s ++ r) = Some (s, r).
Proof. intros Hs. unfold get_string. by rewrite get_str_data. Qed.

Lemma get_params_items items n : Forall item_ok items -> (length items <= n)%nat ->
  get_params n (concat (item_data <$> items)) = Some items.
Proof.
  intros Hi. revert n. induction Hi as [|x items (Hne & _ & Hl & Hv) Hi IH]; intros n Hn; [by destruct n|].
  destruct n as [|n]; cbn in Hn; [lia|]. cbn [fmap list_fmap concat]. unfold item_data at 1.
  rewrite <- app_assoc. cbn [get_params]. destruct (str_data x.1 ++ _) as [|b l] eqn:Hd; [by unfold str_data in Hd|]. rewrite <- Hd.
  rewrite get_string_data by done. rewrite get_va_data by done. rewrite IH by lia. by destruct x.
Qed.

Lemma items_bytes items : (length items <= length (concat (item_data <$> items)))%nat.
Proof.
  induction items as [|x items IH]; cbn -[item_data]; [done|]. rewrite length_app. unfold item_data at 1.
  rewrite length_app. pose proof (str_data_length x.1). lia.
Qed.

(** ** Calls of the library *)

Inductive api_call : Type :=
| CallService (s_package s_class : list Z)
| CallIntent (name : list Z) (items : list (list Z * va_value)).

Definition lib_call (start : timespec) (turns : list io_turn) (x : api_call) : L_ Z :=
  match x with
  | CallService s_package s_class => start_service start turns (Some s_package) (Some s_class)
  | CallIntent name items => broadcast_intent start turns (Some name) (format_of items) (items.*2)
  end.

Definition call_cmd (x : api_call) : Z :=
  match x with CallService _ _ => TEL_BRIDGE_COMMAND_START_SERVICE | CallIntent _ _ => TEL_BRIDGE_COMMAND_BROADCAST_INTENT end.
Definition call_frame (x : api_call) : list Z :=
  match x with
  | CallService p c => frame_of (call_cmd x) (Some p) (Some c) []
  | CallIntent n items => frame_of (call_cmd x) (Some n) None items
  end.
Definition call_core (x : api_call) : core_call :=
  match x with CallService p c => StartService p c | CallIntent n items => BroadcastIntent n items end.

(** The names of the parameters have no percent sign, the numbers are [int]s and
    the message is one the daemon accepts. *)
Definition item_named (x : list Z * va_value) : Prop :=
  x.1 <> [] /\ (37 ∉ x.1) /\ match x.2 with VaInt z => is_int z | VaStr _ => True end.
Definition call_ok (x : api_call) : Prop :=
  match x with CallService _ _ => True | CallIntent _ items => Forall item_named items end /\
  Z.of_nat (length (call_frame x)) < MAX_MSG_SIZE + 8.

Lemma frame_length cmd p1 p2 items : Z.of_nat (length (frame_of cmd p1 p2 items)) = 8 + Z.of_nat (length (body_of p1 p2 items)).
Proof. unfold frame_of. rewrite !length_app, !be_bytes_length. lia. Qed.

Lemma item_data_length x items : x ∈ items -> (length (item_data x) <= length (concat (item_data <$> items)))%nat.
Proof.
  intros Hx. induction Hx as [x l|x y l _ IH]; cbn -[item_data]; rewrite length_app; lia.
Qed.

Lemma items_small n items : Forall item_named items -> Z.of_nat (length (concat (item_data <$> items))) <= n -> n <= INT_MAX ->
  Forall item_ok items.
Proof.
  intros Hi Hl Hn. rewrite Forall_forall in Hi |- *. intros x Hx. destruct (Hi x Hx) as (H1 & H2 & H3).
  apply list_elem_of_In in Hx. pose proof (item_data_length x items Hx) as Hd. unfold item_data in Hd at 1. rewrite length_app in Hd.
  pose proof (str_data_length x.1). pose proof (va_data_length x.2). split_and!; [done|done|lia|].
  destruct x.2; cbn in *; [done|lia].
Qed.

Lemma call_parts x : call_ok x -> exists p1 p2 items, Forall item_ok items /\
  call_frame x = frame_of (call_cmd x) (Some p1) p2 items /\
  on_content (call_cmd x) (body_of (Some p1) p2 items) = Some (call_core x) /\
  forall start turns, lib_call start turns x = send_msg start turns (call_cmd x) (Some p1) p2 (format_of items) (items.*2).
Proof.
  intros [Hi Hl]. unfold MAX_MSG_SIZE in Hl. destruct x as [p c|n items]; cbn [call_frame] in *; rewrite frame_length in Hl; unfold body_of in Hl;
    rewrite !length_app in Hl; cbn [opt_data] in Hl.
  - pose proof (str_data_length p). pose proof (str_data_length c). exists p, (Some c), []. split; [done|]. split; [done|]. split; [|done].
    unfold on_content, body_of, INT_MAX. cbn [opt_data fmap list_fmap concat]. rewrite app_nil_r.
    rewrite get_string_data by (unfold INT_MAX; lia). rewrite <- (app_nil_r (str_data c)).
    by rewrite get_string_data by (unfold INT_MAX; lia).
  - pose proof (str_data_length n).
    assert (Hok : Forall item_ok items) by (eapply (items_small 4096); [done|lia|unfold INT_MAX; lia]).
    exists n, None, items. split; [done|]. split; [done|]. split; [|done].
    unfold on_content, body_of. cbn [opt_data app]. rewrite get_string_data by (unfold INT_MAX; lia). cbn.
    by rewrite get_params_items by (done || apply items_bytes).
Qed.

Lemma frame_msg_frame cmd p1 p2 items : cmd = TEL_BRIDGE_COMMAND_START_SERVICE \/ cmd = TEL_BRIDGE_COMMAND_BROADCAST_INTENT ->
  Z.of_nat (length (frame_of cmd (Some p1) p2 items)) < MAX_MSG_SIZE + 8 -> msg_frame (frame_of cmd (Some p1) p2 items).
Proof.
  intros Hc Hl. pose proof (frame_length cmd (Some p1) p2 items) as Hfl. unfold MAX_MSG_SIZE in *.
  assert (8 <= Z.of_nat (length (body_of (Some p1) p2 items))).
  { unfold body_of. rewrite length_app. cbn [opt_data]. pose proof (str_data_length p1). lia. }
  split.
  - rewrite Hfl. unfold frame_of. etransitivity; [apply (word_be 0 _ [] _); [unfold is_u32; lia|done]|lia].
  - unfold MAX_MSG_SIZE. lia.
  - unfold frame_of. rewrite (word_be 1 cmd (be_bytes _) _); [done|by destruct Hc as [-> | ->]|apply be_bytes_length].
Qed.

Lemma call_cmd_cases x : call_cmd x = TEL_BRIDGE_COMMAND_START_SERVICE \/ call_cmd x = TEL_BRIDGE_COMMAND_BROADCAST_INTENT.
Proof. destruct x; auto. Qed.

Lemma send_msg_call start turns x c : call_ok x -> 0 <= l_fd c -> valid_clock start ->
  Forall (runs_from start) turns -> List.Exists (over start MAX_SOCKET_TIMEOUT) turns -> write_fair (length (call_frame x)) turns ->
  wp (lib_call start turns x) c no_abort (fun r c' _ => l_fd c' = l_fd c /\ exists k, l_sent c' = l_sent c ++ take k (call_frame x) /\
      (r = 0 /\ k = length (call_frame x) \/ r = -1 /\ (k < length (call_frame x))%nat)).
Proof.
  intros Hok Hfd Hv Hr Ho Hw. destruct (call_parts x Hok) as (p1 & p2 & items & Hi & Hf & _ & Hl). rewrite Hl. rewrite Hf in *.
  unfold send_msg. wp_step. wp_step. rewrite (proj2 (Z.ltb_ge _ _) Hfd).
  destruct (build_msg_run (call_cmd x) (Some p1) p2 items) as [w Hb]; [by destruct (call_cmd_cases x) as [-> | ->]|done| |].
  { destruct Hok as [_ Hok]. rewrite Hf in Hok. unfold MAX_MSG_SIZE, INT_MAX in *. lia. }
  wp_step. unfold wp at 1, in_buffer. rewrite Hb. by apply wp_send_loop.
Qed.

(** The bytes the decoder of the application leaves as they are. *)
Definition ascii_bytes (l : list Z) : Prop := Forall (fun b => b < 128) l.

Lemma utf8_ascii l : ascii_bytes l -> utf8_decode l = l.
Proof. induction 1 as [|b l Hb _ IH]; cbn; [done|]. by rewrite (proj2 (Z.ltb_lt _ _) Hb), IH. Qed.

Lemma getInt_word z r : exists v, getInt (be_bytes z ++ r) = Some (v, r).
Proof. eexists. reflexivity. Qed.

(** The application reads the frame of a call behind its number. *)
Lemma read_call x n : call_ok x -> read_message (be_bytes n ++ call_frame x) = Calls (be_bytes n) (call_core x) [].
Proof.
  intros Hok. destruct (call_parts x Hok) as (p1 & p2 & items & _ & Hf & Hcore & _). destruct Hok as [_ Hl]. rewrite Hf in *.
  pose proof (frame_length (call_cmd x) (Some p1) p2 items) as Hfl. unfold MAX_MSG_SIZE in *.
  assert (8 <= Z.of_nat (length (body_of (Some p1) p2 items))).
  { unfold body_of. rewrite length_app. cbn [opt_data]. pose proof (str_data_length p1). lia. }
  unfold read_message, frame_of. set (body := body_of (Some p1) p2 items) in *.
  destruct (getInt_word n (be_bytes (Z.of_nat (length body)) ++ be_bytes (call_cmd x) ++ body)) as [v ->].
  rewrite getInt_be by (unfold is_u32; lia). rewrite getInt_be by (by destruct (call_cmd_cases x) as [-> | ->]).
  rewrite (i32_small (Z.of_nat _)) by (unfold is_int, INT_MIN, INT_MAX; lia).
  rewrite (i32_small (call_cmd x)) by (by destruct (call_cmd_cases x) as [-> | ->]).
  destruct (Z.ltb_spec 0 (Z.of_nat (length body))); [|lia]. rewrite Z.ltb_irrefl, Nat2Z.id, firstn_all, drop_all.
  rewrite Hcore. reflexivity.
Qed.

(** C40. A service or an intent, from the call of the library to the Java
    application: [start_service] and [broadcast_intent] return, with 0 exactly
    when the whole message has been written and -1 after a part of it; the
    daemon, however the bytes arrive, queues the message once, whole, after its
    number; and when every byte of the numbered message is an ASCII one (its
    number, its sizes, its integers and its strings), the Java application, which
    decodes UTF-8, reads from it the call that was made, with the names, the
    types and the values of the parameters, and acknowledges the number. *)
Theorem bridge_message_roundtrip x start turns c i now ks s cl :
  call_ok x -> 0 <= l_fd c -> valid_clock start ->
  Forall (runs_from start) turns -> List.Exists (over start MAX_SOCKET_TIMEOUT) turns -> write_fair (length (call_frame x)) turns ->
  client_ctx s !! i = Some cl -> msg_state cl = MSG_STATE_NONE ->
  Forall (fun k => 1 <= k)%nat ks -> (length (call_frame x) <= length ks)%nat ->
  (exists r c' o, lib_call start turns x c = Ok r c' o /\
     (r = 0 /\ l_sent c' = l_sent c ++ call_frame x \/
      r = -1 /\ exists k, (k < length (call_frame x))%nat /\ l_sent c' = l_sent c ++ take k (call_frame x))) /\
  let m := be_bytes (msg_count (java_ctx s)) ++ call_frame x in
  (exists s', feed i now ks (call_frame x) s = Ok [] s' [MsgQueued m] /\
     msg_queue (java_ctx s') = msg_queue (java_ctx s) ++ [mk_queued m (Z.of_nat (length m)) 0]) /\
  (ascii_bytes m -> java_reads m = Calls (be_bytes (msg_count (java_ctx s))) (call_core x) []).
Proof.
  intros Hok Hfd Hv Hr Ho Hw Hc Hs Hks Hlen. split; [|split].
  - destruct (wp_total _ _ _ (send_msg_call start turns x c Hok Hfd Hv Hr Ho Hw)) as (r & c' & o & He & _ & k & Hk & Hres).
    exists r, c', o. split; [done|]. destruct Hres as [[-> ->]|[-> Hk']]; [left|right; eauto]. split; [done|]. by rewrite Hk, firstn_all.
  - destruct (call_parts x Hok) as (p1 & p2 & items & _ & Hf & _). pose proof (proj2 Hok) as Hl. rewrite Hf in *.
    pose proof (frame_msg_frame _ p1 p2 items (call_cmd_cases x) Hl) as Hmf.
    destruct (wp_total _ _ _ (wp_feed i now ks _ _ _ [] _ s Hmf eq_refl ltac:(by intros Hn; rewrite Hn in Hmf; destruct Hmf; cbn in *; lia)
      Hks Hlen (partway_none i _ _ _ s cl eq_refl Hc eq_refl Hs))) as (rest & s' & o & He & -> & -> & Hq & _).
    exists s'. split; [done|]. rewrite Hq, length_app, be_bytes_length. do 3 f_equal. lia.
  - intros Ha. unfold java_reads. rewrite utf8_ascii by exact Ha. by apply read_call.
Qed.

(** C39. The daemon refines its specification: over any run of its main loop that
    does not abort, the messages are given to the Java application in the order
    of their reception, whole and one at a time, each leaving the queue when it
    is acknowledged or after three losses of the application; the daemon holds
    the wakelock exactly when a connected client does; whenever it waits with
    the application connected, a message is being sent or acknowledged, or
    nothing is left to send and the application knows the wakelock's state.  An
    abort has one of eight reasons. *)
Theorem bridge_refines_spec c_sock j_sock s0 turns :
  length (client_ctx s0) = 3%nat -> Forall turn_ok turns ->
  match main_loop turns (init c_sock j_sock s0) with
  | Ok _ s o =>
      (exists a, bspec_run init_spec o = Some a /\ rel s a) /\
      wakelock_held s = existsb holds (client_ctx s) /\
      forall now, match fill_pollfd now s with
        | Ok _ s' _ => 0 <= j_fd (java_ctx s') -> msg_in_progress (java_ctx s') = true \/ wait_ack (java_ctx s') = true \/
            msg_queue (java_ctx s') = [] /\ j_wakelock_held (java_ctx s') = wakelock_held s'
        | Abort _ _ => False
        end
  | Abort r _ => bridge_abort r
  end.
Proof.
  intros Hl Ht. destruct (init_good c_sock j_sock s0 Hl) as [Hi Hr].
  pose proof (wp_main_loop turns _ Hi Ht) as H. unfold wp in H. destruct (main_loop _ _) as [[] s o|r o]; [|done].
  destruct H as [Hinv Hsim]. split; [by apply Hsim|]. split; [apply Hinv|]. intros now.
  destruct (wp_total _ _ _ (wp_fill s now Hinv)) as (p & s' & o' & -> & _ & Hf). apply Hf.
Qed.

(** ** Runs *)

Definition ts0 : timespec := mk_timespec 0 0.
Definition blank_client : client_context := mk_client 0 MSG_STATE_NONE [] BufNull 0 0 0 ts0.
Definition blank_java : java_context := mk_java 0 0 ts0 false [] [] MsgUninit 0 0 false false 0 [].
Definition blank : daemon_context := mk_daemon 0 0 false [blank_client; blank_client; blank_client] blank_java.
Definition started : daemon_context := init 3 4 blank.

Definition r_none : revents_t := mk_revents false false false.
Definition r_read : revents_t := mk_revents true false false.
Definition r_write : revents_t := mk_revents false true false.
Definition r_gone : revents_t := mk_revents false false true.

(** Turns with one event; the clock does not move. *)
Definition t_client (fd : Z) : turn := mk_turn ts0 ts0 false r_read fd r_none (-1) [] r_none None 0.
Definition t_java (fd : Z) : turn := mk_turn ts0 ts0 false r_none (-1) r_read fd [] r_none None 0.
Definition t_data (bs : list Z) : turn := mk_turn ts0 ts0 false r_none (-1) r_none (-1) [(r_read, Some bs)] r_none None 0.
Definition t_left : turn := mk_turn ts0 ts0 false r_none (-1) r_none (-1) [(r_gone, None)] r_none None 0.
Definition t_send (n : Z) : turn := mk_turn ts0 ts0 false r_none (-1) r_none (-1) [] r_write None n.
Definition t_ack (bs : list Z) : turn := mk_turn ts0 ts0 false r_none (-1) r_none (-1) [] r_read (Some bs) 0.
Definition t_lost : turn := mk_turn ts0 ts0 false r_none (-1) r_none (-1) [] r_gone None 0.
Definition t_late : turn := mk_turn ts0 (mk_timespec 1 0) false r_none (-1) r_none (-1) [] r_none None 0.

Definition demo_call : api_call := CallService [97] [98; 99].
Definition demo_frame : list Z := call_frame demo_call.
Definition demo_send : list turn := [t_client 10; t_data (take 8 demo_frame); t_data (drop 8 demo_frame)].
Definition demo_number (n : Z) : list Z := be_bytes n.

Definition emitted {A} (r : outcome daemon_context bridge_out A) : list bridge_out :=
  match r with Ok _ _ o | Abort _ o => o end.
Definition aborts_with {A} (r : outcome daemon_context bridge_out A) (x : abort_reason) : Prop :=
  match r with Abort y _ => y = x | Ok _ _ _ => False end.

(** Runs of the bridge daemon: (1) the Java application leaves while nothing
    is being sent, after a message of a client was acknowledged: the daemon
    aborts, as it does (2) when the application leaves before the first message
    has been sent, on a pointer that was never set; (3) a client leaves in the
    middle of a message, and the next one of the same slot leaves too: the buffer
    is freed twice; (4) a message without data is never queued, its client is
    disconnected half a second later; (5) a message is dropped when the
    application has been lost three times while it was sent, and (6) is given
    again as it was otherwise. *)
Lemma bridge_failing_runs :
  aborts_with (main_loop ([t_java 20] ++ demo_send ++ [t_send 100; t_ack (demo_number 0); t_lost]) started) queue_empty /\
  aborts_with (main_loop [t_java 20; t_lost] started) msg_uninit /\
  aborts_with (main_loop [t_client 10; t_data (take 8 demo_frame); t_left; t_client 10; t_left] started) double_free /\
  emitted (main_loop [t_client 10; t_data (be_bytes 0 ++ be_bytes TEL_BRIDGE_COMMAND_START_SERVICE); t_late] started)
    = [ClientConnected 0; CloseFd 10; ClientRemoved 0] /\
  emitted (main_loop (demo_send ++ concat (replicate 3 [t_java 20; t_send 5; t_lost])) started)
    = [ClientConnected 0; MsgQueued (demo_number 0 ++ demo_frame)]
      ++ concat (replicate 3 [JavaConnected; JavaWrite (take 5 (demo_number 0 ++ demo_frame)); CloseFd 20; JavaRemoved])
      ++ [MsgDropped (demo_number 0 ++ demo_frame)] /\
  emitted (main_loop (demo_send ++ [t_java 20; t_send 5; t_lost; t_java 20; t_send 100; t_ack (demo_number 0)]) started)
    = [ClientConnected 0; MsgQueued (demo_number 0 ++ demo_frame); JavaConnected;
       JavaWrite (take 5 (demo_number 0 ++ demo_frame)); CloseFd 20; JavaRemoved; JavaConnected;
       JavaWrite (demo_number 0 ++ demo_frame); MsgAcked (demo_number 0 ++ demo_frame)].
Proof. split_and!; vm_compute; reflexivity. Qed.

#[export] Instance read_ok_dec r : Decision (read_ok r).
Proof. destruct r; cbn; unfold bytes; apply _. Defined.
#[export] Instance turn_ok_dec t : Decision (turn_ok t).
Proof. unfold turn_ok. apply _. Defined.

Lemma bridge_refines_spec_witness :
  match main_loop (demo_send ++ [t_java 20; t_send 100; t_ack (demo_number 0)]) (init 3 4 blank) with
  | Ok _ s o =>
      (exists a, bspec_run init_spec o = Some a /\ rel s a) /\
      wakelock_held s = existsb holds (client_ctx s) /\
      forall now, match fill_pollfd now s with
        | Ok _ s' _ => 0 <= j_fd (java_ctx s') -> msg_in_progress (java_ctx s') = true \/ wait_ack (java_ctx s') = true \/
            msg_queue (java_ctx s') = [] /\ j_wakelock_held (java_ctx s') = wakelock_held s'
        | Abort _ _ => False
        end
  | Abort r _ => bridge_abort r
  end /\ (0 < length (emitted (main_loop (demo_send ++ [t_java 20; t_send 100; t_ack (demo_number 0)]) started)))%nat.
Proof.
  split; [|vm_compute; lia]. apply (bridge_refines_spec 3 4 blank); [reflexivity|].
  apply (bool_decide_unpack _). vm_compute. exact I.
Defined.

Definition demo_intent : api_call := CallIntent [97] [([105; 100], VaInt 42); ([107], VaStr [120; 121])].

(** What is not ASCII is misread: the bytes of a negative number are replaced and
    the application broadcasts another one; a character of two bytes counts for
    two in the sizes, and a content of 128 bytes, such as a name of 120, has a
    size that is replaced, so that the application waits for more than there
    is. *)
Example misread_intent :
  java_reads (be_bytes 0 ++ call_frame (CallIntent [97] [([105; 100], VaInt (-2))])) =
    Calls (be_bytes 0) (BroadcastIntent [97] [([105; 100], VaInt (-3))]) [] /\
  java_reads (be_bytes 0 ++ call_frame (CallIntent [97] [([107], VaStr [195; 169])])) = Waits /\
  java_reads (be_bytes 0 ++ call_frame (CallIntent (replicate 120 97) [])) = Waits.
Proof. split_and!; vm_compute; reflexivity. Qed.

Definition demo_io : list io_turn :=
  [Socket.mk_turn (mk_timespec 10 0) PollReady (IoDone 20); Socket.mk_turn (mk_timespec 10 0) PollReady (IoDone 38);
   Socket.mk_turn (mk_timespec 11 0) PollFailed IoFailed].

(** An intent with a number and a string, sent in two pieces, read one byte at a
    time by the first slot of a daemon. *)
Lemma bridge_message_roundtrip_witness :
  let s := put_client 0 (mk_client 10 MSG_STATE_NONE [] BufNull 0 0 0 ts0) started in
  let c := mk_lib 7 [] in
  let ks := replicate 200 1%nat in
  (exists r c' o, lib_call (mk_timespec 10 0) demo_io demo_intent c = Ok r c' o /\
     (r = 0 /\ l_sent c' = l_sent c ++ call_frame demo_intent \/
      r = -1 /\ exists k, (k < length (call_frame demo_intent))%nat /\ l_sent c' = l_sent c ++ take k (call_frame demo_intent))) /\
  let m := be_bytes (msg_count (java_ctx s)) ++ call_frame demo_intent in
  (exists s', feed 0 ts0 ks (call_frame demo_intent) s = Ok [] s' [MsgQueued m] /\
     msg_queue (java_ctx s') = msg_queue (java_ctx s) ++ [mk_queued m (Z.of_nat (length m)) 0]) /\
  java_reads m = Calls (be_bytes 0) (call_core demo_intent) [].
Proof.
  destruct (bridge_message_roundtrip demo_intent (mk_timespec 10 0) demo_io (mk_lib 7 []) 0 ts0 (replicate 200 1%nat)
    (put_client 0 (mk_client 10 MSG_STATE_NONE [] BufNull 0 0 0 ts0) started) (mk_client 10 MSG_STATE_NONE [] BufNull 0 0 0 ts0))
    as (Hcall & Hqueue & Hread).
  - split; [|vm_compute; reflexivity]. cbn.
    repeat (apply Forall_cons_2; [split; [done|]; split; [by apply (bool_decide_unpack _); vm_compute|]; vm_compute; by split_and?|]).
    apply Forall_nil_2.
  - cbn. lia.
  - by split_and!.
  - repeat (apply Forall_cons_2; [by split_and!; vm_compute|]). apply Forall_nil_2.
  - do 2 right. left. by vm_compute.
  - vm_compute. lia.
  - reflexivity.
  - reflexivity.
  - apply Forall_replicate. lia.
  - vm_compute. lia.
  - split; [exact Hcall|]. split; [exact Hqueue|]. apply Hread. apply (bool_decide_unpack _). vm_compute. exact I.
Defined.
